(* ===== verification/_CoqProject ===== *)
-Q . S2P
Prelude.v
PyStr.v
PyKey.v
IpAddr.v
IpAddrFacts.v
IpCollapse.v
NetworkContract.v
RulesCompile.v
RulesManualFacts.v
RulesLargeList.v
RulesEffective.v
PyVal.v
PyState.v
PyTime.v
AutoPool.v
SelectorCandidates.v
SelectorRank.v
SelectorRankFacts.v
SelectionFence.v
SelectionFenceFacts.v
FenceSession.v
SelectorDeps.v
SelectorFlow.v
SelectorFlowFacts.v
SelectorGuard.v
SelectorRestore.v
SelectorSample.v
Jobs.v
JobInvariant.v
JobLocks.v
JobCreate.v
JobLease.v
JobRun.v
JobRace.v
WatchdogState.v
WatchdogFailure.v
WatchdogFacts.v
WatchdogLiveness.v
SubjectTaxonomy.v
WatchdogSignal.v
DockerPolicy.v
DockerPolicyFacts.v
ScopedEgress.v
ScopedReadiness.v
ScopedFacts.v
Nft.v
NftSets.v
NftChains.v
NftGuards.v
DataplaneRules.v
NftRender.v
NftText.v
NftClosed.v
NftSteer.v
DataplaneRulesFacts.v
NftPolicy.v
NftGuardFacts.v
DataplanePreflight.v
DataplanePreflightFacts.v
SubjectPolicy.v
WatchdogDeps.v
WatchdogStallFlow.v
WatchdogQualityFlow.v
WatchdogManualFlow.v
WatchdogAutoFlow.v
WatchdogRequests.v
WatchdogFlowFacts.v
WatchdogFlowLimits.v
WatchdogFlowSample.v
RoutingManifest.v
SubjectPolicyFacts.v
ManifestFacts.v
ManifestGuardFacts.v
ManifestListenerFacts.v
ManifestWitness.v
PendingState.v
PendingFacts.v
PendingInvariant.v
GlobalMode.v
GlobalModeFacts.v
