(* ===== verification/Prelude.v ===== *)
(** * FWRouter control plane: a verification library

    FWRouter routes the traffic of a network's clients, directly or through
    a VPN, with nftables.  Its control plane (src/backend/fwrouter_api) is
    Python: it compiles the administrator's rules, decides which subject
    (LAN client, external client, Docker container, host) takes which path,
    writes a manifest of that, renders the firewall from the manifest, runs
    its changes as jobs that commit the global routing, a selector keeps the
    VPN on the best server of a pool, what an intent changed is brought to
    Xray once it is due, and a watchdog moves the VPN to another server when
    the current one fails.  This library models the decisions of that plane
    as executable definitions that follow the source function by function,
    and proves what makes them correct.

    ** Parts and files

    The language and its standard library:
    - [Prelude]: tactics, hint databases, Python's stable sort.
    - [PyStr], [PyVal], [PyTime]: strings, the values of JSON-like
      dictionaries with their JSON text and the state and error monad [st],
      UTC datetimes.  [PyState]: reasoning about [st]: runs taken apart, and
      [moves R m], a computation that relates the states before and after,
      pre- and postconditions, budgets.  [PyKey]: sort keys.
    - [IpAddr], [IpAddrFacts], [IpCollapse]: the module ipaddress.

    Rules (services/network_contract.py, services/rules_compile.py):
    - [NetworkContract]: the settings are a typeclass [Settings].
    - [RulesCompile], [RulesManualFacts]: a manual rule text;
      [RulesLargeList]: a value list with its minimisation;
      [RulesEffective]: the merged rules.
    - [DataplaneRules], [DataplaneRulesFacts]: the first part of
      services/dataplane_global.py, from rules to elements of nft sets.

    Subjects:
    - [SubjectTaxonomy]: services/external_provider_registry.py,
      services/subject_taxonomy.py, the protected Docker identities of
      services/server_layout.py.
    - [SubjectPolicy], [SubjectPolicyFacts]: services/subject_policy.py with
      its override tables, and the emergency override.
    - [DockerPolicy], [DockerPolicyFacts]: services/docker_policy.py, the
      guard that manifest and renderer run.
    - [ScopedEgress], [ScopedReadiness], [ScopedFacts]:
      services/scoped_egress.py.

    The firewall:
    - [DataplanePreflight], [DataplanePreflightFacts]: the rest of
      services/dataplane_global.py, the preflight and what is reported as
      enforced.
    - [RoutingManifest]: services/routing_manifest.py.  [ManifestFacts],
      [ManifestGuardFacts], [ManifestListenerFacts]; [ManifestWitness] is a
      concrete installation.
    - [Nft]: nft statements, their text and their meaning for a packet.
      [NftSets], [NftChains], [NftGuards], [NftRender]:
      services/dataplane_nft_sets.py, dataplane_nft_chains.py and
      dataplane_nft_render.py; the table is data and its text is printed
      from it.  [NftText], [NftClosed], [NftSteer], [NftPolicy],
      [NftGuardFacts] are about every table rendered.

    The selection of a server:
    - [AutoPool]: services/auto_eligibility.py, the SQL of the pool over the
      inventory tables of db/schema.sql.
    - [SelectorCandidates], [SelectorRank], [SelectorRankFacts]: what
      services/selector.py loads (with get_logical_topologies of
      services/logical_topology.py) and how it ranks it.
    - [SelectionFence], [SelectionFenceFacts]:
      services/vpn_auto_selection_state.py, vpn_auto_exclusive.py and the
      revision of core_intent.py: revision, active server and provenance,
      changed by compare-and-set.
    - [FenceSession]: a process at the selection's database among others, and
      [evolves own], what all its own changes are.
    - [SelectorDeps], [SelectorFlow]: select_vpn_auto_server with the second
      look at its fence, the apply, and the repair after a lost
      compare-and-set; services/management_attribution.py.
      [SelectorRestore]: restore_auto_selection_snapshot.
      [SelectorFlowFacts], [SelectorGuard]: what a selection may do; [SelectorSample]: concrete runs.

    The global routing and what is pending:
    - [PendingState]: services/xray_vpn_auto_pending.py (the row, its marks
      and attempts, the run, the dispatch) and the expiry of a fixed server of
      services/server_state.py.  [PendingFacts]: its times and its attempts;
      [PendingInvariant]: the row's shape, expiry, what is applied.
    - [GlobalMode]: the global half of the apply orchestrator, services/
      apply_orchestrator_global_handlers.py with its commits, results, drift
      and dispatch, and the settling of services/core_intent.py.
      [GlobalModeFacts]: what a run commits, refuses and reports.

    Jobs (services/jobs.py, jobs/base.py, jobs/manager.py):
    - [Jobs]: the table, its operations, the runner.
      [JobInvariant]: every interleaving; [JobLocks], [JobCreate],
      [JobLease], [JobRun]: undisturbed calls; [JobRace]: races and samples.

    The watchdog:
    - [WatchdogState]: services/watchdog_runtime_state.py, one SQLite row.
      [WatchdogFailure]: services/watchdog_failure_state.py over it.
      [WatchdogSignal]: services/watchdog_traffic_signal.py and the latency
      rule.  Facts in [WatchdogFacts] and [WatchdogLiveness].
    - [WatchdogDeps]: services/watchdog_flow_deps.py and the wrappers of
      services/watchdog.py.  [WatchdogStallFlow], [WatchdogQualityFlow],
      [WatchdogManualFlow], [WatchdogAutoFlow]: the four flow modules
      services/watchdog_auto_stall_flow.py,
      watchdog_auto_active_quality_flow.py, watchdog_manual_flow.py,
      watchdog_auto_flow.py.  [WatchdogRequests], [WatchdogFlowFacts],
      [WatchdogFlowLimits]: what a run may ask of the runtime;
      [WatchdogFlowSample]: concrete runs.

    ** How the parts interact

    The protected networks of the network contract are what the rules
    compilation refuses to send to the VPN and what the first rules of the
    table send directly.  The effective rules become sets of addresses.  The
    preflight says whether VPN traffic can be handed off; the renderer takes
    the marks and the readiness from it.  The subject policy gives each
    subject a mode and a path; scoped egress says whether that is applied;
    the manifest builder writes both down, after the Docker guard has
    compared the sources, and the renderer runs the same guard on what it
    reads.  Theorems over [owned_table] compose with those over the manifest:
    an emergency, the core bypass or a disabled subject is followed from the
    state to the verdict on a packet.  Jobs are a table that several
    processes share.  The pool decides the selector's candidates; the
    selector persists its choice through the fence, so that two selections
    and a changed exclusive source exclude each other.  The expiry of a fixed
    server and a change of the server mode advance the same revision, in the
    transaction that changes the routing row; the expiry also marks what is
    pending.  A pending workflow of a fixed server keeps the global handlers
    out, which commit only under the Core intent they read when they began
    and for the apply that their own run of the pipeline returned.  The
    traffic signal feeds the watchdog's confirmations,
    these the flows, and the flows ask a runtime controller to switch.

    ** Conventions

    A definition has the name of the function it models; a loop body, a
    comprehension or a branch that is a definition of its own is named after
    what it does.  [option] in the role of [py A] is a raised exception.  A
    Python dict is an association list in insertion order where the code
    passes it on, a stdpp map or set where only membership counts.  Strings
    are the bytes of their UTF-8 text: case folding covers ASCII and
    Cyrillic, white space is ASCII.  Floats do not occur in what is modelled,
    except the selector's quotients, which are kept as fractions;
    strftime is modelled for years from 1000 on.

    Shared state: every SQLite access of the watchdog, the jobs, the
    selector, the pending row and the global handlers is a step before which
    any number of other writers may have acted ([w_turns] holds what they do
    and whether the access itself raises), so theorems over a world hold for
    every interleaving.  [FenceSession] says which changes a service makes
    itself, and relates them to what it has been told since it began
    ([proceeds], [told]).  A transaction is one step from
    its first write on, as sqlite3 begins one there; CHECK constraints and
    the unique index of db/schema.sql are part of the step.  Rows that ORDER
    BY leaves tied keep the order of the table.  Theorems on undisturbed
    calls say so.

    nft: a rule's statements run from left to right until a match fails; a
    jump returns, a goto does not, an accept ends the hook.  [Nft] states
    this once and every theorem on packets uses it.

    What is not code of the repository, or code left out, is a parameter:
    [str] of a container ([ReprContainer]), the IDNA codec, digests, the
    settings ([Settings], [NftSettings], [JobSettings], [WatchdogSettings]),
    files and probes ([RuleSources], [LanHosts], [preflight_inputs],
    [policy_env], the bindings file), uuid5 ([TerminalIds], injective where
    a theorem says so), the clock.  For the watchdog's flows it is one class
    [Outside], for the selector [SelectorOutside], for what is pending and the
    global handlers [PendingOutside]: its answers are arbitrary functions of
    the list of everything asked so far, which is the trace the theorems
    speak about.

    Fuel: [IpAddr] needs 2n steps to merge n networks, k networks for a range
    of k addresses, 128 trailing zero bits ([collapse_addresses_spec]);
    printing in base 16 as many steps as there are digits; [run_chain] three
    levels of calls, enough for every rendered table ([table_terminates]);
    [get_routing_global_state] calls itself after an expiry and takes Python's
    recursion limit as an argument, theorems hold for any.

    ** What the theorems show

    - Rules: what a manual rule text and a value list are compiled to, on
      every branch; no rule for the VPN overlaps a protected network; the
      minimised list selects what its lines select; the first source wins;
      the nft sets hold exactly the addresses of the rules.
    - Table: closed and terminating; a packet's verdict is that of a reference
      classification; protected destinations go directly, a VPN subject is
      handed to its listener, a degraded selective policy drops, a disabled
      subject's listener is closed; sets are read back from the text.
    - Manifest: under an emergency no packet goes to the VPN; the bypass
      changes nothing; the builder's guard and the renderer's agree; policy
      routing is asked for exactly when something uses it.
    - Subjects: an accepted mode takes effect, overrides expire exactly;
      applied is sound; accepted Docker sources decide the VPN subject.
    - Preflight: readiness and enforcement exactly characterised.
    - Jobs: unique ids and locks, every terminal row has its snapshot, under
      every interleaving; creation respects locks, a dead job's lock goes to
      the next, runs end; two races and what a reported job blocks.
    - Selection: SQL and Python agree on the pool, and what is loaded passes
      the guard; the choice is the least weighted latency and independent of
      the order; the commit refines a compare-and-set, and of two selections
      from one revision one is persisted, in every interleaving; a run
      changes the runtime at most once, a dry run not at all, and under the
      guard only on evidence that still holds; what is reported is what is
      persisted; a restore writes only over the selection its snapshot
      records; evidence in two formats stops a run that probes.
    - Pending: a run settles only the revision it began with, the row keeps
      its shape under every interleaving, a timestamp is read back as the time
      that was written, a mark and a failure come due when they say; what is
      due gets applied; an interrupted retry of a deferral is never dispatched
      again; a fixed server expires when its time has passed, in one change
      with revision and mark.
    - Global routing: a mode is committed only for the Core intent its run
      read and the apply its run was given, in every interleaving; success means the mode is in
      force; a pending workflow refuses the others.
    - Watchdog: the automatic check switches only when module, bypass, mode,
      emergency, convergence, readiness and fresh unanswered traffic allow;
      a stalled run not during a cooldown it can read, a manual selection or
      a dry run;
      at most one switch a run, applied failovers are spaced; answered
      traffic triggers nothing; the plain check follows none of this.  The
      compare-and-set of the pending recovery replaces exactly the row it
      compared.

    ** Not modelled

    Keys of the artifacts that only inform (generated_at, priority texts),
    the audit pipeline behind the snapshots (services/events.py), and the
    threads of the job manager and the schedulers.  The runtime controllers
    (services/vpn_runtime_control.py) and services/provider_recovery.py
    behind the watchdog drive a third-party process; they are answers of
    [Outside].  Of the selector, the result keys candidate_scores and
    priority_override (floats), the state view and the replay at start-up; of
    the apply orchestrator, the handlers of subjects and rules, the pipeline
    itself and the details of failure results; services/server_global_selection.py, the subscription
    parsers, the configuration of Mihomo and Xray, HTTP routes and read models
    are outside this library: they drive processes, files and the network.
    Next: the subject handlers of services/apply_orchestrator_subject_handlers.py
    over the override tables of [SubjectPolicy]. *)
From stdpp Require Import base list strings gmap sorting.
From Stdlib Require Import ZArith Lia.

(** ** Hint databases of the development *)
Create HintDb fwr.
Create HintDb pystr.

(** ** Tactics *)

(** Split the conjunctions of the context and the goal. *)
Ltac split_all :=
  repeat match goal with
         | H : _ /\ _ |- _ => destruct H
         | |- _ /\ _ => split
         end.

(** Case on the boolean or option test that blocks the goal, keeping its equation. *)
Ltac case_on E :=
  match goal with
  | |- context [if ?b then _ else _] => destruct b eqn:E
  | |- context [match ?o with Some _ => _ | None => _ end] => destruct o eqn:E
  end.

(** The same in a hypothesis. *)
Ltac case_in H E :=
  match type of H with
  | context [if ?b then _ else _] => destruct b eqn:E
  | context [match ?o with Some _ => _ | None => _ end] => destruct o eqn:E
  end.

(** Turn boolean equations of the context into propositions. *)
Ltac bool_simpl :=
  repeat match goal with
         | H : orb _ _ = false |- _ => apply orb_false_elim in H as [??]
         | H : andb _ _ = true |- _ => apply andb_prop in H as [??]
         | H : negb _ = true |- _ => apply negb_true_iff in H
         | H : negb _ = false |- _ => apply negb_false_iff in H
         | H : bool_decide _ = true |- _ => apply bool_decide_eq_true in H
         | H : bool_decide _ = false |- _ => apply bool_decide_eq_false in H
         end.

(** ** Stable sorting: Python's [sorted] *)
Section Sorting.
Context {A : Type} (leb : A -> A -> bool).

Fixpoint insert_by (x : A) (sorted : list A) : list A :=
  match sorted with
  | y :: rest => if leb x y then x :: sorted else y :: insert_by x rest
  | [] => [x]
  end.

Fixpoint sort_by (items : list A) : list A :=
  match items with
  | first :: rest => insert_by first (sort_by rest)
  | [] => []
  end.

Lemma insert_by_perm x l : insert_by x l ≡ₚ x :: l.
Proof.
  induction l as [|y l IH]; simpl; [done|].
  destruct (leb x y); [done|]. rewrite IH. apply Permutation_swap.
Qed.

Lemma sort_by_perm l : sort_by l ≡ₚ l.
Proof. induction l as [|x l IH]; simpl; [done|]. by rewrite insert_by_perm, IH. Qed.

Lemma elem_of_sort_by x l : x ∈ sort_by l <-> x ∈ l.
Proof. by rewrite sort_by_perm. Qed.

Context (leb_total : forall x y, leb x y = true \/ leb y x = true)
        (leb_trans : forall a b c, leb a b = true -> leb b c = true -> leb a c = true).

Lemma insert_by_sorted x l :
  StronglySorted (fun a b => leb a b = true) l ->
  StronglySorted (fun a b => leb a b = true) (insert_by x l).
Proof.
  induction 1 as [|y l Hs IH Hall]; simpl; [repeat constructor|].
  destruct (leb x y) eqn:E.
  - constructor; [by constructor|]. constructor; [done|].
    eapply Forall_impl; [exact Hall|]. simpl. eauto.
  - constructor; [done|]. rewrite insert_by_perm. constructor; [|done].
    destruct (leb_total x y); congruence.
Qed.

Lemma sort_by_sorted l : StronglySorted (fun a b => leb a b = true) (sort_by l).
Proof. induction l; simpl; [constructor|]. by apply insert_by_sorted. Qed.
End Sorting.

#[export] Hint Resolve elem_of_sort_by : fwr.
