(* ===== verification/PyStr.v ===== *)
(** * Python strings

    The [str] operations the modelled code uses, on Rocq's [string].  A
    character is one byte of the UTF-8 encoding.  Byte order on UTF-8 strings
    is code point order, so comparisons agree with Python's; [py_len] counts
    code points.  Case mapping covers ASCII and the Cyrillic letters U+0400 to
    U+045F (the rule grammar has Cyrillic aliases); white space is the ASCII
    white space of [str.isspace].  Other code points are left unchanged by
    the case maps, and never stripped. *)
From stdpp Require Import base list strings pretty sorting.
From Stdlib Require Import ZArith Lia Ascii.
From S2P Require Import Prelude.

Open Scope string_scope.

(** ** Characters *)

Definition code (c : ascii) : N := N_of_ascii c.

Definition is_space (c : ascii) : bool :=
  let n := code c in
  ((9 <=? n) && (n <=? 13) || (28 <=? n) && (n <=? 32))%N.

Definition is_digit (c : ascii) : bool :=
  let n := code c in ((48 <=? n) && (n <=? 57))%N.

Definition is_lower_alpha (c : ascii) : bool :=
  let n := code c in ((97 <=? n) && (n <=? 122))%N.

Definition is_upper_alpha (c : ascii) : bool :=
  let n := code c in ((65 <=? n) && (n <=? 90))%N.

(** A byte below 128: an ASCII code point. *)
Definition is_ascii (c : ascii) : bool := (code c <? 128)%N.

(** ** Generic scans *)

Fixpoint all_chars (p : ascii -> bool) (s : string) : bool :=
  match s with
  | "" => true
  | String c s' => p c && all_chars p s'
  end.

Fixpoint any_char (p : ascii -> bool) (s : string) : bool :=
  match s with
  | "" => false
  | String c s' => p c || any_char p s'
  end.

(** [c in s] for a one-character [c]. *)
Definition has_char (c : ascii) (s : string) : bool := any_char (Ascii.eqb c) s.

Fixpoint count_char (c : ascii) (s : string) : nat :=
  match s with
  | "" => 0
  | String d s' => (if Ascii.eqb c d then 1 else 0) + count_char c s'
  end.

(** [s.isdigit()] on ASCII text. *)
Definition py_isdigit (s : string) : bool := negb (String.eqb s "") && all_chars is_digit s.

Definition py_isascii (s : string) : bool := all_chars is_ascii s.

(** [len(s)]: bytes that do not continue a UTF-8 sequence. *)
Fixpoint py_len (s : string) : nat :=
  match s with
  | "" => 0
  | String c s' =>
      (if (N.land (code c) 192 =? 128)%N then 0 else 1) + py_len s'
  end.

(** ** Stripping *)

Fixpoint lstrip_by (p : ascii -> bool) (s : string) : string :=
  match s with
  | "" => ""
  | String c s' => if p c then lstrip_by p s' else s
  end.

Fixpoint rstrip_by (p : ascii -> bool) (s : string) : string :=
  match s with
  | "" => ""
  | String c s' =>
      match rstrip_by p s' with
      | "" => if p c then "" else String c ""
      | r => String c r
      end
  end.

Definition py_strip (s : string) : string := rstrip_by is_space (lstrip_by is_space s).
Definition py_lstrip_char (c : ascii) (s : string) : string := lstrip_by (Ascii.eqb c) s.
Definition py_rstrip_char (c : ascii) (s : string) : string := rstrip_by (Ascii.eqb c) s.

(** ** Splitting and joining *)

(** [s.split(c)]: never empty. *)
Fixpoint py_split (sep : ascii) (s : string) : list string :=
  match s with
  | "" => [""]
  | String c s' =>
      if Ascii.eqb sep c then "" :: py_split sep s'
      else match py_split sep s' with
           | w :: ws => String c w :: ws
           | [] => [String c ""]
           end
  end.

(** [s.split()]: maximal runs of non-space characters. *)
Fixpoint py_split_ws_aux (cur : string) (s : string) : list string :=
  match s with
  | "" => match cur with "" => [] | _ => [cur] end
  | String c s' =>
      if is_space c then
        match cur with "" => py_split_ws_aux "" s' | _ => cur :: py_split_ws_aux "" s' end
      else py_split_ws_aux (cur +:+ String c "") s'
  end.

Definition py_split_ws (s : string) : list string := py_split_ws_aux "" s.

(** [s.splitlines()] on ASCII line boundaries: LF, CR, CR LF, VT, FF, FS, GS, RS. *)
Definition is_line_break (c : ascii) : bool :=
  let n := code c in ((10 <=? n) && (n <=? 13) || (28 <=? n) && (n <=? 30))%N.

Fixpoint py_splitlines (s : string) : list string :=
  match s with
  | "" => []
  | String c s' =>
      if is_line_break c then
        "" :: match s' with
              | String d s'' =>
                  if ((code c =? 13) && (code d =? 10))%N then py_splitlines s'' else py_splitlines s'
              | "" => []
              end
      else match s' with
           | "" => [String c ""]
           | _ => match py_splitlines s' with
                  | l :: ls => String c l :: ls
                  | [] => [String c ""]
                  end
           end
  end.

(** [sep.join(parts)]. *)
Fixpoint py_join (sep : string) (parts : list string) : string :=
  match parts with
  | [] => ""
  | [p] => p
  | p :: ps => p +:+ sep +:+ py_join sep ps
  end.

(** ** Case mapping *)

Definition ascii_add (c : ascii) (d : N) : ascii := ascii_of_N (code c + d).
Definition ascii_sub (c : ascii) (d : N) : ascii := ascii_of_N (code c - d).

Definition between (lo hi : N) (c : ascii) : bool := ((lo <=? code c) && (code c <=? hi))%N.

(** [s.lower()]; the two-byte Cyrillic capitals are D0 80..AF. *)
Fixpoint py_lower (s : string) : string :=
  match s with
  | "" => ""
  | String c s' =>
      if is_upper_alpha c then String (ascii_add c 32) (py_lower s')
      else if (code c =? 208)%N then
        match s' with
        | String d s'' =>
            if between 128 143 d then String (ascii_of_N 209) (String (ascii_add d 16) (py_lower s''))
            else if between 144 159 d then String c (String (ascii_add d 32) (py_lower s''))
            else if between 160 175 d then String (ascii_of_N 209) (String (ascii_sub d 32) (py_lower s''))
            else String c (py_lower s')
        | "" => String c ""
        end
      else String c (py_lower s')
  end.

(** [s.upper()]; the two-byte Cyrillic small letters are D0 B0..BF and D1 80..9F. *)
Fixpoint py_upper (s : string) : string :=
  match s with
  | "" => ""
  | String c s' =>
      if is_lower_alpha c then String (ascii_sub c 32) (py_upper s')
      else if (code c =? 208)%N then
        match s' with
        | String d s'' =>
            if between 176 191 d then String c (String (ascii_sub d 32) (py_upper s''))
            else String c (py_upper s')
        | "" => String c ""
        end
      else if (code c =? 209)%N then
        match s' with
        | String d s'' =>
            if between 128 143 d then String (ascii_of_N 208) (String (ascii_add d 32) (py_upper s''))
            else if between 144 159 d then String (ascii_of_N 208) (String (ascii_sub d 16) (py_upper s''))
            else String c (py_upper s')
        | "" => String c ""
        end
      else String c (py_upper s')
  end.

(** ** Prefixes and order *)

Definition py_startswith (s p : string) : bool := String.prefix p s.

Fixpoint py_endswith (s p : string) : bool :=
  String.eqb s p || match s with "" => false | String _ s' => py_endswith s' p end.

(** [s <= t] in code point order. *)
Definition py_leb (s t : string) : bool := String.leb s t.

(** ** Numbers *)

Definition digit_val (c : ascii) : Z := Z.of_N (code c) - 48.

Fixpoint dec_acc (acc : Z) (s : string) : Z :=
  match s with
  | "" => acc
  | String c s' => dec_acc (10 * acc + digit_val c) s'
  end.

(** [int(s)] of a string of ASCII digits; longer than 4300 digits raises. *)
Definition py_int_digits (s : string) : option Z :=
  if py_isdigit s && (String.length s <=? 4300)%nat then Some (dec_acc 0 s) else None.

(** [str(n)]. *)
Definition py_str_int (n : Z) : string := pretty n.

(** ** Characters of UTF-8 texts *)

(** A byte that continues a UTF-8 sequence. *)
Definition is_cont (c : ascii) : bool := between 128 191 c.

Definition starts_cont (s : string) : bool := match s with String c _ => is_cont c | "" => false end.

(** The characters of a string, each as its own string. *)
Fixpoint py_chars (s : string) : list string :=
  match s with
  | "" => []
  | String c s' =>
      let rest := py_chars s' in
      if starts_cont s' then match rest with w :: ws => String c w :: ws | [] => [String c ""] end
      else String c "" :: rest
  end.

(** [s[:n]], by characters. *)
Definition py_prefix (n : nat) (s : string) : string := py_join "" (take n (py_chars s)).

(** ** Python exceptions

    A computation that may raise is an [option]: [None] is a raised
    exception the caller does not catch. *)
Abbreviation py A := (option A).

(** Run a raising function over a list, in order: a comprehension. *)
Fixpoint py_map {A B} (f : A -> py B) (l : list A) : py (list B) :=
  match l with
  | [] => Some []
  | x :: l' => y ← f x; ys ← py_map f l'; Some (y :: ys)
  end.

(** [dict.fromkeys] / the [seen]-set loops: first occurrences, in order. *)
Fixpoint py_dedup (seen l : list string) : list string :=
  match l with
  | [] => []
  | x :: l' =>
      if decide (x ∈ seen) then py_dedup seen l' else x :: py_dedup (x :: seen) l'
  end.

(** [mapping.get(key)] of a constant mapping. *)
Fixpoint assoc_get {V} (key : string) (mapping : list (string * V)) : option V :=
  match mapping with
  | [] => None
  | entry :: rest => if String.eqb key entry.1 then Some entry.2 else assoc_get key rest
  end.

(** ** Lemmas *)

Lemma string_app_cons c s t : String c s +:+ t = String c (s +:+ t).
Proof. reflexivity. Qed.

Lemma string_app_nil_r s : s +:+ "" = s.
Proof. induction s as [|c s IH]; [done|]. rewrite ?string_app_cons. by f_equal. Qed.

Lemma string_app_assoc s t u : (s +:+ t) +:+ u = s +:+ (t +:+ u).
Proof. induction s as [|c s IH]; [done|]. rewrite ?string_app_cons. by f_equal. Qed.

Lemma all_chars_app p s t : all_chars p (s +:+ t) = all_chars p s && all_chars p t.
Proof. induction s as [|c s IH]; [done|]. rewrite ?string_app_cons. simpl. by rewrite IH, andb_assoc. Qed.

Lemma any_char_app p s t : any_char p (s +:+ t) = any_char p s || any_char p t.
Proof. induction s as [|c s IH]; [done|]. rewrite ?string_app_cons. simpl. by rewrite IH, orb_assoc. Qed.

Lemma has_char_app c s t : has_char c (s +:+ t) = has_char c s || has_char c t.
Proof. apply any_char_app. Qed.

Lemma any_char_false_all p s : any_char p s = false <-> all_chars (fun c => negb (p c)) s = true.
Proof.
  induction s as [|c s IH]; simpl; [done|].
  rewrite orb_false_iff, andb_true_iff, negb_true_iff. by rewrite IH.
Qed.

Lemma all_chars_impl (p q : ascii -> bool) s :
  (forall c, p c = true -> q c = true) -> all_chars p s = true -> all_chars q s = true.
Proof.
  intros Hpq. induction s as [|c s IH]; simpl; [done|].
  rewrite !andb_true_iff. intros [Hc Hs]. auto.
Qed.

(** Characters outside a class that contains all of [s] do not occur in it. *)
Lemma all_chars_has_char p s c : all_chars p s = true -> p c = false -> has_char c s = false.
Proof.
  intros Hall Hc. induction s as [|d s IH]; simpl in *; [done|].
  apply andb_prop in Hall as [Hd Hs]. unfold has_char in *. simpl. rewrite IH by done.
  destruct (Ascii.eqb_spec c d); [subst; congruence|done].
Qed.

(** *** Split and join are inverse *)

Lemma py_split_nonempty c s : py_split c s <> [].
Proof. destruct s as [|d s]; simpl; [done|]. destruct (Ascii.eqb c d); [done|]. by destruct (py_split c s). Qed.

Lemma py_split_app_sep c s t :
  has_char c s = false -> py_split c (s +:+ String c t) = s :: py_split c t.
Proof.
  unfold has_char. induction s as [|d s IH]; simpl.
  - intros _. by rewrite Ascii.eqb_refl.
  - intros [Hd Hs]%orb_false_iff. rewrite ?string_app_cons. simpl. rewrite Hd.
    by rewrite (IH Hs).
Qed.

Lemma py_split_no_sep c s : has_char c s = false -> py_split c s = [s].
Proof.
  unfold has_char. induction s as [|d s IH]; simpl; [done|].
  intros [Hd Hs]%orb_false_iff. by rewrite Hd, (IH Hs).
Qed.

Lemma py_join_cons sep p q ps : py_join sep (p :: q :: ps) = p +:+ sep +:+ py_join sep (q :: ps).
Proof. reflexivity. Qed.

Lemma py_split_join c parts :
  parts <> [] -> Forall (fun p => has_char c p = false) parts ->
  py_split c (py_join (String c "") parts) = parts.
Proof.
  intros Hne Hall. induction Hall as [|p ps Hp Hps IH]; [done|].
  destruct ps as [|q ps].
  - simpl. by apply py_split_no_sep.
  - rewrite py_join_cons, ?string_app_cons. rewrite py_split_app_sep by done.
    change ("" +:+ py_join (String c "") (q :: ps)) with (py_join (String c "") (q :: ps)).
    by rewrite IH.
Qed.

Lemma py_join_split c s : py_join (String c "") (py_split c s) = s.
Proof.
  induction s as [|d s IH]; [done|]. simpl.
  destruct (Ascii.eqb_spec c d) as [->|Hne].
  - destruct (py_split d s) as [|w ws] eqn:E; [by apply py_split_nonempty in E|].
    rewrite py_join_cons, ?string_app_cons. by rewrite IH.
  - destruct (py_split c s) as [|w ws] eqn:E; [by apply py_split_nonempty in E|].
    destruct ws as [|w' ws].
    + simpl in *. by rewrite IH.
    + rewrite py_join_cons, ?string_app_cons in *. by rewrite <- IH.
Qed.

Lemma py_split_parts_no_sep c s : Forall (fun p => has_char c p = false) (py_split c s).
Proof.
  unfold has_char.
  induction s as [|d s IH]; simpl; [by repeat constructor|].
  destruct (Ascii.eqb c d) eqn:E; [by constructor|].
  destruct (py_split c s) as [|w ws]; [repeat constructor; simpl; by rewrite E|].
  inversion_clear IH. constructor; [|done]. simpl. by rewrite E.
Qed.

Lemma has_char_join c sep parts :
  has_char c sep = false -> Forall (fun p => has_char c p = false) parts ->
  has_char c (py_join sep parts) = false.
Proof.
  intros Hsep Hall. induction Hall as [|p ps Hp Hps IH]; [done|].
  destruct ps as [|q ps]; [done|].
  rewrite py_join_cons, !has_char_app, Hp, Hsep. done.
Qed.

Lemma all_chars_join p sep parts :
  all_chars p sep = true -> Forall (fun s => all_chars p s = true) parts ->
  all_chars p (py_join sep parts) = true.
Proof.
  intros Hsep Hall. induction Hall as [|x ps Hp Hps IH]; [done|].
  destruct ps as [|q ps]; [done|].
  rewrite py_join_cons, !all_chars_app, Hp, Hsep. done.
Qed.

(** *** Stripping *)

Lemma lstrip_id p s : match s with "" => True | String c _ => p c = false end -> lstrip_by p s = s.
Proof. destruct s; simpl; [done|]. by intros ->. Qed.

Lemma rstrip_id p s : all_chars (fun c => negb (p c)) s = true -> rstrip_by p s = s.
Proof.
  induction s as [|c s IH]; simpl; [done|].
  rewrite andb_true_iff, negb_true_iff. intros [Hc Hs]. rewrite (IH Hs).
  destruct s; [by rewrite Hc|done].
Qed.

(** A string without spaces is its own strip. *)
Definition no_space (s : string) : bool := all_chars (fun c => negb (is_space c)) s.

Lemma py_strip_no_space s : no_space s = true -> py_strip s = s.
Proof.
  unfold no_space, py_strip. intros Hs. rewrite lstrip_id; [by apply rstrip_id|].
  destruct s; [done|]. simpl in Hs. apply andb_prop in Hs as [Hc _]. by apply negb_true_iff.
Qed.

Lemma lstrip_by_all p q s : all_chars q s = true -> all_chars q (lstrip_by p s) = true.
Proof.
  induction s as [|c s IH]; simpl; [done|]. rewrite andb_true_iff. intros [Hc Hs].
  destruct (p c); [auto|]. simpl. by rewrite Hc.
Qed.

Lemma rstrip_by_all p q s : all_chars q s = true -> all_chars q (rstrip_by p s) = true.
Proof.
  induction s as [|c s IH]; simpl; [done|]. rewrite andb_true_iff. intros [Hc Hs].
  specialize (IH Hs). destruct (rstrip_by p s).
  - destruct (p c); [done|]. simpl. by rewrite Hc.
  - simpl in *. by rewrite Hc.
Qed.

Lemma rstrip_by_idem p s : rstrip_by p (rstrip_by p s) = rstrip_by p s.
Proof.
  induction s as [|c s IH]; simpl; [done|].
  destruct (rstrip_by p s) as [|d r] eqn:E.
  - destruct (p c) eqn:Ec; [done|]. simpl. by rewrite Ec.
  - simpl in *. by rewrite IH.
Qed.

Lemma py_split_ws_aux_word cur w :
  no_space w = true ->
  py_split_ws_aux cur w = match cur +:+ w with "" => [] | s => [s] end.
Proof.
  revert cur. unfold no_space. induction w as [|c w IH]; intros cur; simpl.
  - intros _. rewrite string_app_nil_r. by destruct cur.
  - rewrite andb_true_iff, negb_true_iff. intros [Hc Hw]. rewrite Hc, IH by done.
    by rewrite string_app_assoc.
Qed.

Lemma py_split_ws_aux_sep cur w t :
  no_space w = true -> cur +:+ w <> "" ->
  py_split_ws_aux cur (w +:+ String " " t) = (cur +:+ w) :: py_split_ws_aux "" t.
Proof.
  revert cur. unfold no_space. induction w as [|c w IH]; intros cur; simpl.
  - intros _ Hne. rewrite string_app_nil_r in *. by destruct cur.
  - rewrite andb_true_iff, negb_true_iff. intros [Hc Hw] Hne.
    rewrite ?string_app_cons. simpl. rewrite Hc, IH; try done.
    + by rewrite string_app_assoc.
    + rewrite string_app_assoc. by destruct cur.
Qed.

(** Two words separated by a space split into the two words. *)
Lemma py_split_ws_two a b :
  no_space a = true -> no_space b = true -> a <> "" -> b <> "" ->
  py_split_ws (a +:+ " " +:+ b) = [a; b].
Proof.
  intros Ha Hb Hane Hbne. unfold py_split_ws.
  change (" " +:+ b) with (String " " b).
  rewrite py_split_ws_aux_sep by (simpl; done). f_equal.
  rewrite py_split_ws_aux_word by done. by destruct b.
Qed.

Lemma rstrip_by_app p s t :
  all_chars (fun c => negb (p c)) t = true -> t <> "" -> rstrip_by p (s +:+ t) = s +:+ t.
Proof.
  intros Ht Hne. induction s as [|c s IH]; simpl; [by apply rstrip_id|].
  rewrite IH. destruct s; simpl; [|done]. by destruct t.
Qed.

Lemma lstrip_by_app p s t :
  all_chars (fun c => negb (p c)) s = true -> s <> "" -> lstrip_by p (s +:+ t) = s +:+ t.
Proof.
  destruct s as [|c s]; [done|]. simpl. rewrite andb_true_iff, negb_true_iff. by intros [-> _].
Qed.

(** Text between two space-free ends is its own strip. *)
Lemma py_strip_ends s m t :
  no_space s = true -> no_space t = true -> s <> "" -> t <> "" ->
  py_strip (s +:+ m +:+ t) = s +:+ m +:+ t.
Proof.
  intros Hs Ht Hsne Htne. unfold py_strip. rewrite lstrip_by_app by done.
  rewrite <- string_app_assoc. by apply rstrip_by_app.
Qed.

(** Visible characters are not spaces. *)
Lemma is_space_visible c : (33 <= code c)%N -> is_space c = false.
Proof.
  intros H. unfold is_space. cbv zeta.
  destruct (N.leb_spec (code c) 13), (N.leb_spec (code c) 32); lia.
Qed.

Lemma is_digit_code c : is_digit c = true <-> (48 <= code c <= 57)%N.
Proof. unfold is_digit. cbv zeta. rewrite andb_true_iff, !N.leb_le. done. Qed.

Lemma is_digit_not_space c : is_digit c = true -> is_space c = false.
Proof. intros H%is_digit_code. apply is_space_visible. lia. Qed.

(** ** Parts of a string have its characters *)

Lemma py_split_all p c s : all_chars p s = true -> Forall (fun w => all_chars p w = true) (py_split c s).
Proof.
  induction s as [|d s IH]; intros Hs; [by constructor|]. cbn [all_chars] in Hs. apply andb_prop in Hs as [Hd Hs].
  specialize (IH Hs). cbn [py_split]. destruct (Ascii.eqb c d); [by constructor|].
  destruct (py_split c s) as [|w ws]; [constructor; [|done]; cbn; by rewrite Hd|].
  inversion IH; subst. constructor; [|done]. cbn [all_chars]. rewrite Hd. done.
Qed.

Lemma py_splitlines_all_fuel p n : forall s, (String.length s <= n)%nat -> all_chars p s = true ->
  Forall (fun w => all_chars p w = true) (py_splitlines s).
Proof.
  induction n as [|n IH]; intros [|c s] Hn Hs; cbn [String.length] in Hn; try lia; [by constructor..|].
  cbn [all_chars] in Hs. apply andb_prop in Hs as [Hc Hs]. cbn [py_splitlines].
  destruct s as [|d s].
  - destruct (is_line_break c); [by repeat constructor|]. constructor; [|done]. cbn [all_chars]. by rewrite Hc.
  - pose proof Hs as Hs'. cbn [all_chars] in Hs'. apply andb_prop in Hs' as [Hd Hs'].
    cbn [String.length] in Hn. pose proof (IH (String d s) ltac:(cbn [String.length]; lia) Hs) as Hds.
    destruct (is_line_break c).
    + constructor; [done|]. destruct (_ && _); [|exact Hds]. apply IH; [lia|done].
    + destruct (py_splitlines (String d s)) as [|l ls]; [constructor; [|done]; cbn [all_chars]; by rewrite Hc|].
      inversion Hds; subst. constructor; [|done]. cbn [all_chars]. rewrite Hc. done.
Qed.

Lemma py_splitlines_all p s : all_chars p s = true -> Forall (fun w => all_chars p w = true) (py_splitlines s).
Proof. by apply (py_splitlines_all_fuel p (String.length s)). Qed.

Lemma py_strip_all p s : all_chars p s = true -> all_chars p (py_strip s) = true.
Proof. intros Hs. unfold py_strip. by apply rstrip_by_all, lstrip_by_all. Qed.

(** ** Comparison of strings is a total order *)

Lemma py_leb_total s t : py_leb s t = true \/ py_leb t s = true.
Proof. unfold py_leb. destruct (String.leb s t) eqn:E; [by left|]. destruct (String.leb_total s t); [congruence|by right]. Qed.

Lemma ascii_compare_spec a b : Ascii.compare a b = (code a ?= code b)%N.
Proof. reflexivity. Qed.

Lemma py_leb_cons a s b t : py_leb (String a s) (String b t) = true <->
  (code a < code b)%N \/ (code a = code b /\ py_leb s t = true).
Proof.
  unfold py_leb, String.leb. cbn [String.compare]. rewrite ascii_compare_spec.
  destruct (N.compare_spec (code a) (code b)) as [E|E|E].
  - split; [by right|]. intros [?|[_ ?]]; [lia|done].
  - split; [by left|done].
  - split; [done|]. intros [?|[? _]]; lia.
Qed.

Lemma py_leb_trans s t u : py_leb s t = true -> py_leb t u = true -> py_leb s u = true.
Proof.
  revert t u. induction s as [|a s IH]; intros [|b t] [|c u]; try done.
  rewrite !py_leb_cons. intros [?|[? ?]] [?|[? ?]]; [left; lia..|]. right. split; [congruence|eauto].
Qed.
