(* ===== verification/PyKey.v ===== *)
(** * Sort keys

    The key of [sorted(items, key=...)] is a tuple; tuples compare by their
    first difference.  A component is a number or a string; a quotient of an
    int by a positive int stands for itself.  Tuples of one sort have the
    same shape, so that a number never meets a string. *)
From stdpp Require Import base list strings sorting.
From Stdlib Require Import ZArith Lia.
From S2P Require Import Prelude PyStr.

Open Scope Z_scope.

(** [KNum n d] is n / d. *)
Inductive component := KNum (n : Z) (d : positive) | KText (s : string).

Definition key := list component.

Definition KInt (n : Z) : component := KNum n 1.

(** [a <= b] and [a == b]. *)
Definition component_leb (a b : component) : bool :=
  match a, b with
  | KNum n d, KNum n' d' => n * Z.pos d' <=? n' * Z.pos d
  | KText s, KText t => py_leb s t
  | KNum _ _, KText _ => true
  | KText _, KNum _ _ => false
  end.

Definition component_eqb (a b : component) : bool := component_leb a b && component_leb b a.

Fixpoint key_le (a b : key) : bool :=
  match a, b with
  | [], _ => true
  | _ :: _, [] => false
  | x :: a', y :: b' => if component_eqb x y then key_le a' b' else component_leb x y
  end.

(** [sorted(items, key=f)]. *)
Definition sort_on {A} (f : A -> key) (items : list A) : list A := sort_by (fun x y => key_le (f x) (f y)) items.

(** [sorted(items, key=f)[0] if items else None]. *)
Definition first_on {A} (f : A -> key) (items : list A) : option A := head (sort_on f items).

(** ** The order *)

Lemma py_leb_antisym s t : py_leb s t = true -> py_leb t s = true -> s = t.
Proof.
  unfold py_leb, String.leb. rewrite String.compare_antisym. destruct (String.compare t s) eqn:E; try done.
  intros _ _. symmetry. by apply String.compare_eq_iff.
Qed.

Lemma component_total a b : component_leb a b = true \/ component_leb b a = true.
Proof.
  destruct a as [n d|s], b as [n' d'|t]; cbn [component_leb]; auto using py_leb_total.
  rewrite !Z.leb_le. lia.
Qed.

Lemma component_trans a b c : component_leb a b = true -> component_leb b c = true -> component_leb a c = true.
Proof.
  destruct a as [n d|s], b as [n' d'|t], c as [n'' d''|u]; cbn [component_leb]; try done; [|apply py_leb_trans].
  rewrite !Z.leb_le. nia.
Qed.

Lemma component_eqb_spec a b : component_eqb a b = true <-> component_leb a b = true /\ component_leb b a = true.
Proof. apply andb_true_iff. Qed.

Lemma component_eqb_sym a b : component_eqb a b = component_eqb b a.
Proof. apply andb_comm. Qed.

Lemma component_eqb_trans a b c : component_eqb a b = true -> component_eqb b c = true -> component_eqb a c = true.
Proof. rewrite !component_eqb_spec. intros [] []. split; eapply component_trans; eauto. Qed.

(** Strictly below stays so along equal components. *)
Lemma component_lt_eq a b c : component_eqb a b = true -> component_eqb b c = false -> component_eqb a c = false.
Proof.
  intros Hab Hbc. destruct (component_eqb a c) eqn:Hac; [|done]. rewrite component_eqb_sym in Hab.
  by rewrite (component_eqb_trans b a c Hab Hac) in Hbc.
Qed.

Lemma component_text s t : component_eqb (KText s) (KText t) = true -> s = t.
Proof. rewrite component_eqb_spec. cbn [component_leb]. intros []. by apply py_leb_antisym. Qed.

Lemma component_int n m : component_eqb (KInt n) (KInt m) = true -> n = m.
Proof. rewrite component_eqb_spec. cbn [component_leb KInt]. rewrite !Z.leb_le. lia. Qed.

Lemma key_le_refl a : key_le a a = true.
Proof.
  induction a as [|x a IH]; [done|]. cbn [key_le]. unfold component_eqb.
  destruct (component_total x x) as [E|E]; by rewrite E.
Qed.

Lemma key_le_total a b : key_le a b = true \/ key_le b a = true.
Proof.
  revert b; induction a as [|x a IH]; intros [|y b]; cbn [key_le]; auto.
  rewrite (component_eqb_sym y x). destruct (component_eqb x y); [apply IH|apply component_total].
Qed.

Lemma key_le_trans a b c : key_le a b = true -> key_le b c = true -> key_le a c = true.
Proof.
  revert b c; induction a as [|x a IH]; intros [|y b] [|z c]; cbn [key_le]; try done.
  destruct (component_eqb x y) eqn:Exy, (component_eqb y z) eqn:Eyz; intros Hxy Hyz.
  - rewrite (component_eqb_trans _ _ _ Exy Eyz). eauto.
  - rewrite (component_lt_eq _ _ _ Exy Eyz). apply component_eqb_spec in Exy as []. eauto using component_trans.
  - rewrite component_eqb_sym in Eyz. rewrite component_eqb_sym in Exy.
    rewrite component_eqb_sym, (component_lt_eq _ _ _ Eyz Exy). apply component_eqb_spec in Eyz as []. eauto using component_trans.
  - destruct (component_eqb x z) eqn:Exz; [|eauto using component_trans].
    apply component_eqb_spec in Exz as [_ Hzx].
    unfold component_eqb in Exy. rewrite Hxy in Exy. cbn in Exy.
    by rewrite (component_trans y z x Hyz Hzx) in Exy.
Qed.

(** Equal keys have equal components. *)
Definition key_eq (a b : key) : Prop := Forall2 (fun x y => component_eqb x y = true) a b.

Lemma key_le_antisym a b : key_le a b = true -> key_le b a = true -> key_eq a b.
Proof.
  revert b; induction a as [|x a IH]; intros [|y b]; cbn [key_le]; try done; [by constructor|].
  rewrite (component_eqb_sym y x). destruct (component_eqb x y) eqn:E; intros H1 H2; [constructor; auto; by apply IH|].
  unfold component_eqb in E. by rewrite H1, H2 in E.
Qed.

(** ** The first of a sort *)

Section First.
Context {A : Type} (f : A -> key).

Lemma sort_on_perm items : sort_on f items ≡ₚ items.
Proof. apply sort_by_perm. Qed.

Lemma elem_of_sort_on x items : x ∈ sort_on f items <-> x ∈ items.
Proof. by rewrite sort_on_perm. Qed.

Lemma sort_on_sorted items : StronglySorted (fun x y => key_le (f x) (f y) = true) (sort_on f items).
Proof.
  apply sort_by_sorted; [intros x y; apply key_le_total|intros a b c; apply key_le_trans].
Qed.

Lemma first_on_none items : first_on f items = None <-> items = [].
Proof.
  unfold first_on. split; [|by intros ->]. destruct (sort_on f items) eqn:E; [|done]. intros _.
  apply Permutation_nil. by rewrite <- E, sort_on_perm.
Qed.

(** It is an item, and no item's key is smaller. *)
Lemma first_on_least items x : first_on f items = Some x ->
  x ∈ items /\ forall y, y ∈ items -> key_le (f x) (f y) = true.
Proof.
  unfold first_on. pose proof (sort_on_sorted items) as Hs. destruct (sort_on f items) as [|z l] eqn:E; [done|].
  intros [= ->]. assert (Hin : forall y, y ∈ items <-> y ∈ x :: l) by (intros y; by rewrite <- E, elem_of_sort_on).
  split; [apply Hin; left|]. intros y Hy. apply Hin, elem_of_cons in Hy as [->|Hy]; [apply key_le_refl|].
  inversion Hs as [|? ? _ Hall]; subst. rewrite Forall_forall in Hall. auto.
Qed.

(** Where equal keys belong to one item, it is the only such item. *)
Lemma first_on_unique items x y : (forall a b, a ∈ items -> b ∈ items -> key_eq (f a) (f b) -> a = b) ->
  first_on f items = Some x -> y ∈ items -> (forall z, z ∈ items -> key_le (f y) (f z) = true) -> y = x.
Proof.
  intros Hinj Hx Hy Hleast. apply first_on_least in Hx as [Hin Hx]. apply Hinj; auto using key_le_antisym.
Qed.

(** The order of the items does not matter then. *)
Lemma first_on_perm items items' : (forall a b, a ∈ items -> b ∈ items -> key_eq (f a) (f b) -> a = b) ->
  items ≡ₚ items' -> first_on f items = first_on f items'.
Proof.
  intros Hinj Hp. destruct (first_on f items) as [x|] eqn:E, (first_on f items') as [y|] eqn:E'; [|..|done].
  - apply first_on_least in E' as [Hy Hleast]. f_equal. symmetry. apply (first_on_unique items); [done|done|by rewrite Hp|].
    intros z Hz. apply Hleast. by rewrite <- Hp.
  - apply first_on_none in E'. subst. apply Permutation_nil_r in Hp. by subst.
  - apply first_on_none in E. subst. apply Permutation_nil_l in Hp. by subst.
Qed.
End First.
