(* ===== verification/IpAddr.v ===== *)
(** * The [ipaddress] module of Python's standard library

    Addresses and networks of both versions as the code uses them: parsing
    ([ip_address], [ip_network] with [strict=False]), printing, membership,
    [overlaps] and [collapse_addresses].  An address is its integer, its
    version and its RFC 4007 scope (the empty string when there is none). *)
From stdpp Require Import base list strings pretty sorting.
From Stdlib Require Import ZArith Lia Ascii.
From S2P Require Import Prelude PyStr.

Open Scope string_scope.
Open Scope Z_scope.
Open Scope list_scope.

(** ** Data *)

Inductive ipver := V4 | V6.

#[export] Instance ipver_eq_dec : EqDecision ipver.
Proof. solve_decision. Defined.

Record addr := Addr { a_ver : ipver; a_int : Z; a_scope : string }.

#[export] Instance addr_eq_dec : EqDecision addr.
Proof. solve_decision. Defined.

Record net := Net { n_addr : addr; n_plen : Z }.

#[export] Instance net_eq_dec : EqDecision net.
Proof. solve_decision. Defined.

(** [_max_prefixlen] and [_ALL_ONES]. *)
Definition max_plen (v : ipver) : Z := match v with V4 => 32 | V6 => 128 end.
Definition all_ones (v : ipver) : Z := Z.ones (max_plen v).

(** [_ip_int_from_prefix]. *)
Definition netmask_int (v : ipver) (p : Z) : Z := Z.lxor (all_ones v) (Z.shiftr (all_ones v) p).
Definition hostmask_int (v : ipver) (p : Z) : Z := Z.shiftr (all_ones v) p.

Definition n_ver (n : net) : ipver := a_ver (n_addr n).
Definition n_first (n : net) : Z := a_int (n_addr n).
Definition n_last (n : net) : Z := Z.lor (n_first n) (hostmask_int (n_ver n) (n_plen n)).

(** ** Parsing *)

(** [_parse_octet]. *)
Definition parse_octet (s : string) : option Z :=
  if negb (py_isdigit s) then None
  else if (3 <? String.length s)%nat then None
  else if negb (String.eqb s "0") && py_startswith s "0" then None
  else let n := dec_acc 0 s in if 255 <? n then None else Some n.

(** [IPv4Address._ip_int_from_string]. *)
Definition parse4 (s : string) : option Z :=
  match py_split "."%char s with
  | [a; b; c; d] =>
      match parse_octet a, parse_octet b, parse_octet c, parse_octet d with
      | Some a, Some b, Some c, Some d => Some (((a * 256 + b) * 256 + c) * 256 + d)
      | _, _, _, _ => None
      end
  | _ => None
  end.

Definition hex_val (c : ascii) : option Z :=
  let n := Z.of_N (code c) in
  if is_digit c then Some (n - 48)
  else if (97 <=? n) && (n <=? 102) then Some (n - 87)
  else if (65 <=? n) && (n <=? 70) then Some (n - 55)
  else None.

Fixpoint hex_acc (acc : Z) (s : string) : option Z :=
  match s with
  | "" => Some acc
  | String c s' =>
      match hex_val c with Some d => hex_acc (16 * acc + d) s' | None => None end
  end.

(** [_parse_hextet]. *)
Definition parse_hextet (s : string) : option Z :=
  if String.eqb s "" then None
  else if (4 <? String.length s)%nat then None
  else hex_acc 0 s.

Definition hex_digit (n : Z) : ascii :=
  ascii_of_N (Z.to_N (if n <? 10 then 48 + n else 87 + n)).

(** ['%x' % n] for a 16-bit [n]. *)
Definition hex16 (n : Z) : string :=
  let d k := hex_digit (Z.land (Z.shiftr n k) 15) in
  if n <? 16 then String (d 0) ""
  else if n <? 256 then String (d 4) (String (d 0) "")
  else if n <? 4096 then String (d 8) (String (d 4) (String (d 0) ""))
  else String (d 12) (String (d 8) (String (d 4) (String (d 0) ""))).

(** Positions of the empty parts strictly inside [parts]: the skip loop. *)
Fixpoint skip_indices (i : nat) (parts : list string) : list nat :=
  match parts with
  | [] | [_] => []
  | p :: ps => (if String.eqb p "" then [i] else []) ++ skip_indices (S i) ps
  end.

Fixpoint hextets_acc (acc : Z) (parts : list string) : option Z :=
  match parts with
  | [] => Some acc
  | p :: ps =>
      match parse_hextet p with
      | Some h => hextets_acc (Z.lor (Z.shiftl acc 16) h) ps
      | None => None
      end
  end.

(** Expand a dotted-quad last part into two hextets. *)
Definition expand_v4_suffix (parts : list string) : option (list string) :=
  match last parts with
  | Some p =>
      if has_char "."%char p then
        match parse4 p with
        | Some n => Some (removelast parts ++ [hex16 (Z.land (Z.shiftr n 16) 65535); hex16 (Z.land n 65535)])
        | None => None
        end
      else Some parts
  | None => Some parts
  end.

(** The layout of the parts: how many before and after the [::], and how many it hides. *)
Definition v6_layout (parts : list string) : option (nat * nat * nat) :=
  let len := length parts in
  let first_empty := String.eqb (default "" (head parts)) "" in
  let last_empty := String.eqb (default "" (last parts)) "" in
  match skip_indices 1 (tail parts) with
  | [] =>
      if negb (len =? 8)%nat then None
      else if first_empty then None
      else if last_empty then None
      else Some (len, 0%nat, 0%nat)
  | [skip] =>
      let hi := if first_empty then (skip - 1)%nat else skip in
      let lo := if last_empty then (len - skip - 2)%nat else (len - skip - 1)%nat in
      if first_empty && negb (hi =? 0)%nat then None
      else if last_empty && negb (lo =? 0)%nat then None
      else if (8 <=? hi + lo)%nat then None
      else Some (hi, lo, (8 - (hi + lo))%nat)
  | _ => None
  end.

(** [IPv6Address._ip_int_from_string]. *)
Definition parse6 (s : string) : option Z :=
  if String.eqb s "" then None else
  let parts0 := py_split ":"%char s in
  if (length parts0 <? 3)%nat then None else
  match expand_v4_suffix parts0 with
  | None => None
  | Some parts =>
      if (9 <? length parts)%nat then None else
      match v6_layout parts with
      | None => None
      | Some (hi, lo, skipped) =>
          match hextets_acc 0 (take hi parts) with
          | None => None
          | Some n =>
              hextets_acc (Z.shiftl n (16 * Z.of_nat skipped)) (drop (length parts - lo) parts)
          end
      end
  end.

(** [_split_scope_id]. *)
Fixpoint partition_char (c : ascii) (s : string) : string * option string :=
  match s with
  | "" => ("", None)
  | String d s' =>
      if Ascii.eqb c d then ("", Some s')
      else let '(a, b) := partition_char c s' in (String d a, b)
  end.

Definition split_scope (s : string) : option (string * string) :=
  match partition_char "%"%char s with
  | (a, None) => Some (a, "")
  | (a, Some sc) => if String.eqb sc "" || has_char "%"%char sc then None else Some (a, sc)
  end.

(** The constructors [IPv4Address(s)] and [IPv6Address(s)]. *)
Definition ipv4_address (s : string) : option addr :=
  if has_char "/"%char s then None
  else n ← parse4 s; Some (Addr V4 n "").

Definition ipv6_address (s : string) : option addr :=
  if has_char "/"%char s then None
  else '(a, sc) ← split_scope s; n ← parse6 a; Some (Addr V6 n sc).

Definition ip_ctor (v : ipver) : string -> option addr :=
  match v with V4 => ipv4_address | V6 => ipv6_address end.

(** [ipaddress.ip_address]; [None] is ValueError. *)
Definition ip_address (s : string) : option addr :=
  match ipv4_address s with
  | Some a => Some a
  | None => ipv6_address s
  end.

(** [_prefix_from_prefix_string]. *)
Definition prefix_from_prefix_string (v : ipver) (s : string) : option Z :=
  n ← py_int_digits s; if n <=? max_plen v then Some n else None.

(** [_count_righthand_zero_bits]. *)
Fixpoint count_zero_bits (fuel : nat) (n : Z) : Z :=
  match fuel with
  | O => 0
  | S f => if Z.odd n then 0 else 1 + count_zero_bits f (Z.shiftr n 1)
  end.

(** [_prefix_from_ip_int]: the number is ones followed by zeros. *)
Definition prefix_from_ip_int (v : ipver) (n : Z) : option Z :=
  let tz := count_zero_bits (Z.to_nat (max_plen v)) n in
  let p := max_plen v - tz in
  if Z.shiftr n tz =? Z.ones p then Some p else None.

(** [_prefix_from_ip_string]: a dotted netmask, else a hostmask. *)
Definition prefix_from_ip_string (s : string) : option Z :=
  n ← parse4 s;
  match prefix_from_ip_int V4 n with
  | Some p => Some p
  | None => prefix_from_ip_int V4 (Z.lxor n (all_ones V4))
  end.

(** [_make_netmask]. *)
Definition make_netmask (v : ipver) (s : string) : option Z :=
  match prefix_from_prefix_string v s, v with
  | Some p, _ => Some p
  | None, V4 => prefix_from_ip_string s
  | None, V6 => None
  end.

(** Clear the host bits; a cleared address loses its scope. *)
Definition mask_addr (a : addr) (p : Z) : addr :=
  let m := Z.land (a_int a) (netmask_int (a_ver a) p) in
  if m =? a_int a then a else Addr (a_ver a) m "".

(** [IPv4Network(s, strict=False)] and [IPv6Network(s, strict=False)]. *)
Definition net_ctor (v : ipver) (s : string) : option net :=
  match py_split "/"%char s with
  | [a] => a ← ip_ctor v a; Some (Net (mask_addr a (max_plen v)) (max_plen v))
  | [a; m] => a ← ip_ctor v a; p ← make_netmask v m; Some (Net (mask_addr a p) p)
  | _ => None
  end.

(** [ipaddress.ip_network(s, strict=False)]. *)
Definition ip_network (s : string) : option net :=
  match net_ctor V4 s with
  | Some n => Some n
  | None => net_ctor V6 s
  end.

(** ** Printing *)

Definition str4 (n : Z) : string :=
  py_str_int (Z.land (Z.shiftr n 24) 255) +:+ "." +:+
  py_str_int (Z.land (Z.shiftr n 16) 255) +:+ "." +:+
  py_str_int (Z.land (Z.shiftr n 8) 255) +:+ "." +:+
  py_str_int (Z.land n 255).

Definition hextets_of (n : Z) : list Z :=
  map (fun i => Z.land (Z.shiftr n (16 * i)) 65535) [7; 6; 5; 4; 3; 2; 1; 0].

(** The run scan of [_compress_hextets]: best start, best length, current start, current length. *)
Record zrun := ZRun { best_start : Z; best_len : nat; cur_start : Z; cur_len : nat }.

Fixpoint scan_zero_runs (i : nat) (st : zrun) (hs : list string) : zrun :=
  match hs with
  | [] => st
  | h :: hs' =>
      if String.eqb h "0" then
        let len := S (cur_len st) in
        let start := if cur_start st =? -1 then Z.of_nat i else cur_start st in
        let st' := if (best_len st <? len)%nat then ZRun start len start len
                   else ZRun (best_start st) (best_len st) start len in
        scan_zero_runs (S i) st' hs'
      else scan_zero_runs (S i) (ZRun (best_start st) (best_len st) (-1) 0) hs'
  end.

(** [_compress_hextets]. *)
Definition compress_hextets (hs : list string) : list string :=
  let st := scan_zero_runs 0 (ZRun (-1) 0 (-1) 0) hs in
  if (1 <? best_len st)%nat then
    let start := Z.to_nat (best_start st) in
    let stop := (start + best_len st)%nat in
    let hs1 := if (stop =? length hs)%nat then hs ++ [""] else hs in
    let hs2 := take start hs1 ++ [""] ++ drop stop hs1 in
    if (start =? 0)%nat then "" :: hs2 else hs2
  else hs.

Definition str6 (n : Z) : string := py_join ":" (compress_hextets (map hex16 (hextets_of n))).

(** [str(address)] and [str(network)]. *)
Definition str_addr (a : addr) : string :=
  match a_ver a with
  | V4 => str4 (a_int a)
  | V6 => if String.eqb (a_scope a) "" then str6 (a_int a) else str6 (a_int a) +:+ "%" +:+ a_scope a
  end.

Definition str_net (n : net) : string := str_addr (n_addr n) +:+ "/" +:+ py_str_int (n_plen n).

(** ** Membership and overlap *)

(** [address in network]. *)
Definition net_has (n : net) (a : addr) : bool :=
  bool_decide (n_ver n = a_ver a) && (Z.land (a_int a) (netmask_int (n_ver n) (n_plen n)) =? n_first n).

Definition addr_of (v : ipver) (i : Z) : addr := Addr v i "".

(** [self.overlaps(other)]. *)
Definition overlaps (a b : net) : bool :=
  net_has b (n_addr a) || net_has b (addr_of (n_ver a) (n_last a)) ||
  net_has a (n_addr b) || net_has a (addr_of (n_ver b) (n_last b)).

(** ** collapse_addresses *)

(** [net.supernet()]. *)
Definition supernet (n : net) : net :=
  if n_plen n =? 0 then n
  else
    let p := n_plen n - 1 in
    Net (Addr (n_ver n) (Z.land (n_first n) (Z.shiftl (netmask_int (n_ver n) (n_plen n)) 1)) "") p.

(** The [subnets] dictionary, in insertion order. *)
Definition subnets := list (net * net).

Fixpoint subnets_get (k : net) (d : subnets) : option net :=
  match d with
  | [] => None
  | (k', v) :: d' => if decide (k = k') then Some v else subnets_get k d'
  end.

Fixpoint subnets_del (k : net) (d : subnets) : subnets :=
  match d with
  | [] => []
  | (k', v) :: d' => if decide (k = k') then d' else (k', v) :: subnets_del k d'
  end.

(** The merge loop; [todo] is the stack, its head the list's end. *)
Fixpoint merge_loop (fuel : nat) (todo : list net) (d : subnets) : option subnets :=
  match todo with
  | [] => Some d
  | n :: todo' =>
      match fuel with
      | O => None
      | S f =>
          let sup := supernet n in
          match subnets_get sup d with
          | None => merge_loop f todo' (d ++ [(sup, n)])
          | Some m =>
              if decide (m = n) then merge_loop f todo' d
              else merge_loop f (sup :: todo') (subnets_del sup d)
          end
      end
  end.

Definition net_leb (a b : net) : bool :=
  if n_first a =? n_first b then
    netmask_int (n_ver a) (n_plen a) <=? netmask_int (n_ver b) (n_plen b)
  else n_first a <? n_first b.

Fixpoint drop_subsumed (last : option net) (l : list net) : list net :=
  match l with
  | [] => []
  | n :: l' =>
      match last with
      | Some m => if n_last n <=? n_last m then drop_subsumed last l' else n :: drop_subsumed (Some n) l'
      | None => n :: drop_subsumed (Some n) l'
      end
  end.

(** [_collapse_addresses_internal]. *)
Definition collapse_internal (l : list net) : option (list net) :=
  d ← merge_loop (2 * length l) (rev l) [];
  Some (drop_subsumed None (sort_by net_leb (map snd d))).

(** [_find_address_range] on the sorted addresses. *)
Fixpoint find_ranges (first last : addr) (l : list addr) : list (addr * addr) :=
  match l with
  | [] => [(first, last)]
  | a :: l' =>
      if a_int a =? a_int last + 1 then find_ranges first a l'
      else (first, last) :: find_ranges a a l'
  end.

(** [summarize_address_range], by the integer left to cover. *)
Fixpoint summarize_range (fuel : nat) (v : ipver) (first last : Z) : list net :=
  match fuel with
  | O => []
  | S f =>
      if first <=? last then
        let nbits := Z.min (count_zero_bits (Z.to_nat (max_plen v)) first) (Z.log2 (last - first + 1)) in
        let n := Net (Addr v first "") (max_plen v - nbits) in
        let first' := first + Z.shiftl 1 nbits in
        n :: (if first' - 1 =? all_ones v then [] else summarize_range f v first' last)
      else []
  end.

Definition addr_leb (a b : addr) : bool := a_int a <=? a_int b.

Definition range_nets (r : addr * addr) : list net :=
  summarize_range (Z.to_nat (a_int (snd r) - a_int (fst r) + 1)) (a_ver (fst r)) (a_int (fst r)) (a_int (snd r)).

(** [collapse_addresses] of networks of one version. *)
Definition collapse_addresses (l : list net) : option (list net) :=
  let single n := n_plen n =? max_plen (n_ver n) in
  let ips := sort_by addr_leb (remove_dups (map n_addr (List.filter single l))) in
  let nets := List.filter (fun n => negb (single n)) l in
  let addrs := match ips with [] => [] | a :: ips' => flat_map range_nets (find_ranges a a ips') end in
  collapse_internal (addrs ++ nets).
