(* ===== verification/IpAddrFacts.v ===== *)
(** * Facts about addresses and networks

    Round trips between text and value for both versions, the meaning of
    membership and overlap as sets of integers, and the correctness of
    [collapse_addresses]. *)
From stdpp Require Import base list strings pretty sorting.
From Stdlib Require Import ZArith Lia Ascii.
From S2P Require Import Prelude PyStr IpAddr.

Open Scope string_scope.
Open Scope Z_scope.
Open Scope list_scope.

(** ** Well-formed values *)

Definition addr_wf (a : addr) : Prop :=
  0 <= a_int a < 2 ^ max_plen (a_ver a) /\
  match a_ver a with
  | V4 => a_scope a = ""
  | V6 => has_char "%"%char (a_scope a) = false /\ has_char "/"%char (a_scope a) = false
  end.

(** No host bits: the first address is a multiple of the block size. *)
Definition net_wf (n : net) : Prop :=
  addr_wf (n_addr n) /\ 0 <= n_plen n <= max_plen (n_ver n) /\
  n_first n mod 2 ^ (max_plen (n_ver n) - n_plen n) = 0.

(** ** Finite checks *)

Definition digit_strings1 : list string :=
  map (fun i => String (ascii_of_N i) "") (map N.of_nat (seq 48 10)).

Fixpoint digit_strings (n : nat) : list string :=
  match n with
  | O => [""]
  | S n' => flat_map (fun d => map (fun s => d +:+ s) (digit_strings n')) digit_strings1
  end.

Lemma digit_char c : is_digit c = true -> String c "" ∈ digit_strings1.
Proof.
  unfold is_digit. intros Hc. apply andb_prop in Hc as [H1%N.leb_le H2%N.leb_le].
  assert (c = ascii_of_N (code c)) as -> by (symmetry; apply ascii_N_embedding).
  unfold digit_strings1. rewrite !list_elem_of_fmap.
  exists (code c). split; [done|]. apply list_elem_of_fmap.
  exists (N.to_nat (code c)). split; [lia|]. apply elem_of_seq. lia.
Qed.

Lemma digit_strings_complete s : all_chars is_digit s = true -> s ∈ digit_strings (String.length s).
Proof.
  induction s as [|c s IH]; cbn [all_chars String.length digit_strings]; [by left|].
  rewrite andb_true_iff. intros [Hc Hs]. apply list_elem_of_In, in_flat_map.
  exists (String c ""). split; [by apply list_elem_of_In, digit_char|].
  apply list_elem_of_In, list_elem_of_fmap. exists s. split; [done|]. by apply IH.
Qed.

Definition octets : list Z := map Z.of_nat (seq 0 256).

Lemma octets_complete n : 0 <= n < 256 -> n ∈ octets.
Proof.
  intros Hn. apply list_elem_of_fmap. exists (Z.to_nat n). split; [lia|]. apply elem_of_seq. lia.
Qed.

Definition is_dec_or_dot (c : ascii) : bool := is_digit c || Ascii.eqb c "."%char.

Definition octet_ok (n : Z) : bool :=
  bool_decide (parse_octet (py_str_int n) = Some n) && all_chars is_digit (py_str_int n).

Lemma octets_ok : forallb octet_ok octets = true.
Proof. vm_compute. reflexivity. Qed.

Lemma octet_facts n :
  0 <= n < 256 -> parse_octet (py_str_int n) = Some n /\ all_chars is_digit (py_str_int n) = true.
Proof.
  intros Hn. pose proof octets_ok as Hall. rewrite forallb_forall in Hall.
  specialize (Hall n). rewrite <- list_elem_of_In in Hall.
  specialize (Hall (octets_complete n Hn)). unfold octet_ok in Hall. bool_simpl. done.
Qed.

(** Only canonical octets parse. *)
Definition octet_canonical (s : string) : bool :=
  match parse_octet s with
  | Some n => String.eqb s (py_str_int n) && (0 <=? n) && (n <? 256)
  | None => true
  end.

Lemma octets_canonical : forallb octet_canonical (flat_map digit_strings [0; 1; 2; 3]%nat) = true.
Proof. vm_compute. reflexivity. Qed.

Lemma parse_octet_canonical s n : parse_octet s = Some n -> s = py_str_int n /\ 0 <= n < 256.
Proof.
  intros Hp. assert (octet_canonical s = true) as Hc.
  { pose proof octets_canonical as Hall. rewrite forallb_forall in Hall. apply Hall.
    unfold parse_octet in Hp. destruct (py_isdigit s) eqn:Hd; [|done].
    destruct (3 <? String.length s)%nat eqn:Hl; [done|]. apply Nat.ltb_ge in Hl.
    unfold py_isdigit in Hd. bool_simpl.
    apply in_flat_map. exists (String.length s). split.
    - simpl. lia.
    - by apply list_elem_of_In, digit_strings_complete. }
  unfold octet_canonical in Hc. rewrite Hp in Hc.
  apply andb_prop in Hc as [[Hs%String.eqb_eq ?]%andb_prop ?]. split; [done|lia].
Qed.

(** ** IPv4 text *)

Lemma str4_join n :
  str4 n = py_join "." (map (fun k => py_str_int (Z.land (Z.shiftr n k) 255)) [24; 16; 8; 0]).
Proof. reflexivity. Qed.

Lemma byte_bounds n k : 0 <= Z.land (Z.shiftr n k) 255 < 256.
Proof. change 255 with (Z.ones 8). rewrite Z.land_ones by lia. apply Z.mod_pos_bound. lia. Qed.

Lemma byte_div n k : 0 <= k -> Z.land (Z.shiftr n k) 255 = (n / 2 ^ k) mod 256.
Proof. intros Hk. change 255 with (Z.ones 8). by rewrite Z.land_ones, Z.shiftr_div_pow2 by lia. Qed.

Lemma bytes_recombine n :
  0 <= n < 2 ^ 32 ->
  ((Z.land (Z.shiftr n 24) 255 * 256 + Z.land (Z.shiftr n 16) 255) * 256
   + Z.land (Z.shiftr n 8) 255) * 256 + Z.land (Z.shiftr n 0) 255 = n.
Proof.
  intros Hn. rewrite !byte_div by lia.
  change (2 ^ 24) with 16777216. change (2 ^ 16) with 65536. change (2 ^ 8) with 256.
  change (2 ^ 0) with 1. change (2 ^ 32) with 4294967296 in Hn.
  Z.to_euclidean_division_equations. lia.
Qed.

Lemma bytes_split a b c d :
  0 <= a < 256 -> 0 <= b < 256 -> 0 <= c < 256 -> 0 <= d < 256 ->
  let n := ((a * 256 + b) * 256 + c) * 256 + d in
  0 <= n < 2 ^ 32 /\ Z.land (Z.shiftr n 24) 255 = a /\ Z.land (Z.shiftr n 16) 255 = b /\
  Z.land (Z.shiftr n 8) 255 = c /\ Z.land (Z.shiftr n 0) 255 = d.
Proof.
  intros Ha Hb Hc Hd n. subst n. rewrite !byte_div by lia.
  change (2 ^ 24) with 16777216. change (2 ^ 16) with 65536. change (2 ^ 8) with 256.
  change (2 ^ 0) with 1. change (2 ^ 32) with 4294967296.
  Z.to_euclidean_division_equations. lia.
Qed.

Lemma digits_no_char s c : all_chars is_digit s = true -> is_digit c = false -> has_char c s = false.
Proof. apply all_chars_has_char. Qed.

Lemma byte_str_no_char n k c :
  is_digit c = false -> has_char c (py_str_int (Z.land (Z.shiftr n k) 255)) = false.
Proof. apply digits_no_char. apply octet_facts, byte_bounds. Qed.

Lemma parse4_str4 n : 0 <= n < 2 ^ 32 -> parse4 (str4 n) = Some n.
Proof.
  intros Hn. unfold parse4. rewrite str4_join. rewrite py_split_join.
  - cbn [map].
    assert (Hk : forall k, parse_octet (py_str_int (Z.land (Z.shiftr n k) 255))
                     = Some (Z.land (Z.shiftr n k) 255)) by (intros; apply octet_facts, byte_bounds).
    rewrite !Hk. f_equal. by apply bytes_recombine.
  - done.
  - cbn [map]. repeat (constructor; [by apply byte_str_no_char|]). constructor.
Qed.

Lemma parse4_canonical s n : parse4 s = Some n -> s = str4 n /\ 0 <= n < 2 ^ 32.
Proof.
  unfold parse4. intros Hp.
  pose proof (py_join_split "." s) as Hj.
  destruct (py_split "." s) as [|a [|b [|c [|d [|]]]]]; try done.
  destruct (parse_octet a) as [a'|] eqn:Ea; [|done].
  destruct (parse_octet b) as [b'|] eqn:Eb; [|done].
  destruct (parse_octet c) as [c'|] eqn:Ec; [|done].
  destruct (parse_octet d) as [d'|] eqn:Ed; [|done].
  injection Hp as <-.
  apply parse_octet_canonical in Ea as [-> Ha], Eb as [-> Hb], Ec as [-> Hc], Ed as [-> Hd].
  destruct (bytes_split a' b' c' d') as (Hn & E1 & E2 & E3 & E4); try done.
  split; [|done]. rewrite <- Hj, str4_join. cbn [map]. by rewrite E1, E2, E3, E4.
Qed.

Lemma str4_chars n : all_chars is_dec_or_dot (str4 n) = true.
Proof.
  rewrite str4_join. apply all_chars_join; [done|]. cbn [map].
  repeat (constructor; [eapply all_chars_impl; [|apply octet_facts, byte_bounds];
                        unfold is_dec_or_dot; by intros c ->|]). constructor.
Qed.

(** ** IPv6 text *)

Definition is_hex (c : ascii) : bool := bool_decide (is_Some (hex_val c)).

Definition hextet_ok (n : Z) : bool :=
  bool_decide (parse_hextet (hex16 n) = Some n) && all_chars is_hex (hex16 n)
  && Bool.eqb (String.eqb (hex16 n) "0") (n =? 0).

Fixpoint forall_from (fuel : nat) (i : Z) (p : Z -> bool) : bool :=
  match fuel with
  | O => true
  | S f => p i && forall_from f (i + 1) p
  end.

Lemma forall_from_spec fuel i p n :
  forall_from fuel i p = true -> i <= n < i + Z.of_nat fuel -> p n = true.
Proof.
  revert i. induction fuel as [|f IH]; intros i; [lia|].
  cbn [forall_from]. rewrite andb_true_iff. intros [Hp Hf] Hn.
  destruct (decide (n = i)) as [->|]; [done|]. apply (IH (i + 1)); [done|lia].
Qed.

Lemma hextets_ok : forall_from (Z.to_nat 65536) 0 hextet_ok = true.
Proof. vm_compute. reflexivity. Qed.

Definition hextet (n : Z) : Prop := 0 <= n < 65536.

Lemma hextet_facts n :
  hextet n ->
  parse_hextet (hex16 n) = Some n /\ all_chars is_hex (hex16 n) = true /\
  String.eqb (hex16 n) "0" = (n =? 0).
Proof.
  unfold hextet. intros Hn. pose proof (forall_from_spec _ _ _ n hextets_ok) as Hok.
  specialize (Hok ltac:(rewrite Z2Nat.id by lia; lia)). unfold hextet_ok in Hok.
  apply andb_prop in Hok as [[H1 H2]%andb_prop H3]. bool_simpl.
  apply Bool.eqb_prop in H3. done.
Qed.

Lemma hex16_nonempty n : hextet n -> String.eqb (hex16 n) "" = false.
Proof.
  intros (Hp & _)%hextet_facts. unfold parse_hextet in Hp. by destruct (String.eqb (hex16 n) "").
Qed.

Lemma hex16_no_char n c : hextet n -> is_hex c = false -> has_char c (hex16 n) = false.
Proof. intros (_ & Hh & _)%hextet_facts. by apply all_chars_has_char. Qed.

Lemma hextets_of_bounds n : Forall hextet (hextets_of n).
Proof.
  apply Forall_fmap, Forall_forall. intros k _. unfold hextet. simpl.
  change 65535 with (Z.ones 16). rewrite Z.land_ones by lia. apply Z.mod_pos_bound. lia.
Qed.

(** The value of a list of hextets, most significant first. *)
Definition hextets_val (acc : Z) (hs : list Z) : Z :=
  fold_left (fun a h => Z.lor (Z.shiftl a 16) h) hs acc.

Lemma hextets_acc_val hs acc :
  Forall hextet hs -> hextets_acc acc (map hex16 hs) = Some (hextets_val acc hs).
Proof.
  intros Hall. revert acc. induction Hall as [|h hs Hh Hhs IH]; intros acc; [done|].
  cbn [map hextets_acc]. rewrite (proj1 (hextet_facts h Hh)). apply IH.
Qed.

Lemma lor_shift_add a h : hextet h -> Z.lor (Z.shiftl a 16) h = a * 65536 + h.
Proof.
  intros Hh. unfold hextet in Hh. rewrite Z.shiftl_mul_pow2 by lia. change (2 ^ 16) with 65536.
  symmetry. rewrite Z.add_nocarry_lxor; [apply Z.lxor_lor|]; (
  apply Z.bits_inj'; intros k Hk; rewrite Z.land_spec, Z.bits_0;
  change 65536 with (2 ^ 16); destruct (Z.lt_ge_cases k 16);
  [rewrite Z.mul_pow2_bits_low by lia; done|];
  rewrite (Z.bits_above_log2 h k); [apply andb_false_r|lia|];
  destruct (decide (h = 0)) as [->|]; [simpl; lia|];
  apply Z.log2_lt_pow2; [lia|]; apply Z.lt_le_trans with (2 ^ 16); [lia|];
  apply Z.pow_le_mono_r; lia).
Qed.

Lemma hextets_of_val n : 0 <= n < 2 ^ 128 -> hextets_val 0 (hextets_of n) = n.
Proof.
  intros Hn. unfold hextets_val.
  assert (Hf : forall hs acc, Forall hextet hs ->
            fold_left (fun a h => Z.lor (Z.shiftl a 16) h) hs acc
            = fold_left (fun a h => a * 65536 + h) hs acc).
  { intros hs acc Hall. revert acc. induction Hall as [|h hs Hh Hhs IH]; intros acc; simpl; [done|].
    by rewrite lor_shift_add, IH. }
  rewrite Hf by apply hextets_of_bounds. unfold hextets_of. cbn [map fold_left].
  assert (Hk : forall k, 0 <= k -> Z.land (Z.shiftr n k) 65535 = n / 2 ^ k - n / 2 ^ (k + 16) * 65536).
  { intros k Hk. change 65535 with (Z.ones 16). rewrite Z.land_ones, Z.shiftr_div_pow2 by lia.
    rewrite Z.pow_add_r, <- Z.div_div by lia. change (2 ^ 16) with 65536.
    rewrite Z.mod_eq by lia. lia. }
  rewrite !Hk by lia.
  repeat match goal with
         | |- context [2 ^ (16 * ?a + 16)] =>
             let v := eval vm_compute in (16 * a + 16) in change (16 * a + 16) with v
         | |- context [2 ^ (16 * ?a)] =>
             let v := eval vm_compute in (16 * a) in change (16 * a) with v
         end.
  replace (n / 2 ^ 128) with 0 by (symmetry; apply Z.div_small; lia).
  change (2 ^ 0) with 1. rewrite Z.div_1_r. lia.
Qed.

Lemma hextets_val_zeros acc k hs :
  hextets_val acc (replicate k 0 ++ hs) = hextets_val (Z.shiftl acc (16 * Z.of_nat k)) hs.
Proof.
  revert acc. induction k as [|k IH]; intros acc.
  - simpl. by rewrite Z.shiftl_0_r.
  - change (replicate (S k) 0 ++ hs) with (0 :: (replicate k 0 ++ hs)). cbn [hextets_val fold_left].
    rewrite Z.lor_0_r. fold (hextets_val (Z.shiftl acc 16) (replicate k 0 ++ hs)). rewrite IH.
    f_equal. rewrite Z.shiftl_shiftl by lia. f_equal. lia.
Qed.

(** *** The zero runs *)

Fixpoint scan_bools (i : nat) (st : zrun) (zs : list bool) : zrun :=
  match zs with
  | [] => st
  | z :: zs' =>
      if z then
        let len := S (cur_len st) in
        let start := if cur_start st =? -1 then Z.of_nat i else cur_start st in
        let st' := if (best_len st <? len)%nat then ZRun start len start len
                   else ZRun (best_start st) (best_len st) start len in
        scan_bools (S i) st' zs'
      else scan_bools (S i) (ZRun (best_start st) (best_len st) (-1) 0) zs'
  end.

Definition is_zero (h : Z) : bool := h =? 0.

Lemma scan_zero_runs_bools hs i st :
  Forall hextet hs -> scan_zero_runs i st (map hex16 hs) = scan_bools i st (map is_zero hs).
Proof.
  intros Hall. revert i st. induction Hall as [|h hs Hh Hhs IH]; intros i st; [done|].
  cbn [map scan_zero_runs scan_bools]. rewrite (proj2 (proj2 (hextet_facts h Hh))).
  unfold is_zero at 1. destruct (h =? 0); by rewrite IH.
Qed.

Fixpoint bool_lists (n : nat) : list (list bool) :=
  match n with
  | O => [[]]
  | S n' => flat_map (fun l => [true :: l; false :: l]) (bool_lists n')
  end.

Lemma bool_lists_complete l : l ∈ bool_lists (length l).
Proof.
  induction l as [|b l IH]; [by left|]. cbn [length bool_lists].
  apply list_elem_of_In, in_flat_map. exists l. split; [by apply list_elem_of_In|].
  destruct b; simpl; auto.
Qed.

(** The chosen run lies within the list and is made of zeros. *)
Definition run_ok (zs : list bool) : bool :=
  let st := scan_bools 0 (ZRun (-1) 0 (-1) 0) zs in
  let start := Z.to_nat (best_start st) in
  (best_len st <=? 1)%nat
  || ((start + best_len st <=? length zs)%nat
      && forallb (fun b => b) (take (best_len st) (drop start zs))).

Lemma runs_ok : forallb run_ok (bool_lists 8) = true.
Proof. vm_compute. reflexivity. Qed.

Lemma zero_run hs :
  length hs = 8%nat ->
  let st := scan_bools 0 (ZRun (-1) 0 (-1) 0) (map is_zero hs) in
  (1 < best_len st)%nat ->
  exists A B, hs = A ++ replicate (best_len st) 0 ++ B /\ length A = Z.to_nat (best_start st).
Proof.
  intros Hlen st Hbest. pose proof runs_ok as Hall. rewrite forallb_forall in Hall.
  specialize (Hall (map is_zero hs)).
  rewrite <- list_elem_of_In in Hall.
  pose proof (bool_lists_complete (map is_zero hs)) as Hin. rewrite length_map, Hlen in Hin.
  specialize (Hall Hin). unfold run_ok in Hall. fold st in Hall.
  rewrite (proj2 (Nat.leb_gt _ _)) in Hall by lia. cbn [orb] in Hall. rewrite length_map in Hall.
  apply andb_prop in Hall as [Hle%Nat.leb_le Hz].
  set (s := Z.to_nat (best_start st)) in *. set (k := best_len st) in *.
  exists (take s hs), (drop (s + k) hs). split.
  - rewrite <- (take_drop s hs) at 1. f_equal.
    rewrite <- (take_drop k (drop s hs)) at 1. rewrite drop_drop. f_equal.
    assert (Hk : length (take k (drop s hs)) = k) by (rewrite length_take, length_drop; lia).
    rewrite <- Hk at 2.
    assert (Hmap : forallb is_zero (take k (drop s hs)) = true).
    { rewrite <- fmap_drop, <- fmap_take in Hz. rewrite forallb_forall in *.
      intros x Hx. specialize (Hz (is_zero x)). apply Hz.
      apply list_elem_of_In, list_elem_of_fmap. exists x. split; [done|]. by apply list_elem_of_In. }
    clear -Hmap. induction (take k (drop s hs)) as [|x l IH]; [done|].
    simpl in *. apply andb_prop in Hmap as [Hx%Z.eqb_eq Hl]. rewrite Hx. f_equal. by apply IH.
  - rewrite length_take. lia.
Qed.

(** *** Reading back *)

Definition nonempty (s : string) : Prop := String.eqb s "" = false.

Lemma skip_indices_cons i p q l :
  skip_indices i (p :: q :: l) = (if String.eqb p "" then [i] else []) ++ skip_indices (S i) (q :: l).
Proof. reflexivity. Qed.

Lemma skip_indices_app i X y Y :
  Forall nonempty X -> skip_indices i (X ++ y :: Y) = skip_indices (i + length X) (y :: Y).
Proof.
  intros HX. revert i. induction HX as [|x X Hx HX IH]; intros i.
  - simpl. by rewrite Nat.add_0_r.
  - cbn [app]. destruct (X ++ y :: Y) as [|z Z] eqn:E; [by destruct X|].
    rewrite skip_indices_cons. unfold nonempty in Hx. rewrite Hx. cbn [app].
    rewrite IH. cbn [length]. f_equal. lia.
Qed.

Lemma skip_indices_nonempty i Y : Forall nonempty Y -> skip_indices i Y = [].
Proof.
  intros HY. revert i. induction HY as [|y Y Hy HY IH]; intros i; [done|].
  destruct Y as [|z Z]; [done|]. rewrite skip_indices_cons. unfold nonempty in Hy. by rewrite Hy, IH.
Qed.

Lemma last_map_hex16 hs :
  Forall hextet hs ->
  match last (map hex16 hs) with Some p => has_char "."%char p = false | None => True end.
Proof.
  intros Hall. rewrite fmap_last. destruct (last hs) as [h|] eqn:E; simpl; [|done].
  apply hex16_no_char; [|done]. apply last_Some_elem_of in E. by eapply Forall_forall in Hall.
Qed.

Lemma expand_v4_none parts :
  match last parts with Some p => has_char "."%char p = false | None => True end ->
  expand_v4_suffix parts = Some parts.
Proof. unfold expand_v4_suffix. destruct (last parts); [by intros ->|done]. Qed.

Definition side (hs : list Z) : list string := match hs with [] => [""] | _ => map hex16 hs end.

Lemma hexs_nonempty hs : Forall hextet hs -> Forall nonempty (map hex16 hs).
Proof. intros H. apply Forall_fmap. eapply Forall_impl; [exact H|]. apply hex16_nonempty. Qed.

Lemma hexs_no_char c hs : Forall hextet hs -> is_hex c = false ->
  Forall (fun p => has_char c p = false) (map hex16 hs).
Proof. intros H Hc. apply Forall_fmap. eapply Forall_impl; [exact H|]. intros h Hh. by apply hex16_no_char. Qed.

Lemma side_no_char c hs : Forall hextet hs -> is_hex c = false ->
  Forall (fun p => has_char c p = false) (side hs).
Proof. intros H Hc. destruct hs; [by repeat constructor|]. by apply hexs_no_char. Qed.

(** Decide the comparisons of naturals that the context settles. *)
Ltac nat_tests :=
  repeat match goal with
         | |- context [(?x =? ?y)%nat] => destruct (Nat.eqb_spec x y); try lia; cbn [negb andb orb]
         | |- context [(?x <=? ?y)%nat] => destruct (Nat.leb_spec x y); try lia; cbn [negb andb orb]
         | |- context [(?x <? ?y)%nat] => destruct (Nat.ltb_spec x y); try lia; cbn [negb andb orb]
         end;
  repeat (f_equal; try lia).

Lemma layout_full hs :
  Forall hextet hs -> length hs = 8%nat ->
  v6_layout (map hex16 hs) = Some (8%nat, 0%nat, 0%nat).
Proof.
  intros Hall Hlen. unfold v6_layout. rewrite length_map, Hlen.
  rewrite skip_indices_nonempty.
  - assert (Hne : Forall nonempty (map hex16 hs)) by by apply hexs_nonempty.
    assert (String.eqb (default "" (head (map hex16 hs))) "" = false) as ->.
    { destruct hs; [done|]. by inversion Hne. }
    assert (String.eqb (default "" (last (map hex16 hs))) "" = false) as ->; [|done].
    rewrite fmap_last. destruct (last hs) as [h|] eqn:E.
    + simpl. apply hex16_nonempty. apply last_Some_elem_of in E. by eapply Forall_forall in Hall.
    + apply last_None in E. by subst.
  - apply Forall_tail, hexs_nonempty. done.
Qed.

Lemma layout_skip A B k :
  Forall hextet A -> Forall hextet B -> (length A + k + length B = 8)%nat -> (1 < k)%nat ->
  v6_layout (side A ++ [""] ++ side B) = Some (length A, length B, k).
Proof.
  intros HA HB Hlen Hk. unfold v6_layout.
  assert (Hlast : forall X, last (X ++ [""] ++ side B) = last (side B)).
  { intros X. rewrite app_assoc, last_app. destruct B as [|b B]; [done|].
    unfold side. rewrite fmap_last. rewrite last_cons. by destruct (last B). }
  rewrite Hlast.
  assert (HlB : String.eqb (default "" (last (side B))) "" = bool_decide (B = [])).
  { destruct B as [|b B]; [done|]. rewrite bool_decide_eq_false_2 by done. unfold side.
    rewrite fmap_last. destruct (last (b :: B)) as [h|] eqn:E.
    - simpl. apply hex16_nonempty. apply last_Some_elem_of in E. by eapply Forall_forall in HB.
    - by apply last_None in E. }
  rewrite HlB.
  assert (HB' : Forall nonempty (map hex16 B)) by by apply hexs_nonempty.
  assert (HsB : forall i, skip_indices i ([""] ++ side B) = [i]).
  { intros i. destruct B as [|b B]; [done|]. unfold side. cbn [map app].
    rewrite skip_indices_cons. simpl (String.eqb "" ""). cbn [app]. f_equal.
    by apply skip_indices_nonempty. }
  destruct A as [|a A].
  - cbn [side app tail head default id length]. change ("" :: side B) with ([""] ++ side B).
    rewrite HsB. change (String.eqb "" "") with true.
    destruct B as [|b B]; [rewrite bool_decide_eq_true_2 by done|rewrite bool_decide_eq_false_2 by done];
      cbn [side map app length andb negb] in *; rewrite ?length_app, ?length_map; nat_tests.
  - assert (HA' : Forall nonempty (map hex16 (a :: A))) by by apply hexs_nonempty.
    inversion HA' as [|? ? Ha HAt]; subst. unfold nonempty in Ha.
    cbn [side map app tail head default id]. rewrite Ha.
    rewrite skip_indices_app by done. rewrite HsB. rewrite length_map.
    destruct B as [|b B]; [rewrite bool_decide_eq_true_2 by done|rewrite bool_decide_eq_false_2 by done];
      cbn [side map app length andb negb] in *; rewrite ?length_app, ?length_map;
      cbn [length andb negb] in *; rewrite ?length_map; nat_tests.
Qed.

Lemma compress_cases hs :
  Forall hextet hs -> length hs = 8%nat ->
  compress_hextets (map hex16 hs) = map hex16 hs \/
  exists A B k, hs = A ++ replicate k 0 ++ B /\ (1 < k)%nat /\
    compress_hextets (map hex16 hs) = side A ++ [""] ++ side B.
Proof.
  intros Hall Hlen. unfold compress_hextets. rewrite scan_zero_runs_bools by done.
  set (st := scan_bools 0 (ZRun (-1) 0 (-1) 0) (map is_zero hs)).
  destruct (1 <? best_len st)%nat eqn:Hb; [|by left]. apply Nat.ltb_lt in Hb. right.
  destruct (zero_run hs Hlen Hb) as (A & B & Hhs & HA). fold st in Hhs, HA.
  exists A, B, (best_len st). split; [done|]. split; [done|].
  rewrite <- HA, length_map, Hlen.
  assert (Htot : (length A + (best_len st + length B) = 8)%nat).
  { rewrite <- Hlen, Hhs, !length_app, length_replicate. done. }
  assert (Htake : forall Z, take (length A) (map hex16 hs ++ Z) = map hex16 A).
  { intros Z. rewrite Hhs, map_app, <- app_assoc. apply take_app_length'. by rewrite length_map. }
  assert (Hdrop : forall Z, drop (length A + best_len st) (map hex16 hs ++ Z) = map hex16 B ++ Z).
  { intros Z. rewrite Hhs, !map_app, <- !app_assoc, app_assoc. apply drop_app_length'.
    by rewrite length_app, !length_map, length_replicate. }
  set (stop := (length A + best_len st)%nat) in *.
  assert (Hright : (if (stop =? 8)%nat then map hex16 hs ++ [""] else map hex16 hs)
                   = map hex16 hs ++ (if (stop =? 8)%nat then [""] else [])).
  { destruct (stop =? 8)%nat; [done|]. by rewrite app_nil_r. }
  rewrite Hright, Htake, Hdrop.
  assert (map hex16 B ++ (if (stop =? 8)%nat then [""] else []) = side B) as ->.
  { destruct B as [|b B]; cbn [length] in *; nat_tests. cbn [side]. by rewrite app_nil_r. }
  destruct A as [|a A]; [done|]. done.
Qed.

Lemma hextets_length n : length (hextets_of n) = 8%nat.
Proof. reflexivity. Qed.

Lemma join_nonempty p q ps : py_join ":" (p :: q :: ps) <> "".
Proof. rewrite py_join_cons. by destruct p. Qed.

Lemma parse6_parts parts :
  (3 <= length parts)%nat ->
  Forall (fun p => has_char ":"%char p = false) parts ->
  parse6 (py_join ":" parts) =
  match expand_v4_suffix parts with
  | None => None
  | Some parts =>
      if (9 <? length parts)%nat then None else
      match v6_layout parts with
      | None => None
      | Some (hi, lo, skipped) =>
          match hextets_acc 0 (take hi parts) with
          | None => None
          | Some n => hextets_acc (Z.shiftl n (16 * Z.of_nat skipped)) (drop (length parts - lo) parts)
          end
      end
  end.
Proof.
  intros Hlen Hno. unfold parse6. rewrite py_split_join; [|destruct parts; simpl in *; [lia|done]|done].
  destruct (String.eqb_spec (py_join ":" parts) "") as [E|_].
  - destruct parts as [|p [|q ps]]; simpl in Hlen; [lia|lia|]. by apply join_nonempty in E.
  - destruct (Nat.ltb_spec (length parts) 3); [lia|done].
Qed.

Theorem parse6_str6 n : 0 <= n < 2 ^ 128 -> parse6 (str6 n) = Some n.
Proof.
  intros Hn. unfold str6. pose proof (hextets_of_bounds n) as Hall.
  pose proof (hextets_of_val n Hn) as Hval.
  destruct (compress_cases (hextets_of n) Hall (hextets_length n)) as [->|(A & B & k & Hhs & Hk & ->)].
  - rewrite parse6_parts; [|rewrite length_map, hextets_length; lia|by apply hexs_no_char].
    rewrite expand_v4_none by by apply last_map_hex16.
    rewrite layout_full by done. rewrite length_map, hextets_length.
    change (9 <? 8)%nat with false. cbn iota.
    rewrite take_ge by (by rewrite length_map). rewrite drop_ge by (rewrite length_map, hextets_length; lia).
    rewrite hextets_acc_val by done. rewrite Hval. cbn [hextets_acc]. by rewrite Z.shiftl_0_r.
  - pose proof Hall as Hall'. rewrite Hhs in Hall'.
    apply Forall_app in Hall' as [HA [_ HB]%Forall_app].
    assert (Hlen : (length A + k + length B = 8)%nat).
    { rewrite <- (hextets_length n), Hhs, !length_app, length_replicate. lia. }
    assert (HsA : length (side A) = (match A with [] => 1 | _ => length A end)%nat) by (destruct A; [done|]; cbn [side]; by rewrite length_map).
    assert (HsB : length (side B) = (match B with [] => 1 | _ => length B end)%nat) by (destruct B; [done|]; cbn [side]; by rewrite length_map).
    rewrite parse6_parts.
    2: { rewrite !length_app, HsA, HsB. destruct A, B; cbn [length] in *; lia. }
    2: { apply Forall_app. split; [by apply side_no_char|]. constructor; [done|]. by apply side_no_char. }
    rewrite expand_v4_none.
    2: { rewrite app_assoc, last_app. destruct B as [|b B]; [done|].
         unfold side at 1. rewrite fmap_last. pose proof (last_map_hex16 (b :: B) HB) as Hl.
         rewrite fmap_last in Hl. destruct (last (b :: B)) eqn:E; [exact Hl|]. by apply last_None in E. }
    rewrite (layout_skip A B k) by done.
    destruct (Nat.ltb_spec 9 (length (side A ++ [""] ++ side B))) as [Hbig|_].
    { rewrite !length_app, HsA, HsB in Hbig. destruct A, B; cbn [length] in *; lia. }
    assert (take (length A) (side A ++ [""] ++ side B) = map hex16 A) as ->.
    { destruct A as [|a A]; [done|]. apply take_app_length'. cbn [side]. by rewrite length_map. }
    rewrite hextets_acc_val by done.
    assert (drop (length (side A ++ [""] ++ side B) - length B) (side A ++ [""] ++ side B) = map hex16 B) as ->.
    { destruct B as [|b B].
      - rewrite drop_ge; [done|]. cbn [length]. lia.
      - rewrite app_assoc. rewrite (length_app (side A ++ [""])). cbn [side].
        rewrite length_map. replace (_ + length (b :: B) - length (b :: B))%nat with (length (side A ++ [""])) by lia.
        by apply drop_app_length'. }
    rewrite hextets_acc_val by done. f_equal.
    rewrite <- Hval, Hhs. unfold hextets_val at 3. rewrite fold_left_app.
    fold (hextets_val 0 A). symmetry. apply hextets_val_zeros.
Qed.

(** *** Bounds *)

Lemma hex_val_bound c d : hex_val c = Some d -> 0 <= d < 16.
Proof.
  unfold hex_val, is_digit. intros Hd.
  destruct ((48 <=? code c) && (code c <=? 57))%N eqn:E1.
  { injection Hd as <-. apply andb_prop in E1 as [?%N.leb_le ?%N.leb_le]. lia. }
  destruct ((97 <=? Z.of_N (code c)) && (Z.of_N (code c) <=? 102)) eqn:E2; [injection Hd as <-; lia|].
  destruct ((65 <=? Z.of_N (code c)) && (Z.of_N (code c) <=? 70)) eqn:E3; [injection Hd as <-; lia|done].
Qed.

Lemma hex_acc_bound s acc v :
  0 <= acc -> hex_acc acc s = Some v -> 0 <= v < (acc + 1) * 16 ^ Z.of_nat (String.length s).
Proof.
  revert acc. induction s as [|c s IH]; intros acc Hacc; cbn [hex_acc String.length].
  - intros [= <-]. lia.
  - destruct (hex_val c) as [d|] eqn:Ed; [|done]. apply hex_val_bound in Ed. intros Hv.
    apply IH in Hv; [|lia]. rewrite Nat2Z.inj_succ, Z.pow_succ_r by lia. nia.
Qed.

Lemma parse_hextet_bound s h : parse_hextet s = Some h -> hextet h.
Proof.
  unfold parse_hextet. destruct (String.eqb s ""); [done|].
  destruct (Nat.ltb_spec 4 (String.length s)) as [|Hl]; [done|]. intros Hh.
  apply hex_acc_bound in Hh; [|lia]. unfold hextet. split; [lia|].
  apply Z.lt_le_trans with (1 := proj2 Hh). change 65536 with (16 ^ 4).
  rewrite Z.add_0_l, Z.mul_1_l. apply Z.pow_le_mono_r; lia.
Qed.

Lemma hextets_acc_bound parts acc v :
  0 <= acc -> hextets_acc acc parts = Some v -> 0 <= v < (acc + 1) * 2 ^ (16 * Z.of_nat (length parts)).
Proof.
  revert acc. induction parts as [|p ps IH]; intros acc Hacc; cbn [hextets_acc length].
  - intros [= <-]. simpl (2 ^ _). lia.
  - destruct (parse_hextet p) as [h|] eqn:Eh; [|done]. apply parse_hextet_bound in Eh. intros Hv.
    rewrite lor_shift_add in Hv by done. unfold hextet in Eh. apply IH in Hv; [|lia].
    replace (16 * Z.of_nat (S (length ps))) with (16 + 16 * Z.of_nat (length ps)) by lia.
    rewrite Z.pow_add_r by lia. change (2 ^ 16) with 65536. nia.
Qed.

Lemma v6_layout_total parts hi lo sk :
  v6_layout parts = Some (hi, lo, sk) -> (hi + sk + lo = 8)%nat.
Proof.
  unfold v6_layout. destruct (skip_indices 1 (tail parts)) as [|s [|]]; [| |done].
  - destruct (Nat.eqb_spec (length parts) 8); [|done]. cbn [negb].
    repeat (destruct (String.eqb _ _); [done|]). intros [= <- <- <-]. lia.
  - repeat match goal with |- (if ?b then None else _) = _ -> _ => destruct b eqn:?; [done|] end.
    intros [= <- <- <-]. rewrite Nat.leb_gt in *. lia.
Qed.

Lemma parse6_bound s n : parse6 s = Some n -> 0 <= n < 2 ^ 128.
Proof.
  unfold parse6. destruct (String.eqb s ""); [done|].
  destruct (length (py_split ":" s) <? 3)%nat; [done|].
  destruct (expand_v4_suffix (py_split ":" s)) as [parts|]; [|done].
  destruct (9 <? length parts)%nat; [done|].
  destruct (v6_layout parts) as [[[hi lo] sk]|] eqn:El; [|done].
  apply v6_layout_total in El.
  destruct (hextets_acc 0 (take hi parts)) as [m|] eqn:Em; [|done]. intros Hn.
  apply hextets_acc_bound in Em; [|lia].
  rewrite Z.shiftl_mul_pow2 in Hn by lia.
  apply hextets_acc_bound in Hn; [|nia].
  assert (Hhi : 2 ^ (16 * Z.of_nat (length (take hi parts))) <= 2 ^ (16 * Z.of_nat hi)).
  { apply Z.pow_le_mono_r; [lia|]. rewrite length_take. lia. }
  assert (Hlo : 2 ^ (16 * Z.of_nat (length (drop (length parts - lo) parts))) <= 2 ^ (16 * Z.of_nat lo)).
  { apply Z.pow_le_mono_r; [lia|]. rewrite length_drop. lia. }
  assert (E8 : 2 ^ 128 = 2 ^ (16 * Z.of_nat hi) * 2 ^ (16 * Z.of_nat sk) * 2 ^ (16 * Z.of_nat lo)).
  { rewrite <- !Z.pow_add_r by lia. f_equal. lia. }
  rewrite E8.
  pose proof (Z.pow_pos_nonneg 2 (16 * Z.of_nat sk)). pose proof (Z.pow_pos_nonneg 2 (16 * Z.of_nat lo)).
  split; [lia|]. apply Z.lt_le_trans with (1 := proj2 Hn).
  apply Z.mul_le_mono_nonneg; [nia| |lia|lia]. nia.
Qed.

Definition is_hex_or_colon (c : ascii) : bool := is_hex c || Ascii.eqb c ":"%char.

Lemma compress_chars hs : Forall hextet hs -> length hs = 8%nat ->
  Forall (fun p => all_chars is_hex p = true) (compress_hextets (map hex16 hs)).
Proof.
  intros Hall Hlen.
  assert (Hs : forall l, Forall hextet l -> Forall (fun p => all_chars is_hex p = true) (map hex16 l)).
  { intros l Hl. apply Forall_fmap. eapply Forall_impl; [exact Hl|]. intros h Hh. by apply hextet_facts. }
  destruct (compress_cases hs Hall Hlen) as [->|(A & B & k & Hhs & _ & ->)]; [by apply Hs|].
  rewrite Hhs in Hall. apply Forall_app in Hall as [HA [_ HB]%Forall_app].
  repeat (apply Forall_app; split).
  - destruct A; [by repeat constructor|]. by apply Hs.
  - by repeat constructor.
  - destruct B; [by repeat constructor|]. by apply Hs.
Qed.

Lemma str6_chars n : all_chars is_hex_or_colon (str6 n) = true.
Proof.
  apply all_chars_join; [done|].
  eapply Forall_impl; [apply compress_chars; [apply hextets_of_bounds|apply hextets_length]|].
  intros p. apply all_chars_impl. unfold is_hex_or_colon. by intros c ->.
Qed.

Lemma str6_no_char n c : is_hex_or_colon c = false -> has_char c (str6 n) = false.
Proof. apply all_chars_has_char, str6_chars. Qed.

Lemma str4_no_char n c : is_dec_or_dot c = false -> has_char c (str4 n) = false.
Proof. apply all_chars_has_char, str4_chars. Qed.

(** ** Addresses *)

Lemma parse4_no_colon s n c : parse4 s = Some n -> is_dec_or_dot c = false -> has_char c s = false.
Proof. intros [-> _]%parse4_canonical. apply str4_no_char. Qed.

Lemma parse6_colon s n : parse6 s = Some n -> has_char ":"%char s = true.
Proof.
  unfold parse6. destruct (String.eqb s ""); [done|].
  destruct (has_char ":" s) eqn:E; [done|]. by rewrite py_split_no_sep.
Qed.

Lemma partition_none c s : has_char c s = false -> partition_char c s = (s, None).
Proof.
  unfold has_char. induction s as [|d s IH]; simpl; [done|].
  intros [Hd Hs]%orb_false_iff. by rewrite Hd, (IH Hs).
Qed.

Lemma partition_some c s t : has_char c s = false -> partition_char c (s +:+ String c t) = (s, Some t).
Proof.
  unfold has_char. induction s as [|d s IH]; simpl.
  - intros _. by rewrite Ascii.eqb_refl.
  - intros [Hd Hs]%orb_false_iff. rewrite ?string_app_cons. simpl. by rewrite Hd, (IH Hs).
Qed.

Lemma partition_spec c s a o :
  partition_char c s = (a, o) ->
  has_char c a = false /\ s = match o with None => a | Some t => a +:+ String c t end.
Proof.
  unfold has_char. revert a o. induction s as [|d s IH]; intros a o; simpl.
  - by intros [= <- <-].
  - destruct (Ascii.eqb_spec c d) as [->|Hne].
    + by intros [= <- <-].
    + destruct (partition_char c s) as [a' o']. intros [= <- <-].
      destruct (IH a' o' eq_refl) as [Ha Hs]. simpl. rewrite Ha, (proj2 (Ascii.eqb_neq _ _) Hne).
      split; [done|]. rewrite Hs. by destruct o'.
Qed.

#[local] Opaque str4 str6 parse4 parse6.

Lemma ipv4_address_str4 n : 0 <= n < 2 ^ 32 -> ipv4_address (str4 n) = Some (Addr V4 n "").
Proof. intros Hn. unfold ipv4_address. rewrite str4_no_char by done. by rewrite parse4_str4. Qed.

Lemma ipv4_address_colon s : has_char ":"%char s = true -> ipv4_address s = None.
Proof.
  intros Hc. unfold ipv4_address. destruct (has_char "/" s); [done|].
  destruct (parse4 s) eqn:E; [|done]. apply (parse4_no_colon _ _ ":"%char) in E; [congruence|done].
Qed.

Lemma split_scope_some a sc :
  has_char "%"%char a = false -> has_char "%"%char sc = false -> sc <> "" ->
  split_scope (a +:+ "%" +:+ sc) = Some (a, sc).
Proof.
  intros Ha Hsc Hne. change ("%" +:+ sc) with (String "%" sc). unfold split_scope. rewrite partition_some by done.
  by rewrite (proj2 (String.eqb_neq _ _) Hne), Hsc.
Qed.

Lemma split_scope_none a : has_char "%"%char a = false -> split_scope a = Some (a, "").
Proof. intros Ha. unfold split_scope. by rewrite partition_none. Qed.

Lemma str6_colon n : 0 <= n < 2 ^ 128 -> has_char ":"%char (str6 n) = true.
Proof. intros Hn. eapply parse6_colon. by apply parse6_str6. Qed.

Lemma scope_no_slash n sc :
  has_char "/"%char sc = false -> has_char "/"%char (str6 n +:+ "%" +:+ sc) = false.
Proof. intros Hs. rewrite !has_char_app, Hs, str6_no_char; reflexivity. Qed.

Lemma ipv6_address_eq s a sc n :
  has_char "/"%char s = false -> split_scope s = Some (a, sc) -> parse6 a = Some n ->
  ipv6_address s = Some (Addr V6 n sc).
Proof. unfold ipv6_address. intros -> ->. cbn [mbind option_bind]. intros ->. reflexivity. Qed.

Lemma ipv6_address_plain n : 0 <= n < 2 ^ 128 -> ipv6_address (str6 n) = Some (Addr V6 n "").
Proof.
  intros Hn. apply (ipv6_address_eq _ (str6 n)).
  - exact (str6_no_char n "/"%char eq_refl).
  - exact (split_scope_none _ (str6_no_char n "%"%char eq_refl)).
  - exact (parse6_str6 n Hn).
Qed.

Lemma ipv6_address_scoped n sc :
  0 <= n < 2 ^ 128 -> has_char "%"%char sc = false -> has_char "/"%char sc = false -> sc <> "" ->
  ipv6_address (str6 n +:+ "%" +:+ sc) = Some (Addr V6 n sc).
Proof.
  intros Hn Hp Hs Hne. apply (ipv6_address_eq _ (str6 n)).
  - exact (scope_no_slash n sc Hs).
  - exact (split_scope_some _ _ (str6_no_char n "%"%char eq_refl) Hp Hne).
  - exact (parse6_str6 n Hn).
Qed.

Lemma ipv6_address_str6 n sc :
  0 <= n < 2 ^ 128 -> has_char "%"%char sc = false -> has_char "/"%char sc = false ->
  ipv6_address (if String.eqb sc "" then str6 n else str6 n +:+ "%" +:+ sc) = Some (Addr V6 n sc).
Proof.
  intros Hn Hp Hs. destruct (String.eqb_spec sc "") as [->|Hne].
  - exact (ipv6_address_plain n Hn).
  - exact (ipv6_address_scoped n sc Hn Hp Hs Hne).
Qed.

Lemma ip_ctor_str a : addr_wf a -> ip_ctor (a_ver a) (str_addr a) = Some a.
Proof.
  intros [Hb Hsc]. destruct a as [[] n sc]; cbn [a_ver a_int a_scope max_plen ip_ctor str_addr] in *.
  - subst sc. by apply ipv4_address_str4.
  - destruct Hsc as [Hp Hs]. by apply ipv6_address_str6.
Qed.

Theorem ip_address_str a : addr_wf a -> ip_address (str_addr a) = Some a.
Proof.
  intros Hwf. pose proof (ip_ctor_str a Hwf) as Hc. unfold ip_address.
  destruct a as [[] n sc]; cbn [a_ver ip_ctor] in Hc; [by rewrite Hc|].
  rewrite ipv4_address_colon; [done|]. destruct Hwf as [Hb _]. cbn [a_ver a_int max_plen] in Hb.
  unfold str_addr. cbn [a_ver a_int a_scope].
  destruct (String.eqb sc ""); [by apply str6_colon|]. by rewrite has_char_app, str6_colon.
Qed.

Lemma addr_wf_v4 n : 0 <= n < 2 ^ 32 -> addr_wf (Addr V4 n "").
Proof. intros Hn. split; [exact Hn|reflexivity]. Qed.

Lemma addr_wf_v6 n sc :
  0 <= n < 2 ^ 128 -> has_char "%"%char sc = false -> has_char "/"%char sc = false ->
  addr_wf (Addr V6 n sc).
Proof. intros Hn H1 H2. split; [exact Hn|exact (conj H1 H2)]. Qed.

Lemma ip_ctor_wf v s a : ip_ctor v s = Some a -> addr_wf a /\ a_ver a = v.
Proof.
  destruct v; cbn [ip_ctor]; unfold ipv4_address, ipv6_address.
  - destruct (has_char "/" s); [done|]. destruct (parse4 s) as [n|] eqn:E; [|done]. cbn.
    intros [= <-]. apply parse4_canonical in E as [_ Hn]. split; [by apply addr_wf_v4|reflexivity].
  - destruct (has_char "/" s) eqn:Es; [done|]. unfold split_scope.
    destruct (partition_char "%" s) as [b o] eqn:Ep. apply partition_spec in Ep as [Hb ->].
    destruct o as [sc|].
    + destruct (String.eqb sc "" || has_char "%" sc) eqn:Esc; [done|]. cbn.
      destruct (parse6 b) as [n|] eqn:E; [|done]. cbn. intros [= <-].
      apply orb_false_iff in Esc as [_ Hsc]. rewrite has_char_app in Es.
      apply orb_false_iff in Es as [_ Es]. apply parse6_bound in E.
      split; [|reflexivity]. apply addr_wf_v6; [exact E|exact Hsc|exact Es].
    + cbn. destruct (parse6 b) as [n|] eqn:E; [|done]. cbn. intros [= <-]. apply parse6_bound in E.
      split; [|reflexivity]. apply addr_wf_v6; [exact E|reflexivity|reflexivity].
Qed.

Lemma ip_address_wf s a : ip_address s = Some a -> addr_wf a.
Proof.
  unfold ip_address. destruct (ipv4_address s) eqn:E.
  - intros [= <-]. exact (proj1 (ip_ctor_wf V4 _ _ E)).
  - intros H. exact (proj1 (ip_ctor_wf V6 _ _ H)).
Qed.

(** ** Netmasks *)

Lemma max_plen_pos v : 0 <= max_plen v.
Proof. by destruct v. Qed.

(** The number of addresses of a block. *)
Definition block (v : ipver) (p : Z) : Z := 2 ^ (max_plen v - p).

Lemma block_pos v p : p <= max_plen v -> 0 < block v p.
Proof. intros Hp. apply Z.pow_pos_nonneg; lia. Qed.

Lemma hostmask_ones v p : 0 <= p <= max_plen v -> hostmask_int v p = Z.ones (max_plen v - p).
Proof.
  intros Hp. unfold hostmask_int, all_ones. apply Z.bits_inj'. intros k Hk.
  rewrite Z.shiftr_spec, !Z.testbit_ones by lia.
  destruct (Z.leb_spec 0 k); [|lia]. destruct (Z.leb_spec 0 (k + p)); [|lia]. cbn [andb].
  destruct (Z.ltb_spec (k + p) (max_plen v)), (Z.ltb_spec k (max_plen v - p)); lia.
Qed.

Lemma land_netmask v p a :
  0 <= p <= max_plen v -> 0 <= a < 2 ^ max_plen v ->
  Z.land a (netmask_int v p) = a - a mod block v p.
Proof.
  intros Hp Ha. unfold netmask_int. fold (hostmask_int v p). rewrite hostmask_ones by done.
  assert (Z.land a (Z.lxor (all_ones v) (Z.ones (max_plen v - p))) = Z.ldiff a (Z.ones (max_plen v - p))) as ->.
  { apply Z.bits_inj'. intros k Hk. rewrite Z.land_spec, Z.lxor_spec, Z.ldiff_spec.
    unfold all_ones. rewrite !Z.testbit_ones by lia.
    destruct (Z.leb_spec 0 k); [|lia]. cbn [andb].
    destruct (Z.ltb_spec k (max_plen v)) as [|Hge]; [done|].
    destruct (Z.ltb_spec k (max_plen v - p)); [lia|]. rewrite andb_false_r. cbn. rewrite andb_true_r.
    destruct (decide (a = 0)) as [->|]; [by rewrite Z.bits_0|].
    symmetry. apply Z.bits_above_log2; [lia|].
    apply Z.log2_lt_pow2; [lia|]. apply Z.lt_le_trans with (1 := proj2 Ha). apply Z.pow_le_mono_r; lia. }
  rewrite Z.ldiff_ones_r by lia. rewrite Z.shiftl_mul_pow2, Z.shiftr_div_pow2 by lia.
  fold (block v p). pose proof (block_pos v p ltac:(lia)).
  pose proof (Z.div_mod a (block v p) ltac:(lia)). lia.
Qed.

Lemma n_last_eq n : net_wf n -> n_last n = n_first n + block (n_ver n) (n_plen n) - 1.
Proof.
  intros ([Hb _] & Hp & Hm). unfold n_last. rewrite hostmask_ones by done.
  fold (block (n_ver n) (n_plen n)) in Hm. set (b := max_plen (n_ver n) - n_plen n) in *.
  assert (Hland : Z.land (n_first n) (Z.ones b) = 0) by (rewrite Z.land_ones by lia; exact Hm).
  rewrite <- Z.lxor_lor by done. rewrite <- Z.add_nocarry_lxor by done.
  rewrite Z.ones_equiv. unfold block. fold b. lia.
Qed.

(** The integers of a network. *)
Definition covers (n : net) (v : ipver) (i : Z) : Prop :=
  n_ver n = v /\ n_first n <= i < n_first n + block (n_ver n) (n_plen n).

Lemma sub_mod_block i f b : 0 < b -> f mod b = 0 -> (i - i mod b = f <-> f <= i < f + b).
Proof.
  intros Hb Hf. pose proof (Z.div_mod i b ltac:(lia)). pose proof (Z.mod_pos_bound i b Hb).
  pose proof (Z.div_mod f b ltac:(lia)). rewrite Hf in *. split; [lia|]. intros Hi.
  assert (i / b = f / b) by nia. nia.
Qed.

Lemma net_has_covers n a :
  net_wf n -> 0 <= a_int a < 2 ^ max_plen (a_ver a) ->
  net_has n a = true <-> covers n (a_ver a) (a_int a).
Proof.
  intros ([Hb _] & Hp & Hm) Ha. unfold net_has, covers. rewrite andb_true_iff, bool_decide_eq_true.
  split; intros [Hv Hi]; (split; [done|]).
  - apply Z.eqb_eq in Hi. rewrite <- Hv in Ha. rewrite land_netmask in Hi by done.
    apply sub_mod_block; [apply block_pos; lia|exact Hm|exact Hi].
  - apply Z.eqb_eq. rewrite <- Hv in Ha. rewrite land_netmask by done.
    apply sub_mod_block; [apply block_pos; lia|exact Hm|exact Hi].
Qed.

Lemma net_range n : net_wf n ->
  0 <= n_first n /\ n_first n + block (n_ver n) (n_plen n) <= 2 ^ max_plen (n_ver n).
Proof.
  intros ([Hb _] & Hp & Hm). fold (n_first n) (n_ver n) in Hb. split; [lia|].
  fold (block (n_ver n) (n_plen n)) in Hm.
  pose proof (block_pos (n_ver n) (n_plen n) ltac:(lia)) as Hpos.
  assert (Hdiv : 2 ^ max_plen (n_ver n) = block (n_ver n) (n_plen n) * 2 ^ n_plen n).
  { unfold block. rewrite <- Z.pow_add_r by lia. f_equal. lia. }
  rewrite Hdiv in *. pose proof (Z.div_mod (n_first n) (block (n_ver n) (n_plen n)) ltac:(lia)) as Hd.
  rewrite Hm in Hd. set (b := block _ _) in *. set (q := n_first n / b) in *.
  assert (q < 2 ^ n_plen n) by nia. nia.
Qed.

(** Two networks overlap exactly when some address is in both. *)
Theorem overlaps_spec a b :
  net_wf a -> net_wf b ->
  overlaps a b = true <-> exists v i, covers a v i /\ covers b v i.
Proof.
  intros Ha Hb. pose proof (net_range a Ha) as Ra. pose proof (net_range b Hb) as Rb.
  pose proof (n_last_eq a Ha) as La. pose proof (n_last_eq b Hb) as Lb.
  pose proof (block_pos (n_ver a) (n_plen a) ltac:(destruct Ha as (_ & ? & _); lia)) as Pa.
  pose proof (block_pos (n_ver b) (n_plen b) ltac:(destruct Hb as (_ & ? & _); lia)) as Pb.
  unfold overlaps. rewrite !orb_true_iff. rewrite !net_has_covers; try done; cbn [addr_of a_ver a_int];
    try (fold (n_first a) (n_ver a)); try (fold (n_first b) (n_ver b)); try lia.
  unfold covers. split.
  - intros [[[[Hv Hi]|[Hv Hi]]|[Hv Hi]]|[Hv Hi]]; rewrite Hv in *.
    + exists (n_ver a), (n_first a). split_all; first [done|lia].
    + exists (n_ver a), (n_last a). split_all; first [done|lia].
    + exists (n_ver b), (n_first b). split_all; first [done|lia].
    + exists (n_ver b), (n_last b). split_all; first [done|lia].
  - intros (v & i & [Hva Hia] & [Hvb Hib]).
    assert (Hv : n_ver b = n_ver a) by congruence. rewrite Hv in *.
    destruct (Z.le_ge_cases (n_first b) (n_first a)).
    + left; left; left. split; [done|]. split_all; first [done|lia].
    + left; right. split; [done|]. split_all; first [done|lia].
Qed.

(** ** Network text *)

Definition prefix_ok (p : Z) : bool :=
  bool_decide (py_int_digits (py_str_int p) = Some p) && all_chars is_digit (py_str_int p).

Lemma prefixes_ok : forall_from 129 0 prefix_ok = true.
Proof. vm_compute. reflexivity. Qed.

Lemma prefix_facts p :
  0 <= p <= 128 -> py_int_digits (py_str_int p) = Some p /\ all_chars is_digit (py_str_int p) = true.
Proof.
  intros Hp. pose proof (forall_from_spec _ _ _ p prefixes_ok ltac:(simpl; lia)) as Hok.
  unfold prefix_ok in Hok. by bool_simpl.
Qed.

Lemma max_plen_le v : max_plen v <= 128.
Proof. by destruct v. Qed.

Lemma make_netmask_str v p : 0 <= p <= max_plen v -> make_netmask v (py_str_int p) = Some p.
Proof.
  intros Hp. unfold make_netmask, prefix_from_prefix_string. pose proof (max_plen_le v).
  rewrite (proj1 (prefix_facts p ltac:(lia))). cbn [mbind option_bind].
  destruct (Z.leb_spec p (max_plen v)); [done|lia].
Qed.

Lemma str_addr_no_slash a : addr_wf a -> has_char "/"%char (str_addr a) = false.
Proof.
  intros [_ Hsc]. destruct a as [[] n sc]; cbn [a_ver a_scope] in Hsc; unfold str_addr;
    cbn [a_ver a_int a_scope].
  - exact (str4_no_char n "/"%char eq_refl).
  - destruct (String.eqb sc ""); [exact (str6_no_char n "/"%char eq_refl)|].
    exact (scope_no_slash n sc (proj2 Hsc)).
Qed.

Lemma mask_addr_id n : net_wf n -> mask_addr (n_addr n) (n_plen n) = n_addr n.
Proof.
  intros ([Hb _] & Hp & Hm). unfold mask_addr. fold (n_ver n) (n_first n) in *.
  rewrite land_netmask by done. fold (block (n_ver n) (n_plen n)) in Hm.
  rewrite Hm, Z.sub_0_r. by rewrite Z.eqb_refl.
Qed.

Lemma net_ctor_eq v s a m a' p :
  py_split "/"%char s = [a; m] -> ip_ctor v a = Some a' -> make_netmask v m = Some p ->
  net_ctor v s = Some (Net (mask_addr a' p) p).
Proof. unfold net_ctor. intros ->. intros Ha Hm. rewrite Ha. cbn [mbind option_bind]. by rewrite Hm. Qed.

Lemma net_ctor_bad_addr v s a m :
  py_split "/"%char s = [a; m] -> ip_ctor v a = None -> net_ctor v s = None.
Proof. unfold net_ctor. intros ->. intros Ha. by rewrite Ha. Qed.

Lemma str_net_split n : net_wf n ->
  py_split "/"%char (str_net n) = [str_addr (n_addr n); py_str_int (n_plen n)].
Proof.
  intros (Ha & Hp & _). unfold str_net. change ("/" +:+ ?x) with (String "/" x).
  rewrite py_split_app_sep by by apply str_addr_no_slash.
  rewrite py_split_no_sep; [done|]. pose proof (max_plen_le (n_ver n)).
  apply digits_no_char; [|done]. apply prefix_facts. lia.
Qed.

Lemma str_addr_v6_colon a : addr_wf a -> a_ver a = V6 -> has_char ":"%char (str_addr a) = true.
Proof.
  intros [Hb _] Hv. unfold str_addr. rewrite Hv in *.
  destruct (String.eqb (a_scope a) ""); [exact (str6_colon _ Hb)|].
  rewrite has_char_app. by rewrite (str6_colon _ Hb).
Qed.

Lemma net_ctor_str n : net_wf n -> net_ctor (n_ver n) (str_net n) = Some n.
Proof.
  intros Hwf. pose proof Hwf as (Ha & Hp & _).
  rewrite (net_ctor_eq _ _ _ _ (n_addr n) (n_plen n) (str_net_split n Hwf)).
  - rewrite mask_addr_id by done. by destruct n.
  - by apply ip_ctor_str.
  - by apply make_netmask_str.
Qed.

Theorem ip_network_str n : net_wf n -> ip_network (str_net n) = Some n.
Proof.
  intros Hwf. pose proof (net_ctor_str n Hwf) as Hc. unfold ip_network.
  destruct (n_ver n) eqn:Ev; [by rewrite Hc|]. rewrite Hc.
  pose proof Hwf as (Ha & _). rewrite (net_ctor_bad_addr V4 _ _ _ (str_net_split n Hwf)); [done|].
  apply ipv4_address_colon. by apply str_addr_v6_colon.
Qed.

Lemma prefix_string_bound v s p : prefix_from_prefix_string v s = Some p -> 0 <= p <= max_plen v.
Proof.
  unfold prefix_from_prefix_string, py_int_digits.
  destruct (py_isdigit s && (String.length s <=? 4300)%nat) eqn:E; [|done]. cbn [mbind option_bind].
  destruct (Z.leb_spec (dec_acc 0 s) (max_plen v)) as [Hle|]; [|done]. intros [= <-]. split; [|done].
  apply andb_prop in E as [Hd _]. unfold py_isdigit in Hd. apply andb_prop in Hd as [_ Hd].
  assert (Hacc : forall s acc, 0 <= acc -> all_chars is_digit s = true -> 0 <= dec_acc acc s).
  { clear. induction s as [|c s IH]; intros acc Hacc; cbn [dec_acc all_chars]; [done|].
    rewrite andb_true_iff. intros [Hc Hs]. apply IH; [|done]. unfold is_digit, digit_val in *.
    apply andb_prop in Hc as [?%N.leb_le ?%N.leb_le]. lia. }
  by apply Hacc.
Qed.

Lemma count_zero_bits_bound f n : 0 <= count_zero_bits f n <= Z.of_nat f.
Proof.
  revert n. induction f as [|f IH]; intros n; cbn [count_zero_bits]; [lia|].
  destruct (Z.odd n); [lia|]. specialize (IH (Z.shiftr n 1)). lia.
Qed.

Lemma prefix_int_bound v n p : prefix_from_ip_int v n = Some p -> 0 <= p <= max_plen v.
Proof.
  unfold prefix_from_ip_int. pose proof (count_zero_bits_bound (Z.to_nat (max_plen v)) n) as Hb.
  pose proof (max_plen_pos v). case_match; [|done]. intros [= <-]. lia.
Qed.

Lemma make_netmask_bound v s p : make_netmask v s = Some p -> 0 <= p <= max_plen v.
Proof.
  unfold make_netmask. destruct (prefix_from_prefix_string v s) eqn:E.
  - intros [= <-]. by eapply prefix_string_bound.
  - destruct v; [|done]. unfold prefix_from_ip_string.
    destruct (parse4 s) as [n|]; [|done]. cbn [mbind option_bind].
    destruct (prefix_from_ip_int V4 n) eqn:E4.
    + intros [= <-]. by apply prefix_int_bound in E4.
    + apply prefix_int_bound.
Qed.

Lemma mask_addr_wf a p :
  addr_wf a -> 0 <= p <= max_plen (a_ver a) ->
  addr_wf (mask_addr a p) /\ a_ver (mask_addr a p) = a_ver a /\
  a_int (mask_addr a p) mod block (a_ver a) p = 0.
Proof.
  intros [Hb Hsc] Hp. unfold mask_addr. rewrite land_netmask by done.
  pose proof (block_pos (a_ver a) p ltac:(lia)) as Hpos.
  pose proof (Z.mod_pos_bound (a_int a) _ Hpos) as Hm.
  destruct (Z.eqb_spec (a_int a - a_int a mod block (a_ver a) p) (a_int a)) as [E|E].
  - split; [by split|]. split; [done|]. lia.
  - split; [|split; [done|]].
    + split; cbn [a_int a_ver a_scope]; [|by destruct (a_ver a)].
      pose proof (Z.mod_le (a_int a) (block (a_ver a) p) ltac:(lia) ltac:(lia)). lia.
    + cbn [a_int]. rewrite Zminus_mod_idemp_r, Z.sub_diag. apply Z.mod_0_l. lia.
Qed.

Lemma net_ctor_wf v s n : net_ctor v s = Some n -> net_wf n /\ n_ver n = v.
Proof.
  assert (Hmk : forall a p, ip_ctor v a = Some p -> forall q, 0 <= q <= max_plen v ->
            net_wf (Net (mask_addr p q) q) /\ n_ver (Net (mask_addr p q) q) = v).
  { intros a p Ha q Hq. apply ip_ctor_wf in Ha as [Hwf Hv].
    destruct (mask_addr_wf p q) as (Hm & Hmv & Hmod); [done|by rewrite Hv|].
    unfold net_wf, n_ver, n_first. cbn [n_addr n_plen]. rewrite Hmv, Hv in *.
    split; [|done]. split; [done|]. split; [done|]. exact Hmod. }
  unfold net_ctor. destruct (py_split "/" s) as [|a [|m [|]]]; try done.
  - destruct (ip_ctor v a) as [p|] eqn:Ea; [|done]. cbn [mbind option_bind]. intros [= <-].
    eapply Hmk; [exact Ea|]. pose proof (max_plen_pos v). lia.
  - destruct (ip_ctor v a) as [p|] eqn:Ea; [|done]. cbn [mbind option_bind].
    destruct (make_netmask v m) as [q|] eqn:Em; [|done]. cbn [mbind option_bind]. intros [= <-].
    eapply Hmk; [exact Ea|]. by eapply make_netmask_bound.
Qed.

Lemma ip_network_wf s n : ip_network s = Some n -> net_wf n.
Proof.
  unfold ip_network. destruct (net_ctor V4 s) eqn:E.
  - intros [= <-]. exact (proj1 (net_ctor_wf _ _ _ E)).
  - intros H. exact (proj1 (net_ctor_wf _ _ _ H)).
Qed.

Lemma is_hex_not_space c : is_hex c = true -> is_space c = false.
Proof.
  unfold is_hex, hex_val. intros Hh. apply bool_decide_eq_true in Hh.
  destruct (is_digit c) eqn:E1; [by apply is_digit_not_space|]. apply is_space_visible.
  destruct ((97 <=? Z.of_N (code c)) && (Z.of_N (code c) <=? 102)) eqn:E2; [lia|].
  destruct ((65 <=? Z.of_N (code c)) && (Z.of_N (code c) <=? 70)) eqn:E3; [lia|].
  by destruct Hh.
Qed.

Lemma str4_no_space n : no_space (str4 n) = true.
Proof.
  eapply all_chars_impl; [|apply str4_chars]. intros c. unfold is_dec_or_dot.
  rewrite orb_true_iff, negb_true_iff. intros [H|H%Ascii.eqb_eq]; [by apply is_digit_not_space|by subst].
Qed.

Lemma str6_no_space n : no_space (str6 n) = true.
Proof.
  eapply all_chars_impl; [|apply str6_chars]. intros c. unfold is_hex_or_colon.
  rewrite orb_true_iff, negb_true_iff. intros [H|H%Ascii.eqb_eq]; [by apply is_hex_not_space|by subst].
Qed.

Lemma plen_no_space p : 0 <= p <= 128 -> no_space (py_str_int p) = true /\ py_str_int p <> "".
Proof.
  intros Hp. destruct (prefix_facts p Hp) as [H1 H2]. split.
  - eapply all_chars_impl; [|exact H2]. intros c. rewrite negb_true_iff. apply is_digit_not_space.
  - intros E. rewrite E in H1. discriminate H1.
Qed.

Lemma str4_nonempty n : str4 n <> "".
Proof. intros E. pose proof (str4_join n) as H. rewrite E in H. cbn [map] in H.
  rewrite py_join_cons in H. by destruct (py_str_int _). Qed.

(** An address text is a space-free start and its scope. *)
Lemma str_addr_start a : addr_wf a ->
  exists s m, no_space s = true /\ s <> "" /\ str_addr a = s +:+ m.
Proof.
  intros [Hb _]. destruct a as [[] n sc]; cbn [a_ver a_int max_plen] in Hb; unfold str_addr; cbn [a_ver a_int a_scope].
  - exists (str4 n), "". rewrite string_app_nil_r. split; [apply str4_no_space|]. split; [apply str4_nonempty|done].
  - assert (str6 n <> "") as Hne.
    { intros E. pose proof (str6_colon n Hb) as H. by rewrite E in H. }
    destruct (String.eqb sc "").
    + exists (str6 n), "". rewrite string_app_nil_r. split; [apply str6_no_space|done].
    + exists (str6 n), ("%" +:+ sc). split; [apply str6_no_space|done].
Qed.

Lemma py_strip_str_net n : net_wf n -> py_strip (str_net n) = str_net n.
Proof.
  intros (Ha & Hp & _). destruct (str_addr_start _ Ha) as (s & m & Hs & Hne & E).
  unfold str_net. rewrite E, string_app_assoc, <- (string_app_assoc m).
  pose proof (max_plen_le (n_ver n)). destruct (plen_no_space (n_plen n) ltac:(lia)).
  by apply py_strip_ends.
Qed.

#[export] Hint Resolve ip_address_wf ip_network_wf ip_address_str ip_network_str : fwr.
