(* ===== verification/IpCollapse.v ===== *)
(** * [collapse_addresses] keeps the set of addresses

    For networks of one version without scope ids the result always exists,
    covers exactly the same integers, and its networks are pairwise
    disjoint. *)
From stdpp Require Import base list strings pretty sorting.
From Stdlib Require Import ZArith Lia Ascii.
From S2P Require Import Prelude PyStr IpAddr IpAddrFacts.

Open Scope string_scope.
Open Scope Z_scope.
Open Scope list_scope.

Definition unscoped (n : net) : Prop := a_scope (n_addr n) = "".

Lemma netmask_bit v p k : 0 <= p <= max_plen v ->
  Z.testbit (netmask_int v p) k = (0 <=? k) && (max_plen v - p <=? k) && (k <? max_plen v).
Proof.
  intros Hp. destruct (Z.leb_spec 0 k) as [Hk|Hk]; [|by rewrite Z.testbit_neg_r].
  unfold netmask_int. fold (hostmask_int v p). rewrite hostmask_ones by done. unfold all_ones.
  rewrite Z.lxor_spec, !Z.testbit_ones by lia.
  destruct (Z.leb_spec 0 k), (Z.ltb_spec k (max_plen v)), (Z.ltb_spec k (max_plen v - p)),
    (Z.leb_spec (max_plen v - p) k); simpl; lia.
Qed.

Section Collapse.
Context (v : ipver).

(** A well-formed network of the version at hand, without a scope. *)
Definition good (n : net) : Prop := net_wf n /\ n_ver n = v /\ unscoped n.

(** The integers a list of networks covers. *)
Definition cov (l : list net) (i : Z) : Prop := exists n, n ∈ l /\ covers n v i.

Definition blk (n : net) : Z := block v (n_plen n).

Lemma good_plen n : good n -> 0 <= n_plen n <= max_plen v.
Proof. intros [(_ & Hp & _) [Hv _]]. rewrite <- Hv. exact Hp. Qed.

Lemma good_mod n : good n -> n_first n mod blk n = 0.
Proof. intros [(_ & _ & Hm) [Hv _]]. unfold blk. rewrite <- Hv. exact Hm. Qed.

Lemma good_blk n : good n -> 0 < blk n.
Proof. intros Hg. apply block_pos. apply good_plen in Hg. lia. Qed.

Lemma good_range n : good n -> 0 <= n_first n /\ n_first n + blk n <= 2 ^ max_plen v.
Proof. intros [Hwf [Hv _]]. pose proof (net_range n Hwf) as H. by rewrite Hv in H. Qed.

Lemma good_covers n i : good n -> covers n v i <-> n_first n <= i < n_first n + blk n.
Proof. intros [_ [Hv _]]. unfold covers, blk. rewrite Hv. tauto. Qed.

Lemma good_last n : good n -> n_last n = n_first n + blk n - 1.
Proof. intros [Hwf [Hv _]]. pose proof (n_last_eq n Hwf) as H. by rewrite Hv in H. Qed.

Lemma good_eq a b : good a -> good b -> n_first a = n_first b -> n_plen a = n_plen b -> a = b.
Proof.
  intros (_ & Ha & Hsa) (_ & Hb & Hsb) Hf Hp. unfold unscoped, n_ver, n_first in *.
  destruct a as [[] ?], b as [[] ?]; simpl in *. congruence.
Qed.

Lemma mk_good f p :
  0 <= p <= max_plen v -> 0 <= f < 2 ^ max_plen v -> f mod block v p = 0 ->
  good (Net (Addr v f "") p).
Proof.
  intros Hp Hf Hm. split; [|split; reflexivity]. split; [|split; [exact Hp|exact Hm]].
  split; [exact Hf|]. by destruct v.
Qed.

Lemma cov_nil i : cov [] i <-> False.
Proof. split; [|done]. intros (n & Hn & _). by apply elem_of_nil in Hn. Qed.

Lemma cov_cons n l i : cov (n :: l) i <-> covers n v i \/ cov l i.
Proof.
  unfold cov. setoid_rewrite elem_of_cons. split.
  - intros (m & [->|Hm] & Hc); eauto.
  - intros [Hc|(m & Hm & Hc)]; eauto.
Qed.

Lemma cov_app l k i : cov (l ++ k) i <-> cov l i \/ cov k i.
Proof.
  unfold cov. setoid_rewrite elem_of_app. split.
  - intros (m & [Hm|Hm] & Hc); eauto.
  - intros [(m & Hm & Hc)|(m & Hm & Hc)]; eauto.
Qed.

Lemma cov_perm l k i : l ≡ₚ k -> cov l i <-> cov k i.
Proof. intros Hp. unfold cov. by setoid_rewrite Hp. Qed.

(** ** Supernets *)

Lemma block_double p : 0 < p <= max_plen v -> block v (p - 1) = 2 * block v p.
Proof.
  intros Hp. unfold block. replace (max_plen v - (p - 1)) with (Z.succ (max_plen v - p)) by lia.
  by rewrite Z.pow_succ_r by lia.
Qed.

Lemma supernet_first n : good n -> 0 < n_plen n ->
  n_first (supernet n) = n_first n - n_first n mod block v (n_plen n - 1).
Proof.
  intros Hg Hp. pose proof (good_plen n Hg). pose proof (good_range n Hg). pose proof (good_blk n Hg).
  unfold supernet. destruct (Z.eqb_spec (n_plen n) 0); [lia|].
  unfold n_first at 1. cbn [n_addr a_int]. pose proof Hg as [_ [Hv _]]. rewrite Hv.
  rewrite <- land_netmask by lia. set (a := n_first n) in *. set (p := n_plen n) in *.
  apply Z.bits_inj'. intros k Hk. rewrite !Z.land_spec. rewrite Z.shiftl_spec by lia.
  destruct (Z.testbit a k) eqn:Ea; [|done]. cbn [andb].
  assert (Hlt : k < max_plen v).
  { destruct (Z.lt_ge_cases k (max_plen v)) as [|Hge]; [done|].
    rewrite Z.bits_above_log2 in Ea; [done|lia|].
    destruct (decide (a = 0)) as [E|]; [by rewrite E, Z.bits_0 in Ea|].
    apply Z.log2_lt_pow2; [lia|]. apply Z.lt_le_trans with (2 ^ max_plen v); [lia|].
    apply Z.pow_le_mono_r; lia. }
  rewrite !netmask_bit by lia.
  destruct (Z.leb_spec 0 (k - 1)), (Z.leb_spec (max_plen v - p) (k - 1)),
    (Z.ltb_spec (k - 1) (max_plen v)), (Z.leb_spec 0 k), (Z.leb_spec (max_plen v - (p - 1)) k),
    (Z.ltb_spec k (max_plen v)); simpl; lia.
Qed.

Lemma supernet_zero n : n_plen n = 0 -> supernet n = n.
Proof. intros H. unfold supernet. by rewrite H. Qed.

Lemma supernet_plen n : 0 < n_plen n -> n_plen (supernet n) = n_plen n - 1.
Proof. intros H. unfold supernet. destruct (Z.eqb_spec (n_plen n) 0); [lia|done]. Qed.

Lemma blk_super n : good n -> 0 < n_plen n -> blk (supernet n) = 2 * blk n.
Proof.
  intros Hg Hp. unfold blk. rewrite supernet_plen by done. apply block_double.
  pose proof (good_plen n Hg). lia.
Qed.

Lemma supernet_good n : good n -> good (supernet n).
Proof.
  intros Hg. destruct (decide (n_plen n = 0)) as [E|E]; [by rewrite supernet_zero|].
  pose proof (good_plen n Hg). pose proof (good_range n Hg). pose proof (good_blk n Hg).
  pose proof (supernet_first n Hg ltac:(lia)) as Hf.
  assert (Hs : supernet n = Net (Addr v (n_first (supernet n)) "") (n_plen n - 1)).
  { destruct Hg as [_ [Hv _]]. unfold supernet, n_first. destruct (Z.eqb_spec (n_plen n) 0); [lia|].
    cbn [n_addr a_int]. by rewrite <- Hv at 1. }
  rewrite Hs. pose proof (block_pos v (n_plen n - 1) ltac:(lia)) as Hb.
  pose proof (Z.mod_pos_bound (n_first n) _ Hb). pose proof (Z.mod_le (n_first n) _ ltac:(lia) Hb).
  apply mk_good; [lia|lia|]. rewrite Hf, Zminus_mod_idemp_r, Z.sub_diag. apply Z.mod_0_l. lia.
Qed.

(** A network is one of the two halves of its supernet. *)
Lemma supernet_half n : good n -> 0 < n_plen n ->
  n_first n = n_first (supernet n) \/ n_first n = n_first (supernet n) + blk n.
Proof.
  intros Hg Hp. rewrite supernet_first by done. pose proof (good_plen n Hg).
  rewrite block_double by lia. fold (blk n). pose proof (good_blk n Hg). pose proof (good_mod n Hg) as Hm.
  pose proof (Z.div_mod (n_first n) (blk n) ltac:(lia)) as Hd. rewrite Hm in Hd.
  pose proof (Z.div_mod (n_first n) (2 * blk n) ltac:(lia)) as Hd2.
  pose proof (Z.mod_pos_bound (n_first n) (2 * blk n) ltac:(lia)) as Hb.
  set (q := n_first n / blk n) in *. set (r := n_first n mod (2 * blk n)) in *.
  set (q2 := n_first n / (2 * blk n)) in *.
  assert (r = blk n * (q - 2 * q2)) by lia.
  assert (0 <= q - 2 * q2 < 2) by nia. assert (q - 2 * q2 = 0 \/ q - 2 * q2 = 1) as [E|E] by lia;
    rewrite E in *; lia.
Qed.

Lemma supernet_covers n i : good n -> covers n v i -> covers (supernet n) v i.
Proof.
  intros Hg. destruct (decide (n_plen n = 0)) as [E|E]; [by rewrite supernet_zero|].
  pose proof (good_plen n Hg). pose proof (good_blk n Hg).
  rewrite !good_covers by (try apply supernet_good; done).
  rewrite blk_super by first [done|lia]. destruct (supernet_half n Hg); lia.
Qed.

(** Two different networks with one supernet cover exactly it. *)
Lemma siblings a b : good a -> good b -> a <> b -> supernet a = supernet b ->
  forall i, covers (supernet a) v i <-> covers a v i \/ covers b v i.
Proof.
  intros Ha Hb Hne Hs i. split.
  2: { intros [H|H]; [by apply supernet_covers|]. rewrite Hs. by apply supernet_covers. }
  pose proof (good_plen a Ha). pose proof (good_plen b Hb).
  destruct (decide (n_plen a = 0)) as [Ea|Ea]; [rewrite supernet_zero by done; auto|].
  destruct (decide (n_plen b = 0)) as [Eb|Eb]; [rewrite Hs, supernet_zero by done; auto|].
  assert (Hp : n_plen a = n_plen b).
  { pose proof (supernet_plen a ltac:(lia)). pose proof (supernet_plen b ltac:(lia)). rewrite Hs in *. lia. }
  rewrite !good_covers by (try apply supernet_good; done).
  rewrite blk_super by first [done|lia]. pose proof (supernet_half a Ha ltac:(lia)) as Ga.
  pose proof (supernet_half b Hb ltac:(lia)) as Gb. rewrite <- Hs in Gb.
  assert (Hf : n_first a <> n_first b) by (intros ?; apply Hne; by apply good_eq).
  unfold blk in *. rewrite Hp in *. lia.
Qed.

(** ** The merge loop *)

(** Every key of the dictionary is the supernet of its value. *)
Definition dict_ok (d : subnets) : Prop :=
  Forall (fun kv => good kv.2 /\ kv.1 = supernet kv.2) d.

Lemma subnets_get_in k d m : subnets_get k d = Some m -> (k, m) ∈ d.
Proof.
  induction d as [|[k' m'] d IH]; simpl; [done|]. destruct (decide (k = k')) as [->|].
  - intros [= ->]. by left.
  - intros H. right. by apply IH.
Qed.

Lemma subnets_del_perm k d m : subnets_get k d = Some m -> d ≡ₚ (k, m) :: subnets_del k d.
Proof.
  induction d as [|[k' m'] d IH]; simpl; [done|]. destruct (decide (k = k')) as [->|].
  - by intros [= ->].
  - intros H. rewrite (IH H) at 1. apply Permutation_swap.
Qed.

Lemma merge_loop_spec fuel todo d :
  (2 * length todo + length d <= fuel)%nat -> Forall good todo -> dict_ok d ->
  exists d', merge_loop fuel todo d = Some d' /\ dict_ok d' /\
    forall i, cov (map snd d') i <-> cov todo i \/ cov (map snd d) i.
Proof.
  revert todo d. induction fuel as [|f IH]; intros todo d Hfuel Htodo Hd.
  - destruct todo as [|n todo]; [|simpl in Hfuel; lia]. exists d. split; [done|]. split; [done|].
    intros i. rewrite cov_nil. tauto.
  - destruct Htodo as [|n todo Hn Htodo].
    { exists d. split; [done|]. split; [done|]. intros i. rewrite cov_nil. tauto. }
    cbn [merge_loop length] in *.
    destruct (subnets_get (supernet n) d) as [m|] eqn:Eg.
    + pose proof (subnets_get_in _ _ _ Eg) as Hin. pose proof (subnets_del_perm _ _ _ Eg) as Hperm.
      pose proof (proj1 (Forall_forall _ _) Hd _ Hin) as [Hm Hk]. cbn [fst snd] in Hm, Hk.
      pose proof (Permutation_length Hperm) as Hlen. cbn [length] in Hlen.
      assert (Hcd : forall i, cov (map snd d) i <-> covers m v i \/ cov (map snd (subnets_del (supernet n) d)) i).
      { intros i. rewrite (cov_perm _ _ i (Permutation_map snd Hperm)). cbn [map snd]. apply cov_cons. }
      destruct (decide (m = n)) as [->|Hne].
      * destruct (IH todo d ltac:(lia) Htodo Hd) as (d' & E & Hok & Hc).
        exists d'. split; [done|]. split; [done|]. intros i. rewrite Hc, cov_cons, Hcd. tauto.
      * destruct (IH (supernet n :: todo) (subnets_del (supernet n) d)) as (d' & E & Hok & Hc).
        { cbn [length]. lia. }
        { constructor; [by apply supernet_good|done]. }
        { unfold dict_ok in *. rewrite Hperm in Hd. by inversion Hd. }
        exists d'. split; [done|]. split; [done|]. intros i. rewrite Hc, !cov_cons, Hcd.
        rewrite (siblings n m Hn Hm) by (try done; congruence). tauto.
    + destruct (IH todo (d ++ [(supernet n, n)])) as (d' & E & Hok & Hc); [| |apply Forall_app; split|].
      * rewrite length_app. cbn [length]. lia.
      * done.
      * done.
      * constructor; [split; [exact Hn|reflexivity]|constructor].
      * exists d'. split; [done|]. split; [done|]. intros i. rewrite Hc, map_app, cov_app, cov_cons.
        cbn [map snd]. rewrite cov_cons, cov_nil. tauto.
Qed.

(** ** The final pass *)

Lemma netmask_value p : 0 <= p <= max_plen v -> netmask_int v p = 2 ^ max_plen v - block v p.
Proof.
  intros Hp. transitivity (Z.ones (max_plen v) - Z.ones (max_plen v - p)).
  2: { rewrite !Z.ones_equiv. unfold block. lia. }
  rewrite Z.sub_nocarry_ldiff; apply Z.bits_inj'; intros k Hk.
  - rewrite netmask_bit, Z.ldiff_spec, !Z.testbit_ones by lia.
    destruct (Z.leb_spec 0 k), (Z.leb_spec (max_plen v - p) k), (Z.ltb_spec k (max_plen v)),
      (Z.ltb_spec k (max_plen v - p)); simpl; lia.
  - rewrite Z.ldiff_spec, Z.bits_0, !Z.testbit_ones by lia.
    destruct (Z.leb_spec 0 k), (Z.ltb_spec k (max_plen v)), (Z.ltb_spec k (max_plen v - p)); simpl; lia.
Qed.

Lemma net_leb_total a b : net_leb a b = true \/ net_leb b a = true.
Proof.
  unfold net_leb. destruct (Z.eqb_spec (n_first a) (n_first b)), (Z.eqb_spec (n_first b) (n_first a)); lia.
Qed.

Lemma net_leb_trans a b c : net_leb a b = true -> net_leb b c = true -> net_leb a c = true.
Proof.
  unfold net_leb. destruct (Z.eqb_spec (n_first a) (n_first b)), (Z.eqb_spec (n_first b) (n_first c)),
    (Z.eqb_spec (n_first a) (n_first c)); lia.
Qed.

Lemma net_leb_spec a b : good a -> good b -> net_leb a b = true ->
  n_first a < n_first b \/ (n_first a = n_first b /\ blk b <= blk a).
Proof.
  intros Ha Hb. unfold net_leb. pose proof (good_plen a Ha). pose proof (good_plen b Hb).
  destruct Ha as [_ [Hva _]], Hb as [_ [Hvb _]]. rewrite Hva, Hvb.
  rewrite !netmask_value by done. fold (blk a) (blk b).
  destruct (Z.eqb_spec (n_first a) (n_first b)); lia.
Qed.

Lemma blk_divides a b : good a -> good b -> blk a <= blk b -> (blk a | blk b).
Proof.
  intros Ha Hb Hle. pose proof (good_plen a Ha). pose proof (good_plen b Hb).
  unfold blk, block in *. destruct (Z.le_gt_cases (n_plen b) (n_plen a)) as [Hp|Hp].
  - exists (2 ^ (n_plen a - n_plen b)). rewrite <- Z.pow_add_r by lia. f_equal. lia.
  - pose proof (Z.pow_lt_mono_r 2 (max_plen v - n_plen b) (max_plen v - n_plen a)). lia.
Qed.

(** In sorted order a network that ends later starts after the end. *)
Lemma sorted_disjoint a b : good a -> good b -> net_leb a b = true ->
  n_last a < n_last b -> n_last a < n_first b.
Proof.
  intros Ha Hb Hle. rewrite !good_last by done. pose proof (good_blk a Ha). pose proof (good_blk b Hb).
  pose proof (good_mod a Ha) as Ma. pose proof (good_mod b Hb) as Mb.
  apply net_leb_spec in Hle; [|done|done]. intros Hlast.
  destruct (Z.lt_ge_cases (n_first a + blk a - 1) (n_first b)) as [|Hov]; [done|].
  apply Z.mod_divide in Ma as [qa Ea]; [|lia]. apply Z.mod_divide in Mb as [qb Eb]; [|lia].
  destruct (Z.le_ge_cases (blk a) (blk b)) as [Hblk|Hblk].
  - destruct (blk_divides a b Ha Hb Hblk) as [k Ek].
    destruct Hle as [Hlt|[Heq Hle]]; [|clear -Hlast Hle Heq Hblk; lia].
    assert (Eb' : n_first b = (qb * k) * blk a) by (rewrite Eb, Ek; ring).
    clear Eb Ek. set (q := qb * k) in *. assert (qa < q) by nia. nia.
  - destruct (blk_divides b a Hb Ha Hblk) as [k Ek].
    assert (Ee : n_first a + blk a = (qa * k + k) * blk b) by (rewrite Ea, Ek; ring).
    clear Ea Ek Hle. set (e := qa * k + k) in *. assert (qb < e) by nia. nia.
Qed.

Definition before (a b : net) : Prop := n_last a < n_first b.
Definition net_le (a b : net) : Prop := net_leb a b = true.

Lemma net_le_first a b : good a -> good b -> net_le a b -> n_first a <= n_first b.
Proof. intros Ha Hb H. apply net_leb_spec in H; [lia|done|done]. Qed.

Lemma drop_subsumed_some m l :
  good m -> Forall good l -> StronglySorted net_le (m :: l) ->
  Forall good (drop_subsumed (Some m) l) /\
  StronglySorted before (m :: drop_subsumed (Some m) l) /\
  forall i, covers m v i \/ cov (drop_subsumed (Some m) l) i <-> covers m v i \/ cov l i.
Proof.
  revert m. induction l as [|n l IH]; intros m Hm Hl Hs.
  { split; [done|]. split; [by repeat constructor|]. done. }
  cbn [drop_subsumed]. inversion Hl as [|? ? Hn Hl']; subst.
  inversion Hs as [|? ? Hs' Hall]; subst. inversion Hall as [|? ? Hmn Hml]; subst.
  pose proof (net_le_first m n Hm Hn Hmn) as Hfirst.
  destruct (Z.leb_spec (n_last n) (n_last m)) as [Hsub|Hlater].
  - inversion Hs'; subst. destruct (IH m Hm Hl') as (Hg & Hb & Hc); [by constructor|].
    split; [done|]. split; [done|]. intros i. rewrite Hc, cov_cons.
    assert (covers n v i -> covers m v i) by
      (rewrite !good_covers by done; rewrite !good_last in Hsub by done; lia). tauto.
  - destruct (IH n Hn Hl' Hs') as (Hg & Hb & Hc).
    split; [by constructor|]. split.
    + assert (Hmn' : before m n) by (by apply sorted_disjoint).
      constructor; [done|]. constructor; [done|]. inversion Hb as [|? ? _ Hbn]; subst.
      rewrite Forall_forall in *. intros x Hx. specialize (Hbn x Hx). unfold before in *.
      pose proof (good_last n Hn). pose proof (good_blk n Hn). lia.
    + intros i. rewrite !cov_cons, Hc. tauto.
Qed.

Lemma drop_subsumed_none l :
  Forall good l -> StronglySorted net_le l ->
  Forall good (drop_subsumed None l) /\ StronglySorted before (drop_subsumed None l) /\
  forall i, cov (drop_subsumed None l) i <-> cov l i.
Proof.
  destruct l as [|m l]; intros Hl Hs.
  { split; [constructor|]. split; [constructor|]. done. }
  cbn [drop_subsumed]. inversion Hl; subst. destruct (drop_subsumed_some m l) as (Hg & Hb & Hc); try done.
  split; [by constructor|]. split; [done|]. intros i. by rewrite !cov_cons, Hc.
Qed.

Lemma collapse_internal_spec l :
  Forall good l ->
  exists out, collapse_internal l = Some out /\ Forall good out /\ StronglySorted before out /\
    forall i, cov out i <-> cov l i.
Proof.
  intros Hl. unfold collapse_internal.
  destruct (merge_loop_spec (2 * length l) (rev l) []) as (d & Ed & Hok & Hc).
  { rewrite length_rev. cbn [length]. lia. }
  { by apply Forall_rev. }
  { constructor. }
  rewrite Ed. cbn [mbind option_bind]. eexists. split; [reflexivity|].
  assert (Hg : Forall good (sort_by net_leb (map snd d))).
  { rewrite sort_by_perm. apply Forall_fmap. eapply Forall_impl; [exact Hok|]. by intros kv []. }
  destruct (drop_subsumed_none _ Hg) as (Hg' & Hb & Hc').
  { apply sort_by_sorted; [apply net_leb_total|apply net_leb_trans]. }
  split; [done|]. split; [done|]. intros i. rewrite Hc', (cov_perm _ _ i (sort_by_perm _ _)), Hc.
  rewrite (cov_perm (rev l) l) by (symmetry; apply Permutation_rev). cbn [map]. rewrite cov_nil. tauto.
Qed.

(** ** Single addresses *)

Lemma count_zero_bits_div f n : (2 ^ count_zero_bits f n | n).
Proof.
  revert n. induction f as [|f IH]; intros n; cbn [count_zero_bits]; [apply Z.divide_1_l|].
  destruct (Z.odd n) eqn:Eo; [apply Z.divide_1_l|].
  destruct (IH (Z.shiftr n 1)) as [k Hk]. pose proof (count_zero_bits_bound f (Z.shiftr n 1)).
  exists k. rewrite Z.pow_add_r by lia. rewrite Z.mul_comm, <- Z.mul_assoc, (Z.mul_comm _ k), <- Hk.
  rewrite Z.shiftr_div_pow2 by lia. change (2 ^ 1) with 2.
  pose proof (Z.div_mod n 2 ltac:(lia)). rewrite Zmod_odd, Eo in *. lia.
Qed.

Lemma summarize_range_spec fuel first last :
  0 <= first -> last < 2 ^ max_plen v -> last - first + 1 <= Z.of_nat fuel ->
  Forall good (summarize_range fuel v first last) /\
  forall i, cov (summarize_range fuel v first last) i <-> first <= i <= last.
Proof.
  revert first. induction fuel as [|f IH]; intros first H0 Hlast Hfuel; cbn [summarize_range].
  { split; [constructor|]. intros i. rewrite cov_nil. lia. }
  destruct (Z.leb_spec first last) as [Hle|]; [|split; [constructor|]; intros i; rewrite cov_nil; lia].
  set (nbits := Z.min _ _).
  pose proof (max_plen_pos v). pose proof (Z.log2_nonneg (last - first + 1)).
  pose proof (count_zero_bits_bound (Z.to_nat (max_plen v)) first) as Hcz.
  rewrite Z2Nat.id in Hcz by lia.
  assert (Hn : 0 <= nbits <= max_plen v) by lia.
  assert (Hdiv : (2 ^ nbits | first)).
  { apply Z.divide_trans with (2 := count_zero_bits_div (Z.to_nat (max_plen v)) first).
    exists (2 ^ (count_zero_bits (Z.to_nat (max_plen v)) first - nbits)).
    rewrite <- Z.pow_add_r by lia. f_equal. lia. }
  assert (Hfit : 2 ^ nbits <= last - first + 1).
  { apply Z.le_trans with (2 ^ Z.log2 (last - first + 1)); [apply Z.pow_le_mono_r; lia|].
    apply Z.log2_spec. lia. }
  pose proof (Z.pow_pos_nonneg 2 nbits ltac:(lia) ltac:(lia)) as Hpos.
  assert (Hblk : block v (max_plen v - nbits) = 2 ^ nbits) by (unfold block; f_equal; lia).
  assert (Hgood : good (Net (Addr v first "") (max_plen v - nbits))).
  { apply mk_good; [lia|lia|]. rewrite Hblk. apply Z.mod_divide; [lia|exact Hdiv]. }
  rewrite Z.shiftl_mul_pow2, Z.mul_1_l by lia.
  assert (Hcov : forall i, covers (Net (Addr v first "") (max_plen v - nbits)) v i
                   <-> first <= i < first + 2 ^ nbits).
  { intros i. rewrite good_covers by done. unfold blk, n_first. cbn [n_addr a_int n_plen]. by rewrite Hblk. }
  destruct (Z.eqb_spec (first + 2 ^ nbits - 1) (all_ones v)) as [Eall|_].
  - split; [by constructor|]. intros i. rewrite cov_cons, cov_nil, Hcov.
    unfold all_ones in Eall. rewrite Z.ones_equiv in Eall. lia.
  - destruct (IH (first + 2 ^ nbits)) as [Hg Hc]; [lia|lia|lia|].
    split; [by constructor|]. intros i. rewrite cov_cons, Hcov, Hc. lia.
Qed.

Definition addr_in (a : addr) : Prop := a_ver a = v /\ 0 <= a_int a < 2 ^ max_plen v.

Definition range_has (r : addr * addr) (i : Z) : Prop := a_int r.1 <= i <= a_int r.2.

Lemma find_ranges_spec first last l :
  addr_in first -> addr_in last -> a_int first <= a_int last -> Forall addr_in l ->
  Forall (fun r => addr_in r.1 /\ addr_in r.2) (find_ranges first last l) /\
  forall i, (exists r, r ∈ find_ranges first last l /\ range_has r i) <->
    a_int first <= i <= a_int last \/ exists a, a ∈ l /\ a_int a = i.
Proof.
  intros Hf Hl Hle Hall. revert first last Hf Hl Hle.
  induction Hall as [|a l Ha Hall IH]; intros first last Hf Hl Hle; cbn [find_ranges].
  - split; [by constructor; [split|constructor]|]. intros i. split.
    + intros (r & ->%list_elem_of_singleton & Hr). by left.
    + intros [H|(a & Ha & _)]; [|by apply elem_of_nil in Ha].
      exists (first, last). split; [by left|done].
  - setoid_rewrite elem_of_cons.
    destruct (Z.eqb_spec (a_int a) (a_int last + 1)) as [E|E].
    + destruct (IH first a Hf Ha ltac:(lia)) as [Hg Hc]. split; [done|]. intros i. rewrite Hc.
      split.
      * intros [H|(b & Hb & Hi)]; [|eauto].
        destruct (decide (i = a_int a)) as [->|]; [eauto|]. left. lia.
      * intros [H|(b & [->|Hb] & Hi)]; [left; lia|left; lia|eauto].
    + destruct (IH a a Ha Ha ltac:(lia)) as [Hg Hc]. split; [by constructor|]. intros i.
      setoid_rewrite elem_of_cons. split.
      * intros (r & [->|Hr] & Hi); [by left|].
        destruct (proj1 (Hc i) (ex_intro _ r (conj Hr Hi))) as [H|(b & Hb & Hbi)]; [|eauto].
        right. exists a. split; [by left|lia].
      * intros [H|(b & Hb & Hi)].
        -- exists (first, last). split; [by left|done].
        -- destruct (proj2 (Hc i)) as (r & Hr & Hri); [|eauto].
           destruct Hb as [->|Hb]; [left; lia|eauto].
Qed.

Lemma range_nets_spec r : addr_in r.1 -> addr_in r.2 ->
  Forall good (range_nets r) /\ forall i, cov (range_nets r) i <-> range_has r i.
Proof.
  intros [Hv1 H1] [Hv2 H2]. unfold range_nets. rewrite Hv1.
  apply summarize_range_spec; lia.
Qed.

Lemma cov_flat_map {A} (f : A -> list net) l i :
  cov (flat_map f l) i <-> exists x, x ∈ l /\ cov (f x) i.
Proof.
  induction l as [|x l IH]; cbn [flat_map].
  - rewrite cov_nil. split; [done|]. intros (x & Hx & _). by apply elem_of_nil in Hx.
  - rewrite cov_app, IH. setoid_rewrite elem_of_cons. split.
    + intros [H|(y & Hy & H)]; eauto.
    + intros (y & [->|Hy] & H); eauto.
Qed.

Lemma single_covers n i : good n -> n_plen n = max_plen v -> covers n v i <-> i = n_first n.
Proof.
  intros Hg Hp. rewrite good_covers by done. unfold blk, block. rewrite Hp, Z.sub_diag.
  change (2 ^ 0) with 1. lia.
Qed.

Lemma filter_cov (p : net -> bool) l i :
  cov l i <-> cov (List.filter p l) i \/ cov (List.filter (fun n => negb (p n)) l) i.
Proof.
  induction l as [|n l IH]; cbn [List.filter]; [rewrite !cov_nil; tauto|].
  destruct (p n); cbn [negb]; rewrite !cov_cons, IH; tauto.
Qed.

Lemma filter_good (p : net -> bool) l : Forall good l -> Forall good (List.filter p l).
Proof. rewrite !List.Forall_forall. intros H n [Hn _]%List.filter_In. auto. Qed.

(** The collapse of networks of one version: it returns, it covers the same
    addresses, and its networks are disjoint and in order. *)
Theorem collapse_addresses_spec l :
  Forall good l ->
  exists out, collapse_addresses l = Some out /\ Forall good out /\ StronglySorted before out /\
    forall i, cov out i <-> cov l i.
Proof.
  intros Hl. unfold collapse_addresses.
  set (single := fun n => n_plen n =? max_plen (n_ver n)).
  set (ips := sort_by addr_leb (remove_dups (map n_addr (List.filter single l)))).
  set (nets := List.filter (fun n => negb (single n)) l).
  set (addrs := match ips with [] => [] | a :: ips' => flat_map range_nets (find_ranges a a ips') end).
  assert (Hips : forall a, a ∈ ips <-> exists n, n ∈ List.filter single l /\ a = n_addr n).
  { intros a. unfold ips. rewrite elem_of_sort_by, elem_of_remove_dups, list_elem_of_fmap. naive_solver. }
  assert (Hsingle : forall n, n ∈ List.filter single l -> good n /\ n_plen n = max_plen v).
  { intros n Hn. apply list_elem_of_In, List.filter_In in Hn as [Hin Hs].
    rewrite List.Forall_forall in Hl. pose proof (Hl n Hin) as Hg. split; [done|].
    destruct Hg as [_ [Hv _]]. unfold single in Hs. rewrite Hv in Hs. by apply Z.eqb_eq in Hs. }
  assert (Hin : Forall addr_in ips).
  { apply Forall_forall. intros a (n & Hn & ->)%Hips. apply Hsingle in Hn as [Hg _].
    split; [by destruct Hg as [_ [Hv _]]|]. pose proof (good_range n Hg). pose proof (good_blk n Hg).
    fold (n_first n). lia. }
  assert (Hcov1 : forall i, cov (List.filter single l) i <-> exists a, a ∈ ips /\ a_int a = i).
  { intros i. unfold cov. split.
    - intros (n & Hn & Hi). pose proof (Hsingle n Hn) as [Hg Hp]. apply single_covers in Hi; [|done|done].
      exists (n_addr n). split; [apply Hips; eauto|]. symmetry. exact Hi.
    - intros (a & Ha & Hi). apply Hips in Ha as (n & Hn & ->). exists n. split; [done|].
      pose proof (Hsingle n Hn) as [Hg Hp]. apply single_covers; [done|done|]. symmetry. exact Hi. }
  assert (Haddrs : Forall good addrs /\ forall i, cov addrs i <-> cov (List.filter single l) i).
  { unfold addrs. destruct ips as [|a ips'].
    - split; [constructor|]. intros i. rewrite Hcov1, cov_nil. split; [done|].
      intros (a & Ha & _). by apply elem_of_nil in Ha.
    - inversion Hin as [|? ? Ha Hrest]; subst.
      destruct (find_ranges_spec a a ips' Ha Ha ltac:(lia) Hrest) as [Hr Hc]. split.
      + apply Forall_forall. intros n Hn%list_elem_of_In. apply in_flat_map in Hn as (r & Hr' & Hn).
        apply list_elem_of_In in Hr', Hn. rewrite Forall_forall in Hr. destruct (Hr r Hr') as [H1 H2].
        pose proof (proj1 (range_nets_spec r H1 H2)) as Hg. rewrite Forall_forall in Hg. auto.
      + intros i. rewrite cov_flat_map, Hcov1. transitivity (exists r, r ∈ find_ranges a a ips' /\ range_has r i).
        * split; intros (r & Hr' & Hi); exists r; (split; [done|]); rewrite Forall_forall in Hr;
            destruct (Hr r Hr') as [H1 H2]; by apply (range_nets_spec r H1 H2).
        * rewrite Hc. setoid_rewrite elem_of_cons. split.
          -- intros [H|(b & Hb & Hi)]; [exists a; split; [by left|lia]|eauto].
          -- intros (b & [->|Hb] & Hi); [left; lia|eauto]. }
  destruct Haddrs as [Hga Hca].
  destruct (collapse_internal_spec (addrs ++ nets)) as (out & E & Hg & Hb & Hc).
  { apply Forall_app. split; [done|]. by apply filter_good. }
  exists out. split; [done|]. split; [done|]. split; [done|].
  intros i. rewrite Hc, cov_app, Hca. symmetry. apply filter_cov.
Qed.
End Collapse.
