(* ===== verification/NetworkContract.v ===== *)
(** * The network contract

    [backend/fwrouter_api/services/network_contract.py] with the constants of
    [core/network_defaults.py]: the operator's network lists, normalised with
    a fall back to the defaults, and the LAN interface admission rule. *)
From stdpp Require Import base list strings pretty sorting.
From Stdlib Require Import ZArith Lia Ascii.
From S2P Require Import Prelude PyStr IpAddr IpAddrFacts.

Open Scope string_scope.
Open Scope Z_scope.
Open Scope list_scope.

(** ** Constants of [core/network_defaults.py] *)

Definition DEFAULT_PROTECTED_IPV4_NETWORKS : list string :=
  ["127.0.0.0/8"; "10.0.0.0/8"; "172.16.0.0/12"; "192.168.0.0/16";
   "100.64.0.0/10"; "169.254.0.0/16"; "224.0.0.0/4"].

Definition DEFAULT_PROTECTED_IPV6_NETWORKS : list string :=
  ["::1/128"; "fc00::/7"; "fe80::/10"; "ff00::/8"].

Definition DEFAULT_RULES_EXTRA_PROTECTED_NETWORKS : list string := ["0.0.0.0/8"; "240.0.0.0/4"].

Definition DEFAULT_TRUSTED_CLIENT_IPV4_NETWORKS : list string :=
  ["10.0.0.0/8"; "100.64.0.0/10"; "172.16.0.0/12"; "192.168.0.0/16"].

Definition DEFAULT_TRUSTED_CLIENT_IPV6_NETWORKS : list string := ["fc00::/7"; "fe80::/10"].

Definition DEFAULT_LAN_INTERFACE_DENY_PREFIXES : list string :=
  ["docker"; "br-"; "veth"; "tailscale"; "virbr"; "lo"].

(** ** Settings

    The fields of [core.config.Settings] this module reads.  They are lists
    of strings: the model's [Settings] validates them so. *)
Class Settings := {
  set_protected_ipv4_networks : list string;
  set_protected_ipv6_networks : list string;
  set_rules_extra_protected_networks : list string;
  set_trusted_client_ipv4_networks : list string;
  set_trusted_client_ipv6_networks : list string;
  set_lan_interface_allowlist : list string;
  set_lan_interface_deny_prefixes : list string;
}.

(** The defaults of the settings model. *)
Definition default_settings : Settings := {|
  set_protected_ipv4_networks := DEFAULT_PROTECTED_IPV4_NETWORKS;
  set_protected_ipv6_networks := DEFAULT_PROTECTED_IPV6_NETWORKS;
  set_rules_extra_protected_networks := DEFAULT_RULES_EXTRA_PROTECTED_NETWORKS;
  set_trusted_client_ipv4_networks := DEFAULT_TRUSTED_CLIENT_IPV4_NETWORKS;
  set_trusted_client_ipv6_networks := DEFAULT_TRUSTED_CLIENT_IPV6_NETWORKS;
  set_lan_interface_allowlist := [];
  set_lan_interface_deny_prefixes := DEFAULT_LAN_INTERFACE_DENY_PREFIXES;
|}.

(** ** Normalisation *)

Definition version_ok (version : option ipver) (n : net) : bool :=
  match version with None => true | Some v => bool_decide (n_ver n = v) end.

(** The loop of [_normalize_network_strings]: skip what does not parse or has
    the other version, keep the first of each printed form. *)
Fixpoint normalize_networks_loop (version : option ipver) (seen l : list string) : list string :=
  match l with
  | [] => []
  | raw :: l' =>
      match ip_network (py_strip raw) with
      | None => normalize_networks_loop version seen l'
      | Some n =>
          if version_ok version n then
            if decide (str_net n ∈ seen) then normalize_networks_loop version seen l'
            else str_net n :: normalize_networks_loop version (str_net n :: seen) l'
          else normalize_networks_loop version seen l'
      end
  end.

Definition _normalize_network_strings (values : option (list string)) (fallback : list string)
    (version : option ipver) : list string :=
  let candidates := default fallback values in
  match normalize_networks_loop version [] candidates with
  | [] => fallback
  | normalized => normalized
  end.

Fixpoint normalize_strings_loop (seen l : list string) : list string :=
  match l with
  | [] => []
  | raw :: l' =>
      let value := py_strip raw in
      if String.eqb value "" then normalize_strings_loop seen l'
      else if decide (value ∈ seen) then normalize_strings_loop seen l'
      else value :: normalize_strings_loop (value :: seen) l'
  end.

Definition _normalize_string_list (values : option (list string)) (fallback : list string) : list string :=
  let candidates := default fallback values in
  match normalize_strings_loop [] candidates with
  | [] => fallback
  | normalized => normalized
  end.

(** Interfaces with an explicit role other than LAN. *)
Definition RESERVED_INTERFACE_ROLES : list (string * string) := [("rescue0", "rescue")].

Section Contract.
Context `{Settings}.

Definition protected_ipv4_networks : list string :=
  _normalize_network_strings (Some set_protected_ipv4_networks)
    DEFAULT_PROTECTED_IPV4_NETWORKS (Some V4).

Definition protected_ipv6_networks : list string :=
  _normalize_network_strings (Some set_protected_ipv6_networks)
    DEFAULT_PROTECTED_IPV6_NETWORKS (Some V6).

Definition rules_extra_protected_networks : list string :=
  _normalize_network_strings (Some set_rules_extra_protected_networks)
    DEFAULT_RULES_EXTRA_PROTECTED_NETWORKS None.

Definition protected_rule_network_strings : list string :=
  let values := rules_extra_protected_networks ++ protected_ipv4_networks ++ protected_ipv6_networks in
  _normalize_network_strings (Some values)
    (DEFAULT_RULES_EXTRA_PROTECTED_NETWORKS ++ DEFAULT_PROTECTED_IPV4_NETWORKS
       ++ DEFAULT_PROTECTED_IPV6_NETWORKS) None.

(** [ip_network] raises on a string that does not parse. *)
Definition protected_rule_ip_networks : py (list net) :=
  py_map ip_network protected_rule_network_strings.

Definition trusted_client_ipv4_networks : list string :=
  _normalize_network_strings (Some set_trusted_client_ipv4_networks)
    DEFAULT_TRUSTED_CLIENT_IPV4_NETWORKS (Some V4).

Definition trusted_client_ipv6_networks : list string :=
  _normalize_network_strings (Some set_trusted_client_ipv6_networks)
    DEFAULT_TRUSTED_CLIENT_IPV6_NETWORKS (Some V6).

Definition nft_network_set_literal (values : list string) : string :=
  "{ " +:+ py_join ", " (_normalize_network_strings (Some values) DEFAULT_TRUSTED_CLIENT_IPV4_NETWORKS None)
    +:+ " }".

Definition trusted_client_ipv4_nft_set : string := nft_network_set_literal trusted_client_ipv4_networks.
Definition trusted_client_ipv6_nft_set : string := nft_network_set_literal trusted_client_ipv6_networks.

Definition lan_interface_allowlist : list string :=
  _normalize_string_list (Some set_lan_interface_allowlist) [].

Definition lan_interface_deny_prefixes : list string :=
  _normalize_string_list (Some set_lan_interface_deny_prefixes) DEFAULT_LAN_INTERFACE_DENY_PREFIXES.

Definition reserved_interface_role (ifname : string) : option string :=
  assoc_get (py_strip ifname) RESERVED_INTERFACE_ROLES.

Definition lan_interface_allowed (ifname : string) : bool :=
  let name := py_strip ifname in
  if String.eqb name "" then false
  else if bool_decide (is_Some (reserved_interface_role name)) then false
  else
    let allowlist := lan_interface_allowlist in
    if negb (bool_decide (allowlist = [])) && negb (bool_decide (name ∈ allowlist)) then false
    else negb (existsb (py_startswith name) lan_interface_deny_prefixes).
End Contract.

(** ** Theorems *)

Lemma py_map_some {A B} (f : A -> py B) (P : B -> Prop) items :
  Forall (fun item => exists out, f item = Some out /\ P out) items ->
  exists outs, py_map f items = Some outs /\ Forall P outs.
Proof.
  induction 1 as [|x l (y & Hy & HP) _ (ys & Hys & HPs)]; [by exists []|].
  exists (y :: ys). cbn [py_map]. rewrite Hy. cbn [mbind option_bind]. rewrite Hys. split; [done|by constructor].
Qed.

Lemma py_map_in {A B} (f : A -> py B) l ys :
  py_map f l = Some ys -> forall y, y ∈ ys <-> exists x, x ∈ l /\ f x = Some y.
Proof.
  revert ys. induction l as [|x l IH]; intros ys; cbn [py_map].
  - intros [= <-] y. split; [by intros ?%elem_of_nil|]. by intros (x & ?%elem_of_nil & _).
  - destruct (f x) as [y0|] eqn:Ex; [|done]. cbn [mbind option_bind].
    destruct (py_map f l) as [ys'|]; [|done]. cbn [mbind option_bind]. intros [= <-] y.
    setoid_rewrite elem_of_cons. rewrite (IH ys' eq_refl). split.
    + intros [->|(x' & Hx & Hy)]; eauto.
    + intros (x' & [->|Hx] & Hy); [left; congruence|eauto].
Qed.

(** Everything the normalisation keeps is the text of a network. *)
Lemma normalize_networks_loop_texts version seen l :
  Forall (fun s => exists n, net_wf n /\ version_ok version n = true /\ s = str_net n)
    (normalize_networks_loop version seen l).
Proof.
  revert seen. induction l as [|raw l IH]; intros seen; cbn [normalize_networks_loop]; [constructor|].
  destruct (ip_network (py_strip raw)) as [n|] eqn:En; [|apply IH].
  destruct (version_ok version n) eqn:Ev; [|apply IH].
  case_decide; [apply IH|]. constructor; [|apply IH]. exists n. eauto with fwr.
Qed.

Lemma normalize_networks_loop_complete version seen l raw n :
  raw ∈ l -> ip_network (py_strip raw) = Some n -> version_ok version n = true ->
  str_net n ∈ seen \/ str_net n ∈ normalize_networks_loop version seen l.
Proof.
  intros Hin Hn Hv. revert seen.
  induction l as [|x l IH]; intros seen; [by apply elem_of_nil in Hin|].
  cbn [normalize_networks_loop]. apply elem_of_cons in Hin as [->|Hin].
  - rewrite Hn, Hv. case_decide; [by left|]. right. by left.
  - specialize (IH Hin). destruct (ip_network (py_strip x)) as [m|]; [|apply IH].
    destruct (version_ok version m); [|apply IH]. case_decide; [apply IH|].
    rewrite elem_of_cons. destruct (IH (str_net m :: seen)) as [[->|H0]%elem_of_cons|H0]; auto.
Qed.

(** A string that parses as a network. *)
Definition parses (s : string) : Prop := exists n, ip_network s = Some n /\ net_wf n.

Definition parses_b (s : string) : bool := bool_decide (is_Some (ip_network s)).

Lemma parses_b_spec l : forallb parses_b l = true -> Forall parses l.
Proof.
  intros H. apply Forall_forall. intros s Hs. rewrite forallb_forall in H.
  specialize (H s (proj1 (list_elem_of_In _ _) Hs)). apply bool_decide_eq_true in H as [n Hn].
  exists n. eauto with fwr.
Qed.

Lemma normalize_parses values fallback version :
  Forall parses fallback -> Forall parses (_normalize_network_strings values fallback version).
Proof.
  intros Hf. unfold _normalize_network_strings.
  pose proof (normalize_networks_loop_texts version [] (default fallback values)) as Ht.
  destruct (normalize_networks_loop version [] (default fallback values)) as [|s l]; [done|].
  eapply Forall_impl; [exact Ht|]. intros x (n & Hn & _ & ->). exists n. eauto with fwr.
Qed.

Lemma normalize_complete values fallback version raw n :
  raw ∈ values -> ip_network (py_strip raw) = Some n -> version_ok version n = true ->
  str_net n ∈ _normalize_network_strings (Some values) fallback version.
Proof.
  intros Hin Hn Hv. unfold _normalize_network_strings.
  change (default fallback (Some values)) with values.
  destruct (normalize_networks_loop_complete version [] values raw n Hin Hn Hv) as [Hm|Hm];
    [by apply elem_of_nil in Hm|].
  destruct (normalize_networks_loop version [] values); [by apply elem_of_nil in Hm|exact Hm].
Qed.

Lemma reparse_str_net n : net_wf n -> ip_network (py_strip (str_net n)) = Some n.
Proof. intros Hn. rewrite py_strip_str_net by done. by apply ip_network_str. Qed.

Section ContractFacts.
Context `{Settings}.

Lemma default_networks_parse :
  Forall parses (DEFAULT_RULES_EXTRA_PROTECTED_NETWORKS ++ DEFAULT_PROTECTED_IPV4_NETWORKS
                   ++ DEFAULT_PROTECTED_IPV6_NETWORKS).
Proof. apply parses_b_spec. vm_compute. reflexivity. Qed.

Lemma protected_networks_total :
  exists nets, protected_rule_ip_networks = Some nets /\ Forall net_wf nets.
Proof.
  unfold protected_rule_ip_networks, protected_rule_network_strings.
  apply py_map_some, normalize_parses, default_networks_parse.
Qed.

(** The operator's list with its version check. *)
Inductive configured : string -> option ipver -> Prop :=
  | configured_v4 raw : raw ∈ set_protected_ipv4_networks -> configured raw (Some V4)
  | configured_v6 raw : raw ∈ set_protected_ipv6_networks -> configured raw (Some V6)
  | configured_extra raw : raw ∈ set_rules_extra_protected_networks -> configured raw None.

Lemma configured_normalized raw version n :
  configured raw version -> ip_network (py_strip raw) = Some n -> version_ok version n = true ->
  str_net n ∈ rules_extra_protected_networks ++ protected_ipv4_networks ++ protected_ipv6_networks.
Proof.
  intros Hc Hn Hv. rewrite !elem_of_app.
  destruct Hc as [raw Hin|raw Hin|raw Hin]; [right; left|right; right|left];
    exact (normalize_complete _ _ _ raw n Hin Hn Hv).
Qed.

(** Building the protected networks never raises, whatever the operator
    wrote; every entry of the three protected lists that is a network of
    the list's version is protected, and all of them are well formed. *)
Theorem protected_networks_complete :
  exists nets, protected_rule_ip_networks = Some nets /\ Forall net_wf nets /\
    forall raw version n, configured raw version -> ip_network (py_strip raw) = Some n ->
      version_ok version n = true -> n ∈ nets.
Proof.
  destruct protected_networks_total as (nets & E & Hwf). exists nets. split; [done|]. split; [done|].
  intros raw version n Hc Hn Hv. apply (py_map_in _ _ _ E).
  pose proof (ip_network_wf _ _ Hn) as Hnw. exists (str_net n). split; [|by apply ip_network_str].
  unfold protected_rule_network_strings.
  exact (normalize_complete _ _ None (str_net n) n (configured_normalized _ _ _ Hc Hn Hv) (reparse_str_net n Hnw) eq_refl).
Qed.

(** ** LAN interfaces *)

(** What admission of an interface name means. *)
Definition lan_admitted (name : string) : Prop :=
  name <> "" /\ reserved_interface_role name = None /\
  (lan_interface_allowlist = [] \/ name ∈ lan_interface_allowlist) /\
  forall prefix, prefix ∈ lan_interface_deny_prefixes -> py_startswith name prefix = false.

Lemma existsb_false {A} (p : A -> bool) l : existsb p l = false <-> forall x, x ∈ l -> p x = false.
Proof.
  rewrite <- not_true_iff_false, existsb_exists. setoid_rewrite <- list_elem_of_In. split.
  - intros Hn x Hx. destruct (p x) eqn:E; [|done]. exfalso. eauto.
  - intros Hn (x & Hx & Hp). rewrite Hn in Hp by done. done.
Qed.

(** An interface is a LAN interface exactly when its name is not blank,
    has no reserved role, is on the allowlist if there is one, and starts
    with none of the denied prefixes. *)
Theorem lan_interface_allowed_spec ifname :
  lan_interface_allowed ifname = true <-> lan_admitted (py_strip ifname).
Proof.
  unfold lan_interface_allowed, lan_admitted. set (name := py_strip ifname).
  destruct (String.eqb_spec name "") as [E|Hne]; [split; [done|by intros []]|].
  destruct (reserved_interface_role name) as [r|].
  { rewrite bool_decide_eq_true_2 by eauto. split; [done|by intros (_ & ? & _)]. }
  rewrite bool_decide_eq_false_2 by by intros [].
  assert (Hdeny : negb (existsb (py_startswith name) lan_interface_deny_prefixes) = true <->
            forall prefix, prefix ∈ lan_interface_deny_prefixes -> py_startswith name prefix = false).
  { by rewrite negb_true_iff, existsb_false. }
  destruct (decide (lan_interface_allowlist = [])) as [Ea|Ea].
  { rewrite bool_decide_eq_true_2 by done. cbn [negb andb]. rewrite Hdeny. tauto. }
  rewrite bool_decide_eq_false_2 by done. cbn [negb andb].
  destruct (decide (name ∈ lan_interface_allowlist)) as [Hi|Hi].
  - rewrite bool_decide_eq_true_2 by done. cbn [negb]. rewrite Hdeny. tauto.
  - rewrite bool_decide_eq_false_2 by done. cbn [negb]. split; [done|]. tauto.
Qed.
End ContractFacts.
