(* ===== verification/RulesCompile.v ===== *)
(** * The rules pipeline

    [backend/fwrouter_api/services/rules_compile.py]: normalisation of rule
    values, validation of the manual rules and of the large lists, the
    minimisation of the large lists, and the effective artifact that orders
    all sources by priority.

    Rules and errors are records of the keys the code puts in its
    dictionaries.  The [idna] codec on a label with a non-ASCII character is
    the section variable [idna_nonascii]; on ASCII labels it is defined. *)
From stdpp Require Import base list strings pretty gmap sorting.
From Stdlib Require Import ZArith Lia Ascii.
From S2P Require Import Prelude PyStr IpAddr NetworkContract.

Open Scope string_scope.
Open Scope Z_scope.
Open Scope list_scope.

(** ** Constants *)

Definition RULE_ACTION_ALIASES : list (string * string) :=
  [("DIRECT", "DIRECT"); ("DIR", "DIRECT"); ("DIRECTLY", "DIRECT"); ("ДИРЕКТ", "DIRECT");
   ("ПРЯМО", "DIRECT"); ("НАПРЯМУЮ", "DIRECT"); ("VPN", "VPN"); ("ВПН", "VPN")].

Definition RULE_ACTIONS : list string := map snd RULE_ACTION_ALIASES.

Definition RULESET_MANUAL := "manual".
Definition RULESET_STATIC_DIRECT := "static_direct".
Definition RULESET_BIG_DIRECT := "big_direct".
Definition RULESET_BIG_VPN := "big_vpn".

Definition PROTECTED_SERVICE_DOMAINS : list string := ["localhost"].

(** ** Data *)

Record rule := Rule {
  r_action : string;
  r_kind : string;
  r_value : string;
  r_source : string;
  r_match : string;
  r_line : option Z;
  r_priority : option Z;
  r_protected : bool;
}.

Record rule_error := RuleError {
  e_line : option Z;
  e_code : string;
  e_message : string;
  e_fields : list (string * string);
}.

(** The key under which rules are deduplicated and compared. *)
Definition rule_key (r : rule) : string * string := (r_kind r, r_value r).

(** ** Domain names *)

Definition is_domain_char (c : ascii) : bool :=
  is_lower_alpha c || is_digit c || Ascii.eqb c "-"%char.

Definition first_char (s : string) : option ascii :=
  match s with "" => None | String c _ => Some c end.

Fixpoint last_char (s : string) : option ascii :=
  match s with
  | "" => None
  | String c "" => Some c
  | String _ s' => last_char s'
  end.

Definition not_dash (o : option ascii) : bool :=
  match o with Some c => negb (Ascii.eqb c "-"%char) | None => false end.

(** [DOMAIN_LABEL_RE]: 1 to 63 of [a-z0-9-], no dash at either end. *)
Definition domain_label_re (s : string) : bool :=
  (String.length s <=? 63)%nat && all_chars is_domain_char s &&
  not_dash (first_char s) && not_dash (last_char s).

(** [DOMAIN_RE]: two labels or more, at most 253 characters. *)
Definition domain_re (s : string) : bool :=
  let labels := py_split "."%char s in
  (1 <=? String.length s)%nat && (String.length s <=? 253)%nat &&
  (2 <=? length labels)%nat && forallb domain_label_re labels.

Section Rules.
Context `{Settings}.

(** [label.encode("idna").decode("ascii")] for a label that is not ASCII;
    [None] is UnicodeError. *)
Context (idna_nonascii : string -> option string).

(** The [idna] codec: an ASCII label is itself, below 64 characters. *)
Definition idna_encode (label : string) : option string :=
  if py_isascii label then
    if (String.length label <? 64)%nat then Some label else None
  else idna_nonascii label.

Definition _normalize_domain_name (value : string) (allow_single_label : bool) : option string :=
  let normalized := py_rstrip_char "."%char (py_lower (py_strip value)) in
  if String.eqb normalized "" then None
  else
    let labels := py_split "."%char normalized in
    if existsb (fun l => String.eqb l "") labels then None
    else
      match py_map idna_encode labels with
      | None => None
      | Some ascii_labels =>
          let ascii_domain := py_join "." ascii_labels in
          if allow_single_label && (length ascii_labels =? 1)%nat then
            if domain_label_re ascii_domain then Some normalized else None
          else if domain_re ascii_domain then Some normalized else None
      end.

(** ** Rule values *)

Definition value_error (code message : string) (fields : list (string * string)) : rule_error :=
  RuleError None code message fields.

(** [_normalize_rule_value]: an error, or a kind and a normalised value. *)
Definition _normalize_rule_value (value : string) : rule_error + (string * string) :=
  let raw := py_strip value in
  if String.eqb raw "" then inl (value_error "EMPTY_VALUE" "Rule value is empty." [])
  else
    match ip_address raw with
    | Some a => inr ("ip", str_addr a)
    | None =>
        match ip_network raw with
        | Some n => inr ("cidr", str_net n)
        | None =>
            if py_startswith raw "." then
              match _normalize_domain_name (py_lstrip_char "."%char raw) true with
              | None => inl (value_error "INVALID_DOMAIN_SUFFIX" "Invalid domain suffix rule value."
                               [("value", raw)])
              | Some d => inr ("domain_suffix", "." +:+ d)
              end
            else if has_char "/"%char raw then
              inl (value_error "INVALID_CIDR" "Invalid IP/CIDR rule value." [("value", raw)])
            else
              match _normalize_domain_name raw false with
              | None => inl (value_error "INVALID_DOMAIN" "Invalid domain rule value." [("value", raw)])
              | Some d => inr ("domain", d)
              end
        end
    end.

(** [rsplit(":", 1)] of a string with exactly one colon. *)
Definition split_one_colon (s : string) : string * string :=
  match py_split ":"%char s with
  | [h; p] => (h, p)
  | _ => (s, "")
  end.

Definition _normalize_large_list_value (value : string) : string :=
  let stripped := py_strip value in
  if (count_char ":"%char stripped =? 1)%nat && negb (has_char "/"%char stripped) then
    let '(host_part, port_part) := split_one_colon stripped in
    if py_isdigit port_part then
      match ip_address host_part with
      | Some _ => host_part
      | None => if has_char "."%char host_part then host_part else stripped
      end
    else stripped
  else stripped.

(** ** Protection *)

(** [None] outside is ValueError; [Some None] is the code's [None]. *)
Definition _network_for_rule (kind normalized_value : string) : py (option net) :=
  if String.eqb kind "domain" || String.eqb kind "domain_suffix" then Some None
  else if String.eqb kind "ip" then
    address ← ip_address normalized_value;
    let suffix := match a_ver address with V4 => "32" | V6 => "128" end in
    n ← ip_network (normalized_value +:+ "/" +:+ suffix);
    Some (Some n)
  else n ← ip_network normalized_value; Some (Some n).

Definition _is_protected_local (kind normalized_value : string) : py bool :=
  network ← _network_for_rule kind normalized_value;
  match network with
  | None => Some (bool_decide (normalized_value ∈ PROTECTED_SERVICE_DOMAINS))
  | Some n =>
      nets ← protected_rule_ip_networks;
      Some (existsb (overlaps n) nets)
  end.

(** ** Rule entries *)

Definition _build_rule_entry (action kind value : string) (line : option Z) (source : string)
    (priority : option Z) (protected : bool) : rule :=
  {| r_action := action; r_kind := kind; r_value := value; r_source := source;
     r_match := if String.eqb kind "domain" then "exact"
                else if String.eqb kind "domain_suffix" then "domain_suffix"
                else "exact_or_network";
     r_line := line; r_priority := priority; r_protected := protected |}.

(** ** Validation of the manual rules *)

(** The loop state of [validate_manual_rules]. *)
Record manual_state := ManualState {
  ms_errors : list rule_error;
  ms_rules : list rule;
  ms_seen : gmap (string * string) string;
}.

Definition add_error (st : manual_state) (e : rule_error) : manual_state :=
  ManualState (ms_errors st ++ [e]) (ms_rules st) (ms_seen st).

Definition at_line (n : Z) (e : rule_error) : rule_error :=
  RuleError (Some n) (e_code e) (e_message e) (e_fields e).

(** What is left of a line: nothing, an error, or an action and a normalised value. *)
Inductive line_result :=
  | LineSkip
  | LineError (e : rule_error)
  | LineRule (action kind value : string).

(** The body of the loop up to the conflict check. *)
Definition parse_manual_line (original_line : string) : py line_result :=
  let stripped := py_strip original_line in
  if String.eqb stripped "" || py_startswith stripped "#" then Some LineSkip
  else if has_char "#"%char stripped then
    Some (LineError (value_error "INLINE_COMMENT_NOT_SUPPORTED" "Inline comments are not supported."
                       [("text", original_line)]))
  else
    match py_split_ws stripped with
    | [p0; value] =>
        let raw_action := py_strip p0 in
        match assoc_get (py_upper raw_action) RULE_ACTION_ALIASES with
        | None =>
            Some (LineError (value_error "INVALID_ACTION"
              "Rule action must be DIRECT/VPN or supported localized aliases." [("action", raw_action)]))
        | Some action =>
            match _normalize_rule_value value with
            | inl e => Some (LineError e)
            | inr (kind, normalized_value) =>
                prot ← (if String.eqb action "VPN" then _is_protected_local kind normalized_value
                        else Some false);
                if (prot : bool) then
                  Some (LineError (value_error "VPN_LOCAL_DIRECT_PROTECTED"
                    "Protected local/private/service pools cannot be routed through VPN."
                    [("value", normalized_value)]))
                else Some (LineRule action kind normalized_value)
            end
        end
    | _ =>
        Some (LineError (value_error "INVALID_FORMAT" "Rule must have exactly two fields: ACTION VALUE."
                           [("text", original_line)]))
    end.

(** One iteration of [validate_manual_rules]. *)
Definition manual_step (st : manual_state) (numbered : Z * string) : py manual_state :=
  let '(line_number, original_line) := numbered in
  res ← parse_manual_line original_line;
  Some match res with
  | LineSkip => st
  | LineError e => add_error st (at_line line_number e)
  | LineRule action kind value =>
      match ms_seen st !! (kind, value) with
      | Some previous_action =>
          if String.eqb previous_action action then st
          else add_error st
                 (RuleError (Some line_number) "MANUAL_RULE_CONFLICT"
                    "The same value cannot be both DIRECT and VPN."
                    [("value", value); ("previous_action", previous_action); ("action", action)])
      | None =>
          ManualState (ms_errors st)
            (ms_rules st ++ [_build_rule_entry action kind value (Some line_number) RULESET_MANUAL None false])
            (<[(kind, value) := action]> (ms_seen st))
      end
  end.

(** [enumerate(lines, start=n)]. *)
Fixpoint enumerate_from {A} (n : Z) (l : list A) : list (Z * A) :=
  match l with
  | [] => []
  | x :: l' => (n, x) :: enumerate_from (n + 1) l'
  end.

(** A loop whose body may raise. *)
Fixpoint py_fold {S A} (f : S -> A -> py S) (st : S) (l : list A) : py S :=
  match l with
  | [] => Some st
  | x :: l' => st' ← f st x; py_fold f st' l'
  end.

Record validation := Validation {
  v_valid : bool;
  v_errors : list rule_error;
  v_rules : list rule;
  v_normalized_text : string;
}.

(** The text closes with a newline when it is not empty. *)
Definition text_of_lines (lines : list string) : string :=
  match py_join (String "010" "") lines with
  | "" => ""
  | t => t +:+ String "010" ""
  end.

Definition manual_rule_line (r : rule) : string := r_action r +:+ " " +:+ r_value r.

Definition manual_init : manual_state := ManualState [] [] ∅.

Definition validate_manual_rules (text : string) : py validation :=
  st ← py_fold manual_step manual_init (enumerate_from 1 (py_splitlines text));
  Some {| v_valid := bool_decide (ms_errors st = []) ;
          v_errors := ms_errors st;
          v_rules := ms_rules st;
          v_normalized_text := text_of_lines (map manual_rule_line (ms_rules st)) |}.
End Rules.
