(* ===== verification/RulesManualFacts.v ===== *)
(** * Facts about rule values and the manual rules

    What [_normalize_rule_value] returns, that the protection check never
    raises on it and means disjointness from the protected networks, and the
    account [validate_manual_rules] gives of every line. *)
From stdpp Require Import base list strings pretty gmap sorting.
From Stdlib Require Import ZArith Lia Ascii.
From S2P Require Import Prelude PyStr IpAddr IpAddrFacts NetworkContract RulesCompile.

Open Scope string_scope.
Open Scope Z_scope.
Open Scope list_scope.

(** ** Loops that may raise *)

Lemma py_fold_prefix {S A} (P : list A -> S -> Prop) (f : S -> A -> py S) l st0 :
  (forall pre x post st, l = pre ++ x :: post -> P pre st ->
     exists st', f st x = Some st' /\ P (pre ++ [x]) st') ->
  P [] st0 -> exists st', py_fold f st0 l = Some st' /\ P l st'.
Proof.
  intros Hf. enough (Hgen : forall post pre st, l = pre ++ post -> P pre st ->
    exists st', py_fold f st post = Some st' /\ P l st') by (intros; by apply (Hgen l [])).
  induction post as [|x post IH]; intros pre st E HP; cbn [py_fold].
  - exists st. by rewrite E, app_nil_r.
  - destruct (Hf pre x post st E HP) as (st1 & -> & HP1). cbn [mbind option_bind].
    apply (IH (pre ++ [x])); [by rewrite <- app_assoc|done].
Qed.

Lemma enumerate_lines {A} (l : list A) n k x :
  (k, x) ∈ enumerate_from n l <-> exists i : nat, l !! i = Some x /\ k = n + Z.of_nat i.
Proof.
  revert n. induction l as [|y l IH]; intros n; cbn [enumerate_from].
  - split; [by intros ?%elem_of_nil|]. by intros (i & Hi & _).
  - rewrite elem_of_cons, IH. split.
    + intros [[= -> ->]|(i & Hi & ->)]; [exists 0%nat; split; [done|lia]|].
      exists (S i). split; [done|lia].
    + intros ([|i] & Hi & ->); simpl in Hi; [left; injection Hi as ->; f_equal; lia|].
      right. exists i. split; [done|lia].
Qed.

Lemma enumerate_before {A} (l : list A) k pre n x post m y :
  enumerate_from k l = pre ++ (n, x) :: post -> (m, y) ∈ pre -> m < n.
Proof.
  revert k pre. induction l as [|z l IH]; intros k pre E Hin; cbn [enumerate_from] in E.
  { by destruct pre. }
  destruct pre as [|p pre]; [by apply elem_of_nil in Hin|]. injection E as <- E.
  apply elem_of_cons in Hin as [[= -> ->]|Hin]; [|eauto].
  assert (Hn : (n, x) ∈ enumerate_from (k + 1) l) by (rewrite E, elem_of_app; right; by left).
  apply enumerate_lines in Hn as (i & _ & ->). lia.
Qed.

Lemma sub_app_l {A} (l k : list A) : l ⊆ l ++ k.
Proof. intros x Hx. apply elem_of_app. by left. Qed.

(** ** Normalised values *)

(** What [_normalize_rule_value] promises of a kind and a value. *)
Inductive value_ok : string -> string -> Prop :=
  | value_ip a : addr_wf a -> value_ok "ip" (str_addr a)
  | value_cidr n : net_wf n -> value_ok "cidr" (str_net n)
  | value_domain d : Forall (fun l => l <> "") (py_split "."%char d) -> value_ok "domain" d
  | value_suffix d : Forall (fun l => l <> "") (py_split "."%char d) -> value_ok "domain_suffix" ("." +:+ d).

(** The network a value of kind ip or cidr stands for. *)
Definition single_net (a : addr) : net := Net a (max_plen (a_ver a)).

Lemma single_net_wf a : addr_wf a -> net_wf (single_net a).
Proof.
  intros Ha. pose proof (max_plen_pos (a_ver a)). split; [exact Ha|]. unfold single_net, n_ver, n_first. cbn [n_addr n_plen].
  split; [lia|]. rewrite Z.sub_diag. apply Z.mod_1_r.
Qed.

Section ValueFacts.
Context `{Settings} (idna_nonascii : string -> option string).

(** A normalised domain name has no empty label. *)
Lemma normalize_domain_labels value single d :
  _normalize_domain_name idna_nonascii value single = Some d -> Forall (fun l => l <> "") (py_split "."%char d).
Proof.
  unfold _normalize_domain_name. set (norm := py_rstrip_char _ _).
  destruct (String.eqb norm ""); [done|]. destruct (existsb _ _) eqn:Ex; [done|].
  rewrite existsb_false in Ex. intros E.
  assert (d = norm) as ->.
  { destruct (py_map _ _) as [ls|]; [|done]. cbv zeta in E. repeat (let F := fresh in case_in E F); congruence. }
  apply Forall_forall. intros l Hl ->. by specialize (Ex _ Hl).
Qed.

Lemma normalize_value_ok value kind v :
  _normalize_rule_value idna_nonascii value = inr (kind, v) -> value_ok kind v.
Proof.
  unfold _normalize_rule_value. destruct (String.eqb _ _); [done|].
  destruct (ip_address _) eqn:Ea; [intros [= <- <-]; constructor; eauto using ip_address_wf|].
  destruct (ip_network _) eqn:En; [intros [= <- <-]; constructor; eauto using ip_network_wf|].
  destruct (py_startswith _ _).
  - destruct (_normalize_domain_name _ _ _) eqn:Ed; [|done]. intros [= <- <-].
    constructor. by eapply normalize_domain_labels.
  - destruct (has_char _ _); [done|]. destruct (_normalize_domain_name _ _ _) eqn:Ed; [|done].
    intros [= <- <-]. constructor. by eapply normalize_domain_labels.
Qed.

(** The network of a normalised value, when it has one. *)
Definition denotes (kind v : string) (n : net) : Prop := _network_for_rule kind v = Some (Some n).

Lemma network_for_ip a : addr_wf a -> denotes "ip" (str_addr a) (single_net a).
Proof.
  intros Ha. unfold denotes, _network_for_rule. change (String.eqb "ip" _ || _) with false.
  cbv iota. rewrite String.eqb_refl, ip_address_str by done. cbn [mbind option_bind].
  pose proof (ip_network_str (single_net a) (single_net_wf a Ha)) as Hn.
  unfold str_net in Hn. unfold single_net in *. cbn [n_addr n_plen] in Hn.
  destruct (a_ver a); cbn [max_plen] in Hn;
    [change (py_str_int 32) with "32" in Hn|change (py_str_int 128) with "128" in Hn]; by rewrite Hn.
Qed.

Lemma network_for_cidr n : net_wf n -> denotes "cidr" (str_net n) n.
Proof.
  intros Hn. unfold denotes, _network_for_rule. change (String.eqb "cidr" _ || _) with false.
  cbv iota. change (String.eqb "cidr" "ip") with false. cbv iota. by rewrite ip_network_str.
Qed.

Lemma network_for_value kind v :
  value_ok kind v ->
  (_network_for_rule kind v = Some None /\ (kind = "domain" \/ kind = "domain_suffix")) \/
  exists n, denotes kind v n /\ net_wf n.
Proof.
  intros [a Ha|n Hn|d Hd|d Hd]; [right|right|left|left].
  - exists (single_net a). eauto using network_for_ip, single_net_wf.
  - exists n. eauto using network_for_cidr.
  - split; [done|by left].
  - split; [done|by right].
Qed.

Lemma is_protected_total kind v :
  value_ok kind v -> exists b, _is_protected_local kind v = Some b.
Proof.
  intros Hok. unfold _is_protected_local.
  destruct (network_for_value kind v Hok) as [[-> _]|(n & -> & _)]; cbn [mbind option_bind]; [eauto|].
  destruct protected_networks_total as (nets & -> & _). cbn. eauto.
Qed.

(** Not protected: no address in common with any protected network. *)
Lemma not_protected_disjoint kind v n nets m :
  value_ok kind v -> _is_protected_local kind v = Some false -> denotes kind v n ->
  protected_rule_ip_networks = Some nets -> m ∈ nets ->
  forall ver i, covers n ver i -> ~ covers m ver i.
Proof.
  intros Hok Hp Hn Hnets Hm ver i Hi Hmi. unfold _is_protected_local in Hp.
  destruct protected_networks_total as (nets' & E & Hwf). rewrite Hnets in E. injection E as <-.
  unfold denotes in Hn. rewrite Hn in Hp. cbn [mbind option_bind] in Hp. rewrite Hnets in Hp.
  cbn [mbind option_bind] in Hp. injection Hp as Hp. rewrite existsb_false in Hp. specialize (Hp m Hm).
  apply not_true_iff_false in Hp. apply Hp.
  destruct (network_for_value kind v Hok) as [[E _]|(n' & E & Hw)]; [congruence|].
  unfold denotes in E. assert (n' = n) as -> by congruence.
  rewrite Forall_forall in Hwf. apply overlaps_spec; [done|by apply Hwf|]. eauto.
Qed.
End ValueFacts.

(** ** The manual rules *)
Section ManualFacts.
Context `{Settings} (idna_nonascii : string -> option string).
Abbreviation parse := (parse_manual_line idna_nonascii).
Abbreviation step := (manual_step idna_nonascii).

(** A line that came to a rule: its value is normalised, and a VPN value is not protected. *)
Lemma parse_manual_rule line action kind v :
  parse line = Some (LineRule action kind v) ->
  value_ok kind v /\ (action = "DIRECT" \/ action = "VPN") /\
  (action = "VPN" -> _is_protected_local kind v = Some false).
Proof.
  unfold parse_manual_line. destruct (_ || _); [done|]. destruct (has_char _ _); [done|].
  destruct (py_split_ws _) as [|p0 [|value [|]]]; try done.
  destruct (assoc_get _ _) as [act|] eqn:Eact; [|done].
  assert (Hact : act = "DIRECT" \/ act = "VPN").
  { clear -Eact. unfold RULE_ACTION_ALIASES in Eact. cbn [assoc_get] in Eact.
    repeat (destruct (String.eqb _ _); [injection Eact as <-; auto|]). done. }
  destruct (_normalize_rule_value _ _) as [e|[k v']] eqn:Ev; [done|].
  apply normalize_value_ok in Ev. destruct (String.eqb_spec act "VPN") as [->|Hne].
  - destruct (_is_protected_local k v') as [[]|] eqn:Ep; cbn [mbind option_bind]; [done| |done].
    intros [= <- <- <-]. split_all; auto.
  - cbn [mbind option_bind]. intros [= <- <- <-]. split_all; auto. done.
Qed.

Lemma parse_manual_total line : exists res, parse line = Some res.
Proof.
  unfold parse_manual_line. destruct (_ || _); [eauto|]. destruct (has_char _ _); [eauto|].
  destruct (py_split_ws _) as [|p0 [|value [|]]]; eauto.
  destruct (assoc_get _ _) as [act|]; [|eauto].
  destruct (_normalize_rule_value _ _) as [e|[k v']] eqn:Ev; [eauto|].
  apply normalize_value_ok in Ev. destruct (String.eqb act "VPN"); cbn [mbind option_bind]; [|eauto].
  destruct (is_protected_total k v' Ev) as [[] ->]; cbn [mbind option_bind]; eauto.
Qed.

(** The rule of a line. *)
Definition manual_rule (n : Z) (action kind v : string) : rule :=
  _build_rule_entry action kind v (Some n) RULESET_MANUAL None false.

Definition conflict_error (n : Z) (v previous action : string) : rule_error :=
  RuleError (Some n) "MANUAL_RULE_CONFLICT" "The same value cannot be both DIRECT and VPN."
    [("value", v); ("previous_action", previous); ("action", action)].

(** How a numbered line is accounted for in a result. *)
Inductive accounted (errors : list rule_error) (rules : list rule) (n : Z) (line : string) : Prop :=
  | acc_skip : parse line = Some LineSkip -> accounted errors rules n line
  | acc_error e : parse line = Some (LineError e) -> at_line n e ∈ errors -> accounted errors rules n line
  | acc_rule action kind v m :
      parse line = Some (LineRule action kind v) -> m <= n -> manual_rule m action kind v ∈ rules ->
      accounted errors rules n line
  | acc_conflict action previous kind v m :
      parse line = Some (LineRule action kind v) -> previous <> action -> m < n ->
      manual_rule m previous kind v ∈ rules -> conflict_error n v previous action ∈ errors ->
      accounted errors rules n line.

(** Where a rule or an error comes from. *)
Definition rule_from (lines : list (Z * string)) (r : rule) : Prop :=
  exists n line action kind v, (n, line) ∈ lines /\ parse line = Some (LineRule action kind v) /\
    r = manual_rule n action kind v.

Definition error_from (lines : list (Z * string)) (rules : list rule) (e : rule_error) : Prop :=
  exists n line, (n, line) ∈ lines /\
    ((exists e0, parse line = Some (LineError e0) /\ e = at_line n e0) \/
     (exists action previous kind v m, parse line = Some (LineRule action kind v) /\ previous <> action /\
        manual_rule m previous kind v ∈ rules /\ e = conflict_error n v previous action)).

Record manual_inv (lines : list (Z * string)) (st : manual_state) : Prop := {
  mi_seen : forall k a, ms_seen st !! k = Some a <->
    exists n, manual_rule n a k.1 k.2 ∈ ms_rules st;
  mi_nodup : NoDup (map rule_key (ms_rules st));
  mi_from : Forall (rule_from lines) (ms_rules st);
  mi_errors : Forall (error_from lines (ms_rules st)) (ms_errors st);
  mi_lines : forall n line, (n, line) ∈ lines -> accounted (ms_errors st) (ms_rules st) n line;
}.

Lemma accounted_mono errors rules errors' rules' n line :
  errors ⊆ errors' -> rules ⊆ rules' -> accounted errors rules n line -> accounted errors' rules' n line.
Proof.
  intros He Hr [Hp|e Hp Hin|a k v m Hp Hm Hin|a p k v m Hp Hne Hm Hin Hc].
  - by apply acc_skip.
  - eapply acc_error; eauto.
  - eapply acc_rule; eauto.
  - eapply acc_conflict; eauto.
Qed.

Lemma rule_from_mono lines x r : rule_from lines r -> rule_from (lines ++ [x]) r.
Proof. intros (n & line & a & k & v & Hin & Hp). exists n, line, a, k, v. rewrite elem_of_app. auto. Qed.

Lemma error_from_mono lines x rules rules' e :
  rules ⊆ rules' -> error_from lines rules e -> error_from (lines ++ [x]) rules' e.
Proof.
  intros Hr (n & line & Hin & Hp). exists n, line. rewrite elem_of_app. split; [by left|].
  destruct Hp as [Hp|(a & p & k & v & m & Hp & Hne & Hin' & ->)]; [by left|]. right. exists a, p, k, v, m. auto.
Qed.

Lemma manual_rule_inj n a k v n' a' k' v' :
  manual_rule n a k v = manual_rule n' a' k' v' -> n = n' /\ a = a' /\ k = k' /\ v = v'.
Proof. intros E. by injection E. Qed.

Lemma manual_rule_key n a k v : rule_key (manual_rule n a k v) = (k, v).
Proof. done. Qed.

Lemma manual_inv_skip lines st x :
  manual_inv lines st -> accounted (ms_errors st) (ms_rules st) x.1 x.2 -> manual_inv (lines ++ [x]) st.
Proof.
  intros [Hs Hn Hf He Hl] Hx. constructor; [done|done| | |].
  - eapply Forall_impl; [exact Hf|]. intros r. apply rule_from_mono.
  - eapply Forall_impl; [exact He|]. intros e. by apply error_from_mono.
  - intros n line [Hin|E%list_elem_of_singleton]%elem_of_app; [auto|]. by subst x.
Qed.

Lemma manual_inv_error lines st x e :
  manual_inv lines st -> error_from (lines ++ [x]) (ms_rules st) e ->
  accounted (ms_errors st ++ [e]) (ms_rules st) x.1 x.2 -> manual_inv (lines ++ [x]) (add_error st e).
Proof.
  intros [Hs Hn Hf He Hl] Hfrom Hx. constructor; cbn [add_error ms_seen ms_rules ms_errors]; [done|done| | |].
  - eapply Forall_impl; [exact Hf|]. intros r. apply rule_from_mono.
  - apply Forall_app. split; [|by constructor]. eapply Forall_impl; [exact He|]. intros e'. by apply error_from_mono.
  - intros n line [Hin|E%list_elem_of_singleton]%elem_of_app; [|by rewrite <- E in Hx].
    eapply accounted_mono; [| |by apply Hl]; [apply sub_app_l|done].
Qed.

Lemma manual_inv_rule lines st n line action kind v :
  manual_inv lines st -> parse line = Some (LineRule action kind v) -> ms_seen st !! (kind, v) = None ->
  manual_inv (lines ++ [(n, line)])
    (ManualState (ms_errors st) (ms_rules st ++ [manual_rule n action kind v])
       (<[(kind, v) := action]> (ms_seen st))).
Proof.
  intros [Hs Hn Hf He Hl] Hp Hnew. set (r := manual_rule n action kind v).
  constructor; cbn [ms_seen ms_rules ms_errors].
  - intros k a. rewrite lookup_insert_Some, Hs. setoid_rewrite elem_of_app. setoid_rewrite list_elem_of_singleton. split.
    + intros [[<- <-]|[_ (m & Hm)]]; [exists n; by right|exists m; by left].
    + intros (m & [Hm|E]).
      * right. split; [|eauto]. intros <-.
        rewrite (proj2 (Hs (kind, v) a) (ex_intro _ m Hm)) in Hnew. done.
      * left. apply manual_rule_inj in E as (-> & -> & <- & <-). by destruct k.
  - rewrite map_app. apply NoDup_app. split; [done|]. split; [|apply NoDup_singleton].
    intros k Hk E%list_elem_of_singleton. apply list_elem_of_fmap in Hk as (r' & E' & Hr').
    rewrite Forall_forall in Hf. destruct (Hf r' Hr') as (m & line' & a & k' & v' & _ & _ & ->).
    rewrite E in E'. change (rule_key _) with (kind, v) in E' at 1. injection E' as <- <-.
    rewrite (proj2 (Hs (kind, v) a) (ex_intro _ m Hr')) in Hnew. done.
  - apply Forall_app. split.
    + eapply Forall_impl; [exact Hf|]. intros r'. apply rule_from_mono.
    + constructor; [|constructor]. exists n, line, action, kind, v. rewrite elem_of_app. split_all; [|done|done].
      right. by left.
  - eapply Forall_impl; [exact He|]. intros e. apply error_from_mono, sub_app_l.
  - intros m line' [Hin|E%list_elem_of_singleton]%elem_of_app.
    + eapply accounted_mono; [| |by apply Hl]; [done|apply sub_app_l].
    + injection E as -> ->. eapply acc_rule; [done|reflexivity|]. apply elem_of_app. right. by left.
Qed.

Lemma manual_step_inv lines st n line :
  (forall m y, (m, y) ∈ lines -> m < n) -> manual_inv lines st ->
  exists st', step st (n, line) = Some st' /\ manual_inv (lines ++ [(n, line)]) st'.
Proof.
  intros Hlt Hinv. unfold manual_step. destruct (parse_manual_total line) as [res Hres]. rewrite Hres.
  cbn [mbind option_bind]. eexists. split; [reflexivity|].
  destruct res as [|e|action kind v].
  - apply manual_inv_skip; [done|]. by apply acc_skip.
  - apply manual_inv_error; [done| |].
    + exists n, line. rewrite elem_of_app. split; [right; by left|]. left. eauto.
    + eapply acc_error; [exact Hres|]. apply elem_of_app. right. by left.
  - destruct (ms_seen st !! (kind, v)) as [previous|] eqn:Eseen; [|by apply manual_inv_rule].
    apply (mi_seen _ _ Hinv) in Eseen as (m & Hm). cbn [fst snd] in Hm.
    pose proof (mi_from _ _ Hinv) as Hfrom. rewrite Forall_forall in Hfrom.
    destruct (Hfrom _ Hm) as (m' & line' & a & k & v' & Hin' & _ & E).
    apply manual_rule_inj in E as (<- & <- & <- & <-).
    specialize (Hlt _ _ Hin'). destruct (String.eqb_spec previous action) as [->|Hne].
    + apply manual_inv_skip; [done|]. eapply acc_rule; [exact Hres| |exact Hm]. cbn [fst]. lia.
    + apply manual_inv_error; [done| |].
      * exists n, line. rewrite elem_of_app. split; [right; by left|]. right.
        exists action, previous, kind, v, m. auto.
      * eapply acc_conflict; [exact Hres|done|exact Hlt|done|]. apply elem_of_app. right. by left.
Qed.

Lemma manual_inv_init : manual_inv [] manual_init.
Proof.
  constructor; cbn [manual_init ms_seen ms_rules ms_errors map]; [split|constructor|constructor|constructor|].
  - intros Hk. by rewrite lookup_empty in Hk.
  - intros (m & Hm). by apply elem_of_nil in Hm.
  - intros m line Hm. by apply elem_of_nil in Hm.
Qed.

(** The lines of a text with their numbers. *)
Definition numbered (text : string) : list (Z * string) := enumerate_from 1 (py_splitlines text).

Lemma validate_manual_inv text :
  exists st, manual_inv (numbered text) st /\ validate_manual_rules idna_nonascii text =
    Some {| v_valid := bool_decide (ms_errors st = []); v_errors := ms_errors st; v_rules := ms_rules st;
            v_normalized_text := text_of_lines (map manual_rule_line (ms_rules st)) |}.
Proof.
  unfold validate_manual_rules, numbered.
  destruct (py_fold_prefix manual_inv step (enumerate_from 1 (py_splitlines text)) manual_init)
    as (st & -> & Hinv); [|apply manual_inv_init|by exists st].
  intros pre [n line] post st E Hinv. apply manual_step_inv; [|done].
  intros m y Hm. by eapply enumerate_before.
Qed.

(** Validation of the manual rules never raises, whatever the text, and
    accounts for every line: a line is blank or a comment, or its error is
    reported with its number, or its rule is in the result (from this line
    or an earlier one), or the conflict with an earlier line's action is
    reported.  Nothing else is in the result: every rule and every error
    comes from a line, the rules have distinct values, and the text is
    valid exactly when no error is reported. *)
Theorem validate_manual_rules_spec text :
  exists v, validate_manual_rules idna_nonascii text = Some v /\
    (v_valid v = true <-> v_errors v = []) /\
    NoDup (map rule_key (v_rules v)) /\
    Forall (rule_from (numbered text)) (v_rules v) /\
    Forall (error_from (numbered text) (v_rules v)) (v_errors v) /\
    forall n line, (n, line) ∈ numbered text -> accounted (v_errors v) (v_rules v) n line.
Proof.
  destruct (validate_manual_inv text) as (st & [Hs Hn Hf He Hl] & E).
  eexists. split; [exact E|]. cbn [v_valid v_errors v_rules]. rewrite bool_decide_eq_true. by split_all.
Qed.

(** C1: no accepted VPN rule reaches a protected address: the network an
    accepted VPN rule stands for has no address in common with any
    protected network. *)
Theorem manual_vpn_never_protected text v nets r n m :
  validate_manual_rules idna_nonascii text = Some v -> protected_rule_ip_networks = Some nets ->
  r ∈ v_rules v -> r_action r = "VPN" -> denotes (r_kind r) (r_value r) n -> m ∈ nets ->
  forall ver i, covers n ver i -> ~ covers m ver i.
Proof.
  intros Hv Hnets Hr Hvpn Hd Hm.
  destruct (validate_manual_inv text) as (st & [_ _ Hf _ _] & E). rewrite Hv in E. injection E as ->.
  cbn [v_rules] in Hr. rewrite Forall_forall in Hf.
  destruct (Hf r Hr) as (k & line & a & kind & val & _ & Hp & ->). cbn in Hvpn, Hd. subst a.
  apply parse_manual_rule in Hp as (Hok & _ & Hprot). by eapply not_protected_disjoint; eauto.
Qed.
End ManualFacts.

(** A network of the defaults and a VPN rule outside it. *)
Lemma manual_vpn_never_protected_witness :
  exists (v : validation) (nets : list net) r n m, (@validate_manual_rules default_settings (fun _ => None)
      ("VPN 8.8.8.0/24" +:+ String "010" "DIRECT 10.0.0.1")) = Some v /\ r ∈ v_rules v /\
    (forall ver i, covers n ver i -> ~ covers m ver i) /\ m ∈ nets.
Proof.
  set (t := "VPN 8.8.8.0/24" +:+ String "010" "DIRECT 10.0.0.1").
  destruct (@protected_rule_ip_networks default_settings) as [nets|] eqn:En; [|vm_compute in En; discriminate].
  destruct (@validate_manual_rules default_settings (fun _ => None) t) as [v|] eqn:Ev; [|vm_compute in Ev; discriminate].
  assert (Hr : @_build_rule_entry "VPN" "cidr" "8.8.8.0/24" (Some 1) RULESET_MANUAL None false ∈ v_rules v).
  { vm_compute in Ev. injection Ev as <-. left. }
  assert (Hm : Net (Addr V4 0 "") 8 ∈ nets).
  { vm_compute in En. injection En as <-. left. }
  exists v, nets, (_build_rule_entry "VPN" "cidr" "8.8.8.0/24" (Some 1) RULESET_MANUAL None false),
    (Net (Addr V4 134744064 "") 24), (Net (Addr V4 0 "") 8). split; [done|]. split; [exact Hr|]. split; [|exact Hm].
  apply (@manual_vpn_never_protected default_settings (fun _ => None) t v nets _ _ _ Ev En Hr); [reflexivity| |exact Hm].
  vm_compute. reflexivity.
Defined.
