(* ===== verification/RulesLargeList.v ===== *)
(** * Large rule lists

    The large-list half of [services/rules_compile.py]: validation of a list
    of values for one action, the collapse of its networks and the
    minimisation of its domain suffixes. *)
From stdpp Require Import base list strings pretty gmap sorting.
From Stdlib Require Import ZArith Lia Ascii.
From S2P Require Import Prelude PyStr IpAddr IpAddrFacts IpCollapse NetworkContract RulesCompile RulesManualFacts.

Open Scope string_scope.
Open Scope Z_scope.
Open Scope list_scope.

(** ** [_collapse_rule_networks] *)

(** One group of the [grouped] dictionary: its key and its entries, in order. *)
Definition group := (string * string * list (net * rule))%type.

(** [grouped.setdefault(key, []).append(entry)]. *)
Fixpoint group_add (key : string * string) (entry : net * rule) (gs : list group) : list group :=
  match gs with
  | [] => [(key, [entry])]
  | (k, es) :: gs' =>
      if decide (k = key) then (k, es ++ [entry]) :: gs' else (k, es) :: group_add key entry gs'
  end.

Definition version_string (n : net) : string := match n_ver n with V4 => "4" | V6 => "6" end.

(** The first loop: what is kept as it is, and the networks by action and version. *)
Fixpoint group_rules (preserved : list rule) (gs : list group) (rules : list rule)
    : list rule * list group :=
  match rules with
  | [] => (preserved, gs)
  | r :: rules' =>
      if negb (String.eqb (r_kind r) "cidr") then group_rules (preserved ++ [r]) gs rules'
      else
        match ip_network (r_value r) with
        | None => group_rules (preserved ++ [r]) gs rules'
        | Some n => group_rules preserved (group_add (r_action r, version_string n) (n, r) gs) rules'
        end
  end.

(** [representative_by_network]: the last rule of each printed network. *)
Fixpoint representative (value : string) (entries : list (net * rule)) : option rule :=
  match entries with
  | [] => None
  | (n, r) :: es =>
      match representative value es with
      | Some r' => Some r'
      | None => if String.eqb (str_net n) value then Some r else None
      end
  end.

Section LargeList.
Context `{Settings}.
Context (idna_nonascii : string -> option string).

(** The rule of a collapsed network: its representative, else a copy of the
    group's first entry with the new value. *)
Definition collapsed_rule (entries : list (net * rule)) (n : net) : list rule :=
  match representative (str_net n) entries with
  | Some existing => [existing]
  | None =>
      match entries with
      | (_, template) :: _ =>
          [_build_rule_entry (r_action template) "cidr" (str_net n) (r_line template)
             (r_source template) None false]
      | [] => []
      end
  end.

(** The second loop's body: the rules of a group and how many it removed. *)
Definition collapse_group (g : group) : list rule * nat :=
  let entries := g.2 in
  let collapsed := default [] (collapse_addresses (map fst entries)) in
  (flat_map (collapsed_rule entries) collapsed, (length entries - length collapsed)%nat).

Definition _collapse_rule_networks (rules : list rule) : list rule * nat :=
  let '(preserved, groups) := group_rules [] [] rules in
  let done := map collapse_group groups in
  (preserved ++ flat_map fst done, sum_list (map snd done)).

(** ** Domain suffixes *)

(** The proper parents of a suffix: its label list cut at each position. *)
Fixpoint proper_tails {A} (l : list A) : list (list A) :=
  match l with
  | [] => []
  | _ :: l' => match l' with [] => [] | _ => l' :: proper_tails l' end
  end.

Definition suffix_labels (value : string) : list string := py_split "."%char (py_lstrip_char "."%char value).

Definition suffix_parents (value : string) : list string :=
  map (fun labels => "." +:+ py_join "." labels) (proper_tails (suffix_labels value)).

Definition _suffix_subsumed (value : string) (kept_suffixes : list string) : bool :=
  existsb (fun parent => bool_decide (parent ∈ kept_suffixes)) (suffix_parents value).

(** The sort key of the suffix pass: labels, length, text. *)
Definition suffix_key_leb (a b : rule) : bool :=
  let la := length (suffix_labels (r_value a)) in
  let lb := length (suffix_labels (r_value b)) in
  let na := py_len (r_value a) in
  let nb := py_len (r_value b) in
  if (la =? lb)%nat then
    if (na =? nb)%nat then py_leb (r_value a) (r_value b) else (na <? nb)%nat
  else (la <? lb)%nat.

(** The pass over the sorted suffixes: kept values, kept rules, removed count. *)
Fixpoint minimize_suffixes (kept : list string) (rules : list rule) : list rule * nat :=
  match rules with
  | [] => ([], 0%nat)
  | r :: rules' =>
      let value := r_value r in
      if bool_decide (value ∈ kept) || _suffix_subsumed value kept then
        let '(out, removed) := minimize_suffixes kept rules' in (out, S removed)
      else
        let '(out, removed) := minimize_suffixes (value :: kept) rules' in (r :: out, removed)
  end.

Definition kind_rank (kind : string) : Z :=
  if String.eqb kind "cidr" then 0
  else if String.eqb kind "ip" then 1
  else if String.eqb kind "domain" then 2
  else if String.eqb kind "domain_suffix" then 3
  else 9.

Definition rank_leb (a b : rule) : bool :=
  if kind_rank (r_kind a) =? kind_rank (r_kind b) then py_leb (r_value a) (r_value b)
  else kind_rank (r_kind a) <? kind_rank (r_kind b).

Record compile_stats := CompileStats {
  cidr_collapsed_removed : nat;
  domain_suffix_subsumed_removed : nat;
}.

Definition is_big_source (source : string) : bool :=
  String.eqb source RULESET_BIG_DIRECT || String.eqb source RULESET_BIG_VPN.

Definition is_suffix_rule (r : rule) : bool := String.eqb (r_kind r) "domain_suffix".

Definition _compile_large_list_rules (rules : list rule) (source : string) : list rule * compile_stats :=
  if negb (is_big_source source) then (rules, CompileStats 0 0)
  else
    let '(collapsed_rules, cidr_removed) := _collapse_rule_networks rules in
    let suffix_rules := List.filter is_suffix_rule collapsed_rules in
    let non_suffix_rules := List.filter (fun r => negb (is_suffix_rule r)) collapsed_rules in
    let '(minimized, suffix_removed) := minimize_suffixes [] (sort_by suffix_key_leb suffix_rules) in
    (sort_by rank_leb (non_suffix_rules ++ minimized), CompileStats cidr_removed suffix_removed).

(** ** [validate_value_list] *)

Record list_state := ListState {
  ls_errors : list rule_error;
  ls_rules : list rule;
  ls_seen : gset (string * string);
  ls_skipped : nat;
}.

Definition list_error (st : list_state) (e : rule_error) : list_state :=
  ListState (ls_errors st ++ [e]) (ls_rules st) (ls_seen st) (ls_skipped st).

Definition located (n : Z) (source : string) (e : rule_error) : rule_error :=
  RuleError (Some n) (e_code e) (e_message e) (e_fields e ++ [("source", source)]).

(** What a line comes to: nothing, an error, a skipped protected value, or a key. *)
Inductive entry_result :=
  | EntrySkip
  | EntryError (e : rule_error)
  | EntryProtected
  | EntryRule (kind value : string).

Definition parse_list_line (action source original_line : string) : py entry_result :=
  let stripped := py_strip original_line in
  if String.eqb stripped "" || py_startswith stripped "#" then Some EntrySkip
  else if has_char "#"%char stripped then
    Some (EntryError (value_error "INLINE_COMMENT_NOT_SUPPORTED" "Inline comments are not supported."
                        [("text", original_line)]))
  else if negb (length (py_split_ws stripped) =? 1)%nat then
    Some (EntryError (value_error "INVALID_FORMAT"
      "Large list entries must contain exactly one value per line." [("text", original_line)]))
  else
    match _normalize_rule_value idna_nonascii (_normalize_large_list_value stripped) with
    | inl e => Some (EntryError e)
    | inr (kind0, value0) =>
        let '(kind, value) :=
          if is_big_source source && String.eqb kind0 "domain" then ("domain_suffix", "." +:+ value0)
          else (kind0, value0) in
        prot ← (if String.eqb action "VPN" then _is_protected_local kind value else Some false);
        if (prot : bool) then
          if is_big_source source then Some EntryProtected
          else Some (EntryError (value_error "VPN_LOCAL_DIRECT_PROTECTED"
                 "Protected local/private/service pools cannot be routed through VPN."
                 [("value", value)]))
        else Some (EntryRule kind value)
    end.

Definition list_step (action source : string) (st : list_state) (numbered : Z * string) : py list_state :=
  let '(line_number, original_line) := numbered in
  res ← parse_list_line action source original_line;
  Some match res with
  | EntrySkip => st
  | EntryError e => list_error st (located line_number source e)
  | EntryProtected => ListState (ls_errors st) (ls_rules st) (ls_seen st) (S (ls_skipped st))
  | EntryRule kind value =>
      if decide ((kind, value) ∈ ls_seen st) then st
      else ListState (ls_errors st)
             (ls_rules st ++ [_build_rule_entry action kind value (Some line_number) source None false])
             ({[(kind, value)]} ∪ ls_seen st) (ls_skipped st)
  end.

Definition list_init : list_state := ListState [] [] ∅ 0.

Record list_validation := ListValidation {
  lv_valid : bool;
  lv_errors : list rule_error;
  lv_rules : list rule;
  lv_stats : compile_stats;
  lv_protected_vpn_skipped : nat;
  lv_normalized_text : string;
}.

Definition validate_value_list (text action source : string) : py list_validation :=
  st ← py_fold (list_step action source) list_init (enumerate_from 1 (py_splitlines text));
  let '(compiled_rules, stats) := _compile_large_list_rules (ls_rules st) source in
  Some {| lv_valid := bool_decide (ls_errors st = []);
          lv_errors := ls_errors st;
          lv_rules := compiled_rules;
          lv_stats := stats;
          lv_protected_vpn_skipped := ls_skipped st;
          lv_normalized_text := text_of_lines (map r_value compiled_rules) |}.
End LargeList.

(** * Facts about the large lists

    The collapse and the minimisation keep what the list matches: the
    addresses of each action and the host names of the suffixes.  The result
    is minimal: networks of one action are disjoint and no suffix is under
    another. *)
(** ** Groups *)

(** The network of a cidr rule that parses. *)
Definition cidr_net (r : rule) : option net :=
  if String.eqb (r_kind r) "cidr" then ip_network (r_value r) else None.

Definition entry_ok (g : group) (e : net * rule) : Prop :=
  cidr_net e.2 = Some e.1 /\ g.1 = (r_action e.2, version_string e.1).

Record groups_ok (gs : list group) : Prop := {
  go_keys : NoDup (map fst gs);
  go_entries : forall g e, g ∈ gs -> e ∈ g.2 -> entry_ok g e;
  go_nonempty : forall g, g ∈ gs -> g.2 <> [];
}.

Lemma group_add_keys key e gs :
  map fst (group_add key e gs) = if decide (key ∈ map fst gs) then map fst gs else map fst gs ++ [key].
Proof.
  induction gs as [|[k es] gs IH]; cbn [group_add map fst].
  - case_decide as Hin; [by apply elem_of_nil in Hin|done].
  - destruct (decide (k = key)) as [->|Hne]; cbn [map fst].
    + rewrite decide_True by by left. done.
    + rewrite IH. destruct (decide (key ∈ map fst gs)) as [Hin|Hin].
      * rewrite decide_True by by right. done.
      * rewrite decide_False; [done|]. intros [->|?]%elem_of_cons; done.
Qed.

(** Membership after an addition, for groups with distinct keys. *)
Lemma group_add_entries key e gs k x :
  NoDup (map fst gs) ->
  (exists es, (k, es) ∈ group_add key e gs /\ x ∈ es) <->
  (exists es, (k, es) ∈ gs /\ x ∈ es) \/ (k = key /\ x = e).
Proof.
  induction gs as [|[k' es'] gs IH]; intros Hnd; cbn [group_add].
  - split.
    + intros (es & [= -> ->]%list_elem_of_singleton & ->%list_elem_of_singleton). by right.
    + intros [(es & ?%elem_of_nil & _)|[-> ->]]; [done|]. exists [e]. split; by left.
  - inversion Hnd as [|? ? Hnin Hnd']; subst. specialize (IH Hnd').
    destruct (decide (k' = key)) as [->|Hne]; setoid_rewrite elem_of_cons.
    + split.
      * intros (es & [[= -> ->]|Hin] & Hx); [|left; eauto].
        apply elem_of_app in Hx as [Hx| ->%list_elem_of_singleton]; [left; eauto|by right].
      * intros [(es & [[= -> ->]|Hin] & Hx)|[-> ->]].
        -- exists (es' ++ [e]). rewrite elem_of_app. auto.
        -- exists es. auto.
        -- exists (es' ++ [e]). rewrite elem_of_app, list_elem_of_singleton. auto.
    + split.
      * intros (es & [[= -> ->]|Hin] & Hx); [left; eauto|].
        destruct (proj1 IH (ex_intro _ es (conj Hin Hx))) as [(es0 & H1 & H2)|?]; eauto.
      * intros [(es & [[= -> ->]|Hin] & Hx)|Hk]; [eauto| |].
        -- destruct (proj2 IH (or_introl (ex_intro _ es (conj Hin Hx)))) as (es0 & H1 & H2). eauto.
        -- destruct (proj2 IH (or_intror Hk)) as (es0 & H1 & H2). eauto.
Qed.

Lemma group_add_nonempty key e gs g : (forall g, g ∈ gs -> g.2 <> []) -> g ∈ group_add key e gs -> g.2 <> [].
Proof.
  induction gs as [|[k es] gs IH]; intros Hne; cbn [group_add].
  - intros ->%list_elem_of_singleton. done.
  - destruct (decide (k = key)); intros [->|Hin]%elem_of_cons.
    + cbn [snd]. by destruct es.
    + apply Hne. by right.
    + apply Hne. by left.
    + apply IH; [|done]. intros g' Hg'. apply Hne. by right.
Qed.

Definition grouped (gs : list group) (k : string * string) (e : net * rule) : Prop :=
  exists es, (k, es) ∈ gs /\ e ∈ es.

Lemma groups_ok_add gs n r :
  groups_ok gs -> cidr_net r = Some n ->
  groups_ok (group_add (r_action r, version_string n) (n, r) gs).
Proof.
  intros [Hk He Hne] Hr. constructor.
  - rewrite group_add_keys. case_decide as Hin; [done|]. apply NoDup_app. split; [done|].
    split; [|apply NoDup_singleton]. intros k Hk' ->%list_elem_of_singleton. done.
  - intros [k es] e Hg Hin. cbn [snd] in Hin.
    assert (Hx : grouped (group_add (r_action r, version_string n) (n, r) gs) k e) by (by exists es).
    apply group_add_entries in Hx as [(es0 & Hin0 & He0)|[-> ->]]; [|split; done|done].
    exact (He (k, es0) e Hin0 He0).
  - intros g Hg. by eapply group_add_nonempty.
Qed.

Lemma group_rules_spec rules : forall preserved gs out gs',
  groups_ok gs -> group_rules preserved gs rules = (out, gs') ->
  groups_ok gs' /\
  (forall r, r ∈ out <-> r ∈ preserved \/ (r ∈ rules /\ cidr_net r = None)) /\
  (forall k n r, grouped gs' k (n, r) <->
     grouped gs k (n, r) \/ (r ∈ rules /\ cidr_net r = Some n /\ k = (r_action r, version_string n))).
Proof.
  induction rules as [|r0 rules IH]; intros preserved gs out gs' Hgs; cbn [group_rules].
  { intros [= <- <-]. split; [done|]. split.
    - intros r. split; [by left|]. by intros [?|[?%elem_of_nil _]].
    - intros k n r. split; [by left|]. by intros [?|[?%elem_of_nil _]]. }
  assert (Hpres : cidr_net r0 = None -> group_rules (preserved ++ [r0]) gs rules = (out, gs') ->
    groups_ok gs' /\
    (forall r, r ∈ out <-> r ∈ preserved \/ (r ∈ r0 :: rules /\ cidr_net r = None)) /\
    (forall k n r, grouped gs' k (n, r) <-> grouped gs k (n, r) \/
       (r ∈ r0 :: rules /\ cidr_net r = Some n /\ k = (r_action r, version_string n)))).
  { intros Hn E. destruct (IH _ _ _ _ Hgs E) as (H1 & H2 & H3). split; [done|]. split.
    - intros r. rewrite H2, elem_of_app, list_elem_of_singleton, elem_of_cons. split.
      + intros [[?| ->]|[? ?]]; auto.
      + intros [?|[[->|?] ?]]; auto.
    - intros k n r. rewrite H3, elem_of_cons. split.
      + intros [?|(? & ? & ?)]; auto.
      + intros [?|([->|?] & ? & ?)]; [auto|congruence|auto]. }
  destruct (String.eqb (r_kind r0) "cidr") eqn:Ek; cbn [negb].
  - destruct (ip_network (r_value r0)) as [n0|] eqn:En.
    + assert (Hn : cidr_net r0 = Some n0) by (unfold cidr_net; by rewrite Ek).
      intros E. destruct (IH _ _ _ _ (groups_ok_add gs n0 r0 Hgs Hn) E) as (H1 & H2 & H3).
      split; [done|]. split.
      * intros r. rewrite H2, elem_of_cons. split; [intros [?|[? ?]]; auto|].
        intros [?|[[->|?] ?]]; [auto|congruence|auto].
      * intros k n r. rewrite H3. unfold grouped. rewrite group_add_entries by by destruct Hgs.
        rewrite elem_of_cons. split.
        -- intros [[?|[-> [= -> ->]]]|(? & ? & ?)]; auto.
        -- intros [?|([->|?] & Hc & ->)]; [auto| |auto]. left. right.
           rewrite Hn in Hc. by injection Hc as ->.
    + apply Hpres. unfold cidr_net. by rewrite Ek.
  - apply Hpres. unfold cidr_net. by rewrite Ek.
Qed.

Lemma groups_ok_nil : groups_ok [].
Proof. constructor; [constructor|..]; by intros ? ?%elem_of_nil || (intros ? ? ?%elem_of_nil; done). Qed.

(** ** Collapsing a group *)

Lemma version_string_inj n m : version_string n = version_string m -> n_ver n = n_ver m.
Proof. unfold version_string. by destruct (n_ver n), (n_ver m). Qed.

Lemma cidr_net_wf r n : cidr_net r = Some n -> net_wf n.
Proof. unfold cidr_net. destruct (String.eqb _ _); [|done]. apply ip_network_wf. Qed.

Lemma cidr_net_kind r n : cidr_net r = Some n -> r_kind r = "cidr" /\ ip_network (r_value r) = Some n.
Proof. unfold cidr_net. by destruct (String.eqb_spec (r_kind r) "cidr"). Qed.

Lemma cidr_net_denotes r n : cidr_net r = Some n -> denotes (r_kind r) (r_value r) n.
Proof.
  intros [Ek En]%cidr_net_kind. unfold denotes, _network_for_rule. rewrite Ek.
  change (String.eqb "cidr" _ || _) with false. change (String.eqb "cidr" "ip") with false. cbv iota.
  by rewrite En.
Qed.

Lemma representative_some value es r :
  representative value es = Some r -> exists n, (n, r) ∈ es /\ str_net n = value.
Proof.
  induction es as [|[n r0] es IH]; cbn [representative]; [done|].
  destruct (representative value es) as [r'|].
  - intros [= ->]. destruct (IH eq_refl) as (m & Hm & E). exists m. split; [by right|done].
  - destruct (String.eqb_spec (str_net n) value) as [E|]; [|done]. intros [= ->]. exists n. split; [by left|done].
Qed.

Section CollapseFacts.
Context `{Settings}.

(** The rule of a collapsed network has that network and the group's action. *)
Lemma collapsed_rule_spec g n :
  g.2 <> [] -> (forall e, e ∈ g.2 -> entry_ok g e) -> net_wf n ->
  exists r, collapsed_rule g.2 n = [r] /\ cidr_net r = Some n /\ r_action r = g.1.1.
Proof.
  intros Hne Hok Hn. unfold collapsed_rule. destruct (representative (str_net n) g.2) as [r|] eqn:Er.
  - exists r. split; [done|]. apply representative_some in Er as (m & Hin & E).
    destruct (Hok _ Hin) as [Hr Hk]. cbn [fst snd] in *. rewrite Hk. split; [|done].
    rewrite Hr. f_equal. pose proof (ip_network_str m (cidr_net_wf _ _ Hr)) as E1. rewrite E in E1.
    rewrite ip_network_str in E1 by done. by injection E1.
  - destruct g as [k [|[m template] es]]; [done|]. cbn [snd]. eexists. split; [reflexivity|].
    unfold cidr_net, _build_rule_entry. cbn [r_kind r_value r_action]. rewrite String.eqb_refl.
    split; [by apply ip_network_str|]. destruct (Hok (m, template) ltac:(by left)) as [_ Hk].
    cbn [fst snd] in Hk. by rewrite Hk.
Qed.

(** The networks of a group, all of its version. *)
Lemma group_good g :
  g.2 <> [] -> (forall e, e ∈ g.2 -> entry_ok g e) -> (forall e, e ∈ g.2 -> unscoped e.1) ->
  exists v, Forall (good v) (map fst g.2) /\ forall n, n_ver n = v <-> version_string n = g.1.2.
Proof.
  intros Hne Hok Hun. destruct g as [k es]. cbn [fst snd] in *.
  destruct es as [|[n0 r0] es']; [done|]. destruct (Hok (n0, r0) ltac:(by left)) as [_ E0]. cbn [fst snd] in E0.
  exists (n_ver n0). split.
  - apply Forall_forall. intros n ([m r] & -> & Hin)%list_elem_of_fmap. cbn [fst].
    destruct (Hok _ Hin) as [Hr Hk]. cbn [fst snd] in *. split; [by eapply cidr_net_wf|].
    split; [|exact (Hun _ Hin)]. apply version_string_inj. rewrite Hk in E0. by injection E0.
  - intros n. rewrite E0. cbn [snd]. split; [unfold version_string; by intros ->|apply version_string_inj].
Qed.

Lemma collapse_group_spec g :
  g.2 <> [] -> (forall e, e ∈ g.2 -> entry_ok g e) -> (forall e, e ∈ g.2 -> unscoped e.1) ->
  exists v nets, Forall (good v) nets /\ StronglySorted (before) nets /\
    (forall n, n_ver n = v <-> version_string n = g.1.2) /\
    (forall i, cov v nets i <-> cov v (map fst g.2) i) /\
    (forall r, r ∈ (collapse_group g).1 -> exists n, n ∈ nets /\ cidr_net r = Some n /\ r_action r = g.1.1) /\
    (forall n, n ∈ nets -> exists r, r ∈ (collapse_group g).1 /\ cidr_net r = Some n /\ r_action r = g.1.1).
Proof.
  intros Hne Hok Hun. destruct (group_good g Hne Hok Hun) as (v & Hg & Hv).
  destruct (collapse_addresses_spec v (map fst g.2) Hg) as (nets & E & Hgn & Hs & Hc).
  exists v, nets. split; [done|]. split; [done|]. split; [done|]. split; [done|].
  assert (Hr : forall n, n ∈ nets -> exists r, collapsed_rule g.2 n = [r] /\ cidr_net r = Some n /\ r_action r = g.1.1).
  { intros n Hn. apply collapsed_rule_spec; [done|done|]. rewrite Forall_forall in Hgn. by apply Hgn. }
  unfold collapse_group. rewrite E. cbn [default fst]. split.
  - intros r Hin%list_elem_of_In. apply in_flat_map in Hin as (n & Hn%list_elem_of_In & Hin).
    destruct (Hr n Hn) as (r' & E' & H1 & H2). rewrite E' in Hin. destruct Hin as [<-|[]]. eauto.
  - intros n Hn. destruct (Hr n Hn) as (r & E' & H1 & H2). exists r. split; [|done].
    apply list_elem_of_In, in_flat_map. exists n. split; [by apply list_elem_of_In|]. rewrite E'. by left.
Qed.

(** An address is matched by a rule of an action. *)
Definition rule_covers (r : rule) (v : ipver) (i : Z) : Prop :=
  exists n, denotes (r_kind r) (r_value r) n /\ covers n v i.

Definition action_covers (rules : list rule) (action : string) (v : ipver) (i : Z) : Prop :=
  exists r, r ∈ rules /\ r_action r = action /\ rule_covers r v i.

(** No network of the list has a scope id. *)
Definition unscoped_rules (rules : list rule) : Prop :=
  forall r n, r ∈ rules -> cidr_net r = Some n -> unscoped n.

Lemma cidr_covers r n v i : cidr_net r = Some n -> rule_covers r v i <-> covers n v i.
Proof.
  intros Hr. apply cidr_net_denotes in Hr. unfold rule_covers, denotes in *. split.
  - intros (m & Hm & Hc). by assert (m = n) as -> by congruence.
  - eauto.
Qed.

Lemma collapse_rules_groups rules :
  unscoped_rules rules ->
  exists preserved gs, _collapse_rule_networks rules =
      (preserved ++ flat_map (fun g => (collapse_group g).1) gs, sum_list (map (fun g => (collapse_group g).2) gs)) /\
    groups_ok gs /\ (forall g e, g ∈ gs -> e ∈ g.2 -> unscoped e.1) /\
    (forall r, r ∈ preserved <-> r ∈ rules /\ cidr_net r = None) /\
    (forall k n r, grouped gs k (n, r) <->
       r ∈ rules /\ cidr_net r = Some n /\ k = (r_action r, version_string n)).
Proof.
  intros Hun. unfold _collapse_rule_networks.
  destruct (group_rules [] [] rules) as [preserved gs] eqn:E.
  destruct (group_rules_spec rules _ _ _ _ groups_ok_nil E) as (Hok & Hp & Hg).
  exists preserved, gs. split; [by rewrite !flat_map_concat_map, !map_map|]. split; [done|].
  assert (Hg' : forall k n r, grouped gs k (n, r) <->
    r ∈ rules /\ cidr_net r = Some n /\ k = (r_action r, version_string n)).
  { intros k n r. rewrite Hg. split; [|by right]. intros [(es & ?%elem_of_nil & _)|?]; done. }
  split; [|split; [|done]].
  - intros [k es] [n r] Hin He. destruct (proj1 (Hg' k n r)) as (Hr & Hn & _); [by exists es|]. by eapply Hun.
  - intros r. rewrite Hp. split; [|by right]. by intros [?%elem_of_nil|?].
Qed.

Lemma action_covers_app l k a v i :
  action_covers (l ++ k) a v i <-> action_covers l a v i \/ action_covers k a v i.
Proof.
  unfold action_covers. setoid_rewrite elem_of_app. split.
  - intros (r & [Hr|Hr] & Hx); [left|right]; by exists r.
  - intros [(r & Hr & Hx)|(r & Hr & Hx)]; exists r; auto.
Qed.

(** The groups cover what the networks of the list cover. *)
Lemma group_covers (rules : list rule) gs :
  groups_ok gs -> (forall g e, g ∈ gs -> e ∈ g.2 -> unscoped e.1) ->
  (forall k n r, grouped gs k (n, r) <-> r ∈ rules /\ cidr_net r = Some n /\ k = (r_action r, version_string n)) ->
  forall a v i, action_covers (flat_map (fun g => (collapse_group g).1) gs) a v i <->
    exists r n, r ∈ rules /\ r_action r = a /\ cidr_net r = Some n /\ covers n v i.
Proof.
  intros Hok Hun Hg a v i. split.
  - intros (r & Hr%list_elem_of_In & <- & Hc). apply in_flat_map in Hr as (g & Hgin%list_elem_of_In & Hr%list_elem_of_In).
    destruct (collapse_group_spec g (go_nonempty _ Hok g Hgin) (fun e => go_entries _ Hok g e Hgin) (fun e => Hun g e Hgin))
      as (v' & nets & Hgood & _ & Hv & Hcov & Hout & _).
    destruct (Hout r Hr) as (n & Hn & Hrn & Ea). apply (cidr_covers r n v i Hrn) in Hc.
    assert (n_ver n = v) by apply Hc. subst v.
    assert (Hvn : n_ver n = v' -> exists e, e ∈ g.2 /\ covers e.1 (n_ver n) i).
    { intros <-. destruct (proj1 (Hcov i)) as (m & Hm & Hmc); [by exists n|].
      apply list_elem_of_fmap in Hm as (e & -> & He). eauto. }
    destruct Hvn as ([m r'] & He & Hmc).
    { rewrite Forall_forall in Hgood. by destruct (Hgood n Hn) as (_ & ? & _). }
    destruct g as [k es]. destruct (proj1 (Hg k m r')) as (H1 & H2 & H3); [by exists es|].
    exists r', m. split_all; [done| |done|done]. rewrite Ea, H3. done.
  - intros (r & n & Hr & <- & Hn & Hc). destruct (proj2 (Hg (r_action r, version_string n) n r)) as (es & Hin & He); [done|].
    set (g := (r_action r, version_string n, es)) in *.
    destruct (collapse_group_spec g (go_nonempty _ Hok g Hin) (fun e => go_entries _ Hok g e Hin) (fun e => Hun g e Hin))
      as (v' & nets & _ & _ & Hv & Hcov & _ & Hout).
    assert (n_ver n = v) by apply Hc. subst v. pose proof (proj2 (Hv n) eq_refl) as <-.
    destruct (proj2 (Hcov i)) as (m & Hm & Hmc).
    { exists n. split; [|done]. apply list_elem_of_fmap. exists (n, r). done. }
    destruct (Hout m Hm) as (r' & Hr' & Hrn & Ea). exists r'. split_all.
    + apply list_elem_of_In, in_flat_map. exists g. split; by apply list_elem_of_In.
    + exact Ea.
    + by apply (cidr_covers r' m).
Qed.

Lemma collapse_rules_covers rules a v i :
  unscoped_rules rules ->
  action_covers (_collapse_rule_networks rules).1 a v i <-> action_covers rules a v i.
Proof.
  intros Hun. destruct (collapse_rules_groups rules Hun) as (pres & gs & -> & Hok & Hu & Hp & Hg).
  cbn [fst]. rewrite action_covers_app, (group_covers rules gs Hok Hu Hg). split.
  - intros [(r & Hr & Hx)|(r & n & Hr & Ha & Hn & Hc)].
    + apply Hp in Hr as [Hr _]. by exists r.
    + exists r. split_all; [done|done|]. by apply (cidr_covers r n).
  - intros (r & Hr & Ha & Hc). destruct (cidr_net r) as [n|] eqn:En.
    + right. exists r, n. split_all; try done. by apply (cidr_covers r n).
    + left. exists r. split; [by apply Hp|done].
Qed.

(** Everything that is not a network is kept as it is. *)
Lemma collapse_rules_others rules r :
  unscoped_rules rules -> cidr_net r = None ->
  r ∈ (_collapse_rule_networks rules).1 <-> r ∈ rules.
Proof.
  intros Hun Hr. destruct (collapse_rules_groups rules Hun) as (pres & gs & -> & Hok & Hu & Hp & Hg).
  cbn [fst]. rewrite elem_of_app, Hp. split; [|by left].
  intros [[? _]|Hin%list_elem_of_In]; [done|]. exfalso.
  apply in_flat_map in Hin as (g & Hgin%list_elem_of_In & Hin%list_elem_of_In).
  destruct (collapse_group_spec g (go_nonempty _ Hok g Hgin) (fun e => go_entries _ Hok g e Hgin) (fun e => Hu g e Hgin))
    as (v & nets & _ & _ & _ & _ & Hout & _).
  destruct (Hout r Hin) as (n & _ & Hn & _). congruence.
Qed.

Lemma sorted_before_disjoint v nets n m i :
  Forall (good v) nets -> StronglySorted before nets -> n ∈ nets -> m ∈ nets ->
  covers n v i -> covers m v i -> n = m.
Proof.
  intros Hg. induction 1 as [|x l Hs IH Hx]; intros Hn Hm Hcn Hcm; [by apply elem_of_nil in Hn|].
  inversion Hg as [|? ? Hgx Hgl]; subst. rewrite Forall_forall in Hx, Hgl.
  assert (Hsep : forall y, y ∈ l -> covers x v i -> covers y v i -> False).
  { intros y Hy Hcx Hcy. pose proof (Hx y Hy) as Hb. unfold before in Hb. rewrite (good_last v x Hgx) in Hb.
    apply (good_covers v x i Hgx) in Hcx. apply (good_covers v y i (Hgl y Hy)) in Hcy. lia. }
  apply elem_of_cons in Hn as [->|Hn], Hm as [->|Hm]; [done|exfalso; eauto..|].
  apply IH; [|done..]. by apply Forall_forall.
Qed.

(** Two collapsed networks of one action that share an address are the same. *)
Lemma collapse_rules_disjoint rules r1 r2 n1 n2 v i :
  unscoped_rules rules -> r1 ∈ (_collapse_rule_networks rules).1 -> r2 ∈ (_collapse_rule_networks rules).1 ->
  r_action r1 = r_action r2 -> cidr_net r1 = Some n1 -> cidr_net r2 = Some n2 ->
  covers n1 v i -> covers n2 v i -> n1 = n2.
Proof.
  intros Hun. destruct (collapse_rules_groups rules Hun) as (pres & gs & -> & Hok & Hu & Hp & Hg). cbn [fst].
  assert (Hfrom : forall r n, cidr_net r = Some n -> r ∈ pres ++ flat_map (fun g => (collapse_group g).1) gs ->
    exists g, g ∈ gs /\ r ∈ (collapse_group g).1).
  { intros r n Hn [Hin|Hin%list_elem_of_In]%elem_of_app; [apply Hp in Hin as [_ ?]; congruence|].
    apply in_flat_map in Hin as (g & ?%list_elem_of_In & ?%list_elem_of_In). by exists g. }
  intros Hr1 Hr2 Ha Hn1 Hn2 Hc1 Hc2.
  destruct (Hfrom r1 n1 Hn1 Hr1) as (g1 & Hg1 & Hin1). destruct (Hfrom r2 n2 Hn2 Hr2) as (g2 & Hg2 & Hin2).
  destruct (collapse_group_spec g1 (go_nonempty _ Hok g1 Hg1) (fun e => go_entries _ Hok g1 e Hg1) (fun e => Hu g1 e Hg1))
    as (v1 & nets1 & Hgood1 & Hs1 & Hv1 & _ & Hout1 & _).
  destruct (collapse_group_spec g2 (go_nonempty _ Hok g2 Hg2) (fun e => go_entries _ Hok g2 e Hg2) (fun e => Hu g2 e Hg2))
    as (v2 & nets2 & Hgood2 & Hs2 & Hv2 & _ & Hout2 & _).
  destruct (Hout1 r1 Hin1) as (m1 & Hm1 & E1 & Ha1). destruct (Hout2 r2 Hin2) as (m2 & Hm2 & E2 & Ha2).
  assert (m1 = n1) as -> by congruence. assert (m2 = n2) as -> by congruence.
  assert (Hver1 : n_ver n1 = v1). { rewrite Forall_forall in Hgood1. by destruct (Hgood1 n1 Hm1) as (_ & ? & _). }
  assert (Hver2 : n_ver n2 = v2). { rewrite Forall_forall in Hgood2. by destruct (Hgood2 n2 Hm2) as (_ & ? & _). }
  assert (Hver : n_ver n1 = n_ver n2) by (rewrite (proj1 Hc1), (proj1 Hc2); done).
  assert (Hkey : g1.1 = g2.1).
  { apply Hv1 in Hver1. apply Hv2 in Hver2. rewrite (surjective_pairing g1.1), (surjective_pairing g2.1).
    rewrite <- Hver1, <- Hver2. f_equal; [congruence|]. unfold version_string. by rewrite Hver. }
  assert (g1 = g2) as <-.
  { clear -Hok Hg1 Hg2 Hkey. destruct Hok as [Hnd _ _].
    apply list_elem_of_lookup in Hg1 as [i1 H1], Hg2 as [i2 H2].
    assert (i1 = i2) as ->; [|congruence]. apply (NoDup_lookup (map fst gs) i1 i2 g1.1 Hnd).
    - apply list_lookup_fmap_Some. by exists g1.
    - apply list_lookup_fmap_Some. by exists g2. }
  assert (Hn2' : n2 ∈ nets1).
  { pose proof (Hout1 r2 Hin2) as (m & Hm & E & _). assert (m = n2) as -> by congruence. done. }
  assert (v1 = v) as -> by (rewrite <- Hver1; apply Hc1).
  by apply (sorted_before_disjoint v nets1 n1 n2 i).
Qed.
End CollapseFacts.

(** ** Domain suffixes *)

(** A suffix value: a dot and a name without empty labels. *)
Definition suffix_ok (value : string) : Prop :=
  exists d, value = "." +:+ d /\ Forall (fun l => l <> "") (py_split "."%char d).

Definition labels_ok (ls : list string) : Prop :=
  ls <> [] /\ Forall (fun l => l <> "" /\ has_char "."%char l = false) ls.

Lemma lstrip_dot_join ls : labels_ok ls -> py_lstrip_char "."%char ("." +:+ py_join "." ls) = py_join "." ls.
Proof.
  intros [Hne Hls]. destruct ls as [|l ls]; [done|]. inversion Hls as [|? ? [Hl Hd] _]; subst.
  assert (E : forall t, py_lstrip_char "."%char (l +:+ t) = l +:+ t).
  { intros t. destruct l as [|c l]; [done|]. rewrite string_app_cons. apply lstrip_id.
    cbn [has_char any_char] in Hd. unfold has_char in Hd. cbn in Hd. by apply orb_false_iff in Hd as [? _]. }
  change (py_lstrip_char "."%char (py_join "." (l :: ls)) = py_join "." (l :: ls)).
  destruct ls as [|q ls]; [|rewrite py_join_cons; apply E].
  specialize (E ""). by rewrite string_app_nil_r in E.
Qed.

Lemma suffix_labels_join ls : labels_ok ls -> suffix_labels ("." +:+ py_join "." ls) = ls.
Proof.
  intros Hls. unfold suffix_labels. rewrite lstrip_dot_join by done. destruct Hls as [Hne Hls].
  apply py_split_join; [done|]. eapply Forall_impl; [exact Hls|]. by intros l [].
Qed.

Lemma suffix_value_labels v : suffix_ok v -> labels_ok (suffix_labels v) /\ v = "." +:+ py_join "." (suffix_labels v).
Proof.
  intros (d & -> & Hd). assert (Hok : labels_ok (py_split "."%char d)).
  { split; [apply py_split_nonempty|]. apply Forall_and. split; [done|apply py_split_parts_no_sep]. }
  pose proof (suffix_labels_join _ Hok) as E. rewrite py_join_split in E. rewrite E. by rewrite py_join_split.
Qed.

Lemma proper_tails_spec {A} (l t : list A) :
  t ∈ proper_tails l <-> t <> [] /\ exists pre, pre <> [] /\ l = pre ++ t.
Proof.
  induction l as [|x l IH]; cbn [proper_tails].
  - split; [by intros ?%elem_of_nil|]. intros (_ & pre & Hp & E). by destruct pre.
  - destruct l as [|y l].
    + split; [by intros ?%elem_of_nil|]. intros (Ht & pre & Hp & E).
      destruct pre as [|z [|]], t; try done.
    + rewrite elem_of_cons, IH. split.
      * intros [->|(Ht & pre & Hp & ->)]; (split; [done|]); [by exists [x]|by exists (x :: pre)].
      * intros (Ht & [|z pre] & Hp & E); [done|]. injection E as <- E.
        destruct pre as [|p pre]; [by left|]. right. split; [done|]. by exists (p :: pre).
Qed.

(** The host names a suffix selects: the name itself and its subdomains. *)
Definition suffix_matches (value host : string) : Prop :=
  exists pre, py_split "."%char host = pre ++ suffix_labels value.

(** A suffix strictly under another. *)
Definition under (v w : string) : Prop := exists pre, pre <> [] /\ suffix_labels v = pre ++ suffix_labels w.

Lemma suffix_parents_spec v w : suffix_ok v -> suffix_ok w -> w ∈ suffix_parents v <-> under v w.
Proof.
  intros Hv Hw. destruct (suffix_value_labels v Hv) as [[Hne Hls] _].
  destruct (suffix_value_labels w Hw) as [Hokw Ew]. unfold suffix_parents, under.
  rewrite list_elem_of_fmap. setoid_rewrite proper_tails_spec. split.
  - intros (ls & E & Hl & pre & Hp & El). exists pre. split; [done|].
    assert (suffix_labels w = ls) as ->; [|done].
    rewrite E. apply suffix_labels_join. split; [done|]. rewrite El in Hls. by apply Forall_app in Hls as [_ ?].
  - intros (pre & Hp & El). exists (suffix_labels w). split; [done|]. split; [apply Hokw|eauto].
Qed.

Lemma matches_under v w host : under v w -> suffix_matches v host -> suffix_matches w host.
Proof. intros (pre & _ & E) [pre' E']. exists (pre' ++ pre). by rewrite E', E, <- app_assoc. Qed.

Lemma suffix_ok_eq v w : suffix_ok v -> suffix_ok w -> suffix_labels v = suffix_labels w -> v = w.
Proof.
  intros Hv Hw E. destruct (suffix_value_labels v Hv) as [_ ->], (suffix_value_labels w Hw) as [_ ->]. by rewrite E.
Qed.

Section Suffixes.
Context `{Settings}.

Lemma subsumed_spec v kept : suffix_ok v -> Forall suffix_ok kept ->
  _suffix_subsumed v kept = true <-> exists w, w ∈ kept /\ under v w.
Proof.
  intros Hv Hk. rewrite Forall_forall in Hk. unfold _suffix_subsumed. rewrite existsb_exists. split.
  - intros (w & Hp%list_elem_of_In & Hin%bool_decide_eq_true). exists w. split; [done|].
    apply suffix_parents_spec; auto.
  - intros (w & Hin & Hu). exists w. split; [|by apply bool_decide_eq_true].
    apply list_elem_of_In, suffix_parents_spec; auto.
Qed.

Definition values (rules : list rule) : list string := map r_value rules.

Lemma minimize_spec rules : forall kept out removed,
  Forall suffix_ok kept -> Forall suffix_ok (values rules) -> minimize_suffixes kept rules = (out, removed) ->
  out ⊆ rules /\ (length out + removed = length rules)%nat /\
  (forall r, r ∈ rules -> exists w, w ∈ kept ++ values out /\ (r_value r = w \/ under (r_value r) w)) /\
  Forall (fun v => (v ∉ kept) /\ forall w, w ∈ kept -> ~ under v w) (values out).
Proof.
  induction rules as [|r0 rules IH]; intros kept out removed Hk Hr; cbn [minimize_suffixes].
  { intros [= <- <-]. split_all; [done|done| |constructor]. by intros r ?%elem_of_nil. }
  inversion Hr as [|? ? Hr0 Hrs]; subst. destruct (bool_decide (r_value r0 ∈ kept) || _) eqn:Eb.
  - destruct (minimize_suffixes kept rules) as [out' rem'] eqn:E. intros [= <- <-].
    destruct (IH _ _ _ Hk Hrs E) as (H1 & H2 & H3 & H4). split_all.
    + intros x Hx. right. by apply H1.
    + cbn [length]. lia.
    + intros r [->|Hin]%elem_of_cons; [|by apply H3]. apply orb_true_iff in Eb as [Eb|Eb].
      * apply bool_decide_eq_true in Eb. exists (r_value r0). rewrite elem_of_app. auto.
      * apply subsumed_spec in Eb as (w & Hw & Hu); [|done|done]. exists w. rewrite elem_of_app. auto.
    + done.
  - apply orb_false_iff in Eb as [Eb Es]. apply bool_decide_eq_false in Eb.
    destruct (minimize_suffixes (r_value r0 :: kept) rules) as [out' rem'] eqn:E. intros [= <- <-].
    destruct (IH _ _ _ (Forall_cons_2 _ _ _ Hr0 Hk) Hrs E) as (H1 & H2 & H3 & H4). split_all.
    + intros x [->|Hx]%elem_of_cons; [by left|right; by apply H1].
    + cbn [length]. lia.
    + intros r [->|Hin]%elem_of_cons.
      * exists (r_value r0). rewrite elem_of_app. split; [right; by left|by left].
      * destruct (H3 r Hin) as (w & Hw & Hu). exists w. split; [|done].
        revert Hw. unfold values. cbn [map]. rewrite !elem_of_app, !elem_of_cons. tauto.
    + constructor.
      * split; [done|]. intros w Hw Hu. assert (Ht : _suffix_subsumed (r_value r0) kept = true); [|congruence].
        apply subsumed_spec; eauto.
      * eapply Forall_impl; [exact H4|]. intros v [Hn Hv]. split; [intros Hin; apply Hn; by right|]. intros w Hw. apply Hv. by right.
Qed.

(** ** The minimal suffixes are not under one another *)

Definition label_count (r : rule) : nat := length (suffix_labels (r_value r)).

Lemma under_count v w : under v w -> (length (suffix_labels w) < length (suffix_labels v))%nat.
Proof. intros ([|x pre] & Hp & E); [done|]. rewrite E, length_app. cbn [length]. lia. Qed.

Lemma minimize_antichain rules : forall kept out removed,
  Forall suffix_ok kept -> Forall suffix_ok (values rules) ->
  StronglySorted (fun a b => (label_count a <= label_count b)%nat) rules ->
  minimize_suffixes kept rules = (out, removed) ->
  NoDup (values out) /\ forall v w, v ∈ values out -> w ∈ values out -> ~ under v w.
Proof.
  induction rules as [|r0 rules IH]; intros kept out removed Hk Hr Hs; cbn [minimize_suffixes].
  { intros [= <- <-]. split; [constructor|]. by intros v w ?%elem_of_nil. }
  inversion Hr as [|? ? Hr0 Hrs]; subst. inversion Hs as [|? ? Hs' Hle]; subst.
  destruct (bool_decide (r_value r0 ∈ kept) || _).
  - destruct (minimize_suffixes kept rules) as [out' rem'] eqn:E. intros [= <- <-]. exact (IH _ _ _ Hk Hrs Hs' E).
  - destruct (minimize_suffixes (r_value r0 :: kept) rules) as [out' rem'] eqn:E. intros [= <- <-].
    pose proof (Forall_cons_2 _ _ _ Hr0 Hk) as Hk'.
    destruct (IH _ _ _ Hk' Hrs Hs' E) as [Hnd Hanti].
    destruct (minimize_spec rules _ _ _ Hk' Hrs E) as (Hsub & _ & _ & Hnew).
    rewrite Forall_forall in Hnew. rewrite List.Forall_forall in Hle.
    assert (Hcount : forall w, w ∈ values out' -> (label_count r0 <= length (suffix_labels w))%nat).
    { intros w (r & -> & Hin)%list_elem_of_fmap. by apply Hle, list_elem_of_In, Hsub. }
    split.
    + constructor; [|done]. intros Hin. destruct (Hnew _ Hin) as [Hnk _]. apply Hnk. by left.
    + intros v w [->|Hv]%elem_of_cons [->|Hw]%elem_of_cons Hu; pose proof (under_count _ _ Hu) as Hlt.
      * lia.
      * specialize (Hcount w Hw). unfold label_count in Hcount. lia.
      * destruct (Hnew _ Hv) as [_ Hno]. apply (Hno (r_value r0)); [by left|done].
      * exact (Hanti v w Hv Hw Hu).
Qed.

Lemma suffix_key_total a b : suffix_key_leb a b = true \/ suffix_key_leb b a = true.
Proof.
  unfold suffix_key_leb. rewrite (Nat.eqb_sym (length (suffix_labels (r_value b)))), (Nat.eqb_sym (py_len (r_value b))).
  destruct (Nat.eqb_spec (length (suffix_labels (r_value a))) (length (suffix_labels (r_value b)))); [|rewrite !Nat.ltb_lt; lia].
  destruct (Nat.eqb_spec (py_len (r_value a)) (py_len (r_value b))); [apply py_leb_total|rewrite !Nat.ltb_lt; lia].
Qed.

(** The sort key as an order. *)
Definition key_le (a b : rule) : Prop :=
  (label_count a < label_count b)%nat \/
  (label_count a = label_count b /\
   ((py_len (r_value a) < py_len (r_value b))%nat \/
    (py_len (r_value a) = py_len (r_value b) /\ py_leb (r_value a) (r_value b) = true))).

Lemma suffix_key_spec a b : suffix_key_leb a b = true <-> key_le a b.
Proof.
  unfold suffix_key_leb, key_le, label_count.
  destruct (Nat.eqb_spec (length (suffix_labels (r_value a))) (length (suffix_labels (r_value b)))) as [E|E].
  - destruct (Nat.eqb_spec (py_len (r_value a)) (py_len (r_value b))) as [E'|E'].
    + split; [by auto|]. intros [?|[_ [?|[_ ?]]]]; [lia|lia|done].
    + rewrite Nat.ltb_lt. split; [by auto|]. intros [?|[_ [?|[? _]]]]; lia.
  - rewrite Nat.ltb_lt. split; [by left|]. intros [?|[? _]]; lia.
Qed.

Lemma suffix_key_trans a b c : suffix_key_leb a b = true -> suffix_key_leb b c = true -> suffix_key_leb a c = true.
Proof.
  rewrite !suffix_key_spec. unfold key_le.
  intros [?|[E1 [?|[E2 H1]]]] [?|[E3 [?|[E4 H2]]]]; try (left; lia); right; (split; [lia|]); try (left; lia).
  right. split; [lia|]. by eapply py_leb_trans.
Qed.

Lemma suffix_sorted rules :
  StronglySorted (fun a b => (label_count a <= label_count b)%nat) (sort_by suffix_key_leb rules).
Proof.
  pose proof (sort_by_sorted suffix_key_leb suffix_key_total suffix_key_trans rules) as Hs.
  induction Hs as [|x l Hs IH Hx]; constructor; [done|]. eapply Forall_impl; [exact Hx|].
  intros y Hy%suffix_key_spec. unfold key_le in Hy. lia.
Qed.

(** ** The compiled list *)

Definition suffix_rules_ok (rules : list rule) : Prop :=
  forall r, r ∈ rules -> is_suffix_rule r = true -> suffix_ok (r_value r).

Definition host_matched (rules : list rule) (host : string) : Prop :=
  exists r, r ∈ rules /\ is_suffix_rule r = true /\ suffix_matches (r_value r) host.

Lemma filter_elem (p : rule -> bool) l r : r ∈ List.filter p l <-> r ∈ l /\ p r = true.
Proof. rewrite !list_elem_of_In. apply List.filter_In. Qed.

Lemma suffix_no_cidr r : is_suffix_rule r = true -> cidr_net r = None.
Proof. unfold is_suffix_rule, cidr_net. intros ->%String.eqb_eq. done. Qed.

(** The compiled list of a large source, taken apart. *)
Lemma compile_parts rules source :
  is_big_source source = true -> unscoped_rules rules -> suffix_rules_ok rules ->
  exists minimized removed,
    minimize_suffixes [] (sort_by suffix_key_leb (List.filter is_suffix_rule (_collapse_rule_networks rules).1))
      = (minimized, removed) /\
    Forall suffix_ok (values (sort_by suffix_key_leb (List.filter is_suffix_rule (_collapse_rule_networks rules).1))) /\
    (forall r, r ∈ sort_by suffix_key_leb (List.filter is_suffix_rule (_collapse_rule_networks rules).1) <->
       r ∈ rules /\ is_suffix_rule r = true) /\
    (forall r, r ∈ (_compile_large_list_rules rules source).1 <->
       (r ∈ (_collapse_rule_networks rules).1 /\ is_suffix_rule r = false) \/ r ∈ minimized).
Proof.
  intros Hbig Hun Hok. unfold _compile_large_list_rules. rewrite Hbig. cbn [negb].
  destruct (_collapse_rule_networks rules) as [collapsed cr] eqn:Ec. cbn [fst].
  assert (Hmem : forall r, r ∈ sort_by suffix_key_leb (List.filter is_suffix_rule collapsed) <->
    r ∈ rules /\ is_suffix_rule r = true).
  { intros r. rewrite elem_of_sort_by, filter_elem. pose proof (collapse_rules_others rules r Hun) as Ho.
    rewrite Ec in Ho. cbn [fst] in Ho. split; intros [Hr Hs]; (split; [|done]);
      apply (Ho (suffix_no_cidr _ Hs)); exact Hr. }
  destruct (minimize_suffixes [] (sort_by suffix_key_leb (List.filter is_suffix_rule collapsed))) as [mini rem] eqn:Em.
  exists mini, rem. split; [done|]. split; [|split; [exact Hmem|]].
  - apply Forall_forall. intros v (r & -> & [Hr Hs]%Hmem)%list_elem_of_fmap. by apply Hok.
  - intros r. cbn [fst]. rewrite elem_of_sort_by, elem_of_app, filter_elem, negb_true_iff. done.
Qed.

Lemma suffix_covers_none r v i : is_suffix_rule r = true -> ~ rule_covers r v i.
Proof.
  unfold is_suffix_rule, rule_covers, denotes, _network_for_rule. intros E%String.eqb_eq (n & Hn & _).
  rewrite E in Hn. done.
Qed.

(** Compilation keeps what the list matches. *)
Lemma compile_keeps rules source :
  is_big_source source = true -> unscoped_rules rules -> suffix_rules_ok rules ->
  (forall a v i, action_covers (_compile_large_list_rules rules source).1 a v i <-> action_covers rules a v i) /\
  (forall host, host_matched (_compile_large_list_rules rules source).1 host <-> host_matched rules host) /\
  (forall r, is_suffix_rule r = false -> cidr_net r = None ->
     r ∈ (_compile_large_list_rules rules source).1 <-> r ∈ rules).
Proof.
  intros Hbig Hun Hok. destruct (compile_parts rules source Hbig Hun Hok) as (mini & rem & Em & Hsok & Hmem & Hout).
  destruct (minimize_spec _ _ _ _ (Forall_nil_2 _) Hsok Em) as (Hsub & _ & Hcov & _).
  split; [|split].
  - intros a v i. rewrite <- (collapse_rules_covers rules a v i Hun). unfold action_covers. split.
    + intros (r & [[Hr _]|Hr]%Hout & Ha & Hc); [by exists r|]. apply Hsub, Hmem in Hr as [_ Hs].
      by apply suffix_covers_none in Hc.
    + intros (r & Hr & Ha & Hc). exists r. split; [|done]. apply Hout. left. split; [done|].
      apply not_true_iff_false. intros Hs. by apply suffix_covers_none in Hc.
  - intros host. split.
    + intros (r & Hr & Hs & Hm). exists r. apply Hout in Hr as [[_ ?]|Hr]; [congruence|].
      apply Hsub, Hmem in Hr as [Hr _]. done.
    + intros (r & Hr & Hs & Hm). destruct (Hcov r) as (w & Hw & Hrel); [by apply Hmem|].
      apply list_elem_of_fmap in Hw as (r' & -> & Hr'). exists r'. split; [apply Hout; by right|].
      split; [by apply Hsub, Hmem in Hr' as [_ ?]|]. destruct Hrel as [<-|Hu]; [done|]. by eapply matches_under.
  - intros r Hs Hn. rewrite Hout, (collapse_rules_others rules r Hun Hn). split; [|by left].
    intros [[? _]|Hr]; [done|]. by apply Hsub, Hmem in Hr as [? _].
Qed.

(** Compilation leaves nothing redundant. *)
Lemma compile_minimal rules source out :
  is_big_source source = true -> unscoped_rules rules -> suffix_rules_ok rules ->
  (_compile_large_list_rules rules source).1 = out ->
  (forall r1 r2 n1 n2 v i, r1 ∈ out -> r2 ∈ out -> r_action r1 = r_action r2 ->
     cidr_net r1 = Some n1 -> cidr_net r2 = Some n2 -> covers n1 v i -> covers n2 v i -> n1 = n2) /\
  (forall r1 r2, r1 ∈ out -> r2 ∈ out -> is_suffix_rule r1 = true -> is_suffix_rule r2 = true ->
     ~ under (r_value r1) (r_value r2)).
Proof.
  intros Hbig Hun Hok <-. destruct (compile_parts rules source Hbig Hun Hok) as (mini & rem & Em & Hsok & Hmem & Hout).
  destruct (minimize_spec _ _ _ _ (Forall_nil_2 _) Hsok Em) as (Hsub & _).
  destruct (minimize_antichain _ _ _ _ (Forall_nil_2 _) Hsok (suffix_sorted _) Em) as [_ Hanti].
  split.
  - intros r1 r2 n1 n2 v i Hr1 Hr2 Ha Hn1 Hn2.
    assert (Hin : forall r n, cidr_net r = Some n -> r ∈ (_compile_large_list_rules rules source).1 ->
      r ∈ (_collapse_rule_networks rules).1).
    { intros r n Hn [[? _]|Hr]%Hout; [done|]. apply Hsub, Hmem in Hr as [_ Hs]. apply suffix_no_cidr in Hs. congruence. }
    apply (collapse_rules_disjoint rules r1 r2 n1 n2 v i Hun); [by eapply Hin|by eapply Hin|done..].
  - intros r1 r2 Hr1 Hr2 Hs1 Hs2. apply Hanti; apply list_elem_of_fmap.
    + exists r1. split; [done|]. apply Hout in Hr1 as [[_ ?]|?]; [congruence|done].
    + exists r2. split; [done|]. apply Hout in Hr2 as [[_ ?]|?]; [congruence|done].
Qed.
End Suffixes.

(** ** Validation of a list *)
Section ListFacts.
Context `{Settings} (idna_nonascii : string -> option string).
Context (action source : string).
Abbreviation parse := (parse_list_line idna_nonascii action source).

Lemma value_ok_big kind v :
  value_ok kind v -> kind = "domain" -> value_ok "domain_suffix" ("." +:+ v).
Proof. intros [a Ha|n Hn|d Hd|d Hd] E; try done. by constructor. Qed.

(** The value of a list rule: normalised, and not protected when it goes to the VPN. *)
Definition list_value_ok (kind v : string) : Prop :=
  value_ok kind v /\ (action = "VPN" -> _is_protected_local kind v = Some false).

Lemma parse_list_total line :
  exists res, parse line = Some res /\
    forall kind v, res = EntryRule kind v -> list_value_ok kind v.
Proof.
  unfold parse_list_line. destruct (_ || _); [eexists; split; [done|done]|].
  destruct (has_char _ _); [eexists; split; [done|done]|].
  destruct (negb _); [eexists; split; [done|done]|].
  destruct (_normalize_rule_value _ _) as [e|[k0 v0]] eqn:Ev; [eexists; split; [done|done]|].
  apply normalize_value_ok in Ev.
  assert (Hok : forall k v, (if is_big_source source && String.eqb k0 "domain" then ("domain_suffix", "." +:+ v0)
    else (k0, v0)) = (k, v) -> value_ok k v).
  { intros k v. destruct (is_big_source source); cbn [andb]; [|by intros [= <- <-]].
    destruct (String.eqb_spec k0 "domain") as [E|E]; intros [= <- <-]; [by apply (value_ok_big k0 v0)|done]. }
  destruct (if is_big_source source && String.eqb k0 "domain" then _ else _) as [k v]. specialize (Hok k v eq_refl).
  destruct (String.eqb_spec action "VPN") as [Ea|Ea].
  - destruct (is_protected_total k v Hok) as [[] Ep]; rewrite Ep; cbn [mbind option_bind].
    + destruct (is_big_source source); eexists; (split; [reflexivity|done]).
    + eexists. split; [reflexivity|]. intros k' v' [= <- <-]. by split.
  - cbn [mbind option_bind]. eexists. split; [reflexivity|]. intros k' v' [= <- <-]. by split.
Qed.

Record list_inv (lines : list (Z * string)) (st : list_state) : Prop := {
  li_rules : Forall (fun r => r_action r = action /\ r_source r = source /\ list_value_ok (r_kind r) (r_value r) /\
    exists n line, (n, line) ∈ lines /\ parse line = Some (EntryRule (r_kind r) (r_value r)) /\ r_line r = Some n)
    (ls_rules st);
  li_seen : forall k, k ∈ ls_seen st <-> k ∈ map rule_key (ls_rules st);
  li_nodup : NoDup (map rule_key (ls_rules st));
  li_errors : forall n line e, (n, line) ∈ lines -> parse line = Some (EntryError e) ->
    located n source e ∈ ls_errors st;
  li_error_from : Forall (fun e' => exists n line e, (n, line) ∈ lines /\ parse line = Some (EntryError e) /\
    e' = located n source e) (ls_errors st);
  li_keys : forall n line kind v, (n, line) ∈ lines -> parse line = Some (EntryRule kind v) ->
    (kind, v) ∈ map rule_key (ls_rules st);
  li_skipped : ls_skipped st = length (List.filter (fun x => match parse x.2 with Some EntryProtected => true | _ => false end) lines);
}.

Lemma list_inv_init : list_inv [] list_init.
Proof.
  constructor; cbn [list_init ls_rules ls_seen ls_errors ls_skipped map]; try (by constructor).
  - intros k. split; intros Hk; [by apply elem_of_empty in Hk|by apply elem_of_nil in Hk].
  - intros n line e Hin. by apply elem_of_nil in Hin.
  - intros n line k v Hin. by apply elem_of_nil in Hin.
Qed.

Definition protected_line (x : Z * string) : bool :=
  match parse x.2 with Some EntryProtected => true | _ => false end.

(** The facts about the lines, carried over one more line. *)
Lemma list_inv_extend lines x st st' :
  list_inv lines st ->
  ls_rules st ⊆ ls_rules st' -> ls_errors st ⊆ ls_errors st' ->
  (forall r, r ∈ ls_rules st' -> r ∈ ls_rules st \/
     (exists kind v, parse x.2 = Some (EntryRule kind v) /\
        r = _build_rule_entry action kind v (Some x.1) source None false /\ list_value_ok kind v)) ->
  (forall e', e' ∈ ls_errors st' -> e' ∈ ls_errors st \/
     exists e, parse x.2 = Some (EntryError e) /\ e' = located x.1 source e) ->
  (forall e, parse x.2 = Some (EntryError e) -> located x.1 source e ∈ ls_errors st') ->
  (forall kind v, parse x.2 = Some (EntryRule kind v) -> (kind, v) ∈ map rule_key (ls_rules st')) ->
  (forall k, k ∈ ls_seen st' <-> k ∈ map rule_key (ls_rules st')) ->
  NoDup (map rule_key (ls_rules st')) ->
  ls_skipped st' = (ls_skipped st + if protected_line x then 1 else 0)%nat ->
  list_inv (lines ++ [x]) st'.
Proof.
  intros [Hr Hs Hn He Hf Hk Hsk] Hrs Hes Hnr Hne Hxe Hxk Hseen Hnd Hskip. constructor; [|done|done| | | |].
  - apply Forall_forall. intros r Hin. rewrite Forall_forall in Hr.
    destruct (Hnr r Hin) as [Hold|(kind & v & Hp & -> & Hok)].
    + destruct (Hr r Hold) as (H1 & H2 & H3 & n & line & H4 & H5). split_all; try done.
      exists n, line. rewrite elem_of_app. auto.
    + split_all; try done. exists x.1, x.2. rewrite elem_of_app. split; [right; destruct x; by left|done].
  - intros n line e [Hin|E%list_elem_of_singleton]%elem_of_app Hp; [by eapply Hes, He|]. subst x. by apply Hxe.
  - apply Forall_forall. intros e' Hin. rewrite Forall_forall in Hf.
    destruct (Hne e' Hin) as [Hold|(e & Hp & ->)].
    + destruct (Hf e' Hold) as (n & line & e & H1 & H2). exists n, line, e. rewrite elem_of_app. auto.
    + exists x.1, x.2, e. rewrite elem_of_app. split; [right; destruct x; by left|done].
  - intros n line kind v [Hin|E%list_elem_of_singleton]%elem_of_app Hp.
    + specialize (Hk n line kind v Hin Hp). apply list_elem_of_fmap in Hk as (r & E & Hin').
      apply list_elem_of_fmap. exists r. auto.
    + subst x. by apply Hxk.
  - rewrite Hskip, Hsk, List.filter_app, length_app. unfold protected_line. cbn [List.filter].
    by destruct (parse x.2) as [[]|].
Qed.

Lemma list_step_inv lines st n line :
  list_inv lines st ->
  exists st', list_step idna_nonascii action source st (n, line) = Some st' /\ list_inv (lines ++ [(n, line)]) st'.
Proof.
  intros Hinv. pose proof Hinv as [_ Hs Hnd _ _ _ _]. unfold list_step.
  destruct (parse_list_total line) as (res & Hres & Hval). rewrite Hres. cbn [mbind option_bind].
  eexists. split; [reflexivity|].
  destruct res as [|e| |kind v]; [| | |specialize (Hval kind v eq_refl); case_decide as Hin].
  all: apply (list_inv_extend lines (n, line) st _ Hinv); cbn [fst snd list_error ls_rules ls_errors ls_seen ls_skipped];
    rewrite ?Hres; try done; unfold protected_line; cbn [snd]; rewrite ?Hres; try lia; try (by left); try (by auto).
  all: try (intros ? [= <-] || intros ? ? [= <- <-]).
  - apply sub_app_l.
  - intros e' [?|E%list_elem_of_singleton]%elem_of_app; [by left|right; subst e'; eauto].
  - apply elem_of_app. right. by left.
  - by apply Hs.
  - apply sub_app_l.
  - intros r [?|E%list_elem_of_singleton]%elem_of_app; [by left|right; subst r; eauto].
  - rewrite map_app. apply elem_of_app. right. by left.
  - intros k. rewrite map_app, elem_of_union, elem_of_app, elem_of_singleton, Hs. cbn [map].
    rewrite list_elem_of_singleton. change (rule_key _) with (kind, v) at 1. tauto.
  - rewrite map_app. apply NoDup_app. split; [done|]. split; [|apply NoDup_singleton].
    intros k Hk E%list_elem_of_singleton. apply Hin, Hs. by rewrite E in Hk.
Qed.

Lemma list_loop text :
  exists st, list_inv (numbered text) st /\
    py_fold (list_step idna_nonascii action source) list_init (enumerate_from 1 (py_splitlines text)) = Some st.
Proof.
  destruct (py_fold_prefix list_inv (list_step idna_nonascii action source) (enumerate_from 1 (py_splitlines text)) list_init)
    as (st & E & Hinv); [|apply list_inv_init|by exists st].
  intros pre [n line] post st _ Hinv. by apply list_step_inv.
Qed.
End ListFacts.

(** ** Texts without scope ids *)

Definition not_percent (c : ascii) : bool := negb (Ascii.eqb c "%"%char).

(** No scope id is written anywhere in the text. *)
Definition no_scopes (s : string) : bool := all_chars not_percent s.

Lemma no_scopes_char s : no_scopes s = true -> has_char "%"%char s = false.
Proof. intros Hs. by apply (all_chars_has_char not_percent). Qed.

Lemma ip_ctor_unscoped v s a : no_scopes s = true -> ip_ctor v s = Some a -> a_scope a = "".
Proof.
  intros Hs. destruct v; cbn [ip_ctor]; unfold ipv4_address, ipv6_address; destruct (has_char "/" s); try done.
  - destruct (parse4 s); [|done]. by intros [= <-].
  - unfold split_scope. rewrite partition_none by by apply no_scopes_char. cbn [mbind option_bind].
    destruct (parse6 s); [|done]. by intros [= <-].
Qed.

Lemma mask_unscoped a p : a_scope a = "" -> unscoped (Net (mask_addr a p) p).
Proof. intros E. unfold unscoped, mask_addr. cbn [n_addr]. by destruct (_ =? _). Qed.

Lemma net_ctor_unscoped v s n : no_scopes s = true -> net_ctor v s = Some n -> unscoped n.
Proof.
  intros Hs. unfold net_ctor. pose proof (py_split_all not_percent "/"%char s Hs) as Hp.
  destruct (py_split "/" s) as [|a [|m [|]]]; try done; inversion Hp as [|? ? Ha _]; subst.
  - destruct (ip_ctor v a) as [x|] eqn:Ex; cbn [mbind option_bind]; [|done]. intros [= <-].
    by apply mask_unscoped, (ip_ctor_unscoped v a).
  - destruct (ip_ctor v a) as [x|] eqn:Ex; cbn [mbind option_bind]; [|done].
    destruct (make_netmask v m) as [p|]; cbn [mbind option_bind]; [|done]. intros [= <-].
    by apply mask_unscoped, (ip_ctor_unscoped v a).
Qed.

Lemma ip_network_unscoped s n : no_scopes s = true -> ip_network s = Some n -> unscoped n.
Proof.
  intros Hs. unfold ip_network. destruct (net_ctor V4 s) as [m|] eqn:E; intros Hn.
  - injection Hn as <-. exact (net_ctor_unscoped _ _ _ Hs E).
  - exact (net_ctor_unscoped _ _ _ Hs Hn).
Qed.

Lemma no_scopes_large_value s : no_scopes s = true -> no_scopes (_normalize_large_list_value s) = true.
Proof.
  intros Hs. unfold _normalize_large_list_value. pose proof (py_strip_all _ _ Hs) as Hst.
  destruct (_ && _); [|exact Hst]. unfold split_one_colon.
  pose proof (py_split_all not_percent ":"%char _ Hst) as Hp.
  destruct (py_split ":"%char (py_strip s)) as [|h [|p [|]]]; cbn [fst snd].
  all: try (inversion Hp as [|? ? Hh _]; subst); repeat case_match; try done; exact Hst.
Qed.

Section UnscopedLists.
Context `{Settings} (idna_nonascii : string -> option string).

Lemma normalize_unscoped raw v n :
  no_scopes raw = true -> _normalize_rule_value idna_nonascii raw = inr ("cidr", v) -> ip_network v = Some n ->
  unscoped n.
Proof.
  intros Hs. pose proof (py_strip_all _ _ Hs) as Hst. unfold _normalize_rule_value.
  destruct (String.eqb _ _); [done|]. destruct (ip_address _); [done|].
  destruct (ip_network (py_strip raw)) as [m|] eqn:Em.
  - intros [= <-] Hn. rewrite ip_network_str in Hn by by eapply ip_network_wf. injection Hn as <-.
    by apply (ip_network_unscoped (py_strip raw)).
  - destruct (py_startswith _ _); [by destruct (_normalize_domain_name _ _ _)|].
    destruct (has_char _ _); [done|]. by destruct (_normalize_domain_name _ _ _).
Qed.

Lemma parse_list_unscoped action source line v n :
  no_scopes line = true -> parse_list_line idna_nonascii action source line = Some (EntryRule "cidr" v) ->
  ip_network v = Some n -> unscoped n.
Proof.
  intros Hs. unfold parse_list_line. destruct (_ || _); [done|]. destruct (has_char _ _); [done|].
  destruct (negb _); [done|].
  destruct (_normalize_rule_value _ _) as [e|[k0 v0]] eqn:Ev; [done|].
  pose proof (no_scopes_large_value _ (py_strip_all _ _ Hs)) as Hl.
  assert (Hk : forall k w, (if is_big_source source && String.eqb k0 "domain" then ("domain_suffix", "." +:+ v0)
    else (k0, v0)) = (k, w) -> k = "cidr" -> k0 = "cidr" /\ v0 = w).
  { intros k w. destruct (_ && _); intros [= <- <-]; [done|]. by intros ->. }
  destruct (if is_big_source source && String.eqb k0 "domain" then _ else _) as [k w]. specialize (Hk k w eq_refl).
  destruct (if String.eqb action "VPN" then _ else _) as [[]|]; cbn [mbind option_bind]; [by destruct (is_big_source _)| |done].
  intros [= -> ->] Hn. destruct (Hk eq_refl) as [-> ->]. by eapply normalize_unscoped.
Qed.
End UnscopedLists.

Section ListTheorems.
Context `{Settings} (idna_nonascii : string -> option string).
Context (action source : string).
Abbreviation parse := (parse_list_line idna_nonascii action source).
Abbreviation validate := (fun text => validate_value_list idna_nonascii text action source).

(** A line of the text that came to this value. *)
Definition listed (text kind v : string) : Prop :=
  exists n line, (n, line) ∈ numbered text /\ parse line = Some (EntryRule kind v).

Lemma validate_list_eq text st :
  py_fold (list_step idna_nonascii action source) list_init (enumerate_from 1 (py_splitlines text)) = Some st ->
  exists lv, validate text = Some lv /\ lv_rules lv = (_compile_large_list_rules (ls_rules st) source).1 /\
    lv_errors lv = ls_errors st /\ lv_valid lv = bool_decide (ls_errors st = []) /\
    lv_protected_vpn_skipped lv = ls_skipped st.
Proof.
  intros E. unfold validate_value_list. rewrite E. cbn [mbind option_bind].
  destruct (_compile_large_list_rules (ls_rules st) source) as [out stats]. eexists. by split_all.
Qed.

Lemma list_rules_ok lines st :
  list_inv idna_nonascii action source lines st -> suffix_rules_ok (ls_rules st).
Proof.
  intros [Hr _ _ _ _ _ _] r Hin Hs. rewrite Forall_forall in Hr. destruct (Hr r Hin) as (_ & _ & [Hok _] & _).
  unfold is_suffix_rule in Hs. apply String.eqb_eq in Hs. rewrite Hs in Hok.
  inversion Hok; subst. eexists; eauto.
Qed.

Lemma list_rules_unscoped text st :
  no_scopes text = true -> list_inv idna_nonascii action source (numbered text) st -> unscoped_rules (ls_rules st).
Proof.
  intros Hs [Hr _ _ _ _ _ _] r n Hin [Hk Hn]%cidr_net_kind. rewrite Forall_forall in Hr.
  destruct (Hr r Hin) as (_ & _ & _ & m & line & Hl & Hp & _). rewrite Hk in Hp.
  eapply parse_list_unscoped; [|exact Hp|exact Hn].
  apply enumerate_lines in Hl as (i & Hi & _). pose proof (py_splitlines_all _ _ Hs) as Ha.
  exact (Forall_lookup_1 _ _ _ _ Ha Hi).
Qed.

(** The rules of the loop are the values of the lines. *)
Lemma list_rules_listed text st kind v :
  list_inv idna_nonascii action source (numbered text) st ->
  listed text kind v <-> exists r, r ∈ ls_rules st /\ r_action r = action /\ r_kind r = kind /\ r_value r = v.
Proof.
  intros [Hr _ _ _ _ Hk _]. rewrite Forall_forall in Hr. split.
  - intros (n & line & Hl & Hp). specialize (Hk n line kind v Hl Hp).
    apply list_elem_of_fmap in Hk as (r & E & Hin). injection E as -> ->.
    exists r. destruct (Hr r Hin) as (? & _). by split_all.
  - intros (r & Hin & _ & <- & <-). destruct (Hr r Hin) as (_ & _ & _ & n & line & Hl & Hp & _).
    by exists n, line.
Qed.

(** Validation of a large list never raises, and is exact about its
    errors: the list is valid when none is reported, every failing line is
    reported with its number and source and nothing else is, and the count
    of skipped protected values is the number of such lines. *)
Theorem validate_value_list_spec text :
  exists lv, validate text = Some lv /\ (lv_valid lv = true <-> lv_errors lv = []) /\
    (forall e', e' ∈ lv_errors lv <->
       exists n line e, (n, line) ∈ numbered text /\ parse line = Some (EntryError e) /\ e' = located n source e) /\
    lv_protected_vpn_skipped lv =
      length (List.filter (fun x => match parse x.2 with Some EntryProtected => true | _ => false end) (numbered text)).
Proof.
  destruct (list_loop idna_nonascii action source text) as (st & [_ _ _ He Hf _ Hsk] & E).
  destruct (validate_list_eq text st E) as (lv & -> & _ & Ee & Hv & Es). exists lv. split; [done|].
  rewrite Hv, Ee, Es, bool_decide_eq_true. split; [done|]. split; [|done].
  intros e'. split.
  - intros Hin. rewrite Forall_forall in Hf. by apply Hf.
  - intros (n & line & e & Hl & Hp & ->). by apply (He n line).
Qed.

(** C39: the compiled large list selects exactly what its lines say.  For a
    list without scope ids, an address is selected by a compiled rule
    exactly when it is in the network or is the address of some line; a
    host name exactly when some line's suffix matches it. *)
Theorem large_list_selects_lines text :
  is_big_source source = true -> no_scopes text = true ->
  exists lv, validate text = Some lv /\
    (forall v i, action_covers (lv_rules lv) action v i <->
       exists kind val n, listed text kind val /\ denotes kind val n /\ covers n v i) /\
    (forall host, host_matched (lv_rules lv) host <->
       exists val, listed text "domain_suffix" val /\ suffix_matches val host).
Proof.
  intros Hbig Hs. destruct (list_loop idna_nonascii action source text) as (st & Hinv & E).
  destruct (validate_list_eq text st E) as (lv & -> & Hr & _). exists lv. split; [done|].
  destruct (compile_keeps (ls_rules st) source Hbig (list_rules_unscoped text st Hs Hinv) (list_rules_ok _ st Hinv))
    as (Hc & Hh & _).
  pose proof (fun k v => list_rules_listed text st k v Hinv) as Hl. split.
  - intros v i. rewrite Hr, Hc. split.
    + intros (r & Hin & Ha & n & Hd & Hcov). exists (r_kind r), (r_value r), n. split; [|done]. apply Hl. by exists r.
    + intros (kind & val & n & (r & Hin & Ha & <- & <-)%Hl & Hd & Hcov). exists r. split_all; [done|done|]. by exists n.
  - intros host. rewrite Hr, Hh. split.
    + intros (r & Hin & Hsr & Hm). exists (r_value r). split; [|done]. apply Hl.
      pose proof (li_rules _ _ _ _ _ Hinv) as Hall. rewrite Forall_forall in Hall. exists r.
      destruct (Hall r Hin) as [Ha _]. apply String.eqb_eq in Hsr. by split_all.
    + intros (val & (r & Hin & Ha & Hk & <-)%Hl & Hm). exists r. split_all; [done| |done].
      unfold is_suffix_rule. rewrite Hk. apply String.eqb_refl.
Qed.

(** No compiled VPN list reaches a protected address, in spite of the
    collapse into larger networks. *)
Theorem large_vpn_list_never_protected text lv nets m v i :
  is_big_source source = true -> no_scopes text = true -> action = "VPN" ->
  validate text = Some lv -> protected_rule_ip_networks = Some nets -> m ∈ nets ->
  covers m v i -> ~ action_covers (lv_rules lv) action v i.
Proof.
  intros Hbig Hs Ha Hv Hn Hm Hcm Hcov.
  destruct (list_loop idna_nonascii action source text) as (st & Hinv & E).
  destruct (validate_list_eq text st E) as (lv' & Hv' & Hr & _).
  assert (lv' = lv) as -> by congruence. rewrite Hr in Hcov.
  destruct (compile_keeps (ls_rules st) source Hbig (list_rules_unscoped text st Hs Hinv) (list_rules_ok _ st Hinv))
    as (Hc & _). apply Hc in Hcov as (r & Hin & _ & n & Hd & Hcn).
  pose proof (li_rules _ _ _ _ _ Hinv) as Hall. rewrite Forall_forall in Hall.
  destruct (Hall r Hin) as (_ & _ & [Hok Hp] & _).
  exact (not_protected_disjoint _ _ n nets m Hok (Hp Ha) Hd Hn Hm v i Hcn Hcm).
Qed.

(** The compiled large list is minimal: two of its networks that share
    an address are the same network, and no domain suffix is under another. *)
Theorem large_list_minimal text lv :
  is_big_source source = true -> no_scopes text = true -> validate text = Some lv ->
  (forall r1 r2 n1 n2 v i, r1 ∈ lv_rules lv -> r2 ∈ lv_rules lv -> r_action r1 = r_action r2 ->
     cidr_net r1 = Some n1 -> cidr_net r2 = Some n2 -> covers n1 v i -> covers n2 v i -> n1 = n2) /\
  (forall r1 r2, r1 ∈ lv_rules lv -> r2 ∈ lv_rules lv -> is_suffix_rule r1 = true -> is_suffix_rule r2 = true ->
     ~ under (r_value r1) (r_value r2)).
Proof.
  intros Hbig Hs Hv. destruct (list_loop idna_nonascii action source text) as (st & Hinv & E).
  destruct (validate_list_eq text st E) as (lv' & Hv' & Hr & _).
  assert (lv' = lv) as -> by congruence. rewrite Hr.
  exact (compile_minimal (ls_rules st) source _ Hbig (list_rules_unscoped text st Hs Hinv)
           (list_rules_ok _ st Hinv) eq_refl).
Qed.
End ListTheorems.

(** ** Concrete lists *)

Definition lf : string := String "010" "".

Definition sample_list : string :=
  "1.2.2.0/24" +:+ lf +:+ "1.2.3.0/24" +:+ lf +:+ "www.instagram.com" +:+ lf +:+ "instagram.com".

(** Two sibling networks become their supernet; the subdomain is dropped. *)
Example sample_list_compiled :
  option_map (fun lv => map rule_key (lv_rules lv))
    (@validate_value_list default_settings (fun _ => None) sample_list "VPN" "big_vpn") =
  Some [("cidr", "1.2.2.0/23"); ("domain_suffix", ".instagram.com")].
Proof. vm_compute. reflexivity. Qed.

Lemma large_list_selects_lines_witness :
  no_scopes sample_list = true /\
  exists lv, @validate_value_list default_settings (fun _ => None) sample_list "VPN" "big_vpn" = Some lv /\
    (forall host, host_matched (lv_rules lv) host <->
       exists val, @listed default_settings (fun _ => None) "VPN" "big_vpn" sample_list "domain_suffix" val /\
         suffix_matches val host).
Proof.
  split; [reflexivity|].
  destruct (@large_list_selects_lines default_settings (fun _ => None) "VPN" "big_vpn" sample_list eq_refl eq_refl)
    as (lv & Hv & _ & Hh).
  exists lv. split; [exact Hv|exact Hh].
Defined.

Lemma large_vpn_list_never_protected_witness :
  exists (lv : list_validation) (nets : list net), lv_rules lv <> [] /\ Net (Addr V4 0 "") 8 ∈ nets /\
    ~ action_covers (lv_rules lv) "VPN" V4 5.
Proof.
  destruct (@protected_rule_ip_networks default_settings) as [nets|] eqn:En; [|vm_compute in En; discriminate].
  destruct (@validate_value_list default_settings (fun _ => None) sample_list "VPN" "big_vpn") as [lv|] eqn:Ev;
    [|vm_compute in Ev; discriminate].
  assert (Hm : Net (Addr V4 0 "") 8 ∈ nets) by (vm_compute in En; injection En as <-; left).
  exists lv, nets. split; [vm_compute in Ev; injection Ev as <-; discriminate|]. split; [exact Hm|].
  apply (@large_vpn_list_never_protected default_settings (fun _ => None) "VPN" "big_vpn" sample_list lv nets
           (Net (Addr V4 0 "") 8) V4 5 eq_refl eq_refl eq_refl Ev En Hm).
  split; [reflexivity|]. vm_compute. split; [discriminate|reflexivity].
Defined.

Lemma large_list_minimal_witness :
  exists lv : list_validation,
    @validate_value_list default_settings (fun _ => None) sample_list "VPN" "big_vpn" = Some lv /\
    forall r1 r2, r1 ∈ lv_rules lv -> r2 ∈ lv_rules lv -> is_suffix_rule r1 = true -> is_suffix_rule r2 = true ->
      ~ under (r_value r1) (r_value r2).
Proof.
  destruct (@validate_value_list default_settings (fun _ => None) sample_list "VPN" "big_vpn") as [lv|] eqn:Ev;
    [|vm_compute in Ev; discriminate].
  exists lv. split; [reflexivity|].
  apply (@large_list_minimal default_settings (fun _ => None) "VPN" "big_vpn" sample_list lv eq_refl eq_refl Ev).
Defined.
