(* ===== verification/RulesEffective.v ===== *)
(** * The effective rules artifact

    [build_effective_rules_artifact] and [render_effective_rules_text] of
    [services/rules_compile.py]: the sources in priority order, the first
    rule of each key kept. *)
From stdpp Require Import base list strings pretty gmap sorting.
From Stdlib Require Import ZArith Lia Ascii.
From S2P Require Import Prelude PyStr IpAddr IpAddrFacts NetworkContract RulesCompile.

Open Scope string_scope.
Open Scope Z_scope.
Open Scope list_scope.

Section Effective.
Context `{Settings}.

Definition _protected_rules : py (list rule) :=
  nets ← protected_rule_ip_networks;
  Some (map (fun n => _build_rule_entry "DIRECT" "cidr" (str_net n) None "protected" None true) nets
        ++ map (fun d => _build_rule_entry "DIRECT" "domain" d None "protected" None true)
             PROTECTED_SERVICE_DOMAINS).

Definition _rules_from_validation (rules : list rule) (source : string) : list rule :=
  map (fun r => _build_rule_entry (r_action r) (r_kind r) (r_value r) (r_line r) source None false) rules.

Record effective_state := EffectiveState {
  es_rules : list rule;
  es_seen : gset (string * string);
  es_counts : gmap string nat;
}.

Definition with_priority (p : Z) (r : rule) : rule :=
  Rule (r_action r) (r_kind r) (r_value r) (r_source r) (r_match r) (r_line r) (Some p) (r_protected r).

(** One entry of one source. *)
Definition effective_step (source : string) (priority : Z) (st : effective_state) (entry : rule)
    : effective_state :=
  if decide (rule_key entry ∈ es_seen st) then st
  else EffectiveState (es_rules st ++ [with_priority priority entry])
         ({[rule_key entry]} ∪ es_seen st)
         (alter S source (es_counts st)).

Definition ordered_source := (string * Z * list rule)%type.

Definition effective_source (st : effective_state) (s : ordered_source) : effective_state :=
  let '(source, priority, entries) := s in
  fold_left (effective_step source priority) entries st.

Definition initial_counts : gmap string nat :=
  list_to_map [("protected", 0%nat); (RULESET_MANUAL, 0%nat); (RULESET_STATIC_DIRECT, 0%nat);
               (RULESET_BIG_DIRECT, 0%nat); (RULESET_BIG_VPN, 0%nat)].

Definition effective_init : effective_state := EffectiveState [] ∅ initial_counts.

Record effective_artifact := EffectiveArtifact {
  ea_selective_default : string;
  ea_default_action : string;
  ea_rules : list rule;
  ea_manual_rules : list rule;
  ea_source_counts : gmap string nat;
  ea_total : nat;
  ea_direct : nat;
  ea_vpn : nat;
  ea_protected : nat;
}.

Definition count_action (action : string) (rules : list rule) : nat :=
  length (List.filter (fun r => String.eqb (r_action r) action) rules).

(** The sources in priority order. *)
Definition ordered_sources (protected manual static_direct big_direct big_vpn : list rule)
    : list ordered_source :=
  [("protected", 1, protected); (RULESET_MANUAL, 2, manual); (RULESET_STATIC_DIRECT, 3, static_direct);
   (RULESET_BIG_DIRECT, 4, big_direct); (RULESET_BIG_VPN, 5, big_vpn)].

(** Absent validations are empty lists. *)
Definition build_effective_rules_artifact (manual : list rule) (selective_default : string)
    (static_direct big_direct big_vpn : option (list rule)) : py effective_artifact :=
  protected_rules ← _protected_rules;
  let manual_rules := _rules_from_validation manual RULESET_MANUAL in
  let static_direct_rules := _rules_from_validation (default [] static_direct) RULESET_STATIC_DIRECT in
  let big_direct_rules := _rules_from_validation (default [] big_direct) RULESET_BIG_DIRECT in
  let big_vpn_rules := _rules_from_validation (default [] big_vpn) RULESET_BIG_VPN in
  let st := fold_left effective_source
              (ordered_sources protected_rules manual_rules static_direct_rules big_direct_rules big_vpn_rules)
              effective_init in
  Some {| ea_selective_default := selective_default;
          ea_default_action := py_upper selective_default;
          ea_rules := es_rules st;
          ea_manual_rules := manual_rules;
          ea_source_counts := es_counts st;
          ea_total := length (es_rules st);
          ea_direct := count_action "DIRECT" (es_rules st);
          ea_vpn := count_action "VPN" (es_rules st);
          ea_protected := default 0%nat (es_counts st !! "protected") |}.

(** The body of the rendering loop: a header when the priority changes. *)
Fixpoint render_rules (current_priority : option Z) (rules : list rule) : py (list string) :=
  match rules with
  | [] => Some []
  | r :: rules' =>
      priority ← r_priority r;
      let line := r_action r +:+ " " +:+ r_value r in
      let header :=
        if decide (Some priority = current_priority) then []
        else ["# priority=" +:+ py_str_int priority +:+ " source=" +:+ r_source r] in
      lines ← render_rules (Some priority) rules';
      Some (header ++ [line] ++ lines)
  end.

Definition render_effective_rules_text (a : effective_artifact) : py string :=
  lines ← render_rules None (ea_rules a);
  Some (py_join (String "010" "")
          (["# FWRouter effective rules";
            "# priority: protected > manual > static_direct > big_direct > big_vpn > selective_default";
            "# selective_default=" +:+ ea_selective_default a]
           ++ lines ++ ["# default_action=" +:+ ea_default_action a])
        +:+ String "010" "").
End Effective.

(** * Facts about the effective artifact

    The artifact against a reference: every source keeps the entries whose
    key no earlier entry has, in order.  Precedence, the protected entries,
    the counts and the rendered text follow. *)
(** ** The reference: the first of each key *)

(** The entries whose key is neither in [seen] nor earlier. *)
Fixpoint first_of_key (seen : list (string * string)) (entries : list rule) : list rule :=
  match entries with
  | [] => []
  | r :: rest =>
      if bool_decide (rule_key r ∈ seen) then first_of_key seen rest
      else r :: first_of_key (rule_key r :: seen) rest
  end.

(** What each source contributes, in order. *)
Fixpoint kept_sources (seen : list (string * string)) (sources : list ordered_source) : list ordered_source :=
  match sources with
  | [] => []
  | (source, priority, entries) :: rest =>
      (source, priority, map (with_priority priority) (first_of_key seen entries))
        :: kept_sources (map rule_key entries ++ seen) rest
  end.

Definition all_entries (sources : list ordered_source) : list rule := flat_map snd sources.

Lemma first_of_key_ext seen seen' entries :
  (forall k, k ∈ seen <-> k ∈ seen') -> first_of_key seen entries = first_of_key seen' entries.
Proof.
  revert seen seen'. induction entries as [|r entries IH]; intros seen seen' E; cbn [first_of_key]; [done|].
  destruct (decide (rule_key r ∈ seen)) as [Hin|Hin].
  - rewrite !bool_decide_eq_true_2; [by apply IH|by apply E|done].
  - rewrite !bool_decide_eq_false_2; [|by rewrite <- E|done]. f_equal. apply IH. intros k. rewrite !elem_of_cons, E. done.
Qed.

Lemma kept_sources_ext sources : forall seen seen',
  (forall k, k ∈ seen <-> k ∈ seen') -> kept_sources seen sources = kept_sources seen' sources.
Proof.
  induction sources as [|[[source priority] entries] sources IH]; intros seen seen' E; cbn [kept_sources]; [done|].
  rewrite (first_of_key_ext seen seen' entries E). f_equal. apply IH. intros k. rewrite !elem_of_app, E. done.
Qed.

Lemma rule_key_priority p r : rule_key (with_priority p r) = rule_key r.
Proof. done. Qed.

(** [seen] represents the state's set. *)
Definition seen_is (st : effective_state) (seen : list (string * string)) : Prop :=
  forall k, k ∈ es_seen st <-> k ∈ seen.

Lemma effective_fold source priority entries : forall st seen,
  seen_is st seen ->
  let st' := fold_left (effective_step source priority) entries st in
  es_rules st' = es_rules st ++ map (with_priority priority) (first_of_key seen entries) /\
  seen_is st' (map rule_key entries ++ seen) /\
  es_counts st' = alter (fun n => length (first_of_key seen entries) + n)%nat source (es_counts st).
Proof.
  induction entries as [|r entries IH]; intros st seen Hs; cbn [fold_left first_of_key map].
  { split; [by rewrite app_nil_r|]. split; [done|]. symmetry. by apply alter_id. }
  unfold effective_step at 2 4 6. destruct (decide (rule_key r ∈ es_seen st)) as [Hin|Hin].
  - rewrite bool_decide_eq_true_2 by by apply Hs. destruct (IH st seen Hs) as (H1 & H2 & H3).
    split; [done|]. split; [|done]. intros k. rewrite (H2 k). cbn [app]. rewrite elem_of_cons, elem_of_app.
    apply Hs in Hin. split; [by right|]. intros [->|?]; auto.
  - rewrite bool_decide_eq_false_2 by by rewrite <- (Hs (rule_key r)).
    destruct (IH (EffectiveState (es_rules st ++ [with_priority priority r]) ({[rule_key r]} ∪ es_seen st)
      (alter S source (es_counts st))) (rule_key r :: seen)) as (H1 & H2 & H3).
    { intros k. cbn [es_seen]. rewrite elem_of_union, elem_of_singleton, elem_of_cons, (Hs k). done. }
    split; [|split].
    + rewrite H1. cbn [es_rules map]. by rewrite <- app_assoc.
    + intros k. rewrite (H2 k). cbn [app]. rewrite elem_of_app, !elem_of_cons, elem_of_app. tauto.
    + rewrite H3. cbn [es_counts length]. rewrite alter_alter_eq. apply alter_ext. intros n _. unfold compose. cbn [length]. lia.
Qed.

Lemma effective_sources_fold sources : forall st seen,
  seen_is st seen ->
  es_rules (fold_left effective_source sources st) = es_rules st ++ all_entries (kept_sources seen sources).
Proof.
  induction sources as [|[[source priority] entries] sources IH]; intros st seen Hs; cbn [fold_left kept_sources].
  { by rewrite app_nil_r. }
  destruct (effective_fold source priority entries st seen Hs) as (H1 & H2 & _).
  unfold effective_source at 2. rewrite (IH _ _ H2), H1. unfold all_entries. cbn [flat_map snd].
  by rewrite <- app_assoc.
Qed.

(** The number of rules each source keeps. *)
Definition kept_count (s : string) (kept : list ordered_source) : nat :=
  sum_list (map (fun x => if String.eqb x.1.1 s then length x.2 else 0%nat) kept).

Lemma effective_counts_fold sources s : forall st seen,
  seen_is st seen ->
  es_counts (fold_left effective_source sources st) !! s =
  (fun n => n + kept_count s (kept_sources seen sources))%nat <$> es_counts st !! s.
Proof.
  induction sources as [|[[source priority] entries] sources IH]; intros st seen Hs; cbn [fold_left kept_sources].
  { unfold kept_count. cbn. destruct (es_counts st !! s); cbn; [|done]. by rewrite Nat.add_0_r. }
  destruct (effective_fold source priority entries st seen Hs) as (_ & H2 & H3).
  unfold effective_source at 2. rewrite (IH _ _ H2), H3. unfold kept_count. cbn [map fst snd].
  change (sum_list (?x :: ?l)) with (x + sum_list l)%nat. rewrite length_map.
  destruct (String.eqb_spec source s) as [->|Hne].
  - rewrite lookup_alter_eq. destruct (es_counts st !! s); cbn; [|done]. f_equal. lia.
  - by rewrite lookup_alter_ne.
Qed.

(** ** The reference, described by membership *)

Lemma first_of_key_spec entries : forall seen r,
  r ∈ first_of_key seen entries <->
  exists i, entries !! i = Some r /\ (rule_key r ∉ seen) /\
    forall j r', (j < i)%nat -> entries !! j = Some r' -> rule_key r' <> rule_key r.
Proof.
  induction entries as [|r0 entries IH]; intros seen r; cbn [first_of_key].
  { split; [by intros ?%elem_of_nil|]. by intros (i & Hi & _). }
  assert (Hshift : forall P : Prop, (exists i, entries !! i = Some r /\ (rule_key r ∉ rule_key r0 :: seen) /\
      forall j r', (j < i)%nat -> entries !! j = Some r' -> rule_key r' <> rule_key r) <->
    (exists i, (r0 :: entries) !! S i = Some r /\ (rule_key r ∉ seen) /\
      forall j r', (j < S i)%nat -> (r0 :: entries) !! j = Some r' -> rule_key r' <> rule_key r)).
  { intros _. split; intros (i & Hi & Hn & Hj); exists i; (split; [done|]).
    - rewrite not_elem_of_cons in Hn. split; [apply Hn|]. intros [|j] r' Hlt Hr'.
      + injection Hr' as <-. destruct Hn as [Hne _]. congruence.
      + apply (Hj j); [lia|done].
    - split.
      + apply not_elem_of_cons. split; [|done]. intros E. apply (Hj 0%nat r0); [lia|done|done].
      + intros j r' Hlt Hr'. apply (Hj (S j)); [lia|done]. }
  specialize (Hshift True). destruct (decide (rule_key r0 ∈ seen)) as [Hin|Hin].
  - rewrite bool_decide_eq_true_2 by done.
    rewrite (first_of_key_ext seen (rule_key r0 :: seen)), IH.
    + rewrite Hshift. split; [intros (i & Hi); by exists (S i)|].
      intros ([|i] & Hi & Hn & Hj); [by injection Hi as <-|by exists i].
    + intros k. rewrite elem_of_cons. split; [by right|]. by intros [->|?].
  - rewrite bool_decide_eq_false_2 by done. rewrite elem_of_cons, IH, Hshift. split.
    + intros [->|(i & Hi)]; [|by exists (S i)]. exists 0%nat. split_all; [done|done|]. intros j r' Hj. lia.
    + intros ([|i] & Hi & Hn & Hj); [left; by injection Hi|right; by exists i].
Qed.

Lemma first_of_key_app l1 : forall seen l2,
  first_of_key seen (l1 ++ l2) = first_of_key seen l1 ++ first_of_key (map rule_key l1 ++ seen) l2.
Proof.
  induction l1 as [|r l1 IH]; intros seen l2; cbn [app first_of_key map]; [done|].
  destruct (decide (rule_key r ∈ seen)) as [Hin|Hin].
  - rewrite bool_decide_eq_true_2 by done. rewrite IH. f_equal. apply first_of_key_ext. intros k.
    rewrite elem_of_cons, elem_of_app. split; [by right|]. intros [->|?]; auto.
  - rewrite bool_decide_eq_false_2 by done. rewrite IH. cbn [app]. f_equal. f_equal. apply first_of_key_ext.
    intros k. rewrite !elem_of_cons, !elem_of_app, elem_of_cons. tauto.
Qed.

Lemma first_of_key_priority p l : forall seen,
  first_of_key seen (map (with_priority p) l) = map (with_priority p) (first_of_key seen l).
Proof.
  induction l as [|r l IH]; intros seen; cbn [map first_of_key]; [done|].
  rewrite rule_key_priority. destruct (bool_decide _); [apply IH|]. cbn [map]. by rewrite IH.
Qed.

(** All the entries of all the sources, with their priorities. *)
Definition stamped (sources : list ordered_source) : list rule :=
  flat_map (fun s => map (with_priority s.1.2) s.2) sources.

Lemma kept_sources_first sources : forall seen,
  all_entries (kept_sources seen sources) = first_of_key seen (stamped sources).
Proof.
  induction sources as [|[[source priority] entries] sources IH]; intros seen; [done|].
  cbn [kept_sources]. unfold all_entries, stamped in *. cbn [flat_map fst snd].
  rewrite first_of_key_app, first_of_key_priority, IH. by rewrite map_map.
Qed.

Lemma first_of_key_nodup l : forall seen, NoDup (map rule_key (first_of_key seen l)).
Proof.
  induction l as [|r l IH]; intros seen; cbn [first_of_key map]; [constructor|].
  destruct (bool_decide _); [apply IH|]. cbn [map]. constructor; [|apply IH].
  intros (r' & E & (i & _ & Hn & _)%first_of_key_spec)%list_elem_of_fmap. apply Hn. rewrite <- E. by left.
Qed.

Lemma first_of_key_keys entries k : forall seen,
  k ∈ map rule_key entries -> k ∈ seen \/ k ∈ map rule_key (first_of_key seen entries).
Proof.
  induction entries as [|r entries IH]; intros seen Hk; cbn [map first_of_key] in *; [by apply elem_of_nil in Hk|].
  apply elem_of_cons in Hk. destruct (decide (rule_key r ∈ seen)) as [Hin|Hin].
  - rewrite bool_decide_eq_true_2 by done. destruct Hk as [->|Hk]; [by left|by apply IH].
  - rewrite bool_decide_eq_false_2 by done. cbn [map]. rewrite elem_of_cons. destruct Hk as [->|Hk]; [by auto|].
    destruct (IH (rule_key r :: seen) Hk) as [[->|?]%elem_of_cons|?]; auto.
Qed.

Lemma first_of_key_sub entries seen r : r ∈ first_of_key seen entries -> r ∈ entries.
Proof. intros (i & Hi & _)%first_of_key_spec. by eapply list_elem_of_lookup_2. Qed.

Section EffectiveFacts.
Context `{Settings}.
Context (manual : list rule) (selective_default : string)
  (static_direct big_direct big_vpn : option (list rule)).

Definition sources_of (protected : list rule) : list ordered_source :=
  ordered_sources protected (_rules_from_validation manual RULESET_MANUAL)
    (_rules_from_validation (default [] static_direct) RULESET_STATIC_DIRECT)
    (_rules_from_validation (default [] big_direct) RULESET_BIG_DIRECT)
    (_rules_from_validation (default [] big_vpn) RULESET_BIG_VPN).

Abbreviation build := (build_effective_rules_artifact manual selective_default static_direct big_direct big_vpn).

Lemma protected_rules_total : exists protected nets,
  _protected_rules = Some protected /\ protected_rule_ip_networks = Some nets /\
  protected = map (fun n => _build_rule_entry "DIRECT" "cidr" (str_net n) None "protected" None true) nets
    ++ map (fun d => _build_rule_entry "DIRECT" "domain" d None "protected" None true) PROTECTED_SERVICE_DOMAINS.
Proof.
  destruct protected_networks_total as (nets & E & _). unfold _protected_rules. rewrite E. cbn [mbind option_bind]. eauto.
Qed.

Lemma build_eq protected :
  _protected_rules = Some protected ->
  exists a, build = Some a /\ ea_rules a = all_entries (kept_sources [] (sources_of protected)) /\
    (forall s, ea_source_counts a !! s =
       (fun n => n + kept_count s (kept_sources [] (sources_of protected)))%nat <$> initial_counts !! s) /\
    ea_total a = length (ea_rules a) /\ ea_protected a = default 0%nat (ea_source_counts a !! "protected") /\
    ea_selective_default a = selective_default /\ ea_default_action a = py_upper selective_default.
Proof.
  intros E. unfold build_effective_rules_artifact. rewrite E. cbn [mbind option_bind].
  eexists. split; [reflexivity|]. cbn [ea_rules ea_source_counts ea_total ea_protected ea_selective_default ea_default_action].
  assert (Hs : seen_is effective_init []).
  { intros k. split; intros Hk; [by apply elem_of_empty in Hk|by apply elem_of_nil in Hk]. }
  fold (sources_of protected). rewrite (effective_sources_fold (sources_of protected) effective_init [] Hs).
  split; [done|]. split; [|done]. intros s. by apply (effective_counts_fold (sources_of protected) s effective_init []).
Qed.

(** Building the artifact never raises, and its rules are decided by
    precedence: a rule is effective exactly when it is the first of its
    kind and value in the order protected, manual, static_direct,
    big_direct, big_vpn; so no two effective rules have the same kind and
    value, and every kind and value of a source is decided. *)
Theorem effective_first_wins :
  exists a protected, _protected_rules = Some protected /\ build = Some a /\
    let entries := stamped (sources_of protected) in
    (forall r, r ∈ ea_rules a <->
       exists i, entries !! i = Some r /\
         forall j r', (j < i)%nat -> entries !! j = Some r' -> rule_key r' <> rule_key r) /\
    NoDup (map rule_key (ea_rules a)) /\
    (forall k, k ∈ map rule_key entries -> k ∈ map rule_key (ea_rules a)).
Proof.
  destruct protected_rules_total as (protected & nets & Hp & _ & _).
  destruct (build_eq protected Hp) as (a & Ha & Hr & _). exists a, protected. split; [done|]. split; [done|].
  cbv zeta. rewrite Hr, kept_sources_first. set (entries := stamped (sources_of protected)).
  assert (Hspec : forall r, r ∈ first_of_key [] entries <-> exists i, entries !! i = Some r /\
         forall j r', (j < i)%nat -> entries !! j = Some r' -> rule_key r' <> rule_key r).
  { intros r. rewrite first_of_key_spec. split; intros (i & Hi); exists i; [tauto|].
    split_all; [done|by intros ?%elem_of_nil|done]. }
  split; [done|]. split; [apply first_of_key_nodup|].
  intros k Hk. destruct (first_of_key_keys entries k [] Hk) as [Hn|?]; [by apply elem_of_nil in Hn|done].
Qed.

(** Protection cannot be overridden: whatever the other sources say,
    every protected network has its DIRECT rule at priority 1, and any
    effective rule for the text of that network is this one. *)
Theorem effective_protects a nets n :
  build = Some a -> protected_rule_ip_networks = Some nets -> n ∈ nets ->
  let r := with_priority 1 (_build_rule_entry "DIRECT" "cidr" (str_net n) None "protected" None true) in
  r ∈ ea_rules a /\ forall r', r' ∈ ea_rules a -> rule_key r' = ("cidr", str_net n) -> r' = r.
Proof.
  intros Ha Hnets Hn r. destruct protected_rules_total as (protected & nets' & Hp & Hn' & Ep).
  assert (nets' = nets) as -> by congruence.
  destruct (build_eq protected Hp) as (a' & Ha' & Hr & _). assert (a' = a) as -> by congruence.
  rewrite Hr, kept_sources_first. set (entries := stamped (sources_of protected)).
  pose proof (first_of_key_nodup entries []) as Hnd.
  assert (Hin : r ∈ first_of_key [] entries).
  { unfold entries, stamped, sources_of, ordered_sources. cbn [flat_map fst snd]. rewrite first_of_key_app, elem_of_app. left.
    rewrite first_of_key_priority. apply list_elem_of_fmap.
    set (e := _build_rule_entry "DIRECT" "cidr" (str_net n) None "protected" None true).
    exists e. split; [done|].
    assert (He : e ∈ protected) by (rewrite Ep, elem_of_app; left; apply list_elem_of_fmap; by exists n).
    destruct (first_of_key_keys protected (rule_key e) []) as [Hx|Hx];
      [apply list_elem_of_fmap; by exists e|by apply elem_of_nil in Hx|].
    apply list_elem_of_fmap in Hx as (e' & Ek & He'). assert (e = e') as ->; [|done].
    apply first_of_key_sub in He'. rewrite Ep in He'. apply elem_of_app in He' as [He'|He'];
      apply list_elem_of_fmap in He' as (x & -> & _); [|done]. injection Ek as Ek. unfold e. by rewrite Ek. }
  split; [done|]. intros r' Hr' Hk. apply list_elem_of_lookup in Hin as [i Hi], Hr' as [j Hj].
  assert (i = j) as ->; [|congruence]. apply (NoDup_lookup _ i j ("cidr", str_net n) Hnd).
  - apply list_lookup_fmap_Some. by exists r.
  - apply list_lookup_fmap_Some. by exists r'.
Qed.

(** The block of a source in the text: nothing, or a header and its lines. *)
Definition rule_line (r : rule) : string := r_action r +:+ " " +:+ r_value r.

Definition source_block (s : ordered_source) : list string :=
  match s.2 with
  | [] => []
  | rules => ("# priority=" +:+ py_str_int s.1.2 +:+ " source=" +:+ s.1.1) :: map rule_line rules
  end.

Definition source_uniform (s : ordered_source) : Prop :=
  Forall (fun r => r_priority r = Some s.1.2 /\ r_source r = s.1.1) s.2.

(** After the header: the lines of the source, then the rest. *)
Lemma render_same p rules rest lines :
  Forall (fun r => r_priority r = Some p) rules -> render_rules (Some p) rest = Some lines ->
  render_rules (Some p) (rules ++ rest) = Some (map rule_line rules ++ lines).
Proof.
  intros Hr Hrest. induction Hr as [|r rules Hp _ IH]; [done|]. cbn [app render_rules map].
  rewrite Hp. cbn [mbind option_bind]. rewrite decide_True by done. rewrite IH. reflexivity.
Qed.

Lemma render_blocks kept : forall cur,
  Forall source_uniform kept -> NoDup (map (fun s => s.1.2) kept) ->
  (forall p, cur = Some p -> p ∉ map (fun s => s.1.2) kept) ->
  render_rules cur (all_entries kept) = Some (flat_map source_block kept).
Proof.
  induction kept as [|[[source p] rules] kept IH]; intros cur Hu Hnd Hcur; [done|].
  inversion Hu as [|? ? Hu0 Hu']; subst. inversion Hnd as [|? ? Hp Hnd']; subst.
  unfold all_entries in *. cbn [flat_map fst snd]. destruct rules as [|r rules]; cbn [app].
  { unfold source_block at 1. cbn [snd app]. apply IH; [done|done|]. intros q Hq Hin. apply (Hcur q Hq). by right. }
  inversion Hu0 as [|? ? [Hpr Hsr] Hrest]; subst. cbn [fst snd] in *. cbn [render_rules]. rewrite Hpr. cbn [mbind option_bind].
  rewrite decide_False by (intros E; symmetry in E; apply (Hcur p E); by left).
  rewrite (render_same p rules (flat_map snd kept) (flat_map source_block kept)).
  - cbn [mbind option_bind]. unfold source_block at 2. cbn [fst snd map app]. rewrite Hsr. done.
  - eapply Forall_impl; [exact Hrest|]. by intros x [].
  - apply IH; [done|done|]. intros q [= <-]. done.
Qed.

Lemma kept_sources_uniform sources : forall seen,
  Forall (fun s => Forall (fun r => r_source r = s.1.1) s.2) sources ->
  Forall source_uniform (kept_sources seen sources).
Proof.
  induction sources as [|[[source p] rules] sources IH]; intros seen Hs; cbn [kept_sources]; [constructor|].
  inversion Hs as [|? ? H0 H']; subst. constructor; [|by apply IH]. unfold source_uniform. cbn [fst snd] in *.
  apply Forall_forall. intros r (r0 & -> & Hin%first_of_key_sub)%list_elem_of_fmap.
  rewrite Forall_forall in H0. split; [done|]. exact (H0 r0 Hin).
Qed.

Lemma kept_sources_priorities sources : forall seen,
  map (fun s => s.1.2) (kept_sources seen sources) = map (fun s => s.1.2) sources.
Proof.
  induction sources as [|[[source p] rules] sources IH]; intros seen; cbn [kept_sources map]; [done|]. by rewrite IH.
Qed.

Lemma validation_source l source : Forall (fun r => r_source r = source) (_rules_from_validation l source).
Proof. apply Forall_forall. by intros r (r0 & -> & _)%list_elem_of_fmap. Qed.

(** The effective text: the three header lines, then for every source
    that has effective rules, in priority order, one header and its rules,
    then the default action.  Rendering never raises. *)
Theorem render_effective_spec :
  exists a protected, _protected_rules = Some protected /\ build = Some a /\
    render_effective_rules_text a = Some (py_join (String "010" "")
      (["# FWRouter effective rules";
        "# priority: protected > manual > static_direct > big_direct > big_vpn > selective_default";
        "# selective_default=" +:+ selective_default]
       ++ flat_map source_block (kept_sources [] (sources_of protected))
       ++ ["# default_action=" +:+ py_upper selective_default]) +:+ String "010" "").
Proof.
  destruct protected_rules_total as (protected & nets & Hp & _ & Ep).
  destruct (build_eq protected Hp) as (a & Ha & Hr & _ & _ & _ & Hs & Hd). exists a, protected. split; [done|]. split; [done|].
  unfold render_effective_rules_text. rewrite Hr, Hs, Hd.
  rewrite (render_blocks (kept_sources [] (sources_of protected))); [reflexivity| | |by intros p [=]].
  - apply kept_sources_uniform. unfold sources_of, ordered_sources.
    repeat (constructor; [first [apply validation_source|cbn [fst snd]; rewrite Ep]|]); [|constructor].
    apply Forall_app. split; apply Forall_forall; by intros r (x & -> & _)%list_elem_of_fmap.
  - rewrite kept_sources_priorities. apply (bool_decide_unpack _). vm_compute. done.
Qed.

Lemma five_counts (l1 l2 l3 l4 l5 : list rule) :
  let kept := ordered_sources l1 l2 l3 l4 l5 in
  map (fun s => (fun n => n + kept_count s kept)%nat <$> initial_counts !! s)
    ["protected"; RULESET_MANUAL; RULESET_STATIC_DIRECT; RULESET_BIG_DIRECT; RULESET_BIG_VPN] =
  map (fun l => Some (length l)) [l1; l2; l3; l4; l5].
Proof.
  assert (Hi : forall s, s ∈ ["protected"; RULESET_MANUAL; RULESET_STATIC_DIRECT; RULESET_BIG_DIRECT; RULESET_BIG_VPN] ->
    initial_counts !! s = Some 0%nat).
  { intros s Hs. repeat (apply elem_of_cons in Hs as [->|Hs]; [reflexivity|]). by apply elem_of_nil in Hs. }
  cbv zeta. cbn [map]. rewrite !Hi by (rewrite ?elem_of_cons; tauto). unfold kept_count, ordered_sources.
  cbn. repeat f_equal; lia.
Qed.

(** The counts of the artifact: each source's count is the number of
    its effective rules, and they add up to the total. *)
Theorem effective_counts_spec a protected :
  _protected_rules = Some protected -> build = Some a ->
  let kept := kept_sources [] (sources_of protected) in
  map (fun s => ea_source_counts a !! s.1.1) kept = map (fun s => Some (length s.2)) kept /\
  ea_total a = sum_list (map (fun s => length s.2) kept) /\
  ea_source_counts a !! "protected" = Some (ea_protected a).
Proof.
  intros Hp Ha. destruct (build_eq protected Hp) as (a' & Ha' & Hr & Hc & Ht & Hpr & _).
  assert (a' = a) as -> by congruence. cbv zeta. split; [|split].
  - unfold sources_of, ordered_sources in Hc |- *. cbn [kept_sources map fst snd] in Hc |- *. rewrite !Hc.
    apply five_counts.
  - rewrite Ht, Hr. unfold all_entries. generalize (kept_sources [] (sources_of protected)). clear.
    induction l as [|s l IH]; cbn [flat_map map]; [done|]. by rewrite length_app, IH.
  - rewrite Hpr, Hc. done.
Qed.
End EffectiveFacts.

(** A VPN rule for the text of a protected network does not become effective. *)
Definition hostile : list rule := [_build_rule_entry "VPN" "cidr" "10.0.0.0/8" (Some 1) RULESET_BIG_VPN None false].

Lemma effective_protects_witness :
  exists (a : effective_artifact) (nets : list net),
    @build_effective_rules_artifact default_settings [] "direct" None None (Some hostile) = Some a /\
    Net (Addr V4 167772160 "") 8 ∈ nets /\
    forall r', r' ∈ ea_rules a -> rule_key r' = ("cidr", "10.0.0.0/8") -> r_action r' = "DIRECT".
Proof.
  destruct (@protected_rule_ip_networks default_settings) as [nets|] eqn:En; [|vm_compute in En; discriminate].
  destruct (@build_effective_rules_artifact default_settings [] "direct" None None (Some hostile)) as [a|] eqn:Ea;
    [|vm_compute in Ea; discriminate].
  assert (Hin : Net (Addr V4 167772160 "") 8 ∈ nets).
  { vm_compute in En. injection En as <-. apply (bool_decide_unpack _). vm_compute. done. }
  exists a, nets. split; [reflexivity|]. split; [exact Hin|]. intros r' Hr' Hk.
  destruct (@effective_protects default_settings [] "direct" None None (Some hostile) a nets
              (Net (Addr V4 167772160 "") 8) Ea En Hin) as [_ Hall].
  rewrite (Hall r' Hr' Hk). reflexivity.
Defined.

Lemma effective_counts_spec_witness :
  exists (a : effective_artifact) (protected : list rule),
    @build_effective_rules_artifact default_settings [] "direct" None None (Some hostile) = Some a /\
    ea_source_counts a !! "protected" = Some (ea_protected a) /\ ea_total a <> 0%nat.
Proof.
  destruct (@_protected_rules default_settings) as [p|] eqn:Ep; [|vm_compute in Ep; discriminate].
  destruct (@build_effective_rules_artifact default_settings [] "direct" None None (Some hostile)) as [a|] eqn:Ea;
    [|vm_compute in Ea; discriminate].
  exists a, p. split; [reflexivity|]. split.
  - exact (proj2 (proj2 (@effective_counts_spec default_settings [] "direct" None None (Some hostile) a p Ep Ea))).
  - vm_compute in Ea. injection Ea as <-. discriminate.
Defined.
