(* ===== verification/PyVal.v ===== *)
(** * Python values of the dictionaries the services pass around

    A value of a JSON-like dictionary: None, bool, int, str, list, dict.  A
    dict is an association list in insertion order with distinct keys.
    Floats do not occur in the dictionaries modelled.  [st] is the monad of
    code that threads a state and may raise: the state survives the
    exception, as the mutations of a Python program do. *)
From stdpp Require Import base list strings pretty gmap.
From Stdlib Require Import ZArith Lia Ascii.
From S2P Require Import Prelude PyStr IpAddr.

Open Scope string_scope.
Open Scope Z_scope.
Open Scope list_scope.

(** ** Values *)

Inductive pyval :=
  | VNone
  | VBool (b : bool)
  | VInt (n : Z)
  | VStr (s : string)
  | VList (l : list pyval)
  | VDict (d : list (string * pyval)).

Definition dict := list (string * pyval).

(** [d.get(k)]: None when the key is absent. *)
Fixpoint dict_lookup (k : string) (d : dict) : option pyval :=
  match d with
  | [] => None
  | (k', v) :: d' => if String.eqb k k' then Some v else dict_lookup k d'
  end.

Definition dget (k : string) (d : dict) : pyval := default VNone (dict_lookup k d).

(** [d[k] = v]: in place, or at the end. *)
Fixpoint dset (k : string) (v : pyval) (d : dict) : dict :=
  match d with
  | [] => [(k, v)]
  | (k', v') :: d' => if String.eqb k k' then (k, v) :: d' else (k', v') :: dset k v d'
  end.

(** [{**d, ...}]. *)
Definition dmerge (d e : dict) : dict := fold_left (fun d kv => dset kv.1 kv.2 d) e d.

(** [d.pop(k, None)]. *)
Fixpoint dpop (k : string) (d : dict) : dict :=
  match d with
  | [] => []
  | (k', v') :: d' => if String.eqb k k' then d' else (k', v') :: dpop k d'
  end.

(** [bool(v)]. *)
Definition truthy (v : pyval) : bool :=
  match v with
  | VNone => false
  | VBool b => b
  | VInt n => negb (n =? 0)
  | VStr s => negb (String.eqb s "")
  | VList l => negb (bool_decide (length l = 0%nat))
  | VDict d => negb (bool_decide (length d = 0%nat))
  end.

(** [a or b]. *)
Definition por (a b : pyval) : pyval := if truthy a then a else b.

(** [isinstance(v, dict)]. *)
Definition as_dict (v : pyval) : option dict :=
  match v with VDict d => Some d | _ => None end.

Definition is_dict (v : pyval) : bool := match v with VDict _ => true | _ => false end.

(** [isinstance(v, list)]. *)
Definition as_list (v : pyval) : option (list pyval) :=
  match v with VList l => Some l | _ => None end.

(** [o is not None]. *)
Definition is_set {A} (o : option A) : bool := match o with Some _ => true | None => false end.

(** An optional string: a TEXT column or a [str | None] argument. *)
Definition vopt (o : option string) : pyval := match o with Some s => VStr s | None => VNone end.

(** An optional int. *)
Definition vint (o : option Z) : pyval := match o with Some n => VInt n | None => VNone end.

(** An optional dict argument or variable. *)
Definition vdict (o : option dict) : pyval := match o with Some d => VDict d | None => VNone end.

(** ** Conversions *)

(** [str(v)].  The text of a container is [repr], a parameter: the code
    reads strings and numbers here. *)
Class ReprContainer := repr_container : pyval -> string.

Definition py_str `{ReprContainer} (v : pyval) : string :=
  match v with
  | VNone => "None"
  | VBool true => "True"
  | VBool false => "False"
  | VInt n => py_str_int n
  | VStr s => s
  | VList _ | VDict _ => repr_container v
  end.

(** [int(s)] of a string: blanks around, a sign, digits with single
    underscores between them.  [None] is ValueError. *)
Fixpoint digits_underscore (prev : bool) (s : string) : option string :=
  match s with
  | "" => if prev then Some "" else None
  | String c s' =>
      if is_digit c then option_map (String c) (digits_underscore true s')
      else if Ascii.eqb c "_"%char && prev then digits_underscore false s'
      else None
  end.

Definition py_int_str (s : string) : option Z :=
  let t := py_strip s in
  match t with
  | String c t' =>
      if Ascii.eqb c "-"%char then ds ← digits_underscore false t'; n ← py_int_digits ds; Some (- n)
      else if Ascii.eqb c "+"%char then ds ← digits_underscore false t'; py_int_digits ds
      else ds ← digits_underscore false t; py_int_digits ds
  | "" => None
  end.

(** [int(v)]; [None] is TypeError or ValueError. *)
Definition py_int (v : pyval) : option Z :=
  match v with
  | VInt n => Some n
  | VBool b => Some (Z.b2z b)
  | VStr s => py_int_str s
  | _ => None
  end.

(** [v == w].  Dicts compare as maps; bools compare as 0 and 1. *)
Fixpoint py_eq (v w : pyval) {struct v} : bool :=
  match v, w with
  | VNone, VNone => true
  | VBool a, VBool b => Bool.eqb a b
  | VBool a, VInt n => Z.b2z a =? n
  | VInt n, VBool b => n =? Z.b2z b
  | VInt n, VInt m => n =? m
  | VStr s, VStr t => String.eqb s t
  | VList l, VList k =>
      (fix eq_list (l k : list pyval) {struct l} : bool :=
         match l, k with
         | [], [] => true
         | x :: l', y :: k' => py_eq x y && eq_list l' k'
         | _, _ => false
         end) l k
  | VDict d, VDict e =>
      (length d =? length e)%nat &&
      (fix eq_dict (d : list (string * pyval)) {struct d} : bool :=
         match d with
         | [] => true
         | (k, x) :: d' =>
             match dict_lookup k e with Some y => py_eq x y | None => false end && eq_dict d'
         end) d
  | _, _ => false
  end.

(** [v == s] for a string [s]. *)
Definition eq_str (v : pyval) (s : string) : bool := py_eq v (VStr s).

(** Keys in order, at every level: what [json.dumps(sort_keys=True)] writes. *)
Definition key_leb (a b : string * pyval) : bool := py_leb a.1 b.1.

Fixpoint sort_keys (v : pyval) : pyval :=
  match v with
  | VList l => VList (map sort_keys l)
  | VDict d => VDict (sort_by key_leb (map (fun kv => (kv.1, sort_keys kv.2)) d))
  | _ => v
  end.

(** ** State with exceptions *)

(** [None] is a raised exception. *)
Definition st (S A : Type) : Type := S -> option A * S.

Section State.
Context {S : Type}.

#[global] Instance st_ret : MRet (st S) := fun A x s => (Some x, s).
#[global] Instance st_bind : MBind (st S) := fun A B k m s =>
  match m s with
  | (Some x, s') => k x s'
  | (None, s') => (None, s')
  end.

Definition st_get : st S S := fun s => (Some s, s).
Definition st_modify (f : S -> S) : st S unit := fun s => (Some tt, f s).
Definition st_raise {A} : st S A := fun s => (None, s).

(** A computation that may raise, with no effect on the state. *)
Definition st_py {A} (o : py A) : st S A := fun s => (o, s).

(** [try: m except Exception: h]. *)
Definition st_try {A} (m h : st S A) : st S A := fun s =>
  match m s with
  | (Some x, s') => (Some x, s')
  | (None, s') => h s'
  end.
End State.

(** ** Lemmas *)

Lemma dict_lookup_dset k k' v d :
  dict_lookup k (dset k' v d) = if String.eqb k k' then Some v else dict_lookup k d.
Proof.
  induction d as [|[k0 v0] d IH]; cbn [dset dict_lookup].
  - by destruct (String.eqb k k').
  - destruct (String.eqb_spec k' k0) as [->|Hne]; cbn [dict_lookup].
    + by destruct (String.eqb k k0).
    + rewrite IH. destruct (String.eqb_spec k k0) as [->|]; [|done].
      by destruct (String.eqb_spec k0 k') as [->|].
Qed.

Lemma dget_dset k k' v d : dget k (dset k' v d) = if String.eqb k k' then v else dget k d.
Proof. unfold dget. rewrite dict_lookup_dset. by destruct (String.eqb k k'). Qed.

Lemma dict_lookup_dpop k k' d :
  NoDup (map fst d) -> dict_lookup k (dpop k' d) = if String.eqb k k' then None else dict_lookup k d.
Proof.
  induction d as [|[k0 v0] d IH]; intros Hnd; cbn [dpop dict_lookup]; [by destruct (String.eqb k k')|].
  inversion Hnd as [|? ? Hn Hnd']; subst. specialize (IH Hnd').
  destruct (String.eqb_spec k' k0) as [->|Hne]; cbn [dict_lookup].
  - destruct (String.eqb_spec k k0) as [->|]; [|done]. clear -Hn.
    induction d as [|[k1 v1] d IH]; [done|]. cbn [map fst] in Hn. rewrite not_elem_of_cons in Hn. destruct Hn as [Hne Hn].
    cbn [dict_lookup]. destruct (String.eqb_spec k0 k1); [done|]. by apply IH.
  - rewrite IH. destruct (String.eqb_spec k k0) as [->|]; [|done].
    by destruct (String.eqb_spec k0 k') as [->|].
Qed.

Lemma dget_dpop k k' d : NoDup (map fst d) -> dget k (dpop k' d) = if String.eqb k k' then VNone else dget k d.
Proof. intros Hnd. unfold dget. rewrite dict_lookup_dpop by done. by destruct (String.eqb k k'). Qed.

Lemma dget_dpop_ne k k' d : String.eqb k k' = false -> dget k (dpop k' d) = dget k d.
Proof.
  intros Hk. unfold dget. f_equal. induction d as [|[k0 v] d IH]; [done|]. cbn [dpop dict_lookup].
  destruct (String.eqb_spec k' k0) as [<-|]; [by rewrite Hk|]. cbn [dict_lookup]. by rewrite IH.
Qed.

Lemma dget_dmerge k d e : k ∉ map fst e -> dget k (dmerge d e) = dget k d.
Proof.
  unfold dmerge. revert d. induction e as [|[k' v] e IH]; intros d; [done|]. cbn [map fst fold_left snd].
  rewrite not_elem_of_cons. intros [Hne Hin]. rewrite IH by done. rewrite dget_dset.
  by destruct (String.eqb_spec k k').
Qed.

(** Sorting the keys is stable: each key keeps its value. *)
Lemma dict_lookup_insert_by k kv d : dict_lookup k (insert_by key_leb kv d) = dict_lookup k (kv :: d).
Proof.
  destruct kv as [k0 v0]. induction d as [|[k1 v1] d IH]; [done|]. cbn [insert_by].
  destruct (key_leb (k0, v0) (k1, v1)) eqn:E; [done|]. cbn [dict_lookup] in *. rewrite IH.
  destruct (String.eqb_spec k k1) as [->|]; [|done]. destruct (String.eqb_spec k1 k0) as [->|]; [|done].
  exfalso. unfold key_leb in E. cbn [fst] in E. by destruct (py_leb_total k0 k0) as [H|H]; rewrite H in E.
Qed.

Lemma dict_lookup_sorted k d :
  dict_lookup k (sort_by key_leb (map (fun kv => (kv.1, sort_keys kv.2)) d)) = option_map sort_keys (dict_lookup k d).
Proof.
  induction d as [|[k0 v0] d IH]; [done|]. cbn [map sort_by fst snd]. rewrite dict_lookup_insert_by. cbn [dict_lookup].
  rewrite IH. by destruct (String.eqb k k0).
Qed.

Lemma eq_str_true v s : eq_str v s = true -> v = VStr s.
Proof. unfold eq_str. destruct v; cbn [py_eq]; try done. by intros ->%String.eqb_eq. Qed.

Lemma eq_str_false v s : eq_str v s = false -> v <> VStr s.
Proof. unfold eq_str. intros E ->. cbn [py_eq] in E. by rewrite String.eqb_refl in E. Qed.

(** * JSON texts

    [json.dumps(value, ensure_ascii=False)] of a value, and the cells of TEXT
    columns that hold JSON. *)
(** ** Texts: [json.dumps(value, ensure_ascii=False)] *)
Definition json_escape (c : ascii) : string :=
  let backslash := String "092"%char "" in
  if Ascii.eqb c "034"%char then backslash +:+ String c ""
  else if Ascii.eqb c "092"%char then backslash +:+ String c ""
  else if Ascii.eqb c "010"%char then backslash +:+ "n"
  else if Ascii.eqb c "013"%char then backslash +:+ "r"
  else if Ascii.eqb c "009"%char then backslash +:+ "t"
  else if Ascii.eqb c "012"%char then backslash +:+ "f"
  else if Ascii.eqb c "008"%char then backslash +:+ "b"
  else if between 0 31 c then let n := Z.of_N (N_of_ascii c) in
    backslash +:+ "u00" +:+ String (hex_digit (n / 16)) (String (hex_digit (n mod 16)) "")
  else String c "".

Fixpoint json_chars (s : string) : string :=
  match s with "" => "" | String c s' => json_escape c +:+ json_chars s' end.

Definition json_string (s : string) : string := String "034"%char (json_chars s) +:+ String "034"%char "".

Fixpoint json_text (v : pyval) : string :=
  match v with
  | VNone => "null"
  | VBool b => if b then "true" else "false"
  | VInt n => py_str_int n
  | VStr s => json_string s
  | VList l => "[" +:+ py_join ", " (map json_text l) +:+ "]"
  | VDict d => "{" +:+ py_join ", " (map (fun kv => json_string kv.1 +:+ ": " +:+ json_text kv.2) d) +:+ "}"
  end.

(** ** Cells *)

(** A TEXT cell that holds JSON: NULL, the text of a value (keys in the
    order of the text), or a text that is not JSON.  Two texts are equal
    when their values are, key order included: the code only writes texts of
    [json.dumps(..., sort_keys=True)], which is injective. *)
Inductive cell := CNull | CJson (v : pyval) | CText (s : string).

(** ** Equality of values as texts *)

Fixpoint pyval_eqb (v w : pyval) {struct v} : bool :=
  match v, w with
  | VNone, VNone => true
  | VBool a, VBool b => Bool.eqb a b
  | VInt n, VInt m => n =? m
  | VStr s, VStr t => String.eqb s t
  | VList l, VList k =>
      (fix go (l k : list pyval) {struct l} : bool :=
         match l, k with
         | [], [] => true
         | x :: l', y :: k' => pyval_eqb x y && go l' k'
         | _, _ => false
         end) l k
  | VDict d, VDict e =>
      (fix go (d e : list (string * pyval)) {struct d} : bool :=
         match d, e with
         | [], [] => true
         | (k, x) :: d', (k', y) :: e' => String.eqb k k' && pyval_eqb x y && go d' e'
         | _, _ => false
         end) d e
  | _, _ => false
  end.

(** [column IS ?]: NULL is equal to NULL. *)
Definition cell_is (c c' : cell) : bool :=
  match c, c' with
  | CNull, CNull => true
  | CJson v, CJson w => pyval_eqb v w
  | CText s, CText t => String.eqb s t
  | _, _ => false
  end.
