(* ===== verification/PyState.v ===== *)
(** * Reasoning about code that threads a state and may raise

    One step at a time, a finished run taken apart, and the observations a
    computation leaves as they were. *)
From stdpp Require Import base list.
From Stdlib Require Import Lia.
From S2P Require Import Prelude PyStr PyVal.

Section State.
Context {S : Type}.

(** ** One step *)

Lemma bind_unfold {A B} (m : st S A) (k : A -> st S B) s :
  mbind k m s = match m s with (Some x, s') => k x s' | (None, s') => (None, s') end.
Proof. done. Qed.

Lemma st_py_eq {A} (o : py A) (s : S) : st_py o s = (o, s).
Proof. done. Qed.

Lemma bind_step {A B} (m : st S A) (k : A -> st S B) s a s1 : m s = (Some a, s1) -> (m ≫= k) s = k a s1.
Proof. rewrite bind_unfold. by intros ->. Qed.

(** ** A finished run *)

Lemma bind_inv {A B} (m : st S A) (k : A -> st S B) s b s' :
  (m ≫= k) s = (Some b, s') -> exists a s1, m s = (Some a, s1) /\ k a s1 = (Some b, s').
Proof. rewrite bind_unfold. destruct (m s) as [[a|] s1]; [eauto|done]. Qed.

Lemma ret_inv {A} (a b : A) (s s' : S) : (mret a : st S A) s = (Some b, s') -> a = b /\ s = s'.
Proof. unfold mret, st_ret. by intros [= -> ->]. Qed.

Lemma try_inv {A} (m h : st S A) s b s' :
  st_try m h s = (Some b, s') -> m s = (Some b, s') \/ exists s1, m s = (None, s1) /\ h s1 = (Some b, s').
Proof. unfold st_try. destruct (m s) as [[a|] s1]; [auto|eauto]. Qed.

Lemma try_total {A} (m : st S A) (a : A) s : exists b s', st_try m (mret a) s = (Some b, s').
Proof. unfold st_try. destruct (m s) as [[b|] s1]; eauto. Qed.

End State.

(** ** How a computation moves the state *)

Section Moves.
Context {S : Type}.

(** However [m] ends, it leaves a state related to the one it began in. *)
Definition moves (R : relation S) {A} (m : st S A) : Prop := forall s, R s (m s).2.

(** What [obs] sees is what it was. *)
Definition same {B} (obs : S -> B) : relation S := fun s s' => obs s' = obs s.

(** What held still holds. *)
Definition stays (I : S -> Prop) : relation S := fun s s' => I s -> I s'.

#[export] Instance same_preorder {B} (obs : S -> B) : PreOrder (same obs).
Proof. split; [done|]. intros s1 s2 s3. unfold same. congruence. Qed.

#[export] Instance stays_preorder (I : S -> Prop) : PreOrder (stays I).
Proof. split; [by intros s H|]. intros s1 s2 s3 H12 H23 H1. auto. Qed.

Context (R : relation S) `{!PreOrder R}.

Lemma moves_run {A} (m : st S A) s o s' : moves R m -> m s = (o, s') -> R s s'.
Proof using Type. intros Hm E. specialize (Hm s). by rewrite E in Hm. Qed.

Lemma moves_ret {A} (a : A) : moves R (mret a).
Proof. intros s. reflexivity. Qed.

Lemma moves_py {A} (o : py A) : moves R (st_py o).
Proof. intros s. reflexivity. Qed.

Lemma moves_raise {A} : moves R (st_raise : st S A).
Proof. intros s. reflexivity. Qed.

Lemma moves_get : moves R st_get.
Proof. intros s. reflexivity. Qed.

Lemma moves_bind {A C} (m : st S A) (k : A -> st S C) : moves R m -> (forall a, moves R (k a)) -> moves R (m ≫= k).
Proof.
  intros Hm Hk s. rewrite bind_unfold. specialize (Hm s). destruct (m s) as [[a|] s1]; [|exact Hm].
  transitivity s1; [exact Hm|apply Hk].
Qed.

Lemma moves_try {A} (m h : st S A) : moves R m -> moves R h -> moves R (st_try m h).
Proof.
  intros Hm Hh s. unfold st_try. specialize (Hm s). destruct (m s) as [[a|] s1]; [exact Hm|].
  transitivity s1; [exact Hm|apply Hh].
Qed.
End Moves.

(** ** Postconditions *)

(** From a state in [P], [m] ends in [Q] with its value, or raises in [E]. *)
Section Triples.
Context {S : Type}.

Definition triple {A} (P : S -> Prop) (m : st S A) (Q : A -> S -> Prop) (E : S -> Prop) : Prop :=
  forall s, P s -> match m s with (Some a, s') => Q a s' | (None, s') => E s' end.

Lemma triple_ret {A} (a : A) (P : S -> Prop) (Q : A -> S -> Prop) E : (forall s, P s -> Q a s) -> triple P (mret a) Q E.
Proof. intros HQ s Hs. by apply HQ. Qed.

Lemma triple_bind {A B} (m : st S A) (k : A -> st S B) P (R : A -> S -> Prop) (Q : B -> S -> Prop) E :
  triple P m R E -> (forall a, triple (R a) (k a) Q E) -> triple P (m ≫= k) Q E.
Proof.
  intros Hm Hk s Hs. specialize (Hm s Hs). rewrite bind_unfold. destruct (m s) as [[a|] s1]; [by apply Hk|done].
Qed.

Lemma triple_conseq {A} (m : st S A) (P P' : S -> Prop) (Q Q' : A -> S -> Prop) E :
  triple P' m Q' E -> (forall s, P s -> P' s) -> (forall a s, Q' a s -> Q a s) -> triple P m Q E.
Proof. intros Hm HP HQ s Hs. specialize (Hm s (HP s Hs)). destruct (m s) as [[a|] s1]; auto. Qed.

Lemma triple_try {A} (m h : st S A) P (Q : A -> S -> Prop) E E' :
  triple P m Q E -> triple E h Q E' -> triple P (st_try m h) Q E'.
Proof.
  intros Hm Hh s Hs. specialize (Hm s Hs). unfold st_try. destruct (m s) as [[a|] s1]; [done|by apply Hh].
Qed.

(** What [m] does to the state, whatever its value. *)
Lemma triple_moves {A} (R : relation S) (m : st S A) (P P' : S -> Prop) (E : S -> Prop) :
  moves R m -> (forall s s', P s -> R s s' -> P' s') -> (forall s, P' s -> E s) -> triple P m (fun _ => P') E.
Proof.
  intros Hm HP HE s Hs. specialize (Hm s). destruct (m s) as [[a|] s1]; cbn [snd] in Hm; eauto.
Qed.

(** The part of the precondition that is not about the state. *)
Lemma triple_pure {A} (m : st S A) (X : Prop) (P : S -> Prop) (Q : A -> S -> Prop) E :
  (X -> triple P m Q E) -> triple (fun s => X /\ P s) m Q E.
Proof. intros Hm s [HX Hs]. by apply Hm. Qed.
End Triples.

(** ** Budgets *)

(** [m] adds at most [n] to what is counted. *)
Section Budget.
Context {S : Type} (count : S -> nat).

Definition at_most {A} (n : nat) (m : st S A) : Prop := forall s, (count (m s).2 <= n + count s)%nat.

Lemma quiet_at_most {A} n (m : st S A) : moves (same count) m -> at_most n m.
Proof. intros Hm s. rewrite (Hm s). lia. Qed.

Lemma at_most_bind {A B} n (m : st S A) (k : A -> st S B) :
  moves (same count) m -> (forall x, at_most n (k x)) -> at_most n (m ≫= k).
Proof.
  intros Hm Hk s. rewrite bind_unfold. specialize (Hm s). unfold same in Hm.
  destruct (m s) as [[x|] s1]; cbn [snd] in *; [specialize (Hk x s1)|]; lia.
Qed.

Lemma at_most_step {A B} n (m : st S A) (k : A -> st S B) :
  at_most n m -> (forall x, moves (same count) (k x)) -> at_most n (m ≫= k).
Proof.
  intros Hm Hk s. rewrite bind_unfold. specialize (Hm s). destruct (m s) as [[x|] s1]; cbn [snd] in *; [|exact Hm].
  rewrite (Hk x s1). exact Hm.
Qed.
End Budget.

Create HintDb budget discriminated.

(** Walk through a computation with a budget; [quiet] proves that a part spends nothing. *)
Ltac spend quiet :=
  cbv zeta;
  repeat first
    [ solve [apply quiet_at_most; quiet]
    | solve [auto with budget nocore]
    | match goal with |- at_most _ _ (mbind _ _) => apply at_most_bind; [solve [quiet]|intros ?] end
    | match goal with |- at_most _ _ (mbind _ _) => apply at_most_step; [|intros ?; solve [quiet]] end
    | match goal with |- at_most _ _ (if ?b then _ else _) => destruct b eqn:? end
    | match goal with |- at_most _ _ (match ?b with _ => _ end) => destruct b eqn:? end
    | progress cbv zeta ].

Abbreviation preserves obs := (moves (same obs)).

Create HintDb frame discriminated.
#[export] Hint Resolve moves_ret moves_py moves_raise moves_get : frame.

#[export] Hint Resolve same_preorder stays_preorder : frame.

(** Take a run apart: one bind or return at a time. *)
Ltac run H :=
  repeat match type of H with
         | (mret _) _ = (Some _, _) => apply ret_inv in H as [? ?]; subst
         | (_ ≫= _) _ = (Some _, _) =>
             let a := fresh "a" in let s := fresh "s" in let E := fresh "E" in
             apply bind_inv in H as (a & s & E & H)
         end.

(** Walk through the binds and tests of a computation. *)
Ltac frame :=
  cbv zeta;
  repeat first
    [ solve [auto with frame nocore]
    | match goal with |- moves ?R (mbind _ _) => apply (moves_bind R); [|intros ?] end
    | match goal with |- moves ?R (st_try _ _) => apply (moves_try R) end
    | match goal with |- moves _ (if ?b then _ else _) => destruct b eqn:? end
    | match goal with |- moves _ (match ?b with _ => _ end) => destruct b eqn:? end
    | progress cbv zeta ].
