(* ===== verification/PyTime.v ===== *)
(** * The part of [datetime] the services use

    An aware datetime: its instant in microseconds since 1970-01-01 UTC and
    its offset in seconds.  [isoformat] prints it, comparison and
    subtraction are on instants, [+ timedelta(seconds=n)] raises outside the
    years 1 to 9999. *)
From stdpp Require Import base list strings pretty.
From Stdlib Require Import ZArith Lia Ascii.
From S2P Require Import Prelude PyStr.

Open Scope string_scope.
Open Scope Z_scope.
Open Scope list_scope.

Record datetime := Datetime { dt_us : Z; dt_off : Z }.

#[export] Instance datetime_eq_dec : EqDecision datetime.
Proof. solve_decision. Defined.

(** ** The calendar *)

(** Year, month and day of a day number (0 is 1970-01-01). *)
Definition civil_from_days (days : Z) : Z * Z * Z :=
  let z := days + 719468 in
  let era := z / 146097 in
  let doe := z - era * 146097 in
  let yoe := (doe - doe / 1460 + doe / 36524 - doe / 146096) / 365 in
  let doy := doe - (365 * yoe + yoe / 4 - yoe / 100) in
  let mp := (5 * doy + 2) / 153 in
  let d := doy - (153 * mp + 2) / 5 + 1 in
  let m := if mp <? 10 then mp + 3 else mp - 9 in
  let y := yoe + era * 400 + (if m <=? 2 then 1 else 0) in
  (y, m, d).

Definition days_from_civil (y0 m d : Z) : Z :=
  let y := if m <=? 2 then y0 - 1 else y0 in
  let era := y / 400 in
  let yoe := y - era * 400 in
  let mp := (m + 9) mod 12 in
  let doy := (153 * mp + 2) / 5 + d - 1 in
  let doe := yoe * 365 + yoe / 4 - yoe / 100 + doy in
  era * 146097 + doe - 719468.

(** ** Printing *)

(** A number of [w] digits with leading zeros. *)
Fixpoint zero_pad (w : nat) (n : Z) : string :=
  match w with
  | O => ""
  | S w' => zero_pad w' (n / 10) +:+ String (ascii_of_N (Z.to_N (48 + n mod 10))) ""
  end.

Definition two (n : Z) : string := zero_pad 2 n.

Definition us_per_day : Z := 86400000000.

(** [dt.isoformat()]. *)
Definition isoformat (dt : datetime) : string :=
  let local := dt_us dt + dt_off dt * 1000000 in
  let '(y, m, d) := civil_from_days (local / us_per_day) in
  let us := local mod us_per_day in
  let s := us / 1000000 in
  let frac := us mod 1000000 in
  let a := Z.abs (dt_off dt) in
  zero_pad 4 y +:+ "-" +:+ two m +:+ "-" +:+ two d +:+ "T" +:+
  two (s / 3600) +:+ ":" +:+ two (s / 60 mod 60) +:+ ":" +:+ two (s mod 60) +:+
  (if frac =? 0 then "" else "." +:+ zero_pad 6 frac) +:+
  (if dt_off dt <? 0 then "-" else "+") +:+ two (a / 3600) +:+ ":" +:+ two (a / 60 mod 60) +:+
  (if a mod 60 =? 0 then "" else ":" +:+ two (a mod 60)).

Example isoformat_epoch : isoformat (Datetime 0 0) = "1970-01-01T00:00:00+00:00".
Proof. reflexivity. Qed.

Example isoformat_sample : isoformat (Datetime 1709251199000042 (-19800)) = "2024-02-29T18:29:59.000042-05:30".
Proof. reflexivity. Qed.

(** ** Arithmetic *)

(** [int((a - b).total_seconds())]: towards zero. *)
Definition seconds_between (a b : datetime) : Z := Z.quot (dt_us a - dt_us b) 1000000.

(** [max(0, int((a - b).total_seconds()))]. *)
Definition age_of (a b : datetime) : Z := Z.max 0 (seconds_between a b).

Definition dt_ltb (a b : datetime) : bool := dt_us a <? dt_us b.

Definition year_of (us : Z) : Z := (civil_from_days (us / us_per_day)).1.1.

(** [dt + timedelta(seconds=n)]; [None] is OverflowError. *)
Definition dt_add_seconds (dt : datetime) (n : Z) : py datetime :=
  let us := dt_us dt + n * 1000000 in
  let y := year_of (us + dt_off dt * 1000000) in
  if (1 <=? y) && (y <=? 9999) then Some (Datetime us (dt_off dt)) else None.

(** ** Parsing

    [datetime.fromisoformat] on the extended format with dashes and colons:
    a date, and after one separator character hours with optional minutes,
    seconds and fraction, and an offset.  [None] is ValueError.  The basic
    format without separators and week dates are not modelled (they are
    [None] here); neither the services nor SQLite write them. *)

(** [n] digits and the rest. *)
Fixpoint take_digits (n : nat) (acc : Z) (s : string) : option (Z * string) :=
  match n with
  | O => Some (acc, s)
  | S n' =>
      match s with
      | String c s' => if is_digit c then take_digits n' (10 * acc + digit_val c) s' else None
      | "" => None
      end
  end.

Definition take_char (c : ascii) (s : string) : option string :=
  match s with String d s' => if Ascii.eqb c d then Some s' else None | "" => None end.

Fixpoint digit_run (s : string) : string * string :=
  match s with
  | String c s' => if is_digit c then let '(a, b) := digit_run s' in (String c a, b) else ("", s)
  | "" => ("", "")
  end.

(** Microseconds of a fraction: six digits, more are cut off. *)
Definition fraction_us (digits : string) : Z :=
  let n := Nat.min 6 (String.length digits) in
  match take_digits n 0 digits with
  | Some (v, _) => v * 10 ^ (6 - Z.of_nat n)
  | None => 0
  end.

(** [HH[:MM[:SS[.f]]]]: microseconds and the rest. *)
Definition take_time (s : string) : option (Z * Z * Z * Z * string) :=
  '(h, s) ← take_digits 2 0 s;
  match take_char ":"%char s with
  | None => Some (h, 0, 0, 0, s)
  | Some s =>
      '(m, s) ← take_digits 2 0 s;
      match take_char ":"%char s with
      | None => Some (h, m, 0, 0, s)
      | Some s =>
          '(sec, s) ← take_digits 2 0 s;
          match (match take_char "."%char s with Some s => Some s | None => take_char ","%char s end) with
          | None => Some (h, m, sec, 0, s)
          | Some s =>
              let '(digits, s) := digit_run s in
              if String.eqb digits "" then None else Some (h, m, sec, fraction_us digits, s)
          end
      end
  end.

Definition days_in_month (y m : Z) : Z :=
  if (m =? 4) || (m =? 6) || (m =? 9) || (m =? 11) then 30
  else if m =? 2 then
    if (y mod 4 =? 0) && negb (y mod 100 =? 0) || (y mod 400 =? 0) then 29 else 28
  else 31.

(** The offset: nothing (a naive time), [Z], or a signed time below 24 hours. *)
Definition take_offset (s : string) : option (option Z) :=
  if String.eqb s "" then Some None
  else if String.eqb s "Z" then Some (Some 0)
  else
    match s with
    | String c s' =>
        let sign := if Ascii.eqb c "+"%char then Some 1 else if Ascii.eqb c "-"%char then Some (-1) else None in
        sign ← sign;
        '(h, m, sec, us, rest) ← take_time s';
        if String.eqb rest "" && (us =? 0) && (h <? 24) && (m <? 60) && (sec <? 60)
        then Some (Some (sign * (h * 3600 + m * 60 + sec))) else None
    | "" => None
    end.

(** Local microseconds since 1970, and the offset if there is one. *)
Definition fromisoformat (s : string) : option (Z * option Z) :=
  '(y, s) ← take_digits 4 0 s; s ← take_char "-"%char s;
  '(mo, s) ← take_digits 2 0 s; s ← take_char "-"%char s;
  '(d, s) ← take_digits 2 0 s;
  if negb ((1 <=? y) && (1 <=? mo) && (mo <=? 12) && (1 <=? d) && (d <=? days_in_month y mo)) then None
  else
    let day_us := days_from_civil y mo d * us_per_day in
    match s with
    | "" => Some (day_us, None)
    | String _ s' =>
        '(h, m, sec, us, rest) ← take_time s';
        off ← take_offset rest;
        if (h <? 24) && (m <? 60) && (sec <? 60)
        then Some (day_us + (h * 3600 + m * 60 + sec) * 1000000 + us, off) else None
    end.

(** [s.replace("Z", "+00:00")]. *)
Fixpoint replace_zulu (s : string) : string :=
  match s with
  | "" => ""
  | String c s' => if Ascii.eqb c "Z"%char then "+00:00" +:+ replace_zulu s' else String c (replace_zulu s')
  end.

(** [_parse_timestamp] of the watchdog modules: a naive time is UTC. *)
Definition _parse_timestamp (value : option string) : option datetime :=
  match value with
  | None => None
  | Some s =>
      if String.eqb s "" then None
      else
        '(local, off) ← fromisoformat (replace_zulu s);
        let off := default 0 off in
        Some (Datetime (local - off * 1000000) off)
  end.

Example parse_sqlite : _parse_timestamp (Some "2024-02-29 23:59:59") = Some (Datetime 1709251199000000 0).
Proof. reflexivity. Qed.

Example parse_zulu : _parse_timestamp (Some "2024-02-29T23:59:59.5Z") = Some (Datetime 1709251199500000 0).
Proof. reflexivity. Qed.

Example parse_iso : _parse_timestamp (Some (isoformat (Datetime 1709251199000042 (-19800)))) =
  Some (Datetime 1709251199000042 (-19800)).
Proof. reflexivity. Qed.

Example parse_bad : _parse_timestamp (Some "2023-02-29") = None.
Proof. reflexivity. Qed.

Lemma age_nonneg a b : 0 <= age_of a b.
Proof. unfold age_of. lia. Qed.

Lemma age_lt a b n : 0 < n -> age_of a b < n <-> dt_us a - dt_us b < n * 1000000.
Proof.
  intros Hn. unfold age_of, seconds_between. set (u := dt_us a - dt_us b).
  pose proof (Z.quot_rem' u 1000000) as E. set (q := Z.quot u 1000000) in *. set (r := Z.rem u 1000000) in *.
  destruct (Z.le_gt_cases 0 u) as [Hu|Hu].
  - pose proof (Z.rem_bound_pos u 1000000 Hu ltac:(lia)) as Hb. fold r in Hb. lia.
  - pose proof (Z.rem_bound_pos (- u) 1000000 ltac:(lia) ltac:(lia)) as Hb. rewrite Z.rem_opp_l' in Hb. fold r in Hb. lia.
Qed.

Lemma dt_add_seconds_us d n u : dt_add_seconds d n = Some u -> dt_us u = dt_us d + n * 1000000.
Proof. unfold dt_add_seconds. destruct (_ && _); [|done]. by intros [= <-]. Qed.

(** ** Printing and parsing

    What [isoformat] prints of a UTC time of the years 1 to 9999,
    [fromisoformat] reads back. *)

(** The year of a day in the cycle of 400 years, which has 146097 days. *)
Definition cycle_year (doe : Z) : Z := (doe - doe / 1460 + doe / 36524 - doe / 146096) / 365.

(** The first day of the cycle's year [y], which starts in March. *)
Definition year_start (y : Z) : Z := if y =? 400 then 146097 else 365 * y + y / 4 - y / 100.

Fixpoint all_below (n : nat) (p : Z -> bool) (from : Z) : bool :=
  match n with O => true | S n' => p from && all_below n' p (from + 1) end.

Lemma all_below_spec n p : forall from, all_below n p from = true -> forall k, from <= k < from + Z.of_nat n -> p k = true.
Proof.
  induction n as [|n IH]; intros from Ha k Hk; [lia|]. cbn in Ha. apply andb_prop in Ha as [Hp Ha].
  destruct (decide (k = from)) as [->|]; [done|]. apply (IH _ Ha). lia.
Qed.

(** A year's first and last day are in it, and it has a 29 February when it is long. *)
Definition year_ok (y : Z) : bool :=
  (cycle_year (year_start y) =? y) && (cycle_year (year_start (y + 1) - 1) =? y)
  && (year_start (y + 1) - year_start y =? if days_in_month (y + 1) 2 =? 29 then 366 else 365).

Lemma years_ok y : 0 <= y < 400 -> year_ok y = true.
Proof. intros Hy. apply (all_below_spec 400 _ 0); [by vm_compute|lia]. Qed.

Lemma cycle_year_mono a : forall n : nat, 0 <= a -> cycle_year a <= cycle_year (a + Z.of_nat n).
Proof.
  induction n as [|n IH]; intros Ha; [by rewrite Z.add_0_r|]. etrans; [by apply IH|].
  rewrite Nat2Z.inj_succ, <- Z.add_1_r, Z.add_assoc. set (b := a + Z.of_nat n). assert (Hb : 0 <= b) by lia.
  unfold cycle_year. apply Z.div_le_mono; [done|]. clearbody b. clear IH Ha n a. Z.to_euclidean_division_equations. lia.
Qed.

Lemma year_of_day doe : 0 <= doe < 146097 ->
  let y := cycle_year doe in 0 <= y < 400 /\ year_start y <= doe < year_start (y + 1).
Proof.
  intros Hd y.
  assert (Hm : forall a b, 0 <= a -> a <= b -> cycle_year a <= cycle_year b).
  { intros a b Ha Hab. replace b with (a + Z.of_nat (Z.to_nat (b - a))) by lia. by apply cycle_year_mono. }
  assert (Hy : 0 <= y < 400).
  { pose proof (Hm 0 doe ltac:(done) ltac:(lia)). pose proof (Hm doe 146096 ltac:(lia) ltac:(lia)).
    change (cycle_year 0) with 0 in *. change (cycle_year 146096) with 399 in *. subst y. lia. }
  split; [done|].
  pose proof (years_ok y Hy) as Hok. unfold year_ok in Hok. rewrite !andb_true_iff, !Z.eqb_eq in Hok. destruct Hok as [[Hs He] _].
  split; apply Z.nlt_ge || apply Z.nle_gt; intros Hc.
  - assert (1 <= y). { destruct (decide (y = 0)) as [E|]; [|lia]. rewrite E in Hc. change (year_start 0) with 0 in Hc. lia. }
    pose proof (years_ok (y - 1) ltac:(lia)) as Hp. unfold year_ok in Hp. rewrite !andb_true_iff, !Z.eqb_eq in Hp.
    destruct Hp as [[_ Hp] _]. replace (y - 1 + 1) with y in Hp by lia.
    pose proof (Hm doe (year_start y - 1) ltac:(lia) ltac:(lia)). subst y. lia.
  - destruct (decide (y = 399)) as [E|]; [rewrite E in Hc; change (year_start (399 + 1)) with 146097 in Hc; lia|].
    pose proof (years_ok (y + 1) ltac:(lia)) as Hp. unfold year_ok in Hp. rewrite !andb_true_iff, !Z.eqb_eq in Hp.
    destruct Hp as [[Hp _] _].
    assert (0 <= year_start (y + 1)). { unfold year_start. destruct (_ =? _); [lia|]. Z.to_euclidean_division_equations. lia. }
    pose proof (Hm _ doe ltac:(eassumption) Hc). subst y. lia.
Qed.

(** A day of a year that starts in March, as its month and its day. *)
Definition month_of_day (doy : Z) : Z * Z :=
  let mp := (5 * doy + 2) / 153 in (if mp <? 10 then mp + 3 else mp - 9, doy - (153 * mp + 2) / 5 + 1).

Definition day_ok (doy : Z) : bool :=
  let '(m, d) := month_of_day doy in
  (1 <=? m) && (m <=? 12) && (1 <=? d) && ((153 * ((m + 9) mod 12) + 2) / 5 + d - 1 =? doy)
  && (if m =? 2 then d =? doy - 336 else d <=? days_in_month 0 m).

Lemma days_ok doy : 0 <= doy < 366 -> day_ok doy = true.
Proof. intros Hd. apply (all_below_spec 366 _ 0); [by vm_compute|lia]. Qed.

Definition cycle_day (doe : Z) : Z * Z * Z :=
  let yoe := cycle_year doe in
  let '(m, d) := month_of_day (doe - (365 * yoe + yoe / 4 - yoe / 100)) in (yoe + (if m <=? 2 then 1 else 0), m, d).

Lemma civil_cycle days : civil_from_days days =
  let '(y, m, d) := cycle_day ((days + 719468) mod 146097) in (y + (days + 719468) / 146097 * 400, m, d).
Proof.
  unfold civil_from_days, cycle_day, cycle_year, month_of_day. rewrite (Z.mul_comm ((days + 719468) / 146097) 146097), <- Z.mod_eq by done.
  cbv zeta. f_equal. f_equal. lia.
Qed.

Lemma days_in_month_cycle y k m : days_in_month (y + k * 400) m = days_in_month y m.
Proof.
  unfold days_in_month. pose proof (Z.mod_add y (k * 100) 4 ltac:(done)) as H4. pose proof (Z.mod_add y (k * 4) 100 ltac:(done)) as H100.
  replace (k * 100 * 4) with (k * 400) in H4 by lia. replace (k * 4 * 100) with (k * 400) in H100 by lia.
  by rewrite H4, H100, Z.mod_add by done.
Qed.

Lemma days_from_civil_cycle y k m d : days_from_civil (y + k * 400) m d = days_from_civil y m d + k * 146097.
Proof.
  unfold days_from_civil. set (y0 := if m <=? 2 then y - 1 else y).
  replace (if m <=? 2 then y + k * 400 - 1 else y + k * 400) with (y0 + k * 400) by (subst y0; destruct (m <=? 2); lia).
  cbv zeta. rewrite Z.div_add by done.
  replace (y0 + k * 400 - (y0 / 400 + k) * 400) with (y0 - y0 / 400 * 400) by lia. lia.
Qed.

Lemma days_in_month_other y m : m <> 2 -> days_in_month y m = days_in_month 0 m.
Proof. intros Hm. unfold days_in_month. by rewrite (proj2 (Z.eqb_neq m 2) Hm). Qed.

(** Every day of the cycle is a date, and the date's day is the day. *)
Lemma cycle_day_spec doe y m d : 0 <= doe < 146097 -> cycle_day doe = (y, m, d) ->
  1 <= m <= 12 /\ 1 <= d <= days_in_month y m /\ days_from_civil y m d = doe - 719468.
Proof.
  intros Hd. destruct (year_of_day doe Hd) as [Hy Hs]. pose proof (years_ok _ Hy) as Hok. unfold cycle_day.
  set (yoe := cycle_year doe) in *. set (doy := doe - (365 * yoe + yoe / 4 - yoe / 100)).
  unfold year_ok in Hok. rewrite !andb_true_iff, !Z.eqb_eq in Hok. destruct Hok as [_ Hlen].
  assert (Hdoy : year_start yoe + doy = doe). { unfold year_start. rewrite (proj2 (Z.eqb_neq yoe 400)) by lia. unfold doy. lia. }
  assert (Hb : 0 <= doy < 366) by (destruct (_ =? 29) in Hlen; lia).
  pose proof (days_ok doy Hb) as Hday. unfold day_ok in Hday. destruct (month_of_day doy) as [m0 d0]. intros [= <- <- <-].
  rewrite !andb_true_iff, !Z.leb_le, Z.eqb_eq in Hday. destruct Hday as [[[[H1 H2] H3] H4] H5].
  split; [done|]. split.
  - split; [done|]. destruct (Z.eqb_spec m0 2) as [->|Hne].
    + apply Z.eqb_eq in H5. cbn [Z.leb Z.compare Pos.compare Pos.compare_cont]. change (2 <=? 2) with true. cbv iota.
      assert (Hf : days_in_month (yoe + 1) 2 = 29 \/ days_in_month (yoe + 1) 2 = 28) by (unfold days_in_month; cbn; destruct (_ || _); lia).
      destruct Hf as [Hf|Hf]; rewrite Hf in Hlen |- *; cbn in Hlen; lia.
    + apply Z.leb_le in H5. by rewrite days_in_month_other.
  - unfold days_from_civil. replace (if m0 <=? 2 then yoe + (if m0 <=? 2 then 1 else 0) - 1 else yoe + (if m0 <=? 2 then 1 else 0)) with yoe
      by (destruct (m0 <=? 2); lia).
    cbv zeta. rewrite (Z.div_small yoe 400), H4, Z.mul_0_l, Z.sub_0_r by lia. unfold doy. lia.
Qed.

(** A day's date exists and is that day. *)
Lemma civil_roundtrip days y m d : civil_from_days days = (y, m, d) ->
  1 <= m <= 12 /\ 1 <= d <= days_in_month y m /\ days_from_civil y m d = days.
Proof.
  rewrite civil_cycle. set (k := (days + 719468) / 146097).
  pose proof (Z.mod_pos_bound (days + 719468) 146097 ltac:(done)) as Hb.
  pose proof (Z.div_mod (days + 719468) 146097 ltac:(done)) as Hd. fold k in Hd.
  destruct (cycle_day _) as [[y0 m0] d0] eqn:E. destruct (cycle_day_spec _ _ _ _ Hb E) as (Hm & Hday & Hf). intros [= <- <- <-].
  rewrite days_in_month_cycle, days_from_civil_cycle. lia.
Qed.

Lemma days_in_month_le y m : days_in_month y m <= 31.
Proof. unfold days_in_month. repeat case_match; lia. Qed.

(** ** Digits *)

Lemma char_of_digit k : 0 <= k < 10 -> let c := ascii_of_N (Z.to_N (48 + k)) in is_digit c = true /\ digit_val c = k.
Proof.
  intros Hk. cbv zeta. assert (k = 0 \/ k = 1 \/ k = 2 \/ k = 3 \/ k = 4 \/ k = 5 \/ k = 6 \/ k = 7 \/ k = 8 \/ k = 9) as Hc by lia.
  destruct Hc as [->|[->|[->|[->|[->|[->|[->|[->|[->| ->]]]]]]]]]; by split.
Qed.

Lemma take_digits_app n m acc v v' s t : take_digits n acc s = Some (v, t) -> take_digits m v t = Some v' ->
  take_digits (n + m) acc s = Some v'.
Proof.
  revert acc s. induction n as [|n IH]; intros acc s; cbn [take_digits Nat.add].
  - by intros [= -> ->].
  - destruct s as [|c s]; [done|]. destruct (is_digit c); [|done]. apply IH.
Qed.

Lemma take_zero_pad w : forall n acc t, 0 <= n < 10 ^ Z.of_nat w ->
  take_digits w acc (zero_pad w n +:+ t) = Some (acc * 10 ^ Z.of_nat w + n, t).
Proof.
  induction w as [|w IH]; intros n acc t Hn; cbn [zero_pad].
  - cbn in *. do 2 f_equal. lia.
  - rewrite Nat2Z.inj_succ, Z.pow_succ_r in Hn |- * by lia. rewrite string_app_assoc.
    pose proof (Z.mod_pos_bound n 10 ltac:(done)) as Hm. pose proof (Z.div_mod n 10 ltac:(done)) as Hd.
    destruct (char_of_digit (n mod 10) Hm) as [Hc Hv].
    rewrite <- Nat.add_1_r. eapply take_digits_app; [apply IH; lia|].
    cbn [take_digits String.append]. rewrite string_app_cons. cbn [take_digits]. rewrite Hc, Hv. do 2 f_equal. lia.
Qed.

Lemma zero_pad_digits w : forall n, all_chars is_digit (zero_pad w n) = true.
Proof.
  induction w as [|w IH]; intros n; cbn [zero_pad]; [done|]. rewrite all_chars_app, IH. cbn [all_chars].
  pose proof (Z.mod_pos_bound n 10 ltac:(done)) as Hm. by destruct (char_of_digit (n mod 10) Hm) as [-> _].
Qed.

(** ** Times *)

#[local] Arguments two : simpl never.
#[local] Arguments zero_pad : simpl never.
#[local] Arguments take_digits : simpl never.

Lemma char_app c t : String c "" +:+ t = String c t.
Proof. done. Qed.

Lemma nil_app t : "" +:+ t = t.
Proof. done. Qed.

Lemma take_two n t : 0 <= n < 100 -> take_digits 2 0 (two n +:+ t) = Some (n, t).
Proof. intros Hn. unfold two. by rewrite (take_zero_pad 2 n 0 t Hn). Qed.

Lemma digit_run_app w t : all_chars is_digit w = true -> match t with "" => True | String c _ => is_digit c = false end ->
  digit_run (w +:+ t) = (w, t).
Proof.
  intros Hw Ht. induction w as [|c w IH].
  - change ("" +:+ t) with t. destruct t as [|c t]; [done|]. cbn [digit_run]. by rewrite Ht.
  - cbn [all_chars] in Hw. apply andb_prop in Hw as [Hc Hw]. rewrite string_app_cons. cbn [digit_run]. by rewrite Hc, IH.
Qed.

Lemma fraction_padded f : 0 <= f < 1000000 -> fraction_us (zero_pad 6 f) = f.
Proof.
  intros Hf. unfold fraction_us. change (String.length (zero_pad 6 f)) with 6%nat. cbv zeta.
  change (Nat.min 6 6) with 6%nat. rewrite <- (string_app_nil_r (zero_pad 6 f)), (take_zero_pad 6 f 0 "" Hf). cbn. lia.
Qed.

(** What follows a printed time: nothing that belongs to it. *)
Definition ends_time (t : string) : Prop :=
  match t with "" => True | String c _ => is_digit c = false /\ Ascii.eqb ":" c = false /\ Ascii.eqb "." c = false /\ Ascii.eqb "," c = false end.

Definition fraction_text (f : Z) : string := if f =? 0 then "" else "." +:+ zero_pad 6 f.

Lemma take_time_printed h m s f t : 0 <= h < 100 -> 0 <= m < 100 -> 0 <= s < 100 -> 0 <= f < 1000000 -> ends_time t ->
  take_time (two h +:+ ":" +:+ two m +:+ ":" +:+ two s +:+ fraction_text f +:+ t) = Some (h, m, s, f, t).
Proof.
  intros Hh Hm Hs Hf Ht. unfold take_time. rewrite take_two by done. cbn. rewrite char_app. cbn. rewrite take_two by done. cbn.
  rewrite char_app. cbn. rewrite take_two by done. cbn. unfold fraction_text. destruct (Z.eqb_spec f 0) as [->|Hne].
  - rewrite nil_app. destruct t as [|c t]; [done|]. destruct Ht as (_ & _ & Hdot & Hcomma).
    unfold take_char. by rewrite Hdot, Hcomma.
  - rewrite string_app_assoc, char_app. cbn. rewrite digit_run_app; [|apply zero_pad_digits|destruct t; [done|apply Ht]].
    change (String.eqb (zero_pad 6 f) "") with false. cbv iota. by rewrite fraction_padded.
Qed.

Lemma take_time_short h m t : 0 <= h < 100 -> 0 <= m < 100 -> ends_time t ->
  take_time (two h +:+ ":" +:+ two m +:+ t) = Some (h, m, 0, 0, t).
Proof.
  intros Hh Hm Ht. unfold take_time. rewrite take_two by done. cbn. rewrite char_app. cbn. rewrite take_two by done. cbn.
  destruct t as [|c t]; [done|]. unfold take_char. by destruct Ht as (_ & -> & _).
Qed.

(** ** The offset *)

Definition offset_text (off : Z) : string :=
  (if off <? 0 then "-" else "+") +:+ two (Z.abs off / 3600) +:+ ":" +:+ two (Z.abs off / 60 mod 60) +:+
  (if Z.abs off mod 60 =? 0 then "" else ":" +:+ two (Z.abs off mod 60)).

Lemma clock_parts a : 0 <= a < 86400 -> 0 <= a / 3600 < 24 /\ 0 <= a / 60 mod 60 < 60 /\ 0 <= a mod 60 < 60 /\
  a / 3600 * 3600 + a / 60 mod 60 * 60 + a mod 60 = a.
Proof. intros Ha. Z.to_euclidean_division_equations. lia. Qed.

Lemma take_offset_printed off : -86400 < off < 86400 -> take_offset (offset_text off) = Some (Some off).
Proof.
  intros Ho. unfold offset_text. pose proof (clock_parts (Z.abs off) ltac:(lia)) as (Hh & Hm & Hs & Hsum).
  set (h := Z.abs off / 3600) in *. set (m := Z.abs off / 60 mod 60) in *. set (s := Z.abs off mod 60) in *.
  assert (Ht : take_time (two h +:+ ":" +:+ two m +:+ (if s =? 0 then "" else ":" +:+ two s)) = Some (h, m, s, 0, "")).
  { destruct (Z.eqb_spec s 0) as [->|Hne].
    - apply take_time_short; lia || done.
    - pose proof (take_time_printed h m s 0 "" ltac:(lia) ltac:(lia) ltac:(lia) ltac:(lia) I) as Hp.
      change (fraction_text 0) with "" in Hp. change ("" +:+ "") with "" in Hp. by rewrite string_app_nil_r in Hp. }
  assert (Hb : (h <? 24) && (m <? 60) && (s <? 60) = true) by (rewrite !andb_true_iff, !Z.ltb_lt; lia).
  rewrite !andb_true_iff in Hb. destruct Hb as [[H1 H2] H3].
  unfold take_offset. destruct (Z.ltb_spec off 0) as [Hneg|Hpos]; rewrite char_app; cbn; rewrite Ht; cbn; rewrite H1, H2, H3; cbn; do 2 f_equal; lia.
Qed.

Lemma offset_ends off : ends_time (offset_text off).
Proof. unfold offset_text. by destruct (off <? 0). Qed.

(** ** Dates *)

(** A datetime object: its local year is in range, and so is its offset. *)
Definition representable (dt : datetime) : Prop :=
  1 <= year_of (dt_us dt + dt_off dt * 1000000) <= 9999 /\ -86400 < dt_off dt < 86400.

Lemma isoformat_parts dt : let local := dt_us dt + dt_off dt * 1000000 in let us := local mod us_per_day in
  isoformat dt =
  let '(y, m, d) := civil_from_days (local / us_per_day) in
  zero_pad 4 y +:+ "-" +:+ two m +:+ "-" +:+ two d +:+ String "T"
    (two (us / 1000000 / 3600) +:+ ":" +:+ two (us / 1000000 / 60 mod 60) +:+ ":" +:+ two (us / 1000000 mod 60) +:+
     fraction_text (us mod 1000000) +:+ offset_text (dt_off dt)).
Proof. unfold isoformat, fraction_text, offset_text. by destruct (civil_from_days _) as [[y m] d]. Qed.

Lemma fromisoformat_isoformat dt : representable dt ->
  fromisoformat (isoformat dt) = Some (dt_us dt + dt_off dt * 1000000, Some (dt_off dt)).
Proof.
  intros [Hyear Hoff]. rewrite isoformat_parts. cbv zeta. set (local := dt_us dt + dt_off dt * 1000000) in *.
  unfold year_of in Hyear. destruct (civil_from_days (local / us_per_day)) as [[y m] d] eqn:Ec. cbn in Hyear.
  destruct (civil_roundtrip _ _ _ _ Ec) as (Hm & Hd & Hdays). pose proof (days_in_month_le y m) as Hle.
  unfold fromisoformat. rewrite (take_zero_pad 4 y 0), Z.mul_0_l, Z.add_0_l by (cbn; lia). cbn. rewrite char_app. cbn. rewrite take_two by lia.
  cbn. rewrite char_app. cbn. rewrite take_two by lia. cbn.
  replace (_ && _) with true by (symmetry; rewrite !andb_true_iff, !Z.leb_le; lia). cbn [negb].
  pose proof (Z.mod_pos_bound local us_per_day ltac:(done)) as Hmod. set (us := local mod us_per_day) in *.
  assert (Hs : 0 <= us / 1000000 < 86400) by (unfold us_per_day in Hmod; split; [apply Z.div_pos|apply Z.div_lt_upper_bound]; lia).
  pose proof (clock_parts _ Hs) as (H1 & H2 & H3 & Hsum).
  rewrite take_time_printed; [|lia..|by apply Z.mod_pos_bound|apply offset_ends]. cbn.
  rewrite take_offset_printed by done. cbn.
  replace (_ && _) with true by (symmetry; rewrite !andb_true_iff, !Z.ltb_lt; lia). rewrite Hdays. do 2 f_equal.
  pose proof (Z.div_mod local us_per_day ltac:(done)) as Hl. fold us in Hl. pose proof (Z.div_mod us 1000000 ltac:(done)) as Hu. lia.
Qed.
