(* ===== verification/AutoPool.v ===== *)
(** * The pool of automatic candidates

    [services/auto_eligibility.py]: which servers the automatic selection may
    take.  The conditions are SQL over the inventory tables of db/schema.sql;
    [server_is_in_exclusive_pool] is the same question asked server by server.

    A table is the list of its rows.  Columns with JSON text hold the value
    ([VNone] for NULL): the code writes only texts of json.dumps there.  The
    settings table is read through json.loads as well, so that its cells may
    hold a text that is not JSON. *)
From stdpp Require Import base list strings gmap.
From Stdlib Require Import ZArith Lia Ascii.
From S2P Require Import Prelude PyStr PyVal.

Open Scope string_scope.
Open Scope Z_scope.
Open Scope list_scope.

Definition VPN_AUTO_EXCLUSIVE_SETTING_KEY : string := "vpn_auto_exclusive_source_ref".

(** ** Tables *)

Record server_row := ServerRow {
  s_id : string;
  s_name : string;
  s_provider : option string;
  s_raw : pyval;
  s_state : string;
}.

Record preference_row := PreferenceRow {
  p_server : string;
  p_vpn_auto : Z;
  p_priority : Z;
  p_global : Z;
  p_deleted : option string;
}.

Record ping_row := PingRow {
  g_server : string;
  g_status : string;
  g_last_ping_ms : option Z;
  g_checked_at : option string;
  g_checked_by : option string;
  g_error_code : option string;
  g_error_message : option string;
  g_metadata : pyval;
}.

(** [subscription_server_memberships], [logical_server_members], [provider_bindings]. *)
Record membership_row := MembershipRow { m_source : string; m_server : string; m_active : bool }.

Record member_row := MemberRow {
  l_logical : string;
  l_member : string;
  l_runtime_name : string;
  l_order : Z;
  l_active : bool;
}.

Record binding_row := BindingRow {
  b_source : string;
  b_logical : string;
  b_enabled : bool;
  b_provider : string;
  b_resource : string;
  b_protocol : string;
}.

(** [provider_members], the columns that decide eligibility. *)
Record provider_member_row := ProviderMemberRow {
  n_source : string;
  n_member : string;
  n_location : string;
  n_protocol : string;
  n_status : string;
  n_status_source : string;
  n_auto_enabled : Z;
  n_priority : Z;
  n_advertised : Z;
}.

Record pool_db := PoolDb {
  t_servers : list server_row;
  t_preferences : list preference_row;
  t_pings : list ping_row;
  t_memberships : list membership_row;
  t_members : list member_row;
  t_bindings : list binding_row;
  t_provider_members : list provider_member_row;
  (** [server_custom_https_proxy.server_id]. *)
  t_custom : list string;
  t_settings : gmap string cell;
}.

(** ** SQLite *)

(** What [json_extract] makes of a value: booleans are numbers, containers
    their text without blanks. *)
Fixpoint json_compact (v : pyval) : string :=
  match v with
  | VNone => "null"
  | VBool b => if b then "true" else "false"
  | VInt n => py_str_int n
  | VStr s => json_string s
  | VList l => "[" +:+ py_join "," (map json_compact l) +:+ "]"
  | VDict d => "{" +:+ py_join "," (map (fun kv => json_string kv.1 +:+ ":" +:+ json_compact kv.2) d) +:+ "}"
  end.

Definition sql_value (v : pyval) : pyval :=
  match v with
  | VBool b => VInt (Z.b2z b)
  | VList _ | VDict _ => VStr (json_compact v)
  | _ => v
  end.

(** [json_extract(v, '$.key')]. *)
Definition json_extract (key : string) (v : pyval) : pyval :=
  match v with VDict d => sql_value (dget key d) | _ => VNone end.

(** [CAST(v AS TEXT)]; [None] is NULL. *)
Definition sql_text (v : pyval) : option string :=
  match v with
  | VNone => None
  | VInt n => Some (py_str_int n)
  | VStr s => Some s
  | VBool _ | VList _ | VDict _ => Some (json_compact v)
  end.

(** [column = v] of a TEXT column: NULL equals nothing. *)
Definition sql_eq (column : string) (v : pyval) : bool := bool_decide (sql_text v = Some column).

(** [TRIM(s)]: blanks only. *)
Definition sql_trim (s : string) : string := py_rstrip_char " "%char (py_lstrip_char " "%char s).

(** [COALESCE(x, y, ...)]. *)
Definition coalesce (vs : list pyval) : pyval :=
  default VNone (head (List.filter (fun v => match v with VNone => false | _ => true end) vs)).

(** ** Eligibility of a candidate *)

Definition auto_priority (value : pyval) : Z :=
  default 0 (py_int (por value (VInt 0))).

Definition is_auto_eligible `{ReprContainer} (vpn_auto vpn_auto_priority inventory_state manually_deleted_at : pyval)
    (provider_managed_legacy provider_internal_member : bool) : bool :=
  negb provider_managed_legacy
  && negb provider_internal_member
  && truthy vpn_auto
  && (0 <=? auto_priority vpn_auto_priority)
  && String.eqb (py_strip (py_str (por inventory_state (VStr "")))) "active"
  && String.eqb (py_strip (py_str (por manually_deleted_at (VStr "")))) "".

Section Sql.
Context (db : pool_db).

Definition preferences_of (s : server_row) : option preference_row :=
  find (fun p => String.eqb (p_server p) (s_id s)) (t_preferences db).

Definition runtime_name_of (s : server_row) : pyval := json_extract "_fwrouter_runtime_name" (s_raw s).

(** [member_id = s.server_id OR member_runtime_name = s.server_name OR ... = runtime_name]. *)
Definition names_member (s : server_row) (l : member_row) : bool :=
  String.eqb (l_member l) (s_id s) || String.eqb (l_runtime_name l) (s_name s)
  || sql_eq (l_runtime_name l) (runtime_name_of s).

(** The source and whether it is active: direct, then inherited.  The rows
    of the UNION only ever stand under EXISTS. *)
Definition source_memberships_sql (s : server_row) : list membership_row :=
  List.filter (fun m => String.eqb (m_server m) (s_id s)) (t_memberships db)
  ++ flat_map (fun owned => List.filter (fun m => String.eqb (m_server m) (l_logical owned)) (t_memberships db))
       (List.filter (names_member s) (t_members db)).

Definition bound (source : string) : bool :=
  existsb (fun b => String.eqb (b_source b) source && b_enabled b) (t_bindings db).

Definition provider_internal_member_sql (s : server_row) : bool :=
  existsb (fun lm =>
    existsb (fun pb => String.eqb (b_logical pb) (l_logical lm) && b_enabled pb
                       && negb (String.eqb (s_id s) (b_logical pb)) && names_member s lm) (t_bindings db))
    (t_members db).

Definition provider_managed_legacy_sql (s : server_row) : bool :=
  existsb (fun pm =>
    existsb (fun pb => String.eqb (b_source pb) (m_source pm) && b_enabled pb
                       && negb (String.eqb (b_logical pb) (s_id s))) (t_bindings db))
    (source_memberships_sql s)
  && negb (existsb (fun om => m_active om && negb (bound (m_source om))) (source_memberships_sql s))
  && negb (bool_decide (s_id s ∈ t_custom db))
  && negb (existsb (fun root => b_enabled root && String.eqb (b_logical root) (s_id s)) (t_bindings db))
  && negb (provider_internal_member_sql s).

(** [SELECT CASE WHEN json_valid(value_json) THEN json_extract(...) ELSE NULL END]:
    no row, or one with one value. *)
Definition exclusive_source_ref_sql : option pyval :=
  match t_settings db !! VPN_AUTO_EXCLUSIVE_SETTING_KEY with
  | None => None
  | Some (CJson v) => Some (json_extract "source_ref" v)
  | Some _ => Some VNone
  end.

(** The same as a scalar: no row is NULL. *)
Definition exclusive_source_ref : pyval := default VNone exclusive_source_ref_sql.

Definition exclusive_pool_sql (s : server_row) : bool :=
  match sql_text exclusive_source_ref with
  | None => true
  | Some ref =>
      String.eqb (sql_trim ref) ""
      || (bound ref
          && existsb (fun b => String.eqb (b_source b) ref && b_enabled b && String.eqb (b_logical b) (s_id s)) (t_bindings db))
      || (negb (bound ref)
          && existsb (fun m => String.eqb (m_source m) ref && m_active m) (source_memberships_sql s))
  end.

(** The condition without the exclusive pool. *)
Definition auto_eligible_base (s : server_row) : bool :=
  negb (provider_managed_legacy_sql s || provider_internal_member_sql s)
  && String.eqb (s_state s) "active"
  && (from_option p_vpn_auto 0 (preferences_of s) =? 1)
  && (0 <=? from_option p_priority 0 (preferences_of s))
  && String.eqb (default "" (preferences_of s ≫= p_deleted)) "".

Definition auto_eligible_sql (respect_exclusive : bool) (s : server_row) : bool :=
  auto_eligible_base s && (negb respect_exclusive || exclusive_pool_sql s).

(** One server's membership in the pool of a source, read server by server. *)
Definition in_selected_pool (server_id selected : string) : bool :=
  if String.eqb selected "" then true
  else
    match find (fun b => String.eqb (b_source b) selected && b_enabled b) (t_bindings db) with
    | Some binding => String.eqb (b_logical binding) server_id
    | None =>
        existsb (fun s => String.eqb (s_id s) server_id
                          && existsb (fun m => String.eqb (m_source m) selected && m_active m) (source_memberships_sql s))
          (t_servers db)
    end.

Definition selected_setting `{ReprContainer} : string :=
  match exclusive_source_ref_sql with
  | Some v => py_strip (py_str (por v (VStr "")))
  | None => ""
  end.

Definition server_is_in_exclusive_pool `{ReprContainer} (server_id : string) (source_ref : option string) : bool :=
  let selected := py_strip (default "" source_ref) in
  in_selected_pool server_id (if String.eqb selected "" then selected_setting else selected).
End Sql.

(** Primary keys. *)
Record keyed (db : pool_db) : Prop := {
  servers_keyed : NoDup (map s_id (t_servers db));
  bindings_keyed : NoDup (map b_source (t_bindings db));
}.

(** * The exclusive pool and the eligible servers

    The two implementations of the exclusive pool agree; what SQL lets
    through, the Python guard lets through. *)
(** ** Keys *)

Lemma find_keyed {A} (f : A -> string) (p : A -> bool) k l :
  NoDup (map f l) -> forall x, find (fun y => String.eqb (f y) k && p y) l = Some x <-> x ∈ l /\ f x = k /\ p x = true.
Proof.
  induction l as [|y l IH]; intros Hnd x; cbn [find map] in *.
  { split; [done|]. intros [Hx _]. by apply elem_of_nil in Hx. }
  apply NoDup_cons in Hnd as [Hy Hnd]. specialize (IH Hnd x). rewrite elem_of_cons.
  destruct (String.eqb_spec (f y) k) as [Hk|Hk]; cbn [andb]; [destruct (p y) eqn:Hp|].
  - split; [intros [= ->]; auto|]. intros ([->|Hx] & Hk' & _); [done|]. exfalso. apply Hy, list_elem_of_fmap.
    exists x. split; [congruence|done].
  - rewrite IH. split; [tauto|]. intros ([->|Hx] & Hk' & Hp'); [congruence|tauto].
  - rewrite IH. split; [tauto|]. intros ([->|Hx] & Hk' & Hp'); [congruence|tauto].
Qed.

Lemma keyed_unique {A B} (f : A -> B) l x y : NoDup (map f l) -> x ∈ l -> y ∈ l -> f x = f y -> x = y.
Proof.
  induction l as [|z l IH]; [by intros _ ?%elem_of_nil|]. cbn [map]. intros [Hz Hnd]%NoDup_cons Hx Hy E.
  apply elem_of_cons in Hx as [->|Hx], Hy as [->|Hy]; [done|..|by apply IH].
  - exfalso. apply Hz. rewrite E. by apply list_elem_of_fmap_2.
  - exfalso. apply Hz. rewrite <- E. by apply list_elem_of_fmap_2.
Qed.

Lemma existsb_elem {A} (p : A -> bool) l : existsb p l = true <-> exists x, x ∈ l /\ p x = true.
Proof. rewrite existsb_exists. split; intros (x & Hx & Hp); exists x; split; try done; by apply list_elem_of_In. Qed.

Lemma bound_spec db source : bound db source = true <-> exists b, b ∈ t_bindings db /\ b_source b = source /\ b_enabled b = true.
Proof.
  unfold bound. rewrite existsb_elem. split; intros (b & Hb & H); exists b; split; try done.
  - apply andb_prop in H as [H1%String.eqb_eq H2]. done.
  - destruct H as [-> ->]. by rewrite String.eqb_refl.
Qed.

(** ** Blank texts *)

Lemma rstrip_blank p s : rstrip_by p s = "" <-> all_chars p s = true.
Proof.
  induction s as [|c s IH]; [done|]. cbn [rstrip_by all_chars]. rewrite andb_true_iff, <- IH.
  destruct (rstrip_by p s); [|split; [done|by intros []]]. destruct (p c); [tauto|]. split; [done|by intros []].
Qed.

Lemma lstrip_blank p s : all_chars p (lstrip_by p s) = all_chars p s.
Proof. induction s as [|c s IH]; [done|]. cbn [lstrip_by all_chars]. destruct (p c) eqn:E; cbn; [exact IH|by rewrite E]. Qed.

Lemma strip_blank p s : rstrip_by p (lstrip_by p s) = "" <-> all_chars p s = true.
Proof. by rewrite rstrip_blank, lstrip_blank. Qed.

(** A stripped text that TRIM empties is empty. *)
Lemma trim_stripped r : py_strip r = r -> String.eqb (sql_trim r) "" = String.eqb r "".
Proof.
  intros Hr. apply eq_true_iff_eq. rewrite !String.eqb_eq. split; [|by intros ->].
  unfold sql_trim, py_rstrip_char, py_lstrip_char. rewrite strip_blank. intros Hb. rewrite <- Hr.
  apply strip_blank, (all_chars_impl (Ascii.eqb " "%char)); [|done]. by intros c <-%Ascii.eqb_eq.
Qed.

(** ** The exclusive source *)

(** The setting is absent, cleared, or names a source without blanks around it. *)
Definition exclusive_setting (db : pool_db) (ref : option string) : Prop :=
  match ref with
  | None => exclusive_source_ref db = VNone
  | Some r => exclusive_source_ref db = VStr r /\ py_strip r = r
  end.

Section Agree.
Context `{ReprContainer} (db : pool_db) (Hkeys : keyed db).

(** A selected source restricts the pool to its bound root, or else to the
    servers it owns an active membership of. *)
Definition in_source (r : string) (s : server_row) : Prop :=
  (exists b, b ∈ t_bindings db /\ b_source b = r /\ b_enabled b = true /\ b_logical b = s_id s)
  \/ (~ exists b, b ∈ t_bindings db /\ b_source b = r /\ b_enabled b = true)
     /\ exists m, m ∈ source_memberships_sql db s /\ m_source m = r /\ m_active m = true.

Lemma exclusive_pool_spec s ref : exclusive_setting db ref ->
  exclusive_pool_sql db s = true <-> from_option (fun r => r = "" \/ in_source r s) True ref.
Proof.
  unfold exclusive_setting, exclusive_pool_sql. destruct ref as [r|]; [intros [-> Hr]|intros ->; done].
  cbn [sql_text from_option]. rewrite (trim_stripped r Hr), !orb_true_iff, String.eqb_eq, !andb_true_iff.
  rewrite negb_true_iff, <- not_true_iff_false, bound_spec, !existsb_elem. unfold in_source. split.
  - intros [[->|[_ (b & Hb & E)]]|[Hn (m & Hm & E)]]; [by left| |].
    + right; left. exists b. apply andb_prop in E as [[E1%String.eqb_eq E2]%andb_prop E3%String.eqb_eq]. done.
    + right; right. split; [done|]. exists m. apply andb_prop in E as [E1%String.eqb_eq E2]. done.
  - intros [->|[(b & Hb & <- & He & Hl)|[Hn (m & Hm & <- & Ha)]]]; [by left; left| |].
    + left; right. split; [by exists b|]. exists b. by rewrite String.eqb_refl, He, Hl, String.eqb_refl.
    + right. split; [done|]. exists m. by rewrite String.eqb_refl, Ha.
Qed.

Lemma py_pool_spec s r : s ∈ t_servers db -> r <> "" -> in_selected_pool db (s_id s) r = true <-> in_source r s.
Proof.
  intros Hs Hne. unfold in_selected_pool. replace (String.eqb r "") with false by (symmetry; by apply String.eqb_neq).
  destruct (find _ _) as [b|] eqn:Ef.
  - apply (find_keyed b_source b_enabled) in Ef as (Hb & Hbr & He); [|apply Hkeys]. rewrite String.eqb_eq. split.
    + intros Hl. left. by exists b.
    + intros [(b' & Hb' & Hr' & He' & Hl)|[Hn _]]; [|exfalso; apply Hn; by exists b].
      rewrite <- Hl. f_equal. apply (keyed_unique b_source (t_bindings db)); [apply Hkeys|done..|congruence].
  - assert (Hn : ~ exists b, b ∈ t_bindings db /\ b_source b = r /\ b_enabled b = true).
    { intros (b & Hb). apply (find_keyed b_source b_enabled r _ (bindings_keyed _ Hkeys)) in Hb. congruence. }
    rewrite existsb_elem. split.
    + intros (s' & Hs' & [E%String.eqb_eq (m & Hm & Hp)%existsb_elem]%andb_prop).
      assert (s' = s) as -> by (apply (keyed_unique s_id (t_servers db)); [apply Hkeys|done..]).
      right. split; [done|]. exists m. by apply andb_prop in Hp as [?%String.eqb_eq ?].
    + intros [(b & Hb & Hr' & He & _)|[_ (m & Hm & Hr' & Ha)]]; [exfalso; apply Hn; by exists b|].
      exists s. split; [done|]. rewrite String.eqb_refl. apply existsb_elem. exists m. split; [done|].
      by rewrite Hr', String.eqb_refl, Ha.
Qed.

(** Without an argument it reads the setting. *)
Lemma selected_setting_ref ref : exclusive_setting db ref -> selected_setting db = default "" ref.
Proof.
  unfold exclusive_setting, exclusive_source_ref, selected_setting.
  destruct (exclusive_source_ref_sql db) as [v|], ref as [r|]; cbn; try done; [intros [-> Hr]|by intros ->|by intros []].
  unfold por, truthy. by destruct (String.eqb_spec r "") as [->|].
Qed.

(** C25: The exclusive pool is one rule written twice, as SQL over the
    inventory and as a function asked about one server: for every server of
    the inventory, with or without a selected source (an enabled binding
    leaves its logical root alone, no binding leaves the servers the source
    owns actively, directly or through a member), they agree. *)
Theorem exclusive_pool_agrees s ref : s ∈ t_servers db -> exclusive_setting db ref ->
  server_is_in_exclusive_pool db (s_id s) None = exclusive_pool_sql db s.
Proof.
  intros Hs Href. apply eq_true_iff_eq. rewrite (exclusive_pool_spec s ref Href).
  change (server_is_in_exclusive_pool db (s_id s) None) with (in_selected_pool db (s_id s) (selected_setting db)).
  rewrite (selected_setting_ref ref Href). destruct ref as [r|]; [|done]. cbn.
  destruct (decide (r = "")) as [->|Hne]; [split; [by left|done]|]. rewrite (py_pool_spec s r Hs Hne). tauto.
Qed.

(** What SQL selects passes the guard of the selector. *)
Lemma eligible_sql_guard s exclusive : auto_eligible_sql db exclusive s = true ->
  exists p, preferences_of db s = Some p /\ p_server p = s_id s /\ p_vpn_auto p = 1 /\ 0 <= p_priority p /\ s_state s = "active"
    /\ default "" (p_deleted p) = ""
    /\ provider_managed_legacy_sql db s = false /\ provider_internal_member_sql db s = false
    /\ (exclusive = true -> exclusive_pool_sql db s = true).
Proof.
  unfold auto_eligible_sql, auto_eligible_base. intros [Hb He]%andb_prop.
  apply andb_prop in Hb as [[[[Hp%negb_true_iff%orb_false_elim Hst%String.eqb_eq]%andb_prop Ha]%andb_prop Hpr]%andb_prop Hd].
  destruct (preferences_of db s) as [p|] eqn:Ep; [|done].
  cbn [from_option mbind option_bind] in *. apply find_some in Ep as [_ Hid%String.eqb_eq].
  exists p. split_and!; [done|done|lia|lia|done|by apply String.eqb_eq|apply Hp|apply Hp|].
  intros ->. by rewrite orb_false_l in He.
Qed.
End Agree.
