(* ===== verification/SelectorCandidates.v ===== *)
(** * The selector's candidates

    The part of [services/selector.py] that reads: the rows of the automatic
    pool, the health of their members ([services/logical_topology.py],
    [get_logical_topologies], as far as the selector reads it), and the
    candidates made of them. *)
From stdpp Require Import base list strings gmap.
From Stdlib Require Import ZArith Lia Ascii.
From S2P Require Import Prelude PyStr PyKey PyVal PyTime AutoPool.

Open Scope string_scope.
Open Scope Z_scope.
Open Scope list_scope.

Definition MIN_VPN_AUTO_PRIORITY : Z := -1.
Definition MAX_VPN_AUTO_PRIORITY : Z := 5.
Definition PROVIDER_ROLE_VPN_DATAPLANE : string := "vpn_dataplane".

(** ** Member health *)

Record topology_row := TopologyRow { y_logical : string; y_active_member : option string }.

Record health_row := HealthRow {
  h_logical : string;
  h_member : string;
  h_role : string;
  h_status : string;
  h_latency_ms : option Z;
  h_checked_at : option string;
  h_error_code : option string;
  h_error_message : option string;
  h_evidence : cell;
}.

Record health_db := HealthDb {
  t_topologies : list topology_row;
  t_health : list health_row;
  (** The text of [datetime('now', '-1800 seconds')]. *)
  stale_at : string;
}.

(** The keys of a member the selector reads. *)
Record member_view := MemberView {
  v_member_id : string;
  v_effective : bool;
  v_status : string;
  v_latency_ms : option Z;
  v_checked_at : option string;
  v_probe_lane : pyval;
  v_error_code : option string;
  v_error_message : option string;
}.

Definition v_fresh (v : member_view) : bool := bool_decide (v_status v ∈ ["healthy"; "failed"]).

Record topology_view := TopologyView { y_health_status : string; y_members : list member_view }.

(** [_json(value)]. *)
Definition _json (c : cell) : dict := match c with CJson (VDict d) => d | _ => [] end.

Section Health.
Context (db : pool_db) (hd : health_db).

Definition health_of (l : member_row) : option health_row :=
  find (fun h => String.eqb (h_logical h) (l_logical l) && String.eqb (h_member h) (l_member l)
                 && String.eqb (h_role h) PROVIDER_ROLE_VPN_DATAPLANE) (t_health hd).

Definition is_stale (h : health_row) : bool :=
  match h_checked_at h with Some t => py_leb t (stale_at hd) | None => false end.

Definition _member_status (h : option health_row) : string :=
  match h with
  | None => "unknown"
  | Some h =>
      let status := if String.eqb (h_status h) "" then "unknown" else h_status h in
      if bool_decide (status ∈ ["healthy"; "failed"]) && is_stale h then "stale"
      else if bool_decide (status ∈ ["unknown"; "healthy"; "failed"; "stale"; "unsupported"]) then status
      else "unknown"
  end.

Definition members_of (id : string) : list member_row :=
  sort_on (fun l => [KInt (l_order l); KText (l_member l)])
    (List.filter (fun l => String.eqb (l_logical l) id) (t_members db)).

Definition get_logical_topology (id : string) : option topology_view :=
  if String.eqb (py_strip id) "" then None
  else
    row ← find (fun y => String.eqb (y_logical y) id) (t_topologies hd);
    let members := members_of id in
    let active := List.filter l_active members in
    let status_of l := _member_status (health_of l) in
    let usable := List.filter (fun l => String.eqb (status_of l) "healthy") active in
    let active_member_id :=
      match y_active_member row with
      | Some m => if String.eqb m "" then l_member <$> head usable else Some m
      | None => l_member <$> head usable
      end in
    let status :=
      if negb (bool_decide (usable = [])) then "usable"
      else if negb (bool_decide (active = [])) && forallb (fun l => String.eqb (status_of l) "failed") active then "unavailable"
      else "unknown" in
    Some (TopologyView status
      (map (fun l =>
         let h := health_of l in
         MemberView (l_member l) (bool_decide (active_member_id = Some (l_member l))) (status_of l)
           (h ≫= h_latency_ms) (h ≫= h_checked_at) (dget "probe_lane" (_json (from_option h_evidence CNull h)))
           (h ≫= h_error_code) (h ≫= h_error_message)) members)).
End Health.

(** ** Candidates *)

(** The dict under the key ping: what the ranking reads of it, and the dict. *)
Record ping := Ping {
  ping_status : string;
  ping_last_ms : option Z;
  ping_checked_at : option string;
  ping_checked_by : option string;
  ping_source : pyval;
  ping_fields : dict;
}.

(** A key that is absent is [None] or [false], as [get] answers. *)
Record candidate := Candidate {
  c_server_id : string;
  c_server_name : string;
  c_inventory_state : string;
  c_runtime_target : pyval;
  c_vpn_auto : bool;
  c_deleted : option string;
  c_priority : Z;
  c_ping : ping;
  (** Keys of [provider_candidates] only. *)
  c_execution_capability : option string;
  c_runtime_evidence : option string;
  c_provider_eligible : bool;
  c_member_id : option string;
  c_source_ref : option string;
  (** [on_demand_ping]. *)
  c_on_demand : dict;
}.

Definition set_ping (c : candidate) (p : ping) : candidate :=
  Candidate (c_server_id c) (c_server_name c) (c_inventory_state c) (c_runtime_target c) (c_vpn_auto c) (c_deleted c)
    (c_priority c) p (c_execution_capability c) (c_runtime_evidence c) (c_provider_eligible c) (c_member_id c)
    (c_source_ref c) (c_on_demand c).

Definition clamp_priority (n : Z) : Z := Z.max MIN_VPN_AUTO_PRIORITY (Z.min MAX_VPN_AUTO_PRIORITY n).

(** [sub in s]. *)
Fixpoint py_contains (sub s : string) : bool :=
  py_startswith s sub || match s with String _ s' => py_contains sub s' | "" => false end.

Section Load.
Context `{ReprContainer}.

Definition text_or_blank (v : pyval) : string := py_str (por v (VStr "")).

Definition _is_manual_ping (p : ping) : bool :=
  let source := py_lower (py_strip (text_or_blank (ping_source p))) in
  let checked_by := py_lower (py_strip (default "" (ping_checked_by p))) in
  String.eqb source "manual"
  || bool_decide (checked_by ∈ ["manual"; "ui"; "admin_ui"])
  || existsb (py_startswith checked_by) ["manual_"; "ui_"; "admin_ui"]
  || py_contains ":manual" checked_by.

Context (db : pool_db) (hd : health_db).

Definition ping_of (s : server_row) : option ping_row := find (fun g => String.eqb (g_server g) (s_id s)) (t_pings db).

(** The rows in the order of the query. *)
Definition row_key (s : server_row) : key :=
  let g := ping_of s in
  [KInt (if String.eqb (from_option g_status "" g) "success" then 0 else 1);
   KInt (match g ≫= g_last_ping_ms with None => 1 | Some _ => 0 end);
   KInt (default 0 (g ≫= g_last_ping_ms));
   KText (s_name s)].

Definition selector_rows : list server_row := sort_on row_key (List.filter (auto_eligible_sql db true) (t_servers db)).

Definition runtime_target_of_row (s : server_row) : pyval :=
  if bool_decide (s_id s ∈ t_custom db) then VStr (s_name s)
  else coalesce [json_extract "_fwrouter_runtime_name" (s_raw s); json_extract "name" (s_raw s); VStr (s_name s)].

Definition row_ping (s : server_row) : ping :=
  let g := ping_of s in
  let status := from_option g_status "" g in
  let status := if String.eqb status "" then "unknown" else status in
  let source := json_extract "source" (from_option g_metadata VNone g) in
  Ping status (g ≫= g_last_ping_ms) (g ≫= g_checked_at) (g ≫= g_checked_by) source
    [("status", VStr status); ("last_ping_ms", vint (g ≫= g_last_ping_ms)); ("checked_at", vopt (g ≫= g_checked_at));
     ("checked_by", vopt (g ≫= g_checked_by)); ("source", source); ("error_code", vopt (g ≫= g_error_code));
     ("error_message", vopt (g ≫= g_error_message))].

Definition candidate_of_row (s : server_row) : candidate :=
  let p := preferences_of db s in
  Candidate (s_id s) (s_name s) (s_state s) (por (runtime_target_of_row s) (VStr (s_id s)))
    (negb (from_option p_vpn_auto 0 p =? 0)) (p ≫= p_deleted) (clamp_priority (from_option p_priority 0 p)) (row_ping s)
    None None false None None [].

(** [status] and [last_ping_ms] cleared. *)
Definition cleared (p : ping) : ping :=
  Ping "unknown" None (ping_checked_at p) (ping_checked_by p) (ping_source p)
    (dset "last_ping_ms" VNone (dset "status" (VStr "unknown") (ping_fields p))).

(** A manual ping is no evidence for an automatic choice. *)
Definition without_manual (c : candidate) : candidate :=
  if _is_manual_ping (c_ping c) then set_ping c (cleared (c_ping c)) else c.

(** The health of the effective member replaces the stored ping; the members
    are read after the rows. *)
Definition canonical_ping (mdb : pool_db) (c : candidate) : candidate :=
  match get_logical_topology mdb hd (c_server_id c) with
  | None => c
  | Some topology =>
      match find v_effective (y_members topology) with
      | None => c
      | Some effective =>
          let p := c_ping c in
          if String.eqb (default "" (v_checked_at effective)) "" then c
          else if eq_str (v_probe_lane effective) "manual"
          then
            let p := cleared p in
            set_ping c (Ping (ping_status p) (ping_last_ms p) (ping_checked_at p) (ping_checked_by p) (VStr "manual_only")
                          (dset "source" (VStr "manual_only") (ping_fields p)))
          else
            let healthy := String.eqb (v_status effective) "healthy" && v_fresh effective in
            let status :=
              if healthy then "success"
              else if String.eqb (v_status effective) "failed" && v_fresh effective then "failed" else "unknown" in
            let latency := if healthy then v_latency_ms effective else None in
            set_ping c (Ping status latency (v_checked_at effective) (Some "canonical_health") (VStr "canonical_health")
              [("status", VStr status); ("last_ping_ms", vint latency); ("checked_at", vopt (v_checked_at effective));
               ("checked_by", VStr "canonical_health"); ("source", VStr "canonical_health");
               ("error_code", vopt (v_error_code effective)); ("error_message", vopt (v_error_message effective));
               ("canonical_health_status", VStr (y_health_status topology))])
      end
  end.

Definition _load_selector_candidates (mdb : pool_db) : list candidate :=
  map (canonical_ping mdb) (map without_manual (map candidate_of_row selector_rows)).

(** [_load_runtime_target_inventory]: every active server, as the keys the
    identity lookup reads. *)
Definition _load_runtime_target_inventory : list (string * string * pyval) :=
  map (fun s => (s_id s, s_name s, runtime_target_of_row s))
    (List.filter (fun s => String.eqb (s_state s) "active") (t_servers db)).
End Load.
