(* ===== verification/SelectorRank.v ===== *)
(** * The selector's ranking

    The pure part of [services/selector.py]: which candidates are probed and
    which one is taken.

    The effective ping is a float quotient in the code; here it is the
    quotient itself.  For latencies below 2^45 ms (and the weights 1 to 5)
    two different quotients differ by at least 1/20, more than the rounding,
    so that the floats compare as the quotients do. *)
From stdpp Require Import base list strings gmap.
From Stdlib Require Import ZArith Lia Ascii.
From S2P Require Import Prelude PyStr PyKey PyVal PyTime AutoPool SelectorCandidates.

Open Scope string_scope.
Open Scope Z_scope.
Open Scope list_scope.

(** ** Identities *)

Section Rank.
Context `{ReprContainer}.

(** [str(item.get("runtime_target") or item.get("server_id") or "")]. *)
Definition target_text (runtime_target : pyval) (server_id : string) : string := py_str (por runtime_target (VStr server_id)).

Definition target_of (c : candidate) : string := target_text (c_runtime_target c) (c_server_id c).

(** Inventory rows are (server_id, server_name, runtime_target); [label] is [safe_human_label]. *)
Definition _runtime_target_identity (label : string -> string -> option string) (runtime_target : option string)
    (inventory : list (string * string * pyval)) : option string * option string * string :=
  let target := py_strip (default "" runtime_target) in
  if String.eqb target "" then (None, None, "missing")
  else
    match List.filter (fun item => String.eqb (py_strip (target_text item.2 item.1.1)) target) inventory with
    | [item] => (Some item.1.1, label item.1.2 item.1.1, "confirmed")
    | [] => (None, None, "unmapped")
    | _ :: _ :: _ => (None, None, "unconfirmed")
    end.

Definition _safe_selection_origin (origin : string) : string :=
  let value := py_lower (py_strip origin) in
  if bool_decide (value ∈ ["api"; "ui"; "watchdog"; "subscription"; "server_preferences"]) then value else "unknown".

Definition _selector_reason_code (reason origin : string) : string :=
  let normalized_origin := _safe_selection_origin origin in
  if String.eqb normalized_origin "api" then "api_controlled_switch"
  else if String.eqb normalized_origin "watchdog" && py_startswith reason "watchdog_failover:" then "watchdog_failover"
  else if String.eqb normalized_origin "watchdog" && py_startswith reason "watchdog_initial_select:" then "watchdog_initial_select"
  else if String.eqb normalized_origin "watchdog" then "automatic_selection"
  else if bool_decide (reason ∈ ["manual"; "scheduler_watchdog_check"; "subscription_refresh_auto_select";
                                 "vpn_auto_membership_changed"; "server_preferences_vpn_auto"; "api_controlled_switch"])
  then reason else "automatic_selection".

(** ** Eligibility and health *)

(** The guard on a candidate's own keys; the provider keys are absent. *)
Definition eligible (c : candidate) : bool :=
  is_auto_eligible (VBool (c_vpn_auto c)) (VInt (c_priority c)) (VStr (c_inventory_state c)) (vopt (c_deleted c)) false false.

Definition _auto_selectable_candidates (candidates : list candidate) : list candidate := List.filter eligible candidates.

Definition _candidate_has_auto_health (c : option candidate) : bool :=
  match c with
  | None => false
  | Some c =>
      let p := c_ping c in
      String.eqb (py_lower (py_strip (ping_status p))) "success"
      && negb (String.eqb (py_lower (py_strip (text_or_blank (ping_source p)))) "manual" || _is_manual_ping p)
  end.

(** The tuples the digest of the candidates is taken of; [sorted] compares a bool as an int. *)
Definition fence_row (c : candidate) : key :=
  [KText (c_server_id c); KText (target_of c); KInt (c_priority c); KInt (Z.b2z (c_vpn_auto c));
   KText (c_inventory_state c); KText (default "" (c_source_ref c)); KText (default "" (c_execution_capability c))].

Definition fence_value (c : candidate) : pyval :=
  VList [VStr (c_server_id c); VStr (target_of c); VInt (c_priority c); VBool (c_vpn_auto c); VStr (c_inventory_state c);
         VStr (default "" (c_source_ref c)); VStr (default "" (c_execution_capability c))].

Definition _candidate_fence (sha256_json : pyval -> string) (candidates : list candidate) : string :=
  sha256_json (VList (map fence_value (sort_on fence_row candidates))).

(** ** Sort keys *)

Definition _ping_status_rank (c : candidate) : Z :=
  let status := py_lower (if String.eqb (ping_status (c_ping c)) "" then "unknown" else ping_status (c_ping c)) in
  if String.eqb status "success" then 0 else if String.eqb status "unknown" then 1 else 2.

Definition _latency_sort_value (c : candidate) : Z := default (10 ^ 9) (ping_last_ms (c_ping c)).

Definition _candidate_priority (c : candidate) : Z := clamp_priority (c_priority c).

(** A quotient: latency over weight. *)
Definition _candidate_effective_ping (c : candidate) : option (Z * positive) :=
  if negb (String.eqb (py_lower (ping_status (c_ping c))) "success") then None
  else
    latency ← ping_last_ms (c_ping c);
    let priority := _candidate_priority c in
    if priority <? 0 then None
    else Some (latency, if 0 <? priority then Z.to_pos priority else 1%positive).

(** [server_name or server_id or ""]. *)
Definition name_of (c : candidate) : string := if String.eqb (c_server_name c) "" then c_server_id c else c_server_name c.

(** [_parse_checked_at]: naive or aware. *)
Definition _parse_checked_at (value : option string) : option (Z * option Z) :=
  match value with
  | None => None
  | Some value =>
      let normalized := py_strip value in
      if String.eqb normalized "" then None else fromisoformat (replace_zulu normalized)
  end.

Definition checked_at_of (c : candidate) : option (Z * option Z) := _parse_checked_at (ping_checked_at (c_ping c)).

(** ** The shortlist *)

Definition priority_key (c : candidate) : key :=
  [KInt (if eligible c then 0 else 1); KInt (- c_priority c); KInt (_ping_status_rank c); KInt (_latency_sort_value c);
   KText (name_of c)].

Definition latency_key (c : candidate) : key :=
  [KInt (_ping_status_rank c); KInt (_latency_sort_value c); KInt (- c_priority c); KText (name_of c)].

(** A naive time compares by its local reading, an aware one by its instant. *)
Definition refresh_key (c : candidate) : key :=
  let parsed := checked_at_of c in
  [KInt (match parsed with None => 0 | Some _ => 1 end);
   KInt (match parsed with None => 0 | Some (local, off) => local - default 0 off * 1000000 end);
   KInt (_ping_status_rank c); KInt (- c_priority c); KText (name_of c)].

Definition is_naive (c : candidate) : bool := match checked_at_of c with Some (_, None) => true | _ => false end.
Definition is_aware (c : candidate) : bool := match checked_at_of c with Some (_, Some _) => true | _ => false end.

(** Comparing a naive with an aware time raises TypeError, and a sort that
    has both must compare one with the other: items that are adjacent in its
    result have been compared. *)
Definition refresh_order (candidates : list candidate) : py (list candidate) :=
  if existsb is_naive candidates && existsb is_aware candidates then None else Some (sort_on refresh_key candidates).

Definition _append (limit : Z) (merged : list candidate) (c : candidate) : list candidate :=
  if String.eqb (c_server_id c) "" || bool_decide (c_server_id c ∈ map c_server_id merged) || (limit <=? Z.of_nat (length merged))
  then merged else merged ++ [c].

Definition _build_on_demand_shortlist (candidates : list candidate) (active_before : option string) (limit : Z)
    : py (list candidate) :=
  if (limit <=? 0) || bool_decide (candidates = []) then Some []
  else
    refreshed ← refresh_order candidates;
    let priority_order := sort_on priority_key candidates in
    let latency_order := sort_on latency_key candidates in
    let active :=
      match active_before with
      | Some before => if String.eqb before "" then [] else
          option_list (find (fun c => String.eqb (target_of c) before) candidates)
      | None => []
      end in
    Some (fold_left (_append limit) (active ++ priority_order ++ latency_order ++ refreshed ++ candidates) []).

(** ** The choice *)

Definition successful (c : candidate) : bool := String.eqb (ping_status (c_ping c)) "success" && is_set (ping_last_ms (c_ping c)).

Definition _select_best_successful_candidate (candidates : list candidate) : option candidate :=
  first_on (fun c => [KInt (default 0 (ping_last_ms (c_ping c))); KText (c_server_name c)])
    (List.filter successful candidates).

Definition effective_key (c : candidate) : key :=
  match _candidate_effective_ping c with Some (n, d) => [KNum n d] | None => [] end
  ++ [KInt (default 0 (ping_last_ms (c_ping c))); KText (c_server_name c); KText (c_server_id c)].

Definition executable (c : candidate) : bool :=
  bool_decide (c_execution_capability c = Some "provider_switch") && bool_decide (c_runtime_evidence c = Some "not_observed")
  && c_provider_eligible c.

Definition provider_key (c : candidate) : key :=
  [KInt (- _candidate_priority c); KText (c_server_id c); KText (default "" (c_member_id c))].

(** The choice, and the fastest candidate when that is another one. *)
Definition _select_candidate_with_priority (candidates : list candidate) : option candidate * option candidate :=
  let auto_selectable := _auto_selectable_candidates candidates in
  match _select_best_successful_candidate auto_selectable with
  | None => (first_on provider_key (List.filter executable auto_selectable), None)
  | Some best_by_ping =>
      let scored := List.filter (fun c => is_set (_candidate_effective_ping c)) auto_selectable in
      match first_on effective_key scored with
      | None => (Some best_by_ping, None)
      | Some selected =>
          if String.eqb (c_server_id selected) (c_server_id best_by_ping) then (Some selected, None)
          else (Some selected, Some best_by_ping)
      end
  end.
End Rank.
