(* ===== verification/SelectorRankFacts.v ===== *)
(** * The selector's choice and its shortlist

    The chosen candidate is eligible, has answered and is the least by
    weighted latency; the
    weight of a priority is bounded; the order of the candidates does not
    matter.  The shortlist is a duplicate-free part of the candidates; it
    cannot be built from candidates whose timestamps mix the two formats the
    services write. *)
From stdpp Require Import base list strings gmap sorting.
From Stdlib Require Import ZArith Lia Ascii.
From S2P Require Import Prelude PyStr PyKey PyVal PyTime AutoPool SelectorCandidates SelectorRank.

Open Scope string_scope.
Open Scope Z_scope.
Open Scope list_scope.

Lemma elem_of_lfilter {A} (p : A -> bool) x l : x ∈ List.filter p l <-> x ∈ l /\ p x = true.
Proof. rewrite list_elem_of_In, filter_In, <- list_elem_of_In. done. Qed.

Lemma lfilter_perm {A} (p : A -> bool) l l' : l ≡ₚ l' -> List.filter p l ≡ₚ List.filter p l'.
Proof.
  induction 1 as [|x l l' _ IH|x y l|]; cbn [List.filter]; [done|by destruct (p x); rewrite IH| |by etransitivity].
  destruct (p x), (p y); try done. apply Permutation_swap.
Qed.

Section Choice.
Context `{ReprContainer}.

(** ** Candidates *)

Lemma eligible_inv c : eligible c = true ->
  c_vpn_auto c = true /\ 0 <= c_priority c /\ py_strip (c_inventory_state c) = "active" /\ py_strip (default "" (c_deleted c)) = "".
Proof.
  unfold eligible, is_auto_eligible. intros E. cbn [negb andb] in E.
  apply andb_prop in E as [[[Ha Hp]%andb_prop Hs%String.eqb_eq]%andb_prop Hd%String.eqb_eq]. split; [exact Ha|]. split.
  - apply Z.leb_le in Hp. unfold auto_priority, por, truthy in Hp. destruct (Z.eqb_spec (c_priority c) 0); cbn in Hp; lia.
  - split.
    + revert Hs. unfold por, truthy. destruct (String.eqb_spec (c_inventory_state c) "") as [->|]; [done|done].
    + revert Hd. unfold por. destruct (c_deleted c) as [d|]; [|done]. cbn. by destruct (String.eqb_spec d "") as [->|].
Qed.

Lemma clamped_range c : MIN_VPN_AUTO_PRIORITY <= _candidate_priority c <= MAX_VPN_AUTO_PRIORITY.
Proof. unfold _candidate_priority, clamp_priority, MIN_VPN_AUTO_PRIORITY, MAX_VPN_AUTO_PRIORITY. lia. Qed.

Definition weight (c : candidate) : Z := Z.max 1 (_candidate_priority c).

Lemma weight_range c : 1 <= weight c <= 5.
Proof. pose proof (clamped_range c). unfold weight, MAX_VPN_AUTO_PRIORITY in *. lia. Qed.

(** An eligible candidate that answered in [n] ms. *)
Definition answered (c : candidate) (n : Z) : Prop :=
  eligible c = true /\ ping_status (c_ping c) = "success" /\ ping_last_ms (c_ping c) = Some n.

Lemma answered_successful c : eligible c = true -> successful c = true <-> exists n, answered c n.
Proof.
  intros He. unfold successful, answered. rewrite andb_true_iff, String.eqb_eq. split.
  - intros [Hs Hn]. destruct (ping_last_ms (c_ping c)) as [n|]; [by exists n|done].
  - intros (n & _ & Hs & Hn). by rewrite Hs, Hn.
Qed.

(** The same with the status in any case, as the score reads it. *)
Definition counted (c : candidate) (n : Z) : Prop :=
  eligible c = true /\ py_lower (ping_status (c_ping c)) = "success" /\ ping_last_ms (c_ping c) = Some n.

Lemma answered_counted c n : answered c n -> counted c n.
Proof. unfold answered, counted. intros (He & Hs & Hn). by rewrite Hs. Qed.

Lemma counted_effective c n : counted c n -> exists d, _candidate_effective_ping c = Some (n, d) /\ Z.pos d = weight c.
Proof.
  intros (He & Hs & Hn). apply eligible_inv in He as (_ & Hp & _).
  assert (Hq : 0 <= _candidate_priority c)
    by (unfold _candidate_priority, clamp_priority, MIN_VPN_AUTO_PRIORITY, MAX_VPN_AUTO_PRIORITY; lia).
  unfold _candidate_effective_ping. rewrite Hs, Hn, String.eqb_refl. cbn [negb mbind option_bind].
  rewrite (proj2 (Z.ltb_ge _ _) Hq).
  eexists. split; [reflexivity|]. unfold weight. destruct (Z.ltb_spec 0 (_candidate_priority c)); lia.
Qed.

Lemma answered_effective c n : answered c n -> exists d, _candidate_effective_ping c = Some (n, d) /\ Z.pos d = weight c.
Proof. intros Ha. by apply counted_effective, answered_counted. Qed.

Lemma effective_inv c n d : _candidate_effective_ping c = Some (n, d) ->
  py_lower (ping_status (c_ping c)) = "success" /\ ping_last_ms (c_ping c) = Some n /\ Z.pos d = weight c.
Proof.
  unfold _candidate_effective_ping. destruct (String.eqb_spec (py_lower (ping_status (c_ping c))) "success"); [|done].
  cbn [negb]. destruct (ping_last_ms (c_ping c)) as [m|]; [|done]. cbn [mbind option_bind].
  destruct (Z.ltb_spec (_candidate_priority c) 0); [done|]. intros [= -> <-]. split; [done|]. split; [done|].
  unfold weight. destruct (Z.ltb_spec 0 (_candidate_priority c)); lia.
Qed.

Lemma effective_key_of c n d : _candidate_effective_ping c = Some (n, d) ->
  effective_key c = [KNum n d; KInt n; KText (c_server_name c); KText (c_server_id c)].
Proof. intros E. unfold effective_key. rewrite E. apply effective_inv in E as (_ & -> & _). done. Qed.

Definition scored (c : candidate) : Prop := eligible c = true /\ exists q, _candidate_effective_ping c = Some q.

Lemma scored_elem c cs :
  c ∈ List.filter (fun c => is_set (_candidate_effective_ping c)) (_auto_selectable_candidates cs) <-> c ∈ cs /\ scored c.
Proof.
  unfold _auto_selectable_candidates, scored. rewrite !elem_of_lfilter.
  destruct (_candidate_effective_ping c) as [q|]; cbn [is_set]; [|naive_solver]. split; [|tauto]. intros [[? ?] _]. eauto.
Qed.

Lemma best_none cs : _select_best_successful_candidate (_auto_selectable_candidates cs) = None <->
  forall c n, c ∈ cs -> ~ answered c n.
Proof.
  unfold _select_best_successful_candidate, _auto_selectable_candidates. rewrite first_on_none. split.
  - intros E c n Hc Ha. assert (He := proj1 Ha). assert (Hin : c ∈ @nil candidate); [|by apply elem_of_nil in Hin].
    rewrite <- E, !elem_of_lfilter. split; [done|]. apply answered_successful; eauto.
  - intros Hn. destruct (List.filter successful _) as [|c l] eqn:E; [done|]. exfalso.
    assert (Hc : c ∈ List.filter successful (List.filter eligible cs)) by (rewrite E; left).
    rewrite !elem_of_lfilter in Hc. destruct Hc as [[Hc He] Hs]. apply answered_successful in Hs as (n & Ha); [|done].
    by apply (Hn c n).
Qed.

Lemma best_answered cs b : _select_best_successful_candidate (_auto_selectable_candidates cs) = Some b ->
  b ∈ cs /\ exists n, answered b n.
Proof.
  unfold _select_best_successful_candidate, _auto_selectable_candidates. intros [Hb _]%first_on_least.
  rewrite !elem_of_lfilter in Hb. destruct Hb as [[Hb He] Hs]. split; [done|]. by apply answered_successful.
Qed.

Lemma counted_scored d m : counted d m -> scored d.
Proof. intros Ha. split; [apply Ha|]. destruct (counted_effective d m Ha) as (q & E & _). eauto. Qed.

Lemma answered_scored d m : answered d m -> scored d.
Proof. intros Ha. by apply (counted_scored d m), answered_counted. Qed.

Lemma scored_nonempty cs d : d ∈ cs -> scored d ->
  first_on effective_key (List.filter (fun c => is_set (_candidate_effective_ping c)) (_auto_selectable_candidates cs)) <> None.
Proof.
  intros Hd Hs E%first_on_none. assert (Hin : d ∈ @nil candidate); [|by apply elem_of_nil in Hin].
  rewrite <- E. by apply scored_elem.
Qed.

(** ** The choice *)

(** With an answer there is a choice: the first by weighted latency. *)
Lemma choice_answered cs d m : d ∈ cs -> answered d m ->
  exists c best, _select_candidate_with_priority cs = (Some c, best) /\ c ∈ cs /\ scored c /\
    (forall e, e ∈ cs -> scored e -> key_le (effective_key c) (effective_key e) = true) /\
    (forall b, best = Some b -> b ∈ cs /\ c_server_id b <> c_server_id c /\ exists n, answered b n).
Proof.
  intros Hd Ha. unfold _select_candidate_with_priority.
  destruct (_select_best_successful_candidate _) as [b|] eqn:Eb; [|destruct (proj1 (best_none cs) Eb d m Hd Ha)].
  apply best_answered in Eb as Hb.
  destruct (first_on effective_key _) as [c|] eqn:Ec.
  - apply first_on_least in Ec as [Hc Hleast]. apply scored_elem in Hc as [Hc Hsc].
    assert (Hl : forall e, e ∈ cs -> scored e -> key_le (effective_key c) (effective_key e) = true)
      by (intros e He Hse; apply Hleast, scored_elem; done).
    destruct (String.eqb_spec (c_server_id c) (c_server_id b)); eexists c, _; split_and!; try done.
    intros b' [= <-]. destruct Hb as [Hb Hb']. done.
  - by destruct (scored_nonempty cs d Hd (answered_scored d m Ha)).
Qed.

Lemma effective_least c e n d n' d' : _candidate_effective_ping c = Some (n, d) -> _candidate_effective_ping e = Some (n', d') ->
  key_le (effective_key c) (effective_key e) = true -> n * Z.pos d' <= n' * Z.pos d.
Proof.
  intros Ec Ee. rewrite (effective_key_of c n d Ec), (effective_key_of e n' d' Ee). cbn [key_le].
  destruct (component_eqb (KNum n d) (KNum n' d')) eqn:E.
  - intros _. apply component_eqb_spec in E as [E _]. by apply Z.leb_le in E.
  - intros E'. by apply Z.leb_le in E'.
Qed.

(** C24: When an eligible candidate has answered, the selector takes an
    eligible candidate that has answered too ([counted]: its status is
    success, in whatever case, and it has a latency), and no eligible
    candidate that answered has a smaller quotient of latency and weight (the
    priority from 1 to 5; 1 for priority 0); ties go to the smaller latency,
    then the name, then the id. The second result, when there is one, is
    another candidate that answered. *)
Theorem selected_is_best cs d m : d ∈ cs -> answered d m ->
  exists c n best, _select_candidate_with_priority cs = (Some c, best) /\ c ∈ cs /\ counted c n /\
    (forall e k, e ∈ cs -> counted e k ->
       n * weight e <= k * weight c /\ key_le (effective_key c) (effective_key e) = true) /\
    (forall b, best = Some b -> b ∈ cs /\ c_server_id b <> c_server_id c /\ exists k, answered b k).
Proof.
  intros Hd Ha. destruct (choice_answered cs d m Hd Ha) as (c & best & E & Hc & (He & [n q] & Eq) & Hleast & Hbest).
  destruct (effective_inv c n q Eq) as (Hs & Hn & Hw). exists c, n, best. split_and!; try done.
  intros e k Hin Hk. destruct (counted_effective e k Hk) as (q' & Eq' & Hw').
  assert (Hle : key_le (effective_key c) (effective_key e) = true) by (apply Hleast; [done|by apply (counted_scored e k)]).
  split; [|done]. rewrite <- Hw, <- Hw'. by apply (effective_least c e).
Qed.

(** What a priority may cost: the candidate taken is never more than
    five times slower than any eligible candidate that answered, and not
    slower at all than one of the same or a higher weight. *)
Theorem priority_cost_bounded cs d m c n : d ∈ cs -> answered d m -> 0 <= m ->
  (_select_candidate_with_priority cs).1 = Some c -> ping_last_ms (c_ping c) = Some n ->
  n <= 5 * m /\ (weight c <= weight d -> n <= m).
Proof.
  intros Hd Ha Hm E Hn. destruct (choice_answered cs d m Hd Ha) as (c' & best & E' & _ & (_ & [n' q] & Eq) & Hleast & _).
  rewrite E' in E. cbn in E. injection E as ->. destruct (effective_inv c n' q Eq) as (_ & Hn' & Hw).
  rewrite Hn in Hn'. injection Hn' as <-. destruct (answered_effective d m Ha) as (q' & Eq' & Hw').
  assert (Hle := effective_least c d n q m q' Eq Eq' (Hleast d Hd (answered_scored d m Ha))).
  rewrite Hw, Hw' in Hle. pose proof (weight_range c). pose proof (weight_range d). nia.
Qed.

(** ** Independence of the order *)

Lemma best_perm cs cs' : cs ≡ₚ cs' ->
  _select_best_successful_candidate (_auto_selectable_candidates cs) = None <->
  _select_best_successful_candidate (_auto_selectable_candidates cs') = None.
Proof. intros Hp. rewrite !best_none. by setoid_rewrite Hp. Qed.

Lemma provider_key_id a b : key_eq (provider_key a) (provider_key b) -> c_server_id a = c_server_id b.
Proof. intros E. inversion E as [|? ? ? ? _ E']; subst. inversion E' as [|? ? ? ? Eid _]; subst. by apply component_text. Qed.

Lemma effective_key_id a b : scored a -> scored b -> key_eq (effective_key a) (effective_key b) -> c_server_id a = c_server_id b.
Proof.
  intros (_ & [n d] & Ea) (_ & [n' d'] & Eb). rewrite (effective_key_of a n d Ea), (effective_key_of b n' d' Eb). intros E.
  do 3 (inversion E as [|? ? ? ? _ E']; subst; clear E; rename E' into E).
  inversion E as [|? ? ? ? Eid _]; subst. by apply component_text.
Qed.

(** The choice is a function of the set of candidates: with distinct
    server ids, whatever order they come in (the SQL order, the order of the
    probes), the same one is taken. *)
Theorem choice_order_independent cs cs' : NoDup (map c_server_id cs) -> cs ≡ₚ cs' ->
  (_select_candidate_with_priority cs).1 = (_select_candidate_with_priority cs').1.
Proof.
  intros Hnd Hp. pose proof (best_perm cs cs' Hp) as Hbest.
  assert (Hu : forall a b, a ∈ cs -> b ∈ cs -> c_server_id a = c_server_id b -> a = b)
    by (intros a b; apply keyed_unique; done).
  assert (Hsel : _auto_selectable_candidates cs ≡ₚ _auto_selectable_candidates cs') by (by apply lfilter_perm).
  unfold _select_candidate_with_priority.
  destruct (_select_best_successful_candidate (_auto_selectable_candidates cs)) as [b|] eqn:Eb,
    (_select_best_successful_candidate (_auto_selectable_candidates cs')) as [b'|]; [|naive_solver..|].
  - assert (E : first_on effective_key (List.filter (fun c => is_set (_candidate_effective_ping c)) (_auto_selectable_candidates cs))
             = first_on effective_key (List.filter (fun c => is_set (_candidate_effective_ping c)) (_auto_selectable_candidates cs'))).
    { apply first_on_perm; [|by apply lfilter_perm]. intros x y [Hx Sx]%scored_elem [Hy Sy]%scored_elem Exy.
      apply Hu; [done..|]. by apply effective_key_id. }
    rewrite <- E. destruct (first_on effective_key _) as [c|] eqn:Ec.
    + by destruct (String.eqb (c_server_id c) (c_server_id b)), (String.eqb (c_server_id c) (c_server_id b')).
    + apply best_answered in Eb as (Hb & n & Ha). by destruct (scored_nonempty cs b Hb (answered_scored b n Ha)).
  - cbn [fst]. apply first_on_perm; [|by apply lfilter_perm]. unfold _auto_selectable_candidates.
    intros x y [[Hx _]%elem_of_lfilter _]%elem_of_lfilter [[Hy _]%elem_of_lfilter _]%elem_of_lfilter Exy.
    apply Hu; [done..|]. by apply provider_key_id.
Qed.
(** ** The shortlist *)

(** The first of every id, blanks left out. *)
Fixpoint uniq (seen : list string) (l : list candidate) : list candidate :=
  match l with
  | [] => []
  | c :: l' =>
      if String.eqb (c_server_id c) "" || bool_decide (c_server_id c ∈ seen) then uniq seen l'
      else c :: uniq (seen ++ [c_server_id c]) l'
  end.

Lemma uniq_app seen l l' : uniq seen (l ++ l') = uniq seen l ++ uniq (seen ++ map c_server_id (uniq seen l)) l'.
Proof.
  revert seen; induction l as [|c l IH]; intros seen; cbn [uniq app map]; [by rewrite app_nil_r|].
  destruct (_ || _); [apply IH|]. cbn [map app]. by rewrite IH, <- app_assoc.
Qed.

Lemma uniq_covers seen l c : c ∈ l -> c_server_id c <> "" -> c_server_id c ∈ seen ++ map c_server_id (uniq seen l).
Proof.
  revert seen; induction l as [|x l IH]; intros seen Hc Hne; [by apply elem_of_nil in Hc|]. cbn [uniq].
  apply elem_of_cons in Hc as [->|Hc].
  - replace (String.eqb (c_server_id x) "") with false by (symmetry; by apply String.eqb_neq). cbn [orb].
    case_bool_decide as Hs; apply elem_of_app; [by left|right; left].
  - destruct (_ || _); [by apply IH|]. specialize (IH (seen ++ [c_server_id x]) Hc Hne). cbn [map].
    by rewrite <- app_assoc in IH.
Qed.

Lemma uniq_seen seen l : (forall c, c ∈ l -> c_server_id c = "" \/ c_server_id c ∈ seen) -> uniq seen l = [].
Proof.
  induction l as [|c l IH]; intros Hl; [done|]. cbn [uniq].
  assert (Hs : String.eqb (c_server_id c) "" || bool_decide (c_server_id c ∈ seen) = true).
  { destruct (Hl c ltac:(left)) as [->|Hin]; [done|]. by rewrite (bool_decide_eq_true_2 _ Hin), orb_true_r. }
  rewrite Hs. apply IH. intros d Hd. apply Hl. by right.
Qed.

Lemma uniq_sub seen l c : c ∈ uniq seen l -> c ∈ l.
Proof.
  revert seen; induction l as [|x l IH]; intros seen; cbn [uniq]; [done|].
  destruct (_ || _); [intros Hc; right; eauto|]. intros [->|Hc]%elem_of_cons; [left|right; eauto].
Qed.

Lemma uniq_nodup seen l : NoDup (map c_server_id (uniq seen l)) /\
  forall id, id ∈ map c_server_id (uniq seen l) -> id ∉ seen /\ id <> "".
Proof.
  revert seen; induction l as [|x l IH]; intros seen; cbn [uniq map].
  { split; [constructor|by intros id ?%elem_of_nil]. }
  destruct (String.eqb_spec (c_server_id x) ""); cbn [orb]; [apply IH|].
  case_bool_decide as Hs; [apply IH|]. destruct (IH (seen ++ [c_server_id x])) as [Hnd Hout]. cbn [map]. split.
  - constructor; [|done]. intros Hin. apply Hout in Hin as [Hin _]. apply Hin, elem_of_app. right. left.
  - intros id [->|Hin]%elem_of_cons; [done|]. apply Hout in Hin as [Hin ?]. split; [|done]. intros Hs'. apply Hin, elem_of_app. by left.
Qed.

Lemma fold_append limit l : forall acc,
  fold_left (_append limit) l acc = acc ++ take (Z.to_nat limit - length acc) (uniq (map c_server_id acc) l).
Proof.
  induction l as [|c l IH]; intros acc; cbn [fold_left uniq]; [by rewrite take_nil, app_nil_r|].
  rewrite IH. unfold _append.
  destruct (String.eqb (c_server_id c) "" || bool_decide (c_server_id c ∈ map c_server_id acc)); cbn [orb]; [done|].
  destruct (Z.leb_spec limit (Z.of_nat (length acc))) as [Hl|Hl].
  - replace (Z.to_nat limit - length acc)%nat with 0%nat by lia. by rewrite !take_0.
  - rewrite length_app, map_app. cbn [length map]. replace (Z.to_nat limit - length acc)%nat with (S (Z.to_nat limit - (length acc + 1))) by lia.
    cbn [take]. by rewrite <- app_assoc.
Qed.

(** The active candidate in front. *)
Definition active_first (cs : list candidate) (active_before : option string) : list candidate :=
  match active_before with
  | Some before => if String.eqb before "" then [] else option_list (find (fun c => String.eqb (target_of c) before) cs)
  | None => []
  end.

Lemma active_first_sub cs active c : c ∈ active_first cs active -> c ∈ cs.
Proof.
  unfold active_first. destruct active as [before|]; [|by intros ?%elem_of_nil].
  destruct (String.eqb before ""); [by intros ?%elem_of_nil|].
  destruct (find _ _) as [d|] eqn:E; [|by intros ?%elem_of_nil]. intros ->%list_elem_of_singleton.
  apply find_some in E as [E _]. by apply list_elem_of_In.
Qed.

(** The shortlist, when it is built, is the active candidate and then
    the candidates by priority, each id once, cut at the limit: the orders by
    latency and by the age of the evidence that the code merges after it add
    nothing, as the order by priority already has every candidate. *)
Theorem shortlist_by_priority cs active limit l : _build_on_demand_shortlist cs active limit = Some l ->
  l = take (Z.to_nat limit) (uniq [] (active_first cs active ++ sort_on priority_key cs)) /\
  NoDup (map c_server_id l) /\ (forall c, c ∈ l -> c ∈ cs) /\
  ((length l < Z.to_nat limit)%nat -> forall c, c ∈ cs -> c_server_id c <> "" -> c_server_id c ∈ map c_server_id l).
Proof.
  intros E.
  assert (El : l = take (Z.to_nat limit) (uniq [] (active_first cs active ++ sort_on priority_key cs))).
  { unfold _build_on_demand_shortlist in E. destruct (Z.leb_spec limit 0) as [Hl|Hl]; cbn [orb] in E.
    { injection E as <-. by replace (Z.to_nat limit) with 0%nat by lia. }
    case_bool_decide as Hcs; [injection E as <-; subst; unfold active_first|].
    { destruct active as [b|]; [destruct (String.eqb b "")|]; by destruct (Z.to_nat limit). }
    destruct (refresh_order cs) as [refreshed|] eqn:Er; [|done]. cbn [mbind option_bind] in E. injection E as <-.
    fold (active_first cs active). rewrite fold_append. cbn [length map app]. rewrite Nat.sub_0_r. f_equal.
    rewrite app_assoc, uniq_app. cbn [app].
    rewrite (uniq_seen _ (sort_on latency_key cs ++ refreshed ++ cs)), app_nil_r; [done|].
    intros c Hc. assert (Hin : c ∈ cs).
    { rewrite !elem_of_app, elem_of_sort_on in Hc. destruct Hc as [Hc|[Hc|Hc]]; [done| |done].
      unfold refresh_order in Er. destruct (_ && _); [done|]. injection Er as <-. by apply elem_of_sort_on in Hc. }
    destruct (decide (c_server_id c = "")) as [|Hne]; [by left|right].
    apply (uniq_covers []); [|done]. apply elem_of_app. right. by apply elem_of_sort_on. }
  split; [done|]. pose proof (uniq_nodup [] (active_first cs active ++ sort_on priority_key cs)) as [Hnd _].
  rewrite El. split_and!.
  - rewrite <- (take_drop (Z.to_nat limit) (uniq _ _)), map_app in Hnd. by apply NoDup_app in Hnd as [Hnd _].
  - intros c Hc. assert (Hu : c ∈ uniq [] (active_first cs active ++ sort_on priority_key cs))
      by (rewrite <- (take_drop (Z.to_nat limit) (uniq _ _)); apply elem_of_app; by left).
    apply uniq_sub, elem_of_app in Hu as [Hu|Hu]; [by apply active_first_sub in Hu|by apply elem_of_sort_on in Hu].
  - intros Hlen c Hc Hne. rewrite length_take in Hlen. rewrite take_ge by lia.
    apply (uniq_covers []); [|done]. apply elem_of_app. right. by apply elem_of_sort_on.
Qed.
End Choice.

(** ** Loaded candidates *)

Section Loaded.
Context `{ReprContainer} (db mdb : pool_db) (hd : health_db).

(** Pings aside, a loaded candidate is its row. *)
Lemma loaded_inv c : c ∈ _load_selector_candidates db hd mdb ->
  exists s p, s ∈ t_servers db /\ auto_eligible_sql db true s = true /\ c = set_ping (candidate_of_row db s) p.
Proof.
  unfold _load_selector_candidates, selector_rows. rewrite !map_map.
  intros (s & -> & [Hs He]%elem_of_sort_on%elem_of_lfilter)%list_elem_of_fmap.
  assert (Hm : exists p, without_manual (candidate_of_row db s) = set_ping (candidate_of_row db s) p).
  { unfold without_manual. destruct (_is_manual_ping _); eexists; [reflexivity|].
    instantiate (1 := c_ping (candidate_of_row db s)). reflexivity. }
  destruct Hm as [p Ep]. rewrite Ep. exists s. unfold canonical_ping.
  destruct (get_logical_topology _ _ _) as [y|]; [|by exists p]. destruct (find _ _) as [v|]; [|by exists p].
  destruct (String.eqb _ _); [by exists p|]. destruct (eq_str _ _); eexists; split_and!; try done; reflexivity.
Qed.

(** What the SQL of the pool lets through passes the guard the selector
    repeats before every use of a candidate: the SQL condition refines the
    function. *)
Theorem loaded_candidates_eligible c : c ∈ _load_selector_candidates db hd mdb ->
  eligible c = true /\ 0 <= _candidate_priority c /\
  exists s, s ∈ t_servers db /\ s_id s = c_server_id c /\ exclusive_pool_sql db s = true /\
    provider_internal_member_sql db s = false.
Proof.
  intros (s & p & Hs & He & ->)%loaded_inv.
  destruct (eligible_sql_guard db s true He) as (q & Eq & _ & Ha & Hp & Hst & Hd & _ & Hi & Hx).
  unfold eligible, is_auto_eligible, candidate_of_row, _candidate_priority. cbn [set_ping c_vpn_auto c_priority c_inventory_state c_deleted c_server_id].
  rewrite Eq, Hst. cbn [from_option mbind option_bind]. rewrite Ha. split; [|split].
  - apply andb_true_iff. split; [apply andb_true_iff; split|].
    + cbn [negb andb truthy]. apply Z.leb_le. unfold auto_priority, por, truthy, clamp_priority, MIN_VPN_AUTO_PRIORITY, MAX_VPN_AUTO_PRIORITY.
      destruct (negb _); cbn; lia.
    + by vm_compute.
    + destruct (p_deleted q) as [d|]; [|by vm_compute]. cbn in Hd. by subst d.
  - unfold clamp_priority, MIN_VPN_AUTO_PRIORITY, MAX_VPN_AUTO_PRIORITY. lia.
  - exists s. split_and!; auto.
Qed.
End Loaded.

(** ** Timestamps *)

Section Timestamps.
Context `{ReprContainer} (db mdb : pool_db) (hd : health_db).

Definition naive_text (t : string) : Prop := exists local, _parse_checked_at (Some t) = Some (local, None).
Definition aware_text (t : string) : Prop := exists local off, _parse_checked_at (Some t) = Some (local, Some off).

(** The candidate of a server carries the time of its effective member's evidence. *)
Definition has_member_evidence (s : server_row) (t : string) : Prop :=
  exists y v, get_logical_topology mdb hd (s_id s) = Some y /\ find v_effective (y_members y) = Some v /\
    v_checked_at v = Some t /\ t <> "" /\ eq_str (v_probe_lane v) "manual" = false.

(** ... or of its own stored ping. *)
Definition has_stored_ping (s : server_row) (t : string) : Prop :=
  get_logical_topology mdb hd (s_id s) = None /\ exists g, ping_of db s = Some g /\ g_checked_at g = Some t.

(** The candidate that the selector loads for a row. *)
Definition candidate_loaded (s : server_row) : candidate := canonical_ping hd mdb (without_manual (candidate_of_row db s)).

Lemma loaded s : s ∈ t_servers db -> auto_eligible_sql db true s = true ->
  candidate_loaded s ∈ _load_selector_candidates db hd mdb.
Proof.
  intros Hs He. unfold _load_selector_candidates, selector_rows. rewrite !map_map.
  apply list_elem_of_fmap. exists s. split; [done|]. apply elem_of_sort_on, elem_of_lfilter. done.
Qed.

Lemma without_manual_id s : c_server_id (without_manual (candidate_of_row db s)) = s_id s.
Proof. unfold without_manual. by destruct (_is_manual_ping _). Qed.

Lemma member_time s t : has_member_evidence s t -> ping_checked_at (c_ping (candidate_loaded s)) = Some t.
Proof.
  intros (y & v & Ey & Ev & Et & Hne & Hlane). unfold candidate_loaded, canonical_ping. rewrite without_manual_id, Ey, Ev, Et, Hlane.
  cbn. replace (String.eqb t "") with false by (symmetry; by apply String.eqb_neq). done.
Qed.

Lemma stored_time s t : has_stored_ping s t -> ping_checked_at (c_ping (candidate_loaded s)) = Some t.
Proof.
  intros (Ey & g & Eg & Et). unfold candidate_loaded, canonical_ping. rewrite without_manual_id, Ey.
  unfold without_manual. destruct (_is_manual_ping _); cbn; by rewrite Eg.
Qed.

(** Any candidates with one time of either format. *)
Lemma mixed_shortlist a b ta tb cs active limit : 0 < limit ->
  candidate_loaded a ∈ cs -> has_member_evidence a ta -> naive_text ta ->
  candidate_loaded b ∈ cs -> has_stored_ping b tb -> aware_text tb ->
  _build_on_demand_shortlist cs active limit = None.
Proof.
  intros Hl Ha Hea [la Hna] Hb Heb (lb & ob & Hnb).
  unfold _build_on_demand_shortlist. rewrite (proj2 (Z.leb_gt _ _) Hl). cbn [orb].
  case_bool_decide as Hnil; [rewrite Hnil in Ha; by apply elem_of_nil in Ha|].
  unfold refresh_order.
  assert (Hn : existsb is_naive cs = true).
  { apply existsb_elem. eexists. split; [exact Ha|]. unfold is_naive, checked_at_of. by rewrite (member_time a ta Hea), Hna. }
  assert (Hw : existsb is_aware cs = true).
  { apply existsb_elem. eexists. split; [exact Hb|]. unfold is_aware, checked_at_of. by rewrite (stored_time b tb Heb), Hnb. }
  by rewrite Hn, Hw.
Qed.
End Timestamps.
