(* ===== verification/SelectionFence.v ===== *)
(** * The selection fence

    [services/vpn_auto_selection_state.py]: a revision, the active server and
    the provenance of the selection, kept in [settings] and
    [routing_global_state], and changed by compare-and-set.  With it the
    exclusive source of [services/vpn_auto_exclusive.py], which fences
    selections, and the revision of [services/core_intent.py].

    A computation inside one SQLite transaction is a [tx]: it sees one
    database, and an exception rolls it back.  The column updated_at is left
    out: nothing modelled reads it. *)
From stdpp Require Import base list strings gmap.
From Stdlib Require Import ZArith Lia Ascii.
From S2P Require Import Prelude PyStr PyKey PyVal PyState PyTime AutoPool SelectorCandidates SelectorRank.

Open Scope string_scope.
Open Scope Z_scope.
Open Scope list_scope.

Definition SELECTION_REVISION_KEY : string := "routing.auto_selection_revision".
Definition SELECTION_PROVENANCE_KEY : string := "routing.auto_selection_provenance".
Definition CORE_INTENT_REVISION_KEY : string := "core.intent_revision".

(** ** The database *)

(** The row of [routing_global_state]. *)
Record routing_row := RoutingRow {
  r_desired_mode : string;
  r_applied_mode : option string;
  r_selective_default : string;
  r_server_mode : string;
  r_desired_fixed : option string;
  r_applied_fixed : option string;
  r_fixed_until : option string;
  r_active : option string;
  r_apply_state : string;
  r_error_code : option string;
  r_error_message : option string;
}.

(** [apply_versions], newest last in the order of (created_at, apply_id). *)
Record apply_row := ApplyRow { a_apply_id : string; a_status : string; a_core_revision : option Z }.

(** What is handed to [write_audit_event]. *)
Record audit := Audit {
  au_actor : string;
  au_source : string;
  au_action : string;
  au_event_code : string;
  au_entity_type : string;
  au_entity_id : string;
  au_previous : dict;
  au_new : dict;
}.

Record fence_db := FenceDb {
  d_pool : pool_db;
  d_routing : option routing_row;
  (** [desired_state, lifecycle_mode, apply_state] of the module core. *)
  d_core : option (string * string * string);
  d_applies : list apply_row;
  d_audits : list audit;
}.

Abbreviation T := (st fence_db).

Definition set_settings (m : gmap string cell) (p : pool_db) : pool_db :=
  PoolDb (t_servers p) (t_preferences p) (t_pings p) (t_memberships p) (t_members p) (t_bindings p) (t_provider_members p)
    (t_custom p) m.

Definition setting (key : string) (db : fence_db) : option cell := t_settings (d_pool db) !! key.

Definition with_settings (f : gmap string cell -> gmap string cell) (db : fence_db) : fence_db :=
  FenceDb (set_settings (f (t_settings (d_pool db))) (d_pool db)) (d_routing db) (d_core db) (d_applies db) (d_audits db).

(** [INSERT ... ON CONFLICT(key) DO UPDATE]. *)
Definition put_setting (key : string) (v : pyval) : T unit := st_modify (with_settings <[key := CJson v]>).

Definition delete_setting (key : string) : T unit := st_modify (with_settings (delete key)).

Definition with_routing (r : option routing_row) (db : fence_db) : fence_db :=
  FenceDb (d_pool db) r (d_core db) (d_applies db) (d_audits db).

(** The CHECK and FOREIGN KEY constraints of the row. *)
Definition routing_ok (db : fence_db) (r : routing_row) : bool :=
  let modes := ["direct"; "selective"; "vpn"] in
  let refers o := match o with None => true | Some id => bool_decide (id ∈ map s_id (t_servers (d_pool db))) end in
  bool_decide (r_desired_mode r ∈ modes)
  && from_option (fun m => bool_decide (m ∈ modes)) true (r_applied_mode r)
  && bool_decide (r_selective_default r ∈ ["direct"; "vpn"])
  && bool_decide (r_server_mode r ∈ ["auto"; "fixed"])
  && bool_decide (r_apply_state r ∈ ["clean"; "pending"; "applying"; "failed"])
  && refers (r_desired_fixed r) && refers (r_applied_fixed r) && refers (r_active r).

(** [UPDATE routing_global_state SET ... WHERE id = 1]: the number of rows;
    IntegrityError when the new row breaks a constraint. *)
Definition update_routing (f : routing_row -> routing_row) : T nat :=
  db ← st_get;
  match d_routing db with
  | None => mret 0%nat
  | Some r => if routing_ok db (f r) then _ ← st_modify (with_routing (Some (f r))); mret 1%nat else st_raise
  end.

Definition write_audit_event (a : audit) : T unit :=
  st_modify (fun db => FenceDb (d_pool db) (d_routing db) (d_core db) (d_applies db) (d_audits db ++ [a])).

(** ** Reading *)

Section Fence.
Context `{ReprContainer}.

(** [None] is ValueError. *)
Definition _read_json_int (value : cell) : py Z :=
  match value with CJson (VInt n) => if n <? 0 then None else Some n | _ => None end.

Definition selection_revision (db : fence_db) : py Z :=
  match setting SELECTION_REVISION_KEY db with None => Some 0 | Some c => _read_json_int c end.

Definition read_selection_revision : T Z := db ← st_get; st_py (selection_revision db).

Record selection_fence := SelectionFence {
  f_revision : Z;
  f_active_server_id : option string;
  f_decision_id : option string;
  f_provenance_server_id : option string;
  f_routing_state_present : bool;
}.

#[export] Instance selection_fence_eq_dec : EqDecision selection_fence.
Proof. solve_decision. Defined.

(** [str(v or "").strip() or None]. *)
Definition nonblank (v : pyval) : option string :=
  let t := py_strip (text_or_blank v) in if String.eqb t "" then None else Some t.

(** [json.loads] of the provenance cell; [None] is ValueError. *)
Definition provenance_of (c : option cell) : py dict :=
  match c with None => Some [] | Some (CJson (VDict d)) => Some d | Some _ => None end.

(** The three SELECTs and what is made of their rows. *)
Definition build_fence (routing : option routing_row) (provenance revision : option cell) : py selection_fence :=
  provenance ← provenance_of provenance;
  revision ← match revision with None => Some 0 | Some c => _read_json_int c end;
  Some (SelectionFence revision (routing ≫= fun r => nonblank (vopt (r_active r)))
    (nonblank (dget "decision_id" provenance)) (nonblank (dget "selected_server_id" provenance)) (is_set routing)).

(** The fence of one database. *)
Definition fence_of (db : fence_db) : py selection_fence :=
  build_fence (d_routing db) (setting SELECTION_PROVENANCE_KEY db) (setting SELECTION_REVISION_KEY db).

(** ** Writing *)

Definition put_revision (n : Z) : T unit := put_setting SELECTION_REVISION_KEY (VInt n).

Definition advance_selection_revision (expected_revision : option Z) : T (option Z) :=
  current ← read_selection_revision;
  if match expected_revision with Some e => negb (current =? e) | None => false end then mret None
  else
    _ ← put_revision (current + 1);
    mret (Some (current + 1)).

Definition set_active (server_id : option string) (r : routing_row) : routing_row :=
  RoutingRow (r_desired_mode r) (r_applied_mode r) (r_selective_default r) (r_server_mode r) (r_desired_fixed r)
    (r_applied_fixed r) (r_fixed_until r) server_id (r_apply_state r) (r_error_code r) (r_error_message r).

(** What a commit is bound to. *)
Record expectation := Expectation {
  e_revision : Z;
  e_active_server_id : option string;
  e_decision_id : option string;
}.

Definition commit_active_selection (e : expectation) (server_id : string) (provenance : dict) : T (option Z) :=
  current_revision ← read_selection_revision;
  if negb (current_revision =? e_revision e) then mret None
  else
    db ← st_get;
    match d_routing db with
    | None => mret None
    | Some row =>
        let current_active := py_strip (text_or_blank (vopt (r_active row))) in
        let expected_active := py_strip (text_or_blank (vopt (e_active_server_id e))) in
        if negb (String.eqb current_active expected_active) then mret None
        else
          match provenance_of (setting SELECTION_PROVENANCE_KEY db) with
          | None => mret None
          | Some current_provenance =>
              if negb (bool_decide (nonblank (dget "decision_id" current_provenance) = nonblank (vopt (e_decision_id e)))) then mret None
              else
                updated ← update_routing (set_active (Some server_id));
                if negb (updated =? 1)%nat then mret None
                else
                  _ ← put_setting SELECTION_PROVENANCE_KEY (VDict provenance);
                  _ ← put_revision (current_revision + 1);
                  mret (Some (current_revision + 1))
          end
    end.

(** ** Imported routing intent *)

(** A bound parameter of a TEXT column; a container cannot be bound. *)
Definition bind_text (v : pyval) : py (option string) :=
  match v with VList _ | VDict _ => None | _ => Some (sql_text (sql_value v)) end.

(** NOT NULL. *)
Definition required (o : option string) : py string := o.

Definition new_routing : routing_row :=
  RoutingRow "direct" (Some "direct") "direct" "auto" None None None None "pending" None None.

Definition server_mode_text (o : option string) : string := let s := default "" o in if String.eqb s "" then "auto" else s.

Definition imported_row (routing : dict) (active : option string) : py routing_row :=
  desired ← bind_text (dget "desired_mode" routing); desired ← required desired;
  applied ← bind_text (dget "applied_mode" routing);
  selective ← bind_text (dget "selective_default" routing); selective ← required selective;
  mode ← bind_text (dget "server_mode" routing); mode ← required mode;
  desired_fixed ← bind_text (dget "desired_fixed_server_id" routing);
  applied_fixed ← bind_text (dget "applied_fixed_server_id" routing);
  until_ ← bind_text (dget "fixed_server_until" routing);
  apply_state ← bind_text (dget "apply_state" routing); apply_state ← required apply_state;
  error_code ← bind_text (dget "error_code" routing);
  error_message ← bind_text (dget "error_message" routing);
  Some (RoutingRow desired applied selective mode desired_fixed applied_fixed until_ active apply_state error_code error_message).

Definition update_imported_routing_intent (routing : dict) (preserved_active_server_id : option string) : T (option Z) :=
  db ← st_get;
  _ ← (if is_set (d_routing db) then mret tt else st_modify (with_routing (Some new_routing)));
  db ← st_get;
  let current := default new_routing (d_routing db) in
  let preserved := default "" preserved_active_server_id in
  if negb (String.eqb preserved "") && negb (bool_decide (preserved ∈ map s_id (t_servers (d_pool db)))) then mret None
  else
    let changed_policy :=
      negb (String.eqb (server_mode_text (Some (r_server_mode current))) (py_str (por (dget "server_mode" routing) (VStr "auto")))) in
    new ← st_py (imported_row routing (match preserved_active_server_id with Some p => Some p | None => r_active current end));
    _ ← update_routing (fun _ => new);
    mret (Some (if changed_policy then 1 else 0)).

(** ** The exclusive source *)

Definition is_lower_hex (c : ascii) : bool := is_digit c || between 97 102 c.

(** [^src:[0-9a-f]{64}$] with fullmatch. *)
Definition is_source_ref (s : string) : bool :=
  match s with
  | String "s" (String "r" (String "c" (String ":" hex))) => (String.length hex =? 64)%nat && all_chars is_lower_hex hex
  | _ => false
  end.

(** The source the setting names; [{}] for a text that is not JSON. *)
Definition setting_source (c : option cell) : option string :=
  let value := match c with Some (CJson v) => v | _ => VNone end in
  let ref := match value with VDict d => py_strip (text_or_blank (dget "source_ref" d)) | _ => "" end in
  if is_source_ref ref then Some ref else None.

Definition get_vpn_auto_exclusive_source_ref (db : fence_db) : option string :=
  setting_source (setting VPN_AUTO_EXCLUSIVE_SETTING_KEY db).

(** The transaction of [save_vpn_auto_exclusive_source_ref], after the row
    has been read and found to differ. *)
Definition save_exclusive_tx (normalized previous : option string) (requested_by : string) : T (option Z) :=
  _ ← match normalized with
      | None => delete_setting VPN_AUTO_EXCLUSIVE_SETTING_KEY
      | Some ref => put_setting VPN_AUTO_EXCLUSIVE_SETTING_KEY (VDict [("source_ref", VStr ref)])
      end;
  revision ← advance_selection_revision None;
  _ ← write_audit_event (Audit requested_by "api" "vpn_auto_exclusive_changed" "subscription.vpn_auto_exclusive_changed"
        "subscription_source" (match normalized, previous with Some r, _ => r | None, Some r => r | None, None => "vpn-auto" end)
        [("source_ref", vopt previous)] [("source_ref", vopt normalized)]);
  mret revision.

(** [validate_exclusive_source]; [has_url] is whether
    [_subscription_url_for_source_ref] finds one. *)
Definition validate_exclusive_source (has_url : string -> bool) (source_ref : string) (db : fence_db) : dict :=
  let normalized := py_strip source_ref in
  let invalid code := [("ok", VBool false); ("error_code", VStr code)] in
  if negb (is_source_ref normalized) then invalid "SUBSCRIPTION_SOURCE_REF_INVALID"
  else if negb (has_url normalized) then invalid "SUBSCRIPTION_SOURCE_NOT_FOUND"
  else
    match find (fun b => String.eqb (b_source b) normalized && b_enabled b) (t_bindings (d_pool db)) with
    | Some binding =>
        let root_id := py_strip (b_logical binding) in
        if negb (existsb (fun s => String.eqb (s_id s) root_id && String.eqb (s_state s) "active") (t_servers (d_pool db)))
        then invalid "PROVIDER_ROOT_UNAVAILABLE"
        else [("ok", VBool true); ("source_ref", VStr normalized); ("provider_managed", VBool true);
              ("logical_server_id", VStr root_id)]
    | None =>
        if negb (existsb (fun s => existsb (fun m => String.eqb (m_source m) normalized && m_active m)
                                     (source_memberships_sql (d_pool db) s)) (t_servers (d_pool db)))
        then invalid "SUBSCRIPTION_SOURCE_HAS_NO_ACTIVE_INVENTORY"
        else [("ok", VBool true); ("source_ref", VStr normalized); ("provider_managed", VBool false)]
    end.

(** Under the writer's guard, so that the checks and the transaction see one database. *)
Definition save_vpn_auto_exclusive_source_ref (has_url : string -> bool) (source_ref : option string) (requested_by : string)
    : T dict :=
  db ← st_get;
  let normalized := nonblank (vopt source_ref) in
  let validation := from_option (fun ref => validate_exclusive_source has_url ref db) [("ok", VBool true)] normalized in
  if negb (truthy (dget "ok" validation)) then mret validation
  else
    let previous := setting_source (setting VPN_AUTO_EXCLUSIVE_SETTING_KEY db) in
    if bool_decide (previous = normalized)
    then mret [("ok", VBool true); ("changed", VBool false); ("source_ref", vopt normalized)]
    else
      revision ← save_exclusive_tx normalized previous requested_by;
      mret [("ok", VBool true); ("changed", VBool true); ("previous_source_ref", vopt previous);
            ("source_ref", vopt normalized); ("selection_revision", vint revision)].

(** ** The Core revision *)

(** [None] is ValueError. *)
Definition core_intent_revision (db : fence_db) : py Z :=
  match setting CORE_INTENT_REVISION_KEY db with Some c => _read_json_int c | None => None end.

Definition read_core_intent_revision : T Z := db ← st_get; st_py (core_intent_revision db).

(** The compare of the UPDATE is on the text of the value just read. *)
Definition advance_core_intent_revision : T Z :=
  current ← read_core_intent_revision;
  _ ← put_setting CORE_INTENT_REVISION_KEY (VInt (current + 1));
  mret (current + 1).

Definition assert_core_intent_snapshot_current (expected_revision : Z) (snapshot : option (string * string * string)) : T bool :=
  current ← read_core_intent_revision;
  if negb (current =? expected_revision) then mret false
  else db ← st_get; mret (is_set (d_core db) && is_set snapshot && bool_decide (d_core db = snapshot)).

Definition assert_core_intent_current (expected_revision : Z) (require_pending : bool) : T bool :=
  current ← read_core_intent_revision;
  if negb (current =? expected_revision) then mret false
  else
    db ← st_get;
    match d_core db with
    | None => mret false
    | Some (desired, lifecycle, apply_state) =>
        if negb (String.eqb desired "enabled" && String.eqb lifecycle "managed") then mret false
        else if require_pending && negb (String.eqb apply_state "pending") then mret false
        else
          match setting "core.bypass" db with
          | None => mret true
          | Some (CJson (VDict bypass)) =>
              match dict_lookup "enabled" bypass with
              | None | Some (VBool false) => mret true
              | Some _ => mret false
              end
          | Some _ => mret false
          end
    end.
(** ** The signature of the pool

    The digest of what decides eligibility; [sha256_json v] is the SHA-256 of
    the JSON text of [v]. *)
Definition volatile_keys : list string := ["history"; "alive"; "delay"; "last-test"; "last_test"; "lasttest"].

Definition _selection_relevant_server_raw (raw : pyval) : pyval :=
  match raw with
  | VDict d => sort_keys (VDict (List.filter (fun kv => negb (bool_decide (py_lower (py_strip kv.1) ∈ volatile_keys))) d))
  | _ => sort_keys raw
  end.

Definition cell_text (c : cell) : string :=
  match c with CNull => "None" | CJson v => json_compact v | CText s => s end.

Section Signature.
Context (sha256_json : pyval -> string) (db : fence_db).

Definition pool_row (s : server_row) (b : option binding_row) : pyval :=
  VList [VStr (s_id s); VStr (sha256_json (_selection_relevant_server_raw (s_raw s)));
         VInt (from_option p_priority 0 (preferences_of (d_pool db) s));
         VStr (from_option b_provider "" b); VStr (from_option b_resource "" b); VStr (from_option b_protocol "" b);
         VInt (if is_set b then 1 else 0)].

Definition pool_rows : list pyval :=
  flat_map (fun s =>
    let bindings := sort_on (fun b => [KText (b_source b)])
      (List.filter (fun b => String.eqb (b_logical b) (s_id s) && b_enabled b) (t_bindings (d_pool db))) in
    match bindings with
    | [] => [pool_row s None]
    | _ => map (fun b => pool_row s (Some b)) bindings
    end)
    (sort_on (fun s => [KText (s_id s)]) (List.filter (auto_eligible_sql (d_pool db) true) (t_servers (d_pool db)))).

Definition provider_member_value (n : provider_member_row) : pyval :=
  VList [VStr (n_source n); VStr (n_member n); VStr (n_location n); VStr (n_protocol n); VStr (n_status n);
         VStr (n_status_source n); VInt (n_auto_enabled n); VInt (n_priority n); VInt (n_advertised n)].

Definition provider_member_rows : list provider_member_row :=
  sort_on (fun n => [KText (n_source n); KText (n_member n); KText (n_location n); KText (n_protocol n)])
    (List.filter (fun n => bound (d_pool db) (n_source n)) (t_provider_members (d_pool db))).

Definition selection_pool_signature : string :=
  sha256_json (VList (pool_rows ++
    [VList [VStr "exclusive"; VStr (from_option cell_text "" (setting VPN_AUTO_EXCLUSIVE_SETTING_KEY db))];
     VList [VStr "server_mode"; VStr (server_mode_text (r_server_mode <$> d_routing db))];
     VList [VStr "provider_members"; VList (map provider_member_value provider_member_rows)]])).
End Signature.
End Fence.
