(* ===== verification/SelectionFenceFacts.v ===== *)
(** * The selection fence is a compare-and-set register

    The commit of a selection refines a compare-and-set on the fence; under
    every interleaving of the operations on the fence, a stale expectation
    never commits, so that of several decisions taken from one fence at most
    one is persisted. *)
From stdpp Require Import base list strings gmap relations.
From Stdlib Require Import ZArith Lia Ascii.
From S2P Require Import Prelude PyStr PyKey PyVal PyState AutoPool SelectorCandidates SelectorRank SelectionFence.

Open Scope string_scope.
Open Scope Z_scope.
Open Scope list_scope.

Section Facts.
Context `{ReprContainer}.

(** ** Settings *)

Lemma setting_put key key' v db :
  setting key (with_settings <[key' := CJson v]> db) = if String.eqb key key' then Some (CJson v) else setting key db.
Proof.
  unfold setting. cbn. destruct (String.eqb_spec key key') as [->|Hne]; [apply lookup_insert_eq|].
  by rewrite lookup_insert_ne.
Qed.

Lemma setting_delete key key' db :
  setting key (with_settings (delete key') db) = if String.eqb key key' then None else setting key db.
Proof.
  unfold setting. cbn. destruct (String.eqb_spec key key') as [->|Hne]; [apply lookup_delete_eq|].
  by rewrite lookup_delete_ne.
Qed.

Lemma nonblank_eq v w : nonblank v = nonblank w <-> py_strip (text_or_blank v) = py_strip (text_or_blank w).
Proof.
  unfold nonblank. destruct (String.eqb_spec (py_strip (text_or_blank v)) "") as [->|], (String.eqb_spec (py_strip (text_or_blank w)) "") as [->|];
    split; intros E; congruence.
Qed.

(** ** The commit *)

(** What a commit expects is what it finds. *)
Definition expects (e : expectation) (f : selection_fence) : bool :=
  f_routing_state_present f && (f_revision f =? e_revision e)
  && bool_decide (f_active_server_id f = nonblank (vopt (e_active_server_id e)))
  && bool_decide (f_decision_id f = nonblank (vopt (e_decision_id e))).

(** The abstract register: a fence replaced by the next one. *)
Definition compare_and_set_fence (e : expectation) (server_id : string) (provenance : dict) (f : selection_fence)
    : option selection_fence :=
  if expects e f
  then Some (SelectionFence (f_revision f + 1) (nonblank (VStr server_id)) (nonblank (dget "decision_id" provenance))
               (nonblank (dget "selected_server_id" provenance)) true)
  else None.

(** The database after a commit. *)
Definition committed (server_id : string) (provenance : dict) (n : Z) (db : fence_db) : fence_db :=
  with_settings <[SELECTION_REVISION_KEY := CJson (VInt n)]>
    (with_settings <[SELECTION_PROVENANCE_KEY := CJson (VDict provenance)]>
      (with_routing (set_active (Some server_id) <$> d_routing db) db)).

Lemma fence_inv db f : fence_of db = Some f ->
  selection_revision db = Some (f_revision f) /\
  (exists p, provenance_of (setting SELECTION_PROVENANCE_KEY db) = Some p /\ f_decision_id f = nonblank (dget "decision_id" p) /\
             f_provenance_server_id f = nonblank (dget "selected_server_id" p)) /\
  f_routing_state_present f = is_set (d_routing db) /\
  f_active_server_id f = d_routing db ≫= (fun r => nonblank (vopt (r_active r))).
Proof.
  unfold fence_of, build_fence, selection_revision.
  destruct (provenance_of _) as [p|]; [|done]. cbn [mbind option_bind].
  destruct (match setting SELECTION_REVISION_KEY db with None => _ | Some c => _ end) as [n|] eqn:En; [|done].
  cbn [mbind option_bind]. intros [= <-]. cbn. split; [done|]. split; [by exists p|done].
Qed.

(** A routing row of the table, for which a change of the active server to a
    known one breaks no constraint. *)
Lemma set_active_ok db r id : routing_ok db r = true -> id ∈ map s_id (t_servers (d_pool db)) ->
  routing_ok db (set_active (Some id) r) = true.
Proof.
  unfold routing_ok, set_active. cbn. intros Hr Hid. apply andb_prop in Hr as [Hr _]. rewrite Hr. by apply bool_decide_eq_true_2.
Qed.

Lemma set_active_unknown db r id : id ∉ map s_id (t_servers (d_pool db)) -> routing_ok db (set_active (Some id) r) = false.
Proof. unfold routing_ok, set_active. cbn. intros Hid. rewrite (bool_decide_eq_false_2 _ Hid). apply andb_false_r. Qed.

Lemma fence_committed db r id p n : d_routing db = Some r -> 0 <= n ->
  fence_of (committed id p n db) =
  Some (SelectionFence n (nonblank (VStr id)) (nonblank (dget "decision_id" p)) (nonblank (dget "selected_server_id" p)) true).
Proof.
  intros Hr Hn. unfold fence_of, committed. rewrite !setting_put. cbn. rewrite Hr. cbn. by rewrite (proj2 (Z.ltb_ge _ _) Hn).
Qed.

Lemma revision_nonneg db n : selection_revision db = Some n -> 0 <= n.
Proof.
  unfold selection_revision. destruct (setting _ _) as [[|[]|]|]; cbn; try done; [|by intros [= <-]].
  destruct (Z.ltb_spec n0 0); [done|]. by intros [= <-].
Qed.

(** A commit at the revision it expects, with a routing row. *)
Lemma commit_step e id p db n r d : selection_revision db = Some n -> d_routing db = Some r ->
  provenance_of (setting SELECTION_PROVENANCE_KEY db) = Some d ->
  commit_active_selection e id p db =
  if (n =? e_revision e) && bool_decide (nonblank (vopt (r_active r)) = nonblank (vopt (e_active_server_id e)))
     && bool_decide (nonblank (dget "decision_id" d) = nonblank (vopt (e_decision_id e)))
  then if routing_ok db (set_active (Some id) r) then (Some (Some (n + 1)), committed id p (n + 1) db) else (None, db)
  else (Some None, db).
Proof.
  intros Hn Hr Hd. unfold commit_active_selection, read_selection_revision.
  cbv [mbind st_bind st_get st_py mret st_ret]. rewrite Hn. destruct (n =? e_revision e); cbn [negb andb]; [|done].
  rewrite Hr. rewrite (bool_decide_ext _ _ (nonblank_eq (vopt (r_active r)) (vopt (e_active_server_id e)))).
  destruct (String.eqb_spec (py_strip (text_or_blank (vopt (r_active r)))) (py_strip (text_or_blank (vopt (e_active_server_id e)))))
    as [E|E]; cbn [negb]; [rewrite (bool_decide_eq_true_2 _ E)|by rewrite (bool_decide_eq_false_2 _ E)]. cbn [andb].
  rewrite Hd. case_bool_decide; cbn [negb]; [|done]. unfold update_routing. cbv [mbind st_bind st_get st_raise].
  rewrite Hr. destruct (routing_ok _ _); [|done]. cbv [mret st_ret st_modify]. cbn [Nat.eqb negb].
  unfold put_revision, put_setting, committed, st_modify. by rewrite Hr.
Qed.

Lemma commit_without_row e id p db n : selection_revision db = Some n -> d_routing db = None ->
  commit_active_selection e id p db = (Some None, db).
Proof.
  intros Hn Hr. unfold commit_active_selection, read_selection_revision. cbv [mbind st_bind st_get st_py mret st_ret].
  rewrite Hn. destruct (n =? e_revision e); cbn [negb]; [|done]. by rewrite Hr.
Qed.

(** C17: Committing a selection is a compare-and-set on the fence.  When the
    expectation is the fence the database has, a known server is written
    with its provenance and the next revision, and the new fence is what is
    read back; otherwise nothing changes and the caller is told; a server
    that does not exist raises and leaves the transaction to be rolled back. *)
Theorem commit_refines_compare_and_set e id p db f : fence_of db = Some f ->
  (forall r, d_routing db = Some r -> routing_ok db r = true) ->
  match compare_and_set_fence e id p f with
  | Some f' =>
      if bool_decide (id ∈ map s_id (t_servers (d_pool db)))
      then exists db', commit_active_selection e id p db = (Some (Some (f_revision f')), db') /\ fence_of db' = Some f'
      else commit_active_selection e id p db = (None, db)
  | None => commit_active_selection e id p db = (Some None, db)
  end.
Proof.
  intros Hf Hok. destruct (fence_inv db f Hf) as (Hrev & (d & Hd & Hdec & _) & Hpres & Hact).
  unfold compare_and_set_fence, expects. rewrite Hpres, Hact, Hdec.
  destruct (d_routing db) as [r|] eqn:Hr; cbn [is_set andb mbind option_bind]; [|by rewrite (commit_without_row e id p db _ Hrev Hr)].
  rewrite (commit_step e id p db _ r d Hrev Hr Hd). destruct (_ && _); [|done]. cbn [f_revision]. case_bool_decide as Hid.
  - rewrite (set_active_ok db r id (Hok r eq_refl) Hid). eexists. split; [reflexivity|].
    apply (fence_committed db r); [done|]. pose proof (revision_nonneg db _ Hrev). lia.
  - by rewrite (set_active_unknown db r id Hid).
Qed.

(** ** Every interleaving *)

(** A transaction that ends; one that raises is rolled back. *)
Definition runs {A} (m : T A) (db db' : fence_db) : Prop := exists a, m db = (Some a, db').

(** What the processes do to the fence: the operations of the module, and
    anything that leaves the revision alone. *)
Inductive selection_step (db db' : fence_db) : Prop :=
  | step_commit e id p : runs (commit_active_selection e id p) db db' -> selection_step db db'
  | step_advance expected : runs (advance_selection_revision expected) db db' -> selection_step db db'
  | step_import routing preserved : runs (update_imported_routing_intent routing preserved) db db' -> selection_step db db'
  | step_exclusive normalized previous by_ : runs (save_exclusive_tx normalized previous by_) db db' -> selection_step db db'
  | step_elsewhere : setting SELECTION_REVISION_KEY db' = setting SELECTION_REVISION_KEY db -> selection_step db db'.

(** The revision does not fall. *)
Definition not_older : relation fence_db := fun db db' =>
  forall n, selection_revision db = Some n -> exists n', selection_revision db' = Some n' /\ n <= n'.

#[export] Instance not_older_preorder : PreOrder not_older.
Proof.
  split.
  - intros db n Hn. exists n. split; [done|lia].
  - intros a b c Hab Hbc n Hn. destruct (Hab n Hn) as (m & Hm & ?). destruct (Hbc m Hm) as (k & Hk & ?). exists k. split; [done|lia].
Qed.

Lemma same_setting_not_older db db' : setting SELECTION_REVISION_KEY db' = setting SELECTION_REVISION_KEY db -> not_older db db'.
Proof. intros E n. unfold selection_revision. rewrite E. intros Hn. exists n. split; [done|lia]. Qed.

Lemma revision_put db n : 0 <= n -> selection_revision (with_settings <[SELECTION_REVISION_KEY := CJson (VInt n)]> db) = Some n.
Proof. intros Hn. unfold selection_revision. rewrite setting_put. cbn. by rewrite (proj2 (Z.ltb_ge _ _) Hn). Qed.
(** Every operation is a step of the revision; what ends leaves it no older. *)
Lemma advance_spec expected db :
  advance_selection_revision expected db =
  match selection_revision db with
  | None => (None, db)
  | Some n =>
      if match expected with Some e => negb (n =? e) | None => false end then (Some None, db)
      else (Some (Some (n + 1)), with_settings <[SELECTION_REVISION_KEY := CJson (VInt (n + 1))]> db)
  end.
Proof.
  unfold advance_selection_revision, read_selection_revision. cbv [mbind st_bind st_get st_py mret st_ret].
  destruct (selection_revision db) as [n|]; [|done]. by destruct (match expected with Some e => _ | None => _ end).
Qed.

Lemma advance_not_older expected db db' : runs (advance_selection_revision expected) db db' -> not_older db db'.
Proof.
  intros [a E] n Hn. rewrite advance_spec, Hn in E. pose proof (revision_nonneg db n Hn).
  destruct (match expected with Some e => _ | None => _ end); injection E as _ <-; [exists n; split; [done|lia]|].
  exists (n + 1). split; [apply revision_put; lia|lia].
Qed.

Lemma moves_update_routing f : moves (same (setting SELECTION_REVISION_KEY)) (update_routing f).
Proof.
  intros db. unfold update_routing. rewrite bind_unfold. unfold st_get. destruct (d_routing db) as [r|]; [|done].
  by destruct (routing_ok db (f r)).
Qed.

Lemma commit_cases e id p db :
  commit_active_selection e id p db = (None, db) \/ commit_active_selection e id p db = (Some None, db) \/
  exists r d, selection_revision db = Some (e_revision e) /\ d_routing db = Some r /\
    provenance_of (setting SELECTION_PROVENANCE_KEY db) = Some d /\
    nonblank (vopt (r_active r)) = nonblank (vopt (e_active_server_id e)) /\
    nonblank (dget "decision_id" d) = nonblank (vopt (e_decision_id e)) /\
    commit_active_selection e id p db = (Some (Some (e_revision e + 1)), committed id p (e_revision e + 1) db).
Proof.
  destruct (selection_revision db) as [m|] eqn:Hm.
  2: { left. unfold commit_active_selection, read_selection_revision. cbv [mbind st_bind st_get st_py]. by rewrite Hm. }
  destruct (d_routing db) as [r|] eqn:Hr; [|right; left; by apply (commit_without_row e id p db m)].
  destruct (provenance_of (setting SELECTION_PROVENANCE_KEY db)) as [d|] eqn:Hd.
  - rewrite (commit_step e id p db m r d Hm Hr Hd).
    destruct (Z.eqb_spec m (e_revision e)) as [->|]; cbn [andb]; [|by right; left].
    do 2 (case_bool_decide; cbn [andb]; [|by right; left]).
    destruct (routing_ok _ _); [|by left]. right; right. exists r, d. done.
  - right; left. unfold commit_active_selection, read_selection_revision. cbv [mbind st_bind st_get st_py mret st_ret].
    rewrite Hm. destruct (m =? e_revision e); cbn [negb]; [|done]. rewrite Hr, Hd. by destruct (String.eqb _ _).
Qed.

Lemma committed_revision id p n db : 0 <= n -> selection_revision (committed id p n db) = Some n.
Proof. apply revision_put. Qed.

Lemma commit_not_older e id p db db' : runs (commit_active_selection e id p) db db' -> not_older db db'.
Proof.
  intros [a E] n Hn. destruct (commit_cases e id p db) as [E'|[E'|(r & d & Hm & _ & _ & _ & _ & E')]]; rewrite E' in E; [done|..].
  - injection E as _ <-. exists n. split; [done|lia].
  - injection E as _ <-. rewrite Hn in Hm. injection Hm as ->. pose proof (revision_nonneg db _ Hn).
    exists (e_revision e + 1). split; [apply committed_revision; lia|lia].
Qed.

Lemma moves_modify f : (forall db, setting SELECTION_REVISION_KEY (f db) = setting SELECTION_REVISION_KEY db) ->
  preserves (setting SELECTION_REVISION_KEY) (st_modify f).
Proof. intros Hf db. apply Hf. Qed.

#[local] Hint Resolve moves_update_routing moves_modify : frame.

Lemma import_same routing preserved : preserves (setting SELECTION_REVISION_KEY) (update_imported_routing_intent routing preserved).
Proof.
  unfold update_imported_routing_intent. frame. by apply moves_modify.
Qed.

Lemma lower_hex_visible c : is_lower_hex c = true -> negb (is_space c) = true.
Proof. by destruct c as [[] [] [] [] [] [] [] []]. Qed.

Lemma source_ref_stripped ref : is_source_ref ref = true -> py_strip ref = ref.
Proof.
  intros Href. apply py_strip_no_space. unfold is_source_ref in Href.
  do 4 (match type of Href with context [match ?s with _ => _ end] => destruct s as [|[[] [] [] [] [] [] [] []] ?] end; try done).
  apply andb_prop in Href as [_ Hhex]. exact (all_chars_impl is_lower_hex _ _ lower_hex_visible Hhex).
Qed.

Lemma exclusive_saved normalized previous by_ db n :
  selection_revision db = Some n ->
  exists db', save_exclusive_tx normalized previous by_ db = (Some (Some (n + 1)), db') /\ selection_revision db' = Some (n + 1) /\
    setting VPN_AUTO_EXCLUSIVE_SETTING_KEY db' = (fun ref => CJson (VDict [("source_ref", VStr ref)])) <$> normalized /\
    d_routing db' = d_routing db /\ t_servers (d_pool db') = t_servers (d_pool db).
Proof.
  intros Hn. pose proof (revision_nonneg db n Hn). unfold save_exclusive_tx. rewrite bind_unfold.
  set (f := match normalized with None => delete VPN_AUTO_EXCLUSIVE_SETTING_KEY
            | Some ref => <[VPN_AUTO_EXCLUSIVE_SETTING_KEY := CJson (VDict [("source_ref", VStr ref)])]> end : gmap string cell -> gmap string cell).
  assert (Ef : (match normalized with None => delete_setting VPN_AUTO_EXCLUSIVE_SETTING_KEY
                | Some ref => put_setting VPN_AUTO_EXCLUSIVE_SETTING_KEY (VDict [("source_ref", VStr ref)]) end) db
               = (Some tt, with_settings f db)) by (unfold f; by destruct normalized).
  rewrite Ef, bind_unfold, advance_spec.
  assert (Hn' : selection_revision (with_settings f db) = Some n).
  { unfold selection_revision, f in *. by destruct normalized; rewrite ?setting_put, ?setting_delete. }
  rewrite Hn', bind_unfold. cbv [write_audit_event st_modify mret st_ret].
  eexists. split; [reflexivity|]. split_and!; [|..|done|done].
  - change (selection_revision (with_settings <[SELECTION_REVISION_KEY := CJson (VInt (n + 1))]> (with_settings f db)) = Some (n + 1)).
    apply revision_put. lia.
  - change (setting VPN_AUTO_EXCLUSIVE_SETTING_KEY (with_settings <[SELECTION_REVISION_KEY := CJson (VInt (n + 1))]> (with_settings f db))
      = (fun ref => CJson (VDict [("source_ref", VStr ref)])) <$> normalized).
    unfold f. by destruct normalized; rewrite ?setting_put, ?setting_delete.
Qed.

Lemma step_not_older db db' : selection_step db db' -> not_older db db'.
Proof.
  intros [e id p Hr|expected Hr|routing preserved [a E]|normalized previous by_ [a E]|E].
  - by eapply commit_not_older.
  - by eapply advance_not_older.
  - apply same_setting_not_older. by apply (moves_run _ _ _ _ _ (import_same routing preserved) E).
  - intros n Hn. destruct (exclusive_saved normalized previous by_ db n Hn) as (db2 & E2 & Hn2 & _). rewrite E2 in E.
    injection E as _ <-. exists (n + 1). split; [done|lia].
  - by apply same_setting_not_older.
Qed.

Lemma steps_not_older db db' : rtc selection_step db db' -> not_older db db'.
Proof. induction 1 as [|a b c Hab _ IH]; [reflexivity|]. transitivity b; [by apply step_not_older|done]. Qed.

(** An expectation older than the database never commits. *)
Lemma stale_never_commits e id p db n k db' : selection_revision db = Some n -> e_revision e < n ->
  commit_active_selection e id p db <> (Some (Some k), db').
Proof.
  intros Hn Hlt E. destruct (commit_cases e id p db) as [E'|[E'|(r & d & Hm & _)]]; [congruence..|].
  rewrite Hn in Hm. injection Hm as ->. lia.
Qed.

(** C14: Whatever commits, advances, imports and other writers do in between
    and in whatever order, of two selections decided from the same revision
    at most one is persisted: after the first has committed the second is
    refused. *)
Theorem one_commit_per_revision e1 id1 p1 n db db1 e2 id2 p2 db2 k db3 :
  commit_active_selection e1 id1 p1 db = (Some (Some n), db1) -> rtc selection_step db1 db2 ->
  e_revision e2 = e_revision e1 ->
  commit_active_selection e2 id2 p2 db2 <> (Some (Some k), db3).
Proof.
  intros E Hsteps Heq.
  destruct (commit_cases e1 id1 p1 db) as [E'|[E'|(r & d & Hm & _ & _ & _ & _ & E')]]; [congruence..|].
  rewrite E' in E. injection E as _ <-. pose proof (revision_nonneg db _ Hm).
  destruct (steps_not_older _ _ Hsteps (e_revision e1 + 1)) as (m & Hm2 & Hle); [apply committed_revision; lia|].
  apply (stale_never_commits e2 id2 p2 db2 m); [done|lia].
Qed.

(** Choosing an exclusive source is durable and fences off what was
    decided before it: what is saved is what is read back, it is the pool's
    setting from then on, and no selection decided from an earlier revision
    commits afterwards. *)
Theorem exclusive_source_fences ref previous by_ db n : selection_revision db = Some n -> is_source_ref ref = true ->
  exists db1, save_exclusive_tx (Some ref) previous by_ db = (Some (Some (n + 1)), db1) /\
    get_vpn_auto_exclusive_source_ref db1 = Some ref /\
    exclusive_setting (d_pool db1) (Some ref) /\
    forall e id p db2 k db3, e_revision e <= n -> rtc selection_step db1 db2 ->
      commit_active_selection e id p db2 <> (Some (Some k), db3).
Proof.
  intros Hn Href. assert (Hstrip := source_ref_stripped ref Href). destruct (exclusive_saved (Some ref) previous by_ db n Hn) as (db1 & E & Hn1 & Hset & _).
  assert (Hval : setting VPN_AUTO_EXCLUSIVE_SETTING_KEY db1 = Some (CJson (VDict [("source_ref", VStr ref)]))) by exact Hset.
  exists db1. split; [done|]. split_and!.
  - unfold get_vpn_auto_exclusive_source_ref, setting_source. rewrite Hval.
    assert (Htext : text_or_blank (dget "source_ref" [("source_ref", VStr ref)]) = ref) by (by destruct ref).
    by rewrite Htext, Hstrip, Href.
  - unfold setting in Hval. split; [|done]. unfold exclusive_source_ref, exclusive_source_ref_sql. by rewrite Hval.
  - intros e id p db2 k db3 He Hsteps. destruct (steps_not_older _ _ Hsteps (n + 1) Hn1) as (m & Hm & Hle).
    apply (stale_never_commits e id p db2 m); [done|lia].
Qed.
End Facts.
