(* ===== verification/FenceSession.v ===== *)
(** * A service at work on the database of the fence

    The database with its schedule, and the trace of everything asked of the
    other services, whose questions are a type of the client.  A database
    session is one transaction when it writes and one access per SELECT
    before that; before every access other processes may have done anything,
    and it may raise.  What changes a service makes itself is a relation on
    databases ([evolves]), which may depend on what the service has been told
    since some point ([proceeds], [knowing]). *)
From stdpp Require Import base list strings gmap relations.
From S2P Require Import Prelude PyStr PyVal PyState AutoPool SelectorCandidates SelectorRank SelectionFence.

Open Scope list_scope.

(** ** The state *)

Record turn := Turn { t_others : fence_db -> fence_db; t_ok : bool }.

Definition quiet : turn := Turn (fun db => db) true.

(** [A] is the type of the requests. *)
Record session (A : Type) := Selector { x_db : fence_db; x_turns : list turn; x_asked : list A }.
Arguments Selector {A} _ _ _.
Arguments x_db {A} _.
Arguments x_turns {A} _.
Arguments x_asked {A} _.

Section Session.
Context {Ask : Type}.

Definition take_turn (s : session Ask) : turn * fence_db * list turn :=
  match x_turns s with
  | [] => (quiet, x_db s, [])
  | t :: rest => (t, t_others t (x_db s), rest)
  end.

(** A transaction: an exception rolls it back. *)
Definition transaction {A} (body : T A) : st (session Ask) A := fun s =>
  let '(t, db, rest) := take_turn s in
  if t_ok t then
    match body db with
    | (Some a, db') => (Some a, Selector db' rest (x_asked s))
    | (None, _) => (None, Selector db rest (x_asked s))
    end
  else (None, Selector db rest (x_asked s)).

(** One SELECT. *)
Definition read_db {A} (f : fence_db -> A) : st (session Ask) A := transaction (fun db => (Some (f db), db)).

Definition answer {A} (a : Ask) (f : list Ask -> A) : st (session Ask) A := fun s =>
  let asked := a :: x_asked s in (Some (f asked), Selector (x_db s) (x_turns s) asked).

Definition answer_py {A} (a : Ask) (f : list Ask -> py A) : st (session Ask) A := fun s =>
  let asked := a :: x_asked s in (f asked, Selector (x_db s) (x_turns s) asked).

End Session.

(** ** Nobody else runs *)

Section Alone.
Context {Ask : Type}.

Lemma read_alone {A} (f : fence_db -> A) db (l : list Ask) : read_db f (Selector db [] l) = (Some (f db), Selector db [] l).
Proof. done. Qed.

(** A transaction of one's own: it commits, or raises and changes nothing. *)
Lemma transaction_alone {A} (body : T A) db (l : list Ask) :
  transaction body (Selector db [] l) =
  match body db with (Some x, db') => (Some x, Selector db' [] l) | (None, _) => (None, Selector db [] l) end.
Proof. done. Qed.

Definition undisturbed (db : fence_db) (s : session Ask) : Prop := x_turns s = [] /\ x_db s = db.
End Alone.

(** ** Whoever else runs *)

(** One change of the database while the schedule [ts] is used: by another
    process, or by the service itself, which only makes [own] changes. *)
Definition change (own : relation fence_db) (ts : list turn) : relation fence_db := fun db db' =>
  own db db' \/ exists t, t ∈ ts /\ db' = t_others t db.

(** The service got from [s] to [s'] using the schedule's first turns. *)
Definition evolves {Ask} (own : relation fence_db) : relation (session Ask) := fun s s' =>
  exists used, x_turns s = used ++ x_turns s' /\ rtc (change own used) (x_db s) (x_db s').

Section Evolves.
Context {Ask : Type} (own : relation fence_db).

Lemma change_mono ts ts' db db' : (forall t, t ∈ ts -> t ∈ ts') -> change own ts db db' -> change own ts' db db'.
Proof. intros Hts [Ho|(t & Ht & ->)]; [by left|right; eauto]. Qed.

Lemma changes_mono ts ts' db db' : (forall t, t ∈ ts -> t ∈ ts') -> rtc (change own ts) db db' -> rtc (change own ts') db db'.
Proof. intros Hts Hr. eapply rtc_subrel; [|exact Hr]. intros ??. by apply change_mono. Qed.

#[export] Instance evolves_preorder : PreOrder (@evolves Ask own).
Proof.
  split.
  - intros s. exists []. by split; [|constructor].
  - intros s1 s2 s3 (u & Hu & Hr) (v & Hv & Hq). exists (u ++ v). split; [by rewrite Hu, Hv, app_assoc|].
    transitivity (x_db s2); eapply changes_mono; try eassumption; intros t Ht; set_solver.
Qed.

Lemma evolves_answer {A} (a : Ask) (f : list Ask -> A) : moves (evolves own) (answer a f).
Proof. intros s. exists []. by split; [|constructor]. Qed.

Lemma evolves_answer_py {A} (a : Ask) (f : list Ask -> py A) : moves (evolves own) (answer_py a f).
Proof. intros s. exists []. by split; [|constructor]. Qed.

(** The transaction is the service's own change. *)
Lemma evolves_transaction {A} (body : T A) :
  (forall db x db', body db = (Some x, db') -> rtc own db db') -> moves (evolves own) (transaction (Ask := Ask) body).
Proof.
  intros Hb [db [|t rest] l]; unfold transaction, take_turn; cbn.
  - exists []. split; [by destruct (body db) as [[] ?]|].
    destruct (body db) as [[x|] db'] eqn:E; cbn; [|done].
    eapply rtc_subrel; [|exact (Hb _ _ _ E)]. intros ???. by left.
  - exists [t]. assert (Ht : rtc (change own [t]) db (t_others t db)).
    { apply rtc_once. right. exists t. split; [set_solver|done]. }
    destruct (t_ok t); [|by split].
    destruct (body (t_others t db)) as [[x|] db'] eqn:E; cbn; [|by split]. split; [done|].
    etrans; [exact Ht|]. eapply rtc_subrel; [|exact (Hb _ _ _ E)]. intros ???. by left.
Qed.

Lemma evolves_read {A} (f : fence_db -> A) : moves (evolves own) (read_db (Ask := Ask) f).
Proof. apply evolves_transaction. intros db x db' [= <- <-]. done. Qed.

(** What no change breaks holds at the end. *)
Lemma evolves_invariant (I : fence_db -> Prop) (s s' : session Ask) :
  evolves own s s' -> (forall db db', own db db' -> I db -> I db') -> (forall t, t ∈ x_turns s -> forall db, I db -> I (t_others t db)) ->
  I (x_db s) -> I (x_db s').
Proof.
  intros (used & Hu & Hr) Hown Hothers. rewrite Hu in Hothers. clear Hu. induction Hr as [|d d' d'' Hs _ IH]; [done|].
  intros HI. apply IH. destruct Hs as [Ho|(t & Ht & ->)]; [by eapply Hown|]. apply Hothers; [|done]. set_solver.
Qed.
End Evolves.

#[export] Hint Resolve evolves_preorder evolves_answer evolves_answer_py evolves_read : frame.

(** ** Changes that depend on what was asked *)

(** Whatever [since] the request was put, it was answered [a] then. *)
Definition told {Ask A} (since asked : list Ask) (q : Ask) (f : list Ask -> A) (a : A) : Prop :=
  exists l, since `suffix_of` l /\ q :: l `suffix_of` asked /\ f (q :: l) = a.

(** What is allowed once stays allowed as more is asked. *)
Class Grows {Ask} (own : list Ask -> relation fence_db) : Prop :=
  grows : forall l l' db db', l `suffix_of` l' -> own l db db' -> own l' db db'.

Class Lasting {Ask} (Q : list Ask -> Prop) : Prop := lasting : forall l l', l `suffix_of` l' -> Q l -> Q l'.

#[export] Instance told_lasting {Ask A} since (q : Ask) (f : list Ask -> A) a : Lasting (fun l => told since l q f a).
Proof. intros l l' Hl (l0 & Hs & Hq & E). exists l0. split; [done|]. split; [by etrans|done]. Qed.

#[export] Instance and_lasting {Ask} (P Q : list Ask -> Prop) `{!Lasting P} `{!Lasting Q} : Lasting (fun l => P l /\ Q l).
Proof. intros l l' Hl [HP HQ]. split; by eapply lasting. Qed.

#[export] Instance true_lasting {Ask} : Lasting (fun _ : list Ask => True).
Proof. by intros ????. Qed.

#[export] Instance const_lasting {Ask} (X : Prop) : Lasting (fun _ : list Ask => X).
Proof. by intros ????. Qed.

(** No change of one's own. *)
Definition none : relation fence_db := fun _ _ => False.

(** Only the others change anything. *)
Definition reading {Ask} : relation (session Ask) := fun s s' => x_asked s `suffix_of` x_asked s' /\ evolves none s s'.

(** From a state after [since], the service's own changes are ones the
    requests put up to then allow. *)
Definition proceeds {Ask} (own : list Ask -> relation fence_db) (since : list Ask) : relation (session Ask) := fun s s' =>
  since `suffix_of` x_asked s -> x_asked s `suffix_of` x_asked s' /\ evolves (own (x_asked s')) s s'.

Lemma evolves_mono {Ask} (own own' : relation fence_db) (s s' : session Ask) :
  (forall db db', own db db' -> own' db db') -> evolves own s s' -> evolves own' s s'.
Proof.
  intros Ho (used & Hu & Hr). exists used. split; [exact Hu|]. eapply rtc_subrel; [|exact Hr]. intros d d' [H|H]; [left; auto|by right].
Qed.

#[export] Instance reading_preorder {Ask} : PreOrder (@reading Ask).
Proof.
  split; [by intros s|]. intros s1 s2 s3 [A12 E12] [A23 E23]. split; [by etrans|by etrans].
Qed.

Section Proceeds.
Context {Ask : Type} (own : list Ask -> relation fence_db) (since : list Ask) `{!Grows own}.

#[export] Instance proceeds_preorder : PreOrder (proceeds own since).
Proof.
  split; [by intros s _|]. intros s1 s2 s3 H12 H23 Hs. destruct (H12 Hs) as [A12 E12]. destruct H23 as [A23 E23]; [by etrans|].
  split; [by etrans|]. etrans; [|exact E23]. eapply evolves_mono; [|exact E12]. intros db db'. by apply grows.
Qed.

Lemma reading_proceeds s s' : reading s s' -> proceeds own since s s'.
Proof. intros [Ha He] _. split; [exact Ha|]. eapply evolves_mono; [|exact He]. done. Qed.

Lemma reads_proceed {A} (m : st (session Ask) A) : moves reading m -> moves (proceeds own since) m.
Proof. intros Hm s. apply reading_proceeds, Hm. Qed.

(** The same from the states whose requests are as [Q] says. *)
Definition knowing {A} (Q : list Ask -> Prop) (m : st (session Ask) A) : Prop := forall s, Q (x_asked s) -> proceeds own since s (m s).2.

Lemma knowing_moves {A} (Q : list Ask -> Prop) (m : st (session Ask) A) : moves (proceeds own since) m -> knowing Q m.
Proof. intros Hm s _. apply Hm. Qed.

Lemma moves_knowing {A} (m : st (session Ask) A) : knowing (fun _ => True) m -> moves (proceeds own since) m.
Proof. intros Hm s. by apply Hm. Qed.

(** A step that leaves a value of which [X] holds. *)
Lemma knowing_bind {A B} (Q : list Ask -> Prop) `{!Lasting Q} (X : A -> list Ask -> Prop) (m : st (session Ask) A) (k : A -> st (session Ask) B) :
  knowing Q m -> (forall s a s', since `suffix_of` x_asked s -> m s = (Some a, s') -> X a (x_asked s')) ->
  (forall a, knowing (fun l => Q l /\ X a l) (k a)) -> knowing Q (m ≫= k).
Proof.
  intros Hm HX Hk s HQ Hs. specialize (Hm s HQ Hs). rewrite bind_unfold. destruct (m s) as [[a|] s1] eqn:E; [|exact Hm].
  destruct Hm as [A1 E1]. refine (transitivity (R := proceeds own since) (y := s1) (fun _ => conj A1 E1) _ Hs).
  apply Hk. split; [by eapply lasting|by eapply HX].
Qed.

Lemma knowing_step {A B} (Q : list Ask -> Prop) `{!Lasting Q} (m : st (session Ask) A) (k : A -> st (session Ask) B) :
  moves (proceeds own since) m -> (forall a, knowing Q (k a)) -> knowing Q (m ≫= k).
Proof.
  intros Hm Hk. apply (knowing_bind Q (fun _ _ => True)); [exact (knowing_moves Q m Hm)|done|].
  intros a s [HQ _]. exact (Hk a s HQ).
Qed.

(** The answer to a request is known from then on. *)
Lemma knowing_answer {A B} (Q : list Ask -> Prop) `{!Lasting Q} q (f : list Ask -> A) (k : A -> st (session Ask) B) :
  (forall a, knowing (fun l => Q l /\ told since l q f a) (k a)) -> knowing Q (answer q f ≫= k).
Proof.
  intros Hk. apply (knowing_bind Q (fun a l => told since l q f a)); [|intros s a s' Hs [= <- <-]; by exists (x_asked s)|exact Hk].
  apply knowing_moves, reads_proceed. intros s. split; [by apply suffix_cons_r|apply evolves_answer].
Qed.

Lemma knowing_transaction {A} (Q : list Ask -> Prop) (body : T A) :
  (forall l db x db', Q l -> body db = (Some x, db') -> rtc (own l) db db') -> knowing Q (transaction body).
Proof.
  intros Hb s HQ _. assert (Ha : x_asked (transaction body s).2 = x_asked s).
  { unfold transaction. destruct (take_turn s) as [[t db] rest]. destruct (t_ok t); [|done]. by destruct (body db) as [[]?]. }
  rewrite Ha. split; [done|]. apply evolves_transaction. intros db x db'. by apply Hb.
Qed.
End Proceeds.

Section Reads.
Context {Ask : Type}.

Lemma reading_answer {A} (q : Ask) (f : list Ask -> A) : moves reading (answer q f).
Proof. intros s. split; [by apply suffix_cons_r|apply evolves_answer]. Qed.

Lemma reading_answer_py {A} (q : Ask) (f : list Ask -> py A) : moves reading (answer_py q f).
Proof. intros s. split; [by apply suffix_cons_r|apply evolves_answer_py]. Qed.

Lemma reading_asked {A} (f : fence_db -> A) (s : session Ask) : x_asked (read_db f s).2 = x_asked s.
Proof. unfold read_db, transaction. destruct (take_turn s) as [[t db] rest]. by destruct (t_ok t). Qed.

Lemma reading_read {A} (f : fence_db -> A) : moves reading (read_db (Ask := Ask) f).
Proof. intros s. split; [by rewrite reading_asked|apply evolves_read]. Qed.
End Reads.

#[export] Hint Extern 1 (PreOrder (proceeds _ _)) => apply proceeds_preorder : frame.
#[export] Hint Resolve reading_preorder reading_answer reading_answer_py reading_read reads_proceed : frame.
