(* ===== verification/SelectorDeps.v ===== *)
(** * What the selector works with

    The state of [services/selector.py]: the database with its schedule, and
    the trace of everything asked of the VPN runtime and the other services.
    [services/management_attribution.py], and the reading of the runtime.

    The state is a [session] of [FenceSession]. *)
From stdpp Require Import base list strings gmap.
From Stdlib Require Import ZArith Lia Ascii.
From S2P Require Import Prelude PyStr PyKey PyVal PyState PyTime AutoPool SelectorCandidates SelectorRank SelectionFence FenceSession.

Open Scope string_scope.
Open Scope Z_scope.
Open Scope list_scope.

(** ** Management attribution *)

Section Attribution.
Context `{ReprContainer}.

Definition _clean_string (value : pyval) : option string :=
  let text := py_strip (text_or_blank value) in if String.eqb text "" then None else Some (py_prefix 160 text).

(** [raw.split(":", 1)]. *)
Fixpoint split_colon (s : string) : option (string * string) :=
  match s with
  | "" => None
  | String c s' => if Ascii.eqb c ":"%char then Some ("", s') else '(a, b) ← split_colon s'; Some (String c a, b)
  end.

(** The raw text, the source type and the client name. *)
Definition _infer_from_requested_by (requested_by : string) : string * option string * option string :=
  let raw := default "api" (_clean_string (VStr requested_by)) in
  match split_colon raw with
  | None => (raw, None, None)
  | Some (prefix, suffix) => (raw, _clean_string (VStr prefix), _clean_string (VStr suffix))
  end.

Definition attribution_fields : list string := ["source_type"; "client_name"; "channel"; "actor"; "action"; "request_id"].

Definition build_management_attribution (requested_by : string) (context : option dict) : dict :=
  let '(raw, source_type, client_name) := _infer_from_requested_by (if String.eqb requested_by "" then "api" else requested_by) in
  let normalized := [("requested_by", VStr raw); ("source_type", vopt source_type); ("client_name", vopt client_name);
                     ("channel", VNone); ("actor", VNone); ("action", VNone); ("request_id", VNone)] in
  let normalized := fold_left (fun d k =>
      match _clean_string (dget k (default [] context)) with Some v => dset k (VStr v) d | None => d end)
    attribution_fields normalized in
  let source_type := py_lower (py_strip (text_or_blank (dget "source_type" normalized))) in
  let external_like := String.eqb source_type "external_client"
                       || py_startswith (text_or_blank (dget "requested_by" normalized)) "external_client" in
  let required := if external_like then ["client_name"; "action"] else [] in
  let missing := List.filter (fun k => match dget k normalized with VNone => true | v => eq_str v "" end) required in
  dset "attribution_missing" (VList (map VStr missing))
    (dset "attribution_complete" (VBool (bool_decide (missing = []))) normalized).

Definition build_incomplete_attribution_error (attribution : dict) : option dict :=
  let missing := dget "attribution_missing" attribution in
  if negb (truthy missing) then None
  else Some [("code", VStr "MANAGEMENT_ATTRIBUTION_INCOMPLETE");
             ("message", VStr "External management request is missing required attribution fields.");
             ("missing_fields", missing); ("management_attribution", VDict attribution)].
End Attribution.

(** ** The runtime *)

(** [active_runtime_adapter] with whether it has operations. *)
Record adapter := Adapter { ad_fields : dict; ad_operations : bool }.

Definition RUNTIME_CAPABILITY_HEALTH : string := "health".
Definition RUNTIME_CAPABILITY_LIST_SERVERS : string := "list_servers".
Definition RUNTIME_CAPABILITY_APPLY_SERVER : string := "apply_server".

(** What [health()] returns: its details and its active server. *)
Record health := Health { he_details : pyval; he_active_server_id : option string }.

(** What [apply_server] does: it returns, times out, or raises. *)
Inductive applied :=
  | Applied (ok : bool) (details : pyval) (as_dict : dict)
  | ApplyTimedOut (text : string)
  | ApplyRaised.

(** The reader of the runtime's incarnation: absent, failing, or its value. *)
Inductive incarnation := NoReader | ReaderRaised | Incarnation (v : pyval).

(** A probe's answer. *)
Record delay := Delay {
  dl_ok : bool;
  dl_status : string;
  dl_last_ping_ms : option Z;
  dl_error_code : option string;
  dl_error_message : option string;
  dl_fields : dict;
}.

(** What distinguishes one entry of [provider_candidates]. *)
Record provider_option := ProviderOption {
  po_server_id : string;
  po_source_ref : string;
  po_member_id : string;
  po_priority : Z;
}.

(** The entry itself. *)
Definition provider_entry (p : provider_option) : candidate :=
  Candidate (po_server_id p) "Provider vpn" "active" VNone true None (po_priority p)
    (Ping "unknown" None None None VNone [("status", VStr "unknown"); ("last_ping_ms", VNone)])
    (Some "provider_switch") (Some "not_observed") true (Some (po_member_id p)) (Some (po_source_ref p)) [].

(** ** What is asked *)

Inductive ask :=
  | AskAdapter
  | AskHealth
  | AskIncarnation
  | AskConfigDigest
  | ListServers
  | AskMemberHealth
  | AskGuardHeld
  | AcquireGuard
  | ProbeServers (ids : list string) (update_state : bool) (checked_by : string) (timeout_ms : Z)
  | PostCheck (id : string) (update_state : bool) (checked_by : string) (timeout_ms : Z)
  | ProviderCandidates
  | ProviderSwitch (source_ref member_id : option string) (revision : Z) (signature incarnation : string)
  | ApplyServer (target : string)
  | NewUuid
  | ReadClock
  | OperationalLog (event_type : string) (details : dict).

(** The answers; the head of the list is the request, [None] is an exception. *)
Class SelectorOutside := {
  vpn_adapter : list ask -> adapter;
  (** The text of the exception when it fails. *)
  runtime_health : list ask -> health + string;
  runtime_incarnation : list ask -> incarnation;
  config_sha256 : list ask -> option string;
  runtime_servers : list ask -> list string + string;
  member_health : list ask -> py health_db;
  guard_is_held : list ask -> bool;
  (** The text of the TimeoutError when it is not acquired. *)
  guard_timeout : list ask -> option string;
  probed_delays : list ask -> py (list delay);
  post_checked : list ask -> py delay;
  provider_fallback : list ask -> py (list provider_option);
  provider_switched : list ask -> py dict;
  server_applied : list ask -> applied;
  fresh_uuid : list ask -> string;
  utc_now_iso : list ask -> string;
  operation_logged : list ask -> py unit;
  (** [get_settings().environment.strip().lower() == "test"]. *)
  test_environment : bool;
  (** [safe_human_label]. *)
  safe_human_label : string -> string -> option string;
  sha256_json : pyval -> string;
}.

(** ** The state *)

Abbreviation selector := (session ask).
Abbreviation F := (st selector).

(** ** Reading *)

Section Read.
Context `{ReprContainer} `{SelectorOutside}.

(** The text of the ValueError. *)
Definition fence_error_text (provenance revision : option cell) : string :=
  match provenance_of provenance with
  | None =>
      match provenance with
      | Some (CJson _) => "VPN-auto selection provenance must be a JSON object."
      | _ => "VPN-auto selection provenance is malformed."
      end
  | Some _ =>
      match revision with
      | Some (CJson (VInt _)) => "VPN-auto selection revision cannot be negative."
      | Some (CText _) => "VPN-auto selection revision is malformed."
      | _ => "VPN-auto selection revision must be a JSON integer."
      end
  end.

(** [read_selection_fence] in a session of its own: three SELECTs, each of
    the database as it is then.  [inr] is ValueError. *)
Definition read_selection_fence : F (selection_fence + string) :=
  routing ← read_db d_routing;
  provenance ← read_db (setting SELECTION_PROVENANCE_KEY);
  revision ← read_db (setting SELECTION_REVISION_KEY);
  mret (match build_fence routing provenance revision with
        | Some f => inl f
        | None => inr (fence_error_text provenance revision)
        end).

(** The same where nothing catches the ValueError. *)
Definition read_selection_fence_or_raise : F selection_fence :=
  f ← read_selection_fence;
  st_py (match f with inl f => Some f | inr _ => None end).

(** The signature reads several times; its statements are taken as one. *)
Definition read_pool_signature : F string := read_db (selection_pool_signature sha256_json).

(** The rows, then the members of their logical servers. *)
Definition load_selector_candidates : F (list candidate) :=
  rows ← read_db d_pool;
  health ← answer_py AskMemberHealth member_health;
  members ← read_db d_pool;
  mret (_load_selector_candidates rows health members).

Definition load_runtime_target_inventory : F (list (string * string * pyval)) :=
  read_db (fun db => _load_runtime_target_inventory (d_pool db)).

Definition _runtime_capabilities (a : adapter) : list string :=
  map py_str (default [] (as_list (dget "capabilities" (ad_fields a)))).

Definition has_capability (c : string) (a : adapter) : bool := bool_decide (c ∈ _runtime_capabilities a).

Definition adapter_id (a : adapter) : string := py_str (por (dget "adapter_id" (ad_fields a)) (VStr "unknown")).

Definition _active_selector_runtime : F adapter := answer AskAdapter vpn_adapter.

(** Health, or the code and the message of the error. *)
Definition _runtime_health_or_error (a : adapter) : F (health + (string * string)) :=
  if negb (ad_operations a) || negb (has_capability RUNTIME_CAPABILITY_HEALTH a)
  then mret (inr ("VPN_RUNTIME_HEALTH_UNAVAILABLE", "Active VPN runtime adapter does not expose health: " +:+ adapter_id a +:+ "."))
  else
    h ← answer AskHealth runtime_health;
    mret (match h with inl h => inl h | inr text => inr ("VPN_RUNTIME_CONTROLLER_UNREACHABLE", text) end).

Definition details_of (h : health) : dict := default [] (as_dict (he_details h)).
Definition selectors_of (h : health) : dict := default [] (as_dict (dget "selectors" (details_of h))).

(** The target of vpn-auto: the selector's, or without that key the effective server. *)
Definition vpn_auto_target (h : health) : option string :=
  nonblank (match dict_lookup "vpn_auto_now" (selectors_of h) with Some v => v | None => vopt (he_active_server_id h) end).

(** [for x in v]. *)
Definition py_iter (v : pyval) : py (list pyval) :=
  match v with
  | VList l => Some l
  | VDict d => Some (map (fun kv => VStr kv.1) d)
  | VStr s => Some (map VStr (py_chars s))
  | _ => None
  end.

Definition targets_or_empty (h : health) : py (list pyval) :=
  match dict_lookup "vpn_auto_targets" (selectors_of h) with None => Some [] | Some v => py_iter v end.

(** [inr] is RuntimeError. *)
Definition _runtime_generation_identity (h : health) (a : adapter) (require_incarnation : bool) : F (string + string) :=
  config ← answer AskConfigDigest config_sha256;
  read ← (if ad_operations a then answer AskIncarnation runtime_incarnation else mret NoReader);
  match read with
  | ReaderRaised => mret (inr "Unable to read vpn runtime incarnation.")
  | _ =>
      let incarnation := match read with Incarnation v => v | _ => VNone end in
      if require_incarnation && negb (truthy incarnation) && negb test_environment
      then mret (inr "VPN runtime incarnation is unavailable; refusing stale-plan apply.")
      else
        targets ← st_py (targets_or_empty h);
        let version := default [] (as_dict (dget "version" (details_of h))) in
        let names := sort_on (fun s => [KText s]) (map py_str (List.filter truthy targets)) in
        mret (inl (sha256_json (sort_keys (VDict
          [("config_sha256", vopt config); ("runtime_version", dget "version" version);
           ("runtime_commit", dget "commit" version); ("runtime_incarnation", incarnation);
           ("vpn_auto_targets", VList (map VStr names));
           ("vpn_auto_now", vopt (nonblank (dget "vpn_auto_now" (selectors_of h))))]))))
  end.

Definition is_mihomo (a : adapter) : bool := String.eqb (py_str (por (dget "adapter_id" (ad_fields a)) (VStr ""))) "mihomo".

Definition generation_or_raise (h : health) (a : adapter) : F string :=
  g ← _runtime_generation_identity h a (is_mihomo a);
  st_py (match g with inl g => Some g | inr _ => None end).

(** [with xray_writer_guard(timeout_seconds=5.0)]: the text of the TimeoutError
    when it is not acquired in time. *)
Definition acquire_guard : F (option string) := answer AcquireGuard guard_timeout.
End Read.
