(* ===== verification/SelectorFlow.v ===== *)
(** * The automatic selection

    [services/selector.py]: [select_vpn_auto_server] with the check of its
    fence, the reconciliation after a lost compare-and-set, and the restore
    of a snapshot.  The result dictionaries carry the keys of the code,
    except candidate_scores and priority_override, whose values are float
    quotients. *)
From stdpp Require Import base list strings gmap.
From Stdlib Require Import ZArith Lia Ascii.
From S2P Require Import Prelude PyStr PyKey PyVal PyState PyTime AutoPool SelectorCandidates SelectorRank SelectionFence FenceSession SelectorDeps.

Open Scope string_scope.
Open Scope Z_scope.
Open Scope list_scope.

Definition NON_SERVER_SELECTOR_TARGETS : list string := ["DIRECT"; "REJECT"; "REJECT-DROP"; "PASS"; "PASS-RULE"; "COMPATIBLE"].

Record sel_args := SelArgs {
  a_apply : bool;
  a_reason : string;
  a_requested_by : string;
  a_management_context : option dict;
  a_check_on_demand : bool;
  a_update_ping_state : bool;
  a_on_demand_limit : Z;
  a_timeout_ms : Z;
  a_exclude_active : bool;
  a_post_check : bool;
  a_origin : string;
  a_candidate_server_id : option string;
  a_allow_provider_fallback : bool;
  a_expected_selection_revision : option Z;
  a_expected_active_server_id : option string;
  a_expected_runtime_target : option string;
  a_expected_runtime_target_valid : option bool;
  a_operation_id : option string;
}.

Section Flow.
Context `{ReprContainer} `{SelectorOutside}.

(** ** Outcomes *)

Definition _unconfirmed_selector_outcome (reason origin : string) (apply : bool) : dict :=
  let safe_origin := _safe_selection_origin origin in
  [("selection_outcome", VStr "failed");
   ("auto_transition", VDict
     [("active_before_id", VNone); ("active_before_name", VNone); ("active_before_runtime_target", VNone);
      ("selected_server_id", VNone); ("selected_server_name", VNone); ("selected_runtime_target", VNone);
      ("active_after_id", VNone); ("active_after_name", VNone); ("active_after_runtime_target", VNone);
      ("outcome", VStr "failed"); ("changed", VNone); ("reason_code", VStr (_selector_reason_code reason safe_origin));
      ("origin", VStr safe_origin); ("actor_attribution", VStr "caller_supplied_unverified"); ("correlation_id", VNone);
      ("selector_readback", VStr "unconfirmed")]);
   ("effective_route", VDict
     [("server_mode", VNone); ("fixed_server_id", VNone); ("runtime_target_before", VNone); ("runtime_target_after", VNone);
      ("global_selector_before", VNone); ("changed", if apply then VNone else VBool false);
      ("traffic_impact_confirmed", VBool false)]);
   ("post_check", VDict
     [("enabled", VBool apply); ("status", VStr "not_run"); ("result", VNone); ("failed_no_rollback", VBool false)])].

Definition sub_dict (k : string) (d : dict) : dict := default [] (as_dict (dget k d)).

(** [d[k].update(e)]. *)
Definition update_sub (k : string) (e : dict) (d : dict) : dict := dset k (VDict (dmerge (sub_dict k d) e)) d.

Definition _deferred_selector_outcome (reason origin : string) (apply : bool) : dict :=
  let base := _unconfirmed_selector_outcome reason origin apply in
  update_sub "auto_transition" [("outcome", VStr "deferred"); ("changed", VBool false)]
    (dset "selection_outcome" (VStr "deferred") base).

(** A result that names an error. *)
Definition refused (a : sel_args) (code message : string) (retryable : bool) (operation_id : string) : dict :=
  [("ok", VBool false); ("reason", VStr (a_reason a)); ("apply", VBool (a_apply a)); ("applied", VBool false);
   ("error_code", VStr code); ("error_message", VStr message); ("retryable", VBool retryable);
   ("operation_id", VStr operation_id)].

Definition deferred (a : sel_args) (code message operation_id : string) : dict :=
  dmerge (refused a code message true operation_id) (_deferred_selector_outcome (a_reason a) (a_origin a) (a_apply a)).

Definition fence_invalid (a : sel_args) (message operation_id : string) : dict :=
  dmerge (refused a "VPN_AUTO_SELECTION_FENCE_INVALID" message false operation_id)
    (_unconfirmed_selector_outcome (a_reason a) (a_origin a) (a_apply a)).

(** The runtime cannot be used. *)
Definition runtime_unusable (a : sel_args) (attribution : dict) (ad : adapter) (code message basis : string) : dict :=
  dmerge
    [("ok", VBool false); ("reason", VStr (a_reason a)); ("requested_by", VStr (a_requested_by a));
     ("management_attribution", VDict attribution); ("apply", VBool (a_apply a)); ("applied", VBool false);
     ("runtime_adapter", VDict (ad_fields ad)); ("runtime_adapter_id", VStr (adapter_id ad));
     ("error_code", VStr code); ("error_message", VStr message); ("active_before", VNone); ("active_after", VNone);
     ("exclude_active", VBool (a_exclude_active a)); ("selected_server_id", VNone); ("selected_server_name", VNone);
     ("candidates_count", VInt 0); ("runtime_servers_count", VInt 0); ("mihomo_servers_count", VInt 0);
     ("selection_basis", VStr basis); ("fail_open_direct_recommended", VBool true)]
    (_unconfirmed_selector_outcome (a_reason a) (a_origin a) (a_apply a)).

(** ** The fence, again *)

(** What the decision was made on. *)
Record evidence := Evidence {
  ev_fence : selection_fence;
  ev_fingerprint : string;
  ev_signature : string;
  ev_generation : string;
  ev_targets : list string;
  ev_runtime_target : option string;
}.

Definition in_targets (targets : list string) (c : candidate) : bool := bool_decide (target_of c ∈ targets).

Definition fresh_candidate (candidates : list candidate) (id : string) : option candidate :=
  find (fun c => String.eqb (c_server_id c) id) (rev candidates).

Definition _selection_fence_error (ev : evidence) (selected_server_id : string) : F (option string) :=
  current ← read_selection_fence;
  match current with
  | inr _ => mret (Some "VPN_AUTO_SELECTION_FENCE_INVALID")
  | inl current =>
      if negb (bool_decide (current = ev_fence ev)) then mret (Some "VPN_AUTO_SELECTION_STALE_STATE")
      else
        signature ← read_pool_signature;
        if negb (String.eqb signature (ev_signature ev)) then mret (Some "VPN_AUTO_SELECTION_CANDIDATES_CHANGED")
        else
          candidates ← load_selector_candidates;
          let fresh_candidates := List.filter (in_targets (ev_targets ev)) candidates in
          if negb (from_option eligible false (fresh_candidate fresh_candidates selected_server_id))
          then mret (Some "VPN_AUTO_SELECTION_CANDIDATE_NO_LONGER_ELIGIBLE")
          else if negb (String.eqb (_candidate_fence sha256_json fresh_candidates) (ev_fingerprint ev))
          then mret (Some "VPN_AUTO_SELECTION_CANDIDATES_CHANGED")
          else
            ad ← _active_selector_runtime;
            h ← _runtime_health_or_error ad;
            match h with
            | inr _ => mret (Some "VPN_AUTO_SELECTION_RUNTIME_GENERATION_CHANGED")
            | inl h =>
                generation ← _runtime_generation_identity h ad (is_mihomo ad);
                if negb (bool_decide (generation = inl (ev_generation ev)))
                then mret (Some "VPN_AUTO_SELECTION_RUNTIME_GENERATION_CHANGED")
                else if negb (bool_decide (vpn_auto_target h = ev_runtime_target ev))
                then mret (Some "VPN_AUTO_SELECTION_RUNTIME_TARGET_CHANGED")
                else mret None
            end
  end.

Definition expectation_of (f : selection_fence) : expectation :=
  Expectation (f_revision f) (f_active_server_id f) (f_decision_id f).

Definition provenance (decision_id operation_id server_id : string) (label : option string)
    (reason_code origin actor selected_at : string) : dict :=
  [("decision_id", VStr decision_id); ("operation_id", VStr operation_id); ("selected_server_id", VStr server_id);
   ("selected_server_label", vopt label); ("reason_code", VStr reason_code); ("origin", VStr origin);
   ("actor_attribution", VStr actor); ("selected_at", VStr selected_at)].

Definition commit (f : selection_fence) (server_id : string) (p : dict) : F (option Z) :=
  transaction (commit_active_selection (expectation_of f) server_id p).

(** [str(value or "auto").strip().lower() == "auto"]. *)
Definition mode_of (r : option routing_row) : string := py_lower (py_strip (server_mode_text (r_server_mode <$> r))).

(** ** After a lost compare-and-set *)

Definition no_repair (code : string) : dict := [("ok", VBool false); ("error_code", VStr code)].

Definition owned_fields (f : selection_fence) : option string * option string * option string :=
  (f_active_server_id f, f_provenance_server_id f, f_decision_id f).

(** With the guard held: nothing has moved since the observation. *)
Definition reconcile_guarded (operation_id : string) (ad : adapter) (generation observed : string) (fingerprint signature : string)
    (expected : selection_fence) (target_id : string) (target_name : option string) : F dict :=
  current ← read_selection_fence_or_raise;
  current_signature ← read_pool_signature;
  routing ← read_db d_routing;
  candidates ← load_selector_candidates;
  if negb (bool_decide (current = expected)) || negb (String.eqb current_signature signature)
     || negb (String.eqb (_candidate_fence sha256_json candidates) fingerprint)
     || negb (is_set routing) || negb (String.eqb (mode_of routing) "auto")
  then mret (no_repair "VPN_AUTO_SELECTION_RECONCILIATION_STALE")
  else
    h ← _runtime_health_or_error ad;
    match h with
    | inr (code, _) => mret (no_repair code)
    | inl h =>
        current_generation ← generation_or_raise h ad;
        if negb (String.eqb current_generation generation)
           || negb (bool_decide (nonblank (dget "vpn_auto_now" (selectors_of h)) = Some observed))
        then mret (no_repair "VPN_AUTO_SELECTION_RECONCILIATION_RUNTIME_CHANGED")
        else
          decision_id ← answer NewUuid fresh_uuid;
          selected_at ← answer ReadClock utc_now_iso;
          let p := provenance decision_id operation_id target_id target_name "runtime_readback_state_repair" "core_reconcile"
                     "core_reconcile" selected_at in
          next_revision ← commit expected target_id p;
          match next_revision with
          | None => mret (no_repair "VPN_AUTO_SELECTION_RECONCILIATION_CAS_FAILED")
          | Some n =>
              mret [("ok", VBool true); ("server_id", VStr target_id); ("server_name", vopt target_name);
                    ("runtime_target", VStr observed); ("selection_revision", VInt n); ("provenance", VDict p)]
          end
    end.

(** The observation. *)
Definition reconcile_observation (operation_id : string) (original : selection_fence) : F dict :=
  ad ← _active_selector_runtime;
  h ← _runtime_health_or_error ad;
  match h with
  | inr (code, _) => mret (no_repair code)
  | inl h =>
      generation ← generation_or_raise h ad;
      targets ← st_py (targets_or_empty h);
      servers ← answer ListServers runtime_servers;
      servers ← st_py (match servers with inl l => Some l | inr _ => None end);
      let runtime_targets := map py_str (List.filter truthy targets) ++ servers in
      match nonblank (dget "vpn_auto_now" (selectors_of h)) with
      | None => mret (no_repair "VPN_AUTO_SELECTION_RECONCILIATION_RUNTIME_UNCONFIRMED")
      | Some observed =>
          if negb (bool_decide (observed ∈ runtime_targets))
          then mret (no_repair "VPN_AUTO_SELECTION_RECONCILIATION_RUNTIME_UNCONFIRMED")
          else
            candidates ← load_selector_candidates;
            inventory ← load_runtime_target_inventory;
            match _runtime_target_identity safe_human_label (Some observed) inventory with
            | (Some target_id, target_name, _) =>
                if negb (from_option eligible false (find (fun c => String.eqb (c_server_id c) target_id) candidates))
                then mret (no_repair "VPN_AUTO_SELECTION_RECONCILIATION_TARGET_INELIGIBLE")
                else
                  expected ← read_selection_fence_or_raise;
                  signature ← read_pool_signature;
                  routing ← read_db d_routing;
                  if negb (is_set routing) || negb (String.eqb (mode_of routing) "auto")
                  then mret (no_repair "VPN_AUTO_SELECTION_RECONCILIATION_INTENT_CHANGED")
                  else if negb (bool_decide (owned_fields expected = owned_fields original))
                  then mret (no_repair "VPN_AUTO_SELECTION_RECONCILIATION_FOREIGN_SELECTION")
                  else
                    timeout ← acquire_guard;
                    match timeout with
                    | Some _ => mret (no_repair "VPN_AUTO_SELECTION_BUSY")
                    | None =>
                        reconcile_guarded operation_id ad generation observed (_candidate_fence sha256_json candidates) signature
                          expected target_id target_name
                    end
            | (None, _, _) => mret (no_repair "VPN_AUTO_SELECTION_RECONCILIATION_TARGET_INELIGIBLE")
            end
      end
  end.

(** [except Exception]. *)
Definition _reconcile_observed_selection_after_cas_miss (operation_id : string) (original : selection_fence) : F dict :=
  st_try (reconcile_observation operation_id original)
    (mret (no_repair "VPN_AUTO_SELECTION_RECONCILIATION_UNCONFIRMED")).
(** ** The choice of a selection *)

(** What was chosen, the probes behind it and why. *)
Record choice := Choice {
  ch_selected : option candidate;
  ch_best_latency : option candidate;
  ch_shortlist : list candidate;
  ch_results : list candidate;
  ch_basis : string;
}.

(** A candidate with the answer of its probe. *)
Definition with_probe (c : candidate) (d : delay) : candidate :=
  let fields := [("status", VStr (dl_status d)); ("last_ping_ms", vint (dl_last_ping_ms d)); ("checked_at", VNone);
                 ("error_code", vopt (dl_error_code d)); ("error_message", vopt (dl_error_message d));
                 ("latency_label", dget "latency_label" (dl_fields d)); ("updated_state", dget "updated_state" (dl_fields d))] in
  Candidate (c_server_id c) (c_server_name c) (c_inventory_state c) (c_runtime_target c) (c_vpn_auto c) (c_deleted c)
    (c_priority c) (Ping (dl_status d) (dl_last_ping_ms d) None None VNone fields)
    (c_execution_capability c) (c_runtime_evidence c) (c_provider_eligible c) (c_member_id c) (c_source_ref c) (dl_fields d).

Definition safe_limit (a : sel_args) : Z := Z.max 1 (Z.min (a_on_demand_limit a) 20).

Definition choose_by_probe (a : sel_args) (active_runtime_target : option string) (candidates : list candidate) : F choice :=
  shortlist ← st_py (_build_on_demand_shortlist candidates active_runtime_target (safe_limit a));
  delays ← answer_py (ProbeServers (map c_server_id shortlist) (a_update_ping_state a) ("selector:" +:+ a_reason a) (a_timeout_ms a))
             probed_delays;
  let results := zip_with with_probe shortlist delays in
  let '(selected, best) := _select_candidate_with_priority results in
  mret (Choice selected best shortlist results
    (if is_set selected && is_set best then "on-demand successful latency check with vpn-auto priority"
     else "on-demand successful latency check")).

Definition stored_basis (selected best : option candidate) : string :=
  match selected with
  | Some c =>
      if eq_str (ping_source (c_ping c)) "canonical_health" then
        if is_set best then "canonical effective-member health and latency with vpn-auto priority"
        else "canonical effective-member health and latency"
      else if is_set best then "stored server_ping_state with vpn-auto priority"
      else "stored server_ping_state, then known latency, then server name"
  | None => "no active SQLite vpn_auto servers matched runtime inventory"
  end.

Definition choose_stored (candidates : list candidate) : F choice :=
  let '(selected, best) := _select_candidate_with_priority candidates in
  mret (Choice selected best [] [] (stored_basis selected best)).

(** A provider's own switch, when no candidate was chosen. *)
Definition provider_choice (a : sel_args) (ch : choice) : F choice :=
  if is_set (ch_selected ch) || is_set (a_candidate_server_id a) || negb (a_allow_provider_fallback a) then mret ch
  else
    options ← answer_py ProviderCandidates provider_fallback;
    let fallback := map provider_entry options in
    exclusive ← read_db get_vpn_auto_exclusive_source_ref;
    let fallback :=
      match exclusive with
      | Some ref => List.filter (fun c => String.eqb (default "" (c_source_ref c)) ref) fallback
      | None => fallback
      end in
    let '(selected, best) := _select_candidate_with_priority fallback in
    mret (Choice selected best (ch_shortlist ch) (ch_results ch) (ch_basis ch)).
(** ** The result *)

(** Everything a selection has read when it has chosen. *)
Record selection_run := SelectionRun {
  run_attribution : dict;
  run_operation_id : string;
  run_adapter : adapter;
  run_health : health;
  run_mode : string;
  run_fixed_id : option string;
  run_servers : list string;
  run_inventory : list (string * string * pyval);
  run_candidates : list candidate;
  run_evidence : evidence;
  run_active_target : option string;
  run_active_before : option string;
  run_active_name : option string;
  run_active_status : string;
  run_incarnation : option string;
  run_choice : choice;
}.

Definition checks_on_demand (a : sel_args) : bool := a_check_on_demand a || a_apply a.

Definition selected_fields (r : selection_run) : dict :=
  match ch_selected (run_choice r) with
  | Some c =>
      [("selected_server_id", VStr (c_server_id c));
       ("selected_server_name", vopt (safe_human_label (c_server_name c) (c_server_id c)));
       ("selected_runtime_target", por (c_runtime_target c) (VStr (c_server_id c)))]
  | None => [("selected_server_id", VNone); ("selected_server_name", VNone); ("selected_runtime_target", VNone)]
  end.

Definition count_status (status : string) (l : list candidate) : Z :=
  Z.of_nat (length (List.filter (fun c => String.eqb (ping_status (c_ping c)) status) l)).

Definition base_result (a : sel_args) (r : selection_run) : dict :=
  let selected := ch_selected (run_choice r) in
  let apply := a_apply a in
  let effective_before := nonblank (vopt (he_active_server_id (run_health r))) in
  let post_enabled := VBool (apply && a_post_check a) in
  [("ok", VBool (is_set selected)); ("reason", VStr (a_reason a)); ("requested_by", VStr (a_requested_by a));
   ("management_attribution", VDict (run_attribution r)); ("apply", VBool apply);
   ("check_on_demand", VBool (checks_on_demand a));
   ("update_ping_state", VBool (checks_on_demand a && a_update_ping_state a));
   ("active_before", vopt (run_active_before r)); ("active_after", vopt (run_active_before r));
   ("active_before_runtime_target", vopt (run_active_target r)); ("active_before_name", vopt (run_active_name r));
   ("active_before_identity_status", VStr (run_active_status r));
   ("effective_route", VDict
     [("server_mode", VStr (run_mode r)); ("fixed_server_id", vopt (run_fixed_id r));
      ("runtime_target_before", vopt effective_before); ("runtime_target_after", vopt effective_before);
      ("global_selector_before", vopt (nonblank (dget "vpn_global_now" (selectors_of (run_health r)))));
      ("changed", VNone); ("traffic_impact_confirmed", VBool false)]);
   ("exclude_active", VBool (a_exclude_active a)); ("runtime_adapter", VDict (ad_fields (run_adapter r)));
   ("runtime_adapter_id", VStr (adapter_id (run_adapter r)));
   ("selected_server_id", vopt (c_server_id <$> selected)); ("selected_server_name", vopt (c_server_name <$> selected));
   ("candidates_count", VInt (Z.of_nat (length (run_candidates r))));
   ("auto_selectable_candidates_count", VInt (Z.of_nat (length (_auto_selectable_candidates (run_candidates r)))));
   ("runtime_servers_count", VInt (Z.of_nat (length (run_servers r))));
   ("mihomo_servers_count", VInt (Z.of_nat (length (run_servers r))));
   ("selection_basis", VStr (ch_basis (run_choice r)));
   ("selected_ping", vdict ((fun c => ping_fields (c_ping c)) <$> selected));
   ("selected_vpn_auto_priority", VInt (from_option c_priority 0 selected));
   ("on_demand", VDict
     [("limit", VInt (safe_limit a)); ("timeout_ms", VInt (a_timeout_ms a));
      ("checked_count", VInt (Z.of_nat (length (ch_results (run_choice r)))));
      ("success_count", VInt (count_status "success" (ch_results (run_choice r))));
      ("failed_count", VInt (count_status "failed" (ch_results (run_choice r))));
      ("candidate_shortlist", VList (map (fun c => VStr (c_server_id c)) (ch_shortlist (run_choice r))));
      ("results", VList (map (fun c => VDict (c_on_demand c)) (ch_results (run_choice r))))]);
   ("fail_open_direct_recommended", VBool (checks_on_demand a && negb (is_set selected)));
   ("applied", VBool false); ("apply_result", VNone); ("post_check_enabled", post_enabled); ("post_switch_check", VNone);
   ("post_check_failed_no_rollback", VBool false); ("selection_outcome", VStr "not_applied");
   ("operation_id", VStr (run_operation_id r)); ("selection_revision", VInt (f_revision (ev_fence (run_evidence r))));
   ("auto_transition", VDict
     ([("active_before_id", vopt (run_active_before r)); ("active_before_name", vopt (run_active_name r));
       ("active_before_runtime_target", vopt (run_active_target r))] ++ selected_fields r ++
      [("active_after_id", vopt (run_active_before r)); ("active_after_name", vopt (run_active_name r));
       ("active_after_runtime_target", vopt (run_active_target r));
       ("outcome", VStr (if apply then "not_applied" else "dry_run")); ("changed", if apply then VNone else VBool false);
       ("reason_code", VStr (_selector_reason_code (a_reason a) (a_origin a)));
       ("origin", VStr (_safe_selection_origin (a_origin a))); ("actor_attribution", VStr "caller_supplied_unverified");
       ("correlation_id", VNone); ("selector_readback", VStr "not_checked")]));
   ("post_check", VDict
     [("enabled", post_enabled); ("status", VStr "not_run"); ("result", VNone); ("failed_no_rollback", VBool false)])].

(** ** The provider's switch *)

Definition provider_base (a : sel_args) (r : selection_run) (c : candidate) : dict :=
  [("ok", VBool true); ("selected_server_id", VStr (c_server_id c)); ("selected_server_name", VStr (c_server_name c));
   ("selected_member_id", vopt (c_member_id c)); ("selection_basis", VStr "provider_priority_stable_identity");
   ("selected_ping", VDict (ping_fields (c_ping c))); ("applied", VBool false);
   ("active_before", vopt (run_active_before r)); ("active_after", vopt (run_active_before r));
   ("runtime_evidence", VStr "not_observed"); ("apply", VBool (a_apply a))].

Definition provider_result (a : sel_args) (r : selection_run) (c : candidate) : F dict :=
  let base := provider_base a r c in
  if negb (a_apply a) then mret (dset "selection_outcome" (VStr "candidate") base)
  else
    match run_incarnation r with
    | None =>
        mret (dmerge base
          [("ok", VBool false); ("selection_outcome", VStr "deferred");
           ("error_code", VStr "VPN_AUTO_SELECTION_STALE_RUNTIME_EVIDENCE");
           ("provider_operation", VDict [("ok", VBool false); ("outcome", VStr "deferred");
              ("error_code", VStr "VPN_AUTO_SELECTION_STALE_RUNTIME_EVIDENCE")])])
    | Some incarnation =>
        execution ← answer_py
          (ProviderSwitch (c_source_ref c) (c_member_id c) (f_revision (ev_fence (run_evidence r))) (ev_signature (run_evidence r)) incarnation)
          provider_switched;
        let verified := truthy (dget "runtime_verified" execution) in
        let changed := verified && (truthy (dget "changed" execution)
                                    || negb (bool_decide (run_active_before r = Some (c_server_id c)))) in
        mret (dmerge base
          [("ok", VBool (truthy (dget "ok" execution))); ("applied", VBool changed);
           ("selected_member_id", por (dget "actual_member_id" execution) (vopt (c_member_id c)));
           ("selection_outcome", VStr (if verified then if changed then "selected" else "noop" else "unconfirmed"));
           ("active_after", if verified then VStr (c_server_id c) else vopt (run_active_before r));
           ("provider_operation", VDict execution); ("error_code", dget "error_code" execution)])
    end.

(** ** The selected server is active already *)

Definition moved_on (a : sel_args) (code operation_id : string) : dict :=
  deferred a code "vpn-auto state changed during the probe phase; no runtime apply was attempted." operation_id.

(** The fence is repaired when it names another server: the reason nothing
    was done, or the revision and the time of the repair. *)
Definition repair_fence (a : sel_args) (r : selection_run) (c : candidate) : F (string + option (Z * string)) :=
  stale ← _selection_fence_error (run_evidence r) (c_server_id c);
  let f := ev_fence (run_evidence r) in
  match stale with
  | Some code => mret (inl code)
  | None =>
      if bool_decide (f_active_server_id f = Some (c_server_id c)) && bool_decide (f_provenance_server_id f = Some (c_server_id c))
      then mret (inr None)
      else
        decision_id ← answer NewUuid fresh_uuid;
        repaired_at ← answer ReadClock utc_now_iso;
        revision ← commit f (c_server_id c)
          (provenance decision_id (run_operation_id r) (c_server_id c) (safe_human_label (c_server_name c) (c_server_id c))
             "runtime_readback_state_repair" (_safe_selection_origin (a_origin a)) "core_reconcile" repaired_at);
        mret (match revision with
              | None => inl "VPN_AUTO_SELECTION_PERSISTENCE_CAS_FAILED"
              | Some n => inr (Some (n, repaired_at))
              end)
  end.

Definition noop_result (a : sel_args) (r : selection_run) (c : candidate) (repaired : option (Z * string)) : dict :=
  let result := dmerge (base_result a r)
    [("ok", VBool true); ("applied", VBool false); ("active_after", vopt (run_active_before r));
     ("active_after_runtime_target", vopt (run_active_target r))] in
  let result := update_sub "effective_route" [("changed", VBool false)] result in
  let result := dmerge result
    [("selection_basis", VStr "selected server already active"); ("noop", VBool true);
     ("noop_reason", VStr "selected_server_already_active"); ("selection_outcome", VStr "noop");
     ("canonical_state_repaired", VBool (is_set repaired))] in
  let result :=
    match repaired with
    | Some (n, repaired_at) =>
        dmerge result
          [("selection_revision", VInt n);
           ("selection_provenance", VDict
             [("operation_id", VStr (run_operation_id r)); ("selected_server_id", VStr (c_server_id c));
              ("reason_code", VStr "runtime_readback_state_repair");
              ("origin", VStr (_safe_selection_origin (a_origin a))); ("selected_at", VStr repaired_at)])]
    | None => result
    end in
  update_sub "auto_transition"
    [("outcome", VStr "noop"); ("changed", VBool false); ("selector_readback", VStr "matched_before")] result.

Definition log_noop (a : sel_args) (c : candidate) : F unit :=
  if a_apply a && String.eqb (_safe_selection_origin (a_origin a)) "api" then
    answer_py (OperationalLog "server_selection_noop"
      [("requested_by", VStr (a_requested_by a)); ("reason", VStr (a_reason a));
       ("reason_code", VStr (_selector_reason_code (a_reason a) (a_origin a)));
       ("source", VStr (_safe_selection_origin (a_origin a))); ("result", VStr "no_op"); ("outcome", VStr "no_op");
       ("changed", VBool false); ("selected_server_name", vopt (safe_human_label (c_server_name c) (c_server_id c)))])
      operation_logged
  else mret tt.

Definition already_active (a : sel_args) (r : selection_run) (c : candidate) : F dict :=
  let done repaired := _ ← log_noop a c; mret (noop_result a r c repaired) in
  if negb (a_apply a) then done None
  else
    timeout ← acquire_guard;
    match timeout with
    | Some text => mret (deferred a "VPN_AUTO_SELECTION_BUSY" text (run_operation_id r))
    | None =>
        repaired ← repair_fence a r c;
        match repaired with
        | inl code => mret (moved_on a code (run_operation_id r))
        | inr repaired => done repaired
        end
    end.
(** ** The apply *)

Definition run_busy (text : string) (result : dict) : dict :=
  update_sub "auto_transition" [("outcome", VStr "deferred")]
    (dmerge result
      [("ok", VBool false); ("applied", VBool false); ("error_code", VStr "VPN_AUTO_SELECTION_BUSY");
       ("error_message", VStr text); ("retryable", VBool true); ("selection_outcome", VStr "deferred")]).

Definition run_stale (code : string) (result : dict) : dict :=
  update_sub "auto_transition" [("outcome", VStr "deferred")]
    (dmerge result
      [("ok", VBool false); ("applied", VBool false); ("error_code", VStr code);
       ("error_message", VStr "vpn-auto state changed during the probe phase; no runtime apply was attempted.");
       ("retryable", VBool true); ("selection_outcome", VStr "deferred")]).

(** What the readback says. *)
Record readback := Readback {
  rb_ok : bool;
  rb_target : option string;
  rb_id : option string;
  rb_name : option string;
  rb_status : string;
  rb_effective_after : option string;
}.

Definition read_back (r : selection_run) (ok : bool) (details : pyval) : readback :=
  let details := default [] (as_dict details) in
  let target := nonblank (dget "selector_after" details) in
  let '(id, name, status) := _runtime_target_identity safe_human_label target (run_inventory r) in
  Readback ok target id name status (nonblank (dget "active_after" details)).

Definition readback_matches (c : candidate) (rb : readback) : bool := bool_decide (rb_target rb = Some (target_of c)).

Definition readback_outcome (c : candidate) (rb : readback) : string :=
  if rb_ok rb && readback_matches c rb && String.eqb (rb_status rb) "confirmed" then "selected"
  else if rb_ok rb then "unconfirmed" else "failed".

Definition applied_result (a : sel_args) (r : selection_run) (c : candidate) (rb : readback) (apply_result : dict) : dict :=
  let result := dmerge (base_result a r)
    [("applied", VBool (rb_ok rb)); ("apply_result", VDict apply_result); ("active_after", vopt (rb_id rb));
     ("active_after_runtime_target", vopt (rb_target rb)); ("active_after_name", vopt (rb_name rb));
     ("active_after_identity_status", VStr (rb_status rb)); ("selector_readback_matches", VBool (readback_matches c rb));
     ("selection_outcome", VStr (readback_outcome c rb)); ("ok", VBool (String.eqb (readback_outcome c rb) "selected"))] in
  let result := update_sub "auto_transition"
    [("active_after_id", vopt (rb_id rb)); ("active_after_name", vopt (rb_name rb));
     ("active_after_runtime_target", vopt (rb_target rb)); ("outcome", VStr (readback_outcome c rb));
     ("changed", if is_set (run_active_target r) && is_set (rb_target rb)
                 then VBool (negb (bool_decide (run_active_target r = rb_target rb))) else VNone);
     ("selector_readback", VStr (if readback_matches c rb then "matched_selected"
                                 else if is_set (rb_target rb) then "different_target" else "unconfirmed"))] result in
  let before := nonblank (vopt (he_active_server_id (run_health r))) in
  match rb_effective_after rb with
  | None => result
  | Some after =>
      update_sub "effective_route"
        (("runtime_target_after", VStr after)
         :: match before with Some b => [("changed", VBool (negb (String.eqb b after)))] | None => [] end) result
  end.

Definition cas_missed (result : dict) : dict :=
  update_sub "auto_transition" [("outcome", VStr "deferred"); ("selector_readback", VStr "unconfirmed")]
    (dmerge result
      [("ok", VBool false); ("selection_outcome", VStr "unconfirmed");
       ("error_code", VStr "VPN_AUTO_SELECTION_PERSISTENCE_CAS_FAILED");
       ("error_message", VStr "Runtime readback matched, but current selection state changed before persistence.");
       ("selector_readback_matches", VBool false); ("selection_readback_current", VBool false);
       ("reconciliation_after_cas_miss", VDict
         [("attempted", VBool false); ("confirmed", VBool false); ("outcome", VStr "pending")])]).

Definition persisted (a : sel_args) (r : selection_run) (decision_id selected_at : string) (n : Z) (result : dict) : dict :=
  update_sub "auto_transition" [("correlation_id", VStr decision_id)]
    (dmerge result
      [("selection_revision", VInt n);
       ("selection_provenance", VDict
         [("decision_id", VStr decision_id); ("operation_id", VStr (run_operation_id r));
          ("reason_code", VStr (_selector_reason_code (a_reason a) (a_origin a)));
          ("origin", VStr (_safe_selection_origin (a_origin a)));
          ("actor_attribution", VStr "caller_supplied_unverified"); ("selected_at", VStr selected_at)])]).

(** What became of the apply: given up, or its result and whether the
    compare-and-set was lost. *)
Inductive apply_end := GivenUp (result : dict) | Went (result : dict) (cas_miss : bool).

(** The runtime has answered: read back, persist. *)
Definition record_applied (a : sel_args) (r : selection_run) (c : candidate) (ap : applied) : F apply_end :=
  match ap with
  | ApplyRaised => st_raise
  | ApplyTimedOut text => mret (Went (run_busy text (base_result a r)) false)
  | Applied ok details as_dict =>
      let rb := read_back r ok details in
      let result := applied_result a r c rb as_dict in
      if negb (ok && readback_matches c rb && bool_decide (rb_id rb = Some (c_server_id c)))
      then mret (Went result false)
      else
        decision_id ← answer NewUuid fresh_uuid;
        selected_at ← answer ReadClock utc_now_iso;
        revision ← commit (ev_fence (run_evidence r)) (c_server_id c)
          (provenance decision_id (run_operation_id r) (c_server_id c) (safe_human_label (c_server_name c) (c_server_id c))
             (_selector_reason_code (a_reason a) (a_origin a)) (_safe_selection_origin (a_origin a))
             "caller_supplied_unverified" selected_at);
        mret (match revision with
              | None => Went (cas_missed result) true
              | Some n => Went (persisted a r decision_id selected_at n result) false
              end)
  end.

(** With the guard held: check, then apply. *)
Definition apply_guarded (a : sel_args) (r : selection_run) (c : candidate) : F apply_end :=
  stale ← _selection_fence_error (run_evidence r) (c_server_id c);
  match stale with
  | Some code => mret (GivenUp (run_stale code (base_result a r)))
  | None => ap ← answer (ApplyServer (target_of c)) server_applied; record_applied a r c ap
  end.

(** [result.update] after the reconciliation. *)
Definition repaired_result (c : candidate) (repair result : dict) : dict :=
  let repaired_id := text_or_blank (dget "server_id" repair) in
  let p := sub_dict "provenance" repair in
  let same := String.eqb repaired_id (c_server_id c) in
  let result := dmerge result
    [("active_after", VStr repaired_id); ("active_after_name", dget "server_name" repair);
     ("active_after_runtime_target", dget "runtime_target" repair); ("active_after_identity_status", VStr "confirmed");
     ("selector_readback_matches", VBool same); ("selection_revision", dget "selection_revision" repair);
     ("selection_provenance", VDict (map (fun k => (k, dget k p))
        ["decision_id"; "operation_id"; "reason_code"; "origin"; "actor_attribution"; "selected_at"]));
     ("canonical_state_repaired", VBool true); ("reconciled_after_cas_miss", VBool true);
     ("selection_readback_current", VBool true);
     ("reconciliation_after_cas_miss", VDict
       [("attempted", VBool true); ("confirmed", VBool true); ("outcome", VStr "repaired");
        ("selection_revision", dget "selection_revision" repair)])] in
  let result := update_sub "auto_transition"
    [("active_after_id", VStr repaired_id); ("active_after_name", dget "server_name" repair);
     ("active_after_runtime_target", dget "runtime_target" repair); ("reason_code", VStr "runtime_readback_state_repair");
     ("origin", VStr "core_reconcile"); ("actor_attribution", VStr "core_reconcile");
     ("correlation_id", dget "decision_id" p); ("selector_readback", VStr "matched_selected")] result in
  if same then
    update_sub "auto_transition" [("outcome", VStr "selected")]
      (dmerge result [("ok", VBool true); ("selection_outcome", VStr "selected"); ("error_code", VNone); ("error_message", VNone)])
  else
    update_sub "auto_transition" [("outcome", VStr "deferred"); ("selector_readback", VStr "different_target")]
      (dmerge result
        [("ok", VBool false); ("selection_outcome", VStr "deferred");
         ("error_code", VStr "VPN_AUTO_SELECTION_RECONCILED_TO_CURRENT_RUNTIME");
         ("error_message", VStr "A fresh runtime target was reconciled; the originally requested target is no longer current.");
         ("retryable", VBool true); ("selector_readback_matches", VBool false)]).

Definition unrepaired_result (repair result : dict) : dict :=
  let code := VStr (py_str (por (dget "error_code" repair) (VStr "VPN_AUTO_SELECTION_RECONCILIATION_UNCONFIRMED"))) in
  update_sub "auto_transition" [("outcome", VStr "deferred"); ("selector_readback", VStr "unconfirmed")]
    (dpop "selection_revision"
      (dmerge result
        [("ok", VBool false); ("selection_outcome", VStr "deferred"); ("error_code", code);
         ("error_message", VStr "Runtime selection could not be reconciled safely after persistence CAS failed.");
         ("retryable", VBool true); ("reconciliation_deferred", VBool true); ("selector_readback_matches", VBool false);
         ("selection_readback_current", VBool false);
         ("reconciliation_after_cas_miss", VDict
           [("attempted", VBool true); ("confirmed", VBool false); ("outcome", VStr "deferred"); ("error_code", code)])])).

(** A probe of the new server; a failed one rolls nothing back. *)
Definition post_check (a : sel_args) (c : candidate) (result : dict) : F dict :=
  if negb (truthy (dget "applied" result) && eq_str (dget "selection_outcome" result) "selected" && a_post_check a)
  then mret result
  else
    d ← answer_py (PostCheck (c_server_id c) (a_update_ping_state a) ("selector_post_check:" +:+ a_reason a) (a_timeout_ms a))
          post_checked;
    mret (update_sub "post_check"
      [("status", VStr (if dl_ok d then "passed" else "failed")); ("result", VDict (dl_fields d));
       ("failed_no_rollback", VBool (negb (dl_ok d)))]
      (dmerge result [("post_switch_check", VDict (dl_fields d)); ("post_check_failed_no_rollback", VBool (negb (dl_ok d)))])).

(** [_server_event_label]. *)
Definition server_event_label (server_id : option string) : F (option string) :=
  match server_id with
  | None => mret None
  | Some id =>
      if String.eqb id "" then mret None
      else
        row ← read_db (fun db => find (fun s => String.eqb (s_id s) id) (t_servers (d_pool db)));
        mret (row ≫= fun s => safe_human_label (s_name s) id)
  end.

Definition log_switch (a : sel_args) (r : selection_run) (c : candidate) (result : dict) : F unit :=
  if truthy (dget "ok" result) && eq_str (dget "selection_outcome" result) "selected" && truthy (dget "applied" result)
     && truthy (dget "selector_readback_matches" result) && eq_str (dget "active_after" result) (c_server_id c)
  then
    before_label ← server_event_label (run_active_before r);
    answer_py (OperationalLog "vpn_auto_server_switched"
      [("requested_by", VStr (a_requested_by a)); ("management_attribution", VDict (run_attribution r));
       ("reason", VStr (a_reason a)); ("active_before", vopt (run_active_before r)); ("active_after", dget "active_after" result);
       ("selected_server_id", dget "selected_server_id" result); ("selected_server_name", dget "selected_server_name" result);
       ("selected_ping", dget "selected_ping" result); ("selection_basis", VStr (ch_basis (run_choice r)));
       ("post_check_failed_no_rollback", dget "post_check_failed_no_rollback" result);
       ("previous_value", VDict [("server_label", vopt before_label)]);
       ("new_value", VDict [("server_label", vopt (safe_human_label (c_server_name c) (c_server_id c)))]);
       ("reason_code", VStr (_selector_reason_code (a_reason a) (a_origin a)));
       ("correlation_id", dget "decision_id" (sub_dict "selection_provenance" result));
       ("origin", VStr (_safe_selection_origin (a_origin a))); ("result", VStr "success"); ("source", VStr "selector")])
      operation_logged
  else mret tt.

(** After the guard: the repair of a lost compare-and-set, the probe, the log. *)
Definition after_apply (a : sel_args) (r : selection_run) (c : candidate) (result : dict) (cas_miss : bool) : F dict :=
  result ← (if cas_miss then
              repair ← _reconcile_observed_selection_after_cas_miss (run_operation_id r) (ev_fence (run_evidence r));
              mret (if truthy (dget "ok" repair) then repaired_result c repair result else unrepaired_result repair result)
            else mret result);
  result ← post_check a c result;
  _ ← log_switch a r c result;
  mret result.

Definition end_apply (a : sel_args) (r : selection_run) (c : candidate) (e : apply_end) : F dict :=
  match e with GivenUp result => mret result | Went result cas_miss => after_apply a r c result cas_miss end.

Definition apply_selected (a : sel_args) (r : selection_run) (c : candidate) : F dict :=
  timeout ← acquire_guard;
  e ← match timeout with
      | Some text => mret (Went (run_busy text (base_result a r)) false)
      | None => apply_guarded a r c
      end;
  end_apply a r c e.

(** What is done with the choice. *)
Definition conclude (a : sel_args) (r : selection_run) : F dict :=
  match ch_selected (run_choice r) with
  | None => mret (base_result a r)
  | Some c =>
      if bool_decide (c_execution_capability c = Some "provider_switch") then provider_result a r c
      else if bool_decide (run_active_target r = Some (target_of c)) then already_active a r c
      else if a_apply a then apply_selected a r c
      else mret (base_result a r)
  end.
(** ** The selection *)

(** What has been read before the candidates. *)
Record opening := Opening {
  o_attribution : dict;
  o_operation_id : string;
  o_adapter : adapter;
  o_health : health;
  o_incarnation : option string;
  o_fence : selection_fence;
  o_signature : string;
  o_mode : string;
  o_fixed_id : option string;
}.

(** A run that ends early with a result, or goes on. *)
Abbreviation step A := (F (dict + A)).

Definition provider_incarnation (a : sel_args) (ad : adapter) : F (option string) :=
  if negb (ad_operations ad && a_apply a && a_allow_provider_fallback a) then mret None
  else
    read ← answer AskIncarnation runtime_incarnation;
    mret (match read with
          | Incarnation v => let t := text_or_blank v in if String.eqb t "" then None else Some t
          | NoReader | ReaderRaised => None
          end).

(** The evidence the caller took before its probes. *)
Definition caller_evidence (a : sel_args) (active_target : option string) (operation_id : string) : option dict :=
  match a_expected_runtime_target_valid a with
  | Some false =>
      Some (deferred a "VPN_AUTO_SELECTION_RUNTIME_EVIDENCE_UNAVAILABLE"
              "Watchdog runtime selector evidence could not be captured before its probes." operation_id)
  | Some true =>
      if bool_decide (active_target = a_expected_runtime_target a) then None
      else Some (deferred a "VPN_AUTO_SELECTION_STALE_RUNTIME_EVIDENCE"
                   "The vpn-auto runtime target changed after watchdog evidence was captured." operation_id)
  | None => None
  end.

Definition fence_expected (a : sel_args) (f : selection_fence) : bool :=
  match a_expected_selection_revision a with Some n => f_revision f =? n | None => true end
  && match a_expected_active_server_id a with Some id => bool_decide (f_active_server_id f = Some id) | None => true end.

Definition health_code (a : adapter) (code : string) : string :=
  if String.eqb (adapter_id a) "mihomo" then "MIHOMO_CONTROLLER_UNREACHABLE" else code.

Definition fixed_id_of (r : option routing_row) : option string :=
  if String.eqb (mode_of r) "fixed"
  then r ≫= fun r => nonblank (por (vopt (r_applied_fixed r)) (vopt (r_desired_fixed r)))
  else None.

Definition open_selection (a : sel_args) : step opening :=
  let attribution := build_management_attribution (a_requested_by a) (a_management_context a) in
  operation_id ← (match a_operation_id a with
                  | Some id => if String.eqb id "" then answer NewUuid fresh_uuid else mret id
                  | None => answer NewUuid fresh_uuid
                  end);
  match (if a_apply a then build_incomplete_attribution_error attribution else None) with
  | Some error =>
      mret (inl (dmerge
        [("ok", VBool false); ("reason", VStr (a_reason a)); ("requested_by", VStr (a_requested_by a));
         ("management_attribution", VDict attribution); ("apply", VBool true); ("applied", VBool false);
         ("error_code", dget "code" error); ("error_message", dget "message" error); ("error", VDict error)]
        (_unconfirmed_selector_outcome (a_reason a) (a_origin a) true)))
  | None =>
      ad ← _active_selector_runtime;
      h ← _runtime_health_or_error ad;
      match h with
      | inr (code, message) =>
          mret (inl (runtime_unusable a attribution ad (health_code ad code) message "vpn_runtime_controller_unreachable"))
      | inl h =>
          incarnation ← provider_incarnation a ad;
          match caller_evidence a (vpn_auto_target h) operation_id with
          | Some result => mret (inl result)
          | None =>
              fence ← read_selection_fence;
              match fence with
              | inr message => mret (inl (fence_invalid a message operation_id))
              | inl fence =>
                  signature ← read_pool_signature;
                  if negb (fence_expected a fence)
                  then mret (inl (deferred a "VPN_AUTO_SELECTION_STALE_EVIDENCE"
                                    "Watchdog selection evidence no longer matches the current vpn-auto state." operation_id))
                  else
                    routing ← read_db d_routing;
                    mret (inr (Opening attribution operation_id ad h incarnation fence signature (mode_of routing) (fixed_id_of routing)))
              end
          end
      end
  end.

(** What the runtime and the database offer. *)
Record offer := Offer {
  of_servers : list string;
  of_targets : list string;
  of_inventory : list (string * string * pyval);
  of_candidates : list candidate;
}.

(** [health_selectors.get("vpn_auto_targets") or []] without the built-in targets. *)
Definition selector_targets (h : health) : py (list string) :=
  targets ← match dict_lookup "vpn_auto_targets" (selectors_of h) with
            | Some v => if truthy v then py_iter v else Some []
            | None => Some []
            end;
  Some (List.filter (fun t => negb (bool_decide (t ∈ NON_SERVER_SELECTOR_TARGETS)))
    (map py_str (List.filter (fun v => negb (String.eqb (py_strip (text_or_blank v)) "")) targets))).

Definition offer_of (a : sel_args) (o : opening) : step offer :=
  let ad := o_adapter o in
  if negb (ad_operations ad) || negb (has_capability RUNTIME_CAPABILITY_LIST_SERVERS ad)
     || negb (has_capability RUNTIME_CAPABILITY_APPLY_SERVER ad)
  then mret (inl (runtime_unusable a (o_attribution o) ad "VPN_RUNTIME_SELECTOR_UNSUPPORTED"
         ("Active VPN runtime adapter does not expose selector operations: " +:+ adapter_id ad +:+ ".")
         "vpn_runtime_selector_unsupported"))
  else
    servers ← answer ListServers runtime_servers;
    match servers with
    | inr text =>
        mret (inl (runtime_unusable a (o_attribution o) ad
          (if String.eqb (adapter_id ad) "mihomo" then "MIHOMO_INVENTORY_UNAVAILABLE" else "VPN_RUNTIME_INVENTORY_UNAVAILABLE")
          text "vpn_runtime_inventory_unavailable"))
    | inl servers =>
        targets ← st_py (selector_targets (o_health o));
        inventory ← load_runtime_target_inventory;
        ranked ← load_selector_candidates;
        let all := servers ++ targets in
        mret (inr (Offer servers all inventory (List.filter (in_targets all) ranked)))
    end.

(** Nothing has moved while the candidates were loaded, and which runtime
    they are for. *)
Definition settle (a : sel_args) (o : opening) (offered : offer) : step string :=
  loaded ← read_selection_fence;
  match loaded with
  | inr message => mret (inl (fence_invalid a message (o_operation_id o)))
  | inl loaded =>
      signature ← read_pool_signature;
      if negb (bool_decide (loaded = o_fence o)) || negb (String.eqb signature (o_signature o))
      then mret (inl (deferred a "VPN_AUTO_SELECTION_STALE_SNAPSHOT"
             "vpn-auto state changed while the candidate snapshot was loaded." (o_operation_id o)))
      else if negb (a_apply a) then mret (inr "")
      else
        generation ← _runtime_generation_identity (o_health o) (o_adapter o) (String.eqb (adapter_id (o_adapter o)) "mihomo");
        match generation with
        | inl g => mret (inr g)
        | inr message =>
            mret (inl (deferred a "VPN_AUTO_SELECTION_RUNTIME_IDENTITY_UNAVAILABLE" message (o_operation_id o)))
        end
  end.

Definition narrowed (a : sel_args) (active_target : option string) (candidates : list candidate) : list candidate :=
  let candidates := match a_candidate_server_id a with
                    | Some id => List.filter (fun c => String.eqb (c_server_id c) id) candidates
                    | None => candidates
                    end in
  match active_target with
  | Some target => if a_exclude_active a then List.filter (fun c => negb (String.eqb (target_of c) target)) candidates else candidates
  | None => candidates
  end.

(** The target the fence is checked against before the apply. *)
Definition bound_target (a : sel_args) (active_target : option string) : option string :=
  if bool_decide (a_expected_runtime_target_valid a = Some true) then a_expected_runtime_target a else active_target.

Definition choose (a : sel_args) (o : opening) (offered : offer) (generation : string) : step selection_run :=
  let active_target := vpn_auto_target (o_health o) in
  let candidates := narrowed a active_target (of_candidates offered) in
  let '(active_before, active_name, active_status) :=
    _runtime_target_identity safe_human_label active_target (of_inventory offered) in
  held ← (if a_apply a then answer AskGuardHeld guard_is_held else mret false);
  if (held : bool)
  then mret (inl (dset "selection_revision" (VInt (f_revision (o_fence o)))
         (deferred a "VPN_AUTO_SELECTION_OUTER_GUARD_HELD"
            "Selection probes cannot run while a caller holds the shared writer guard." (o_operation_id o))))
  else
    ch ← (if checks_on_demand a then choose_by_probe a active_target candidates else choose_stored candidates);
    ch ← provider_choice a ch;
    mret (inr (SelectionRun (o_attribution o) (o_operation_id o) (o_adapter o) (o_health o) (o_mode o) (o_fixed_id o)
      (of_servers offered) (of_inventory offered) candidates
      (Evidence (o_fence o) (_candidate_fence sha256_json (of_candidates offered)) (o_signature o) generation
         (of_targets offered) (bound_target a active_target))
      active_target active_before active_name active_status (o_incarnation o) ch)).

(** One step after the other, until one ends the run. *)
Definition and_then {A} (m : step A) (k : A -> F dict) : F dict :=
  r ← m; match r with inl result => mret result | inr x => k x end.

Definition select_vpn_auto_server (a : sel_args) : F dict :=
  and_then (open_selection a) (fun o =>
  and_then (offer_of a o) (fun offered =>
  and_then (settle a o offered) (fun generation =>
  and_then (choose a o offered generation) (fun r => conclude a r)))).
End Flow.
