(* ===== verification/SelectorFlowFacts.v ===== *)
(** * What a selection does to the database and the runtime

    The parts of the selector that only read: they leave the database to
    the other processes and ask the runtime for no change.  A dry run is
    made of such parts; a run that applies makes at most one change.  A run
    that probes candidates whose evidence is of both formats raises. *)
From stdpp Require Import base list strings gmap.
From Stdlib Require Import ZArith Lia Ascii.
From S2P Require Import Prelude PyStr PyKey PyVal PyState PyTime AutoPool SelectorCandidates SelectorRank SelectorRankFacts SelectionFence SelectionFenceFacts FenceSession SelectorDeps SelectorFlow.

Open Scope string_scope.
Open Scope Z_scope.
Open Scope list_scope.

(** A request that changes the runtime. *)
Definition is_effect (a : ask) : bool :=
  match a with ApplyServer _ | ProviderSwitch _ _ _ _ _ => true | _ => false end.

#[export] Hint Extern 1 (is_effect _ = false) => reflexivity : frame.

Definition effects (s : selector) : list ask := List.filter is_effect (x_asked s).

(** ** Reading only *)

(** The database is what the turns of the others made of it, and nothing of
    effect was asked. *)
Definition only_reads : relation selector := fun s s' =>
  effects s' = effects s /\
  exists k, x_turns s' = drop k (x_turns s) /\ x_db s' = fold_left (fun db t => t_others t db) (take k (x_turns s)) (x_db s).

#[export] Instance only_reads_preorder : PreOrder only_reads.
Proof.
  split.
  - intros s. split; [done|]. exists 0%nat. by rewrite drop_0, take_0.
  - intros s1 s2 s3 [E12 (k & T12 & D12)] [E23 (l & T23 & D23)]. split; [congruence|]. exists (k + l)%nat.
    rewrite T23, T12, drop_drop. split; [done|]. rewrite D23, D12, T12, <- fold_left_app. f_equal.
    rewrite <- (take_drop k (take (k + l) (x_turns s1))). rewrite take_take, skipn_firstn_comm. f_equal; f_equal; lia.
Qed.

Lemma reads_run {A} (f : fence_db -> A) : moves only_reads (read_db f).
Proof.
  intros s. unfold read_db, transaction, take_turn. destruct (x_turns s) as [|t rest] eqn:Et; cbn [snd].
  - split; [done|]. exists 0%nat. by rewrite drop_0, take_0.
  - destruct (t_ok t); (split; [done|]; exists 1%nat; by rewrite Et).
Qed.

Lemma reads_answer {A} a (f : list ask -> A) : is_effect a = false -> moves only_reads (answer a f).
Proof.
  intros Ha s. unfold answer. cbn. split; [unfold effects; cbn; by rewrite Ha|]. exists 0%nat. by rewrite drop_0, take_0.
Qed.

Lemma reads_answer_py {A} a (f : list ask -> py A) : is_effect a = false -> moves only_reads (answer_py a f).
Proof.
  intros Ha s. unfold answer_py. cbn. split; [unfold effects; cbn; by rewrite Ha|]. exists 0%nat. by rewrite drop_0, take_0.
Qed.

#[export] Hint Resolve only_reads_preorder reads_run reads_answer reads_answer_py : frame.

Section Requests.
Context `{ReprContainer} `{SelectorOutside}.

Tactic Notation "reading" reference(f) := unfold f; frame.

Lemma reads_fence : moves only_reads read_selection_fence.
Proof. reading read_selection_fence. Qed.
Lemma reads_signature : moves only_reads read_pool_signature.
Proof. reading read_pool_signature. Qed.
Lemma reads_candidates : moves only_reads load_selector_candidates.
Proof. reading load_selector_candidates. Qed.
Lemma reads_inventory : moves only_reads load_runtime_target_inventory.
Proof. reading load_runtime_target_inventory. Qed.
Lemma reads_adapter : moves only_reads _active_selector_runtime.
Proof. reading _active_selector_runtime. Qed.
Lemma reads_health ad : moves only_reads (_runtime_health_or_error ad).
Proof. reading _runtime_health_or_error. Qed.
Hint Resolve reads_fence reads_signature reads_candidates reads_inventory reads_adapter reads_health : frame.

Lemma reads_generation h ad r : moves only_reads (_runtime_generation_identity h ad r).
Proof. reading _runtime_generation_identity. Qed.
Hint Resolve reads_generation : frame.

Lemma reads_generation_or_raise h ad : moves only_reads (generation_or_raise h ad).
Proof. reading generation_or_raise. Qed.
Lemma reads_fence_or_raise : moves only_reads read_selection_fence_or_raise.
Proof. reading read_selection_fence_or_raise. Qed.
Lemma reads_guard : moves only_reads acquire_guard.
Proof. reading acquire_guard. Qed.
Hint Resolve reads_generation_or_raise reads_fence_or_raise reads_guard : frame.

Lemma reads_fence_error ev id : moves only_reads (_selection_fence_error ev id).
Proof. reading _selection_fence_error. Qed.

Lemma reads_incarnation a ad : moves only_reads (provider_incarnation a ad).
Proof. reading provider_incarnation. Qed.
Hint Resolve reads_fence_error reads_incarnation : frame.

Lemma reads_open a : moves only_reads (open_selection a).
Proof. reading open_selection. Qed.
Lemma reads_offer a o : moves only_reads (offer_of a o).
Proof. reading offer_of. Qed.
Lemma reads_settle a o offered : moves only_reads (settle a o offered).
Proof. reading settle. Qed.

Lemma reads_probe a t cs : moves only_reads (choose_by_probe a t cs).
Proof. reading choose_by_probe. Qed.
Lemma reads_stored cs : moves only_reads (choose_stored cs).
Proof. reading choose_stored. Qed.
Lemma reads_provider a ch : moves only_reads (provider_choice a ch).
Proof. reading provider_choice. Qed.
Hint Resolve reads_probe reads_stored reads_provider : frame.

Lemma reads_choose a o offered g : moves only_reads (choose a o offered g).
Proof. reading choose. Qed.

Lemma reads_log_noop a c : moves only_reads (log_noop a c).
Proof. reading log_noop. Qed.
Lemma reads_post_check a c result : moves only_reads (post_check a c result).
Proof. reading post_check. Qed.
Lemma reads_event_label id : moves only_reads (server_event_label id).
Proof. reading server_event_label. Qed.
Hint Resolve reads_event_label : frame.
Lemma reads_log_switch a r c result : moves only_reads (log_switch a r c result).
Proof. reading log_switch. Qed.
End Requests.

#[export] Hint Resolve reads_fence reads_signature reads_candidates reads_inventory reads_adapter reads_health reads_generation
  reads_generation_or_raise reads_fence_or_raise reads_guard reads_fence_error reads_incarnation reads_open reads_offer
  reads_settle reads_probe reads_stored reads_provider reads_choose reads_log_noop reads_post_check reads_event_label
  reads_log_switch : frame.

(** ** What else is left alone *)

(** A part that only reads has no effect, and undisturbed it leaves the database. *)
Lemma reads_effects {A} (m : F A) : moves only_reads m -> preserves effects m.
Proof. intros Hm s. apply (Hm s). Qed.

Lemma reads_undisturbed {A} db (m : F A) : moves only_reads m -> moves (stays (undisturbed db)) m.
Proof.
  intros Hm s [Ht Hd]. destruct (Hm s) as [_ (k & Ht' & Hd')]. rewrite Ht, drop_nil in Ht'. rewrite Ht, take_nil in Hd'. cbn in Hd'.
  split; [done|]. by rewrite Hd'.
Qed.

(** The trace only grows. *)
Definition grows : relation selector := fun s s' => exists l, x_asked s' = l ++ x_asked s.

#[export] Instance grows_preorder : PreOrder grows.
Proof.
  split; [intros s; by exists []|]. intros a b c [l Hl] [k Hk]. exists (k ++ l). by rewrite Hk, Hl, app_assoc.
Qed.

(** * What a selection may do

    A dry run only reads; a run changes the runtime at most once, and only
    after its fence has been checked again. *)
Section Facts.
Context `{ReprContainer} `{SelectorOutside}.

(** ** Dry runs *)

(** A step that only reads, before one that does what [R] allows. *)
Lemma and_then_moves (R : relation selector) `{!PreOrder R} {A} (m : F (dict + A)) k :
  moves R m -> (forall x, moves R (k x)) -> moves R (and_then m k).
Proof. intros Hm Hk. unfold and_then. frame. Qed.

Lemma dry_conclude a r : a_apply a = false -> moves only_reads (conclude a r).
Proof. intros Ha. unfold conclude, provider_result, already_active. rewrite Ha. cbn [negb]. frame. Qed.

(** A dry run only reads: whatever the others do meanwhile, it leaves
    the database as they leave it, and asks the runtime for no change. *)
Theorem dry_run_only_reads a s : a_apply a = false -> only_reads s (select_vpn_auto_server a s).2.
Proof.
  intros Ha. revert s. change (moves only_reads (select_vpn_auto_server a)). unfold select_vpn_auto_server.
  do 4 (apply and_then_moves; [apply _|frame|intros ?]). by apply dry_conclude.
Qed.

(** ** One change a run *)

Definition changes (s : selector) : nat := length (effects s).

Lemma quiet_changes {A} (m : F A) : preserves effects m -> preserves changes m.
Proof. intros Hm s. unfold same, changes. by rewrite (Hm s). Qed.

Lemma effects_transaction {A} (body : T A) : preserves effects (transaction body).
Proof.
  intros s. unfold same, transaction. destruct (take_turn s) as [[t db] rest]. destruct (t_ok t); [|done].
  by destruct (body db) as [[x|] db'].
Qed.

Lemma effects_commit f id p : preserves effects (commit f id p).
Proof. apply effects_transaction. Qed.

Lemma effects_answer {A} a (f : list ask -> A) : is_effect a = false -> preserves effects (answer a f).
Proof. intros Ha. by apply reads_effects, reads_answer. Qed.

Lemma effects_answer_py {A} a (f : list ask -> py A) : is_effect a = false -> preserves effects (answer_py a f).
Proof. intros Ha. by apply reads_effects, reads_answer_py. Qed.

Lemma effects_reads {A} (m : F A) : moves only_reads m -> preserves effects m.
Proof. apply reads_effects. Qed.

#[local] Hint Resolve effects_commit effects_answer effects_answer_py : frame.
#[local] Hint Extern 3 (preserves effects _) => apply effects_reads; solve [auto with frame nocore] : frame.
#[local] Hint Extern 3 (moves (same effects) _) => apply effects_reads; solve [auto with frame nocore] : frame.

Lemma answer_at_most {A} a (f : list ask -> A) : at_most changes 1 (answer a f).
Proof. intros s. unfold answer, changes, effects. cbn. destruct (is_effect a); cbn; lia. Qed.

Lemma answer_py_at_most {A} a (f : list ask -> py A) : at_most changes 1 (answer_py a f).
Proof. intros s. unfold answer_py, changes, effects. cbn. destruct (is_effect a); cbn; lia. Qed.

#[local] Hint Resolve answer_at_most answer_py_at_most : budget.

Ltac budget := spend ltac:(solve [apply quiet_changes; frame]).

Lemma effects_reconcile_guarded o ad g ob fp sg f id n : preserves effects (reconcile_guarded o ad g ob fp sg f id n).
Proof. unfold reconcile_guarded. frame. Qed.
#[local] Hint Resolve effects_reconcile_guarded : frame.

Lemma effects_reconcile o f : preserves effects (_reconcile_observed_selection_after_cas_miss o f).
Proof. unfold _reconcile_observed_selection_after_cas_miss, reconcile_observation. frame. Qed.
#[local] Hint Resolve effects_reconcile : frame.

Lemma effects_repair a r c : preserves effects (repair_fence a r c).
Proof. unfold repair_fence. frame. Qed.
#[local] Hint Resolve effects_repair : frame.

Lemma effects_record a r c ap : preserves effects (record_applied a r c ap).
Proof. unfold record_applied. frame. Qed.

Lemma effects_end a r c e : preserves effects (end_apply a r c e).
Proof. unfold end_apply, after_apply. frame. Qed.
#[local] Hint Resolve effects_record effects_end : frame.

Lemma apply_guarded_at_most a r c : at_most changes 1 (apply_guarded a r c).
Proof. unfold apply_guarded. budget. Qed.
#[local] Hint Resolve apply_guarded_at_most : budget.

Lemma conclude_at_most a r : at_most changes 1 (conclude a r).
Proof. unfold conclude, provider_result, already_active, apply_selected. budget. Qed.

Lemma and_then_at_most {A} n (m : F (dict + A)) k :
  preserves effects m -> (forall x, at_most changes n (k x)) -> at_most changes n (and_then m k).
Proof.
  intros Hm Hk. apply at_most_bind; [by apply quiet_changes|]. intros [result|x]; [|apply Hk]. intros s. cbn. lia.
Qed.

(** C29: A selection changes the runtime at most once: one server applied or
    one provider switched, whatever the runtime answers and whatever is
    repaired afterwards. *)
Theorem one_change_per_selection a s : (changes (select_vpn_auto_server a s).2 <= 1 + changes s)%nat.
Proof.
  assert (Hm : at_most changes 1 (select_vpn_auto_server a)); [|apply Hm]. unfold select_vpn_auto_server.
  do 4 (apply and_then_at_most; [frame|intros ?]). apply conclude_at_most.
Qed.

(** ** Evidence of two formats *)

(** The runtime offers the candidate of a row, and the run does not leave it
    out as the active one. *)
Definition kept_offer (db mdb : pool_db) (hd : health_db) (a : sel_args) (o : opening) (offered : offer) (row : server_row) : Prop :=
  row ∈ t_servers db /\ auto_eligible_sql db true row = true /\
  in_targets (of_servers offered ++ of_targets offered) (candidate_loaded db mdb hd row) = true /\
  (a_exclude_active a = true -> vpn_auto_target (o_health o) <> Some (target_of (candidate_loaded db mdb hd row))).

Lemma kept_narrowed db mdb hd a o offered row : a_candidate_server_id a = None ->
  of_candidates offered
    = List.filter (in_targets (of_servers offered ++ of_targets offered)) (_load_selector_candidates db hd mdb) ->
  kept_offer db mdb hd a o offered row ->
  candidate_loaded db mdb hd row ∈ narrowed a (vpn_auto_target (o_health o)) (of_candidates offered).
Proof.
  intros Hid Hof (Hr & He & Ht & Hx). unfold narrowed. rewrite Hid, Hof.
  assert (Hin : candidate_loaded db mdb hd row ∈
    List.filter (in_targets (of_servers offered ++ of_targets offered)) (_load_selector_candidates db hd mdb))
    by (apply elem_of_lfilter; split; [by apply loaded|done]).
  destruct (vpn_auto_target (o_health o)) as [target|]; [|done]. destruct (a_exclude_active a); [|done].
  apply elem_of_lfilter. split; [done|]. apply negb_true_iff, String.eqb_neq. intros E. by destruct (Hx eq_refl); rewrite E.
Qed.

(** C31: Evidence in the two formats the services write stops the selector.
    [logical_topology.py] stores member evidence as a time without an
    offset, [server_ping.py] stores pings as a time with one. Take a run that
    probes or applies, over all candidates and not one server, when the pool
    has a server with each kind of time, the runtime offers both and neither
    is left out as the active one: the choice never gets past the shortlist.
    It raises, unless the run stops before, as its caller holds the guard. *)
Theorem mixed_evidence_raises db mdb hd a o offered generation x y tx ty s :
  checks_on_demand a = true -> a_candidate_server_id a = None ->
  of_candidates offered
    = List.filter (in_targets (of_servers offered ++ of_targets offered)) (_load_selector_candidates db hd mdb) ->
  kept_offer db mdb hd a o offered x -> has_member_evidence mdb hd x tx -> naive_text tx ->
  kept_offer db mdb hd a o offered y -> has_stored_ping db mdb hd y ty -> aware_text ty ->
  match (choose a o offered generation s).1 with
  | None => True
  | Some (inl result) => dget "error_code" result = VStr "VPN_AUTO_SELECTION_OUTER_GUARD_HELD"
  | Some (inr _) => False
  end.
Proof.
  intros Hc Hid Hof Hx Hex Htx Hy Hey Hty. unfold choose.
  pose proof (mixed_shortlist db mdb hd x y tx ty _ (vpn_auto_target (o_health o)) (safe_limit a) ltac:(unfold safe_limit; lia)
    (kept_narrowed _ _ _ _ _ _ _ Hid Hof Hx) Hex Htx (kept_narrowed _ _ _ _ _ _ _ Hid Hof Hy) Hey Hty) as Hshort.
  destruct (_runtime_target_identity _ _ _) as [[before name] status]. rewrite bind_unfold.
  assert (Hrest : forall t, (choose_by_probe a (vpn_auto_target (o_health o))
    (narrowed a (vpn_auto_target (o_health o)) (of_candidates offered)) t).1 = None).
  { intros t. unfold choose_by_probe. by rewrite Hshort. }
  destruct (_ s) as [[[]|] s1]; [done| |done]. rewrite Hc, bind_unfold. specialize (Hrest s1).
  by destruct (choose_by_probe _ _ _ s1) as [[?|] s2].
Qed.
End Facts.
