(* ===== verification/SelectorGuard.v ===== *)
(** * Under the writer's guard

    While the guard is held nobody else writes the selection, so the check
    of the fence, the apply and the commit see one database: a server is
    applied only on evidence that still holds, and a switch that is reported
    is persisted. *)
From stdpp Require Import base list strings gmap.
From Stdlib Require Import ZArith Lia Ascii.
From S2P Require Import Prelude PyStr PyKey PyVal PyState PyTime AutoPool SelectorCandidates SelectorRank SelectionFence SelectionFenceFacts FenceSession SelectorDeps SelectorFlow SelectorFlowFacts.

Open Scope string_scope.
Open Scope Z_scope.
Open Scope list_scope.

Section Guard.
Context `{ReprContainer} `{SelectorOutside}.

(** ** Nobody else runs *)

Lemma fence_alone db l :
  read_selection_fence (Selector db [] l) =
  (Some (match fence_of db with
         | Some f => inl f
         | None => inr (fence_error_text (setting SELECTION_PROVENANCE_KEY db) (setting SELECTION_REVISION_KEY db))
         end), Selector db [] l).
Proof. done. Qed.

(** ** The evidence *)

(** What the check reads when it passes: the trace [l] is what had been asked. *)
Record still_valid (ev : evidence) (id : string) (db : fence_db) (l : list ask) : Prop := StillValid {
  sv_fence : fence_of db = Some (ev_fence ev);
  sv_signature : selection_pool_signature sha256_json db = ev_signature ev;
  sv_candidates : exists members, member_health (AskMemberHealth :: l) = Some members /\
    let fresh := List.filter (in_targets (ev_targets ev)) (_load_selector_candidates (d_pool db) members (d_pool db)) in
    _candidate_fence sha256_json fresh = ev_fingerprint ev /\
    exists c, c ∈ fresh /\ c_server_id c = id /\ eligible c = true;
  sv_runtime : exists h, runtime_health (AskHealth :: AskAdapter :: AskMemberHealth :: l) = inl h /\
    vpn_auto_target h = ev_runtime_target ev /\
    exists s, _runtime_generation_identity h (vpn_adapter (AskAdapter :: AskMemberHealth :: l))
                (is_mihomo (vpn_adapter (AskAdapter :: AskMemberHealth :: l)))
                (Selector db [] (AskHealth :: AskAdapter :: AskMemberHealth :: l)) = (Some (inl (ev_generation ev)), s);
}.

Lemma fresh_found candidates id c : fresh_candidate candidates id = Some c -> c ∈ candidates /\ c_server_id c = id.
Proof.
  intros Hf%find_some. destruct Hf as [Hin Hid%String.eqb_eq]. split; [|done].
  apply list_elem_of_In. by apply in_rev.
Qed.

Lemma health_alone ad db l h s : _runtime_health_or_error ad (Selector db [] l) = (Some (inl h), s) ->
  runtime_health (AskHealth :: l) = inl h /\ s = Selector db [] (AskHealth :: l).
Proof.
  unfold _runtime_health_or_error. destruct (_ || _); [done|]. rewrite bind_unfold. cbn.
  destruct (runtime_health (AskHealth :: l)) as [h'|]; [|done]. by intros [= -> <-].
Qed.

Lemma candidates_alone db l cs s : load_selector_candidates (Selector db [] l) = (Some cs, s) ->
  s = Selector db [] (AskMemberHealth :: l) /\
  exists members, member_health (AskMemberHealth :: l) = Some members /\
    cs = _load_selector_candidates (d_pool db) members (d_pool db).
Proof.
  unfold load_selector_candidates. rewrite (bind_step _ _ _ _ _ (read_alone _ _ _)), bind_unfold. cbn.
  destruct (member_health (AskMemberHealth :: l)) as [members|]; [|done]. intros [= <- <-]. eauto.
Qed.

Lemma negb_bool_decide_false (P : Prop) `{!Decision P} : negb (bool_decide P) = false -> P.
Proof. intros E%negb_false_iff. by apply bool_decide_eq_true in E. Qed.

Lemma fence_error_passes ev id db l s : _selection_fence_error ev id (Selector db [] l) = (Some None, s) ->
  still_valid ev id db l /\ x_db s = db /\ x_turns s = [] /\ effects s = effects (Selector db [] l).
Proof.
  intros E. pose proof (moves_run _ _ _ _ _ (reads_undisturbed db _ (reads_fence_error ev id)) E (conj eq_refl eq_refl)) as [Ht Hd].
  pose proof (moves_run _ _ _ _ _ (reads_effects _ (reads_fence_error ev id)) E) as He. split; [|done]. clear Ht Hd He. revert E.
  unfold _selection_fence_error. rewrite (bind_step _ _ _ _ _ (fence_alone _ _)).
  destruct (fence_of db) as [f|] eqn:Ef; [|done]. destruct (negb _) eqn:E1; [done|]. apply negb_bool_decide_false in E1 as ->.
  unfold read_pool_signature. rewrite (bind_step _ _ _ _ _ (read_alone _ _ _)).
  destruct (String.eqb_spec (selection_pool_signature sha256_json db) (ev_signature ev)) as [Hsig|]; cbn [negb]; [|done].
  intros E. apply bind_inv in E as (cs & s1 & Ecs & E). apply candidates_alone in Ecs as (-> & members & Hm & ->).
  cbv zeta in E. set (fresh := List.filter _ _) in E.
  destruct (fresh_candidate fresh id) as [c|] eqn:Ec; cbn [from_option negb] in E; [|done].
  apply fresh_found in Ec as [Hc Hid]. destruct (eligible c) eqn:Hel; cbn [negb] in E; [|done].
  destruct (String.eqb_spec (_candidate_fence sha256_json fresh) (ev_fingerprint ev)) as [Hfp|]; cbn [negb] in E; [|done].
  unfold _active_selector_runtime in E. apply bind_inv in E as (ad & s2 & [= <- <-] & E).
  apply bind_inv in E as (h & s3 & Eh & E). destruct h as [h|]; [|done]. apply health_alone in Eh as [Hh ->].
  apply bind_inv in E as (g & s4 & Eg & E). destruct (negb (bool_decide (g = _))) eqn:E2; [done|].
  destruct (negb _) eqn:E3 in E; [done|]. apply negb_bool_decide_false in E2 as ->. apply negb_bool_decide_false in E3.
  split; [done..|exists members; eauto 6|eauto 7].
Qed.

(** ** A commit that misses *)

Lemma commit_missed e id p db db' id' p' : commit_active_selection e id p db = (Some None, db') ->
  commit_active_selection e id' p' db = (Some None, db).
Proof.
  unfold commit_active_selection, read_selection_revision. cbv [mbind st_bind st_get st_py mret st_ret].
  destruct (selection_revision db) as [n|]; [|done]. destruct (negb (n =? e_revision e)); [done|].
  destruct (d_routing db) as [r|] eqn:Er; [|done]. destruct (negb (String.eqb _ _)); [done|].
  destruct (provenance_of _) as [d|]; [|done]. destruct (negb (bool_decide _)); [done|].
  unfold update_routing. cbv [mbind st_bind st_get st_raise]. rewrite Er. by destruct (routing_ok db (set_active (Some id) r)).
Qed.

(** What a part does when nobody else runs. *)
Definition alone {A} (db : fence_db) (m : F A) (Q : A -> Prop) : Prop :=
  triple (undisturbed db) m (fun x s => Q x /\ undisturbed db s) (undisturbed db).

Lemma alone_ret {A} db (x : A) (Q : A -> Prop) : Q x -> alone db (mret x) Q.
Proof. intros HQ. by apply triple_ret. Qed.

Lemma alone_bind {A B} db (m : F A) (k : A -> F B) (R : A -> Prop) Q :
  alone db m R -> (forall x, R x -> alone db (k x) Q) -> alone db (m ≫= k) Q.
Proof. intros Hm Hk. eapply triple_bind; [exact Hm|]. intros x. apply triple_pure. apply Hk. Qed.

Lemma alone_try {A} db (m h : F A) Q : alone db m Q -> alone db h Q -> alone db (st_try m h) Q.
Proof. apply triple_try. Qed.

Lemma alone_reads {A} db (m : F A) : moves only_reads m -> alone db m (fun _ => True).
Proof.
  intros Hm. eapply triple_conseq; [eapply (triple_moves _ _ (undisturbed db) (undisturbed db)); [exact (reads_undisturbed db m Hm)|auto..]|done|auto].
Qed.

Lemma alone_fence db : alone db read_selection_fence_or_raise (fun f => fence_of db = Some f).
Proof.
  intros [db' ts l] [Ht Hd]. cbn in Ht, Hd. subst. unfold read_selection_fence_or_raise.
  rewrite (bind_step _ _ _ _ _ (fence_alone db l)). cbn. by destruct (fence_of db).
Qed.

Lemma alone_commit_missed db f id p id' p' : commit_active_selection (expectation_of f) id p db = (Some None, db) ->
  alone db (commit f id' p') (fun n => n = None).
Proof.
  intros Hmiss [db' ts l] [Ht Hd]. cbn in Ht, Hd. subst. unfold commit. rewrite transaction_alone.
  by rewrite (commit_missed _ _ _ _ _ id' p' Hmiss).
Qed.

#[local] Ltac alone :=
  cbv zeta;
  repeat first
    [ solve [apply alone_ret; done]
    | match goal with |- alone _ (mbind _ read_selection_fence_or_raise) _ => eapply alone_bind; [apply alone_fence|cbv beta; intros ? ?] end
    | match goal with |- alone _ (mbind _ _) _ => eapply alone_bind; [solve [apply alone_reads; frame]|intros ? _] end
    | match goal with |- alone _ (if ?b then _ else _) _ => destruct b eqn:? end
    | match goal with |- alone _ (match ?b with _ => _ end) _ => destruct b eqn:? end
    | progress cbv zeta ].

(** Nothing is repaired where the commit misses. *)
Definition not_repaired (repair : dict) : Prop := truthy (dget "ok" repair) = false.

Lemma reconcile_guarded_alone db op ad g ob fp sg f target name id p :
  commit_active_selection (expectation_of f) id p db = (Some None, db) ->
  alone db (reconcile_guarded op ad g ob fp sg f target name) not_repaired.
Proof.
  intros Hmiss. unfold reconcile_guarded. alone. eapply alone_bind; [by eapply alone_commit_missed|]. intros n ->. alone.
Qed.

Lemma reconcile_alone db op original f id p :
  fence_of db = Some f -> commit_active_selection (expectation_of f) id p db = (Some None, db) ->
  alone db (_reconcile_observed_selection_after_cas_miss op original) not_repaired.
Proof.
  intros Hf Hmiss. apply alone_try; [|by apply alone_ret].
  unfold reconcile_observation. alone. simplify_eq. by eapply reconcile_guarded_alone.
Qed.

(** ** What is reported *)

(** The result says that [id] was selected. *)
Definition reported (id : string) (result : dict) : bool :=
  eq_str (dget "selection_outcome" result) "selected" && eq_str (dget "active_after" result) id.

Lemma dget_update_sub k k' e d : String.eqb k k' = false -> dget k (update_sub k' e d) = dget k d.
Proof. intros Hk. unfold update_sub. by rewrite dget_dset, Hk. Qed.

(** Read a key of a dict the code has updated. *)
Ltac read_key :=
  repeat first
    [ rewrite dget_update_sub by reflexivity
    | rewrite dget_dpop_ne by reflexivity
    | progress (unfold dmerge; cbn [fold_left fst snd])
    | rewrite dget_dset; cbn [String.eqb Ascii.eqb Bool.eqb andb] ].

Lemma reported_update_sub id k e d : String.eqb "selection_outcome" k = false -> String.eqb "active_after" k = false ->
  reported id (update_sub k e d) = reported id d.
Proof. intros H1 H2. unfold reported. by rewrite !dget_update_sub. Qed.

Lemma reported_busy id text result : reported id (run_busy text result) = false.
Proof. unfold reported, run_busy. by read_key. Qed.

Lemma reported_stale id code result : reported id (run_stale code result) = false.
Proof. unfold reported, run_stale. by read_key. Qed.

Lemma reported_unrepaired id repair result : reported id (unrepaired_result repair result) = false.
Proof. unfold reported, unrepaired_result. by read_key. Qed.

Lemma applied_outcome a r c rb d : dget "selection_outcome" (applied_result a r c rb d) = VStr (readback_outcome c rb).
Proof. unfold applied_result. destruct (rb_effective_after rb); by read_key. Qed.

Lemma applied_after a r c rb d : dget "active_after" (applied_result a r c rb d) = vopt (rb_id rb).
Proof. unfold applied_result. destruct (rb_effective_after rb); by read_key. Qed.

Lemma reported_persisted id a r decision at_ n result : reported id (persisted a r decision at_ n result) = reported id result.
Proof. unfold reported, persisted. by read_key. Qed.

(** ** The apply *)

(** The runtime has confirmed the target and the selection is in the
    database: the server, its provenance and the next revision. *)
Definition persisted_switch (ev : evidence) (c : candidate) (db db' : fence_db) : Prop :=
  (exists l details d, server_applied (ApplyServer (target_of c) :: l) = Applied true details d /\
     nonblank (dget "selector_after" (default [] (as_dict details))) = Some (target_of c)) /\
  exists p, dget "selected_server_id" p = VStr (c_server_id c) /\
    db' = committed (c_server_id c) p (f_revision (ev_fence ev) + 1) db.

(** How an apply that was not lost ends. *)
Definition consistent (ev : evidence) (c : candidate) (db : fence_db) (result : dict) (db' : fence_db) : Prop :=
  (db' = db /\ reported (c_server_id c) result = false) \/
  (persisted_switch ev c db db' /\ reported (c_server_id c) result = true).

Lemma identity_confirmed label target inventory id :
  (_runtime_target_identity label target inventory).1.1 = Some id -> (_runtime_target_identity label target inventory).2 = "confirmed".
Proof.
  unfold _runtime_target_identity. destruct (String.eqb _ _); [done|]. by destruct (List.filter _ _) as [|x [|y l]].
Qed.

Lemma readback_fields r ok details :
  rb_ok (read_back r ok details) = ok /\
  rb_target (read_back r ok details) = nonblank (dget "selector_after" (default [] (as_dict details))) /\
  forall id, rb_id (read_back r ok details) = Some id -> rb_status (read_back r ok details) = "confirmed".
Proof.
  unfold read_back. pose proof (identity_confirmed safe_human_label (nonblank (dget "selector_after" (default [] (as_dict details))))
    (run_inventory r)) as Hid. destruct (_runtime_target_identity _ _ _) as [[id name] status]. cbn in *. auto.
Qed.

(** The test of the code before it commits is what the result reports. *)
Lemma reported_applied a r c ok details d :
  reported (c_server_id c) (applied_result a r c (read_back r ok details) d) =
  ok && readback_matches c (read_back r ok details) && bool_decide (rb_id (read_back r ok details) = Some (c_server_id c)).
Proof.
  destruct (readback_fields r ok details) as (Hok & _ & Hst). unfold reported. rewrite applied_outcome, applied_after.
  unfold readback_outcome. rewrite Hok. set (rb := read_back r ok details) in *.
  destruct ok; cbn [andb]; [|done]. destruct (readback_matches c rb); cbn [andb]; [|done].
  destruct (rb_id rb) as [id|] eqn:Eid.
  - rewrite (Hst id eq_refl). cbn. destruct (String.eqb_spec id (c_server_id c)) as [->|Hne]; [by rewrite bool_decide_eq_true_2|].
    rewrite bool_decide_eq_false_2; [done|congruence].
  - rewrite bool_decide_eq_false_2 by done. by rewrite andb_false_r.
Qed.

Lemma commit_alone f id p db l :
  commit f id p (Selector db [] l) = (None, Selector db [] l) \/
  (commit f id p (Selector db [] l) = (Some None, Selector db [] l) /\
   commit_active_selection (expectation_of f) id p db = (Some None, db)) \/
  commit f id p (Selector db [] l) = (Some (Some (f_revision f + 1)), Selector (committed id p (f_revision f + 1) db) [] l).
Proof.
  unfold commit. rewrite transaction_alone.
  destruct (commit_cases (expectation_of f) id p db) as [E|[E|(? & ? & _ & _ & _ & _ & _ & E)]]; rewrite E; auto.
Qed.

Lemma apply_guarded_alone a r c db l e s : apply_guarded a r c (Selector db [] l) = (Some e, s) ->
  x_turns s = [] /\
  match e with
  | Went _ true => x_db s = db /\ exists id p,
      commit_active_selection (expectation_of (ev_fence (run_evidence r))) id p db = (Some None, db) /\
      fence_of db = Some (ev_fence (run_evidence r))
  | Went result false => consistent (run_evidence r) c db result (x_db s)
  | GivenUp result => consistent (run_evidence r) c db result (x_db s)
  end.
Proof.
  intros E. apply bind_inv in E as ([code|] & s1 & E1 & E).
  - pose proof (moves_run _ _ _ _ _ (reads_undisturbed db _ (reads_fence_error _ _)) E1 (conj eq_refl eq_refl)) as [Ht Hd].
    apply ret_inv in E as [<- ->]. split; [done|]. left. by rewrite reported_stale.
  - apply fence_error_passes in E1 as (Hsv & Hd & Ht & _). destruct s1 as [db1 ts l1]. cbn in Hd, Ht. subst.
    apply bind_inv in E as (ap & s2 & [= <- <-] & E). cbn [x_db x_turns x_asked] in E.
    unfold record_applied in E. destruct (server_applied _) as [ok details d|text|] eqn:Eap; [|apply ret_inv in E as [<- <-]|done].
    2: { split; [done|]. left. by rewrite reported_busy. }
    destruct (negb _) eqn:Hrep in E; [apply ret_inv in E as [<- <-]|].
    + split; [done|]. left. split; [done|]. rewrite reported_applied. by apply negb_true_iff.
    + apply negb_false_iff in Hrep. do 2 (apply bind_inv in E as (? & ? & [= <- <-] & E)). cbn [x_db x_turns x_asked] in E.
      apply bind_inv in E as (n & s3 & En & E).
      destruct (commit_alone (ev_fence (run_evidence r)) (c_server_id c)
        (provenance (fresh_uuid (NewUuid :: ApplyServer (target_of c) :: l1)) (run_operation_id r) (c_server_id c)
           (safe_human_label (c_server_name c) (c_server_id c)) (_selector_reason_code (a_reason a) (a_origin a))
           (_safe_selection_origin (a_origin a)) "caller_supplied_unverified"
           (utc_now_iso (ReadClock :: NewUuid :: ApplyServer (target_of c) :: l1))) db (ReadClock :: NewUuid :: ApplyServer (target_of c) :: l1))
        as [E'|[[E' Hmiss]|E']]; rewrite E' in En; [done|injection En as <- <-..]; apply ret_inv in E as [<- <-]; (split; [done|]).
      * split; [done|]. do 2 eexists. split; [exact Hmiss|apply (sv_fence _ _ _ _ Hsv)].
      * right. rewrite reported_persisted, reported_applied. split; [|done].
        apply andb_prop in Hrep as [[-> Hm]%andb_prop _]. split; [|eexists; split; [|reflexivity]; reflexivity].
        exists l1, details, d. split; [done|]. apply bool_decide_eq_true in Hm.
        destruct (readback_fields r true details) as (_ & Ht & _). congruence.
Qed.

(** The probe after the switch and the log leave the database and what is reported. *)
Lemma post_check_alone a c result id db :
  alone db (post_check a c result) (fun result' => reported id result' = reported id result).
Proof.
  unfold post_check. destruct (negb _); [by apply alone_ret|]. eapply alone_bind; [apply alone_reads; frame|].
  intros d _. apply alone_ret. rewrite reported_update_sub by done. unfold reported. by read_key.
Qed.

Lemma alone_run {A} db (m : F A) Q s x s' : alone db m Q -> undisturbed db s -> m s = (Some x, s') -> Q x /\ undisturbed db s'.
Proof. intros Hm Hs E. specialize (Hm s Hs). by rewrite E in Hm. Qed.

Lemma after_apply_kept a r c result db :
  alone db (after_apply a r c result false) (fun result' => reported (c_server_id c) result' = reported (c_server_id c) result).
Proof.
  unfold after_apply. eapply alone_bind; [by apply (alone_ret db result (eq result))|]. intros ? <-.
  eapply alone_bind; [apply (post_check_alone a c result (c_server_id c))|]. cbv beta. intros result' Hr.
  eapply alone_bind; [apply alone_reads; frame|]. intros _ _. by apply alone_ret.
Qed.

Lemma after_apply_missed a r c result db id p :
  fence_of db = Some (ev_fence (run_evidence r)) ->
  commit_active_selection (expectation_of (ev_fence (run_evidence r))) id p db = (Some None, db) ->
  alone db (after_apply a r c result true) (fun result' => reported (c_server_id c) result' = false).
Proof.
  intros Hf Hmiss. unfold after_apply. eapply (alone_bind _ _ _ (fun result' => reported (c_server_id c) result' = false)).
  - eapply alone_bind; [by eapply reconcile_alone|]. intros repair Hr. rewrite Hr. apply alone_ret, reported_unrepaired.
  - intros missed Hr. eapply alone_bind; [apply (post_check_alone a c _ (c_server_id c))|]. cbv beta. intros result' Hr'.
    eapply alone_bind; [apply alone_reads; frame|]. intros _ _. apply alone_ret. by rewrite Hr'.
Qed.

(** C4: While the guard is held, what is reported is what is persisted: a
    run that reports the server as selected has had its target confirmed by
    the runtime and has written it with its provenance and the next
    revision; every other run leaves the selection as it was. *)
Theorem reported_switch_is_persisted a r c db l result s :
  apply_selected a r c (Selector db [] l) = (Some result, s) -> consistent (run_evidence r) c db result (x_db s).
Proof.
  intros E. apply bind_inv in E as (timeout & s1 & [= <- <-] & E). cbn [x_db x_turns x_asked] in E.
  apply bind_inv in E as (e & s2 & Ee & E). destruct (guard_timeout _) as [text|].
  - apply ret_inv in Ee as [<- <-].
    destruct (alone_run db _ _ (Selector db [] (AcquireGuard :: l)) result s (after_apply_kept a r c _ db) (conj eq_refl eq_refl) E) as [Hr [_ Hd]].
    left. split; [done|]. rewrite Hr. apply reported_busy.
  - apply apply_guarded_alone in Ee as [Ht He]. destruct e as [result'|result' [|]].
    + by apply ret_inv in E as [<- <-].
    + destruct He as (Hd & id & p & Hmiss & Hf).
      destruct (alone_run db _ _ s2 result s (after_apply_missed a r c result' db id p Hf Hmiss) (conj Ht Hd) E) as [Hr [_ Hd']].
      left. split; [exact Hd'|exact Hr].
    + destruct (alone_run (x_db s2) _ _ s2 result s (after_apply_kept a r c result' (x_db s2)) (conj Ht eq_refl) E) as [Hr [_ Hd']].
      unfold consistent. by rewrite Hr, Hd'.
Qed.

(** ** The evidence of a change *)

#[local] Hint Resolve effects_commit effects_answer effects_answer_py effects_reconcile : frame.
#[local] Hint Extern 3 (preserves effects _) => apply reads_effects; solve [auto with frame nocore] : frame.

#[local] Hint Resolve effects_end effects_record : frame.

(** C5: While the guard is held, the runtime is changed only on evidence
    that still holds: when a selection applies a server, the fence and the
    pool's signature are those the decision was taken on, the candidates
    have the same fingerprint and the server is still an eligible one of
    them, the runtime runs the same generation on the expected target; and
    the target applied is that server's. *)
Theorem applied_on_valid_evidence a r c db l s :
  s = (apply_selected a r c (Selector db [] l)).2 -> effects s <> effects (Selector db [] l) ->
  guard_timeout (AcquireGuard :: l) = None /\
  still_valid (run_evidence r) (c_server_id c) db (AcquireGuard :: l) /\
  effects s = ApplyServer (target_of c) :: effects (Selector db [] l).
Proof.
  assert (Eg : acquire_guard (Selector db [] l) = (Some (guard_timeout (AcquireGuard :: l)), Selector db [] (AcquireGuard :: l)))
    by done.
  intros -> Hne. revert Hne. unfold apply_selected. rewrite (bind_step _ _ _ _ _ Eg). destruct (guard_timeout _) as [text|].
  { rewrite bind_unfold. cbn [mret st_ret]. by rewrite (effects_end a r c _ _). }
  destruct (apply_guarded a r c (Selector db [] (AcquireGuard :: l))) as [o s2] eqn:E2.
  assert (Es : effects ((e ← apply_guarded a r c; end_apply a r c e) (Selector db [] (AcquireGuard :: l))).2 = effects s2).
  { rewrite bind_unfold, E2. destruct o as [e|]; [apply effects_end|done]. }
  cbv beta iota. rewrite Es. unfold apply_guarded in E2. rewrite bind_unfold in E2.
  destruct (_selection_fence_error (run_evidence r) (c_server_id c) _) as [[[code|]|] s1] eqn:E1.
  - pose proof (moves_run _ _ _ _ _ (reads_effects _ (reads_fence_error _ _)) E1) as He. injection E2 as <- <-. by rewrite He.
  - apply fence_error_passes in E1 as (Hsv & _ & _ & He). intros _. split_and!; [done|done|].
    rewrite bind_unfold in E2. cbn [answer] in E2. pose proof (moves_run _ _ _ _ _ (effects_record a r c _) E2) as He2.
    rewrite He2. unfold effects in He |- *. cbn. by rewrite He.
  - pose proof (moves_run _ _ _ _ _ (reads_effects _ (reads_fence_error _ _)) E1) as He. injection E2 as <- <-. by rewrite He.
Qed.
End Guard.
