(* ===== verification/SelectorRestore.v ===== *)
(** * The restore of a selection

    [restore_auto_selection_snapshot] of [services/selector.py]: after a
    generation has been rolled back, the automatic selection of the snapshot
    before it is applied again, unless the selection has moved since the
    snapshot after it. *)
From stdpp Require Import base list strings gmap.
From Stdlib Require Import ZArith Lia Ascii.
From S2P Require Import Prelude PyStr PyKey PyVal PyState PyTime AutoPool SelectorCandidates SelectorRank SelectionFence SelectionFenceFacts FenceSession SelectorDeps SelectorFlow SelectorFlowFacts SelectorGuard.

Open Scope string_scope.
Open Scope Z_scope.
Open Scope list_scope.

(** A snapshot: its routing row, the revision, and the provenance row with
    the JSON of its value_json. *)
Record snapshot := Snapshot {
  sn_routing : option dict;
  sn_revision : pyval;
  sn_provenance : option cell;
}.

Section Restore.
Context `{ReprContainer} `{SelectorOutside}.

Definition restore_failed (code : string) : dict := [("ok", VBool false); ("error_code", VStr code)].

Definition restore_retry (code : string) : dict := restore_failed code ++ [("retryable", VBool true)].

Definition restore_busy (text : string) : dict :=
  [("ok", VBool false); ("error_code", VStr "VPN_AUTO_SELECTION_BUSY"); ("error_message", VStr text); ("retryable", VBool true)].

Definition unconfirmed_readback (observed : option string) : dict :=
  restore_failed "VPN_AUTO_ROLLBACK_READBACK_UNCONFIRMED" ++ [("runtime_observed", vopt observed)].

(** [json.loads(value_json or "{}")]; [None] is ValueError. *)
Definition snapshot_provenance (c : option cell) : py pyval :=
  match c with
  | None | Some CNull => Some (VDict [])
  | Some (CJson v) => Some v
  | Some (CText s) => if String.eqb s "" then Some (VDict []) else None
  end.

(** What the restore is bound to, and the provenance it is read from. *)
Record bound := Bound { b_expectation : expectation; b_provenance : pyval; b_target_id : string }.

Definition fence_is (e : expectation) (f : selection_fence) : bool :=
  (f_revision f =? e_revision e) && bool_decide (f_active_server_id f = e_active_server_id e)
  && bool_decide (f_decision_id f = e_decision_id e).

(** Nothing was selected before nor after: nothing is to be applied. *)
Definition restore_nullable (e : expectation) : F dict :=
  timeout ← acquire_guard;
  match timeout with
  | Some text => mret (restore_busy text)
  | None =>
      current ← read_selection_fence_or_raise;
      mret (if fence_is e current
            then [("ok", VBool true); ("changed", VBool false); ("selection_revision", VInt (e_revision e));
                  ("selection_confirmed", VBool false); ("skip_reason", VStr "nullable_selection_unchanged")]
            else restore_failed "VPN_AUTO_ROLLBACK_TARGET_UNAVAILABLE")
  end.

(** [operation_id or expected_provenance.get("operation_id") or uuid4()]. *)
Definition restore_operation_id (operation_id : option string) (expected_provenance : pyval) : F string :=
  if truthy (vopt operation_id) then mret (default "" operation_id)
  else
    d ← st_py (as_dict expected_provenance);
    let given := dget "operation_id" d in
    if truthy given then mret (py_str given) else answer NewUuid fresh_uuid.

(** The runtime has answered: read back, persist. *)
Definition record_restored (operation_id : option string) (b : bound) (c : candidate) (target : string) (ap : applied) : F dict :=
  match ap with
  | ApplyRaised => st_raise
  | ApplyTimedOut text => mret (restore_busy text)
  | Applied ok details _ =>
      let observed := nonblank (dget "selector_after" (default [] (as_dict details))) in
      if negb ok || negb (bool_decide (observed = Some target)) then mret (unconfirmed_readback observed)
      else
        decision_id ← answer NewUuid fresh_uuid;
        operation ← restore_operation_id operation_id (b_provenance b);
        selected_at ← answer ReadClock utc_now_iso;
        revision ← transaction (commit_active_selection (b_expectation b) (b_target_id b)
          (provenance decision_id operation (b_target_id b) (safe_human_label (c_server_name c) (b_target_id b))
             "generation_rollback" "subscription" "core_reconcile" selected_at));
        mret (match revision with
              | None => restore_retry "VPN_AUTO_ROLLBACK_PERSISTENCE_CAS_FAILED"
              | Some n => [("ok", VBool true); ("changed", VBool true); ("selection_revision", VInt n);
                           ("operation_id", VStr operation); ("runtime_target", VStr target)]
              end)
  end.

(** The fence and the candidates are those of the plan; the second load is
    made only when the fence agrees. *)
Definition plan_moved (e : expectation) (fingerprint : string) : F bool :=
  current ← read_selection_fence_or_raise;
  if negb (fence_is e current) then mret true
  else candidates ← load_selector_candidates; mret (negb (String.eqb (_candidate_fence sha256_json candidates) fingerprint)).

(** With the guard held. *)
Definition restore_guarded (operation_id : option string) (ad : adapter) (b : bound) (generation fingerprint signature : string)
    (c : candidate) (target : string) : F dict :=
  moved ← plan_moved (b_expectation b) fingerprint;
  if (moved : bool) then mret (restore_retry "VPN_AUTO_ROLLBACK_STALE")
  else
    current_signature ← read_pool_signature;
    if negb (String.eqb current_signature signature) then mret (restore_retry "VPN_AUTO_ROLLBACK_STALE")
    else
      h ← _runtime_health_or_error ad;
      match h with
      | inr _ => mret (restore_retry "VPN_AUTO_ROLLBACK_RUNTIME_CHANGED")
      | inl h =>
          current_generation ← generation_or_raise h ad;
          if negb (String.eqb current_generation generation) then mret (restore_retry "VPN_AUTO_ROLLBACK_RUNTIME_CHANGED")
          else
            let observed_before := nonblank (dget "vpn_auto_now" (selectors_of h)) in
            if bool_decide (Some (b_target_id b) = e_active_server_id (b_expectation b)) then
              if negb (bool_decide (observed_before = Some target)) then mret (unconfirmed_readback observed_before)
              else mret [("ok", VBool true); ("changed", VBool false);
                         ("selection_revision", VInt (e_revision (b_expectation b))); ("runtime_target", VStr target)]
            else
              ap ← answer (ApplyServer target) server_applied;
              record_restored operation_id b c target ap
      end.

(** With a target. *)
Definition restore_target (operation_id : option string) (b : bound) : F dict :=
  ad ← _active_selector_runtime;
  if negb (ad_operations ad) || negb (has_capability RUNTIME_CAPABILITY_APPLY_SERVER ad)
  then mret (restore_failed "VPN_AUTO_RUNTIME_APPLY_UNAVAILABLE")
  else
    h ← _runtime_health_or_error ad;
    match h with
    | inr (code, _) => mret (restore_failed code)
    | inl h =>
        generation ← generation_or_raise h ad;
        candidates ← load_selector_candidates;
        signature ← read_pool_signature;
        match find (fun c => String.eqb (c_server_id c) (b_target_id b)) candidates with
        | None => mret (restore_failed "VPN_AUTO_ROLLBACK_TARGET_INELIGIBLE")
        | Some c =>
            if negb (eligible c) then mret (restore_failed "VPN_AUTO_ROLLBACK_TARGET_INELIGIBLE")
            else
              timeout ← acquire_guard;
              match timeout with
              | Some text => mret (restore_busy text)
              | None =>
                  restore_guarded operation_id ad b generation (_candidate_fence sha256_json candidates) signature c
                    (target_text (c_runtime_target c) (b_target_id b))
              end
        end
    end.

Definition restore_auto_selection_snapshot (before after : snapshot) (operation_id : option string) : F dict :=
  match sn_routing before, sn_routing after with
  | Some before_routing, Some after_routing =>
      let target_id := py_strip (text_or_blank (dget "active_auto_server_id" before_routing)) in
      let expected_id := nonblank (dget "active_auto_server_id" after_routing) in
      match snapshot_provenance (sn_provenance after) with
      | None => mret (restore_failed "VPN_AUTO_ROLLBACK_PROVENANCE_INVALID")
      | Some expected_provenance =>
          let expected_decision := as_dict expected_provenance ≫= fun d => nonblank (dget "decision_id" d) in
          match sn_revision after with
          | VInt n =>
              let e := Expectation n expected_id expected_decision in
              if String.eqb target_id "" then
                if is_set expected_id then mret (restore_failed "VPN_AUTO_ROLLBACK_TARGET_UNAVAILABLE") else restore_nullable e
              else restore_target operation_id (Bound e expected_provenance target_id)
          | _ => mret (restore_failed "VPN_AUTO_ROLLBACK_TARGET_UNAVAILABLE")
          end
      end
  | _, _ => mret (restore_failed "VPN_AUTO_ROLLBACK_CONTEXT_MISSING")
  end.

(** ** What it restores *)

(** The result says that the selection was changed back. *)
Definition restored (result : dict) : bool := truthy (dget "ok" result) && truthy (dget "changed" result).

(** Nothing changed; or the fence was the one expected, and the target is
    written over it. *)
Definition restores (e : expectation) (target_id : string) (db : fence_db) (result : dict) (s : selector) : Prop :=
  (x_db s = db /\ restored result = false) \/
  (restored result = true /\ exists f p, fence_of db = Some f /\ fence_is e f = true /\
     dget "selected_server_id" p = VStr target_id /\ dget "reason_code" p = VStr "generation_rollback" /\
     x_db s = committed target_id p (f_revision f + 1) db).

Definition ends (db : fence_db) (m : F dict) (O : dict -> selector -> Prop) : Prop := triple (undisturbed db) m O (fun _ => True).

Lemma ends_bind {A} db (m : F A) (k : A -> F dict) (R : A -> Prop) O :
  alone db m R -> (forall x, R x -> ends db (k x) O) -> ends db (m ≫= k) O.
Proof.
  intros Hm Hk s Hs. specialize (Hm s Hs). rewrite bind_unfold. destruct (m s) as [[x|] s1]; [|done].
  destruct Hm as [Hx Hs1]. by apply (Hk x Hx).
Qed.

Lemma ends_kept e t db result : restored result = false -> ends db (mret result) (restores e t db).
Proof. intros Hr s [Ht Hd]. cbn. by left. Qed.

Lemma alone_answer {A} db q (f : list ask -> A) : alone db (answer q f) (fun _ => True).
Proof. intros s Hs. by cbn. Qed.

#[local] Ltac ends :=
  cbv zeta;
  repeat first
    [ solve [apply ends_kept; done]
    | solve [intros ? ?; exact I]
    | match goal with |- ends _ (mbind _ read_selection_fence_or_raise) _ => eapply ends_bind; [apply alone_fence|cbv beta; intros ? ?] end
    | match goal with |- ends _ (mbind _ _) _ => eapply ends_bind; [solve [apply alone_answer|apply alone_reads; frame]|intros ? _] end
    | match goal with |- ends _ (if ?b then _ else _) _ => destruct b eqn:? end
    | match goal with |- ends _ (match ?b with _ => _ end) _ => destruct b eqn:? end
    | progress cbv zeta ].

Lemma reads_operation_id op v : moves only_reads (restore_operation_id op v).
Proof. unfold restore_operation_id. frame. Qed.
#[local] Hint Resolve reads_operation_id : frame.

Lemma fence_is_revision e f : fence_is e f = true -> f_revision f = e_revision e.
Proof. intros [[Hr%Z.eqb_eq _]%andb_prop _]%andb_prop. done. Qed.

Lemma record_ends op b c target ap db f : fence_of db = Some f -> fence_is (b_expectation b) f = true ->
  ends db (record_restored op b c target ap) (restores (b_expectation b) (b_target_id b) db).
Proof.
  intros Hf He. unfold record_restored. ends. intros [db' ts l] [Ht Hd]. cbn in Ht, Hd. subst.
  rewrite bind_unfold, transaction_alone. match goal with |- context [commit_active_selection ?e ?id ?p db] =>
    destruct (commit_cases e id p db) as [E|[E|(? & ? & _ & _ & _ & _ & _ & E)]]; rewrite E end; [done|by left|].
  right. split; [done|]. eexists f, _. split_and!; [exact Hf|exact He|..|by rewrite (fence_is_revision _ _ He)]; reflexivity.
Qed.

(** The plan has not moved only when the fence is the one expected. *)
Lemma plan_alone e fp db : alone db (plan_moved e fp) (fun moved => moved = false -> exists f, fence_of db = Some f /\ fence_is e f = true).
Proof.
  unfold plan_moved. eapply alone_bind; [apply alone_fence|]. cbv beta. intros f Hf.
  destruct (fence_is e f) eqn:E; cbn [negb]; [|by apply alone_ret].
  eapply alone_bind; [apply alone_reads; frame|]. intros cs _. apply alone_ret. eauto.
Qed.

Lemma guarded_ends op ad b g fp sg c target db :
  ends db (restore_guarded op ad b g fp sg c target) (restores (b_expectation b) (b_target_id b) db).
Proof.
  unfold restore_guarded. eapply ends_bind; [apply plan_alone|]. intros [] Hplan; [by apply ends_kept|].
  destruct (Hplan eq_refl) as (f & Hf & He). ends. by eapply record_ends.
Qed.

(** The selection that the snapshot after the switch records: its revision,
    its server and the decision of its provenance. *)
Definition recorded_selection (after : snapshot) : option expectation :=
  match sn_revision after, snapshot_provenance (sn_provenance after) with
  | VInt n, Some pv =>
      Some (Expectation n (nonblank (dget "active_auto_server_id" (default [] (sn_routing after))))
              (as_dict pv ≫= fun d => nonblank (dget "decision_id" d)))
  | _, _ => None
  end.

(** C18: While the guard is held, the restore after a rollback is
    conditional: it writes the server the snapshot before had selected, with
    the next revision, only over the very selection that the snapshot after
    records (its revision, its server and the decision of its provenance),
    and says so; in every other case the selection is left as it is, and the
    result does not claim a change. *)
Theorem restore_is_conditional before after op db l result s :
  restore_auto_selection_snapshot before after op (Selector db [] l) = (Some result, s) ->
  (x_db s = db /\ restored result = false) \/
  (exists e, recorded_selection after = Some e /\
     restores e (py_strip (text_or_blank (dget "active_auto_server_id" (default [] (sn_routing before))))) db result s).
Proof.
  intros E. unfold restore_auto_selection_snapshot in E.
  destruct (sn_routing before) as [br|]; [|left; by apply ret_inv in E as [<- <-]].
  destruct (sn_routing after) as [ar|] eqn:Ear; [|left; by apply ret_inv in E as [<- <-]].
  destruct (snapshot_provenance (sn_provenance after)) as [pv|] eqn:Epv; [|left; by apply ret_inv in E as [<- <-]].
  destruct (sn_revision after) as [| |n| | |] eqn:Erev; try (left; by apply ret_inv in E as [<- <-]). cbv zeta in E. cbn [default from_option].
  set (target := py_strip _) in *. set (e := Expectation n _ _) in *.
  assert (Hs : undisturbed db (Selector db [] l)) by done.
  enough (Hr : restores e target db result s) by (right; exists e; split; [unfold recorded_selection; by rewrite Erev, Epv, Ear|exact Hr]).
  destruct (String.eqb target "").
  - destruct (is_set _); [left; by apply ret_inv in E as [<- <-]|].
    assert (Hend : ends db (restore_nullable e) (restores e target db)) by (unfold restore_nullable; ends; apply ends_kept; by destruct (fence_is e _)).
    specialize (Hend _ Hs). by rewrite E in Hend.
  - assert (Hend : ends db (restore_target op (Bound e pv target)) (restores e target db))
      by (unfold restore_target; ends; apply guarded_ends).
    specialize (Hend _ Hs). by rewrite E in Hend.
Qed.
End Restore.
