(* ===== verification/SelectorSample.v ===== *)
(** * Selections on a sample installation

    Three servers, a runtime that runs one of them, and the runs that show
    the theorems on the selection apply. *)
From stdpp Require Import base list strings pretty gmap relations.
From Stdlib Require Import ZArith Lia Ascii.
From S2P Require Import Prelude PyStr PyKey PyVal PyState PyTime AutoPool SelectorCandidates SelectorRank SelectorRankFacts SelectionFence SelectionFenceFacts FenceSession SelectorDeps SelectorFlow SelectorFlowFacts SelectorGuard SelectorRestore.

Open Scope string_scope.
Open Scope Z_scope.
Open Scope list_scope.

#[local] Instance plain_repr : ReprContainer := fun _ => "...".

(** ** The database *)

Definition server (id name : string) : server_row := ServerRow id name None (VDict [("name", VStr name)]) "active".

Definition in_auto (id : string) (priority : Z) : preference_row := PreferenceRow id 1 priority 0 None.

(** A stored ping has an offset. *)
Definition pinged (id : string) (ms : Z) : ping_row :=
  PingRow id "success" (Some ms) (Some "2026-01-02T11:59:00+00:00") (Some "scheduler") None None (VDict [("source", VStr "auto")]).

(** Server b has priority 4, which is worth a fourth of its latency. *)
Definition sample_pool (settings : gmap string cell) : pool_db :=
  PoolDb [server "srv-a" "Alpha"; server "srv-b" "Beta"; server "srv-c" "Gamma"]
    [in_auto "srv-a" 1; in_auto "srv-b" 4; in_auto "srv-c" 1]
    [pinged "srv-a" 50; pinged "srv-b" 120; pinged "srv-c" 70]
    [MembershipRow "src-1" "srv-a" true; MembershipRow "src-1" "srv-b" true]
    [] [] [] [] settings.

Definition selection_settings : gmap string cell :=
  {[ SELECTION_REVISION_KEY := CJson (VInt 6);
     SELECTION_PROVENANCE_KEY := CJson (VDict [("decision_id", VStr "d-6"); ("selected_server_id", VStr "srv-a")]) ]}.

Definition routing (active : string) : routing_row :=
  RoutingRow "vpn" (Some "vpn") "direct" "auto" None None None (Some active) "clean" None None.

Definition sample_db : fence_db :=
  FenceDb (sample_pool selection_settings) (Some (routing "srv-a")) None [] [].

(** ** The runtime *)

Definition healthy : health :=
  Health (VDict [("selectors", VDict [("vpn_auto_now", VStr "Alpha");
                                      ("vpn_auto_targets", VList [VStr "Alpha"; VStr "Beta"; VStr "Gamma"])])]) (Some "srv-a").

Definition delayed (ms : Z) : delay := Delay true "success" (Some ms) None None [("status", VStr "success"); ("last_ping_ms", VInt ms)].

(** The runtime switches to what it is asked to apply. *)
#[local] Instance sample_outside : SelectorOutside := {|
  vpn_adapter _ := Adapter [("adapter_id", VStr "mihomo");
                            ("capabilities", VList [VStr "health"; VStr "list_servers"; VStr "apply_server"])] true;
  runtime_health _ := inl healthy;
  runtime_incarnation _ := Incarnation (VStr "boot-1");
  config_sha256 _ := Some "config-1";
  runtime_servers _ := inl ["Alpha"; "Beta"; "Gamma"];
  member_health _ := Some (HealthDb [] [] "2026-01-02 11:30:00");
  guard_is_held _ := false;
  guard_timeout _ := None;
  probed_delays _ := Some [delayed 60; delayed 110; delayed 80];
  post_checked _ := Some (delayed 110);
  provider_fallback _ := Some [];
  provider_switched _ := Some [];
  server_applied asked :=
    match asked with ApplyServer t :: _ => Applied true (VDict [("selector_after", VStr t)]) [("ok", VBool true)] | _ => ApplyRaised end;
  fresh_uuid asked := "id-" +:+ pretty (length asked);
  utc_now_iso _ := "2026-01-02T12:00:00+00:00";
  operation_logged _ := Some tt;
  test_environment := false;
  safe_human_label name _ := Some name;
  sha256_json := json_compact;
|}.

Definition sample_args (apply : bool) : sel_args :=
  SelArgs apply "manual" "ui:panel" None true true 6 4000 false true "ui" None false None None None None None.

Definition sample_start : selector := Selector sample_db [] [].

Example sample_selection :
  let '(r, s) := select_vpn_auto_server (sample_args true) sample_start in
  (option_map (fun d => (dget "selected_server_id" d, dget "selection_outcome" d, dget "selection_revision" d)) r,
   effects s, d_routing (x_db s))
  = (Some (VStr "srv-b", VStr "selected", VInt 7), [ApplyServer "Beta"], Some (routing "srv-b")).
Proof. vm_compute. reflexivity. Qed.

(** ** The pool *)

Definition sample_keyed : keyed (sample_pool selection_settings).
Proof.
  split; cbn; repeat (constructor; [rewrite ?not_elem_of_cons; split_and?; try done; apply not_elem_of_nil|]); constructor.
Qed.

Definition exclusive_settings : gmap string cell :=
  <[VPN_AUTO_EXCLUSIVE_SETTING_KEY := CJson (VDict [("source_ref", VStr "src-1")])]> selection_settings.

Lemma exclusive_pool_agrees_witness :
  server_is_in_exclusive_pool (sample_pool exclusive_settings) "srv-c" None =
  exclusive_pool_sql (sample_pool exclusive_settings) (server "srv-c" "Gamma")
  /\ exclusive_pool_sql (sample_pool exclusive_settings) (server "srv-c" "Gamma") = false.
Proof.
  split; [|by vm_compute].
  apply (exclusive_pool_agrees (sample_pool exclusive_settings) (Build_keyed (sample_pool exclusive_settings)
    (servers_keyed _ sample_keyed) (bindings_keyed _ sample_keyed)) (server "srv-c" "Gamma") (Some "src-1")).
  - do 2 right. left.
  - by vm_compute.
Defined.

(** ** The ranking *)

Definition loaded : list candidate :=
  Eval vm_compute in _load_selector_candidates (sample_pool selection_settings) (HealthDb [] [] "") (sample_pool selection_settings).

Definition alpha : candidate := Eval vm_compute in default (provider_entry (ProviderOption "" "" "" 0)) (loaded !! 0%nat).
Definition gamma : candidate := Eval vm_compute in default (provider_entry (ProviderOption "" "" "" 0)) (loaded !! 1%nat).
Definition beta : candidate := Eval vm_compute in default (provider_entry (ProviderOption "" "" "" 0)) (loaded !! 2%nat).

Lemma beta_answered : answered beta 120.
Proof. split_and!; vm_compute; reflexivity. Defined.

Lemma selected_is_best_witness : exists c n best, _select_candidate_with_priority loaded = (Some c, best) /\ c_server_id c = "srv-b" /\
  counted c n /\ n * weight alpha <= 50 * weight c.
Proof.
  destruct (selected_is_best loaded beta 120) as (c & n & best & E & _ & Hc & Hle & _);
    [right; right; left|exact beta_answered|].
  exists c, n, best. split; [exact E|]. split; [vm_compute in E; injection E as <- _; reflexivity|]. split; [exact Hc|].
  apply (Hle alpha 50); [left|split_and!; vm_compute; reflexivity].
Defined.

Lemma priority_cost_bounded_witness : (_select_candidate_with_priority loaded).1 = Some beta /\ 120 <= 5 * 50 /\ (weight beta <= weight alpha -> 120 <= 50).
Proof.
  split; [vm_compute; reflexivity|].
  apply (priority_cost_bounded loaded alpha 50 beta 120); [left|split_and!; vm_compute; reflexivity|lia|vm_compute; reflexivity..].
Defined.

Lemma choice_order_independent_witness :
  (_select_candidate_with_priority loaded).1 = (_select_candidate_with_priority [beta; gamma; alpha]).1.
Proof.
  apply (choice_order_independent loaded [beta; gamma; alpha]).
  - apply (bool_decide_unpack _). vm_compute. exact I.
  - exact (Permutation_rev loaded).
Defined.

Lemma shortlist_by_priority_witness :
  exists l, _build_on_demand_shortlist loaded (Some "Alpha") 2 = Some l /\ map c_server_id l = ["srv-a"; "srv-b"] /\
    NoDup (map c_server_id l).
Proof.
  eexists. split; [vm_compute; reflexivity|]. split; [reflexivity|].
  eapply (shortlist_by_priority loaded (Some "Alpha") 2). vm_compute. reflexivity.
Defined.

Lemma loaded_candidates_eligible_witness : beta ∈ loaded /\ eligible beta = true /\ 0 <= _candidate_priority beta.
Proof.
  assert (Hin : beta ∈ loaded) by (right; right; left). split; [exact Hin|].
  destruct (loaded_candidates_eligible (sample_pool selection_settings) (sample_pool selection_settings) (HealthDb [] [] "") beta)
    as (He & Hp & _); [|split; [exact He|exact Hp]].
  vm_compute. right. right. left.
Defined.

(** Server a is a logical server whose member was probed; b has a stored ping. *)
Definition mixed_pool : pool_db :=
  PoolDb [server "srv-a" "Alpha"; server "srv-b" "Beta"] [in_auto "srv-a" 1; in_auto "srv-b" 1] [pinged "srv-b" 120] []
    [MemberRow "srv-a" "m1" "proxy-1" 0 true] [] [] [] ∅.

Definition member_probes : health_db :=
  HealthDb [TopologyRow "srv-a" (Some "m1")]
    [HealthRow "srv-a" "m1" PROVIDER_ROLE_VPN_DATAPLANE "healthy" (Some 70) (Some "2026-01-02 11:58:00") None None CNull]
    "2026-01-02 11:30:00".

Definition mixed_offer : offer :=
  Offer ["Alpha"; "Beta"] [] []
    (List.filter (in_targets ["Alpha"; "Beta"]) (_load_selector_candidates mixed_pool member_probes mixed_pool)).

Definition mixed_opening : opening :=
  Opening [] "op-1" (vpn_adapter []) healthy None (SelectionFence 6 (Some "srv-a") (Some "d-6") (Some "srv-a") true) "" "auto" None.

Lemma mixed_evidence_raises_witness :
  let r := (choose (sample_args true) mixed_opening mixed_offer "" sample_start).1 in
  r = None /\ match r with
              | None => True
              | Some (inl result) => dget "error_code" result = VStr "VPN_AUTO_SELECTION_OUTER_GUARD_HELD"
              | Some (inr _) => False
              end.
Proof.
  intros r. split; [vm_compute; reflexivity|].
  apply (mixed_evidence_raises mixed_pool mixed_pool member_probes (sample_args true) mixed_opening mixed_offer ""
    (server "srv-a" "Alpha") (server "srv-b" "Beta") "2026-01-02 11:58:00" "2026-01-02T11:59:00+00:00" sample_start).
  - reflexivity.
  - reflexivity.
  - reflexivity.
  - split; [left|]. split; [vm_compute; reflexivity|]. split; [vm_compute; reflexivity|discriminate].
  - eexists _, _. split; [vm_compute; reflexivity|]. split; [vm_compute; reflexivity|].
    split; [vm_compute; reflexivity|]. split; [discriminate|vm_compute; reflexivity].
  - eexists. vm_compute. reflexivity.
  - split; [right; left|]. split; [vm_compute; reflexivity|]. split; [vm_compute; reflexivity|discriminate].
  - split; [vm_compute; reflexivity|]. eexists. split; vm_compute; reflexivity.
  - eexists _, _. vm_compute. reflexivity.
Defined.

(** ** The fence *)

Definition sample_fence : selection_fence := SelectionFence 6 (Some "srv-a") (Some "d-6") (Some "srv-a") true.
Definition expected : expectation := expectation_of sample_fence.
Definition decided (decision id : string) : dict := [("decision_id", VStr decision); ("selected_server_id", VStr id)].

Lemma commit_refines_compare_and_set_witness :
  exists db', commit_active_selection expected "srv-b" (decided "d-7" "srv-b") sample_db = (Some (Some 7), db') /\
    fence_of db' = Some (SelectionFence 7 (Some "srv-b") (Some "d-7") (Some "srv-b") true).
Proof.
  apply (commit_refines_compare_and_set expected "srv-b" (decided "d-7" "srv-b") sample_db sample_fence).
  - vm_compute. reflexivity.
  - intros r E. vm_compute in E. injection E as <-. vm_compute. reflexivity.
Defined.

Definition after_b : fence_db := Eval vm_compute in (commit_active_selection expected "srv-b" (decided "d-7" "srv-b") sample_db).2.

Lemma one_commit_per_revision_witness :
  (exists db1, commit_active_selection expected "srv-b" (decided "d-7" "srv-b") sample_db = (Some (Some 7), db1)) /\
  commit_active_selection expected "srv-c" (decided "d-8" "srv-c") after_b <> (Some (Some 7), after_b).
Proof.
  split; [eexists; vm_compute; reflexivity|].
  apply (one_commit_per_revision expected "srv-b" (decided "d-7" "srv-b") 7 sample_db after_b expected "srv-c" (decided "d-8" "srv-c")
    after_b 7 after_b).
  - vm_compute. reflexivity.
  - apply rtc_refl.
  - reflexivity.
Defined.

Definition a_source : string := "src:aaaaaaaaaaaaaaaaaaaaaaaaaaaaaaaaaaaaaaaaaaaaaaaaaaaaaaaaaaaaaaaa".

Lemma exclusive_source_fences_witness :
  exists db1, save_exclusive_tx (Some a_source) None "ui" sample_db = (Some (Some 7), db1) /\
    get_vpn_auto_exclusive_source_ref db1 = Some a_source.
Proof.
  destruct (exclusive_source_fences a_source None "ui" sample_db 6) as (db1 & E & Hget & _); [vm_compute; reflexivity..|].
  exists db1. split; [exact E|exact Hget].
Defined.

(** ** The flow *)

Lemma dry_run_only_reads_witness :
  (exists r, (select_vpn_auto_server (sample_args false) sample_start).1 = Some r /\ dget "selected_server_id" r = VStr "srv-b") /\
  only_reads sample_start (select_vpn_auto_server (sample_args false) sample_start).2.
Proof. split; [eexists; split; vm_compute; reflexivity|]. apply (dry_run_only_reads (sample_args false) sample_start). reflexivity. Defined.

(** What the run chose, and what it had asked. *)
Definition chosen : option (selection_run * candidate * list ask) :=
  let a := sample_args true in
  match (o ← open_selection a; match o with inl _ => mret None | inr o =>
         f ← offer_of a o; match f with inl _ => mret None | inr offered =>
         g ← settle a o offered; match g with inl _ => mret None | inr g =>
         r ← choose a o offered g; match r with inl _ => mret None | inr r => mret (Some r) end end end end) sample_start with
  | (Some (Some r), s) => (fun c => (r, c, x_asked s)) <$> ch_selected (run_choice r)
  | _ => None
  end.

Definition the_run : selection_run := Eval vm_compute in
  match chosen with Some (r, _, _) => r | None => SelectionRun [] "" (Adapter [] false) healthy "" None [] []  []
    (Evidence sample_fence "" "" "" [] None) None None None "" None (Choice None None [] [] "") end.
Definition the_candidate : candidate := Eval vm_compute in match chosen with Some (_, c, _) => c | None => alpha end.
Definition the_trace : list ask := Eval vm_compute in match chosen with Some (_, _, l) => l | None => [] end.

Lemma applied_on_valid_evidence_witness :
  effects (apply_selected (sample_args true) the_run the_candidate (Selector sample_db [] the_trace)).2 = [ApplyServer "Beta"] /\
  still_valid (run_evidence the_run) "srv-b" sample_db (AcquireGuard :: the_trace).
Proof.
  destruct (applied_on_valid_evidence (sample_args true) the_run the_candidate sample_db the_trace _ eq_refl) as (_ & Hv & _).
  - vm_compute. discriminate.
  - split; [vm_compute; reflexivity|exact Hv].
Defined.

Definition applied_run : option dict * selector :=
  Eval vm_compute in apply_selected (sample_args true) the_run the_candidate (Selector sample_db [] the_trace).

Lemma reported_switch_is_persisted_witness :
  d_routing (x_db applied_run.2) = Some (routing "srv-b") /\
  consistent (run_evidence the_run) the_candidate sample_db (default [] applied_run.1) (x_db applied_run.2).
Proof.
  split; [reflexivity|].
  apply (reported_switch_is_persisted (sample_args true) the_run the_candidate sample_db the_trace _ applied_run.2).
  vm_compute. reflexivity.
Defined.

(** The rollback of that selection. *)
Definition before_switch : snapshot := Snapshot (Some [("active_auto_server_id", VStr "srv-a")]) (VInt 6) None.
Definition after_switch : snapshot :=
  Snapshot (Some [("active_auto_server_id", VStr "srv-b")]) (VInt 7) (Some (CJson (VDict (decided "d-7" "srv-b")))).

Definition rolled_back : option dict * selector :=
  Eval vm_compute in restore_auto_selection_snapshot before_switch after_switch (Some "op-1") (Selector after_b [] []).

Lemma restore_is_conditional_witness :
  d_routing (x_db rolled_back.2) = Some (routing "srv-a") /\ restored (default [] rolled_back.1) = true /\
  restores (Expectation 7 (Some "srv-b") (Some "d-7")) "srv-a" after_b (default [] rolled_back.1) rolled_back.2.
Proof.
  split; [reflexivity|]. split; [vm_compute; reflexivity|].
  destruct (restore_is_conditional before_switch after_switch (Some "op-1") after_b [] (default [] rolled_back.1) rolled_back.2)
    as [[_ Hr]|(e & He & Hr)].
  - vm_compute. reflexivity.
  - vm_compute in Hr. discriminate.
  - vm_compute in He. injection He as <-. exact Hr.
Defined.
