(* ===== verification/Jobs.v ===== *)
(** * Jobs

    [services/jobs.py] over the table [jobs] of [db/schema.sql], with the
    states of [jobs/base.py] and the runner of [jobs/manager.py]: creation
    under a lock, the lease, the terminal transitions with their snapshots,
    the expiry of stale jobs, and running a handler.

    Every interaction with the world outside a function (a statement outside
    a transaction, a transaction, a reading of the clock) takes one turn of
    the schedule [w_turns]: what other processes did to the database before
    it, whether the access raises, and the clock.  SQLite's implicit
    transaction begins at the first statement that writes, so the SELECT
    before it is a turn of its own. *)
From stdpp Require Import base list strings pretty sorting.
From Stdlib Require Import ZArith Lia Ascii.
From S2P Require Import Prelude PyStr PyVal PyTime.

Open Scope string_scope.
Open Scope Z_scope.
Open Scope list_scope.

(** ** States *)

Inductive JobStatus := QUEUED | RUNNING | SUCCESS | FAILED | CANCELLED.

#[export] Instance JobStatus_eq_dec : EqDecision JobStatus.
Proof. solve_decision. Defined.

Definition status_text (s : JobStatus) : string :=
  match s with
  | QUEUED => "queued" | RUNNING => "running" | SUCCESS => "success" | FAILED => "failed" | CANCELLED => "cancelled"
  end.

Definition ACTIVE_JOB_STATUSES : list JobStatus := [QUEUED; RUNNING].
Definition is_active_status (s : JobStatus) : bool := bool_decide (s ∈ ACTIVE_JOB_STATUSES).

(** [dt.strftime("%Y-%m-%d %H:%M:%S")] of a UTC time, and SQLite's [CURRENT_TIMESTAMP]. *)
Definition sql_timestamp (us : Z) : string :=
  let '(y, m, d) := civil_from_days (us / us_per_day) in
  let s := us mod us_per_day / 1000000 in
  zero_pad 4 y +:+ "-" +:+ two m +:+ "-" +:+ two d +:+ " " +:+
  two (s / 3600) +:+ ":" +:+ two (s / 60 mod 60) +:+ ":" +:+ two (s mod 60).

(** ** The tables *)

Record job_row := JobRow {
  j_id : string;
  j_type : string;
  j_status : JobStatus;
  j_lock : option string;
  j_requested_by : option string;
  j_input : cell;
  j_context : cell;
  j_result : cell;
  j_error_code : option string;
  j_error_message : option string;
  j_artifact_dir : option string;
  j_created : string;
  j_started : option string;
  j_finished : option string;
  j_updated : string;
}.

(** What a terminal snapshot writes to the audit log. *)
Record snapshot := Snapshot {
  ts_event_id : string;
  ts_job_id : string;
  ts_status : string;
  ts_classification : string;
  ts_assurance : string;
  ts_finished_at : string;
  ts_context : dict;
  ts_identity : pyval;
}.

Record job_db := JobDb { db_jobs : list job_row; db_events : list snapshot }.

(** *** Constraints: the primary key and [idx_jobs_active_lock_unique] *)

Definition is_active_job (r : job_row) : bool := is_active_status (j_status r).
Definition active_locks (rows : list job_row) : list string := omap (M:=list) j_lock (List.filter is_active_job rows).

Definition index_ok (rows : list job_row) : bool :=
  bool_decide (NoDup (map j_id rows)) && bool_decide (NoDup (active_locks rows)).

(** A statement that breaks a constraint raises IntegrityError. *)
Definition checked (db : job_db) : option job_db := if index_ok (db_jobs db) then Some db else None.

Definition find_job (id : string) (rows : list job_row) : option job_row :=
  List.find (fun r => String.eqb (j_id r) id) rows.

Definition update_where (p : job_row -> bool) (f : job_row -> job_row) (rows : list job_row) : list job_row :=
  map (fun r => if p r then f r else r) rows.

Definition has_id (id : string) (r : job_row) : bool := String.eqb (j_id r) id.
Definition has_status (s : JobStatus) (r : job_row) : bool := bool_decide (j_status r = s).

(** ** JSON columns *)

Definition _json_dumps (value : option dict) : cell :=
  match value with None => CNull | Some d => CJson (sort_keys (VDict d)) end.

(** [None] is JSONDecodeError. *)
Definition _json_loads (value : cell) : py (option dict) :=
  match value with
  | CNull => Some None
  | CText s => if String.eqb s "" then Some None else None
  | CJson (VDict d) => Some (Some d)
  | CJson v => Some (Some [("value", v)])
  end.

(** [len(text.encode("utf-8"))]. *)
Definition cell_bytes (c : cell) : Z :=
  match c with
  | CNull => 0
  | CJson v => Z.of_nat (String.length (json_text v))
  | CText s => Z.of_nat (String.length s)
  end.

Definition _row_to_job (r : job_row) : py dict :=
  input ← _json_loads (j_input r);
  context ← _json_loads (j_context r);
  result ← _json_loads (j_result r);
  Some [("job_id", VStr (j_id r)); ("job_type", VStr (j_type r)); ("status", VStr (status_text (j_status r)));
        ("lock_key", vopt (j_lock r)); ("requested_by", vopt (j_requested_by r)); ("input", vdict input);
        ("event_context", vdict context); ("result", vdict result); ("error_code", vopt (j_error_code r));
        ("error_message", vopt (j_error_message r)); ("artifact_dir", vopt (j_artifact_dir r));
        ("created_at", VStr (j_created r)); ("started_at", vopt (j_started r)); ("updated_at", VStr (j_updated r));
        ("finished_at", vopt (j_finished r))].

(** [_row_to_job(row) if row else None]. *)
Definition row_or_none (r : option job_row) : py (option dict) :=
  match r with None => Some None | Some r => job ← _row_to_job r; Some (Some job) end.

(** ** Bounded results *)

Definition _trim_scalar (value : pyval) : pyval :=
  match value with
  | VStr s => if (py_len s <=? 256)%nat then value else VStr (py_prefix 253 s +:+ "...")
  | _ => value
  end.

Definition PREFERRED_KEYS : list string :=
  ["job_status"; "status"; "stage"; "message"; "error_code"; "error_message"; "job_id"; "changed"; "ok"; "apply";
   "rules_state"; "reconcile_reason"; "reconcile_action"; "candidate"; "config_validation"; "promoted"; "container";
   "mihomo"].

(** The preferred keys that are present, in their order, with the summaries of their values. *)
Definition preferred (summaries : dict) : dict :=
  omap (fun k => option_map (pair k) (dict_lookup k summaries)) PREFERRED_KEYS.

Definition extra_keys (value : dict) : list string :=
  take 8 (List.filter (fun k => negb (bool_decide (k ∈ PREFERRED_KEYS))) (map fst value)).

Fixpoint _summarize_result_value (depth : nat) (value : pyval) : pyval :=
  match value with
  | VList l =>
      let head := [("type", VStr "list"); ("length", VInt (Z.of_nat (length l)))] in
      if (1 <=? depth)%nat then VDict head
      else VDict (head ++ [("sample", VList (take 3 (map (_summarize_result_value (S depth)) l)))])
  | VDict d =>
      let extra := extra_keys d in
      VDict (preferred (map (fun kv => (kv.1, _summarize_result_value (S depth) kv.2)) d)
             ++ (if (depth =? 0)%nat && negb (length extra =? 0)%nat
                 then [("_extra_keys", VList (map VStr extra))] else [])
             ++ [("_keys_count", VInt (Z.of_nat (length d)))])
  | scalar => _trim_scalar scalar
  end.

(** The two settings: [job_stale_timeout_seconds] and [job_result_max_bytes]. *)
Class JobSettings := { job_stale_timeout_seconds : Z; job_result_max_bytes : Z }.

(** [uuid5(UUID(job_id), "fwrouter.job.terminal_outcome.v1")]: the hash is a parameter. *)
Class TerminalIds := _terminal_snapshot_event_id : string -> string.

Section Rows.
Context `{JobSettings} `{TerminalIds}.

Definition truncated (raw : cell) (summary : pyval) : cell :=
  _json_dumps (Some [("__truncated__", VBool true); ("original_bytes", VInt (cell_bytes raw));
                     ("max_bytes", VInt job_result_max_bytes); ("summary", summary)]).

Definition fallback_summary (result : dict) : pyval :=
  VDict (map (fun k => (k, dget k result)) ["job_status"; "status"; "stage"; "error_code"]
         ++ [("error_message", _trim_scalar (dget "error_message" result));
             ("_keys_count", VInt (Z.of_nat (length result)))]).

Definition _encode_job_result (result : option dict) : cell :=
  match result with
  | None => CNull
  | Some result =>
      let raw := _json_dumps (Some result) in
      if cell_bytes raw <=? job_result_max_bytes then raw
      else
        let summarized := truncated raw (_summarize_result_value 0 (VDict result)) in
        if cell_bytes summarized <=? job_result_max_bytes then summarized
        else truncated raw (fallback_summary result)
  end.

(** ** Terminal snapshots *)

Definition lower_hex (c : ascii) : bool := is_digit c || between 97 102 c.

Fixpoint uuid_chars (position : nat) (s : string) : bool :=
  match s with
  | "" => (position =? 36)%nat
  | String c s' =>
      (if bool_decide (position ∈ [8; 13; 18; 23]%nat) then Ascii.eqb c "-"%char else lower_hex c)
      && uuid_chars (S position) s'
  end.

(** [str(UUID(job_id)) == job_id]. *)
Definition canonical_uuid (job_id : string) : bool := uuid_chars 0 job_id.

Definition CLASSIFICATIONS : list string :=
  ["handler_completed"; "handler_failed"; "handler_cancelled"; "stale_queue_timeout"; "stale_running_timeout";
   "legacy_terminal_observed"].

Definition CORRELATION_FIELDS : list string :=
  ["request_id"; "apply_id"; "workflow_id"; "causation_id"; "correlation_id"; "server_id"; "connection_id";
   "recovery_attempt_id"].

Definition context_char (c : ascii) : bool :=
  is_digit c || is_lower_alpha c || is_upper_alpha c || bool_decide (c ∈ ["."; "_"; ":"; "-"]%char).

Definition context_value (v : pyval) : bool :=
  match v with
  | VStr s => negb (String.eqb s "") && (py_len s <=? 128)%nat && all_chars context_char s
  | _ => false
  end.

Definition context_values (context_data : dict) : dict :=
  List.filter (fun kv => context_value kv.2) (map (fun k => (k, dget k context_data)) CORRELATION_FIELDS).

(** The events with the snapshot; [None] when it raises, an existing event id included. *)
Definition _write_terminal_snapshot (events : list snapshot) (row : job_row) (classification assurance : string)
    (include_attribution : bool) : option (list snapshot) :=
  if negb (canonical_uuid (j_id row)) then None
  else if negb (bool_decide (classification ∈ CLASSIFICATIONS)) then None
  else if negb (bool_decide (assurance ∈ ["terminal_commit"; "retention_observation"])) then None
  else if Bool.eqb (String.eqb assurance "terminal_commit") (String.eqb classification "legacy_terminal_observed")
  then None
  else
    loaded ← _json_loads (j_context row);
    let context_data := default [] loaded in
    let event_id := _terminal_snapshot_event_id (j_id row) in
    if bool_decide (event_id ∈ map ts_event_id events) then None
    else Some (events ++ [Snapshot event_id (j_id row) (status_text (j_status row)) classification assurance
                            (default "None" (j_finished row)) (context_values context_data)
                            (if include_attribution then dget "_api_identity" context_data else VNone)]).

(** Whether the snapshot [s] is the one of the terminal row: the keys of the
    audit event that its writer sets to constants are left out. *)
Definition _terminal_snapshot_matches (row : job_row) (s : snapshot) : bool :=
  let status := j_status row in
  let classification := ts_classification s in
  let classification_matches :=
    if String.eqb (ts_assurance s) "terminal_commit" then
      (has_status SUCCESS row && String.eqb classification "handler_completed")
      || (has_status FAILED row
          && bool_decide (classification ∈ ["handler_failed"; "stale_queue_timeout"; "stale_running_timeout"]))
      || (has_status CANCELLED row && String.eqb classification "handler_cancelled")
    else if String.eqb (ts_assurance s) "retention_observation" then
      bool_decide (status ∈ [SUCCESS; FAILED; CANCELLED]) && String.eqb classification "legacy_terminal_observed"
    else false in
  String.eqb (ts_job_id s) (j_id row) && String.eqb (ts_status s) (status_text status)
  && bool_decide (j_finished row = Some (ts_finished_at s)) && classification_matches.

End Rows.

(** ** The world *)

Record turn := Turn { t_others : job_db -> job_db; t_ok : bool; t_clock : nat -> Z }.

Definition quiet : turn := Turn (fun db => db) true (fun _ => 0).

Record world := World { w_db : job_db; w_turns : list turn }.

Abbreviation M := (st world).

Section Jobs.
Context `{JobSettings} `{TerminalIds}.

Definition take_turn (w : world) : turn * job_db * list turn :=
  match w_turns w with
  | [] => (quiet, w_db w, [])
  | t :: rest => (t, t_others t (w_db w), rest)
  end.

(** A transaction: [None] of its body is an exception, after which it is rolled back. *)
Definition db_tx {A} (body : (nat -> Z) -> job_db -> option (A * job_db)) : M A := fun w =>
  let '(t, db, rest) := take_turn w in
  match (if t_ok t then body (t_clock t) db else None) with
  | Some (a, db') => (Some a, World db' rest)
  | None => (None, World db rest)
  end.

Definition db_read {A} (f : job_db -> A) : M A := db_tx (fun _ db => Some (f db, db)).

Definition utc_now : M Z := fun w =>
  let '(t, db, rest) := take_turn w in (Some (t_clock t 0%nat), World db rest).

(** ** Stale jobs *)

Definition stale (cutoff : string) (r : job_row) : bool := is_active_job r && py_leb (j_updated r) cutoff.

Definition expired_row (finished_at : string) (r : job_row) : job_row :=
  let was_queued := has_status QUEUED r in
  JobRow (j_id r) (j_type r) FAILED (j_lock r) (j_requested_by r) (j_input r) (j_context r) (j_result r)
    (Some (if was_queued then "JOB_STALE_QUEUE_TIMEOUT" else "JOB_STALE_TIMEOUT"))
    (Some (if was_queued then "Job marked failed because it remained queued past the stale timeout window."
           else "Job marked failed because it exceeded timeout / stale running lease."))
    (j_artifact_dir r) (j_created r) (j_started r) (Some finished_at) finished_at.

(** [WHERE job_id = ? AND status = ? AND updated_at <= ?]. *)
Definition still_stale (cutoff : string) (stale_row r : job_row) : bool :=
  has_id (j_id stale_row) r && has_status (j_status stale_row) r && py_leb (j_updated r) cutoff.

Definition stale_classification (stale_row : job_row) : string :=
  if has_status QUEUED stale_row then "stale_queue_timeout" else "stale_running_timeout".

(** The updates of one transaction; the i-th row reads the clock for the i-th time. *)
Fixpoint expire_rows (cutoff : string) (clock : nat -> Z) (i : nat) (stale_rows : list job_row) (db : job_db)
    : option (list job_row * job_db) :=
  match stale_rows with
  | [] => Some ([], db)
  | stale_row :: rest =>
      let matches := still_stale cutoff stale_row in
      if negb (existsb matches (db_jobs db)) then expire_rows cutoff clock (S i) rest db
      else
        let rows := update_where matches (expired_row (sql_timestamp (clock i))) (db_jobs db) in
        terminal_row ← find_job (j_id stale_row) rows;
        events ← _write_terminal_snapshot (db_events db) terminal_row (stale_classification stale_row)
                   "terminal_commit" true;
        more ← expire_rows cutoff clock (S i) rest (JobDb rows events);
        Some (terminal_row :: more.1, more.2)
  end.

(** The DTO of an expired row. *)
Definition stale_job (row : job_row) : py dict :=
  job ← _row_to_job row;
  let queued := bool_decide (j_error_code row = Some "JOB_STALE_QUEUE_TIMEOUT") in
  Some (dset "error_message"
          (VStr (if queued then "Job marked failed because it remained queued past the stale timeout window."
                 else "Job marked failed because it exceeded timeout / stale running lease."))
          (dset "error_code" (VStr (if queued then "JOB_STALE_QUEUE_TIMEOUT" else "JOB_STALE_TIMEOUT")) job)).

Definition updated_leb (a b : job_row) : bool := py_leb (j_updated a) (j_updated b).
Definition created_leb (a b : job_row) : bool := py_leb (j_created a) (j_created b).

Definition stale_cutoff (now timeout_seconds : Z) : py string :=
  cutoff ← dt_add_seconds (Datetime now 0) (- timeout_seconds); Some (sql_timestamp (dt_us cutoff)).

Definition cleanup_stale_running_jobs (stale_after_seconds : option Z) : M (list dict) :=
  let timeout_seconds := default job_stale_timeout_seconds stale_after_seconds in
  if timeout_seconds <? 0 then mret []
  else
    now ← utc_now;
    cutoff ← st_py (stale_cutoff now timeout_seconds);
    stale_rows ← db_read (fun db => sort_by updated_leb (List.filter (stale cutoff) (db_jobs db)));
    transitioned_rows ←
      (if (length stale_rows =? 0)%nat then mret []
       else db_tx (fun clock db => expire_rows cutoff clock 0 stale_rows db));
    st_py (py_map stale_job transitioned_rows).

(** ** Locks *)

Definition lock_char (c : ascii) : ascii :=
  if Ascii.eqb c ","%char || Ascii.eqb c " "%char then "+"%char else c.

Fixpoint map_chars (f : ascii -> ascii) (s : string) : string :=
  match s with "" => "" | String c s' => String (f c) (map_chars f s') end.

Definition _lock_tokens (lock_key : option string) : list string :=
  match lock_key with
  | None => []
  | Some key => List.filter (fun token => negb (String.eqb token "")) (py_split "+"%char (map_chars lock_char key))
  end.

Definition share_token (a b : list string) : bool := existsb (fun token => bool_decide (token ∈ b)) a.

Fixpoint first_conflict (wanted_tokens : list string) (rows : list job_row) : py (option dict) :=
  match rows with
  | [] => Some None
  | row :: rest =>
      active_job ← _row_to_job row;
      if share_token wanted_tokens (_lock_tokens (j_lock row)) then Some (Some active_job)
      else first_conflict wanted_tokens rest
  end.

Definition not_excluded (exclude_job_id : option string) (r : job_row) : bool :=
  match exclude_job_id with Some id => negb (has_id id r) | None => true end.

Definition find_active_lock_conflict (lock_key : string) (exclude_job_id : option string) : M (option dict) :=
  let wanted_tokens := _lock_tokens (Some lock_key) in
  if (length wanted_tokens =? 0)%nat then mret None
  else
    _ ← cleanup_stale_running_jobs None;
    rows ← db_read (fun db => sort_by created_leb
                                (List.filter (fun r => is_active_job r && not_excluded exclude_job_id r) (db_jobs db)));
    st_py (first_conflict wanted_tokens rows).

Definition lease_of (lock_key : string) (active_job : dict) : dict :=
  [("lock_key", VStr lock_key); ("owner_job_id", dget "job_id" active_job); ("owner_status", dget "status" active_job);
   ("acquired_at", dget "created_at" active_job);
   ("heartbeat_at", por (dget "updated_at" active_job) (dget "started_at" active_job));
   ("requested_by", dget "requested_by" active_job)].

Definition get_active_lock_lease (lock_key : string) (exclude_job_id : option string) : M (option dict) :=
  active_job ← find_active_lock_conflict lock_key exclude_job_id;
  mret (option_map (lease_of lock_key) active_job).

(** ** Creation and queries *)

Definition get_job_without_cleanup (job_id : string) : M (option dict) :=
  row ← db_read (fun db => find_job job_id (db_jobs db)); st_py (row_or_none row).

Definition get_job (job_id : string) : M (option dict) :=
  _ ← cleanup_stale_running_jobs None; get_job_without_cleanup job_id.

(** A created job, or JobLockConflictError with the job that holds the lock. *)
Inductive create_outcome := Created (job : dict) | LockConflict (lock_key : string) (active_job : dict).

Definition new_job (job_id job_type : string) (lock_key requested_by : option string) (input_data : option dict)
    (artifact_dir : option string) (event_context : dict) (now : string) : job_row :=
  JobRow job_id job_type QUEUED lock_key requested_by (_json_dumps input_data) (_json_dumps (Some event_context)) CNull
    None None artifact_dir now None None now.

(** The INSERT with the SELECT after it; [None] is IntegrityError. *)
Definition insert_job (row : string -> job_row) (clock : nat -> Z) (db : job_db) : option job_row * job_db :=
  let new := row (sql_timestamp (clock 0%nat)) in
  match checked (JobDb (db_jobs db ++ [new]) (db_events db)) with
  | Some db' => (Some new, db')
  | None => (None, db)
  end.

(** [if lock_key]. *)
Definition named_lock (lock_key : option string) : option string :=
  match lock_key with Some key => if String.eqb key "" then None else Some key | None => None end.

(** The owner's id of a lease. *)
Definition owner_of (lease : dict) : string := match dget "owner_job_id" lease with VStr s => s | _ => "" end.

(** The conflict the first check finds. *)
Definition held_lock (lock : option string) : M (option create_outcome) :=
  match lock with
  | None => mret None
  | Some key =>
      active_lease ← get_active_lock_lease key None;
      match active_lease with
      | None => mret None
      | Some lease =>
          job ← get_job_without_cleanup (owner_of lease); mret (Some (LockConflict key (default lease job)))
      end
  end.

(** [job_id] is the new UUID, [event_context] is sanitised. *)
Definition create_job (job_id job_type : string) (lock_key requested_by : option string) (input_data : option dict)
    (artifact_dir : option string) (event_context : dict) : M create_outcome :=
  _ ← cleanup_stale_running_jobs None;
  held ← held_lock (named_lock lock_key);
  match held with
  | Some conflict => mret conflict
  | None =>
      inserted ← db_tx (fun clock db =>
                   Some (insert_job (new_job job_id job_type lock_key requested_by input_data artifact_dir event_context)
                           clock db));
      match inserted with
      | Some row => job ← st_py (_row_to_job row); mret (Created job)
      | None =>
          match named_lock lock_key with
          | None => st_raise
          | Some key =>
              active_job ← find_active_lock_conflict key None;
              match active_job with Some job => mret (LockConflict key job) | None => st_raise end
          end
      end
  end.

Definition wanted_job (job_type status : option string) (r : job_row) : bool :=
  match named_lock job_type with Some t => String.eqb (j_type r) t | None => true end
  && match named_lock status with Some s => String.eqb (status_text (j_status r)) s | None => true end.

Definition list_jobs (limit : Z) (job_type status : option string) : M (list dict) :=
  _ ← cleanup_stale_running_jobs None;
  let safe_limit := Z.max 1 (Z.min limit 200) in
  rows ← db_read (fun db => take (Z.to_nat safe_limit)
                              (sort_by (fun a b => created_leb b a) (List.filter (wanted_job job_type status) (db_jobs db))));
  st_py (py_map _row_to_job rows).

(** ** Transitions *)

Definition started_row (now : string) (r : job_row) : job_row :=
  JobRow (j_id r) (j_type r) RUNNING (j_lock r) (j_requested_by r) (j_input r) (j_context r) (j_result r)
    (j_error_code r) (j_error_message r) (j_artifact_dir r) (j_created r) (Some now) (j_finished r) now.

(** The UPDATE does not test the status that the SELECT saw. *)
Definition start_tx (job_id now : string) (db : job_db) : option (option job_row * job_db) :=
  db' ← checked (JobDb (update_where (has_id job_id) (started_row now) (db_jobs db)) (db_events db));
  Some (find_job job_id (db_jobs db'), db').

Definition mark_job_running (job_id : string) : M (option dict) :=
  now ← utc_now;
  row ← db_read (fun db => find_job job_id (db_jobs db));
  match row with
  | None => mret None
  | Some row =>
      if negb (has_status QUEUED row) then job ← st_py (_row_to_job row); mret (Some job)
      else
        updated ← db_tx (fun _ db => start_tx job_id (sql_timestamp now) db);
        updated ← st_py updated;
        job ← st_py (_row_to_job updated);
        mret (Some job)
  end.

(** [WHERE job_id = ? AND status = 'running']. *)
Definition running_job (job_id : string) (r : job_row) : bool := has_id job_id r && has_status RUNNING r.

Definition touched_row (now : string) (r : job_row) : job_row :=
  JobRow (j_id r) (j_type r) (j_status r) (j_lock r) (j_requested_by r) (j_input r) (j_context r) (j_result r)
    (j_error_code r) (j_error_message r) (j_artifact_dir r) (j_created r) (j_started r) (j_finished r) now.

Definition resulted_row (result : cell) (now : string) (r : job_row) : job_row :=
  JobRow (j_id r) (j_type r) (j_status r) (j_lock r) (j_requested_by r) (j_input r) (j_context r) result
    (j_error_code r) (j_error_message r) (j_artifact_dir r) (j_created r) (j_started r) (j_finished r) now.

(** An UPDATE of the running job and the SELECT after it. *)
Definition running_tx (job_id : string) (f : job_row -> job_row) (db : job_db) : option job_row * job_db :=
  let rows := update_where (running_job job_id) f (db_jobs db) in
  (find_job job_id rows, JobDb rows (db_events db)).

Definition touch_job_running (job_id : string) : M (option dict) :=
  now ← utc_now;
  row ← db_tx (fun _ db => Some (running_tx job_id (touched_row (sql_timestamp now)) db));
  st_py (row_or_none row).

Definition update_job_running_result (job_id : string) (result : option dict) : M (option dict) :=
  now ← utc_now;
  row ← db_tx (fun _ db => Some (running_tx job_id (resulted_row (_encode_job_result result) (sql_timestamp now)) db));
  st_py (row_or_none row).

(** How a job ends: its status, error and the snapshot's classification. *)
Inductive job_end := Succeeded | Failed (error_code error_message : string) | Cancelled.

Definition end_status (e : job_end) : JobStatus :=
  match e with Succeeded => SUCCESS | Failed _ _ => FAILED | Cancelled => CANCELLED end.

Definition end_error (e : job_end) : option string * option string :=
  match e with Failed code message => (Some code, Some message) | _ => (None, None) end.

Definition end_classification (e : job_end) : string :=
  match e with
  | Succeeded => "handler_completed"
  | Failed code _ =>
      if String.eqb code "JOB_STALE_QUEUE_TIMEOUT" then "stale_queue_timeout"
      else if String.eqb code "JOB_STALE_TIMEOUT" then "stale_running_timeout"
      else "handler_failed"
  | Cancelled => "handler_cancelled"
  end.

Definition finished_row (e : job_end) (result : cell) (now : string) (r : job_row) : job_row :=
  JobRow (j_id r) (j_type r) (end_status e) (j_lock r) (j_requested_by r) (j_input r) (j_context r) result
    (end_error e).1 (end_error e).2 (j_artifact_dir r) (j_created r) (j_started r) (Some now) now.

Definition finish_tx (job_id : string) (e : job_end) (result : cell) (now : string) (db : job_db)
    : option (option job_row * job_db) :=
  let hit := existsb (running_job job_id) (db_jobs db) in
  let '(row, db') := running_tx job_id (finished_row e result now) db in
  match row with
  | Some row =>
      if hit then
        events ← _write_terminal_snapshot (db_events db') row (end_classification e) "terminal_commit" true;
        Some (Some row, JobDb (db_jobs db') events)
      else Some (Some row, db')
  | None => Some (None, db')
  end.

Definition finish_job (job_id : string) (e : job_end) (result : option dict) : M (option dict) :=
  now ← utc_now;
  row ← db_tx (fun _ db => finish_tx job_id e (_encode_job_result result) (sql_timestamp now) db);
  st_py (row_or_none row).

Definition mark_job_success (job_id : string) (result : option dict) : M (option dict) :=
  finish_job job_id Succeeded result.

Definition mark_job_failed (job_id error_code error_message : string) (result : option dict) : M (option dict) :=
  finish_job job_id (Failed error_code error_message) result.

Definition mark_job_cancelled (job_id : string) (result : option dict) : M (option dict) :=
  finish_job job_id Cancelled result.

(** ** Compaction of stored results *)

Record compaction := Compaction {
  c_job_id : string; c_status : JobStatus; c_original : Z; c_compacted : Z; c_encoded : cell }.

Definition oversized (limit_bytes : Z) (r : job_row) : bool :=
  negb (is_active_job r) && match j_result r with CNull => false | c => limit_bytes <? cell_bytes c end.

(** The stored value, or a note that it is not JSON. *)
Definition parsed_result (limit_bytes : Z) (c : cell) : dict :=
  match c with
  | CJson (VDict d) => d
  | CJson v => [("value", v)]
  | CText _ => [("__truncated__", VBool true); ("original_bytes", VInt (cell_bytes c)); ("max_bytes", VInt limit_bytes);
                ("summary", VDict [("error", VStr "invalid_json")])]
  | CNull => []
  end.

Definition compaction_of (limit_bytes : Z) (r : job_row) : option compaction :=
  let encoded := _encode_job_result (Some (parsed_result limit_bytes (j_result r))) in
  let original_bytes := cell_bytes (j_result r) in
  if original_bytes <=? cell_bytes encoded then None
  else Some (Compaction (j_id r) (j_status r) original_bytes (cell_bytes encoded) encoded).

Definition compact_row (c : compaction) (r : job_row) : job_row :=
  JobRow (j_id r) (j_type r) (j_status r) (j_lock r) (j_requested_by r) (j_input r) (j_context r) (c_encoded c)
    (j_error_code r) (j_error_message r) (j_artifact_dir r) (j_created r) (j_started r) (j_finished r) (j_updated r).

Definition compact_rows (cs : list compaction) (rows : list job_row) : list job_row :=
  fold_left (fun rows c => update_where (has_id (c_job_id c)) (compact_row c) rows) cs rows.

Definition compaction_dict (c : compaction) : dict :=
  [("job_id", VStr (c_job_id c)); ("status", VStr (status_text (c_status c))); ("original_bytes", VInt (c_original c));
   ("compacted_bytes", VInt (c_compacted c)); ("bytes_saved", VInt (c_original c - c_compacted c))].

Definition saved_bytes (cs : list compaction) : Z := fold_right Z.add 0 (map (fun c => c_original c - c_compacted c) cs).

Definition compact_oversized_job_results (max_bytes : option Z) (dry_run : bool) : M dict :=
  let limit_bytes := default job_result_max_bytes max_bytes in
  rows ← db_read (fun db => sort_by (fun a b => cell_bytes (j_result b) <=? cell_bytes (j_result a))
                              (List.filter (oversized limit_bytes) (db_jobs db)));
  let candidates := omap (compaction_of limit_bytes) rows in
  _ ← (if dry_run || (length candidates =? 0)%nat then mret tt
       else db_tx (fun _ db => Some (tt, JobDb (compact_rows candidates (db_jobs db)) (db_events db))));
  let updated_jobs := if dry_run then [] else map c_job_id candidates in
  mret [("dry_run", VBool dry_run); ("max_bytes", VInt limit_bytes);
        ("candidates_count", VInt (Z.of_nat (length candidates)));
        ("candidates", VList (map (fun c => VDict (compaction_dict c)) candidates));
        ("updated_jobs_count", VInt (Z.of_nat (length updated_jobs)));
        ("updated_jobs", VList (map VStr updated_jobs));
        ("bytes_saved", VInt (saved_bytes candidates))].

(** ** The runner: [jobs/manager.py] *)

(** What a handler does: it returns a dict or None, or raises an exception with a text. *)
Inductive handler_outcome := Returned (result : option dict) | Raised (text : string).

Definition JobHandler := dict -> M handler_outcome.

Context `{ReprContainer}.

(** How the job ends, from what its handler did. *)
Definition end_of_outcome (o : handler_outcome) : job_end * option dict :=
  match o with
  | Raised text => (Failed "JOB_HANDLER_FAILED" text, None)
  | Returned r =>
      let result := default [] r in
      if eq_str (dget "job_status" result) "failed" then
        (Failed (py_str (por (dget "error_code" result) (VStr "JOB_HANDLER_FAILED")))
           (py_str (por (dget "error_message" result) (VStr "Job handler reported failure."))), Some result)
      else if eq_str (dget "job_status" result) "cancelled" then (Cancelled, Some result)
      else (Succeeded, Some result)
  end.

Definition run_job (handlers : list (string * JobHandler)) (job_id : string) : M (option dict) :=
  _ ← cleanup_stale_running_jobs (Some job_stale_timeout_seconds);
  started ← mark_job_running job_id;
  match started with
  | None => mret None
  | Some job =>
      if negb (eq_str (dget "status" job) "running") then mret (Some job)
      else
        let job_type := py_str (dget "job_type" job) in
        match assoc_get job_type handlers with
        | None => mark_job_failed job_id "JOB_HANDLER_NOT_REGISTERED" ("No handler registered for job type: " +:+ job_type) None
        | Some handler =>
            outcome ← handler job;
            let '(e, result) := end_of_outcome outcome in finish_job job_id e result
        end
  end.
End Jobs.
