(* ===== verification/JobInvariant.v ===== *)
(** * Jobs under interleaving

    What holds of the table in every schedule: other processes act between
    any two accesses, each by transactions of this code. *)
From stdpp Require Import base list strings pretty sorting relations.
From Stdlib Require Import ZArith Lia Ascii.
From S2P Require Import Prelude PyStr PyVal PyState PyTime Jobs.

Open Scope string_scope.
Open Scope Z_scope.
Open Scope list_scope.

(** ** Transactions as steps *)

Section Steps.
Context `{JobSettings} `{TerminalIds}.

(** What a transaction of the code may do to the database. *)
Inductive job_step (db : job_db) : job_db -> Prop :=
  | step_insert new db' :
      j_status new = QUEUED -> checked (JobDb (db_jobs db ++ [new]) (db_events db)) = Some db' -> job_step db db'
  | step_start job_id now row db' : start_tx job_id now db = Some (row, db') -> job_step db db'
  | step_touch job_id now : job_step db (running_tx job_id (touched_row now) db).2
  | step_result job_id result now : job_step db (running_tx job_id (resulted_row result now) db).2
  | step_finish job_id e result now row db' : finish_tx job_id e result now db = Some (row, db') -> job_step db db'
  | step_expire cutoff clock i stale_rows moved db' :
      Forall (fun r => is_active_job r = true) stale_rows ->
      expire_rows cutoff clock i stale_rows db = Some (moved, db') -> job_step db db'
  | step_compact cs : job_step db (JobDb (compact_rows cs (db_jobs db)) (db_events db)).

(** Every other writer does such transactions, any number of them. *)
Definition honest (w : world) : Prop := Forall (fun t => forall db, rtc job_step db (t_others t db)) (w_turns w).

(** A program of such transactions, which only consumes its schedule, with what holds of its results. *)
Definition obeys {A} (m : M A) (Q : A -> Prop) : Prop :=
  forall w, honest w ->
  rtc job_step (w_db w) (w_db (m w).2) /\ w_turns (m w).2 `suffix_of` w_turns w /\ forall a, (m w).1 = Some a -> Q a.

Lemma honest_suffix w w' : honest w -> w_turns w' `suffix_of` w_turns w -> honest w'.
Proof. unfold honest. intros Hw [k Hk]. rewrite Hk in Hw. by apply Forall_app in Hw as [_ ?]. Qed.

Lemma obeys_turn w : honest w ->
  rtc job_step (w_db w) (take_turn w).1.2 /\ (take_turn w).2 `suffix_of` w_turns w.
Proof.
  unfold honest, take_turn. intros Hw. destruct (w_turns w) as [|t rest]; [by split|].
  inversion Hw as [|? ? Ht Hrest]; subst. split; [apply Ht|by apply suffix_cons_r].
Qed.

Lemma obeys_ret {A} (a : A) (Q : A -> Prop) : Q a -> obeys (mret a) Q.
Proof.
  intros HQ w Hw. split; [apply rtc_refl|]. split; [done|]. by intros ? [= <-].
Qed.

Lemma obeys_raise {A} (Q : A -> Prop) : obeys (st_raise : M A) Q.
Proof.
  intros w Hw. split; [apply rtc_refl|]. by split.
Qed.

Lemma obeys_py {A} (o : py A) : obeys (st_py o) (fun a => o = Some a).
Proof.
  intros w Hw. split; [apply rtc_refl|]. by split.
Qed.

Lemma obeys_weaken {A} (m : M A) (Q R : A -> Prop) : obeys m Q -> (forall a, Q a -> R a) -> obeys m R.
Proof. intros Hm HR w Hw. destruct (Hm w Hw) as (Hs & Ht & HQ). auto. Qed.

Lemma obeys_bind {A B} (m : M A) (k : A -> M B) (Q : A -> Prop) (R : B -> Prop) :
  obeys m Q -> (forall a, Q a -> obeys (k a) R) -> obeys (mbind k m) R.
Proof.
  intros Hm Hk w Hw. unfold mbind, st_bind. destruct (Hm w Hw) as (Hs & Ht & HQ).
  pose proof (honest_suffix _ _ Hw Ht) as Hw'.
  destruct (m w) as [[a|] w']; [|by split]. destruct (Hk a (HQ a eq_refl) w' Hw') as (Hs' & Ht' & HR).
  split; [by etrans|]. split; [by etrans|done].
Qed.

Lemma obeys_now : obeys utc_now (fun _ => True).
Proof.
  intros w Hw. unfold utc_now. destruct (obeys_turn w Hw) as [Hs Ht]. destruct (take_turn w) as [[t db] rest].
  split; [exact Hs|]. by split.
Qed.

Lemma obeys_tx {A} (body : (nat -> Z) -> job_db -> option (A * job_db)) (Q : A -> Prop) :
  (forall clock db a db', body clock db = Some (a, db') -> rtc job_step db db' /\ Q a) -> obeys (db_tx body) Q.
Proof.
  intros Hb w Hw. unfold db_tx. destruct (obeys_turn w Hw) as [Hs Ht]. destruct (take_turn w) as [[t db] rest].
  cbn [fst snd] in Hs, Ht. destruct (if t_ok t then body (t_clock t) db else None) as [[a db']|] eqn:E.
  - destruct (t_ok t); [|done]. destruct (Hb _ _ _ _ E) as [Hs' HQ].
    split; [by etrans|]. split; [done|]. by intros ? [= <-].
  - split; [exact Hs|]. by split.
Qed.

Lemma obeys_read {A} (f : job_db -> A) (Q : A -> Prop) : (forall db, Q (f db)) -> obeys (db_read f) Q.
Proof. intros HQ. apply obeys_tx. by intros clock db a db' [= <- <-]. Qed.
End Steps.

(** Follow the binds and tests of a program down to its accesses. *)
Ltac obey :=
  repeat first
    [ progress intros
    | match goal with |- obeys (mbind _ _) _ => eapply obeys_bind end
    | match goal with |- obeys (mret _) _ => apply (obeys_ret _ (fun _ => True) I) end
    | match goal with |- obeys (mret _) _ => by apply obeys_ret end
    | match goal with |- obeys st_raise _ => apply obeys_raise end
    | match goal with |- obeys (st_py _) _ => eapply obeys_weaken; [apply obeys_py|done] end
    | match goal with |- obeys utc_now _ => apply obeys_now end
    | match goal with |- obeys (db_read _) _ => by apply (obeys_read _ (fun _ => True)) end
    | match goal with |- obeys (if ?b then _ else _) _ => destruct b end
    | match goal with |- obeys (match ?o with _ => _ end) _ => destruct o end
    | solve [eauto with jobs] ].

Create HintDb jobs.

Section Programs.
Context `{JobSettings} `{TerminalIds}.

Lemma obeys_one {A} (body : (nat -> Z) -> job_db -> option (A * job_db)) :
  (forall clock db a db', body clock db = Some (a, db') -> job_step db db') -> obeys (db_tx body) (fun _ => True).
Proof. intros Hb. apply obeys_tx. intros clock db a db' E. split; [|done]. by eapply rtc_once, Hb. Qed.

Definition all_active (rows : list job_row) : Prop := Forall (fun r => is_active_job r = true) rows.

Lemma stale_active cutoff rows : all_active (sort_by updated_leb (List.filter (stale cutoff) rows)).
Proof.
  apply Forall_forall. intros r Hr. rewrite elem_of_sort_by in Hr. apply list_elem_of_In, filter_In in Hr as [_ Hs].
  unfold stale in Hs. by bool_simpl.
Qed.

Lemma obeys_cleanup after : obeys (cleanup_stale_running_jobs after) (fun _ => True).
Proof.
  unfold cleanup_stale_running_jobs. case_match; [by apply obeys_ret|].
  eapply obeys_bind; [apply obeys_now|intros now _]. eapply obeys_bind; [apply obeys_py|intros cutoff _].
  eapply (obeys_bind _ _ all_active); [apply obeys_read; intros; apply stale_active|intros stale_rows Hrows].
  eapply (obeys_bind _ _ (fun _ => True)); [case_match; [by apply obeys_ret|]|by obey].
  apply obeys_one. intros clock db moved db' E. by eapply step_expire.
Qed.
#[local] Hint Resolve obeys_cleanup : jobs.

Lemma obeys_conflict key excluded : obeys (find_active_lock_conflict key excluded) (fun _ => True).
Proof. unfold find_active_lock_conflict. obey. Qed.
#[local] Hint Resolve obeys_conflict : jobs.

Lemma obeys_query id : obeys (get_job_without_cleanup id) (fun _ => True).
Proof. unfold get_job_without_cleanup. obey. Qed.
#[local] Hint Resolve obeys_query : jobs.

Lemma obeys_held lock : obeys (held_lock lock) (fun _ => True).
Proof. unfold held_lock, get_active_lock_lease. obey. Qed.
#[local] Hint Resolve obeys_held : jobs.

Lemma obeys_create id type lock by_ input dir context :
  obeys (create_job id type lock by_ input dir context) (fun _ => True).
Proof.
  unfold create_job. eapply obeys_bind; [apply obeys_cleanup|intros _ _].
  eapply obeys_bind; [apply obeys_held|intros [conflict|] _]; [by apply obeys_ret|].
  eapply (obeys_bind _ _ (fun _ => True)); [|by obey].
  apply obeys_tx. intros clock db a db' [= E]. split; [|done]. unfold insert_job in E.
  destruct (checked _) as [db1|] eqn:Ec; injection E as <- <-; [|done]. eapply rtc_once, step_insert; [|exact Ec]. done.
Qed.

Lemma obeys_start id : obeys (mark_job_running id) (fun _ => True).
Proof.
  unfold mark_job_running. eapply obeys_bind; [apply obeys_now|intros now _].
  eapply (obeys_bind _ _ (fun _ => True)); [by apply obeys_read|intros [row|] _]; [|by obey].
  case_match; [by obey|]. eapply (obeys_bind _ _ (fun _ => True)); [|by obey].
  apply obeys_one. intros clock db a db' E. by eapply step_start.
Qed.

Lemma obeys_running id f g : (forall now db, job_step db (running_tx id (f now) db).2) ->
  obeys (now ← utc_now; row ← db_tx (fun _ db => Some (running_tx id (f (sql_timestamp now)) db)); st_py (g row))
    (fun _ : option dict => True).
Proof.
  intros Hf. eapply obeys_bind; [apply obeys_now|intros now _]. eapply (obeys_bind _ _ (fun _ => True)); [|by obey].
  apply obeys_one. intros clock db a db' E. injection E as _ <-. apply Hf.
Qed.

Lemma obeys_touch id : obeys (touch_job_running id) (fun _ => True).
Proof. apply (obeys_running id touched_row). intros now db. apply step_touch. Qed.

Lemma obeys_result id result : obeys (update_job_running_result id result) (fun _ => True).
Proof. apply (obeys_running id (resulted_row (_encode_job_result result))). intros now db. apply step_result. Qed.

Lemma obeys_finish id e result : obeys (finish_job id e result) (fun _ => True).
Proof.
  unfold finish_job. eapply obeys_bind; [apply obeys_now|intros now _].
  eapply (obeys_bind _ _ (fun _ => True)); [|by obey].
  apply obeys_one. intros clock db a db' E. by eapply step_finish.
Qed.
#[local] Hint Resolve obeys_start obeys_finish : jobs.

Lemma obeys_compact bytes dry_run : obeys (compact_oversized_job_results bytes dry_run) (fun _ => True).
Proof.
  unfold compact_oversized_job_results. eapply (obeys_bind _ _ (fun _ => True)); [by apply obeys_read|intros rows _].
  eapply (obeys_bind _ _ (fun _ => True)); [|by obey]. case_match; [by apply obeys_ret|].
  apply obeys_one. intros clock db a db' [= <- <-]. apply step_compact.
Qed.

Lemma obeys_list limit type status : obeys (list_jobs limit type status) (fun _ => True).
Proof. unfold list_jobs. obey. Qed.

Lemma obeys_run `{ReprContainer} handlers id :
  Forall (fun h : string * JobHandler => forall job, obeys (h.2 job) (fun _ => True)) handlers ->
  obeys (run_job handlers id) (fun _ => True).
Proof.
  intros Hh. unfold run_job. eapply obeys_bind; [apply obeys_cleanup|intros _ _].
  eapply obeys_bind; [apply obeys_start|intros [job|] _]; [|by obey]. case_match; [by obey|].
  destruct (assoc_get _ handlers) as [handler|] eqn:E; [|apply obeys_finish].
  assert (Hj : obeys (handler job) (fun _ => True)).
  { clear -Hh E. induction Hh as [|[k h] hs Hx _ IH]; [done|]. cbn [assoc_get fst snd] in E.
    destruct (String.eqb _ k); [injection E as <-; apply Hx|by apply IH]. }
  eapply obeys_bind; [exact Hj|intros outcome _]. destruct (end_of_outcome outcome) as [e result]. apply obeys_finish.
Qed.
End Programs.

(** * The invariant of the job table

    Identifiers and active lock keys are unique, and a row that is terminal
    has its snapshot in the audit log, in every schedule. *)
(** ** Updates and the constraints *)

(** An UPDATE that keeps keys and makes no row active. *)
Definition keeps (f : job_row -> job_row) : Prop := forall r,
  j_id (f r) = j_id r /\ j_lock (f r) = j_lock r /\ (is_active_job (f r) = true -> is_active_job r = true).

Lemma update_ids p f rows : keeps f -> map j_id (update_where p f rows) = map j_id rows.
Proof.
  intros Hf. unfold update_where. rewrite map_map. apply map_ext. intros r. destruct (p r); [apply Hf|done].
Qed.

Lemma update_locks p f rows : keeps f -> sublist (active_locks (update_where p f rows)) (active_locks rows).
Proof.
  intros Hf. unfold active_locks. induction rows as [|r rows IH]; [done|]. cbn [update_where map List.filter].
  destruct (p r).
  - destruct (Hf r) as (_ & Hl & Ha). destruct (is_active_job (f r)).
    + rewrite (Ha eq_refl). cbn [omap list_omap]. rewrite Hl. destruct (j_lock r); [by apply sublist_skip|done].
    + destruct (is_active_job r); [|done]. cbn [omap list_omap]. destruct (j_lock r); [by apply sublist_cons|done].
  - destruct (is_active_job r); [|done]. cbn [omap list_omap]. destruct (j_lock r); [by apply sublist_skip|done].
Qed.

Lemma index_spec rows : index_ok rows = true <-> NoDup (map j_id rows) /\ NoDup (active_locks rows).
Proof. unfold index_ok. rewrite andb_true_iff, !bool_decide_eq_true. done. Qed.

Lemma index_update p f rows : keeps f -> index_ok rows = true -> index_ok (update_where p f rows) = true.
Proof.
  intros Hf. rewrite !index_spec, update_ids by done. intros [Hi Hl]. split; [done|].
  eapply sublist_NoDup; [exact Hl|]. by apply update_locks.
Qed.

Lemma elem_of_update r p f rows :
  r ∈ update_where p f rows -> (r ∈ rows /\ p r = false) \/ exists r0, r0 ∈ rows /\ p r0 = true /\ r = f r0.
Proof.
  intros (r0 & -> & Hr)%list_elem_of_fmap. destruct (p r0) eqn:E; [|by left]. right. by exists r0.
Qed.

Lemma find_job_unique id r rows : NoDup (map j_id rows) -> r ∈ rows -> j_id r = id -> find_job id rows = Some r.
Proof.
  intros Hn Hr <-. unfold find_job. induction rows as [|r' rows IH]; [by apply elem_of_nil in Hr|].
  inversion Hn as [|? ? Hnot Hn']; subst. cbn [List.find]. destruct (String.eqb_spec (j_id r') (j_id r)) as [E|Hne].
  - apply elem_of_cons in Hr as [->|Hr]; [done|]. exfalso. apply Hnot. rewrite E. by apply list_elem_of_fmap_2.
  - apply elem_of_cons in Hr as [->|Hr]; [done|]. by apply IH.
Qed.

Lemma find_job_some id rows r : find_job id rows = Some r -> r ∈ rows /\ j_id r = id.
Proof. intros [Hr%list_elem_of_In He]%find_some. by apply String.eqb_eq in He. Qed.

Lemma filter_none {A} (p : A -> bool) l : (forall x, x ∈ l -> p x = false) -> List.filter p l = [].
Proof.
  induction l as [|x l IH]; intros Hp; [done|]. cbn [List.filter]. rewrite Hp by apply elem_of_cons, or_introl, eq_refl.
  apply IH. intros y Hy. apply Hp. by apply elem_of_cons; right.
Qed.

Lemma filter_unique (s : snapshot) events : NoDup (map ts_event_id events) -> s ∈ events ->
  List.filter (fun s' => String.eqb (ts_event_id s') (ts_event_id s)) events = [s].
Proof.
  induction events as [|e events IH]; intros Hn Hs; [by apply elem_of_nil in Hs|].
  inversion Hn as [|? ? Hnot Hn']; subst. cbn [List.filter]. apply elem_of_cons in Hs as [<-|Hs].
  - rewrite String.eqb_refl. f_equal. apply filter_none. intros e' He'. apply String.eqb_neq. intros E. apply Hnot.
    rewrite <- E. by apply list_elem_of_fmap_2.
  - destruct (String.eqb_spec (ts_event_id e) (ts_event_id s)) as [E|]; [|by apply IH].
    exfalso. apply Hnot. rewrite E. by apply list_elem_of_fmap_2.
Qed.

Section Invariant.
Context `{JobSettings} `{TerminalIds}.

(** ** Snapshots *)

Definition snapshot_of (r : job_row) (s : snapshot) : Prop :=
  ts_event_id s = _terminal_snapshot_event_id (j_id r) /\ ts_assurance s = "terminal_commit"
  /\ _terminal_snapshot_matches r s = true.

(** The classifications of each terminal status. *)
Definition classified (r : job_row) (classification : string) : Prop :=
  (j_status r = SUCCESS /\ classification = "handler_completed")
  \/ (j_status r = FAILED /\ classification ∈ ["handler_failed"; "stale_queue_timeout"; "stale_running_timeout"])
  \/ (j_status r = CANCELLED /\ classification = "handler_cancelled").

Lemma written_snapshot events row classification flag events' :
  _write_terminal_snapshot events row classification "terminal_commit" flag = Some events' ->
  is_Some (j_finished row) -> classified row classification ->
  exists s, events' = events ++ [s] /\ (ts_event_id s ∉ map ts_event_id events) /\ snapshot_of row s.
Proof.
  unfold _write_terminal_snapshot. intros Hw [t Ht] Hc. case_match; [done|]. case_match; [done|]. case_match; [done|].
  case_match; [done|]. destruct (_json_loads (j_context row)) as [loaded|]; [|done]. cbn [mbind option_bind] in Hw.
  case_bool_decide as Hn; [done|]. injection Hw as <-. eexists. split; [done|]. split; [done|]. split; [done|].
  split; [done|]. unfold _terminal_snapshot_matches. cbn [ts_job_id ts_status ts_finished_at ts_assurance ts_classification].
  rewrite !String.eqb_refl, Ht. cbn [andb default from_option id]. rewrite bool_decide_true by done. cbn [andb].
  unfold has_status. destruct Hc as [[Hs ->]|[[Hs Hc]|[Hs ->]]]; rewrite Hs; [reflexivity| |reflexivity].
  rewrite (bool_decide_true (classification ∈ _)) by done. reflexivity.
Qed.

Lemma matches_same r r' s : j_id r' = j_id r -> j_status r' = j_status r -> j_finished r' = j_finished r ->
  snapshot_of r s -> snapshot_of r' s.
Proof.
  unfold snapshot_of, _terminal_snapshot_matches, has_status. by intros -> -> ->.
Qed.

(** ** The invariant *)

Record recorded (db : job_db) : Prop := Recorded {
  rec_index : index_ok (db_jobs db) = true;
  rec_events : NoDup (map ts_event_id (db_events db));
  rec_terminal : forall r, r ∈ db_jobs db -> is_active_job r = false -> exists s, s ∈ db_events db /\ snapshot_of r s;
}.

(** An UPDATE that changes neither key nor status nor end of a row. *)
Definition silent (f : job_row -> job_row) : Prop := forall r,
  j_id (f r) = j_id r /\ j_lock (f r) = j_lock r /\ j_status (f r) = j_status r /\ j_finished (f r) = j_finished r.

Lemma silent_keeps f : silent f -> keeps f.
Proof. intros Hf r. destruct (Hf r) as (Hi & Hl & Hs & _). unfold is_active_job. by rewrite Hs. Qed.

Lemma recorded_silent p f rows events :
  silent f -> recorded (JobDb rows events) -> recorded (JobDb (update_where p f rows) events).
Proof.
  intros Hf [Hi He Ht]. split; cbn [db_jobs db_events] in *; [|done|].
  - by apply index_update, Hi; apply silent_keeps.
  - intros r [[Hr _]|(r0 & Hr & _ & ->)]%elem_of_update Ha; [by apply Ht|].
    destruct (Hf r0) as (Hid & _ & Hs & Hfin). unfold is_active_job in Ha. rewrite Hs in Ha.
    destruct (Ht r0 Hr Ha) as (s & Hin & Hs'). exists s. split; [done|]. by eapply matches_same.
Qed.

(** An UPDATE that ends the one row of an id, and its snapshot. *)
Lemma recorded_end p f id classification flag row events' db :
  (forall r, p r = true -> j_id r = id) -> keeps f ->
  (forall r, p r = true -> is_active_job (f r) = false /\ is_Some (j_finished (f r)) /\ classified (f r) classification) ->
  existsb p (db_jobs db) = true ->
  find_job id (update_where p f (db_jobs db)) = Some row ->
  _write_terminal_snapshot (db_events db) row classification "terminal_commit" flag = Some events' ->
  recorded db -> recorded (JobDb (update_where p f (db_jobs db)) events').
Proof.
  intros Hp Hf Hend Hex Hrow Hw [Hi He Ht].
  assert (Hi' : index_ok (update_where p f (db_jobs db)) = true) by (by apply index_update).
  pose proof (proj1 (proj1 (index_spec _) Hi')) as Hids.
  assert (Hhit : forall r, r ∈ db_jobs db -> p r = true -> f r = row).
  { intros r Hr Hpr. assert (Hin : f r ∈ update_where p f (db_jobs db)).
    { apply list_elem_of_fmap. exists r. by rewrite Hpr. }
    rewrite (find_job_unique id (f r)) in Hrow; [by injection Hrow|done|done|]. rewrite (proj1 (Hf r)). by apply Hp. }
  apply existsb_exists in Hex as (r1 & Hr1%list_elem_of_In & Hp1). pose proof (Hhit r1 Hr1 Hp1) as E1.
  destruct (Hend r1 Hp1) as (_ & Hfin & Hcl). rewrite E1 in Hfin, Hcl.
  destruct (written_snapshot _ _ _ _ _ Hw Hfin Hcl) as (s & -> & Hnot & Hsnap).
  split; cbn [db_jobs db_events]; [done| |].
  - rewrite map_app. apply NoDup_app. split; [done|]. split; [|by apply NoDup_singleton].
    intros x Hx Hx'. apply list_elem_of_singleton in Hx'. by subst.
  - intros r [[Hr _]|(r0 & Hr & Hp0 & ->)]%elem_of_update Ha.
    + destruct (Ht r Hr Ha) as (s' & Hs' & Hm). exists s'. split; [|done]. apply elem_of_app. by left.
    + exists s. split; [apply elem_of_app; right; by apply list_elem_of_singleton|]. by rewrite (Hhit r0).
Qed.
(** ** Every transaction keeps the invariant *)

Lemma checked_inv db db' : checked db = Some db' -> db' = db /\ index_ok (db_jobs db) = true.
Proof. unfold checked. destruct (index_ok _); [by intros [= <-]|done]. Qed.

Lemma insert_recorded db new db' : j_status new = QUEUED ->
  checked (JobDb (db_jobs db ++ [new]) (db_events db)) = Some db' -> recorded db -> recorded db'.
Proof.
  intros Hn [-> Hc]%checked_inv [Hi He Ht]. split; cbn [db_jobs db_events] in *; [done|done|].
  intros r [Hr| ->%list_elem_of_singleton]%elem_of_app Ha; [by apply Ht|]. unfold is_active_job in Ha. by rewrite Hn in Ha.
Qed.

Lemma start_recorded db job_id now row db' : start_tx job_id now db = Some (row, db') -> recorded db -> recorded db'.
Proof.
  unfold start_tx. destruct (checked _) as [db1|] eqn:E; [|done]. intros [= _ ->] [Hi He Ht].
  apply checked_inv in E as [-> Hc]. split; cbn [db_jobs db_events] in *; [done|done|].
  intros r [[Hr _]|(r0 & _ & _ & ->)]%elem_of_update Ha; [by apply Ht|done].
Qed.

Lemma touched_silent now : silent (touched_row now). Proof. done. Qed.
Lemma resulted_silent result now : silent (resulted_row result now). Proof. done. Qed.
Lemma compact_silent c : silent (compact_row c). Proof. done. Qed.

Lemma compact_recorded cs : forall rows events,
  recorded (JobDb rows events) -> recorded (JobDb (compact_rows cs rows) events).
Proof.
  unfold compact_rows. induction cs as [|c cs IH]; intros rows events Hr; [done|]. cbn [fold_left].
  apply IH, recorded_silent; [apply compact_silent|done].
Qed.

Lemma update_none p f rows : existsb p rows = false -> update_where p f rows = rows.
Proof.
  induction rows as [|r rows IH]; [done|]. cbn [existsb update_where map]. intros [-> Hr]%orb_false_elim.
  f_equal. by apply IH.
Qed.

Lemma running_found id f rows : (forall r, j_id (f r) = j_id r) -> existsb (running_job id) rows = true ->
  is_Some (find_job id (update_where (running_job id) f rows)).
Proof.
  intros Hf (r & Hr & Hp)%existsb_exists. unfold find_job. destruct (List.find _ _) as [r'|] eqn:E; [by eexists|].
  exfalso. assert (Hin : In (f r) (update_where (running_job id) f rows)).
  { apply in_map_iff. exists r. by rewrite Hp. }
  pose proof (find_none _ _ E _ Hin) as Hno. cbn beta in Hno. apply andb_prop in Hp as [Hid _]. unfold has_id in Hid.
  rewrite Hf in Hno. congruence.
Qed.

Lemma finished_keeps e result now : keeps (finished_row e result now).
Proof. intros r. split; [done|]. split; [done|]. by destruct e. Qed.

Lemma end_classified e result now r : classified (finished_row e result now r) (end_classification e).
Proof.
  destruct e as [|code message|]; [by left| |by right; right]. right; left. split; [done|]. cbn [end_classification].
  destruct (String.eqb code _); [set_solver|]. destruct (String.eqb code _); set_solver.
Qed.

Lemma finish_recorded db job_id e result now row db' :
  finish_tx job_id e result now db = Some (row, db') -> recorded db -> recorded db'.
Proof.
  unfold finish_tx, running_tx. destruct (existsb (running_job job_id) (db_jobs db)) eqn:Eh.
  - destruct (find_job _ _) as [r|] eqn:Ef.
    + destruct (_write_terminal_snapshot _ _ _ _ _) as [events|] eqn:Ew; [|done]. intros [= <- <-] Hrec.
      eapply recorded_end; [..|exact Ew|exact Hrec]; [|apply finished_keeps| |exact Eh|exact Ef].
      * intros r0 [Hr _]%andb_prop. by apply String.eqb_eq in Hr.
      * intros r0 _. split; [by destruct e|]. split; [by eexists|apply end_classified].
    + intros _ _. by apply running_found with (f := finished_row e result now) in Eh as [r ?]; [congruence|].
  - rewrite update_none by done. destruct db as [rows events]. destruct (find_job _ _); by intros [= <- <-].
Qed.

Lemma expired_keeps now : keeps (expired_row now).
Proof. by intros r. Qed.

Lemma expire_recorded cutoff clock stale_rows : forall i db moved db',
  all_active stale_rows -> expire_rows cutoff clock i stale_rows db = Some (moved, db') -> recorded db -> recorded db'.
Proof.
  induction stale_rows as [|s rest IH]; intros i db moved db' Ha E Hrec; cbn [expire_rows] in E; [by injection E as <- <-|].
  inversion Ha as [|? ? Hs Hrest]; subst. destruct (existsb (still_stale cutoff s) (db_jobs db)) eqn:Eh;
    cbn [negb] in E; [|by eapply IH].
  destruct (find_job _ _) as [row|] eqn:Ef; [|done]. cbn [mbind option_bind] in E.
  destruct (_write_terminal_snapshot _ _ _ _ _) as [events|] eqn:Ew; [|done]. cbn [mbind option_bind] in E.
  destruct (expire_rows _ _ _ rest _) as [[more db1]|] eqn:Er; [|done]. injection E as _ <-.
  eapply IH; [done|exact Er|]. eapply recorded_end; [..|exact Ew|exact Hrec]; [|apply expired_keeps| |exact Eh|exact Ef].
  - intros r [[Hid _]%andb_prop _]%andb_prop. by apply String.eqb_eq in Hid.
  - intros r Hr. split; [done|]. split; [by eexists|]. right; left. split; [done|]. unfold stale_classification.
    destruct (has_status QUEUED s); set_solver.
Qed.

Lemma step_recorded db db' : job_step db db' -> recorded db -> recorded db'.
Proof.
  destruct 1 as [new db' Hn Hc|id now row db' E|id now|id result now|id e result now row db' E|cutoff clock i rows moved db' Ha E|cs].
  - by apply insert_recorded with new.
  - by apply start_recorded with id now row.
  - destruct db. apply recorded_silent, touched_silent.
  - destruct db. apply recorded_silent, resulted_silent.
  - by apply finish_recorded with id e result now row.
  - by apply (expire_recorded _ _ _ _ _ _ _ Ha E).
  - destruct db. by apply compact_recorded.
Qed.

Lemma steps_recorded db db' : rtc job_step db db' -> recorded db -> recorded db'.
Proof. induction 1 as [|db db1 db2 Hs _ IH]; [done|]. intros Hr. by apply IH, (step_recorded db). Qed.

Definition empty_db : job_db := JobDb [] [].

Lemma empty_recorded : recorded empty_db.
Proof. split; [done|constructor|]. by intros r Hr%elem_of_nil. Qed.

(** ** Calls *)

(** A call whose exception ends the call, not the process. *)
Definition call {A} (m : M A) : M unit := st_try (_ ← m; mret tt) (mret tt).

Context `{ReprContainer}.

(** The calls that processes make, with handlers that make such calls. *)
Inductive job_call : M unit -> Prop :=
  | call_create id type lock by_ input dir context : job_call (call (create_job id type lock by_ input dir context))
  | call_get id : job_call (call (get_job id))
  | call_list limit type status : job_call (call (list_jobs limit type status))
  | call_cleanup after : job_call (call (cleanup_stale_running_jobs after))
  | call_start id : job_call (call (mark_job_running id))
  | call_touch id : job_call (call (touch_job_running id))
  | call_result id result : job_call (call (update_job_running_result id result))
  | call_success id result : job_call (call (mark_job_success id result))
  | call_failed id code message result : job_call (call (mark_job_failed id code message result))
  | call_cancelled id result : job_call (call (mark_job_cancelled id result))
  | call_compact bytes dry_run : job_call (call (compact_oversized_job_results bytes dry_run))
  | call_run handlers id :
      Forall (fun h : string * JobHandler => forall job, obeys (h.2 job) (fun _ => True)) handlers ->
      job_call (call (run_job handlers id)).

Lemma obeys_call {A} (m : M A) : obeys m (fun _ => True) -> obeys (call m) (fun _ => True).
Proof.
  intros Hm w Hw. unfold call, st_try, mbind, st_bind. destruct (Hm w Hw) as (Hs & Ht & _).
  destruct (m w) as [[a|] w']; by split.
Qed.

Lemma job_call_obeys m : job_call m -> obeys m (fun _ => True).
Proof.
  destruct 1; apply obeys_call;
    [apply obeys_create| |apply obeys_list|apply obeys_cleanup|apply obeys_start|apply obeys_touch|apply obeys_result
    |apply obeys_finish|apply obeys_finish|apply obeys_finish|apply obeys_compact|by apply obeys_run].
  unfold get_job. eapply obeys_bind; [apply obeys_cleanup|intros _ _; apply obeys_query].
Qed.

Fixpoint run_calls (calls : list (M unit)) : M unit :=
  match calls with [] => mret tt | m :: rest => _ ← m; run_calls rest end.

Lemma calls_obey calls : Forall job_call calls -> obeys (run_calls calls) (fun _ => True).
Proof.
  induction 1 as [|m calls Hm _ IH]; [by apply obeys_ret|]. cbn [run_calls].
  eapply obeys_bind; [by apply job_call_obeys|by intros _ _].
Qed.

(** C10: Whatever happens at the same time, the job table keeps its
    promises. A process makes any calls, from an empty table, while others
    act by the same transactions between any two of its accesses and any
    access may raise. Then no two jobs have the same id, no two queued or
    running jobs the same lock key, and every job that has ended has one
    snapshot in the audit log, which matches its status, its time and the way
    it ended. *)
Theorem terminal_outcome_recorded calls w :
  Forall job_call calls -> honest w -> w_db w = empty_db ->
  let db := w_db (run_calls calls w).2 in
  NoDup (map j_id (db_jobs db)) /\ NoDup (active_locks (db_jobs db)) /\
  forall r, r ∈ db_jobs db -> is_active_job r = false ->
    exists s, List.filter (fun s => String.eqb (ts_event_id s) (_terminal_snapshot_event_id (j_id r))) (db_events db) = [s] /\
      ts_assurance s = "terminal_commit" /\ _terminal_snapshot_matches r s = true.
Proof.
  intros Hc Hw Hdb db. destruct (calls_obey calls Hc w Hw) as (Hs & _ & _). rewrite Hdb in Hs.
  apply steps_recorded in Hs; [|apply empty_recorded]. fold db in Hs. destruct Hs as [Hi He Ht].
  apply index_spec in Hi as [Hi Hl]. split; [done|]. split; [done|]. intros r Hr Ha.
  destruct (Ht r Hr Ha) as (s & Hin & Hid & Has & Hm). exists s. split; [|done]. rewrite <- Hid. clear -He Hin.
  by apply filter_unique.
Qed.
End Invariant.
