(* ===== verification/JobLocks.v ===== *)
(** * Locks and leases of jobs

    What creation and cleanup do when no other process acts between the
    accesses of the call: which jobs expire, who gets a lock, and that a lease
    that has run out frees it. *)
From stdpp Require Import base list strings pretty sorting relations.
From Stdlib Require Import ZArith Lia Ascii.
From S2P Require Import Prelude PyStr PyVal PyState PyTime Jobs JobInvariant.

Open Scope string_scope.
Open Scope Z_scope.
Open Scope list_scope.

(** ** Undisturbed calls *)

Definition undisturbed (w : world) : Prop := Forall (fun t => forall db, t_others t db = db) (w_turns w).

Lemma turn_undisturbed w : undisturbed w ->
  (take_turn w).1.2 = w_db w /\ forall db, undisturbed (World db (take_turn w).2).
Proof.
  unfold undisturbed, take_turn. intros Hw. destruct (w_turns w) as [|t rest]; [by split|].
  inversion Hw as [|? ? Ht Hrest]; subst. split; [apply Ht|by intros].
Qed.

Lemma forall2_impl_elem {A B} (P Q : A -> B -> Prop) l k :
  Forall2 P l k -> (forall x y, x ∈ l -> P x y -> Q x y) -> Forall2 Q l k.
Proof.
  induction 1 as [|x y l k Hxy _ IH]; intros HPQ; constructor.
  - apply HPQ; [by apply elem_of_cons; left|done].
  - apply IH. intros x' y' Hx. apply HPQ. by apply elem_of_cons; right.
Qed.

Section Locks.
Context `{JobSettings} `{TerminalIds}.

(** ** Which jobs expire *)

(** A row of [rows] is among the stale ones and fails, or stays. *)
Definition expires (stale_rows : list job_row) (r r' : job_row) : Prop :=
  ((r ∈ stale_rows) /\ exists now, r' = expired_row now r) \/ ((r ∉ stale_rows) /\ r' = r).

Lemma other_row s rows r : NoDup (map j_id rows) -> s ∈ rows -> r ∈ rows -> j_id r = j_id s -> r = s.
Proof.
  intros Hn Hs Hr E. pose proof (find_job_unique _ _ _ Hn Hs eq_refl) as H1.
  pose proof (find_job_unique _ _ _ Hn Hr E) as H2. congruence.
Qed.

Lemma still_stale_self cutoff s : stale cutoff s = true -> still_stale cutoff s s = true.
Proof.
  unfold stale, still_stale, has_id, has_status. intros [_ ->]%andb_prop. by rewrite String.eqb_refl, bool_decide_true.
Qed.

Lemma still_stale_only cutoff s rows r : NoDup (map j_id rows) -> s ∈ rows -> r ∈ rows ->
  still_stale cutoff s r = true -> r = s.
Proof.
  intros Hn Hs Hr [[Hid _]%andb_prop _]%andb_prop. apply String.eqb_eq in Hid. by apply other_row with rows.
Qed.

(** One row of the loop: only the stale row itself changes. *)
Lemma expire_one cutoff now s rows : NoDup (map j_id rows) -> s ∈ rows -> stale cutoff s = true ->
  existsb (still_stale cutoff s) rows = true /\
  find_job (j_id s) (update_where (still_stale cutoff s) (expired_row now) rows) = Some (expired_row now s) /\
  Forall2 (expires [s]) rows (update_where (still_stale cutoff s) (expired_row now) rows).
Proof.
  intros Hn Hs Hst. pose proof (still_stale_self cutoff s Hst) as Hself. split.
  { apply existsb_exists. exists s. split; [by apply list_elem_of_In|done]. }
  split.
  - apply find_job_unique; [by rewrite (update_ids _ _ _ (expired_keeps now))| |done].
    apply list_elem_of_fmap. exists s. by rewrite Hself.
  - unfold update_where. apply Forall2_fmap_r, Forall_Forall2_diag, Forall_forall. intros r Hr. cbn [compose].
    destruct (still_stale cutoff s r) eqn:E.
    + left. rewrite (still_stale_only cutoff s rows r) by done. split; [by apply list_elem_of_singleton|by exists now].
    + right. split; [|done]. intros ->%list_elem_of_singleton. congruence.
Qed.

Lemma expires_stay s rows rows1 r : Forall2 (expires [s]) rows rows1 -> r ∈ rows -> r <> s -> r ∈ rows1.
Proof.
  induction 1 as [|r0 r1 rows rows1 He _ IH]; intros Hr Hne; [by apply elem_of_nil in Hr|].
  apply elem_of_cons in Hr as [->|Hr]; [|apply elem_of_cons; right; by apply IH].
  destruct He as [[->%list_elem_of_singleton _]|[_ ->]]; [done|]. by apply elem_of_cons; left.
Qed.

Lemma expired_not_stale cutoff now r : stale cutoff (expired_row now r) = false.
Proof. done. Qed.

Lemma expires_compose cutoff s rest rows rows1 rows2 :
  s ∉ rest -> Forall (fun r => stale cutoff r = true) rest ->
  Forall2 (expires [s]) rows rows1 -> Forall2 (expires rest) rows1 rows2 -> Forall2 (expires (s :: rest)) rows rows2.
Proof.
  intros Hs Hst H1. revert rows2. induction H1 as [|r r1 rows rows1 He _ IH]; intros rows2 H2;
    inversion H2 as [|? r2 ? rows2' He2 H2']; subst; constructor; [|by apply IH].
  rewrite Forall_forall in Hst.
  destruct He as [[->%list_elem_of_singleton [now ->]]|[Hn ->]].
  - left. split; [by apply elem_of_cons; left|]. destruct He2 as [[Hin _]|[_ ->]]; [|by eexists].
    by specialize (Hst _ Hin).
  - destruct He2 as [[Hin He2]|[Hnin ->]]; [left; split; [by apply elem_of_cons; right|done]|].
    right. split; [|done]. rewrite elem_of_cons. intros [->|]; [|done]. by apply Hn, list_elem_of_singleton.
Qed.

(** The state that the loop needs: the stale rows are rows of the table, once each. *)
Definition picked (cutoff : string) (stale_rows rows : list job_row) : Prop :=
  NoDup (map j_id rows) /\ NoDup stale_rows /\ forall s, s ∈ stale_rows -> s ∈ rows /\ stale cutoff s = true.

Lemma picked_next cutoff s rest rows now : picked cutoff (s :: rest) rows ->
  picked cutoff rest (update_where (still_stale cutoff s) (expired_row now) rows).
Proof.
  intros (Hn & Hd & Hin). inversion Hd as [|? ? Hnot Hd']; subst. split; [by rewrite (update_ids _ _ _ (expired_keeps now))|].
  split; [done|]. intros r Hr. destruct (Hin r) as [Hrow Hst]; [by apply elem_of_cons; right|]. split; [|done].
  destruct (Hin s) as [Hs Hss]; [by apply elem_of_cons; left|].
  destruct (expire_one cutoff now s rows Hn Hs Hss) as (_ & _ & Hf). eapply expires_stay; [exact Hf|done|]. by intros ->.
Qed.

Lemma expire_exact cutoff clock stale_rows : forall i db moved db',
  picked cutoff stale_rows (db_jobs db) -> expire_rows cutoff clock i stale_rows db = Some (moved, db') ->
  Forall2 (expires stale_rows) (db_jobs db) (db_jobs db').
Proof.
  induction stale_rows as [|s rest IH]; intros i db moved db' Hp E; cbn [expire_rows] in E.
  { injection E as <- <-. apply Forall_Forall2_diag, Forall_forall. intros r _. right. split; [|done]. apply not_elem_of_nil. }
  pose proof (picked_next _ _ _ _ (sql_timestamp (clock i)) Hp) as Hp'. destruct Hp as (Hn & Hd & Hin).
  destruct (Hin s) as [Hs Hst]; [by apply elem_of_cons; left|].
  destruct (expire_one cutoff (sql_timestamp (clock i)) s _ Hn Hs Hst) as (Hex & Hfind & Hone).
  rewrite Hex in E. cbn [negb] in E. rewrite Hfind in E. cbn [mbind option_bind] in E.
  destruct (_write_terminal_snapshot _ _ _ _ _) as [events|]; [|done]. cbn [mbind option_bind] in E.
  destruct (expire_rows _ _ _ rest _) as [[more db1]|] eqn:Er; [|done]. injection E as _ <-.
  inversion Hd as [|? ? Hnot Hd']; subst. eapply expires_compose; [exact Hnot| |exact Hone|].
  - apply Forall_forall. intros r Hr. apply Hin. by apply elem_of_cons; right.
  - apply (IH _ (JobDb _ events) _ _ Hp' Er).
Qed.

Lemma picked_all cutoff rows : NoDup (map j_id rows) ->
  picked cutoff (sort_by updated_leb (List.filter (stale cutoff) rows)) rows.
Proof.
  intros Hn. assert (Hd : NoDup rows) by (by eapply NoDup_fmap_1). split; [done|]. split.
  - rewrite sort_by_perm. clear Hn. induction Hd as [|r rows Hnot Hd IH]; [constructor|]. cbn [List.filter].
    destruct (stale cutoff r); [|done]. constructor; [|done]. intros [Hr _]%list_elem_of_In%filter_In.
    by apply Hnot, list_elem_of_In.
  - intros s [Hs Hst]%elem_of_sort_by%list_elem_of_In%filter_In. split; [by apply list_elem_of_In|done].
Qed.
(** ** Cleanup *)

Definition first_clock (w : world) : Z := t_clock (take_turn w).1.1 0%nat.

Definition stale_rows_of (cutoff : string) (rows : list job_row) : list job_row :=
  sort_by updated_leb (List.filter (stale cutoff) rows).

Lemma now_undisturbed w : undisturbed w ->
  exists w1, utc_now w = (Some (first_clock w), w1) /\ w_db w1 = w_db w /\ undisturbed w1.
Proof.
  intros Hw. unfold utc_now, first_clock. destruct (turn_undisturbed w Hw) as [Hd Hu].
  destruct (take_turn w) as [[t db] rest]. cbn [fst snd] in *. subst db. by eexists.
Qed.

(** A transaction raises and leaves the database, or does what its body says. *)
Lemma tx_undisturbed {A} (body : (nat -> Z) -> job_db -> option (A * job_db)) w : undisturbed w ->
  exists w1, undisturbed w1 /\
    ((db_tx body w = (None, w1) /\ w_db w1 = w_db w) \/
     exists a clock, db_tx body w = (Some a, w1) /\ body clock (w_db w) = Some (a, w_db w1)).
Proof.
  intros Hw. unfold db_tx. destruct (turn_undisturbed w Hw) as [Hd Hu].
  destruct (take_turn w) as [[t db] rest]. cbn [fst snd] in *. subst db.
  destruct (if t_ok t then _ else None) as [[a db']|] eqn:E.
  - eexists. split; [apply Hu|]. right. destruct (t_ok t); [|done]. exists a, (t_clock t). by split.
  - eexists. split; [apply Hu|]. by left.
Qed.

Lemma read_undisturbed {A} (f : job_db -> A) w : undisturbed w ->
  exists w1, undisturbed w1 /\ w_db w1 = w_db w /\
    (db_read f w = (None, w1) \/ db_read f w = (Some (f (w_db w)), w1)).
Proof.
  intros Hw. destruct (tx_undisturbed (fun _ db => Some (f db, db)) w Hw) as (w1 & Hu & [[E Ed]|(a & clock & E & Eb)]);
    exists w1; (split; [done|]).
  - split; [done|by left].
  - injection Eb as <- Ed. split; [done|by right].
Qed.

Lemma expires_none rows : Forall2 (expires []) rows rows.
Proof. apply Forall_Forall2_diag, Forall_forall. intros r _. right. split; [apply not_elem_of_nil|done]. Qed.

(** The rows that a cleanup expired, and which they are when it does not raise. *)
Definition cleaned (after : option Z) (w : world) (r : option (list dict) * world) : Prop :=
  exists stale_rows, Forall2 (expires stale_rows) (db_jobs (w_db w)) (db_jobs (w_db r.2)) /\
    (is_set r.1 = true -> 0 <= default job_stale_timeout_seconds after -> exists cutoff,
       stale_cutoff (first_clock w) (default job_stale_timeout_seconds after) = Some cutoff /\
       stale_rows = stale_rows_of cutoff (db_jobs (w_db w))).

Lemma cleaned_nothing after w w' : w_db w' = w_db w -> cleaned after w (None, w').
Proof. intros Hd. exists []. cbn [fst snd]. rewrite Hd. split; [apply expires_none|done]. Qed.

Lemma cleanup_leaves after w : undisturbed w -> NoDup (map j_id (db_jobs (w_db w))) ->
  let r := cleanup_stale_running_jobs after w in undisturbed r.2 /\ cleaned after w r.
Proof.
  intros Hw Hn. unfold cleanup_stale_running_jobs.
  destruct (Z.ltb_spec (default job_stale_timeout_seconds after) 0) as [Hlt|Hge].
  { split; [done|]. exists []. split; [apply expires_none|]. lia. }
  rewrite bind_unfold. destruct (now_undisturbed w Hw) as (w1 & -> & Hd1 & Hu1).
  rewrite bind_unfold, st_py_eq. destruct (stale_cutoff _ _) as [cutoff|] eqn:Ecut;
    [|split; [done|by apply cleaned_nothing]].
  rewrite bind_unfold. destruct (read_undisturbed (fun db => stale_rows_of cutoff (db_jobs db)) w1 Hu1) as (w2 & Hu2 & Hd2 & Er).
  fold (stale_rows_of cutoff). unfold stale_rows_of in Er |- *.
  destruct Er as [-> | ->]; [split; [done|apply cleaned_nothing; congruence]|].
  fold (stale_rows_of cutoff (db_jobs (w_db w1))). rewrite Hd1 in Hd2 |- *. set (rows := stale_rows_of _ _).
  rewrite bind_unfold. destruct (Nat.eqb_spec (length rows) 0) as [E|].
  - apply length_zero_iff_nil in E. split; [done|]. exists []. cbn [fst snd mret st_ret st_py py_map]. rewrite Hd2.
    split; [apply expires_none|]. intros _ _. exists cutoff. split; [done|]. by rewrite <- E.
  - destruct (tx_undisturbed (fun clock db => expire_rows cutoff clock 0 rows db) w2 Hu2)
      as (w3 & Hu3 & [[-> Hd3]|(moved & clock & -> & Eb)]); [split; [done|apply cleaned_nothing; congruence]|].
    split; [done|]. exists rows. rewrite Hd2 in Eb. cbn [snd].
    split; [by apply (expire_exact _ _ _ _ _ _ _ (picked_all cutoff _ Hn) Eb)|]. intros _ _. by exists cutoff.
Qed.

Lemma expires_ids stale_rows rows rows' : Forall2 (expires stale_rows) rows rows' -> map j_id rows' = map j_id rows.
Proof.
  induction 1 as [|r r' rows rows' He _ IH]; [done|]. cbn [map]. rewrite IH. by destruct He as [[_ [now ->]]|[_ ->]].
Qed.

(** An active row after cleanup was there before. *)
Lemma expires_active stale_rows rows rows' r' : Forall2 (expires stale_rows) rows rows' -> r' ∈ rows' ->
  is_active_job r' = true -> (r' ∈ rows) /\ (r' ∉ stale_rows).
Proof.
  induction 1 as [|r0 r0' rows rows' He _ IH]; intros Hr Ha; [by apply elem_of_nil in Hr|].
  apply elem_of_cons in Hr as [->|Hr]; [|destruct (IH Hr Ha); split; [by apply elem_of_cons; right|done]].
  destruct He as [[_ [now ->]]|[Hn ->]]; [done|]. split; [by apply elem_of_cons; left|done].
Qed.

(** A cleanup fails exactly the jobs whose lease has run out. When
    nobody acts in between and it does not raise, a queued or running job
    whose last update is not after the clock minus the timeout becomes
    failed, with the error and snapshot of its former status; every other
    row stays as it is. *)
Theorem cleanup_exact after w jobs w' :
  undisturbed w -> NoDup (map j_id (db_jobs (w_db w))) -> 0 <= default job_stale_timeout_seconds after ->
  cleanup_stale_running_jobs after w = (Some jobs, w') ->
  exists cutoff, stale_cutoff (first_clock w) (default job_stale_timeout_seconds after) = Some cutoff /\
    Forall2 (fun r r' =>
      if bool_decide (j_status r ∈ [QUEUED; RUNNING]) && py_leb (j_updated r) cutoff then
        j_status r' = FAILED /\ is_set (j_finished r') = true /\
        j_error_code r' = Some (if has_status QUEUED r then "JOB_STALE_QUEUE_TIMEOUT" else "JOB_STALE_TIMEOUT") /\
        (j_id r', j_type r', j_lock r', j_input r', j_result r') = (j_id r, j_type r, j_lock r, j_input r, j_result r)
      else r' = r)
      (db_jobs (w_db w)) (db_jobs (w_db w')).
Proof.
  intros Hw Hn Hge E. destruct (cleanup_leaves after w Hw Hn) as (_ & rows & Hf & Hc). rewrite E in Hf, Hc.
  destruct (Hc eq_refl Hge) as (cutoff & Ecut & ->). exists cutoff. split; [done|].
  eapply forall2_impl_elem; [exact Hf|]. intros r r' Hr He. unfold expires, stale_rows_of in He.
  rewrite elem_of_sort_by in He. change (bool_decide _ && _) with (stale cutoff r).
  assert (Hiff : r ∈ List.filter (stale cutoff) (db_jobs (w_db w)) <-> stale cutoff r = true).
  { rewrite list_elem_of_In, filter_In, <- list_elem_of_In. tauto. }
  destruct He as [[Hin [now ->]]|[Hin ->]]; rewrite Hiff in Hin.
  - by rewrite Hin.
  - by apply not_true_is_false in Hin as ->.
Qed.
End Locks.
