(* ===== verification/JobCreate.v ===== *)
(** * Who gets the lock of a job

    Creation under a lock when nobody acts in between, the end of a lease,
    and what can go wrong when others do act. *)
From stdpp Require Import base list strings pretty sorting relations.
From Stdlib Require Import ZArith Lia Ascii.
From S2P Require Import Prelude PyStr PyVal PyState PyTime Jobs JobInvariant JobLocks.

Open Scope string_scope.
Open Scope Z_scope.
Open Scope list_scope.

Section Create.
Context `{JobSettings} `{TerminalIds}.

(** ** The oldest conflict *)

Definition meets (wanted : list string) (r : job_row) : bool := share_token wanted (_lock_tokens (j_lock r)).

Lemma created_leb_total a b : created_leb a b = true \/ created_leb b a = true.
Proof. apply py_leb_total. Qed.

Lemma created_leb_trans a b c : created_leb a b = true -> created_leb b c = true -> created_leb a c = true.
Proof. apply py_leb_trans. Qed.

Lemma first_conflict_none wanted rows :
  first_conflict wanted rows = Some None -> forall r, r ∈ rows -> meets wanted r = false.
Proof.
  induction rows as [|r rows IH]; intros E r' Hr; [by apply elem_of_nil in Hr|]. cbn [first_conflict] in E.
  destruct (_row_to_job r) as [job|]; [|done]. cbn [mbind option_bind] in E. fold (meets wanted r) in E.
  destruct (meets wanted r) eqn:Em; [done|]. apply elem_of_cons in Hr as [->|Hr]; [done|by apply IH].
Qed.

Lemma first_conflict_some wanted rows job :
  StronglySorted (fun a b => created_leb a b = true) rows -> first_conflict wanted rows = Some (Some job) ->
  exists owner, owner ∈ rows /\ meets wanted owner = true /\ _row_to_job owner = Some job /\
    forall r, r ∈ rows -> meets wanted r = true -> created_leb owner r = true.
Proof.
  induction 1 as [|r rows Hs IH Hall]; intros E; [done|]. cbn [first_conflict] in E.
  destruct (_row_to_job r) as [job'|] eqn:Ej; [|done]. cbn [mbind option_bind] in E. fold (meets wanted r) in E.
  destruct (meets wanted r) eqn:Em.
  - injection E as ->. exists r. split; [by apply elem_of_cons; left|]. split; [done|]. split; [done|].
    rewrite Forall_forall in Hall. intros r' [->|Hr]%elem_of_cons _; [|by apply Hall].
    by destruct (created_leb_total r r).
  - destruct (IH E) as (owner & Ho & Hm & Hj & Hleast). exists owner. split; [by apply elem_of_cons; right|].
    split; [done|]. split; [done|]. intros r' [->|Hr]%elem_of_cons Hm'; [congruence|by apply Hleast].
Qed.

(** The rows among which a conflict is sought. *)
Definition contender (excluded : option string) (r : job_row) : bool := is_active_job r && not_excluded excluded r.

Definition oldest (wanted : list string) (excluded : option string) (rows : list job_row) (owner : job_row) : Prop :=
  owner ∈ rows /\ contender excluded owner = true /\ meets wanted owner = true /\
  forall r, r ∈ rows -> contender excluded r = true -> meets wanted r = true -> created_leb owner r = true.

Definition conflict_found (key : string) (excluded : option string) (rows : list job_row) (found : option dict) : Prop :=
  let wanted := _lock_tokens (Some key) in
  match found with
  | None => forall r, r ∈ rows -> contender excluded r = true -> meets wanted r = false
  | Some job => exists owner, oldest wanted excluded rows owner /\ _row_to_job owner = Some job
  end.

Lemma no_tokens_meet r : meets [] r = false.
Proof. done. Qed.

Lemma conflict_exact key excluded rows found :
  first_conflict (_lock_tokens (Some key)) (sort_by created_leb (List.filter (contender excluded) rows)) = Some found ->
  conflict_found key excluded rows found.
Proof.
  assert (Hin : forall r, r ∈ sort_by created_leb (List.filter (contender excluded) rows)
                     <-> r ∈ rows /\ contender excluded r = true).
  { intros r. rewrite elem_of_sort_by, list_elem_of_In, filter_In, <- list_elem_of_In. done. }
  destruct found as [job|]; intros E.
  - apply first_conflict_some in E as (owner & Ho & Hm & Hj & Hleast);
      [|apply sort_by_sorted; [apply created_leb_total|apply created_leb_trans]].
    exists owner. split; [|done]. apply Hin in Ho as [Ho Hc]. split; [done|]. split; [done|]. split; [done|].
    intros r Hr Hcr. apply Hleast. by apply Hin.
  - intros r Hr Hc. apply (first_conflict_none _ _ E). by apply Hin.
Qed.

(** A call only lets jobs expire. *)
Definition expired_only (w w' : world) : Prop :=
  undisturbed w' /\ map j_id (db_jobs (w_db w')) = map j_id (db_jobs (w_db w)) /\
  forall r, r ∈ db_jobs (w_db w') -> is_active_job r = true -> r ∈ db_jobs (w_db w).

Lemma expired_only_refl w w' : undisturbed w' -> w_db w' = w_db w -> expired_only w w'.
Proof. intros Hu E. split; [done|]. rewrite E. split; [done|auto]. Qed.

Lemma expired_only_trans w w1 w2 : expired_only w w1 -> expired_only w1 w2 -> expired_only w w2.
Proof.
  intros (_ & Hi & Ha) (Hu & Hi' & Ha'). split; [done|]. split; [congruence|]. intros r Hr Hra. by apply Ha, Hra; apply Ha'.
Qed.

Lemma expires_only stale_rows w w' : undisturbed w' ->
  Forall2 (expires stale_rows) (db_jobs (w_db w)) (db_jobs (w_db w')) -> expired_only w w'.
Proof.
  intros Hu Hf. split; [done|]. split; [by eapply expires_ids|]. intros r Hr Ha. by eapply expires_active.
Qed.

Lemma cleanup_only after w : undisturbed w -> NoDup (map j_id (db_jobs (w_db w))) ->
  expired_only w (cleanup_stale_running_jobs after w).2.
Proof. intros Hw Hn. destruct (cleanup_leaves after w Hw Hn) as (Hu & rows & Hf & _). by eapply expires_only. Qed.

Lemma conflict_spec key excluded w : undisturbed w -> NoDup (map j_id (db_jobs (w_db w))) ->
  let r := find_active_lock_conflict key excluded w in
  expired_only w r.2 /\ forall found, r.1 = Some found -> conflict_found key excluded (db_jobs (w_db r.2)) found.
Proof.
  intros Hw Hn. unfold find_active_lock_conflict. destruct (Nat.eqb_spec (length (_lock_tokens (Some key))) 0) as [E|].
  { apply length_zero_iff_nil in E. split; [by apply expired_only_refl|]. intros found [= <-] r _ _.
    unfold conflict_found. by rewrite E. }
  rewrite bind_unfold. pose proof (cleanup_only None w Hw Hn) as Hc.
  destruct (cleanup_stale_running_jobs None w) as [[jobs|] w1]; cbn [snd] in Hc; [|done].
  rewrite bind_unfold. destruct (read_undisturbed (fun db => sort_by created_leb (List.filter (contender excluded) (db_jobs db))) w1)
    as (w2 & Hu2 & Hd2 & Er); [apply Hc|]. unfold contender in Er.
  assert (H2 : expired_only w w2) by (eapply expired_only_trans; [exact Hc|by apply expired_only_refl]).
  destruct Er as [-> | ->]; [done|]. rewrite st_py_eq. split; [done|]. cbn [fst snd]. rewrite Hd2. intros found.
  apply conflict_exact.
Qed.

Lemma job_dict_id r job : _row_to_job r = Some job -> dget "job_id" job = VStr (j_id r).
Proof.
  unfold _row_to_job. intros E. destruct (_json_loads (j_input r)) as [input|]; [|done].
  destruct (_json_loads (j_context r)) as [context|]; [|done].
  destruct (_json_loads (j_result r)) as [result|]; [|done]. by injection E as <-.
Qed.

Lemma job_dict_status r job : _row_to_job r = Some job -> dget "status" job = VStr (status_text (j_status r)).
Proof.
  unfold _row_to_job. intros E. destruct (_json_loads (j_input r)) as [input|]; [|done].
  destruct (_json_loads (j_context r)) as [context|]; [|done].
  destruct (_json_loads (j_result r)) as [result|]; [|done]. by injection E as <-.
Qed.

Lemma lease_owner key r job : _row_to_job r = Some job -> owner_of (lease_of key job) = j_id r.
Proof. intros Hj. unfold owner_of. change (dget "owner_job_id" _) with (dget "job_id" job). by rewrite (job_dict_id r job Hj). Qed.

(** What the check before the INSERT finds. *)
Definition held_found (key : string) (rows : list job_row) (found : option create_outcome) : Prop :=
  match found with
  | None => conflict_found key None rows None
  | Some (LockConflict k job) => k = key /\ conflict_found key None rows (Some job)
  | Some (Created _) => False
  end.

Lemma held_spec key w : undisturbed w -> NoDup (map j_id (db_jobs (w_db w))) ->
  let r := held_lock (Some key) w in
  expired_only w r.2 /\ forall found, r.1 = Some found -> held_found key (db_jobs (w_db r.2)) found.
Proof.
  intros Hw Hn. unfold held_lock, get_active_lock_lease. rewrite bind_unfold, bind_unfold.
  destruct (conflict_spec key None w Hw Hn) as [Hc Hf].
  destruct (find_active_lock_conflict key None w) as [[active|] w1]; cbn [fst snd] in Hc, Hf; [|done].
  specialize (Hf active eq_refl). cbn [mret st_ret]. destruct active as [job|]; cbn [option_map].
  - destruct Hf as (owner & Ho & Hj). destruct Hc as (Hu & Hids & Hact). rewrite bind_unfold. unfold get_job_without_cleanup.
    rewrite bind_unfold, (lease_owner key owner job Hj).
    destruct (read_undisturbed (fun db => find_job (j_id owner) (db_jobs db)) w1 Hu) as (w2 & Hu2 & Hd2 & Er).
    assert (H2 : expired_only w w2) by (by split; [|rewrite Hd2]).
    destruct Er as [-> | ->]; [done|]. rewrite st_py_eq.
    rewrite (find_job_unique (j_id owner) owner); [|by rewrite Hids|apply Ho|done]. cbn [row_or_none mbind option_bind].
    rewrite Hj. cbn [mbind option_bind mret st_ret default from_option fst snd]. split; [done|]. intros found [= <-].
    split; [done|]. rewrite Hd2. by exists owner.
  - split; [done|]. by intros found [= <-].
Qed.

(** ** Creation *)

(** No two active jobs share a token of their locks. *)
Definition exclusive (rows : list job_row) : Prop := forall r r',
  r ∈ rows -> r' ∈ rows -> is_active_job r = true -> is_active_job r' = true -> j_id r <> j_id r' ->
  meets (_lock_tokens (j_lock r)) r' = false.

Lemma meets_sym r r' : meets (_lock_tokens (j_lock r)) r' = meets (_lock_tokens (j_lock r')) r.
Proof.
  assert (Himp : forall a b, share_token a b = true -> share_token b a = true).
  { intros a b (x & Hx & Hb)%existsb_exists. apply bool_decide_eq_true in Hb. apply existsb_exists. exists x.
    split; [by apply list_elem_of_In|]. by apply bool_decide_eq_true, list_elem_of_In. }
  unfold meets. destruct (share_token _ _) eqn:E; symmetry; [by apply Himp|]. apply not_true_is_false. intros E'.
  apply Himp in E'. congruence.
Qed.

Lemma exclusive_fewer w w' : expired_only w w' -> exclusive (db_jobs (w_db w)) -> exclusive (db_jobs (w_db w')).
Proof. intros (_ & _ & Ha) He r r' Hr Hr' Hra Hra'. apply He; [by apply Ha|by apply Ha|done|done]. Qed.

Lemma exclusive_insert rows new : exclusive rows ->
  (forall r, r ∈ rows -> is_active_job r = true -> meets (_lock_tokens (j_lock new)) r = false) -> exclusive (rows ++ [new]).
Proof.
  intros He Hn r r' [Hr| ->%list_elem_of_singleton]%elem_of_app [Hr'| ->%list_elem_of_singleton]%elem_of_app Ha Ha' Hne;
    [by apply He|rewrite meets_sym; by apply Hn|by apply Hn|done].
Qed.

Lemma unnamed_lock lock : named_lock lock = None -> _lock_tokens lock = [].
Proof. destruct lock as [key|]; [|done]. cbn [named_lock]. by destruct (String.eqb_spec key "") as [->|]. Qed.

Lemma named_is lock key : named_lock lock = Some key -> lock = Some key.
Proof. destruct lock as [k|]; [|done]. cbn [named_lock]. destruct (String.eqb k ""); [done|by intros [= ->]]. Qed.

Definition creation (id : string) (lock : option string) (rows : list job_row) (outcome : option create_outcome) : Prop :=
  match outcome with
  | Some (Created job) => exists new,
      find_job id rows = Some new /\ _row_to_job new = Some job /\ j_status new = QUEUED /\ j_lock new = lock /\
      forall r, r ∈ rows -> is_active_job r = true -> j_id r <> id -> meets (_lock_tokens lock) r = false
  | Some (LockConflict key job) => lock = Some key /\ exists owner,
      oldest (_lock_tokens lock) None rows owner /\ _row_to_job owner = Some job
  | None => True
  end.

(** The transaction of the INSERT, after the check found nothing. *)
Lemma insert_spec row id lock w :
  (forall now, j_id (row now) = id /\ j_status (row now) = QUEUED /\ j_lock (row now) = lock) ->
  undisturbed w -> (forall r, r ∈ db_jobs (w_db w) -> is_active_job r = true -> meets (_lock_tokens lock) r = false) ->
  let r := db_tx (fun clock db => Some (insert_job row clock db)) w in
  undisturbed r.2 /\ (exclusive (db_jobs (w_db w)) -> exclusive (db_jobs (w_db r.2))) /\
  match r.1 with
  | Some (Some new) => find_job id (db_jobs (w_db r.2)) = Some new /\ j_status new = QUEUED /\ j_lock new = lock /\
      forall r', r' ∈ db_jobs (w_db r.2) -> is_active_job r' = true -> j_id r' <> id -> meets (_lock_tokens lock) r' = false
  | _ => w_db r.2 = w_db w
  end.
Proof.
  intros Hrow Hw Hfree. destruct (tx_undisturbed (fun clock db => Some (insert_job row clock db)) w Hw)
    as (w1 & Hu & [[-> Hd]|(a & clock & -> & E)]); cbn [fst snd]; (split; [done|]); [by rewrite Hd|].
  injection E as E. unfold insert_job in E. destruct (checked _) as [db'|] eqn:Ec; injection E as <- E; [|by rewrite <- E].
  rewrite <- E. clear E. apply checked_inv in Ec as [-> Hi]. cbn [db_jobs] in *.
  destruct (Hrow (sql_timestamp (clock 0%nat))) as (Hid & Hst & Hl). set (new := row _) in *.
  apply index_spec in Hi as [Hi _]. split; [intros Hex; by apply exclusive_insert; [|rewrite Hl]|].
  split; [apply find_job_unique; [done|apply elem_of_app; right; by apply list_elem_of_singleton|done]|].
  split; [done|]. split; [done|]. intros r' [Hr'| ->%list_elem_of_singleton]%elem_of_app Ha Hne; [by apply Hfree|done].
Qed.

Lemma creation_kept id lock w w' outcome :
  creation id lock (db_jobs (w_db w)) outcome -> w_db w' = w_db w -> creation id lock (db_jobs (w_db w')) outcome.
Proof. by intros Hc ->. Qed.

(** What the first check leaves for the INSERT. *)
Lemma held_free lock w : undisturbed w -> NoDup (map j_id (db_jobs (w_db w))) ->
  let r := held_lock (named_lock lock) w in
  expired_only w r.2 /\
  match r.1 with
  | Some (Some (LockConflict key job)) => lock = Some key /\ conflict_found key None (db_jobs (w_db r.2)) (Some job)
  | Some (Some (Created _)) => False
  | Some None => forall r', r' ∈ db_jobs (w_db r.2) -> is_active_job r' = true -> meets (_lock_tokens lock) r' = false
  | None => True
  end.
Proof.
  intros Hw Hn. destruct (named_lock lock) as [key|] eqn:En.
  - apply named_is in En as ->. destruct (held_spec key w Hw Hn) as [Hx Hf]. split; [exact Hx|].
    destruct (held_lock _ w) as [[[[job|k job]|]|] w1]; cbn [fst snd] in *; [by apply (Hf _ eq_refl)| | |done].
    + destruct (Hf _ eq_refl) as [-> Hc]. by split.
    + intros r' Hr Ha. apply (Hf _ eq_refl); [done|]. unfold contender. by rewrite Ha.
  - split; [by apply expired_only_refl|]. cbn [held_lock mret st_ret fst snd]. intros r' _ _. by rewrite unnamed_lock.
Qed.

(** C11: Creation hands out a lock only when no active job shares one of its
    tokens. When nobody acts in between, the new job is queued under the
    lock and every other active job has disjoint tokens, or the call names
    the oldest active job that shares a token; jobs with disjoint tokens stay
    so, whether the call returns or raises. *)
Theorem create_respects_locks id type lock by_ input dir context w :
  undisturbed w -> NoDup (map j_id (db_jobs (w_db w))) ->
  let r := create_job id type lock by_ input dir context w in
  (exclusive (db_jobs (w_db w)) -> exclusive (db_jobs (w_db r.2))) /\ creation id lock (db_jobs (w_db r.2)) r.1.
Proof.
  intros Hw Hn. unfold create_job. rewrite bind_unfold. pose proof (cleanup_only None w Hw Hn) as Hx.
  destruct (cleanup_stale_running_jobs None w) as [[jobs|] w1]; cbn [fst snd] in *;
    [|split; [by eapply exclusive_fewer|done]].
  rewrite bind_unfold. destruct Hx as (Hu1 & Hi1 & Ha1). assert (Hn1 := Hn). rewrite <- Hi1 in Hn1.
  destruct (held_free lock w1 Hu1 Hn1) as [Hx2 Hf].
  assert (Hex : exclusive (db_jobs (w_db w)) -> exclusive (db_jobs (w_db (held_lock (named_lock lock) w1).2))).
  { eapply exclusive_fewer, expired_only_trans; [|exact Hx2]. by split. }
  destruct (held_lock _ w1) as [[[[job|key job]|]|] w2]; cbn [fst snd] in *; [done| | |done].
  { destruct Hf as [-> Hf]. split; [exact Hex|]. split; [done|]. exact Hf. }
  rewrite bind_unfold. destruct Hx2 as (Hu2 & Hi2 & Ha2). assert (Hn2 := Hn1). rewrite <- Hi2 in Hn2.
  destruct (insert_spec (new_job id type lock by_ input dir context) id lock w2) as (Hu3 & Hex3 & Hc); [done..|].
  destruct (db_tx _ w2) as [[[new|]|] w3]; cbn [fst snd] in *; [| |by split; [auto|]].
  - rewrite bind_unfold, st_py_eq. destruct (_row_to_job new) as [job|] eqn:Ej; [|by split; [auto|]].
    split; [by auto|]. exists new. by destruct Hc as (Hc1 & Hc2 & Hc3 & Hc4).
  - assert (Hn3 : NoDup (map j_id (db_jobs (w_db w3)))) by (by rewrite Hc).
    destruct (named_lock lock) as [key|] eqn:En; [|by split; [auto|]]. apply named_is in En as ->.
    rewrite bind_unfold. destruct (conflict_spec key None w3 Hu3 Hn3) as [Hx4 Hf4].
    assert (Hex4 : exclusive (db_jobs (w_db w)) -> exclusive (db_jobs (w_db (find_active_lock_conflict key None w3).2))).
    { intros He. eapply exclusive_fewer; [exact Hx4|]. auto. }
    destruct (find_active_lock_conflict key None w3) as [[[job|]|] w4]; cbn [fst snd] in *; [|done|done].
    split; [exact Hex4|]. split; [done|]. exact (Hf4 _ eq_refl).
Qed.
End Create.
