(* ===== verification/JobLease.v ===== *)
(** * The end of a lease

    A lock is not held for ever: when the jobs that hold it have run out,
    the next creation expires them and gets the lock. *)
From stdpp Require Import base list strings pretty sorting relations.
From Stdlib Require Import ZArith Lia Ascii.
From S2P Require Import Prelude PyStr PyVal PyState PyTime Jobs JobInvariant JobLocks JobCreate.

Open Scope string_scope.
Open Scope Z_scope.
Open Scope list_scope.

Section Lease.
Context `{JobSettings} `{TerminalIds}.

(** ** A steady world *)

(** Nobody acts in between, no access raises, and every clock has a cutoff. *)
Definition steady_turn (t : turn) : Prop :=
  (forall db, t_others t db = db) /\ t_ok t = true /\ is_Some (stale_cutoff (t_clock t 0%nat) job_stale_timeout_seconds).

Definition steady (w : world) : Prop := Forall steady_turn (quiet :: w_turns w).

Lemma take_steady w : steady w ->
  steady_turn (take_turn w).1.1 /\ (take_turn w).1.2 = w_db w /\ forall db, steady (World db (take_turn w).2).
Proof.
  unfold steady, take_turn. intros Hw. inversion Hw as [|? ? Hq Ht]; subst. destruct (w_turns w) as [|t rest]; [by split|].
  inversion Ht as [|? ? Ht1 Hrest]; subst. split; [done|]. split; [apply Ht1|by constructor].
Qed.

Lemma steady_undisturbed w : steady w -> undisturbed w.
Proof.
  unfold steady, undisturbed. intros Hw. inversion Hw as [|? ? _ Ht]; subst. eapply Forall_impl; [exact Ht|].
  by intros t (Ho & _).
Qed.

Lemma now_steady w : steady w -> exists w1, utc_now w = (Some (first_clock w), w1) /\ w_db w1 = w_db w /\ steady w1.
Proof.
  intros Hw. unfold utc_now, first_clock. destruct (take_steady w Hw) as (_ & Hd & Hs).
  destruct (take_turn w) as [[t db] rest]. cbn [fst snd] in *. subst db. by eexists.
Qed.

Lemma cutoff_steady w : steady w -> is_Some (stale_cutoff (first_clock w) job_stale_timeout_seconds).
Proof. intros Hw. by destruct (take_steady w Hw) as ((_ & _ & Hc) & _). Qed.

(** A transaction whose body returns, returns. *)
Lemma tx_steady {A} (body : (nat -> Z) -> job_db -> option (A * job_db)) (Q : A -> job_db -> Prop) w : steady w ->
  (forall clock, exists a db', body clock (w_db w) = Some (a, db') /\ Q a db') ->
  exists a w1, db_tx body w = (Some a, w1) /\ steady w1 /\ Q a (w_db w1).
Proof.
  intros Hw Hb. unfold db_tx. destruct (take_steady w Hw) as ((_ & Hok & _) & Hd & Hs).
  destruct (take_turn w) as [[t db] rest]. cbn [fst snd] in *. subst db. rewrite Hok.
  destruct (Hb (t_clock t)) as (a & db' & -> & HQ). exists a, (World db' rest). auto.
Qed.

Lemma read_steady {A} (f : job_db -> A) w : steady w ->
  exists w1, db_read f w = (Some (f (w_db w)), w1) /\ steady w1 /\ w_db w1 = w_db w.
Proof.
  intros Hw. destruct (tx_steady (fun _ db => Some (f db, db)) (fun a db => a = f (w_db w) /\ db = w_db w) w Hw)
    as (a & w1 & E & Hs & -> & Hd); [by intros; eexists _, _|]. exists w1. by unfold db_read; rewrite E.
Qed.

(** ** A healthy table *)

Definition expirable (events : list snapshot) (r : job_row) : Prop :=
  canonical_uuid (j_id r) = true /\ (_terminal_snapshot_event_id (j_id r) ∉ map ts_event_id events).

(** The constraints hold, every row can be read, and no active job has a snapshot. *)
Record healthy (db : job_db) : Prop := Healthy {
  he_index : index_ok (db_jobs db) = true;
  he_rows : forall r, r ∈ db_jobs db -> is_Some (_row_to_job r);
  he_active : forall r, r ∈ db_jobs db -> is_active_job r = true -> expirable (db_events db) r;
}.

Lemma healthy_ids db : healthy db -> NoDup (map j_id (db_jobs db)).
Proof. intros [Hi _ _]. by apply index_spec in Hi as [? _]. Qed.

Lemma readable_context r : is_Some (_row_to_job r) -> is_Some (_json_loads (j_context r)).
Proof.
  unfold _row_to_job. intros [job E]. destruct (_json_loads (j_input r)); [|done].
  by destruct (_json_loads (j_context r)).
Qed.

Lemma expired_readable now r : is_Some (_row_to_job r) -> is_Some (_row_to_job (expired_row now r)).
Proof.
  intros Hr. unfold _row_to_job, expired_row in *. cbn [j_input j_context j_result] in *.
  destruct Hr as [job E]. destruct (_json_loads (j_input r)); [|done]. destruct (_json_loads (j_context r)); [|done].
  destruct (_json_loads (j_result r)); [|done]. by eexists.
Qed.

(** The snapshot of a stale job can be written. *)
Lemma snapshot_written events now s : expirable events s -> is_Some (_row_to_job s) ->
  exists snap, _write_terminal_snapshot events (expired_row now s) (stale_classification s) "terminal_commit" true
    = Some (events ++ [snap]) /\ ts_event_id snap = _terminal_snapshot_event_id (j_id s).
Proof.
  intros [Hu He] Hr. apply readable_context in Hr as [context Hc]. unfold _write_terminal_snapshot, expired_row.
  cbn [j_id j_context]. rewrite Hu, Hc. cbn [negb]. rewrite (bool_decide_false _ He).
  unfold stale_classification. destruct (has_status QUEUED s); by eexists.
Qed.

Context `{!Inj (=) (=) _terminal_snapshot_event_id}.

(** One job expires in a healthy table. *)
Lemma expire_healthy cutoff now s snap db : healthy db -> s ∈ db_jobs db -> stale cutoff s = true ->
  ts_event_id snap = _terminal_snapshot_event_id (j_id s) ->
  healthy (JobDb (update_where (still_stale cutoff s) (expired_row now) (db_jobs db)) (db_events db ++ [snap])).
Proof.
  intros Hh Hs Hst Hsnap. pose proof (healthy_ids db Hh) as Hn. destruct Hh as [Hi Hr Ha].
  split; cbn [db_jobs db_events].
  - apply index_update; [apply expired_keeps|done].
  - intros r [[Hin _]|(r0 & Hin & _ & ->)]%elem_of_update; [by apply Hr|by apply expired_readable, Hr].
  - intros r [[Hin Hp]|(r0 & Hin & _ & ->)]%elem_of_update Hra; [|done]. destruct (Ha r Hin Hra) as [Hu He].
    split; [done|]. rewrite map_app, elem_of_app. intros [?|E%list_elem_of_singleton]; [done|].
    cbn [ts_event_id] in E. rewrite Hsnap in E. apply (inj _) in E. assert (r = s) by (by eapply other_row).
    subst r. by rewrite still_stale_self in Hp.
Qed.

Lemma expire_total cutoff clock stale_rows : forall i db,
  picked cutoff stale_rows (db_jobs db) -> healthy db ->
  exists moved db', expire_rows cutoff clock i stale_rows db = Some (moved, db') /\ healthy db' /\
    Forall (fun r => is_Some (_row_to_job r)) moved.
Proof.
  induction stale_rows as [|s rest IH]; intros i db Hp Hh; cbn [expire_rows]; [by eexists _, _|].
  pose proof (picked_next _ _ _ _ (sql_timestamp (clock i)) Hp) as Hp'. destruct Hp as (Hn & Hd & Hin).
  destruct (Hin s) as [Hs Hst]; [by apply elem_of_cons; left|].
  destruct (expire_one cutoff (sql_timestamp (clock i)) s _ Hn Hs Hst) as (-> & -> & _). cbn [negb mbind option_bind].
  assert (Hread : is_Some (_row_to_job s)) by (by apply Hh).
  assert (Hact : is_active_job s = true) by (unfold stale in Hst; by bool_simpl).
  destruct (snapshot_written (db_events db) (sql_timestamp (clock i)) s) as (snap & -> & Hsnap); [by apply Hh|done|].
  cbn [mbind option_bind].
  pose proof (expire_healthy cutoff (sql_timestamp (clock i)) s snap db Hh Hs Hst Hsnap) as Hh'.
  destruct (IH (S i) (JobDb _ _) Hp' Hh') as (moved & db' & -> & Hh2 & Hm). cbn [mbind option_bind fst snd].
  eexists _, _. split; [done|]. split; [done|]. constructor; [by apply expired_readable|done].
Qed.

(** ** Calls that return *)

Lemma py_map_total {A B} (f : A -> py B) l : Forall (fun x => is_Some (f x)) l -> is_Some (py_map f l).
Proof.
  induction 1 as [|x l [y Hy] _ [ys Hys]]; [by eexists|]. cbn [py_map]. rewrite Hy. cbn [mbind option_bind].
  rewrite Hys. by eexists.
Qed.

Lemma stale_job_total r : is_Some (_row_to_job r) -> is_Some (stale_job r).
Proof. unfold stale_job. intros [job ->]. by eexists. Qed.

Lemma cleanup_total w : steady w -> healthy (w_db w) ->
  exists jobs w1, cleanup_stale_running_jobs None w = (Some jobs, w1) /\ steady w1 /\ healthy (w_db w1).
Proof.
  intros Hw Hh. unfold cleanup_stale_running_jobs. cbn [default from_option].
  destruct (job_stale_timeout_seconds <? 0); [by eexists _, _|].
  rewrite bind_unfold. destruct (now_steady w Hw) as (w1 & -> & Hd1 & Hs1). destruct (cutoff_steady w Hw) as [cutoff Ec].
  rewrite bind_unfold, st_py_eq, Ec, bind_unfold.
  destruct (read_steady (fun db => stale_rows_of cutoff (db_jobs db)) w1 Hs1) as (w2 & Er & Hs2 & Hd2).
  unfold stale_rows_of in Er. rewrite Er. fold (stale_rows_of cutoff (db_jobs (w_db w1))). rewrite Hd1 in *.
  set (rows := stale_rows_of _ _). rewrite bind_unfold. destruct (length rows =? 0)%nat.
  - cbn [mret st_ret]. rewrite st_py_eq. eexists _, _. split; [done|]. split; [done|]. by rewrite Hd2.
  - destruct (tx_steady (fun clock db => expire_rows cutoff clock 0 rows db)
      (fun moved db' => healthy db' /\ Forall (fun r => is_Some (_row_to_job r)) moved) w2 Hs2)
      as (moved & w3 & -> & Hs3 & Hh3 & Hm).
    { intros clock. rewrite Hd2. apply expire_total; [|done]. by apply picked_all, healthy_ids. }
    rewrite st_py_eq. destruct (py_map_total stale_job moved) as [jobs ->]; [|by eexists _, _].
    eapply Forall_impl; [exact Hm|]. apply stale_job_total.
Qed.

Lemma first_conflict_total wanted rows : (forall r, r ∈ rows -> is_Some (_row_to_job r)) ->
  is_Some (first_conflict wanted rows).
Proof.
  induction rows as [|r rows IH]; intros Hr; [by eexists|]. cbn [first_conflict].
  destruct (Hr r) as [job ->]; [by apply elem_of_cons; left|]. cbn [mbind option_bind].
  destruct (share_token _ _); [by eexists|]. apply IH. intros r' Hr'. apply Hr. by apply elem_of_cons; right.
Qed.

Definition lock_free (lock : option string) (rows : list job_row) : Prop :=
  forall r, r ∈ rows -> is_active_job r = true -> meets (_lock_tokens lock) r = false.

Lemma lock_free_fewer lock w w' : expired_only w w' -> lock_free lock (db_jobs (w_db w)) -> lock_free lock (db_jobs (w_db w')).
Proof. intros (_ & _ & Ha) Hf r Hr Hra. by apply Hf; [apply Ha|]. Qed.

(** What a cleanup may do to a row: an active job fails, or nothing. *)
Definition runs_out (r r' : job_row) : Prop :=
  r' = r \/ (is_active_job r = true /\ exists now, r' = expired_row now r).

Lemma runs_out_refl rows : Forall2 runs_out rows rows.
Proof. apply Forall_Forall2_diag, Forall_forall. by left. Qed.

Lemma expires_runs_out cutoff rows rows' : Forall2 (expires (stale_rows_of cutoff rows)) rows rows' -> Forall2 runs_out rows rows'.
Proof.
  intros Hf. eapply Forall2_impl; [exact Hf|]. intros r r' [[Hr He]|[_ ->]]; [right|by left]. split; [|exact He].
  unfold stale_rows_of in Hr. apply elem_of_sort_by, list_elem_of_In, filter_In in Hr as [_ Hr]. unfold stale in Hr. by bool_simpl.
Qed.

(** A cleanup in a steady world, with the rows that it fails. *)
Lemma cleanup_steady w : steady w -> healthy (w_db w) -> 0 <= job_stale_timeout_seconds ->
  exists jobs w1 cutoff, cleanup_stale_running_jobs None w = (Some jobs, w1) /\ steady w1 /\ healthy (w_db w1) /\
    expired_only w w1 /\ stale_cutoff (first_clock w) job_stale_timeout_seconds = Some cutoff /\
    Forall2 (expires (stale_rows_of cutoff (db_jobs (w_db w)))) (db_jobs (w_db w)) (db_jobs (w_db w1)).
Proof.
  intros Hw Hh Hpos. pose proof (steady_undisturbed w Hw) as Hu.
  destruct (cleanup_leaves None w Hu (healthy_ids _ Hh)) as (_ & rows & Hf & Hc).
  pose proof (cleanup_only None w Hu (healthy_ids _ Hh)) as Hx.
  destruct (cleanup_total w Hw Hh) as (jobs & w1 & E & Hs1 & Hh1). rewrite E in Hf, Hc, Hx. cbn [fst snd] in *.
  destruct (Hc eq_refl Hpos) as (cutoff & Ecut & ->). by exists jobs, w1, cutoff.
Qed.

(** When the lock is free, the check finds nothing. *)
Lemma held_total lock w : steady w -> healthy (w_db w) -> 0 <= job_stale_timeout_seconds -> lock_free lock (db_jobs (w_db w)) ->
  exists w1, held_lock (named_lock lock) w = (Some None, w1) /\ steady w1 /\ healthy (w_db w1) /\ expired_only w w1 /\
    Forall2 runs_out (db_jobs (w_db w)) (db_jobs (w_db w1)).
Proof.
  intros Hw Hh Hpos Hfree. pose proof (steady_undisturbed w Hw) as Hu.
  destruct (named_lock lock) as [key|] eqn:En; cbn [held_lock];
    [|eexists; split_and!; [done|done|done|by apply expired_only_refl|apply runs_out_refl]].
  apply named_is in En as ->. unfold get_active_lock_lease, find_active_lock_conflict. rewrite !bind_unfold.
  destruct (length _ =? 0)%nat; [eexists; split_and!; [done|done|done|by apply expired_only_refl|apply runs_out_refl]|].
  rewrite bind_unfold. destruct (cleanup_steady w Hw Hh Hpos) as (jobs & w1 & cutoff & E & Hs1 & Hh1 & Hx & _ & Hf%expires_runs_out).
  rewrite E.
  rewrite bind_unfold. destruct (read_steady (fun db => sort_by created_leb (List.filter (contender None) (db_jobs db))) w1 Hs1)
    as (w2 & Er & Hs2 & Hd2). unfold contender in Er. rewrite Er, st_py_eq. fold (contender None).
  pose proof (lock_free_fewer _ _ _ Hx Hfree) as Hfree1.
  assert (Hin : forall r, r ∈ sort_by created_leb (List.filter (contender None) (db_jobs (w_db w1))) ->
                r ∈ db_jobs (w_db w1) /\ is_active_job r = true).
  { intros r [Hr Hc]%elem_of_sort_by%list_elem_of_In%filter_In. unfold contender in Hc. bool_simpl.
    by split; [apply list_elem_of_In|]. }
  destruct (first_conflict_total (_lock_tokens (Some key)) _ (fun r Hr => he_rows _ Hh1 r (proj1 (Hin r Hr)))) as [[job|] Ef].
  { exfalso. apply first_conflict_some in Ef as (owner & Ho & Hm & _);
      [|apply sort_by_sorted; [apply created_leb_total|apply created_leb_trans]].
    destruct (Hin owner Ho) as [Ho1 Ha]. rewrite (Hfree1 owner Ho1 Ha) in Hm. done. }
  rewrite Ef. cbn [mret st_ret option_map]. eexists. split; [done|]. split; [done|]. rewrite Hd2.
  split; [done|]. split; [|done]. destruct Hx as (_ & Hi & Ha). split; [by apply steady_undisturbed|]. by rewrite Hd2.
Qed.

(** A lock whose tokens no active job has is no key of an active job. *)
Lemma free_index lock rows new : lock_free lock rows -> index_ok rows = true -> j_lock new = lock ->
  (lock = None \/ _lock_tokens lock <> []) -> (j_id new ∉ map j_id rows) -> index_ok (rows ++ [new]) = true.
Proof.
  intros Hf [Hi Hl]%index_spec Hlock Hne Hid. apply index_spec. rewrite map_app. split.
  { apply NoDup_app. split; [done|]. split; [by intros x Hx ->%list_elem_of_singleton|by apply NoDup_singleton]. }
  unfold active_locks. rewrite List.filter_app, omap_app. apply NoDup_app. split; [done|]. split; [|apply sublist_NoDup with (omap (M:=list) j_lock [new])].
  - intros key (r & Hr & Ek)%list_elem_of_omap (r' & Hr' & Ek')%list_elem_of_omap.
    apply list_elem_of_In, filter_In in Hr as [Hr Ha], Hr' as [Hr' _]. cbn in Hr'. destruct Hr' as [<-|[]].
    apply list_elem_of_In in Hr. rewrite Hlock in Ek'. subst lock. destruct Hne as [|Hne]; [congruence|].
    pose proof (Hf r Hr Ha) as Hno. unfold meets in Hno. rewrite Ek, Ek' in Hno. rewrite Ek' in Hne.
    destruct (_lock_tokens (Some key)) as [|token tokens]; [done|]. cbn [share_token existsb] in Hno.
    rewrite bool_decide_true in Hno; [done|by apply elem_of_cons; left].
  - cbn. destruct (j_lock new); [by apply NoDup_singleton|constructor].
  - cbn. destruct (is_active_job new); [done|]. apply sublist_nil_l.
Qed.

Lemma dumps_loads d : is_Some (_json_loads (_json_dumps d)).
Proof. by destruct d as [d|]; eexists. Qed.

Lemma new_readable id type lock by_ input dir context now :
  is_Some (_row_to_job (new_job id type lock by_ input dir context now)).
Proof.
  unfold _row_to_job, new_job. cbn [j_input j_context j_result]. destruct (dumps_loads input) as [i ->].
  destruct (dumps_loads (Some context)) as [c ->]. by eexists.
Qed.

(** The fate of a row when a job gets [lock] after the dead ones: a job
    that shares a token with it has failed with the error of its lease, and
    any other job stays or has run out too. *)
Definition gives_way (lock : option string) (r r' : job_row) : Prop :=
  if is_active_job r && meets (_lock_tokens lock) r then exists now, r' = expired_row now r else runs_out r r'.

(** The rows that the two cleanups and the INSERT leave. *)
Lemma gives_way_twice cutoff lock rows rows1 : lock_free lock rows1 ->
  Forall2 (expires (stale_rows_of cutoff rows)) rows rows1 -> forall rows2,
  Forall2 runs_out rows1 rows2 -> Forall2 (gives_way lock) rows rows2.
Proof.
  intros Hfree Hf%expires_runs_out rows2. revert Hfree rows2.
  induction Hf as [|r r1 rows rows1 H1 _ IH]; intros Hfree rows2 H2; inversion H2 as [|? r2 ? rows2' H2' Hrest]; subst; [constructor|].
  constructor; [|apply IH; [|done]; intros r' Hr'; apply Hfree; by apply elem_of_cons; right].
  unfold gives_way. destruct (is_active_job r && meets (_lock_tokens lock) r) eqn:Eh.
  - destruct H1 as [->|[_ [now ->]]].
    + apply andb_prop in Eh as [Ha Hm]. rewrite (Hfree r) in Hm; [done|by apply elem_of_cons; left|done].
    + destruct H2' as [->|[? _]]; [by exists now|done].
  - destruct H1 as [->|[Ha [now ->]]]; [done|]. right. split; [done|]. destruct H2' as [->|[? _]]; [by exists now|done].
Qed.

(** C28: A dead job does not hold its lock for ever. When nobody acts in
    between, every access succeeds, the table is healthy, the id is new, and
    each active job that shares a token with the lock has had no update since
    the cutoff of the clock, creation succeeds: every job that shares a token
    with the lock has failed with the error of its lease (any other row is as
    it was, or has run out as well), and the one new row of the table is the
    queued job with the lock; it is the job returned. *)
Theorem lease_expires id type lock by_ input dir context cutoff w :
  steady w -> healthy (w_db w) -> 0 <= job_stale_timeout_seconds ->
  (lock = None \/ _lock_tokens lock <> []) -> (id ∉ map j_id (db_jobs (w_db w))) ->
  stale_cutoff (first_clock w) job_stale_timeout_seconds = Some cutoff ->
  (forall r, r ∈ db_jobs (w_db w) -> is_active_job r = true -> meets (_lock_tokens lock) r = true ->
     py_leb (j_updated r) cutoff = true) ->
  exists job w' rows new, create_job id type lock by_ input dir context w = (Some (Created job), w') /\
    db_jobs (w_db w') = rows ++ [new] /\ Forall2 (gives_way lock) (db_jobs (w_db w)) rows /\
    (j_id new, j_type new, j_status new, j_lock new) = (id, type, QUEUED, lock) /\ _row_to_job new = Some job /\
    dget "job_id" job = VStr id /\ dget "status" job = VStr "queued".
Proof.
  intros Hw Hh Hpos Hlock Hid Hcut Hold. unfold create_job. rewrite bind_unfold.
  destruct (cleanup_steady w Hw Hh Hpos) as (jobs & w1 & cutoff' & -> & Hs1 & Hh1 & Hx & Ecut & Hf).
  assert (cutoff' = cutoff) as -> by congruence.
  assert (Hfree : lock_free lock (db_jobs (w_db w1))).
  { intros r Hr Ha. destruct (expires_active _ _ _ _ Hf Hr Ha) as [Hr0 Hns]. apply not_true_is_false. intros Hm.
    apply Hns. unfold stale_rows_of. apply elem_of_sort_by, list_elem_of_In, filter_In. split; [by apply list_elem_of_In|].
    unfold stale. by rewrite Ha, (Hold r Hr0 Ha Hm). }
  rewrite bind_unfold. destruct (held_total lock w1 Hs1 Hh1 Hpos Hfree) as (w2 & -> & Hs2 & Hh2 & Hx2 & Hf2). cbn [fst snd].
  assert (Hid2 : id ∉ map j_id (db_jobs (w_db w2))).
  { destruct Hx as (_ & Hi & _), Hx2 as (_ & Hi2 & _). by rewrite Hi2, Hi. }
  pose proof (lock_free_fewer _ _ _ Hx2 Hfree) as Hfree2. rewrite bind_unfold.
  set (new := new_job id type lock by_ input dir context).
  destruct (tx_steady (fun clock db => Some (insert_job new clock db))
    (fun inserted db => exists now, inserted = Some (new now) /\ db_jobs db = db_jobs (w_db w2) ++ [new now]) w2 Hs2)
    as (inserted & w3 & -> & Hs3 & now & -> & Hrows).
  { intros clock. unfold insert_job, checked. cbn [db_jobs].
    rewrite (free_index lock _ _ Hfree2 (he_index _ Hh2)); [|done|done|done]. eexists _, _. split; [done|]. by eexists. }
  rewrite bind_unfold, st_py_eq. destruct (new_readable id type lock by_ input dir context now) as [job Ej]. fold new in Ej.
  rewrite Ej. exists job, w3, (db_jobs (w_db w2)), (new now). split_and!; try done.
  - exact (gives_way_twice _ _ _ _ Hfree Hf _ Hf2).
  - by apply job_dict_id in Ej.
  - by rewrite (job_dict_status _ _ Ej).
Qed.
End Lease.
