(* ===== verification/JobRun.v ===== *)
(** * Running a job

    What becomes of a queued job when the manager runs it, and of every call
    once a job that has ended is active again. *)
From stdpp Require Import base list strings pretty sorting relations.
From Stdlib Require Import ZArith Lia Ascii.
From S2P Require Import Prelude PyStr PyVal PyState PyTime Jobs JobInvariant JobLocks JobCreate JobLease.

Open Scope string_scope.
Open Scope Z_scope.
Open Scope list_scope.

Section Blocked.
Context `{JobSettings} `{TerminalIds}.

(** ** A job with a snapshot cannot expire *)

Definition reported (events : list snapshot) (r : job_row) : Prop :=
  _terminal_snapshot_event_id (j_id r) ∈ map ts_event_id events.

Lemma snapshot_refused events row classification assurance flag :
  reported events row -> _write_terminal_snapshot events row classification assurance flag = None.
Proof.
  intros Hr. unfold _write_terminal_snapshot. repeat (case_match; [done|]). destruct (_json_loads _); [|done].
  cbn [mbind option_bind]. unfold reported in Hr. by rewrite bool_decide_true.
Qed.

Lemma snapshot_extends events row classification assurance flag events' :
  _write_terminal_snapshot events row classification assurance flag = Some events' -> events `prefix_of` events'.
Proof.
  unfold _write_terminal_snapshot. intros E. repeat (case_match; [done|]). destruct (_json_loads _); [|done].
  cbn [mbind option_bind] in E. case_match; [done|]. injection E as <-. by eexists.
Qed.

Lemma reported_extends events events' r : events `prefix_of` events' -> reported events r -> reported events' r.
Proof. intros [k ->] Hr. unfold reported in *. rewrite map_app, elem_of_app. by left. Qed.

Lemma expire_refused cutoff clock r stale_rows : forall i db,
  picked cutoff stale_rows (db_jobs db) -> r ∈ stale_rows -> reported (db_events db) r ->
  expire_rows cutoff clock i stale_rows db = None.
Proof.
  induction stale_rows as [|s rest IH]; intros i db Hp Hr Hrep; [by apply elem_of_nil in Hr|]. cbn [expire_rows].
  pose proof (picked_next _ _ _ _ (sql_timestamp (clock i)) Hp) as Hp'. destruct Hp as (Hn & Hd & Hin).
  destruct (Hin s) as [Hs Hst]; [by apply elem_of_cons; left|].
  destruct (expire_one cutoff (sql_timestamp (clock i)) s _ Hn Hs Hst) as (-> & -> & _). cbn [negb mbind option_bind].
  apply elem_of_cons in Hr as [->|Hr]; [by rewrite snapshot_refused|].
  destruct (_write_terminal_snapshot _ _ _ _ _) as [events|] eqn:Ew; [|done]. cbn [mbind option_bind].
  rewrite (IH (S i) (JobDb _ events) Hp' Hr); [done|]. eapply reported_extends; [|exact Hrep].
  by eapply snapshot_extends.
Qed.

Definition raises {A} (m : M A) (w : world) : Prop := (m w).1 = None /\ w_db (m w).2 = w_db w.

Lemma raises_bind {A B} (m : M A) (k : A -> M B) w : raises m w -> raises (mbind k m) w.
Proof. intros [Hn Hd]. unfold raises. rewrite bind_unfold. destruct (m w) as [[a|] w1]; by cbn in *. Qed.

Lemma cleanup_refused after cutoff r w :
  undisturbed w -> NoDup (map j_id (db_jobs (w_db w))) -> 0 <= default job_stale_timeout_seconds after ->
  stale_cutoff (first_clock w) (default job_stale_timeout_seconds after) = Some cutoff ->
  r ∈ db_jobs (w_db w) -> stale cutoff r = true -> reported (db_events (w_db w)) r ->
  raises (cleanup_stale_running_jobs after) w.
Proof.
  intros Hw Hn Hge Hc Hr Hst Hrep. unfold raises, cleanup_stale_running_jobs.
  destruct (Z.ltb_spec (default job_stale_timeout_seconds after) 0) as [Hlt|_]; [lia|].
  rewrite bind_unfold. destruct (now_undisturbed w Hw) as (w1 & -> & Hd1 & Hu1). rewrite bind_unfold, st_py_eq, Hc, bind_unfold.
  destruct (read_undisturbed (fun db => stale_rows_of cutoff (db_jobs db)) w1 Hu1) as (w2 & Hu2 & Hd2 & Er).
  unfold stale_rows_of in Er. destruct Er as [-> | ->]; [split; [done|]; cbn [snd]; congruence|].
  fold (stale_rows_of cutoff (db_jobs (w_db w1))). rewrite Hd1 in *. set (rows := stale_rows_of _ _).
  assert (Hin : r ∈ rows).
  { unfold rows, stale_rows_of. apply elem_of_sort_by, list_elem_of_In, filter_In. split; [by apply list_elem_of_In|done]. }
  rewrite bind_unfold. destruct (Nat.eqb_spec (length rows) 0) as [E|_].
  { apply length_zero_iff_nil in E. rewrite E in Hin. by apply elem_of_nil in Hin. }
  destruct (tx_undisturbed (fun clock db => expire_rows cutoff clock 0 rows db) w2 Hu2)
    as (w3 & Hu3 & [[-> Hd3]|(moved & clock & _ & Eb)]); [split; [done|]; cbn [snd]; congruence|].
  rewrite Hd2, (expire_refused cutoff clock r rows 0 (w_db w)) in Eb; [done|by apply picked_all|done|done].
Qed.

Context `{ReprContainer}.

(** The calls that begin with a cleanup. *)
Inductive cleaning_call : forall A, M A -> Prop :=
  | cleaning_cleanup : cleaning_call _ (cleanup_stale_running_jobs None)
  | cleaning_create id type lock by_ input dir context :
      cleaning_call _ (create_job id type lock by_ input dir context)
  | cleaning_get id : cleaning_call _ (get_job id)
  | cleaning_list limit type status : cleaning_call _ (list_jobs limit type status)
  | cleaning_run handlers id : cleaning_call _ (run_job handlers id).

(** An ended job that is active again stops the whole job table. When an
    active job that already has its terminal snapshot has had no update since
    the cutoff, each of creating, reading, listing and running any job raises
    and leaves the table as it is, so that the next call meets it too. *)
Theorem reported_job_blocks A (m : M A) r cutoff w :
  cleaning_call A m -> undisturbed w -> NoDup (map j_id (db_jobs (w_db w))) -> 0 <= job_stale_timeout_seconds ->
  stale_cutoff (first_clock w) job_stale_timeout_seconds = Some cutoff ->
  r ∈ db_jobs (w_db w) -> stale cutoff r = true -> _terminal_snapshot_event_id (j_id r) ∈ map ts_event_id (db_events (w_db w)) ->
  (m w).1 = None /\ w_db (m w).2 = w_db w.
Proof.
  intros Hm Hw Hn Hge Hc Hr Hst Hrep.
  pose proof (cleanup_refused None cutoff r w Hw Hn Hge Hc Hr Hst Hrep) as Hraise.
  assert (Hraise' : raises (cleanup_stale_running_jobs (Some job_stale_timeout_seconds)) w) by exact Hraise.
  destruct Hm; [exact Hraise|by apply raises_bind..].
Qed.
End Blocked.

Section Runs.
Context `{JobSettings} `{TerminalIds} `{!Inj (=) (=) _terminal_snapshot_event_id} `{ReprContainer}.

(** ** The rows of one id *)

Lemma update_same p f g rows : (forall r, r ∈ rows -> p r = true -> f r = g r) -> update_where p f rows = update_where p g rows.
Proof.
  intros Hfg. apply map_ext_in. intros r Hr. destruct (p r) eqn:E; [|done]. apply Hfg; [by apply list_elem_of_In|done].
Qed.

Lemma update_found p f id r rows : NoDup (map j_id rows) -> (forall r, j_id (f r) = j_id r) ->
  r ∈ rows -> p r = true -> j_id r = id -> find_job id (update_where p f rows) = Some (f r).
Proof.
  intros Hn Hf Hr Hp Hid. apply find_job_unique; [| |by rewrite Hf].
  - unfold update_where. rewrite map_map. erewrite map_ext; [exact Hn|]. intros r'. by destruct (p r').
  - apply list_elem_of_fmap. exists r. by rewrite Hp.
Qed.

Lemma has_id_only id r r' rows : NoDup (map j_id rows) -> r ∈ rows -> j_id r = id -> r' ∈ rows -> has_id id r' = true ->
  r' = r.
Proof. intros Hn Hr Hid Hr' E%String.eqb_eq. apply other_row with rows; [done..|]. by rewrite Hid. Qed.

(** ** The start *)

Definition start_active (now : string) (r : job_row) : job_row := if is_active_job r then started_row now r else r.

Lemma start_keeps now : keeps (start_active now).
Proof. intros r. unfold start_active. destruct (is_active_job r) eqn:E; [done|]. by rewrite E. Qed.

Lemma row_loads r : is_Some (_row_to_job r) <->
  is_Some (_json_loads (j_input r)) /\ is_Some (_json_loads (j_context r)) /\ is_Some (_json_loads (j_result r)).
Proof.
  unfold _row_to_job. split.
  - intros [job E]. destruct (_json_loads (j_input r)); [|done]. destruct (_json_loads (j_context r)); [|done].
    by destruct (_json_loads (j_result r)).
  - intros ([i ->] & [c ->] & [o ->]). by eexists.
Qed.

Lemma start_healthy id now r db : healthy db -> r ∈ db_jobs db -> j_id r = id -> is_active_job r = true ->
  start_tx id now db = Some (Some (started_row now r), JobDb (update_where (has_id id) (started_row now) (db_jobs db)) (db_events db))
  /\ healthy (JobDb (update_where (has_id id) (started_row now) (db_jobs db)) (db_events db)).
Proof.
  intros Hh Hr Hid Ha. pose proof (healthy_ids db Hh) as Hn. destruct Hh as [Hi Hrow Hact].
  assert (Hself : has_id id r = true) by (unfold has_id; rewrite Hid; apply String.eqb_refl).
  assert (Hi' : index_ok (update_where (has_id id) (started_row now) (db_jobs db)) = true).
  { rewrite (update_same _ _ (start_active now)); [by apply index_update, Hi; apply start_keeps|].
    intros r' Hr' Hp. rewrite (has_id_only id r r' _ Hn Hr Hid Hr' Hp). unfold start_active. by rewrite Ha. }
  split.
  - unfold start_tx, checked. cbn [db_jobs]. rewrite Hi'. cbn [mbind option_bind db_jobs].
    by rewrite (update_found _ (started_row now) id r).
  - split; cbn [db_jobs db_events]; [done| |].
    + intros r' [[Hin _]|(r0 & Hin & _ & ->)]%elem_of_update; [by apply Hrow|]. apply row_loads.
      apply (proj1 (row_loads r0) (Hrow r0 Hin)).
    + intros r' [[Hin _]|(r0 & Hin & Hp & ->)]%elem_of_update Ha'; [by apply Hact|].
      rewrite (has_id_only id r r0 _ Hn Hr Hid Hin Hp). apply (Hact r Hr Ha).
Qed.

Lemma start_total id r w : steady w -> healthy (w_db w) -> r ∈ db_jobs (w_db w) -> j_id r = id -> j_status r = QUEUED ->
  exists job now w1, mark_job_running id w = (Some (Some job), w1) /\ steady w1 /\ healthy (w_db w1) /\
    (started_row now r ∈ db_jobs (w_db w1)) /\ _row_to_job (started_row now r) = Some job.
Proof.
  intros Hw Hh Hr Hid Hq. unfold mark_job_running. rewrite bind_unfold. destruct (now_steady w Hw) as (w1 & -> & Hd1 & Hs1).
  rewrite bind_unfold. destruct (read_steady (fun db => find_job id (db_jobs db)) w1 Hs1) as (w2 & -> & Hs2 & Hd2).
  rewrite Hd1, (find_job_unique id r) by (done || by apply healthy_ids). unfold has_status.
  rewrite bool_decide_true by done. cbn [negb]. rewrite bind_unfold. set (now := sql_timestamp (first_clock w)).
  destruct (start_healthy id now r (w_db w) Hh Hr Hid) as [Est Hh']; [unfold is_active_job; by rewrite Hq|].
  destruct (tx_steady (fun _ db => start_tx id now db) (fun row db' => row = Some (started_row now r) /\
    db' = JobDb (update_where (has_id id) (started_row now) (db_jobs (w_db w))) (db_events (w_db w))) w2 Hs2)
    as (row & w3 & -> & Hs3 & -> & Hd3); [intros _; rewrite Hd2, Hd1, Est; by eexists _, _|].
  rewrite bind_unfold, st_py_eq, bind_unfold, st_py_eq.
  assert (Hin : started_row now r ∈ db_jobs (w_db w3)).
  { rewrite Hd3. apply list_elem_of_fmap. exists r. unfold has_id. by rewrite Hid, String.eqb_refl. }
  assert (Hh3 : healthy (w_db w3)) by (by rewrite Hd3). destruct (he_rows _ Hh3 _ Hin) as [job Ej]. rewrite Ej.
  exists job, now, w3. auto.
Qed.

(** ** The end *)

Lemma encode_loads result : is_Some (_json_loads (_encode_job_result result)).
Proof.
  destruct result as [d|]; [|by eexists]. unfold _encode_job_result, truncated.
  destruct (_ <=? _); [apply dumps_loads|]. destruct (_ <=? _); apply dumps_loads.
Qed.

Lemma ended_snapshot events e result now r : expirable events r -> is_Some (_row_to_job r) ->
  exists snap, _write_terminal_snapshot events (finished_row e result now r) (end_classification e) "terminal_commit" true
      = Some (events ++ [snap]) /\ ts_classification snap = end_classification e /\
    ts_job_id snap = j_id r /\ ts_event_id snap = _terminal_snapshot_event_id (j_id r).
Proof.
  intros [Hu He] Hr. apply readable_context in Hr as [context Hc]. unfold _write_terminal_snapshot, finished_row.
  cbn [j_id j_context]. rewrite Hu, Hc. cbn [negb]. rewrite (bool_decide_false _ He).
  assert (Hcl : end_classification e ∈ CLASSIFICATIONS).
  { destruct e as [|code message|]; cbn [end_classification]; [set_solver| |set_solver].
    destruct (String.eqb code _); [set_solver|]. destruct (String.eqb code _); set_solver. }
  rewrite (bool_decide_true (end_classification e ∈ _)) by done.
  assert (Hleg : String.eqb (end_classification e) "legacy_terminal_observed" = false).
  { destruct e as [|code message|]; [done| |done]. cbn [end_classification].
    destruct (String.eqb code _); [done|]. by destruct (String.eqb code _). }
  rewrite Hleg. eexists. split; [reflexivity|]. done.
Qed.

Lemma finish_total id e result r w : steady w -> healthy (w_db w) -> r ∈ db_jobs (w_db w) -> j_id r = id ->
  j_status r = RUNNING -> exists job now w1, finish_job id e result w = (Some (Some job), w1) /\
    let row := finished_row e (_encode_job_result result) now r in
    find_job id (db_jobs (w_db w1)) = Some row /\ _row_to_job row = Some job /\
    exists snap, (snap ∈ db_events (w_db w1)) /\ ts_job_id snap = id /\ ts_classification snap = end_classification e.
Proof.
  intros Hw Hh Hr Hid Hrun. unfold finish_job. rewrite bind_unfold. destruct (now_steady w Hw) as (w1 & -> & Hd1 & Hs1).
  set (now := sql_timestamp (first_clock w)). set (row := finished_row e (_encode_job_result result) now r). rewrite bind_unfold.
  assert (Hp : running_job id r = true).
  { unfold running_job, has_id, has_status. by rewrite Hid, String.eqb_refl, bool_decide_true. }
  destruct (ended_snapshot (db_events (w_db w)) e (_encode_job_result result) now r) as (snap & Ew & Hsnap & Hsid & _);
    [apply Hh; [done|unfold is_active_job; by rewrite Hrun]|by apply Hh|].
  destruct (tx_steady (fun _ db => finish_tx id e (_encode_job_result result) now db) (fun row' db' => row' = Some row /\
    db' = JobDb (update_where (running_job id) (finished_row e (_encode_job_result result) now) (db_jobs (w_db w)))
            (db_events (w_db w) ++ [snap])) w1 Hs1) as (row' & w2 & -> & Hs2 & -> & Hd2).
  { intros _. rewrite Hd1. unfold finish_tx, running_tx. cbn [db_jobs db_events].
    rewrite (update_found _ (finished_row e (_encode_job_result result) now) id r) by (done || by apply healthy_ids).
    replace (existsb _ _) with true by (symmetry; apply existsb_exists; exists r; by split; [apply list_elem_of_In|]).
    fold row in Ew |- *. rewrite Ew. by eexists _, _. }
  rewrite st_py_eq. cbn [row_or_none].
  assert (Hread : is_Some (_row_to_job row)).
  { apply row_loads. destruct (proj1 (row_loads r) (he_rows _ Hh r Hr)) as (Hi & Hc & _).
    split; [exact Hi|]. split; [exact Hc|apply encode_loads]. }
  destruct Hread as [job Ej]. rewrite Ej. exists job, now, w2. split; [done|]. rewrite Hd2. cbn [db_jobs db_events].
  split; [by apply update_found with (f := finished_row e (_encode_job_result result) now); [apply healthy_ids|..]|].
  split; [done|]. exists snap. split; [apply elem_of_app; right; by apply list_elem_of_singleton|]. by rewrite Hsid.
Qed.

(** ** From the queue to the end *)

(** How the row of a job reads whose handler did [o]. *)
Definition ended_as (o : handler_outcome) (row : job_row) (classification : string) : Prop :=
  match o with
  | Raised text =>
      j_status row = FAILED /\ j_error_code row = Some "JOB_HANDLER_FAILED" /\ j_error_message row = Some text /\
      j_result row = CNull /\ classification = "handler_failed"
  | Returned None =>
      j_status row = SUCCESS /\ j_error_code row = None /\ j_error_message row = None /\
      j_result row = _encode_job_result (Some []) /\ classification = "handler_completed"
  | Returned (Some d) =>
      j_result row = _encode_job_result (Some d) /\
      ((dget "job_status" d = VStr "failed" /\ j_status row = FAILED /\
        (forall c, c <> "" -> dget "error_code" d = VStr c -> j_error_code row = Some c) /\
        (dget "error_code" d = VNone -> j_error_code row = Some "JOB_HANDLER_FAILED" /\ classification = "handler_failed") /\
        (dget "error_message" d = VNone -> j_error_message row = Some "Job handler reported failure."))
       \/ (dget "job_status" d = VStr "cancelled" /\ j_status row = CANCELLED /\ classification = "handler_cancelled")
       \/ (dget "job_status" d <> VStr "failed" /\ dget "job_status" d <> VStr "cancelled" /\
           j_status row = SUCCESS /\ j_error_code row = None /\ classification = "handler_completed"))
  end.

Lemma outcome_ends o now r e result : end_of_outcome o = (e, result) ->
  ended_as o (finished_row e (_encode_job_result result) now r) (end_classification e).
Proof.
  destruct o as [[d|]|text]; [|by intros [= <- <-]..]. unfold end_of_outcome. cbn [default from_option id].
  destruct (eq_str _ "failed") eqn:Ef.
  { intros [= <- <-]. split; [done|]. left. split; [by apply eq_str_true|]. split; [done|].
    cbn [finished_row end_error fst snd j_error_code j_error_message end_classification].
    split; [|split; [by intros ->|by intros ->]]. intros c Hc ->. unfold por. cbn.
    by destruct (String.eqb_spec c ""). }
  destruct (eq_str _ "cancelled") eqn:Ec; intros [= <- <-]; (split; [done|]); right; [left|right].
  - by split; [apply eq_str_true|].
  - split; [by apply eq_str_false|]. by split; [apply eq_str_false|].
Qed.

Lemma cleanup_stays w r cutoff : steady w -> healthy (w_db w) -> r ∈ db_jobs (w_db w) ->
  0 <= job_stale_timeout_seconds -> stale_cutoff (first_clock w) job_stale_timeout_seconds = Some cutoff ->
  stale cutoff r = false ->
  exists jobs w1, cleanup_stale_running_jobs None w = (Some jobs, w1) /\ steady w1 /\ healthy (w_db w1) /\ (r ∈ db_jobs (w_db w1)).
Proof.
  intros Hw Hh Hr Hge Hc Hst. destruct (cleanup_total w Hw Hh) as (jobs & w1 & E & Hs1 & Hh1). exists jobs, w1.
  split; [done|]. split; [done|]. split; [done|].
  destruct (cleanup_leaves None w (steady_undisturbed w Hw) (healthy_ids _ Hh)) as (_ & rows & Hf & Hex). rewrite E in Hf, Hex.
  destruct (Hex eq_refl Hge) as (cutoff' & Ec & ->). cbn [default from_option] in Ec. assert (cutoff' = cutoff) as -> by congruence.
  cbn [snd] in Hf. apply list_elem_of_lookup in Hr as [i Hi]. destruct (Forall2_lookup_l _ _ _ _ _ Hf Hi) as (r' & Hi' & He).
  apply list_elem_of_lookup. exists i. destruct He as [[Hin _]|[_ ->]]; [|done].
  unfold stale_rows_of in Hin. apply elem_of_sort_by, list_elem_of_In, filter_In in Hin as [_ Hst']. congruence.
Qed.

Lemma job_dict_type r job : _row_to_job r = Some job -> dget "job_type" job = VStr (j_type r).
Proof.
  unfold _row_to_job. intros E. destruct (_json_loads (j_input r)) as [input|]; [|done].
  destruct (_json_loads (j_context r)) as [context|]; [|done].
  destruct (_json_loads (j_result r)) as [result|]; [|done]. by injection E as <-.
Qed.

(** A queued job that is run ends the way its handler does. When nobody
    acts in between, every access succeeds, the table is healthy and the job
    is not stale, its handler gets the running job, and the job ends as
    failed, cancelled or success by what the handler reports or raises, with
    the result it returned and a snapshot that names that end. *)
Theorem run_job_ends (handlers : list (string * JobHandler)) id r cutoff (handler : JobHandler) outcome w :
  steady w -> healthy (w_db w) -> 0 <= job_stale_timeout_seconds ->
  stale_cutoff (first_clock w) job_stale_timeout_seconds = Some cutoff -> stale cutoff r = false ->
  r ∈ db_jobs (w_db w) -> j_id r = id -> j_status r = QUEUED ->
  assoc_get (j_type r) handlers = Some handler ->
  (forall job w1, steady w1 -> exists w2, handler job w1 = (Some (outcome job), w2) /\ steady w2 /\ w_db w2 = w_db w1) ->
  exists started job w', run_job handlers id w = (Some (Some job), w') /\
    dget "job_id" started = VStr id /\ dget "status" started = VStr "running" /\
    exists row snap, find_job id (db_jobs (w_db w')) = Some row /\ _row_to_job row = Some job /\
      (snap ∈ db_events (w_db w')) /\ ts_job_id snap = id /\ ended_as (outcome started) row (ts_classification snap).
Proof.
  intros Hw Hh Hge Hc Hst Hr Hid Hq Hget Hrun. unfold run_job. rewrite bind_unfold.
  destruct (cleanup_stays w r cutoff) as (jobs & w1 & E & Hs1 & Hh1 & Hr1); [done..|].
  change (cleanup_stale_running_jobs (Some _) w) with (cleanup_stale_running_jobs None w). rewrite E, bind_unfold.
  destruct (start_total id r w1) as (started & now & w2 & -> & Hs2 & Hh2 & Hr2 & Ej); [done..|].
  rewrite (job_dict_status _ _ Ej), (job_dict_type _ _ Ej).
  cbn [started_row j_status j_type status_text].
  change (eq_str (VStr "running") "running") with true.
  change (py_str (VStr (j_type r))) with (j_type r). cbn [negb]. rewrite Hget, bind_unfold.
  destruct (Hrun started w2 Hs2) as (w3 & -> & Hs3 & Hd3). rewrite <- Hd3 in Hh2, Hr2.
  destruct (end_of_outcome (outcome started)) as [e result] eqn:Eo.
  destruct (finish_total id e result (started_row now r) w3) as (job & now' & w4 & -> & Hf & Ej' & snap & Hsnap & Hsid & Hcl);
    [done..|].
  exists started, job, w4. split; [done|]. split; [by rewrite (job_dict_id _ _ Ej), <- Hid|].
  split; [by rewrite (job_dict_status _ _ Ej)|]. eexists _, snap. split; [exact Hf|]. split; [done|]. split; [done|].
  split; [done|]. rewrite Hcl. by apply outcome_ends.
Qed.
End Runs.
