(* ===== verification/JobRace.v ===== *)
(** * Races between processes over the job table, and concrete runs

    Two interleavings that the code lets happen, and the theorems about jobs
    at concrete tables and schedules. *)
From stdpp Require Import base list strings pretty sorting relations.
From Stdlib Require Import ZArith Lia Ascii.
From S2P Require Import Prelude PyStr PyVal PyState PyTime Jobs JobInvariant JobLocks JobCreate JobLease JobRun.

Open Scope string_scope.
Open Scope Z_scope.
Open Scope list_scope.

Ltac has_value := vm_compute; eexists; reflexivity.

(** ** A sample configuration: the defaults of the settings *)

Definition default_settings : JobSettings := {| job_stale_timeout_seconds := 120; job_result_max_bytes := 262144 |}.
Definition same_ids : TerminalIds := fun id => id.
#[local] Existing Instance default_settings.
#[local] Existing Instance same_ids.
#[local] Instance plain_containers : ReprContainer := fun _ => "...".

#[local] Instance same_ids_inj : Inj (=) (=) _terminal_snapshot_event_id.
Proof. by intros x y. Qed.

Definition job_a : string := "00000000-0000-4000-8000-00000000000a".
Definition job_b : string := "00000000-0000-4000-8000-00000000000b".

Definition noon : Z := 1700000000 * 1000000.
Definition late : Z := noon + 500 * 1000000.

Definition at_time (us : Z) : turn := Turn (fun db => db) true (fun _ => us).

(** A schedule where another process acts by [others] before the last access. *)
Definition before_last (n : nat) (us : Z) (others : job_db -> job_db) : list turn :=
  replicate n (at_time us) ++ [Turn others true (fun _ => us)].

Lemma honest_alone db n us : honest (World db (replicate n (at_time us))).
Proof. apply Forall_replicate. intros db'. apply rtc_refl. Qed.

Lemma honest_before_last db n us others : (forall db, rtc job_step db (others db)) ->
  honest (World db (before_last n us others)).
Proof.
  intros Ho. apply Forall_app. split; [apply Forall_replicate; intros db'; apply rtc_refl|]. by apply Forall_singleton.
Qed.

(** What another process does when it makes a call on its own. *)
Definition other_call {A} (m : M A) (us : Z) (db : job_db) : job_db := w_db (m (World db (replicate 12 (at_time us)))).2.

Lemma other_honest {A} (m : M A) us Q : obeys m Q -> forall db, rtc job_step db (other_call m us db).
Proof. intros Hm db. by destruct (Hm _ (honest_alone db 12 us)) as (Hs & _). Qed.

(** ** Two locks that share a token *)

Definition create_rules : M create_outcome := create_job job_a "rules_apply" (Some "apply+rules") None None None [].
Definition create_apply : M create_outcome := create_job job_b "apply" (Some "apply") None None None [].

(** The check for a conflicting lock and the INSERT are not one
    transaction. When another process creates a job under [apply] between
    them, the creation under [apply+rules] returns its job, and two active
    jobs share a token: the unique index compares the whole keys only. *)
Theorem lock_race : exists w job,
  honest w /\ w_db w = empty_db /\ (create_rules w).1 = Some (Created job) /\
  exists r r', r ∈ db_jobs (w_db (create_rules w).2) /\ r' ∈ db_jobs (w_db (create_rules w).2) /\ j_id r <> j_id r' /\
    is_active_job r = true /\ is_active_job r' = true /\ share_token (_lock_tokens (j_lock r)) (_lock_tokens (j_lock r')) = true.
Proof.
  exists (World empty_db (before_last 5 noon (other_call create_apply noon))).
  set (w := World _ _). destruct (create_rules w) as [[[job|]|] w'] eqn:E; [|by vm_compute in E..].
  exists job. split; [eapply honest_before_last, other_honest, obeys_create|]. split; [done|]. split; [done|].
  vm_compute in E. injection E as _ <-. cbn [snd w_db db_jobs].
  eexists _, _. split; [apply list_elem_of_here|]. split; [apply elem_of_cons; right; apply list_elem_of_here|].
  by split; [|split; [|split]].
Qed.

(** ** A job that expires while it is started *)

Definition queued_row (id : string) (lock : option string) (updated : Z) : job_row :=
  JobRow id "apply" QUEUED lock None CNull (CJson (VDict [])) CNull None None None (sql_timestamp updated) None None
    (sql_timestamp updated).

Definition one_queued : job_db := JobDb [queued_row job_a (Some "apply") noon] [].

Lemma healthy_one r : is_Some (_row_to_job r) -> canonical_uuid (j_id r) = true -> healthy (JobDb [r] []).
Proof.
  intros Hr Hu. split; cbn [db_jobs db_events].
  - unfold index_ok. rewrite !bool_decide_true; [done| |apply NoDup_singleton]. unfold active_locks. cbn [List.filter].
    destruct (is_active_job r); [|constructor]. cbn. destruct (j_lock r); [apply NoDup_singleton|constructor].
  - by intros r' ->%list_elem_of_singleton.
  - intros r' ->%list_elem_of_singleton _. split; [done|apply not_elem_of_nil].
Qed.

Definition expiring_start : world :=
  World one_queued (before_last 2 late (other_call (cleanup_stale_running_jobs None) late)).

(** The UPDATE that starts a job does not test that it is still queued.
    When another process expires the job after the SELECT, the call returns
    it as running: an ended job, with its failed snapshot and its error, is
    active again. *)
Theorem start_revives_expired : exists w job,
  honest w /\ healthy (w_db w) /\ (mark_job_running job_a w).1 = Some (Some job) /\ dget "status" job = VStr "running" /\
  exists r s, db_jobs (w_db (mark_job_running job_a w).2) = [r] /\ db_events (w_db (mark_job_running job_a w).2) = [s] /\
    j_status r = RUNNING /\ j_error_code r = Some "JOB_STALE_QUEUE_TIMEOUT" /\ is_set (j_finished r) = true /\
    ts_job_id s = j_id r /\ ts_status s = "failed".
Proof.
  exists expiring_start. destruct (mark_job_running job_a expiring_start) as [[[job|]|] w'] eqn:E; [|by vm_compute in E..].
  exists job. split; [eapply honest_before_last, other_honest, obeys_cleanup|].
  split; [apply healthy_one; [by eexists|by vm_compute]|]. split; [done|]. vm_compute in E. injection E as <- <-.
  split; [done|]. by eexists _, _.
Qed.

(** ** The theorems at concrete inputs *)

Definition steady_world (db : job_db) (n : nat) (us : Z) : world := World db (replicate n (at_time us)).

Lemma alone_steady db n us : is_Some (stale_cutoff us job_stale_timeout_seconds) -> steady (steady_world db n us).
Proof. intros Hc. constructor; [split; [done|split; [done|has_value]]|]. apply Forall_replicate. by split. Qed.

Lemma alone_undisturbed db n us : undisturbed (steady_world db n us).
Proof. by apply Forall_replicate. Qed.

Lemma one_row_ids (r : job_row) events : NoDup (map j_id (db_jobs (JobDb [r] events))).
Proof. apply NoDup_singleton. Qed.

(** A process creates and runs a job while another one touches the table. *)
Definition touching : turn := Turn (fun db => (running_tx job_a (touched_row (sql_timestamp late)) db).2) true (fun _ => noon).

Lemma touching_honest : honest (World empty_db (replicate 20 touching)).
Proof. apply Forall_replicate. intros db. apply rtc_once, step_touch. Qed.

Definition applying : M unit :=
  call (run_job [("apply", fun _ => mret (Returned (Some [("job_status", VStr "failed"); ("error_code", VStr "E")])))] job_b).

Lemma applying_call : job_call applying.
Proof. apply call_run, Forall_singleton. intros job. by apply obeys_ret. Qed.

Lemma terminal_outcome_recorded_witness :
  let w := World empty_db (replicate 20 touching) in
  let db := w_db (run_calls [call create_apply; applying] w).2 in
  map (fun r => status_text (j_status r)) (db_jobs db) = ["failed"] /\ map ts_job_id (db_events db) = [job_b] /\
  NoDup (active_locks (db_jobs db)).
Proof.
  intros w db. split; [by vm_compute|]. split; [by vm_compute|].
  apply (terminal_outcome_recorded [call create_apply; applying] w); [|apply touching_honest|done].
  constructor; [apply call_create|]. constructor; [apply applying_call|constructor].
Defined.

Definition two_jobs : job_db := JobDb [queued_row job_a (Some "apply+rules") noon; queued_row job_b (Some "ping") late] [].

Lemma two_ids : NoDup (map j_id (db_jobs two_jobs)).
Proof. by apply (bool_decide_unpack _); vm_compute. Qed.

Lemma cleanup_exact_witness :
  let w := steady_world two_jobs 3 late in
  map (fun r => status_text (j_status r)) (db_jobs (w_db (cleanup_stale_running_jobs None w).2)) = ["failed"; "queued"] /\
  exists cutoff, stale_cutoff (first_clock w) 120 = Some cutoff.
Proof.
  intros w. split; [by vm_compute|]. destruct (cleanup_stale_running_jobs None w) as [[jobs|] w'] eqn:E; [|by vm_compute in E].
  destruct (cleanup_exact None w jobs w') as (cutoff & Hc & _); [apply alone_undisturbed|apply two_ids|done|done|].
  by exists cutoff.
Defined.

Lemma create_respects_locks_witness :
  let w := steady_world two_jobs 9 noon in
  (exists job, (create_job "c" "rules_apply" (Some "rules, ping") None None None [] w).1 = Some (LockConflict "rules, ping" job)
     /\ dget "job_id" job = VStr job_a) /\
  creation "c" (Some "rules, ping") (db_jobs (w_db (create_job "c" "rules_apply" (Some "rules, ping") None None None [] w).2))
    (create_job "c" "rules_apply" (Some "rules, ping") None None None [] w).1.
Proof.
  intros w. split; [eexists; by vm_compute|].
  destruct (create_respects_locks "c" "rules_apply" (Some "rules, ping") None None None [] w) as [_ Hc];
    [apply alone_undisturbed|apply two_ids|exact Hc].
Defined.

Lemma lease_expires_witness :
  let w := steady_world one_queued 8 late in
  exists job w' rows new, create_job job_b "apply" (Some "rules+apply") None None None [] w = (Some (Created job), w') /\
    db_jobs (w_db w') = rows ++ [new] /\ Forall2 (gives_way (Some "rules+apply")) (db_jobs one_queued) rows /\
    (j_id new, j_type new, j_status new, j_lock new) = (job_b, "apply", QUEUED, Some "rules+apply") /\
    _row_to_job new = Some job /\ dget "job_id" job = VStr job_b /\ dget "status" job = VStr "queued".
Proof.
  intros w. destruct (stale_cutoff (first_clock w) 120) as [cutoff|] eqn:E; [|by vm_compute in E].
  apply (lease_expires job_b "apply" (Some "rules+apply") None None None [] cutoff w).
  - apply alone_steady. has_value.
  - apply healthy_one; [by eexists|by vm_compute].
  - done.
  - by right.
  - apply (bool_decide_unpack _). by vm_compute.
  - exact E.
  - intros r ->%list_elem_of_singleton _ _. vm_compute in E. injection E as <-. by vm_compute.
Defined.

(** The table that [expiring_start] leaves, after another timeout. *)
Definition revived : job_db := w_db (mark_job_running job_a expiring_start).2.

Lemma revived_rows : exists r, db_jobs revived = [r] /\ j_id r = job_a /\ is_active_job r = true /\
  j_updated r = sql_timestamp late /\ map ts_event_id (db_events revived) = [job_a].
Proof. unfold revived. vm_compute. by eexists. Qed.

Lemma reported_job_blocks_witness :
  let w := steady_world revived 9 (late + 200 * 1000000) in
  (create_job job_b "ping" (Some "ping") None None None [] w).1 = None /\
  w_db (create_job job_b "ping" (Some "ping") None None None [] w).2 = revived.
Proof.
  intros w. destruct revived_rows as (r & Er & Hid & Ha & Hu & He).
  destruct (stale_cutoff (first_clock w) 120) as [cutoff|] eqn:E; [|by vm_compute in E].
  apply (reported_job_blocks _ _ r cutoff w).
  - apply cleaning_create.
  - apply alone_undisturbed.
  - cbn [w steady_world w_db]. rewrite Er. apply NoDup_singleton.
  - done.
  - exact E.
  - cbn [w steady_world w_db]. rewrite Er. apply list_elem_of_here.
  - unfold stale. rewrite Ha, Hu. vm_compute in E. injection E as <-. by vm_compute.
  - cbn [w steady_world w_db]. rewrite He, Hid. apply list_elem_of_here.
Defined.

(** A handler that reports the job it was given as failed. *)
Definition failing : JobHandler := fun job =>
  mret (Returned (Some [("job_status", VStr "failed"); ("error_code", VStr "E"); ("seen", dget "status" job)])).

Lemma run_job_ends_witness :
  let w := steady_world one_queued 8 noon in
  let o job := Returned (Some [("job_status", VStr "failed"); ("error_code", VStr "E"); ("seen", dget "status" job)]) in
  exists started job w', run_job [("apply", failing)] job_a w = (Some (Some job), w') /\
    dget "job_id" started = VStr job_a /\ dget "status" started = VStr "running" /\
    exists row snap, find_job job_a (db_jobs (w_db w')) = Some row /\ _row_to_job row = Some job /\
      (snap ∈ db_events (w_db w')) /\ ts_job_id snap = job_a /\ ended_as (o started) row (ts_classification snap).
Proof.
  intros w o. destruct (stale_cutoff (first_clock w) 120) as [cutoff|] eqn:E; [|by vm_compute in E].
  apply (run_job_ends [("apply", failing)] job_a (queued_row job_a (Some "apply") noon) cutoff failing o w).
  - apply alone_steady. has_value.
  - apply healthy_one; [by eexists|by vm_compute].
  - done.
  - exact E.
  - vm_compute in E. injection E as <-. by vm_compute.
  - apply list_elem_of_here.
  - done.
  - done.
  - done.
  - intros job w1 Hs. exists w1. split; [reflexivity|]. split; [exact Hs|reflexivity].
Defined.
