(* ===== verification/WatchdogState.v ===== *)
(** * The durable watchdog state

    [services/watchdog_runtime_state.py]: the single row of [watchdog_state]
    in SQLite, loaded and updated by several processes.

    Every database access takes one turn of the schedule [w_turns]: what
    other writers did to the row before it, whether it raises, and SQLite's
    clock.  With an empty schedule nobody interferes and nothing fails. *)
From stdpp Require Import base list strings pretty gmap.
From Stdlib Require Import ZArith Lia Ascii.
From S2P Require Import Prelude PyStr PyVal.

Open Scope string_scope.
Open Scope Z_scope.
Open Scope list_scope.

(** ** The row *)

Record wd_row := WdRow {
  row_path_key : option string;
  row_candidate : cell;
  row_last_processed_decision_id : option string;
  row_last_successful_failover_at : option string;
  row_failover_path_key : option string;
  row_previous_target_id : option string;
  row_selected_target_id : option string;
  row_cooldown_until : option string;
  row_last_idle_probe_at : option string;
  row_last_idle_probe_server_id : option string;
  row_last_idle_probe_status : option string;
  row_updated_at : option string;
}.

(** The row [INSERT OR IGNORE INTO watchdog_state (id) VALUES (1)] makes. *)
Definition new_row (now : string) : wd_row :=
  WdRow None CNull None None None None None None None None None (Some now).

Definition text_is (a b : option string) : bool := bool_decide (a = b).

(** ** JSON *)

Definition _json_loads_dict (c : cell) : option dict :=
  match c with
  | CJson (VDict d) => Some d
  | _ => None
  end.

Definition _json_dumps_dict (value : option dict) : cell :=
  match value with
  | None => CNull
  | Some d => CJson (sort_keys (VDict d))
  end.

(** ** The world *)

Record turn := Turn {
  t_others : option wd_row -> option wd_row;
  t_ok : bool;
  t_now : string;
}.

Definition quiet : turn := Turn (fun r => r) true "".

Record world := World {
  w_row : option wd_row;
  (** [_TRAFFIC_FAILURE_CANDIDATE] of [watchdog_failure_state]. *)
  w_memory : option dict;
  w_turns : list turn;
}.

Abbreviation M := (st world).

(** One statement in its own transaction. *)
Definition db_access {A} (f : string -> option wd_row -> A * option wd_row) : M A := fun w =>
  let '(t, rest) := match w_turns w with [] => (quiet, []) | t :: ts => (t, ts) end in
  let row := t_others t (w_row w) in
  if t_ok t then
    let '(a, row') := f (t_now t) row in (Some a, World row' (w_memory w) rest)
  else (None, World row (w_memory w) rest).

Definition set_memory (c : option dict) : M unit :=
  st_modify (fun w => World (w_row w) c (w_turns w)).

Definition get_memory : M (option dict) := w ← st_get; mret (w_memory w).

(** ** Operations *)

Definition ensure_watchdog_runtime_state_row : M unit :=
  db_access (fun now row => (tt, Some (default (new_row now) row))).

(** The loaded state: the row with its candidate decoded. *)
Record wd_state := WdState {
  path_key : option string;
  failure_candidate : option dict;
  last_processed_decision_id : option string;
  last_successful_failover_at : option string;
  failover_path_key : option string;
  previous_target_id : option string;
  selected_target_id : option string;
  cooldown_until : option string;
  last_idle_probe_at : option string;
  last_idle_probe_server_id : option string;
  last_idle_probe_status : option string;
  updated_at : option string;
}.

Definition empty_watchdog_runtime_state : wd_state :=
  WdState None None None None None None None None None None None None.

Definition state_of_row (r : wd_row) : wd_state :=
  WdState (row_path_key r) (_json_loads_dict (row_candidate r)) (row_last_processed_decision_id r)
    (row_last_successful_failover_at r) (row_failover_path_key r) (row_previous_target_id r)
    (row_selected_target_id r) (row_cooldown_until r) (row_last_idle_probe_at r)
    (row_last_idle_probe_server_id r) (row_last_idle_probe_status r) (row_updated_at r).

Definition WATCHDOG_STATE_ROW_ID : Z := 1.

(** The dictionary the code returns for a state. *)
Definition state_dict (s : wd_state) : dict :=
  [("id", VInt WATCHDOG_STATE_ROW_ID); ("path_key", vopt (path_key s));
   ("failure_candidate", vdict (failure_candidate s));
   ("last_processed_decision_id", vopt (last_processed_decision_id s));
   ("last_successful_failover_at", vopt (last_successful_failover_at s));
   ("failover_path_key", vopt (failover_path_key s)); ("previous_target_id", vopt (previous_target_id s));
   ("selected_target_id", vopt (selected_target_id s)); ("cooldown_until", vopt (cooldown_until s));
   ("last_idle_probe_at", vopt (last_idle_probe_at s));
   ("last_idle_probe_server_id", vopt (last_idle_probe_server_id s));
   ("last_idle_probe_status", vopt (last_idle_probe_status s)); ("updated_at", vopt (updated_at s))].

Definition row_state (row : option wd_row) : wd_state :=
  match row with None => empty_watchdog_runtime_state | Some r => state_of_row r end.

Definition load_watchdog_runtime_state (strict : bool) : M wd_state :=
  let select := db_access (fun _ row => (row_state row, row)) in
  if strict then select else st_try select (mret empty_watchdog_runtime_state).

(** The keyword arguments of an update: [None] is [_UNSET]. *)
Record update := Update {
  u_path_key : option (option string);
  u_failure_candidate : option (option dict);
  u_last_processed_decision_id : option (option string);
  u_last_successful_failover_at : option (option string);
  u_failover_path_key : option (option string);
  u_previous_target_id : option (option string);
  u_selected_target_id : option (option string);
  u_cooldown_until : option (option string);
  u_last_idle_probe_at : option (option string);
  u_last_idle_probe_server_id : option (option string);
  u_last_idle_probe_status : option (option string);
  u_expected_failure_candidate : option (option dict);
  u_expected_path_key : option (option string);
  u_expected_last_processed_decision_id : option (option string);
}.

Definition no_update : update :=
  Update None None None None None None None None None None None None None None.

Definition conditional (u : update) : bool :=
  is_set (u_expected_failure_candidate u) || is_set (u_expected_path_key u)
  || is_set (u_expected_last_processed_decision_id u).

Definition has_assignments (u : update) : bool :=
  is_set (u_path_key u) || is_set (u_failure_candidate u) || is_set (u_last_processed_decision_id u)
  || is_set (u_last_successful_failover_at u) || is_set (u_failover_path_key u) || is_set (u_previous_target_id u)
  || is_set (u_selected_target_id u) || is_set (u_cooldown_until u) || is_set (u_last_idle_probe_at u)
  || is_set (u_last_idle_probe_server_id u) || is_set (u_last_idle_probe_status u).

(** The SET clause. *)
Definition assign (u : update) (now : string) (r : wd_row) : wd_row :=
  WdRow (default (row_path_key r) (u_path_key u))
    (match u_failure_candidate u with Some c => _json_dumps_dict c | None => row_candidate r end)
    (default (row_last_processed_decision_id r) (u_last_processed_decision_id u))
    (default (row_last_successful_failover_at r) (u_last_successful_failover_at u))
    (default (row_failover_path_key r) (u_failover_path_key u))
    (default (row_previous_target_id r) (u_previous_target_id u))
    (default (row_selected_target_id r) (u_selected_target_id u))
    (default (row_cooldown_until r) (u_cooldown_until u))
    (default (row_last_idle_probe_at r) (u_last_idle_probe_at u))
    (default (row_last_idle_probe_server_id r) (u_last_idle_probe_server_id u))
    (default (row_last_idle_probe_status r) (u_last_idle_probe_status u))
    (Some now).

(** The WHERE clause, beyond the row id. *)
Definition where_holds (u : update) (r : wd_row) : bool :=
  match u_expected_failure_candidate u with
  | Some c => cell_is (row_candidate r) (_json_dumps_dict c) | None => true end &&
  match u_expected_path_key u with Some p => text_is (row_path_key r) p | None => true end &&
  match u_expected_last_processed_decision_id u with
  | Some d => text_is (row_last_processed_decision_id r) d | None => true end.

(** The UPDATE statement and its [rowcount]. *)
Definition update_statement (u : update) (now : string) (row : option wd_row) : Z * option wd_row :=
  match row with
  | Some r => if where_holds u r then (1, Some (assign u now r)) else (0, Some r)
  | None => (0, None)
  end.

(** [None] of the result is the code's [None]: a conditional update that did not happen. *)
Definition update_watchdog_runtime_state (u : update) : M (option wd_state) :=
  let reload := s ← load_watchdog_runtime_state false; mret (Some s) in
  let body :=
    _ ← ensure_watchdog_runtime_state_row;
    if negb (has_assignments u) then reload
    else
      rowcount ← db_access (update_statement u);
      if conditional u && negb (rowcount =? 1) then mret None else reload in
  st_try body (if conditional u then mret None else reload).
