(* ===== verification/WatchdogFailure.v ===== *)
(** * The failure candidate of the watchdog

    [services/watchdog_failure_state.py]: the candidate is kept twice, in
    the process (the module's global, here [w_memory]) and in the durable
    row, and every decision of the watchdog goes through these operations.

    [now_fn] is given as the instants its successive calls return.  The
    module's lock makes each operation a critical section of the process;
    other processes act through the schedule of the world. *)
From stdpp Require Import base list strings pretty gmap.
From Stdlib Require Import ZArith Lia Ascii.
From S2P Require Import Prelude PyStr PyVal PyTime WatchdogState.

Open Scope string_scope.
Open Scope Z_scope.
Open Scope list_scope.

(** [int(x or d)] of an int argument. *)
Definition int_or (x d : Z) : Z := if x =? 0 then d else x.

(** [a or b] of strings. *)
Definition str_or (a b : string) : string := if String.eqb a "" then b else a.

(** ** The candidate *)

Definition get_traffic_failure_candidate : M (option dict) := get_memory.

Definition set_traffic_failure_candidate (candidate : option dict) : M unit := set_memory candidate.

(** [candidate.get("recovery_pending")] when both are dicts. *)
Definition pending_of (candidate : option dict) : option dict :=
  match candidate with
  | Some c => as_dict (dget "recovery_pending" c)
  | None => None
  end.

Definition recovery_only (path pending : pyval) : dict :=
  [("kind", VStr "traffic_recovery"); ("path_key", path); ("recovery_pending", pending)].

Definition set_candidate (c : option dict) : update :=
  Update None (Some c) None None None None None None None None None None None None.

Definition set_candidate_decision (c : option dict) (d : option string) : update :=
  Update None (Some c) (Some d) None None None None None None None None None None None.

Definition set_path_candidate_decision (p : option string) (c : option dict) (d : option string) : update :=
  Update (Some p) (Some c) (Some d) None None None None None None None None None None None.

(** The same, if the row still holds what was loaded. *)
Definition set_expecting (p : option string) (c : option dict) (d : option string)
    (expected_candidate : option dict) (expected_path expected_decision : option string) : update :=
  Update (Some p) (Some c) (Some d) None None None None None None None None
    (Some expected_candidate) (Some expected_path) (Some expected_decision).

Definition reset_traffic_failure_candidate : M unit :=
  state ← load_watchdog_runtime_state false;
  let existing := failure_candidate state in
  let preserved :=
    match existing, pending_of existing with
    | Some c, Some p => Some (recovery_only (dget "path_key" c) (VDict p))
    | _, _ => None
    end in
  _ ← set_traffic_failure_candidate preserved;
  _ ← update_watchdog_runtime_state (set_path_candidate_decision None preserved None);
  mret tt.

Definition get_recovery_pending : M (option dict) :=
  state ← load_watchdog_runtime_state false;
  mret (pending_of (failure_candidate state)).

(** The candidate with its pending recovery set or cleared. *)
Definition with_pending (candidate : dict) (pending : option dict) : option dict :=
  match pending with
  | None =>
      let updated := dpop "recovery_pending" candidate in
      if py_eq (dget "kind" updated) (VStr "traffic_recovery") then None else Some updated
  | Some p => Some (dset "recovery_pending" (VDict p) candidate)
  end.

Definition set_recovery_pending (pending : option dict) : M unit :=
  state ← load_watchdog_runtime_state false;
  let candidate :=
    match failure_candidate state with
    | Some c => c
    | None => [("kind", VStr "traffic_recovery");
               ("path_key", match pending with
                            | Some p => if truthy (VDict p) then dget "path_key" p else VNone
                            | None => VNone
                            end)]
    end in
  _ ← update_watchdog_runtime_state (set_candidate (with_pending candidate pending));
  mret tt.

(** [candidate.get("recovery_pending") if isinstance(candidate, dict) else None]. *)
Definition current_pending (candidate : option dict) : pyval :=
  match candidate with Some c => dget "recovery_pending" c | None => VNone end.

(** The guarded UPDATEs on the raw text of the candidate. *)
Definition row_raw (row : option wd_row) : cell :=
  match row with Some r => row_candidate r | None => CNull end.

Definition set_row_candidate (c : option dict) (now : string) (r : wd_row) : wd_row :=
  assign (set_candidate c) now r.

Definition guarded_update (f : string -> wd_row -> wd_row) (raw : cell) : M Z :=
  db_access (fun now row =>
    match row with
    | Some r => if cell_is (row_candidate r) raw then (1, Some (f now r)) else (0, Some r)
    | None => (0, None)
    end).

Definition compare_and_set_recovery_pending (expected pending : option dict) : M bool :=
  st_try (
    _ ← ensure_watchdog_runtime_state_row;
    raw ← db_access (fun _ row => (row_raw row, row));
    let candidate := _json_loads_dict raw in
    if negb (py_eq (current_pending candidate) (vdict expected)) then mret false
    else
      let updated := with_pending (default [] candidate) pending in
      rowcount ← guarded_update (set_row_candidate updated) raw;
      mret (rowcount =? 1)) (mret false).

(** The quality candidate without its pending recovery; anything else is dropped. *)
Definition preserved_quality (candidate : option dict) : option dict :=
  match candidate with
  | Some c =>
      if py_eq (dget "kind" c) (VStr "active_quality_degraded") then Some (dpop "recovery_pending" c) else None
  | None => None
  end.

Definition complete_recovery_pending (expected : dict) : M bool :=
  st_try (
    _ ← ensure_watchdog_runtime_state_row;
    raw ← db_access (fun _ row => (row_raw row, row));
    let candidate := _json_loads_dict raw in
    if negb (py_eq (current_pending candidate) (VDict expected)) then mret false
    else
      let preserved := preserved_quality candidate in
      rowcount ← guarded_update (assign (set_path_candidate_decision None preserved None)) raw;
      if negb (rowcount =? 1) then mret false
      else _ ← set_memory preserved; mret true) (mret false).

(** The durable candidate if there is one, else the process's. *)
Definition effective_candidate (state : wd_state) : M (option dict) :=
  match failure_candidate state with
  | Some c => mret (Some c)
  | None => get_memory
  end.

Definition has_kind (kind : string) (candidate : option dict) : bool :=
  match candidate with Some c => py_eq (dget "kind" c) (VStr kind) | None => false end.

Definition reset_stalled_traffic_failure_candidate : M unit :=
  state ← load_watchdog_runtime_state false;
  candidate ← effective_candidate state;
  if has_kind "active_quality_degraded" candidate then set_memory candidate
  else
    match candidate, pending_of candidate with
    | Some c, Some p =>
        let kept := recovery_only (dget "path_key" c) (VDict p) in
        _ ← set_memory (Some kept);
        _ ← update_watchdog_runtime_state (set_candidate (Some kept));
        mret tt
    | _, _ =>
        _ ← set_memory None;
        _ ← update_watchdog_runtime_state (set_path_candidate_decision None None None);
        mret tt
    end.

(** ** Compacted checks and signals *)

Definition _compact_active_quality_check (active_check : dict) : dict :=
  [("ok", VBool (truthy (dget "ok" active_check))); ("status", dget "status" active_check);
   ("server_id", dget "server_id" active_check); ("last_ping_ms", dget "last_ping_ms" active_check);
   ("error_code", dget "error_code" active_check); ("error_message", dget "error_message" active_check)].

Definition _compact_quality_traffic_signal (traffic_signal : dict) : dict :=
  [("response_observed", VBool (truthy (dget "response_observed" traffic_signal)));
   ("outbound_observed", VBool (truthy (dget "outbound_observed" traffic_signal)));
   ("authoritative_rx_delta", dget "authoritative_rx_delta" traffic_signal);
   ("authoritative_tx_delta", dget "authoritative_tx_delta" traffic_signal);
   ("active_samples_count", dget "active_samples_count" traffic_signal)].

Definition _active_quality_history_entry (now : datetime) (decision_id : string) (degraded : bool)
    (active_check traffic_signal : dict) : dict :=
  [("checked_at", VStr (isoformat now)); ("decision_id", VStr decision_id); ("degraded", VBool degraded);
   ("active_check", VDict (_compact_active_quality_check active_check));
   ("traffic_signal", VDict (_compact_quality_traffic_signal traffic_signal))].

(** ** The rolling history *)

Definition _candidate_quality_history (candidate : dict) : list dict :=
  match as_list (dget "quality_checks" candidate) with
  | Some raw => omap as_dict raw
  | None =>
      if truthy (dget "active_check" candidate) then
        [[("checked_at", por (dget "last_seen_at" candidate) (dget "first_seen_at" candidate));
          ("decision_id", dget "decision_id" candidate); ("degraded", VBool true);
          ("active_check", dget "active_check" candidate);
          ("traffic_signal", por (dget "latest_signal" candidate) (dget "traffic_signal" candidate))]]
      else []
  end.

(** [l[-n:]]. *)
Definition last_n {A} (n : Z) (l : list A) : list A := drop (length l - Z.to_nat n) l.

Section Failure.
Context `{ReprContainer}.

Definition checked_at_of (entry : dict) : string := py_str (por (dget "checked_at" entry) (VStr "")).

Definition _append_quality_history (history : list dict) (entry : dict) (max_checks : Z) : list dict :=
  let checked_at := checked_at_of entry in
  let history :=
    match last history with
    | Some previous =>
        if negb (String.eqb checked_at "") && String.eqb (checked_at_of previous) checked_at
        then removelast history else history
    | None => history
    end in
  last_n (Z.max 1 max_checks) (history ++ [entry]).

Definition is_degraded (entry : dict) : bool := truthy (dget "degraded" entry).

Definition _quality_history_bad_count (history : list dict) : Z :=
  Z.of_nat (length (List.filter is_degraded history)).

(** The number of entries before the first degraded one. *)
Fixpoint leading_good (l : list dict) : nat :=
  match l with
  | [] => 0
  | e :: l' => if is_degraded e then 0 else S (leading_good l')
  end.

Definition _quality_history_good_count (history : list dict) : Z := Z.of_nat (leading_good (rev history)).

Definition history_val (history : list dict) : pyval := VList (map VDict history).

(** ** Normalised arguments *)

(** [str(x or "").strip()] of an optional string, and of a value. *)
Definition norm_opt (x : option string) : string := py_strip (default "" x).
Definition norm_val (v : pyval) : string := py_strip (py_str (por v (VStr ""))).

Definition norm_path (path_key : option string) (server_id : string) : string :=
  py_strip (str_or (default "" path_key) server_id).

(** The thresholds of [active_quality_degraded_confirmation]. *)
Record quality_limits := QualityLimits {
  q_threshold : Z;
  q_bad_checks : Z;
  q_window : Z;
  q_window_bad : Z;
}.

Definition quality_limits_of (confirm_seconds bad_checks_required window_checks window_bad_checks : Z)
    : quality_limits :=
  let window := Z.max 2 (int_or window_checks 4) in
  QualityLimits (Z.max 30 (int_or confirm_seconds 180)) (Z.max 1 (int_or bad_checks_required 2)) window
    (Z.max 1 (Z.min window (int_or window_bad_checks 3))).

(** What identifies one observation. *)
Record observation := Observation {
  o_path : string;
  o_server : string;
  o_collected_at : string;
  o_decision : string;
}.

Definition limits_fields (q : quality_limits) : dict :=
  [("confirm_seconds", VInt (q_threshold q)); ("bad_checks_required", VInt (q_bad_checks q));
   ("window_checks", VInt (q_window q)); ("window_bad_checks", VInt (q_window_bad q))].

Definition observation_fields (o : observation) : dict :=
  [("path_key", VStr (o_path o)); ("server_id", VStr (o_server o)); ("decision_id", VStr (o_decision o))].

Definition outcome (key : string) (flag pending : bool) (reason : string) : dict :=
  [(key, VBool flag); ("pending", VBool pending); ("reason", VStr reason)].

(** The refusals that carry the observation and the limits. *)
Definition refused (o : observation) (q : quality_limits) (reason : string) : dict :=
  outcome "confirmed" false false reason ++ observation_fields o ++ limits_fields q.

(** The candidate is about another kind, path or server. *)
Definition candidate_differs (kind : string) (o : observation) (candidate : dict) : bool :=
  negb (py_eq (dget "kind" candidate) (VStr kind)) || negb (py_eq (dget "path_key" candidate) (VStr (o_path o)))
  || negb (py_eq (dget "server_id" candidate) (VStr (o_server o))).

(** [candidate.get("kind") == "traffic_recovery"] drops the candidate. *)
Definition drop_recovery (candidate : option dict) : option dict :=
  if has_kind "traffic_recovery" candidate then None else candidate.

(** The candidate of a first degraded check. *)
Definition first_quality_candidate (kind : string) (o : observation) (now : datetime)
    (active_check traffic_signal : dict) : dict :=
  [("kind", VStr kind); ("path_key", VStr (o_path o)); ("server_id", VStr (o_server o));
   ("first_seen_at", VStr (isoformat now)); ("last_seen_at", VStr (isoformat now));
   ("last_collected_at", VStr (o_collected_at o)); ("decision_id", VStr (o_decision o));
   ("bad_checks", VInt 1); ("good_checks", VInt 0);
   ("quality_checks",
      history_val [_active_quality_history_entry now (o_decision o) true active_check traffic_signal]);
   ("active_check", VDict (_compact_active_quality_check active_check));
   ("traffic_signal", VDict (_compact_quality_traffic_signal traffic_signal))].

Context (parse_timestamp : option string -> option datetime).

(** The next candidate of a degraded check that continues an incident, with
    its first sighting and its history. *)
Definition next_quality_candidate (o : observation) (q : quality_limits) (now : datetime)
    (active_check traffic_signal candidate : dict) : dict * datetime * list dict :=
  let parsed := parse_timestamp (Some (py_str (por (dget "first_seen_at" candidate) (VStr "")))) in
  let first_seen := default now parsed in
  let candidate :=
    match parsed with
    | Some _ => candidate
    | None => dset "first_seen_at" (VStr (isoformat first_seen)) candidate
    end in
  let history := _append_quality_history (_candidate_quality_history candidate)
    (_active_quality_history_entry now (o_decision o) true active_check traffic_signal) (q_window q) in
  let candidate := dset "quality_checks" (history_val history) candidate in
  let candidate := dset "bad_checks" (VInt (_quality_history_bad_count history)) candidate in
  let candidate := dset "good_checks" (VInt (_quality_history_good_count history)) candidate in
  let candidate := dset "last_collected_at" (VStr (o_collected_at o)) candidate in
  let candidate := dset "decision_id" (VStr (o_decision o)) candidate in
  let candidate := dset "last_seen_at" (VStr (isoformat now)) candidate in
  let candidate := dset "active_check" (VDict (_compact_active_quality_check active_check)) candidate in
  let candidate := dset "latest_signal" (VDict (_compact_quality_traffic_signal traffic_signal)) candidate in
  (candidate, first_seen, history).

(** The part of a result that describes a continued incident. *)
Definition quality_fields (o : observation) (q : quality_limits) (now first_seen : datetime)
    (history : list dict) (good : option Z) : dict :=
  [("path_key", VStr (o_path o)); ("server_id", VStr (o_server o));
   ("first_seen_at", VStr (isoformat first_seen)); ("last_seen_at", VStr (isoformat now));
   ("decision_id", VStr (o_decision o)); ("bad_checks", VInt (_quality_history_bad_count history))]
  ++ match good with Some g => [("good_checks", VInt g)] | None => [] end
  ++ [("age_seconds", VInt (age_of now first_seen))] ++ limits_fields q
  ++ [("window_observed_checks", VInt (Z.of_nat (length history)));
      ("window_bad_observed_checks", VInt (_quality_history_bad_count history))].

Definition active_quality_degraded_confirmation (active_server_id : option string)
    (active_check traffic_signal : dict)
    (confirm_seconds bad_checks_required window_checks window_bad_checks : Z) (path : option string)
    (now : datetime) (candidate_kind : string) (require_response_traffic : bool) : M dict :=
  let server := norm_opt active_server_id in
  let collected_at := norm_val (dget "last_collected_at" traffic_signal) in
  let o := Observation (norm_path path server) server collected_at
             (norm_val (por (dget "decision_id" traffic_signal) (VStr collected_at))) in
  let q := quality_limits_of confirm_seconds bad_checks_required window_checks window_bad_checks in
  if String.eqb (o_path o) "" || String.eqb server "" || String.eqb collected_at "" || String.eqb (o_decision o) ""
     || (require_response_traffic && negb (truthy (dget "response_observed" traffic_signal)))
  then
    mret (outcome "confirmed" false false
            (if require_response_traffic then "active_quality_not_evaluable"
             else "idle_active_failure_not_evaluable") ++ limits_fields q)
  else
    loaded ← st_try (state ← load_watchdog_runtime_state true; mret (Some state)) (mret None);
    match loaded with
    | None => mret (refused o q "watchdog_state_unavailable")
    | Some state =>
        candidate ← effective_candidate state;
        if is_set (pending_of candidate) then mret (refused o q "recovery_pending")
        else
          let store := fun c =>
            update_watchdog_runtime_state
              (set_expecting (Some (o_path o)) c (Some (o_decision o))
                 (failure_candidate state) (WatchdogState.path_key state) (last_processed_decision_id state)) in
          let continued :=
            match drop_recovery candidate with
            | Some c => if candidate_differs candidate_kind o c then None else Some c
            | None => None
            end in
          match continued with
          | None =>
              let first := first_quality_candidate candidate_kind o now active_check traffic_signal in
              persisted ← store (Some first);
              match persisted with
              | None => mret (refused o q "watchdog_state_changed")
              | Some _ =>
                  _ ← set_memory (Some first);
                  mret (outcome "confirmed" false false
                          (if require_response_traffic then "first_active_quality_degraded_check"
                           else "first_idle_active_failure_check")
                        ++ [("path_key", VStr (o_path o)); ("server_id", VStr (o_server o));
                            ("first_seen_at", VStr (isoformat now)); ("last_seen_at", VStr (isoformat now));
                            ("decision_id", VStr (o_decision o)); ("bad_checks", VInt 1); ("good_checks", VInt 0)]
                        ++ limits_fields q
                        ++ [("window_observed_checks", VInt 1); ("window_bad_observed_checks", VInt 1)])
              end
          | Some c =>
              let '(next, first_seen, history) :=
                next_quality_candidate o q now active_check traffic_signal c in
              let bad := _quality_history_bad_count history in
              let good := _quality_history_good_count history in
              persisted ← store (Some next);
              match persisted with
              | None => mret (refused o q "watchdog_state_changed")
              | Some _ =>
                  _ ← set_memory (Some next);
                  if bad <? q_bad_checks q then
                    mret (outcome "confirmed" false false "active_quality_bad_checks_window"
                          ++ quality_fields o q now first_seen history (Some good))
                  else if (Z.of_nat (length history) <? q_window q) || (bad <? q_window_bad q) then
                    mret (outcome "confirmed" false true "active_quality_rolling_window"
                          ++ quality_fields o q now first_seen history (Some good))
                  else
                    cleared ← update_watchdog_runtime_state
                      (set_expecting (Some (o_path o)) None (Some (o_decision o))
                         (Some next) (Some (o_path o)) (Some (o_decision o)));
                    match cleared with
                    | None => mret (refused o q "watchdog_state_changed")
                    | Some _ =>
                        _ ← set_memory None;
                        mret (outcome "confirmed" true false
                                (if require_response_traffic then "active_quality_degraded_confirmed"
                                 else "idle_active_failure_confirmed")
                              ++ quality_fields o q now first_seen history None)
                    end
              end
          end
    end.

Definition idle_active_failure_confirmation (active_server_id : option string)
    (active_check traffic_signal : dict)
    (confirm_seconds bad_checks_required window_checks window_bad_checks : Z) (path : option string)
    (now : datetime) : M dict :=
  active_quality_degraded_confirmation active_server_id active_check traffic_signal
    confirm_seconds 2 2 2 path now "idle_active_failure" false.

(** ** Recovery of the quality *)

Definition recovery_fields (o : observation) (good : option Z) (required window : Z) : dict :=
  [("path_key", VStr (o_path o)); ("server_id", VStr (o_server o))]
  ++ match good with Some g => [("good_checks", VInt g)] | None => [] end
  ++ [("good_checks_required", VInt required); ("window_checks", VInt window)].

(** The entry a good check adds: no check details. *)
Definition good_entry (now : datetime) (decision_id : string) (traffic_signal : dict) : dict :=
  [("checked_at", VStr (isoformat now)); ("decision_id", VStr decision_id); ("degraded", VBool false);
   ("traffic_signal",
      VDict [("response_observed", VBool (truthy (dget "response_observed" traffic_signal)));
             ("outbound_observed", VBool (truthy (dget "outbound_observed" traffic_signal)))])].

Definition next_recovery_candidate (o : observation) (window : Z) (now1 now2 : datetime)
    (traffic_signal candidate : dict) : dict * list dict :=
  let history := _append_quality_history (_candidate_quality_history candidate)
    (good_entry now1 (o_decision o) traffic_signal) window in
  let candidate := dset "quality_checks" (history_val history) candidate in
  let candidate := dset "bad_checks" (VInt (_quality_history_bad_count history)) candidate in
  let candidate := dset "good_checks" (VInt (_quality_history_good_count history)) candidate in
  let candidate := dset "decision_id" (VStr (o_decision o)) candidate in
  (dset "last_seen_at" (VStr (isoformat now2)) candidate, history).

(** [x or None] of a string. *)
Definition or_none (s : string) : option string := if String.eqb s "" then None else Some s.

Definition active_quality_recovery_confirmation (active_server_id : option string) (traffic_signal : dict)
    (recovery_checks_required window_checks : Z) (path : option string) (now1 now2 : datetime) : M dict :=
  let server := norm_opt active_server_id in
  let o := Observation (norm_path path server) server ""
             (norm_val (por (dget "decision_id" traffic_signal) (dget "last_collected_at" traffic_signal))) in
  let required := Z.max 1 (int_or recovery_checks_required 2) in
  let window := Z.max 2 (int_or window_checks 4) in
  let refuse := fun reason => outcome "recovered" false false reason ++ recovery_fields o None required window in
  loaded ← st_try (state ← load_watchdog_runtime_state true; mret (Some state)) (mret None);
  match loaded with
  | None => mret (refuse "watchdog_state_unavailable")
  | Some state =>
      candidate ← effective_candidate state;
      if is_set (pending_of candidate) then mret (refuse "recovery_pending")
      else
        let continued :=
          match drop_recovery candidate with
          | Some c => if candidate_differs "active_quality_degraded" o c then None else Some c
          | None => None
          end in
        match continued with
        | None =>
            mret (outcome "recovered" false false "no_active_quality_candidate"
                  ++ [("good_checks_required", VInt required); ("window_checks", VInt window)])
        | Some c =>
            let '(next, history) := next_recovery_candidate o window now1 now2 traffic_signal c in
            let good := _quality_history_good_count history in
            let recovered := required <=? good in
            persisted ← update_watchdog_runtime_state
              (set_expecting (Some (o_path o)) (if recovered then None else Some next) (or_none (o_decision o))
                 (failure_candidate state) (WatchdogState.path_key state) (last_processed_decision_id state));
            match persisted with
            | None =>
                mret (outcome "recovered" false false "watchdog_state_changed"
                      ++ recovery_fields o (Some good) required window)
            | Some _ =>
                _ ← set_memory (if recovered then None else Some next);
                mret (outcome "recovered" recovered (negb recovered)
                        (if recovered then "active_quality_recovered" else "active_quality_recovery_window")
                      ++ recovery_fields o (Some good) required window)
            end
        end
  end.

(** ** Stalled traffic *)

Definition stalled_signal (traffic_signal : dict) : dict :=
  [("total_rx_delta", dget "total_rx_delta" traffic_signal); ("total_tx_delta", dget "total_tx_delta" traffic_signal);
   ("active_samples_count", dget "active_samples_count" traffic_signal)].

Definition first_stalled_candidate (o : observation) (now : datetime) (traffic_signal : dict)
    (pending : option dict) : dict :=
  [("kind", VStr "stalled_traffic"); ("path_key", VStr (o_path o)); ("server_id", VStr (o_server o));
   ("first_seen_at", VStr (isoformat now)); ("last_collected_at", VStr (o_collected_at o));
   ("decision_id", VStr (o_decision o)); ("stalled_snapshots", VInt 1);
   ("traffic_signal", VDict (stalled_signal traffic_signal))]
  ++ match pending with Some p => [("recovery_pending", VDict p)] | None => [] end.

Definition next_stalled_candidate (o : observation) (snapshots : Z) (traffic_signal candidate : dict) : dict :=
  let candidate := dset "last_collected_at" (VStr (o_collected_at o)) candidate in
  let candidate := dset "decision_id" (VStr (o_decision o)) candidate in
  let candidate := dset "stalled_snapshots" (VInt snapshots) candidate in
  dset "latest_signal" (VDict (stalled_signal traffic_signal)) candidate.

Definition required_snapshots : Z := 2.

Definition stalled_fields (o : observation) (first_seen : string) (age : option Z) (snapshots threshold : Z) : dict :=
  [("path_key", VStr (o_path o)); ("server_id", VStr (o_server o)); ("first_seen_at", VStr first_seen);
   ("last_collected_at", VStr (o_collected_at o)); ("decision_id", VStr (o_decision o))]
  ++ match age with Some a => [("age_seconds", VInt a)] | None => [] end
  ++ [("stalled_snapshots", VInt snapshots); ("stalled_snapshots_required", VInt required_snapshots);
      ("confirm_seconds", VInt threshold)].

Definition store_stalled (o : observation) (c : option dict) : M unit :=
  _ ← update_watchdog_runtime_state (set_path_candidate_decision (Some (o_path o)) c (Some (o_decision o)));
  mret tt.

Definition traffic_failure_confirmation (active_server_id : option string) (traffic_signal : dict)
    (confirm_seconds : Z) (path : option string) (now : datetime) : M dict :=
  let server := norm_opt active_server_id in
  let collected_at := norm_val (dget "last_collected_at" traffic_signal) in
  let o := Observation (norm_path path server) server collected_at
             (norm_val (por (dget "decision_id" traffic_signal) (VStr collected_at))) in
  let threshold := Z.max 30 (int_or confirm_seconds 60) in
  if String.eqb (o_path o) "" || String.eqb collected_at "" || String.eqb (o_decision o) ""
     || negb (truthy (dget "traffic_stalled" traffic_signal))
  then
    _ ← reset_traffic_failure_candidate;
    mret (outcome "confirmed" false false "traffic_not_stalled"
          ++ [("confirm_seconds", VInt threshold); ("stalled_snapshots_required", VInt required_snapshots)])
  else
    state ← load_watchdog_runtime_state false;
    candidate ← effective_candidate state;
    let pending := pending_of candidate in
    let continued :=
      match drop_recovery candidate with
      | Some c => if py_eq (dget "path_key" c) (VStr (o_path o)) then Some c else None
      | None => None
      end in
    match continued with
    | None =>
        let first := first_stalled_candidate o now traffic_signal pending in
        _ ← set_memory (Some first);
        _ ← store_stalled o (Some first);
        mret (outcome "confirmed" false true "first_stalled_traffic_snapshot"
              ++ stalled_fields o (isoformat now) None 1 threshold)
    | Some c =>
        let parsed := parse_timestamp (Some (py_str (por (dget "first_seen_at" c) (VStr "")))) in
        let first_seen := default now parsed in
        if py_eq (dget "decision_id" c) (VStr (o_decision o)) then
          (* the assignment reaches the process's candidate when this is it *)
          _ ← (match failure_candidate state, parsed with
               | None, None => set_memory (Some (dset "first_seen_at" (VStr (isoformat first_seen)) c))
               | _, _ => mret tt
               end);
          snapshots ← st_py (py_int (por (dget "stalled_snapshots" c) (VInt 1)));
          mret (outcome "confirmed" false true "same_stalled_traffic_snapshot"
                ++ stalled_fields o (isoformat first_seen) (Some (age_of now first_seen)) snapshots threshold)
        else
          previous ← st_py (py_int (por (dget "stalled_snapshots" c) (VInt 1)));
          let age := age_of now first_seen in
          let snapshots := previous + 1 in
          let next := next_stalled_candidate o snapshots traffic_signal c in
          let fields := stalled_fields o (isoformat first_seen) (Some age) snapshots threshold in
          _ ← set_memory (Some next);
          _ ← store_stalled o (Some next);
          if age <? threshold then
            mret (outcome "confirmed" false true "stalled_traffic_confirmation_window" ++ fields)
          else if snapshots <? required_snapshots then
            mret (outcome "confirmed" false true "stalled_traffic_consecutive_checks" ++ fields)
          else
            let preserved := option_map (fun p => recovery_only (VStr (o_path o)) (VDict p)) pending in
            _ ← set_memory preserved;
            _ ← store_stalled o preserved;
            mret (outcome "confirmed" true false "stalled_traffic_confirmed" ++ fields)
    end.

(** ** Idle probes *)

Definition due_fields (due : bool) (reason : string) (timing : dict) (state : wd_state) : dict :=
  [("due", VBool due); ("reason", VStr reason)] ++ timing ++ [("state", VDict (state_dict state))].

Definition idle_probe_due (active_server_id : option string) (interval_seconds : Z) (now : datetime) : M dict :=
  let server := norm_opt active_server_id in
  state ← load_watchdog_runtime_state false;
  if String.eqb server "" then mret (due_fields false "idle_probe_no_active_server" [] state)
  else
    let previous := norm_opt (last_idle_probe_server_id state) in
    if negb (String.eqb previous "") && negb (String.eqb previous server) then
      state ← (if has_kind "idle_active_failure" (failure_candidate state) then
                 _ ← update_watchdog_runtime_state (set_candidate_decision None None);
                 load_watchdog_runtime_state false
               else mret state);
      mret (due_fields true "idle_probe_active_server_changed" [] state)
    else
      match parse_timestamp (last_idle_probe_at state) with
      | None => mret (due_fields true "idle_probe_never_checked" [] state)
      | Some checked_at =>
          let elapsed := age_of now checked_at in
          let due := interval_seconds <=? elapsed in
          mret (due_fields due (if due then "idle_probe_due" else "idle_probe_not_due")
                  [("elapsed_seconds", VInt elapsed);
                   ("remaining_seconds", VInt (Z.max 0 (interval_seconds - elapsed)))] state)
      end.

Definition record_idle_probe (active_server_id status checked_at : string) : M (option wd_state) :=
  update_watchdog_runtime_state
    (Update None None None None None None None None (Some (Some checked_at)) (Some (Some active_server_id))
       (Some (Some status)) None None None).

(** ** The failover cooldown *)

Definition failover_cooldown_status (now : datetime) : M dict :=
  state ← load_watchdog_runtime_state false;
  let until := parse_timestamp (Some (default "" (cooldown_until state))) in
  let active := match until with Some u => dt_ltb now u | None => false end in
  mret [("active", VBool active); ("cooldown_until", vopt (option_map isoformat until));
        ("remaining_seconds",
           VInt match until with Some u => if active then age_of u now else 0 | None => 0 end);
        ("state", VDict (state_dict state))].

Definition record_successful_failover (path previous_target_id selected_target_id : option string)
    (cooldown_seconds : Z) (now : datetime) : M (option wd_state) :=
  until ← st_py (dt_add_seconds now (Z.max 30 (int_or cooldown_seconds 300)));
  update_watchdog_runtime_state
    (Update (Some path) (Some None) None (Some (Some (isoformat now))) (Some path) (Some previous_target_id)
       (Some selected_target_id) (Some (Some (isoformat until))) None None None None None None).

Definition cooldown_fields (cooldown : pyval) : py dict :=
  let state := default [] (as_dict cooldown) in
  remaining ← py_int (por (dget "remaining_seconds" state) (VInt 0));
  Some [("cooldown_active", VBool (truthy (dget "active" state))); ("cooldown_until", dget "cooldown_until" state);
        ("cooldown_remaining_seconds", VInt remaining)].

Definition runtime_response_fields (runtime_state : dict) (path : option string) (cooldown : pyval) : py dict :=
  cooldown ← cooldown_fields cooldown;
  Some ([("path_key", por (vopt path) (dget "path_key" runtime_state));
         ("selection_mode", dget "selection_mode" runtime_state);
         ("active_target_id", dget "active_target_id" runtime_state);
         ("failover_supported", VBool (truthy (dget "failover_supported" runtime_state)))] ++ cooldown).
End Failure.
