(* ===== verification/WatchdogFacts.v ===== *)
(** * Facts about the watchdog's failure candidate

    What it takes to confirm a failure, that a pending recovery blocks it,
    that the compare-and-set operations act on exactly the row they checked
    whatever other processes do, the rolling history, the cooldown, and the
    confirmation of a persistent failure. *)
From stdpp Require Import base list strings pretty gmap.
From Stdlib Require Import ZArith Lia Ascii.
From S2P Require Import Prelude PyStr PyVal PyState PyTime WatchdogState WatchdogFailure.

Open Scope string_scope.
Open Scope Z_scope.
Open Scope list_scope.

(** ** The history *)

Lemma last_n_length {A} n (l : list A) : (length (last_n n l) <= Z.to_nat n)%nat.
Proof. unfold last_n. rewrite length_drop. lia. Qed.

Lemma last_n_last {A} n (l : list A) x : 0 < n -> exists l', last_n n (l ++ [x]) = l' ++ [x].
Proof.
  intros Hn. unfold last_n. rewrite length_app. cbn [length].
  destruct (decide (length l + 1 - Z.to_nat n <= length l)%nat) as [Hle|]; [|lia].
  rewrite drop_app_le by done. eauto.
Qed.

Section History.
Context `{ReprContainer}.

Lemma leading_good_le l : (leading_good l <= length l)%nat.
Proof. induction l as [|e l IH]; cbn [leading_good length]; [lia|]. destruct (is_degraded e); lia. Qed.

Lemma good_bad_bound l : (leading_good l + length (List.filter is_degraded l) <= length l)%nat.
Proof.
  induction l as [|e l IH]; cbn [leading_good List.filter length]; [lia|].
  destruct (is_degraded e); cbn [length]; [|lia].
  pose proof (List.filter_length_le is_degraded l). lia.
Qed.

Lemma filter_rev_length l : length (List.filter is_degraded (rev l)) = length (List.filter is_degraded l).
Proof. rewrite List.filter_rev. apply length_rev. Qed.

Lemma append_history_facts history entry max_checks :
  let h := _append_quality_history history entry max_checks in
  Z.of_nat (length h) <= Z.max 1 max_checks /\ last h = Some entry /\
  0 <= _quality_history_good_count h /\
  _quality_history_good_count h + _quality_history_bad_count h <= Z.of_nat (length h) /\
  (is_degraded entry = true -> _quality_history_good_count h = 0) /\
  (is_degraded entry = false -> 1 <= _quality_history_good_count h).
Proof.
  cbv zeta. unfold _append_quality_history. cbv zeta. set (h0 := match last history with Some _ => _ | None => _ end).
  pose proof (last_n_length (Z.max 1 max_checks) (h0 ++ [entry])) as Hlen.
  destruct (last_n_last (Z.max 1 max_checks) h0 entry ltac:(lia)) as [l' E]. rewrite E in *.
  split; [lia|]. split; [by rewrite last_snoc|].
  unfold _quality_history_good_count, _quality_history_bad_count. rewrite rev_app_distr. cbn [rev app leading_good].
  pose proof (good_bad_bound (entry :: rev l')) as Hb. cbn [leading_good List.filter length] in Hb.
  pose proof (filter_rev_length l') as Hr. rewrite length_rev in Hb.
  rewrite List.filter_app, !length_app. cbn [List.filter length].
  destruct (is_degraded entry); cbn [length] in *; split_all; lia || done.
Qed.

(** The rolling history is bounded and ends with the newest check:
    at most [max 1 max_checks] entries remain, the last is the one
    appended, and the good and bad counts partition a part of it; a
    degraded check resets the good count, a good one increases it. *)
Theorem append_history_spec history entry max_checks :
  let h := _append_quality_history history entry max_checks in
  Z.of_nat (length h) <= Z.max 1 max_checks /\ last h = Some entry /\
  0 <= _quality_history_good_count h /\
  _quality_history_good_count h + _quality_history_bad_count h <= Z.of_nat (length h) /\
  (is_degraded entry = true -> _quality_history_good_count h = 0) /\
  (is_degraded entry = false -> 1 <= _quality_history_good_count h).
Proof. exact (append_history_facts history entry max_checks). Qed.
End History.

(** ** Confirmation of a degraded server *)

Lemma db_access_memory {A} (f : string -> option wd_row -> A * option wd_row) w o w' :
  db_access f w = (o, w') -> w_memory w' = w_memory w.
Proof.
  unfold db_access. destruct (match w_turns w with [] => _ | _ => _ end) as [t rest].
  destruct (t_ok t); [destruct (f (t_now t) (t_others t (w_row w)))|]; by intros [= _ <-].
Qed.

(** A run that only reads and writes rows keeps the process's own candidate. *)
Lemma keeps_db {A} (f : string -> option wd_row -> A * option wd_row) : preserves w_memory (db_access f).
Proof. intros w. destruct (db_access f w) as [o w'] eqn:E. exact (db_access_memory f w o w' E). Qed.

#[export] Hint Resolve keeps_db : frame.

Lemma keeps_load strict : preserves w_memory (load_watchdog_runtime_state strict).
Proof. unfold load_watchdog_runtime_state. frame. Qed.

#[export] Hint Resolve keeps_load : frame.

Lemma keeps_update u : preserves w_memory (update_watchdog_runtime_state u).
Proof. unfold update_watchdog_runtime_state, ensure_watchdog_runtime_state_row. frame.  Qed.

#[export] Hint Resolve keeps_update : frame.

Lemma keeps_store o c : preserves w_memory (store_stalled o c).
Proof. unfold store_stalled. frame. Qed.

(** The candidate the process acts on: the durable one, else its own. *)
Definition acts_on (w : world) (state : wd_state) (candidate : option dict) : Prop :=
  candidate = match failure_candidate state with Some c => Some c | None => w_memory w end.

Lemma effective_candidate_inv state w c w' :
  effective_candidate state w = (Some c, w') -> acts_on w state c /\ w' = w.
Proof.
  unfold effective_candidate, acts_on. destruct (failure_candidate state).
  - intros [<- <-]%ret_inv. done.
  - unfold get_memory. unfold mbind, st_bind, st_get, mret, st_ret. by intros [= <- <-].
Qed.

Section Quality.
Context `{ReprContainer} (parse_timestamp : option string -> option datetime).
Context (active_server_id : option string) (active_check traffic_signal : dict)
  (confirm_seconds bad_checks_required window_checks window_bad_checks : Z) (path : option string)
  (now : datetime) (kind : string) (require_response : bool).

Abbreviation confirmation := (active_quality_degraded_confirmation parse_timestamp active_server_id active_check
  traffic_signal confirm_seconds bad_checks_required window_checks window_bad_checks path now kind require_response).

Definition the_observation : observation :=
  let server := norm_opt active_server_id in
  let collected_at := norm_val (dget "last_collected_at" traffic_signal) in
  Observation (norm_path path server) server collected_at
    (norm_val (por (dget "decision_id" traffic_signal) (VStr collected_at))).

Definition the_limits : quality_limits :=
  quality_limits_of confirm_seconds bad_checks_required window_checks window_bad_checks.

(** A refused or pending outcome is not a confirmation. *)
Lemma outcome_flag key flag pending reason rest :
  dget key (outcome key flag pending reason ++ rest) = VBool flag.
Proof. unfold outcome, dget. cbn [app dict_lookup]. by rewrite String.eqb_refl. Qed.

Definition confirmed (r : dict) : Prop := dget "confirmed" r = VBool true.

Lemma not_confirmed pending reason rest : ~ confirmed (outcome "confirmed" false pending reason ++ rest).
Proof. unfold confirmed. by rewrite outcome_flag. Qed.

Lemma quality_confirmed_window w r w' :
  confirmation w = (Some r, w') -> confirmed r ->
  w_memory w' = None /\
  exists state w1 c next first_seen history,
    load_watchdog_runtime_state true w = (Some state, w1) /\ acts_on w state (Some c) /\
    pending_of (Some c) = None /\ candidate_differs kind the_observation c = false /\
    next_quality_candidate parse_timestamp the_observation the_limits now active_check traffic_signal c =
      (next, first_seen, history) /\
    q_window the_limits <= Z.of_nat (length history) /\
    q_window_bad the_limits <= _quality_history_bad_count history /\
    q_bad_checks the_limits <= _quality_history_bad_count history.
Proof.
  intros Hrun Hc. unfold active_quality_degraded_confirmation in Hrun. fold the_observation in Hrun. fold the_limits in Hrun.
  destruct (_ || _ || _ || _ || _) in Hrun; [apply ret_inv in Hrun as [<- _]; by apply not_confirmed in Hc|].
  apply bind_inv in Hrun as (loaded & w1 & Hload & Hrun).
  apply try_inv in Hload as [Hload|(w0 & _ & Hload)].
  2: { apply ret_inv in Hload as [<- _]. apply ret_inv in Hrun as [<- _]. by apply not_confirmed in Hc. }
  apply bind_inv in Hload as (state & w2 & Hload & Hret). apply ret_inv in Hret as [<- ->].
  apply bind_inv in Hrun as (candidate & w2 & Heff & Hrun). apply effective_candidate_inv in Heff as [Hact ->].
  assert (Hact' : acts_on w state candidate).
  { unfold acts_on in *. by rewrite (moves_run _ _ _ _ _ (keeps_load true) Hload) in Hact. }
  destruct (is_set (pending_of candidate)) eqn:Ep in Hrun; [apply ret_inv in Hrun as [<- _]; by apply not_confirmed in Hc|].
  destruct (match drop_recovery candidate with Some _ => _ | None => _ end) as [c|] eqn:Econt in Hrun.
  2: { apply bind_inv in Hrun as ([s|] & w3 & _ & Hrun).
       - apply bind_inv in Hrun as (u & w4 & _ & Hrun). apply ret_inv in Hrun as [<- _]. by apply not_confirmed in Hc.
       - apply ret_inv in Hrun as [<- _]. by apply not_confirmed in Hc. }
  assert (Hc0 : candidate = Some c /\ candidate_differs kind the_observation c = false).
  { unfold drop_recovery in Econt. destruct (has_kind _ _); [done|]. destruct candidate as [c0|]; [|done].
    destruct (candidate_differs kind the_observation c0) eqn:Ed; [done|]. by injection Econt as ->. }
  destruct Hc0 as [-> Hdiff].
  destruct (next_quality_candidate _ _ _ _ _ _ _) as [[next first_seen] history] eqn:En in Hrun.
  apply bind_inv in Hrun as ([s|] & w3 & _ & Hrun); [|apply ret_inv in Hrun as [<- _]; by apply not_confirmed in Hc].
  apply bind_inv in Hrun as (u & w4 & _ & Hrun).
  destruct (_ <? q_bad_checks the_limits) eqn:E1 in Hrun; [apply ret_inv in Hrun as [<- _]; by apply not_confirmed in Hc|].
  destruct (_ || _) eqn:E2 in Hrun; [apply ret_inv in Hrun as [<- _]; by apply not_confirmed in Hc|].
  apply bind_inv in Hrun as ([s'|] & w5 & _ & Hrun); [|apply ret_inv in Hrun as [<- _]; by apply not_confirmed in Hc].
  apply bind_inv in Hrun as (u' & w6 & Hset & Hrun). apply ret_inv in Hrun as [_ ->].
  split; [by injection Hset as _ <-|].
  exists state, w1, c, next, first_seen, history. apply orb_false_iff in E2 as [E2 E3].
  apply Z.ltb_ge in E1, E2, E3. split_all; try done. by destruct (pending_of (Some c)).
Qed.

(** A degraded server is only confirmed on a full bad window.  A
    confirmation needs an earlier candidate of this kind, path and server
    without a pending recovery, whose history with this check has at least
    the required number of checks and of bad checks; the process's
    candidate is then cleared.  This holds whatever other processes do to
    the row and whichever accesses fail. *)
Theorem quality_confirmed_needs_window w r w' :
  confirmation w = (Some r, w') -> confirmed r ->
  w_memory w' = None /\
  exists state w1 c next first_seen history,
    load_watchdog_runtime_state true w = (Some state, w1) /\ acts_on w state (Some c) /\
    pending_of (Some c) = None /\ candidate_differs kind the_observation c = false /\
    next_quality_candidate parse_timestamp the_observation the_limits now active_check traffic_signal c =
      (next, first_seen, history) /\
    q_window the_limits <= Z.of_nat (length history) /\
    q_window_bad the_limits <= _quality_history_bad_count history /\
    q_bad_checks the_limits <= _quality_history_bad_count history.
Proof. exact (quality_confirmed_window w r w'). Qed.
End Quality.

(** ** A pending recovery blocks the confirmations *)
Section Pending.
Context `{ReprContainer} (parse_timestamp : option string -> option datetime).

(** While a recovery is pending, neither confirmation writes
    anything: the world is the one after loading (or the same, when the
    check cannot be evaluated), and the outcome is negative. *)
Theorem pending_recovery_blocks server check signal confirm bad window window_bad path now now' kind require required
    w state w1 candidate p r w' :
  load_watchdog_runtime_state true w = (Some state, w1) -> acts_on w state candidate ->
  pending_of candidate = Some p ->
  (active_quality_degraded_confirmation parse_timestamp server check signal confirm bad window window_bad path now kind
     require w = (Some r, w') -> (w' = w \/ w' = w1) /\ dget "confirmed" r = VBool false) /\
  (active_quality_recovery_confirmation server signal required window path now now' w = (Some r, w') ->
     w' = w1 /\ dget "recovered" r = VBool false).
Proof.
  intros Hload Hact Hp.
  assert (Htry : (st_try (state ← load_watchdog_runtime_state true; mret (Some state)) (mret None) : M (option wd_state)) w
    = (Some (Some state), w1)).
  { unfold st_try, mbind, st_bind. by rewrite Hload. }
  assert (Heff : forall c w2, effective_candidate state w1 = (Some c, w2) -> c = candidate /\ w2 = w1).
  { intros c w2 [Hc ->]%effective_candidate_inv. split; [|done]. unfold acts_on in *.
    rewrite (moves_run _ _ _ _ _ (keeps_load true) Hload) in Hc. congruence. }
  split; intros Hrun.
  - unfold active_quality_degraded_confirmation in Hrun.
    destruct (_ || _ || _ || _ || _) in Hrun; [apply ret_inv in Hrun as [<- <-]; split; [by left|apply outcome_flag]|].
    apply bind_inv in Hrun as (loaded & w2 & Hl & Hrun). rewrite Htry in Hl. injection Hl as <- <-.
    apply bind_inv in Hrun as (c & w2 & [-> ->]%Heff & Hrun). rewrite Hp in Hrun. cbn [is_set] in Hrun.
    apply ret_inv in Hrun as [<- <-]. split; [by right|apply outcome_flag].
  - unfold active_quality_recovery_confirmation in Hrun.
    apply bind_inv in Hrun as (loaded & w2 & Hl & Hrun). rewrite Htry in Hl. injection Hl as <- <-.
    apply bind_inv in Hrun as (c & w2 & [-> ->]%Heff & Hrun). rewrite Hp in Hrun. cbn [is_set] in Hrun.
    apply ret_inv in Hrun as [<- <-]. split; [done|apply outcome_flag].
Qed.
End Pending.

(** ** Compare and set *)

(** One access of the schedule: what others made of the row before it. *)
Lemma db_access_inv {A} (f : string -> option wd_row -> A * option wd_row) w a w' :
  db_access f w = (Some a, w') ->
  exists now row, f now row = (a, w_row w') /\ w_memory w' = w_memory w.
Proof.
  unfold db_access. destruct (match w_turns w with [] => _ | _ => _ end) as [t rest].
  destruct (t_ok t); [|done]. destruct (f (t_now t) (t_others t (w_row w))) as [x row'] eqn:E.
  intros [= <- <-]. by exists (t_now t), (t_others t (w_row w)).
Qed.

Lemma pyval_eqb_true v : forall w, pyval_eqb v w = true -> v = w.
Proof.
  revert v. fix IH 1. intros [|b|n|s|l|d] [|b'|n'|s'|l'|d']; cbn [pyval_eqb]; try done.
  - by intros ->%eqb_prop.
  - by intros ->%Z.eqb_eq.
  - by intros ->%String.eqb_eq.
  - intros E. f_equal. revert l' E. induction l as [|x l IHl]; intros [|y l']; try done.
    intros [Ex El]%andb_prop. f_equal; [by apply IH|by apply IHl].
  - intros E. f_equal. revert d' E. induction d as [|[k x] d IHd]; intros [|[k' y] d']; try done.
    intros [[Ek Ex]%andb_prop Ed]%andb_prop. apply String.eqb_eq in Ek. subst k'.
    f_equal; [f_equal; by apply IH|by apply IHd].
Qed.

Lemma cell_is_true c c' : cell_is c c' = true -> c = c'.
Proof.
  destruct c, c'; cbn [cell_is]; try done; [|by intros ->%String.eqb_eq].
  intros E. f_equal. by apply pyval_eqb_true.
Qed.

(** The incident a row holds. *)
Definition row_pending (r : wd_row) : pyval := current_pending (_json_loads_dict (row_candidate r)).

(** The rows a run of two or three statements finds: what the others leave
    before its [ensure], before its [SELECT] and before its [UPDATE]. *)
Definition turn_at (n : nat) (w : world) : turn := default quiet (w_turns w !! n).

Definition row_found (w : world) : option wd_row := t_others (turn_at 0 w) (w_row w).

Definition row_read (w : world) : option wd_row :=
  t_others (turn_at 1 w) (Some (default (new_row (t_now (turn_at 0 w))) (row_found w))).

Definition row_updated (w : world) : option wd_row := t_others (turn_at 2 w) (row_read w).

(** The [UPDATE] finds the row with the very text that was read, and that
    text holds the expected incident. *)
Definition swaps (expected : option dict) (w : world) (r : wd_row) : Prop :=
  t_ok (turn_at 0 w) = true /\ t_ok (turn_at 1 w) = true /\ t_ok (turn_at 2 w) = true /\
  row_updated w = Some r /\ cell_is (row_candidate r) (row_raw (row_read w)) = true /\
  py_eq (row_pending r) (vdict expected) = true.

Lemma db_access_run {A} (f : string -> option wd_row -> A * option wd_row) w :
  db_access f w =
  let row := t_others (turn_at 0 w) (w_row w) in
  let rest := World (if t_ok (turn_at 0 w) then (f (t_now (turn_at 0 w)) row).2 else row)
                (w_memory w) (tail (w_turns w)) in
  (if t_ok (turn_at 0 w) then Some (f (t_now (turn_at 0 w)) row).1 else None, rest).
Proof. unfold db_access, turn_at. destruct (w_turns w) as [|t ts]; cbn; [by destruct (f _ _)|]. destruct (t_ok t); [by destruct (f _ _)|done]. Qed.

Lemma turn_at_tail n row memory w : turn_at n (World row memory (tail (w_turns w))) = turn_at (S n) w.
Proof. unfold turn_at. cbn. by destruct (w_turns w). Qed.

Lemma compare_and_set_run expected pending w :
  (exists w' r, compare_and_set_recovery_pending expected pending w = (Some true, w') /\ swaps expected w r /\
     w_memory w' = w_memory w /\
     w_row w' = Some (set_row_candidate
       (with_pending (default [] (_json_loads_dict (row_candidate r))) pending) (t_now (turn_at 2 w)) r)) \/
  (exists w', compare_and_set_recovery_pending expected pending w = (Some false, w') /\
     (forall r, ~ swaps expected w r) /\ w_memory w' = w_memory w /\
     (w_row w' = row_found w \/ w_row w' = row_read w \/ w_row w' = row_updated w)).
Proof.
  unfold swaps, row_updated, row_read, row_found, compare_and_set_recovery_pending, st_try,
    ensure_watchdog_runtime_state_row, guarded_update, mbind, st_bind, mret, st_ret.
  rewrite db_access_run. cbn zeta.
  destruct (t_ok (turn_at 0 w)); [|right; eexists; split_and!; [done|by intros r' (? & ? & ? & ? & ?)|done|by left]].
  rewrite db_access_run, turn_at_tail. cbn [fst snd w_row w_memory w_turns].
  set (read := t_others (turn_at 1 w) _).
  destruct (t_ok (turn_at 1 w)); [|right; eexists; split_and!; [done|by intros r' (? & ? & ? & ? & ?)|done|by right; left]].
  destruct (py_eq (current_pending _) (vdict expected)) eqn:Eq; cbn [negb]; cycle 1.
  { right. eexists. split_and!; [done| |done|by right; left].
    intros r (_ & _ & _ & _ & Hc%cell_is_true & Hp). unfold row_pending in Hp. rewrite Hc in Hp. congruence. }
  rewrite db_access_run. change (tail (tail (w_turns w))) with (tail (w_turns (World read (w_memory w) (tail (w_turns w))))).
  rewrite !turn_at_tail. cbn [fst snd w_row w_memory w_turns].
  destruct (t_ok (turn_at 2 w)); [|right; eexists; split_and!; [done|by intros r' (? & ? & ? & ? & ?)|done|by right; right]].
  destruct (t_others (turn_at 2 w) read) as [r|] eqn:Er; [|right; eexists; split_and!; [done|by intros r' (? & ? & ? & ? & ?)|done|by right; right]].
  destruct (cell_is (row_candidate r) (row_raw read)) eqn:Ec;
    [|right; eexists; split_and!; [done|intros r' (_ & _ & _ & [= <-] & ? & _); congruence|done|by right; right]].
  left. pose proof (cell_is_true _ _ Ec) as Hc. eexists _, r. unfold row_pending. rewrite Hc in Ec |- *. by split_and!.
Qed.

(** C37: compare-and-set of the pending recovery is atomic, whatever other
    writers do between its three statements ([row_found], [row_read] and
    [row_updated] are the rows they leave for its [ensure], its [SELECT] and
    its [UPDATE]) and whichever of the statements fails.  It never raises
    and leaves the process's own candidate alone.  It answers true exactly
    when no statement failed and the row the [UPDATE] found has the very text
    that was read and holds the expected incident; that row is then the one
    that is stored, with only its candidate, rewritten to the new incident,
    and its time stamp changed.  Otherwise the row is one of those the others
    left: nothing of the new incident was written. *)
Theorem compare_and_set_atomic expected pending w :
  exists b w', compare_and_set_recovery_pending expected pending w = (Some b, w') /\ w_memory w' = w_memory w /\
    (b = true <-> exists r, swaps expected w r) /\
    (b = true -> exists r, row_updated w = Some r /\ py_eq (row_pending r) (vdict expected) = true /\
       w_row w' = Some (set_row_candidate
         (with_pending (default [] (_json_loads_dict (row_candidate r))) pending) (t_now (turn_at 2 w)) r)) /\
    (b = false -> w_row w' = row_found w \/ w_row w' = row_read w \/ w_row w' = row_updated w).
Proof.
  destruct (compare_and_set_run expected pending w) as [(w' & r & E & Hs & Hm & Hr)|(w' & E & Hn & Hm & Hr)].
  - exists true, w'. split_and!; try done; [by split; [exists r|]|]. intros _. exists r. unfold swaps in Hs. naive_solver.
  - exists false, w'. split_and!; try done. split; [done|]. intros [r Hs]. by destruct (Hn r).
Qed.

(** Completing a recovery is atomic in the same sense: it never raises,
    and when it answers true the row it overwrote held exactly the claimed
    incident; the row then has no path, no decision and no incident, and the
    process's candidate is the durable one. *)
Theorem complete_recovery_atomic expected w :
  (exists b w', complete_recovery_pending expected w = (Some b, w')) /\
  forall w', complete_recovery_pending expected w = (Some true, w') ->
    exists now r, py_eq (row_pending r) (VDict expected) = true /\
      let kept := preserved_quality (_json_loads_dict (row_candidate r)) in
      w_row w' = Some (assign (set_path_candidate_decision None kept None) now r) /\ w_memory w' = kept.
Proof.
  split.
  - apply try_total.
  - intros w' Hrun. unfold complete_recovery_pending in Hrun.
    apply try_inv in Hrun as [Hrun|(w1 & _ & Hrun)]; [|by apply ret_inv in Hrun as [? _]].
    apply bind_inv in Hrun as (u & w1 & _ & Hrun). apply bind_inv in Hrun as (raw & w2 & _ & Hrun).
    destruct (py_eq _ _) eqn:Eq in Hrun; cbn [negb] in Hrun; [|by apply ret_inv in Hrun as [? _]].
    apply bind_inv in Hrun as (n & w3 & Hg & Hrun).
    destruct (n =? 1) eqn:Hn in Hrun; cbn [negb] in Hrun; [|by apply ret_inv in Hrun as [? _]]. apply Z.eqb_eq in Hn. subst n.
    apply bind_inv in Hrun as (u' & w4 & Hset & Hrun). apply ret_inv in Hrun as [_ <-]. injection Hset as _ <-.
    apply db_access_inv in Hg as (now & row & Hf & _). destruct row as [r|]; [|done].
    destruct (cell_is (row_candidate r) raw) eqn:Ec; [|done]. apply cell_is_true in Ec. subst raw.
    injection Hf as Hf. exists now, r. split; [exact Eq|]. cbv zeta. cbn [w_row w_memory]. by rewrite <- Hf.
Qed.

(** ** Windows that can never fill *)

Section Windows.
Context `{ReprContainer} (parse_timestamp : option string -> option datetime).

Lemma next_quality_history o q now check signal c next first_seen history :
  next_quality_candidate parse_timestamp o q now check signal c = (next, first_seen, history) ->
  exists h0, history = _append_quality_history h0 (_active_quality_history_entry now (o_decision o) true check signal) (q_window q).
Proof. unfold next_quality_candidate. cbv zeta. intros [= <- <- <-]. eauto. Qed.

Lemma quality_window_pos confirm bad window window_bad : 2 <= q_window (quality_limits_of confirm bad window window_bad).
Proof. unfold quality_limits_of. cbn [q_window]. lia. Qed.

(** When more bad checks are required than the window holds, no
    degraded server is ever confirmed. *)
Theorem oversized_bad_checks_never_confirm server check signal confirm bad window window_bad path now kind require w r w' :
  Z.max 2 (int_or window 4) < int_or bad 2 ->
  active_quality_degraded_confirmation parse_timestamp server check signal confirm bad window window_bad path now kind
    require w = (Some r, w') ->
  dget "confirmed" r <> VBool true.
Proof.
  intros Hlt Hrun Hc. apply quality_confirmed_window in Hrun as (_ & st & w1 & c & next & fs & h & _ & _ & _ & _ & Hn & _ & _ & Hbad); [|exact Hc].
  apply next_quality_history in Hn as (h0 & ->).
  pose proof (append_history_facts h0 (_active_quality_history_entry now (o_decision (the_observation server signal path)) true check signal)
    (q_window (the_limits confirm bad window window_bad))) as (Hlen & _ & Hg & Hsum & _).
  pose proof (quality_window_pos confirm bad window window_bad) as Hw. unfold the_limits in *.
  assert (Hq : q_window (quality_limits_of confirm bad window window_bad) = Z.max 2 (int_or window 4)) by done.
  assert (Hb : q_bad_checks (quality_limits_of confirm bad window window_bad) = Z.max 1 (int_or bad 2)) by done. lia.
Qed.
End Windows.

(** ** Stalled traffic *)
Section Stalled.
Context `{ReprContainer} (parse_timestamp : option string -> option datetime).

(** A traffic failure is only confirmed on a later snapshot of a
    candidate of the same path: the decision is new, the candidate is at
    least [max 30 confirm_seconds] old, and the count of stalled snapshots
    has reached two.  The pending recovery, if any, survives. *)
Theorem traffic_confirmed_needs_age server signal confirm path now w r w' :
  traffic_failure_confirmation parse_timestamp server signal confirm path now w = (Some r, w') ->
  dget "confirmed" r = VBool true ->
  exists state w1 c first_seen previous,
    load_watchdog_runtime_state false w = (Some state, w1) /\ acts_on w state (Some c) /\
    dget "path_key" c = VStr (norm_path path (norm_opt server)) /\
    py_eq (dget "decision_id" c) (VStr (o_decision (the_observation server signal path))) = false /\
    first_seen = default now (parse_timestamp (Some (py_str (por (dget "first_seen_at" c) (VStr ""))))) /\
    Z.max 30 (int_or confirm 60) <= age_of now first_seen /\
    py_int (por (dget "stalled_snapshots" c) (VInt 1)) = Some previous /\ 2 <= previous + 1 /\
    w_memory w' = option_map (fun p => recovery_only (VStr (norm_path path (norm_opt server))) (VDict p)) (pending_of (Some c)).
Proof.
  intros Hrun Hc. unfold traffic_failure_confirmation in Hrun. fold (the_observation server signal path) in Hrun.
  set (o := the_observation server signal path) in *.
  destruct (_ || _ || _ || _) in Hrun.
  { apply bind_inv in Hrun as (u & w1 & _ & Hrun). apply ret_inv in Hrun as [<- _]. by rewrite outcome_flag in Hc. }
  apply bind_inv in Hrun as (state & w1 & Hload & Hrun).
  apply bind_inv in Hrun as (candidate & w2 & Heff & Hrun). apply effective_candidate_inv in Heff as [Hact ->].
  assert (Hact' : acts_on w state candidate).
  { unfold acts_on in *. by rewrite (moves_run _ _ _ _ _ (keeps_load false) Hload) in Hact. }
  destruct (match drop_recovery candidate with Some _ => _ | None => _ end) as [c|] eqn:Econt in Hrun.
  2: { apply bind_inv in Hrun as (u & w3 & _ & Hrun). apply bind_inv in Hrun as (u' & w4 & _ & Hrun).
       apply ret_inv in Hrun as [<- _]. by rewrite outcome_flag in Hc. }
  assert (Hc0 : candidate = Some c /\ py_eq (dget "path_key" c) (VStr (o_path o)) = true).
  { unfold drop_recovery in Econt. destruct (has_kind _ _); [done|]. destruct candidate as [c0|]; [|done].
    destruct (py_eq (dget "path_key" c0) (VStr (o_path o))) eqn:Ed; [|done]. by injection Econt as ->. }
  destruct Hc0 as [-> Hpath].
  destruct (py_eq (dget "decision_id" c) (VStr (o_decision o))) eqn:Edec in Hrun.
  { apply bind_inv in Hrun as (u & w3 & _ & Hrun). apply bind_inv in Hrun as (n & w4 & _ & Hrun).
    apply ret_inv in Hrun as [<- _]. by rewrite outcome_flag in Hc. }
  apply bind_inv in Hrun as (previous & w3 & Hint & Hrun). apply bind_inv in Hrun as (u & w4 & _ & Hrun).
  apply bind_inv in Hrun as (u' & w5 & _ & Hrun).
  destruct (_ <? _) eqn:E1 in Hrun; [apply ret_inv in Hrun as [<- _]; by rewrite outcome_flag in Hc|].
  destruct (_ <? _) eqn:E2 in Hrun; [apply ret_inv in Hrun as [<- _]; by rewrite outcome_flag in Hc|].
  apply bind_inv in Hrun as (u2 & w6 & Hset & Hrun). apply bind_inv in Hrun as (u3 & w7 & Hstore & Hrun).
  apply ret_inv in Hrun as [_ <-]. apply Z.ltb_ge in E1, E2. unfold st_py in Hint. injection Hint as Hint _.
  eexists state, w1, c, _, previous. split_all; [done|done| |exact Edec|reflexivity|exact E1|exact Hint|exact E2|].
  - destruct (dget "path_key" c); try done. cbn [py_eq] in Hpath. apply String.eqb_eq in Hpath. by subst.
  - rewrite (moves_run _ _ _ _ _ (keeps_store _ _) Hstore). by injection Hset as _ <-.
Qed.
End Stalled.

(** ** The confirmation delay of the quality check *)
Section Delay.
Context `{ReprContainer} (parse_timestamp : option string -> option datetime).

Definition flag_of (res : option dict * world) : option pyval * world :=
  (option_map (dget "confirmed") res.1, res.2).

(** The confirmation delay is not enforced: two runs that differ only
    in [confirm_seconds] take the same decision and leave the same world. *)
Theorem confirm_seconds_unused server check signal c1 c2 bad window window_bad path now kind require w :
  flag_of (active_quality_degraded_confirmation parse_timestamp server check signal c1 bad window window_bad path now kind require w) =
  flag_of (active_quality_degraded_confirmation parse_timestamp server check signal c2 bad window window_bad path now kind require w).
Proof.
  unfold active_quality_degraded_confirmation. fold (the_observation server signal path).
  set (o := the_observation server signal path).
  set (q1 := quality_limits_of c1 bad window window_bad). set (q2 := quality_limits_of c2 bad window window_bad).
  assert (En : forall c, next_quality_candidate parse_timestamp o q1 now check signal c =
    next_quality_candidate parse_timestamp o q2 now check signal c) by reflexivity.
  change (q_bad_checks q2) with (q_bad_checks q1). change (q_window q2) with (q_window q1).
  change (q_window_bad q2) with (q_window_bad q1).
  destruct (_ || _ || _ || _ || _); [done|].
  unfold mbind, st_bind. destruct (st_try _ _ w) as [[[state|]|] w1]; [|done..].
  destruct (effective_candidate state w1) as [[candidate|] w2]; [|done].
  destruct (is_set (pending_of candidate)); [done|].
  destruct (match drop_recovery candidate with Some _ => _ | None => _ end) as [c|].
  - rewrite En. destruct (next_quality_candidate parse_timestamp o q2 now check signal c) as [[next fs] h].
    destruct (update_watchdog_runtime_state _ w2) as [[[s|]|] w3]; [|done..].
    destruct (set_memory (Some next) w3) as [[u|] w4]; [|done].
    destruct (_ <? _); [done|]. destruct (_ || _); [done|].
    destruct (update_watchdog_runtime_state _ w4) as [[[s'|]|] w5]; [|done..].
    destruct (set_memory None w5) as [[u'|] w6]; done.
  - destruct (update_watchdog_runtime_state _ w2) as [[[s|]|] w3]; [|done..].
    destruct (set_memory _ w3) as [[u|] w4]; done.
Qed.
End Delay.

(** ** Concrete runs *)
Section Runs.
(** No container is ever printed in these runs. *)
#[local] Instance no_repr : ReprContainer := fun _ => "".

Definition t0 : datetime := Datetime 1709251199000000 0.
Definition after (s : Z) : datetime := Datetime (dt_us t0 + s * 1000000) 0.

Definition idle_world : world := World None None [].

Definition sample_signal (n : Z) : dict :=
  [("last_collected_at", VStr (isoformat (after n))); ("decision_id", VStr ("d" +:+ py_str_int n));
   ("response_observed", VBool true); ("traffic_stalled", VBool true)].

Definition slow_check : dict := [("ok", VBool false); ("status", VStr "degraded_latency")].

(** One degraded check of server s1, [s] seconds after the first. *)
Definition degraded_check (s : Z) : M dict :=
  active_quality_degraded_confirmation _parse_timestamp (Some "s1") slow_check (sample_signal s) 180 2 4 3
    None (after s) "active_quality_degraded" true.

Definition run_world {A} (m : M A) (w : world) : world := (m w).2.
Definition run_value {A} (m : M A) (w : world) : option A := (m w).1.

Definition degraded_world : world :=
  run_world (_ ← degraded_check 0; _ ← degraded_check 60; degraded_check 120) idle_world.

(** Four bad checks in a row confirm; the window is full. *)
Lemma quality_confirmed_needs_window_witness :
  exists r w', degraded_check 180 degraded_world = (Some r, w') /\ dget "confirmed" r = VBool true /\ w_memory w' = None.
Proof.
  destruct (degraded_check 180 degraded_world) as [[r|] w'] eqn:E; [|vm_compute in E; discriminate].
  assert (Hc : dget "confirmed" r = VBool true) by (vm_compute in E; injection E as <- <-; reflexivity).
  exists r, w'. split; [reflexivity|]. split; [exact Hc|].
  exact (proj1 (quality_confirmed_needs_window _parse_timestamp _ _ _ _ _ _ _ _ _ _ _ _ _ _ E Hc)).
Defined.

Definition sample_pending : dict := [("operation_id", VStr "op1"); ("path_key", VStr "s1")].

Definition pending_world : world := run_world (set_recovery_pending (Some sample_pending)) degraded_world.

Lemma pending_recovery_blocks_witness :
  exists r w', degraded_check 180 pending_world = (Some r, w') /\ dget "confirmed" r = VBool false.
Proof.
  destruct (load_watchdog_runtime_state true pending_world) as [[state|] w1] eqn:El; [|vm_compute in El; discriminate].
  destruct (degraded_check 180 pending_world) as [[r|] w'] eqn:E; [|vm_compute in E; discriminate].
  assert (Hp : exists p, pending_of (match failure_candidate state with Some c => Some c | None => w_memory pending_world end) = Some p).
  { vm_compute in El. injection El as <- <-. eexists. vm_compute. reflexivity. }
  destruct Hp as [p Hp].
  exists r, w'. split; [reflexivity|].
  exact (proj2 (proj1 (pending_recovery_blocks _parse_timestamp _ _ _ _ _ _ _ _ (after 180) (after 180) _ _ 2
    _ _ _ _ _ r w' El eq_refl Hp) E)).
Defined.

(** Another process replaced the incident between the two statements. *)
Definition thief : turn :=
  Turn (option_map (set_row_candidate (Some [("recovery_pending", VDict [("operation_id", VStr "op2")])]) "")) true "".

Lemma compare_and_set_atomic_witness :
  (exists w' r, compare_and_set_recovery_pending (Some sample_pending) None pending_world = (Some true, w') /\
     row_updated pending_world = Some r /\ py_eq (row_pending r) (VDict sample_pending) = true) /\
  exists w', compare_and_set_recovery_pending (Some sample_pending) None
    (World (w_row pending_world) None [quiet; quiet; thief]) = (Some false, w') /\
    (w_row w' = row_found pending_world \/ w_row w' = row_read pending_world \/
     w_row w' = t_others thief (row_read pending_world)).
Proof.
  split.
  - destruct (compare_and_set_atomic (Some sample_pending) None pending_world) as (b & w' & E & _ & _ & Ht & _).
    assert (Hb : b = true) by (vm_compute in E; by injection E). subst b.
    destruct (Ht eq_refl) as (r & Hr & Hp & _). exists w', r. split; [exact E|]. by split.
  - destruct (compare_and_set_atomic (Some sample_pending) None
      (World (w_row pending_world) None [quiet; quiet; thief])) as (b & w' & E & _ & _ & _ & Hf).
    assert (Hb : b = false) by (vm_compute in E; by injection E). subst b.
    exists w'. split; [exact E|exact (Hf eq_refl)].
Defined.

Lemma complete_recovery_atomic_witness :
  exists w', complete_recovery_pending sample_pending pending_world = (Some true, w') /\
    exists r, py_eq (row_pending r) (VDict sample_pending) = true.
Proof.
  destruct (complete_recovery_pending sample_pending pending_world) as [[[]|] w'] eqn:E;
    try (vm_compute in E; discriminate).
  exists w'. split; [reflexivity|].
  destruct (proj2 (complete_recovery_atomic sample_pending pending_world) w' E) as (n & r & Hr & _).
  exists r. exact Hr.
Defined.

Lemma oversized_bad_checks_never_confirm_witness :
  exists r w', active_quality_degraded_confirmation _parse_timestamp (Some "s1") slow_check (sample_signal 180) 180 20 4 3
    None (after 180) "active_quality_degraded" true degraded_world = (Some r, w') /\ dget "confirmed" r <> VBool true.
Proof.
  destruct (active_quality_degraded_confirmation _parse_timestamp (Some "s1") slow_check (sample_signal 180) 180 20 4 3
    None (after 180) "active_quality_degraded" true degraded_world) as [[r|] w'] eqn:E; [|vm_compute in E; discriminate].
  exists r, w'. split; [reflexivity|].
  apply (oversized_bad_checks_never_confirm _parse_timestamp _ _ _ _ 20 4 _ _ _ _ _ _ _ w' eq_refl E).
Defined.

(** One stalled snapshot of server s1. *)
Definition stalled_snapshot (s : Z) : M dict :=
  traffic_failure_confirmation _parse_timestamp (Some "s1") (sample_signal s) 60 None (after s).

Lemma traffic_confirmed_needs_age_witness :
  exists r w' c first_seen, stalled_snapshot 90 (run_world (stalled_snapshot 0) idle_world) = (Some r, w') /\
    dget "path_key" c = VStr "s1" /\ 60 <= age_of (after 90) first_seen.
Proof.
  destruct (stalled_snapshot 90 (run_world (stalled_snapshot 0) idle_world)) as [[r|] w'] eqn:E; [|vm_compute in E; discriminate].
  assert (Hc : dget "confirmed" r = VBool true) by (vm_compute in E; injection E as <- <-; reflexivity).
  destruct (traffic_confirmed_needs_age _parse_timestamp _ _ _ _ _ _ _ _ E Hc)
    as (state & w1 & c & fs & prev & _ & _ & Hp & _ & _ & Ha & _).
  exists r, w', c, fs. split; [reflexivity|]. split; [exact Hp|exact Ha].
Defined.

(** One snapshot can be enough: when the candidate is that of the
    quality check of the same path, it is taken for a first stalled
    snapshot, and the first real one confirms the traffic failure with
    "stalled_snapshots" 2. *)
Theorem quality_candidate_confirms_stall :
  let w := run_world (degraded_check 0) idle_world in
  exists r, run_value (stalled_snapshot 90) w = Some r /\
    dget "confirmed" r = VBool true /\ dget "stalled_snapshots" r = VInt 2.
Proof. vm_compute. eexists. split; [reflexivity|]. split; reflexivity. Qed.

(** A cleared incident comes back: after a reset has copied the
    pending recovery into the process, clearing the durable one leaves the
    copy, and the next reset writes it to the row again. *)
Theorem cleared_incident_returns :
  let before := (_ ← set_recovery_pending (Some sample_pending); _ ← reset_traffic_failure_candidate;
                 _ ← set_recovery_pending None; get_recovery_pending) in
  run_value before idle_world = Some None /\
  run_value (_ ← before; _ ← reset_stalled_traffic_failure_candidate; get_recovery_pending) idle_world =
    Some (Some sample_pending).
Proof. vm_compute. split; reflexivity. Qed.
End Runs.
