(* ===== verification/WatchdogLiveness.v ===== *)
(** * Undisturbed runs of the watchdog

    With an empty schedule: what loads and updates return, that the stored
    candidate reads back as written (keys sorted), the cooldown after a
    failover, and that a server that keeps failing its checks is confirmed. *)
From stdpp Require Import base list strings pretty gmap sorting.
From Stdlib Require Import ZArith Lia Ascii.
From S2P Require Import Prelude PyStr PyVal PyState PyTime WatchdogState WatchdogFailure WatchdogFacts.

Open Scope string_scope.
Open Scope Z_scope.
Open Scope list_scope.

(** ** Sorted keys *)

Lemma sort_by_sorted_id {A} (leb : A -> A -> bool) l :
  StronglySorted (fun a b => leb a b = true) l -> sort_by leb l = l.
Proof.
  induction 1 as [|x l Hs IH Hx]; [done|]. cbn [sort_by]. rewrite IH.
  destruct l as [|y l]; [done|]. cbn [insert_by]. inversion Hx as [|? ? E _]; subst. by rewrite E.
Qed.

Lemma key_leb_total a b : key_leb a b = true \/ key_leb b a = true.
Proof. apply py_leb_total. Qed.

Lemma key_leb_trans a b c : key_leb a b = true -> key_leb b c = true -> key_leb a c = true.
Proof. apply py_leb_trans. Qed.

Definition sorted_dict (d : dict) : dict := sort_by key_leb (map (fun kv => (kv.1, sort_keys kv.2)) d).

Lemma sort_keys_dict d : sort_keys (VDict d) = VDict (sorted_dict d).
Proof. reflexivity. Qed.

Lemma sort_keys_idem v : sort_keys (sort_keys v) = sort_keys v.
Proof.
  revert v. fix IH 1. intros [|b|n|s|l|d]; try reflexivity.
  - cbn [sort_keys]. f_equal. induction l as [|x l IHl]; [done|]. cbn [map]. by rewrite IH, IHl.
  - rewrite !sort_keys_dict. f_equal. unfold sorted_dict.
    set (f := fun kv : string * pyval => (kv.1, sort_keys kv.2)).
    assert (Hid : Forall (fun kv => f kv = kv) (sort_by key_leb (map f d))).
    { rewrite sort_by_perm. induction d as [|[k x] d IHd]; cbn [map]; constructor; [|done].
      unfold f. cbn [fst snd]. by rewrite IH. }
    assert (Hm : map f (sort_by key_leb (map f d)) = sort_by key_leb (map f d)).
    { revert Hid. generalize (sort_by key_leb (map f d)). clear. induction 1 as [|kv l Hk _ IHl]; [done|].
      cbn [map]. by rewrite Hk, IHl. }
    rewrite Hm. apply sort_by_sorted_id, sort_by_sorted; [apply key_leb_total|apply key_leb_trans].
Qed.

Lemma pyval_eqb_refl v : pyval_eqb v v = true.
Proof.
  revert v. fix IH 1. intros [|b|n|s|l|d]; cbn [pyval_eqb]; [done|by destruct b|apply Z.eqb_refl|apply String.eqb_refl| |].
  - induction l as [|x l IHl]; [done|]. by rewrite IH, IHl.
  - induction d as [|[k x] d IHd]; [done|]. by rewrite String.eqb_refl, IH, IHd.
Qed.

Lemma cell_is_refl c : cell_is c c = true.
Proof. destruct c; cbn [cell_is]; [done|apply pyval_eqb_refl|apply String.eqb_refl]. Qed.

(** What is stored reads back with its keys sorted, and storing that again
    writes the same text. *)
Lemma loads_dumps d : _json_loads_dict (_json_dumps_dict (Some d)) = Some (sorted_dict d).
Proof. reflexivity. Qed.

Lemma dumps_sorted d : _json_dumps_dict (Some (sorted_dict d)) = _json_dumps_dict (Some d).
Proof. cbn [_json_dumps_dict]. rewrite <- sort_keys_dict. f_equal. apply sort_keys_idem. Qed.

Lemma dict_lookup_perm d e k : NoDup (map fst d) -> d ≡ₚ e -> dict_lookup k d = dict_lookup k e.
Proof.
  intros Hnd Hp. induction Hp as [|[k0 v0] d e Hp IH|[k0 v0] [k1 v1] d|d e f Hp1 IH1 Hp2 IH2].
  - done.
  - cbn [dict_lookup]. inversion Hnd; subst. by rewrite IH.
  - cbn [dict_lookup]. inversion Hnd as [|? ? Hn _]; subst. cbn [map fst] in Hn.
    destruct (String.eqb_spec k k0) as [E0|], (String.eqb_spec k k1) as [E1|]; try done.
    exfalso. apply Hn. subst. by left.
  - rewrite IH1 by done. apply IH2. by rewrite <- Hp1.
Qed.

Lemma dict_lookup_map (f : pyval -> pyval) (d : dict) k :
  dict_lookup k (map (fun kv => (kv.1, f kv.2)) d) = option_map f (dict_lookup k d).
Proof. induction d as [|[k0 v0] d IH]; cbn [map dict_lookup fst snd]; [done|]. by destruct (String.eqb k k0). Qed.

Lemma map_fst_values (f : pyval -> pyval) (d : dict) : map fst (map (fun kv => (kv.1, f kv.2)) d) = map fst d.
Proof. rewrite map_map. by apply map_ext. Qed.

Lemma dget_sorted k d : NoDup (map fst d) -> dget k (sorted_dict d) = sort_keys (dget k d).
Proof.
  intros Hnd. unfold dget, sorted_dict. rewrite <- (dict_lookup_perm (map (fun kv => (kv.1, sort_keys kv.2)) d)).
  - rewrite dict_lookup_map. by destruct (dict_lookup k d).
  - by rewrite map_fst_values.
  - by rewrite sort_by_perm.
Qed.

Lemma sorted_nodup d : NoDup (map fst d) -> NoDup (map fst (sorted_dict d)).
Proof. intros Hnd. unfold sorted_dict. rewrite sort_by_perm. by rewrite map_fst_values. Qed.

Lemma dset_keys k v d : map fst (dset k v d) = if decide (k ∈ map fst d) then map fst d else map fst d ++ [k].
Proof.
  induction d as [|[k0 v0] d IH]; cbn [dset map fst]; [done|].
  destruct (String.eqb_spec k k0) as [->|Hne]; cbn [map fst].
  - rewrite decide_True by by left. done.
  - rewrite IH. case_decide as Hin.
    + rewrite decide_True by by right. done.
    + rewrite decide_False; [done|]. by intros [?|?]%elem_of_cons.
Qed.

Lemma dset_nodup k v d : NoDup (map fst d) -> NoDup (map fst (dset k v d)).
Proof.
  intros Hnd. rewrite dset_keys. case_decide; [done|]. apply NoDup_app. split; [done|].
  split; [|apply NoDup_singleton]. intros x Hx Hk. apply list_elem_of_singleton in Hk. by subst x.
Qed.

(** ** Quiet worlds *)

Lemma quiet_access {A} (f : string -> option wd_row -> A * option wd_row) row mem :
  db_access f (World row mem []) = (Some (f "" row).1, World (f "" row).2 mem []).
Proof. unfold db_access. cbn [w_turns t_others t_ok t_now quiet w_row w_memory]. by destruct (f "" row). Qed.

Lemma quiet_load strict row mem :
  load_watchdog_runtime_state strict (World row mem []) = (Some (row_state row), World row mem []).
Proof. unfold load_watchdog_runtime_state, st_try. destruct strict; by rewrite quiet_access. Qed.

(** An update of a quiet world, once the row is there. *)
Definition the_row (row : option wd_row) : wd_row := default (new_row "") row.

Lemma quiet_update u row mem :
  has_assignments u = true ->
  update_watchdog_runtime_state u (World row mem []) =
    let r := the_row row in
    if where_holds u r then (Some (Some (state_of_row (assign u "" r))), World (Some (assign u "" r)) mem [])
    else (Some (if conditional u then None else Some (state_of_row r)), World (Some r) mem []).
Proof.
  intros Ha. unfold update_watchdog_runtime_state, st_try, ensure_watchdog_runtime_state_row, mbind, st_bind.
  rewrite quiet_access. cbn [fst snd]. rewrite Ha. cbn [negb]. rewrite quiet_access. fold (the_row row).
  unfold update_statement. cbv zeta. destruct (where_holds u (the_row row)); cbn [fst snd].
  - change (1 =? 1) with true. cbn [negb]. rewrite andb_false_r. by rewrite quiet_load.
  - change (0 =? 1) with false. cbn [negb]. rewrite andb_true_r. destruct (conditional u); [done|]. by rewrite quiet_load.
Qed.

(** ** The cooldown *)
Section Cooldown.
Context (parse_timestamp : option string -> option datetime).

Lemma quiet_cooldown r mem later until :
  row_cooldown_until r = Some (isoformat until) -> parse_timestamp (Some (isoformat until)) = Some until ->
  exists status, failover_cooldown_status parse_timestamp later (World (Some r) mem []) =
      (Some status, World (Some r) mem []) /\
    dget "active" status = VBool (dt_ltb later until).
Proof.
  intros Hr Hp. unfold failover_cooldown_status, mbind, st_bind. rewrite quiet_load.
  unfold row_state, state_of_row. cbn [cooldown_until]. rewrite Hr. change (default "" (Some ?x)) with x. rewrite Hp.
  eexists. split; [reflexivity|]. reflexivity.
Qed.

(** After a recorded failover nothing else is pending and the cooldown
    holds for at least 30 seconds: the candidate is cleared, the targets
    are those given, and at any later instant the cooldown is active
    exactly until [max 30 cooldown_seconds] seconds after the failover. *)
Theorem cooldown_after_failover path previous selected seconds now until w s w' :
  w_turns w = [] -> dt_add_seconds now (Z.max 30 (int_or seconds 300)) = Some until ->
  parse_timestamp (Some (isoformat until)) = Some until ->
  record_successful_failover path previous selected seconds now w = (Some s, w') ->
  option_map row_candidate (w_row w') = Some CNull /\
  option_map row_selected_target_id (w_row w') = Some selected /\
  forall later, exists status, (failover_cooldown_status parse_timestamp later w').1 = Some status /\
    dget "active" status = VBool (dt_us later <? dt_us now + Z.max 30 (int_or seconds 300) * 1000000).
Proof.
  intros Hq Hu Hparse Hrun. destruct w as [row mem turns]. cbn [w_turns] in Hq. subst turns.
  unfold record_successful_failover in Hrun. rewrite (bind_step _ _ _ until (World row mem [])) in Hrun
    by (unfold st_py; by rewrite Hu).
  rewrite quiet_update in Hrun by done. cbv zeta in Hrun.
  cbn [where_holds u_expected_failure_candidate u_expected_path_key u_expected_last_processed_decision_id andb] in Hrun.
  injection Hrun as _ <-. cbn [w_row option_map]. split; [done|]. split; [done|]. intros later.
  destruct (quiet_cooldown (assign (Update (Some path) (Some None) None (Some (Some (isoformat now))) (Some path)
    (Some previous) (Some selected) (Some (Some (isoformat until))) None None None None None None) "" (the_row row))
    mem later until eq_refl Hparse) as (status & E & Ha).
  exists status. split; [by rewrite E|]. rewrite Ha. unfold dt_ltb.
  by rewrite (dt_add_seconds_us _ _ _ Hu).
Qed.
End Cooldown.

(** ** Persistent failures are confirmed *)

(** The text of the candidate is what the code would write for it. *)
Definition canonical (row : option wd_row) : Prop :=
  row_candidate (the_row row) = _json_dumps_dict (failure_candidate (row_state row)).

Lemma expecting_holds p c d row :
  canonical row ->
  where_holds (set_expecting p c d (failure_candidate (row_state row)) (WatchdogState.path_key (row_state row))
    (last_processed_decision_id (row_state row))) (the_row row) = true.
Proof.
  intros Hc. unfold where_holds. cbn [set_expecting u_expected_failure_candidate u_expected_path_key
    u_expected_last_processed_decision_id]. rewrite Hc, cell_is_refl. unfold text_is.
  rewrite !bool_decide_eq_true_2; [done|by destruct row..].
Qed.

Lemma quiet_store p c d row mem :
  canonical row ->
  let u := set_expecting p c d (failure_candidate (row_state row)) (WatchdogState.path_key (row_state row))
    (last_processed_decision_id (row_state row)) in
  exists s, update_watchdog_runtime_state u (World row mem []) = (Some (Some s), World (Some (assign u "" (the_row row))) mem []).
Proof.
  intros Hc u. subst u. rewrite quiet_update by done. cbv zeta. rewrite (expecting_holds p c d row Hc). by eexists.
Qed.

(** After a store the row is canonical and holds the sorted candidate. *)
Lemma stored_canonical p c d e ep ed row :
  let row' := Some (assign (set_expecting p (Some c) d e ep ed) "" (the_row row)) in
  canonical row' /\ failure_candidate (row_state row') = Some (sorted_dict c) /\
  WatchdogState.path_key (row_state row') = p /\ last_processed_decision_id (row_state row') = d.
Proof.
  cbv zeta. unfold canonical. split; [|done].
  change (row_candidate (the_row (Some (assign (set_expecting p (Some c) d e ep ed) "" (the_row row)))))
    with (_json_dumps_dict (Some c)).
  change (failure_candidate (row_state (Some (assign (set_expecting p (Some c) d e ep ed) "" (the_row row)))))
    with (Some (sorted_dict c)). by rewrite dumps_sorted.
Qed.

Section Liveness.
Context `{ReprContainer} (parse_timestamp : option string -> option datetime).

(** A degraded entry checked at [ts]. *)
Definition bad_entry (e : dict) : Prop :=
  NoDup (map fst e) /\ dget "degraded" e = VBool true /\ exists ts, dget "checked_at" e = VStr ts.

Lemma new_bad_entry now decision check signal :
  bad_entry (_active_quality_history_entry now decision true check signal).
Proof.
  split; [|split; [done|by eexists]].
  apply (bool_decide_unpack _). vm_compute. done.
Qed.

Lemma sorted_bad_entry e : bad_entry e -> bad_entry (sorted_dict e) /\ checked_at_of (sorted_dict e) = checked_at_of e.
Proof.
  intros (Hn & Hd & ts & Ht). unfold checked_at_of. split.
  - split; [by apply sorted_nodup|]. rewrite !dget_sorted by done. rewrite Hd, Ht. eauto.
  - rewrite dget_sorted by done. by rewrite Ht.
Qed.

Lemma bad_entries_count h : Forall bad_entry h -> _quality_history_bad_count h = Z.of_nat (length h).
Proof.
  intros Hh. unfold _quality_history_bad_count. f_equal. f_equal. induction Hh as [|e h (_ & Hd & _) _ IH]; [done|].
  cbn [List.filter]. unfold is_degraded at 1. rewrite Hd. cbn [truthy]. by rewrite IH.
Qed.

(** Appending a bad check at a new time to a window that is not full. *)
Lemma append_bad h e max :
  Forall bad_entry h -> bad_entry e -> Z.of_nat (length h) < max ->
  (forall p, last h = Some p -> checked_at_of p <> checked_at_of e) ->
  _append_quality_history h e max = h ++ [e].
Proof.
  intros Hh He Hlen Hts. unfold _append_quality_history. cbv zeta.
  assert (Ek : (match last h with
    | Some previous => if negb (String.eqb (checked_at_of e) "") && String.eqb (checked_at_of previous) (checked_at_of e)
                       then removelast h else h
    | None => h end) = h).
  { destruct (last h) as [p|]; [|done]. specialize (Hts p eq_refl). apply String.eqb_neq in Hts. rewrite Hts.
    by rewrite andb_false_r. }
  rewrite Ek. unfold last_n. rewrite length_app. cbn [length].
  replace (length h + 1 - Z.to_nat (Z.max 1 max))%nat with 0%nat by lia. done.
Qed.

Record incident (kind : string) (o : observation) (c : dict) (h : list dict) : Prop := {
  inc_keys : NoDup (map fst c);
  inc_same : candidate_differs kind o c = false;
  inc_recovery : has_kind "traffic_recovery" (Some c) = false;
  inc_pending : pending_of (Some c) = None;
  inc_history : dget "quality_checks" c = history_val h;
  inc_bad : Forall bad_entry h;
}.

Lemma history_of c h : dget "quality_checks" c = history_val h -> _candidate_quality_history c = h.
Proof.
  intros Hq. unfold _candidate_quality_history. rewrite Hq. unfold history_val. cbn [as_list]. clear.
  induction h as [|e h IH]; [done|]. cbn [map omap list_omap as_dict]. by rewrite IH.
Qed.

Lemma loaded_history c h :
  NoDup (map fst c) -> dget "quality_checks" c = history_val h ->
  dget "quality_checks" (sorted_dict c) = history_val (map sorted_dict h).
Proof.
  intros Hn Hq. rewrite dget_sorted by done. rewrite Hq. unfold history_val. cbn [sort_keys]. f_equal.
  rewrite !map_map. by apply map_ext.
Qed.

(** The kind, path and server of a candidate survive the sorting. *)
Lemma sorted_same kind o c :
  NoDup (map fst c) -> candidate_differs kind o c = false ->
  candidate_differs kind o (sorted_dict c) = false /\ has_kind "traffic_recovery" (Some (sorted_dict c)) = has_kind "traffic_recovery" (Some c).
Proof.
  intros Hn Hd. unfold candidate_differs in *. apply orb_false_iff in Hd as [Hd H3]. apply orb_false_iff in Hd as [H1 H2].
  apply negb_false_iff in H1, H2, H3. cbn [has_kind]. rewrite !dget_sorted by done.
  destruct (dget "kind" c), (dget "path_key" c), (dget "server_id" c); try done. cbn [sort_keys]. by rewrite H1, H2, H3.
Qed.

Lemma pending_sorted c : NoDup (map fst c) -> pending_of (Some c) = None -> pending_of (Some (sorted_dict c)) = None.
Proof. intros Hn. cbn [pending_of]. rewrite dget_sorted by done. by destruct (dget "recovery_pending" c). Qed.

(** What a continued check changes of the candidate. *)
Lemma next_candidate_fields o q now check signal (c : dict) next fs hist h :
  NoDup (map fst c) -> dget "quality_checks" c = history_val h ->
  next_quality_candidate parse_timestamp o q now check signal c = (next, fs, hist) ->
  NoDup (map fst next) /\ dget "quality_checks" next = history_val hist /\
  hist = _append_quality_history h (_active_quality_history_entry now (o_decision o) true check signal) (q_window q) /\
  forall k, k ∈ ["kind"; "path_key"; "server_id"; "recovery_pending"] -> dget k next = dget k c.
Proof.
  intros Hn Hq. unfold next_quality_candidate. cbv zeta.
  set (parsed := parse_timestamp (Some (py_str (por (dget "first_seen_at" c) (VStr ""))))).
  set (c1 := match parsed return dict with Some _ => c | None => dset "first_seen_at" (VStr (isoformat (default now parsed))) c end).
  assert (Hc1 : NoDup (map fst c1) /\ dget "quality_checks" c1 = history_val h /\
    forall k, k ∈ ["kind"; "path_key"; "server_id"; "recovery_pending"] -> dget k c1 = dget k c).
  { subst c1. destruct parsed; [done|]. split; [by apply dset_nodup|]. rewrite dget_dset. split; [exact Hq|].
    intros k Hk. rewrite dget_dset. repeat (apply elem_of_cons in Hk as [->|Hk]; [reflexivity|]). by apply elem_of_nil in Hk. }
  destruct Hc1 as (Hn1 & Hq1 & Hk1). rewrite (history_of c1 h Hq1). intros [= <- <- <-].
  split; [by repeat apply dset_nodup|]. split; [by rewrite !dget_dset|]. split; [done|].
  intros k Hk. rewrite <- (Hk1 k Hk). rewrite !dget_dset.
  repeat (apply elem_of_cons in Hk as [->|Hk]; [reflexivity|]). by apply elem_of_nil in Hk.
Qed.

Lemma incident_next kind o q now check signal c h next fs hist :
  incident kind o c h ->
  next_quality_candidate parse_timestamp o q now check signal c = (next, fs, hist) ->
  Z.of_nat (length h) < q_window q ->
  (forall p, last h = Some p -> checked_at_of p <> isoformat now) ->
  length hist = S (length h) /\ Forall bad_entry hist /\
  incident kind o (sorted_dict next) (map sorted_dict hist) /\
  (exists p, last (map sorted_dict hist) = Some p /\ checked_at_of p = isoformat now).
Proof.
  intros [Hk Hs Hr Hp Hq Hb] Hnext Hlen Hts.
  destruct (next_candidate_fields _ _ _ _ _ _ _ _ _ _ Hk Hq Hnext) as (Hnd & Hqn & Eh & Hkeep).
  set (e := _active_quality_history_entry now (o_decision o) true check signal) in *.
  pose proof (new_bad_entry now (o_decision o) check signal) as He. fold e in He.
  assert (Ee : checked_at_of e = isoformat now).
  { unfold checked_at_of, e. cbn. destruct (isoformat now); done. }
  rewrite (append_bad h e (q_window q) Hb He Hlen) in Eh by (intros p Hl; rewrite Ee; by apply Hts).
  assert (Hbad : Forall bad_entry hist) by (rewrite Eh; apply Forall_app; by split; [|constructor]).
  split; [by rewrite Eh, length_app, Nat.add_comm|]. split; [done|].
  assert (Hsame : candidate_differs kind o next = false /\ has_kind "traffic_recovery" (Some next) = false /\
    pending_of (Some next) = None).
  { unfold candidate_differs, has_kind, pending_of in *. rewrite !Hkeep by (rewrite !elem_of_cons; tauto). done. }
  destruct Hsame as (Hs' & Hr' & Hp').
  destruct (sorted_same kind o next Hnd Hs') as [Hs2 Hr2]. split.
  - constructor; [by apply sorted_nodup|done|by rewrite Hr2|by apply pending_sorted|by apply loaded_history|].
    apply Forall_map. eapply Forall_impl; [exact Hbad|]. intros x Hx. by apply sorted_bad_entry.
  - exists (sorted_dict e). split; [rewrite Eh, map_app; cbn [map]; by rewrite last_snoc|]. by rewrite (proj2 (sorted_bad_entry e He)).
Qed.

(** ** One check of a quiet world *)

Record check := Check { ck_result : dict; ck_signal : dict; ck_now : datetime }.

Context (server path : option string) (confirm bad window window_bad : Z) (kind : string) (require : bool).

Definition run_check (k : check) : M dict :=
  active_quality_degraded_confirmation parse_timestamp server (ck_result k) (ck_signal k) confirm bad window window_bad
    path (ck_now k) kind require.

Abbreviation obs k := (the_observation server (ck_signal k) path).
Abbreviation lim := (the_limits confirm bad window window_bad).

(** The check can be evaluated. *)
Definition evaluable (k : check) : bool :=
  negb (String.eqb (o_path (obs k)) "" || String.eqb (norm_opt server) "" || String.eqb (o_collected_at (obs k)) ""
        || String.eqb (o_decision (obs k)) "" || (require && negb (truthy (dget "response_observed" (ck_signal k))))).

(** The world after a check: an open incident with this history length and
    last check. *)
Definition open_incident (n : nat) (ts : string) (w : world) : Prop :=
  exists row mem c h, w = World row mem [] /\ canonical row /\ failure_candidate (row_state row) = Some c /\
    length h = n /\ (forall k, incident kind (obs k) c h) /\
    exists p, last h = Some p /\ checked_at_of p = ts.

Lemma quiet_loaded row mem :
  (st_try (state ← load_watchdog_runtime_state true; mret (Some state)) (mret None) : M (option wd_state)) (World row mem []) =
  (Some (Some (row_state row)), World row mem []).
Proof. unfold st_try, mbind, st_bind. by rewrite quiet_load. Qed.

Lemma evaluable_guard k : evaluable k = true ->
  String.eqb (o_path (obs k)) "" || String.eqb (norm_opt server) ""
    || String.eqb (norm_val (dget "last_collected_at" (ck_signal k))) ""
    || String.eqb (o_decision (obs k)) "" || (require && negb (truthy (dget "response_observed" (ck_signal k)))) = false.
Proof. by intros He%negb_true_iff. Qed.

Lemma first_candidate_incident k :
  kind <> "traffic_recovery" ->
  let first := first_quality_candidate kind (obs k) (ck_now k) (ck_result k) (ck_signal k) in
  let e := _active_quality_history_entry (ck_now k) (o_decision (obs k)) true (ck_result k) (ck_signal k) in
  forall k', incident kind (obs k') (sorted_dict first) [sorted_dict e].
Proof.
  intros Hkind first e k'. assert (Hnd : NoDup (map fst first)).
  { apply (bool_decide_unpack _). vm_compute. done. }
  assert (Hs : candidate_differs kind (obs k') first = false).
  { unfold candidate_differs. cbn. by rewrite !String.eqb_refl. }
  assert (Hr : has_kind "traffic_recovery" (Some first) = false).
  { cbn. by apply String.eqb_neq. }
  destruct (sorted_same kind (obs k') first Hnd Hs) as [Hs' Hr'].
  constructor; [by apply sorted_nodup|done|by rewrite Hr'|by apply pending_sorted| |].
  - change [sorted_dict e] with (map sorted_dict [e]). by apply loaded_history.
  - constructor; [|constructor]. by apply sorted_bad_entry, new_bad_entry.
Qed.

Lemma first_check k row :
  evaluable k = true -> kind <> "traffic_recovery" -> canonical row -> failure_candidate (row_state row) = None ->
  exists r w', run_check k (World row None []) = (Some r, w') /\ open_incident 1 (isoformat (ck_now k)) w'.
Proof.
  intros He Hkind Hc Hnone. unfold run_check, active_quality_degraded_confirmation. fold (the_observation server (ck_signal k) path).
  rewrite (evaluable_guard k He). rewrite (bind_step _ _ _ _ _ (quiet_loaded row None)).
  rewrite (bind_step _ _ _ None (World row None [])) by (unfold effective_candidate; rewrite Hnone; done).
  cbn [pending_of is_set drop_recovery has_kind].
  set (first := first_quality_candidate kind (obs k) (ck_now k) (ck_result k) (ck_signal k)).
  destruct (quiet_store (Some (o_path (obs k))) (Some first) (Some (o_decision (obs k))) row None Hc) as (s & Es).
  rewrite (bind_step _ _ _ _ _ Es). rewrite (bind_step (set_memory (Some first)) _ _ tt _ eq_refl).
  destruct (stored_canonical (Some (o_path (obs k))) first (Some (o_decision (obs k))) (failure_candidate (row_state row))
    (WatchdogState.path_key (row_state row)) (last_processed_decision_id (row_state row)) row) as (Hc' & Hf' & _).
  eexists _, _. split; [reflexivity|]. eexists _, _, _, _. split; [reflexivity|]. split; [exact Hc'|]. split; [exact Hf'|].
  split; [|split; [exact (first_candidate_incident k Hkind)|]]; [done|].
  eexists. split; [reflexivity|]. rewrite (proj2 (sorted_bad_entry _ (new_bad_entry _ _ _ _))).
  unfold checked_at_of. cbn. by destruct (isoformat (ck_now k)).
Qed.

Lemma quiet_clear (c : dict) p d row mem :
  canonical row -> failure_candidate (row_state row) = Some (sorted_dict c) ->
  WatchdogState.path_key (row_state row) = p -> last_processed_decision_id (row_state row) = d ->
  exists s w', update_watchdog_runtime_state (set_expecting p None d (Some c) p d) (World row mem []) = (Some (Some s), w') /\
    w_turns w' = [].
Proof.
  intros Hc Hf Hp Hd. destruct (quiet_store p None d row mem Hc) as (s & Es). exists s, (World (Some (assign
    (set_expecting p None d (Some (sorted_dict c)) p d) "" (the_row row))) mem []). split; [|done].
  rewrite Hf, Hp, Hd in Es. rewrite quiet_update in Es |- * by done. cbv zeta in Es |- *.
  assert (Ew : where_holds (set_expecting p None d (Some c) p d) (the_row row) =
    where_holds (set_expecting p None d (Some (sorted_dict c)) p d) (the_row row)).
  { unfold where_holds. cbn [set_expecting u_expected_failure_candidate]. by rewrite dumps_sorted. }
  rewrite Ew. destruct (where_holds _ _); [|done]. by injection Es as <-.
Qed.

Lemma next_check k w n ts :
  evaluable k = true -> open_incident n ts w -> Z.of_nat n < q_window lim -> ts <> isoformat (ck_now k) ->
  exists r w', run_check k w = (Some r, w') /\
    (Z.of_nat (S n) < q_window lim -> open_incident (S n) (isoformat (ck_now k)) w') /\
    (Z.of_nat (S n) = q_window lim -> q_bad_checks lim <= q_window lim -> dget "confirmed" r = VBool true).
Proof.
  intros He (row & mem & c & h & -> & Hc & Hf & Hlen & Hinc & p & Hlast & Hp) Hn Hts.
  unfold run_check, active_quality_degraded_confirmation. fold (the_observation server (ck_signal k) path). fold lim.
  rewrite (evaluable_guard k He). rewrite (bind_step _ _ _ _ _ (quiet_loaded row mem)).
  rewrite (bind_step _ _ _ (Some c) (World row mem [])) by (unfold effective_candidate; rewrite Hf; done).
  pose proof (Hinc k) as Hk. rewrite (inc_pending _ _ _ _ Hk). cbn [is_set].
  unfold drop_recovery. rewrite (inc_recovery _ _ _ _ Hk), (inc_same _ _ _ _ Hk).
  destruct (next_quality_candidate parse_timestamp (obs k) lim (ck_now k) (ck_result k) (ck_signal k) c)
    as [[next fs] hist] eqn:En.
  destruct (incident_next kind _ _ _ _ _ _ _ _ _ _ Hk En) as (Hlh & Hbad & _ & Hl); [lia| |].
  { intros q Hq. rewrite Hlast in Hq. injection Hq as <-. by rewrite Hp. }
  destruct (quiet_store (Some (o_path (obs k))) (Some next) (Some (o_decision (obs k))) row mem Hc) as (s & Es).
  cbv beta iota zeta.
  rewrite (bind_step _ _ _ _ _ Es). rewrite (bind_step (set_memory (Some next)) _ _ tt _ eq_refl).
  destruct (stored_canonical (Some (o_path (obs k))) next (Some (o_decision (obs k))) (failure_candidate (row_state row))
    (WatchdogState.path_key (row_state row)) (last_processed_decision_id (row_state row)) row) as (Hc' & Hf' & Hp' & Hd').
  set (row' := Some (assign _ "" (the_row row))) in *. cbn [w_row w_turns].
  rewrite (bad_entries_count hist Hbad), Hlh, Hlen.
  assert (Hopen : open_incident (S n) (isoformat (ck_now k)) (World row' (Some next) [])).
  { exists row', (Some next), (sorted_dict next), (map sorted_dict hist). split; [done|]. split; [done|]. split; [done|].
    split; [by rewrite length_map, Hlh, Hlen|]. split; [|exact Hl]. intros k'.
    destruct (incident_next kind (obs k) _ _ _ _ _ _ _ _ _ Hk En) as (_ & _ & Hi & _); [lia| |].
    - intros q Hq. rewrite Hlast in Hq. injection Hq as <-. by rewrite Hp.
    - destruct Hi. by constructor. }
  destruct (Z.of_nat (S n) <? q_bad_checks lim) eqn:E1.
  { eexists _, _. split; [reflexivity|]. split; [done|]. apply Z.ltb_lt in E1. lia. }
  destruct ((Z.of_nat (S n) <? q_window lim) || (Z.of_nat (S n) <? q_window_bad lim)) eqn:E2.
  { eexists _, _. split; [reflexivity|]. split; [done|]. intros Hw _. exfalso.
    assert (Hwb : q_window_bad lim <= q_window lim) by (unfold the_limits, quality_limits_of; cbn [q_window q_window_bad]; lia).
    apply orb_true_iff in E2 as [E2%Z.ltb_lt|E2%Z.ltb_lt]; lia. }
  destruct (quiet_clear next (Some (o_path (obs k))) (Some (o_decision (obs k))) row' (Some next) Hc' Hf' Hp' Hd') as (s' & w' & Ec & _).
  rewrite (bind_step _ _ _ _ _ Ec). eexists _, _. split; [reflexivity|]. split; [|done].
  apply orb_false_iff in E2 as [E2%Z.ltb_ge _]. lia.
Qed.

(** ** A window of checks *)

Fixpoint run_checks (cs : list check) : M (list dict) :=
  match cs with
  | [] => mret []
  | k :: cs' => r ← run_check k; rs ← run_checks cs'; mret (r :: rs)
  end.

(** Consecutive checks are at different times. *)
Fixpoint times_differ (ts : string) (cs : list check) : Prop :=
  match cs with
  | [] => True
  | k :: cs' => ts <> isoformat (ck_now k) /\ times_differ (isoformat (ck_now k)) cs'
  end.

Lemma open_incident_confirmed cs : forall n ts w,
  cs <> [] -> Forall (fun k => evaluable k = true) cs -> times_differ ts cs -> open_incident n ts w ->
  Z.of_nat (n + length cs) = q_window lim -> q_bad_checks lim <= q_window lim ->
  exists rs r w', run_checks cs w = (Some rs, w') /\ last rs = Some r /\ dget "confirmed" r = VBool true.
Proof.
  induction cs as [|k cs IH]; intros n ts w Hne Hev Htd Hopen Hlen Hbad; [done|].
  inversion Hev as [|? ? Hek Hev']; subst. destruct Htd as [Hts Htd]. cbn [length] in Hlen.
  destruct (next_check k w n ts Hek Hopen ltac:(lia) Hts) as (r & w1 & Er & Hcont & Hdone).
  cbn [run_checks]. rewrite (bind_step _ _ _ _ _ Er). destruct cs as [|k2 cs].
  - exists [r], r, w1. split; [done|]. split; [done|]. apply Hdone; [cbn [length] in Hlen; lia|done].
  - cbn [length] in Hlen. destruct (IH (S n) _ w1 ltac:(done) Hev' Htd) as (rs & r' & w' & Ers & Hl & Hc);
      [apply Hcont; lia|cbn [length]; lia|done|].
    rewrite (bind_step _ _ _ _ _ Ers). exists (r :: rs), r', w'. split; [done|]. split; [|done].
    destruct rs; [done|]. exact Hl.
Qed.

(** A server that keeps failing is confirmed.  In a quiet world without
    an open incident, when the required bad checks fit in the window, a
    full window of evaluable degraded checks at different times ends in a
    confirmation. *)
Theorem persistent_failure_confirmed cs row :
  kind <> "traffic_recovery" -> canonical row -> failure_candidate (row_state row) = None ->
  Z.of_nat (length cs) = q_window lim -> q_bad_checks lim <= q_window lim ->
  Forall (fun k => evaluable k = true) cs -> times_differ "" cs ->
  exists rs r w', run_checks cs (World row None []) = (Some rs, w') /\ last rs = Some r /\ dget "confirmed" r = VBool true.
Proof.
  intros Hkind Hc Hf Hlen Hbad Hev Htd. pose proof (quality_window_pos confirm bad window window_bad) as Hw. fold lim in Hw.
  destruct cs as [|k cs]; cbn [length] in Hlen; [unfold the_limits in *; lia|].
  inversion Hev as [|? ? Hek Hev']; subst. destruct Htd as [_ Htd].
  destruct (first_check k row Hek Hkind Hc Hf) as (r & w1 & Er & Hopen). cbn [run_checks]. rewrite (bind_step _ _ _ _ _ Er).
  destruct (open_incident_confirmed cs 1 (isoformat (ck_now k)) w1) as (rs & r' & w' & Ers & Hl & Hconf); try done.
  - intros ->. cbn [length] in Hlen. unfold the_limits in *. lia.
  - rewrite (bind_step _ _ _ _ _ Ers). exists (r :: rs), r', w'. split; [done|]. split; [|done].
    destruct rs; [done|]. exact Hl.
Qed.
End Liveness.

(** ** Concrete runs *)

Lemma cooldown_after_failover_witness :
  exists s w' status, record_successful_failover (Some "vpn") (Some "s1") (Some "s2") 300 t0 degraded_world = (Some s, w') /\
    (failover_cooldown_status _parse_timestamp (after 299) w').1 = Some status /\ dget "active" status = VBool true.
Proof.
  destruct (record_successful_failover (Some "vpn") (Some "s1") (Some "s2") 300 t0 degraded_world) as [[s|] w'] eqn:E;
    [|vm_compute in E; discriminate].
  assert (Hq : w_turns degraded_world = []) by (vm_compute; reflexivity).
  assert (Hu : dt_add_seconds t0 (Z.max 30 (int_or 300 300)) = Some (after 300)) by (vm_compute; reflexivity).
  assert (Hp : _parse_timestamp (Some (isoformat (after 300))) = Some (after 300)) by (vm_compute; reflexivity).
  destruct (cooldown_after_failover _parse_timestamp (Some "vpn") (Some "s1") (Some "s2") 300 t0 (after 300)
    degraded_world s w' Hq Hu Hp E) as (_ & _ & Hl).
  destruct (Hl (after 299)) as (status & Hs & Ha). exists s, w', status. split; [reflexivity|]. split; [exact Hs|exact Ha].
Defined.

Definition four_checks : list check := map (fun s => Check slow_check (sample_signal s) (after s)) [0; 60; 120; 180].

Lemma persistent_failure_confirmed_witness :
  exists rs r w', @run_checks (fun _ => "") _parse_timestamp (Some "s1") None 180 2 4 3 "active_quality_degraded" true
      four_checks idle_world = (Some rs, w') /\
    last rs = Some r /\ dget "confirmed" r = VBool true.
Proof.
  apply (@persistent_failure_confirmed (fun _ => "") _parse_timestamp (Some "s1") None 180 2 4 3
    "active_quality_degraded" true four_checks None).
  - discriminate.
  - reflexivity.
  - reflexivity.
  - reflexivity.
  - vm_compute. discriminate.
  - repeat (constructor; [vm_compute; reflexivity|]). constructor.
  - vm_compute. repeat split; discriminate.
Defined.
