(* ===== verification/SubjectTaxonomy.v ===== *)
(** * Subject types and provider contracts

    [services/external_provider_registry.py], [services/subject_taxonomy.py]
    and the protected Docker identities of [services/server_layout.py]: which
    subject types exist, what their contracts say, and which questions the
    other services ask of a type.

    A Python tuple is a list here, and the float 5.0 of the registry is the
    int it equals. *)
From stdpp Require Import base list strings pretty gmap sorting.
From Stdlib Require Import ZArith Lia Ascii.
From S2P Require Import Prelude PyStr PyVal.

Open Scope string_scope.
Open Scope Z_scope.
Open Scope list_scope.

(** ** The provider registry *)

Definition vstrs (l : list string) : pyval := VList (map VStr l).

Definition EXTERNAL_INGRESS_PROVIDERS : list (string * dict) :=
  [("tailscale",
    [("provider", VStr "tailscale"); ("module_concept", VStr "tailscale");
     ("subject_type", VStr "external_network_client"); ("implementation_kind", VStr "tailscale");
     ("display_label", VStr "Tailscale"); ("identity_kind", VStr "tailscale_ip");
     ("ingress_interface", VStr "tailscale0"); ("payload_source_cidr", VStr "100.64.0.0/10");
     ("service_traffic_policy", VStr "direct_immune"); ("location", VStr "host");
     ("integration_mode", VStr "command_probe"); ("refresh_mode", VStr "interval");
     ("runtime_available_message",
        VStr "External ingress status is available through the allowlisted host probe.");
     ("collector_config",
        VDict [("script_id", VStr "tailscale_status"); ("interval_seconds", VInt 3600);
               ("timeout_seconds", VInt 20); ("apply_traffic", VBool false)]);
     ("runtime_probe",
        VDict [("script_id", VStr "tailscale_status"); ("cache_key", VStr "external_ingress.runtime.tailscale");
               ("ttl_seconds", VInt 5)]);
     ("status_mapping",
        VDict [("self_field", VStr "Self"); ("self_hostname_fields", vstrs ["HostName"; "DNSName"; "Name"]);
               ("self_address_fields", vstrs ["TailscaleIPs"; "Addresses"]);
               ("self_identity_fields", vstrs ["ID"; "NodeID"; "IDShort"]); ("self_online_field", VStr "Online");
               ("self_state_field", VStr "BackendState"); ("peer_collection_fields", vstrs ["Peer"; "Peers"]);
               ("peer_identity_fields", vstrs ["ID"; "NodeID"; "IDShort"]);
               ("peer_name_fields", vstrs ["HostName"; "DNSName"; "Name"]);
               ("peer_address_fields", vstrs ["TailscaleIPs"; "Addresses"]);
               ("peer_user_fields", vstrs ["User"; "UserName"]); ("peer_online_field", VStr "Online");
               ("legacy_subject_id_template", VStr "tailscale-node:{external_id}");
               ("peer_routing_hint_fields",
                  vstrs ["through_fwrouter"; "fwrouter_routed"; "routed_via_server"; "UsesExitNode"; "ExitNode";
                         "UsesThisServerAsExit"])])])].

Definition EXPLICIT_EXTERNAL_CLIENT_PROVIDERS : list (string * dict) :=
  [("xray",
    [("provider", VStr "xray"); ("subject_type", VStr "explicit_external_client");
     ("implementation_kind", VStr "xray"); ("runtime_binding", VStr "xray_runtime_bindings");
     ("identity_match_prefix", VStr "xray-client"); ("traffic_source", VStr "runtime_api");
     ("transparent_dataplane_policy", VBool false); ("virtual_vpn_auto_override", VBool true)])].

Definition external_ingress_provider_contracts : list dict := map snd EXTERNAL_INGRESS_PROVIDERS.

Definition explicit_external_client_provider_contracts : list dict := map snd EXPLICIT_EXTERNAL_CLIENT_PROVIDERS.

(** [str(x or "").strip().lower()]. *)
Definition norm_lower (x : option string) : string := py_lower (py_strip (default "" x)).

Fixpoint assoc_dict (k : string) (l : list (string * dict)) : option dict :=
  match l with
  | [] => None
  | (k', d) :: l' => if String.eqb k k' then Some d else assoc_dict k l'
  end.

(** [dict(contract) if contract else None]. *)
Definition nonempty_dict (o : option dict) : option dict :=
  match o with Some [] => None | _ => o end.

Definition external_ingress_provider_contract (provider : option string) : option dict :=
  nonempty_dict (assoc_dict (norm_lower provider) EXTERNAL_INGRESS_PROVIDERS).

(** ** The type sets *)

Definition NATIVE_INGRESS_SUBJECT_TYPES : list string := ["lan"].
Definition EXTERNAL_NETWORK_CLIENT_SUBJECT_TYPE : string := "external_network_client".
Definition EXPLICIT_EXTERNAL_CLIENT_SUBJECT_TYPE : string := "explicit_external_client".

Definition LEGACY_TRANSPARENT_INGRESS_SUBJECT_ALIASES : list (string * string) :=
  [("tailscale", EXTERNAL_NETWORK_CLIENT_SUBJECT_TYPE); ("tailscale_node", EXTERNAL_NETWORK_CLIENT_SUBJECT_TYPE)].

Definition LEGACY_EXPLICIT_EXTERNAL_CLIENT_SUBJECT_ALIASES : list (string * string) :=
  [("xray", EXPLICIT_EXTERNAL_CLIENT_SUBJECT_TYPE)].

(** [contract["subject_type"]] of the registry's contracts is a string. *)
Definition str_of (v : pyval) : string := match v with VStr s => s | _ => "" end.

Definition EXTERNAL_INGRESS_SUBJECT_TYPES : list string :=
  map (fun c => str_of (dget "subject_type" c)) external_ingress_provider_contracts.

Definition TRANSPARENT_INGRESS_CLIENT_SUBJECT_TYPES : list string :=
  NATIVE_INGRESS_SUBJECT_TYPES ++ EXTERNAL_INGRESS_SUBJECT_TYPES.

Definition EXPLICIT_EXTERNAL_CLIENT_SUBJECT_TYPES : list string :=
  map (fun c => str_of (dget "subject_type" c)) explicit_external_client_provider_contracts.

Definition CLIENT_PLANE_SUBJECT_TYPES : list string :=
  TRANSPARENT_INGRESS_CLIENT_SUBJECT_TYPES ++ EXPLICIT_EXTERNAL_CLIENT_SUBJECT_TYPES.

Definition SYSTEM_SCOPED_SUBJECT_TYPES : list string := ["host"; "docker"].
Definition CONTROL_PLANE_DIRECT_SAFE_SUBJECT_TYPES : list string := ["host"; "docker"; "fwrouter"].

Definition LEGACY_TRANSPARENT_INGRESS_SUBJECT_TYPES : list string :=
  map fst LEGACY_TRANSPARENT_INGRESS_SUBJECT_ALIASES.

Definition LEGACY_EXPLICIT_EXTERNAL_CLIENT_SUBJECT_TYPES : list string :=
  map fst LEGACY_EXPLICIT_EXTERNAL_CLIENT_SUBJECT_ALIASES.

Definition UI_ACTIVE_SUBJECT_TYPES : list string :=
  CLIENT_PLANE_SUBJECT_TYPES ++ LEGACY_TRANSPARENT_INGRESS_SUBJECT_TYPES
    ++ LEGACY_EXPLICIT_EXTERNAL_CLIENT_SUBJECT_TYPES.

Definition SERVER_OVERRIDE_SUBJECT_TYPES : list string :=
  TRANSPARENT_INGRESS_CLIENT_SUBJECT_TYPES ++ LEGACY_TRANSPARENT_INGRESS_SUBJECT_TYPES
    ++ EXPLICIT_EXTERNAL_CLIENT_SUBJECT_TYPES ++ SYSTEM_SCOPED_SUBJECT_TYPES.

(** [s in frozenset]. *)
Definition in_types (s : string) (types : list string) : bool := bool_decide (s ∈ types).

(** ** Questions about a type *)

Definition normalize_subject_type (subject_type : option string) : string :=
  let normalized := norm_lower subject_type in
  match assoc_get normalized LEGACY_EXPLICIT_EXTERNAL_CLIENT_SUBJECT_ALIASES with
  | Some t => t
  | None => default normalized (assoc_get normalized LEGACY_TRANSPARENT_INGRESS_SUBJECT_ALIASES)
  end.

Definition is_transparent_ingress_subject_type (subject_type : option string) (include_legacy : bool) : bool :=
  let normalized := norm_lower subject_type in
  if in_types normalized TRANSPARENT_INGRESS_CLIENT_SUBJECT_TYPES then true
  else include_legacy && in_types normalized LEGACY_TRANSPARENT_INGRESS_SUBJECT_TYPES.

Definition is_explicit_external_client_subject_type (subject_type : option string) : bool :=
  in_types (normalize_subject_type subject_type) EXPLICIT_EXTERNAL_CLIENT_SUBJECT_TYPES.

Definition is_system_scoped_subject_type (subject_type : option string) : bool :=
  in_types (normalize_subject_type subject_type) SYSTEM_SCOPED_SUBJECT_TYPES.

Definition subject_follows_global_mode (subject_type : option string) : bool :=
  is_transparent_ingress_subject_type subject_type true.

(** ** Contracts *)

Definition external_ingress_contracts : list dict := external_ingress_provider_contracts.

Definition external_ingress_contract (provider : option string) : option dict :=
  nonempty_dict (external_ingress_provider_contract (Some (norm_lower provider))).

Definition explicit_external_client_contracts : list dict := explicit_external_client_provider_contracts.

Section Contracts.
Context `{ReprContainer}.

(** [str(v or "").strip().lower()] of a value. *)
Definition norm_lower_val (v : pyval) : string := py_lower (py_strip (py_str (por v (VStr "")))).

Definition external_ingress_contract_by_module (module_concept : option string) : option dict :=
  let normalized := norm_lower module_concept in
  List.find (fun contract =>
    String.eqb (norm_lower_val (por (dget "module_concept" contract) (dget "provider" contract))) normalized)
    external_ingress_provider_contracts.

Definition transparent_ingress_contract (subject_type : option string) : option dict :=
  let normalized := normalize_subject_type subject_type in
  if in_types normalized NATIVE_INGRESS_SUBJECT_TYPES then
    Some [("provider", VStr "native_lan"); ("subject_type", VStr normalized); ("identity_kind", VStr "ip_address")]
  else
    List.find (fun provider => String.eqb (py_str (dget "subject_type" provider)) normalized)
      external_ingress_provider_contracts.

Definition transparent_ingress_contract_for_subject (subject_type implementation_kind : option string) : option dict :=
  let normalized := normalize_subject_type subject_type in
  if in_types normalized NATIVE_INGRESS_SUBJECT_TYPES then transparent_ingress_contract (Some normalized)
  else external_ingress_contract (Some (norm_lower implementation_kind)).

Definition explicit_external_client_contract (subject_type : option string) : option dict :=
  let normalized := normalize_subject_type subject_type in
  List.find (fun provider => String.eqb (py_str (dget "subject_type" provider)) normalized)
    explicit_external_client_provider_contracts.

(** [contract.get("implementation_kind") or contract.get("provider")], normalised. *)
Definition contract_kind (contract : dict) : string :=
  norm_lower_val (por (dget "implementation_kind" contract) (dget "provider" contract)).

Definition explicit_external_client_contract_for_subject (subject_type implementation_kind : option string)
    : option dict :=
  let normalized := normalize_subject_type subject_type in
  let provider := norm_lower implementation_kind in
  match List.find (fun contract =>
          String.eqb (py_str (dget "subject_type" contract)) normalized && String.eqb (contract_kind contract) provider)
          explicit_external_client_provider_contracts with
  | Some contract => Some contract
  | None => explicit_external_client_contract (Some normalized)
  end.

(** [str(v or "").strip() or None]. *)
Definition strip_or_none (v : pyval) : option string :=
  let s := py_strip (py_str (por v (VStr ""))) in
  if String.eqb s "" then None else Some s.

Definition explicit_external_client_runtime_binding (subject_type : option string) : option string :=
  match explicit_external_client_contract subject_type with
  | None => None
  | Some contract => strip_or_none (dget "runtime_binding" contract)
  end.

(** [bool(contract and contract.get(key))]. *)
Definition contract_flag (key : string) (contract : option dict) : bool :=
  match contract with Some c => truthy (dget key c) | None => false end.

Definition explicit_external_client_allows_virtual_vpn_auto (subject_type : option string) : bool :=
  contract_flag "virtual_vpn_auto_override" (explicit_external_client_contract subject_type).

Definition explicit_external_client_subject_allows_virtual_vpn_auto
    (subject_type implementation_kind : option string) : bool :=
  let normalized := normalize_subject_type subject_type in
  let provider := norm_lower implementation_kind in
  existsb (fun contract =>
    String.eqb (py_str (por (dget "subject_type" contract) (VStr ""))) normalized
    && String.eqb (contract_kind contract) provider
    && truthy (dget "virtual_vpn_auto_override" contract)) explicit_external_client_provider_contracts.

Definition explicit_external_client_uses_transparent_policy (subject_type : option string) : bool :=
  contract_flag "transparent_dataplane_policy" (explicit_external_client_contract subject_type).

Definition subject_needs_transparent_policy (subject_type : option string) : bool :=
  if is_explicit_external_client_subject_type subject_type
  then explicit_external_client_uses_transparent_policy subject_type
  else true.

(** [s.replace("_", " ").title()] of an ASCII string. *)
Fixpoint title_from (boundary : bool) (s : string) : string :=
  match s with
  | "" => ""
  | String c s' =>
      let letter := is_lower_alpha c || is_upper_alpha c in
      let c' := if boundary then (if is_lower_alpha c then ascii_sub c 32 else c)
                else (if is_upper_alpha c then ascii_add c 32 else c) in
      String c' (title_from (negb letter) s')
  end.

Fixpoint underscore_to_space (s : string) : string :=
  match s with
  | "" => ""
  | String c s' => String (if Ascii.eqb c "_"%char then " "%char else c) (underscore_to_space s')
  end.

Definition external_network_source_display_contract (subject_type : option string) : option dict :=
  match transparent_ingress_contract subject_type with
  | None => None
  | Some contract =>
      if negb (truthy (dget "module_concept" contract)) then None
      else
        let provider := norm_lower_val (dget "provider" contract) in
        let module_concept := norm_lower_val (por (dget "module_concept" contract) (VStr provider)) in
        if String.eqb provider "" || String.eqb module_concept "" then None
        else
          let label := py_strip (py_str (por (dget "display_label" contract)
                         (VStr (title_from true (underscore_to_space provider))))) in
          let str_or := fun key d => VStr (py_str (por (dget key contract) (VStr d))) in
          Some [("system_id", VStr ("external-network-" +:+ module_concept)); ("label", VStr label);
                ("runtime_type", VStr provider);
                ("description", str_or "description"
                   ("External network source discovered from " +:+ label +:+ " inventory."));
                ("location", str_or "location" "host");
                ("integration_mode", str_or "integration_mode" "command_probe");
                ("refresh_mode", str_or "refresh_mode" "interval");
                ("collector_config", por (dget "collector_config" contract) (VDict []))]
  end.

(** ** Protected Docker runtimes *)

Definition PROTECTED_DOCKER_RUNTIME_IDENTITIES : list (string * string * string) :=
  [("mihomo", "fwrouter-mihomo", "vpn_dataplane"); ("fwrouter-xray", "fwrouter-xray", "explicit_client_runtime")].

Definition protected_docker_runtime_role (subject : dict) : option string :=
  if negb (String.eqb (norm_lower_val (dget "subject_type" subject)) "docker") then None
  else
    match as_dict (dget "detail" subject) with
    | None => None
    | Some detail =>
        let service := py_strip (py_str (por (dget "compose_service" detail) (VStr ""))) in
        let container_name :=
          py_lstrip_char "/"%char (py_strip (py_str (por (dget "container_name" detail) (VStr "")))) in
        option_map snd (List.find (fun x => String.eqb service x.1.1 && String.eqb container_name x.1.2)
                          PROTECTED_DOCKER_RUNTIME_IDENTITIES)
    end.
End Contracts.

(** ** Counter prefixes *)

Definition watchdog_nft_subject_counter_prefixes : list string :=
  map (fun t => t +:+ "_")
    (sort_by py_leb (remove_dups (TRANSPARENT_INGRESS_CLIENT_SUBJECT_TYPES ++ SYSTEM_SCOPED_SUBJECT_TYPES)))
  ++ ["fwrouter_global_"].

Example prefixes : watchdog_nft_subject_counter_prefixes =
  ["docker_"; "external_network_client_"; "host_"; "lan_"; "fwrouter_global_"].
Proof. vm_compute. reflexivity. Qed.

(** ** Facts *)

(** The kinds of subject the type answers distinguish. *)
Definition plane_of (subject_type : option string) : bool * bool * bool :=
  (is_transparent_ingress_subject_type subject_type true, is_explicit_external_client_subject_type subject_type,
   is_system_scoped_subject_type subject_type).

Lemma in_types_spec s types : in_types s types = true <-> s ∈ types.
Proof. apply bool_decide_eq_true. Qed.

(** Every type belongs to at most one plane, with legacy names counted
    where they were moved to: transparent ingress, explicit external client,
    or system scoped.  A type that is in none is not an override target
    either, unless it is a legacy explicit client name. *)
Theorem subject_planes_disjoint subject_type :
  let '(t, e, s) := plane_of subject_type in
  ~ (t = true /\ e = true) /\ ~ (t = true /\ s = true) /\ ~ (e = true /\ s = true) /\
  (t = false -> e = false -> s = false -> in_types (norm_lower subject_type) SERVER_OVERRIDE_SUBJECT_TYPES = false).
Proof.
  unfold plane_of, is_transparent_ingress_subject_type, is_explicit_external_client_subject_type,
    is_system_scoped_subject_type, normalize_subject_type.
  generalize (norm_lower subject_type). intros n.
  destruct (decide (n ∈ ["lan"; "external_network_client"; "tailscale"; "tailscale_node"; "xray";
    "explicit_external_client"; "host"; "docker"])) as [Hin|Hout].
  - repeat (apply elem_of_cons in Hin as [->|Hin]; [vm_compute; split_all; try (by intros []); done|]).
    by apply elem_of_nil in Hin.
  - rewrite !not_elem_of_cons in Hout. destruct Hout as (H1 & H2 & H3 & H4 & H5 & H6 & H7 & H8 & _).
    cbn [assoc_get LEGACY_EXPLICIT_EXTERNAL_CLIENT_SUBJECT_ALIASES LEGACY_TRANSPARENT_INGRESS_SUBJECT_ALIASES].
    rewrite !(proj2 (String.eqb_neq n _)) by done. cbn [default].
    assert (Hno : forall types, types ⊆ ["lan"; "external_network_client"; "tailscale"; "tailscale_node"; "xray";
      "explicit_external_client"; "host"; "docker"] -> in_types n types = false).
    { intros types Hsub. apply not_true_iff_false. rewrite in_types_spec. intros Hin%Hsub.
      rewrite !elem_of_cons in Hin. destruct Hin as [?|[?|[?|[?|[?|[?|[?|[?|Hn]]]]]]]]; try done. by apply elem_of_nil in Hn. }
    change (default n None) with n. rewrite !Hno; [split_all; try done; by intros []|..];
      apply (bool_decide_unpack _); vm_compute; done.
Qed.
