(* ===== verification/WatchdogSignal.v ===== *)
(** * The traffic signal of the watchdog

    [services/watchdog_traffic_signal.py] and the predicates of
    [services/watchdog_active_quality.py]: the counter snapshots of the VPN
    path are turned into one observation, which says whether traffic leaves
    and whether anything comes back.

    [decision_digest] is the first 24 hex digits of the SHA-256 of the JSON
    text of the payload; the digest function is a parameter. *)
From stdpp Require Import base list strings pretty gmap sorting.
From Stdlib Require Import ZArith Lia Ascii.
From S2P Require Import Prelude PyStr PyVal PyTime WatchdogState SubjectTaxonomy.

Open Scope string_scope.
Open Scope Z_scope.
Open Scope list_scope.

Definition WATCHDOG_NFT_SUBJECT_COUNTER_PREFIXES : list string := watchdog_nft_subject_counter_prefixes.

(** ** Samples *)

(** A row of [traffic_counter_snapshots] as the query selects it. *)
Record snapshot := Snapshot {
  sn_counter_key : option string;
  sn_subject_id : option string;
  sn_path : string;
  sn_collected_at : string;
  sn_metadata_json : cell;
}.

(** The dictionary [sample] of the loop. *)
Record sample := Sample {
  s_counter_key : option string;
  s_subject_id : option string;
  s_collected_at : string;
  s_rx_delta : Z;
  s_tx_delta : Z;
  s_activity_observed : bool;
  s_metadata : dict;
}.

Inductive signal_kind := Dataplane | Adapter.

#[export] Instance signal_kind_eq_dec : EqDecision signal_kind.
Proof. solve_decision. Defined.

Definition _watchdog_nft_named_vpn_counter_allowed (counter_key : string) : bool :=
  if negb (py_startswith counter_key "nft:counter:cnt_") then false
  else if negb (py_endswith counter_key "_vpn_tx" || py_endswith counter_key "_vpn_rx") then false
  else
    let counter_name := String.substring 16 (String.length counter_key) counter_key in
    existsb (py_startswith counter_name) WATCHDOG_NFT_SUBJECT_COUNTER_PREFIXES.

(** [collected_at >= cutoff] in SQLite: text order. *)
Definition recent (cutoff : string) (r : snapshot) : bool :=
  String.eqb (sn_path r) "vpn" && py_leb cutoff (sn_collected_at r).

(** The query: newest first, at most 200.  Rows of one time keep the order of
    the table, one of the orders SQLite may return. *)
Definition newer_first (a b : snapshot) : bool := py_leb (sn_collected_at b) (sn_collected_at a).

Definition select_snapshots (cutoff : string) (table : list snapshot) : list snapshot :=
  take 200 (sort_by newer_first (List.filter (recent cutoff) table)).

Section Signal.
Context `{ReprContainer}.

Definition key_of (s : sample) : string := default "" (s_counter_key s).
Definition meta_str (key : string) (s : sample) : string := py_str (por (dget key (s_metadata s)) (VStr "")).

Definition _watchdog_traffic_sample_kind (s : sample) : option signal_kind :=
  let counter_key := key_of s in
  let source := meta_str "source" s in
  let watchdog_signal := py_lower (py_strip (meta_str "watchdog_signal" s)) in
  let connection_type := py_lower (py_strip (py_str
    (por (por (dget "connection_type" (s_metadata s)) (dget "module_role" (s_metadata s))) (VStr "")))) in
  if String.eqb watchdog_signal "dataplane" then Some Dataplane
  else if (String.eqb watchdog_signal "adapter_response" || String.eqb watchdog_signal "external_vpn_module_response")
       && ((String.eqb connection_type "external_vpn_module" || String.eqb connection_type "vpn_module")
           || String.eqb watchdog_signal "external_vpn_module_response")
  then Some Adapter
  else if String.eqb source "nftables" then
    if String.eqb counter_key "fwrouter:global:vpn" then Some Dataplane
    else if _watchdog_nft_named_vpn_counter_allowed counter_key then Some Dataplane
    else None
  else None.

(** Effective received and sent bytes. *)
Definition _watchdog_effective_sample_deltas (s : sample) : Z * Z :=
  let rx := s_rx_delta s in
  let tx := s_tx_delta s in
  let counter_key := key_of s in
  let source := meta_str "source" s in
  let scope := meta_str "scope" s in
  if String.eqb counter_key "fwrouter:global:vpn" && String.eqb source "nftables" && String.eqb scope "global"
  then (0, rx + tx)
  else if String.eqb source "nftables" && _watchdog_nft_named_vpn_counter_allowed counter_key then
    if py_endswith counter_key "_vpn_tx" then (0, rx + tx)
    else if py_endswith counter_key "_vpn_rx" then (rx + tx, 0)
    else (rx, tx)
  else (rx, tx).

Definition eff_rx (s : sample) : Z := (_watchdog_effective_sample_deltas s).1.
Definition eff_tx (s : sample) : Z := (_watchdog_effective_sample_deltas s).2.

(** [str(collected_at or "").strip() or None], parsed. *)
Definition _watchdog_sample_collected_dt (s : sample) : option datetime :=
  _parse_timestamp (Some (py_strip (s_collected_at s))).

Definition kind_val (k : option signal_kind) : pyval :=
  match k with Some Dataplane => VStr "dataplane" | Some Adapter => VStr "adapter" | None => VNone end.

Definition _watchdog_sample_identity (s : sample) : pyval :=
  VDict [("counter_key", vopt (s_counter_key s)); ("subject_id", vopt (s_subject_id s));
         ("collected_at", VStr (s_collected_at s)); ("rx_delta", VInt (eff_rx s)); ("tx_delta", VInt (eff_tx s));
         ("kind", kind_val (_watchdog_traffic_sample_kind s))].

Context (decision_digest : pyval -> string).

Definition _watchdog_observation_decision_id (tx_samples rx_samples : list sample) (correlation_seconds : Z)
    (path_state : string) : option string :=
  match tx_samples with
  | [] => None
  | _ =>
      Some (decision_digest (sort_keys (VDict
        [("correlation_seconds", VInt correlation_seconds); ("path_state", VStr path_state);
         ("tx_samples", VList (map _watchdog_sample_identity tx_samples));
         ("rx_samples", VList (map _watchdog_sample_identity rx_samples))])))
  end.

(** ** The current observation *)

Record current_observation := CurrentObservation {
  co_path_state : string;
  co_tx_observed : bool;
  co_rx_observed : bool;
  co_authoritative_tx_delta : Z;
  co_authoritative_rx_delta : Z;
  co_response_source : string;
  co_correlation_seconds : Z;
  co_tx_observed_at : option string;
  co_rx_observed_at : option string;
  co_decision_id : option string;
  co_tx_samples : list pyval;
  co_rx_samples : list pyval;
}.

(** Datetimes compare by instant; [max] keeps the first greatest. *)
Definition dt_max (a b : datetime) : datetime := if dt_us a <? dt_us b then b else a.

Definition same_instant (a b : datetime) : bool := dt_us a =? dt_us b.

(** The dataplane samples that sent something, with their times. *)
Definition dataplane_tx (s : sample) : option (datetime * sample) :=
  match _watchdog_traffic_sample_kind s with
  | Some Dataplane =>
      match _watchdog_sample_collected_dt s with
      | Some dt => if 0 <? eff_tx s then Some (dt, s) else None
      | None => None
      end
  | _ => None
  end.

(** The samples near the anchor that are signals. *)
Definition correlated_sample (anchor : datetime) (correlation : Z) (s : sample)
    : option (datetime * sample * signal_kind) :=
  match _watchdog_sample_collected_dt s with
  | None => None
  | Some dt =>
      if correlation * 1000000 <? Z.abs (dt_us dt - dt_us anchor) then None
      else option_map (fun k => (dt, s, k)) (_watchdog_traffic_sample_kind s)
  end.

Definition item_sample (x : datetime * sample * signal_kind) : sample := x.1.2.
Definition item_time (x : datetime * sample * signal_kind) : datetime := x.1.1.

Definition is_anchor_tx (anchor : datetime) (x : datetime * sample * signal_kind) : bool :=
  bool_decide (x.2 = Dataplane) && same_instant (item_time x) anchor && (0 <? eff_tx (item_sample x)).

Definition is_rx_of (k : signal_kind) (x : datetime * sample * signal_kind) : bool :=
  bool_decide (x.2 = k) && (0 <? eff_rx (item_sample x)).

Definition sum_Z (l : list Z) : Z := foldr Z.add 0 l.

Definition max_time (l : list datetime) : option datetime :=
  match l with [] => None | d :: l' => Some (fold_left dt_max l' d) end.

Definition _build_watchdog_current_observation (samples : list sample) (correlation_seconds : Z)
    : current_observation :=
  let correlation := Z.max 1 (if correlation_seconds =? 0 then 30 else correlation_seconds) in
  match max_time (map fst (omap dataplane_tx samples)) with
  | None => CurrentObservation "idle" false false 0 0 "none" correlation None None None [] []
  | Some anchor =>
      let correlated := omap (correlated_sample anchor correlation) samples in
      let tx_items := List.filter (is_anchor_tx anchor) correlated in
      let tx := sum_Z (map (fun x => eff_tx (item_sample x)) tx_items) in
      let dataplane_rx := List.filter (is_rx_of Dataplane) correlated in
      let adapter_rx := List.filter (is_rx_of Adapter) correlated in
      let '(rx_items, response_source) :=
        match dataplane_rx, adapter_rx with
        | _ :: _, _ => (dataplane_rx, "dataplane")
        | [], _ :: _ => (adapter_rx, "adapter_fallback")
        | [], [] => ([], "none")
        end in
      let rx := sum_Z (map (fun x => eff_rx (item_sample x)) rx_items) in
      let path_state := if (0 <? tx) && (0 <? rx) then "healthy" else "suspected_failure" in
      let tx_samples := map item_sample tx_items in
      let rx_samples := map item_sample rx_items in
      CurrentObservation path_state (0 <? tx) (0 <? rx) tx rx response_source correlation
        (Some (isoformat anchor)) (option_map isoformat (max_time (map item_time rx_items)))
        (_watchdog_observation_decision_id tx_samples rx_samples correlation path_state)
        (map _watchdog_sample_identity tx_samples) (map _watchdog_sample_identity rx_samples)
  end.

(** ** The signal *)

(** The body of the loop over the rows; [None] is a raised exception. *)
Definition sample_of_row (r : snapshot) : py sample :=
  metadata ← (match sn_metadata_json r with
              | CNull => Some []
              | CText "" => Some []
              | CJson (VDict d) => Some d
              | _ => None
              end);
  rx ← py_int (por (dget "rx_delta" metadata) (VInt 0));
  tx ← py_int (por (dget "tx_delta" metadata) (VInt 0));
  Some (Sample (sn_counter_key r) (sn_subject_id r) (sn_collected_at r) rx tx
          (truthy (dget "activity_observed" metadata) || (0 <? rx) || (0 <? tx)) metadata).

Definition is_signal (s : sample) : bool := is_set (_watchdog_traffic_sample_kind s).
Definition is_adapter (s : sample) : bool := bool_decide (_watchdog_traffic_sample_kind s = Some Adapter).

Definition total (f : sample -> Z) (l : list sample) : Z := sum_Z (map f l).

Record traffic_signal := TrafficSignal {
  ts_observed : bool;
  ts_window_seconds : Z;
  ts_checked_samples_count : Z;
  ts_ignored_samples_count : Z;
  ts_active_samples_count : Z;
  ts_latest_samples_count : Z;
  ts_window_active_samples_count : Z;
  ts_total : Z * Z;
  ts_dataplane : Z * Z;
  ts_adapter : Z * Z;
  ts_latest : Z * Z;
  ts_latest_dataplane : Z * Z;
  ts_latest_adapter : Z * Z;
  ts_authoritative_rx_delta : Z;
  ts_authoritative_tx_delta : Z;
  ts_authoritative_response_source : string;
  ts_response_observed : bool;
  ts_outbound_observed : bool;
  ts_traffic_stalled : bool;
  ts_path_state : string;
  ts_decision_id : option string;
  ts_current_observation : current_observation;
  ts_last_collected_at : option string;
  ts_last_collected_age_seconds : option Z;
  ts_fresh : bool;
  ts_samples : list sample;
  ts_ignored_samples : list sample;
}.

Definition pair_total (f g : sample -> Z) (l : list sample) : Z * Z := (total f l, total g l).

(** [detect_recent_vpn_traffic_attempts]: [now1] for the cutoff, [now2] for
    the age; the settings give the default window and the correlation. *)
Definition detect_recent_vpn_traffic_attempts (table : list snapshot) (window_seconds : option Z)
    (settings_window settings_correlation : Z) (now1 now2 : datetime) : py traffic_signal :=
  let window := match window_seconds with Some n => if n =? 0 then settings_window else n | None => settings_window end in
  cutoff ← dt_add_seconds now1 (- window);
  all ← py_map sample_of_row (select_snapshots (isoformat cutoff) table);
  let samples := List.filter is_signal all in
  let ignored := List.filter (fun s => negb (is_signal s)) all in
  let observation := _build_watchdog_current_observation samples settings_correlation in
  let last_collected_at := option_map s_collected_at (head samples) in
  let latest := List.filter (fun s => bool_decide (Some (s_collected_at s) = last_collected_at)) samples in
  let active := Z.of_nat (length (List.filter s_activity_observed latest)) in
  let age := option_map (age_of now2) (_parse_timestamp last_collected_at) in
  let stale := match age with None => true | Some a => Z.max settings_window window <? a end in
  let rx := if co_tx_observed observation then co_authoritative_rx_delta observation else 0 in
  let tx := if co_tx_observed observation then co_authoritative_tx_delta observation else 0 in
  let adapter := List.filter is_adapter in
  let dataplane := List.filter (fun s => negb (is_adapter s)) in
  Some {|
    ts_observed := 0 <? active;
    ts_window_seconds := window;
    ts_checked_samples_count := Z.of_nat (length samples);
    ts_ignored_samples_count := Z.of_nat (length ignored);
    ts_active_samples_count := active;
    ts_latest_samples_count := Z.of_nat (length latest);
    ts_window_active_samples_count := Z.of_nat (length (List.filter s_activity_observed samples));
    ts_total := pair_total s_rx_delta s_tx_delta samples;
    ts_dataplane := pair_total eff_rx eff_tx (dataplane samples);
    ts_adapter := pair_total eff_rx eff_tx (adapter samples);
    ts_latest := pair_total s_rx_delta s_tx_delta latest;
    ts_latest_dataplane := pair_total eff_rx eff_tx (dataplane latest);
    ts_latest_adapter := pair_total eff_rx eff_tx (adapter latest);
    ts_authoritative_rx_delta := rx;
    ts_authoritative_tx_delta := tx;
    ts_authoritative_response_source :=
      if co_tx_observed observation then co_response_source observation else "none";
    ts_response_observed := 0 <? rx;
    ts_outbound_observed := 0 <? tx;
    ts_traffic_stalled := (0 <? tx) && (rx <=? 0);
    ts_path_state := if stale then "idle" else co_path_state observation;
    ts_decision_id := co_decision_id observation;
    ts_current_observation := observation;
    ts_last_collected_at := last_collected_at;
    ts_last_collected_age_seconds := age;
    ts_fresh := negb stale;
    ts_samples := samples;
    ts_ignored_samples := take 20 ignored;
  |}.

(** ** Active quality *)

(** [active_quality_degraded]; the threshold is a setting. *)
Definition active_quality_degraded (max_latency_ms : Z) (active_check : pyval) : bool :=
  match active_check with
  | VDict check =>
      if negb (truthy (dget "ok" check)) then true
      else
        match dget "last_ping_ms" check with
        | VNone => false
        | ping => match py_int ping with Some latency => max_latency_ms <? latency | None => false end
        end
  | _ => false
  end.

Definition degraded_active_check (max_latency_ms : Z) (active_check : dict) : dict :=
  if negb (truthy (dget "ok" active_check)) then active_check
  else
    let d := active_check in
    let d := dset "ok" (VBool false) d in
    let d := dset "status" (VStr "degraded_latency") d in
    let d := dset "error_code" (VStr "WATCHDOG_ACTIVE_LATENCY_DEGRADED") d in
    dset "error_message"
      (VStr ("Current VPN-auto server latency " +:+ py_str (dget "last_ping_ms" active_check)
             +:+ " ms exceeds quality threshold " +:+ py_str_int max_latency_ms +:+ " ms.")) d.
End Signal.

(** ** Facts *)

Lemma sum_Z_pos {A} (f : A -> Z) l :
  Forall (fun x => 0 < f x) l -> 0 <= sum_Z (map f l) /\ (l <> [] -> 0 < sum_Z (map f l)).
Proof.
  induction 1 as [|x l Hx _ [IH1 IH2]]; cbn [map sum_Z foldr]; [done|]. unfold sum_Z in *. split; [lia|]. intros _. lia.
Qed.

Lemma fold_dt_max l d : dt_us d <= dt_us (fold_left dt_max l d) /\
  (forall x, x ∈ l -> dt_us x <= dt_us (fold_left dt_max l d)) /\ (fold_left dt_max l d = d \/ fold_left dt_max l d ∈ l).
Proof.
  revert d. induction l as [|y l IH]; intros d; cbn [fold_left].
  - split; [lia|]. split; [by intros x ?%elem_of_nil|by left].
  - destruct (IH (dt_max d y)) as (H1 & H2 & H3).
    assert (Hm : dt_us d <= dt_us (dt_max d y) /\ dt_us y <= dt_us (dt_max d y) /\ (dt_max d y = d \/ dt_max d y = y)).
    { unfold dt_max. destruct (Z.ltb_spec (dt_us d) (dt_us y)); split_all; auto; lia. }
    destruct Hm as (Hd & Hy & Hor). split; [lia|]. split.
    + intros x [->|Hx]%elem_of_cons; [lia|by apply H2].
    + rewrite elem_of_cons. destruct H3 as [->|H3]; [|auto]. destruct Hor as [->| ->]; auto.
Qed.

Lemma max_time_spec l m : max_time l = Some m -> m ∈ l /\ forall x, x ∈ l -> dt_us x <= dt_us m.
Proof.
  destruct l as [|d l]; cbn [max_time]; [done|]. intros [= <-]. destruct (fold_dt_max l d) as (H1 & H2 & H3). split.
  - rewrite elem_of_cons. destruct H3 as [->|?]; auto.
  - intros x [->|Hx]%elem_of_cons; auto.
Qed.

Section SignalFacts.
Context `{ReprContainer} (decision_digest : pyval -> string).

(** The effective deltas only redistribute the bytes of a sample. *)
Lemma effective_deltas_sum s : eff_rx s + eff_tx s = s_rx_delta s + s_tx_delta s.
Proof.
  unfold eff_rx, eff_tx, _watchdog_effective_sample_deltas.
  repeat (let E := fresh in case_on E); cbn [fst snd]; lia.
Qed.

(** A sample within the correlation window of an instant. *)
Definition near (anchor : datetime) (correlation : Z) (s : sample) : Prop :=
  exists dt, _watchdog_sample_collected_dt s = Some dt /\ Z.abs (dt_us dt - dt_us anchor) <= correlation * 1000000.

Lemma correlated_spec anchor correlation (samples : list sample) (x : datetime * sample * signal_kind) :
  x ∈ omap (correlated_sample anchor correlation) samples <->
  exists s dt k, s ∈ samples /\ x = (dt, s, k) /\ _watchdog_sample_collected_dt s = Some dt /\
    _watchdog_traffic_sample_kind s = Some k /\ Z.abs (dt_us dt - dt_us anchor) <= correlation * 1000000.
Proof.
  rewrite list_elem_of_omap. unfold correlated_sample. split.
  - intros (s & Hs & Hx). destruct (_watchdog_sample_collected_dt s) as [dt|] eqn:Ed; [|done].
    destruct (Z.ltb_spec (correlation * 1000000) (Z.abs (dt_us dt - dt_us anchor))) as [|Hle]; [done|].
    destruct (_watchdog_traffic_sample_kind s) as [k|] eqn:Ek; [|done]. injection Hx as <-. exists s, dt, k. auto.
  - intros (s & dt & k & Hs & -> & Ed & Ek & Hle). exists s. split; [done|]. rewrite Ed, Ek.
    destruct (Z.ltb_spec (correlation * 1000000) (Z.abs (dt_us dt - dt_us anchor))); [lia|done].
Qed.

(** The time of the newest dataplane sample that sent something. *)
Definition is_anchor (samples : list sample) (anchor : datetime) : Prop :=
  (exists s, s ∈ samples /\ dataplane_tx s = Some (anchor, s)) /\
  forall s dt, s ∈ samples -> dataplane_tx s = Some (dt, s) -> dt_us dt <= dt_us anchor.

Lemma dataplane_tx_self s x : dataplane_tx s = Some x -> x.2 = s /\ 0 < eff_tx s /\
  _watchdog_traffic_sample_kind s = Some Dataplane /\ _watchdog_sample_collected_dt s = Some x.1.
Proof.
  unfold dataplane_tx. destruct (_watchdog_traffic_sample_kind s) as [[]|]; try done.
  destruct (_watchdog_sample_collected_dt s) as [dt|]; [|done]. destruct (Z.ltb_spec 0 (eff_tx s)); [|done].
  by intros [= <-].
Qed.

Lemma anchor_spec (samples : list sample) anchor :
  max_time (map fst (omap dataplane_tx samples)) = Some anchor -> is_anchor samples anchor.
Proof.
  intros Hm. apply max_time_spec in Hm as [Hin Hmax]. split.
  - apply list_elem_of_fmap in Hin as ([dt s] & -> & Hs). apply list_elem_of_omap in Hs as (s0 & Hs0 & E).
    pose proof (dataplane_tx_self _ _ E) as (Es & _). cbn [snd] in Es. subst s0. exists s. split; [done|exact E].
  - intros s dt Hs E. apply Hmax, list_elem_of_fmap. exists (dt, s). split; [done|].
    apply list_elem_of_omap. by exists s.
Qed.

Definition received (samples : list sample) (anchor : datetime) (correlation : Z) (k : signal_kind) : Prop :=
  exists s, s ∈ samples /\ near anchor correlation s /\ _watchdog_traffic_sample_kind s = Some k /\ 0 < eff_rx s.

Lemma rx_items_spec (samples : list sample) anchor correlation k :
  List.filter (is_rx_of k) (omap (correlated_sample anchor correlation) samples) <> [] <->
  received samples anchor correlation k.
Proof.
  split.
  - destruct (List.filter _ _) as [|x l] eqn:E; [done|]. intros _.
    assert (Hx : x ∈ List.filter (is_rx_of k) (omap (correlated_sample anchor correlation) samples)) by (rewrite E; by left).
    apply list_elem_of_In, List.filter_In in Hx as [Hx%list_elem_of_In Hr].
    apply correlated_spec in Hx as (s & dt & k' & Hs & -> & Hd & Hk & Hle). unfold is_rx_of in Hr. bool_simpl. cbn [snd] in *.
    subst k'. exists s. split_all; try done; [by exists dt|]. by apply Z.ltb_lt.
  - intros (s & Hs & (dt & Hd & Hle) & Hk & Hrx) E.
    assert (Hx : (dt, s, k) ∈ List.filter (is_rx_of k) (omap (correlated_sample anchor correlation) samples)); [|rewrite E in Hx; by apply elem_of_nil in Hx].
    apply list_elem_of_In, List.filter_In. split.
    + apply list_elem_of_In, correlated_spec. by exists s, dt, k.
    + unfold is_rx_of. cbn [snd]. rewrite bool_decide_eq_true_2 by done. by apply Z.ltb_lt.
Qed.

(** Closes a conjunction of equivalences whose sides are settled. *)
Ltac decide_sides H1 H2 :=
  split_all; try (split; intros; first [discriminate | tauto | lia | reflexivity]); try lia; try reflexivity; try assumption.

(** What the observation means.  It is idle exactly when no dataplane
    sample with a readable time sent anything.  Otherwise its anchor is
    the newest such sample, traffic was sent, and it is a suspected
    failure exactly when no signal within the correlation window of the
    anchor received anything, on the dataplane or through an adapter; the
    dataplane is the source of the response whenever it received. *)
Theorem observation_spec (samples : list sample) correlation_seconds :
  let correlation := Z.max 1 (if correlation_seconds =? 0 then 30 else correlation_seconds) in
  let o := _build_watchdog_current_observation decision_digest samples correlation_seconds in
  (co_path_state o = "idle" <-> forall s, s ∈ samples -> dataplane_tx s = None) /\
  (co_path_state o <> "idle" -> exists anchor, is_anchor samples anchor /\
     co_tx_observed_at o = Some (isoformat anchor) /\ 0 < co_authoritative_tx_delta o /\
     let d := received samples anchor correlation Dataplane in
     let a := received samples anchor correlation Adapter in
     (co_path_state o = "suspected_failure" <-> ~ d /\ ~ a) /\ (co_path_state o = "healthy" <-> d \/ a) /\
     (co_response_source o = "dataplane" <-> d) /\ (0 < co_authoritative_rx_delta o <-> d \/ a)).
Proof.
  cbv zeta. set (correlation := Z.max 1 _). unfold _build_watchdog_current_observation. fold correlation. cbv zeta.
  destruct (max_time (map fst (omap dataplane_tx samples))) as [anchor|] eqn:Em.
  2: { cbn [co_path_state]. split; [|done]. split; [|done]. intros _ s Hs.
       destruct (dataplane_tx s) as [x|] eqn:Ex; [|done]. exfalso.
       assert (Hin : x.1 ∈ map fst (omap dataplane_tx samples)).
       { apply list_elem_of_fmap. exists x. split; [done|]. apply list_elem_of_omap. by exists s. }
       destruct (map fst (omap dataplane_tx samples)); [by apply elem_of_nil in Hin|done]. }
  pose proof (anchor_spec _ _ Em) as Hanchor. set (items := omap (correlated_sample anchor correlation) samples).
  set (tx_items := List.filter (is_anchor_tx anchor) items).
  assert (Htx : 0 < sum_Z (map (fun x => eff_tx (item_sample x)) tx_items)).
  { apply sum_Z_pos.
    - apply List.Forall_forall. intros x Hx. apply List.filter_In in Hx as [_ Hx]. unfold is_anchor_tx in Hx.
      bool_simpl. by apply Z.ltb_lt.
    - destruct Hanchor as [(s & Hs & Es) _]. apply dataplane_tx_self in Es as (_ & Ht & Hk & Hd). cbn [fst] in Hd.
      intros E. assert (Hx : (anchor, s, Dataplane) ∈ tx_items); [|rewrite E in Hx; by apply elem_of_nil in Hx].
      apply list_elem_of_In, List.filter_In. split.
      + apply list_elem_of_In, correlated_spec. exists s, anchor, Dataplane. split_all; try done. lia.
      + unfold is_anchor_tx, same_instant. cbn [snd item_time item_sample fst]. rewrite bool_decide_eq_true_2 by done.
        rewrite Z.eqb_refl. by apply Z.ltb_lt. }
  assert (Hpos : forall k, Forall (fun x => 0 < eff_rx (item_sample x)) (List.filter (is_rx_of k) items)).
  { intros k. apply List.Forall_forall. intros x Hx. apply List.filter_In in Hx as [_ Hx]. unfold is_rx_of in Hx. bool_simpl.
    by apply Z.ltb_lt. }
  pose proof (rx_items_spec samples anchor correlation Dataplane) as Hd. fold items in Hd.
  pose proof (rx_items_spec samples anchor correlation Adapter) as Ha. fold items in Ha.
  pose proof (sum_Z_pos _ _ (Hpos Dataplane)) as [_ Sd]. pose proof (sum_Z_pos _ _ (Hpos Adapter)) as [_ Sa].
  apply Z.ltb_lt in Htx as Htxb.
  assert (Hidle : forall b, (if (true && b)%bool then "healthy" else "suspected_failure") <> "idle") by (by intros []).
  split.
  { split; [|]; [intros E; exfalso|intros Hall; exfalso].
    - destruct (List.filter (is_rx_of Dataplane) items), (List.filter (is_rx_of Adapter) items);
        cbn [co_path_state] in E; rewrite Htxb in E; by apply Hidle in E.
    - destruct Hanchor as [(s & Hs & Es) _]. by rewrite Hall in Es. }
  intros _. exists anchor. split; [done|].
  destruct (List.filter (is_rx_of Dataplane) items) as [|d ds];
    [destruct (List.filter (is_rx_of Adapter) items) as [|a as']|];
    cbn [co_path_state co_tx_observed_at co_authoritative_tx_delta co_response_source co_authoritative_rx_delta];
    rewrite Htxb; cbn [andb].
  - assert (Nd : ~ received samples anchor correlation Dataplane) by (rewrite <- Hd; tauto).
    assert (Na : ~ received samples anchor correlation Adapter) by (rewrite <- Ha; tauto).
    cbn [map sum_Z foldr]. change (0 <? 0) with false. cbv iota.
    decide_sides Nd Na.
  - assert (Nd : ~ received samples anchor correlation Dataplane) by (rewrite <- Hd; tauto).
    assert (Na : received samples anchor correlation Adapter) by (apply Ha; discriminate).
    specialize (Sa ltac:(discriminate)). apply Z.ltb_lt in Sa as Sab. rewrite Sab.
    decide_sides Nd Na.
  - assert (Nd : received samples anchor correlation Dataplane) by (apply Hd; discriminate).
    specialize (Sd ltac:(discriminate)). apply Z.ltb_lt in Sd as Sdb. rewrite Sdb.
    decide_sides Nd Nd.
Qed.
End SignalFacts.
