(* ===== verification/DockerPolicy.v ===== *)
(** * The Docker source policy

    [services/docker_policy.py]: the fail-closed guard the manifest and the
    nft renderer both run before a Docker subject may be classified by its
    source address.  A subject is a dictionary, a Python set of addresses a
    [gset addr].  The subjects of a call are distinct objects: [other is
    subject] is a comparison of positions. *)
From stdpp Require Import base list strings pretty gmap sorting.
From Stdlib Require Import ZArith Lia Ascii.
From S2P Require Import Prelude PyStr IpAddr IpAddrFacts PyVal SubjectTaxonomy.

Open Scope string_scope.
Open Scope Z_scope.
Open Scope list_scope.

#[export] Instance ipver_countable : Countable ipver.
Proof.
  refine (inj_countable' (fun v => match v with V4 => true | V6 => false end)
            (fun b : bool => if b then V4 else V6) _).
  by intros [].
Defined.

#[export] Instance addr_countable : Countable addr.
Proof.
  refine (inj_countable' (fun a => (a_ver a, a_int a, a_scope a)) (fun x => Addr x.1.1 x.1.2 x.2) _).
  by intros [].
Defined.

Definition is_v4 (a : addr) : bool := bool_decide (a_ver a = V4).

(** [v is True]. *)
Definition is_true_val (v : pyval) : bool := match v with VBool b => b | _ => false end.

Definition MAX_DOCKER_IPV4_SOURCE_ADDRESSES : nat := 64.

(** [type(v) is str]. *)
Definition as_str (v : pyval) : option string := match v with VStr s => Some s | _ => None end.

Definition canonical_text (s : string) : bool :=
  match ip_address s with Some a => is_v4 a && String.eqb (str_addr a) s | None => false end.

Definition _canonical_ipv4_values (values : pyval) : option (gset addr) :=
  match values with
  | VList l =>
      if (length l =? 0)%nat || (MAX_DOCKER_IPV4_SOURCE_ADDRESSES <? length l)%nat then None
      else
        strs ← py_map as_str l;
        parsed ← py_map ip_address strs;
        if forallb canonical_text strs then Some (list_to_set parsed) else None
  | _ => None
  end.

(** [ip_address(v) if type(v) is str else None]; the outer [None] is ValueError. *)
Definition parse_if_str (v : pyval) : py (option addr) :=
  match v with VStr s => a ← ip_address s; Some (Some a) | _ => Some None end.

(** [subject.get("scoped_runtime")], or that of the effective state. *)
Definition runtime_of (subject : dict) : pyval :=
  let runtime := dget "scoped_runtime" subject in
  match runtime, dget "effective_state" subject with
  | VDict _, _ => runtime
  | _, VDict effective => dget "scoped_runtime" effective
  | _, _ => runtime
  end.

(** [d.get(k)] of what may not be a dictionary, then None. *)
Definition get_in (k : string) (v : pyval) : pyval := match v with VDict d => dget k d | _ => VNone end.

Definition detail_source (subject : dict) : pyval :=
  match dget "detail" subject with
  | VDict detail => por (dget "source" detail) (dget "source_json" detail)
  | _ => VNone
  end.

Section Policy.
Context `{ReprContainer}.

Definition _subject_ipv4 (subject : dict) : option addr :=
  let value := get_in "value" (get_in "matcher" (runtime_of subject)) in
  if truthy value then
    a ← ip_address (py_strip (py_str value));
    if is_v4 a then Some a else None
  else None.

Definition is_host_mode (source : dict) : bool := String.eqb (norm_lower_val (dget "NetworkMode" source)) "host".

Definition complete_no_ipv6 (v : pyval) : bool := eq_str v "complete_no_global_ipv6".

(** [primary is not None and primary.version == 4 and primary in addresses]. *)
Definition primary_in (primary : option addr) (addresses : gset addr) : bool :=
  match primary with Some p => is_v4 p && bool_decide (p ∈ addresses) | None => false end.

(** What the host observed: addresses, primary address, host network; the outer
    [None] is a return of None, the inner one a subject without an observation. *)
Definition observed_inventory (subject : dict) : option (option (gset addr * option addr * bool)) :=
  match dget "observed_docker_source" subject, detail_source subject with
  | VDict observed, _ =>
      if negb (is_true_val (dget "available" observed)) || negb (is_true_val (dget "valid" observed)) then None
      else
        primary ← parse_if_str (dget "primary_ipv4" observed);
        addresses ← _canonical_ipv4_values (dget "ipv4_addresses" observed);
        if is_true_val (dget "ipv4_inventory_complete" observed)
           && complete_no_ipv6 (dget "ipv6_inventory_status" observed) && primary_in primary addresses
        then Some (Some (addresses, primary, is_true_val (dget "host_network" observed)))
        else None
  | _, VDict source =>
      primary ← parse_if_str (get_in "ip_address" (dget "detail" subject));
      addresses ← _canonical_ipv4_values (dget "IPv4Addresses" source);
      if is_true_val (dget "IPv4InventoryComplete" source)
         && (is_true_val (dget "IPv6InventoryComplete" source) && py_eq (dget "IPv6Addresses" source) (VList []))
         && primary_in primary addresses
      then Some (Some (addresses, primary, is_host_mode source))
      else None
  | _, _ => Some None
  end.

(** The check that the observation and the raw source agree, when both are there. *)
Definition sources_agree (subject : dict) (addresses : gset addr) (host_network : bool) : bool :=
  match dget "observed_docker_source" subject, detail_source subject with
  | VDict observed, VDict source =>
      bool_decide (_canonical_ipv4_values (dget "IPv4Addresses" source) = Some addresses)
      && py_eq (get_in "ip_address" (dget "detail" subject)) (dget "primary_ipv4" observed)
      && Bool.eqb (is_host_mode source) host_network
      && Bool.eqb (is_true_val (dget "IPv4InventoryComplete" source))
           (is_true_val (dget "ipv4_inventory_complete" observed))
      && Bool.eqb (is_true_val (dget "IPv6InventoryComplete" source)
                   && py_eq (dget "IPv6Addresses" source) (VList []))
           (complete_no_ipv6 (dget "ipv6_inventory_status" observed))
  | _, _ => true
  end.

Definition coverage_addresses (coverage : dict) (observed : option (gset addr * option addr * bool))
    : option (gset addr) :=
  if negb (is_true_val (dget "ipv4_inventory_complete" coverage))
     || negb (complete_no_ipv6 (dget "ipv6_inventory_status" coverage)) then None
  else
    addresses ← _canonical_ipv4_values (dget "ipv4_addresses" coverage);
    match observed with
    | Some (observed_addresses, primary, _) =>
        if bool_decide (addresses = observed_addresses)
           && match primary with Some p => bool_decide (p ∈ addresses) | None => true end
        then Some addresses else None
    | None => if (size addresses =? 1)%nat then Some addresses else None
    end.

Definition _docker_ipv4_addresses (subject : dict) : option (gset addr) :=
  observed ← observed_inventory subject;
  if match observed with
     | Some (addresses, _, host_network) => sources_agree subject addresses host_network
     | None => true
     end
  then
    match get_in "direct_source_coverage" (runtime_of subject) with
    | VDict coverage => coverage_addresses coverage observed
    | _ => option_map (fun x => x.1.1) observed
    end
  else None.

(** ** Conflicts *)

Definition conflict := (string * string)%type.

Definition subject_id_of (subject : dict) : string :=
  py_str (por (dget "subject_id" subject) (VStr "docker-subject")).

(** [str(subject.get("dataplane_path") or effective.get("dataplane_path") or "").strip().lower()]. *)
Definition path_of (subject : dict) : string :=
  norm_lower_val (por (dget "dataplane_path" subject) (get_in "dataplane_path" (dget "effective_state" subject))).

(** [global_mode in {"vpn", "selective"}]. *)
Definition routed_mode (global_mode : option string) : bool :=
  bool_decide (global_mode = Some "vpn" \/ global_mode = Some "selective").

Definition host_network_of (subject : dict) : bool :=
  match detail_source subject with
  | VDict source => is_host_mode source
  | _ => is_true_val (get_in "host_network" (dget "observed_docker_source" subject))
  end.

Definition infrastructure_role (subject : dict) : bool :=
  truthy (get_in "infrastructure_role" (runtime_of subject)).

Definition matcher_of (subject : dict) : pyval := get_in "matcher" (runtime_of subject).

Definition is_docker (subject : dict) : bool := eq_str (dget "subject_type" subject) "docker".

(** [str(subject.get("subject_type") or "")]. *)
Definition type_text (subject : dict) : string := py_str (por (dget "subject_type" subject) (VStr "")).

Definition is_active (subject : dict) : bool := truthy (dget "is_active" subject).

Definition has_values (subject : dict) : bool :=
  match matcher_of subject with VDict m => is_set (dict_lookup "values" m) | _ => false end.

Definition values_supported (global_mode : option string) (subject : dict) : bool :=
  is_docker subject && String.eqb (path_of subject) "direct" && routed_mode global_mode
  && negb (infrastructure_role subject) && negb (host_network_of subject).

(** The subjects the first loop does not skip with [continue]. *)
Definition direct_candidate (global_mode : option string) (subject : dict) : bool :=
  values_supported global_mode subject && is_active subject.

Definition observed_primary_value (subject : dict) : pyval :=
  match dget "observed_docker_source" subject with
  | VDict observed => dget "primary_ipv4" observed
  | _ => get_in "ip_address" (dget "detail" subject)
  end.

(** The inventory of a direct subject whose rendered matcher covers it. *)
Definition direct_inventory (subject : dict) : option (gset addr) :=
  let '(primary, observed_primary) :=
    match parse_if_str (get_in "value" (matcher_of subject)) with
    | Some primary =>
        match parse_if_str (observed_primary_value subject) with
        | Some observed => (primary, observed)
        | None => (None, None)
        end
    | None => (None, None)
    end in
  inventory ← _docker_ipv4_addresses subject;
  p ← primary;
  if is_v4 p && bool_decide (_canonical_ipv4_values (get_in "values" (matcher_of subject)) = Some inventory)
     && bool_decide (p ∈ inventory)
     && match observed_primary with Some o => bool_decide (p = o) | None => true end
  then Some inventory else None.

Definition coverage_incomplete (subject : dict) : conflict :=
  (subject_id_of subject, "docker_direct_source_coverage_incomplete").

Definition overlap_conflict (subject : dict) : conflict :=
  (subject_id_of subject, "docker_vpn_matcher_overlaps_infrastructure").

(** The body of the first loop: its conflicts, and its direct source. *)
Definition direct_conflicts_of (global_mode : option string) (subject : dict) : list conflict :=
  (if has_values subject && negb (values_supported global_mode subject) then [coverage_incomplete subject] else [])
  ++ (if direct_candidate global_mode subject then
        (if eq_str (get_in "status" (runtime_of subject)) "pending_docker_direct_source_coverage"
         then [coverage_incomplete subject] else [])
        ++ (match direct_inventory subject with None => [coverage_incomplete subject] | Some _ => [] end)
      else []).

Definition direct_source_of (global_mode : option string) (subject : dict) : option (gset addr) :=
  if direct_candidate global_mode subject then direct_inventory subject else None.

Definition same_path (subject : dict) (path : string) : bool := String.eqb (path_of subject) path.

(** The addresses a subject holds, complete inventory or matcher address:
    [addresses] or [{address}], where an empty set counts as missing. *)
Definition source_addresses (subject : dict) : gset addr :=
  let fallback := match _subject_ipv4 subject with Some a => {[a]} | None => ∅ end in
  match _docker_ipv4_addresses subject with
  | Some addresses => if bool_decide (addresses = ∅) then fallback else addresses
  | None => fallback
  end.

(** The same, where only None counts as missing. *)
Definition inventory_or_matcher (subject : dict) : gset addr :=
  match _docker_ipv4_addresses subject with
  | Some addresses => addresses
  | None => match _subject_ipv4 subject with Some a => {[a]} | None => ∅ end
  end.

(** The list with the positions: [other is subject] compares positions. *)
Fixpoint enum_from (i : nat) (subjects : list pyval) : list (nat * dict) :=
  match subjects with
  | [] => []
  | VDict s :: l => (i, s) :: enum_from (S i) l
  | _ :: l => enum_from (S i) l
  end.

Definition dict_subjects (subjects : list pyval) : list (nat * dict) := enum_from 0 subjects.

Definition meets (a b : gset addr) : bool := negb (bool_decide (a ∩ b = ∅)).

(** An active docker subject that is not direct, at another position, with a shared address. *)
Definition shares_with_indirect (i : nat) (addresses : gset addr) (other : nat * dict) : bool :=
  negb (other.1 =? i)%nat && is_docker other.2 && is_active other.2 && negb (same_path other.2 "direct")
  && meets addresses (inventory_or_matcher other.2).

Definition direct_overlaps (global_mode : option string) (ds : list (nat * dict)) (x : nat * dict) : list conflict :=
  match direct_source_of global_mode x.2 with
  | Some addresses =>
      map (fun _ => overlap_conflict x.2) (List.filter (shares_with_indirect x.1 addresses) ds)
  | None => []
  end.

Definition is_vpn_subject (subject : dict) : bool :=
  String.eqb (type_text subject) "docker" && is_active subject && same_path subject "vpn".

Definition invalid_infrastructure (subject : dict) : conflict := (subject_id_of subject, "invalid_infrastructure_ipv4").

(** The loop over [infrastructure_ipv4]; [None] is its early return. *)
Definition infrastructure_network (value : pyval) : option net :=
  network ← ip_network (py_strip (py_str value));
  if bool_decide (n_ver network = V4) then Some network else None.

(** [subject_type in {"host", "fwrouter"} or role or docker_immune]. *)
Definition is_protected_subject (subject : dict) : bool :=
  let docker_immune :=
    String.eqb (type_text subject) "docker"
    && (negb (is_active subject)
        || negb (same_path subject "direct" || same_path subject "vpn" || same_path subject "blocked")
        || (same_path subject "vpn" && negb (truthy (get_in "applied" (runtime_of subject))))) in
  String.eqb (type_text subject) "host" || String.eqb (type_text subject) "fwrouter"
  || infrastructure_role subject || docker_immune.

Definition protected_addresses_of (subject : dict) : gset addr :=
  if is_protected_subject subject then
    if String.eqb (type_text subject) "docker" then inventory_or_matcher subject
    else match _subject_ipv4 subject with Some a => {[a]} | None => ∅ end
  else ∅.

Definition protected_addresses (ds : list (nat * dict)) : gset addr :=
  union_list (map (fun x => protected_addresses_of x.2) ds).

(** [ambiguous_source]. *)
Definition is_ambiguous (i : nat) (addresses : gset addr) (other : nat * dict) : bool :=
  negb (other.1 =? i)%nat && String.eqb (type_text other.2) "docker" && meets addresses (source_addresses other.2).

Definition in_any_network (networks : list net) (addresses : gset addr) : bool :=
  existsb (fun network => existsb (net_has network) (elements addresses)) networks.

(** The body of the last loop: at most one conflict per subject. *)
Definition vpn_conflict (ds : list (nat * dict)) (networks : list net) (x : nat * dict) : option conflict :=
  let '(i, subject) := x in
  let addresses := source_addresses subject in
  if infrastructure_role subject then Some (subject_id_of subject, "protected_runtime_cannot_use_scoped_vpn")
  else if negb (match _subject_ipv4 subject with Some a => bool_decide (a ∈ addresses) | None => false end)
  then Some (subject_id_of subject, "docker_vpn_matcher_not_resolved_ipv4")
  else if negb (truthy (get_in "applied" (runtime_of subject)))
  then Some (subject_id_of subject, "docker_vpn_runtime_not_ready")
  else if existsb (is_ambiguous i addresses) ds then Some (overlap_conflict subject)
  else if meets addresses (protected_addresses ds) || in_any_network networks addresses
  then Some (overlap_conflict subject)
  else None.

Definition docker_vpn_immunity_conflicts (subjects infrastructure_ipv4 : list pyval) (global_mode : option string)
    : list conflict :=
  let ds := dict_subjects subjects in
  let direct_conflicts :=
    flat_map (fun x => direct_conflicts_of global_mode x.2) ds
    ++ (if routed_mode global_mode then flat_map (direct_overlaps global_mode ds) ds else []) in
  let vpn_subjects := List.filter (fun x => is_vpn_subject x.2) ds in
  match direct_conflicts, vpn_subjects with
  | _ :: _, _ => direct_conflicts
  | [], [] => []
  | [], _ =>
      match py_map infrastructure_network infrastructure_ipv4 with
      | None => map (fun x => invalid_infrastructure x.2) vpn_subjects
      | Some networks => omap (vpn_conflict ds networks) vpn_subjects
      end
  end.

Definition docker_vpn_immunity_conflict (subjects infrastructure_ipv4 : list pyval) (global_mode : option string)
    : option conflict := head (docker_vpn_immunity_conflicts subjects infrastructure_ipv4 global_mode).
End Policy.
