(* ===== verification/DockerPolicyFacts.v ===== *)
(** * Facts about the Docker source policy

    What an accepted inventory is, and when the guard lets a set of subjects
    through. *)
From stdpp Require Import base list strings pretty gmap sorting.
From Stdlib Require Import ZArith Lia Ascii.
From S2P Require Import Prelude PyStr IpAddr IpAddrFacts NetworkContract PyVal SubjectTaxonomy DockerPolicy.

Open Scope string_scope.
Open Scope Z_scope.
Open Scope list_scope.

Lemma py_map_image {A B} (f : A -> py B) l ys : py_map f l = Some ys -> forall x, x ∈ l -> exists y, y ∈ ys /\ f x = Some y.
Proof.
  revert ys. induction l as [|x l IH]; intros ys; cbn [py_map]; [by intros _ x ?%elem_of_nil|].
  destruct (f x) as [y|] eqn:Ex; cbn [mbind option_bind]; [|discriminate].
  destruct (py_map f l) as [ys'|]; cbn [mbind option_bind]; [|discriminate]. intros [= <-] z [->|Hz]%elem_of_cons.
  - exists y. split; [by left|done].
  - destruct (IH ys' eq_refl z Hz) as (y' & Hy & E). exists y'. split; [by right|done].
Qed.

(** ** Canonical values *)

Definition v4_value (a : addr) : Prop := addr_wf a /\ a_ver a = V4.

Lemma py_map_as_str l strs : py_map as_str l = Some strs <-> l = map VStr strs.
Proof.
  revert strs. induction l as [|v l IH]; intros strs; cbn [py_map].
  - destruct strs; split; (discriminate || done).
  - destruct strs as [|t strs].
    + split; [|discriminate]. destruct (as_str v); cbn; [destruct (py_map as_str l); discriminate|discriminate].
    + cbn [map]. split.
      * destruct v; try discriminate. cbn [as_str mbind option_bind]. destruct (py_map as_str l) as [ys|] eqn:E; [|discriminate].
        intros [= -> ->]. f_equal. by apply IH.
      * intros [= -> ->]. cbn [as_str mbind option_bind]. by rewrite (proj2 (IH strs) eq_refl).
Qed.

Lemma canonical_text_spec s :
  canonical_text s = true <-> exists a, ip_address s = Some a /\ v4_value a /\ s = str_addr a.
Proof.
  unfold canonical_text, is_v4, v4_value. split.
  - destruct (ip_address s) as [a|] eqn:E; [|done]. intros H. bool_simpl.
    match goal with H : String.eqb _ _ = true |- _ => apply String.eqb_eq in H end.
    exists a. split_all; try done. by eapply ip_address_wf.
  - intros (a & -> & [_ Hv] & ->). by rewrite bool_decide_eq_true_2, String.eqb_refl.
Qed.

Lemma parse_canonical strs :
  forallb canonical_text strs = true <->
  exists l, strs = map str_addr l /\ Forall v4_value l /\ py_map ip_address strs = Some l.
Proof.
  induction strs as [|s strs IH]; cbn [forallb py_map].
  - split; [|done]. intros _. exists []. split_all; [done|constructor|done].
  - rewrite andb_true_iff, canonical_text_spec, IH. split.
    + intros [(a & E & Ha & ->) (l & -> & Hl & Ep)]. exists (a :: l). cbn [map]. rewrite E. cbn. rewrite Ep. cbn.
      split_all; try done. by constructor.
    + intros ([|a l] & Hs & Hl & Ep); cbn [map] in Hs; [done|]. injection Hs as Hs Hss. inversion Hl as [|? ? Ha Hl']; subst.
      rewrite ip_address_str in Ep by apply Ha. cbn in Ep.
      destruct (py_map ip_address (map str_addr l)) as [l'|] eqn:E; [|done]. cbn in Ep. injection Ep as ->. split.
      * exists a. by rewrite ip_address_str by apply Ha.
      * by exists l.
Qed.

Lemma canonical_iff values A :
  _canonical_ipv4_values values = Some A <->
  exists l : list addr, values = VList (map (fun a => VStr (str_addr a)) l) /\ (0 < length l <= 64)%nat /\
    Forall v4_value l /\ A = list_to_set l.
Proof.
  unfold _canonical_ipv4_values, MAX_DOCKER_IPV4_SOURCE_ADDRESSES. split.
  - destruct values as [| | | |l|]; try done. destruct (_ || _) eqn:El; [done|]. bool_simpl.
    destruct (py_map as_str l) as [strs|] eqn:Es; [|done]. cbn. apply py_map_as_str in Es. subst l.
    destruct (py_map ip_address strs) as [parsed|] eqn:Ep; [|done]. cbn.
    destruct (forallb canonical_text strs) eqn:Ec; [|done]. intros [= <-].
    apply parse_canonical in Ec as (l & -> & Hl & Ep'). rewrite Ep in Ep'. injection Ep' as ->.
    exists l. rewrite map_map. rewrite !length_map in *. apply Nat.eqb_neq in H. apply Nat.ltb_ge in H0. split_all; try done; lia.
  - intros (l & -> & Hlen & Hl & ->). rewrite length_map.
    assert (Hb : ((length l =? 0)%nat || (64 <? length l)%nat) = false).
    { apply orb_false_intro; [apply Nat.eqb_neq|apply Nat.ltb_ge]; lia. }
    rewrite Hb. rewrite <- (map_map str_addr VStr). rewrite (proj2 (py_map_as_str _ _) eq_refl). cbn.
    assert (Hc : forallb canonical_text (map str_addr l) = true).
    { clear -Hl. induction Hl as [|a l Ha _ IH]; [done|]. cbn [map forallb]. rewrite IH, andb_true_r. apply canonical_text_spec.
      exists a. by rewrite ip_address_str by apply Ha. }
    destruct (proj1 (parse_canonical _) Hc) as (l' & Hm & Hl' & Ep). rewrite Ep, Hc. cbn. do 2 f_equal.
    clear -Hm Hl Hl'. revert l' Hm Hl'. induction Hl as [|a l Ha _ IH]; intros [|b l'] Hm Hl'; try done.
    cbn [map] in Hm. injection Hm as Hab Hm. inversion Hl' as [|? ? Hb Hl'']; subst. f_equal; [|by apply IH].
    apply (f_equal ip_address) in Hab. rewrite !ip_address_str in Hab by (apply Ha || apply Hb). congruence.
Qed.

(** The accepted address lists are exactly the non-empty lists of at
    most 64 texts that are the canonical spelling of IPv4 addresses, and the
    result is the set of these addresses: no alias, blank, number or IPv6
    text passes. *)
Theorem canonical_ipv4_values_spec values A :
  _canonical_ipv4_values values = Some A <->
  exists l : list addr, values = VList (map (fun a => VStr (str_addr a)) l) /\ (0 < length l <= 64)%nat /\
    Forall v4_value l /\ A = list_to_set l.
Proof. exact (canonical_iff values A). Qed.

Definition inventory_wf (A : gset addr) : Prop :=
  A ≠ ∅ /\ (size A <= 64)%nat /\ forall a, a ∈ A -> v4_value a.

Lemma size_list_to_set (l : list addr) : (size (list_to_set l : gset addr) <= length l)%nat.
Proof.
  induction l as [|a l IH]; cbn [list_to_set foldr length]; [by rewrite size_empty|].
  assert (Hs : (size ({[a]} ∪ list_to_set l : gset addr) <= size ({[a]} : gset addr) + size (list_to_set l : gset addr))%nat).
  { rewrite size_union_alt. pose proof (subseteq_size (list_to_set l ∖ {[a]}) (list_to_set l : gset addr)
      (subseteq_difference_l _ _ _ (reflexivity _))). lia. }
  rewrite size_singleton in Hs. lia.
Qed.

Lemma canonical_wf values A : _canonical_ipv4_values values = Some A -> inventory_wf A.
Proof.
  rewrite canonical_iff. intros (l & _ & Hlen & Hl & ->). split; [|split].
  - destruct l as [|a l]; [cbn in Hlen; lia|]. cbn. intros E.
    apply (not_elem_of_empty (C := gset addr) a). rewrite <- E. apply elem_of_union. left. by apply elem_of_singleton.
  - pose proof (size_list_to_set l). lia.
  - intros a. rewrite elem_of_list_to_set. intros Ha. rewrite List.Forall_forall in Hl. by apply Hl, list_elem_of_In.
Qed.

Section Facts.
Context `{ReprContainer}.

(** ** The inventory *)

Definition primary_of (subject : dict) : pyval :=
  match dget "observed_docker_source" subject with
  | VDict observed => dget "primary_ipv4" observed
  | _ => get_in "ip_address" (dget "detail" subject)
  end.

Lemma observed_inventory_inv subject x : observed_inventory subject = Some x ->
  match x with
  | Some (A, primary, host) =>
      (exists p, primary = Some p /\ a_ver p = V4 /\ p ∈ A /\ exists s, primary_of subject = VStr s /\ ip_address s = Some p) /\
      match dget "observed_docker_source" subject, detail_source subject with
      | VDict observed, _ =>
          _canonical_ipv4_values (dget "ipv4_addresses" observed) = Some A /\
          dget "available" observed = VBool true /\ dget "valid" observed = VBool true /\
          dget "ipv4_inventory_complete" observed = VBool true
      | _, VDict source =>
          _canonical_ipv4_values (dget "IPv4Addresses" source) = Some A /\
          dget "IPv4InventoryComplete" source = VBool true
      | _, _ => False
      end
  | None => is_dict (dget "observed_docker_source" subject) = false /\ is_dict (detail_source subject) = false
  end.
Proof.
  assert (Ht : forall v, is_true_val v = true -> v = VBool true) by (intros [|[]| | | |]; done).
  assert (Hpr : forall v primary A, parse_if_str v = Some primary -> primary_in primary A = true ->
    exists p, primary = Some p /\ a_ver p = V4 /\ p ∈ A /\ exists s, v = VStr s /\ ip_address s = Some p).
  { intros v primary A Hv Hin. destruct primary as [p|]; [|done]. cbn in Hin. unfold is_v4 in Hin. bool_simpl.
    exists p. split_all; try done. destruct v as [| | |s| |]; try done. cbn in Hv.
    destruct (ip_address s) eqn:E; [|done]. cbn in Hv. injection Hv as ->. by exists s. }
  unfold observed_inventory, primary_of.
  assert (Hsrc : forall source,
    (primary ← parse_if_str (get_in "ip_address" (dget "detail" subject));
     addresses ← _canonical_ipv4_values (dget "IPv4Addresses" source);
     if is_true_val (dget "IPv4InventoryComplete" source)
        && (is_true_val (dget "IPv6InventoryComplete" source) && py_eq (dget "IPv6Addresses" source) (VList []))
        && primary_in primary addresses
     then Some (Some (addresses, primary, is_host_mode source)) else None) = Some x ->
    match x with
    | Some (A, primary, host) =>
        (exists p, primary = Some p /\ a_ver p = V4 /\ p ∈ A /\
           exists s, get_in "ip_address" (dget "detail" subject) = VStr s /\ ip_address s = Some p) /\
        _canonical_ipv4_values (dget "IPv4Addresses" source) = Some A /\ dget "IPv4InventoryComplete" source = VBool true
    | None => False
    end).
  { intros source Hx. destruct (parse_if_str _) as [primary|] eqn:Ep; [|done]. cbn [mbind option_bind] in Hx.
    destruct (_canonical_ipv4_values _) as [A|] eqn:Ea; [|done]. cbn [mbind option_bind] in Hx.
    destruct (_ && _) eqn:Eb in Hx; [|done]. bool_simpl. injection Hx as <-. split_all; eauto. }
  destruct (dget "observed_docker_source" subject) as [| | | | |observed].
  6: { destruct (_ || _) eqn:Eo; [discriminate|]. bool_simpl.
    destruct (parse_if_str (dget "primary_ipv4" observed)) as [primary|] eqn:Ep; cbn [mbind option_bind]; [|discriminate].
    destruct (_canonical_ipv4_values (dget "ipv4_addresses" observed)) as [A|] eqn:Ea; cbn [mbind option_bind]; [|discriminate].
    destruct (_ && _) eqn:Eb; [|discriminate]. bool_simpl. intros [= <-]. split_all; eauto. }
  all: destruct (detail_source subject) as [| | | | |source]; try (intros [= <-]; done).
  all: intros Hx; apply Hsrc in Hx; destruct x as [[[A primary] host]|]; [exact Hx|destruct Hx].
Qed.

(** Every place of the subject that states the addresses, and what it states. *)
Inductive states_addresses (subject : dict) : pyval -> Prop :=
  | states_observed observed : dget "observed_docker_source" subject = VDict observed ->
      states_addresses subject (dget "ipv4_addresses" observed)
  | states_source source : detail_source subject = VDict source ->
      states_addresses subject (dget "IPv4Addresses" source)
  | states_coverage coverage : get_in "direct_source_coverage" (runtime_of subject) = VDict coverage ->
      states_addresses subject (dget "ipv4_addresses" coverage).

Lemma docker_inventory subject A :
  _docker_ipv4_addresses subject = Some A ->
  inventory_wf A /\
  (forall values, states_addresses subject values -> _canonical_ipv4_values values = Some A) /\
  ((exists p s, primary_of subject = VStr s /\ ip_address s = Some p /\ p ∈ A) \/ size A = 1%nat).
Proof.
  unfold _docker_ipv4_addresses. destruct (observed_inventory subject) as [x|] eqn:Eo; cbn [mbind option_bind]; [|discriminate].
  apply observed_inventory_inv in Eo. destruct x as [[[B primary] host]|]; cbn [option_map fst].
  - destruct Eo as [(p & -> & Hv & Hin & s & Hs & Hp) Hsrc].
    destruct (sources_agree subject B host) eqn:Eag; [|discriminate].
    assert (Hst : forall values, states_addresses subject values ->
      (exists coverage, get_in "direct_source_coverage" (runtime_of subject) = VDict coverage /\
         values = dget "ipv4_addresses" coverage) \/ _canonical_ipv4_values values = Some B).
    { intros values [observed E|source E|coverage E]; [right|right|left; by exists coverage].
      - rewrite E in Hsrc. apply Hsrc.
      - destruct (dget "observed_docker_source" subject) eqn:Eob; try (rewrite E in Hsrc; apply Hsrc).
        unfold sources_agree in Eag. rewrite Eob, E in Eag. bool_simpl. done. }
    assert (HA : (exists coverage, get_in "direct_source_coverage" (runtime_of subject) = VDict coverage /\
                   _canonical_ipv4_values (dget "ipv4_addresses" coverage) = Some A /\ A = B) \/
                 (is_dict (get_in "direct_source_coverage" (runtime_of subject)) = false /\ A = B) ->
                 inventory_wf B ->
      inventory_wf A /\ (forall values, states_addresses subject values -> _canonical_ipv4_values values = Some A) /\
      ((exists p s, primary_of subject = VStr s /\ ip_address s = Some p /\ p ∈ A) \/ size A = 1%nat)).
    { intros Hcov Hwf. assert (A = B) as -> by (by destruct Hcov as [(? & _ & _ & ?)|[_ ?]]). split_all; [apply Hwf..| |left; eauto].
      intros values [(cov & E & ->)|?]%Hst; [|done]. destruct Hcov as [(c' & E' & Hc & _)|[E' _]]; [congruence|by rewrite E in E']. }
    assert (Hwf : inventory_wf B).
    { destruct (dget "observed_docker_source" subject), (detail_source subject); try (by destruct Hsrc);
        eapply canonical_wf; apply Hsrc. }
    destruct (get_in "direct_source_coverage" (runtime_of subject)) as [| | | | |coverage] eqn:Ecov;
      try (intros [= <-]; apply HA; [by right|done]).
    unfold coverage_addresses. destruct (_ || _); [discriminate|].
    destruct (_canonical_ipv4_values _) as [A'|] eqn:EA; cbn [mbind option_bind]; [|discriminate].
    destruct (_ && _) eqn:Eb; [|discriminate]. bool_simpl. intros [= <-]. apply HA; [|done]. left. by exists coverage.
  - destruct Eo as [Eo Es].
    destruct (get_in "direct_source_coverage" (runtime_of subject)) as [| | | | |coverage] eqn:Ecov; try discriminate.
    unfold coverage_addresses. destruct (_ || _); [discriminate|].
    destruct (_canonical_ipv4_values _) as [A'|] eqn:EA; cbn [mbind option_bind]; [|discriminate].
    destruct (size A' =? 1)%nat eqn:Esz; [|discriminate]. intros [= <-]. split; [by eapply canonical_wf|]. split.
    + intros values [observed E|source E|c E]; [by rewrite E in Eo|by rewrite E in Es|congruence].
    + right. by apply Nat.eqb_eq.
Qed.

(** An accepted inventory of a Docker subject is a well-formed set of
    IPv4 addresses; every place of the subject that states the addresses
    (the host observation, the raw source of the detail, the coverage of
    the runtime) states this very set; and when the host observed the
    subject, the primary address is an IPv4 address of the set.  With no
    observation the set has one address. *)
Theorem docker_inventory_sound subject A :
  _docker_ipv4_addresses subject = Some A ->
  inventory_wf A /\
  (forall values, states_addresses subject values -> _canonical_ipv4_values values = Some A) /\
  ((exists p s, primary_of subject = VStr s /\ ip_address s = Some p /\ p ∈ A) \/ size A = 1%nat).
Proof. exact (docker_inventory subject A). Qed.

(** ** The guard *)

(** The rendered matcher of a direct subject covers its inventory. *)
Definition direct_covered (subject : dict) (A : gset addr) : Prop :=
  _docker_ipv4_addresses subject = Some A /\
  _canonical_ipv4_values (get_in "values" (matcher_of subject)) = Some A /\
  exists p text, get_in "value" (matcher_of subject) = VStr text /\ ip_address text = Some p /\ a_ver p = V4 /\ p ∈ A /\
    forall observed, observed_primary_value subject = VStr observed -> ip_address observed = Some p.

Lemma parse_if_str_inv v p : parse_if_str v = Some (Some p) <-> exists s, v = VStr s /\ ip_address s = Some p.
Proof.
  split.
  - destruct v as [| | |s| |]; try discriminate. cbn. destruct (ip_address s) eqn:E; [|discriminate].
    intros [= ->]. by exists s.
  - intros (s & -> & E). cbn. by rewrite E.
Qed.

Lemma direct_inventory_iff subject A : direct_inventory subject = Some A <-> direct_covered subject A.
Proof.
  unfold direct_inventory, direct_covered. split.
  - destruct (parse_if_str (get_in "value" (matcher_of subject))) as [[p|]|] eqn:Ep;
      [|destruct (parse_if_str (observed_primary_value subject)); destruct (_docker_ipv4_addresses subject); discriminate
       |destruct (_docker_ipv4_addresses subject); discriminate].
    apply parse_if_str_inv in Ep as (text & Et & Ep).
    destruct (parse_if_str (observed_primary_value subject)) as [o|] eqn:Eo; [|destruct (_docker_ipv4_addresses subject); discriminate].
    destruct (_docker_ipv4_addresses subject) as [B|]; [|discriminate]. cbn [mbind option_bind].
    destruct (_ && _) eqn:Eb; [|discriminate]. intros [= ->]. unfold is_v4 in Eb. bool_simpl. split_all; try done.
    exists p, text. split_all; try done. intros s Es. rewrite Es in Eo. cbn in Eo.
    destruct (ip_address s); [|discriminate]. injection Eo as <-. bool_simpl. by subst.
  - intros (-> & Ev & p & text & Et & Ep & Hv & Hin & Ho). rewrite (proj2 (parse_if_str_inv _ p)) by eauto.
    rewrite Ev. assert (Eo : parse_if_str (observed_primary_value subject) = Some (Some p) \/
      parse_if_str (observed_primary_value subject) = Some None).
    { destruct (observed_primary_value subject) as [| | |s| |]; auto. left. apply parse_if_str_inv. exists s. auto. }
    cbn [mbind option_bind]. unfold is_v4. rewrite !bool_decide_eq_true_2 by done.
    destruct Eo as [-> | ->]; cbn [mbind option_bind andb]; rewrite ?bool_decide_eq_true_2 by done; done.
Qed.

Lemma enum_from_spec i subjects j s :
  (j, s) ∈ enum_from i subjects <-> (i <= j)%nat /\ subjects !! (j - i)%nat = Some (VDict s).
Proof.
  revert i. induction subjects as [|v l IH]; intros i; cbn [enum_from].
  - rewrite elem_of_nil, lookup_nil. split; [done|by intros [_ ?]].
  - assert (Hrest : (j, s) ∈ enum_from (S i) l <-> (i < j)%nat /\ (v :: l) !! (j - i)%nat = Some (VDict s)).
    { rewrite IH. split; intros [Hlt Hl].
      - split; [lia|]. replace (j - i)%nat with (S (j - S i))%nat by lia. exact Hl.
      - split; [lia|]. replace (j - i)%nat with (S (j - S i))%nat in Hl by lia. exact Hl. }
    assert (Hhere : (i <= j)%nat /\ (v :: l) !! (j - i)%nat = Some (VDict s) <->
      (j = i /\ v = VDict s) \/ ((i < j)%nat /\ (v :: l) !! (j - i)%nat = Some (VDict s))).
    { destruct (decide (j = i)) as [->|Hne].
      - rewrite Nat.sub_diag. cbn. split; [intros [_ [= ->]]; auto|]. intros [[_ ->]|[? _]]; [auto|lia].
      - split; [intros [? ?]; right; split; [lia|done]|]. intros [[? _]|[? ?]]; [done|split; [lia|done]]. }
    rewrite Hhere, <- Hrest. destruct v; try (split; [by right|by intros [[_ ?]|?]]).
    rewrite elem_of_cons. split; intros [E|?]; auto; left; [by injection E as -> ->|by destruct E as [-> [= ->]]].
Qed.

(** The subjects by position. *)
Definition at_pos (subjects : list pyval) (i : nat) (s : dict) : Prop := subjects !! i = Some (VDict s).

Lemma dict_subjects_spec subjects i s : (i, s) ∈ dict_subjects subjects <-> at_pos subjects i s.
Proof. unfold dict_subjects, at_pos. rewrite enum_from_spec, Nat.sub_0_r. split; [by intros [_ ?]|split; [lia|done]]. Qed.

Lemma meets_false (A B : gset addr) : meets A B = false <-> A ## B.
Proof. unfold meets. rewrite negb_false_iff, bool_decide_eq_true. by rewrite disjoint_intersection_L. Qed.

Lemma existsb_dicts_false p subjects : existsb p (dict_subjects subjects) = false <->
  forall j o, at_pos subjects j o -> p (j, o) = false.
Proof.
  rewrite existsb_false. split.
  - intros Hp j o Ho. by apply Hp, dict_subjects_spec.
  - intros Hp [j o] Ho. by apply Hp, dict_subjects_spec.
Qed.

Lemma flat_map_nil {A B} (f : A -> list B) l : flat_map f l = [] <-> forall x, x ∈ l -> f x = [].
Proof.
  induction l as [|x l IH]; cbn [flat_map]; [split; [by intros _ x ?%elem_of_nil|done]|].
  rewrite app_nil, IH. setoid_rewrite elem_of_cons. split; [intros [Hx Hl] y [->|Hy]; auto|auto].
Qed.

Lemma omap_nil {A B} (f : A -> option B) l : omap f l = [] <-> forall x, x ∈ l -> f x = None.
Proof.
  induction l as [|x l IH]; [split; [by intros _ x ?%elem_of_nil|done]|].
  change (omap f (x :: l)) with (match f x with Some y => y :: omap f l | None => omap f l end).
  setoid_rewrite elem_of_cons. destruct (f x) as [y|] eqn:E.
  - split; [done|]. intros Hall. rewrite (Hall x) in E by auto. done.
  - rewrite IH. split; [intros Hl y [->|Hy]; auto|auto].
Qed.

(** An active docker subject that is not on the direct path. *)
Definition active_indirect (s : dict) : Prop :=
  is_docker s = true /\ is_active s = true /\ path_of s <> "direct".

(** What the first two loops ask of a subject. *)
Definition direct_ok (global_mode : option string) (subjects : list pyval) (i : nat) (s : dict) : Prop :=
  (has_values s = true -> values_supported global_mode s = true) /\
  (direct_candidate global_mode s = true ->
     eq_str (get_in "status" (runtime_of s)) "pending_docker_direct_source_coverage" = false /\
     exists A, direct_covered s A /\
       forall j o, at_pos subjects j o -> j <> i -> active_indirect o -> A ## inventory_or_matcher o).

(** What the last loop asks of an active VPN subject. *)
Definition vpn_ok (subjects : list pyval) (networks : list net) (i : nat) (s : dict) : Prop :=
  infrastructure_role s = false /\ truthy (get_in "applied" (runtime_of s)) = true /\
  (exists a, _subject_ipv4 s = Some a /\ a ∈ source_addresses s) /\
  (forall j o, at_pos subjects j o -> j <> i -> type_text o = "docker" -> source_addresses s ## source_addresses o) /\
  (forall j o, at_pos subjects j o -> source_addresses s ## protected_addresses_of o) /\
  (forall a n, a ∈ source_addresses s -> n ∈ networks -> net_has n a = false).

Lemma direct_overlaps_nil global_mode subjects i s A :
  direct_source_of global_mode s = Some A ->
  direct_overlaps global_mode (dict_subjects subjects) (i, s) = [] <->
  forall j o, at_pos subjects j o -> j <> i -> active_indirect o -> A ## inventory_or_matcher o.
Proof.
  intros Hs. unfold direct_overlaps. cbn [snd fst]. rewrite Hs. split.
  - intros E%map_eq_nil j o Ho Hne (Hd & Ha & Hp). apply meets_false.
    destruct (meets A (inventory_or_matcher o)) eqn:Em; [|done]. exfalso.
    assert (Hin : (j, o) ∈ List.filter (shares_with_indirect i A) (dict_subjects subjects)); [|rewrite E in Hin; by apply elem_of_nil in Hin].
    apply list_elem_of_In, List.filter_In. split; [by apply list_elem_of_In, dict_subjects_spec|].
    unfold shares_with_indirect, same_path. cbn [fst snd]. rewrite Hd, Ha, Em, (proj2 (Nat.eqb_neq _ _)), (proj2 (String.eqb_neq _ _)) by done.
    done.
  - intros Hall. destruct (List.filter _ _) as [|[j o] l] eqn:E; [done|]. exfalso.
    assert (Hin : (j, o) ∈ List.filter (shares_with_indirect i A) (dict_subjects subjects)) by (rewrite E; by left).
    apply list_elem_of_In, List.filter_In in Hin as [Hin%list_elem_of_In Hsh]. apply dict_subjects_spec in Hin.
    unfold shares_with_indirect, same_path in Hsh. cbn [fst snd] in Hsh. bool_simpl.
    rewrite (proj2 (meets_false A (inventory_or_matcher o))) in *; [done|]. apply (Hall j); [done|by apply Nat.eqb_neq|].
    split; [done|split; [done|by apply String.eqb_neq]].
Qed.

Lemma candidate_routed global_mode s : direct_candidate global_mode s = true -> routed_mode global_mode = true.
Proof. unfold direct_candidate, values_supported. intros Hc. by bool_simpl. Qed.

Lemma direct_conflicts_nil global_mode subjects :
  flat_map (fun x => direct_conflicts_of global_mode x.2) (dict_subjects subjects)
    ++ (if routed_mode global_mode
        then flat_map (direct_overlaps global_mode (dict_subjects subjects)) (dict_subjects subjects) else []) = [] <->
  forall i s, at_pos subjects i s -> direct_ok global_mode subjects i s.
Proof.
  rewrite app_nil, flat_map_nil.
  assert (Hov : (if routed_mode global_mode
        then flat_map (direct_overlaps global_mode (dict_subjects subjects)) (dict_subjects subjects) else []) = [] <->
        forall i s A, at_pos subjects i s -> direct_source_of global_mode s = Some A ->
        direct_overlaps global_mode (dict_subjects subjects) (i, s) = []).
  { destruct (routed_mode global_mode) eqn:Er.
    - rewrite flat_map_nil. split.
      + intros Hall i s A Hs _. by apply Hall, dict_subjects_spec.
      + intros Hall [i s] Hs. destruct (direct_source_of global_mode s) as [A|] eqn:E.
        * apply (Hall i s A); [by apply dict_subjects_spec|done].
        * unfold direct_overlaps. cbn [snd]. by rewrite E.
    - split; [|done]. intros _ i s A _ Hs. unfold direct_source_of in Hs.
      destruct (direct_candidate global_mode s) eqn:Ec; [|done]. apply candidate_routed in Ec. congruence. }
  rewrite Hov. split.
  - intros [Hc Ho] i s Hs. specialize (Hc (i, s) (proj2 (dict_subjects_spec _ _ _) Hs)). cbn [snd] in Hc.
    unfold direct_conflicts_of in Hc. apply app_nil in Hc as [Hc1 Hc2]. split.
    + intros Hv. rewrite Hv in Hc1. by destruct (values_supported global_mode s).
    + intros Hcand. rewrite Hcand in Hc2. apply app_nil in Hc2 as [Hc2 Hc3]. split; [by destruct (eq_str _ _)|].
      destruct (direct_inventory s) as [A|] eqn:Ei; [|done]. exists A. split; [by apply direct_inventory_iff|].
      assert (Hsrc : direct_source_of global_mode s = Some A) by (unfold direct_source_of; by rewrite Hcand).
      apply (direct_overlaps_nil global_mode subjects i s A Hsrc). by apply (Ho i s A).
  - intros Hok. split.
    + intros [i s] Hs%dict_subjects_spec. destruct (Hok i s Hs) as [Hv Hd]. cbn [snd]. unfold direct_conflicts_of.
      apply app_nil. split.
      * destruct (has_values s); [|done]. by rewrite Hv.
      * destruct (direct_candidate global_mode s); [|done]. destruct Hd as (-> & A & HA & _); [done|].
        apply direct_inventory_iff in HA. by rewrite HA.
    + intros i s A Hs Hsrc. destruct (Hok i s Hs) as [_ Hd]. unfold direct_source_of in Hsrc.
      destruct (direct_candidate global_mode s) eqn:Ec; [|done]. destruct Hd as (_ & B & HB & Hdis); [done|].
      apply direct_inventory_iff in HB. assert (B = A) as -> by congruence.
      apply direct_overlaps_nil with (A := A); [unfold direct_source_of; by rewrite Ec|exact Hdis].
Qed.

Lemma elem_of_union_list_map {A} (f : A -> gset addr) l a : a ∈ union_list (map f l) <-> exists x, x ∈ l /\ a ∈ f x.
Proof.
  rewrite elem_of_union_list. split.
  - intros (X & (x & -> & Hx)%list_elem_of_fmap & Ha). eauto.
  - intros (x & Hx & Ha). exists (f x). split; [apply list_elem_of_fmap; eauto|done].
Qed.

Lemma vpn_conflict_none subjects networks i s : at_pos subjects i s ->
  vpn_conflict (dict_subjects subjects) networks (i, s) = None <-> vpn_ok subjects networks i s.
Proof.
  intros Hpos. unfold vpn_conflict, vpn_ok.
  assert (Hamb : existsb (is_ambiguous i (source_addresses s)) (dict_subjects subjects) = false <->
    forall j o, at_pos subjects j o -> j <> i -> type_text o = "docker" -> source_addresses s ## source_addresses o).
  { rewrite existsb_dicts_false. unfold is_ambiguous. cbn [fst snd]. split.
    - intros Hall j o Ho Hne Ht. apply meets_false. specialize (Hall j o Ho).
      by rewrite (proj2 (Nat.eqb_neq _ _) Hne), Ht, String.eqb_refl in Hall.
    - intros Hall j o Ho. destruct (j =? i)%nat eqn:Ej; [done|]. cbn [negb andb].
      destruct (String.eqb_spec (type_text o) "docker") as [Et|]; [|done]. cbn [andb]. apply meets_false.
      apply (Hall j); [done|by apply Nat.eqb_neq|done]. }
  assert (Hprot : meets (source_addresses s) (protected_addresses (dict_subjects subjects)) = false <->
    forall j o, at_pos subjects j o -> source_addresses s ## protected_addresses_of o).
  { rewrite meets_false. unfold protected_addresses. split.
    - intros Hd j o Ho a Ha Hp. apply (Hd a Ha), elem_of_union_list_map. exists (j, o). split; [by apply dict_subjects_spec|done].
    - intros Hd a Ha ([j o] & Ho%dict_subjects_spec & Hp)%elem_of_union_list_map. by apply (Hd j o Ho a). }
  assert (Hnet : in_any_network networks (source_addresses s) = false <->
    forall a n, a ∈ source_addresses s -> n ∈ networks -> net_has n a = false).
  { unfold in_any_network. rewrite existsb_false. setoid_rewrite existsb_false. setoid_rewrite elem_of_elements.
    split; intros Hall; [intros a n Ha Hn; by apply Hall|intros n Hn a Ha; by apply Hall]. }
  rewrite <- Hamb, <- Hprot, <- Hnet. clear Hamb Hprot Hnet Hpos.
  assert (Hmatch : match _subject_ipv4 s with Some a => bool_decide (a ∈ source_addresses s) | None => false end = true <->
    exists a, _subject_ipv4 s = Some a /\ a ∈ source_addresses s).
  { destruct (_subject_ipv4 s) as [a|]; [|split; [done|by intros (? & ? & _)]]. rewrite bool_decide_eq_true.
    split; [eauto|by intros (? & [= ->] & ?)]. }
  rewrite <- Hmatch. clear Hmatch.
  destruct (infrastructure_role s); [split; [done|by intros [? _]]|].
  destruct (match _subject_ipv4 s with Some _ => _ | None => _ end); cbn [negb]; [|split; [done|by intros (_ & _ & ? & _)]].
  destruct (truthy _); cbn [negb]; [|split; [done|by intros (_ & ? & _)]].
  destruct (existsb _ _); [split; [done|by intros (_ & _ & _ & ? & _)]|].
  destruct (meets _ _), (in_any_network _ _); cbn [orb]; split; try done; intros (_ & _ & _ & _ & ? & ?); done.
Qed.

Lemma policy_iff subjects infrastructure_ipv4 global_mode :
  docker_vpn_immunity_conflicts subjects infrastructure_ipv4 global_mode = [] <->
  (forall i s, at_pos subjects i s -> direct_ok global_mode subjects i s) /\
  (forall i s, at_pos subjects i s -> is_vpn_subject s = true ->
     exists networks, py_map infrastructure_network infrastructure_ipv4 = Some networks /\
       vpn_ok subjects networks i s).
Proof.
  rewrite <- direct_conflicts_nil. unfold docker_vpn_immunity_conflicts. cbv zeta.
  destruct (_ ++ _) as [|c cs]; [|split; [done|by intros [? _]]].
  assert (Hin : forall i s, (i, s) ∈ List.filter (fun x => is_vpn_subject x.2) (dict_subjects subjects) <->
    at_pos subjects i s /\ is_vpn_subject s = true).
  { intros i s. by rewrite list_elem_of_In, List.filter_In, <- list_elem_of_In, dict_subjects_spec. }
  destruct (List.filter _ _) as [|[i0 s0] l] eqn:El.
  { split; [|done]. intros _. split; [done|]. intros i s Hs Hv. exfalso.
    apply (not_elem_of_nil (i, s)), Hin. done. }
  destruct (py_map infrastructure_network infrastructure_ipv4) as [networks|].
  - rewrite omap_nil. split.
    + intros Hall. split; [done|]. intros i s Hs Hv. exists networks. split; [done|].
      apply vpn_conflict_none; [done|]. by apply Hall, Hin.
    + intros [_ Hall] [i s] [Hs Hv]%Hin. destruct (Hall i s Hs Hv) as (n' & [= <-] & Hok). by apply vpn_conflict_none.
  - cbn [map]. split; [done|]. intros [_ Hall]. destruct (proj1 (Hin i0 s0) ltac:(by left)) as [Hs Hv].
    by destruct (Hall i0 s0 Hs Hv) as (? & ? & _).
Qed.

(** The guard lets a set of subjects through exactly when every one
    is safe.  Rendered address lists occur only on direct subjects that
    support them; an active direct Docker subject in a routed mode is
    covered completely by its matcher and shares no address with an active
    subject on another path; and with an active VPN subject every
    infrastructure entry is an IPv4 network, the subject has no
    infrastructure role, is applied, its matcher is one of its addresses,
    and these are disjoint from those of every other Docker subject, from
    every protected address and from every infrastructure network. *)
Theorem docker_policy_exact subjects infrastructure_ipv4 global_mode :
  docker_vpn_immunity_conflicts subjects infrastructure_ipv4 global_mode = [] <->
  (forall i s, at_pos subjects i s -> direct_ok global_mode subjects i s) /\
  (forall i s, at_pos subjects i s -> is_vpn_subject s = true ->
     exists networks, py_map infrastructure_network infrastructure_ipv4 = Some networks /\
       vpn_ok subjects networks i s).
Proof. exact (policy_iff subjects infrastructure_ipv4 global_mode). Qed.

Lemma subject_ipv4_value s a : _subject_ipv4 s = Some a -> v4_value a.
Proof.
  unfold _subject_ipv4. destruct (truthy _); [|done].
  destruct (ip_address _) as [b|] eqn:E; cbn [mbind option_bind]; [|discriminate]. unfold is_v4.
  destruct (bool_decide _) eqn:Eb; [|discriminate]. intros [= <-]. bool_simpl. split; [by eapply ip_address_wf|done].
Qed.

Lemma source_addresses_value s a : a ∈ source_addresses s -> v4_value a.
Proof.
  assert (Hf : a ∈ (match _subject_ipv4 s with Some b => {[b]} | None => ∅ end : gset addr) -> v4_value a).
  { destruct (_subject_ipv4 s) as [b|] eqn:E; [|by intros ?%elem_of_empty].
    intros ->%elem_of_singleton. by eapply subject_ipv4_value. }
  unfold source_addresses. destruct (_docker_ipv4_addresses s) as [A|] eqn:E; [|exact Hf].
  destruct (bool_decide _); [exact Hf|]. by apply docker_inventory in E as [(_ & _ & Hv) _]; intros Ha%Hv.
Qed.

Lemma infrastructure_network_spec v n : infrastructure_network v = Some n ->
  ip_network (py_strip (py_str v)) = Some n /\ net_wf n /\ n_ver n = V4.
Proof.
  unfold infrastructure_network. destruct (ip_network _) as [m|] eqn:E; cbn [mbind option_bind]; [|discriminate].
  destruct (bool_decide _) eqn:Eb; [|discriminate]. intros [= <-]. bool_simpl. split_all; try done. by eapply ip_network_wf.
Qed.

(** C27: an address decides the subject.  When the guard reports nothing,
    every source address of an active VPN subject is an IPv4 address that
    lies in no infrastructure network and belongs to no other Docker
    subject, active or not, and to no host, router, infrastructure or
    immune subject. *)
Theorem vpn_source_unambiguous subjects infrastructure_ipv4 global_mode i s a :
  docker_vpn_immunity_conflicts subjects infrastructure_ipv4 global_mode = [] ->
  at_pos subjects i s -> is_vpn_subject s = true -> a ∈ source_addresses s ->
  v4_value a /\
  (forall v, v ∈ infrastructure_ipv4 -> exists n, ip_network (py_strip (py_str v)) = Some n /\ n_ver n = V4 /\
     ~ covers n V4 (a_int a)) /\
  (forall j o, at_pos subjects j o -> type_text o = "docker" -> a ∈ source_addresses o -> j = i) /\
  (forall j o, at_pos subjects j o -> is_protected_subject o = true -> type_text o <> "docker" -> _subject_ipv4 o <> Some a).
Proof.
  intros [_ Hv]%policy_iff Hs Hvpn Ha. destruct (Hv i s Hs Hvpn) as (networks & Hn & _ & _ & _ & Hamb & Hprot & Hnet).
  pose proof (source_addresses_value s a Ha) as Hval. split; [done|]. split_all.
  - intros v Hin. destruct (py_map_image _ _ _ Hn v Hin) as (n & Hnin & En).
    apply infrastructure_network_spec in En as (E & Hwf & Hver). exists n. split_all; [done..|].
    intros Hc. specialize (Hnet a n Ha Hnin). apply not_true_iff_false in Hnet. apply Hnet. destruct Hval as [[Hr _] Hav].
    apply net_has_covers; [done|done|by rewrite Hav].
  - intros j o Ho Ht Hin. destruct (decide (j = i)) as [|Hne]; [done|]. by destruct (Hamb j o Ho Hne Ht a Ha Hin).
  - intros j o Ho Hp Ht E. apply (Hprot j o Ho a Ha). unfold protected_addresses_of. rewrite Hp.
    rewrite (proj2 (String.eqb_neq _ _) Ht), E. by apply elem_of_singleton.
Qed.
End Facts.

(** ** Witnesses *)

Definition sample_repr : ReprContainer := fun _ => "<container>".

Definition sample_observed (ips : list string) : pyval :=
  VDict [("available", VBool true); ("valid", VBool true); ("ipv4_addresses", vstrs ips);
         ("primary_ipv4", VStr (default "" (head ips))); ("ipv4_inventory_complete", VBool true);
         ("ipv6_inventory_status", VStr "complete_no_global_ipv6"); ("host_network", VBool false)].

Definition sample_vpn : dict :=
  [("subject_id", VStr "docker:web"); ("subject_type", VStr "docker"); ("is_active", VBool true);
   ("dataplane_path", VStr "vpn"); ("observed_docker_source", sample_observed ["172.18.0.5"; "172.19.0.5"]);
   ("scoped_runtime", VDict [("applied", VBool true); ("matcher", VDict [("value", VStr "172.18.0.5")])])].

Definition sample_direct : dict :=
  [("subject_id", VStr "docker:db"); ("subject_type", VStr "docker"); ("is_active", VBool true);
   ("dataplane_path", VStr "direct"); ("observed_docker_source", sample_observed ["172.18.0.9"]);
   ("scoped_runtime", VDict [("matcher", VDict [("value", VStr "172.18.0.9"); ("values", vstrs ["172.18.0.9"])])])].

Definition sample_host : dict :=
  [("subject_id", VStr "host"); ("subject_type", VStr "host");
   ("scoped_runtime", VDict [("matcher", VDict [("value", VStr "192.168.0.1")])])].

Definition sample_subjects : list pyval := [VDict sample_vpn; VDict sample_direct; VDict sample_host].

Lemma docker_inventory_sound_witness :
  let _ := sample_repr in
  exists A, _docker_ipv4_addresses sample_vpn = Some A /\ inventory_wf A.
Proof.
  cbv zeta. eexists. assert (E : _docker_ipv4_addresses (H := sample_repr) sample_vpn = Some
    (list_to_set [Addr V4 2886860805 ""; Addr V4 2886926341 ""])) by (vm_compute; reflexivity).
  split; [exact E|]. exact (proj1 (docker_inventory_sound (H := sample_repr) sample_vpn _ E)).
Defined.

Lemma vpn_source_unambiguous_witness :
  let _ := sample_repr in
  docker_vpn_immunity_conflicts sample_subjects [VStr "10.0.0.0/24"] (Some "selective") = [] /\
  v4_value (Addr V4 2886926341 "").
Proof.
  cbv zeta. assert (E : docker_vpn_immunity_conflicts (H := sample_repr) sample_subjects [VStr "10.0.0.0/24"] (Some "selective") = [])
    by (vm_compute; reflexivity).
  assert (Ea : bool_decide (Addr V4 2886926341 "" ∈ source_addresses (H := sample_repr) sample_vpn) = true)
    by (vm_compute; reflexivity).
  assert (Ev : is_vpn_subject (H := sample_repr) sample_vpn = true) by (vm_compute; reflexivity).
  assert (Ep : at_pos sample_subjects 0 sample_vpn) by reflexivity.
  apply bool_decide_eq_true in Ea.
  split; [exact E|].
  exact (proj1 (vpn_source_unambiguous (H := sample_repr) sample_subjects [VStr "10.0.0.0/24"] (Some "selective") 0 sample_vpn
    (Addr V4 2886926341 "") E Ep Ev Ea)).
Defined.
