(* ===== verification/ScopedEgress.v ===== *)
(** * Scoped egress

    [services/scoped_egress.py]: how a subject is matched in the dataplane,
    whether its scoped egress is applied and if not why, and the summary,
    diagnostics and readiness built from the subjects.  The file of the
    runtime bindings is an argument; everything else is the code's dictionaries. *)
From stdpp Require Import base list strings pretty gmap sorting.
From Stdlib Require Import ZArith Lia Ascii.
From S2P Require Import Prelude PyStr IpAddr PyVal SubjectTaxonomy DockerPolicy.

Open Scope string_scope.
Open Scope Z_scope.
Open Scope list_scope.

Definition SCOPED_EGRESS_ELIGIBLE_SUBJECT_TYPES : list string := CLIENT_PLANE_SUBJECT_TYPES ++ SYSTEM_SCOPED_SUBJECT_TYPES.
Definition SCOPED_EGRESS_ELIGIBLE_SOURCES : list string := ["subject_override"; "global_fixed"; "vpn_auto"].

Definition SCOPED_PENDING_STATUSES : list string :=
  ["pending_not_vpn_path"; "pending_core_bypass"; "pending_missing_vpn_runtime"; "pending_unresolved_subject_match";
   "pending_inactive_subject"; "pending_no_selected_server"; "pending_infrastructure_immunity_conflict";
   "pending_docker_host_network"; "pending_docker_direct_source_coverage"; "pending_docker_ipv4_inventory";
   "pending_docker_multi_ipv4_unsupported"; "pending_docker_ipv6_inventory"; "pending_docker_ipv6_unsupported"].

Definition SCOPED_RUNTIME_BLOCKER_TRANSPARENT_TCP_UNHEALTHY : string :=
  "selective_materialized_but_transparent_tcp_unhealthy".
Definition SELECTIVE_SCOPED_RUNTIME_SUBJECT_TYPES : list string := TRANSPARENT_INGRESS_CLIENT_SUBJECT_TYPES.
Definition VIRTUAL_XRAY_VPN_AUTO_SERVER_ID : string := "virtual:xray:vpn-auto".

Definition _normalized_detail (subject : dict) : dict := match dget "detail" subject with VDict d => d | _ => [] end.

(** The bindings file: absent, not JSON, JSON, or unreadable (an exception). *)
Inductive bindings_file := BindingsMissing | BindingsBadJson | BindingsJson (payload : pyval) | BindingsUnreadable.

Definition in_opt (o : option string) (l : list string) : bool :=
  match o with Some s => bool_decide (s ∈ l) | None => false end.

Section Scoped.
Context `{ReprContainer}.

(** [str(v or "")] and [str(v or "").strip()]. *)
Definition text_of (v : pyval) : string := py_str (por v (VStr "")).
Definition stripped (v : pyval) : string := py_strip (text_of v).

Definition nonempty_text (s : string) : bool := negb (String.eqb s "").

(** [detail.get("source") or detail.get("source_json")]. *)
Definition source_of (subject : dict) : pyval :=
  let detail := _normalized_detail subject in por (dget "source" detail) (dget "source_json" detail).

Fixpoint ipv6_texts (values : list pyval) : option (list string) :=
  match values with
  | [] => Some []
  | v :: l =>
      a ← ip_address (py_strip (py_str v));
      if bool_decide (a_ver a = V6) then rest ← ipv6_texts l; Some (str_addr a :: rest) else None
  end.

(** [sorted(set)] of strings. *)
Definition sorted_set (l : list string) : list string := sort_by py_leb (remove_dups l).

Definition _docker_ipv6_inventory_state (subject : dict) : string * list string :=
  match source_of subject with
  | VDict source =>
      if negb (is_true_val (dget "IPv6InventoryComplete" source)) then ("incomplete", [])
      else
        match dget "IPv6Addresses" source with
        | VList values =>
            match ipv6_texts values with
            | None => ("incomplete", [])
            | Some [] => ("complete_no_global_ipv6", [])
            | Some texts => ("global_ipv6_present", sorted_set texts)
            end
        | _ => ("incomplete", [])
        end
  | _ => ("incomplete", [])
  end.

(** ** Runtime bindings *)

(** [result[subject_id] = binding] over the list. *)
Definition add_binding (result : list (string * dict)) (binding : pyval) : list (string * dict) :=
  match binding with
  | VDict b =>
      let subject_id := stripped (dget "subject_id" b) in
      if String.eqb subject_id "" then result
      else (subject_id, b) :: List.filter (fun x => negb (String.eqb x.1 subject_id)) result
  | _ => result
  end.

Definition _load_xray_bindings (file : bindings_file) : py (list (string * dict)) :=
  match file with
  | BindingsUnreadable => None
  | BindingsMissing | BindingsBadJson => Some []
  | BindingsJson payload =>
      match payload with
      | VDict p => match dget "bindings" p with VList l => Some (fold_left add_binding l []) | _ => Some [] end
      | _ => Some []
      end
  end.

Definition _explicit_client_runtime_binding (subject_type implementation_kind : string) : option string :=
  contract ← explicit_external_client_contract_for_subject (Some subject_type) (Some implementation_kind);
  strip_or_none (dget "runtime_binding" contract).

Definition _load_explicit_client_runtime_bindings (file : bindings_file) (subject_type implementation_kind : string)
    : py (list (string * dict)) :=
  if bool_decide (_explicit_client_runtime_binding subject_type implementation_kind = Some "xray_runtime_bindings")
  then _load_xray_bindings file else Some [].

(** ** Matchers *)

(** ValueError when the text is not an address. *)
Definition _ip_matcher (candidate_ip resolution_reason : string) : py dict :=
  parsed ← ip_address candidate_ip;
  let '(family, nft_type, nft_expr) :=
    match a_ver parsed with V4 => ("ipv4", "ipv4_addr", "ip saddr") | V6 => ("ipv6", "ipv6_addr", "ip6 saddr") end in
  Some [("resolved", VBool true); ("match_key", VStr ("ip:" +:+ candidate_ip));
        ("resolution_reason", VStr resolution_reason);
        ("matcher", VDict [("family", VStr family); ("nft_type", VStr nft_type); ("nft_expr", VStr nft_expr);
                           ("value", VStr candidate_ip)])].

Definition unresolved (match_key : option string) (resolution_reason : string) : py dict :=
  Some [("resolved", VBool false); ("match_key", vopt match_key); ("resolution_reason", VStr resolution_reason)].

Definition lan_matcher (detail : dict) : py dict :=
  let candidate_ip := stripped (dget "ip_address" detail) in
  if nonempty_text candidate_ip then _ip_matcher candidate_ip "subject_lan_ip"
  else
    let candidate_mac := py_lower (stripped (dget "mac_address" detail)) in
    if nonempty_text candidate_mac
    then unresolved (Some ("mac:" +:+ candidate_mac)) "subject_lan_mac_not_supported_in_v1"
    else unresolved None "subject_lan_ip_missing".

Definition external_network_matcher (identity_kind : string) (detail : dict) : py dict :=
  let candidate_ip := stripped (por (dget identity_kind detail) (por (dget "provider_ip" detail)
                        (por (dget "ip_address" detail) (dget "tailscale_ip" detail)))) in
  if nonempty_text candidate_ip then _ip_matcher candidate_ip "external_network_client_ip"
  else
    let node := stripped (por (dget "provider_node_id" detail) (por (dget "node_id" detail) (dget "id" detail))) in
    if nonempty_text node
    then unresolved (Some ("node:" +:+ node)) "external_network_client_node_id_not_supported_in_v1"
    else unresolved None "external_network_client_ip_missing".

Definition explicit_client_matcher (contract : option dict) (implementation_kind : string) (detail : dict) : py dict :=
  let prefix := stripped (por (dget "identity_match_prefix" (default [] contract))
                  (por (VStr implementation_kind) (VStr "external-client"))) in
  let client_uuid := stripped (dget "client_uuid" detail) in
  let client_id := stripped (dget "client_id" detail) in
  if nonempty_text client_uuid
  then unresolved (Some (prefix +:+ "-uuid:" +:+ client_uuid)) "explicit_external_client_uuid_runtime_binding_pending"
  else if nonempty_text client_id
  then unresolved (Some (prefix +:+ "-id:" +:+ client_id)) "explicit_external_client_id_runtime_binding_pending"
  else unresolved None "explicit_external_client_identity_missing".

Definition docker_matcher (detail : dict) : py dict :=
  let candidate_ip := stripped (dget "ip_address" detail) in
  let container_name := stripped (dget "container_name" detail) in
  if nonempty_text candidate_ip then _ip_matcher candidate_ip "subject_docker_ip"
  else if nonempty_text container_name
  then unresolved (Some ("container:" +:+ container_name)) "subject_docker_ip_missing"
  else unresolved None "subject_docker_identity_missing".

Definition host_matcher (detail : dict) : py dict :=
  let systemd_unit := stripped (dget "systemd_unit" detail) in
  let process_name := stripped (dget "process_name" detail) in
  if nonempty_text systemd_unit
  then unresolved (Some ("systemd:" +:+ systemd_unit)) "subject_host_process_only_match_not_supported_in_v1"
  else if nonempty_text process_name
  then unresolved (Some ("process:" +:+ process_name)) "subject_host_process_only_match_not_supported_in_v1"
  else unresolved None "subject_host_identity_missing".

Definition _matcher_from_subject (subject : dict) : py dict :=
  let subject_type := text_of (dget "subject_type" subject) in
  let implementation_kind := text_of (dget "implementation_kind" subject) in
  let detail := _normalized_detail subject in
  match transparent_ingress_contract_for_subject (Some subject_type) (Some implementation_kind) with
  | Some contract =>
      let identity_kind := stripped (dget "identity_kind" contract) in
      if String.eqb identity_kind "ip_address" then lan_matcher detail
      else if nonempty_text identity_kind then external_network_matcher identity_kind detail
      else unresolved None "transparent_ingress_identity_kind_not_supported"
  | None =>
      let contract := explicit_external_client_contract_for_subject (Some subject_type) (Some implementation_kind) in
      if String.eqb subject_type "lan" then lan_matcher detail
      else if is_set contract || is_explicit_external_client_subject_type (Some subject_type)
      then explicit_client_matcher contract implementation_kind detail
      else if String.eqb subject_type "docker" then docker_matcher detail
      else if String.eqb subject_type "host" then host_matcher detail
      else unresolved None "subject_type_not_supported"
  end.

(** ** Classification *)

Definition _uses_scoped_runtime_path (subject_type dataplane_path : string) : bool :=
  if String.eqb dataplane_path "vpn" then true
  else if negb (subject_needs_transparent_policy (Some subject_type)) then false
  else String.eqb dataplane_path "selective" && in_types subject_type SELECTIVE_SCOPED_RUNTIME_SUBJECT_TYPES.

Definition _is_tracked_subject (subject_type dataplane_path : string) (server_override : option dict) : bool :=
  if is_explicit_external_client_subject_type (Some subject_type)
  then String.eqb dataplane_path "vpn" || is_set server_override
  else in_types subject_type SCOPED_EGRESS_ELIGIBLE_SUBJECT_TYPES
       && (_uses_scoped_runtime_path subject_type dataplane_path || is_set server_override).

(** [if infrastructure_role]: a role that is not empty. *)
Definition has_role (infrastructure_role : option string) : bool :=
  match infrastructure_role with Some r => nonempty_text r | None => false end.

Definition _inventory_classification (subject_type dataplane_path : string) (server_override : option dict)
    (infrastructure_role : option string) : string :=
  if has_role infrastructure_role then "control_plane_direct_safe"
  else if String.eqb subject_type "fwrouter" then "control_plane_direct_safe"
  else if in_types subject_type SYSTEM_SCOPED_SUBJECT_TYPES && negb (String.eqb dataplane_path "vpn")
          && negb (is_set server_override) then "control_plane_direct_safe"
  else if in_types subject_type SCOPED_EGRESS_ELIGIBLE_SUBJECT_TYPES
          && (_uses_scoped_runtime_path subject_type dataplane_path || is_set server_override)
  then "eligible_for_scoped_vpn" else "tracked_only".

(** ** The runtime of a subject *)

Record scoped_args := ScopedArgs {
  dataplane_path : string;
  selected_server_id : option string;
  selected_server_source : option string;
  vpn_target_id : option string;
  vpn_target_source : option string;
  server_override : option dict;
  vpn_supported : bool;
  bypass_enabled : bool;
  global_mode : option string;
}.

Definition set_status (status reason : string) (result : dict) : dict :=
  dset "resolution_reason" (VStr reason) (dset "status" (VStr status) result).

(** The part of [result] that precedes the first return. *)
Definition initial_result (subject matcher_state : dict) (a : scoped_args) : dict :=
  let subject_type := text_of (dget "subject_type" subject) in
  let infrastructure_role := protected_docker_runtime_role subject in
  let subject_role :=
    if in_types subject_type CLIENT_PLANE_SUBJECT_TYPES then "client_plane"
    else if in_types subject_type CONTROL_PLANE_DIRECT_SAFE_SUBJECT_TYPES then "system_control" else "unknown" in
  [("tracked", VBool (_is_tracked_subject subject_type (dataplane_path a) (server_override a)));
   ("eligible", VBool false); ("applied", VBool false); ("status", VStr "not_applicable");
   ("subject_id", VStr (text_of (dget "subject_id" subject))); ("subject_type", VStr subject_type);
   ("dataplane_path", VStr (dataplane_path a));
   ("selected_server_id", vopt (selected_server_id a)); ("selected_server_source", vopt (selected_server_source a));
   ("vpn_target_id", vopt (vpn_target_id a)); ("vpn_target_source", vopt (vpn_target_source a));
   ("match_key", dget "match_key" matcher_state); ("resolution_reason", dget "resolution_reason" matcher_state);
   ("matcher", dget "matcher" matcher_state); ("vpn_supported", VBool (vpn_supported a));
   ("bypass_active", VBool (bypass_enabled a)); ("materialized_by", VNone); ("subject_role", VStr subject_role);
   ("inventory_classification",
      VStr (_inventory_classification subject_type (dataplane_path a) (server_override a) infrastructure_role));
   ("control_plane_direct_safe", VBool (in_types subject_type CONTROL_PLANE_DIRECT_SAFE_SUBJECT_TYPES));
   ("infrastructure_role", vopt infrastructure_role)].

(** [resolved_vpn_target_id] and [_source], before and after the handoff of an explicit client. *)
Definition resolved_target (a : scoped_args) : option string * option string :=
  (match vpn_target_id a with Some t => Some t | None => selected_server_id a end,
   match vpn_target_source a with Some t => Some t | None => selected_server_source a end).

Definition hands_off (subject_type : string) (a : scoped_args) : bool :=
  is_explicit_external_client_subject_type (Some subject_type) && String.eqb (dataplane_path a) "vpn"
  && bool_decide ((resolved_target a).2 = Some "vpn_auto") && negb (is_set (resolved_target a).1).

Definition resolve_result (subject_type : string) (a : scoped_args) (result : dict) : dict :=
  let result := dset "selected_server_id" (vopt (resolved_target a).1) result in
  let result := dset "selected_server_source" (vopt (resolved_target a).2) result in
  if hands_off subject_type a then
    dset "selected_server_id" (VStr "vpn-global") (dset "vpn_target_id" (VStr "vpn-global") result)
  else result.

Definition resolved_id (subject_type : string) (a : scoped_args) : option string :=
  if hands_off subject_type a then Some "vpn-global" else (resolved_target a).1.

(** [str(source.get("NetworkMode") or "").strip().lower()], empty without a source. *)
Definition network_mode_of (subject : dict) : string :=
  match source_of subject with VDict source => py_lower (stripped (dget "NetworkMode" source)) | _ => "" end.

Definition direct_scope (subject : dict) (a : scoped_args) : bool :=
  String.eqb (text_of (dget "subject_type" subject)) "docker" && String.eqb (dataplane_path a) "direct"
  && negb (has_role (protected_docker_runtime_role subject)) && negb (bypass_enabled a)
  && in_opt (global_mode a) ["vpn"; "selective"].

(** [ipaddress.ip_address(v)] of any value: an int is an address too. *)
Definition ip_address_val (v : pyval) : py addr :=
  match v with
  | VInt n =>
      if (0 <=? n) && (n <? 2 ^ 32) then Some (Addr V4 n "")
      else if (0 <=? n) && (n <? 2 ^ 128) then Some (Addr V6 n "") else None
  | VBool b => Some (Addr V4 (Z.b2z b) "")
  | _ => ip_address (py_str v)
  end.

Definition address_text (v : pyval) : py string := a ← ip_address_val v; Some (str_addr a).

Definition canonical_value (v : pyval) : bool :=
  match v, ip_address_val v with
  | VStr s, Some a => bool_decide (a_ver a = V4) && String.eqb (str_addr a) s
  | _, _ => false
  end.

(** The [try] block of the direct coverage: the addresses, whether they are
    valid and the primary address; an exception resets all three. *)
Definition direct_addresses (values : pyval) (detail : dict) : list string * bool * string :=
  let valid_values :=
    match values with
    | VList l => negb (length l =? 0)%nat && (length l <=? MAX_DOCKER_IPV4_SOURCE_ADDRESSES)%nat
                 && forallb (fun v => is_set (as_str v)) l
    | _ => false
    end in
  let l := match values with VList l => l | _ => [] end in
  let outcome :=
    addresses ← (if valid_values then py_map address_text l else Some []);
    primary ← ip_address (text_of (dget "ip_address" detail));
    Some (addresses, valid_values && forallb canonical_value l, str_addr primary) in
  default ([], false, "") outcome.

(** The sorted addresses when the direct source coverage is complete. *)
Definition direct_coverage (subject : dict) : option (list string) :=
  match source_of subject with
  | VDict source =>
      let '(addresses, valid, primary) := direct_addresses (dget "IPv4Addresses" source) (_normalized_detail subject) in
      if negb (is_true_val (dget "IPv4InventoryComplete" source)) || negb valid || (length addresses =? 0)%nat
         || negb (bool_decide (primary ∈ addresses))
         || negb (String.eqb (_docker_ipv6_inventory_state subject).1 "complete_no_global_ipv6")
      then None else Some (sorted_set addresses)
  | _ => None
  end.

Definition covered_result (addresses : list string) (result : dict) : dict :=
  let matcher := match dget "matcher" result with VDict m => m | _ => [] end in
  let result := dset "matcher" (VDict (dset "values" (vstrs addresses) matcher)) result in
  dset "direct_source_coverage"
    (VDict [("ipv4_addresses", vstrs addresses); ("ipv4_inventory_complete", VBool true);
            ("ipv6_inventory_status", VStr "complete_no_global_ipv6")]) result.

Definition incomplete_result (result : dict) : dict :=
  let result := dset "tracked" (VBool true) result in
  let result := dset "eligible" (VBool true) result in
  let result := dset "inventory_classification" (VStr "tracked_only") result in
  set_status "pending_docker_direct_source_coverage" "docker_direct_source_coverage_incomplete" result.

Definition direct_applied_result (result : dict) : dict :=
  let result := dset "tracked" (VBool true) result in
  let result := dset "eligible" (VBool true) result in
  let result := dset "applied" (VBool true) result in
  let result := dset "inventory_classification" (VStr "tracked_only") result in
  let result := set_status "applied" "docker_direct_source_coverage_materialized" result in
  dset "materialized_by" (VStr "nft_subject_classify") result.

(** The checks of a docker subject on the VPN path: the result goes on, or the return. *)
Definition docker_vpn_check (subject result : dict) : dict + dict :=
  let detail := _normalized_detail subject in
  if String.eqb (network_mode_of subject) "host"
  then inr (set_status "pending_docker_host_network" "docker_host_network_full_vpn_unsupported" result)
  else
    let values := match source_of subject with VDict source => dget "IPv4Addresses" source | _ => VNone end in
    let addresses := match values with VList l => default [] (option_map remove_dups (py_map address_text l)) | _ => [] end in
    let valid := match values with
                 | VList l => is_set (py_map address_text l)
                 | _ => true
                 end && forallb (fun s => match ip_address s with Some a => is_v4 a | None => false end) addresses in
    let complete := match source_of subject with
                    | VDict source => is_true_val (dget "IPv4InventoryComplete" source) | _ => false end in
    if negb complete || negb valid || (length addresses =? 0)%nat
    then inr (set_status "pending_docker_ipv4_inventory" "docker_ipv4_inventory_incomplete" result)
    else if negb (length addresses =? 1)%nat || negb (bool_decide (text_of (dget "ip_address" detail) ∈ addresses))
    then inr (set_status "pending_docker_multi_ipv4_unsupported" "docker_single_ipv4_matcher_required" result)
    else
      let state := (_docker_ipv6_inventory_state subject).1 in
      let result := dset "docker_ipv6_inventory_status" (VStr state) result in
      if String.eqb state "incomplete"
      then inr (set_status "pending_docker_ipv6_inventory" "docker_ipv6_inventory_incomplete" result)
      else if String.eqb state "global_ipv6_present"
      then inr (set_status "pending_docker_ipv6_unsupported" "docker_ipv6_full_vpn_unsupported" result)
      else inl result.

(** The gates both classifications share: VPN runtime, match, bypass. *)
Definition gate (matcher_state : dict) (a : scoped_args) (result : dict) (applied : dict -> dict) : dict :=
  if negb (vpn_supported a) then set_status "pending_missing_vpn_runtime" "vpn_runtime_not_ready" result
  else if negb (truthy (dget "resolved" matcher_state)) then dset "status" (VStr "pending_unresolved_subject_match") result
  else if bypass_enabled a then set_status "pending_core_bypass" "core_bypass_active" result
  else applied (dset "status" (VStr "applied") (dset "applied" (VBool true) result)).

Definition inactive_result (status : string) (result : dict) : dict :=
  set_status status "subject_inactive" (dset "eligible" (VBool false) result).

Definition dict_get {V} (k : string) (l : list (string * V)) : option V :=
  option_map snd (List.find (fun x => String.eqb x.1 k) l).

(** [expected_server_id] of an explicit client. *)
Definition expected_server_id (subject_type implementation_kind : string) (a : scoped_args) : option string :=
  let target := resolved_id subject_type a in
  let contract := explicit_external_client_contract_for_subject (Some subject_type) (Some implementation_kind) in
  if bool_decide ((resolved_target a).2 = Some "vpn_auto")
     || (String.eqb (py_str (vopt target)) VIRTUAL_XRAY_VPN_AUTO_SERVER_ID
         && match contract with Some c => truthy (dget "virtual_vpn_auto_override" c) | None => false end)
  then Some "vpn-global" else target.

Definition binding_applied (expected : option string) (binding : option dict) : bool :=
  let b := default [] binding in
  let materialized := match dget "selected_server_id" b with VNone => None | v => Some (py_str v) end in
  String.eqb (text_of (dget "status" b)) "applied"
  && match expected with Some e => nonempty_text e | None => false end && bool_decide (materialized = expected).

Definition explicit_client_result (file : bindings_file) (subject : dict) (a : scoped_args) (result : dict) : py dict :=
  let subject_type := text_of (dget "subject_type" subject) in
  let implementation_kind := text_of (dget "implementation_kind" subject) in
  bindings ← _load_explicit_client_runtime_bindings file subject_type implementation_kind;
  let binding := dict_get (text_of (dget "subject_id" subject)) bindings in
  if binding_applied (expected_server_id subject_type implementation_kind a) binding then
    let materialized_by := default "explicit_client_runtime_metadata"
      (_explicit_client_runtime_binding subject_type implementation_kind) in
    let result := dset "applied" (VBool true) result in
    let result := set_status "applied" "subject_explicit_client_binding_materialized" result in
    Some (dset "materialized_by" (VStr materialized_by) result)
  else Some (set_status "pending_unresolved_subject_match" "subject_explicit_client_runtime_binding_missing" result).

(** From the check for a selected server on. *)
Definition vpn_target_result (file : bindings_file) (subject matcher_state : dict) (a : scoped_args) (result : dict)
    : py dict :=
  let subject_type := text_of (dget "subject_type" subject) in
  if negb (is_set (resolved_id subject_type a)) || negb (in_opt (resolved_target a).2 SCOPED_EGRESS_ELIGIBLE_SOURCES)
  then Some (set_status "pending_no_selected_server" "vpn_path_has_no_selected_server" result)
  else if negb (truthy (dget "is_active" subject)) then Some (inactive_result "pending_inactive_subject" result)
  else
    let result := dset "eligible" (VBool true) result in
    if is_explicit_external_client_subject_type (Some subject_type) then explicit_client_result file subject a result
    else Some (gate matcher_state a result id).

Definition selective_subject (subject_type : string) (a : scoped_args) : bool :=
  String.eqb (dataplane_path a) "selective" && in_types subject_type SELECTIVE_SCOPED_RUNTIME_SUBJECT_TYPES.

Definition selective_result (subject matcher_state : dict) (a : scoped_args) (result : dict) : dict :=
  if negb (truthy (dget "is_active" subject)) then inactive_result "pending_inactive_subject" result
  else
    gate matcher_state a (dset "eligible" (VBool true) result)
      (fun r => dset "materialized_by" (VStr "nft_subject_classify")
                  (dset "resolution_reason" (VStr "subject_selective_runtime_materialized") r)).

(** From the path check on. *)
Definition path_result (file : bindings_file) (subject matcher_state : dict) (a : scoped_args) (result : dict) : py dict :=
  let subject_type := text_of (dget "subject_type" subject) in
  let docker_vpn := String.eqb subject_type "docker" && String.eqb (dataplane_path a) "vpn" in
  if is_set (server_override a) && negb (String.eqb (dataplane_path a) "vpn") && negb (selective_subject subject_type a)
  then Some (set_status "pending_not_vpn_path" "subject_override_saved_but_subject_not_in_vpn_path" result)
  else if negb (_uses_scoped_runtime_path subject_type (dataplane_path a))
  then Some (set_status "not_applicable" "subject_not_in_vpn_path" result)
  else if docker_vpn && has_role (protected_docker_runtime_role subject)
  then Some (set_status "pending_infrastructure_immunity_conflict" "protected_runtime_cannot_use_scoped_vpn" result)
  else
    match (if docker_vpn then docker_vpn_check subject result else inl result) with
    | inr returned => Some returned
    | inl result =>
        if selective_subject subject_type a then Some (selective_result subject matcher_state a result)
        else vpn_target_result file subject matcher_state a result
    end.

Definition build_scoped_subject_runtime (file : bindings_file) (subject : dict) (a : scoped_args) : py dict :=
  let subject_type := text_of (dget "subject_type" subject) in
  matcher_state ← _matcher_from_subject subject;
  let result := resolve_result subject_type a (initial_result subject matcher_state a) in
  if negb (in_types subject_type SCOPED_EGRESS_ELIGIBLE_SUBJECT_TYPES)
  then Some (dset "resolution_reason" (VStr "subject_type_not_supported") result)
  else if direct_scope subject a && negb (String.eqb (network_mode_of subject) "host") then
    if negb (truthy (dget "is_active" subject)) then
      Some (inactive_result "not_applicable" (dset "applied" (VBool false) result))
    else
      match direct_coverage subject with
      | None => Some (incomplete_result result)
      | Some addresses =>
          let result := covered_result addresses result in
          if is_set (server_override a) then path_result file subject matcher_state a result
          else Some (direct_applied_result result)
      end
  else path_result file subject matcher_state a result.
End Scoped.
