(* ===== verification/ScopedReadiness.v ===== *)
(** * Summary, diagnostics and readiness of scoped egress

    The second half of [services/scoped_egress.py]: the summary over the
    subjects' runtimes, the diagnostics with their blockers, and the
    readiness state.  [None] is an exception: a subject without one of its
    three mandatory keys, or a value of the wrong kind. *)
From stdpp Require Import base list strings pretty gmap sorting.
From Stdlib Require Import ZArith Lia Ascii.
From S2P Require Import Prelude PyStr PyVal SubjectTaxonomy ScopedEgress.

Open Scope string_scope.
Open Scope Z_scope.
Open Scope list_scope.

(** [counts[k] = counts.get(k, 0) + 1]. *)
Definition int_of (v : pyval) : Z := match v with VInt n => n | _ => 0 end.
Definition count_key (k : string) (counts : dict) : dict := dset k (VInt (int_of (dget k counts) + 1)) counts.

(** [d.get(k, default)]. *)
Definition dget_or (k : string) (v : pyval) (d : dict) : pyval := default v (dict_lookup k d).

(** [len(v)]. *)
Definition py_len_val (v : pyval) : py Z :=
  match v with
  | VList l => Some (Z.of_nat (length l))
  | VDict d => Some (Z.of_nat (length d))
  | VStr s => Some (Z.of_nat (py_len s))
  | _ => None
  end.

Section Readiness.
Context `{ReprContainer}.

(** ** Summary *)

Record summary_state := SummaryState {
  ss_bindings : list dict;
  ss_eligible : Z;
  ss_applied : Z;
  ss_pending : Z;
  ss_unresolved : Z;
  ss_status_counts : dict;
  ss_source_counts : dict;
  ss_inventory_counts : dict;
}.

Definition initial_summary : summary_state :=
  SummaryState [] 0 0 0 0 [] []
    [("eligible_for_scoped_vpn", VInt 0); ("tracked_only", VInt 0); ("control_plane_direct_safe", VInt 0)].

(** The runtime the loop reads; [None] is a [continue]. *)
Definition scoped_runtime_of (subject : dict) : option dict :=
  effective ← as_dict (dget "effective_state" subject); as_dict (dget "scoped_runtime" effective).

Definition classification_of (runtime : dict) : string :=
  py_str (por (dget "inventory_classification" runtime) (VStr "tracked_only")).

Definition status_of (runtime : dict) : string := py_str (por (dget "status" runtime) (VStr "not_applicable")).

Definition make_binding (subject runtime : dict) : py dict :=
  subject_id ← dict_lookup "subject_id" subject;
  subject_type ← dict_lookup "subject_type" subject;
  display_name ← dict_lookup "display_name" subject;
  let of_runtime key := (key, dget key runtime) in
  Some [("subject_id", subject_id); ("subject_type", subject_type); ("display_name", display_name);
        ("eligible", VBool (truthy (dget "eligible" runtime))); ("applied", VBool (truthy (dget "applied" runtime)));
        ("status", VStr (status_of runtime)); of_runtime "selected_server_id"; of_runtime "selected_server_source";
        of_runtime "match_key"; of_runtime "resolution_reason"; of_runtime "matcher"; of_runtime "subject_role";
        ("inventory_classification", VStr (classification_of runtime))].

Definition is_eligible (runtime : dict) : bool := truthy (dget "eligible" runtime).
Definition is_applied (runtime : dict) : bool := truthy (dget "applied" runtime).
Definition is_pending (runtime : dict) : bool :=
  is_eligible runtime && negb (is_applied runtime) && py_startswith (status_of runtime) "pending_".
Definition is_unresolved (runtime : dict) : bool := String.eqb (status_of runtime) "pending_unresolved_subject_match".

Definition add_binding_counts (runtime binding : dict) (s : summary_state) : summary_state :=
  let source := py_str (por (dget "selected_server_source" runtime) (VStr "none")) in
  SummaryState (ss_bindings s ++ [binding])
    (ss_eligible s + Z.b2z (is_eligible runtime)) (ss_applied s + Z.b2z (is_applied runtime))
    (ss_pending s + Z.b2z (is_pending runtime)) (ss_unresolved s + Z.b2z (is_unresolved runtime))
    (count_key (status_of runtime) (ss_status_counts s)) (count_key source (ss_source_counts s))
    (ss_inventory_counts s).

(** The body of the loop. *)
Definition summary_step (s : summary_state) (subject : dict) : py summary_state :=
  match scoped_runtime_of subject with
  | None => Some s
  | Some runtime =>
      let s := SummaryState (ss_bindings s) (ss_eligible s) (ss_applied s) (ss_pending s) (ss_unresolved s)
                 (ss_status_counts s) (ss_source_counts s)
                 (count_key (classification_of runtime) (ss_inventory_counts s)) in
      if truthy (dget "tracked" runtime) then
        binding ← make_binding subject runtime; Some (add_binding_counts runtime binding s)
      else Some s
  end.

Fixpoint summary_loop (s : summary_state) (subjects : list dict) : py summary_state :=
  match subjects with
  | [] => Some s
  | subject :: l => s ← summary_step s subject; summary_loop s l
  end.

Definition summary_dict (s : summary_state) : dict :=
  let state := if ss_eligible s =? 0 then "disabled"
               else if ss_applied s =? ss_eligible s then "active" else "degraded" in
  [("state", VStr state); ("eligible_count", VInt (ss_eligible s)); ("applied_count", VInt (ss_applied s));
   ("pending_count", VInt (ss_pending s)); ("unresolved_count", VInt (ss_unresolved s));
   ("status_counts", VDict (ss_status_counts s)); ("source_counts", VDict (ss_source_counts s));
   ("inventory_counts", VDict (ss_inventory_counts s)); ("bindings", VList (map VDict (ss_bindings s)))].

Definition summarize_scoped_subjects (subjects : list dict) : py dict :=
  s ← summary_loop initial_summary subjects; Some (summary_dict s).

(** ** Diagnostics *)

(** [bool((runtime_enforcement.get("supported_modes") or {}).get("vpn", False))]. *)
Definition vpn_runtime_supported (runtime_enforcement : dict) : py bool :=
  modes ← as_dict (por (dget "supported_modes" runtime_enforcement) (VDict []));
  Some (truthy (dget "vpn" modes)).

Definition mode_matches_intent (runtime_enforcement : dict) : bool :=
  truthy (dget_or "active_mode_matches_intent" (VBool true) runtime_enforcement).

Definition dict_or_empty (v : pyval) : dict := match v with VDict d => d | _ => [] end.

Definition transparent_tcp_ready (runtime_enforcement : dict) : bool :=
  let profile := dict_or_empty (dget "profile" runtime_enforcement) in
  let mihomo := dict_or_empty (dget "mihomo" profile) in
  truthy (dget "transparent_tcp_ready" (dict_or_empty (dget "contours" mihomo))).

Definition binding_status (binding : dict) : string := text_of (dget "status" binding).

Definition warning (code message : string) : pyval :=
  VDict [("code", VStr code); ("severity", VStr "warning"); ("message", VStr message)].

Definition vcount (l : list dict) : pyval := VInt (Z.of_nat (length l)).
Definition vdicts (l : list dict) : pyval := VList (map VDict l).

Definition selective_bindings (applied : list dict) : list dict :=
  List.filter (fun b => in_types (text_of (dget "subject_type" b)) SELECTIVE_SCOPED_RUNTIME_SUBJECT_TYPES) applied.

Definition diagnostics_blockers (bypassed matches supported tcp_unhealthy : bool) (live_mode : pyval)
    (selective unresolved : list dict) : list pyval :=
  (if bypassed then [warning "CORE_BYPASS_ACTIVE" "Core bypass suppresses scoped egress enforcement."] else [])
  ++ (if matches then [] else
        [VDict [("code", VStr "LIVE_DATAPLANE_MODE_MISMATCH"); ("severity", VStr "warning");
                ("message", VStr "Live nftables dataplane does not match the intended FWRouter mode.");
                ("live_global_mode", live_mode)]])
  ++ (if supported then [] else
        [warning "VPN_RUNTIME_NOT_READY" "Global VPN runtime prerequisites are not ready for scoped egress."])
  ++ (if tcp_unhealthy then
        [VDict [("code", VStr "SELECTIVE_TRANSPARENT_TCP_UNHEALTHY"); ("severity", VStr "warning");
                ("status", VStr SCOPED_RUNTIME_BLOCKER_TRANSPARENT_TCP_UNHEALTHY);
                ("message", VStr "Selective LAN/Tailscale subjects are materialized, but transparent TCP ingress is not healthy.");
                ("count", vcount selective)]] else [])
  ++ (match unresolved with [] => [] | _ =>
        [VDict [("code", VStr "UNRESOLVED_SUBJECT_MATCHES"); ("severity", VStr "warning");
                ("message", VStr "Some scoped subjects do not have a supported runtime match key yet.");
                ("count", vcount unresolved)]] end).

Definition diagnostics_recommendations (bypassed supported tcp_unhealthy : bool) (unresolved : list dict) : list pyval :=
  map VStr
    ((match unresolved with [] => [] | _ =>
        ["Resolve LAN/Tailscale match keys or add Xray runtime binding support before relying on scoped subject-specific egress."] end)
     ++ (if supported then [] else ["Validate Mihomo TProxy and global VPN runtime prerequisites on the Linux server."])
     ++ (if tcp_unhealthy then
           ["Verify the fwrouter-redir TCP listener and a materialized Mihomo transparent TCP session before trusting selective LAN/Tailscale VPN rules."]
         else [])
     ++ (if bypassed then ["Disable core bypass before expecting scoped egress bindings to materialize."] else [])).

Definition build_scoped_egress_diagnostics (summary runtime_enforcement bypass : dict) : py dict :=
  bindings ← py_map as_dict (match dget "bindings" summary with VList l => l | _ => [] end);
  supported ← vpn_runtime_supported runtime_enforcement;
  let pending := List.filter (fun b => in_types (binding_status b) SCOPED_PENDING_STATUSES) bindings in
  let unresolved := List.filter (fun b => String.eqb (binding_status b) "pending_unresolved_subject_match") bindings in
  let applied := List.filter (fun b => truthy (dget "applied" b)) bindings in
  let bypassed := truthy (dget "enabled" bypass) in
  let selective := selective_bindings applied in
  let tcp_unhealthy := negb (length selective =? 0)%nat && negb (transparent_tcp_ready runtime_enforcement) in
  let blockers := diagnostics_blockers bypassed (mode_matches_intent runtime_enforcement) supported tcp_unhealthy
                    (dget "live_global_mode" runtime_enforcement) selective unresolved in
  Some (dmerge summary
    [("applied_bindings_sample", vdicts (take 10 applied)); ("pending_bindings_sample", vdicts (take 10 pending));
     ("unresolved_bindings_sample", vdicts (take 10 unresolved)); ("blockers", VList blockers);
     ("recommendations", VList (diagnostics_recommendations bypassed supported tcp_unhealthy unresolved))]).

(** ** Readiness *)

Definition check (name : string) (ok : bool) (good bad : string) : pyval :=
  VDict [("name", VStr name); ("ok", VBool ok); ("message", VStr (if ok then good else bad))].

Definition readiness_checks (supported bypassed matches : bool) (eligible applied unresolved : Z) : list pyval :=
  [check "vpn_runtime_supported" supported "Scoped egress can use VPN runtime prerequisites."
     "Scoped egress still depends on missing VPN runtime prerequisites.";
   check "core_bypass_inactive" (negb bypassed) "Core bypass is inactive."
     "Core bypass is active and suppresses scoped enforcement.";
   check "live_dataplane_matches_intent" matches "Live dataplane matches the intended FWRouter mode."
     "Live dataplane is stale or in an unintended bypass/mode.";
   check "subject_matches_resolved" (unresolved =? 0) "All tracked scoped subjects have supported match keys."
     (py_str_int unresolved +:+ " tracked scoped subjects still have unresolved match keys.");
   check "eligible_bindings_materialized" ((eligible =? 0) || (applied =? eligible))
     "All eligible scoped bindings are materialized."
     (py_str_int applied +:+ "/" +:+ py_str_int eligible +:+ " eligible scoped bindings are materialized.")].

Definition readiness_state (supported bypassed matches : bool) (eligible applied pending unresolved : Z) : string :=
  if bypassed || negb supported || negb matches then "blocked"
  else if (eligible =? 0) && (pending =? 0) then "ready"
  else if (0 <? unresolved) || (applied <? eligible) then "degraded"
  else "ready".

Definition build_scoped_egress_readiness (diagnostics runtime_enforcement bypass : dict) : py dict :=
  let count key := py_int (por (dget key diagnostics) (VInt 0)) in
  eligible ← count "eligible_count";
  applied ← count "applied_count";
  unresolved ← count "unresolved_count";
  pending ← count "pending_count";
  supported ← vpn_runtime_supported runtime_enforcement;
  let bypassed := truthy (dget "enabled" bypass) in
  let matches := mode_matches_intent runtime_enforcement in
  let state := readiness_state supported bypassed matches eligible applied pending unresolved in
  tracked ← py_len_val (por (dget "bindings" diagnostics) (VList []));
  Some [("state", VStr state); ("ready_for_server_rollout", VBool (String.eqb state "ready"));
        ("checks", VList (readiness_checks supported bypassed matches eligible applied unresolved));
        ("tracked_subjects_count", VInt tracked); ("eligible_count", VInt eligible); ("applied_count", VInt applied);
        ("pending_count", VInt pending); ("unresolved_count", VInt unresolved)].
End Readiness.
