(* ===== verification/ScopedFacts.v ===== *)
(** * Facts about scoped egress

    What the runtime of a subject can be, when it is applied, and that a
    covered direct Docker subject passes the guard of the Docker policy. *)
From stdpp Require Import base list strings pretty gmap sorting.
From Stdlib Require Import ZArith Lia Ascii.
From S2P Require Import Prelude PyStr IpAddr IpAddrFacts NetworkContract PyVal SubjectTaxonomy DockerPolicy DockerPolicyFacts ScopedEgress ScopedReadiness.

Open Scope string_scope.
Open Scope Z_scope.
Open Scope list_scope.

(** Reads through the assignments [dset] with literal keys. *)
Ltac dget_simpl :=
  unfold inactive_result, set_status in *;
  rewrite ?dget_dset in *; cbn [String.eqb Ascii.eqb Bool.eqb] in *.

Section Facts.
Context `{ReprContainer} (file : bindings_file).

(** The statuses with an eligible subject. *)
Definition eligible_statuses : list string :=
  ["applied"; "pending_unresolved_subject_match"; "pending_missing_vpn_runtime"; "pending_core_bypass";
   "pending_docker_direct_source_coverage"].

(** The status decides the two flags. *)
Definition runtime_wf (result : dict) : Prop :=
  exists status, dget "status" result = VStr status /\
    status ∈ "applied" :: "not_applicable" :: SCOPED_PENDING_STATUSES /\
    dget "applied" result = VBool (String.eqb status "applied") /\
    dget "eligible" result = VBool (in_types status eligible_statuses).

(** Nothing decided yet. *)
Definition undecided (result : dict) : Prop :=
  dget "eligible" result = VBool false /\ dget "applied" result = VBool false /\
  dget "status" result = VStr "not_applicable".

Ltac wf_with s :=
  exists s; dget_simpl; split_all; (reflexivity || assumption || (apply (bool_decide_unpack _); vm_compute; exact I)).

Lemma initial_undecided subject_type subject m a : undecided (resolve_result subject_type a (initial_result subject m a)).
Proof. unfold undecided, resolve_result. destruct (hands_off subject_type a); rewrite !dget_dset; split_all; reflexivity. Qed.

Lemma covered_undecided addresses result : undecided result -> undecided (covered_result addresses result).
Proof. unfold undecided, covered_result. intros (? & ? & ?). dget_simpl. auto. Qed.

Lemma docker_check_undecided subject result : undecided result ->
  match docker_vpn_check subject result with inl r => undecided r | inr r => runtime_wf r end.
Proof.
  intros (He & Ha & Hs). unfold docker_vpn_check. cbv zeta.
  destruct (String.eqb (network_mode_of subject) "host"); [wf_with "pending_docker_host_network"|].
  destruct (_ || _ || _); [wf_with "pending_docker_ipv4_inventory"|].
  destruct (_ || _); [wf_with "pending_docker_multi_ipv4_unsupported"|].
  destruct (String.eqb _ "incomplete"); [wf_with "pending_docker_ipv6_inventory"|].
  destruct (String.eqb _ "global_ipv6_present"); [wf_with "pending_docker_ipv6_unsupported"|].
  unfold undecided. dget_simpl. auto.
Qed.

(** A continuation of the gate that leaves the three fields alone. *)
Definition keeps_fields (f : dict -> dict) : Prop :=
  forall r, dget "eligible" (f r) = dget "eligible" r /\ dget "applied" (f r) = dget "applied" r /\
    dget "status" (f r) = dget "status" r.

Lemma gate_wf m a result f : dget "eligible" result = VBool true -> dget "applied" result = VBool false ->
  keeps_fields f -> runtime_wf (gate m a result f).
Proof.
  intros He Ha Hf. unfold gate.
  destruct (negb (vpn_supported a)); [wf_with "pending_missing_vpn_runtime"|].
  destruct (negb _); [wf_with "pending_unresolved_subject_match"|].
  destruct (bypass_enabled a); [wf_with "pending_core_bypass"|].
  exists "applied". destruct (Hf (dset "status" (VStr "applied") (dset "applied" (VBool true) result))) as (-> & -> & ->).
  dget_simpl. split_all; try done. by left.
Qed.

Lemma inactive_wf result : undecided result -> runtime_wf (inactive_result "pending_inactive_subject" result).
Proof. intros (He & Ha & Hs). wf_with "pending_inactive_subject". Qed.

Lemma path_result_wf subject m a result r : undecided result ->
  path_result file subject m a result = Some r -> runtime_wf r.
Proof.
  intros Hu. unfold path_result. cbv zeta.
  destruct (is_set _ && _ && _); [intros [= <-]; destruct Hu as (He & Ha & Hs); wf_with "pending_not_vpn_path"|].
  destruct (negb (_uses_scoped_runtime_path _ _)); [intros [= <-]; destruct Hu as (He & Ha & Hs); wf_with "not_applicable"|].
  destruct (_ && has_role _);
    [intros [= <-]; destruct Hu as (He & Ha & Hs); wf_with "pending_infrastructure_immunity_conflict"|].
  assert (Hc : match (if String.eqb (text_of (dget "subject_type" subject)) "docker" && String.eqb (dataplane_path a) "vpn"
                      then docker_vpn_check subject result else inl result)
               with inl r => undecided r | inr r => runtime_wf r end).
  { destruct (_ && _); [by apply docker_check_undecided|done]. }
  set (checked := if String.eqb _ "docker" && _ then docker_vpn_check subject result else inl result) in *. clearbody checked.
  destruct checked as [result'|r']; [|by intros [= <-]].
  destruct (selective_subject _ a).
  { intros [= <-]. unfold selective_result. destruct (negb _); [by apply inactive_wf|].
    destruct Hc as (He & Ha & Hs). apply gate_wf; [by rewrite dget_dset|by rewrite dget_dset|].
    intros r0. dget_simpl. auto. }
  unfold vpn_target_result. cbv zeta.
  destruct (_ || _); [intros [= <-]; destruct Hc as (He & Ha & Hs); wf_with "pending_no_selected_server"|].
  destruct (negb _); [intros [= <-]; by apply inactive_wf|]. destruct Hc as (He & Ha & Hs).
  destruct (is_explicit_external_client_subject_type _).
  - unfold explicit_client_result. destruct (_load_explicit_client_runtime_bindings _ _ _) as [bs|];
      cbn [mbind option_bind]; [|discriminate].
    destruct (binding_applied _ _); intros [= <-]; [wf_with "applied"|wf_with "pending_unresolved_subject_match"].
  - intros [= <-]. apply gate_wf; [by rewrite dget_dset|by rewrite dget_dset|]. intros r0. auto.
Qed.

Lemma build_wf subject a r : build_scoped_subject_runtime file subject a = Some r -> runtime_wf r.
Proof.
  unfold build_scoped_subject_runtime. cbv zeta. destruct (_matcher_from_subject subject) as [m|];
    cbn [mbind option_bind]; [|discriminate].
  pose proof (initial_undecided (text_of (dget "subject_type" subject)) subject m a) as Hu.
  set (result := resolve_result _ a _) in *. clearbody result.
  destruct (negb (in_types _ _)); [intros [= <-]; destruct Hu as (He & Ha & Hs); wf_with "not_applicable"|].
  destruct (direct_scope subject a && _); [|by apply path_result_wf].
  destruct (negb _); [intros [= <-]; destruct Hu as (He & Ha & Hs); wf_with "not_applicable"|].
  destruct (direct_coverage subject) as [addresses|].
  - destruct (is_set _).
    + apply path_result_wf. by apply covered_undecided.
    + intros [= <-]. destruct (covered_undecided addresses result Hu) as (He & Ha & Hs).
      unfold direct_applied_result. wf_with "applied".
  - intros [= <-]. destruct Hu as (He & Ha & Hs). unfold incomplete_result. wf_with "pending_docker_direct_source_coverage".
Qed.

(** C40: the status of a subject's runtime is one of the known statuses
    and decides both flags: the subject is applied exactly in the status
    "applied", and eligible exactly when it is applied or waits for a match,
    the VPN runtime, the end of the bypass or its source coverage. *)
Theorem scoped_runtime_wf subject a :
  match build_scoped_subject_runtime file subject a with Some r => runtime_wf r | None => True end.
Proof. destruct (build_scoped_subject_runtime file subject a) as [r|] eqn:E; [by eapply build_wf|done]. Qed.

(** ** When it is applied *)

Lemma ipv6_state_cases subject : (_docker_ipv6_inventory_state subject).1 ∈
  ["incomplete"; "global_ipv6_present"; "complete_no_global_ipv6"].
Proof.
  unfold _docker_ipv6_inventory_state. rewrite !elem_of_cons.
  destruct (source_of subject) as [| | | | |source]; auto. destruct (negb _); auto.
  destruct (dget "IPv6Addresses" source) as [| | | |l|]; auto. destruct (ipv6_texts l) as [[|x l']|]; auto.
Qed.

(** A docker subject with one IPv4 address, the address of its matcher, and no global IPv6. *)
Definition docker_single_source (subject : dict) : Prop :=
  network_mode_of subject <> "host" /\
  exists source values texts address,
    source_of subject = VDict source /\ dget "IPv4InventoryComplete" source = VBool true /\
    dget "IPv4Addresses" source = VList values /\ py_map address_text values = Some texts /\ texts <> [] /\
    (forall x, x ∈ texts -> x = address) /\ (exists ip, ip_address address = Some ip /\ a_ver ip = V4) /\
    text_of (dget "ip_address" (_normalized_detail subject)) = address /\
    (_docker_ipv6_inventory_state subject).1 = "complete_no_global_ipv6".

Lemma docker_check_inl subject result r : docker_vpn_check subject result = inl r ->
  docker_single_source subject /\ dget "applied" r = dget "applied" result.
Proof.
  unfold docker_vpn_check. cbv zeta. destruct (String.eqb_spec (network_mode_of subject) "host") as [|Hn]; [discriminate|].
  case_on E1; [discriminate|]. case_on E2; [discriminate|].
  destruct (String.eqb_spec (_docker_ipv6_inventory_state subject).1 "incomplete") as [|Hi]; [discriminate|].
  destruct (String.eqb_spec (_docker_ipv6_inventory_state subject).1 "global_ipv6_present") as [|Hg]; [discriminate|].
  intros [= <-]. split; [|by dget_simpl]. split; [done|].
  destruct (source_of subject) as [| | | | |source] eqn:Es; try discriminate. bool_simpl.
  destruct (dget "IPv4Addresses" source) as [| | | |values|] eqn:Ev; try discriminate.
  destruct (py_map address_text values) as [texts|] eqn:Et; [|discriminate]. cbn [option_map default] in *.
  destruct (remove_dups texts) as [|address [|? ?]] eqn:Er; try discriminate.
  assert (Hall : forall x, x ∈ texts <-> x = address).
  { intros x. rewrite <- (elem_of_remove_dups texts x), Er. by rewrite list_elem_of_singleton. }
  exists source, values, texts, address. split_all; try done.
  - by destruct (dget "IPv4InventoryComplete" source) as [|[]| | | |].
  - intros ->. pose proof (proj2 (Hall address) eq_refl) as Hin. by apply elem_of_nil in Hin.
  - intros x. apply Hall.
  - match goal with H : forallb _ _ = true |- _ => rename H into Hf end.
    cbn [forallb id] in Hf. destruct (ip_address address) as [ip|]; [|done]. unfold is_v4 in Hf. bool_simpl. by exists ip.
  - match goal with H : _ ∈ id [address] |- _ => by apply list_elem_of_singleton in H end.
  - pose proof (ipv6_state_cases subject) as Hs. rewrite !elem_of_cons in Hs. destruct Hs as [?|[?|[?|Hs]]]; try done.
    by apply elem_of_nil in Hs.
Qed.

(** The gate opened. *)
Definition gate_open (matcher_state : dict) (a : scoped_args) : Prop :=
  vpn_supported a = true /\ truthy (dget "resolved" matcher_state) = true /\ bypass_enabled a = false.

Lemma gate_applied m a result f : keeps_fields f -> dget "applied" result = VBool false ->
  dget "applied" (gate m a result f) = VBool true -> gate_open m a.
Proof.
  intros Hf Ha. unfold gate, gate_open. destruct (vpn_supported a); cbn [negb]; [|dget_simpl; congruence].
  destruct (truthy _); cbn [negb]; [|dget_simpl; congruence]. destruct (bypass_enabled a); [dget_simpl; congruence|done].
Qed.

Definition has_target (subject_type : string) (a : scoped_args) : Prop :=
  resolved_id subject_type a <> None /\ in_opt (resolved_target a).2 SCOPED_EGRESS_ELIGIBLE_SOURCES = true.

(** The three ways to be applied: a direct Docker subject that is covered, an
    explicit client with its binding, a subject classified by its address. *)
Definition applied_direct (subject : dict) (a : scoped_args) : Prop :=
  direct_scope subject a = true /\ network_mode_of subject <> "host" /\ server_override a = None /\
  exists addresses, direct_coverage subject = Some addresses.

Definition applied_client (subject : dict) (a : scoped_args) : Prop :=
  let t := text_of (dget "subject_type" subject) in
  let k := text_of (dget "implementation_kind" subject) in
  is_explicit_external_client_subject_type (Some t) = true /\ has_target t a /\
  exists bindings, _load_explicit_client_runtime_bindings file t k = Some bindings /\
    binding_applied (expected_server_id t k a) (dict_get (text_of (dget "subject_id" subject)) bindings) = true.

Definition applied_classified (subject : dict) (a : scoped_args) : Prop :=
  let t := text_of (dget "subject_type" subject) in
  (exists m, _matcher_from_subject subject = Some m /\ gate_open m a) /\
  (selective_subject t a = true \/ has_target t a) /\
  (t = "docker" -> dataplane_path a = "vpn" -> has_role (protected_docker_runtime_role subject) = false /\ docker_single_source subject).

Lemma path_applied subject m a result r : _matcher_from_subject subject = Some m -> dget "applied" result = VBool false ->
  path_result file subject m a result = Some r -> dget "applied" r = VBool true ->
  truthy (dget "is_active" subject) = true /\ _uses_scoped_runtime_path (text_of (dget "subject_type" subject)) (dataplane_path a) = true /\
  (applied_client subject a \/ applied_classified subject a).
Proof.
  intros Hm Ha. unfold path_result, applied_client, applied_classified. cbv zeta.
  set (t := text_of (dget "subject_type" subject)). set (k := text_of (dget "implementation_kind" subject)).
  destruct (is_set _ && _ && _); [intros [= <-]; dget_simpl; congruence|].
  destruct (_uses_scoped_runtime_path t _) eqn:Eu; cbn [negb]; [|intros [= <-]; dget_simpl; congruence].
  destruct (_ && has_role _) eqn:Er; [intros [= <-]; dget_simpl; congruence|].
  assert (Hc : forall r', (if String.eqb t "docker" && String.eqb (dataplane_path a) "vpn"
                 then docker_vpn_check subject result else inl result) = inl r' ->
               dget "applied" r' = VBool false /\
               (t = "docker" -> dataplane_path a = "vpn" ->
                  has_role (protected_docker_runtime_role subject) = false /\ docker_single_source subject)).
  { intros r'. destruct (String.eqb_spec t "docker") as [|Ht]; cbn [andb] in *; [|intros [= <-]; done].
    destruct (String.eqb_spec (dataplane_path a) "vpn") as [|Hp]; cbn [andb] in *; [|intros [= <-]; done].
    intros [Hs Hk]%docker_check_inl. by rewrite Hk. }
  assert (Hr : forall r', (if String.eqb t "docker" && String.eqb (dataplane_path a) "vpn"
                 then docker_vpn_check subject result else inl result) = inr r' -> dget "applied" r' = VBool false).
  { intros r'. case_on Ed; [|discriminate]. unfold docker_vpn_check. cbv zeta.
    repeat (let E := fresh in case_on E; [intros [= <-]; dget_simpl; exact Ha|]). discriminate. }
  set (checked := if String.eqb t "docker" && _ then docker_vpn_check subject result else inl result) in *. clearbody checked.
  destruct checked as [result'|r'].
  2: { intros [= <-] Hr'. rewrite (Hr r' eq_refl) in Hr'. discriminate. }
  destruct (Hc result' eq_refl) as [Ha' Hdocker]. clear Hc Hr.
  destruct (selective_subject t a) eqn:Esel.
  { unfold selective_result. intros [= <-]. destruct (truthy (dget "is_active" subject)); cbn [negb];
      [|dget_simpl; congruence].
    intros Hg. apply gate_applied in Hg; [|intros r0; dget_simpl; auto|by rewrite dget_dset].
    split_all; try done. right. split_all; try done; [by exists m|by left|by apply Hdocker..]. }
  unfold vpn_target_result. cbv zeta. fold t.
  destruct (_ || _) eqn:Et; [intros [= <-]; dget_simpl; congruence|]. bool_simpl.
  assert (Htarget : has_target t a) by (split; [by destruct (resolved_id t a)|done]).
  destruct (truthy (dget "is_active" subject)); cbn [negb]; [|intros [= <-]; dget_simpl; congruence].
  destruct (is_explicit_external_client_subject_type (Some t)) eqn:Ee.
  - unfold explicit_client_result. cbv zeta. fold t k.
    destruct (_load_explicit_client_runtime_bindings file t k) as [bs|] eqn:Eb; cbn [mbind option_bind]; [|discriminate].
    destruct (binding_applied _ _) eqn:Ea; intros [= <-]; [|dget_simpl; congruence]. intros _. split_all; try done. left. by eauto.
  - intros [= <-] Hg. apply gate_applied in Hg; [|intros r0; auto|by rewrite dget_dset].
    split_all; try done. right. split_all; try done; [by exists m|by right|by apply Hdocker..].
Qed.

Lemma build_applied subject a r : build_scoped_subject_runtime file subject a = Some r -> dget "applied" r = VBool true ->
  let t := text_of (dget "subject_type" subject) in
  in_types t SCOPED_EGRESS_ELIGIBLE_SUBJECT_TYPES = true /\ truthy (dget "is_active" subject) = true /\
  ((applied_direct subject a /\ exists m addresses, _matcher_from_subject subject = Some m /\
      direct_coverage subject = Some addresses /\
      r = direct_applied_result (covered_result addresses (resolve_result t a (initial_result subject m a)))) \/
   (_uses_scoped_runtime_path t (dataplane_path a) = true /\ (applied_client subject a \/ applied_classified subject a))).
Proof.
  cbv zeta. unfold build_scoped_subject_runtime, applied_direct. cbv zeta.
  destruct (_matcher_from_subject subject) as [m|] eqn:Em; cbn [mbind option_bind]; [|discriminate].
  set (t := text_of (dget "subject_type" subject)).
  destruct (initial_undecided t subject m a) as (He & Ha & Hs). set (result := resolve_result t a _) in *.
  destruct (in_types t _) eqn:Et; cbn [negb]; [|intros [= <-]; dget_simpl; congruence].
  destruct (direct_scope subject a && _) eqn:Ed.
  2: { intros Hp Hr. apply path_applied in Hp as (Hact & Hu & Hor); [|done..]. auto. }
  bool_simpl. destruct (truthy (dget "is_active" subject)); cbn [negb]; [|intros [= <-]; dget_simpl; congruence].
  destruct (direct_coverage subject) as [addresses|]; [|intros [= <-]; unfold incomplete_result; dget_simpl; congruence].
  destruct (covered_undecided addresses result (conj He (conj Ha Hs))) as (_ & Ha' & _).
  destruct (server_override a) as [o|] eqn:Eo; cbn [is_set].
  - intros Hp Hr. apply path_applied in Hp as (Hact & Hu & Hor); [|done..]. auto.
  - intros [= <-] _. split_all; try done. left. split_all; eauto 6. by apply String.eqb_neq.
Qed.

(** C36: when the runtime of a subject is applied, the type is eligible, the
    subject is active, and one of three things holds: it is a direct
    Docker subject, not infrastructure and not bypassed, whose sources are
    all covered; it is an explicit client with a target and an applied
    binding for the expected server; or the VPN runtime is ready, the
    bypass is off, its match is resolved, it has a target or is a selective
    client, and a Docker subject has no infrastructure role and exactly one
    source address. *)
Theorem scoped_applied_sound subject a r :
  build_scoped_subject_runtime file subject a = Some r -> dget "applied" r = VBool true ->
  let t := text_of (dget "subject_type" subject) in
  in_types t SCOPED_EGRESS_ELIGIBLE_SUBJECT_TYPES = true /\ truthy (dget "is_active" subject) = true /\
  (applied_direct subject a \/
   (_uses_scoped_runtime_path t (dataplane_path a) = true /\ (applied_client subject a \/ applied_classified subject a))).
Proof. intros Hb Hr. destruct (build_applied subject a r Hb Hr) as (? & ? & [[? _]|?]); auto. Qed.

(** ** The guard accepts what is covered *)

Lemma canonical_of_texts strs : forallb canonical_text strs = true -> (0 < length strs <= 64)%nat ->
  exists A, _canonical_ipv4_values (vstrs strs) = Some A /\
    forall a, a ∈ A <-> exists s, s ∈ strs /\ ip_address s = Some a.
Proof.
  intros (l & -> & Hl & Hp)%parse_canonical Hlen. exists (list_to_set l). split.
  - apply canonical_iff. exists l. unfold vstrs. rewrite map_map. rewrite length_map in Hlen. by split_all; try lia.
  - intros a. rewrite elem_of_list_to_set. by apply py_map_in.
Qed.

Lemma same_texts_same_set strs strs' A : forallb canonical_text strs = true -> (0 < length strs <= 64)%nat ->
  (forall s, s ∈ strs' <-> s ∈ strs) -> (length strs' <= length strs)%nat ->
  _canonical_ipv4_values (vstrs strs) = Some A -> _canonical_ipv4_values (vstrs strs') = Some A.
Proof.
  intros Hc Hlen Hin Hle HA. destruct (canonical_of_texts strs Hc Hlen) as (B & HB & HBin).
  assert (B = A) as -> by congruence.
  destruct (canonical_of_texts strs') as (C & HC & HCin).
  - apply List.forallb_forall. intros s Hs%list_elem_of_In%Hin%list_elem_of_In. rewrite List.forallb_forall in Hc. by apply Hc.
  - split; [|lia]. destruct strs as [|s strs]; [cbn in Hlen; lia|]. destruct strs'; [|cbn; lia].
    exfalso. apply (not_elem_of_nil s), Hin. by left.
  - rewrite HC. f_equal. apply set_eq. intros x. rewrite HBin, HCin. by setoid_rewrite Hin.
Qed.

Lemma ip_address_v4_text s p : ip_address s = Some p -> a_ver p = V4 -> s = str_addr p.
Proof.
  unfold ip_address. destruct (ipv4_address s) as [q|] eqn:E4.
  - intros [= <-] _. unfold ipv4_address in E4. destruct (has_char _ s); [done|].
    destruct (parse4 s) as [n|] eqn:E; [|done]. injection E4 as <-. by apply parse4_canonical in E as [-> _].
  - intros E6 Hv. unfold ipv6_address in E6. destruct (has_char _ s); [done|].
    destruct (split_scope s) as [[x sc]|]; [|done]. cbn [mbind option_bind] in E6.
    destruct (parse6 x); [|done]. cbn [mbind option_bind] in E6. injection E6 as <-. discriminate.
Qed.

Lemma str_addr_v4_strip p : addr_wf p -> a_ver p = V4 -> py_strip (str_addr p) = str_addr p.
Proof. intros _ Hv. unfold str_addr. rewrite Hv. apply py_strip_no_space, str4_no_space. Qed.

Lemma is_true_val_inv v : is_true_val v = true -> v = VBool true.
Proof. by destruct v as [|[]| | | |]. Qed.

Lemma canonical_value_texts l : forallb canonical_value l = true ->
  exists strs, l = map VStr strs /\ forallb canonical_text strs = true /\ py_map address_text l = Some strs.
Proof.
  induction l as [|v l IH]; cbn [forallb py_map]; [by exists []|]. intros [Hv Hl]%andb_prop.
  destruct (IH Hl) as (strs & -> & Hc & Hm). destruct v as [| | |s| |]; try done.
  exists (s :: strs). unfold canonical_value in Hv. cbn [ip_address_val py_str] in Hv.
  destruct (ip_address s) as [p|] eqn:Ep; [|done]. bool_simpl.
  match goal with H : String.eqb _ _ = true |- _ => apply String.eqb_eq in H as Es end.
  split; [done|]. cbn [forallb]. rewrite Hc, Hm. unfold canonical_text, address_text, is_v4. cbn [ip_address_val py_str].
  rewrite Ep. cbn [mbind option_bind]. rewrite Es, String.eqb_refl, bool_decide_eq_true_2 by done. done.
Qed.

Lemma ipv6_complete_inv subject source : source_of subject = VDict source ->
  (_docker_ipv6_inventory_state subject).1 = "complete_no_global_ipv6" ->
  dget "IPv6InventoryComplete" source = VBool true /\ dget "IPv6Addresses" source = VList [].
Proof.
  unfold _docker_ipv6_inventory_state. intros ->. destruct (is_true_val _) eqn:Et; cbn [negb]; [|discriminate].
  apply is_true_val_inv in Et. destruct (dget "IPv6Addresses" source) as [| | | |l|]; try discriminate.
  destruct l as [|v l]; [done|]. cbn [ipv6_texts]. destruct (ip_address _) as [a|]; cbn [mbind option_bind]; [|discriminate].
  destruct (bool_decide _); [|discriminate]. destruct (ipv6_texts l); discriminate.
Qed.

(** The values of a complete coverage. *)
Lemma direct_coverage_inv subject addresses : direct_coverage subject = Some addresses ->
  exists source strs primary, source_of subject = VDict source /\ dget "IPv4Addresses" source = vstrs strs /\
    (0 < length strs <= 64)%nat /\ forallb canonical_text strs = true /\ addresses = sorted_set strs /\
    dget "IPv4InventoryComplete" source = VBool true /\ dget "IPv6InventoryComplete" source = VBool true /\
    dget "IPv6Addresses" source = VList [] /\
    ip_address (text_of (dget "ip_address" (_normalized_detail subject))) = Some primary /\ str_addr primary ∈ strs.
Proof.
  unfold direct_coverage. destruct (source_of subject) as [| | | | |source] eqn:Es; try discriminate.
  destruct (direct_addresses _ _) as [[addrs valid] primary] eqn:Eda. case_on Ec; [discriminate|].
  intros [= <-]. bool_simpl. subst valid. unfold direct_addresses in Eda.
  destruct (dget "IPv4Addresses" source) as [| | | |l|] eqn:El;
    try (destruct (ip_address _) in Eda; cbn in Eda; injection Eda; intros; subst; discriminate).
  destruct (negb (length l =? 0)%nat && _ && _) eqn:Ev;
    [|destruct (ip_address _) in Eda; cbn in Eda; injection Eda; intros; subst; discriminate]. bool_simpl.
  destruct (py_map address_text l) as [texts|] eqn:Et; cbn [mbind option_bind default] in Eda; [|discriminate].
  destruct (ip_address _) as [p|] eqn:Ep in Eda; cbn [mbind option_bind default] in Eda; [|discriminate].
  injection Eda as -> Hcan <-. cbn [andb] in Hcan. destruct (canonical_value_texts l Hcan) as (strs & -> & Hc & Hm).
  assert (strs = addrs) as -> by congruence.
  match goal with H : String.eqb _ "complete_no_global_ipv6" = true |- _ => apply String.eqb_eq in H as E6 end.
  apply (ipv6_complete_inv subject source Es) in E6 as [E6c E6l].
  match goal with H : is_true_val _ = true |- _ => apply is_true_val_inv in H end.
  rewrite length_map in *. repeat match goal with H : (_ =? _)%nat = false |- _ => apply Nat.eqb_neq in H end.
  match goal with H : (_ <=? _)%nat = true |- _ => apply Nat.leb_le in H; unfold MAX_DOCKER_IPV4_SOURCE_ADDRESSES in H end.
  exists source, addrs, p. split_all; try done; lia.
Qed.

Lemma sorted_set_in strs s : s ∈ sorted_set strs <-> s ∈ strs.
Proof. unfold sorted_set. by rewrite elem_of_sort_by, elem_of_remove_dups. Qed.

Lemma sorted_set_length strs : (length (sorted_set strs) <= length strs)%nat.
Proof.
  unfold sorted_set. rewrite (Permutation_length (sort_by_perm py_leb (remove_dups strs))).
  induction strs as [|s strs IH]; cbn [remove_dups]; [done|]. destruct (decide_rel _ _ _); cbn [length]; lia.
Qed.

(** The matcher of a docker subject that no ingress provider claims. *)
Lemma docker_subject_matcher subject m :
  text_of (dget "subject_type" subject) = "docker" ->
  transparent_ingress_contract_for_subject (Some "docker") (Some (text_of (dget "implementation_kind" subject))) = None ->
  _matcher_from_subject subject = Some m -> docker_matcher (_normalized_detail subject) = Some m.
Proof. intros Ht Hk. unfold _matcher_from_subject. rewrite Ht. cbv zeta. by rewrite Hk. Qed.

Lemma docker_matcher_value detail m s p : docker_matcher detail = Some m -> dget "ip_address" detail = VStr s ->
  ip_address s = Some p -> a_ver p = V4 -> exists d, dget "matcher" m = VDict d /\ dget "value" d = VStr s.
Proof.
  intros Hm Hs Hp Hv. pose proof (ip_address_v4_text s p Hp Hv) as Es. pose proof (ip_address_wf s p Hp) as Hwf.
  unfold docker_matcher in Hm. cbv zeta in Hm. unfold stripped, text_of in Hm. rewrite Hs in Hm. unfold por in Hm. cbn [truthy py_str] in Hm.
  assert (Hne : String.eqb s "" = false).
  { apply String.eqb_neq. intros ->. unfold str_addr in Es. rewrite Hv in Es. by apply (str4_nonempty (a_int p)). }
  rewrite Hne in Hm. cbn [negb py_str] in Hm. rewrite Es, str_addr_v4_strip, <- Es in Hm by done. unfold nonempty_text at 1 in Hm.
  rewrite Hne in Hm. cbn [negb] in Hm. unfold _ip_matcher in Hm. rewrite Hp in Hm. cbn [mbind option_bind] in Hm. rewrite Hv in Hm.
  injection Hm as <-. eexists. split; reflexivity.
Qed.

Lemma direct_result_fields addresses t subject m a d : dget "matcher" m = VDict d ->
  let r := direct_applied_result (covered_result addresses (resolve_result t a (initial_result subject m a))) in
  dget "matcher" r = VDict (dset "values" (vstrs addresses) d) /\
  dget "direct_source_coverage" r =
    VDict [("ipv4_addresses", vstrs addresses); ("ipv4_inventory_complete", VBool true);
           ("ipv6_inventory_status", VStr "complete_no_global_ipv6")].
Proof.
  intros Hd. cbv zeta. unfold direct_applied_result, covered_result. cbv zeta.
  assert (Hm : dget "matcher" (resolve_result t a (initial_result subject m a)) = VDict d).
  { unfold resolve_result. destruct (hands_off t a); rewrite !dget_dset; exact Hd. }
  rewrite Hm. set (r0 := resolve_result t a _). clearbody r0. dget_simpl. split; reflexivity.
Qed.

Lemma coverage_literal addresses A p host : _canonical_ipv4_values (vstrs addresses) = Some A -> p ∈ A ->
  coverage_addresses [("ipv4_addresses", vstrs addresses); ("ipv4_inventory_complete", VBool true);
    ("ipv6_inventory_status", VStr "complete_no_global_ipv6")] (Some (A, Some p, host)) = Some A.
Proof.
  intros HA Hin. unfold coverage_addresses.
  change (dget "ipv4_addresses" [("ipv4_addresses", vstrs addresses); ("ipv4_inventory_complete", VBool true);
    ("ipv6_inventory_status", VStr "complete_no_global_ipv6")]) with (vstrs addresses).
  rewrite HA. cbn. by rewrite !bool_decide_eq_true_2.
Qed.

Lemma covered_guard guarded r source strs addresses A s p d :
  runtime_of guarded = VDict r -> is_dict (dget "observed_docker_source" guarded) = false ->
  detail_source guarded = VDict source -> get_in "ip_address" (dget "detail" guarded) = VStr s ->
  ip_address s = Some p -> a_ver p = V4 -> p ∈ A ->
  dget "IPv4Addresses" source = vstrs strs -> dget "IPv4InventoryComplete" source = VBool true ->
  dget "IPv6InventoryComplete" source = VBool true -> dget "IPv6Addresses" source = VList [] ->
  _canonical_ipv4_values (vstrs strs) = Some A -> _canonical_ipv4_values (vstrs addresses) = Some A ->
  dget "matcher" r = VDict (dset "values" (vstrs addresses) d) -> dget "value" d = VStr s ->
  dget "direct_source_coverage" r =
    VDict [("ipv4_addresses", vstrs addresses); ("ipv4_inventory_complete", VBool true);
           ("ipv6_inventory_status", VStr "complete_no_global_ipv6")] ->
  direct_covered guarded A.
Proof.
  intros Hr Ho Hsrc Hip Hp Hv Hin Hvals Hc4 Hc6 H6 HA HA' Hm Hval Hcov.
  assert (Hobs : observed_inventory guarded = Some (Some (A, Some p, is_host_mode source))).
  { unfold observed_inventory. rewrite Hsrc, Hip. cbn [parse_if_str]. rewrite Hp. cbn [mbind option_bind].
    rewrite Hvals, HA. cbn [mbind option_bind]. rewrite Hc4, Hc6, H6. unfold primary_in, is_v4.
    rewrite !bool_decide_eq_true_2 by done. by destruct (dget "observed_docker_source" guarded). }
  unfold direct_covered, matcher_of, observed_primary_value. rewrite Hr. cbn [get_in]. rewrite Hm. cbn [get_in].
  rewrite !dget_dset. cbn [String.eqb Ascii.eqb Bool.eqb]. split; [|split; [done|]].
  - unfold _docker_ipv4_addresses. rewrite Hobs. cbn [mbind option_bind]. unfold sources_agree. rewrite Hr. cbn [get_in]. rewrite Hcov.
    rewrite (coverage_literal addresses A p (is_host_mode source) HA' Hin).
    by destruct (dget "observed_docker_source" guarded).
  - exists p, s. split_all; try done. intros o Eo. rewrite Hip in Eo.
    destruct (dget "observed_docker_source" guarded); try discriminate; by injection Eo as <-.
Qed.

(** The producer and the guard agree.  When the runtime built for a
    direct Docker subject is applied (the subject being of no ingress
    provider, its primary address a text), then the guard of the Docker
    policy, run on a subject that carries this runtime and the same detail,
    accepts its inventory as covered by the rendered matcher. *)
Theorem applied_direct_passes_guard subject a r guarded s :
  build_scoped_subject_runtime file subject a = Some r -> dget "applied" r = VBool true -> dataplane_path a = "direct" ->
  transparent_ingress_contract_for_subject (Some "docker") (Some (text_of (dget "implementation_kind" subject))) = None ->
  get_in "ip_address" (dget "detail" subject) = VStr s ->
  runtime_of guarded = VDict r -> dget "detail" guarded = dget "detail" subject ->
  is_dict (dget "observed_docker_source" guarded) = false ->
  exists A, direct_covered guarded A.
Proof.
  intros Hb Hr Hpath Hkind Hs Hrt Hdet Hobs.
  destruct (build_applied subject a r Hb Hr) as (_ & _ & [[Hd (m & addresses & Hm & Hcov & Er)]|[Hu _]]).
  2: { unfold _uses_scoped_runtime_path in Hu. rewrite Hpath in Hu. cbn in Hu. by destruct (negb _). }
  destruct Hd as (Hscope & _). unfold direct_scope in Hscope. bool_simpl.
  match goal with H : String.eqb (text_of _) "docker" = true |- _ => apply String.eqb_eq in H as Ht end.
  apply direct_coverage_inv in Hcov as (source & strs & p & Hsrc & Hvals & Hlen & Hcan & -> & Hc4 & Hc6 & H6 & Hp & Hpin).
  apply docker_subject_matcher in Hm; [|done..].
  unfold source_of, _normalized_detail in Hsrc. unfold _normalized_detail in Hp, Hm.
  destruct (dget "detail" subject) as [| | | | |detail] eqn:Edet; try discriminate. cbn [get_in] in Hs.
  rewrite Hs in Hp. assert (Hp' : ip_address s = Some p).
  { unfold text_of, por in Hp. cbn [truthy] in Hp. destruct (String.eqb_spec s "") as [->|]; exact Hp. }
  destruct (canonical_of_texts strs Hcan Hlen) as (A & HA & HAin).
  assert (Hpc : exists q, ip_address (str_addr p) = Some q /\ v4_value q /\ str_addr p = str_addr q).
  { apply canonical_text_spec. rewrite List.forallb_forall in Hcan. by apply Hcan, list_elem_of_In. }
  destruct Hpc as (q & Eq & Hq & _). rewrite ip_address_str in Eq by (by eapply ip_address_wf). injection Eq as <-.
  destruct Hq as [Hwf Hv]. destruct (docker_matcher_value detail m s p Hm Hs Hp' Hv) as (d & Hmd & Hval).
  destruct (direct_result_fields (sorted_set strs) (text_of (dget "subject_type" subject)) subject m a d Hmd) as [Hrm Hrc].
  rewrite <- Er in Hrm, Hrc. exists A.
  apply (covered_guard guarded r source strs (sorted_set strs) A s p d); try done.
  - unfold detail_source. by rewrite Hdet.
  - by rewrite Hdet.
  - apply HAin. exists (str_addr p). by rewrite ip_address_str.
  - apply (same_texts_same_set strs); [done|done|apply sorted_set_in|apply sorted_set_length|done].
Qed.
End Facts.

(** ** Witnesses *)

Definition sample_source : pyval :=
  VDict [("NetworkMode", VStr "bridge"); ("IPv4Addresses", vstrs ["172.18.0.9"; "172.20.0.9"]);
         ("IPv4InventoryComplete", VBool true); ("IPv6InventoryComplete", VBool true); ("IPv6Addresses", VList [])].

Definition sample_docker : dict :=
  [("subject_id", VStr "docker:db"); ("subject_type", VStr "docker"); ("implementation_kind", VStr "docker");
   ("is_active", VBool true);
   ("detail", VDict [("ip_address", VStr "172.18.0.9"); ("container_name", VStr "db"); ("source", sample_source)])].

Definition direct_args : scoped_args := ScopedArgs "direct" None None None None None true false (Some "selective").

Definition sample_runtime : dict :=
  default [] (build_scoped_subject_runtime (H := sample_repr) BindingsMissing sample_docker direct_args).

Lemma sample_runtime_applied :
  build_scoped_subject_runtime (H := sample_repr) BindingsMissing sample_docker direct_args = Some sample_runtime /\
  dget "applied" sample_runtime = VBool true.
Proof. split; vm_compute; reflexivity. Qed.

Lemma scoped_applied_sound_witness :
  in_types "docker" SCOPED_EGRESS_ELIGIBLE_SUBJECT_TYPES = true /\ dget "applied" sample_runtime = VBool true.
Proof.
  split; [|exact (proj2 sample_runtime_applied)].
  exact (proj1 (scoped_applied_sound (H := sample_repr) BindingsMissing sample_docker direct_args sample_runtime
    (proj1 sample_runtime_applied) (proj2 sample_runtime_applied))).
Defined.

Lemma applied_direct_passes_guard_witness :
  exists A, direct_covered (H := sample_repr) (dset "scoped_runtime" (VDict sample_runtime) sample_docker) A.
Proof.
  assert (Hkind : transparent_ingress_contract_for_subject (H := sample_repr) (Some "docker")
    (Some (text_of (H := sample_repr) (dget "implementation_kind" sample_docker))) = None) by (vm_compute; reflexivity).
  assert (Hs : get_in "ip_address" (dget "detail" sample_docker) = VStr "172.18.0.9") by (vm_compute; reflexivity).
  assert (Hrt : runtime_of (dset "scoped_runtime" (VDict sample_runtime) sample_docker) = VDict sample_runtime)
    by (vm_compute; reflexivity).
  assert (Hdet : dget "detail" (dset "scoped_runtime" (VDict sample_runtime) sample_docker) = dget "detail" sample_docker)
    by (vm_compute; reflexivity).
  assert (Hobs : is_dict (dget "observed_docker_source" (dset "scoped_runtime" (VDict sample_runtime) sample_docker)) = false)
    by (vm_compute; reflexivity).
  exact (applied_direct_passes_guard (H := sample_repr) BindingsMissing sample_docker direct_args sample_runtime
    (dset "scoped_runtime" (VDict sample_runtime) sample_docker) "172.18.0.9"
    (proj1 sample_runtime_applied) (proj2 sample_runtime_applied) eq_refl Hkind Hs Hrt Hdet Hobs).
Defined.

(** * Facts about the summary and the readiness of scoped egress

    The summary counts the tracked runtimes; readiness says exactly that
    nothing blocks and every eligible subject is applied. *)
(** ** Counting *)

Definition cnt {A} (p : A -> bool) (l : list A) : Z := Z.of_nat (length (List.filter p l)).

Lemma cnt_cons {A} (p : A -> bool) x l : cnt p (x :: l) = Z.b2z (p x) + cnt p l.
Proof. unfold cnt. cbn [List.filter]. destruct (p x); cbn [length Z.b2z]; lia. Qed.

Lemma cnt_nonneg {A} (p : A -> bool) l : 0 <= cnt p l.
Proof. unfold cnt. lia. Qed.

Lemma cnt_le {A} (p q : A -> bool) l : (forall x, x ∈ l -> p x = true -> q x = true) -> cnt p l <= cnt q l.
Proof.
  induction l as [|x l IH]; intros Hpq; [done|]. rewrite !cnt_cons.
  specialize (IH (fun y Hy => Hpq y ltac:(by right))). specialize (Hpq x ltac:(by left)).
  destruct (p x), (q x); cbn [Z.b2z]; try lia.
Qed.

Lemma cnt_eq {A} (p q : A -> bool) l : (forall x, x ∈ l -> p x = true -> q x = true) -> cnt q l <= cnt p l ->
  forall x, x ∈ l -> q x = true -> p x = true.
Proof.
  induction l as [|x l IH]; intros Hpq Hle y Hy Hq; [by apply elem_of_nil in Hy|]. rewrite !cnt_cons in Hle.
  pose proof (cnt_le p q l (fun z Hz => Hpq z ltac:(by right))) as Hl. specialize (Hpq x ltac:(by left)) as Hx.
  apply elem_of_cons in Hy as [->|Hy].
  - rewrite Hq in *. destruct (p x); [done|]. cbn [Z.b2z] in Hle. lia.
  - apply IH; auto; [intros z Hz; apply Hpq; by right|].
    destruct (p x), (q x); cbn [Z.b2z] in Hle; try lia.
Qed.

Lemma cnt_zero {A} (p : A -> bool) l : cnt p l = 0 <-> forall x, x ∈ l -> p x = false.
Proof.
  induction l as [|x l IH]; [split; [by intros _ x ?%elem_of_nil|done]|]. rewrite cnt_cons. pose proof (cnt_nonneg p l).
  setoid_rewrite elem_of_cons. split.
  - intros E y [->|Hy]; [destruct (p x); cbn in E; [lia|done]|]. apply IH; [destruct (p x); cbn in E; lia|done].
  - intros Hall. rewrite (Hall x) by auto. rewrite (proj2 IH); [done|]. auto.
Qed.

Section Facts.
Context `{ReprContainer}.

(** The runtimes the summary counts. *)
Definition tracked_runtimes (subjects : list dict) : list dict :=
  List.filter (fun r => truthy (dget "tracked" r)) (omap scoped_runtime_of subjects).

(** A tracked subject without a mandatory key raises. *)
Definition has_keys (subject : dict) : Prop :=
  is_Some (dict_lookup "subject_id" subject) /\ is_Some (dict_lookup "subject_type" subject) /\
  is_Some (dict_lookup "display_name" subject).

Definition is_tracked (subject : dict) : Prop :=
  exists r, scoped_runtime_of subject = Some r /\ truthy (dget "tracked" r) = true.

Lemma make_binding_total subject r : is_Some (make_binding subject r) <-> has_keys subject.
Proof.
  unfold make_binding, has_keys. destruct (dict_lookup "subject_id" subject), (dict_lookup "subject_type" subject),
    (dict_lookup "display_name" subject); cbn [mbind option_bind];
    (split; [intros Hs; try (by apply is_Some_None in Hs); split_all; by eexists
            |intros (H1 & H2 & H3); try (by apply is_Some_None in H1); try (by apply is_Some_None in H2);
             try (by apply is_Some_None in H3); by eexists]).
Qed.

(** What the loop adds to the counters. *)
Definition counted (s s' : summary_state) (l : list dict) : Prop :=
  length (ss_bindings s') = (length (ss_bindings s) + length l)%nat /\
  ss_eligible s' = ss_eligible s + cnt is_eligible l /\ ss_applied s' = ss_applied s + cnt is_applied l /\
  ss_pending s' = ss_pending s + cnt is_pending l /\ ss_unresolved s' = ss_unresolved s + cnt is_unresolved l /\
  forall k, int_of (dget k (ss_status_counts s')) =
    int_of (dget k (ss_status_counts s)) + cnt (fun r => String.eqb k (status_of r)) l.

Lemma int_of_count_key k k' d : int_of (dget k (count_key k' d)) = int_of (dget k d) + Z.b2z (String.eqb k k').
Proof. unfold count_key. rewrite dget_dset. destruct (String.eqb_spec k k') as [->|]; cbn [int_of Z.b2z]; lia. Qed.

Lemma summary_loop_counts subjects s s' : summary_loop s subjects = Some s' -> counted s s' (tracked_runtimes subjects).
Proof.
  revert s. induction subjects as [|x l IH]; intros s; cbn [summary_loop].
  { intros [= <-]. unfold counted, tracked_runtimes, cnt. cbn. split_all; intros; lia. }
  unfold summary_step, tracked_runtimes. change (omap scoped_runtime_of (x :: l)) with
    (match scoped_runtime_of x with Some y => y :: omap scoped_runtime_of l | None => omap scoped_runtime_of l end).
  destruct (scoped_runtime_of x) as [r|]; cbn [mbind option_bind]; [|by intros ?%IH]. cbn [List.filter].
  destruct (truthy (dget "tracked" r)); cbn [mbind option_bind]; [|by intros ?%IH].
  destruct (make_binding x r) as [b|]; cbn [mbind option_bind]; [|discriminate].
  intros (H1 & H2 & H3 & H4 & H5 & H6)%IH. unfold add_binding_counts in *.
  cbn [ss_bindings ss_eligible ss_applied ss_pending ss_unresolved ss_status_counts] in *. unfold counted. rewrite !cnt_cons.
  rewrite length_app in H1. cbn [length] in *. split_all; try (unfold tracked_runtimes in *; lia).
  intros k. rewrite H6, int_of_count_key, cnt_cons. unfold tracked_runtimes. lia.
Qed.

Lemma summary_loop_total subjects s : is_Some (summary_loop s subjects) <->
  forall x, x ∈ subjects -> is_tracked x -> has_keys x.
Proof.
  revert s. induction subjects as [|x l IH]; intros s; cbn [summary_loop].
  { split; [by intros _ x ?%elem_of_nil|]. intros _. by eexists. }
  setoid_rewrite elem_of_cons.
  assert (Hskip : forall s', (is_tracked x -> has_keys x) ->
    is_Some (summary_loop s' l) <-> forall y, y = x \/ y ∈ l -> is_tracked y -> has_keys y).
  { intros s' Hx. rewrite IH. split; [intros Hl y [->|Hy]; auto|intros Hl y Hy; auto]. }
  unfold summary_step. destruct (scoped_runtime_of x) as [r|] eqn:Er; cbn [mbind option_bind].
  2: { apply Hskip. intros (r & E & _). congruence. }
  destruct (truthy (dget "tracked" r)) eqn:Et; cbn [mbind option_bind].
  2: { apply Hskip. intros (r' & E & Ht). congruence. }
  pose proof (make_binding_total x r) as Hb. destruct (make_binding x r) as [b|]; cbn [mbind option_bind].
  - apply Hskip. intros _. apply Hb. by eexists.
  - split; [by intros [? [=]]|]. intros Hall. exfalso.
    destruct (proj2 Hb (Hall x ltac:(by left) (ex_intro _ r (conj Er Et)))) as [? [=]].
Qed.

Definition count_field (key : string) (n : Z) (d : dict) : Prop := dget key d = VInt n.

(** The summary is defined exactly when every tracked subject names
    its id, type and display name; it has one binding per tracked subject,
    counts the eligible, applied, pending and unresolved ones and every
    status, and is disabled, active or degraded as none is eligible, as
    many are applied as are eligible, or otherwise. *)
Theorem summarize_spec subjects :
  (is_Some (summarize_scoped_subjects subjects) <-> forall x, x ∈ subjects -> is_tracked x -> has_keys x) /\
  forall d, summarize_scoped_subjects subjects = Some d ->
    let l := tracked_runtimes subjects in
    count_field "eligible_count" (cnt is_eligible l) d /\ count_field "applied_count" (cnt is_applied l) d /\
    count_field "pending_count" (cnt is_pending l) d /\ count_field "unresolved_count" (cnt is_unresolved l) d /\
    (exists bindings, dget "bindings" d = VList bindings /\ length bindings = length l) /\
    (exists counts, dget "status_counts" d = VDict counts /\
       forall k, int_of (dget k counts) = cnt (fun r => String.eqb k (status_of r)) l) /\
    dget "state" d = VStr (if cnt is_eligible l =? 0 then "disabled"
                           else if cnt is_applied l =? cnt is_eligible l then "active" else "degraded").
Proof.
  unfold summarize_scoped_subjects. split.
  - rewrite <- (summary_loop_total subjects initial_summary).
    destruct (summary_loop initial_summary subjects); cbn [mbind option_bind]; (split; intros Hs; [try (by apply is_Some_None in Hs); by eexists|try (by apply is_Some_None in Hs); by eexists]).
  - intros d. destruct (summary_loop initial_summary subjects) as [s|] eqn:E; cbn [mbind option_bind]; [|discriminate].
    intros [= <-]. apply summary_loop_counts in E as (H1 & H2 & H3 & H4 & H5 & H6). cbv zeta.
    unfold count_field, summary_dict. cbn [ss_bindings ss_eligible ss_applied ss_pending ss_unresolved ss_status_counts initial_summary length] in *.
    rewrite !Z.add_0_l in *. rewrite <- H2, <- H3, <- H4, <- H5. split_all; try reflexivity.
    + eexists. split; [reflexivity|]. by rewrite length_map.
    + eexists. split; [reflexivity|]. intros k. rewrite H6. cbn. lia.
Qed.

(** ** Readiness *)

Lemma diagnostics_counts s runtime bypass d key : build_scoped_egress_diagnostics s runtime bypass = Some d ->
  key ∈ ["eligible_count"; "applied_count"; "pending_count"; "unresolved_count"; "bindings"] -> dget key d = dget key s.
Proof.
  unfold build_scoped_egress_diagnostics. destruct (py_map as_dict _); cbn [mbind option_bind]; [|discriminate].
  destruct (vpn_runtime_supported runtime); cbn [mbind option_bind]; [|discriminate]. intros Hd%(inj Some) Hk.
  rewrite <- Hd. apply dget_dmerge. cbn [map fst].
  repeat (apply elem_of_cons in Hk as [->|Hk]; [apply (bool_decide_unpack _); vm_compute; exact I|]).
  by apply elem_of_nil in Hk.
Qed.

Lemma wf_flags r : runtime_wf r ->
  (is_applied r = true -> is_eligible r = true) /\ (is_unresolved r = true -> is_eligible r = true /\ is_applied r = false).
Proof.
  intros (status & Hs & _ & Ha & He). unfold is_applied, is_unresolved, is_eligible, status_of. rewrite Hs, Ha, He. cbn [truthy].
  split.
  - intros ->%String.eqb_eq. vm_compute. reflexivity.
  - intros E. assert (status = "pending_unresolved_subject_match") as ->; [|split; vm_compute; reflexivity].
    unfold por in E. cbn [truthy] in E. destruct (negb _); cbn [py_str] in E; [by apply String.eqb_eq|discriminate].
Qed.

(** Nothing blocks: the VPN runtime is supported, the bypass is off, the live mode is the intended one. *)
Definition unblocked (runtime bypass : dict) : bool :=
  match vpn_runtime_supported runtime with Some b => b | None => false end
  && negb (truthy (dget "enabled" bypass)) && mode_matches_intent runtime.

Lemma ready_counts l (ok : bool) : (forall r, r ∈ l -> runtime_wf r) ->
  let all_applied := forall r, r ∈ l -> is_eligible r = true -> is_applied r = true in
  (((cnt is_eligible l =? 0) && (cnt is_pending l =? 0)) || negb ((0 <? cnt is_unresolved l) || (cnt is_applied l <? cnt is_eligible l)) = true
     <-> all_applied) /\
  (cnt is_unresolved l = 0 /\ (cnt is_eligible l = 0 \/ cnt is_applied l = cnt is_eligible l) <-> all_applied).
Proof.
  intros Hwf. cbv zeta.
  assert (Hae : cnt is_applied l <= cnt is_eligible l) by (apply cnt_le; intros r Hr; apply wf_flags, Hwf, Hr).
  assert (Hpe : cnt is_pending l <= cnt is_eligible l).
  { apply cnt_le. intros r _. unfold is_pending. intros Hp. by bool_simpl. }
  pose proof (cnt_nonneg is_pending l). pose proof (cnt_nonneg is_unresolved l).
  assert (Hall : cnt is_applied l = cnt is_eligible l <-> forall r, r ∈ l -> is_eligible r = true -> is_applied r = true).
  { split.
    - intros E. apply cnt_eq; [intros r Hr; apply wf_flags, Hwf, Hr|lia].
    - intros Hall. apply Z.le_antisymm; [done|]. apply cnt_le. exact Hall. }
  assert (Hun : (forall r, r ∈ l -> is_eligible r = true -> is_applied r = true) -> cnt is_unresolved l = 0).
  { intros Hap. apply cnt_zero. intros r Hr. destruct (is_unresolved r) eqn:E; [|done].
    destruct (proj2 (wf_flags r (Hwf r Hr)) E) as [He Ha]. by rewrite (Hap r Hr He) in Ha. }
  rewrite <- Hall in *. split.
  - rewrite orb_true_iff, andb_true_iff, negb_true_iff, orb_false_iff, !Z.eqb_eq, !Z.ltb_ge.
    pose proof (cnt_nonneg is_applied l). split; [lia|]. intros E. specialize (Hun E). lia.
  - pose proof (cnt_nonneg is_applied l). split; [lia|]. intros E. specialize (Hun E). lia.
Qed.

Lemma summary_counts subjects s : summarize_scoped_subjects subjects = Some s ->
  let l := tracked_runtimes subjects in
  dget "eligible_count" s = VInt (cnt is_eligible l) /\ dget "applied_count" s = VInt (cnt is_applied l) /\
  dget "pending_count" s = VInt (cnt is_pending l) /\ dget "unresolved_count" s = VInt (cnt is_unresolved l).
Proof.
  unfold summarize_scoped_subjects. destruct (summary_loop initial_summary subjects) as [x|] eqn:E; cbn [mbind option_bind]; [|discriminate].
  intros [= <-]. apply summary_loop_counts in E as (_ & H2 & H3 & H4 & H5 & _). cbv zeta.
  cbn [ss_eligible ss_applied ss_pending ss_unresolved initial_summary] in *. rewrite !Z.add_0_l in *.
  rewrite <- H2, <- H3, <- H4, <- H5. done.
Qed.

Lemma por_int n : por (VInt n) (VInt 0) = VInt n.
Proof. unfold por. cbn [truthy]. destruct (Z.eqb_spec n 0) as [->|]; done. Qed.

Definition check_ok (c : pyval) : Prop := get_in "ok" c = VBool true.

Lemma check_ok_iff name ok good bad : check_ok (check name ok good bad) <-> ok = true.
Proof. unfold check_ok, check. cbn. split; [by intros [= ->]|by intros ->]. Qed.

Lemma readiness_cases supported bypassed matches e a p u (all_applied : Prop) :
  ((e =? 0) && (p =? 0) || negb ((0 <? u) || (a <? e)) = true <-> all_applied) ->
  (u = 0 /\ (e = 0 \/ a = e) <-> all_applied) ->
  let state := readiness_state supported bypassed matches e a p u in
  (state = "blocked" <-> supported && negb bypassed && matches = false) /\
  (state = "ready" <-> supported && negb bypassed && matches = true /\ all_applied) /\
  (state = "blocked" \/ state = "ready" \/ state = "degraded") /\
  (state = "ready" <-> Forall check_ok (readiness_checks supported bypassed matches e a u)).
Proof.
  intros H1 H2. cbv zeta.
  assert (Hc : Forall check_ok (readiness_checks supported bypassed matches e a u) <->
    supported && negb bypassed && matches = true /\ all_applied).
  { unfold readiness_checks. rewrite !Forall_cons, Forall_nil, !check_ok_iff, <- H2.
    rewrite !andb_true_iff, orb_true_iff, !Z.eqb_eq. tauto. }
  rewrite Hc. unfold readiness_state. rewrite <- H1. clear.
  destruct supported, bypassed, matches, ((e =? 0) && (p =? 0)), ((0 <? u) || (a <? e)); cbn;
    split_all; try (split; intros; split_all; (discriminate || done)); auto.
Qed.

(** Readiness, from the subjects to the answer.  When every tracked
    runtime is one the builder can produce, the pipeline of summary,
    diagnostics and readiness answers "blocked" exactly when the VPN runtime
    is missing, the bypass is on or the live mode is not the intended one,
    "ready" exactly when none of this holds and every eligible subject is
    applied, "degraded" otherwise; and it is ready exactly when all the
    reported checks are ok. *)
Theorem scoped_ready_exact subjects runtime bypass s d out :
  summarize_scoped_subjects subjects = Some s -> build_scoped_egress_diagnostics s runtime bypass = Some d ->
  build_scoped_egress_readiness d runtime bypass = Some out ->
  (forall r, r ∈ tracked_runtimes subjects -> runtime_wf r) ->
  exists state checks, dget "state" out = VStr state /\ dget "checks" out = VList checks /\
    (state = "blocked" <-> unblocked runtime bypass = false) /\
    (state = "ready" <-> unblocked runtime bypass = true /\
       forall r, r ∈ tracked_runtimes subjects -> is_eligible r = true -> is_applied r = true) /\
    (state = "blocked" \/ state = "ready" \/ state = "degraded") /\
    (state = "ready" <-> Forall check_ok checks).
Proof.
  intros Hs Hd Ho Hwf. destruct (summary_counts subjects s Hs) as (He & Ha & Hp & Hu).
  pose proof (fun k => diagnostics_counts s runtime bypass d k Hd) as Hk.
  unfold build_scoped_egress_readiness in Ho. cbv zeta in Ho.
  rewrite !Hk, He, Ha, Hp, Hu in Ho by (apply (bool_decide_unpack _); vm_compute; exact I).
  rewrite !por_int in Ho. cbn [py_int mbind option_bind] in Ho. unfold unblocked.
  destruct (vpn_runtime_supported runtime) as [supported|]; cbn [mbind option_bind] in Ho; [|discriminate].
  destruct (py_len_val _) as [tracked|]; cbn [mbind option_bind] in Ho; [|discriminate].
  set (l := tracked_runtimes subjects) in *. destruct (ready_counts l true Hwf) as [Hready Hchecks].
  set (bypassed := truthy (dget "enabled" bypass)) in *. set (matches := mode_matches_intent runtime) in *.
  injection Ho as <-. eexists _, _. split; [reflexivity|]. split; [reflexivity|].
  exact (readiness_cases supported bypassed matches _ _ _ _ _ Hready Hchecks).
Qed.
End Facts.

(** ** Witness *)

Definition sample_subject : dict :=
  [("subject_id", VStr "docker:db"); ("subject_type", VStr "docker"); ("display_name", VStr "db");
   ("effective_state", VDict [("scoped_runtime", VDict sample_runtime)])].

Definition sample_enforcement : dict :=
  [("supported_modes", VDict [("vpn", VBool true)]); ("active_mode_matches_intent", VBool true)].

Definition sample_bypass : dict := [("enabled", VBool false)].

Definition sample_summary : dict := default [] (summarize_scoped_subjects (H := sample_repr) [sample_subject]).
Definition sample_diagnostics : dict :=
  default [] (build_scoped_egress_diagnostics (H := sample_repr) sample_summary sample_enforcement sample_bypass).
Definition sample_readiness : dict :=
  default [] (build_scoped_egress_readiness sample_diagnostics sample_enforcement sample_bypass).

Lemma scoped_ready_exact_witness :
  dget "state" sample_readiness = VStr "ready" /\
  exists state checks, dget "state" sample_readiness = VStr state /\ dget "checks" sample_readiness = VList checks.
Proof.
  split; [vm_compute; reflexivity|].
  assert (Hs : summarize_scoped_subjects (H := sample_repr) [sample_subject] = Some sample_summary) by (vm_compute; reflexivity).
  assert (Hd : build_scoped_egress_diagnostics (H := sample_repr) sample_summary sample_enforcement sample_bypass
    = Some sample_diagnostics) by (vm_compute; reflexivity).
  assert (Ho : build_scoped_egress_readiness sample_diagnostics sample_enforcement sample_bypass
    = Some sample_readiness) by (vm_compute; reflexivity).
  assert (Hwf : forall r, r ∈ tracked_runtimes [sample_subject] -> runtime_wf r).
  { assert (E : tracked_runtimes [sample_subject] = [sample_runtime]) by (vm_compute; reflexivity).
    rewrite E. intros r ->%list_elem_of_singleton.
    exact (build_wf (H := sample_repr) BindingsMissing sample_docker direct_args sample_runtime (proj1 sample_runtime_applied)). }
  destruct (scoped_ready_exact (H := sample_repr) [sample_subject] sample_enforcement sample_bypass _ _ _ Hs Hd Ho Hwf)
    as (state & checks & E1 & E2 & _).
  exists state, checks. split; [exact E1|exact E2].
Defined.
