(* ===== verification/Nft.v ===== *)
(** * The nft ruleset: statements, text and packets

    What the renderer writes, line by line: a rule is its statements in
    order, a chain its hook and rules, a table its counters, sets and chains.
    [rule_line], [chain_lines] print them as the code's strings are written.

    The second half gives them nftables' documented meaning: the statements
    of a rule run from left to right until a match fails, a jump returns, a
    goto does not, a base chain ends in its policy.  The meaning is read off
    the printed operands: [mark_of], [ports_of], [nets_of]. *)
From stdpp Require Import base list strings pretty gmap sorting.
From Stdlib Require Import ZArith Lia Ascii.
From S2P Require Import Prelude PyStr IpAddr.

Open Scope string_scope.
Open Scope Z_scope.
Open Scope list_scope.

(** ** Syntax *)

Inductive stmt :=
  | SText (text : string)
  | SSocketTransparent
  | SFibLocal
  | SNfproto6
  | SIifname (neg : bool) (name : string)
  | SOifname (name : string)
  | SAddr (expr val : string)
  | SAddrSet (expr set : string)
  | SL4 (protos : string)
  | SPort (field ports : string)
  | SMark (neg : bool) (mark : string)
  | SMarkSet (mark : string)
  | SSkuid (uids : string)
  | SCounter
  | SCounterName (name : string)
  | SComment (text : string)
  | SAccept
  | SDrop
  | SReturn
  | SReject (how : string)
  | SGoto (chain : string)
  | SJump (chain : string)
  | STproxy (port : string)
  | SRedirect (port : string).

Definition rule := list stmt.

Record chain := Chain { c_name : string; c_hook : option string; c_rules : list rule }.

(** The double quote. *)
Definition dq : string := String (ascii_of_N 34) "".
Definition quoted (s : string) : string := dq +:+ s +:+ dq.

Definition stmt_text (s : stmt) : string :=
  match s with
  | SText text => text
  | SSocketTransparent => "socket transparent 1"
  | SFibLocal => "fib daddr type local"
  | SNfproto6 => "meta nfproto ipv6"
  | SIifname neg name => (if neg then "iifname != " else "iifname ") +:+ quoted name
  | SOifname name => "oifname " +:+ quoted name
  | SAddr expr val => expr +:+ " " +:+ val
  | SAddrSet expr set => expr +:+ " @" +:+ set
  | SL4 protos => "meta l4proto " +:+ protos
  | SPort field ports => field +:+ " " +:+ ports
  | SMark neg mark => (if neg then "meta mark != " else "meta mark ") +:+ mark
  | SMarkSet mark => "meta mark set " +:+ mark
  | SSkuid uids => "meta skuid " +:+ uids
  | SCounter => "counter"
  | SCounterName name => "counter name " +:+ quoted name
  | SComment text => "comment " +:+ quoted text
  | SAccept => "accept"
  | SDrop => "drop"
  | SReturn => "return"
  | SReject how => "reject" +:+ how
  | SGoto c => "goto " +:+ c
  | SJump c => "jump " +:+ c
  | STproxy port => "tproxy to :" +:+ port
  | SRedirect port => "redirect to :" +:+ port
  end.

Definition rule_line (r : rule) : string := "        " +:+ py_join " " (map stmt_text r).

Definition chain_lines (c : chain) : list string :=
  ["    chain " +:+ c_name c +:+ " {"]
  ++ match c_hook c with Some h => ["        " +:+ h] | None => [] end
  ++ map rule_line (c_rules c) ++ ["    }"].

(** ** Operands *)

(** A text without its braces. *)
Fixpoint drop_braces (s : string) : string :=
  match s with
  | "" => ""
  | String c s' => if Ascii.eqb c "{"%char || Ascii.eqb c "}"%char then drop_braces s' else String c (drop_braces s')
  end.

(** The items of [{ a, b }], or the one item. *)
Definition items_of (text : string) : list string :=
  if py_startswith text "{" then map py_strip (py_split ","%char (drop_braces text)) else [text].

Definition ports_of (text : string) : list Z := omap py_int_digits (items_of text).

Definition nets_of (text : string) : list net := omap ip_network (items_of text).

(** A mark: decimal, or hexadecimal after 0x. *)
Definition mark_of (text : string) : option Z :=
  match text with
  | String "0" (String "x" (String c digits)) => hex_acc 0 (String c digits)
  | _ => py_int_digits text
  end.

(** ** Packets *)

Inductive proto := Tcp | Udp.

#[export] Instance proto_eq_dec : EqDecision proto.
Proof. solve_decision. Defined.

Inductive handoff := ToTproxy (port : string) | ToRedirect (port : string).

Record packet := Packet {
  pk_src : addr;
  pk_dst : addr;
  pk_proto : option proto;
  pk_sport : Z;
  pk_dport : Z;
  pk_iif : string;
  pk_oif : string;
  pk_uid : option Z;
  pk_local_dst : bool;
  pk_transparent : bool;
  pk_mark : Z;
  pk_handoff : option handoff;
}.

Definition with_mark (m : Z) (p : packet) : packet :=
  Packet (pk_src p) (pk_dst p) (pk_proto p) (pk_sport p) (pk_dport p) (pk_iif p) (pk_oif p) (pk_uid p)
    (pk_local_dst p) (pk_transparent p) m (pk_handoff p).

Definition with_handoff (h : handoff) (p : packet) : packet :=
  Packet (pk_src p) (pk_dst p) (pk_proto p) (pk_sport p) (pk_dport p) (pk_iif p) (pk_oif p) (pk_uid p)
    (pk_local_dst p) (pk_transparent p) (pk_mark p) (Some h).

(** The address an expression selects; the version of the packet is that of its addresses. *)
Definition addr_field (expr : string) (p : packet) : option addr :=
  let field v a := if bool_decide (a_ver (pk_src p) = v) then Some a else None in
  if String.eqb expr "ip saddr" then field V4 (pk_src p)
  else if String.eqb expr "ip daddr" then field V4 (pk_dst p)
  else if String.eqb expr "ip6 saddr" then field V6 (pk_src p)
  else if String.eqb expr "ip6 daddr" then field V6 (pk_dst p)
  else None.

Definition is_addr_expr (expr : string) : bool :=
  bool_decide (expr ∈ ["ip saddr"; "ip daddr"; "ip6 saddr"; "ip6 daddr"]).

Definition in_nets (nets : list net) (a : addr) : bool := existsb (fun n => net_has n a) nets.

Definition is_proto (p : packet) (k : proto) : bool := bool_decide (pk_proto p = Some k).

Definition l4_match (protos : string) (p : packet) : bool :=
  if String.eqb protos "tcp" then is_proto p Tcp
  else if String.eqb protos "udp" then is_proto p Udp
  else if String.eqb protos "{ tcp, udp }" then is_proto p Tcp || is_proto p Udp
  else false.

Definition in_ports (ports : string) (n : Z) : bool := bool_decide (n ∈ ports_of ports).

Definition port_match (field ports : string) (p : packet) : bool :=
  if String.eqb field "tcp dport" then is_proto p Tcp && in_ports ports (pk_dport p)
  else if String.eqb field "udp dport" then is_proto p Udp && in_ports ports (pk_dport p)
  else if String.eqb field "tcp sport" then is_proto p Tcp && in_ports ports (pk_sport p)
  else if String.eqb field "udp sport" then is_proto p Udp && in_ports ports (pk_sport p)
  else if String.eqb field "th dport" then bool_decide (is_Some (pk_proto p)) && in_ports ports (pk_dport p)
  else false.

(** The kernel's side: the elements of the sets, and expressions of the manifest nft may know besides the four. *)
Record kernel := Kernel {
  k_set : string -> addr -> bool;
  k_other : string -> string -> packet -> bool;
}.

(** ** Running a rule *)

Inductive verdict := VAccept | VDrop | VReject.

#[export] Instance verdict_eq_dec : EqDecision verdict.
Proof. solve_decision. Defined.

(** What a statement does: go on, leave the rule, or leave the chain. *)
Inductive effect :=
  | Continue (p : packet)
  | NoMatch (p : packet)
  | Final (v : verdict) (p : packet)
  | Return (p : packet)
  | Jump (c : string) (p : packet)
  | Goto (c : string) (p : packet).

Section Run.
Context (k : kernel).

Definition run_stmt (s : stmt) (p : packet) : effect :=
  let when b := if (b : bool) then Continue p else NoMatch p in
  match s with
  | SText _ | SCounter | SCounterName _ | SComment _ => Continue p
  | SSocketTransparent => when (pk_transparent p)
  | SFibLocal => when (pk_local_dst p)
  | SNfproto6 => when (bool_decide (a_ver (pk_src p) = V6))
  | SIifname neg name => when (xorb neg (String.eqb (pk_iif p) name))
  | SOifname name => when (String.eqb (pk_oif p) name)
  | SAddr expr val =>
      when (if is_addr_expr expr
            then match addr_field expr p with Some a => in_nets (nets_of val) a | None => false end
            else k_other k expr val p)
  | SAddrSet expr set =>
      when (match addr_field expr p with Some a => k_set k set a | None => false end)
  | SL4 protos => when (l4_match protos p)
  | SPort field ports => when (port_match field ports p)
  | SMark neg mark => when (xorb neg (bool_decide (mark_of mark = Some (pk_mark p))))
  | SMarkSet mark => match mark_of mark with Some m => Continue (with_mark m p) | None => NoMatch p end
  | SSkuid uids => when (match pk_uid p with Some u => in_ports uids u | None => false end)
  | SAccept => Final VAccept p
  | SDrop => Final VDrop p
  | SReject _ => Final VReject p
  | SReturn => Return p
  | SGoto c => Goto c p
  | SJump c => Jump c p
  | STproxy port => Continue (with_handoff (ToTproxy port) p)
  | SRedirect port => Final VAccept (with_handoff (ToRedirect port) p)
  end.

(** The rule as a whole; [NoMatch] leaves the packet to the next rule, and so does a rule without a verdict. *)
Fixpoint run_rule (r : rule) (p : packet) : effect :=
  match r with
  | [] => Continue p
  | s :: r' => match run_stmt s p with Continue p' => run_rule r' p' | e => e end
  end.

(** The outcome of a chain: it comes back to its caller, or the packet's fate is settled. *)
Inductive outcome := Back (p : packet) | Settled (v : verdict) (p : packet).

Definition chain_named (cs : list chain) (name : string) : option chain :=
  List.find (fun c => String.eqb (c_name c) name) cs.

(** The rules of a chain, in order; [sub] runs a chain that is jumped or gone to. *)
Section Rules.
Context (sub : list rule -> packet -> option outcome) (cs : list chain).

Fixpoint run_rules (rules : list rule) (p : packet) : option outcome :=
  match rules with
  | [] => Some (Back p)
  | r :: rules' =>
      match run_rule r p with
      | Continue p' => run_rules rules' p'
      | NoMatch p' => run_rules rules' p'
      | Final v p' => Some (Settled v p')
      | Return p' => Some (Back p')
      | Goto c p' => target ← chain_named cs c; sub (c_rules target) p'
      | Jump c p' =>
          target ← chain_named cs c;
          o ← sub (c_rules target) p';
          match o with Back p'' => run_rules rules' p'' | Settled v p'' => Some (Settled v p'') end
      end
  end.
End Rules.

(** [fuel] bounds the depth of jumps; [None] is out of fuel or a target that is not there. *)
Fixpoint run_chain (fuel : nat) (cs : list chain) (rules : list rule) (p : packet) : option outcome :=
  match fuel with
  | O => None
  | S f => run_rules (run_chain f cs) cs rules p
  end.

(** A base chain by its name: coming back is its policy, which is accept in every chain written. *)
Definition run_hook (fuel : nat) (cs : list chain) (name : string) (p : packet) : option (verdict * packet) :=
  c ← chain_named cs name;
  o ← run_chain fuel cs (c_rules c) p;
  match o with Back p' => Some (VAccept, p') | Settled v p' => Some (v, p') end.
End Run.
