(* ===== verification/NftSets.v ===== *)
(** * Constants, marks and sets of the nft table

    [services/dataplane_nft_constants.py] and [services/dataplane_nft_sets.py]:
    the marks derived from the VPN fwmark, what the renderer reads from the
    manifest, and the text of the sets.  A manifest is a Python value; a
    function that may raise returns an [option]. *)
From stdpp Require Import base list strings pretty gmap sorting.
From Stdlib Require Import ZArith Lia Ascii.
From S2P Require Import Prelude PyStr IpAddr PyVal NetworkContract SubjectTaxonomy DockerPolicy ScopedEgress Nft.

Open Scope string_scope.
Open Scope Z_scope.
Open Scope list_scope.

(** ** Constants *)

Definition OWNED_TABLE : string := "inet fwrouter_v2".

Definition REQUIRED_CHAINS : list string :=
  ["prerouting"; "input"; "output"; "forward"; "postrouting"; "fwrouter_classify"; "fwrouter_direct";
   "fwrouter_vpn"; "fwrouter_vpn_full"].

Definition STATIC_SECURE_DNS_BYPASS_IPV4 : list string :=
  ["1.1.1.1"; "1.0.0.1"; "1.1.1.2"; "1.0.0.2"; "162.159.61.3"; "162.159.61.4"; "172.64.41.3"; "172.64.41.4";
   "8.8.8.8"; "8.8.4.4"; "9.9.9.9"; "149.112.112.112"; "94.140.14.14"; "94.140.15.15"; "208.67.222.222";
   "208.67.220.220"].

Definition CONTROL_PLANE_INPUT_PORTS : list Z :=
  [22; 53; 67; 68; 5000; 5055; 5200; 5201; 5202; 5203; 5204; 5205].

Definition ROOT_UID : Z := 0.

(** ** Marks *)

(** The digits of [int(s, 16)]: single underscores between them. *)
Fixpoint hex_underscore (prev : bool) (s : string) : option string :=
  match s with
  | "" => if prev then Some "" else None
  | String c s' =>
      match hex_val c with
      | Some _ => option_map (String c) (hex_underscore true s')
      | None => if Ascii.eqb c "_"%char && prev then hex_underscore false s' else None
      end
  end.

Definition hex_number (prev : bool) (s : string) : option Z :=
  ds ← hex_underscore prev s;
  if String.eqb ds "" then None else hex_acc 0 ds.

(** After the sign: an optional 0x, which one underscore may follow. *)
Definition hex_unsigned (s : string) : option Z :=
  match s with
  | String c0 (String c1 s') =>
      if Ascii.eqb c0 "0"%char && (Ascii.eqb c1 "x"%char || Ascii.eqb c1 "X"%char) then hex_number true s'
      else hex_number false s
  | _ => hex_number false s
  end.

(** [int(s, 16)]; [None] is ValueError. *)
Definition py_int_hex (s : string) : option Z :=
  match py_strip s with
  | String c t =>
      if Ascii.eqb c "-"%char then option_map Z.opp (hex_unsigned t)
      else if Ascii.eqb c "+"%char then hex_unsigned t
      else hex_unsigned (String c t)
  | "" => None
  end.

(** The digits of a natural number in base 16; [fuel] bounds their number. *)
Fixpoint hex_digits (fuel : nat) (n : Z) : string :=
  match fuel with
  | O => ""
  | S f => if n <? 16 then String (hex_digit n) "" else hex_digits f (n / 16) +:+ String (hex_digit (n mod 16)) ""
  end.

Definition hex_text (n : Z) : string := hex_digits (S (Z.to_nat (Z.log2 n))) n.

Fixpoint zeros (k : nat) : string := match k with O => "" | S k' => String "0"%char (zeros k') end.

Definition zero_pad (width : nat) (s : string) : string := zeros (width - String.length s) +:+ s.

(** [f"{n:08x}"]: the sign counts for the width. *)
Definition format_08x (n : Z) : string :=
  if n <? 0 then "-" +:+ zero_pad 7 (hex_text (- n)) else zero_pad 8 (hex_text n).

Definition _derive_mark_hex (vpn_fwmark_hex : string) (offset : Z) : string :=
  let value := default 256 (py_int_hex vpn_fwmark_hex) in
  "0x" +:+ format_08x (value + offset).

Definition _derive_tcp_redirect_mark_hex (vpn_fwmark_hex : string) : string := _derive_mark_hex vpn_fwmark_hex 1.

(** ** Text *)

(** [character.isalnum()]: ASCII, and the Cyrillic letters U+0400 to U+045F. *)
Definition alnum_char (ch : string) : bool :=
  match ch with
  | String c "" => is_digit c || is_lower_alpha c || is_upper_alpha c
  | String c (String d "") =>
      ((code c =? 208)%N && between 128 191 d) || ((code c =? 209)%N && between 128 159 d)
  | _ => false
  end.

Definition py_isalnum (s : string) : bool := negb (String.eqb s "") && forallb alnum_char (py_chars s).

(** [for character in value]: what is not iterable raises, and so does an element without [isalnum]. *)
Definition characters_of (value : pyval) : py (list string) :=
  match value with
  | VStr s => Some (py_chars s)
  | VList l => py_map as_str l
  | VDict d => Some (map fst d)
  | _ => None
  end.

Definition _safe_set_suffix (value : pyval) : py string :=
  chars ← characters_of value;
  let text := py_join "" (map (fun character => if py_isalnum character then py_lower character else "_") chars) in
  Some (py_rstrip_char "_"%char (py_lstrip_char "_"%char text)).

(** ** Set text *)

Definition chunk_starts (len chunk_size : nat) : list nat :=
  map (fun i => i * chunk_size)%nat (seq 0 ((len + chunk_size - 1) / chunk_size)).

Definition _chunk_elements (elements : list string) (chunk_size : nat) : list (list string) :=
  map (fun index => take chunk_size (drop index elements)) (chunk_starts (length elements) chunk_size).

(** The text between the braces of an element list. *)
Definition braced (elements : list string) : string := "{ " +:+ py_join ", " elements +:+ " }".

Definition add_element_command (name : string) (chunk : list string) : string :=
  "add element " +:+ OWNED_TABLE +:+ " " +:+ name +:+ " " +:+ braced chunk.

Definition _render_set (name nft_type : string) (elements : list string) : list string * list string :=
  if (length elements =? 0)%nat then
    (["    set " +:+ name +:+ " { type " +:+ nft_type +:+ "; flags interval; auto-merge; }"], [])
  else if (length elements <=? 256)%nat then
    (["    set " +:+ name +:+ " {"; "        type " +:+ nft_type +:+ ";"; "        flags interval;";
      "        auto-merge;"; "        elements = " +:+ braced elements; "    }"], [])
  else
    (["    set " +:+ name +:+ " {"; "        type " +:+ nft_type +:+ ";"; "        flags interval;";
      "        auto-merge;"; "    }"],
     ("flush set " +:+ OWNED_TABLE +:+ " " +:+ name)
       :: map (add_element_command name) (_chunk_elements elements 512)).

(** [get_settings().dnsmasq_nftset_timeout_seconds]. *)
Class NftSettings := dnsmasq_nftset_timeout_seconds : Z.

Definition _render_dns_runtime_set `{NftSettings} (name nft_type : string) : list string :=
  ["    set " +:+ name +:+ " {"; "        type " +:+ nft_type +:+ ";"; "        flags timeout;";
   "        timeout " +:+ py_str_int dnsmasq_nftset_timeout_seconds +:+ "s;"; "    }"].

(** ** Reading the manifest *)

(** [d.get(k)] of what may not be a dict: raises. *)
Definition attr_get (k : string) (v : pyval) : py pyval :=
  match v with VDict d => Some (dget k d) | _ => None end.

(** [for x in v]. *)
Definition iter_val (v : pyval) : py (list pyval) :=
  match v with
  | VList l => Some l
  | VStr s => Some (map VStr (py_chars s))
  | VDict d => Some (map (fun kv => VStr kv.1) d)
  | _ => None
  end.

Section Manifest.
Context `{ReprContainer}.

Definition _read_manifest_extra_ipv4_list (manifest : pyval) (key : string) (defaults : list string) : list string :=
  match get_in key (get_in "extra" manifest) with
  | VList values => sorted_set (List.filter nonempty_text (map (fun value => py_strip (py_str value)) values))
  | _ => sorted_set defaults
  end.

Definition dnsmasq_status_of (manifest : pyval) : pyval :=
  get_in "dnsmasq_selective_status" (get_in "global_preflight" manifest).

(** The first text that is not blank. *)
Definition first_text (texts : list string) : option string := List.find nonempty_text texts.

Definition _resolve_tproxy_handoff_ipv4 (manifest : pyval) : option string :=
  match dnsmasq_status_of manifest with
  | VDict status =>
      let candidates :=
        match dget "router_dns_ipv4" status with VList l => map stripped l | _ => [] end in
      let bindings :=
        match get_in "bindings" (dget "dns_capture_status" status) with
        | VList l => map (fun binding => stripped (get_in "address" binding)) (List.filter is_dict l)
        | _ => []
        end in
      first_text (candidates ++ bindings)
  | _ => None
  end.

Definition lan_ingress_name (value : pyval) : option string :=
  match value with
  | VStr s =>
      let name := py_strip s in
      if nonempty_text name && negb (is_set (reserved_interface_role name)) then Some name else None
  | _ => None
  end.

Definition _resolve_lan_ingress_interfaces (manifest : pyval) : list string :=
  match get_in "router_dns_interfaces" (dnsmasq_status_of manifest) with
  | VList values => sorted_set (omap lan_ingress_name values)
  | _ => []
  end.

(** ** Scoped sets *)

Record scoped_group := ScopedGroup {
  sg_key : string;
  sg_server_id : pyval;
  sg_nft_type : string;
  sg_nft_expr : string;
  sg_values : list pyval;
}.

Record scoped_set := ScopedSet {
  ss_set_name : string;
  ss_server_id : pyval;
  ss_nft_type : string;
  ss_nft_expr : string;
  ss_values : list pyval;
}.

Fixpoint scoped_group_add (g : scoped_group) (gs : list scoped_group) : list scoped_group :=
  match gs with
  | [] => [g]
  | g' :: gs' =>
      if String.eqb (sg_key g') (sg_key g)
      then ScopedGroup (sg_key g') (sg_server_id g') (sg_nft_type g') (sg_nft_expr g') (sg_values g' ++ sg_values g) :: gs'
      else g' :: scoped_group_add g gs'
  end.

Definition scoped_group_of (subject : pyval) : option scoped_group :=
  match subject with
  | VDict s =>
      if py_eq (dget "dataplane_path" s) (VStr "vpn") then
        match dget "scoped_runtime" s with
        | VDict scoped_runtime =>
            let server_id := por (dget "selected_server_id" s) (VStr "default") in
            let nft_type := py_str (por (dget "nft_type" scoped_runtime) (VStr "ipv4_addr")) in
            let nft_expr := py_str (por (dget "nft_expr" scoped_runtime) (VStr "ip saddr")) in
            let matcher_value := dget "value" scoped_runtime in
            if truthy matcher_value then
              Some (ScopedGroup (py_str server_id +:+ ":" +:+ nft_type +:+ ":" +:+ nft_expr)
                      server_id nft_type nft_expr [matcher_value])
            else None
        | _ => None
        end
      else None
  | _ => None
  end.

(** The number a value compares as. *)
Definition num_of (v : pyval) : option Z :=
  match v with VInt n => Some n | VBool b => Some (Z.b2z b) | _ => None end.

(** The first of the elements with one number, and [sorted] by it. *)
Definition sorted_nums (l : list (Z * pyval)) : list (Z * pyval) :=
  sort_by (fun a b => a.1 <=? b.1)
    (fold_left (fun acc x => if bool_decide (x.1 ∈ map fst acc) then acc else acc ++ [x]) l []).

Definition numbered (v : pyval) : option (Z * pyval) := n ← num_of v; Some (n, v).

(** [sorted(set(values))] of truthy values: strings, or numbers; a mixture does not compare, a container does not hash. *)
Definition sorted_set_vals (values : list pyval) : py (list pyval) :=
  match py_map as_str values with
  | Some strs => Some (map VStr (sorted_set strs))
  | None => nums ← py_map numbered values; Some (map snd (sorted_nums nums))
  end.

Definition render_scoped_set (index : nat) (g : scoped_group) : py scoped_set :=
  suffix ← _safe_set_suffix (sg_server_id g);
  let server_suffix :=
    let s := py_prefix 24 suffix in
    if String.eqb s "" then "vpn_" +:+ py_str_int (Z.of_nat index) else s in
  values ← sorted_set_vals (sg_values g);
  Some (ScopedSet ("scoped_v4_" +:+ py_str_int (Z.of_nat index) +:+ "_" +:+ server_suffix)
          (sg_server_id g) (sg_nft_type g) (sg_nft_expr g) values).

Fixpoint render_scoped_sets (index : nat) (gs : list scoped_group) : py (list scoped_set) :=
  match gs with
  | [] => Some []
  | g :: gs' => s ← render_scoped_set index g; rest ← render_scoped_sets (S index) gs'; Some (s :: rest)
  end.

Definition _build_scoped_vpn_sets (manifest : pyval) : py (list scoped_set) :=
  subjects ← (if truthy manifest then attr_get "subjects" manifest else Some VNone);
  l ← iter_val (por subjects (VList []));
  render_scoped_sets 1 (fold_left (fun gs g => scoped_group_add g gs) (omap scoped_group_of l) []).

(** ** The effective rules *)

(** [rules_effective_loader] is an argument, called only when the manifest has no rules. *)
Definition _resolve_rules_effective_artifact (manifest : pyval) (rules_effective_loader : pyval) : pyval :=
  match get_in "rules_effective" (get_in "extra" manifest) with
  | VDict manifest_rules =>
      match dget "rules" manifest_rules with VList _ => VDict manifest_rules | _ => rules_effective_loader end
  | _ => rules_effective_loader
  end.
End Manifest.
