(* ===== verification/NftChains.v ===== *)
(** * The chains of the nft table

    [services/dataplane_nft_chains.py].  The code returns the lines of a
    chain; a definition here returns the chain whose [chain_lines] are those
    lines.  A port is the value the contour holds: the code tests it with
    [isinstance(port, int) and port > 0] and prints it. *)
From stdpp Require Import base list strings pretty gmap sorting.
From Stdlib Require Import ZArith Lia Ascii.
From S2P Require Import Prelude PyStr IpAddr PyVal SubjectTaxonomy DockerPolicy ScopedEgress Nft NftSets.

Open Scope string_scope.
Open Scope Z_scope.
Open Scope list_scope.

(** ** Ports *)

(** [isinstance(port, int) and port > 0]; a bool is an int. *)
Definition is_port (v : pyval) : bool := match num_of v with Some n => 0 <? n | None => false end.

Definition TCP_UDP : string := "{ tcp, udp }".

Section Chains.
Context `{ReprContainer}.

Definition _nft_port_match_value (ports : list pyval) : option string :=
  let unique_ports := map (fun x => py_str x.2) (sorted_nums (omap numbered (List.filter is_port ports))) in
  match unique_ports with
  | [] => None
  | [p] => Some p
  | ps => Some (braced ps)
  end.

(** ** Immunity *)

Definition external_ingress_immunity_line (contract : dict) : list rule :=
  let interface := stripped (dget "ingress_interface" contract) in
  let provider :=
    let p := py_strip (py_str (por (dget "provider" contract) (VStr "external_ingress"))) in
    if String.eqb p "" then "external_ingress" else p in
  if nonempty_text interface
  then [[SOifname interface; SAccept; SComment ("immunity: " +:+ provider +:+ " egress")]]
  else [].

Definition _external_ingress_immunity_lines : list rule :=
  flat_map external_ingress_immunity_line external_ingress_contracts.

(** ** Classification *)

(** The VPN sets of the selective mode: to the VPN when its policy is ready, dropped otherwise. *)
Definition vpn_set_rule (ready : bool) (prefix : list stmt) (expr set to_vpn degraded : string) : rule :=
  prefix ++ [SAddrSet expr set]
  ++ (if ready then [SGoto "fwrouter_vpn"; SComment to_vpn] else [SDrop; SComment degraded]).

Definition classify_prologue : list rule :=
  [[SFibLocal; SGoto "fwrouter_direct"; SComment "host-local destination always direct"];
   [SAddrSet "ip daddr" "protected_ipv4"; SGoto "fwrouter_direct"; SComment "protected IPv4 always direct"];
   [SAddrSet "ip6 daddr" "protected_ipv6"; SGoto "fwrouter_direct"; SComment "protected IPv6 always direct"];
   [SL4 "tcp"; SPort "tcp dport" "{ 22 }"; SGoto "fwrouter_direct"; SComment "management tcp ingress direct"]].

Definition classify_selective (selective_vpn_policy_ready : bool) : list rule :=
  let ready := selective_vpn_policy_ready in
  [[SAddrSet "ip daddr" "direct_ipv4"; SGoto "fwrouter_direct"; SComment "selective direct IPv4"];
   [SAddrSet "ip daddr" "dns_direct_ipv4"; SGoto "fwrouter_direct"; SComment "selective dns direct IPv4"];
   [SAddrSet "ip6 daddr" "direct_ipv6"; SGoto "fwrouter_direct"; SComment "selective direct IPv6"];
   vpn_set_rule ready [] "ip daddr" "vpn_ipv4" "selective vpn IPv4" "selective degraded block VPN IPv4";
   vpn_set_rule ready [] "ip daddr" "dns_vpn_ipv4" "selective dns vpn IPv4" "selective degraded block DNS VPN IPv4";
   vpn_set_rule ready [] "ip6 daddr" "vpn_ipv6" "selective vpn IPv6" "selective degraded block VPN IPv6"].

Definition classify_default (selective_default : string) (selective_vpn_policy_ready selective_degraded : bool)
    : list rule :=
  if String.eqb selective_default "vpn" then
    if selective_vpn_policy_ready then [[SGoto "fwrouter_vpn_full"; SComment "selective default vpn"]]
    else [[SCounter; SComment "selective degraded default vpn blocked"]; [SDrop; SComment "selective default vpn"]]
  else
    [[SGoto "fwrouter_direct";
      SComment (if selective_degraded then "selective degraded default direct" else "selective default direct")]].

Definition classify_mode (mode selective_default : string) (selective_vpn_policy_ready selective_degraded : bool)
    : list rule :=
  if String.eqb mode "direct" then [[SGoto "fwrouter_direct"; SComment "global direct v1"]]
  else if String.eqb mode "vpn" then [[SGoto "fwrouter_vpn_full"; SComment "global vpn v1"]]
  else if String.eqb mode "selective" then
    classify_selective selective_vpn_policy_ready
    ++ classify_default selective_default selective_vpn_policy_ready selective_degraded
  else [].

Definition _build_classify_chain_lines (mode selective_default : string)
    (selective_vpn_policy_ready selective_degraded : bool) (scoped_steering_rules : list rule) : chain :=
  Chain "fwrouter_classify" None
    (classify_prologue ++ scoped_steering_rules
     ++ classify_mode mode selective_default selective_vpn_policy_ready selective_degraded).

(** ** Terminal chains *)

Definition _build_terminal_direct_chain_lines (direct_counter_rules : list rule) : chain :=
  Chain "fwrouter_direct" None
    (direct_counter_rules ++ [[SCounter; SReturn; SComment "global direct path"]]).

Definition _build_vpn_mark_chain_lines (vpn_tproxy_port : pyval) (vpn_fwmark_hex : string) : chain :=
  Chain "fwrouter_vpn_mark" None
    (if is_port vpn_tproxy_port then
       [[SL4 TCP_UDP; SMarkSet vpn_fwmark_hex; SCounter; SComment "fwrouter vpn output fwmark v1"];
        [SCounter; SReturn; SComment "fwrouter vpn output mark path"]]
     else [[SCounter; SReturn; SComment "vpn output mark placeholder until Wave 2.2B+"]]).

Definition contract_comment_suffix (vpn_policy_required : bool) : string :=
  if vpn_policy_required then " | fwrouter vpn policy contract required v1" else "".

Definition QUIC_REJECT : rule :=
  [SL4 "udp"; SPort "udp dport" "443"; SReject " with icmpx type port-unreachable";
   SComment "force transparent web clients off QUIC onto TCP"].

(** [x or y] of an optional text. *)
Definition text_or (x : option string) (y : string) : string :=
  match x with Some s => if String.eqb s "" then y else s | None => y end.

Definition _build_terminal_vpn_chain_lines (chain_name : string) (vpn_tproxy_port vpn_redir_port : pyval)
    (proxy_bypass_mark_hex vpn_fwmark_hex : string) (udp_fwmark_hex tcp_redirect_mark_hex : option string)
    (vpn_counter_rules : list rule) (vpn_policy_required : bool) : chain :=
  let resolved_udp_fwmark_hex := text_or udp_fwmark_hex vpn_fwmark_hex in
  let resolved_tcp_redirect_mark_hex :=
    text_or tcp_redirect_mark_hex (_derive_tcp_redirect_mark_hex vpn_fwmark_hex) in
  let suffix := contract_comment_suffix vpn_policy_required in
  Chain chain_name None
    (if is_port vpn_tproxy_port then
       [[SMark false proxy_bypass_mark_hex; SReturn; SComment "skip mihomo outbound recapture"]]
       ++ vpn_counter_rules
       ++ [QUIC_REJECT;
           [SL4 "tcp"; SMarkSet resolved_tcp_redirect_mark_hex; SCounter;
            SComment ("fwrouter vpn mark tcp:" +:+ py_str (por vpn_redir_port vpn_tproxy_port) +:+ suffix)];
           [SL4 "udp"; SMarkSet resolved_udp_fwmark_hex; SCounter;
            SComment ("fwrouter vpn mark udp:" +:+ py_str vpn_tproxy_port +:+ suffix)];
           [SReturn; SComment "fwrouter global vpn mark path"]]
     else vpn_counter_rules ++ [[SCounter; SReturn; SComment "vpn path placeholder until Wave 2.2B+"]]).

(** ** Prerouting *)

Definition PREROUTING_HOOK : string := "type filter hook prerouting priority mangle; policy accept;".

Definition block_ipv6_rule (interface : string) : rule :=
  [SIifname false interface; SNfproto6; SReject " with icmpv6 type admin-prohibited";
   SComment ("block IPv6 from LAN ingress " +:+ interface)].

Definition allow_dns_rule (interface : string) : rule :=
  [SIifname false interface; SL4 TCP_UDP; SPort "th dport" "53"; SAccept;
   SComment ("allow LAN DNS capture before VPN classify " +:+ interface)].

Definition prerouting_immunity (proxy_bypass_mark_hex : string) : list rule :=
  [[SSocketTransparent; SAccept; SComment "immunity: established tproxy sessions"];
   [SMark false proxy_bypass_mark_hex; SAccept; SComment "immunity: mihomo outbound bypass"];
   [SAddrSet "ip saddr" "infrastructure_ipv4"; SAccept; SComment "immunity: infrastructure outbound"];
   [SPort "udp sport" "68"; SPort "udp dport" "67"; SAccept;
    SComment "immunity: DHCP client requests to dnsmasq"];
   [SPort "udp sport" "67"; SPort "udp dport" "68"; SAccept; SComment "immunity: DHCP server replies"]].

Definition secure_dns_rules (trusted_client_ipv4_nft_set : string) : list rule :=
  let bypass := [SAddr "ip saddr" trusted_client_ipv4_nft_set; SAddrSet "ip daddr" "secure_dns_bypass_ipv4"] in
  [bypass ++ [SL4 "tcp"; SPort "tcp dport" "{ 443, 853 }"; SReject " with tcp reset";
              SComment "reject secure DNS bypass TCP from LAN"];
   bypass ++ [SL4 "udp"; SPort "udp dport" "{ 443, 853 }"; SReject " with icmpx type port-unreachable";
              SComment "reject secure DNS bypass UDP from LAN"]].

(** [(mode in {"vpn", "selective"} or vpn_counter_rules) and isinstance(port, int) and port > 0]. *)
Definition handoff_wanted (mode : string) (vpn_counter_rules : list rule) (port : pyval) : bool :=
  (bool_decide (mode ∈ ["vpn"; "selective"]) || negb (length vpn_counter_rules =? 0)%nat) && is_port port.

Definition tproxy_rule (mark : string) (port : pyval) (comment : string) (vpn_policy_required : bool) : rule :=
  [SMark false mark; SL4 "udp"; SCounter; STproxy (py_str port); SAccept;
   SComment (comment +:+ py_str port +:+ contract_comment_suffix vpn_policy_required)].

Definition _build_prerouting_entry_chain_lines (proxy_bypass_mark_hex vpn_fwmark_hex full_vpn_udp_fwmark_hex : string)
    (vpn_tproxy_port full_vpn_tproxy_port : pyval) (mode : string) (vpn_counter_rules : list rule)
    (vpn_policy_required : bool) (lan_ingress_interfaces : list string) (trusted_client_ipv4_nft_set : string)
    : chain :=
  Chain "prerouting" (Some PREROUTING_HOOK)
    (prerouting_immunity proxy_bypass_mark_hex
     ++ map block_ipv6_rule lan_ingress_interfaces
     ++ map allow_dns_rule lan_ingress_interfaces
     ++ secure_dns_rules trusted_client_ipv4_nft_set
     ++ [[SJump "fwrouter_classify"; SComment "FWRouter global classify"]]
     ++ (if handoff_wanted mode vpn_counter_rules vpn_tproxy_port
         then [tproxy_rule vpn_fwmark_hex vpn_tproxy_port "fwrouter tproxy handoff udp:" vpn_policy_required] else [])
     ++ (if handoff_wanted mode vpn_counter_rules full_vpn_tproxy_port
         then [tproxy_rule full_vpn_udp_fwmark_hex full_vpn_tproxy_port "fwrouter full-vpn tproxy handoff udp:"
                 vpn_policy_required] else [])).

(** ** The nat chains *)

Definition redirect_rule (mark : string) (port : pyval) (comment : string) (vpn_policy_required : bool) : rule :=
  [SMark false mark; SL4 "tcp"; SCounter; SRedirect (py_str port);
   SComment (comment +:+ py_str port +:+ contract_comment_suffix vpn_policy_required)].

Definition redirect_rules (mark : string) (vpn_redir_port : pyval) (vpn_fwmark_hex : string)
    (full_vpn_tcp_redirect_mark_hex : option string) (full_vpn_redir_port : pyval) (vpn_policy_required : bool)
    : list rule :=
  (if is_port vpn_redir_port
   then [redirect_rule mark vpn_redir_port "fwrouter redirect handoff tcp:" vpn_policy_required] else [])
  ++ (if is_port full_vpn_redir_port
      then [redirect_rule (text_or full_vpn_tcp_redirect_mark_hex (_derive_mark_hex vpn_fwmark_hex 3))
              full_vpn_redir_port "fwrouter full-vpn redirect handoff tcp:" vpn_policy_required] else []).

Definition _build_prerouting_nat_chain_lines (vpn_fwmark_hex : string) (vpn_redir_port : pyval)
    (full_vpn_tcp_redirect_mark_hex : option string) (full_vpn_redir_port : pyval) (vpn_policy_required : bool)
    : chain :=
  Chain "prerouting_nat" (Some "type nat hook prerouting priority dstnat; policy accept;")
    (redirect_rules (_derive_tcp_redirect_mark_hex vpn_fwmark_hex) vpn_redir_port vpn_fwmark_hex
       full_vpn_tcp_redirect_mark_hex full_vpn_redir_port vpn_policy_required).

Definition _build_output_nat_chain_lines (vpn_fwmark_hex : string) (vpn_redir_port : pyval)
    (full_vpn_tcp_redirect_mark_hex : option string) (full_vpn_redir_port : pyval) (proxy_bypass_mark_hex : string)
    (vpn_policy_required : bool) : chain :=
  Chain "output_nat" (Some "type nat hook output priority -100; policy accept;")
    ([[SMark false proxy_bypass_mark_hex; SReturn; SComment "skip mihomo outbound recapture"]]
     ++ redirect_rules vpn_fwmark_hex vpn_redir_port vpn_fwmark_hex
          full_vpn_tcp_redirect_mark_hex full_vpn_redir_port vpn_policy_required).

(** ** Output *)

Definition output_immunity (proxy_bypass_mark_hex : string) : list rule :=
  let direct prefix comment := prefix ++ [SGoto "fwrouter_direct"; SComment comment] in
  [[SMark false proxy_bypass_mark_hex; SReturn; SComment "skip mihomo outbound recapture"];
   direct [SFibLocal] "host output to local destination always direct";
   direct [SAddrSet "ip daddr" "protected_ipv4"] "host output to protected IPv4 always direct";
   direct [SAddrSet "ip6 daddr" "protected_ipv6"] "host output to protected IPv6 always direct";
   direct [SL4 "tcp"; SPort "tcp sport" "{ 22 }"] "management tcp output direct";
   direct [SL4 "tcp"; SPort "tcp dport" "{ 22 }"] "management tcp output direct"].

Definition comment_mode (mode : string) : string :=
  if String.eqb mode "vpn" then "global vpn" else if String.eqb mode "selective" then "selective" else "global direct".

Definition _build_output_entry_chain_lines (vpn_rx_counter_rules : list rule) (proxy_bypass_mark_hex : string)
    (disabled_output_guard_rules system_output_steering_rules : list rule) (mode : string) : chain :=
  Chain "output" (Some "type route hook output priority mangle; policy accept;")
    (vpn_rx_counter_rules ++ disabled_output_guard_rules ++ _external_ingress_immunity_lines
     ++ output_immunity proxy_bypass_mark_hex ++ system_output_steering_rules
     ++ [[SGoto "fwrouter_direct"; SComment ("host output stays direct in " +:+ comment_mode mode +:+ " mode")]]).
End Chains.
