(* ===== verification/NftGuards.v ===== *)
(** * The guards of disabled subjects

    The second half of [services/dataplane_nft_chains.py]: the input, forward
    and output rules that keep a disabled subject's traffic out. *)
From stdpp Require Import base list strings pretty gmap sorting.
From Stdlib Require Import ZArith Lia Ascii.
From S2P Require Import Prelude PyStr IpAddr PyVal SubjectTaxonomy DockerPolicy ScopedEgress Nft NftSets.

Open Scope string_scope.
Open Scope Z_scope.
Open Scope list_scope.

Section Guards.
Context `{ReprContainer}.

Definition _is_disabled_subject (subject : dict) : bool :=
  let path := norm_lower_val (dget "dataplane_path" subject) in
  let effective_mode := norm_lower_val (dget "effective_mode" subject) in
  let desired_mode := norm_lower_val (dget "desired_mode" subject) in
  String.eqb path "blocked" || String.eqb effective_mode "disabled" || String.eqb desired_mode "disabled".

Definition _as_nft_port (value : pyval) : option Z :=
  port ← py_int value;
  if (0 <? port) && (port <=? 65535) then Some port else None.

(** [sorted(set)] of integers. *)
Definition sorted_ints (l : list Z) : list Z := sort_by Z.leb (remove_dups l).

Definition _format_nft_ports (ports : list Z) : string :=
  match sorted_ints ports with
  | [p] => py_str_int p
  | ordered => braced (map py_str_int ordered)
  end.

Definition _reverse_ip_expr (expr : string) : option string :=
  if String.eqb expr "ip saddr" then Some "ip daddr"
  else if String.eqb expr "ip daddr" then Some "ip saddr"
  else if String.eqb expr "ip6 saddr" then Some "ip6 daddr"
  else if String.eqb expr "ip6 daddr" then Some "ip6 saddr"
  else None.

(** The subjects a guard is about. *)
Definition guarded (subject : pyval) : option dict :=
  match subject with
  | VDict s =>
      if is_active s && negb (String.eqb (type_text s) "fwrouter") && _is_disabled_subject s then Some s else None
  | _ => None
  end.

(** [subject.get("subject_id")] in an f-string, and [str(subject.get("subject_id") or "unknown")]. *)
Definition sid_text (subject : dict) : string := py_str (dget "subject_id" subject).
Definition sid_or_unknown (subject : dict) : string := py_str (por (dget "subject_id" subject) (VStr "unknown")).

(** ** Input: the listeners of a disabled service *)

(** A port of a listener: protocol, port, subject. *)
Definition listener_port := (string * Z * string)%type.

Definition listener_port_of (subject : dict) (listener : pyval) : option listener_port :=
  match listener with
  | VDict l =>
      let proto := norm_lower_val (dget "proto" l) in
      if String.eqb proto "tcp" || String.eqb proto "udp" then
        port ← _as_nft_port (dget "port" l);
        if bool_decide (port ∈ CONTROL_PLANE_INPUT_PORTS) then None else Some (proto, port, sid_or_unknown subject)
      else None
  | _ => None
  end.

Definition listener_ports (subject : dict) : list listener_port :=
  match dget "network_listeners" subject with
  | VList listeners => omap (listener_port_of subject) listeners
  | _ => []
  end.

Definition ports_of_proto (proto : string) (found : list listener_port) : list Z :=
  omap (fun x : listener_port => if String.eqb x.1.1 proto then Some x.1.2 else None) found.

Definition subject_ids_of_proto (proto : string) (found : list listener_port) : list string :=
  sorted_set (List.filter nonempty_text
                (omap (fun x : listener_port => if String.eqb x.1.1 proto then Some x.2 else None) found)).

Definition comment_subjects (subject_ids : list string) : string :=
  py_join ", " (take 4 subject_ids)
  +:+ (if (4 <? length subject_ids)%nat then ", +" +:+ py_str_int (Z.of_nat (length subject_ids) - 4) else "").

Definition input_guard_rules (found : list listener_port) (proto : string) : list rule :=
  match ports_of_proto proto found with
  | [] => []
  | ports =>
      let nft_ports := _format_nft_ports ports in
      let field := proto +:+ " dport" in
      [[SIifname false "lo"; SL4 proto; SPort field nft_ports; SAccept;
        SComment "allow local access to disabled service listener"];
       [SIifname true "lo"; SL4 proto; SPort field nft_ports; SReject "";
        SComment ("disabled service listener: " +:+ comment_subjects (subject_ids_of_proto proto found))]]
  end.

Definition _build_disabled_input_guard_lines (subjects : list pyval) : list rule :=
  let found := flat_map listener_ports (omap guarded subjects) in
  flat_map (input_guard_rules found) ["tcp"; "udp"].

(** ** Forward: both directions of a disabled address *)

Definition scoped_matcher_of (subject : dict) : option dict :=
  as_dict (get_in "matcher" (dget "scoped_runtime" subject)).

Definition reject_line (expr val comment : string) : rule :=
  [SAddr expr val; SReject " with icmpx type admin-prohibited"; SComment comment].

(** A rule with the key the [seen] set remembers. *)
Definition keyed_rule := (string * string * string * rule)%type.

Definition forward_candidates (subject : dict) : list keyed_rule :=
  match scoped_matcher_of subject with
  | None => []
  | Some matcher =>
      let expr := text_of (dget "nft_expr" matcher) in
      let val := text_of (dget "value" matcher) in
      let line e direction : keyed_rule :=
        (e, val, direction, reject_line e val ("disabled subject " +:+ direction +:+ " block: " +:+ sid_text subject)) in
      if String.eqb expr "" || String.eqb val "" then []
      else match _reverse_ip_expr expr with
           | Some reverse_expr => [line expr "tx"; line reverse_expr "rx"]
           | None => [line expr "tx"]
           end
  end.

(** The loop with its [seen] set. *)
Fixpoint first_rules (seen : list (string * string * string)) (l : list keyed_rule) : list rule :=
  match l with
  | [] => []
  | (key, line) :: l' =>
      if decide (key ∈ seen) then first_rules seen l' else line :: first_rules (key :: seen) l'
  end.

Definition _build_disabled_forward_guard_lines (subjects : list pyval) : list rule :=
  first_rules [] (flat_map forward_candidates (omap guarded subjects)).

(** ** Output: the addresses and processes of a disabled subject *)

Definition output_candidates (subject : dict) : list keyed_rule :=
  match scoped_matcher_of subject with
  | None => []
  | Some matcher =>
      let expr := text_of (dget "nft_expr" matcher) in
      let val := text_of (dget "value" matcher) in
      match _reverse_ip_expr expr with
      | Some reverse_expr =>
          if String.eqb val "" then []
          else [(reverse_expr, val, "",
                 reject_line reverse_expr val ("disabled subject host-to-target block: " +:+ sid_text subject))]
      | None => []
      end
  end.

Definition blocked_uid (raw_uid : pyval) : option Z :=
  uid ← py_int raw_uid;
  if negb (uid =? ROOT_UID) && (0 <=? uid) && (uid <=? 4294967295) then Some uid else None.

Definition subject_uids (subject : dict) : list (string * Z) :=
  match dget "process_uids" subject with
  | VList raw_uids => map (fun uid => (sid_or_unknown subject, uid)) (omap blocked_uid raw_uids)
  | _ => []
  end.

Definition uid_rule (found : list (string * Z)) (subject_id : string) : rule :=
  let uids := omap (fun x : string * Z => if String.eqb x.1 subject_id then Some x.2 else None) found in
  [SSkuid (_format_nft_ports uids); SReject " with icmpx type admin-prohibited";
   SComment ("disabled subject process egress block: " +:+ subject_id)].

Definition _build_disabled_output_guard_lines (subjects : list pyval) : list rule :=
  let disabled := omap guarded subjects in
  let found := flat_map subject_uids disabled in
  first_rules [] (flat_map output_candidates disabled)
  ++ map (uid_rule found) (sorted_set (map fst found)).
End Guards.
