(* ===== verification/DataplaneRules.v ===== *)
(** * From the effective rules to the elements of the nft sets

    The first part of [services/dataplane_global.py]: the domains that are
    always direct, the summary of the selective rules, the networks that are
    protected beside the configured ones, and [build_nft_rule_sets].  What
    the code reads from outside is an instance of [RuleSources]. *)
From stdpp Require Import base list strings pretty gmap sorting.
From Stdlib Require Import ZArith Lia Ascii.
From S2P Require Import Prelude PyStr IpAddr PyVal NetworkContract SubjectTaxonomy DockerPolicy ScopedEgress NftSets.

Open Scope string_scope.
Open Scope Z_scope.
Open Scope list_scope.

(** [ip -json address show]: it failed, it printed no JSON, or a payload. *)
Inductive ip_output := IpFailed | IpBadJson | IpJson (payload : pyval).

(** The setting, the hosts of [server_custom_https_proxy] ([None] when the
    database raises), and the addresses of the host. *)
Class RuleSources := {
  PROTECTED_SERVICE_DOMAINS : list string;
  custom_proxy_hosts : option (list (option string));
  ip_address_show : ip_output;
}.

Definition ANDROID_CONNECTIVITY_DIRECT_DOMAINS : list string :=
  ["connectivitycheck.gstatic.com"; "connectivitycheck.android.com"; "clients3.google.com";
   "clients.l.google.com"; "www.google.com"; "www.gstatic.com"].

(** [value.lower().rstrip(".")]. *)
Definition domain_text (value : string) : string := py_rstrip_char "."%char (py_lower value).

(** The value is one of the domains, or below one. *)
Definition under_domain (domains : list string) (value : string) : bool :=
  let normalized := domain_text (py_strip value) in
  if String.eqb normalized "" then false
  else existsb (fun domain => String.eqb normalized domain || py_endswith normalized ("." +:+ domain)) domains.

Definition _is_protected_service_domain `{RuleSources} (value : string) : bool :=
  under_domain PROTECTED_SERVICE_DOMAINS value.

Definition _is_android_connectivity_direct_domain (value : string) : bool :=
  under_domain ANDROID_CONNECTIVITY_DIRECT_DOMAINS value.

Section Rules.
Context `{ReprContainer} `{RuleSources}.

(** [(artifact or {}).get("rules") or []]; what is not iterable raises. *)
Definition raw_rules (effective_rules_artifact : option dict) : py (list pyval) :=
  match effective_rules_artifact with
  | Some artifact => iter_val (por (dget "rules" artifact) (VList []))
  | None => Some []
  end.

Definition _rules_list (effective_rules_artifact : option dict) : py (list dict) :=
  rules ← raw_rules effective_rules_artifact; Some (omap (M:=list) as_dict rules).

(** ** The summary *)

Definition rule_kind (rule : dict) : string := py_lower (text_of (dget "kind" rule)).
Definition rule_action (rule : dict) : string := py_upper (text_of (dget "action" rule)).
Definition rule_value (rule : dict) : string := stripped (dget "value" rule).

Definition is_domain_kind (kind : string) : bool := String.eqb kind "domain" || String.eqb kind "domain_suffix".

(** A domain rule for a protected service, which the loop skips. *)
Definition is_service_rule (rule : dict) : bool :=
  is_domain_kind (rule_kind rule)
  && _is_protected_service_domain (domain_text (rule_value rule)).

Definition count_rules (p : dict -> bool) (rules : list dict) : Z := Z.of_nat (length (List.filter p rules)).

Definition _selective_rules_summary (effective_rules_artifact : option dict) : py dict :=
  rules ← _rules_list effective_rules_artifact;
  let counted := List.filter (fun rule => negb (is_service_rule rule)) rules in
  let domain_rules := count_rules (fun rule => is_domain_kind (rule_kind rule)) counted in
  let vpn_rules := count_rules (fun rule => String.eqb (rule_action rule) "VPN") counted in
  let direct_rules := count_rules (fun rule => String.eqb (rule_action rule) "DIRECT") counted in
  let selective_default :=
    py_lower (py_str (por (dget "selective_default" (default [] effective_rules_artifact)) (VStr "direct"))) in
  let requires_vpn_runtime := (0 <? vpn_rules) || String.eqb selective_default "vpn" in
  Some [("rules_count", VInt (Z.of_nat (length rules)));
        ("domain_rules_count", VInt domain_rules);
        ("vpn_rules_count", VInt vpn_rules);
        ("direct_rules_count", VInt direct_rules);
        ("selective_default", VStr selective_default);
        ("requires_vpn_runtime", VBool requires_vpn_runtime);
        ("ip_only_ready", VBool (is_set effective_rules_artifact && (domain_rules =? 0)));
        ("path_kind", VStr (if 0 <? domain_rules then "domain_aware" else "ip_only"))].

(** ** Networks *)

Definition networks_of_version (version : ipver) (values : list string) : list net :=
  List.filter (fun network => bool_decide (n_ver network = version)) (omap ip_network values).

Definition _collapse_network_values (values : list string) (version : ipver) : py (list string) :=
  collapsed ← collapse_addresses (networks_of_version version values);
  Some (map str_net collapsed).

(** Both versions collapsed. *)
Definition collapse_both (ipv4 ipv6 : list string) : py (list string * list string) :=
  c4 ← _collapse_network_values ipv4 V4; c6 ← _collapse_network_values ipv6 V6; Some (c4, c6).

(** The query's [WHERE]: SQLite's [trim] strips spaces. *)
Definition selected_host (host : option string) : option string :=
  match host with
  | Some h =>
      if String.eqb (py_lstrip_char " "%char h) "" then None else Some h
  | None => None
  end.

(** A host that is an address, with its network of one address. *)
Definition host_network (host : string) : py (option (ipver * string)) :=
  match ip_address (py_strip host) with
  | None => Some None
  | Some address =>
      network ← ip_network (str_addr address +:+ "/" +:+ py_str_int (max_plen (a_ver address)));
      Some (Some (a_ver address, str_net network))
  end.

Definition texts_of_version (version : ipver) (l : list (ipver * string)) : list string :=
  omap (fun x : ipver * string => if bool_decide (x.1 = version) then Some x.2 else None) l.

(** The networks of the selected hosts; nothing when the database raises. *)
Definition proxy_networks : py (list (ipver * string)) :=
  match custom_proxy_hosts with
  | None => Some []
  | Some hosts => found ← py_map host_network (omap selected_host hosts); Some (omap (M:=list) id found)
  end.

Definition _load_custom_proxy_protected_networks : py (list string * list string) :=
  networks ← proxy_networks; collapse_both (texts_of_version V4 networks) (texts_of_version V6 networks).

Definition interface_network (item : pyval) : option (ipver * string) :=
  match item with
  | VDict i =>
      let family := py_lower (text_of (dget "family" i)) in
      let local := stripped (dget "local" i) in
      let prefixlen := dget "prefixlen" i in
      if String.eqb local "" || negb (is_set (num_of prefixlen)) then None
      else
        network ← ip_network (local +:+ "/" +:+ py_str prefixlen);
        if String.eqb family "inet" then Some (V4, str_net network)
        else if String.eqb family "inet6" then Some (V6, str_net network)
        else None
  | _ => None
  end.

Definition link_networks (link : pyval) : list (ipver * string) :=
  match get_in "addr_info" link with VList items => omap interface_network items | _ => [] end.

(** The networks of the interfaces; nothing when there is no list of links. *)
Definition interface_networks : list (ipver * string) :=
  match ip_address_show with IpJson (VList links) => flat_map link_networks links | _ => [] end.

Definition _discover_local_interface_protected_networks : py (list string * list string) :=
  collapse_both (texts_of_version V4 interface_networks) (texts_of_version V6 interface_networks).

(** ** The sets *)

(** Where a rule goes: a list of the sets, with the text appended to it. *)
Inductive target := DirectIpv4 | DirectIpv6 | VpnIpv4 | VpnIpv6 | DirectDomains | VpnDomains.

#[export] Instance target_eq_dec : EqDecision target.
Proof. solve_decision. Defined.

(** [direct] for the action DIRECT, [vpn] for VPN, nothing for others. *)
Definition by_action (action : string) (direct vpn : target) (value : string) : option (target * string) :=
  if String.eqb action "DIRECT" then Some (direct, value)
  else if String.eqb action "VPN" then Some (vpn, value)
  else None.

Definition rule_target (rule : dict) : option (target * string) :=
  let action := rule_action rule in
  let kind := rule_kind rule in
  let value := rule_value rule in
  if String.eqb value "" then None
  else if is_domain_kind kind then
    let normalized_domain := domain_text value in
    if _is_protected_service_domain normalized_domain then None
    else if _is_android_connectivity_direct_domain normalized_domain then Some (DirectDomains, normalized_domain)
    else by_action action DirectDomains VpnDomains normalized_domain
  else if String.eqb kind "ip" || String.eqb kind "ipv4" || String.eqb kind "ipv4_cidr" then
    by_action action DirectIpv4 VpnIpv4 value
  else if String.eqb kind "ipv6" || String.eqb kind "ipv6_cidr" then by_action action DirectIpv6 VpnIpv6 value
  else if String.eqb kind "cidr" then
    network ← ip_network value;
    match n_ver network with
    | V4 => by_action action DirectIpv4 VpnIpv4 (str_net network)
    | V6 => by_action action DirectIpv6 VpnIpv6 (str_net network)
    end
  else None.

Definition values_of (t : target) (targets : list (target * string)) : list string :=
  omap (fun x : target * string => if bool_decide (x.1 = t) then Some x.2 else None) targets.

Record nft_rule_sets := NftRuleSets {
  set_protected_ipv4 : list string;
  set_protected_ipv6 : list string;
  set_direct_ipv4 : list string;
  set_direct_ipv6 : list string;
  set_vpn_ipv4 : list string;
  set_vpn_ipv6 : list string;
  set_direct_domains : list string;
  set_vpn_domains : list string;
}.

(** The networks the artifact lists itself. *)
Definition explicit_protected (key : string) (effective_rules_artifact : option dict) : option (list string) :=
  match effective_rules_artifact with
  | Some artifact => match dget key artifact with VList values => Some (map py_str values) | _ => None end
  | None => None
  end.

(** Whether the interfaces are asked for: not when the artifact lists both families. *)
Definition asks_interfaces (effective_rules_artifact : option dict) : bool :=
  negb (is_set (explicit_protected "protected_ipv4" effective_rules_artifact)
        && is_set (explicit_protected "protected_ipv6" effective_rules_artifact)).

Definition local_protected (effective_rules_artifact : option dict) : py (list string * list string) :=
  if asks_interfaces effective_rules_artifact then _discover_local_interface_protected_networks else Some ([], []).

Context `{Settings}.

Definition build_nft_rule_sets (effective_rules_artifact : option dict) : py nft_rule_sets :=
  rules ← _rules_list effective_rules_artifact;
  let targets := omap (M:=list) rule_target rules in
  proxy ← _load_custom_proxy_protected_networks;
  local ← local_protected effective_rules_artifact;
  let explicit key := default [] (explicit_protected key effective_rules_artifact) in
  protected_ipv4 ← _collapse_network_values
    (protected_ipv4_networks ++ proxy.1 ++ local.1 ++ explicit "protected_ipv4") V4;
  protected_ipv6 ← _collapse_network_values
    (protected_ipv6_networks ++ proxy.2 ++ local.2 ++ explicit "protected_ipv6") V6;
  direct_ipv4 ← _collapse_network_values (values_of DirectIpv4 targets) V4;
  direct_ipv6 ← _collapse_network_values (values_of DirectIpv6 targets) V6;
  vpn_ipv4 ← _collapse_network_values (values_of VpnIpv4 targets) V4;
  vpn_ipv6 ← _collapse_network_values (values_of VpnIpv6 targets) V6;
  Some (NftRuleSets protected_ipv4 protected_ipv6 direct_ipv4 direct_ipv6 vpn_ipv4 vpn_ipv6
          (sorted_set (ANDROID_CONNECTIVITY_DIRECT_DOMAINS ++ values_of DirectDomains targets))
          (sorted_set (values_of VpnDomains targets))).
End Rules.
