(* ===== verification/NftRender.v ===== *)
(** * Rendering the owned table

    [services/dataplane_nft_render.py].  [owned_table] computes the table as
    data; [render_owned_table_candidate] prints it.  The loops of the code
    that only append to lists are [flat_map]s over the subjects; the two that
    may raise are [collect]s in the error monad. *)
From stdpp Require Import base list strings pretty gmap sorting.
From Stdlib Require Import ZArith Lia Ascii.
From S2P Require Import Prelude PyStr IpAddr PyVal NetworkContract SubjectTaxonomy DockerPolicy ScopedEgress Nft NftSets NftChains NftGuards DataplaneRules.

Open Scope string_scope.
Open Scope Z_scope.
Open Scope list_scope.

(** ** Errors *)

(** [DockerPolicyConflictError], and any other exception. *)
Inductive render_error := DockerPolicyConflictError (message : string) | OtherError.

Inductive result (A : Type) := Ok (x : A) | Raise (e : render_error).
Arguments Ok {A} x.
Arguments Raise {A} e.

#[global] Instance result_ret : MRet result := fun A x => Ok x.
#[global] Instance result_bind : MBind result := fun A B k m => match m with Ok x => k x | Raise e => Raise e end.

(** A computation whose exceptions are not the conflict error. *)
Definition of_py {A} (o : py A) : result A := match o with Some x => Ok x | None => Raise OtherError end.

Fixpoint collect {A B} (f : A -> result B) (l : list A) : result (list B) :=
  match l with
  | [] => Ok []
  | x :: l' => y ← f x; ys ← collect f l'; Ok (y :: ys)
  end.

(** ** The table *)

Inductive set_decl :=
  | IntervalSet (name nft_type : string) (elements : list string)
  | RuntimeSet (name nft_type : string).

Definition set_name (s : set_decl) : string :=
  match s with IntervalSet name _ _ => name | RuntimeSet name _ => name end.

Inductive candidate :=
  | Bypass (chains : list chain)
  | Managed (counters : list string) (sets : list set_decl) (chains : list chain).

Definition cand_chains (c : candidate) : list chain :=
  match c with Bypass chains => chains | Managed _ _ chains => chains end.

Definition cand_sets (c : candidate) : list set_decl :=
  match c with Bypass _ => [] | Managed _ sets _ => sets end.

Definition cand_counters (c : candidate) : list string :=
  match c with Bypass _ => [] | Managed counters _ _ => counters end.

Definition counter_line (name : string) : string := "    counter " +:+ name +:+ " { }".

(** The chains with an empty line between them. *)
Fixpoint chains_text (chains : list chain) : list string :=
  match chains with
  | [] => []
  | [c] => chain_lines c
  | c :: cs => chain_lines c ++ [""] ++ chains_text cs
  end.

Definition set_text `{NftSettings} (s : set_decl) : list string * list string :=
  match s with
  | IntervalSet name nft_type elements => _render_set name nft_type elements
  | RuntimeSet name nft_type => (_render_dns_runtime_set name nft_type, [])
  end.

Definition deferred_element_commands `{NftSettings} (sets : list set_decl) : list string :=
  flat_map (fun s => (set_text s).2) sets.

Definition table_head (comment : string) : list string :=
  ["table " +:+ OWNED_TABLE +:+ " {"; "    comment " +:+ quoted comment; ""].

Definition candidate_lines `{NftSettings} (c : candidate) : list string :=
  match c with
  | Bypass chains =>
      table_head "FWRouter v2 owned table - intentional bypass/direct-safe mode" ++ chains_text chains ++ ["}"; ""]
  | Managed counters sets chains =>
      let deferred := deferred_element_commands sets in
      table_head "FWRouter v2 owned table - managed only by FWRouter"
      ++ map counter_line counters ++ [""]
      ++ flat_map (fun s => (set_text s).1 ++ [""]) sets
      ++ chains_text chains ++ ["}"; ""]
      ++ (if (length deferred =? 0)%nat then [] else deferred ++ [""])
  end.

Definition newline : string := String (ascii_of_N 10) "".

(** ** The bypass table *)

Definition bypass_chain (name : string) (hook : option string) (comment : string) : chain :=
  Chain name hook [[SCounter; SReturn; SComment ("fwrouter core bypass " +:+ comment)]].

Definition bypass_table : candidate :=
  Bypass
    [bypass_chain "prerouting" (Some "type filter hook prerouting priority mangle; policy accept;") "prerouting";
     bypass_chain "input" (Some "type filter hook input priority filter; policy accept;") "input";
     bypass_chain "output" (Some "type route hook output priority mangle; policy accept;") "output";
     bypass_chain "forward" (Some "type filter hook forward priority filter; policy accept;") "forward";
     bypass_chain "postrouting" (Some "type filter hook postrouting priority filter; policy accept;") "postrouting";
     bypass_chain "fwrouter_classify" None "classify";
     bypass_chain "fwrouter_direct" None "direct-safe";
     bypass_chain "fwrouter_vpn" None "vpn disabled";
     bypass_chain "fwrouter_vpn_full" None "full vpn disabled"].

Section Render.
Context `{ReprContainer} `{Settings} `{NftSettings} `{RuleSources}.

(** [((manifest or {}).get("extra") or {}).get("core_bypass")], when it is enabled. *)
Definition core_bypass_enabled (manifest : pyval) : py bool :=
  match manifest with
  | VDict m =>
      core_bypass ← attr_get "core_bypass" (por (dget "extra" m) (VDict []));
      Some (truthy (get_in "enabled" core_bypass))
  | _ => Some false
  end.

(** ** The contour *)

Record contour := Contour {
  vpn_redir_port : pyval;
  vpn_tproxy_port : pyval;
  full_vpn_redir_port : pyval;
  full_vpn_tproxy_port : pyval;
  vpn_fwmark_hex : string;
  proxy_bypass_mark_hex : string;
}.

Definition is_int_val (v : pyval) : bool := is_set (num_of v).

Definition read_contour (preflight : pyval) : contour :=
  let vpn_contour := get_in "vpn_contour" preflight in
  let redir := get_in "redir_port" vpn_contour in
  let full_redir := get_in "full_vpn_redir_port" vpn_contour in
  let full_tproxy := get_in "full_vpn_tproxy_port" vpn_contour in
  Contour
    (if negb (is_int_val redir) && truthy (get_in "tproxy_port" vpn_contour) then VInt 5202 else redir)
    (get_in "tproxy_port" vpn_contour)
    (if is_int_val full_redir then full_redir else VInt 5204)
    (if is_int_val full_tproxy then full_tproxy else VInt 5205)
    (py_str (por (get_in "fwmark_hex" vpn_contour) (VStr "0x00000100")))
    (py_str (por (get_in "proxy_bypass_mark_hex" vpn_contour) (VStr "0x00000200"))).

Definition full_vpn_udp_fwmark_hex (c : contour) : string := _derive_mark_hex (vpn_fwmark_hex c) 2.
Definition full_vpn_tcp_redirect_mark_hex (c : contour) : string := _derive_mark_hex (vpn_fwmark_hex c) 3.

(** ** Infrastructure addresses *)

Definition infrastructure_ip (s : dict) : option string :=
  let scoped_runtime := dget "scoped_runtime" s in
  match get_in "matcher" scoped_runtime with
  | VDict matcher =>
      let value := dget "value" matcher in
      if negb (eq_str (dget "family" matcher) "ipv4") || negb (truthy value) then None
      else if String.eqb (type_text s) "host" || String.eqb (type_text s) "fwrouter"
              || truthy (get_in "infrastructure_role" scoped_runtime)
      then Some (py_str value)
      else if negb (String.eqb (type_text s) "docker") then None
      else
        let path := path_of s in
        if negb (is_active s)
           || negb (String.eqb path "direct" || String.eqb path "vpn" || String.eqb path "blocked")
        then Some (py_str value)
        else if String.eqb path "vpn" && negb (truthy (get_in "applied" scoped_runtime)) then Some (py_str value)
        else None
  | _ => None
  end.

Definition infrastructure_ips (manifest : pyval) (subjects : list dict) : list string :=
  sorted_set (omap infrastructure_ip subjects
              ++ _read_manifest_extra_ipv4_list manifest "infrastructure_ipv4" []).

(** ** Is the VPN policy required *)

Definition selective_reaches_vpn (preflight : dict) (selective_default : string) : bool :=
  truthy (get_in "requires_vpn_runtime" (dget "selective_rules" preflight)) || String.eqb selective_default "vpn".

Definition subject_requires_vpn (reaches : bool) (subject : dict) : bool :=
  subject_needs_transparent_policy (Some (type_text subject))
  && (let path := norm_lower_val (dget "dataplane_path" subject) in
      String.eqb path "vpn" || (String.eqb path "selective" && reaches)).

Definition vpn_policy_required (summary preflight : dict) (mode selective_default : string)
    (active_subjects : list dict) : bool :=
  let reaches := selective_reaches_vpn preflight selective_default in
  truthy (dget "requires_vpn_policy_routing" summary)
  || truthy (dget "vpn_policy_required" preflight)
  || String.eqb mode "vpn" || (String.eqb mode "selective" && reaches)
  || existsb (subject_requires_vpn reaches) active_subjects.

(** ** Matchers *)

Definition _resolved_subject_path (subject : dict) : string :=
  let explicit_path := norm_lower_val (dget "dataplane_path" subject) in
  if negb (String.eqb explicit_path "") then explicit_path
  else
    match dget "effective_state" subject with
    | VDict effective_state =>
        let effective_path := norm_lower_val (dget "dataplane_path" effective_state) in
        let effective_mode := norm_lower_val (dget "effective_mode" effective_state) in
        if negb (String.eqb effective_path "") then effective_path
        else if bool_decide (effective_mode ∈ ["direct"; "vpn"; "selective"]) then effective_mode else ""
    | _ => ""
    end.

(** [expected_version]; [None] is 0. *)
Definition expected_version (family expr : pyval) : option ipver :=
  if eq_str family "ipv4" && eq_str expr "ip saddr" then Some V4
  else if eq_str family "ipv6" && eq_str expr "ip6 saddr" then Some V6
  else None.

Definition invalid_values : render_error := DockerPolicyConflictError "invalid scoped source matcher values".
Definition inconsistent_values : render_error := DockerPolicyConflictError "inconsistent scoped source matcher values".

(** [values] as strings: a list of 1 to 64 of them. *)
Definition value_strings (values : pyval) : option (list string) :=
  match values with
  | VList l =>
      if (length l =? 0)%nat || (MAX_DOCKER_IPV4_SOURCE_ADDRESSES <? length l)%nat then None else py_map as_str l
  | _ => None
  end.

Definition values_consistent (version : ipver) (strs : list string) (parsed : list addr) (val : pyval)
    (primary : option addr) : bool :=
  match primary with
  | None => false
  | Some p =>
      bool_decide (a_ver p = version)
      && forallb (fun a => bool_decide (a_ver a = version)) parsed
      && forallb (fun value => match ip_address value with Some a => String.eqb (str_addr a) value | None => false end) strs
      && eq_str val (str_addr p) && bool_decide (p ∈ parsed)
  end.

Definition inventory_value (expr val family values : pyval) : result string :=
  match value_strings values with
  | None => Raise invalid_values
  | Some strs =>
      match py_map ip_address strs, parse_if_str val with
      | Some parsed, Some primary =>
          match expected_version family expr with
          | Some version =>
              if values_consistent version strs parsed val primary then
                match sorted_set (map str_addr parsed) with
                | [one] => Ok one
                | normalized => Ok (braced normalized)
                end
              else Raise inconsistent_values
          | None => Raise inconsistent_values
          end
      | _, _ => Raise invalid_values
      end
  end.

Record matcher3 := Matcher3 { m_expr : string; m_val : string; m_family : string }.

Definition _scoped_matcher (subject : dict) (include_inventory : bool) : result (option matcher3) :=
  match dget "scoped_runtime" subject with
  | VDict scoped =>
      let matcher := match dget "matcher" scoped with VDict m => m | _ => scoped end in
      let expr := dget "nft_expr" matcher in
      let val := dget "value" matcher in
      let family := dget "family" matcher in
      if negb (truthy expr) || negb (truthy val) then Ok None
      else
        let values := if include_inventory then dget "values" matcher else VNone in
        text ← match values with VNone => Ok (py_str val) | _ => inventory_value expr val family values end;
        Ok (Some (Matcher3 (py_str expr) text (text_of family)))
  | _ => Ok None
  end.

(** The matcher, unless its expression or value is empty. *)
Definition usable_matcher (subject : dict) (include_inventory : bool) : result (option matcher3) :=
  m ← _scoped_matcher subject include_inventory;
  Ok (match m with
      | Some m => if String.eqb (m_expr m) "" || String.eqb (m_val m) "" then None else Some m
      | None => None
      end).

(** ** Traffic counters *)

Record counters := Counters {
  counter_declarations : list string;
  direct_counter_rules : list rule;
  vpn_counter_rules : list rule;
  direct_rx_counter_rules : list rule;
  vpn_rx_counter_rules : list rule;
}.

Definition rx_expr_of (expr : string) : option string :=
  if String.eqb expr "ip saddr" then Some "ip daddr"
  else if String.eqb expr "ip6 saddr" then Some "ip6 daddr"
  else None.

Definition counter_name (slug suffix : string) : string := "cnt_" +:+ slug +:+ suffix.

Definition vpn_rx_rules (c : contour) (slug rx_expr val : string) : list rule :=
  let counted := [SAddr rx_expr val; SCounterName (counter_name slug "_vpn_rx")] in
  let ports proto fields (ports : option string) :=
    match ports with
    | Some p => [[SMark true (proxy_bypass_mark_hex c); SL4 proto; SPort fields p] ++ counted]
    | None => []
    end in
  [[SMark false (proxy_bypass_mark_hex c)] ++ counted]
  ++ ports "tcp" "tcp sport" (_nft_port_match_value [vpn_redir_port c; full_vpn_redir_port c])
  ++ ports "udp" "udp sport" (_nft_port_match_value [vpn_tproxy_port c; full_vpn_tproxy_port c]).

Definition subject_counters (c : contour) (subject : dict) : result counters :=
  slug ← of_py (_safe_set_suffix (dget "subject_id" subject));
  matcher ← usable_matcher subject false;
  let name := counter_name slug in
  let declarations := [name "_direct_tx"; name "_direct_rx"; name "_vpn_tx"; name "_vpn_rx"] in
  Ok (match matcher with
      | None => Counters declarations [] [] [] []
      | Some (Matcher3 expr val _) =>
          Counters declarations
            [[SAddr expr val; SCounterName (name "_direct_tx")]]
            [[SAddr expr val; SCounterName (name "_vpn_tx")]]
            (match rx_expr_of expr with
             | Some rx_expr => [[SAddr rx_expr val; SCounterName (name "_direct_rx")]]
             | None => []
             end)
            (match rx_expr_of expr with Some rx_expr => vpn_rx_rules c slug rx_expr val | None => [] end)
      end).

(** ** Steering *)

Definition to_chain (prefix : list stmt) (chain_name comment : string) : rule :=
  prefix ++ [SGoto chain_name; SComment comment].

Definition selective_steering (ready : bool) (prefix : list stmt) (family sid : string) : list rule :=
  if String.eqb family "ipv4" then
    [to_chain (prefix ++ [SAddrSet "ip daddr" "direct_ipv4"]) "fwrouter_direct" ("scoped selective direct IPv4: " +:+ sid);
     to_chain (prefix ++ [SAddrSet "ip daddr" "dns_direct_ipv4"]) "fwrouter_direct"
       ("scoped selective dns direct IPv4: " +:+ sid);
     vpn_set_rule ready prefix "ip daddr" "vpn_ipv4" ("scoped selective vpn IPv4: " +:+ sid)
       ("scoped selective degraded block VPN IPv4: " +:+ sid);
     vpn_set_rule ready prefix "ip daddr" "dns_vpn_ipv4" ("scoped selective dns vpn IPv4: " +:+ sid)
       ("scoped selective degraded block DNS VPN IPv4: " +:+ sid)]
  else if String.eqb family "ipv6" then
    [to_chain (prefix ++ [SAddrSet "ip6 daddr" "direct_ipv6"]) "fwrouter_direct" ("scoped selective direct IPv6: " +:+ sid);
     vpn_set_rule ready prefix "ip6 daddr" "vpn_ipv6" ("scoped selective vpn IPv6: " +:+ sid)
       ("scoped selective degraded block VPN IPv6: " +:+ sid)]
  else [].

Definition selective_default_rule (ready degraded : bool) (prefix : list stmt) (selective_default sid : string) : rule :=
  if String.eqb selective_default "vpn" && negb ready then
    prefix ++ [SDrop; SComment ("scoped selective degraded default vpn blocked: " +:+ sid)]
  else
    to_chain prefix (if String.eqb selective_default "vpn" then "fwrouter_vpn" else "fwrouter_direct")
      (if String.eqb selective_default "direct" && degraded
       then "scoped selective degraded default direct: " +:+ sid
       else "scoped selective default " +:+ selective_default +:+ ": " +:+ sid).

Definition blocked_rule (prefix : list stmt) (family sid : string) : rule :=
  prefix ++ [if String.eqb family "ipv6" then SReject " with icmpv6 type admin-prohibited"
             else if String.eqb family "ipv4" then SReject " with icmpx type admin-prohibited"
             else SDrop;
             SComment ("scoped disabled block: " +:+ sid)].

(** What the rules of a subject depend on beside it. *)
Record steering_state := SteeringState {
  selective_default : string;
  selective_vpn_policy_ready : bool;
  selective_degraded : bool;
}.

(** The scoped steering rules, and the output steering rules, of a subject with its path and matcher. *)
Definition steering_rules (st : steering_state) (subject : dict) (path : string) (m : matcher3) : list rule * list rule :=
  let prefix := [SAddr (m_expr m) (m_val m)] in
  let sid := sid_text subject in
  if String.eqb path "selective" then
    (selective_steering (selective_vpn_policy_ready st) prefix (m_family m) sid
     ++ [selective_default_rule (selective_vpn_policy_ready st) (selective_degraded st) prefix (selective_default st) sid],
     [])
  else if String.eqb path "blocked" then ([blocked_rule prefix (m_family m) sid], [])
  else if String.eqb path "vpn" || String.eqb path "direct" then
    let target := if String.eqb path "vpn" then "fwrouter_vpn_full" else "fwrouter_direct" in
    ([to_chain prefix target ("scoped " +:+ path +:+ " override: " +:+ sid)],
     if (String.eqb (type_text subject) "host" || String.eqb (type_text subject) "docker") && String.eqb path "vpn"
     then [to_chain prefix target ("system scoped " +:+ path +:+ " output override: " +:+ sid)]
     else [])
  else ([], []).

Definition subject_steering (st : steering_state) (subject : dict) : result (list rule * list rule) :=
  matcher ← usable_matcher subject true;
  Ok (match matcher with
      | Some m => steering_rules st subject (_resolved_subject_path subject) m
      | None => ([], [])
      end).

(** ** Chains of the renderer *)

(** The listener of a port: open to the host and the trusted clients. *)
Definition listener_guard (protos : string) (port : pyval) (noun trusted_ipv4 trusted_ipv6 : string) : list rule :=
  let at_port := [SL4 protos; SPort "th dport" (py_str port)] in
  if is_port port then
    [[SIifname false "lo"] ++ at_port ++ [SAccept; SComment ("allow local fwrouter " +:+ noun +:+ " access")];
     [SAddr "ip saddr" trusted_ipv4] ++ at_port
       ++ [SAccept; SComment ("allow trusted IPv4 fwrouter " +:+ noun +:+ " access")];
     [SAddr "ip6 saddr" trusted_ipv6] ++ at_port
       ++ [SAccept; SComment ("allow trusted IPv6 fwrouter " +:+ noun +:+ " access")];
     at_port ++ [SDrop; SComment ("block public access to fwrouter " +:+ noun)]]
  else [].

Definition input_chain (c : contour) (active_subjects : list dict) : chain :=
  let guard protos port noun := listener_guard protos port noun trusted_client_ipv4_nft_set trusted_client_ipv6_nft_set in
  Chain "input" (Some "type filter hook input priority filter; policy accept;")
    (_build_disabled_input_guard_lines (map VDict active_subjects)
     ++ guard TCP_UDP (vpn_tproxy_port c) "tproxy"
     ++ guard "tcp" (vpn_redir_port c) "redir"
     ++ guard TCP_UDP (full_vpn_tproxy_port c) "full-vpn tproxy"
     ++ guard "tcp" (full_vpn_redir_port c) "full-vpn redir").

Definition forward_chain (active_subjects : list dict) (rx_rules : list rule) : chain :=
  Chain "forward" (Some "type filter hook forward priority filter; policy accept;")
    (_build_disabled_forward_guard_lines (map VDict active_subjects) ++ rx_rules
     ++ [[SCounter; SComment "fwrouter_v2 forward global v1"]]).

Definition postrouting_chain : chain :=
  Chain "postrouting" (Some "type filter hook postrouting priority filter; policy accept;")
    [[SText "tcp flags syn tcp option maxseg size set rt mtu"; SComment "TCP MSS Clamping for VPN reliability"];
     [SCounter; SComment "fwrouter_v2 postrouting global v1"]].

(** The chains in the order of the table. *)
Definition managed_chains (c : contour) (st : steering_state) (mode : string) (policy_required : bool)
    (lan_ingress_interfaces : list string) (active_subjects : list dict) (counted : list counters)
    (steering : list (list rule * list rule)) : list chain :=
  let vpn_counters := flat_map vpn_counter_rules counted in
  let udp_full := full_vpn_udp_fwmark_hex c in
  let tcp_full := full_vpn_tcp_redirect_mark_hex c in
  [_build_prerouting_entry_chain_lines (proxy_bypass_mark_hex c) (vpn_fwmark_hex c) udp_full
     (vpn_tproxy_port c) (full_vpn_tproxy_port c) mode vpn_counters policy_required
     lan_ingress_interfaces trusted_client_ipv4_nft_set;
   _build_prerouting_nat_chain_lines (vpn_fwmark_hex c) (vpn_redir_port c) (Some tcp_full)
     (full_vpn_redir_port c) policy_required;
   input_chain c active_subjects;
   _build_output_entry_chain_lines (flat_map vpn_rx_counter_rules counted) (proxy_bypass_mark_hex c)
     (_build_disabled_output_guard_lines (map VDict active_subjects)) (flat_map snd steering) mode;
   _build_output_nat_chain_lines (vpn_fwmark_hex c) (vpn_redir_port c) (Some tcp_full)
     (full_vpn_redir_port c) (proxy_bypass_mark_hex c) policy_required;
   forward_chain active_subjects (flat_map direct_rx_counter_rules counted);
   postrouting_chain;
   _build_classify_chain_lines mode (selective_default st) (selective_vpn_policy_ready st) (selective_degraded st)
     (flat_map fst steering);
   _build_terminal_direct_chain_lines (flat_map direct_counter_rules counted);
   _build_vpn_mark_chain_lines (vpn_tproxy_port c) (vpn_fwmark_hex c);
   _build_terminal_vpn_chain_lines "fwrouter_vpn" (vpn_tproxy_port c) (vpn_redir_port c)
     (proxy_bypass_mark_hex c) (vpn_fwmark_hex c) None None vpn_counters policy_required;
   _build_terminal_vpn_chain_lines "fwrouter_vpn_full" (full_vpn_tproxy_port c) (full_vpn_redir_port c)
     (proxy_bypass_mark_hex c) (vpn_fwmark_hex c) (Some udp_full) (Some tcp_full) vpn_counters policy_required].

(** ** The sets of the table *)

Definition scoped_set_decl (s : scoped_set) : py set_decl :=
  values ← py_map as_str (ss_values s); Some (IntervalSet (ss_set_name s) (ss_nft_type s) values).

Definition table_sets (nft_sets : nft_rule_sets) (infrastructure secure_dns_bypass_ipv4 : list string)
    (scoped : list set_decl) : list set_decl :=
  [IntervalSet "protected_ipv4" "ipv4_addr" (set_protected_ipv4 nft_sets);
   IntervalSet "protected_ipv6" "ipv6_addr" (set_protected_ipv6 nft_sets);
   IntervalSet "infrastructure_ipv4" "ipv4_addr" infrastructure;
   IntervalSet "secure_dns_bypass_ipv4" "ipv4_addr" secure_dns_bypass_ipv4;
   IntervalSet "direct_ipv4" "ipv4_addr" (set_direct_ipv4 nft_sets);
   RuntimeSet "dns_direct_ipv4" "ipv4_addr";
   IntervalSet "direct_ipv6" "ipv6_addr" (set_direct_ipv6 nft_sets);
   IntervalSet "vpn_ipv4" "ipv4_addr" (set_vpn_ipv4 nft_sets);
   RuntimeSet "dns_vpn_ipv4" "ipv4_addr";
   IntervalSet "vpn_ipv6" "ipv6_addr" (set_vpn_ipv6 nft_sets)] ++ scoped.

(** ** The renderer *)

(** The conflict that forbids rendering; a manifest that is no dict has none. *)
Definition docker_conflict (manifest : pyval) (subjects : list dict) : py (option conflict) :=
  match manifest with
  | VDict m =>
      global_mode ← attr_get "global_mode" (por (dget "summary" m) (VDict []));
      Some (docker_vpn_immunity_conflict (map VDict subjects)
              (map VStr (_read_manifest_extra_ipv4_list manifest "infrastructure_ipv4" []))
              (Some (py_str (por global_mode (VStr "direct")))))
  | _ => Some None
  end.

(** [manifest.get(key) if isinstance(manifest, dict) else {}], which the code then reads with [get]. *)
Definition manifest_section (key : string) (manifest : pyval) : py dict :=
  match manifest with VDict m => as_dict (dget key m) | _ => Some [] end.

(** The subjects that are dicts. *)
Definition manifest_subjects (manifest : pyval) : py (list dict) :=
  match manifest with
  | VDict m => l ← iter_val (por (dget "subjects" m) (VList [])); Some (omap (M:=list) as_dict l)
  | _ => Some []
  end.

Definition mode_of (summary : dict) : string := py_str (por (dget "global_mode" summary) (VStr "direct")).
Definition selective_default_of (summary : dict) : string :=
  py_lower (py_str (por (dget "selective_default" summary) (VStr "direct"))).

Definition read_steering (summary preflight : dict) : steering_state :=
  SteeringState (selective_default_of summary) (truthy (dget "selective_vpn_policy_ready" preflight))
    (truthy (dget "selective_degraded" preflight)).

(** The table of a manifest that is not in bypass, from its parts. *)
Definition managed_table (manifest : pyval) (summary preflight : dict) (subjects : list dict)
    (nft_sets : nft_rule_sets) (scoped_vpn_sets : list scoped_set) : result candidate :=
  let c := read_contour (VDict preflight) in
  let st := read_steering summary preflight in
  let active_subjects := List.filter is_active subjects in
  let mode := mode_of summary in
  let policy_required := vpn_policy_required summary preflight mode (selective_default st) active_subjects in
  counted ← collect (subject_counters c)
              (List.filter (fun s => subject_needs_transparent_policy (Some (type_text s))) active_subjects);
  steering ← collect (subject_steering st) active_subjects;
  scoped ← of_py (py_map scoped_set_decl scoped_vpn_sets);
  Ok (Managed (flat_map counter_declarations counted)
        (table_sets nft_sets (infrastructure_ips manifest subjects)
           (_read_manifest_extra_ipv4_list manifest "secure_dns_bypass_ipv4" STATIC_SECURE_DNS_BYPASS_IPV4) scoped)
        (managed_chains c st mode policy_required (_resolve_lan_ingress_interfaces manifest)
           active_subjects counted steering)).

Definition owned_table (manifest rules_effective_loader : pyval) : result candidate :=
  bypass ← of_py (core_bypass_enabled manifest);
  match bypass with
  | true => Ok bypass_table
  | false =>
      subjects ← of_py (manifest_subjects manifest);
      found ← of_py (docker_conflict manifest subjects);
      match found with
      | Some (subject_id, reason) => Raise (DockerPolicyConflictError (subject_id +:+ ": " +:+ reason +:+ "."))
      | None =>
          summary ← of_py (manifest_section "summary" manifest);
          nft_sets ← of_py (build_nft_rule_sets (as_dict (_resolve_rules_effective_artifact manifest rules_effective_loader)));
          preflight ← of_py (manifest_section "global_preflight" manifest);
          scoped_vpn_sets ← of_py (_build_scoped_vpn_sets manifest);
          managed_table manifest summary preflight subjects nft_sets scoped_vpn_sets
      end
  end.

Definition render_owned_table_candidate (manifest rules_effective_loader : pyval) : result string :=
  table ← owned_table manifest rules_effective_loader;
  Ok (py_join newline (candidate_lines table)).
End Render.
