(* ===== verification/NftText.v ===== *)
(** * The text of the table read back

    Decimal and hexadecimal numbers, element lists and port lists are read
    back from what the renderer prints: no element of a set is lost however
    the list is split, no port is misprinted, the four marks differ. *)
From stdpp Require Import base list strings pretty gmap sorting.
From Stdlib Require Import ZArith Lia Ascii.
From S2P Require Import Prelude PyStr IpAddr IpAddrFacts PyVal Nft NftSets NftChains NftGuards.

Open Scope string_scope.
Open Scope Z_scope.
Open Scope list_scope.

(** ** Decimal numbers *)

Lemma digit_of_nat (x : N) : (x < 10)%N ->
  is_digit (pretty_N_char x) = true /\ digit_val (pretty_N_char x) = Z.of_N x.
Proof. intros Hx. assert (x = 0 \/ x = 1 \/ x = 2 \/ x = 3 \/ x = 4 \/ x = 5 \/ x = 6 \/ x = 7 \/ x = 8 \/ x = 9)%N as Hc by lia.
  repeat (destruct Hc as [->|Hc]; [by split|]). by subst. Qed.

Lemma pretty_N_go_digits (x : N) s : all_chars is_digit s = true -> all_chars is_digit (pretty_N_go x s) = true.
Proof.
  revert s. induction (N.lt_wf_0 x) as [x _ IH]. intros s Hs. destruct (decide (x = 0%N)) as [->|Hx]; [done|].
  rewrite pretty_N_go_step by lia. apply IH; [apply N.div_lt; lia|]. cbn [all_chars].
  by rewrite (proj1 (digit_of_nat _ (N.mod_lt x 10 ltac:(lia)))), Hs.
Qed.

Lemma pretty_N_go_value (x : N) s : dec_acc 0 (pretty_N_go x s) = dec_acc (Z.of_N x) s.
Proof.
  revert s. induction (N.lt_wf_0 x) as [x _ IH]. intros s. destruct (decide (x = 0%N)) as [->|Hx]; [done|].
  rewrite pretty_N_go_step by lia. rewrite IH by (apply N.div_lt; lia). cbn [dec_acc].
  rewrite (proj2 (digit_of_nat _ (N.mod_lt x 10 ltac:(lia)))). f_equal.
  rewrite N2Z.inj_div, N2Z.inj_mod. symmetry. apply Z.div_mod. lia.
Qed.

Lemma pretty_N_go_length k : forall (x : N) s, (x < 10 ^ N.of_nat k)%N ->
  (String.length (pretty_N_go x s) <= k + String.length s)%nat.
Proof.
  induction k as [|k IH]; intros x s Hx.
  - assert (x = 0%N) as -> by (cbn in Hx; lia). done.
  - destruct (decide (x = 0%N)) as [->|Hne]; [change (pretty_N_go 0 s) with s; lia|]. rewrite pretty_N_go_step by lia.
    assert (Hd : (x / 10 < 10 ^ N.of_nat k)%N).
    { rewrite Nat2N.inj_succ, N.pow_succ_r' in Hx. apply N.Div0.div_lt_upper_bound. exact Hx. }
    specialize (IH (x / 10)%N (String (pretty_N_char (x mod 10)) s) Hd). cbn [String.length] in IH. lia.
Qed.

Lemma py_str_int_nonneg n : 0 <= n -> py_str_int n = if decide (n = 0) then "0" else pretty_N_go (Z.to_N n) "".
Proof. intros Hn. unfold py_str_int. destruct n as [|p|p]; [done|done|lia]. Qed.

(** A number below [10 ^ 20] is read back. *)
Lemma int_digits_str n : 0 <= n < 10 ^ 20 ->
  py_int_digits (py_str_int n) = Some n /\ all_chars is_digit (py_str_int n) = true /\ py_str_int n <> "".
Proof.
  intros Hn. rewrite py_str_int_nonneg by lia. destruct (decide (n = 0)) as [->|Hne]; [by vm_compute|].
  set (s := pretty_N_go (Z.to_N n) "").
  assert (Hd : all_chars is_digit s = true) by by apply pretty_N_go_digits.
  assert (Hv : dec_acc 0 s = n) by (unfold s; rewrite pretty_N_go_value; cbn; lia).
  assert (Hs : s <> "") by (intros E; rewrite E in Hv; cbn in Hv; lia).
  assert (Hl : (String.length s <= 20)%nat).
  { etransitivity; [apply (pretty_N_go_length 20); lia|cbn; lia]. }
  split; [|done]. unfold py_int_digits, py_isdigit. rewrite Hd.
  destruct (String.eqb_spec s ""); [done|]. cbn [negb andb].
  rewrite (proj2 (Nat.leb_le _ _)) by lia. by rewrite Hv.
Qed.

(** ** Hexadecimal numbers *)

Lemma hex_digit_val n : 0 <= n < 16 -> hex_val (hex_digit n) = Some n.
Proof.
  assert (Hall : forallb (fun d => bool_decide (hex_val (hex_digit d) = Some d)) (seqZ 0 16) = true) by reflexivity.
  rewrite forallb_forall in Hall. intros Hn.
  apply (bool_decide_unpack _), Is_true_true, Hall, list_elem_of_In, elem_of_seqZ. lia.
Qed.

Lemma hex_acc_app s t : forall a, hex_acc a (s +:+ t) = v ← hex_acc a s; hex_acc v t.
Proof.
  induction s as [|c s IH]; intros a; [done|]. rewrite string_app_cons. cbn [hex_acc].
  destruct (hex_val c); [apply IH|done].
Qed.

Lemma hex_digits_value fuel : forall n a, 0 <= n < 16 ^ Z.of_nat fuel -> exists k,
  hex_acc a (hex_digits fuel n) = Some (a * 16 ^ k + n) /\ 0 <= k.
Proof.
  induction fuel as [|fuel IH]; intros n a Hn.
  - exists 0. cbn in *. split; [f_equal; lia|done].
  - cbn [hex_digits]. rewrite Nat2Z.inj_succ, Z.pow_succ_r in Hn by lia.
    destruct (Z.ltb_spec n 16).
    + exists 1. cbn [hex_acc]. rewrite hex_digit_val by lia. split; [f_equal; lia|done].
    + destruct (IH (n / 16) a) as (k & E & Hk);
        [split; [apply Z.div_pos; lia|apply Z.div_lt_upper_bound; lia]|]. exists (k + 1).
      rewrite hex_acc_app, E. cbn [mbind option_bind hex_acc]. rewrite hex_digit_val by (apply Z.mod_pos_bound; lia).
      split; [|lia]. f_equal. rewrite Z.pow_add_r by lia. pose proof (Z.div_mod n 16). lia.
Qed.

Lemma hex_text_value n : 0 <= n -> hex_acc 0 (hex_text n) = Some n.
Proof.
  intros Hn. unfold hex_text. set (fuel := S (Z.to_nat (Z.log2 n))).
  destruct (hex_digits_value fuel n 0) as (k & E & _).
  - split; [done|]. destruct (decide (n = 0)) as [->|]; [apply Z.pow_pos_nonneg; lia|].
    assert (n < 2 ^ Z.succ (Z.log2 n)) by (apply Z.log2_spec; lia).
    assert (2 ^ Z.succ (Z.log2 n) <= 16 ^ Z.of_nat fuel); [|lia].
    replace (Z.of_nat fuel) with (Z.succ (Z.log2 n)) by (unfold fuel; pose proof (Z.log2_nonneg n); lia).
    apply Z.pow_le_mono_l. lia.
  - rewrite E. f_equal; lia.
Qed.

Lemma hex_acc_zeros k s : hex_acc 0 (zeros k +:+ s) = hex_acc 0 s.
Proof. induction k as [|k IH]; [done|]. exact IH. Qed.

Lemma hex_digits_nonempty fuel n : hex_digits (S fuel) n <> "".
Proof.
  cbn [hex_digits]. destruct (n <? 16); [done|]. by destruct (hex_digits fuel (n / 16)).
Qed.

Lemma app_nonempty_r s t : t <> "" -> s +:+ t <> "".
Proof. by destruct s. Qed.

(** The mark a derived text stands for. *)
Lemma mark_of_derived h offset :
  0 <= default 256 (py_int_hex h) + offset ->
  mark_of (_derive_mark_hex h offset) = Some (default 256 (py_int_hex h) + offset).
Proof.
  intros Hn. unfold _derive_mark_hex, format_08x. set (n := default 256 (py_int_hex h) + offset) in *.
  rewrite (proj2 (Z.ltb_ge n 0)) by done. unfold zero_pad. set (t := zeros _ +:+ hex_text n).
  assert (Ht : t <> "") by (apply app_nonempty_r, hex_digits_nonempty).
  assert (E : hex_acc 0 t = Some n) by (unfold t; by rewrite hex_acc_zeros, hex_text_value).
  clearbody t. by destruct t.
Qed.

(** ** Element lists *)

(** A text an element list can hold. *)
Definition plain_char (c : ascii) : bool :=
  negb (is_space c || Ascii.eqb c "{"%char || Ascii.eqb c "}"%char || Ascii.eqb c ","%char).
Definition plain (s : string) : Prop := s <> "" /\ all_chars plain_char s = true.

Lemma drop_braces_app s t : drop_braces (s +:+ t) = drop_braces s +:+ drop_braces t.
Proof.
  induction s as [|c s IH]; [done|]. rewrite string_app_cons. cbn [drop_braces].
  destruct (_ || _); [done|]. by rewrite string_app_cons, IH.
Qed.

Lemma drop_braces_none s : all_chars (fun c => negb (Ascii.eqb c "{"%char || Ascii.eqb c "}"%char)) s = true -> drop_braces s = s.
Proof.
  induction s as [|c s IH]; [done|]. cbn [all_chars drop_braces]. rewrite andb_true_iff, negb_true_iff.
  intros [-> Hs]. by rewrite IH.
Qed.

Lemma rstrip_space_end s : rstrip_by is_space (s +:+ " ") = rstrip_by is_space s.
Proof. induction s as [|c s IH]; [done|]. rewrite string_app_cons. cbn [rstrip_by]. by rewrite IH. Qed.

Lemma plain_no_space s : plain s -> no_space s = true.
Proof.
  intros [_ H]. eapply all_chars_impl; [|exact H]. unfold plain_char. intros c. rewrite !negb_true_iff.
  by intros [[[? ?]%orb_false_iff ?]%orb_false_iff ?]%orb_false_iff.
Qed.

Lemma plain_strip s : plain s -> py_strip (" " +:+ s) = s /\ py_strip (" " +:+ s +:+ " ") = s.
Proof.
  intros Hs. pose proof (plain_no_space s Hs) as Hn. destruct s as [|c s]; [by destruct Hs|].
  pose proof Hn as Hn'. unfold no_space in Hn'. cbn [all_chars] in Hn'. apply andb_prop in Hn' as [Hc _].
  apply negb_true_iff in Hc. unfold py_strip. split.
  - change (lstrip_by is_space (" " +:+ String c s)) with (lstrip_by is_space (String c s)).
    cbn [lstrip_by]. rewrite Hc. by apply rstrip_id.
  - change (lstrip_by is_space (" " +:+ String c s +:+ " ")) with (lstrip_by is_space (String c s +:+ " ")).
    rewrite string_app_cons. cbn [lstrip_by]. rewrite Hc, <- string_app_cons, rstrip_space_end. by apply rstrip_id.
Qed.

Lemma plain_no_comma s : plain s -> has_char ","%char s = false.
Proof. intros [_ H]. by eapply all_chars_has_char. Qed.

Lemma split_padded l : l <> [] -> Forall plain l ->
  map py_strip (py_split ","%char (" " +:+ py_join ", " l +:+ " ")) = l.
Proof.
  intros Hne Hall. induction Hall as [|x l Hx Hl IH]; [done|]. destruct l as [|y l].
  - change (py_join ", " [x]) with x. rewrite py_split_no_sep.
    + cbn [map]. f_equal. apply (plain_strip x Hx).
    + rewrite !has_char_app, (plain_no_comma x Hx). reflexivity.
  - rewrite py_join_cons.
    replace (" " +:+ (x +:+ ", " +:+ py_join ", " (y :: l)) +:+ " ")
      with ((" " +:+ x) +:+ String ","%char (" " +:+ py_join ", " (y :: l) +:+ " ")).
    + rewrite py_split_app_sep by (rewrite has_char_app, (plain_no_comma x Hx); reflexivity).
      cbn [map]. rewrite (proj1 (plain_strip x Hx)). f_equal. by apply IH.
    + rewrite !string_app_assoc. reflexivity.
Qed.

(** The items of a braced list are its elements. *)
Lemma items_of_braced l : l <> [] -> Forall plain l -> items_of (braced l) = l.
Proof.
  intros Hne Hall. unfold items_of, braced.
  replace (py_startswith ("{ " +:+ py_join ", " l +:+ " }") "{") with true by (by destruct (py_join _ _)).
  rewrite !drop_braces_app. change (drop_braces "{ ") with " ". change (drop_braces " }") with " ".
  rewrite (drop_braces_none (py_join ", " l)); [by apply split_padded|].
  apply all_chars_join; [done|]. eapply Forall_impl; [exact Hall|]. intros x [_ Hx]. eapply all_chars_impl; [|exact Hx].
  intros c. unfold plain_char. destruct (is_space c), (Ascii.eqb c "{"%char), (Ascii.eqb c "}"%char), (Ascii.eqb c ","%char); done.
Qed.

Lemma plain_single s : plain s -> items_of s = [s].
Proof.
  intros [Hne Hs]. unfold items_of. destruct s as [|c s]; [done|]. cbn [all_chars] in Hs. apply andb_prop in Hs as [Hc _].
  replace (py_startswith (String c s) "{") with false; [done|]. unfold py_startswith. cbn [String.prefix].
  unfold plain_char in Hc. destruct (ascii_dec "{"%char c) as [<-|]; [|done]. by cbn in Hc.
Qed.

(** ** Ports *)

Lemma digits_plain s : all_chars is_digit s = true -> s <> "" -> plain s.
Proof.
  intros Hd Hne. split; [done|]. eapply all_chars_impl; [|exact Hd]. intros c. unfold is_digit, plain_char, is_space.
  intros [H1 H2]%andb_prop. apply N.leb_le in H1, H2.
  destruct (Ascii.eqb_spec c "{"%char) as [->|_]; [by vm_compute in H2|].
  destruct (Ascii.eqb_spec c "}"%char) as [->|_]; [by vm_compute in H2|].
  destruct (Ascii.eqb_spec c ","%char) as [->|_]; [by vm_compute in H1|].
  rewrite (proj2 (N.leb_gt (code c) 13)), (proj2 (N.leb_gt (code c) 32)) by lia. by rewrite !andb_false_r.
Qed.

Definition printable (n : Z) : Prop := 0 <= n < 10 ^ 20.

Lemma int_plain n : printable n -> plain (py_str_int n).
Proof. intros (_ & Hd & Hne)%int_digits_str. by apply digits_plain. Qed.

Lemma ints_read ns : Forall printable ns -> omap py_int_digits (map py_str_int ns) = ns.
Proof.
  induction 1 as [|n ns Hn _ IH]; [done|].
  change (omap py_int_digits (map py_str_int (n :: ns)))
    with (match py_int_digits (py_str_int n) with
          | Some y => y :: omap py_int_digits (map py_str_int ns)
          | None => omap py_int_digits (map py_str_int ns) end).
  rewrite (proj1 (int_digits_str n Hn)). by f_equal.
Qed.

Lemma ports_of_int n : printable n -> ports_of (py_str_int n) = [n].
Proof. intros Hn. unfold ports_of. rewrite plain_single by by apply int_plain. by apply (ints_read [n]); constructor. Qed.

Lemma ports_of_braced ns : ns <> [] -> Forall printable ns -> ports_of (braced (map py_str_int ns)) = ns.
Proof.
  intros Hne Hall. unfold ports_of. rewrite items_of_braced; [by apply ints_read|by destruct ns|].
  apply Forall_fmap. eapply Forall_impl; [exact Hall|]. intros n. apply int_plain.
Qed.

Lemma elem_of_sorted_ints n l : n ∈ sorted_ints l <-> n ∈ l.
Proof. unfold sorted_ints. by rewrite elem_of_sort_by, elem_of_remove_dups. Qed.

(** What a port match reads from the printed ports. *)
Lemma ports_of_format l : l <> [] -> Forall printable l -> forall n, n ∈ ports_of (_format_nft_ports l) <-> n ∈ l.
Proof.
  intros Hne Hall n. rewrite <- (elem_of_sorted_ints n l).
  assert (Hs : Forall printable (sorted_ints l)).
  { apply Forall_forall. intros x Hx. rewrite Forall_forall in Hall. by apply Hall, elem_of_sorted_ints. }
  unfold _format_nft_ports. destruct (sorted_ints l) as [|x [|y s]] eqn:E.
  - destruct l as [|x l]; [done|]. assert (Hx : x ∈ sorted_ints (x :: l)) by (rewrite elem_of_sorted_ints; by left).
    rewrite E in Hx. by apply elem_of_nil in Hx.
  - apply Forall_cons in Hs as [Hx _]. by rewrite (ports_of_int x Hx).
  - by rewrite ports_of_braced.
Qed.

(** ** Chunks and sets *)

Lemma chunk_starts_step len n : (0 < n)%nat -> (0 < len)%nat ->
  chunk_starts len n = 0%nat :: map (fun i => n + i)%nat (chunk_starts (len - n) n).
Proof.
  intros Hn Hl. unfold chunk_starts.
  assert (Hq : ((len + n - 1) / n = S ((len - n + n - 1) / n))%nat).
  { destruct (decide (len <= n)%nat).
    - replace (len - n + n - 1)%nat with (n - 1)%nat by lia. rewrite (Nat.div_small (n - 1)) by lia.
      symmetry. apply (Nat.div_unique _ _ 1 (len - 1)); lia.
    - replace (len + n - 1)%nat with (len - n + n - 1 + 1 * n)%nat by lia. rewrite Nat.div_add by lia. lia. }
  rewrite Hq. cbn [seq map]. f_equal. rewrite <- seq_shift, !map_map. apply map_ext. intros i. lia.
Qed.

Lemma chunk_concat n l : (0 < n)%nat -> concat (_chunk_elements l n) = l.
Proof.
  intros Hn. remember (length l) as len eqn:Hlen. revert l Hlen.
  induction (lt_wf len) as [len _ IH]. intros l ->. destruct l as [|x l'].
  { unfold _chunk_elements, chunk_starts. cbn [length]. by rewrite Nat.div_small by lia. }
  set (l := x :: l'). unfold _chunk_elements. rewrite chunk_starts_step by (cbn; lia).
  cbn [map concat]. rewrite drop_0, map_map.
  rewrite <- (take_drop n l) at 3. f_equal.
  assert (Hlt : (length (drop n l) < length l)%nat) by (rewrite length_drop; unfold l; cbn [length]; lia).
  etransitivity; [|exact (IH _ Hlt (drop n l) eq_refl)].
  unfold _chunk_elements. rewrite length_drop. f_equal. apply map_ext. intros i. by rewrite drop_drop.
Qed.

Lemma chunk_bound n l chunk : chunk ∈ _chunk_elements l n -> (length chunk <= n)%nat /\ (forall x, x ∈ chunk -> x ∈ l).
Proof.
  intros (i & -> & _)%list_elem_of_fmap. split; [rewrite length_take; lia|].
  intros x (j & Hj & _)%elem_of_take. rewrite lookup_drop in Hj. by eapply list_elem_of_lookup_2.
Qed.

(** The rest of a text after a prefix. *)
Fixpoint after_prefix (p s : string) : option string :=
  match p, s with
  | "", _ => Some s
  | String c p', String d s' => if Ascii.eqb c d then after_prefix p' s' else None
  | _, _ => None
  end.

Lemma after_prefix_app p s : after_prefix p (p +:+ s) = Some s.
Proof. induction p as [|c p IH]; [done|]. rewrite string_app_cons. cbn [after_prefix]. by rewrite Ascii.eqb_refl. Qed.

Definition items_after (prefix line : string) : list string :=
  match after_prefix prefix line with Some t => items_of t | None => [] end.

(** The elements a declaration lists, and those the commands add. *)
Definition declared_elements (lines : list string) : list string := flat_map (items_after "        elements = ") lines.
Definition added_elements (name : string) (commands : list string) : list string :=
  flat_map (items_after ("add element " +:+ OWNED_TABLE +:+ " " +:+ name +:+ " ")) commands.

Lemma added_chunk name chunk : chunk <> [] -> Forall plain chunk ->
  items_after ("add element " +:+ OWNED_TABLE +:+ " " +:+ name +:+ " ") (add_element_command name chunk) = chunk.
Proof.
  intros Hne Hp. unfold items_after, add_element_command.
  replace ("add element " +:+ OWNED_TABLE +:+ " " +:+ name +:+ " " +:+ braced chunk)
    with (("add element " +:+ OWNED_TABLE +:+ " " +:+ name +:+ " ") +:+ braced chunk)
    by by rewrite !string_app_assoc.
  rewrite after_prefix_app. by apply items_of_braced.
Qed.

Lemma items_after_empty prefix : items_after prefix "" = [] \/ prefix = "".
Proof. destruct prefix; auto. Qed.

Lemma added_chunks name chunks : Forall (fun c => c <> [] /\ Forall plain c) chunks ->
  added_elements name (map (add_element_command name) chunks) = concat chunks.
Proof.
  unfold added_elements. induction 1 as [|c cs [Hne Hp] _ IH]; [done|].
  cbn [map flat_map concat]. by rewrite added_chunk, IH.
Qed.

Lemma chunks_nonempty n l : (0 < n)%nat -> Forall (fun c => c <> []) (_chunk_elements l n).
Proof.
  intros Hn. apply Forall_forall. unfold _chunk_elements, chunk_starts. rewrite map_map.
  intros c (i & -> & Hi%elem_of_seq)%list_elem_of_fmap. intros E.
  apply (f_equal length) in E. rewrite length_take, length_drop in E. cbn [length] in E.
  assert (i * n < length l)%nat; [|lia].
  assert (Hd : (n * ((length l + n - 1) / n) <= length l + n - 1)%nat) by (apply Nat.Div0.mul_div_le).
  nia.
Qed.

(** Whatever the number of elements of a set, the declaration and the
    add commands together list exactly them, in order; a list longer than
    256 is declared empty, flushed, and added in commands of at most 512. *)
Theorem render_set_roundtrip name nft_type elements :
  Forall plain elements ->
  let '(lines, commands) := _render_set name nft_type elements in
  declared_elements lines ++ added_elements name commands = elements /\
  ((length elements <= 256)%nat -> commands = []) /\
  ((256 < length elements)%nat -> declared_elements lines = [] /\
     exists chunks, commands = ("flush set " +:+ OWNED_TABLE +:+ " " +:+ name) :: map (add_element_command name) chunks
       /\ Forall (fun c => length c <= 512)%nat chunks).
Proof.
  intros Hp. unfold _render_set. destruct elements as [|e es]; [by split; [|split; [|cbn; lia]]|].
  set (l := e :: es) in *. change (length l =? 0)%nat with false. cbv iota.
  destruct (Nat.leb_spec (length l) 256).
  - split; [|split; [done|lia]].
    change (declared_elements _) with (items_of (braced l) ++ []). rewrite items_of_braced by done.
    by rewrite !app_nil_r.
  - assert (Hc : Forall (fun c => c <> [] /\ Forall plain c) (_chunk_elements l 512)).
    { pose proof (chunks_nonempty 512 l ltac:(lia)) as Hne. rewrite Forall_forall in Hne |- *. intros c Hin.
      split; [auto|]. apply Forall_forall. intros x Hx. apply chunk_bound in Hin as [_ Hin].
      rewrite Forall_forall in Hp. auto. }
    split; [|split; [lia|]].
    + change (declared_elements _) with (@nil string). cbn [app].
      change (added_elements name (_ :: ?cs)) with (added_elements name cs).
      rewrite added_chunks by done. apply chunk_concat. lia.
    + intros _. split; [done|]. eexists. split; [done|]. apply Forall_forall. intros c Hin.
      by apply chunk_bound in Hin as [? _].
Qed.

Lemma render_set_roundtrip_witness :
  declared_elements (_render_set "vpn_ipv4" "ipv4_addr" ["8.8.8.0/24"; "9.9.9.9/32"]).1 = ["8.8.8.0/24"; "9.9.9.9/32"].
Proof.
  assert (Hp : Forall plain ["8.8.8.0/24"; "9.9.9.9/32"]) by (repeat constructor; discriminate).
  pose proof (render_set_roundtrip "vpn_ipv4" "ipv4_addr" _ Hp) as (E & _ & _).
  cbn [fst snd] in E |- *. etransitivity; [|exact E]. vm_compute. reflexivity.
Defined.

(** ** Marks *)

Lemma hex_underscore_digits s n : forall a, hex_acc a s = Some n -> hex_underscore true s = Some s.
Proof.
  induction s as [|c s IH]; intros a; [done|]. cbn [hex_acc hex_underscore].
  destruct (hex_val c); [|done]. intros H. by rewrite (IH _ H).
Qed.

Lemma hex_char_no_space c d : hex_val c = Some d -> is_space c = false.
Proof.
  unfold hex_val, is_space, is_digit. intros H. apply orb_false_iff. 
  assert (48 <= code c)%N.
  { destruct ((48 <=? code c)%N && (code c <=? 57)%N) eqn:E; [apply andb_prop in E as [E _]; by apply N.leb_le in E|].
    destruct ((97 <=? Z.of_N (code c)) && _) eqn:E1; [apply andb_prop in E1 as [E1 _]; apply Z.leb_le in E1; lia|].
    destruct ((65 <=? Z.of_N (code c)) && _) eqn:E2; [apply andb_prop in E2 as [E2 _]; apply Z.leb_le in E2; lia|done]. }
  split; apply andb_false_intro2, N.leb_gt; lia.
Qed.

Lemma hex_no_space s n : forall a, hex_acc a s = Some n -> no_space s = true.
Proof.
  unfold no_space. induction s as [|c s IH]; intros a; [done|]. cbn [hex_acc all_chars].
  destruct (hex_val c) as [d|] eqn:E; [|done]. intros H. by rewrite (hex_char_no_space c d E), (IH _ H).
Qed.

(** nft and the code read a text that starts with 0x alike. *)
Lemma py_int_hex_mark h m : py_startswith h "0x" = true -> mark_of h = Some m -> py_int_hex h = Some m.
Proof.
  unfold py_startswith. destruct h as [|c0 [|c1 h]]; try done.
  { cbn [String.prefix]. by destruct (ascii_dec "0" c0). }
  cbn [String.prefix]. destruct (ascii_dec "0" c0) as [<-|]; [|done]. destruct (ascii_dec "x" c1) as [<-|]; [|done].
  intros _ Hm. destruct h as [|c h]; [done|]. cbn [mark_of] in Hm. set (d := String c h) in *.
  assert (Hm' : hex_acc 0 d = Some m) by exact Hm.
  unfold py_int_hex. rewrite py_strip_no_space.
  - cbn [Ascii.eqb Bool.eqb hex_unsigned andb orb]. unfold hex_number.
    rewrite (hex_underscore_digits d m 0 Hm'). exact Hm'.
  - unfold no_space. cbn [all_chars]. change (all_chars _ d) with (no_space d).
    by rewrite (hex_no_space d m 0 Hm').
Qed.

(** For a fwmark written with 0x the marks the code derives are the
    fwmark and the next three, as nft reads them: the marks of the four
    handoffs never coincide. *)
Theorem derived_marks h m : py_startswith h "0x" = true -> mark_of h = Some m -> 0 <= m ->
  forall offset, 0 <= offset -> mark_of (_derive_mark_hex h offset) = Some (m + offset).
Proof.
  intros Hh Hm Hm0 offset Ho. pose proof (py_int_hex_mark h m Hh Hm) as E.
  assert (E' : default 256 (py_int_hex h) = m) by by rewrite E.
  rewrite mark_of_derived; rewrite E'; [done|lia].
Qed.

Lemma derived_marks_witness : map mark_of (map (_derive_mark_hex "0x00000100") [1; 2; 3]) = [Some 257; Some 258; Some 259].
Proof.
  pose proof (derived_marks "0x00000100" 256 eq_refl eq_refl ltac:(lia)) as E.
  cbn [map]. rewrite !E by lia. reflexivity.
Defined.

(** A fwmark without 0x is decimal for nft and hexadecimal for the code. *)
Lemma fwmark_without_prefix : mark_of "100" = Some 100 /\ mark_of (_derive_mark_hex "100" 1) = Some 257.
Proof. by vm_compute. Qed.
