(* ===== verification/NftClosed.v ===== *)
(** * Every table is closed and every packet gets a verdict

    Whatever the manifest, the rules of a rendered table only name chains,
    sets and counters the table declares, and the chains call each other at
    most three deep, so a packet in any chain reaches a verdict or comes
    back. *)
From stdpp Require Import base list strings pretty gmap sorting.
From Stdlib Require Import ZArith Lia Ascii.
From S2P Require Import Prelude PyStr IpAddr PyVal NetworkContract SubjectTaxonomy DockerPolicy ScopedEgress Nft NftSets NftChains NftGuards DataplaneRules NftRender.

Open Scope string_scope.
Open Scope Z_scope.
Open Scope list_scope.

(** ** References *)

(** The names a statement uses are among the given ones. *)
Definition stmt_ok (chains sets counters : list string) (s : stmt) : Prop :=
  match s with
  | SGoto c | SJump c => c ∈ chains
  | SAddrSet _ set => set ∈ sets
  | SCounterName name => name ∈ counters
  | _ => True
  end.

Definition rules_ok (chains sets counters : list string) (rules : list rule) : Prop :=
  Forall (Forall (stmt_ok chains sets counters)) rules.

Lemma stmt_ok_mono c1 c2 s1 s2 n1 n2 s :
  c1 ⊆ c2 -> s1 ⊆ s2 -> n1 ⊆ n2 -> stmt_ok c1 s1 n1 s -> stmt_ok c2 s2 n2 s.
Proof. intros Hc Hs Hn. destruct s; cbn; auto. Qed.

Lemma rules_ok_mono c1 c2 s1 s2 n1 n2 rules :
  rules_ok c1 s1 n1 rules -> c1 ⊆ c2 -> s1 ⊆ s2 -> n1 ⊆ n2 -> rules_ok c2 s2 n2 rules.
Proof.
  intros H Hc Hs Hn. eapply Forall_impl; [exact H|]. intros r Hr. eapply Forall_impl; [exact Hr|].
  intros s. by apply stmt_ok_mono.
Qed.

Lemma rules_ok_app c s n l k : rules_ok c s n l -> rules_ok c s n k -> rules_ok c s n (l ++ k).
Proof. by apply Forall_app_2. Qed.

Lemma rules_ok_flat {A} c s n (f : A -> list rule) l :
  (forall x, x ∈ l -> rules_ok c s n (f x)) -> rules_ok c s n (flat_map f l).
Proof.
  intros Hf. induction l as [|x l IH]; [constructor|]. cbn [flat_map].
  apply rules_ok_app; [apply Hf; by left|apply IH; intros y Hy; apply Hf; by right].
Qed.

Lemma rules_ok_map {A} c s n (f : A -> rule) l :
  (forall x, Forall (stmt_ok c s n) (f x)) -> rules_ok c s n (map f l).
Proof. intros Hf. apply Forall_fmap, Forall_true. exact Hf. Qed.

(** Solve [rules_ok] of lists written out. *)
Ltac name_in := apply (bool_decide_unpack _); vm_compute; exact I.
Ltac ok_solve :=
  repeat first
    [ apply Forall_nil_2
    | apply Forall_cons_2
    | apply Forall_app_2
    | progress cbn [app map stmt_ok]
    | exact I
    | match goal with |- context [if ?b then _ else _] => destruct b end ];
  try name_in.

#[export] Hint Resolve rules_ok_app : fwr.

(** ** The chains of the code *)

Definition TERMINAL_CHAINS : list string := ["fwrouter_direct"; "fwrouter_vpn"; "fwrouter_vpn_full"].
Definition BASE_SETS : list string :=
  ["protected_ipv4"; "protected_ipv6"; "infrastructure_ipv4"; "secure_dns_bypass_ipv4"; "direct_ipv4"; "dns_direct_ipv4";
   "direct_ipv6"; "vpn_ipv4"; "dns_vpn_ipv4"; "vpn_ipv6"].

Section Chains.
Context `{ReprContainer}.

Lemma classify_ok mode selective_default ready degraded steering :
  rules_ok TERMINAL_CHAINS BASE_SETS [] steering ->
  rules_ok TERMINAL_CHAINS BASE_SETS []
    (c_rules (_build_classify_chain_lines mode selective_default ready degraded steering)).
Proof.
  intros Hs. cbn [c_rules _build_classify_chain_lines].
  unfold classify_prologue, classify_mode, classify_selective, classify_default, vpn_set_rule.
  repeat apply rules_ok_app; [|exact Hs|]; unfold rules_ok; ok_solve.
Qed.

Lemma direct_ok n counters : rules_ok [] [] n counters ->
  rules_ok [] [] n (c_rules (_build_terminal_direct_chain_lines counters)).
Proof. intros Hc. apply rules_ok_app; [exact Hc|]. unfold rules_ok. ok_solve. Qed.

Lemma vpn_mark_ok port mark : rules_ok [] [] [] (c_rules (_build_vpn_mark_chain_lines port mark)).
Proof. unfold rules_ok. cbn [c_rules _build_vpn_mark_chain_lines]. ok_solve. Qed.

Lemma terminal_vpn_ok n name tport rport bypass mark udp tcp counters required :
  rules_ok [] [] n counters ->
  rules_ok [] [] n (c_rules (_build_terminal_vpn_chain_lines name tport rport bypass mark udp tcp counters required)).
Proof.
  intros Hc. cbn [c_rules _build_terminal_vpn_chain_lines]. unfold QUIC_REJECT.
  destruct (is_port tport); repeat apply rules_ok_app; try exact Hc; unfold rules_ok; ok_solve.
Qed.

Lemma prerouting_ok bypass mark full tport fport mode counters required lan trusted :
  rules_ok ["fwrouter_classify"] BASE_SETS []
    (c_rules (_build_prerouting_entry_chain_lines bypass mark full tport fport mode counters required lan trusted)).
Proof.
  cbn [c_rules _build_prerouting_entry_chain_lines].
  repeat apply rules_ok_app; try (apply rules_ok_map; intros i);
    unfold rules_ok, prerouting_immunity, secure_dns_rules, block_ipv6_rule, allow_dns_rule, tproxy_rule; ok_solve.
Qed.

Lemma redirects_ok mark rport h full fport required : rules_ok [] [] [] (redirect_rules mark rport h full fport required).
Proof. unfold redirect_rules, redirect_rule, rules_ok. ok_solve. Qed.

Lemma output_nat_ok mark rport full fport bypass required :
  rules_ok [] [] [] (c_rules (_build_output_nat_chain_lines mark rport full fport bypass required)).
Proof.
  cbn [c_rules _build_output_nat_chain_lines]. apply rules_ok_app; [unfold rules_ok; ok_solve|apply redirects_ok].
Qed.

Lemma first_rules_ok c s n seen l :
  Forall (fun x : keyed_rule => Forall (stmt_ok c s n) x.2) l -> rules_ok c s n (first_rules seen l).
Proof.
  intros Hl. revert seen. induction Hl as [|[key line] l Hx _ IH]; intros seen; [constructor|].
  cbn [first_rules]. destruct (decide (key ∈ seen)); [apply IH|]. constructor; [exact Hx|apply IH].
Qed.

Lemma forward_candidates_ok s : Forall (fun x : keyed_rule => Forall (stmt_ok [] [] []) x.2) (forward_candidates s).
Proof.
  unfold forward_candidates. destruct (scoped_matcher_of s); [|constructor]. cbn zeta.
  destruct (_ || _); [constructor|]. destruct (_reverse_ip_expr _); repeat constructor.
Qed.

Lemma output_candidates_ok s : Forall (fun x : keyed_rule => Forall (stmt_ok [] [] []) x.2) (output_candidates s).
Proof.
  unfold output_candidates. destruct (scoped_matcher_of s); [|constructor]. cbn zeta.
  destruct (_reverse_ip_expr _); [|constructor]. destruct (String.eqb _ ""); repeat constructor.
Qed.

Lemma flat_Forall {A B} (P : B -> Prop) (f : A -> list B) l : (forall x, Forall P (f x)) -> Forall P (flat_map f l).
Proof. intros Hf. induction l; cbn [flat_map]; [constructor|]. by apply Forall_app_2. Qed.

Lemma forward_guard_ok subjects : rules_ok [] [] [] (_build_disabled_forward_guard_lines subjects).
Proof. apply first_rules_ok, flat_Forall, forward_candidates_ok. Qed.

Lemma output_guard_ok subjects : rules_ok [] [] [] (_build_disabled_output_guard_lines subjects).
Proof.
  apply rules_ok_app; [apply first_rules_ok, flat_Forall, output_candidates_ok|].
  apply rules_ok_map. intros x. repeat constructor.
Qed.

Lemma input_guard_ok subjects : rules_ok [] [] [] (_build_disabled_input_guard_lines subjects).
Proof.
  apply rules_ok_flat. intros proto _. unfold input_guard_rules. destruct (ports_of_proto _ _); [constructor|].
  unfold rules_ok. ok_solve.
Qed.

Lemma immunity_lines_ok : rules_ok [] [] [] _external_ingress_immunity_lines.
Proof.
  apply rules_ok_flat. intros c _. unfold external_ingress_immunity_line. destruct (nonempty_text _); repeat constructor.
Qed.

Lemma output_ok n rx bypass guards steering mode :
  rules_ok [] [] n rx -> rules_ok [] [] [] guards -> rules_ok TERMINAL_CHAINS BASE_SETS [] steering ->
  rules_ok TERMINAL_CHAINS BASE_SETS n (c_rules (_build_output_entry_chain_lines rx bypass guards steering mode)).
Proof.
  intros Hr Hg Hs. cbn [c_rules _build_output_entry_chain_lines]. unfold output_immunity.
  repeat apply rules_ok_app; try (eapply rules_ok_mono; [first [exact Hr|exact Hg|exact Hs|apply immunity_lines_ok]|..];
    first [apply list_subseteq_nil|reflexivity]);
  unfold rules_ok; ok_solve.
Qed.

(** ** The renderer's chains *)

Lemma listener_guard_ok protos port noun t4 t6 : rules_ok [] [] [] (listener_guard protos port noun t4 t6).
Proof. unfold listener_guard, rules_ok. ok_solve. Qed.

Lemma selective_steering_ok ready expr val family sid :
  rules_ok TERMINAL_CHAINS BASE_SETS [] (selective_steering ready [SAddr expr val] family sid).
Proof. unfold selective_steering, to_chain, vpn_set_rule, rules_ok. ok_solve. Qed.

Lemma steering_rules_ok st subject path m :
  let r := steering_rules st subject path m in
  rules_ok TERMINAL_CHAINS BASE_SETS [] r.1 /\ rules_ok TERMINAL_CHAINS BASE_SETS [] r.2.
Proof.
  unfold steering_rules. cbn zeta. destruct (String.eqb path "selective"); cbn [fst snd].
  { split; [|constructor]. apply rules_ok_app; [apply selective_steering_ok|].
    unfold selective_default_rule, to_chain, rules_ok. ok_solve. }
  destruct (String.eqb path "blocked"); cbn [fst snd].
  { unfold blocked_rule, rules_ok. split; ok_solve; by repeat case_match. }
  destruct (String.eqb path "vpn" || String.eqb path "direct"); cbn [fst snd]; [|split; constructor].
  unfold to_chain, rules_ok. split; ok_solve.
Qed.

Lemma result_bind_ok {A B} (m : result A) (f : A -> result B) y :
  (m ≫= f) = Ok y -> exists x, m = Ok x /\ f x = Ok y.
Proof. destruct m as [x|]; [eauto|discriminate]. Qed.

Lemma of_py_ok {A} (o : py A) x : of_py o = Ok x -> o = Some x.
Proof. destruct o; cbn; congruence. Qed.

(** What every result of a loop that did not raise satisfies. *)
Lemma collect_in {A B} (f : A -> result B) l ys :
  collect f l = Ok ys -> forall y, y ∈ ys -> exists x, x ∈ l /\ f x = Ok y.
Proof.
  revert ys. induction l as [|x l IH]; cbn [collect]; intros ys.
  - intros [= <-] y ?%elem_of_nil. done.
  - intros (y0 & E0 & (ys' & E & [= <-])%result_bind_ok)%result_bind_ok y [->|Hy]%elem_of_cons.
    + exists x. split; [by left|done].
    + destruct (IH ys' E y Hy) as (x' & ? & ?). exists x'. split; [by right|done].
Qed.

Lemma subject_steering_ok st subject r :
  subject_steering st subject = Ok r ->
  rules_ok TERMINAL_CHAINS BASE_SETS [] r.1 /\ rules_ok TERMINAL_CHAINS BASE_SETS [] r.2.
Proof.
  intros (m & _ & [= <-])%result_bind_ok. destruct m as [m|]; [apply steering_rules_ok|split; constructor].
Qed.

(** The counter rules of a subject name the counters it declares. *)
Lemma subject_counters_ok c subject r :
  subject_counters c subject = Ok r ->
  Forall (rules_ok [] [] (counter_declarations r))
    [direct_counter_rules r; vpn_counter_rules r; direct_rx_counter_rules r; vpn_rx_counter_rules r].
Proof.
  intros (slug & _ & (m & _ & [= <-])%result_bind_ok)%result_bind_ok.
  destruct m as [[expr val family]|]; [|repeat constructor].
  cbn [direct_counter_rules vpn_counter_rules direct_rx_counter_rules vpn_rx_counter_rules counter_declarations].
  set (names := [_; _; _; _]).
  assert (Hn : counter_name slug "_direct_tx" ∈ names /\ counter_name slug "_direct_rx" ∈ names
               /\ counter_name slug "_vpn_tx" ∈ names /\ counter_name slug "_vpn_rx" ∈ names)
    by (unfold names; rewrite !elem_of_cons; tauto).
  destruct Hn as (H1 & H2 & H3 & H4). clearbody names.
  repeat (apply Forall_cons_2 || apply Forall_nil_2); try (by repeat constructor);
    destruct (rx_expr_of expr); try (by repeat constructor).
  unfold vpn_rx_rules, rules_ok. ok_solve; try done; repeat case_match; ok_solve; done.
Qed.
End Chains.

(** ** The table as a whole *)

Section Table.
Context `{ReprContainer} `{Settings} `{NftSettings} `{RuleSources}.

(** The ways a table comes about, with every intermediate value. *)
Inductive rendered (manifest loader : pyval) : candidate -> Prop :=
  | rendered_bypass :
      core_bypass_enabled manifest = Some true -> rendered manifest loader bypass_table
  | rendered_managed summary preflight subjects nft_sets scoped_sets counted steering scoped :
      let c := read_contour (VDict preflight) in
      let st := read_steering summary preflight in
      let active := List.filter is_active subjects in
      core_bypass_enabled manifest = Some false ->
      manifest_subjects manifest = Some subjects ->
      docker_conflict manifest subjects = Some None ->
      manifest_section "summary" manifest = Some summary ->
      manifest_section "global_preflight" manifest = Some preflight ->
      build_nft_rule_sets (as_dict (_resolve_rules_effective_artifact manifest loader)) = Some nft_sets ->
      _build_scoped_vpn_sets manifest = Some scoped_sets ->
      collect (subject_counters c)
        (List.filter (fun s => subject_needs_transparent_policy (Some (type_text s))) active) = Ok counted ->
      collect (subject_steering st) active = Ok steering ->
      py_map scoped_set_decl scoped_sets = Some scoped ->
      rendered manifest loader
        (Managed (flat_map counter_declarations counted)
           (table_sets nft_sets (infrastructure_ips manifest subjects)
              (_read_manifest_extra_ipv4_list manifest "secure_dns_bypass_ipv4" STATIC_SECURE_DNS_BYPASS_IPV4) scoped)
           (managed_chains c st (mode_of summary)
              (vpn_policy_required summary preflight (mode_of summary) (selective_default st) active)
              (_resolve_lan_ingress_interfaces manifest) active counted steering)).

Lemma owned_table_rendered manifest loader t : owned_table manifest loader = Ok t -> rendered manifest loader t.
Proof.
  intros ([|] & Hb%of_py_ok & E)%result_bind_ok; [injection E as <-; by constructor|].
  apply result_bind_ok in E as (subjects & Hs%of_py_ok & (found & Hf%of_py_ok & E)%result_bind_ok).
  destruct found as [[sid reason]|]; [discriminate|].
  apply result_bind_ok in E as (summary & Hm%of_py_ok & (sets & Hr%of_py_ok & E)%result_bind_ok).
  apply result_bind_ok in E as (preflight & Hp%of_py_ok & (scoped & Hsc%of_py_ok & E)%result_bind_ok).
  unfold managed_table in E.
  apply result_bind_ok in E as (counted & Hc & (steering & Hst & E)%result_bind_ok).
  apply result_bind_ok in E as (decls & Hd%of_py_ok & [= <-]).
  by eapply rendered_managed.
Qed.

(** The names the table declares, and the references of its rules. *)
Definition chain_names (t : candidate) : list string := map c_name (cand_chains t).

Definition closed (t : candidate) : Prop :=
  NoDup (chain_names t) /\ REQUIRED_CHAINS ⊆ chain_names t /\
  Forall (fun c => rules_ok (chain_names t) (map set_name (cand_sets t)) (cand_counters t) (c_rules c)) (cand_chains t).

(** The chains a chain may call: [TERMINAL_CHAINS] call nothing. *)
Definition callees (name : string) : list string :=
  if String.eqb name "fwrouter_classify" || String.eqb name "output" then TERMINAL_CHAINS
  else if String.eqb name "prerouting" then ["fwrouter_classify"] else [].

Definition chain_ok (sets counters : list string) (c : chain) : Prop :=
  rules_ok (callees (c_name c)) sets counters (c_rules c).

Lemma bypass_ok : Forall (chain_ok [] []) (cand_chains bypass_table).
Proof. unfold chain_ok, rules_ok. repeat constructor. Qed.

Lemma counters_ok (f : counters -> list rule) c subjects counted :
  (forall r, f r = direct_counter_rules r \/ f r = vpn_counter_rules r \/ f r = direct_rx_counter_rules r \/ f r = vpn_rx_counter_rules r) ->
  collect (subject_counters c) subjects = Ok counted ->
  rules_ok [] [] (flat_map counter_declarations counted) (flat_map f counted).
Proof.
  intros Hf Hc. apply rules_ok_flat. intros r Hr. destruct (collect_in _ _ _ Hc r Hr) as (s & _ & E).
  apply subject_counters_ok in E. rewrite !Forall_cons in E. destruct E as (E1 & E2 & E3 & E4 & _).
  eapply rules_ok_mono; [|reflexivity|reflexivity|].
  - destruct (Hf r) as [->|[->|[->| ->]]]; eassumption.
  - intros x Hx. apply list_elem_of_In, in_flat_map. exists r. by rewrite <- !list_elem_of_In.
Qed.

Lemma managed_ok c st mode required lan active subjects counted steering :
  collect (subject_counters c) subjects = Ok counted ->
  collect (subject_steering st) active = Ok steering ->
  Forall (chain_ok BASE_SETS (flat_map counter_declarations counted))
    (managed_chains c st mode required lan active counted steering).
Proof.
  intros Hc Hs. set (names := flat_map counter_declarations counted).
  assert (Hn : [] ⊆ names) by apply list_subseteq_nil.
  assert (Hb : [] ⊆ BASE_SETS) by apply list_subseteq_nil.
  assert (Hsteer : forall r, r ∈ steering ->
            rules_ok TERMINAL_CHAINS BASE_SETS [] r.1 /\ rules_ok TERMINAL_CHAINS BASE_SETS [] r.2).
  { intros r Hr. destruct (collect_in _ _ _ Hs r Hr) as (s & _ & E). by eapply subject_steering_ok. }
  assert (Hv : rules_ok [] [] names (flat_map vpn_counter_rules counted)) by (eapply counters_ok; [|exact Hc]; auto).
  assert (Hvr : rules_ok [] [] names (flat_map vpn_rx_counter_rules counted)) by (eapply counters_ok; [|exact Hc]; auto).
  assert (Hd : rules_ok [] [] names (flat_map direct_counter_rules counted)) by (eapply counters_ok; [|exact Hc]; auto).
  assert (Hdr : rules_ok [] [] names (flat_map direct_rx_counter_rules counted)) by (eapply counters_ok; [|exact Hc]; auto).
  clearbody names. unfold managed_chains. cbn zeta. rewrite !Forall_cons. split_and!.
  - eapply rules_ok_mono; [apply prerouting_ok|reflexivity|reflexivity|exact Hn].
  - eapply rules_ok_mono; [apply redirects_ok|reflexivity|exact Hb|exact Hn].
  - apply rules_ok_app; [eapply rules_ok_mono; [apply input_guard_ok|reflexivity|exact Hb|exact Hn]|].
    repeat apply rules_ok_app; (eapply rules_ok_mono; [apply listener_guard_ok|reflexivity|exact Hb|exact Hn]).
  - apply output_ok; [exact Hvr|apply output_guard_ok|]. apply rules_ok_flat. intros r Hr. by apply Hsteer.
  - eapply rules_ok_mono; [apply output_nat_ok|reflexivity|exact Hb|exact Hn].
  - apply rules_ok_app; [eapply rules_ok_mono; [apply forward_guard_ok|reflexivity|exact Hb|exact Hn]|].
    apply rules_ok_app; [eapply rules_ok_mono; [exact Hdr|reflexivity|exact Hb|reflexivity]|].
    unfold rules_ok. ok_solve.
  - unfold rules_ok. cbn [c_rules postrouting_chain]. ok_solve.
  - eapply rules_ok_mono; [apply classify_ok|reflexivity|reflexivity|exact Hn].
    apply rules_ok_flat. intros r Hr. by apply Hsteer.
  - eapply rules_ok_mono; [apply direct_ok; exact Hd|reflexivity|exact Hb|reflexivity].
  - eapply rules_ok_mono; [apply vpn_mark_ok|reflexivity|exact Hb|exact Hn].
  - eapply rules_ok_mono; [apply terminal_vpn_ok; exact Hv|reflexivity|exact Hb|reflexivity].
  - eapply rules_ok_mono; [apply terminal_vpn_ok; exact Hv|reflexivity|exact Hb|reflexivity].
  - constructor.
Qed.

(** The names of the chains do not depend on the manifest. *)
Definition MANAGED_NAMES : list string :=
  ["prerouting"; "prerouting_nat"; "input"; "output"; "output_nat"; "forward"; "postrouting"; "fwrouter_classify";
   "fwrouter_direct"; "fwrouter_vpn_mark"; "fwrouter_vpn"; "fwrouter_vpn_full"].

Lemma rendered_ok manifest loader t : rendered manifest loader t ->
  (chain_names t = REQUIRED_CHAINS \/ chain_names t = MANAGED_NAMES) /\
  Forall (chain_ok (map set_name (cand_sets t)) (cand_counters t)) (cand_chains t).
Proof.
  intros [Hb|]; [split; [by left|exact bypass_ok]|].
  split; [right; reflexivity|]. cbn [cand_chains cand_sets cand_counters].
  eapply Forall_impl; [by eapply managed_ok|]. intros ch Hch. eapply rules_ok_mono; [exact Hch|reflexivity| |reflexivity].
  unfold table_sets. rewrite map_app. apply list_subseteq_app_l. reflexivity.
Qed.

Lemma callees_declared names n :
  names = REQUIRED_CHAINS \/ names = MANAGED_NAMES -> n ∈ names -> callees n ⊆ names.
Proof.
  intros Hn _. unfold callees. destruct (_ || _); [|destruct (String.eqb n "prerouting")];
    destruct Hn as [->| ->]; apply (bool_decide_unpack _); vm_compute; exact I.
Qed.

(** C34: every name the rules of a rendered table refer to, chain, set or
    counter, is declared by the table; the chains have different names, and
    the required ones are among them, in bypass too. *)
Theorem table_closed manifest loader t : owned_table manifest loader = Ok t -> closed t.
Proof.
  intros [Hn Hok]%owned_table_rendered%rendered_ok. split; [|split].
  - destruct Hn as [->| ->]; apply (bool_decide_unpack _); vm_compute; exact I.
  - destruct Hn as [->| ->]; apply (bool_decide_unpack _); vm_compute; exact I.
  - rewrite Forall_forall in Hok |- *. intros c Hc. eapply rules_ok_mono; [by apply Hok| |reflexivity|reflexivity].
    apply callees_declared; [exact Hn|]. unfold chain_names. apply list_elem_of_fmap. eauto.
Qed.
End Table.

(** ** Every packet gets a verdict *)

Section Runs.
Context (k : kernel) (cs : list chain).

(** Where a rule sends a packet is among the chains it may name. *)
Lemma run_rule_target C S N r p c q :
  Forall (stmt_ok C S N) r -> run_rule k r p = Goto c q \/ run_rule k r p = Jump c q -> c ∈ C.
Proof.
  intros Hr. revert p. induction Hr as [|s r Hs _ IH]; intros p; cbn [run_rule]; [by intros []|].
  destruct (run_stmt k s p) eqn:E; [apply IH|..]; try (by intros []);
    intros [Hq|Hq]; inversion Hq; subst; destruct s; cbn in E, Hs; repeat case_match; simplify_eq; done.
Qed.

(** If the chains the rules may name all finish, so do the rules. *)
Lemma run_rules_total C S N sub rules p :
  rules_ok C S N rules ->
  (forall t, t ∈ C -> exists c, chain_named cs t = Some c /\ forall q, is_Some (sub (c_rules c) q)) ->
  is_Some (run_rules k sub cs rules p).
Proof.
  intros Hr Hsub. revert p. induction Hr as [|r rules Hr _ IH]; intros p; cbn [run_rules]; [eauto|].
  destruct (run_rule k r p) eqn:E; eauto.
  - destruct (Hsub c) as (t & -> & Ht); [by eapply run_rule_target; eauto|]. cbn [mbind option_bind].
    destruct (Ht p0) as [[q|v q] ->]; cbn [mbind option_bind]; eauto.
  - destruct (Hsub c) as (t & -> & Ht); [by eapply run_rule_target; eauto|]. apply Ht.
Qed.

(** More fuel gives the same outcome. *)
Lemma run_rules_mono (sub1 sub2 : list rule -> packet -> option outcome) rules p o :
  (forall l q o, sub1 l q = Some o -> sub2 l q = Some o) ->
  run_rules k sub1 cs rules p = Some o -> run_rules k sub2 cs rules p = Some o.
Proof.
  intros Hsub. revert p. induction rules as [|r rules IH]; intros p; cbn [run_rules]; [done|].
  destruct (run_rule k r p); auto; destruct (chain_named cs c) as [t|]; cbn [mbind option_bind]; auto.
  destruct (sub1 (c_rules t) p0) as [o1|] eqn:E; cbn [mbind option_bind]; [|done].
  rewrite (Hsub _ _ _ E). cbn [mbind option_bind]. destruct o1; auto.
Qed.

Lemma run_chain_mono f1 f2 : (f1 <= f2)%nat -> forall rules p o,
  run_chain k f1 cs rules p = Some o -> run_chain k f2 cs rules p = Some o.
Proof.
  revert f2. induction f1 as [|f1 IH]; intros f2 Hf rules p o; [done|].
  destruct f2 as [|f2]; [lia|]. cbn [run_chain]. apply run_rules_mono. apply IH. lia.
Qed.
End Runs.

Lemma chain_named_in cs n : n ∈ map c_name cs -> exists c, chain_named cs n = Some c /\ c ∈ cs /\ c_name c = n.
Proof.
  intros Hn. unfold chain_named. destruct (List.find _ cs) as [c|] eqn:E.
  - apply List.find_some in E as [Hc Hname]. apply String.eqb_eq in Hname. exists c. by rewrite list_elem_of_In.
  - apply list_elem_of_fmap in Hn as (c & -> & Hc). apply list_elem_of_In in Hc.
    apply (List.find_none _ _ E) in Hc. by rewrite String.eqb_refl in Hc.
Qed.

Section Termination.
Context `{ReprContainer} `{Settings} `{NftSettings} `{RuleSources}.

(** How deep the calls of a chain go. *)
Definition call_depth (name : string) : nat :=
  if String.eqb name "prerouting" then 2 else if bool_decide (name ∈ ["fwrouter_classify"; "output"]) then 1 else 0.

Lemma callee_depth n t : t ∈ callees n -> (call_depth t < call_depth n)%nat.
Proof.
  unfold callees, call_depth. destruct (String.eqb_spec n "fwrouter_classify") as [->|]; cbn [orb].
  { unfold TERMINAL_CHAINS. rewrite !elem_of_cons, elem_of_nil. intros [->|[->|[->|[]]]]; vm_compute; lia. }
  destruct (String.eqb_spec n "output") as [->|].
  { unfold TERMINAL_CHAINS. rewrite !elem_of_cons, elem_of_nil. intros [->|[->|[->|[]]]]; vm_compute; lia. }
  destruct (String.eqb_spec n "prerouting") as [->|]; [|by intros ?%elem_of_nil].
  intros ->%list_elem_of_singleton. vm_compute. lia.
Qed.

Lemma chain_runs k t sets counters : 
  (chain_names t = REQUIRED_CHAINS \/ chain_names t = MANAGED_NAMES) ->
  Forall (chain_ok sets counters) (cand_chains t) ->
  forall d c p, c ∈ cand_chains t -> (call_depth (c_name c) <= d)%nat ->
    is_Some (run_chain k (S d) (cand_chains t) (c_rules c) p).
Proof.
  intros Hn Hok. induction d as [|d IH]; intros c p Hc Hd; cbn [run_chain];
    rewrite Forall_forall in Hok; (eapply run_rules_total; [by apply Hok|]); intros n Hcallee;
    pose proof (callee_depth _ _ Hcallee) as Hlt; [lia|].
  assert (Hin : n ∈ chain_names t).
  { eapply callees_declared; [exact Hn| |exact Hcallee]. apply list_elem_of_fmap. eauto. }
  destruct (chain_named_in _ _ Hin) as (c' & E & Hc' & Hname). exists c'. split; [exact E|]. intros q.
  apply IH; [exact Hc'|]. rewrite Hname. lia.
Qed.

(** C38: in a rendered table a packet that enters any chain comes to an end,
    and three nested chains are always enough: the outcome exists, and more
    fuel does not change it. *)
Theorem table_terminates manifest loader t : owned_table manifest loader = Ok t ->
  forall k c p, c ∈ cand_chains t ->
    exists o, forall fuel, (3 <= fuel)%nat -> run_chain k fuel (cand_chains t) (c_rules c) p = Some o.
Proof.
  intros [Hn Hok]%owned_table_rendered%rendered_ok k c p Hc.
  destruct (chain_runs k t _ _ Hn Hok 2 c p Hc) as [o Ho].
  { unfold call_depth. case_match; [lia|]. case_match; lia. }
  exists o. intros fuel Hf. by eapply run_chain_mono.
Qed.
End Termination.

(** ** A concrete manifest for the witnesses *)

#[local] Instance sample_repr : ReprContainer := fun _ => "[...]".
#[local] Instance sample_nft_settings : NftSettings := 3600.
#[local] Existing Instance default_settings.
#[local] Instance sample_sources : RuleSources :=
  {| PROTECTED_SERVICE_DOMAINS := ["localhost"; "tailscale.com"]; custom_proxy_hosts := Some [Some "203.0.113.7"];
     ip_address_show := IpFailed |}.

Definition sample_subject : dict :=
  [("subject_id", VStr "lan:phone"); ("subject_type", VStr "lan"); ("is_active", VBool true);
   ("dataplane_path", VStr "vpn");
   ("scoped_runtime",
    VDict [("applied", VBool true);
           ("matcher", VDict [("nft_expr", VStr "ip saddr"); ("value", VStr "192.168.1.5"); ("family", VStr "ipv4")])])].

Definition sample_manifest : pyval :=
  VDict [("summary", VDict [("global_mode", VStr "selective")]);
         ("global_preflight",
          VDict [("vpn_contour", VDict [("tproxy_port", VInt 5203); ("redir_port", VInt 5202)]);
                 ("selective_vpn_policy_ready", VBool true)]);
         ("subjects", VList [VDict sample_subject]);
         ("extra", VDict [("rules_effective",
           VDict [("rules", VList [VDict [("action", VStr "VPN"); ("kind", VStr "cidr"); ("value", VStr "8.8.8.0/24")]])])])].

Definition sample_table : candidate :=
  match owned_table sample_manifest VNone with Ok t => t | Raise _ => bypass_table end.

Lemma sample_rendered : owned_table sample_manifest VNone = Ok sample_table.
Proof. vm_compute. reflexivity. Qed.

Lemma table_closed_witness : NoDup (map c_name (cand_chains sample_table)).
Proof. exact (proj1 (table_closed sample_manifest VNone sample_table sample_rendered)). Defined.

Definition sample_packet : packet :=
  Packet (addr_of V4 3232235781) (addr_of V4 134744065) (Some Tcp) 40000 443 "eth1" "eth0" None false false 0 None.

Lemma table_terminates_witness : exists o,
  run_chain (Kernel (fun _ _ => false) (fun _ _ _ => false)) 3 (cand_chains sample_table)
    (c_rules (Chain "fwrouter_classify" None (c_rules (default (Chain "" None []) (chain_named (cand_chains sample_table) "fwrouter_classify")))))
    sample_packet = Some o.
Proof.
  set (c := default (Chain "" None []) (chain_named (cand_chains sample_table) "fwrouter_classify")).
  assert (Hc : c ∈ cand_chains sample_table) by (vm_compute; repeat (apply list_elem_of_here || apply list_elem_of_further)).
  destruct (table_terminates sample_manifest VNone sample_table sample_rendered
              (Kernel (fun _ _ => false) (fun _ _ _ => false)) c sample_packet Hc) as [o Ho].
  exists o. exact (Ho 3%nat (le_n 3)).
Defined.
