(* ===== verification/NftSteer.v ===== *)
(** * Where the table sends a packet

    A reference for the classification of a packet, written over the
    subjects and sets of the manifest instead of rules: [classify] decides,
    [apply_decision] says what becomes of the packet, [prerouting] adds the
    exclusions before and the handoff after.  The chains of every rendered
    table are proved equal to it. *)
From stdpp Require Import base list strings pretty gmap sorting.
From Stdlib Require Import ZArith Lia Ascii.
From S2P Require Import Prelude PyStr IpAddr PyVal NetworkContract SubjectTaxonomy DockerPolicy ScopedEgress Nft NftSets NftChains NftGuards DataplaneRules NftRender NftClosed.

Open Scope string_scope.
Open Scope Z_scope.
Open Scope list_scope.

(** ** The reference *)

Inductive decision := Undecided | ToDirect | ToVpn | ToVpnFull | Blocked | Refused.

#[export] Instance decision_eq_dec : EqDecision decision.
Proof. solve_decision. Defined.

Section Reference.
Context (k : kernel).

Definition is_v (v : ipver) (p : packet) : bool := bool_decide (a_ver (pk_src p) = v).

(** The destination, or the source, is an element of a set. *)
Definition dst_in (v : ipver) (set : string) (p : packet) : bool := is_v v p && k_set k set (pk_dst p).
Definition src_in (v : ipver) (set : string) (p : packet) : bool := is_v v p && k_set k set (pk_src p).

(** A subject's address expression. *)
Definition addr_match (expr val : string) (p : packet) : bool :=
  if is_addr_expr expr
  then match addr_field expr p with Some a => in_nets (nets_of val) a | None => false end
  else k_other k expr val p.

Definition to_port (q : proto) (port : Z) (p : packet) : bool := is_proto p q && bool_decide (pk_dport p = port).

(** What the VPN sets mean: the VPN when its policy is ready, a block otherwise. *)
Definition when_ready (ready : bool) : decision := if ready then ToVpn else Blocked.

(** The decision of the destination sets of one family. *)
Definition by_sets_v4 (ready : bool) (p : packet) : decision :=
  if dst_in V4 "direct_ipv4" p || dst_in V4 "dns_direct_ipv4" p then ToDirect
  else if dst_in V4 "vpn_ipv4" p || dst_in V4 "dns_vpn_ipv4" p then when_ready ready
  else Undecided.

Definition by_sets_v6 (ready : bool) (p : packet) : decision :=
  if dst_in V6 "direct_ipv6" p then ToDirect
  else if dst_in V6 "vpn_ipv6" p then when_ready ready
  else Undecided.

Definition or_else (d e : decision) : decision := match d with Undecided => e | _ => d end.

(** A subject that the packet's address matches, by its path. *)
Definition path_decision (st : steering_state) (path family : string) (p : packet) : decision :=
  if String.eqb path "selective" then
    or_else
      (if String.eqb family "ipv4" then by_sets_v4 (selective_vpn_policy_ready st) p
       else if String.eqb family "ipv6" then by_sets_v6 (selective_vpn_policy_ready st) p else Undecided)
      (if String.eqb (selective_default st) "vpn" then when_ready (selective_vpn_policy_ready st) else ToDirect)
  else if String.eqb path "blocked" then
    if String.eqb family "ipv6" || String.eqb family "ipv4" then Refused else Blocked
  else if String.eqb path "vpn" then ToVpnFull
  else if String.eqb path "direct" then ToDirect
  else Undecided.

Section Subject.
Context `{ReprContainer}.

Definition subject_decision (st : steering_state) (subject : dict) (m : option matcher3) (p : packet) : decision :=
  match m with
  | Some m => if addr_match (m_expr m) (m_val m) p then path_decision st (_resolved_subject_path subject) (m_family m) p
              else Undecided
  | None => Undecided
  end.

(** The first subject that decides. *)
Fixpoint subjects_decision (st : steering_state) (l : list (dict * option matcher3)) (p : packet) : decision :=
  match l with
  | [] => Undecided
  | (subject, m) :: l' => or_else (subject_decision st subject m p) (subjects_decision st l' p)
  end.
End Subject.

Definition mode_decision (mode : string) (st : steering_state) (p : packet) : decision :=
  let ready := selective_vpn_policy_ready st in
  if String.eqb mode "direct" then ToDirect
  else if String.eqb mode "vpn" then ToVpnFull
  else if String.eqb mode "selective" then
    or_else (or_else (by_sets_v4 ready p) (by_sets_v6 ready p))
      (if String.eqb (selective_default st) "vpn" then if ready then ToVpnFull else Blocked else ToDirect)
  else Undecided.

(** Destinations that are direct whatever the subject and mode. *)
Definition always_direct (p : packet) : bool :=
  pk_local_dst p || dst_in V4 "protected_ipv4" p || dst_in V6 "protected_ipv6" p || to_port Tcp 22 p.

Definition classify `{ReprContainer} (mode : string) (st : steering_state) (l : list (dict * option matcher3)) (p : packet)
    : decision :=
  if always_direct p then ToDirect else or_else (subjects_decision st l p) (mode_decision mode st p).

(** ** What becomes of the packet *)

Definition has_mark (mark : string) (p : packet) : bool := bool_decide (mark_of mark = Some (pk_mark p)).

Definition marked (mark : string) (p : packet) : packet :=
  match mark_of mark with Some m => with_mark m p | None => p end.

(** A VPN chain: the bypass mark is left alone, QUIC is refused, TCP and UDP get their marks. *)
Definition vpn_effect (port : pyval) (bypass tcp_mark udp_mark : string) (p : packet) : outcome :=
  if negb (is_port port) || has_mark bypass p then Back p
  else if to_port Udp 443 p then Settled VReject p
  else if is_proto p Tcp then Back (marked tcp_mark p)
  else if is_proto p Udp then Back (marked udp_mark p)
  else Back p.

Definition apply_decision (c : contour) (d : decision) (p : packet) : outcome :=
  match d with
  | Undecided | ToDirect => Back p
  | Blocked => Settled VDrop p
  | Refused => Settled VReject p
  | ToVpn =>
      vpn_effect (vpn_tproxy_port c) (proxy_bypass_mark_hex c) (_derive_tcp_redirect_mark_hex (vpn_fwmark_hex c))
        (text_or None (vpn_fwmark_hex c)) p
  | ToVpnFull =>
      vpn_effect (full_vpn_tproxy_port c) (proxy_bypass_mark_hex c)
        (text_or (Some (full_vpn_tcp_redirect_mark_hex c)) (_derive_tcp_redirect_mark_hex (vpn_fwmark_hex c)))
        (text_or (Some (full_vpn_udp_fwmark_hex c)) (vpn_fwmark_hex c)) p
  end.
End Reference.

(** ** Rules run *)

Section Steps.
Context (k : kernel) (sub : list rule -> packet -> option outcome) (cs : list chain).

Lemma run_stmt_dst_v4 set p :
  run_stmt k (SAddrSet "ip daddr" set) p = if dst_in k V4 set p then Continue p else NoMatch p.
Proof.
  cbn. unfold addr_field. cbn. unfold dst_in, is_v.
  destruct (bool_decide (a_ver (pk_src p) = V4)); [|done]. cbn. by destruct (k_set k set (pk_dst p)).
Qed.

Lemma run_stmt_dst_v6 set p :
  run_stmt k (SAddrSet "ip6 daddr" set) p = if dst_in k V6 set p then Continue p else NoMatch p.
Proof.
  cbn. unfold addr_field. cbn. unfold dst_in, is_v.
  destruct (bool_decide (a_ver (pk_src p) = V6)); [|done]. cbn. by destruct (k_set k set (pk_dst p)).
Qed.

Lemma run_stmt_src_v4 set p :
  run_stmt k (SAddrSet "ip saddr" set) p = if src_in k V4 set p then Continue p else NoMatch p.
Proof.
  cbn. unfold addr_field. cbn. unfold src_in, is_v.
  destruct (bool_decide (a_ver (pk_src p) = V4)); [|done]. cbn. by destruct (k_set k set (pk_src p)).
Qed.

Lemma run_stmt_addr expr val p :
  run_stmt k (SAddr expr val) p = if addr_match k expr val p then Continue p else NoMatch p.
Proof. reflexivity. Qed.

Lemma in_ports_one ports m n : ports_of ports = [m] -> in_ports ports n = bool_decide (n = m).
Proof. intros E. unfold in_ports. rewrite E. apply bool_decide_ext, list_elem_of_singleton. Qed.

(** One port of one protocol. *)
Lemma run_dport q protos field ports port p :
  (protos, field) = (match q with Tcp => ("tcp", "tcp dport") | Udp => ("udp", "udp dport") end) ->
  ports_of ports = [port] -> forall r,
  run_rule k (SL4 protos :: SPort field ports :: r) p = if to_port q port p then run_rule k r p else NoMatch p.
Proof.
  intros Hq Hp r. unfold to_port. cbn [run_rule run_stmt].
  destruct q; injection Hq as -> ->; unfold l4_match, port_match; cbn [String.eqb Ascii.eqb Bool.eqb];
    (destruct (is_proto p _) eqn:E; cbn [andb]; [rewrite E; cbn [andb]|done]);
    rewrite (in_ports_one ports port) by done; by destruct (bool_decide (pk_dport p = port)).
Qed.

(** The next rule. *)
Lemma run_rules_cons r rules p :
  run_rules k sub cs (r :: rules) p =
  match run_rule k r p with
  | Continue p' | NoMatch p' => run_rules k sub cs rules p'
  | Final v p' => Some (Settled v p')
  | Return p' => Some (Back p')
  | Goto c p' => target ← chain_named cs c; sub (c_rules target) p'
  | Jump c p' =>
      target ← chain_named cs c;
      o ← sub (c_rules target) p';
      match o with Back p'' => run_rules k sub cs rules p'' | Settled v p'' => Some (Settled v p'') end
  end.
Proof. by cbn [run_rules]; destruct (run_rule k r p). Qed.

(** Rules that do not touch a packet. *)
Definition idle (p : packet) (r : rule) : Prop := run_rule k r p = Continue p \/ run_rule k r p = NoMatch p.

Lemma run_rules_idle l rules p : Forall (idle p) l -> run_rules k sub cs (l ++ rules) p = run_rules k sub cs rules p.
Proof.
  induction 1 as [|r l Hr _ IH]; [done|]. rewrite <- app_comm_cons, run_rules_cons. by destruct Hr as [-> | ->].
Qed.

Lemma run_rules_idle_all l p : Forall (idle p) l -> run_rules k sub cs l p = Some (Back p).
Proof. intros Hl. rewrite <- (app_nil_r l). by rewrite run_rules_idle. Qed.

Lemma idle_prefix expr val r p : addr_match k expr val p = false -> idle p (SAddr expr val :: r).
Proof. intros Hm. right. cbn [run_rule]. by rewrite run_stmt_addr, Hm. Qed.
End Steps.

(** ** Classification *)

Section Classify.
Context `{ReprContainer}.
Context (k : kernel) (c : contour) (sub : list rule -> packet -> option outcome) (cs : list chain).

(** A chain that is there and does what a decision does. *)
Definition goes (name : string) (d : decision) : Prop :=
  exists ch, chain_named cs name = Some ch /\ forall p, sub (c_rules ch) p = Some (apply_decision c d p).

Context (Hdirect : goes "fwrouter_direct" ToDirect) (Hvpn : goes "fwrouter_vpn" ToVpn)
        (Hfull : goes "fwrouter_vpn_full" ToVpnFull).

Lemma run_goto name d r rules p : goes name d ->
  run_rules k sub cs ((SGoto name :: r) :: rules) p = Some (apply_decision c d p).
Proof. intros (ch & E & Hs). rewrite run_rules_cons. cbn [run_rule run_stmt]. rewrite E. apply Hs. Qed.

(** Decide, or leave the packet to the rules that follow. *)
Definition settle (d : decision) (rest : option outcome) (p : packet) : option outcome :=
  match d with Undecided => rest | d => Some (apply_decision c d p) end.

Lemma settle_or_else d e rest p : settle (or_else d e) rest p = settle d (settle e rest p) p.
Proof. by destruct d. Qed.

(** A rule with a prefix that matches is the rule without it. *)
Definition transparent (prefix : list stmt) (p : packet) : Prop :=
  forall r rules, run_rules k sub cs ((prefix ++ r) :: rules) p = run_rules k sub cs (r :: rules) p.

Lemma transparent_nil p : transparent [] p.
Proof. by intros r rules. Qed.

Lemma transparent_addr expr val p : addr_match k expr val p = true -> transparent [SAddr expr val] p.
Proof. intros Hm r rules. rewrite !run_rules_cons. cbn [app run_rule]. by rewrite run_stmt_addr, Hm. Qed.

Ltac rule_step := rewrite run_rules_cons; cbn [app run_rule]; rewrite ?run_stmt_dst_v4, ?run_stmt_dst_v6.

Definition dst_expr (v : ipver) : string := match v with V4 => "ip daddr" | V6 => "ip6 daddr" end.

Lemma set_to_chain v set name d r rules p : goes name d ->
  run_rules k sub cs ((SAddrSet (dst_expr v) set :: SGoto name :: r) :: rules) p =
  if dst_in k v set p then Some (apply_decision c d p) else run_rules k sub cs rules p.
Proof.
  intros (ch & E & Hs). destruct v; cbn [dst_expr]; rule_step; destruct (dst_in k _ set p); try done;
    cbn [run_stmt]; rewrite E; apply Hs.
Qed.

Lemma set_to_vpn prefix v ready set t1 t2 rules p :
  transparent prefix p ->
  run_rules k sub cs (vpn_set_rule ready prefix (dst_expr v) set t1 t2 :: rules) p =
  if dst_in k v set p then Some (apply_decision c (when_ready ready) p) else run_rules k sub cs rules p.
Proof.
  intros Hp. unfold vpn_set_rule. rewrite Hp. destruct ready; cbn [app]; [by apply set_to_chain|].
  destruct v; cbn [dst_expr]; rule_step; by destruct (dst_in k _ set p).
Qed.

Lemma prefixed_to_chain prefix v set name d comment rules p :
  transparent prefix p -> goes name d ->
  run_rules k sub cs (to_chain (prefix ++ [SAddrSet (dst_expr v) set]) name comment :: rules) p =
  if dst_in k v set p then Some (apply_decision c d p) else run_rules k sub cs rules p.
Proof. intros Hp Hg. unfold to_chain. rewrite <- app_assoc, Hp. cbn [app]. by apply set_to_chain. Qed.

Ltac decide_sets := repeat case_match; try done; bool_simpl; try done.

Lemma classify_sets_run ready rules p :
  run_rules k sub cs (classify_selective ready ++ rules) p =
  settle (or_else (by_sets_v4 k ready p) (by_sets_v6 k ready p)) (run_rules k sub cs rules p) p.
Proof.
  pose proof (transparent_nil p) as Hnil. unfold classify_selective. cbn [app].
  rewrite (set_to_chain V4 "direct_ipv4" _ ToDirect), (set_to_chain V4 "dns_direct_ipv4" _ ToDirect),
    (set_to_chain V6 "direct_ipv6" _ ToDirect) by done.
  rewrite (set_to_vpn [] V4), (set_to_vpn [] V4), (set_to_vpn [] V6) by done.
  rewrite settle_or_else. unfold by_sets_v4, by_sets_v6, dst_in, is_v.
  destruct (a_ver (pk_src p)); rewrite ?(bool_decide_eq_true_2 (V4 = V4)), ?(bool_decide_eq_true_2 (V6 = V6)),
    ?(bool_decide_eq_false_2 (V4 = V6)), ?(bool_decide_eq_false_2 (V6 = V4)) by done; cbn [andb orb];
    destruct (k_set k "direct_ipv4" (pk_dst p)), (k_set k "dns_direct_ipv4" (pk_dst p)),
      (k_set k "vpn_ipv4" (pk_dst p)), (k_set k "dns_vpn_ipv4" (pk_dst p)), (k_set k "direct_ipv6" (pk_dst p)),
      (k_set k "vpn_ipv6" (pk_dst p)), ready; reflexivity.
Qed.

Lemma selective_steering_run ready family sid prefix rules p :
  transparent prefix p ->
  run_rules k sub cs (selective_steering ready prefix family sid ++ rules) p =
  settle (if String.eqb family "ipv4" then by_sets_v4 k ready p
          else if String.eqb family "ipv6" then by_sets_v6 k ready p else Undecided)
    (run_rules k sub cs rules p) p.
Proof.
  intros Hp. unfold selective_steering. destruct (String.eqb family "ipv4").
  - cbn [app]. rewrite (prefixed_to_chain prefix V4 "direct_ipv4" _ ToDirect),
      (prefixed_to_chain prefix V4 "dns_direct_ipv4" _ ToDirect) by done.
    rewrite (set_to_vpn prefix V4), (set_to_vpn prefix V4) by done. unfold by_sets_v4.
    destruct (dst_in k V4 "direct_ipv4" p), (dst_in k V4 "dns_direct_ipv4" p), (dst_in k V4 "vpn_ipv4" p),
      (dst_in k V4 "dns_vpn_ipv4" p), ready; reflexivity.
  - destruct (String.eqb family "ipv6"); [|done]. cbn [app].
    rewrite (prefixed_to_chain prefix V6 "direct_ipv6" _ ToDirect) by done.
    rewrite (set_to_vpn prefix V6) by done. unfold by_sets_v6.
    destruct (dst_in k V6 "direct_ipv6" p), (dst_in k V6 "vpn_ipv6" p), ready; reflexivity.
Qed.

(** The rules of a subject whose address matches. *)
Lemma path_steering_run st subject path m rules p :
  addr_match k (m_expr m) (m_val m) p = true ->
  run_rules k sub cs ((steering_rules st subject path m).1 ++ rules) p =
  settle (path_decision k st path (m_family m) p) (run_rules k sub cs rules p) p.
Proof.
  intros Hm. pose proof (transparent_addr _ _ _ Hm) as Hp. unfold steering_rules, path_decision. cbn zeta.
  destruct (String.eqb path "selective"); cbn [fst].
  { rewrite <- app_assoc, selective_steering_run by done. rewrite settle_or_else. f_equal.
    cbn [app]. unfold selective_default_rule.
    destruct (String.eqb (selective_default st) "vpn"), (selective_vpn_policy_ready st); cbn [andb negb];
      unfold to_chain; rewrite Hp; cbn [settle when_ready]; first [by apply run_goto|reflexivity]. }
  destruct (String.eqb path "blocked"); cbn [fst].
  { unfold blocked_rule. cbn [app]. rewrite run_rules_cons. cbn [run_rule]. rewrite run_stmt_addr, Hm.
    destruct (String.eqb (m_family m) "ipv6"), (String.eqb (m_family m) "ipv4"); reflexivity. }
  destruct (String.eqb path "vpn"); cbn [orb fst app].
  { unfold to_chain. rewrite Hp. by apply run_goto. }
  destruct (String.eqb path "direct"); cbn [fst app]; [|done].
  unfold to_chain. rewrite Hp. by apply run_goto.
Qed.

(** Every rule of a subject starts with its address. *)
Lemma steering_prefix st subject path m :
  Forall (fun r => exists r', r = SAddr (m_expr m) (m_val m) :: r') (steering_rules st subject path m).1.
Proof.
  unfold steering_rules, selective_steering, selective_default_rule, blocked_rule, to_chain, vpn_set_rule. cbn zeta.
  repeat case_match; cbn [fst app];
    repeat (apply Forall_cons_2 || apply Forall_nil_2 || apply Forall_app_2); eexists; reflexivity.
Qed.

Definition steering_of (st : steering_state) (x : dict * option matcher3) : list rule * list rule :=
  match x.2 with Some m => steering_rules st x.1 (_resolved_subject_path x.1) m | None => ([], []) end.

Lemma subjects_run st l rules p :
  run_rules k sub cs (flat_map fst (map (steering_of st) l) ++ rules) p =
  settle (subjects_decision k st l p) (run_rules k sub cs rules p) p.
Proof.
  induction l as [|[subject m] l IH]; [done|]. cbn [map flat_map subjects_decision]. rewrite <- app_assoc, settle_or_else, <- IH.
  destruct m as [m|]; [|done]. cbn [subject_decision]. unfold steering_of at 1. cbn [fst snd].
  destruct (addr_match k (m_expr m) (m_val m) p) eqn:Hm; [by apply path_steering_run|].
  rewrite run_rules_idle; [done|]. eapply Forall_impl; [apply steering_prefix|].
  intros r (r' & ->). by apply idle_prefix.
Qed.

Lemma mode_run mode st p :
  run_rules k sub cs (classify_mode mode (selective_default st) (selective_vpn_policy_ready st) (selective_degraded st)) p =
  settle (mode_decision k mode st p) (Some (Back p)) p.
Proof.
  unfold classify_mode, mode_decision.
  destruct (String.eqb mode "direct"); [by apply run_goto|].
  destruct (String.eqb mode "vpn"); [by apply run_goto|].
  destruct (String.eqb mode "selective"); [|done].
  rewrite classify_sets_run, !settle_or_else. do 2 f_equal. unfold classify_default.
  destruct (String.eqb (selective_default st) "vpn"); [destruct (selective_vpn_policy_ready st)|];
    first [by apply run_goto|reflexivity].
Qed.

Lemma run_local r rules p :
  run_rules k sub cs ((SFibLocal :: SGoto "fwrouter_direct" :: r) :: rules) p =
  if pk_local_dst p then Some (Back p) else run_rules k sub cs rules p.
Proof.
  destruct Hdirect as (ch & E & Hs). rewrite run_rules_cons. cbn [run_rule run_stmt].
  destruct (pk_local_dst p); [|done]. rewrite E. apply Hs.
Qed.

Lemma run_ssh r rules p :
  run_rules k sub cs ((SL4 "tcp" :: SPort "tcp dport" "{ 22 }" :: SGoto "fwrouter_direct" :: r) :: rules) p =
  if to_port Tcp 22 p then Some (Back p) else run_rules k sub cs rules p.
Proof.
  destruct Hdirect as (ch & E & Hs). rewrite run_rules_cons.
  rewrite (run_dport k Tcp "tcp" "tcp dport" "{ 22 }" 22) by first [reflexivity|vm_compute; reflexivity].
  destruct (to_port Tcp 22 p); [|done]. cbn [run_rule run_stmt]. rewrite E. apply Hs.
Qed.

(** The classify chain does what the reference decides. *)
Lemma classify_run mode st l p :
  run_rules k sub cs
    (c_rules (_build_classify_chain_lines mode (selective_default st) (selective_vpn_policy_ready st) (selective_degraded st)
                (flat_map fst (map (steering_of st) l)))) p =
  Some (apply_decision c (classify k mode st l p) p).
Proof.
  cbn [c_rules _build_classify_chain_lines]. unfold classify_prologue. cbn [app].
  rewrite run_local. unfold classify, always_direct. destruct (pk_local_dst p); [done|]. cbn [orb].
  rewrite (set_to_chain V4 "protected_ipv4" _ ToDirect) by done. destruct (dst_in k V4 "protected_ipv4" p); [done|].
  rewrite (set_to_chain V6 "protected_ipv6" _ ToDirect) by done. destruct (dst_in k V6 "protected_ipv6" p); [done|].
  rewrite run_ssh. cbn [orb]. destruct (to_port Tcp 22 p); [done|].
  rewrite subjects_run, mode_run. destruct (subjects_decision k st l p); try done.
  by destruct (mode_decision k mode st p).
Qed.
End Classify.

(** ** Idle rules *)

(** Statements that at most stop the rule. *)
Definition harmless (s : stmt) : Prop :=
  match s with
  | SAccept | SDrop | SReturn | SReject _ | SGoto _ | SJump _ | STproxy _ | SRedirect _ | SMarkSet _ => False
  | _ => True
  end.

Lemma harmless_stmt k s p : harmless s -> run_stmt k s p = Continue p \/ run_stmt k s p = NoMatch p.
Proof.
  assert (Hwhen : forall b : bool, (if b then Continue p else NoMatch p) = Continue p
            \/ (if b then Continue p else NoMatch p) = NoMatch p) by by intros []; auto.
  destruct s; intros Hs; try done; try apply Hwhen; by left.
Qed.

Lemma harmless_idle k r p : Forall harmless r -> idle k p r.
Proof.
  unfold idle. induction 1 as [|s r Hs _ IH]; [by left|]. cbn [run_rule].
  destruct (harmless_stmt k s p Hs) as [-> | ->]; auto.
Qed.

Section Idle.
Context `{ReprContainer}.

Lemma vpn_rx_harmless c slug rx val : Forall (Forall harmless) (vpn_rx_rules c slug rx val).
Proof. unfold vpn_rx_rules. repeat case_match; repeat constructor. Qed.

Lemma subject_counters_harmless c subject r :
  subject_counters c subject = Ok r ->
  Forall (Forall (Forall harmless)) [direct_counter_rules r; vpn_counter_rules r; direct_rx_counter_rules r; vpn_rx_counter_rules r].
Proof.
  intros (slug & _ & (m & _ & [= <-])%result_bind_ok)%result_bind_ok.
  destruct m as [[expr val family]|]; [|repeat constructor].
  repeat apply Forall_cons_2; cbn; repeat case_match; try apply vpn_rx_harmless; repeat constructor.
Qed.

Lemma counted_harmless (f : counters -> list rule) c subjects counted :
  (forall r, f r = direct_counter_rules r \/ f r = vpn_counter_rules r \/ f r = direct_rx_counter_rules r \/ f r = vpn_rx_counter_rules r) ->
  collect (subject_counters c) subjects = Ok counted -> Forall (Forall harmless) (flat_map f counted).
Proof.
  intros Hf Hc. apply Forall_forall. intros l Hl.
  apply list_elem_of_In, in_flat_map in Hl as (r & Hr & Hl). apply list_elem_of_In in Hr, Hl.
  destruct (collect_in _ _ _ Hc r Hr) as (s & _ & E).
  apply subject_counters_harmless in E. rewrite !Forall_cons in E. destruct E as (E1 & E2 & E3 & E4 & _).
  rewrite Forall_forall in E1, E2, E3, E4. destruct (Hf r) as [Hq|[Hq|[Hq|Hq]]]; rewrite Hq in Hl; auto.
Qed.

(** ** Terminal chains *)

Section Terminal.
Context (k : kernel) (sub : list rule -> packet -> option outcome) (cs : list chain).

Lemma harmless_run l rules p : Forall (Forall harmless) l ->
  run_rules k sub cs (l ++ rules) p = run_rules k sub cs rules p.
Proof. intros Hl. apply run_rules_idle. eapply Forall_impl; [exact Hl|]. intros r. apply harmless_idle. Qed.

Lemma direct_run counters p : Forall (Forall harmless) counters ->
  run_rules k sub cs (c_rules (_build_terminal_direct_chain_lines counters)) p = Some (Back p).
Proof. intros Hc. cbn [c_rules _build_terminal_direct_chain_lines]. by rewrite harmless_run. Qed.

Lemma run_mark mark r p :
  run_rule k (SMark false mark :: r) p = if has_mark mark p then run_rule k r p else NoMatch p.
Proof. cbn [run_rule run_stmt xorb]. unfold has_mark. by destruct (bool_decide _). Qed.

Lemma marked_proto mark p q : is_proto (marked mark p) q = is_proto p q.
Proof. unfold marked. by destruct (mark_of mark). Qed.

(** The rule that marks a protocol. *)
Lemma mark_rule_run q protos mark comment rules p :
  protos = (match q with Tcp => "tcp" | Udp => "udp" end) ->
  run_rules k sub cs ([SL4 protos; SMarkSet mark; SCounter; SComment comment] :: rules) p =
  run_rules k sub cs rules (if is_proto p q then marked mark p else p).
Proof.
  intros ->. rewrite run_rules_cons. cbn [run_rule run_stmt].
  replace (l4_match _ p) with (is_proto p q) by (by destruct q).
  destruct (is_proto p q); [|done]. unfold marked. by destruct (mark_of mark).
Qed.

Lemma terminal_vpn_run name port rport bypass mark udp tcp counters required p :
  Forall (Forall harmless) counters ->
  run_rules k sub cs (c_rules (_build_terminal_vpn_chain_lines name port rport bypass mark udp tcp counters required)) p =
  Some (vpn_effect port bypass (text_or tcp (_derive_tcp_redirect_mark_hex mark)) (text_or udp mark) p).
Proof.
  intros Hc. cbn [c_rules _build_terminal_vpn_chain_lines]. unfold vpn_effect, QUIC_REJECT.
  destruct (is_port port); cbn [negb orb]; [|by rewrite harmless_run].
  cbn [app]. rewrite run_rules_cons, run_mark. destruct (has_mark bypass p); [done|]. rewrite harmless_run by done.
  rewrite run_rules_cons, (run_dport k Udp "udp" "udp dport" "443" 443) by first [reflexivity|vm_compute; reflexivity].
  destruct (to_port Udp 443 p); [done|].
  rewrite (mark_rule_run Tcp), (mark_rule_run Udp) by done.
  destruct (is_proto p Tcp) eqn:Et; [rewrite marked_proto|].
  - unfold is_proto in Et |- *. apply bool_decide_eq_true in Et. rewrite Et. reflexivity.
  - destruct (is_proto p Udp); reflexivity.
Qed.
End Terminal.
End Idle.

(** ** Prerouting *)

Definition has_proto (p : packet) : bool := is_set (pk_proto p).
Definition dport_in (ports : list Z) (p : packet) : bool := existsb (Z.eqb (pk_dport p)) ports.

Definition dhcp (p : packet) : bool :=
  is_proto p Udp && ((pk_sport p =? 68) && (pk_dport p =? 67) || (pk_sport p =? 67) && (pk_dport p =? 68)).

Section Prerouting.
Context `{ReprContainer} `{Settings}.
Context (k : kernel) (c : contour) (st : steering_state) (mode : string) (lan : list string)
        (l : list (dict * option matcher3)) (vpn_counters : list rule).

Definition from_lan (p : packet) : bool := existsb (String.eqb (pk_iif p)) lan.

(** What prerouting settles before any subject is looked at. *)
Definition excluded (p : packet) : option verdict :=
  if pk_transparent p || has_mark (proxy_bypass_mark_hex c) p || src_in k V4 "infrastructure_ipv4" p || dhcp p
  then Some VAccept
  else if from_lan p && is_v V6 p then Some VReject
  else if from_lan p && has_proto p && dport_in [53] p then Some VAccept
  else if addr_match k "ip saddr" trusted_client_ipv4_nft_set p && dst_in k V4 "secure_dns_bypass_ipv4" p
          && has_proto p && dport_in [443; 853] p
  then Some VReject
  else None.

(** The listener that takes a marked UDP packet. *)
Definition tproxy_handoff (p : packet) : packet :=
  if handoff_wanted mode vpn_counters (vpn_tproxy_port c) && has_mark (vpn_fwmark_hex c) p && is_proto p Udp
  then with_handoff (ToTproxy (py_str (vpn_tproxy_port c))) p
  else if handoff_wanted mode vpn_counters (full_vpn_tproxy_port c) && has_mark (full_vpn_udp_fwmark_hex c) p
          && is_proto p Udp
  then with_handoff (ToTproxy (py_str (full_vpn_tproxy_port c))) p
  else p.

Definition prerouting (p : packet) : verdict * packet :=
  match excluded p with
  | Some v => (v, p)
  | None =>
      match apply_decision c (classify k mode st l p) p with
      | Settled v q => (v, q)
      | Back q => (VAccept, tproxy_handoff q)
      end
  end.

(** The hook's result of an outcome. *)
Definition hook_result (o : outcome) : verdict * packet :=
  match o with Back q => (VAccept, q) | Settled v q => (v, q) end.

Context (sub : list rule -> packet -> option outcome) (cs : list chain).

Lemma any_proto p : l4_match TCP_UDP p = has_proto p.
Proof. unfold TCP_UDP, l4_match, is_proto, has_proto. cbn [String.eqb Ascii.eqb Bool.eqb]. by destruct (pk_proto p) as [[]|]. Qed.

Lemma in_ports_list ports ns n : ports_of ports = ns -> in_ports ports n = existsb (Z.eqb n) ns.
Proof.
  intros <-. unfold in_ports. apply eq_iff_eq_true. rewrite bool_decide_eq_true, existsb_exists.
  setoid_rewrite <- list_elem_of_In. split; [intros Hn; exists n; by rewrite Z.eqb_refl|].
  by intros (m & Hm & ->%Z.eqb_eq).
Qed.

Lemma dhcp_rule sp dp a b r p :
  ports_of sp = [a] -> ports_of dp = [b] ->
  run_rule k (SPort "udp sport" sp :: SPort "udp dport" dp :: r) p =
  if is_proto p Udp && (pk_sport p =? a) && (pk_dport p =? b) then run_rule k r p else NoMatch p.
Proof.
  intros Ha Hb. cbn [run_rule run_stmt]. unfold port_match. cbn [String.eqb Ascii.eqb Bool.eqb].
  rewrite (in_ports_list sp [a] _ Ha). cbn [existsb]. rewrite orb_false_r.
  destruct (is_proto p Udp) eqn:Eu; cbn [andb]; [|done]. destruct (pk_sport p =? a) eqn:Es; cbn [andb]; [|done].
  rewrite Eu. cbn [andb]. rewrite (in_ports_list dp [b] _ Hb). cbn [existsb]. rewrite orb_false_r.
  by destruct (pk_dport p =? b).
Qed.

Lemma immunity_run bypass rules p :
  run_rules k sub cs (prerouting_immunity bypass ++ rules) p =
  if pk_transparent p || has_mark bypass p || src_in k V4 "infrastructure_ipv4" p || dhcp p
  then Some (Settled VAccept p) else run_rules k sub cs rules p.
Proof.
  unfold prerouting_immunity. cbn [app]. rewrite run_rules_cons. cbn [run_rule run_stmt].
  destruct (pk_transparent p); cbn [orb]; [done|]. rewrite run_rules_cons, run_mark.
  destruct (has_mark bypass p); cbn [orb]; [done|]. rewrite run_rules_cons. cbn [run_rule].
  rewrite run_stmt_src_v4. destruct (src_in k V4 "infrastructure_ipv4" p); cbn [orb]; [done|].
  rewrite run_rules_cons, (dhcp_rule "68" "67" 68 67) by (vm_compute; reflexivity).
  unfold dhcp. destruct (is_proto p Udp) eqn:Eu; cbn [andb].
  - destruct ((pk_sport p =? 68) && (pk_dport p =? 67)); cbn [orb]; [done|].
    rewrite run_rules_cons, (dhcp_rule "67" "68" 67 68) by (vm_compute; reflexivity). rewrite Eu. cbn [andb].
    by destruct ((pk_sport p =? 67) && (pk_dport p =? 68)).
  - rewrite run_rules_cons, (dhcp_rule "67" "68" 67 68) by (vm_compute; reflexivity). by rewrite Eu.
Qed.

(** One rule per interface, all with the same effect. *)
Lemma lan_rules_run (f : string -> rule) (b : bool) v rules p :
  (forall i, run_rule k (f i) p = if String.eqb (pk_iif p) i && b then Final v p else NoMatch p) ->
  run_rules k sub cs (map f lan ++ rules) p =
  if from_lan p && b then Some (Settled v p) else run_rules k sub cs rules p.
Proof.
  intros Hf. unfold from_lan. induction lan as [|i l' IH]; [done|]. cbn [map app existsb].
  rewrite run_rules_cons, Hf. destruct (String.eqb (pk_iif p) i); cbn [andb orb]; [|exact IH].
  destruct b; [done|]. rewrite IH. by rewrite andb_false_r.
Qed.

Lemma block_ipv6_run i p :
  run_rule k (block_ipv6_rule i) p = if String.eqb (pk_iif p) i && is_v V6 p then Final VReject p else NoMatch p.
Proof.
  unfold block_ipv6_rule, is_v. cbn [run_rule run_stmt xorb]. destruct (String.eqb (pk_iif p) i); cbn [andb]; [|done].
  destruct (a_ver (pk_src p)); reflexivity.
Qed.

Lemma allow_dns_run i p :
  run_rule k (allow_dns_rule i) p =
  if String.eqb (pk_iif p) i && (has_proto p && dport_in [53] p) then Final VAccept p else NoMatch p.
Proof.
  unfold allow_dns_rule. cbn [run_rule run_stmt xorb].
  destruct (String.eqb (pk_iif p) i); cbn [andb]; [|done]. rewrite any_proto. destruct (has_proto p) eqn:Eh; cbn [andb]; [|done].
  unfold port_match. cbn [String.eqb Ascii.eqb Bool.eqb]. rewrite (in_ports_list "53" [53]) by (vm_compute; reflexivity).
  unfold has_proto in Eh. destruct (pk_proto p); [|done]. unfold dport_in. rewrite bool_decide_eq_true_2 by eauto.
  cbn [andb]. by destruct (existsb _ _).
Qed.

Lemma secure_dns_prefix set val r p :
  run_rule k (SAddr "ip saddr" val :: SAddrSet "ip daddr" set :: r) p =
  if addr_match k "ip saddr" val p && dst_in k V4 set p then run_rule k r p else NoMatch p.
Proof.
  cbn [run_rule]. rewrite run_stmt_addr. destruct (addr_match k "ip saddr" val p); cbn [andb]; [|done].
  rewrite run_stmt_dst_v4. by destruct (dst_in k V4 set p).
Qed.

(** A rule for one protocol and some of its ports. *)
Lemma proto_ports_run q protos field ports ns r p :
  (protos, field) = (match q with Tcp => ("tcp", "tcp dport") | Udp => ("udp", "udp dport") end) ->
  ports_of ports = ns ->
  run_rule k (SL4 protos :: SPort field ports :: r) p =
  if is_proto p q && dport_in ns p then run_rule k r p else NoMatch p.
Proof.
  intros Hq Hp. cbn [run_rule run_stmt]. unfold dport_in.
  destruct q; injection Hq as -> ->; unfold l4_match, port_match; cbn [String.eqb Ascii.eqb Bool.eqb];
    (destruct (is_proto p _) eqn:E; cbn [andb]; [rewrite E; cbn [andb]|done]);
    rewrite (in_ports_list ports ns) by done; by destruct (existsb _ _).
Qed.

Lemma secure_dns_run rules p :
  run_rules k sub cs (secure_dns_rules trusted_client_ipv4_nft_set ++ rules) p =
  if addr_match k "ip saddr" trusted_client_ipv4_nft_set p && dst_in k V4 "secure_dns_bypass_ipv4" p
     && has_proto p && dport_in [443; 853] p
  then Some (Settled VReject p) else run_rules k sub cs rules p.
Proof.
  unfold secure_dns_rules. cbn [app]. rewrite run_rules_cons, secure_dns_prefix.
  destruct (addr_match _ _ _ p && dst_in _ _ _ p) eqn:E; cbn [andb];
    [|by rewrite run_rules_cons, secure_dns_prefix, E].
  rewrite (proto_ports_run Tcp _ _ _ [443; 853]) by first [reflexivity|vm_compute; reflexivity].
  assert (Hu : run_rules k sub cs ([SAddr "ip saddr" trusted_client_ipv4_nft_set; SAddrSet "ip daddr" "secure_dns_bypass_ipv4";
    SL4 "udp"; SPort "udp dport" "{ 443, 853 }"; SReject " with icmpx type port-unreachable";
    SComment "reject secure DNS bypass UDP from LAN"] :: rules) p =
    if is_proto p Udp && dport_in [443; 853] p then Some (Settled VReject p) else run_rules k sub cs rules p).
  { rewrite run_rules_cons, secure_dns_prefix, E.
    rewrite (proto_ports_run Udp _ _ _ [443; 853]) by first [reflexivity|vm_compute; reflexivity].
    by destruct (is_proto p Udp && _). }
  cbn [run_rule run_stmt]. unfold has_proto, is_proto in Hu |- *.
  set (d := dport_in [443; 853] p) in *. clearbody d.
  destruct (pk_proto p) as [[]|], d; first [reflexivity|exact Hu].
Qed.

Lemma tproxy_run mark port comment required rules p :
  run_rules k sub cs (tproxy_rule mark port comment required :: rules) p =
  if has_mark mark p && is_proto p Udp then Some (Settled VAccept (with_handoff (ToTproxy (py_str port)) p))
  else run_rules k sub cs rules p.
Proof.
  unfold tproxy_rule. rewrite run_rules_cons, run_mark. destruct (has_mark mark p); cbn [andb]; [|done].
  cbn [run_rule run_stmt]. change (l4_match "udp" p) with (is_proto p Udp). by destruct (is_proto p Udp).
Qed.

(** The entry chain does what the reference says. *)
Lemma prerouting_run required :
  (exists ch, chain_named cs "fwrouter_classify" = Some ch /\
     forall p, sub (c_rules ch) p = Some (apply_decision c (classify k mode st l p) p)) ->
  forall p, option_map hook_result (run_rules k sub cs (c_rules
    (_build_prerouting_entry_chain_lines (proxy_bypass_mark_hex c) (vpn_fwmark_hex c) (full_vpn_udp_fwmark_hex c)
       (vpn_tproxy_port c) (full_vpn_tproxy_port c) mode vpn_counters required lan trusted_client_ipv4_nft_set)) p)
  = Some (prerouting p).
Proof.
  intros (ch & E & Hs) p. cbn [c_rules _build_prerouting_entry_chain_lines]. rewrite immunity_run.
  unfold prerouting, excluded. destruct (_ || dhcp p); [done|].
  rewrite (lan_rules_run _ (is_v V6 p) VReject) by (intros i; apply block_ipv6_run).
  destruct (from_lan p && is_v V6 p); [done|].
  rewrite (lan_rules_run _ (has_proto p && dport_in [53] p) VAccept) by (intros i; apply allow_dns_run).
  rewrite andb_assoc. destruct (_ && dport_in [53] p); [done|].
  rewrite secure_dns_run. destruct (_ && dport_in [443; 853] p); [done|].
  cbn [app]. rewrite run_rules_cons. cbn [run_rule run_stmt]. rewrite E. cbn [mbind option_bind]. rewrite Hs.
  cbn [mbind option_bind]. destruct (apply_decision c _ p) as [q|v q]; [|done].
  unfold tproxy_handoff.
  destruct (handoff_wanted mode vpn_counters (vpn_tproxy_port c)); cbn [app andb]; rewrite ?tproxy_run;
    [destruct (has_mark (vpn_fwmark_hex c) q && is_proto q Udp); [done|]|];
    (destruct (handoff_wanted mode vpn_counters (full_vpn_tproxy_port c)); cbn [app andb]; rewrite ?tproxy_run;
      [by destruct (has_mark (full_vpn_udp_fwmark_hex c) q && is_proto q Udp)|done]).
Qed.
End Prerouting.

(** ** The rendered table *)

(** What steering reads from a manifest. *)
Record view := View {
  v_contour : contour;
  v_state : steering_state;
  v_mode : string;
  v_lan : list string;
  v_entries : list (dict * option matcher3);
  v_counted : list counters;
}.

Section Refines.
Context `{ReprContainer} `{Settings} `{NftSettings} `{RuleSources}.

Definition entry_of (subject : dict) : result (dict * option matcher3) :=
  m ← usable_matcher subject true; Ok (subject, m).

Definition view_of (manifest : pyval) : result view :=
  subjects ← of_py (manifest_subjects manifest);
  summary ← of_py (manifest_section "summary" manifest);
  preflight ← of_py (manifest_section "global_preflight" manifest);
  let c := read_contour (VDict preflight) in
  let active := List.filter is_active subjects in
  counted ← collect (subject_counters c)
    (List.filter (fun s => subject_needs_transparent_policy (Some (type_text s))) active);
  entries ← collect entry_of active;
  Ok (View c (read_steering summary preflight) (mode_of summary) (_resolve_lan_ingress_interfaces manifest) entries counted).

(** The reference of a view. *)
Definition decide_view (k : kernel) (v : view) (p : packet) : decision :=
  classify k (v_mode v) (v_state v) (v_entries v) p.

Definition prerouting_view (k : kernel) (v : view) (p : packet) : verdict * packet :=
  prerouting k (v_contour v) (v_state v) (v_mode v) (v_lan v) (v_entries v)
    (flat_map vpn_counter_rules (v_counted v)) p.

Lemma collect_entries st active steering :
  collect (subject_steering st) active = Ok steering ->
  exists l, collect entry_of active = Ok l /\ steering = map (steering_of st) l.
Proof.
  revert steering. induction active as [|s active IH]; intros steering; cbn [collect].
  - intros [= <-]. by exists [].
  - intros (r & (m & Em & [= <-])%result_bind_ok & (rest & Erest & [= <-])%result_bind_ok)%result_bind_ok.
    destruct (IH rest Erest) as (l & El & ->). exists ((s, m) :: l). cbn [collect].
    assert (E : entry_of s = Ok (s, m)) by (unfold entry_of; by rewrite Em). rewrite E.
    cbn [mbind result_bind]. by rewrite El.
Qed.

Lemma managed_classify_goes k c st mode required lan active subjects counted steering l :
  collect (subject_counters c) subjects = Ok counted ->
  collect (subject_steering st) active = Ok steering -> collect entry_of active = Ok l ->
  let cs := managed_chains c st mode required lan active counted steering in
  exists ch, chain_named cs "fwrouter_classify" = Some ch /\
    forall p, run_chain k 2 cs (c_rules ch) p = Some (apply_decision c (classify k mode st l p) p).
Proof.
  intros Hc Hs Hl cs. destruct (collect_entries st active steering Hs) as (l' & Hl' & Hst).
  assert (l' = l) as -> by congruence.
  assert (Hv : Forall (Forall harmless) (flat_map vpn_counter_rules counted)) by (eapply counted_harmless; [|exact Hc]; auto).
  assert (Hd : Forall (Forall harmless) (flat_map direct_counter_rules counted)) by (eapply counted_harmless; [|exact Hc]; auto).
  eexists. split; [reflexivity|]. intros p. cbn [run_chain]. rewrite Hst. apply classify_run.
  - eexists. split; [reflexivity|]. intros q. cbn [run_chain]. by apply direct_run.
  - eexists. split; [reflexivity|]. intros q. cbn [run_chain]. by apply terminal_vpn_run.
  - eexists. split; [reflexivity|]. intros q. cbn [run_chain]. by apply terminal_vpn_run.
Qed.

Lemma prerouting_rendered manifest loader t :
  owned_table manifest loader = Ok t -> core_bypass_enabled manifest = Some false ->
  exists v, view_of manifest = Ok v /\
    forall k p, run_hook k 3 (cand_chains t) "prerouting" p = Some (prerouting_view k v p).
Proof.
  intros [Hb|summary preflight subjects nft_sets ss counted steering scoped c st active
            _ Hsub _ Hsum Hpre _ _ Hcount Hsteer _]%owned_table_rendered Hn; [congruence|].
  destruct (collect_entries st active steering Hsteer) as (l & Hl & _).
  exists (View c st (mode_of summary) (_resolve_lan_ingress_interfaces manifest) l counted). split.
  { unfold view_of. rewrite Hsub, Hsum, Hpre. cbn [of_py mbind result_bind]. fold c active. rewrite Hcount.
    cbn [mbind result_bind]. by rewrite Hl. }
  intros k p. cbn [cand_chains].
  set (required := vpn_policy_required _ _ _ _ _). set (lan := _resolve_lan_ingress_interfaces manifest).
  pose proof (managed_classify_goes k c st (mode_of summary) required lan active _ counted steering l Hcount Hsteer Hl) as Hgo.
  unfold run_hook. change (chain_named _ "prerouting") with
    (Some (_build_prerouting_entry_chain_lines (proxy_bypass_mark_hex c) (vpn_fwmark_hex c) (full_vpn_udp_fwmark_hex c)
       (vpn_tproxy_port c) (full_vpn_tproxy_port c) (mode_of summary) (flat_map vpn_counter_rules counted) required lan
       trusted_client_ipv4_nft_set)).
  cbn [mbind option_bind].
  pose proof (prerouting_run k c st (mode_of summary) lan l (flat_map vpn_counter_rules counted) (run_chain k 2 _) _
                required Hgo p) as Hrun.
  unfold prerouting_view. cbn [v_contour v_state v_mode v_lan v_entries v_counted]. rewrite <- Hrun.
  cbn [run_chain]. destruct (run_rules k _ _ _ p) as [o|]; [|done]. cbn. by destruct o.
Qed.
End Refines.
