(* ===== verification/DataplaneRulesFacts.v ===== *)
(** * The sets hold exactly the addresses of the rules

    [build_nft_rule_sets] collapses the networks of the rules and of the
    protected lists.  Nothing is lost and nothing added: an address is in the
    printed elements of a set exactly when a rule, or a protected list, has
    a network with it. *)
From stdpp Require Import base list strings pretty gmap sorting.
From Stdlib Require Import ZArith Lia Ascii.
From S2P Require Import Prelude PyStr IpAddr IpAddrFacts IpCollapse PyVal NetworkContract RulesLargeList SubjectTaxonomy ScopedEgress Nft NftSets DataplaneRules.

Open Scope string_scope.
Open Scope Z_scope.
Open Scope list_scope.

(** A network read from an IPv4 text has no scope. *)
Lemma ip_ctor_v4 s a : ip_ctor V4 s = Some a -> a_scope a = "".
Proof.
  cbn [ip_ctor]. unfold ipv4_address. destruct (has_char _ s); [discriminate|].
  destruct (parse4 s); [|discriminate]. by intros [= <-].
Qed.

Lemma net_ctor_v4 s n : net_ctor V4 s = Some n -> unscoped n.
Proof.
  unfold net_ctor. destruct (py_split "/"%char s) as [|a [|m [|? ?]]]; try discriminate.
  - destruct (ip_ctor V4 a) as [x|] eqn:E; [|discriminate]. intros [= <-]. by apply mask_unscoped, (ip_ctor_v4 a).
  - destruct (ip_ctor V4 a) as [x|] eqn:E; [|discriminate]. cbn [mbind option_bind].
    destruct (make_netmask V4 m); [|discriminate]. intros [= <-]. by apply mask_unscoped, (ip_ctor_v4 a).
Qed.

Lemma ip_network_v4 s n : ip_network s = Some n -> n_ver n = V4 -> unscoped n.
Proof.
  unfold ip_network. destruct (net_ctor V4 s) as [m|] eqn:E; [intros [= <-] _; by eapply net_ctor_v4|].
  intros E6 Hv. apply net_ctor_wf in E6 as [_ E6]. congruence.
Qed.

(** No network of the version has a scope. *)
Definition scopeless (version : ipver) (values : list string) : Prop := Forall unscoped (networks_of_version version values).

(** An address in the range of its version. *)
Definition addr_valid (a : addr) : Prop := 0 <= a_int a < 2 ^ max_plen (a_ver a).

Lemma elem_of_networks version values n :
  n ∈ networks_of_version version values <-> (exists s, s ∈ values /\ ip_network s = Some n) /\ n_ver n = version.
Proof.
  unfold networks_of_version. rewrite list_elem_of_In, List.filter_In, bool_decide_eq_true, <- list_elem_of_In.
  by rewrite list_elem_of_omap.
Qed.

Lemma scopeless_v4 values : scopeless V4 values.
Proof. apply Forall_forall. intros n [(s & _ & E) Hv]%elem_of_networks. by eapply ip_network_v4. Qed.

Lemma scopeless_texts version values : Forall (fun s => no_scopes s = true) values -> scopeless version values.
Proof.
  intros Hs. rewrite Forall_forall in Hs. apply Forall_forall. intros n [(s & Hin & E) _]%elem_of_networks.
  eapply ip_network_unscoped; eauto.
Qed.

Lemma scopeless_app version l k : scopeless version l -> scopeless version k -> scopeless version (l ++ k).
Proof.
  unfold scopeless. rewrite !Forall_forall. intros Hl Hk n [(s & [Hin|Hin]%elem_of_app & E) Hv]%elem_of_networks;
    [apply Hl|apply Hk]; apply elem_of_networks; eauto.
Qed.

Lemma networks_good version values : scopeless version values -> Forall (good version) (networks_of_version version values).
Proof.
  unfold scopeless. rewrite !Forall_forall. intros Hs n Hn. pose proof (Hs n Hn) as Hu.
  apply elem_of_networks in Hn as [(s & _ & E) Hv]. split; [by eapply ip_network_wf|]. by split.
Qed.

Lemma reparse_nets nets : Forall net_wf nets -> omap ip_network (map str_net nets) = nets.
Proof.
  induction 1 as [|n nets Hn _ IH]; [done|].
  change (omap ip_network (map str_net (n :: nets)))
    with (match ip_network (str_net n) with
          | Some y => y :: omap ip_network (map str_net nets) | None => omap ip_network (map str_net nets) end).
  rewrite ip_network_str by done. by f_equal.
Qed.

Lemma in_nets_true nets a : in_nets nets a = true <-> exists n, n ∈ nets /\ net_has n a = true.
Proof. unfold in_nets. rewrite existsb_exists. by setoid_rewrite <- list_elem_of_In. Qed.

Lemma in_nets_cov version nets a : Forall (good version) nets -> addr_valid a ->
  in_nets nets a = true <-> a_ver a = version /\ cov version nets (a_int a).
Proof.
  intros Hg Ha. rewrite in_nets_true. unfold cov. rewrite Forall_forall in Hg. split.
  - intros (n & Hn & Hh). destruct (Hg n Hn) as (Hwf & Hv & _).
    apply net_has_covers in Hh; [|done|done]. pose proof (proj1 Hh) as Hv'. split; [congruence|].
    exists n. split; [done|]. replace version with (a_ver a) by congruence. done.
  - intros (Hv & n & Hn & Hc). exists n. split; [done|]. destruct (Hg n Hn) as (Hwf & _ & _).
    apply net_has_covers; [done|done|]. by rewrite Hv.
Qed.

(** An address one of the values has. *)
Definition listed (version : ipver) (values : list string) (a : addr) : Prop :=
  exists value n, value ∈ values /\ ip_network value = Some n /\ n_ver n = version /\ net_has n a = true.

(** The printed networks of a collapsed list. *)
Definition elements_have (elements : list string) (a : addr) : bool := in_nets (omap ip_network elements) a.

(** ** Lists of texts *)

Lemma listed_app version l k a : listed version (l ++ k) a <-> listed version l a \/ listed version k a.
Proof.
  unfold listed. setoid_rewrite elem_of_app. split.
  - intros (s & n & [Hs|Hs] & Hr); [left|right]; eauto.
  - intros [(s & n & Hs & Hr)|(s & n & Hs & Hr)]; exists s, n; auto.
Qed.

(** A printed collapsed list lists what it has. *)
Lemma listed_nets version nets a : Forall (good version) nets -> 
  listed version (map str_net nets) a <-> in_nets nets a = true.
Proof.
  intros Hg. rewrite in_nets_true. unfold listed. rewrite Forall_forall in Hg. split.
  - intros (s & n & Hs & En & _ & Hh). apply list_elem_of_fmap in Hs as (m & -> & Hm).
    rewrite ip_network_str in En by apply (Hg m Hm). injection En as <-. eauto.
  - intros (n & Hn & Hh). exists (str_net n), n. split_and!; [apply list_elem_of_fmap; eauto| | |done].
    + apply ip_network_str. by apply Hg.
    + by destruct (Hg n Hn) as (_ & ? & _).
Qed.

Lemma good_wf version nets : Forall (good version) nets -> Forall net_wf nets.
Proof. intros H. eapply Forall_impl; [exact H|]. by intros n []. Qed.

(** Collapsing keeps what is listed, and what nft reads of it. *)
Lemma collapse_listed version values : scopeless version values ->
  exists out, _collapse_network_values values version = Some out /\ scopeless version out /\
    forall a, addr_valid a ->
      (elements_have out a = true <-> listed version values a) /\ (listed version out a <-> listed version values a).
Proof.
  intros Hs. pose proof (networks_good version values Hs) as Hg.
  destruct (collapse_addresses_spec version _ Hg) as (nets & E & Hgood & _ & Hcov).
  exists (map str_net nets). unfold _collapse_network_values. rewrite E. split; [done|]. split.
  { apply Forall_forall. intros n [(s & Hin & En) _]%elem_of_networks.
    apply list_elem_of_fmap in Hin as (m & -> & Hm). rewrite Forall_forall in Hgood.
    destruct (Hgood m Hm) as (Hwf & _ & Hu). rewrite ip_network_str in En by done. by injection En as <-. }
  intros a Ha. rewrite listed_nets by done. unfold elements_have. rewrite reparse_nets by by eapply good_wf.
  split; [|]; rewrite (in_nets_cov version) by done; rewrite Hcov, <- (in_nets_cov version), in_nets_true by done;
    unfold listed; (split; [intros (n & [(s & ? & ?) ?]%elem_of_networks & ?); eauto 7|]);
    intros (s & n & ? & ? & ? & ?); exists n; (split; [apply elem_of_networks; eauto|done]).
Qed.

(** ** The sets of an artifact *)

Lemma scopeless_app_inv version l k : scopeless version (l ++ k) -> scopeless version l /\ scopeless version k.
Proof.
  unfold scopeless. rewrite !Forall_forall. intros H. split; intros n [(s & Hin & E) Hv]%elem_of_networks;
    apply H, elem_of_networks; (split; [|done]); exists s; rewrite elem_of_app; auto.
Qed.

Section Cover.
Context `{ReprContainer} `{RuleSources} `{Settings}.

Lemma host_network_total h : exists r, host_network h = Some r.
Proof.
  unfold host_network. destruct (ip_address (py_strip h)) as [a|] eqn:E; [|eauto].
  apply ip_address_wf in E. assert (Hwf : net_wf (Net a (max_plen (a_ver a)))).
  { split; [done|]. unfold n_ver, n_first. cbn [n_addr n_plen]. pose proof (max_plen_pos (a_ver a)). split; [lia|].
    rewrite Z.sub_diag. apply Z.mod_1_r. }
  pose proof (ip_network_str _ Hwf) as En. unfold str_net in En. cbn [n_addr n_plen] in En. rewrite En. cbn. eauto.
Qed.

Lemma proxy_networks_total : exists proxies, proxy_networks = Some proxies.
Proof.
  unfold proxy_networks. destruct custom_proxy_hosts as [hosts|]; [|eauto].
  destruct (py_map_some host_network (fun _ => True) (omap selected_host hosts)) as (found & -> & _); [|cbn; eauto].
  apply Forall_forall. intros h _. destruct (host_network_total h) as [r ->]. eauto.
Qed.

(** Everything that is protected, as written. *)
Definition protected_texts (version : ipver) (artifact : option dict) (proxies : list (ipver * string)) : list string :=
  let '(configured, key) :=
    match version with
    | V4 => (protected_ipv4_networks, "protected_ipv4")
    | V6 => (protected_ipv6_networks, "protected_ipv6")
    end in
  configured ++ texts_of_version version proxies
  ++ (if asks_interfaces artifact then texts_of_version version interface_networks else [])
  ++ default [] (explicit_protected key artifact).

(** The kinds of rule about addresses of a version, and the set of an action. *)
Definition kinds_of (version : ipver) : list string :=
  match version with V4 => ["ip"; "ipv4"; "ipv4_cidr"; "cidr"] | V6 => ["ipv6"; "ipv6_cidr"; "cidr"] end.
Definition set_of (action : string) (version : ipver) : target :=
  match version with
  | V4 => if String.eqb action "DIRECT" then DirectIpv4 else VpnIpv4
  | V6 => if String.eqb action "DIRECT" then DirectIpv6 else VpnIpv6
  end.

(** Some rule with the action, of a kind of the version, has the address. *)
Definition sent (rules : list dict) (action : string) (version : ipver) (a : addr) : Prop :=
  exists rule n, rule ∈ rules /\ rule_action rule = action /\ rule_kind rule ∈ kinds_of version /\
    ip_network (rule_value rule) = Some n /\ n_ver n = version /\ net_has n a = true.

Lemma by_action_iff action direct vpn text t value :
  by_action action direct vpn text = Some (t, value) <->
  value = text /\ ((action = "DIRECT" /\ t = direct) \/ (action = "VPN" /\ t = vpn)).
Proof.
  unfold by_action. destruct (String.eqb_spec action "DIRECT") as [->|Hd]; [|destruct (String.eqb_spec action "VPN") as [->|Hv]].
  - split; [intros [= -> ->]; auto|]. by intros (-> & [[_ ->]|[? _]]).
  - split; [intros [= -> ->]; auto|]. by intros (-> & [[? _]|[_ ->]]).
  - split; [done|]. by intros (_ & [[? _]|[? _]]).
Qed.

Lemma elem_of_values t v rules :
  v ∈ values_of t (omap rule_target rules) <-> exists rule, rule ∈ rules /\ rule_target rule = Some (t, v).
Proof.
  unfold values_of. rewrite list_elem_of_omap. split.
  - intros ([t' v'] & (rule & Hr & E)%list_elem_of_omap & E'). cbn in E'.
    destruct (bool_decide_reflect (t' = t)) as [->|]; [|done]. injection E' as ->. eauto.
  - intros (rule & Hr & E). exists (t, v). split; [apply list_elem_of_omap; eauto|]. cbn. by rewrite bool_decide_eq_true_2.
Qed.

(** The rules of one pair of sets: those with an action and a value. *)
Lemma by_action_set action version version' text act value : action ∈ ["DIRECT"; "VPN"] ->
  by_action act (set_of "DIRECT" version') (set_of "VPN" version') text = Some (set_of action version, value) <->
  act = action /\ version' = version /\ value = text.
Proof.
  rewrite by_action_iff, !elem_of_cons, elem_of_nil.
  intros [->|[->|[]]]; destruct version, version'; cbn; intuition congruence.
Qed.

Lemma set_of_domains action version : set_of action version <> DirectDomains /\ set_of action version <> VpnDomains.
Proof. by destruct version; cbn; destruct (String.eqb action "DIRECT"). Qed.

Lemma domain_target rule t value : is_domain_kind (rule_kind rule) = true -> rule_target rule = Some (t, value) ->
  t = DirectDomains \/ t = VpnDomains.
Proof.
  unfold rule_target. intros ->. case_match; [done|]. case_match; [done|]. case_match; [intros [= <- _]; auto|].
  rewrite by_action_iff. tauto.
Qed.

(** The text of a rule for addresses, and the version its kind says. *)
Definition address_text (rule : dict) : option (ipver * string) :=
  if bool_decide (rule_kind rule ∈ ["ip"; "ipv4"; "ipv4_cidr"]) then Some (V4, rule_value rule)
  else if bool_decide (rule_kind rule ∈ ["ipv6"; "ipv6_cidr"]) then Some (V6, rule_value rule)
  else if String.eqb (rule_kind rule) "cidr" then n ← ip_network (rule_value rule); Some (n_ver n, str_net n)
  else None.

Lemma address_target rule : rule_value rule <> "" -> is_domain_kind (rule_kind rule) = false ->
  rule_target rule
  = x ← address_text rule; by_action (rule_action rule) (set_of "DIRECT" x.1) (set_of "VPN" x.1) x.2.
Proof.
  intros Hv Hd. unfold rule_target, address_text. rewrite Hd.
  destruct (String.eqb_spec (rule_value rule) ""); [done|].
  destruct (String.eqb_spec (rule_kind rule) "ip") as [->|]; [done|].
  destruct (String.eqb_spec (rule_kind rule) "ipv4") as [->|]; [done|].
  destruct (String.eqb_spec (rule_kind rule) "ipv4_cidr") as [->|]; [done|]. cbn [orb].
  rewrite bool_decide_eq_false_2 by (rewrite !elem_of_cons, elem_of_nil; tauto).
  destruct (String.eqb_spec (rule_kind rule) "ipv6") as [->|]; [done|].
  destruct (String.eqb_spec (rule_kind rule) "ipv6_cidr") as [->|]; [done|]. cbn [orb].
  rewrite bool_decide_eq_false_2 by (rewrite !elem_of_cons, elem_of_nil; tauto).
  destruct (String.eqb (rule_kind rule) "cidr"); [|done].
  destruct (ip_network (rule_value rule)) as [m|]; [|done]. cbn. by destruct (n_ver m).
Qed.

Lemma address_text_iff rule version n : n_ver n = version ->
  (exists value, address_text rule = Some (version, value) /\ ip_network value = Some n) <->
  rule_kind rule ∈ kinds_of version /\ ip_network (rule_value rule) = Some n.
Proof.
  intros Hv. unfold address_text.
  destruct (bool_decide_reflect (rule_kind rule ∈ ["ip"; "ipv4"; "ipv4_cidr"])) as [H4|H4];
    [|destruct (bool_decide_reflect (rule_kind rule ∈ ["ipv6"; "ipv6_cidr"])) as [H6|H6];
      [|destruct (String.eqb_spec (rule_kind rule) "cidr") as [->|Hc]]].
  - rewrite !elem_of_cons, elem_of_nil in H4.
    split; [intros (v & [= <- <-] & E)|intros [Hk E]; exists (rule_value rule)]; (split; [|done]).
    + cbn. rewrite !elem_of_cons. tauto.
    + destruct version; [done|]. cbn in Hk. rewrite !elem_of_cons, elem_of_nil in Hk. intuition congruence.
  - rewrite !elem_of_cons, elem_of_nil in H6.
    split; [intros (v & [= <- <-] & E)|intros [Hk E]; exists (rule_value rule)]; (split; [|done]).
    + cbn. rewrite !elem_of_cons. tauto.
    + destruct version; [|done]. cbn in Hk. rewrite !elem_of_cons, elem_of_nil in Hk. intuition congruence.
  - assert (Hk : "cidr" ∈ kinds_of version) by (destruct version; cbn; rewrite !elem_of_cons; tauto).
    destruct (ip_network (rule_value rule)) as [m|] eqn:E; cbn.
    + pose proof (ip_network_str _ (ip_network_wf _ _ E)) as Es. split.
      * intros (v & [= <- <-] & En). split; [done|congruence].
      * intros [_ [= ->]]. exists (str_net n). by rewrite Hv.
    + split; [by intros (? & ? & ?)|by intros [_ ?]].
  - split; [by intros (? & ? & ?)|]. intros [Hk _]. exfalso.
    destruct version; cbn in Hk; rewrite !elem_of_cons, elem_of_nil in *; tauto.
Qed.

Lemma rule_target_iff rule action version n : action ∈ ["DIRECT"; "VPN"] -> n_ver n = version ->
  (exists value, rule_target rule = Some (set_of action version, value) /\ ip_network value = Some n) <->
  rule_action rule = action /\ rule_kind rule ∈ kinds_of version /\ ip_network (rule_value rule) = Some n.
Proof.
  intros Ha Hv. rewrite <- (address_text_iff rule version n Hv).
  destruct (String.eqb_spec (rule_value rule) "") as [Hval|Hval].
  { split.
    - intros (v & E & _). unfold rule_target in E. by rewrite Hval in E.
    - rewrite address_text_iff by done. intros (_ & _ & E). rewrite Hval in E. vm_compute in E. discriminate. }
  destruct (is_domain_kind (rule_kind rule)) eqn:Hd.
  { pose proof (set_of_domains action version). split.
    - intros (v & [?|?]%domain_target & _); tauto.
    - rewrite address_text_iff by done. intros (_ & Hk & _). exfalso. unfold is_domain_kind in Hd.
      rewrite orb_true_iff, !String.eqb_eq in Hd.
      destruct version; cbn in Hk; rewrite !elem_of_cons, elem_of_nil in Hk; intuition congruence. }
  rewrite address_target by done. split.
  - intros (v & E & En). destruct (address_text rule) as [[version' text]|]; [|done]. cbn in E.
    apply by_action_set in E as (-> & -> & ->); [|done]. eauto.
  - intros (<- & v & -> & En). exists v. split; [|done]. cbn. by apply by_action_set.
Qed.

Lemma sent_listed rules action version a : action ∈ ["DIRECT"; "VPN"] ->
  sent rules action version a <-> listed version (values_of (set_of action version) (omap rule_target rules)) a.
Proof.
  intros Ha. unfold sent, listed. split.
  - intros (rule & n & Hr & Hact & Hk & En & Hv & Hh).
    destruct (proj2 (rule_target_iff rule action version n Ha Hv)) as (v & Et & Ev); [done|].
    exists v, n. split; [|done]. apply elem_of_values. eauto.
  - intros (v & n & (rule & Hr & Et)%elem_of_values & Ev & Hv & Hh).
    destruct (proj1 (rule_target_iff rule action version n Ha Hv)) as (? & ? & ?); [eauto|]. exists rule, n. auto 7.
Qed.

(** Rules whose values have no scope send none. *)
Lemma values_scopeless rules action : action ∈ ["DIRECT"; "VPN"] -> scopeless V6 (map rule_value rules) ->
  scopeless V6 (values_of (set_of action V6) (omap rule_target rules)).
Proof.
  intros Ha Hs. apply Forall_forall. intros n [(v & (rule & Hr & Et)%elem_of_values & Ev) Hv]%elem_of_networks.
  destruct (proj1 (rule_target_iff rule action V6 n Ha Hv)) as (_ & _ & En); [eauto|].
  unfold scopeless in Hs. rewrite Forall_forall in Hs. apply Hs, elem_of_networks. split; [|done].
  exists (rule_value rule). split; [|done]. apply list_elem_of_fmap. eauto.
Qed.

Lemma local_collapsed artifact : scopeless V6 (if asks_interfaces artifact then texts_of_version V6 interface_networks else []) ->
  exists l4 l6, local_protected artifact = Some (l4, l6) /\ scopeless V6 l6 /\ forall a, addr_valid a ->
    (listed V4 l4 a <-> listed V4 (if asks_interfaces artifact then texts_of_version V4 interface_networks else []) a) /\
    (listed V6 l6 a <-> listed V6 (if asks_interfaces artifact then texts_of_version V6 interface_networks else []) a).
Proof.
  unfold local_protected. destruct (asks_interfaces artifact); intros Hs; [|exists [], []; split; [done|]; split; done].
  destruct (collapse_listed V4 _ (scopeless_v4 (texts_of_version V4 interface_networks))) as (l4 & E4 & _ & H4).
  destruct (collapse_listed V6 _ Hs) as (l6 & E6 & H6s & H6). exists l4, l6.
  unfold _discover_local_interface_protected_networks, collapse_both. rewrite E4, E6. split; [done|]. split; [done|].
  intros a Ha. split; [by apply H4|by apply H6].
Qed.

Lemma proxies_collapsed proxies : proxy_networks = Some proxies -> scopeless V6 (texts_of_version V6 proxies) ->
  exists l4 l6, _load_custom_proxy_protected_networks = Some (l4, l6) /\ scopeless V6 l6 /\ forall a, addr_valid a ->
    (listed V4 l4 a <-> listed V4 (texts_of_version V4 proxies) a) /\
    (listed V6 l6 a <-> listed V6 (texts_of_version V6 proxies) a).
Proof.
  intros Hp Hs. unfold _load_custom_proxy_protected_networks. rewrite Hp. cbn [mbind option_bind].
  destruct (collapse_listed V4 _ (scopeless_v4 (texts_of_version V4 proxies))) as (l4 & E4 & _ & H4).
  destruct (collapse_listed V6 _ Hs) as (l6 & E6 & H6s & H6). exists l4, l6.
  unfold collapse_both. rewrite E4, E6. split; [done|]. split; [done|].
  intros a Ha. split; [by apply H4|by apply H6].
Qed.

(** Building the sets never raises on a list of rules without IPv6
    scope ids, and an address is in the printed elements of a direct or VPN
    set exactly when some rule with that action, of a kind of the set's
    version, has a network with it, in a protected set exactly when a
    configured, observed or explicit protected network has it. *)
Theorem nft_rule_sets_cover artifact rules proxies :
  _rules_list artifact = Some rules -> proxy_networks = Some proxies ->
  scopeless V6 (protected_texts V6 artifact proxies) -> scopeless V6 (map rule_value rules) ->
  exists sets, build_nft_rule_sets artifact = Some sets /\ forall a, addr_valid a ->
    (elements_have (set_protected_ipv4 sets) a = true <-> listed V4 (protected_texts V4 artifact proxies) a) /\
    (elements_have (set_protected_ipv6 sets) a = true <-> listed V6 (protected_texts V6 artifact proxies) a) /\
    (elements_have (set_direct_ipv4 sets) a = true <-> sent rules "DIRECT" V4 a) /\
    (elements_have (set_direct_ipv6 sets) a = true <-> sent rules "DIRECT" V6 a) /\
    (elements_have (set_vpn_ipv4 sets) a = true <-> sent rules "VPN" V4 a) /\
    (elements_have (set_vpn_ipv6 sets) a = true <-> sent rules "VPN" V6 a).
Proof.
  intros Hr Hp Hs Hrs. cbn [protected_texts] in Hs.
  assert (Hd : "DIRECT" ∈ ["DIRECT"; "VPN"]) by apply list_elem_of_here.
  assert (Hv : "VPN" ∈ ["DIRECT"; "VPN"]) by apply list_elem_of_further, list_elem_of_here.
  pose proof (values_scopeless rules _ Hd Hrs) as Hd6. pose proof (values_scopeless rules _ Hv Hrs) as Hv6.
  apply scopeless_app_inv in Hs as [Hs1 Hs]. apply scopeless_app_inv in Hs as [Hs2 Hs].
  apply scopeless_app_inv in Hs as [Hs3 Hs4].
  destruct (proxies_collapsed proxies Hp Hs2) as (p4 & p6 & Ep & Hp6 & Hpl).
  destruct (local_collapsed artifact Hs3) as (l4 & l6 & El & Hl6 & Hll).
  set (e4 := default [] (explicit_protected "protected_ipv4" artifact)).
  set (e6 := default [] (explicit_protected "protected_ipv6" artifact)) in *.
  destruct (collapse_listed V4 _ (scopeless_v4 (protected_ipv4_networks ++ p4 ++ l4 ++ e4))) as (o4 & E4 & _ & H4).
  destruct (collapse_listed V6 (protected_ipv6_networks ++ p6 ++ l6 ++ e6)) as (o6 & E6 & _ & H6);
    [by repeat apply scopeless_app|].
  destruct (collapse_listed V4 _ (scopeless_v4 (values_of DirectIpv4 (omap rule_target rules)))) as (d4 & Ed4 & _ & Hd4).
  destruct (collapse_listed V6 _ Hd6) as (d6 & Ed6 & _ & Hd6').
  destruct (collapse_listed V4 _ (scopeless_v4 (values_of VpnIpv4 (omap rule_target rules)))) as (v4 & Ev4 & _ & Hv4).
  destruct (collapse_listed V6 _ Hv6) as (v6 & Ev6 & _ & Hv6').
  cbn [set_of String.eqb Ascii.eqb Bool.eqb] in Ed6, Ev6, Hd6', Hv6'.
  eexists. split.
  { unfold build_nft_rule_sets. rewrite Hr. cbn [mbind option_bind]. rewrite Ep. cbn [mbind option_bind]. rewrite El.
    cbn [mbind option_bind fst snd]. fold e4 e6. rewrite E4. cbn [mbind option_bind]. rewrite E6.
    cbn [mbind option_bind]. rewrite Ed4. cbn [mbind option_bind]. rewrite Ed6. cbn [mbind option_bind]. rewrite Ev4.
    cbn [mbind option_bind]. by rewrite Ev6. }
  intros a Ha. cbn [set_protected_ipv4 set_protected_ipv6 set_direct_ipv4 set_direct_ipv6 set_vpn_ipv4 set_vpn_ipv6].
  destruct (Hpl a Ha) as [Hp4 Hp6']. destruct (Hll a Ha) as [Hl4 Hl6']. rewrite !sent_listed by done.
  split; [rewrite (proj1 (H4 a Ha)); cbn [protected_texts]; rewrite !listed_app, Hp4, Hl4; tauto|].
  split; [rewrite (proj1 (H6 a Ha)); cbn [protected_texts]; rewrite !listed_app, Hp6', Hl6'; tauto|].
  split; [by apply Hd4|]. split; [by apply Hd6'|]. split; [by apply Hv4|by apply Hv6'].
Qed.
End Cover.

(** ** A concrete artifact *)

#[local] Instance cover_repr : ReprContainer := fun _ => "[...]".
#[local] Existing Instance default_settings.
#[local] Instance cover_sources : RuleSources :=
  {| PROTECTED_SERVICE_DOMAINS := ["tailscale.com"]; custom_proxy_hosts := Some [Some "203.0.113.7"; None];
     ip_address_show := IpFailed |}.

Definition cover_artifact : dict :=
  [("rules", VList [VDict [("action", VStr "VPN"); ("kind", VStr "cidr"); ("value", VStr "8.8.8.0/24")];
                    VDict [("action", VStr "DIRECT"); ("kind", VStr "ip"); ("value", VStr "9.9.9.9")]])].

Lemma nft_rule_sets_cover_witness : exists sets, build_nft_rule_sets (Some cover_artifact) = Some sets /\
  elements_have (set_vpn_ipv4 sets) (addr_of V4 134744072) = true.
Proof.
  destruct (nft_rule_sets_cover (Some cover_artifact)
              (default [] (_rules_list (Some cover_artifact))) (default [] proxy_networks)) as (sets & E & H).
  - vm_compute. reflexivity.
  - vm_compute. reflexivity.
  - apply scopeless_texts. vm_compute. repeat constructor.
  - apply scopeless_texts. vm_compute. repeat constructor.
  - exists sets. split; [exact E|].
    destruct (H (addr_of V4 134744072)) as (_ & _ & _ & _ & Hv & _); [vm_compute; split; [discriminate|reflexivity]|].
    apply Hv. eexists _, _. split; [left|]. split; [reflexivity|]. split; [vm_compute; repeat constructor|].
    split; [reflexivity|split; reflexivity].
Defined.

(** ** The protected IPv4 networks of a built set *)

Section Protected.
Context `{ReprContainer} `{RuleSources} `{Settings}.

(** A network the operator protects is in the protected set. *)
Lemma configured_protected artifact sets raw n a :
  build_nft_rule_sets artifact = Some sets ->
  raw ∈ set_protected_ipv4_networks -> ip_network (py_strip raw) = Some n -> n_ver n = V4 ->
  addr_valid a -> net_has n a = true -> elements_have (set_protected_ipv4 sets) a = true.
Proof.
  intros Hb Hraw En Hv Ha Hh. unfold build_nft_rule_sets in Hb.
  destruct (_rules_list artifact) as [rules|]; [cbn [mbind option_bind] in Hb|discriminate].
  destruct _load_custom_proxy_protected_networks as [proxy|]; [cbn [mbind option_bind] in Hb|discriminate].
  destruct (local_protected artifact) as [local|]; [cbn [mbind option_bind] in Hb|discriminate].
  cbv zeta in Hb.
  match type of Hb with
  | context [_collapse_network_values (protected_ipv4_networks ++ ?rest) V4] =>
      destruct (collapse_listed V4 _ (scopeless_v4 (protected_ipv4_networks ++ rest))) as (o4 & E4 & _ & H4)
  end.
  rewrite E4 in Hb. cbn [mbind option_bind] in Hb.
  repeat match type of Hb with
         | (match ?o with _ => _ end) = Some _ => destruct o; [cbn [mbind option_bind] in Hb|discriminate]
         | (mbind _ ?o) = Some _ => destruct o; [cbn [mbind option_bind] in Hb|discriminate]
         end.
  injection Hb as <-. cbn [set_protected_ipv4]. apply (proj1 (H4 a Ha)).
  exists (str_net n), n. rewrite elem_of_app. pose proof (ip_network_wf _ _ En) as Hwf. split.
  - left. unfold protected_ipv4_networks. apply (normalize_complete _ _ _ raw n Hraw En). cbn. by apply bool_decide_eq_true_2.
  - split; [by apply ip_network_str|]. by split.
Qed.
End Protected.
