(* ===== verification/NftPolicy.v ===== *)
(** * What the table does to traffic

    The properties of the rendered firewall, for every manifest and every
    packet: protected and management traffic is left alone, a VPN subject is
    handed to its listener, a degraded selective policy fails closed, a
    disabled subject's traffic is refused, bypass changes nothing. *)
From stdpp Require Import base list strings pretty gmap sorting.
From Stdlib Require Import ZArith Lia Ascii.
From S2P Require Import Prelude PyStr IpAddr PyVal NetworkContract SubjectTaxonomy DockerPolicy ScopedEgress Nft NftSets NftChains NftGuards DataplaneRules DataplaneRulesFacts NftRender NftText NftClosed NftSteer.

Open Scope string_scope.
Open Scope Z_scope.
Open Scope list_scope.

(** The kernel has the elements the table declares. *)
Definition loaded (k : kernel) (t : candidate) : Prop :=
  forall name nft_type elements, IntervalSet name nft_type elements ∈ cand_sets t ->
    forall a, k_set k name a = elements_have elements a.

(** Source and destination of one version, the destination in range. *)
Definition packet_ok (p : packet) : Prop := a_ver (pk_dst p) = a_ver (pk_src p) /\ addr_valid (pk_dst p).

Section Policy.
Context `{ReprContainer} `{Settings} `{NftSettings} `{RuleSources}.

(** The packet does not arrive with one of the marks the UDP handoff looks for. *)
Definition unmarked (manifest : pyval) (p : packet) : Prop :=
  forall preflight, manifest_section "global_preflight" manifest = Some preflight ->
    let c := read_contour (VDict preflight) in
    has_mark (vpn_fwmark_hex c) p = false /\ has_mark (full_vpn_udp_fwmark_hex c) p = false.

Definition full_accept (name : string) (cs : list chain) : Prop :=
  forall k p, run_hook k 3 cs name p = Some (VAccept, p).

(** ** Bypass *)

Definition BASE_CHAINS : list string := ["prerouting"; "input"; "output"; "forward"; "postrouting"].

(** While the core bypass is enabled the table is rendered whatever the
    rest of the manifest says, and each of its hooks accepts every packet
    unchanged. *)
Theorem bypass_inert manifest loader :
  core_bypass_enabled manifest = Some true ->
  exists t, owned_table manifest loader = Ok t /\
    forall name, name ∈ BASE_CHAINS -> forall k p, run_hook k 3 (cand_chains t) name p = Some (VAccept, p).
Proof.
  intros Hb. exists bypass_table. split; [unfold owned_table; by rewrite Hb|].
  intros name Hn k p. unfold BASE_CHAINS in Hn. rewrite !elem_of_cons in Hn.
  destruct Hn as [->|[->|[->|[->|[->|Hn]]]]]; try reflexivity. by apply elem_of_nil in Hn.
Qed.

(** ** Protected destinations *)

Lemma view_unmarked manifest v p : view_of manifest = Ok v -> unmarked manifest p ->
  has_mark (vpn_fwmark_hex (v_contour v)) p = false /\ has_mark (full_vpn_udp_fwmark_hex (v_contour v)) p = false.
Proof.
  intros Hv Hu. apply result_bind_ok in Hv as (subjects & _ & (summary & _ & Hv)%result_bind_ok).
  apply result_bind_ok in Hv as (preflight & Hp%of_py_ok & (counted & _ & (entries & _ & [= <-])%result_bind_ok)%result_bind_ok).
  exact (Hu preflight Hp).
Qed.

Lemma tproxy_unmarked c mode counters p :
  has_mark (vpn_fwmark_hex c) p = false -> has_mark (full_vpn_udp_fwmark_hex c) p = false ->
  tproxy_handoff c mode counters p = p.
Proof. intros Hm1 Hm2. unfold tproxy_handoff. by rewrite Hm1, Hm2, !andb_false_r. Qed.

(** What an exclusion other than accepting is for. *)
Lemma excluded_reject c k lan p v :
  excluded k c lan p = Some v -> v <> VDrop /\ (v = VReject -> is_v V6 p = true \/ dst_in k V4 "secure_dns_bypass_ipv4" p = true).
Proof.
  unfold excluded. case_match; [intros [= <-]; by split|]. case_match.
  { intros [= <-]. split; [done|]. intros _. left. by bool_simpl. }
  case_match; [intros [= <-]; by split|]. case_match; [|done]. intros [= <-]. split; [done|]. intros _. right. by bool_simpl.
Qed.

Lemma protected_v4_set manifest loader t k p raw n :
  owned_table manifest loader = Ok t -> core_bypass_enabled manifest = Some false -> loaded k t -> packet_ok p ->
  raw ∈ set_protected_ipv4_networks -> ip_network (py_strip raw) = Some n -> n_ver n = V4 ->
  net_has n (pk_dst p) = true -> dst_in k V4 "protected_ipv4" p = true.
Proof.
  intros [Hb|? ? ? nft_sets ? ? ? ? c st active _ _ _ _ _ Hsets _ _ _ _]%owned_table_rendered Hn Hl [Hver Hva] Hraw En Hv Hh;
    [congruence|].
  unfold dst_in, is_v. apply andb_true_iff. split.
  - apply bool_decide_eq_true. unfold net_has in Hh. apply andb_prop in Hh as [Hh _]. apply bool_decide_eq_true in Hh. congruence.
  - rewrite (Hl "protected_ipv4" "ipv4_addr" (set_protected_ipv4 nft_sets)) by (cbn [cand_sets]; left).
    exact (configured_protected _ _ raw n _ Hsets Hraw En Hv Hva Hh).
Qed.

(** Why a destination is direct before anything else is looked at. *)
Definition always_direct_reason (p : packet) : Prop :=
  pk_local_dst p = true \/ to_port Tcp 22 p = true \/
  exists raw n, raw ∈ set_protected_ipv4_networks /\ ip_network (py_strip raw) = Some n /\ n_ver n = V4 /\
    net_has n (pk_dst p) = true.

(** C2: whatever the mode, the subjects and the rules, a packet that arrives
    without one of the marks of the tproxy handoff and is for the router
    itself, for TCP port 22, or for an IPv4 network the operator protects
    passes prerouting without a mark or a handoff; it is never
    dropped, and refused only as IPv6 from the LAN or as a bypass of the
    secure DNS list. *)
Theorem protected_destination_direct manifest loader t k p :
  owned_table manifest loader = Ok t -> loaded k t -> packet_ok p -> unmarked manifest p -> always_direct_reason p ->
  exists v, run_hook k 3 (cand_chains t) "prerouting" p = Some (v, p) /\ v <> VDrop /\
    (v = VReject -> is_v V6 p = true \/ dst_in k V4 "secure_dns_bypass_ipv4" p = true).
Proof.
  intros Ht Hl Hp Hu Hd. destruct (core_bypass_enabled manifest) as [[|]|] eqn:Eb.
  - exists VAccept. apply owned_table_rendered in Ht as [_|]; [|congruence]. split; [reflexivity|]. by split.
  - destruct (prerouting_rendered manifest loader t Ht Eb) as (v & Hv & Hrun).
    assert (Ha : always_direct k p = true).
    { unfold always_direct. destruct Hd as [->|[->|(raw & n & Hraw & En & Hn & Hh)]]; [done|by rewrite !orb_true_r|].
      rewrite (protected_v4_set manifest loader t k p raw n) by done. by rewrite !orb_true_r. }
    rewrite Hrun. unfold prerouting_view, prerouting.
    destruct (excluded k (v_contour v) (v_lan v) p) as [e|] eqn:Ee.
    + exists e. split; [done|]. by eapply excluded_reject.
    + unfold classify. rewrite Ha. cbn [apply_decision]. exists VAccept.
      destruct (view_unmarked manifest v p Hv Hu) as [Hm1 Hm2]. rewrite tproxy_unmarked by done. split; [done|]. by split.
  - unfold owned_table in Ht. by rewrite Eb in Ht.
Qed.

(** ** A VPN subject *)

(** The inventory only changes the text of the value. *)
Lemma usable_without_inventory s m : usable_matcher s true = Ok (Some m) -> exists m', usable_matcher s false = Ok (Some m').
Proof.
  unfold usable_matcher, _scoped_matcher. destruct (dget "scoped_runtime" s) as [| | | | |scoped]; try discriminate.
  set (matcher := match dget "matcher" scoped with VDict m0 => m0 | _ => scoped end).
  destruct (negb (truthy (dget "nft_expr" matcher)) || negb (truthy (dget "value" matcher))); [discriminate|].
  set (expr := dget "nft_expr" matcher). set (val := dget "value" matcher).
  intros (r & (text & Ht & [= <-])%result_bind_ok & [= E])%result_bind_ok. cbn [m_expr m_val] in E.
  assert (Hval : String.eqb (py_str expr) "" = false /\ String.eqb (py_str val) "" = false).
  { destruct (String.eqb (py_str expr) ""); [discriminate|]. split; [done|]. cbn [orb] in E.
    destruct (dget "values" matcher) eqn:Ev; [injection Ht as <-; by destruct (String.eqb (py_str val) "")|..];
      unfold inventory_value in Ht; destruct (value_strings _) as [strs|]; try discriminate;
      destruct (py_map ip_address strs) as [parsed|]; try discriminate;
      destruct val as [| | |sv| |] eqn:Esv; cbn [parse_if_str] in Ht;
      try (destruct (expected_version _ _); discriminate);
      destruct (ip_address sv) as [a|] eqn:Ea; try discriminate;
      cbn [py_str]; destruct (String.eqb_spec sv ""); try done; subst; discriminate. }
  destruct Hval as [E1 E2']. cbn [mbind result_bind m_expr m_val]. rewrite E1, E2'. cbn [orb]. eauto.
Qed.

Lemma collect_has {A B} (f : A -> result B) l ys x :
  collect f l = Ok ys -> x ∈ l -> exists y, y ∈ ys /\ f x = Ok y.
Proof.
  revert ys. induction l as [|x' l IH]; cbn [collect]; intros ys; [by intros _ ?%elem_of_nil|].
  intros (y0 & E0 & (ys' & E & [= <-])%result_bind_ok)%result_bind_ok [->|Hx]%elem_of_cons.
  - exists y0. split; [by left|done].
  - destruct (IH ys' E Hx) as (y & Hy & Ey). exists y. split; [by right|done].
Qed.

Lemma view_entry manifest v s m : view_of manifest = Ok v -> (s, m) ∈ v_entries v ->
  usable_matcher s true = Ok m /\
  (subject_needs_transparent_policy (Some (type_text s)) = true ->
     exists r, r ∈ v_counted v /\ subject_counters (v_contour v) s = Ok r).
Proof.
  intros Hv Hin. apply result_bind_ok in Hv as (subjects & _ & (summary & _ & Hv)%result_bind_ok).
  apply result_bind_ok in Hv as (preflight & _ & (counted & Hc & (entries & He & [= <-])%result_bind_ok)%result_bind_ok).
  cbn [v_entries v_counted v_contour] in *. destruct (collect_in _ _ _ He _ Hin) as (s' & Hs' & Es').
  apply result_bind_ok in Es' as (m' & Em & [= -> ->]). split; [done|]. intros Hneeds.
  destruct (collect_has _ _ _ s Hc) as (r & Hr & Er); [|eauto].
  apply list_elem_of_In, List.filter_In. by rewrite <- list_elem_of_In.
Qed.

(** A subject with a matcher has traffic counters. *)
Lemma counted_vpn manifest v s m : view_of manifest = Ok v -> (s, Some m) ∈ v_entries v ->
  subject_needs_transparent_policy (Some (type_text s)) = true ->
  (length (flat_map vpn_counter_rules (v_counted v)) =? 0)%nat = false.
Proof.
  intros Hv Hin Hneeds. destruct (view_entry manifest v s (Some m) Hv Hin) as [Hm Hc].
  destruct (Hc Hneeds) as (r & Hr & Er). destruct (usable_without_inventory s m Hm) as [m' Hm'].
  unfold subject_counters in Er. apply result_bind_ok in Er as (slug & _ & Er). rewrite Hm' in Er.
  cbn [mbind result_bind] in Er. injection Er as <-. destruct m' as [expr val family].
  apply Nat.eqb_neq. intros Hlen. apply length_zero_iff_nil in Hlen.
  assert (Hx : [SAddr expr val; SCounterName (counter_name slug "_vpn_tx")] ∈ flat_map vpn_counter_rules (v_counted v)).
  { apply list_elem_of_In, in_flat_map. eexists. split; [by apply list_elem_of_In|]. cbn. by left. }
  rewrite Hlen in Hx. by apply elem_of_nil in Hx.
Qed.

(** The packet is the subject's: nothing before the subject's rules takes it. *)
Definition reaches (k : kernel) (v : view) (pre : list (dict * option matcher3)) (m : matcher3) (p : packet) : Prop :=
  excluded k (v_contour v) (v_lan v) p = None /\ always_direct k p = false /\
  Forall (fun x => subject_decision k (v_state v) x.1 x.2 p = Undecided) pre /\
  addr_match k (m_expr m) (m_val m) p = true.

Lemma reached_decision k v pre s m post p :
  v_entries v = pre ++ (s, Some m) :: post -> reaches k v pre m p ->
  path_decision k (v_state v) (_resolved_subject_path s) (m_family m) p <> Undecided ->
  classify k (v_mode v) (v_state v) (v_entries v) p
  = path_decision k (v_state v) (_resolved_subject_path s) (m_family m) p.
Proof.
  intros He (_ & Ha & Hpre & Hm) Hd. unfold classify. rewrite Ha, He.
  assert (E : subjects_decision k (v_state v) (pre ++ (s, Some m) :: post) p
              = path_decision k (v_state v) (_resolved_subject_path s) (m_family m) p).
  { clear He. induction Hpre as [|[s0 m0] pre Hx _ IH]; cbn [app subjects_decision fst snd] in *.
    - unfold subject_decision. rewrite Hm. by destruct (path_decision _ _ _ _ _).
    - rewrite Hx. exact IH. }
  rewrite E. by destruct (path_decision _ _ _ _ _).
Qed.

(** The contour's fwmark is hexadecimal with 0x, and the full-VPN listeners have ports. *)
Definition contour_ready (c : contour) (base : Z) : Prop :=
  py_startswith (vpn_fwmark_hex c) "0x" = true /\ mark_of (vpn_fwmark_hex c) = Some base /\ 0 <= base /\
  is_port (full_vpn_tproxy_port c) = true /\ is_port (full_vpn_redir_port c) = true.

Lemma contour_marks c base : contour_ready c base ->
  mark_of (full_vpn_udp_fwmark_hex c) = Some (base + 2) /\ mark_of (full_vpn_tcp_redirect_mark_hex c) = Some (base + 3) /\
  mark_of (_derive_tcp_redirect_mark_hex (vpn_fwmark_hex c)) = Some (base + 1).
Proof.
  intros (Hx & Hm & Hb & _). pose proof (py_int_hex_mark _ _ Hx Hm) as E.
  assert (Hd : default 256 (py_int_hex (vpn_fwmark_hex c)) = base) by by rewrite E.
  unfold full_vpn_udp_fwmark_hex, full_vpn_tcp_redirect_mark_hex, _derive_tcp_redirect_mark_hex.
  rewrite !mark_of_derived; rewrite Hd; [done|lia..].
Qed.

(** The nat hook hands the full-VPN TCP mark to the full-VPN listener. *)
Lemma prerouting_nat_rendered manifest loader t v k p :
  owned_table manifest loader = Ok t -> core_bypass_enabled manifest = Some false -> view_of manifest = Ok v ->
  run_hook k 3 (cand_chains t) "prerouting_nat" p =
  Some (VAccept,
    if is_port (vpn_redir_port (v_contour v)) && has_mark (_derive_tcp_redirect_mark_hex (vpn_fwmark_hex (v_contour v))) p
       && is_proto p Tcp
    then with_handoff (ToRedirect (py_str (vpn_redir_port (v_contour v)))) p
    else if is_port (full_vpn_redir_port (v_contour v)) && has_mark (full_vpn_tcp_redirect_mark_hex (v_contour v)) p
            && is_proto p Tcp
    then with_handoff (ToRedirect (py_str (full_vpn_redir_port (v_contour v)))) p
    else p).
Proof.
  intros [Hb|summary preflight subjects ? ? ? ? ? c st active _ Hsub _ Hsum Hpre _ _ _ _ _]%owned_table_rendered Hn Hv; [congruence|].
  apply result_bind_ok in Hv as (? & ?%of_py_ok & (summary' & Hsum'%of_py_ok & Hv)%result_bind_ok).
  apply result_bind_ok in Hv as (preflight' & Hp%of_py_ok & (? & _ & (? & _ & [= <-])%result_bind_ok)%result_bind_ok).
  assert (preflight' = preflight) as -> by congruence. cbn [v_contour]. fold c.
  assert (Hne : text_or (Some (full_vpn_tcp_redirect_mark_hex c)) (_derive_mark_hex (vpn_fwmark_hex c) 3) = full_vpn_tcp_redirect_mark_hex c) by done.
  unfold run_hook. cbn [cand_chains].
  change (chain_named _ "prerouting_nat") with (Some (_build_prerouting_nat_chain_lines (vpn_fwmark_hex c) (vpn_redir_port c)
    (Some (full_vpn_tcp_redirect_mark_hex c)) (full_vpn_redir_port c)
    (vpn_policy_required summary preflight (mode_of summary) (selective_default st) active))).
  cbn [mbind option_bind run_chain]. cbn [c_rules _build_prerouting_nat_chain_lines]. unfold redirect_rules. rewrite Hne.
  set (cs := managed_chains _ _ _ _ _ _ _ _).
  assert (Hr : forall mark port comment required rules q,
    run_rules k (run_chain k 2 cs) cs (redirect_rule mark port comment required :: rules) q =
    if has_mark mark q && is_proto q Tcp then Some (Settled VAccept (with_handoff (ToRedirect (py_str port)) q))
    else run_rules k (run_chain k 2 cs) cs rules q).
  { intros mark port comment required rules q. unfold redirect_rule. rewrite run_rules_cons, run_mark.
    destruct (has_mark mark q); cbn [andb]; [|done]. cbn [run_rule run_stmt].
    change (l4_match "tcp" q) with (is_proto q Tcp). by destruct (is_proto q Tcp). }
  destruct (is_port (vpn_redir_port c)); cbn [app andb]; rewrite ?Hr;
    [destruct (has_mark _ p && is_proto p Tcp); [done|]|];
    (destruct (is_port (full_vpn_redir_port c)); cbn [app andb]; rewrite ?Hr;
       [by destruct (has_mark _ p && is_proto p Tcp)|done]).
Qed.

(** C26: outside the core bypass and with a configured contour, a packet of an active subject on the VPN path that no exclusion,
    protected destination or earlier subject takes is marked for the
    full VPN in every mode: TCP with the fwmark plus 3, which the nat hook
    redirects to the full-VPN redirect listener, UDP other than QUIC with
    the fwmark plus 2, which goes to the full-VPN tproxy listener; QUIC is
    refused. *)
Theorem vpn_subject_handed_off manifest loader t v base k p pre s m post :
  owned_table manifest loader = Ok t -> core_bypass_enabled manifest = Some false -> view_of manifest = Ok v ->
  v_entries v = pre ++ (s, Some m) :: post -> _resolved_subject_path s = "vpn" ->
  subject_needs_transparent_policy (Some (type_text s)) = true ->
  contour_ready (v_contour v) base -> reaches k v pre m p ->
  let hook name := run_hook k 3 (cand_chains t) name in
  (is_proto p Tcp = true ->
     hook "prerouting" p = Some (VAccept, with_mark (base + 3) p) /\
     hook "prerouting_nat" (with_mark (base + 3) p)
     = Some (VAccept, with_handoff (ToRedirect (py_str (full_vpn_redir_port (v_contour v)))) (with_mark (base + 3) p))) /\
  (is_proto p Udp = true -> to_port Udp 443 p = false ->
     hook "prerouting" p
     = Some (VAccept, with_handoff (ToTproxy (py_str (full_vpn_tproxy_port (v_contour v)))) (with_mark (base + 2) p))) /\
  (to_port Udp 443 p = true -> hook "prerouting" p = Some (VReject, p)).
Proof.
  intros Ht Hb Hv He Hpath Hneeds Hc Hr hook.
  destruct (prerouting_rendered manifest loader t Ht Hb) as (v' & Hv' & Hrun). assert (v' = v) as -> by congruence.
  destruct (contour_marks _ _ Hc) as (Mu & Mt & M1). destruct Hc as (Hx & M0 & Hb0 & Htp & Hrp).
  pose proof (reached_decision k v pre s m post p He Hr) as Hd. rewrite Hpath in Hd. cbn in Hd.
  specialize (Hd ltac:(done)). destruct Hr as (Hex & _).
  assert (Hbypass : has_mark (proxy_bypass_mark_hex (v_contour v)) p = false).
  { unfold excluded in Hex. destruct (has_mark _ p); [|done]. by rewrite orb_true_r in Hex. }
  assert (Hhook : hook "prerouting" p = Some
    match vpn_effect (full_vpn_tproxy_port (v_contour v)) (proxy_bypass_mark_hex (v_contour v))
        (full_vpn_tcp_redirect_mark_hex (v_contour v)) (full_vpn_udp_fwmark_hex (v_contour v)) p with
    | Settled vd q => (vd, q)
    | Back q => (VAccept, tproxy_handoff (v_contour v) (v_mode v) (flat_map vpn_counter_rules (v_counted v)) q) end).
  { unfold hook. rewrite Hrun. unfold prerouting_view, prerouting. rewrite Hex, Hd. reflexivity. }
  unfold vpn_effect in Hhook. rewrite Htp, Hbypass in Hhook. cbn [negb orb] in Hhook.
  assert (Hwant : forall port, is_port port = true -> handoff_wanted (v_mode v) (flat_map vpn_counter_rules (v_counted v)) port = true).
  { intros port Hport. unfold handoff_wanted. rewrite Hport, andb_true_r, (counted_vpn manifest v s m Hv), orb_true_r; [done| |done].
    rewrite He. apply elem_of_app. right. by left. }
  split; [|split].
  - intros Htcp. assert (Hu : is_proto p Udp = false).
    { unfold is_proto in *. bool_simpl. apply bool_decide_eq_false. congruence. }
    assert (Hq : to_port Udp 443 p = false) by (unfold to_port; by rewrite Hu).
    rewrite Hhook, Hq, Htcp. unfold marked. rewrite Mt.
    split.
    + do 2 f_equal. unfold tproxy_handoff. change (is_proto (with_mark (base + 3) p) Udp) with (is_proto p Udp).
      by rewrite Hu, !andb_false_r.
    + unfold hook. rewrite (prerouting_nat_rendered manifest loader t v) by done.
      rewrite Hrp. unfold has_mark. rewrite Mt, M1. cbn [with_mark pk_mark].
      rewrite bool_decide_eq_false_2 by (intros [= E]; lia). rewrite andb_false_r, bool_decide_eq_true_2 by done.
      change (is_proto (with_mark (base + 3) p) Tcp) with (is_proto p Tcp). by rewrite Htcp.
  - intros Hudp Hq. assert (Htcp : is_proto p Tcp = false).
    { unfold is_proto in *. bool_simpl. apply bool_decide_eq_false. congruence. }
    rewrite Hhook, Hq, Htcp, Hudp. unfold marked. rewrite Mu. do 2 f_equal. unfold tproxy_handoff.
    rewrite (Hwant (full_vpn_tproxy_port (v_contour v))) by done.
    unfold has_mark. rewrite M0, Mu. cbn [with_mark pk_mark].
    rewrite bool_decide_eq_false_2 by (intros [= E]; lia). rewrite andb_false_r, bool_decide_eq_true_2 by done.
    change (is_proto (with_mark (base + 2) p) Udp) with (is_proto p Udp). by rewrite Hudp.
  - intros Hq. by rewrite Hhook, Hq.
Qed.

(** ** A degraded selective policy *)

(** C21: the selective mode fails closed. Outside the core bypass, in
    selective mode, while the VPN policy is not ready, take a packet that the
    prologue leaves alone (it is not excluded, as infrastructure, DHCP or LAN
    DNS are, and it is not for the router itself, TCP port 22 or a protected
    network, which go directly in any case), that no subject decides and
    whose destination is in no direct set. It is dropped when its destination
    is in a VPN set of its family, and whatever its destination when the
    selective default is the VPN. *)
Theorem selective_fails_closed manifest loader t v k p :
  owned_table manifest loader = Ok t -> core_bypass_enabled manifest = Some false -> view_of manifest = Ok v ->
  v_mode v = "selective" -> selective_vpn_policy_ready (v_state v) = false ->
  excluded k (v_contour v) (v_lan v) p = None -> always_direct k p = false ->
  subjects_decision k (v_state v) (v_entries v) p = Undecided ->
  dst_in k V4 "direct_ipv4" p = false -> dst_in k V4 "dns_direct_ipv4" p = false -> dst_in k V6 "direct_ipv6" p = false ->
  (dst_in k V4 "vpn_ipv4" p || dst_in k V4 "dns_vpn_ipv4" p || dst_in k V6 "vpn_ipv6" p = true
   \/ selective_default (v_state v) = "vpn") ->
  run_hook k 3 (cand_chains t) "prerouting" p = Some (VDrop, p).
Proof.
  intros Ht Hb Hv Hm Hready Hex Ha Hs H4 H4' H6 Hor.
  destruct (prerouting_rendered manifest loader t Ht Hb) as (v' & Hv' & Hrun). assert (v' = v) as -> by congruence.
  rewrite Hrun. unfold prerouting_view, prerouting. rewrite Hex. unfold classify. rewrite Ha, Hs, Hm. cbn [or_else].
  assert (Hd : mode_decision k "selective" (v_state v) p = Blocked); [|by rewrite Hd].
  unfold mode_decision, by_sets_v4, by_sets_v6. cbn [String.eqb Ascii.eqb Bool.eqb]. rewrite H4, H4', H6, Hready.
  cbn [orb when_ready]. destruct (dst_in k V4 "vpn_ipv4" p || dst_in k V4 "dns_vpn_ipv4" p); [done|]. cbn [or_else].
  destruct (dst_in k V6 "vpn_ipv6" p); [done|]. cbn [or_else]. destruct Hor as [Hor|Hor]; [done|]. by rewrite Hor.
Qed.
End Policy.

(** ** The refinement *)

Section Refinement.
Context `{ReprContainer} `{Settings} `{NftSettings} `{RuleSources}.

(** C32: the prerouting hook of every table rendered outside the core bypass is the reference
    [prerouting], a decision over the subjects, sets and ports of the
    manifest: exclusions, the destinations that are always direct, the first
    subject that decides, the mode, and the handoff of marked UDP. *)
Theorem prerouting_refines manifest loader t :
  owned_table manifest loader = Ok t -> core_bypass_enabled manifest = Some false ->
  exists v, view_of manifest = Ok v /\
    forall k p, run_hook k 3 (cand_chains t) "prerouting" p = Some (prerouting_view k v p).
Proof. exact (prerouting_rendered manifest loader t). Qed.
End Refinement.

(** ** A kernel with the declared elements *)

Definition declared_kernel (t : candidate) : kernel :=
  Kernel (fun name a =>
            match List.find (fun s => String.eqb (set_name s) name) (cand_sets t) with
            | Some (IntervalSet _ _ elements) => elements_have elements a
            | _ => false
            end)
         (fun _ _ _ => false).

(** Where the set names differ, that kernel is loaded. *)
Lemma declared_loaded t : NoDup (map set_name (cand_sets t)) -> loaded (declared_kernel t) t.
Proof.
  intros Hnd name nft_type elements Hin a. cbn [k_set declared_kernel].
  induction (cand_sets t) as [|s l IH]; [by apply elem_of_nil in Hin|]. cbn [map] in Hnd.
  apply NoDup_cons in Hnd as [Hn Hnd]. cbn [List.find]. apply elem_of_cons in Hin as [<-|Hin].
  - cbn [set_name]. by rewrite String.eqb_refl.
  - destruct (String.eqb_spec (set_name s) name) as [E|_]; [|by apply IH]. exfalso. apply Hn. rewrite E.
    apply list_elem_of_fmap. by exists (IntervalSet name nft_type elements).
Qed.

(** ** Witnesses *)

#[local] Existing Instance sample_repr.
#[local] Existing Instance sample_nft_settings.
#[local] Existing Instance sample_sources.
#[local] Existing Instance default_settings.

Definition sample_kernel : kernel := declared_kernel sample_table.

Lemma sample_loaded : loaded sample_kernel sample_table.
Proof. apply declared_loaded. apply (bool_decide_unpack _). vm_compute. exact I. Qed.

Lemma sample_not_bypass : core_bypass_enabled sample_manifest = Some false.
Proof. vm_compute. reflexivity. Qed.

Definition no_counters : view := View (read_contour VNone) (SteeringState "" false false) "" [] [] [].
Definition sample_view : view := match view_of sample_manifest with Ok v => v | Raise _ => no_counters end.

Lemma sample_view_of : view_of sample_manifest = Ok sample_view.
Proof. vm_compute. reflexivity. Qed.

Lemma prerouting_refines_witness :
  run_hook sample_kernel 3 (cand_chains sample_table) "prerouting" sample_packet = Some (VAccept, with_mark 259 sample_packet).
Proof.
  destruct (prerouting_refines sample_manifest VNone sample_table sample_rendered sample_not_bypass) as (v & Hv & Hrun).
  rewrite sample_view_of in Hv. injection Hv as <-. rewrite Hrun. vm_compute. reflexivity.
Defined.

Lemma bypass_inert_witness :
  exists t, owned_table (VDict [("extra", VDict [("core_bypass", VDict [("enabled", VBool true)])])]) VNone = Ok t /\
    run_hook sample_kernel 3 (cand_chains t) "forward" sample_packet = Some (VAccept, sample_packet).
Proof.
  destruct (bypass_inert (VDict [("extra", VDict [("core_bypass", VDict [("enabled", VBool true)])])]) VNone eq_refl) as (t & Ht & H).
  exists t. split; [exact Ht|]. apply H. unfold BASE_CHAINS. right. right. right. left.
Defined.

(** To the router's own network. *)
Definition local_packet : packet :=
  Packet (addr_of V4 3232235781) (addr_of V4 3232235783) (Some Tcp) 40000 443 "eth1" "eth0" None false false 0 None.

Lemma protected_destination_direct_witness : exists v,
  run_hook sample_kernel 3 (cand_chains sample_table) "prerouting" local_packet = Some (v, local_packet) /\ v <> VDrop.
Proof.
  destruct (protected_destination_direct sample_manifest VNone sample_table sample_kernel local_packet
              sample_rendered sample_loaded) as (v & Hv & Hd & _).
  - split; [reflexivity|]. vm_compute. split; [discriminate|reflexivity].
  - intros preflight Hp. vm_compute in Hp. injection Hp as <-. split; vm_compute; reflexivity.
  - right. right. exists "192.168.0.0/16", (Net (addr_of V4 3232235520) 16).
    split; [apply (bool_decide_unpack _); vm_compute; exact I|]. split; [vm_compute; reflexivity|]. split; vm_compute; reflexivity.
  - exists v. split; [exact Hv|exact Hd].
Defined.

Lemma vpn_subject_handed_off_witness :
  run_hook sample_kernel 3 (cand_chains sample_table) "prerouting" sample_packet = Some (VAccept, with_mark (256 + 3) sample_packet).
Proof.
  destruct (vpn_subject_handed_off sample_manifest VNone sample_table sample_view 256 sample_kernel sample_packet []
              sample_subject (Matcher3 "ip saddr" "192.168.1.5" "ipv4") []
              sample_rendered sample_not_bypass sample_view_of) as (Htcp & _).
  - vm_compute. reflexivity.
  - vm_compute. reflexivity.
  - vm_compute. reflexivity.
  - repeat split; vm_compute; first [reflexivity|discriminate].
  - split; [vm_compute; reflexivity|]. split; [vm_compute; reflexivity|]. split; [constructor|vm_compute; reflexivity].
  - apply Htcp. vm_compute. reflexivity.
Defined.

(** The sample with a policy that is not ready and no subject. *)
Definition degraded_manifest : pyval :=
  VDict [("summary", VDict [("global_mode", VStr "selective")]);
         ("global_preflight", VDict [("vpn_contour", VDict [("tproxy_port", VInt 5203); ("redir_port", VInt 5202)])]);
         ("extra", VDict [("rules_effective",
           VDict [("rules", VList [VDict [("action", VStr "VPN"); ("kind", VStr "cidr"); ("value", VStr "8.8.8.0/24")]])])])].

Definition degraded_table : candidate :=
  match owned_table degraded_manifest VNone with Ok t => t | Raise _ => bypass_table end.
Definition degraded_view : view := match view_of degraded_manifest with Ok v => v | Raise _ => no_counters end.

Lemma selective_fails_closed_witness :
  run_hook (declared_kernel degraded_table) 3 (cand_chains degraded_table) "prerouting" sample_packet = Some (VDrop, sample_packet).
Proof.
  apply (selective_fails_closed degraded_manifest VNone degraded_table degraded_view); try (vm_compute; reflexivity).
  left. vm_compute. reflexivity.
Defined.
