(* ===== verification/NftGuardFacts.v ===== *)
(** * The guards of the table

    The forward and input chains of every rendered table as functions of the
    packet: who is refused, which listeners are closed to strangers, and that
    the ports of the control plane stay open. *)
From stdpp Require Import base list strings pretty gmap sorting.
From Stdlib Require Import ZArith Lia Ascii.
From S2P Require Import Prelude PyStr IpAddr PyVal NetworkContract SubjectTaxonomy DockerPolicy ScopedEgress Nft NftSets NftChains NftGuards DataplaneRules NftRender NftText NftClosed NftSteer.

Open Scope string_scope.
Open Scope Z_scope.
Open Scope list_scope.

Section Guards.
Context `{ReprContainer}.
Context (k : kernel) (sub : list rule -> packet -> option outcome) (cs : list chain).

(** ** Forward *)

(** The address of a keyed rule. *)
Definition key_match (x : keyed_rule) (p : packet) : bool := addr_match k x.1.1.1 x.1.1.2 p.

Definition is_reject_line (x : keyed_rule) : Prop := exists comment, x.2 = reject_line x.1.1.1 x.1.1.2 comment.

(** Dropping the repeated keys does not change what is refused. *)
Lemma first_rules_run l rules p : Forall is_reject_line l ->
  forall seen, (forall key, key ∈ seen -> addr_match k key.1.1 key.1.2 p = false) ->
  run_rules k sub cs (first_rules seen l ++ rules) p =
  if existsb (fun x => key_match x p) l then Some (Settled VReject p) else run_rules k sub cs rules p.
Proof.
  induction 1 as [|[[[e v] d] line] l [comment Hx] _ IH]; intros seen Hseen; [done|]. cbn [fst snd] in Hx. subst line.
  cbn [first_rules existsb]. unfold key_match at 1. cbn [fst snd].
  destruct (decide ((e, v, d) ∈ seen)) as [Hin|Hn].
  - pose proof (Hseen _ Hin) as Hk. cbn [fst snd] in Hk. rewrite Hk. by apply IH.
  - cbn [app]. rewrite run_rules_cons. unfold reject_line. cbn [run_rule]. rewrite run_stmt_addr.
    destruct (addr_match k e v p) eqn:E; [done|]. cbn [orb]. apply IH.
    intros key [->|Hk]%elem_of_cons; [exact E|by apply Hseen].
Qed.

Lemma forward_reject_lines s : Forall is_reject_line (forward_candidates s).
Proof.
  unfold forward_candidates. destruct (scoped_matcher_of s); [|constructor]. cbn zeta. destruct (_ || _); [constructor|].
  destruct (_reverse_ip_expr _); repeat constructor; eexists; reflexivity.
Qed.

(** The packet is from or to the address of a disabled subject. *)
Definition forward_blocked (active_subjects : list dict) (p : packet) : bool :=
  existsb (fun s => existsb (fun x => key_match x p) (forward_candidates s)) (omap guarded (map VDict active_subjects)).

Lemma existsb_flat_map {A B} (f : A -> list B) (q : B -> bool) l :
  existsb q (flat_map f l) = existsb (fun x => existsb q (f x)) l.
Proof. induction l as [|x l IH]; [done|]. cbn [flat_map existsb]. by rewrite existsb_app, IH. Qed.

Lemma forward_guard_run subjects rules p :
  run_rules k sub cs (_build_disabled_forward_guard_lines (map VDict subjects) ++ rules) p =
  if forward_blocked subjects p then Some (Settled VReject p) else run_rules k sub cs rules p.
Proof.
  unfold _build_disabled_forward_guard_lines, forward_blocked.
  rewrite first_rules_run; [by rewrite existsb_flat_map| |by intros key ?%elem_of_nil].
  apply flat_Forall, forward_reject_lines.
Qed.

(** ** Input: disabled listeners *)

Definition on_port (q : proto) (ports : list Z) (p : packet) : bool := is_proto p q && bool_decide (pk_dport p ∈ ports).

Definition from_lo (p : packet) : bool := String.eqb (pk_iif p) "lo".

Definition proto_text (q : proto) : string := match q with Tcp => "tcp" | Udp => "udp" end.

Lemma iif_run neg r p :
  run_rule k (SIifname neg "lo" :: r) p = if xorb neg (from_lo p) then run_rule k r p else NoMatch p.
Proof. cbn [run_rule run_stmt]. unfold from_lo. by destruct (xorb neg _). Qed.

Lemma listener_ports_valid subjects :
  Forall (fun x : listener_port => 0 < x.1.2 <= 65535 /\ x.1.2 ∉ CONTROL_PLANE_INPUT_PORTS)
    (flat_map listener_ports subjects).
Proof.
  apply flat_Forall. intros s. unfold listener_ports. destruct (dget "network_listeners" s) as [| | | |l|]; try constructor.
  apply Forall_forall. intros [[proto port] sid] Hin. apply list_elem_of_omap in Hin as (v & _ & E).
  unfold listener_port_of in E. destruct v as [| | | | |d]; try discriminate. cbv zeta in E.
  destruct (_ || _); [|discriminate]. unfold _as_nft_port in E.
  destruct (py_int (dget "port" d)) as [n|]; [|discriminate]. cbn [mbind option_bind] in E.
  destruct ((0 <? n) && (n <=? 65535)) eqn:En; [|discriminate]. cbn [mbind option_bind] in E.
  destruct (bool_decide_reflect (n ∈ CONTROL_PLANE_INPUT_PORTS)); [discriminate|]. injection E as <- <- <-. cbn.
  apply andb_prop in En as [E1%Z.ltb_lt E2%Z.leb_le]. done.
Qed.

Lemma ports_of_proto_in proto found n : n ∈ ports_of_proto proto found -> exists x, x ∈ found /\ x.1.2 = n.
Proof.
  intros Hn. apply list_elem_of_omap in Hn as (x & Hx & E). destruct (String.eqb x.1.1 proto); [|discriminate].
  injection E as <-. eauto.
Qed.

Lemma input_guard_run q found rules p :
  Forall (fun x : listener_port => 0 < x.1.2 <= 65535 /\ x.1.2 ∉ CONTROL_PLANE_INPUT_PORTS) found ->
  run_rules k sub cs (input_guard_rules found (proto_text q) ++ rules) p =
  if on_port q (ports_of_proto (proto_text q) found) p
  then Some (Settled (if from_lo p then VAccept else VReject) p) else run_rules k sub cs rules p.
Proof.
  intros Hf. unfold input_guard_rules, on_port. set (ports := ports_of_proto (proto_text q) found).
  assert (Hp : Forall printable ports).
  { apply Forall_forall. intros n Hn. apply ports_of_proto_in in Hn as (x & Hx & <-). rewrite Forall_forall in Hf.
    specialize (Hf x Hx). unfold printable. lia. }
  destruct ports as [|n ns] eqn:Eports.
  { rewrite bool_decide_eq_false_2 by apply not_elem_of_nil. by rewrite andb_false_r. }
  rewrite <- Eports in Hp |- *.
  assert (Hin : in_ports (_format_nft_ports ports) (pk_dport p) = bool_decide (pk_dport p ∈ ports)).
  { unfold in_ports. apply bool_decide_ext. apply ports_of_format; [by rewrite Eports|done]. }
  assert (Hport : forall r, run_rule k (SL4 (proto_text q) :: SPort (proto_text q +:+ " dport") (_format_nft_ports ports) :: r) p =
            if is_proto p q && bool_decide (pk_dport p ∈ ports) then run_rule k r p else NoMatch p).
  { intros r. cbn [run_rule run_stmt].
    destruct q; unfold l4_match, port_match; cbn [proto_text String.append String.eqb Ascii.eqb Bool.eqb];
      (destruct (is_proto p _) eqn:E; cbn [andb]; [rewrite E; cbn [andb]|done]); rewrite Hin; by destruct (bool_decide _). }
  cbn [app]. rewrite run_rules_cons, iif_run. destruct (from_lo p) eqn:El; cbn [xorb].
  - rewrite Hport. destruct (is_proto p q && _); [done|]. by rewrite run_rules_cons, iif_run, El.
  - rewrite run_rules_cons, iif_run, El. cbn [xorb]. rewrite Hport. by destruct (is_proto p q && _).
Qed.

(** ** Input: the listeners of the contour *)

(** The packet is for a listener. *)
Definition for_listener (protos : string) (port : pyval) (p : packet) : bool :=
  is_port port && (l4_match protos p && (has_proto p && in_ports (py_str port) (pk_dport p))).

Lemma at_port_run protos port r p :
  run_rule k (SL4 protos :: SPort "th dport" port :: r) p =
  if l4_match protos p && (has_proto p && in_ports port (pk_dport p)) then run_rule k r p else NoMatch p.
Proof.
  cbn [run_rule run_stmt]. destruct (l4_match protos p); cbn [andb]; [|done]. unfold port_match. cbn [String.eqb Ascii.eqb Bool.eqb].
  unfold has_proto. destruct (pk_proto p); cbn [is_set andb]; [|by rewrite bool_decide_eq_false_2 by (by intros [])].
  rewrite bool_decide_eq_true_2 by eauto. cbn [andb]. by destruct (in_ports port (pk_dport p)).
Qed.

Lemma addr_prefix_run expr val r p :
  run_rule k (SAddr expr val :: r) p = if addr_match k expr val p then run_rule k r p else NoMatch p.
Proof. cbn [run_rule]. rewrite run_stmt_addr. by destruct (addr_match k expr val p). Qed.

Definition from_trusted (t4 t6 : string) (p : packet) : bool :=
  from_lo p || addr_match k "ip saddr" t4 p || addr_match k "ip6 saddr" t6 p.

Lemma listener_guard_run protos port noun t4 t6 rules p :
  run_rules k sub cs (listener_guard protos port noun t4 t6 ++ rules) p =
  if for_listener protos port p then Some (Settled (if from_trusted t4 t6 p then VAccept else VDrop) p)
  else run_rules k sub cs rules p.
Proof.
  unfold listener_guard, for_listener, from_trusted. destruct (is_port port); [|done]. cbn [andb app].
  rewrite run_rules_cons, iif_run, at_port_run. destruct (_ && (has_proto p && _)) eqn:E.
  - destruct (from_lo p); [done|]. cbn [xorb orb]. rewrite run_rules_cons, addr_prefix_run, at_port_run, E.
    destruct (addr_match k "ip saddr" t4 p); [done|]. cbn [orb]. rewrite run_rules_cons, addr_prefix_run, at_port_run, E.
    destruct (addr_match k "ip6 saddr" t6 p); [done|]. by rewrite run_rules_cons, at_port_run, E.
  - destruct (from_lo p); cbn [xorb]; rewrite run_rules_cons, addr_prefix_run, at_port_run, E;
      destruct (addr_match k "ip saddr" t4 p); rewrite run_rules_cons, addr_prefix_run, at_port_run, E;
      destruct (addr_match k "ip6 saddr" t6 p); by rewrite run_rules_cons, at_port_run, E.
Qed.
End Guards.

(** ** The chains of a rendered table *)

Section Table.
Context `{ReprContainer} `{Settings} `{NftSettings} `{RuleSources}.

Definition active_of (subjects : list dict) : list dict := List.filter is_active subjects.

(** The forward hook refuses a packet exactly when it is from or to the
    address of an active disabled subject, and accepts every other packet
    unchanged. *)
Theorem disabled_forward_exact manifest loader t subjects k p :
  owned_table manifest loader = Ok t -> core_bypass_enabled manifest = Some false ->
  manifest_subjects manifest = Some subjects ->
  run_hook k 3 (cand_chains t) "forward" p =
  Some (if forward_blocked k (active_of subjects) p then VReject else VAccept, p).
Proof.
  intros [Hb|summary preflight subjects' ? ? counted ? ? c st active _ Hsub _ Hsum Hpre _ _ Hc _ _]%owned_table_rendered Hn Hs;
    [congruence|]. assert (subjects' = subjects) as -> by congruence.
  unfold run_hook. cbn [cand_chains].
  change (chain_named _ "forward") with (Some (forward_chain active (flat_map direct_rx_counter_rules counted))).
  cbn [mbind option_bind run_chain]. cbn [c_rules forward_chain]. rewrite forward_guard_run.
  fold (active_of subjects) in active. unfold active.
  destruct (forward_blocked k (active_of subjects) p); [done|].
  rewrite harmless_run by (eapply counted_harmless; [|exact Hc]; auto). done.
Qed.

(** What input does with a packet: the disabled listeners first, then the listeners of the contour. *)
Definition input_verdict (k : kernel) (c : contour) (active : list dict) (p : packet) : verdict :=
  let found := flat_map listener_ports (omap guarded (map VDict active)) in
  let disabled q := on_port q (ports_of_proto (proto_text q) found) p in
  let trusted := from_trusted k trusted_client_ipv4_nft_set trusted_client_ipv6_nft_set p in
  if disabled Tcp || disabled Udp then if from_lo p then VAccept else VReject
  else if for_listener TCP_UDP (vpn_tproxy_port c) p || for_listener "tcp" (vpn_redir_port c) p
          || for_listener TCP_UDP (full_vpn_tproxy_port c) p || for_listener "tcp" (full_vpn_redir_port c) p
  then if trusted then VAccept else VDrop
  else VAccept.

Lemma input_rendered manifest loader t subjects preflight k p :
  owned_table manifest loader = Ok t -> core_bypass_enabled manifest = Some false ->
  manifest_subjects manifest = Some subjects -> manifest_section "global_preflight" manifest = Some preflight ->
  run_hook k 3 (cand_chains t) "input" p =
  Some (input_verdict k (read_contour (VDict preflight)) (active_of subjects) p, p).
Proof.
  intros [Hb|summary preflight' subjects' ? ? counted ? ? c st active _ Hsub _ Hsum Hpre _ _ Hc _ _]%owned_table_rendered Hn Hs Hp;
    [congruence|]. assert (subjects' = subjects) as -> by congruence. assert (preflight' = preflight) as -> by congruence.
  unfold run_hook. cbn [cand_chains].
  change (chain_named _ "input") with (Some (input_chain c active)).
  cbn [mbind option_bind run_chain]. cbn [c_rules input_chain]. fold (active_of subjects) in active. fold c.
  unfold _build_disabled_input_guard_lines, input_verdict. fold active.
  set (found := flat_map listener_ports _).
  pose proof (listener_ports_valid (omap guarded (map VDict active))) as Hf. fold found in Hf.
  cbn [flat_map]. rewrite app_nil_r, <- app_assoc.
  rewrite (input_guard_run k _ _ Tcp found) by exact Hf. destruct (on_port Tcp _ p); [done|]. cbn [orb].
  rewrite (input_guard_run k _ _ Udp found) by exact Hf. destruct (on_port Udp _ p); [done|].
  rewrite !listener_guard_run. rewrite <- (app_nil_r (listener_guard "tcp" (full_vpn_redir_port c) _ _ _)), listener_guard_run.
  destruct (for_listener TCP_UDP (vpn_tproxy_port c) p); [done|].
  destruct (for_listener "tcp" (vpn_redir_port c) p); [done|].
  destruct (for_listener TCP_UDP (full_vpn_tproxy_port c) p); [done|].
  by destruct (for_listener "tcp" (full_vpn_redir_port c) p).
Qed.

(** The transparent listeners are closed to strangers: a packet for the
    port of a listener that does not come from the host itself or a trusted
    client is never accepted. *)
Theorem listeners_closed manifest loader t subjects preflight k p :
  owned_table manifest loader = Ok t -> core_bypass_enabled manifest = Some false ->
  manifest_subjects manifest = Some subjects -> manifest_section "global_preflight" manifest = Some preflight ->
  let c := read_contour (VDict preflight) in
  for_listener TCP_UDP (vpn_tproxy_port c) p || for_listener "tcp" (vpn_redir_port c) p
  || for_listener TCP_UDP (full_vpn_tproxy_port c) p || for_listener "tcp" (full_vpn_redir_port c) p = true ->
  from_trusted k trusted_client_ipv4_nft_set trusted_client_ipv6_nft_set p = false ->
  exists v, run_hook k 3 (cand_chains t) "input" p = Some (v, p) /\ v <> VAccept.
Proof.
  intros Ht Hb Hs Hp c Hl Hu. rewrite (input_rendered manifest loader t subjects preflight) by done. fold c.
  eexists. split; [done|]. unfold input_verdict. rewrite Hl, Hu.
  assert (Hlo : from_lo p = false) by (unfold from_trusted in Hu; by destruct (from_lo p)).
  rewrite Hlo. by case_match.
Qed.

(** No disabled subject closes a port of the control plane: a packet for
    one of those ports that is not a listener of the contour is accepted. *)
Theorem control_ports_open manifest loader t subjects preflight k p :
  owned_table manifest loader = Ok t -> core_bypass_enabled manifest = Some false ->
  manifest_subjects manifest = Some subjects -> manifest_section "global_preflight" manifest = Some preflight ->
  let c := read_contour (VDict preflight) in
  pk_dport p ∈ CONTROL_PLANE_INPUT_PORTS ->
  for_listener TCP_UDP (vpn_tproxy_port c) p || for_listener "tcp" (vpn_redir_port c) p
  || for_listener TCP_UDP (full_vpn_tproxy_port c) p || for_listener "tcp" (full_vpn_redir_port c) p = false ->
  run_hook k 3 (cand_chains t) "input" p = Some (VAccept, p).
Proof.
  intros Ht Hb Hs Hp c Hport Hl. rewrite (input_rendered manifest loader t subjects preflight) by done. fold c.
  unfold input_verdict. rewrite Hl.
  set (found := flat_map listener_ports _).
  pose proof (listener_ports_valid (omap guarded (map VDict (active_of subjects)))) as Hf. fold found in Hf.
  assert (Hd : forall q, on_port q (ports_of_proto (proto_text q) found) p = false).
  { intros q. unfold on_port. rewrite bool_decide_eq_false_2; [by rewrite andb_false_r|].
    intros (x & Hx & E)%ports_of_proto_in. rewrite Forall_forall in Hf. destruct (Hf x Hx) as [_ Hc]. by rewrite E in Hc. }
  by rewrite !Hd.
Qed.
End Table.

(** ** Witnesses *)

#[local] Existing Instance sample_repr.
#[local] Existing Instance sample_nft_settings.
#[local] Existing Instance sample_sources.
#[local] Existing Instance default_settings.

(** A disabled service that listens on port 8080. *)
Definition disabled_subject : dict :=
  [("subject_id", VStr "docker:web"); ("subject_type", VStr "docker"); ("is_active", VBool true);
   ("dataplane_path", VStr "blocked");
   ("network_listeners", VList [VDict [("proto", VStr "tcp"); ("port", VInt 8080)]; VDict [("proto", VStr "tcp"); ("port", VInt 22)]]);
   ("scoped_runtime",
    VDict [("matcher", VDict [("nft_expr", VStr "ip saddr"); ("value", VStr "172.17.0.9"); ("family", VStr "ipv4")])])].

Definition guard_manifest : pyval :=
  VDict [("summary", VDict []); ("global_preflight", VDict [("vpn_contour", VDict [("tproxy_port", VInt 5203)])]);
         ("subjects", VList [VDict disabled_subject])].

Definition guard_table : candidate :=
  match owned_table guard_manifest VNone with Ok t => t | Raise _ => bypass_table end.

Definition quiet_kernel : kernel := Kernel (fun _ _ => false) (fun _ _ _ => false).

Definition packet_to (dst port : Z) (src : Z) : packet :=
  Packet (addr_of V4 src) (addr_of V4 dst) (Some Tcp) 40000 port "eth0" "eth1" None false false 0 None.

Lemma disabled_forward_exact_witness :
  run_hook quiet_kernel 3 (cand_chains guard_table) "forward" (packet_to 2886795273 80 134744072)
  = Some (VReject, packet_to 2886795273 80 134744072).
Proof.
  rewrite (disabled_forward_exact guard_manifest VNone guard_table [disabled_subject]) by (vm_compute; reflexivity).
  vm_compute. reflexivity.
Defined.

Lemma listeners_closed_witness : exists v,
  run_hook quiet_kernel 3 (cand_chains guard_table) "input" (packet_to 2886795273 5203 134744072)
  = Some (v, packet_to 2886795273 5203 134744072) /\ v <> VAccept.
Proof.
  apply (listeners_closed guard_manifest VNone guard_table [disabled_subject]
           [("vpn_contour", VDict [("tproxy_port", VInt 5203)])]); vm_compute; reflexivity.
Defined.

Lemma control_ports_open_witness :
  run_hook quiet_kernel 3 (cand_chains guard_table) "input" (packet_to 2886795273 22 134744072)
  = Some (VAccept, packet_to 2886795273 22 134744072).
Proof.
  apply (control_ports_open guard_manifest VNone guard_table [disabled_subject]
           [("vpn_contour", VDict [("tproxy_port", VInt 5203)])]); try (vm_compute; reflexivity).
  unfold CONTROL_PLANE_INPUT_PORTS. left.
Defined.
