(* ===== verification/DataplanePreflight.v ===== *)
(** * The global preflight

    The rest of [services/dataplane_global.py]: the steering contract and
    dataplane profile, the preflight over the health of Mihomo and the VPN
    adapter, the enforcement that is reported for the applied mode, and the
    check of a requested mode.  Health, adapter, module state, dnsmasq
    status and the effective rules are inputs, [preflight_inputs]. *)
From stdpp Require Import base list strings pretty gmap sorting.
From Stdlib Require Import ZArith Lia Ascii.
From S2P Require Import Prelude PyStr IpAddr PyVal NetworkContract SubjectTaxonomy DockerPolicy ScopedEgress ScopedReadiness NftSets DataplaneRules.

Open Scope string_scope.
Open Scope Z_scope.
Open Scope list_scope.

Definition DATAPLANE_PROFILE_NAME : string := "global_v1".
Definition DATAPLANE_CAPABILITY_GLOBAL_POLICY_V1 : string := "global_policy_v1".
Definition ENFORCEMENT_LEVEL_GLOBAL_DIRECT_ONLY : string := "global_direct_only".
Definition ENFORCEMENT_LEVEL_GLOBAL_DIRECT_ENFORCED : string := "global_direct_enforced".
Definition ENFORCEMENT_LEVEL_GLOBAL_SELECTIVE_ENFORCED : string := "global_selective_enforced".
Definition ENFORCEMENT_LEVEL_GLOBAL_VPN_ENFORCED : string := "global_vpn_enforced".
Definition ENFORCEMENT_LEVEL_GLOBAL_VPN_FAIL_CLOSED : string := "global_vpn_fail_closed".

Definition MISSING_MIHOMO_TPROXY : string := "mihomo_tproxy_port_not_configured".
Definition MISSING_MIHOMO_TUN : string := "mihomo_tun_not_enabled".
Definition MISSING_MIHOMO_GLOBAL_EGRESS : string := "mihomo_global_egress_binding_unknown".
Definition MISSING_MIHOMO_CONTROLLER : string := "mihomo_controller_unreachable".
Definition MISSING_MIHOMO_TRANSPARENT_CONTOUR : string := "mihomo_transparent_contour_not_ready".
Definition MISSING_MIHOMO_EXPLICIT_PROXY_ISOLATION : string := "mihomo_explicit_proxy_isolation_not_ready".
Definition MISSING_DNSMASQ_DOMAIN_SELECTIVE : string := "dnsmasq_domain_selective_contract_not_ready".
Definition MISSING_EFFECTIVE_RULES : string := "effective_rules_artifact_missing".
Definition MISSING_OWNED_TABLE : string := "fwrouter_owned_table_required_chains_missing".
Definition MISSING_VPN_MODULE_ENABLED : string := "vpn_module_disabled".
Definition MISSING_VPN_ROUTING_CONTRACT : string := "vpn_tproxy_contract_not_defined".
Definition MISSING_VPN_VERIFY : string := "vpn_external_path_not_verified".
Definition MISSING_ACTIVE_DATAPLANE_MODE_MISMATCH : string := "active_dataplane_mode_mismatch".
Definition MISSING_VPN_TPROXY_HANDOFF : string := "vpn_tproxy_handoff_not_observed".
Definition MISSING_VPN_FAIL_CLOSED_POLICY : string := "vpn_udp_fail_closed_policy_unconfirmed".

Definition VPN_NON_SERVER_SELECTOR_TARGETS : list string :=
  ["DIRECT"; "REJECT"; "REJECT-DROP"; "PASS"; "PASS-RULE"; "COMPATIBLE"].

(** ** The steering contract and the profile *)

Definition vstrings (l : list string) : pyval := VList (map VStr l).
Definition or_int (o : option Z) (d : Z) : pyval := VInt (default d o).

Definition MANAGED_SOURCE : dict := [("kind", VStr "managed"); ("module", VStr "mihomo")].

(** [source or {...}]. *)
Definition source_or_managed (source : dict) : dict := if (length source =? 0)%nat then MANAGED_SOURCE else source.

Definition build_vpn_steering_contract (redir_port tproxy_port full_vpn_redir_port full_vpn_tproxy_port : option Z)
    (adapter : string) (source : dict) : option dict :=
  match tproxy_port with
  | None => None
  | Some port =>
      if port <=? 0 then None
      else Some
        [("mode", VStr "tproxy"); ("adapter", VStr adapter); ("redir_port", vint redir_port);
         ("tproxy_port", VInt port);
         ("full_vpn_redir_port", or_int full_vpn_redir_port 5204);
         ("full_vpn_tproxy_port", or_int full_vpn_tproxy_port 5205);
         ("fwmark_hex", VStr "0x00000100"); ("fwmark_value", VInt 256);
         ("proxy_bypass_mark_hex", VStr "0x00000200"); ("proxy_bypass_mark_value", VInt 512);
         ("routing_table_name", VStr "fwrouter_vpn"); ("routing_table_id", VInt 100);
         ("ip_rule_priority", VInt 100); ("route_target", VStr "local default dev lo");
         ("selector_name", VStr "vpn-global"); ("selector_fallback_target", VStr "vpn-auto");
         ("source", VDict (source_or_managed source))]
  end.

(** The keyword arguments of [build_dataplane_profile]. *)
Record profile_args := ProfileArgs {
  pa_redir_port : option Z;
  pa_tproxy_port : option Z;
  pa_full_vpn_redir_port : option Z;
  pa_full_vpn_tproxy_port : option Z;
  pa_tun_enabled : bool;
  pa_selective_path_kind : string;
  pa_transparent_contour_ready : bool;
  pa_transparent_tcp_ready : bool;
  pa_transparent_udp_ready : bool;
  pa_explicit_proxy_preserved : bool;
  pa_adapter : string;
  pa_source : dict;
}.

Definition build_dataplane_profile (a : profile_args) : dict :=
  let vpn_contract :=
    build_vpn_steering_contract (pa_redir_port a) (pa_tproxy_port a) (pa_full_vpn_redir_port a)
      (pa_full_vpn_tproxy_port a) (pa_adapter a) (pa_source a) in
  [("profile", VStr DATAPLANE_PROFILE_NAME);
   ("owned_table", VStr "inet fwrouter_v2");
   ("mihomo",
    VDict [("mode", VStr "egress"); ("controller_url", VStr "http://127.0.0.1:5200"); ("mixed_port", VInt 5201);
           ("redir_port", vint (pa_redir_port a)); ("tproxy_port", vint (pa_tproxy_port a));
           ("tun_enabled", VBool (pa_tun_enabled a));
           ("contours",
            VDict [("explicit_proxy_preserved", VBool (pa_explicit_proxy_preserved a));
                   ("transparent_contour_ready", VBool (pa_transparent_contour_ready a));
                   ("transparent_tcp_ready", VBool (pa_transparent_tcp_ready a));
                   ("transparent_udp_ready", VBool (pa_transparent_udp_ready a));
                   ("selective_path_kind", VStr (pa_selective_path_kind a))])]);
   ("vpn_adapter",
    VDict [("adapter", VStr (pa_adapter a)); ("source", VDict (source_or_managed (pa_source a)))]);
   ("vpn_routing_contract", vdict vpn_contract);
   ("supports",
    VDict [("global_direct", VBool true); ("global_selective", VStr (pa_selective_path_kind a));
           ("global_vpn", VBool (truthy (vdict vpn_contract))); ("scoped_egress", VBool false)])].

(** ** Small readers *)

Definition _details_dict (value : pyval) : dict := match value with VDict d => d | _ => [] end.

(** [int] of digits raises beyond 4300 of them. *)
Definition _int_or_none (value : pyval) : py (option Z) :=
  match value with
  | VInt n => Some (Some n)
  | VStr s => let t := py_strip s in if py_isdigit t then n ← py_int_digits t; Some (Some n) else Some None
  | _ => Some None
  end.

Definition _bool_or_false (value : pyval) : bool :=
  match value with
  | VBool b => b
  | VStr s => bool_decide (py_lower (py_strip s) ∈ ["1"; "true"; "yes"; "on"])
  | _ => false
  end.

(** [_details_dict(d.get(k))] and [_bool_or_false(d.get(k))]. *)
Definition sub_dict (k : string) (d : dict) : dict := _details_dict (dget k d).
Definition flag (k : string) (d : dict) : bool := _bool_or_false (dget k d).

Section Preflight.
Context `{ReprContainer} `{RuleSources}.

Definition _bool_chain_map (required_chains : pyval) : py dict :=
  match por required_chains (VDict []) with
  | VDict chain_map => Some (map (fun kv => (kv.1, VBool (truthy kv.2))) chain_map)
  | _ => None
  end.

Definition _routing_mode_from_manifest (routing : option dict) : string :=
  let state := default [] routing in
  py_str (por (dget "applied_mode" state) (por (dget "desired_mode" state) (VStr "direct"))).

(** ** Inputs *)

Record mihomo_health := MihomoHealth {
  runtime_state : string;
  active_server_id : option string;
  message : string;
  details : pyval;
}.

Record preflight_inputs := PreflightInputs {
  in_routing : option dict;
  in_check_details : option dict;
  in_health : mihomo_health;
  in_effective_rules : option dict;   (** the argument, or the artifact that was read *)
  in_require_runtime_verify : bool;
  in_vpn_runtime_adapter : dict;
  in_vpn_module : option dict;
  in_dnsmasq_selective_status : dict;
}.

Definition check_of (i : preflight_inputs) : dict := default [] (in_check_details i).
Definition mihomo_details (i : preflight_inputs) : dict := _details_dict (details (in_health i)).
Definition mihomo_config (i : preflight_inputs) : dict := sub_dict "config" (mihomo_details i).
Definition contours (i : preflight_inputs) : dict := sub_dict "fwrouter_contours" (mihomo_config i).
Definition explicit_proxy (i : preflight_inputs) : dict := sub_dict "explicit_proxy" (contours i).
Definition transparent_vpn (i : preflight_inputs) : dict := sub_dict "transparent_vpn" (contours i).
Definition domain_selective (i : preflight_inputs) : dict := sub_dict "domain_selective" (contours i).

(** [mihomo_config.get(k, mihomo_details.get(k))], then the transparent contour. *)
Definition config_or_details (i : preflight_inputs) (k : string) : pyval :=
  dget_or k (dget k (mihomo_details i)) (mihomo_config i).

Definition port_of (i : preflight_inputs) (k : string) : py (option Z) :=
  port ← _int_or_none (config_or_details i k);
  match port with Some n => Some (Some n) | None => _int_or_none (dget k (transparent_vpn i)) end.

(** The contour an external VPN module reports, when it is ready and not empty. *)
Definition external_vpn_contour (i : preflight_inputs) : option dict :=
  let adapter := in_vpn_runtime_adapter i in
  if eq_str (dget "adapter_id" adapter) "external_vpn_module" && truthy (dget "ready" adapter)
  then nonempty_dict (Some (sub_dict "contour" adapter)) else None.

Definition explicit_proxy_flags (i : preflight_inputs) : bool :=
  truthy (dget_or "preserved" (VBool true) (explicit_proxy i))
  && truthy (dget_or "explicit_proxy_preserved" (VBool true) (domain_selective i))
  && truthy (dget_or "isolated_from_explicit_proxy" (VBool true) (transparent_vpn i)).

(** ** The contour in force *)

Record contour_state := ContourState {
  cs_redir_port : option Z;
  cs_tproxy_port : option Z;
  cs_full_redir_port : option Z;
  cs_full_tproxy_port : option Z;
  cs_tcp_ready : bool;
  cs_udp_ready : bool;
  cs_contour_ready : bool;
  cs_complete : bool;
  cs_explicit_proxy_preserved : bool;
  cs_policy_installed : bool;
}.

(** Mihomo's own contour, or the one an external adapter proves. *)
Definition resolve_contour (i : preflight_inputs) : py contour_state :=
  redir ← port_of i "redir_port";
  tproxy ← port_of i "tproxy_port";
  match external_vpn_contour i with
  | Some external =>
      redir ← py_int (dget "redir_port" external);
      tproxy ← py_int (dget "tproxy_port" external);
      full_redir ← py_int (dget "full_vpn_redir_port" external);
      full_tproxy ← py_int (dget "full_vpn_tproxy_port" external);
      Some (ContourState (Some redir) (Some tproxy) (Some full_redir) (Some full_tproxy) true true true true true true)
  | None =>
      let tcp := flag "transparent_tcp_ready" (transparent_vpn i) in
      let udp := flag "transparent_udp_ready" (transparent_vpn i) in
      Some (ContourState redir tproxy None None tcp udp (truthy (dget "ready" (transparent_vpn i))) (tcp && udp)
              (explicit_proxy_flags i) (flag "policy_installed" (sub_dict "vpn_udp_policy" (mihomo_details i))))
  end.

Definition tun_enabled (i : preflight_inputs) : bool := _bool_or_false (config_or_details i "tun_enabled").

Definition adapter_name (i : preflight_inputs) : string :=
  py_str (por (dget "adapter_id" (in_vpn_runtime_adapter i)) (VStr "mihomo")).

Definition adapter_source (i : preflight_inputs) : dict :=
  match external_vpn_contour i with
  | Some external => external
  | None => source_or_managed (sub_dict "source" (in_vpn_runtime_adapter i))
  end.

Definition profile_of (i : preflight_inputs) (c : contour_state) (path_kind : string) : dict :=
  build_dataplane_profile
    (ProfileArgs (cs_redir_port c) (cs_tproxy_port c) (cs_full_redir_port c) (cs_full_tproxy_port c) (tun_enabled i)
       path_kind (cs_complete c) (cs_tcp_ready c) (cs_udp_ready c) (cs_explicit_proxy_preserved c)
       (adapter_name i) (adapter_source i)).

(** ** What is missing *)

Definition when (b : bool) (item : string) : list string := if b then [item] else [].

Definition direct_missing_of (required_chains : dict) : list string :=
  when (negb (length required_chains =? 0)%nat && negb (forallb (fun kv => truthy kv.2) required_chains)) MISSING_OWNED_TABLE.

(** [str(v or "") not in targets and bool(v)]. *)
Definition is_server_target (v : pyval) : bool :=
  negb (bool_decide (text_of v ∈ VPN_NON_SERVER_SELECTOR_TARGETS)) && truthy v.

Definition vpn_target_reachable (i : preflight_inputs) : bool :=
  let selectors := sub_dict "selectors" (mihomo_details i) in
  let exists_ := flag "vpn_global_exists" selectors in
  let global_now := dget "vpn_global_now" selectors in
  let auto_now := dget "vpn_auto_now" selectors in
  (exists_ && is_server_target (vopt (active_server_id (in_health i))))
  || (exists_ && truthy global_now && negb (eq_str global_now "vpn-auto")
      && negb (bool_decide (py_str global_now ∈ VPN_NON_SERVER_SELECTOR_TARGETS)))
  || (exists_ && eq_str global_now "vpn-auto" && is_server_target auto_now)
  || is_set (external_vpn_contour i).

Definition transparent_path (i : preflight_inputs) : dict := sub_dict "transparent_path" (check_of i).
Definition transparent_runtime (i : preflight_inputs) : dict := sub_dict "transparent_runtime" (mihomo_details i).
Definition vpn_external_path_verified (i : preflight_inputs) : bool := flag "vpn_external_path_verified" (check_of i).

(** [_int_or_none(...) or 0]. *)
Definition packets_of (i : preflight_inputs) (k : string) : py Z :=
  n ← _int_or_none (dget k (transparent_path i)); Some (default 0 n).

Definition vpn_module_disabled (i : preflight_inputs) : bool :=
  match nonempty_dict (in_vpn_module i) with
  | Some vpn_module => negb (String.eqb (text_of (dget "desired_state" vpn_module)) "enabled")
  | None => false
  end.

Definition contour_required (i : preflight_inputs) (requires_vpn_runtime : bool) : bool :=
  bool_decide (_routing_mode_from_manifest (in_routing i) ∈ ["selective"; "vpn"]) || requires_vpn_runtime.

Definition vpn_missing_of (i : preflight_inputs) (c : contour_state) (vpn_contract : dict) (requires_vpn_runtime : bool)
    : py (list string) :=
  vpn_mark_packets ← packets_of i "vpn_mark_packets";
  vpn_mark_tcp_packets ← packets_of i "vpn_mark_tcp_packets";
  let no_contract := (length vpn_contract =? 0)%nat in
  let verify := in_require_runtime_verify i in
  Some
    (when (vpn_module_disabled i) MISSING_VPN_MODULE_ENABLED
     ++ when (negb (is_set (cs_tproxy_port c))) MISSING_MIHOMO_TPROXY
     ++ when (contour_required i requires_vpn_runtime && negb (cs_complete c)) MISSING_MIHOMO_TRANSPARENT_CONTOUR
     ++ when (negb (cs_explicit_proxy_preserved c)) MISSING_MIHOMO_EXPLICIT_PROXY_ISOLATION
     ++ when (negb (tun_enabled i) && no_contract) MISSING_MIHOMO_TUN
     ++ when no_contract MISSING_VPN_ROUTING_CONTRACT
     ++ when (negb (is_set (external_vpn_contour i)) && verify
              && negb (String.eqb (runtime_state (in_health i)) "running")) MISSING_MIHOMO_CONTROLLER
     ++ when (negb (vpn_target_reachable i)) MISSING_MIHOMO_GLOBAL_EGRESS
     ++ when (negb (cs_policy_installed c)) MISSING_VPN_FAIL_CLOSED_POLICY
     ++ when (negb (vpn_external_path_verified i)) MISSING_VPN_VERIFY
     ++ when (verify && (0 <? vpn_mark_packets) && negb (flag "transparent_flow_observed" (transparent_path i)))
          MISSING_VPN_TPROXY_HANDOFF
     ++ when (verify && (0 <? vpn_mark_tcp_packets)
              && negb (flag "transparent_tcp_flow_observed" (transparent_path i)
                       && flag "transparent_tcp_session_materialized" (transparent_runtime i)))
          MISSING_VPN_TPROXY_HANDOFF).

Definition EGRESS_OBSERVATION_MISSING : list string :=
  [MISSING_MIHOMO_GLOBAL_EGRESS; MISSING_VPN_VERIFY; MISSING_VPN_FAIL_CLOSED_POLICY].

Definition is_egress_observation (item : string) : bool := bool_decide (item ∈ EGRESS_OBSERVATION_MISSING).

Definition selective_missing_of (i : preflight_inputs) (path_kind : string) (direct_missing : list string) : list string :=
  when (negb (is_set (in_effective_rules i))) MISSING_EFFECTIVE_RULES
  ++ when (String.eqb path_kind "domain_aware" && negb (truthy (dget "ok" (in_dnsmasq_selective_status i))))
       MISSING_DNSMASQ_DOMAIN_SELECTIVE
  ++ direct_missing.

(** ** The result *)

(** What the preflight derives before it builds its dictionary. *)
Record preflight_state := PreflightState {
  ps_contour : contour_state;
  ps_profile : dict;
  ps_contract : dict;
  ps_rules : dict;
  ps_chains : dict;
  ps_direct_missing : list string;
  ps_selective_missing : list string;
  ps_vpn_missing : list string;
}.

Definition preflight_state_of (i : preflight_inputs) : py preflight_state :=
  required_chains ← _bool_chain_map (dget "required_chains" (check_of i));
  selective_rules ← _selective_rules_summary (in_effective_rules i);
  c ← resolve_contour i;
  let requires := truthy (dget "requires_vpn_runtime" selective_rules) in
  let path_kind := py_str (dget "path_kind" selective_rules) in
  let profile := profile_of i c path_kind in
  let vpn_contract := sub_dict "vpn_routing_contract" profile in
  let direct_missing := direct_missing_of required_chains in
  vpn_missing ← vpn_missing_of i c vpn_contract requires;
  Some (PreflightState c profile vpn_contract selective_rules required_chains direct_missing
          (selective_missing_of i path_kind direct_missing) vpn_missing).

Definition vpn_policy_missing (s : preflight_state) : list string :=
  List.filter (fun item => negb (is_egress_observation item)) (ps_vpn_missing s).
Definition vpn_egress_missing (s : preflight_state) : list string :=
  List.filter is_egress_observation (ps_vpn_missing s).
Definition none_missing (l : list string) : bool := (length l =? 0)%nat.
Definition policy_installed (s : preflight_state) : bool := cs_policy_installed (ps_contour s).
Definition requires_vpn_runtime (s : preflight_state) : bool := truthy (dget "requires_vpn_runtime" (ps_rules s)).

Definition vpn_egress_ready (i : preflight_inputs) (s : preflight_state) : bool :=
  none_missing (vpn_egress_missing s) && policy_installed s
  && negb (bool_decide (MISSING_VPN_TPROXY_HANDOFF ∈ ps_vpn_missing s))
  && vpn_target_reachable i && vpn_external_path_verified i.

Definition selective_vpn_ready (s : preflight_state) : bool :=
  negb (requires_vpn_runtime s) || none_missing (ps_vpn_missing s).
Definition selective_degraded_of (s : preflight_state) : bool := requires_vpn_runtime s && negb (selective_vpn_ready s).
Definition selective_vpn_policy_ready_of (s : preflight_state) : bool :=
  requires_vpn_runtime s && none_missing (vpn_policy_missing s) && policy_installed s.

Definition flags_of (d : dict) (keys : list string) : dict := map (fun k => (k, VBool (flag k d))) keys.

Definition contours_dict (i : preflight_inputs) (s : preflight_state) : dict :=
  let c := ps_contour s in
  let listener k := VBool (_bool_or_false (dget_or k (dget k (mihomo_config i)) (transparent_vpn i))) in
  [("explicit_proxy", VDict (explicit_proxy i)); ("transparent_vpn", VDict (transparent_vpn i));
   ("domain_selective", VDict (domain_selective i));
   ("transparent_contour_ready", VBool (cs_contour_ready c));
   ("transparent_contour_required", VBool (contour_required i (requires_vpn_runtime s)));
   ("transparent_tcp_ready", VBool (cs_tcp_ready c)); ("transparent_udp_ready", VBool (cs_udp_ready c));
   ("transparent_tcp_listener_present", listener "transparent_tcp_listener_present");
   ("transparent_udp_listener_present", listener "transparent_udp_listener_present");
   ("explicit_proxy_preserved", VBool (cs_explicit_proxy_preserved c))].

Definition path_dict (i : preflight_inputs) : dict :=
  dmerge (transparent_path i)
    (flags_of (transparent_path i)
       ["transparent_flow_observed"; "transparent_tcp_flow_observed"; "transparent_udp_flow_observed"]
     ++ flags_of (transparent_runtime i)
          ["transparent_tcp_session_materialized"; "transparent_udp_session_materialized"]).

Definition preflight_dict (i : preflight_inputs) (s : preflight_state) : dict :=
  let policy_missing := vpn_policy_missing s in
  [("ok", VBool true);
   ("profile", VDict (ps_profile s));
   ("owned_table", dget "owned_table" (ps_profile s));
   ("nft_available", VBool (negb (eq_str (dget "error_code" (check_of i)) "NFT_NOT_AVAILABLE")));
   ("owned_table_check",
    VDict [("table_exists", VBool (truthy (dget_or "table_exists" (VBool false) (check_of i))));
           ("required_chains", VDict (ps_chains s))]);
   ("mihomo",
    VDict [("runtime_state", VStr (runtime_state (in_health i))); ("message", VStr (message (in_health i)));
           ("details", details (in_health i))]);
   ("vpn_adapter", VDict [("adapter", VStr (adapter_name i)); ("source", VDict (adapter_source i))]);
   ("vpn_contour", VDict (ps_contract s));
   ("vpn_external_path_verified", VBool (vpn_external_path_verified i));
   ("effective_rules_present", VBool (is_set (in_effective_rules i)));
   ("protected_local_pools_loaded", VBool true);
   ("can_enforce_global_direct", VBool (none_missing (ps_direct_missing s)));
   ("can_enforce_global_selective", VBool (none_missing (ps_selective_missing s)));
   ("can_enforce_global_vpn", VBool (none_missing policy_missing && policy_installed s));
   ("can_prepare_global_vpn", VBool (none_missing policy_missing));
   ("vpn_policy_installed", VBool (policy_installed s));
   ("vpn_prepare_missing", vstrings policy_missing);
   ("vpn_egress_target_present", VBool (vpn_target_reachable i));
   ("vpn_egress_ready", VBool (vpn_egress_ready i s));
   ("vpn_egress_missing", vstrings (vpn_egress_missing s));
   ("selective_vpn_ready", VBool (selective_vpn_ready s));
   ("selective_vpn_policy_ready", VBool (selective_vpn_policy_ready_of s));
   ("selective_degraded", VBool (selective_degraded_of s));
   ("selective_degraded_missing", vstrings (if selective_degraded_of s then ps_vpn_missing s else []));
   ("missing", vstrings (sorted_set (ps_direct_missing s ++ ps_selective_missing s ++ ps_vpn_missing s)));
   ("missing_by_mode",
    VDict [("direct", vstrings (ps_direct_missing s)); ("selective", vstrings (ps_selective_missing s));
           ("vpn", vstrings (ps_vpn_missing s))]);
   ("selective_rules", VDict (ps_rules s));
   ("mihomo_contours", VDict (contours_dict i s));
   ("transparent_path", VDict (path_dict i));
   ("dnsmasq_selective_status", VDict (in_dnsmasq_selective_status i))].

Definition build_global_preflight (i : preflight_inputs) : py dict :=
  s ← preflight_state_of i; Some (preflight_dict i s).

(** ** The enforcement of the applied mode *)

(** [d[k]]. *)
Definition item (k : string) (d : dict) : py pyval := dict_lookup k d.

(** [preflight or build_global_preflight(...)]; the argument [built] is the call. *)
Definition resolved_preflight (preflight : option dict) (built : py dict) : py dict :=
  match nonempty_dict preflight with Some d => Some d | None => built end.

(** [list(v)]. *)
Definition vlist_of (v : pyval) : py pyval := l ← iter_val v; Some (VList l).

Record enforcement := Enforcement {
  en_level : string;
  en_guaranteed : bool;
  en_missing : pyval;
  en_matches : bool;
  en_extra : dict;
}.

Definition enforcement_dict (supported : dict) (profile live_mode live_default : pyval) (e : enforcement) : dict :=
  [("dataplane_capability", VStr DATAPLANE_CAPABILITY_GLOBAL_POLICY_V1);
   ("capability", VStr DATAPLANE_CAPABILITY_GLOBAL_POLICY_V1);
   ("enforcement_level", VStr (en_level e));
   ("traffic_enforcement_guaranteed", VBool (en_guaranteed e));
   ("supported_modes", VDict supported);
   ("missing_runtime_requirements", en_missing e);
   ("profile", profile);
   ("active_mode_matches_intent", VBool (en_matches e));
   ("live_global_mode", live_mode);
   ("live_selective_default", live_default)] ++ en_extra e.

Definition truthy_items (keys : list string) (d : dict) : dict := map (fun k => (k, VBool (truthy (dget k d)))) keys.

(** [missing_by_mode.get(mode, missing)]. *)
Definition missing_for (mode : string) (p : dict) : py pyval :=
  by_mode ← item "missing_by_mode" p;
  missing ← item "missing" p;
  match by_mode with VDict d => vlist_of (dget_or mode missing d) | _ => None end.

Definition supports (mode : string) (direct selective vpn : pyval) : bool :=
  (String.eqb mode "direct" && truthy direct) || (String.eqb mode "vpn" && truthy vpn)
  || (String.eqb mode "selective" && truthy selective).

(** The case of the mode. *)
Definition mode_enforcement (p : dict) (mode : string) (direct selective vpn : pyval) : py enforcement :=
  if String.eqb mode "direct" && truthy direct then
    Some (Enforcement ENFORCEMENT_LEVEL_GLOBAL_DIRECT_ENFORCED true (VList []) true [])
  else if String.eqb mode "vpn" && truthy vpn then
    let egress_ready := truthy (dget "vpn_egress_ready" p) in
    missing ← vlist_of (por (dget "vpn_egress_missing" p) (VList []));
    Some (Enforcement (if egress_ready then ENFORCEMENT_LEVEL_GLOBAL_VPN_ENFORCED
                       else ENFORCEMENT_LEVEL_GLOBAL_VPN_FAIL_CLOSED)
            true missing true [("vpn_egress_ready", VBool egress_ready)])
  else if String.eqb mode "selective" && truthy selective then
    missing ← vlist_of (dget_or "selective_degraded_missing" (VList []) p);
    Some (Enforcement ENFORCEMENT_LEVEL_GLOBAL_SELECTIVE_ENFORCED true missing true
            (truthy_items ["selective_vpn_ready"; "selective_vpn_policy_ready"; "vpn_egress_ready"; "selective_degraded"] p))
  else
    missing ← missing_for mode p;
    Some (Enforcement ENFORCEMENT_LEVEL_GLOBAL_DIRECT_ONLY false missing true []).

(** What the live probe says: mode, default, and whether they match the intent. *)
Definition live_probe_view (probe : pyval) (mode selective_default : string) : pyval * pyval * bool :=
  match probe with
  | VDict d =>
      let live_mode := py_lower (py_str (por (dget "mode" d) (VStr "unknown"))) in
      let live_default := py_lower (py_str (por (dget "selective_default" d) (VStr "direct"))) in
      (VStr live_mode, VStr live_default,
       truthy (dget "ok" d) && String.eqb live_mode mode
       && (negb (String.eqb mode "selective") || String.eqb live_default selective_default))
  | _ => (VNone, VNone, true)
  end.

Definition enforced_mode (routing : option dict) (mode_override : option string) : string :=
  py_lower (py_strip (py_str (por (vopt mode_override) (VStr (_routing_mode_from_manifest routing))))).

Definition build_applied_runtime_enforcement (routing preflight : option dict) (live_mode_probe : pyval)
    (mode_override : option string) (built : py dict) : py dict :=
  p ← resolved_preflight preflight built;
  let mode := enforced_mode routing mode_override in
  let selective_default := py_lower (py_str (por (dget "selective_default" (default [] routing)) (VStr "direct"))) in
  direct ← item "can_enforce_global_direct" p;
  selective ← item "can_enforce_global_selective" p;
  vpn ← item "can_enforce_global_vpn" p;
  let supported :=
    [("direct", VBool (truthy direct)); ("selective", VBool (truthy selective)); ("vpn", VBool (truthy vpn))] in
  let '(live_mode, live_default, matches) := live_probe_view live_mode_probe mode selective_default in
  profile ← item "profile" p;
  e ← (if negb matches
       then Some (Enforcement ENFORCEMENT_LEVEL_GLOBAL_DIRECT_ONLY false
                    (vstrings [MISSING_ACTIVE_DATAPLANE_MODE_MISMATCH]) false [])
       else mode_enforcement p mode direct selective vpn);
  Some (enforcement_dict supported profile live_mode live_default e).

(** ** A requested mode *)

Definition mode_refused (mode stage code msg : string) (missing : pyval) (p : dict) : dict :=
  [("ok", VBool false); ("mode", VStr mode); ("stage", VStr stage); ("code", VStr code); ("message", VStr msg);
   ("missing", missing); ("preflight", VDict p)].

Definition mode_accepted (mode : string) (p : dict) : dict :=
  [("ok", VBool true); ("mode", VStr mode); ("preflight", VDict p)].

(** [preflight["missing_by_mode"][mode]]. *)
Definition missing_item (mode : string) (p : dict) : py pyval :=
  by_mode ← item "missing_by_mode" p;
  match by_mode with VDict d => item mode d | _ => None end.

Definition validate_global_mode_request (mode : string) (preflight : option dict) (built : py dict) : py dict :=
  p ← resolved_preflight preflight built;
  let normalized_mode := py_lower (py_strip mode) in
  if String.eqb normalized_mode "direct" then
    can ← item "can_enforce_global_direct" p;
    if truthy can then Some (mode_accepted normalized_mode p)
    else missing ← missing_item "direct" p;
         Some (mode_refused normalized_mode "preflight" "GLOBAL_DIRECT_ENFORCEMENT_NOT_READY"
                 "Global direct enforcement prerequisites are not satisfied." missing p)
  else if String.eqb normalized_mode "vpn" then
    if truthy (dget_or "can_prepare_global_vpn" (VBool (truthy (dget "can_enforce_global_vpn" p))) p)
    then Some (mode_accepted normalized_mode p)
    else
      by_mode ← attr_get "vpn" (por (dget "missing_by_mode" p) (VDict []));
      let missing_vpn :=
        match dget "missing_by_mode" p with VDict d => dget_or "vpn" (VList []) d | _ => VList [] end in
      Some (mode_refused normalized_mode "preflight" "GLOBAL_VPN_ENFORCEMENT_NOT_READY"
              "Global VPN enforcement is not ready because Mihomo egress steering requirements are unresolved."
              (dget_or "vpn_prepare_missing" missing_vpn p) p)
  else if String.eqb normalized_mode "selective" then
    can ← item "can_enforce_global_selective" p;
    if truthy can then Some (mode_accepted normalized_mode p)
    else missing ← missing_item "selective" p;
         Some (mode_refused normalized_mode "preflight" "SELECTIVE_ENFORCEMENT_NOT_READY"
                 "Selective enforcement is not ready because the effective rules artifact or owned-table foundation is missing."
                 missing p)
  else Some (mode_refused normalized_mode "validate" "GLOBAL_MODE_INVALID"
               "Global mode must be one of: direct, selective, vpn." (VList []) p).
End Preflight.
