(* ===== verification/DataplanePreflightFacts.v ===== *)
(** * The preflight says exactly when the VPN can carry traffic

    [build_global_preflight] collects what is missing as a list of texts and
    filters it; the theorems say what the two answers drawn from it amount
    to, what the reported enforcement is for every mode and live probe, and
    that the contour of a preflight is one the renderer can steer with. *)
From stdpp Require Import base list strings pretty gmap sorting.
From Stdlib Require Import ZArith Lia Ascii Btauto.
From S2P Require Import Prelude PyStr IpAddr PyVal NetworkContract SubjectTaxonomy DockerPolicy ScopedEgress ScopedReadiness Nft NftSets NftChains DataplaneRules NftRender NftClosed NftSteer NftPolicy DataplanePreflight.

Open Scope string_scope.
Open Scope Z_scope.
Open Scope list_scope.

(** ** Lists of what is missing *)

Lemma none_missing_nil : none_missing [] = true.
Proof. done. Qed.

Lemma none_missing_when b item l : none_missing (when b item ++ l) = negb b && none_missing l.
Proof. by destruct b. Qed.

Lemma none_missing_when_last b item : none_missing (when b item) = negb b.
Proof. by destruct b. Qed.

Lemma none_missing_app l k : none_missing (l ++ k) = none_missing l && none_missing k.
Proof. by destruct l. Qed.

Lemma filter_when f b item : List.filter f (when b item) = when (b && f item) item.
Proof. unfold when. destruct b; [cbn [List.filter]; by destruct (f item)|done]. Qed.

Lemma elem_when x b item : bool_decide (x ∈ when b item) = b && String.eqb x item.
Proof.
  unfold when. destruct b; [|by apply bool_decide_eq_false, not_elem_of_nil].
  destruct (String.eqb_spec x item) as [->|Hne].
  - apply bool_decide_eq_true, list_elem_of_here.
  - apply bool_decide_eq_false. by rewrite list_elem_of_singleton.
Qed.

Lemma elem_app x (l k : list string) : bool_decide (x ∈ l ++ k) = bool_decide (x ∈ l) || bool_decide (x ∈ k).
Proof. apply eq_bool_prop_intro. by rewrite orb_True, !bool_decide_spec, elem_of_app. Qed.

(** The missing texts that are about the policy, and those about what was observed. *)
Create Rewrite HintDb missing.
#[export] Hint Rewrite none_missing_nil none_missing_when none_missing_when_last none_missing_app List.filter_app filter_when elem_app elem_when andb_true_r andb_false_r : missing.

(** The tests of a fixed text. *)
Ltac evaluate_missing :=
  repeat match goal with
    | |- context [is_egress_observation ?x] =>
        let v := eval vm_compute in (is_egress_observation x) in change (is_egress_observation x) with v
    | |- context [String.eqb MISSING_VPN_TPROXY_HANDOFF ?x] =>
        let v := eval vm_compute in (String.eqb MISSING_VPN_TPROXY_HANDOFF x) in
        change (String.eqb MISSING_VPN_TPROXY_HANDOFF x) with v
    end; cbn [negb].

(** Decides a boolean equation, one atom at a time from the left. *)
Ltac atom_of e :=
  lazymatch e with
  | negb ?a => atom_of a
  | andb ?a _ => atom_of a
  | orb ?a _ => atom_of a
  | _ => e
  end.
Ltac bool_cases :=
  repeat (cbn [negb andb orb is_set id]; rewrite ?andb_true_r, ?andb_false_r, ?orb_true_r, ?orb_false_r; try reflexivity;
          match goal with |- ?l = _ => let x := atom_of l in destruct x end).

Section Facts.
Context `{ReprContainer} `{RuleSources}.

(** ** The contract *)

(** A contract exactly for a positive port. *)
Definition port_defined (c : contour_state) : bool :=
  match cs_tproxy_port c with Some port => 0 <? port | None => false end.

Lemma profile_contract i c path_kind :
  sub_dict "vpn_routing_contract" (profile_of i c path_kind)
  = default [] (build_vpn_steering_contract (cs_redir_port c) (cs_tproxy_port c) (cs_full_redir_port c)
                  (cs_full_tproxy_port c) (adapter_name i) (adapter_source i)).
Proof. unfold sub_dict, profile_of, build_dataplane_profile. cbn. by destruct (build_vpn_steering_contract _ _ _ _ _ _). Qed.

Lemma contract_empty i c path_kind :
  (length (sub_dict "vpn_routing_contract" (profile_of i c path_kind)) =? 0)%nat = negb (port_defined c).
Proof.
  rewrite profile_contract. unfold build_vpn_steering_contract, port_defined.
  destruct (cs_tproxy_port c) as [port|]; [|done].
  destruct (Z.leb_spec port 0), (Z.ltb_spec 0 port); try lia; done.
Qed.

(** ** What is asked of the policy *)

(** Marked packets were counted and the handoff was not seen. *)
Definition handoff_unobserved (i : preflight_inputs) : bool :=
  in_require_runtime_verify i
  && (((0 <? default 0 (packets_of i "vpn_mark_packets")) && negb (flag "transparent_flow_observed" (transparent_path i)))
      || ((0 <? default 0 (packets_of i "vpn_mark_tcp_packets"))
          && negb (flag "transparent_tcp_flow_observed" (transparent_path i)
                   && flag "transparent_tcp_session_materialized" (transparent_runtime i)))).

(** Mihomo answers, or nobody asked, or the contour is an external adapter's. *)
Definition controller_ok (i : preflight_inputs) : bool :=
  is_set (external_vpn_contour i) || negb (in_require_runtime_verify i) || String.eqb (runtime_state (in_health i)) "running".

(** The policy can be prepared: one clause per prerequisite. *)
Definition policy_prepared (i : preflight_inputs) (s : preflight_state) : Prop :=
  let c := ps_contour s in
  vpn_module_disabled i = false /\
  port_defined c = true /\
  (contour_required i (requires_vpn_runtime s) = true -> cs_complete c = true) /\
  cs_explicit_proxy_preserved c = true /\
  controller_ok i = true /\
  handoff_unobserved i = false.

Lemma vpn_missing_state i s : preflight_state_of i = Some s ->
  exists path_kind, vpn_missing_of i (ps_contour s) (sub_dict "vpn_routing_contract" (profile_of i (ps_contour s) path_kind))
                      (requires_vpn_runtime s) = Some (ps_vpn_missing s)
  /\ ps_contract s = sub_dict "vpn_routing_contract" (profile_of i (ps_contour s) path_kind)
  /\ resolve_contour i = Some (ps_contour s).
Proof.
  unfold preflight_state_of. intros E.
  repeat (match type of E with (?m ≫= _) = _ => destruct m eqn:?; [cbn [mbind option_bind] in E|discriminate] end).
  injection E as <-. eexists. split; [|split]; [eassumption|done|done].
Qed.

(** The missing items as booleans: a filter of the list is a conjunction of its conditions. *)
Lemma missing_split i c path_kind requires l :
  vpn_missing_of i c (sub_dict "vpn_routing_contract" (profile_of i c path_kind)) requires = Some l ->
  none_missing (List.filter (fun item => negb (is_egress_observation item)) l)
  = negb (vpn_module_disabled i) && port_defined c && negb (contour_required i requires && negb (cs_complete c))
    && cs_explicit_proxy_preserved c && controller_ok i && negb (handoff_unobserved i)
  /\ none_missing (List.filter is_egress_observation l)
     = vpn_target_reachable i && cs_policy_installed c && vpn_external_path_verified i
  /\ bool_decide (MISSING_VPN_TPROXY_HANDOFF ∈ l) = handoff_unobserved i
  /\ none_missing l
     = none_missing (List.filter (fun item => negb (is_egress_observation item)) l)
       && none_missing (List.filter is_egress_observation l).
Proof.
  unfold vpn_missing_of, handoff_unobserved.
  destruct (packets_of i "vpn_mark_packets") as [packets|]; [|discriminate].
  destruct (packets_of i "vpn_mark_tcp_packets") as [tcp|]; [|discriminate].
  cbn [mbind option_bind default from_option]. rewrite contract_empty. intros [= <-].
  autorewrite with missing. evaluate_missing. autorewrite with missing.
  unfold port_defined, controller_ok. repeat split; destruct (cs_tproxy_port c); bool_cases.
Qed.

Lemma vbool_true b : VBool b = VBool true <-> b = true.
Proof. split; congruence. Qed.

Lemma vstr_eq x y : VStr x = VStr y <-> x = y.
Proof. split; congruence. Qed.

Lemma policy_prepared_iff i s : preflight_state_of i = Some s ->
  none_missing (vpn_policy_missing s) = true <-> policy_prepared i s.
Proof.
  intros E. destruct (vpn_missing_state i s E) as (path_kind & Em & _ & _).
  destruct (missing_split _ _ _ _ _ Em) as (Ep & _). unfold vpn_policy_missing. rewrite Ep. unfold policy_prepared.
  rewrite !andb_true_iff, !negb_true_iff, andb_false_iff, negb_false_iff.
  destruct (contour_required i (requires_vpn_runtime s)); intuition congruence.
Qed.

Lemma egress_ready_value i s : preflight_state_of i = Some s ->
  vpn_egress_ready i s
  = vpn_target_reachable i && policy_installed s && vpn_external_path_verified i && negb (handoff_unobserved i).
Proof.
  intros E. destruct (vpn_missing_state i s E) as (path_kind & Em & _ & _).
  destruct (missing_split _ _ _ _ _ Em) as (_ & Eg & Eh & _).
  unfold vpn_egress_ready, vpn_egress_missing. rewrite Eg, Eh. unfold policy_installed.
  destruct (vpn_target_reachable i), (cs_policy_installed _), (vpn_external_path_verified i), (handoff_unobserved i); done.
Qed.

(** What the preflight answers about the VPN, on every input it does not raise on.  The policy can be prepared exactly
    when the module is not disabled, a positive TPROXY port is known, the contour is complete if the mode or a rule asks
    for it, explicit proxies stay isolated, Mihomo answers where that is verified and no marked packet went unseen; it can
    be enforced when, besides, the fail-closed policy is installed.  Egress is ready exactly when a server is reachable,
    the policy is installed, the external path is verified and no marked packet went unseen.  A selective setup whose
    rules use the VPN is degraded exactly when one of the two is not given. *)
Theorem vpn_readiness_exact i p : build_global_preflight i = Some p ->
  exists s, preflight_state_of i = Some s /\
  (dget "can_prepare_global_vpn" p = VBool true <-> policy_prepared i s) /\
  (dget "can_enforce_global_vpn" p = VBool true <-> policy_prepared i s /\ policy_installed s = true) /\
  (dget "vpn_egress_ready" p = VBool true <->
     vpn_target_reachable i = true /\ policy_installed s = true /\ vpn_external_path_verified i = true /\
     handoff_unobserved i = false) /\
  (dget "selective_degraded" p = VBool true <->
     requires_vpn_runtime s = true /\ ~ (policy_prepared i s /\ dget "vpn_egress_ready" p = VBool true)).
Proof.
  unfold build_global_preflight. destruct (preflight_state_of i) as [s|] eqn:E; [|discriminate]. intros [= <-].
  exists s. split; [done|]. pose proof (policy_prepared_iff i s E) as Hp. pose proof (egress_ready_value i s E) as He.
  destruct (vpn_missing_state i s E) as (path_kind & Em & _ & _).
  destruct (missing_split _ _ _ _ _ Em) as (_ & Eg & _ & Ea).
  change (dget "vpn_egress_ready" (preflight_dict i s)) with (VBool (vpn_egress_ready i s)). rewrite He.
  change (dget "can_prepare_global_vpn" _) with (VBool (none_missing (vpn_policy_missing s))).
  change (dget "can_enforce_global_vpn" _) with (VBool (none_missing (vpn_policy_missing s) && policy_installed s)).
  change (dget "selective_degraded" _) with (VBool (selective_degraded_of s)).
  unfold selective_degraded_of, selective_vpn_ready. rewrite Ea, Eg. fold (vpn_policy_missing s) (policy_installed s).
  assert (Hu : policy_prepared i s -> handoff_unobserved i = false) by (unfold policy_prepared; tauto).
  rewrite <- Hp in *. rewrite !vbool_true, !andb_true_iff, !negb_true_iff.
  destruct (requires_vpn_runtime s), (none_missing (vpn_policy_missing s)), (vpn_target_reachable i), (policy_installed s),
    (vpn_external_path_verified i), (handoff_unobserved i); cbn; intuition congruence.
Qed.

(** ** The enforcement that is reported *)

(** What the preflight asks for the mode. *)
Definition mode_enforceable (i : preflight_inputs) (s : preflight_state) (mode : string) : Prop :=
  if String.eqb mode "vpn" then policy_prepared i s /\ policy_installed s = true
  else if String.eqb mode "selective" then ps_selective_missing s = []
  else ps_direct_missing s = [].

(** Nothing is missing for traffic to flow in the mode, not only to be kept from leaking. *)
Definition mode_flows (i : preflight_inputs) (s : preflight_state) (mode : string) : Prop :=
  (mode = "vpn" -> vpn_egress_ready i s = true) /\ (mode = "selective" -> selective_degraded_of s = false).

Lemma none_missing_iff l : none_missing l = true <-> l = [].
Proof. by destruct l. Qed.

Lemma vstrings_nil l : vstrings l = VList [] <-> l = [].
Proof. by destruct l. Qed.

Lemma vlist_of_strings l : vlist_of (vstrings l) = Some (vstrings l).
Proof. done. Qed.

(** The answers of the dictionary, as the dispatch on the mode reads them. *)
Definition dispatched (s : preflight_state) (i : preflight_inputs) (mode : string) : py enforcement :=
  mode_enforcement (preflight_dict i s) mode (VBool (none_missing (ps_direct_missing s)))
    (VBool (none_missing (ps_selective_missing s)))
    (VBool (none_missing (vpn_policy_missing s) && policy_installed s)).

(** What is reported for the mode when the live mode matches. *)
Definition reported (i : preflight_inputs) (s : preflight_state) (mode : string) (e : enforcement) : Prop :=
  en_matches e = true /\ (en_guaranteed e = true <-> mode_enforceable i s mode) /\
  (en_level e = ENFORCEMENT_LEVEL_GLOBAL_VPN_ENFORCED <->
     mode_enforceable i s mode /\ mode = "vpn" /\ vpn_egress_ready i s = true) /\
  (en_missing e = VList [] <-> mode_enforceable i s mode /\ mode_flows i s mode).

Ltac dispatch :=
  unfold dispatched, reported, mode_enforceable, mode_flows, mode_enforcement;
  cbn [String.eqb Ascii.eqb Bool.eqb andb truthy].
Ltac reported_fields := intros [= <-]; cbn [en_matches en_guaranteed en_level en_missing truthy]; rewrite vstrings_nil, <- none_missing_iff.
Ltac settle := intuition (try first [congruence|discriminate]).

Lemma direct_reported i s e : dispatched s i "direct" = Some e -> reported i s "direct" e.
Proof.
  dispatch. rewrite <- none_missing_iff. destruct (none_missing (ps_direct_missing s)) eqn:En.
  - intros [= <-]. cbn. settle.
  - change (missing_for "direct" (preflight_dict i s)) with (Some (vstrings (ps_direct_missing s))).
    reported_fields. rewrite En. settle.
Qed.

Lemma selective_reported i s e : dispatched s i "selective" = Some e -> reported i s "selective" e.
Proof.
  dispatch. rewrite <- none_missing_iff. destruct (none_missing (ps_selective_missing s)) eqn:En.
  - change (dget_or "selective_degraded_missing" (VList []) (preflight_dict i s))
      with (vstrings (if selective_degraded_of s then ps_vpn_missing s else [])).
    rewrite vlist_of_strings. reported_fields. unfold selective_degraded_of, selective_vpn_ready.
    destruct (requires_vpn_runtime s), (none_missing (ps_vpn_missing s)) eqn:Hn; cbn [negb andb orb]; rewrite ?Hn; settle.
  - change (missing_for "selective" (preflight_dict i s)) with (Some (vstrings (ps_selective_missing s))).
    reported_fields. rewrite En. settle.
Qed.

Lemma vpn_reported i s e : preflight_state_of i = Some s -> dispatched s i "vpn" = Some e -> reported i s "vpn" e.
Proof.
  intros E. pose proof (policy_prepared_iff i s E) as Hp. pose proof (egress_ready_value i s E) as He.
  destruct (vpn_missing_state i s E) as (path_kind & Em & _ & _).
  destruct (missing_split _ _ _ _ _ Em) as (_ & Eg & _ & Ea). dispatch. rewrite <- Hp.
  assert (Hn : handoff_unobserved i = true -> none_missing (vpn_policy_missing s) = false).
  { intros Hh. apply not_true_iff_false. rewrite Hp. unfold policy_prepared. rewrite Hh. intuition discriminate. }
  destruct (none_missing (vpn_policy_missing s) && policy_installed s) eqn:En.
  - change (dget "vpn_egress_ready" (preflight_dict i s)) with (VBool (vpn_egress_ready i s)).
    assert (Hv : por (dget "vpn_egress_missing" (preflight_dict i s)) (VList []) = vstrings (vpn_egress_missing s))
      by (change (dget "vpn_egress_missing" _) with (vstrings (vpn_egress_missing s)); by destruct (vpn_egress_missing s)).
    rewrite Hv, vlist_of_strings. reported_fields. unfold vpn_egress_missing. rewrite Eg, He. unfold policy_installed in *.
    apply andb_true_iff in En as [En1 En2]. rewrite En1, En2 in *.
    destruct (vpn_target_reachable i), (vpn_external_path_verified i), (handoff_unobserved i); cbn; settle.
  - change (missing_for "vpn" (preflight_dict i s)) with (Some (vstrings (ps_vpn_missing s))).
    reported_fields. rewrite Ea, Eg. unfold policy_installed, vpn_policy_missing in *.
    destruct (none_missing _), (cs_policy_installed _); try discriminate; rewrite ?andb_false_r; settle.
Qed.

Lemma mode_reported i s mode e : mode ∈ ["direct"; "selective"; "vpn"] -> preflight_state_of i = Some s ->
  dispatched s i mode = Some e -> reported i s mode e.
Proof.
  rewrite !elem_of_cons, elem_of_nil.
  intros [->|[->|[->|[]]]] E; [apply direct_reported|apply selective_reported|by apply vpn_reported].
Qed.

(** The live mode, and in selective mode its default, are those asked for; without a probe nothing is compared. *)
Definition live_matches (routing : option dict) (probe : pyval) (mode : string) : bool :=
  (live_probe_view probe mode (py_lower (py_str (por (dget "selective_default" (default [] routing)) (VStr "direct"))))).2.

(** The enforcement reported for the applied mode, from the preflight to the report.  Traffic is called enforced exactly
    when the live mode matches the intent and the preflight finds everything the mode asks for; a VPN without working
    egress is never reported as more than fail-closed; and the list of missing requirements is empty exactly when
    traffic is enforced and flows, so that every refusal and every degradation names a reason. *)
Theorem enforcement_exact routing probe mode_override i e :
  let mode := enforced_mode routing mode_override in
  build_applied_runtime_enforcement routing None probe mode_override (build_global_preflight i) = Some e ->
  mode ∈ ["direct"; "selective"; "vpn"] ->
  exists s, preflight_state_of i = Some s /\
  let enforced := live_matches routing probe mode = true /\ mode_enforceable i s mode in
  (dget "traffic_enforcement_guaranteed" e = VBool true <-> enforced) /\
  (dget "enforcement_level" e = VStr ENFORCEMENT_LEVEL_GLOBAL_VPN_ENFORCED <->
     enforced /\ mode = "vpn" /\ vpn_egress_ready i s = true) /\
  (dget "missing_runtime_requirements" e = VList [] <-> enforced /\ mode_flows i s mode).
Proof.
  intros mode. unfold build_applied_runtime_enforcement, build_global_preflight. fold mode.
  destruct (preflight_state_of i) as [s|] eqn:E; [|discriminate]. cbn [mbind option_bind resolved_preflight nonempty_dict].
  change (item "can_enforce_global_direct" (preflight_dict i s)) with (Some (VBool (none_missing (ps_direct_missing s)))).
  change (item "can_enforce_global_selective" (preflight_dict i s)) with (Some (VBool (none_missing (ps_selective_missing s)))).
  change (item "can_enforce_global_vpn" (preflight_dict i s))
    with (Some (VBool (none_missing (vpn_policy_missing s) && policy_installed s))).
  change (item "profile" (preflight_dict i s)) with (Some (VDict (ps_profile s))). cbn [mbind option_bind].
  unfold live_matches. destruct (live_probe_view _ _ _) as [[live_mode live_default] [|]]; cbn [negb snd mbind option_bind].
  - destruct (dispatched s i mode) as [en|] eqn:Ed; unfold dispatched in Ed; rewrite Ed; [|discriminate].
    intros [= <-] Hm. exists s. split; [done|]. destruct (mode_reported i s mode en Hm E Ed) as (_ & Hg & Hl & Hmi).
    cbn. rewrite vbool_true, vstr_eq, Hg, Hl, Hmi. settle.
  - intros [= <-] _. exists s. split; [done|]. cbn. settle.
Qed.

(** ** The preflight and the renderer *)

(** The contour a renderer reads from a preflight whose port is defined. *)
Definition contour_of_state (c : contour_state) (port : Z) : contour :=
  Contour (or_int (cs_redir_port c) 5202) (VInt port) (or_int (cs_full_redir_port c) 5204) (or_int (cs_full_tproxy_port c) 5205)
    "0x00000100" "0x00000200".

Lemma read_contour_preflight i s port :
  preflight_state_of i = Some s -> cs_tproxy_port (ps_contour s) = Some port -> 0 < port ->
  read_contour (VDict (preflight_dict i s)) = contour_of_state (ps_contour s) port.
Proof.
  intros E Ep Hport. destruct (vpn_missing_state i s E) as (path_kind & _ & Ec & _). rewrite profile_contract in Ec.
  unfold build_vpn_steering_contract in Ec. rewrite Ep in Ec.
  destruct (Z.leb_spec port 0); [lia|]. cbn [default from_option] in Ec. unfold read_contour.
  change (get_in "vpn_contour" (VDict (preflight_dict i s))) with (VDict (ps_contract s)). rewrite Ec.
  assert (Ht : negb (port =? 0) = true) by (apply negb_true_iff, Z.eqb_neq; lia).
  unfold contour_of_state. cbn. rewrite Ht.
  by destruct (cs_redir_port _), (cs_full_redir_port _), (cs_full_tproxy_port _).
Qed.

(** The renderer steers with what the preflight found.  A manifest that carries a preflight with a positive TPROXY port
    is rendered for that port, the redirect port found (5202 when none is known), the full-VPN listeners (5204 and 5205
    unless an external adapter reports others) and the two fixed marks; selective traffic is steered or refused by the
    preflight's own answers; and, the full-VPN ports being positive, the contour is one with which subjects on the VPN path
    are handed off. *)
Theorem preflight_contour `{Settings} `{NftSettings} i s m v port :
  preflight_state_of i = Some s -> cs_tproxy_port (ps_contour s) = Some port -> 0 < port ->
  dget "global_preflight" m = VDict (preflight_dict i s) -> view_of (VDict m) = Ok v ->
  v_contour v = contour_of_state (ps_contour s) port /\
  selective_vpn_policy_ready (v_state v) = selective_vpn_policy_ready_of s /\ selective_degraded (v_state v) = selective_degraded_of s /\
  (0 < default 5204 (cs_full_redir_port (ps_contour s)) -> 0 < default 5205 (cs_full_tproxy_port (ps_contour s)) ->
   contour_ready (v_contour v) 256).
Proof.
  intros E Ep Hport Hm Hv. apply result_bind_ok in Hv as (subjects & _ & (summary & _ & Hv)%result_bind_ok).
  apply result_bind_ok in Hv as (preflight & Hp%of_py_ok & (counted & _ & (entries & _ & [= <-])%result_bind_ok)%result_bind_ok).
  unfold manifest_section in Hp. rewrite Hm in Hp. injection Hp as <-. cbn [v_contour v_state].
  rewrite (read_contour_preflight i s port) by done. repeat split; try done; cbn; by apply Z.ltb_lt.
Qed.
End Facts.

(** ** Concrete inputs for the witnesses *)

#[local] Existing Instance sample_repr.
#[local] Existing Instance sample_sources.
#[local] Existing Instance sample_nft_settings.
#[local] Existing Instance default_settings.

Definition sample_health (server : option string) : mihomo_health :=
  MihomoHealth "running" server "ok"
    (VDict [("vpn_udp_policy", VDict [("policy_installed", VBool true)]);
            ("selectors", VDict [("vpn_global_exists", VBool true)]);
            ("config",
             VDict [("redir_port", VInt 5202); ("tproxy_port", VStr " 5203 ");
                    ("fwrouter_contours",
                     VDict [("transparent_vpn",
                             VDict [("ready", VBool true); ("transparent_tcp_ready", VStr "yes");
                                    ("transparent_udp_ready", VBool true)])])])]).

Definition sample_inputs (server : option string) : preflight_inputs :=
  PreflightInputs (Some [("applied_mode", VStr "vpn")]) (Some [("vpn_external_path_verified", VBool true)])
    (sample_health server) (Some [("rules", VList [])]) true [] (Some [("desired_state", VStr "enabled")]) [].

Definition sample_preflight (server : option string) : dict := default [] (build_global_preflight (sample_inputs server)).

Lemma sample_preflight_built server : build_global_preflight (sample_inputs server) = Some (sample_preflight server).
Proof. by destruct server. Qed.

(** With a server everything is ready; without one the policy can be enforced and egress is not ready. *)
Lemma vpn_readiness_exact_witness :
  (exists s, policy_prepared (sample_inputs (Some "srv")) s) /\ (exists s, policy_prepared (sample_inputs None) s) /\
  dget "vpn_egress_ready" (sample_preflight (Some "srv")) = VBool true /\
  dget "vpn_egress_ready" (sample_preflight None) = VBool false.
Proof.
  destruct (vpn_readiness_exact (sample_inputs (Some "srv")) (sample_preflight (Some "srv")) (sample_preflight_built _))
    as (s & _ & Hs & _).
  destruct (vpn_readiness_exact (sample_inputs None) (sample_preflight None) (sample_preflight_built _))
    as (s' & _ & Hs' & _).
  repeat split; [exists s|exists s'|..]; [apply Hs|apply Hs'|..]; vm_compute; reflexivity.
Defined.

Definition sample_report (server : option string) : dict :=
  default [] (build_applied_runtime_enforcement (Some [("applied_mode", VStr "vpn")]) None VNone None
                (build_global_preflight (sample_inputs server))).

Lemma enforcement_exact_witness :
  (exists s, mode_flows (sample_inputs (Some "srv")) s "vpn") /\
  (exists s, mode_enforceable (sample_inputs None) s "vpn" /\ vpn_egress_ready (sample_inputs None) s = false) /\
  dget "enforcement_level" (sample_report None) = VStr "global_vpn_fail_closed".
Proof.
  assert (Hm : "vpn" ∈ ["direct"; "selective"; "vpn"]) by (vm_compute; repeat constructor).
  destruct (enforcement_exact (Some [("applied_mode", VStr "vpn")]) VNone None (sample_inputs (Some "srv"))
              (sample_report (Some "srv")) ltac:(vm_compute; reflexivity) Hm) as (s & _ & _ & _ & Hs).
  destruct (enforcement_exact (Some [("applied_mode", VStr "vpn")]) VNone None (sample_inputs None)
              (sample_report None) ltac:(vm_compute; reflexivity) Hm) as (s' & Es' & Hg & _ & Hs').
  repeat split.
  - exists s. destruct Hs as [Hs _]. destruct Hs as [_ Hf]; [vm_compute; reflexivity|exact Hf].
  - exists s'. split.
    + apply Hg. vm_compute. reflexivity.
    + vm_compute in Es'. injection Es' as <-. vm_compute. reflexivity.
Defined.

Definition preflight_manifest : dict :=
  [("summary", VDict [("global_mode", VStr "vpn")]); ("global_preflight", VDict (sample_preflight (Some "srv")))].

Definition sample_state : option preflight_state := preflight_state_of (sample_inputs (Some "srv")).

Lemma preflight_contour_witness : exists v s,
  sample_state = Some s /\ view_of (VDict preflight_manifest) = Ok v /\ contour_ready (v_contour v) 256.
Proof.
  destruct sample_state as [s|] eqn:E; [|vm_compute in E; discriminate].
  destruct (view_of (VDict preflight_manifest)) as [v|] eqn:Ev; [|vm_compute in Ev; discriminate].
  exists v, s. repeat split.
  all: assert (Hs : preflight_dict (sample_inputs (Some "srv")) s = sample_preflight (Some "srv"))
    by (unfold sample_preflight, build_global_preflight; unfold sample_state in E; rewrite E; reflexivity).
  all: assert (Ep : cs_tproxy_port (ps_contour s) = Some 5203) by (vm_compute in E; injection E as <-; vm_compute; reflexivity).
  all: destruct (preflight_contour (sample_inputs (Some "srv")) s preflight_manifest v 5203 E Ep ltac:(lia)
         ltac:(rewrite Hs; reflexivity) Ev) as (_ & _ & _ & Hc); apply Hc; vm_compute in E; injection E as <-; vm_compute; reflexivity.
Defined.
