(* ===== verification/SubjectPolicy.v ===== *)
(** * The policy of a subject

    [services/subject_policy.py] with [services/subject_server_override_codec.py]
    and the emergency override of [services/provider_recovery.py]: the
    effective mode of a subject under routing, administrator and user, its
    binding to a path and a VPN target, the enriched subject, which modes may
    be asked for, and the two override tables with their expiry. *)
From stdpp Require Import base list strings pretty gmap sorting.
From Stdlib Require Import ZArith Lia Ascii.
From S2P Require Import Prelude PyStr PyVal SubjectTaxonomy DockerPolicy ScopedEgress ScopedReadiness NftSets DataplanePreflight.

Open Scope string_scope.
Open Scope Z_scope.
Open Scope list_scope.

(** ** Constants *)

Definition ADMIN_MODES_BY_SUBJECT_TYPE : list (string * list string) :=
  [("lan", ["global"; "direct"; "selective"; "vpn"; "disabled"]);
   ("external_network_client", ["global"; "direct"; "selective"; "vpn"; "disabled"]);
   ("tailscale", ["global"; "direct"; "selective"; "vpn"; "disabled"]);
   ("tailscale_node", ["global"; "direct"; "selective"; "vpn"; "disabled"]);
   ("explicit_external_client", ["enabled"; "direct"; "selective"; "vpn"; "disabled"]);
   ("xray", ["enabled"; "direct"; "selective"; "vpn"; "disabled"]);
   ("host", ["direct"; "vpn"; "disabled"]);
   ("docker", ["direct"; "vpn"; "disabled"]);
   ("fwrouter", ["direct"])].

Definition USER_MODES : list string := ["direct"; "selective"; "vpn"].
Definition SERVER_TARGET_KIND : string := "server".
Definition VPN_AUTO_TARGET_KIND : string := "vpn_auto".

(** [get_routing_global_state() or {...}], when there is no row. *)
Definition DEFAULT_ROUTING : dict :=
  [("desired_mode", VStr "direct"); ("applied_mode", VNone); ("selective_default", VStr "direct");
   ("server_mode", VStr "auto"); ("desired_fixed_server_id", VNone); ("applied_fixed_server_id", VNone);
   ("fixed_server_until", VNone); ("active_auto_server_id", VNone); ("apply_state", VStr "pending");
   ("error_code", VNone); ("error_message", VNone); ("updated_at", VNone)].

Definition _routing_snapshot (state : option dict) : dict := default DEFAULT_ROUTING (nonempty_dict state).

(** ** The target codec *)

Section Policy.
Context `{ReprContainer}.

Definition decode_target (row : option dict) : option string :=
  match row with
  | None => None
  | Some values =>
      let kind := py_str (por (dget "selected_target_kind" values) (VStr SERVER_TARGET_KIND)) in
      let server_id := dget "selected_server_id" values in
      if String.eqb kind VPN_AUTO_TARGET_KIND then
        match server_id with VNone => Some VIRTUAL_XRAY_VPN_AUTO_SERVER_ID | _ => None end
      else if String.eqb kind SERVER_TARGET_KIND && truthy server_id then Some (py_str server_id)
      else None
  end.

Definition encode_target (server_id : option string) : string * option string :=
  let normalized := stripped (vopt server_id) in
  if String.eqb normalized VIRTUAL_XRAY_VPN_AUTO_SERVER_ID then (VPN_AUTO_TARGET_KIND, None)
  else (SERVER_TARGET_KIND, if String.eqb normalized "" then None else Some normalized).

Definition project_row (row : option dict) : option dict :=
  match row with
  | None => None
  | Some result =>
      let target_id := decode_target (Some result) in
      Some (dset "selected_target_kind"
              (VStr (if bool_decide (target_id = Some VIRTUAL_XRAY_VPN_AUTO_SERVER_ID)
                     then VPN_AUTO_TARGET_KIND else SERVER_TARGET_KIND))
              (dset "selected_server_id" (vopt target_id) result))
  end.

(** ** The override tables

    A row is a dict of its columns; a TEXT column compares with
    [CURRENT_TIMESTAMP] byte by byte, and NULL with nothing. *)
Record override_tables := OverrideTables { user_rows : list dict; server_rows : list dict }.

Definition is_null (v : pyval) : bool := match v with VNone => true | _ => false end.
Definition after (now : string) (v : pyval) : bool := match v with VStr s => negb (py_leb s now) | _ => false end.
Definition not_after (now : string) (v : pyval) : bool := match v with VStr s => py_leb s now | _ => false end.

Definition active_user_row (now : string) (row : dict) : bool :=
  negb (is_null (dget "override_mode" row)) && after now (dget "override_until" row).
Definition active_server_row (now : string) (row : dict) : bool :=
  (eq_str (dget "selected_target_kind" row) "vpn_auto" || negb (is_null (dget "selected_server_id" row)))
  && after now (dget "selected_until" row).

Definition row_of (subject_id : string) (row : dict) : bool := eq_str (dget "subject_id" row) subject_id.

Definition _load_active_user_override (db : override_tables) (now subject_id : string) : option dict :=
  List.find (fun row => row_of subject_id row && active_user_row now row) (user_rows db).

Definition _load_active_server_override (db : override_tables) (now subject_id : string) : option dict :=
  project_row (List.find (fun row => row_of subject_id row && active_server_row now row) (server_rows db)).

(** [str(id).strip()] of the ids that are not blank. *)
Definition normalized_ids (subject_ids : list string) : list string :=
  List.filter nonempty_text (map py_strip subject_ids).

Definition in_ids (ids : list string) (row : dict) : bool :=
  match dget "subject_id" row with VStr s => bool_decide (s ∈ ids) | _ => false end.

Definition _load_active_user_overrides (db : override_tables) (now : string) (subject_ids : list string)
    : list (string * dict) :=
  map (fun row => (py_str (dget "subject_id" row), row))
    (List.filter (fun row => in_ids (normalized_ids subject_ids) row && active_user_row now row) (user_rows db)).

Definition _load_active_server_overrides (db : override_tables) (now : string) (subject_ids : list string)
    : list (string * dict) :=
  omap (fun row => projected ← project_row (Some row); Some (py_str (dget "subject_id" row), projected))
    (List.filter (fun row => in_ids (normalized_ids subject_ids) row && active_server_row now row) (server_rows db)).

(** [overrides.get(id)]: a later row of the dict comprehension wins. *)
Definition override_for (subject_id : string) (overrides : list (string * dict)) : option dict :=
  option_map snd (List.find (fun x : string * dict => String.eqb x.1 subject_id) (rev overrides)).

(** *** Expiry

    SQLite evaluates [CURRENT_TIMESTAMP] once per statement: the two SELECTs
    and the two DELETEs each have their time. *)
Record expiry_times := ExpiryTimes { t_user : string; t_server : string; t_user_delete : string; t_server_delete : string }.

Definition select_columns (columns : list string) (row : dict) : dict := map (fun c => (c, dget c row)) columns.
Definition USER_EXPIRY_COLUMNS : list string := ["subject_id"; "override_mode"; "override_until"].
Definition SERVER_EXPIRY_COLUMNS : list string :=
  ["subject_id"; "selected_server_id"; "selected_target_kind"; "selected_until"].

(** The rows a SELECT of the expiry finds, in their order. *)
Definition expired_rows (column now : string) (rows : list dict) : list dict :=
  sort_by (fun a b => py_leb (py_str (dget column a)) (py_str (dget column b)))
    (List.filter (fun row => not_after now (dget column row)) rows).

Definition delete_expired (column now : string) (rows : list dict) : list dict :=
  List.filter (fun row => negb (not_after now (dget column row))) rows.

Definition expire_result (dry_run : bool) (users servers : list dict) : dict :=
  [("dry_run", VBool dry_run);
   ("expired_user_overrides_count", VInt (Z.of_nat (length users)));
   ("expired_user_overrides", VList (map VDict users));
   ("expired_server_overrides_count", VInt (Z.of_nat (length servers)));
   ("expired_server_overrides", VList (map VDict servers))].

Definition expire_subject_overrides (dry_run : bool) (t : expiry_times) (db : override_tables)
    : dict * override_tables :=
  let users := map (select_columns USER_EXPIRY_COLUMNS) (expired_rows "override_until" (t_user t) (user_rows db)) in
  let expired_server_rows :=
    map (select_columns SERVER_EXPIRY_COLUMNS) (expired_rows "selected_until" (t_server t) (server_rows db)) in
  let servers := omap (fun row => project_row (Some row)) expired_server_rows in
  (expire_result dry_run users servers,
   if dry_run then db
   else OverrideTables
          (if (length users =? 0)%nat then user_rows db
           else delete_expired "override_until" (t_user_delete t) (user_rows db))
          (if (length servers =? 0)%nat then server_rows db
           else delete_expired "selected_until" (t_server_delete t) (server_rows db))).

(** ** The effective mode *)

Definition _xray_effective_mode (desired_mode : string) (user_override : option dict) : py (string * string) :=
  if String.eqb desired_mode "disabled" then Some ("disabled", "subject")
  else if String.eqb desired_mode "enabled" then
    match user_override with
    | Some override => mode ← item "override_mode" override; Some (py_str mode, "user_override")
    | None => Some ("forced_vpn", "subject_default")
    end
  else if String.eqb desired_mode "forced_vpn" then Some ("forced_vpn", "subject")
  else if bool_decide (desired_mode ∈ ["direct"; "selective"; "vpn"]) then Some (desired_mode, "admin_locked")
  else Some ("disabled", "subject").

Definition _user_override_gate (subject : dict) : py (bool * string) :=
  type ← item "subject_type" subject;
  mode ← item "desired_mode" subject;
  let subject_type := py_str type in
  Some (if subject_follows_global_mode (Some subject_type)
        then (String.eqb (py_str mode) "global", "User override is allowed only while admin mode is global.")
        else if is_explicit_external_client_subject_type (Some subject_type)
        then (false, "User mode changes are not allowed for explicit external client subjects.")
        else (false, "User mode changes are allowed only for LAN and Tailscale-node subjects.")).

Definition resolve_effective_capture_mode (subject routing : dict) (user_override : option dict)
    : py (string * string) :=
  type ← item "subject_type" subject;
  mode ← item "desired_mode" subject;
  let subject_type := py_str type in
  let desired_mode := py_str mode in
  if subject_follows_global_mode (Some subject_type) then
    if String.eqb desired_mode "global" then
      match user_override with
      | Some override => mode ← item "override_mode" override; Some (py_str mode, "user_override")
      | None => mode ← item "desired_mode" routing; Some (py_str mode, "global")
      end
    else Some (desired_mode, "admin_locked")
  else if is_explicit_external_client_subject_type (Some subject_type) then _xray_effective_mode desired_mode user_override
  else Some (desired_mode, "subject").

Definition _effective_mode_with_override (subject routing : dict) (user_override : option dict) : py (string * string) :=
  type ← item "subject_type" subject;
  if String.eqb (py_str type) "fwrouter" then Some ("direct", "architectural_invariant")
  else resolve_effective_capture_mode subject routing user_override.

(** ** The binding

    [runtime_enforcement] is not read by the two functions: when it is None
    they fetch the live state and drop it. *)
Definition resolve_selective_default (routing : dict) : string :=
  py_str (por (dget "selective_default" routing) (VStr "direct")).

Definition vpn_target (target_id target_source : option string) (server_id : pyval) (server_source : string) : dict :=
  [("vpn_target_id", vopt target_id); ("vpn_target_source", vopt target_source);
   ("selected_server_id", server_id); ("selected_server_source", VStr server_source)].

(** [d[a] or d[b]]. *)
Definition item_or (a b : string) (d : dict) : py pyval :=
  x ← item a d; if truthy x then Some x else item b d.

Definition resolve_effective_vpn_target (effective_mode : string) (subject_type : option string)
    (subject_server_override : option dict) (routing : dict) : py dict :=
  let selective_default := resolve_selective_default routing in
  if String.eqb (text_of (vopt subject_type)) "fwrouter" then Some (vpn_target None None VNone "fwrouter_direct_safe")
  else if String.eqb effective_mode "disabled" then Some (vpn_target None None VNone "disabled")
  else if String.eqb effective_mode "direct" then Some (vpn_target None None VNone "direct")
  else if String.eqb effective_mode "selective" then
    match subject_server_override with
    | Some override =>
        server_id ← item "selected_server_id" override;
        Some (vpn_target (Some (py_str server_id)) (Some "subject_override") server_id "subject_override"
              ++ [("selective_default", VStr selective_default)])
    | None => Some (vpn_target None None VNone selective_default ++ [("selective_default", VStr selective_default)])
    end
  else if negb (bool_decide (effective_mode ∈ ["vpn"; "forced_vpn"])) then Some (vpn_target None None VNone "unknown")
  else
    match subject_server_override with
    | Some override =>
        server_id ← item "selected_server_id" override;
        Some (vpn_target (Some (py_str server_id)) (Some "subject_override") server_id "subject_override")
    | None =>
        fixed_server_id ← item_or "applied_fixed_server_id" "desired_fixed_server_id" routing;
        server_mode ← item "server_mode" routing;
        if eq_str server_mode "fixed" && truthy fixed_server_id
        then Some (vpn_target (Some (py_str fixed_server_id)) (Some "global_fixed") fixed_server_id "global_fixed")
        else active ← item "active_auto_server_id" routing;
             Some (vpn_target (Some "vpn-global") (Some "vpn_auto") active "vpn_auto")
    end.

Definition path_of_mode (effective_mode : string) (subject_type : option string) : string :=
  if String.eqb (text_of (vopt subject_type)) "fwrouter" then "direct"
  else if String.eqb effective_mode "disabled" then "blocked"
  else if String.eqb effective_mode "direct" then "direct"
  else if String.eqb effective_mode "selective" then "selective"
  else if negb (bool_decide (effective_mode ∈ ["vpn"; "forced_vpn"])) then effective_mode
  else "vpn".

Definition _effective_binding (effective_mode : string) (subject_type : option string)
    (subject_server_override : option dict) (routing : dict) : py dict :=
  target ← resolve_effective_vpn_target effective_mode subject_type subject_server_override routing;
  Some (("dataplane_path", VStr (path_of_mode effective_mode subject_type)) :: target).

(** ** The emergency override of [services/provider_recovery.py] *)

(** [reentry] is the context variable [_REENTRY]. *)
Definition emergency_override (reentry : bool) (pending : option dict) : option dict :=
  if reentry then None
  else match nonempty_dict pending with
       | Some p => if truthy (dget "provider_managed" p) && truthy (dget "emergency_direct" p) then Some p else None
       | None => None
       end.

(** ** The enriched subject *)

Definition DATAPLANE_CAPABILITY_NFT_OWNED_TABLE : string := "nft_owned_table".
Definition ENFORCEMENT_LEVEL_OWNED_TABLE_READY : string := "owned_table_ready".
Definition ENFORCEMENT_LEVEL_BYPASS_DIRECT_SAFE : string := "bypass_direct_safe".

(** The enforcement of a table that is not live yet: [missing] is what the preflight misses. *)
Definition table_enforcement (level : string) (bypass : bool) (missing : pyval) (preflight : dict) : py dict :=
  direct ← item "can_enforce_global_direct" preflight;
  selective ← item "can_enforce_global_selective" preflight;
  vpn ← item "can_enforce_global_vpn" preflight;
  profile ← item "profile" preflight;
  Some [("dataplane_capability", VStr DATAPLANE_CAPABILITY_NFT_OWNED_TABLE);
        ("capability", VStr DATAPLANE_CAPABILITY_NFT_OWNED_TABLE);
        ("enforcement_level", VStr level);
        ("traffic_enforcement_guaranteed", VBool false);
        ("supported_modes",
         VDict [("direct", VBool (truthy direct)); ("selective", VBool (truthy selective)); ("vpn", VBool (truthy vpn))]);
        ("missing_runtime_requirements", missing);
        ("profile", profile);
        ("bypass_active", VBool bypass)].

(** The [preflight] is never empty where the code calls this. *)
Definition build_bypass_runtime_enforcement (preflight : dict) : py dict :=
  table_enforcement ENFORCEMENT_LEVEL_BYPASS_DIRECT_SAFE true (VList []) preflight.

Definition ready_runtime_enforcement (preflight : dict) : py dict :=
  missing ← item "missing" preflight;
  missing ← vlist_of missing;
  table_enforcement ENFORCEMENT_LEVEL_OWNED_TABLE_READY false missing preflight.

(** What the functions read beside their arguments. *)
Record policy_env := PolicyEnv {
  env_routing : option dict;          (** [get_routing_global_state()] *)
  env_bypass : dict;                  (** [get_core_bypass_state()] *)
  env_emergency : option dict;        (** [emergency_override()] *)
  env_tables : override_tables;
  env_now : string;
  env_bindings : bindings_file;
  env_preflight : dict -> py dict;    (** [build_global_preflight(routing=..., require_runtime_verify=False)] *)
}.

(** An override argument: [_OVERRIDE_NOT_PROVIDED], or a dict or None. *)
Inductive override_arg := NotProvided | Provided (value : option dict).

Context (env : policy_env).

Definition _default_subject_runtime_enforcement (routing bypass_state : dict) : py dict :=
  preflight ← env_preflight env routing;
  if truthy (dget "enabled" bypass_state) then build_bypass_runtime_enforcement preflight
  else ready_runtime_enforcement preflight.

(** [str(d[k]) if d.get(k) is not None else None]. *)
Definition opt_text (v : pyval) : option string := match v with VNone => None | _ => Some (py_str v) end.

Definition routing_mode_text (routing : dict) : string := py_str (por (dget "desired_mode" routing) (VStr "direct")).

(** The arguments of [build_scoped_subject_runtime]. *)
Definition scoped_args_of (binding routing runtime_enforcement bypass_state : dict) (server_override : option dict)
    : py scoped_args :=
  vpn ← attr_get "vpn" (por (dget "supported_modes" runtime_enforcement) (VDict []));
  Some (ScopedArgs (py_str (dget "dataplane_path" binding))
          (opt_text (dget "selected_server_id" binding)) (opt_text (dget "selected_server_source" binding))
          (opt_text (dget "vpn_target_id" binding)) (opt_text (dget "vpn_target_source" binding))
          server_override (truthy vpn) (truthy (dget "enabled" bypass_state))
          (Some (if is_set (env_emergency env) then "direct" else routing_mode_text routing))).

Definition subject_type_arg (subject : dict) : option string := Some (text_of (dget "subject_type" subject)).

(** The mode of a subject with its source, and the binding, the emergency override included. *)
Definition effective_policy (subject routing : dict) (user_override server_override : option dict)
    : py (string * string * dict) :=
  mode ← _effective_mode_with_override subject routing user_override;
  binding ← _effective_binding mode.1 (subject_type_arg subject) server_override routing;
  if is_set (env_emergency env) && bool_decide (mode.1 ∈ ["vpn"; "forced_vpn"; "selective"]) then
    binding ← _effective_binding "direct" (subject_type_arg subject) None routing;
    Some ("direct", "emergency_direct", binding)
  else Some (mode, binding).

Definition lifecycle_of (is_active subject_type : pyval) : dict :=
  [("visible_in_ui", VBool (truthy is_active && existsb (eq_str subject_type) UI_ACTIVE_SUBJECT_TYPES));
   ("known_only", VBool (negb (truthy is_active)))].

Definition effective_state_of (desired_mode : pyval) (effective_mode mode_source : string)
    (binding routing : dict) (user_override server_override : option dict) (runtime_enforcement scoped_runtime : dict) : dict :=
  [("committed_desired_mode", desired_mode);
   ("applied_control_plane_mode", VStr effective_mode);
   ("effective_mode", VStr effective_mode); ("mode_source", VStr mode_source);
   ("capture_mode", VStr effective_mode); ("capture_mode_source", VStr mode_source);
   ("dataplane_path", dget "dataplane_path" binding);
   ("selected_server_id", dget "selected_server_id" binding);
   ("selected_server_source", dget "selected_server_source" binding);
   ("vpn_target_id", dget "vpn_target_id" binding);
   ("vpn_target_source", dget "vpn_target_source" binding);
   ("selective_default", dget "selective_default" binding);
   ("global_routing", VDict routing);
   ("user_override", vdict user_override); ("server_override", vdict server_override);
   ("runtime_enforcement", VDict runtime_enforcement);
   ("scoped_runtime", VDict scoped_runtime)].

Definition resolve_override (arg : override_arg) (load : string -> option dict) (subject : dict) : py (option dict) :=
  match arg with
  | Provided value => Some value
  | NotProvided => subject_id ← item "subject_id" subject; Some (load (py_str subject_id))
  end.

Definition enrich_subject_with_effective_state (subject : dict) (routing : option dict)
    (user_override server_override : override_arg) (runtime_enforcement bypass_state : option dict) : py dict :=
  let routing_snapshot := default (_routing_snapshot (env_routing env)) (nonempty_dict routing) in
  user ← resolve_override user_override (_load_active_user_override (env_tables env) (env_now env)) subject;
  server ← resolve_override server_override (_load_active_server_override (env_tables env) (env_now env)) subject;
  let resolved_bypass_state := default (env_bypass env) (nonempty_dict bypass_state) in
  resolved_runtime_enforcement ←
    match runtime_enforcement with
    | Some enforcement => Some enforcement
    | None => _default_subject_runtime_enforcement routing_snapshot resolved_bypass_state
    end;
  policy ← effective_policy subject routing_snapshot user server;
  let '(effective_mode, mode_source, binding) := policy in
  args ← scoped_args_of binding routing_snapshot resolved_runtime_enforcement resolved_bypass_state server;
  scoped_runtime ← build_scoped_subject_runtime (env_bindings env) subject args;
  is_active ← item "is_active" subject;
  subject_type ← item "subject_type" subject;
  desired_mode ← item "desired_mode" subject;
  Some (dset "effective_state"
          (VDict (effective_state_of desired_mode effective_mode mode_source binding routing_snapshot user server
                    resolved_runtime_enforcement scoped_runtime))
          (dset "lifecycle" (VDict (lifecycle_of is_active subject_type)) subject)).

(** The compact projection for lists: it does not apply the emergency override to mode and path. *)
Definition _subject_effective_state_summary (subject routing runtime_enforcement bypass_state : dict)
    (user_override server_override : override_arg) : py dict :=
  user ← resolve_override user_override (_load_active_user_override (env_tables env) (env_now env)) subject;
  server ← resolve_override server_override (_load_active_server_override (env_tables env) (env_now env)) subject;
  mode ← _effective_mode_with_override subject routing user;
  binding ← _effective_binding mode.1 (subject_type_arg subject) server routing;
  args ← scoped_args_of binding routing runtime_enforcement bypass_state server;
  scoped_runtime ← build_scoped_subject_runtime (env_bindings env) subject args;
  subject_id ← item "subject_id" subject;
  subject_type ← item "subject_type" subject;
  Some [("subject_id", subject_id); ("subject_type", subject_type);
        ("display_name", dget "display_name" subject);
        ("is_active", VBool (truthy (dget "is_active" subject)));
        ("is_deleted", VBool (truthy (dget "is_deleted" subject)));
        ("runtime_state", dget "runtime_state" subject);
        ("visibility", dget "visibility" subject);
        ("effective_state",
         VDict [("effective_mode", VStr mode.1); ("mode_source", VStr mode.2);
                ("capture_mode", VStr mode.1); ("capture_mode_source", VStr mode.2);
                ("dataplane_path", dget "dataplane_path" binding);
                ("selected_server_id", dget "selected_server_id" binding);
                ("selected_server_source", dget "selected_server_source" binding);
                ("vpn_target_id", dget "vpn_target_id" binding);
                ("vpn_target_source", dget "vpn_target_source" binding);
                ("scoped_runtime", VDict scoped_runtime)])].

(** The lists of [list_subjects_with_effective_state] and
    [list_subjects_effective_summaries], given the subjects [list_subjects]
    selects: each subject with its active overrides. *)
Definition list_with_overrides (project : dict -> override_arg -> override_arg -> py dict) (subjects : list dict)
    : py (list dict) :=
  ids ← py_map (fun subject => option_map py_str (item "subject_id" subject)) subjects;
  let user_overrides := _load_active_user_overrides (env_tables env) (env_now env) ids in
  let server_overrides := _load_active_server_overrides (env_tables env) (env_now env) ids in
  py_map (fun x : string * dict =>
            project x.2 (Provided (override_for x.1 user_overrides)) (Provided (override_for x.1 server_overrides)))
    (combine ids subjects).

Definition list_enforcement (runtime_enforcement : option dict) (routing bypass_state : dict) : py dict :=
  match runtime_enforcement with
  | Some enforcement => Some enforcement
  | None => _default_subject_runtime_enforcement routing bypass_state
  end.

Definition list_subjects_with_effective_state (subjects : list dict) (runtime_enforcement bypass_state : option dict)
    : py (list dict) :=
  let routing := _routing_snapshot (env_routing env) in
  let resolved_bypass_state := default (env_bypass env) bypass_state in
  enforcement ← list_enforcement runtime_enforcement routing resolved_bypass_state;
  list_with_overrides
    (fun subject user server =>
       enrich_subject_with_effective_state subject (Some routing) user server (Some enforcement)
         (Some resolved_bypass_state)) subjects.

Definition list_subjects_effective_summaries (subjects : list dict) (runtime_enforcement bypass_state : option dict)
    : py (list dict) :=
  let routing := _routing_snapshot (env_routing env) in
  let resolved_bypass_state := default (env_bypass env) bypass_state in
  enforcement ← list_enforcement runtime_enforcement routing resolved_bypass_state;
  list_with_overrides
    (fun subject user server =>
       _subject_effective_state_summary subject routing enforcement resolved_bypass_state user server) subjects.

(** [subject] is what [get_subject] finds. *)
Definition get_subject_with_effective_state (subject : option dict) : py (option dict) :=
  match subject with
  | None => Some None
  | Some subject =>
      let routing := _routing_snapshot (env_routing env) in
      enforcement ← _default_subject_runtime_enforcement routing (env_bypass env);
      enriched ← enrich_subject_with_effective_state subject (Some routing) NotProvided NotProvided
                   (Some enforcement) (Some (env_bypass env));
      Some (Some enriched)
  end.

(** ** Which modes may be asked for *)

(** [repr] of a string without control characters: single quotes, unless only double ones do not clash. *)
Definition squote : ascii := "039"%char.
Fixpoint escaped (quote : ascii) (s : string) : string :=
  match s with
  | "" => ""
  | String c s' =>
      (if Ascii.eqb c quote || Ascii.eqb c "092"%char then String "092"%char (String c "") else String c "")
      +:+ escaped quote s'
  end.
Definition py_repr (s : string) : string :=
  let quote := if has_char squote s && negb (has_char "034"%char s) then "034"%char else squote in
  String quote (escaped quote s) +:+ String quote "".

Definition mode_error (code message : string) : option (string * string) := Some (code, message).

(** Code and message, or None when the mode is allowed. *)
Definition _validate_subject_mode (subject : dict) (mode actor_scope : string) : py (option (string * string)) :=
  type ← item "subject_type" subject;
  let subject_type := py_str type in
  if String.eqb actor_scope "user" then
    if negb (subject_follows_global_mode (Some subject_type)) then
      Some (mode_error "SUBJECT_MODE_FORBIDDEN"
              "User mode changes are allowed only for LAN and managed external ingress subjects.")
    else
      gate ← _user_override_gate subject;
      if negb gate.1 then Some (mode_error "SUBJECT_MODE_ADMIN_LOCKED" gate.2)
      else if negb (bool_decide (mode ∈ USER_MODES)) then
        Some (mode_error "SUBJECT_MODE_INVALID"
                ("User mode must be one of: " +:+ py_join ", " (sorted_set USER_MODES) +:+ "."))
      else Some None
  else
    let allowed_modes := default [] (option_map snd (List.find (fun x : string * list string => String.eqb x.1 subject_type)
                                                       ADMIN_MODES_BY_SUBJECT_TYPE)) in
    Some (if bool_decide (mode ∈ allowed_modes) then None
          else mode_error "SUBJECT_MODE_INVALID"
                 ("Mode " +:+ py_repr mode +:+ " is not allowed for subject type " +:+ subject_type +:+ ". Allowed: "
                    +:+ py_join ", " (sorted_set allowed_modes) +:+ ".")).
End Policy.
