(* ===== verification/WatchdogDeps.v ===== *)
(** * What the watchdog's flows depend on

    [services/watchdog_flow_deps.py] with the wrappers of
    [services/watchdog.py] and the controller of
    [services/vpn_runtime_control.py].  The durable state, the confirmations,
    the cooldown and the traffic signal are the modelled ones; what is left
    (the module row, the runtime controller, the topology, the clock, the log)
    answers as a function of everything that was asked before. *)
From stdpp Require Import base list strings pretty.
From Stdlib Require Import ZArith Lia Ascii.
From S2P Require Import Prelude PyStr PyVal PyTime WatchdogState WatchdogFailure WatchdogSignal SubjectPolicy.

Open Scope string_scope.
Open Scope Z_scope.
Open Scope list_scope.

Definition WATCHDOG_RUNTIME_RUNNING : string := "running".
Definition WATCHDOG_RUNTIME_PAUSED : string := "paused".
Definition WATCHDOG_RUNTIME_DEGRADED : string := "degraded".

(** The settings the flows read. *)
Class WatchdogSettings := {
  watchdog_traffic_window_seconds : Z;
  watchdog_signal_correlation_seconds : Z;
  watchdog_traffic_failure_confirm_seconds : Z;
  watchdog_active_quality_max_latency_ms : Z;
  watchdog_active_quality_confirm_seconds : Z;
  watchdog_active_quality_bad_checks : Z;
  watchdog_active_quality_window_checks : Z;
  watchdog_active_quality_window_bad_checks : Z;
  watchdog_active_quality_recovery_checks : Z;
  watchdog_suspicious_interval_seconds : Z;
  watchdog_idle_probe_interval_seconds : Z;
  watchdog_failover_cooldown_seconds : Z;
}.

(** ** The runtime controller *)

(** What a later selection is bound to. *)
Record fence := Fence {
  selection_revision_snapshot : pyval;
  selection_active_snapshot : pyval;
  selection_runtime_target_snapshot : pyval;
  selection_runtime_target_snapshot_valid : pyval;
}.

Definition no_fence : fence := Fence VNone VNone VNone VNone.

(** A controller and the arguments every flow passes on. *)
Record controller := Controller { c_adapter : dict; c_routing : option dict }.

Record options := Options {
  allow_switch : bool;
  update_ping_state : bool;
  timeout_ms : Z;
  candidate_limit : Z;
  reason : string;
}.

(** ** What is asked of the outside, in order *)

Inductive action :=
  | LoadModule | LoadRouting | AskBypass | AskScopedSubjects
  | AskConvergence (mode : string) (scoped_vpn_subjects : bool)
  | AskAdapter
  | UpdateModule (runtime_state status_text : string) (error_code error_message : pyval)
  | DecisionLog (level event_type message : string) (result : dict) (error_code : pyval)
  | OperationalEvent (event_type level message : string) (details : dict)
  | ReadClock | NewUuid | ReadCounters
  | RecentCheck (server_id : option string) (checked_by : string) (timeout : Z)
  | ReadTopology (server_id : string)
  | CaptureFence (c : controller)
  | GetState (c : controller)
  | Probe (c : controller) (o : options)
  | RefreshCurrent (c : controller) (o : options)
  | MemberReselection (c : controller) (logical_server_id exclude : option string) (why : string)
  | FullHealthRefresh (c : controller) (timeout : Z) (why : string)
  | Failover (c : controller) (bound : fence) (apply : bool) (o : options)
  | InitialSelect (c : controller) (bound : fence) (apply : bool) (o : options)
  | ProviderRecovery (logical_server_id path : option string) (decision_id : pyval) (c : controller) (o : options)
  | VerifiedReentry (c : controller) (o : options).

(** The answers; the head of the list is the request itself, [None] is an exception. *)
Class Outside := {
  watchdog_module : list action -> py (option dict);
  routing_state : list action -> py (option dict);
  bypass_enabled : list action -> py bool;
  scoped_subjects : list action -> py bool;
  convergence_status : list action -> py dict;
  dataplane_adapter : list action -> dict;
  updated_module : list action -> py (option dict);
  logged : list action -> py unit;
  clock : list action -> datetime;
  uuid_hex : list action -> string;
  counter_rows : list action -> list snapshot;
  decision_digest : pyval -> string;
  recent_check : list action -> py (option dict);
  topology : list action -> py (option dict);
  (** [Some None]: ValueError, KeyError or TypeError. *)
  captured_fence : list action -> py (option fence);
  controller_state : list action -> py dict;
  probed : list action -> py (option dict);
  refreshed : list action -> py dict;
  reselected : list action -> py (option dict);
  health_refreshed : list action -> py (option dict);
  failed_over : list action -> py dict;
  initially_selected : list action -> py dict;
  (** [provider_recovery.py], which works on the durable state too. *)
  provider_recovery : list action -> M (option dict);
  verified_reentry : list action -> M dict;
  (** [_REENTRY.get()]. *)
  in_reentry : bool;
}.

Record flow := Flow {
  f_watch : world;
  (** [_WATCHDOG_TRAFFIC_FAILURE_CANDIDATE] of [watchdog.py]. *)
  f_copy : option dict;
  (** The snapshot attributes of the controller in use. *)
  f_fence : fence;
  f_asked : list action;
}.

Abbreviation F := (st flow).

(** An operation on the durable state. *)
Definition watch {A} (m : M A) : F A := fun s =>
  let '(r, w) := m (f_watch s) in (r, Flow w (f_copy s) (f_fence s) (f_asked s)).

Definition ask {A} (a : action) (answer : list action -> py A) : F A := fun s =>
  let asked := a :: f_asked s in (answer asked, Flow (f_watch s) (f_copy s) (f_fence s) asked).

(** The same for an answer that works on the durable state. *)
Definition ask_watch {A} (a : action) (answer : list action -> M A) : F A := fun s =>
  let asked := a :: f_asked s in
  let '(r, w) := answer asked (f_watch s) in (r, Flow w (f_copy s) (f_fence s) asked).

Definition get_copy : F (option dict) := s ← st_get; mret (f_copy s).
Definition set_copy (c : option dict) : F unit := st_modify (fun s => Flow (f_watch s) c (f_fence s) (f_asked s)).
Definition get_fence : F fence := s ← st_get; mret (f_fence s).
Definition set_fence (g : fence) : F unit := st_modify (fun s => Flow (f_watch s) (f_copy s) g (f_asked s)).

(** ** Values *)

(** [d[k]], [v.get(k)], [v or {}] of a value that may be no dict. *)
Definition py_item (k : string) (v : pyval) : py pyval := match v with VDict d => dict_lookup k d | _ => None end.
Definition py_get (k : string) (v : pyval) : py pyval := match v with VDict d => Some (dget k d) | _ => None end.
Definition or_empty (v : pyval) : py dict := if truthy v then as_dict v else Some [].

(** A dict display: a later value of a key replaces an earlier one. *)
Definition dict_of (items : dict) : dict := dmerge [] items.

Section Deps.
Context `{ReprContainer} `{WatchdogSettings} `{Outside}.

(** [str(d.get(k) or "")]. *)
Definition field_text (k : string) (d : dict) : string := py_str (por (dget k d) (VStr "")).

(** [str(v or "").strip() or None]. *)
Definition text_or_none (v : pyval) : option string := or_none (py_strip (py_str (por v (VStr "")))).

(** ** The wrappers of [watchdog.py] *)

Definition _update_watchdog_module (runtime_state status_text : string) (error_code error_message : pyval) : F (option dict) :=
  ask (UpdateModule runtime_state status_text error_code error_message) updated_module.

Definition _write_watchdog_decision_log (level event_type message : string) (result : dict) (error_code : pyval) : F unit :=
  ask (DecisionLog level event_type message result error_code) logged.

Definition _write_watchdog_operational_event (event_type level message : string) (details : dict) : F unit :=
  ask (OperationalEvent event_type level message details) logged.

Definition _utc_now : F datetime := ask ReadClock (fun asked => Some (clock asked)).

Definition uuid4_hex : F string := ask NewUuid (fun asked => Some (uuid_hex asked)).

Definition _watchdog_adapter_subject (adapter : dict) (routing : option dict) : option string :=
  let source := match dget "source" adapter with VDict d => d | _ => [] end in
  match or_none (py_strip (py_str (por (por (dget "system_id" source) (dget "module" source)) (VStr "")))) with
  | Some s => Some s
  | None => text_or_none (dget "active_auto_server_id" (default [] routing))
  end.

Definition routing_mode (routing : option dict) : string :=
  let state := default [] routing in
  py_str (por (por (dget "desired_mode" state) (dget "applied_mode" state)) (VStr "direct")).

(** An operation of [watchdog_failure_state] on the copy of [watchdog.py].  The
    clock is asked before the operation, which may not come to use it. *)
Definition with_copy {A} (m : M A) : F A :=
  c ← get_copy;
  _ ← watch (set_traffic_failure_candidate c);
  result ← watch m;
  c ← watch get_traffic_failure_candidate;
  _ ← set_copy c;
  mret result.

Definition _reset_watchdog_traffic_failure_candidate : F unit :=
  _ ← set_copy None; watch reset_traffic_failure_candidate.

Definition _reset_watchdog_stalled_traffic_failure_candidate : F unit := with_copy reset_stalled_traffic_failure_candidate.

Definition _watchdog_traffic_failure_confirmation (active_server_id : option string) (traffic_signal : dict)
    (confirm_seconds : Z) (path : option string) : F dict :=
  now ← _utc_now;
  with_copy (traffic_failure_confirmation _parse_timestamp active_server_id traffic_signal confirm_seconds path now).

Definition _watchdog_active_quality_degraded_confirmation (active_server_id : option string)
    (active_check traffic_signal : dict) (path : option string) : F dict :=
  now ← _utc_now;
  with_copy (active_quality_degraded_confirmation _parse_timestamp active_server_id active_check traffic_signal
    watchdog_active_quality_confirm_seconds watchdog_active_quality_bad_checks watchdog_active_quality_window_checks
    watchdog_active_quality_window_bad_checks path now "active_quality_degraded" true).

Definition _watchdog_idle_active_failure_confirmation (active_server_id : option string)
    (active_check traffic_signal : dict) (path : option string) : F dict :=
  now ← _utc_now;
  with_copy (idle_active_failure_confirmation _parse_timestamp active_server_id active_check traffic_signal
    watchdog_active_quality_confirm_seconds watchdog_active_quality_bad_checks watchdog_active_quality_window_checks
    watchdog_active_quality_window_bad_checks path now).

Definition _watchdog_active_quality_recovery_confirmation (active_server_id : option string) (traffic_signal : dict)
    (path : option string) : F dict :=
  now1 ← _utc_now;
  now2 ← _utc_now;
  with_copy (active_quality_recovery_confirmation active_server_id traffic_signal watchdog_active_quality_recovery_checks
    watchdog_active_quality_window_checks path now1 now2).

Definition _watchdog_idle_probe_due (active_server_id : option string) (interval_seconds : Z) : F dict :=
  now ← _utc_now; watch (idle_probe_due _parse_timestamp active_server_id interval_seconds now).

Definition _watchdog_failover_cooldown_status : F dict :=
  now ← _utc_now; watch (failover_cooldown_status _parse_timestamp now).

Definition _record_watchdog_successful_failover (path previous_target_id selected_target_id : option string) : F (option dict) :=
  now ← _utc_now;
  state ← watch (record_successful_failover path previous_target_id selected_target_id watchdog_failover_cooldown_seconds now);
  mret (option_map state_dict state).

Definition _watchdog_active_quality_degraded (active_check : option dict) : bool :=
  active_quality_degraded watchdog_active_quality_max_latency_ms (vdict active_check).

Definition _watchdog_degraded_active_check (active_check : dict) : dict :=
  degraded_active_check watchdog_active_quality_max_latency_ms active_check.

(** ** The traffic signal as the flows get it *)

Definition sample_dict (s : sample) : pyval :=
  VDict [("counter_key", vopt (s_counter_key s)); ("subject_id", vopt (s_subject_id s));
         ("collected_at", VStr (s_collected_at s)); ("rx_delta", VInt (s_rx_delta s)); ("tx_delta", VInt (s_tx_delta s));
         ("activity_observed", VBool (s_activity_observed s)); ("metadata", VDict (s_metadata s))].

Definition observation_dict (o : current_observation) : dict :=
  let head := [("path_state", VStr (co_path_state o)); ("tx_observed", VBool (co_tx_observed o));
               ("rx_observed", VBool (co_rx_observed o)); ("authoritative_tx_delta", VInt (co_authoritative_tx_delta o));
               ("authoritative_rx_delta", VInt (co_authoritative_rx_delta o));
               ("response_source", VStr (co_response_source o)); ("correlation_seconds", VInt (co_correlation_seconds o))] in
  match co_tx_observed_at o with
  | None => head ++ [("decision_id", vopt (co_decision_id o))]
  | Some at_ =>
      head ++ [("tx_observed_at", VStr at_); ("rx_observed_at", vopt (co_rx_observed_at o));
               ("decision_id", vopt (co_decision_id o)); ("tx_samples", VList (co_tx_samples o));
               ("rx_samples", VList (co_rx_samples o))]
  end.

Definition signal_dict (s : traffic_signal) : dict :=
  let deltas name (p : Z * Z) := [(name +:+ "_rx_delta", VInt p.1); (name +:+ "_tx_delta", VInt p.2)] in
  [("observed", VBool (ts_observed s)); ("window_seconds", VInt (ts_window_seconds s));
   ("source", VStr "traffic_counter_snapshots"); ("checked_samples_count", VInt (ts_checked_samples_count s));
   ("ignored_samples_count", VInt (ts_ignored_samples_count s)); ("active_samples_count", VInt (ts_active_samples_count s));
   ("latest_samples_count", VInt (ts_latest_samples_count s));
   ("window_active_samples_count", VInt (ts_window_active_samples_count s))]
  ++ deltas "total" (ts_total s) ++ deltas "dataplane" (ts_dataplane s) ++ deltas "adapter" (ts_adapter s)
  ++ deltas "latest" (ts_latest s) ++ deltas "latest_dataplane" (ts_latest_dataplane s)
  ++ deltas "latest_adapter" (ts_latest_adapter s)
  ++ [("authoritative_rx_delta", VInt (ts_authoritative_rx_delta s));
      ("authoritative_tx_delta", VInt (ts_authoritative_tx_delta s));
      ("authoritative_response_source", VStr (ts_authoritative_response_source s));
      ("response_observed", VBool (ts_response_observed s)); ("outbound_observed", VBool (ts_outbound_observed s));
      ("traffic_stalled", VBool (ts_traffic_stalled s)); ("path_state", VStr (ts_path_state s));
      ("decision_id", vopt (ts_decision_id s)); ("current_observation", VDict (observation_dict (ts_current_observation s)));
      ("last_collected_at", vopt (ts_last_collected_at s));
      ("last_collected_age_seconds", vint (ts_last_collected_age_seconds s)); ("fresh", VBool (ts_fresh s));
      ("authoritative", VBool (ts_fresh s));
      ("signal_authority", VStr (if ts_fresh s then "authoritative" else "unavailable"));
      ("safe_for_watchdog_auto", VBool (ts_fresh s)); ("samples", VList (map sample_dict (ts_samples s)));
      ("ignored_samples", VList (map sample_dict (ts_ignored_samples s)))].

Definition _detect_recent_vpn_traffic_attempts (window_seconds : option Z) : F dict :=
  now1 ← _utc_now;
  rows ← ask ReadCounters (fun asked => Some (counter_rows asked));
  now2 ← _utc_now;
  signal ← st_py (detect_recent_vpn_traffic_attempts decision_digest rows window_seconds
                    watchdog_traffic_window_seconds watchdog_signal_correlation_seconds now1 now2);
  mret (signal_dict signal).

(** ** The controller *)

Definition get_state (c : controller) : F dict := ask (GetState c) controller_state.

(** A new controller has no snapshot. *)
Definition get_vpn_runtime_controller (adapter : dict) (routing : option dict) : F controller :=
  _ ← set_fence no_fence; mret (Controller adapter routing).

Definition controller_failover (c : controller) (o : options) : F dict :=
  bound ← get_fence; ask (Failover c bound (allow_switch o) o) failed_over.

Definition controller_initial_select (c : controller) (apply : bool) (o : options) : F dict :=
  bound ← get_fence; ask (InitialSelect c bound apply o) initially_selected.

(** ** Results *)

Definition paused_result (status why message : string) (module routing : option dict) : dict :=
  [("ok", VBool true); ("automated", VBool true); ("status", VStr status); ("reason", VStr why);
   ("traffic_attempts_observed", VBool false); ("allow_switch", VBool false);
   ("active_server_id", dget "active_auto_server_id" (default [] routing)); ("active_check", VNone); ("selector", VNone);
   ("action", VStr "none"); ("message", VStr message); ("traffic_signal", VNone); ("module", vdict module);
   ("routing", vdict routing)].
End Deps.

(** The keyword arguments of the two traffic flows. *)
Record flow_args := FlowArgs {
  a_controller : controller;
  a_traffic_signal : dict;
  a_active_server_id : option string;
  a_selection_mode : string;
  a_runtime_state : dict;
  a_path_key : option string;
  a_routing : option dict;
  a_runtime_convergence : dict;
  a_vpn_adapter : dict;
  a_runtime_response_fields : dict;
  a_vpn_auto_state : option dict;
  a_options : options;
}.
