(* ===== verification/WatchdogStallFlow.v ===== *)
(** * The flow of stalled traffic

    [services/watchdog_auto_stall_flow.py]: confirm the stall, let the
    logical server reselect its member, wait for fresh traffic, refresh the
    health of every group and only then fail over. *)
From stdpp Require Import base list strings pretty.
From Stdlib Require Import ZArith Lia Ascii.
From S2P Require Import Prelude PyStr PyVal PyTime WatchdogState WatchdogFailure WatchdogSignal SubjectPolicy WatchdogDeps.

Open Scope string_scope.
Open Scope Z_scope.
Open Scope list_scope.

Section StallFlow.
Context `{ReprContainer} `{WatchdogSettings} `{Outside}.

(** ** Parts *)

Definition decision_of (traffic_signal : dict) : string := field_text "decision_id" traffic_signal.

(** The pending attempt is about the path and server of the flow. *)
Definition pending_scope_matches (a : flow_args) (pending : option dict) : bool :=
  match pending with
  | Some p => String.eqb (field_text "path_key" p) (default "" (a_path_key a))
              && String.eqb (field_text "logical_server_id" p) (default "" (a_active_server_id a))
  | None => false
  end.

Definition distinct_post_reselect_stall (a : flow_args) (pending : option dict) : bool :=
  match pending with
  | Some p =>
      let decision := decision_of (a_traffic_signal a) in
      String.eqb (field_text "phase" p) "traffic_verifying" && pending_scope_matches a pending
      && negb (String.eqb decision "") && negb (String.eqb decision (field_text "traffic_decision_id" p))
  | None => false
  end.

Definition post_reselection_confirmation (a : flow_args) : dict :=
  [("confirmed", VBool true); ("pending", VBool false); ("reason", VStr "post_reselection_stall_confirmed");
   ("path_key", vopt (a_path_key a)); ("server_id", vopt (a_active_server_id a));
   ("decision_id", dget "decision_id" (a_traffic_signal a)); ("stalled_snapshots", VInt 1);
   ("stalled_snapshots_required", VInt 1)].

Definition safe_flag (a : flow_args) : pyval := VBool (truthy (dget "safe_for_watchdog_auto" (a_traffic_signal a))).
Definition failover_flag (a : flow_args) : pyval := VBool (truthy (dget "failover_supported" (a_runtime_state a))).

(** The last fields of most results. *)
Definition context_fields (a : flow_args) (module : option dict) (runtime : pyval) : dict :=
  [("safe_for_watchdog_auto", safe_flag a); ("module", vdict module); ("routing", vdict (a_routing a));
   ("runtime_convergence", VDict (a_runtime_convergence a)); ("vpn_adapter", VDict (a_vpn_adapter a));
   ("vpn_runtime", runtime)].

Definition no_cooldown : F dict := st_py (cooldown_fields VNone).

Definition target_fields (a : flow_args) (cooldown : dict) : dict :=
  [("failover_supported", failover_flag a); ("active_target_id", vopt (a_active_server_id a))] ++ cooldown.

Definition result_head (a : flow_args) (ok : bool) (status : string) (allow : bool) (active_check selector : pyval)
    (action : pyval) : dict :=
  [("ok", VBool ok); ("automated", VBool true); ("status", VStr status); ("reason", VStr (reason (a_options a)));
   ("traffic_attempts_observed", VBool true); ("allow_switch", VBool allow);
   ("active_server_id", vopt (a_active_server_id a)); ("active_check", active_check); ("selector", selector);
   ("action", action)].

Definition auto_state (a : flow_args) : dict := [("vpn_auto_state", vdict (a_vpn_auto_state a))].

(** ** Steps before the recovery *)

Definition stall_confirmation (a : flow_args) (pending_attempt : option dict) : F dict :=
  if distinct_post_reselect_stall a pending_attempt then mret (post_reselection_confirmation a)
  else _watchdog_traffic_failure_confirmation (a_active_server_id a) (a_traffic_signal a)
         watchdog_traffic_failure_confirm_seconds (a_path_key a).

Definition failure_pending (a : flow_args) (confirmation : dict) : F dict :=
  module ← _update_watchdog_module WATCHDOG_RUNTIME_RUNNING
             "Watchdog saw outbound-only VPN traffic and is waiting for confirmation." VNone VNone;
  let result := dict_of (
    result_head a true "traffic_failure_pending" false VNone VNone (VStr "none")
    ++ [("message", VStr "Outbound-only VPN traffic was observed once; failover is pending confirmation.");
        ("traffic_signal", VDict (a_traffic_signal a)); ("traffic_failure_confirmation", VDict confirmation)]
    ++ context_fields a module (VDict (a_runtime_state a)) ++ a_runtime_response_fields a ++ auto_state a) in
  _ ← _write_watchdog_decision_log "warning" "watchdog_switch_suppressed"
        "Watchdog saw outbound-only VPN traffic but is waiting for confirmation before switching." result
        (VStr "WATCHDOG_TRAFFIC_FAILURE_PENDING");
  mret result.

Definition stalled_check (a : flow_args) : dict :=
  [("ok", VBool false); ("status", VStr "traffic_stalled"); ("server_id", vopt (a_active_server_id a));
   ("error_code", VStr "WATCHDOG_TRAFFIC_STALLED_CONFIRMED");
   ("error_message", VStr "Outbound VPN traffic had no response bytes across the confirmation window.");
   ("source", VStr "traffic_counter_snapshots")].

(** The result of the provider's own recovery, logged when it says so. *)
Definition provider_recovered (a : flow_args) (evidence_key : string) (confirmation active_check provider_result : dict) : F dict :=
  let code := dget "error_code" provider_result in
  let attempted := truthy (dget "switch_attempted" provider_result) in
  _ ← (if truthy code || attempted then
         let result_status := field_text "outcome" provider_result in
         let log_type :=
           if attempted then (if truthy (dget "ok" provider_result) then "watchdog_switch_applied" else "watchdog_switch_unconfirmed")
           else "watchdog_recovery_transition" in
         _write_watchdog_decision_log
           (if truthy code || bool_decide (result_status ∈ ["unknown"; "unconfirmed"]) then "warning" else "info")
           log_type "Provider recovery recorded a typed outcome."
           (dict_of (provider_result ++ [("active_server_id", vopt (a_active_server_id a));
                                         ("traffic_signal", VDict (a_traffic_signal a)); (evidence_key, VDict confirmation)]))
           code
       else mret tt);
  module ← _update_watchdog_module WATCHDOG_RUNTIME_DEGRADED "Provider recovery is waiting for verified VPN connectivity."
             VNone VNone;
  mret (dict_of (provider_result ++
    [("automated", VBool true); ("active_server_id", vopt (a_active_server_id a)); ("active_check", VDict active_check);
     ("traffic_signal", VDict (a_traffic_signal a)); (evidence_key, VDict confirmation); ("routing", vdict (a_routing a));
     ("message", VStr "Provider recovery confirmation completed."); ("module", vdict module)])).

Definition manual_selection (a : flow_args) (confirmation : dict) : F dict :=
  let message := "VPN traffic stall was confirmed, but automatic failover is suppressed by manual selection mode." in
  module ← _update_watchdog_module WATCHDOG_RUNTIME_DEGRADED message (VStr "WATCHDOG_MANUAL_SELECTION") (VStr message);
  cooldown ← no_cooldown;
  let result := dict_of (
    result_head a true "manual_selection" false (VDict (stalled_check a)) VNone (VStr "none")
    ++ [("path_state", VStr "confirmed_failure"); ("message", VStr message); ("traffic_signal", VDict (a_traffic_signal a));
        ("traffic_failure_confirmation", VDict confirmation)]
    ++ target_fields a cooldown ++ context_fields a module (VDict (a_runtime_state a)) ++ a_runtime_response_fields a
    ++ auto_state a) in
  _ ← _write_watchdog_decision_log "warning" "watchdog_switch_suppressed"
        "Watchdog confirmed a VPN traffic stall but manual selection mode suppresses failover." result
        (VStr "WATCHDOG_MANUAL_SELECTION");
  mret result.

Definition failover_unavailable (a : flow_args) (confirmation : dict) : F dict :=
  let message := "VPN traffic stall was confirmed, but the active VPN runtime has no FWRouter failover adapter." in
  cooldown ← no_cooldown;
  let result :=
    [("ok", VBool false); ("status", VStr "external_runtime_failover_unavailable"); ("reason", VStr (reason (a_options a)));
     ("traffic_attempts_observed", VBool true); ("allow_switch", VBool false);
     ("active_server_id", vopt (a_active_server_id a)); ("active_check", VDict (stalled_check a)); ("selector", VNone);
     ("action", VStr "none"); ("path_state", VStr "confirmed_failure"); ("message", VStr message);
     ("traffic_failure_confirmation", VDict confirmation); ("failover_supported", VBool false);
     ("active_target_id", vopt (a_active_server_id a))] ++ cooldown in
  module ← _update_watchdog_module WATCHDOG_RUNTIME_DEGRADED message (VStr "WATCHDOG_EXTERNAL_FAILOVER_UNAVAILABLE")
             (VStr message);
  let result := dict_of (result ++ [("automated", VBool true); ("traffic_signal", VDict (a_traffic_signal a))]
    ++ context_fields a module (VDict (a_runtime_state a)) ++ a_runtime_response_fields a ++ auto_state a) in
  _ ← _write_watchdog_decision_log "warning" "watchdog_switch_suppressed"
        "Watchdog confirmed a VPN traffic stall but the active VPN runtime has no failover adapter." result
        (VStr "WATCHDOG_EXTERNAL_FAILOVER_UNAVAILABLE");
  mret result.

(** ** The recovery attempt *)

Definition workflow_of (attempt_id : string) : string := "watchdog:" +:+ attempt_id.

Definition emit_recovery_transition (a : flow_args) (confirmation : dict) (attempt_id phase outcome : string)
    (event_details : dict) (level : string) (error_code : pyval) : F unit :=
  _write_watchdog_decision_log level "watchdog_recovery_transition"
    ("Watchdog recovery transition: " +:+ phase +:+ " (" +:+ outcome +:+ ").")
    (dict_of ([("status", VStr outcome); ("outcome", VStr outcome); ("phase", VStr phase);
               ("recovery_attempt_id", VStr attempt_id); ("workflow_id", VStr (workflow_of attempt_id));
               ("path_key", vopt (a_path_key a)); ("active_server_id", vopt (a_active_server_id a));
               ("active_target_id", vopt (a_active_server_id a)); ("traffic_signal", VDict (a_traffic_signal a));
               ("traffic_failure_confirmation", VDict confirmation)] ++ event_details))
    error_code.

Definition attempt_of (a : flow_args) (pending_attempt : option dict) : F string :=
  match pending_attempt with
  | Some p => if pending_scope_matches a pending_attempt && truthy (dget "attempt_id" p) then mret (py_str (dget "attempt_id" p))
              else uuid4_hex
  | None => uuid4_hex
  end.

(** The member that is active now is not to be selected again. *)
Fixpoint member_name (active_member : pyval) (members : list pyval) : py (option string) :=
  match members with
  | [] => Some None
  | VDict m :: rest =>
      if py_eq (dget "member_id" m) active_member then Some (Some (py_str (dget "runtime_name" m)))
      else member_name active_member rest
  | _ :: _ => None
  end.

Definition excluded_member (current_topology : option dict) (active_member : pyval) : py (option string) :=
  match dict_lookup "members" (default [] current_topology) with
  | None => Some None
  | Some (VList members) => member_name active_member members
  | Some _ => None
  end.

(** [get_logical_topology] in its [try]. *)
Definition current_topology (a : flow_args) : F (option dict) :=
  match a_active_server_id a with
  | Some s => if String.eqb s "" then mret None else st_try (ask (ReadTopology s) topology) (mret None)
  | None => mret None
  end.

Definition attempt_fields (a : flow_args) (phase generation attempt_id : string) : dict :=
  [("phase", VStr phase); ("generation", VStr generation); ("attempt_id", VStr attempt_id);
   ("path_key", vopt (a_path_key a)); ("logical_server_id", vopt (a_active_server_id a));
   ("traffic_decision_id", dget "decision_id" (a_traffic_signal a))].

Definition reselection_waiting (a : flow_args) (confirmation : dict) (action message : string) (recovery : dict) : F dict :=
  cooldown ← no_cooldown;
  module ← _update_watchdog_module WATCHDOG_RUNTIME_DEGRADED
             "Watchdog is waiting for traffic evidence after member reselection." VNone VNone;
  mret (dict_of (
    result_head a true "member_reselection_pending" false (VDict (stalled_check a)) VNone (VStr action)
    ++ [("path_state", VStr "member_reselection_pending"); ("message", VStr message);
        ("traffic_signal", VDict (a_traffic_signal a)); ("traffic_failure_confirmation", VDict confirmation);
        ("runtime_recovery", VDict recovery)]
    ++ target_fields a cooldown ++ context_fields a module (VDict (a_runtime_state a)) ++ auto_state a)).

(** The traffic of this check shows that the member's reselection helped. *)
Definition fresh_verification (a : flow_args) (pending : option dict) : bool :=
  let s := a_traffic_signal a in
  truthy (dget "authoritative" s) && truthy (dget "response_observed" s) && truthy (dget "decision_id" s)
  && negb (eq_str (dget "decision_id" s) (field_text "traffic_decision_id" (default [] pending))).

Definition recovery_fields_of (a : flow_args) (reselection : pyval) (fresh : bool) (active_member : pyval) : F dict :=
  r ← st_py (or_empty reselection);
  mret [("ok", VBool (truthy (dget "ok" r))); ("supported", VBool (truthy (dget "supported" r)));
        ("member_reselection", reselection); ("traffic_verification", VDict (a_traffic_signal a));
        ("traffic_recovered", VBool fresh); ("previous_member_runtime_identity", active_member)].

Definition member_recovered (a : flow_args) (confirmation recovery : dict) : F dict :=
  _ ← watch (set_recovery_pending None);
  _ ← _reset_watchdog_traffic_failure_candidate;
  let message := "VPN traffic stall was confirmed; the current logical server recovered after runtime member reselection." in
  module ← _update_watchdog_module WATCHDOG_RUNTIME_RUNNING message VNone VNone;
  cooldown ← no_cooldown;
  runtime ← get_state (a_controller a);
  let result := dict_of (
    result_head a true "logical_group_recovered" false
      (VDict [("source", VStr "traffic_counter_snapshots"); ("traffic_signal", VDict (a_traffic_signal a))]) VNone
      (VStr "member_reselect_traffic_recovered")
    ++ [("path_state", VStr "recovered_current_logical_server"); ("message", VStr message);
        ("traffic_signal", VDict (a_traffic_signal a)); ("traffic_failure_confirmation", VDict confirmation);
        ("runtime_recovery", VDict recovery)]
    ++ target_fields a cooldown ++ context_fields a module (VDict runtime)
    ++ [("selection_mode", VStr (a_selection_mode a))] ++ auto_state a) in
  _ ← _write_watchdog_decision_log "info" "watchdog_runtime_recovered" message result VNone;
  mret result.

(** ** Refresh and failover *)

Definition refresh_failed (a : flow_args) (confirmation recovery : dict) (full_refresh : pyval) : F dict :=
  pending_state ← watch get_recovery_pending;
  let message := "VPN traffic stall was confirmed, but the runtime health refresh did not complete; selector is waiting for fresh health state." in
  module ← _update_watchdog_module WATCHDOG_RUNTIME_DEGRADED message (VStr "WATCHDOG_HEALTH_REFRESH_PENDING") (VStr message);
  cooldown ← no_cooldown;
  let result := dict_of (
    result_head a false "full_refresh_pending" false (VDict (stalled_check a)) VNone (VStr "none")
    ++ [("path_state", VStr "full_refresh_pending"); ("message", VStr message); ("traffic_signal", VDict (a_traffic_signal a));
        ("traffic_failure_confirmation", VDict confirmation); ("runtime_recovery", VDict recovery);
        ("runtime_health_refresh", full_refresh); ("recovery_pending", VDict (default [] pending_state))]
    ++ target_fields a cooldown ++ context_fields a module (VDict (a_runtime_state a)) ++ auto_state a) in
  _ ← _write_watchdog_decision_log "warning" "watchdog_switch_suppressed" message result (VStr "WATCHDOG_HEALTH_REFRESH_PENDING");
  mret result.

(** The cooldown as the results show it. *)
Definition active_cooldown (cooldown : dict) : dict :=
  [("active", VBool true); ("cooldown_until", dget "cooldown_until" cooldown);
   ("remaining_seconds", dget "remaining_seconds" cooldown)].

Definition in_cooldown (a : flow_args) (confirmation cooldown : dict) (full_refresh : pyval) : F dict :=
  let message := "VPN traffic stall was confirmed, but automatic failover is in cooldown." in
  module ← _update_watchdog_module WATCHDOG_RUNTIME_DEGRADED message (VStr "WATCHDOG_FAILOVER_COOLDOWN") (VStr message);
  fields ← st_py (cooldown_fields (VDict (active_cooldown cooldown)));
  let result := dict_of (
    result_head a true "failover_cooldown" false (VDict (stalled_check a)) VNone (VStr "none")
    ++ [("path_state", VStr "confirmed_failure"); ("message", VStr message); ("traffic_signal", VDict (a_traffic_signal a));
        ("traffic_failure_confirmation", VDict confirmation); ("failover_cooldown", VDict (active_cooldown cooldown))]
    ++ target_fields a fields ++ context_fields a module (VDict (a_runtime_state a))
    ++ [("path_key", vopt (a_path_key a)); ("selection_mode", VStr (a_selection_mode a))] ++ auto_state a
    ++ [("runtime_health_refresh", full_refresh)]) in
  _ ← _write_watchdog_decision_log "warning" "watchdog_switch_suppressed"
        "Watchdog confirmed a VPN traffic stall but automatic failover is in cooldown." result
        (VStr "WATCHDOG_FAILOVER_COOLDOWN");
  mret result.

(** [(failover.get("runtime_state") or runtime_state)] with its path key and selector state. *)
Definition failover_runtime (a : flow_args) (failover : dict) : F dict :=
  let runtime := por (dget "runtime_state" failover) (VDict (a_runtime_state a)) in
  key ← st_py (py_get "path_key" runtime);
  own ← st_py (or_empty (dget "runtime_state" failover));
  mret [("vpn_runtime", runtime); ("path_key", key); ("selection_mode", VStr (a_selection_mode a));
        ("vpn_auto_state", por (dget "selector_state" own) (vdict (a_vpn_auto_state a)))].

Definition failover_deferred (a : flow_args) (confirmation recovery failover : dict) (full_refresh : pyval) : dict :=
  dict_of (
    result_head a true "selection_deferred" false (VDict (stalled_check a)) (dget "selector" failover) (VStr "deferred")
    ++ [("path_state", VStr "selection_deferred");
        ("message", VStr "Watchdog selection was deferred because its evidence is stale or the Core writer is busy.");
        ("traffic_signal", VDict (a_traffic_signal a)); ("traffic_failure_confirmation", VDict confirmation);
        ("runtime_failover", VDict failover); ("runtime_recovery", VDict recovery); ("runtime_health_refresh", full_refresh);
        ("routing", vdict (a_routing a)); ("vpn_runtime", VDict (a_runtime_state a))] ++ auto_state a).

(** Whether the failover selected what was already active. *)
Definition failover_noop (failover : dict) : bool :=
  truthy (dget "noop" failover) || String.eqb (field_text "action" failover) "noop".

(** The target a failover left and the one it chose, recorded with the cooldown. *)
Definition record_applied (a : flow_args) (failover : dict) : F (option dict) :=
  if allow_switch (a_options a) && truthy (dget "applied" failover) && negb (failover_noop failover) then
    _record_watchdog_successful_failover (a_path_key a)
      (or_none (py_str (por (por (dget "previous_target_id" failover) (vopt (a_active_server_id a))) (VStr ""))))
      (or_none (field_text "selected_target_id" failover))
  else mret None.

Definition recorded_cooldown (cooldown_state : option dict) : dict :=
  [("active", VBool (is_set cooldown_state)); ("cooldown_until", dget "cooldown_until" (default [] cooldown_state));
   ("remaining_seconds", VInt (if is_set cooldown_state then watchdog_failover_cooldown_seconds else 0))].

Definition failover_done (a : flow_args) (confirmation recovery failover : dict) (full_refresh : pyval)
    (attempt_id : string) : F dict :=
  _ ← watch (set_recovery_pending None);
  cooldown_state ← record_applied a failover;
  let allow := allow_switch (a_options a) in
  let noop := failover_noop failover in
  let status := if noop then "failover_noop" else if allow then "failover_applied" else "failover_candidate_found" in
  let message :=
    if noop then "VPN traffic stall was confirmed, but the selected VPN server is already active."
    else if allow then "VPN traffic stall was confirmed; failover candidate was applied."
    else "VPN traffic stall was confirmed; failover candidate found in dry-run." in
  fields ← st_py (cooldown_fields (VDict (recorded_cooldown cooldown_state)));
  let result :=
    [("ok", VBool true); ("status", VStr status); ("reason", VStr (reason (a_options a)));
     ("traffic_attempts_observed", VBool true); ("allow_switch", VBool allow);
     ("active_server_id", vopt (a_active_server_id a)); ("active_check", VDict (stalled_check a));
     ("selector", dget "selector" failover);
     ("action", por (dget "action" failover) (VStr (if allow then "switch_vpn_auto" else "dry_run_only")));
     ("noop", VBool noop); ("noop_reason", if noop then dget "noop_reason" failover else VNone);
     ("path_state", VStr "confirmed_failure"); ("message", VStr message);
     ("traffic_failure_confirmation", VDict confirmation); ("runtime_failover", VDict failover);
     ("runtime_recovery", VDict recovery); ("runtime_health_refresh", full_refresh);
     ("failover_cooldown", VDict (recorded_cooldown cooldown_state))] ++ target_fields a fields in
  module ← _update_watchdog_module WATCHDOG_RUNTIME_RUNNING message VNone VNone;
  runtime ← failover_runtime a failover;
  let result := dict_of (result ++ [("automated", VBool true); ("traffic_signal", VDict (a_traffic_signal a))]
    ++ context_fields a module VNone ++ runtime) in
  _ ← _write_watchdog_decision_log (if allow then "warning" else "info")
        (if allow && negb noop then "watchdog_switch_applied" else "watchdog_switch_suppressed") message
        (dict_of (result ++ [("recovery_attempt_id", VStr attempt_id); ("workflow_id", VStr (workflow_of attempt_id));
                             ("phase", VStr "failover_completed")])) VNone;
  mret result.

Definition no_candidate (a : flow_args) (confirmation recovery failover : dict) (full_refresh : pyval) : F dict :=
  let message := "VPN traffic stall was confirmed and no working failover candidate was found." in
  cooldown ← no_cooldown;
  let result :=
    [("ok", VBool false); ("status", VStr "fail_open_direct_recommended"); ("reason", VStr (reason (a_options a)));
     ("traffic_attempts_observed", VBool true); ("allow_switch", VBool (allow_switch (a_options a)));
     ("active_server_id", vopt (a_active_server_id a)); ("active_check", VDict (stalled_check a));
     ("selector", dget "selector" failover); ("action", VStr "fail_open_direct_recommended");
     ("path_state", VStr "confirmed_failure"); ("message", VStr message);
     ("traffic_failure_confirmation", VDict confirmation); ("runtime_failover", VDict failover);
     ("runtime_recovery", VDict recovery); ("runtime_health_refresh", full_refresh)] ++ target_fields a cooldown in
  module ← _update_watchdog_module WATCHDOG_RUNTIME_DEGRADED message (VStr "WATCHDOG_FAIL_OPEN_DIRECT_RECOMMENDED")
             (VStr message);
  runtime ← failover_runtime a failover;
  let result := dict_of (result ++ [("automated", VBool true); ("traffic_signal", VDict (a_traffic_signal a))]
    ++ context_fields a module VNone ++ runtime) in
  _ ← _write_watchdog_decision_log "error" "watchdog_switch_suppressed"
        "Watchdog confirmed a VPN traffic stall but found no working failover candidate." result
        (VStr "WATCHDOG_FAIL_OPEN_DIRECT_RECOMMENDED");
  mret result.

(** The failover itself. *)
Definition stall_failover (a : flow_args) (confirmation recovery : dict) (full_refresh : pyval) (attempt_id : string) : F dict :=
  failover ← controller_failover (a_controller a) (a_options a);
  let evidence := [("runtime_health_refresh", full_refresh); ("runtime_failover", VDict failover);
                   ("selector", dget "selector" failover)] in
  if truthy (dget "deferred" failover) then
    _ ← emit_recovery_transition a confirmation attempt_id "failover_result" "deferred" evidence "info"
          (dget "error_code" failover);
    mret (failover_deferred a confirmation recovery failover full_refresh)
  else
    let done := truthy (dget "ok" failover) in
    _ ← emit_recovery_transition a confirmation attempt_id "failover_result" (if done then "success" else "failed")
          (evidence ++ [("action", dget "action" failover)]) (if done then "info" else "error") (dget "error_code" failover);
    ok ← st_py (dict_lookup "ok" failover);
    if truthy ok then failover_done a confirmation recovery failover full_refresh attempt_id
    else no_candidate a confirmation recovery failover full_refresh.

(** The pending attempt while the health of all groups is refreshed; its ids are made when it has none. *)
Definition begin_refresh (a : flow_args) (pending : option dict) : F unit :=
  let p := default [] pending in
  generation ← (if truthy (dget "generation" p) then mret (py_str (dget "generation" p)) else uuid4_hex);
  attempt ← (if truthy (dget "attempt_id" p) then mret (py_str (dget "attempt_id" p)) else uuid4_hex);
  watch (set_recovery_pending (Some (dict_of (p ++
    [("phase", VStr "full_refresh_pending"); ("generation", VStr generation); ("attempt_id", VStr attempt);
     ("path_key", vopt (a_path_key a)); ("logical_server_id", vopt (a_active_server_id a))])))).

Definition refresh_and_failover (a : flow_args) (confirmation recovery : dict) (pending : option dict) (attempt_id : string)
    : F dict :=
  _ ← begin_refresh a pending;
  refreshed ← ask (FullHealthRefresh (a_controller a) (timeout_ms (a_options a))
                     (reason (a_options a) +:+ ":group_unavailable")) health_refreshed;
  let full_refresh := vdict refreshed in
  let ok := truthy (dget "ok" (default [] refreshed)) in
  _ ← emit_recovery_transition a confirmation attempt_id "full_health_refresh" (if ok then "success" else "failed")
        [("runtime_recovery", VDict recovery); ("runtime_health_refresh", full_refresh)] (if ok then "info" else "warning")
        (dget "error_code" (default [] refreshed));
  if negb ok then refresh_failed a confirmation recovery full_refresh
  else
    pending_state ← watch get_recovery_pending;
    _ ← watch (set_recovery_pending (Some (dict_of (default [] pending_state ++
          [("phase", VStr "logical_reselect"); ("health_refresh", full_refresh)]))));
    cooldown ← _watchdog_failover_cooldown_status;
    if allow_switch (a_options a) && truthy (dget "active" cooldown) then in_cooldown a confirmation cooldown full_refresh
    else stall_failover a confirmation recovery full_refresh attempt_id.

(** ** The flow *)

(** Ask the runtime for another member; [None]: an attempt is already pending. *)
Definition request_reselection (a : flow_args) (attempt_id : string) (active_member : pyval) (found : option dict)
    : F (string * option dict) :=
  generation ← uuid4_hex;
  _ ← watch (set_recovery_pending (Some (attempt_fields a "member_reselect_pending" generation attempt_id)));
  excluded ← st_py (excluded_member found active_member);
  reselection ← ask (MemberReselection (a_controller a) (a_active_server_id a) excluded (reason (a_options a))) reselected;
  mret (generation, reselection).

Definition recovery_transitions (a : flow_args) (confirmation recovery : dict) (attempt_id : string) (pending_matches fresh : bool)
    (reselection : dict) : F unit :=
  let emit := emit_recovery_transition a confirmation attempt_id in
  let details := [("runtime_recovery", VDict recovery)] in
  let ok := truthy (dget "ok" reselection) in
  if pending_matches then
    emit "traffic_verification" (if fresh then "recovered" else "stalled") details (if fresh then "info" else "warning")
      (if fresh then VNone else VStr "WATCHDOG_POST_RESELECT_TRAFFIC_STALLED")
  else
    _ ← emit "member_reselection_result" (if ok then "success" else "failed") details (if ok then "info" else "warning")
          (dget "error_code" reselection);
    if ok then emit "traffic_verification" "awaiting_observation" details "info" VNone
    else emit "traffic_verification" "not_applicable_member_reselection_failed" details "warning" (dget "error_code" reselection).

Definition stall_recovery (a : flow_args) (confirmation : dict) (pending_attempt : option dict) : F dict :=
  attempt_id ← attempt_of a pending_attempt;
  _ ← (if pending_scope_matches a pending_attempt then mret tt
       else emit_recovery_transition a confirmation attempt_id "traffic_failure_confirmed" "confirmed" [] "warning"
              (VStr "WATCHDOG_TRAFFIC_STALL_CONFIRMED"));
  pending ← watch get_recovery_pending;
  let pending_matches := pending_scope_matches a pending in
  let decision_id := decision_of (a_traffic_signal a) in
  let p := default [] pending in
  if pending_matches && negb (String.eqb decision_id "") && String.eqb decision_id (field_text "traffic_decision_id" p) then
    reselection_waiting a confirmation "none"
      "Member reselection was requested; watchdog is waiting for the next traffic observation."
      [("pending", VDict p)]
  else
    _ ← (if pending_matches then
           watch (set_recovery_pending (Some (dict_of (p ++ [("phase", VStr "full_refresh_pending");
             ("last_traffic_decision_id", VStr decision_id)]))))
         else mret tt);
    found ← current_topology a;
    let active_member := dget "active_member_id" (default [] found) in
    requested ← (if pending_matches then mret ("", dget "reselection" p)
                 else r ← request_reselection a attempt_id active_member found; mret (r.1, vdict r.2));
    let '(generation, reselection) := requested in
    let fresh := pending_matches && fresh_verification a pending in
    recovery ← recovery_fields_of a reselection fresh active_member;
    r ← st_py (or_empty reselection);
    _ ← recovery_transitions a confirmation recovery attempt_id pending_matches fresh r;
    if fresh then member_recovered a confirmation recovery
    else if negb pending_matches && truthy (dget "ok" r) then
      _ ← watch (set_recovery_pending (Some (attempt_fields a "traffic_verifying" generation attempt_id
                   ++ [("reselection", reselection)])));
      reselection_waiting a confirmation "member_reselect"
        "Member reselection was requested; watchdog is waiting for a fresh traffic observation." recovery
    else refresh_and_failover a confirmation recovery pending attempt_id.

Definition handle_stalled_traffic_auto_flow (a : flow_args) : F dict :=
  pending_attempt ← watch get_recovery_pending;
  confirmation ← stall_confirmation a pending_attempt;
  if negb (truthy (dget "confirmed" confirmation)) then failure_pending a confirmation
  else
    provider_result ← ask_watch (ProviderRecovery (a_active_server_id a) (a_path_key a)
                                   (dget "decision_id" (a_traffic_signal a)) (a_controller a) (a_options a)) provider_recovery;
    match provider_result with
    | Some result => provider_recovered a "traffic_failure_confirmation" confirmation (stalled_check a) result
    | None =>
        if String.eqb (a_selection_mode a) "manual" then manual_selection a confirmation
        else if negb (truthy (dget "failover_supported" (a_runtime_state a))) then failover_unavailable a confirmation
        else stall_recovery a confirmation pending_attempt
    end.
End StallFlow.
