(* ===== verification/WatchdogQualityFlow.v ===== *)
(** * The flow of answered traffic and idle probes

    [services/watchdog_auto_active_quality_flow.py]: the quality of the
    active server, which the watchdog observes while traffic is answered or
    absent. *)
From stdpp Require Import base list strings pretty.
From Stdlib Require Import ZArith Lia Ascii.
From S2P Require Import Prelude PyStr PyVal PyTime WatchdogState WatchdogFailure WatchdogSignal SubjectPolicy WatchdogDeps WatchdogStallFlow.

Open Scope string_scope.
Open Scope Z_scope.
Open Scope list_scope.

Section QualityFlow.
Context `{ReprContainer} `{WatchdogSettings} `{Outside}.

(** ** The check of the active server *)

Definition wants_probe (a : flow_args) : bool :=
  String.eqb (a_selection_mode a) "auto" && truthy (dget "probe_supported" (a_runtime_state a))
  && negb (String.eqb (default "" (a_active_server_id a)) "").

Definition checked_by_of (why : string) : string := "watchdog_active_check:" +:+ why.

Definition active_check_of (a : flow_args) (idle_probe : bool) : F (option dict) :=
  if wants_probe a then
    let o := a_options a in
    recent ← (if idle_probe then mret None
              else ask (RecentCheck (a_active_server_id a) (checked_by_of (reason o)) (timeout_ms o)) recent_check);
    match recent with
    | Some check => mret (Some check)
    | None => ask (Probe (a_controller a) o) probed
    end
  else mret None.

Definition record_probe (a : flow_args) (check : dict) : F unit :=
  _ ← watch (record_idle_probe (default "" (a_active_server_id a))
               (py_str (por (dget "status" check) (VStr "unknown")))
               (py_str (por (por (dget "checked_at" check) (dget "last_collected_at" (a_traffic_signal a))) (VStr ""))));
  mret tt.

(** A result of this flow up to its action. *)
Definition quality_head (a : flow_args) (idle_probe ok : bool) (status : string) (active_check : pyval) (action : string) : dict :=
  [("ok", VBool ok); ("automated", VBool true); ("status", VStr status); ("reason", VStr (reason (a_options a)));
   ("traffic_attempts_observed", VBool (negb idle_probe)); ("allow_switch", VBool false);
   ("active_server_id", vopt (a_active_server_id a)); ("active_check", active_check); ("selector", VNone);
   ("action", VStr action)].

Definition mode_and_state (a : flow_args) : dict :=
  [("selection_mode", VStr (a_selection_mode a))] ++ auto_state a.

(** The two results that only report the evidence. *)
Definition evidence_result (a : flow_args) (idle_probe : bool) (status path_state runtime message : string) (active_check : option dict)
    : F dict :=
  module ← _update_watchdog_module runtime message VNone VNone;
  cooldown ← no_cooldown;
  mret (dict_of (quality_head a idle_probe true status (vdict active_check) "none"
    ++ [("path_state", VStr path_state); ("message", VStr message); ("traffic_signal", VDict (a_traffic_signal a));
        ("active_quality_evidence", vdict active_check)]
    ++ target_fields a cooldown ++ context_fields a module (VDict (a_runtime_state a)) ++ a_runtime_response_fields a
    ++ mode_and_state a)).

(** ** A confirmed or pending degradation *)

Definition quality_confirmation (a : flow_args) (idle_probe : bool) (check : dict) : F dict :=
  (if idle_probe then _watchdog_idle_active_failure_confirmation else _watchdog_active_quality_degraded_confirmation)
    (a_active_server_id a) check (a_traffic_signal a) (a_path_key a).

(** The four texts of a degradation that is not confirmed: by [idle_probe] and [pending]. *)
Definition by_case {A} (idle_probe pending : bool) (idle_pending idle traffic_pending traffic : A) : A :=
  if idle_probe then (if pending then idle_pending else idle) else (if pending then traffic_pending else traffic).

Definition quality_unconfirmed (a : flow_args) (idle_probe : bool) (check confirmation : dict) : F dict :=
  let pending := truthy (dget "pending" confirmation) in
  let s := a_traffic_signal a in
  let delay := if pending && truthy (dget "outbound_observed" s) && truthy (dget "safe_for_watchdog_auto" s)
               then VInt watchdog_suspicious_interval_seconds else VNone in
  let message := by_case idle_probe pending
    "VPN-auto is idle and its active server failed a watchdog probe; watchdog is observing before failover."
    "VPN-auto is idle and its active server failed a watchdog probe; automatic failover is suppressed until failure is confirmed."
    "VPN traffic has responses, but current-server quality is degraded; watchdog is observing before failover."
    "VPN traffic has responses, but current-server quality check is degraded; automatic failover is suppressed until degradation persists." in
  let code := by_case idle_probe pending "WATCHDOG_IDLE_ACTIVE_FAILURE_PENDING" "WATCHDOG_IDLE_ACTIVE_FAILURE_UNCONFIRMED"
    "WATCHDOG_ACTIVE_QUALITY_DEGRADED_PENDING" "WATCHDOG_ACTIVE_QUALITY_DEGRADED_TRAFFIC_HEALTHY" in
  module ← _update_watchdog_module WATCHDOG_RUNTIME_DEGRADED message (VStr code) (VStr message);
  cooldown ← no_cooldown;
  let result := dict_of (
    quality_head a idle_probe true
      (by_case idle_probe pending "idle_active_failure_pending" "idle_active_failure_unconfirmed"
         "active_quality_degraded_pending" "active_quality_degraded_traffic_healthy") (VDict check) "none"
    ++ [("path_state", VStr (if idle_probe then "idle_active_failure" else "degraded_active_quality"));
        ("message", VStr message); ("traffic_signal", VDict s); ("active_quality_confirmation", VDict confirmation);
        ("failover_supported", failover_flag a); ("active_target_id", vopt (a_active_server_id a));
        ("next_check_delay_seconds", delay)]
    ++ cooldown ++ context_fields a module (VDict (a_runtime_state a)) ++ a_runtime_response_fields a ++ mode_and_state a) in
  _ ← _write_watchdog_decision_log "warning" "watchdog_switch_suppressed"
        (by_case idle_probe pending
           "Watchdog saw an idle active-server probe failure and is waiting before failover."
           "Watchdog suppressed idle VPN-auto failover until repeated probe failure is confirmed."
           "Watchdog saw degraded active-server quality with response traffic and is waiting before failover."
           "Watchdog suppressed VPN-auto failover because real VPN response traffic is still present.")
        result (VStr code);
  mret result.

Definition confirmed_check (idle_probe : bool) (check : dict) : dict :=
  dict_of (check ++
    [("error_code", por (dget "error_code" check)
        (VStr (if idle_probe then "WATCHDOG_IDLE_ACTIVE_FAILURE_CONFIRMED" else "WATCHDOG_ACTIVE_QUALITY_DEGRADED_CONFIRMED")));
     ("error_message", por (dget "error_message" check)
        (VStr (if idle_probe then "Idle VPN-auto active server kept failing watchdog probes across the confirmation window."
               else "Active VPN-auto server quality stayed degraded across the confirmation window.")));
     ("source", VStr (if idle_probe then "idle_active_probe" else "active_quality_check"))]).

Definition quality_manual (a : flow_args) (idle_probe : bool) (check confirmation : dict) : F dict :=
  let message := "Active VPN-auto server quality degradation was confirmed, but automatic failover is suppressed by manual selection mode." in
  module ← _update_watchdog_module WATCHDOG_RUNTIME_DEGRADED message (VStr "WATCHDOG_MANUAL_SELECTION") (VStr message);
  cooldown ← no_cooldown;
  let result := dict_of (
    quality_head a idle_probe true "manual_selection" (VDict check) "none"
    ++ [("path_state", VStr "confirmed_active_quality_degraded"); ("message", VStr message);
        ("traffic_signal", VDict (a_traffic_signal a)); ("active_quality_confirmation", VDict confirmation)]
    ++ target_fields a cooldown ++ context_fields a module (VDict (a_runtime_state a)) ++ a_runtime_response_fields a
    ++ auto_state a) in
  _ ← _write_watchdog_decision_log "warning" "watchdog_switch_suppressed"
        "Watchdog confirmed degraded active-server quality but manual selection mode suppresses failover." result
        (VStr "WATCHDOG_MANUAL_SELECTION");
  mret result.

Definition quality_unavailable (a : flow_args) (idle_probe : bool) (check confirmation : dict) : F dict :=
  let message := "Active VPN-auto server quality degradation was confirmed, but the active VPN runtime has no FWRouter failover adapter." in
  cooldown ← no_cooldown;
  let result :=
    [("ok", VBool false); ("status", VStr "external_runtime_failover_unavailable"); ("reason", VStr (reason (a_options a)));
     ("traffic_attempts_observed", VBool (negb idle_probe)); ("allow_switch", VBool false);
     ("active_server_id", vopt (a_active_server_id a)); ("active_check", VDict check); ("selector", VNone);
     ("action", VStr "none"); ("path_state", VStr "confirmed_active_quality_degraded"); ("message", VStr message);
     ("active_quality_confirmation", VDict confirmation); ("failover_supported", VBool false);
     ("active_target_id", vopt (a_active_server_id a))] ++ cooldown in
  module ← _update_watchdog_module WATCHDOG_RUNTIME_DEGRADED message (VStr "WATCHDOG_EXTERNAL_FAILOVER_UNAVAILABLE")
             (VStr message);
  let result := dict_of (result ++ [("automated", VBool true); ("traffic_signal", VDict (a_traffic_signal a))]
    ++ context_fields a module (VDict (a_runtime_state a)) ++ a_runtime_response_fields a ++ auto_state a) in
  _ ← _write_watchdog_decision_log "warning" "watchdog_switch_suppressed"
        "Watchdog confirmed degraded active-server quality but the active VPN runtime has no failover adapter." result
        (VStr "WATCHDOG_EXTERNAL_FAILOVER_UNAVAILABLE");
  mret result.

(** ** Recovery and failover *)

Definition quality_recovered (a : flow_args) (idle_probe : bool) (confirmation recovery : dict) : F dict :=
  _ ← _reset_watchdog_traffic_failure_candidate;
  let message := "The current logical server recovered through its runtime; automatic failover was not needed." in
  module ← _update_watchdog_module WATCHDOG_RUNTIME_RUNNING message VNone VNone;
  cooldown ← no_cooldown;
  runtime ← get_state (a_controller a);
  let result := dict_of (
    quality_head a idle_probe true "logical_group_recovered" (dget "probe" recovery) "observe_internal_recovery"
    ++ [("path_state", VStr "recovered_current_logical_server"); ("message", VStr message);
        ("traffic_signal", VDict (a_traffic_signal a)); ("active_quality_confirmation", VDict confirmation);
        ("runtime_recovery", VDict recovery)]
    ++ target_fields a cooldown ++ context_fields a module (VDict runtime) ++ mode_and_state a) in
  _ ← _write_watchdog_decision_log "info" "watchdog_runtime_recovered" message result VNone;
  mret result.

Definition path_and_mode (a : flow_args) : dict := [("path_key", vopt (a_path_key a))] ++ mode_and_state a.

Definition quality_in_cooldown (a : flow_args) (idle_probe : bool) (check confirmation cooldown : dict) : F dict :=
  let message := "Active VPN-auto server quality degradation was confirmed, but automatic failover is in cooldown." in
  module ← _update_watchdog_module WATCHDOG_RUNTIME_DEGRADED message (VStr "WATCHDOG_FAILOVER_COOLDOWN") (VStr message);
  fields ← st_py (cooldown_fields (VDict (active_cooldown cooldown)));
  let result := dict_of (
    quality_head a idle_probe true "failover_cooldown" (VDict check) "none"
    ++ [("path_state", VStr "confirmed_active_quality_degraded"); ("message", VStr message);
        ("traffic_signal", VDict (a_traffic_signal a)); ("active_quality_confirmation", VDict confirmation);
        ("failover_cooldown", VDict (active_cooldown cooldown))]
    ++ target_fields a fields ++ context_fields a module (VDict (a_runtime_state a)) ++ path_and_mode a) in
  _ ← _write_watchdog_decision_log "warning" "watchdog_switch_suppressed"
        "Watchdog confirmed degraded active-server quality but automatic failover is in cooldown." result
        (VStr "WATCHDOG_FAILOVER_COOLDOWN");
  mret result.

Definition quality_deferred (a : flow_args) (idle_probe : bool) (check confirmation failover : dict) : dict :=
  dict_of [("ok", VBool true); ("automated", VBool true); ("status", VStr "selection_deferred");
    ("reason", VStr (reason (a_options a))); ("traffic_attempts_observed", VBool (negb idle_probe));
    ("allow_switch", VBool false); ("active_server_id", vopt (a_active_server_id a)); ("active_check", VDict check);
    ("selector", dget "selector" failover); ("action", VStr "deferred");
    ("message", VStr "Watchdog selection was deferred because its evidence is stale or the Core writer is busy.");
    ("traffic_signal", VDict (a_traffic_signal a)); ("active_quality_confirmation", VDict confirmation);
    ("runtime_failover", VDict failover); ("routing", vdict (a_routing a));
    ("runtime_convergence", VDict (a_runtime_convergence a)); ("vpn_adapter", VDict (a_vpn_adapter a));
    ("vpn_runtime", VDict (a_runtime_state a)); ("path_key", vopt (a_path_key a))].

Definition quality_done (a : flow_args) (idle_probe : bool) (check confirmation failover : dict) : F dict :=
  cooldown_state ← record_applied a failover;
  let allow := allow_switch (a_options a) in
  let noop := failover_noop failover in
  let applied := allow && truthy (dget "applied" failover) && negb noop in
  let status :=
    if noop then "failover_noop" else if applied then "failover_applied"
    else if allow then "failover_unconfirmed" else "failover_candidate_found" in
  let message :=
    if noop then "Active VPN-auto server quality degradation was confirmed, but the selected VPN server is already active."
    else if applied then "Active VPN-auto server quality degradation was confirmed; failover candidate was applied."
    else if allow then "Active VPN-auto server quality degradation was confirmed; failover candidate was not confirmed as applied."
    else "Active VPN-auto server quality degradation was confirmed; failover candidate found in dry-run." in
  fields ← st_py (cooldown_fields (VDict (recorded_cooldown cooldown_state)));
  let result :=
    [("ok", VBool (negb (allow && negb applied && negb noop))); ("status", VStr status);
     ("reason", VStr (reason (a_options a))); ("traffic_attempts_observed", VBool (negb idle_probe));
     ("allow_switch", VBool allow); ("active_server_id", vopt (a_active_server_id a)); ("active_check", VDict check);
     ("selector", dget "selector" failover);
     ("action", por (dget "action" failover)
        (VStr (if applied then "switch_vpn_auto" else if allow && negb noop then "none" else "dry_run_only")));
     ("noop", VBool noop); ("noop_reason", if noop then dget "noop_reason" failover else VNone);
     ("path_state", VStr "confirmed_active_quality_degraded"); ("message", VStr message);
     ("active_quality_confirmation", VDict confirmation); ("runtime_failover", VDict failover);
     ("failover_cooldown", VDict (recorded_cooldown cooldown_state))] ++ target_fields a fields in
  module ← _update_watchdog_module WATCHDOG_RUNTIME_RUNNING message VNone VNone;
  let result := dict_of (result ++ [("automated", VBool true); ("traffic_signal", VDict (a_traffic_signal a))]
    ++ context_fields a module (VDict (a_runtime_state a)) ++ path_and_mode a) in
  _ ← _write_watchdog_decision_log (if applied || noop then "info" else "warning")
        (if noop || (allow && negb applied) then "watchdog_switch_suppressed"
         else if applied then "watchdog_switch_applied" else "watchdog_switch_candidate") message result
        (VStr "WATCHDOG_ACTIVE_QUALITY_DEGRADED_CONFIRMED");
  mret result.

Definition quality_no_candidate (a : flow_args) (idle_probe : bool) (check confirmation failover : dict) : F dict :=
  let message := "Active VPN-auto server quality degradation was confirmed and no working failover candidate was found." in
  cooldown ← no_cooldown;
  let result := dict_of (
    [("ok", VBool false); ("status", VStr "no_working_candidates"); ("reason", VStr (reason (a_options a)));
     ("traffic_attempts_observed", VBool (negb idle_probe)); ("allow_switch", VBool false);
     ("active_server_id", vopt (a_active_server_id a)); ("active_check", VDict check); ("selector", dget "selector" failover);
     ("action", VStr "none"); ("path_state", VStr "confirmed_active_quality_degraded"); ("message", VStr message);
     ("traffic_signal", VDict (a_traffic_signal a)); ("active_quality_confirmation", VDict confirmation);
     ("runtime_failover", VDict failover)] ++ target_fields a cooldown
    ++ [("safe_for_watchdog_auto", safe_flag a); ("routing", vdict (a_routing a));
        ("runtime_convergence", VDict (a_runtime_convergence a)); ("vpn_adapter", VDict (a_vpn_adapter a));
        ("vpn_runtime", VDict (a_runtime_state a))] ++ a_runtime_response_fields a ++ mode_and_state a) in
  module ← _update_watchdog_module WATCHDOG_RUNTIME_DEGRADED message (VStr "WATCHDOG_NO_WORKING_CANDIDATES") (VStr message);
  let result := dset "module" (vdict module) result in
  _ ← _write_watchdog_decision_log "warning" "watchdog_switch_suppressed"
        "Watchdog confirmed degraded active-server quality but found no working failover candidate." result
        (VStr "WATCHDOG_NO_WORKING_CANDIDATES");
  mret result.

Definition quality_failover (a : flow_args) (idle_probe : bool) (check confirmation : dict) : F dict :=
  recovery ← ask (RefreshCurrent (a_controller a) (a_options a)) refreshed;
  let recovered := truthy (dget "recovered" recovery)
    && negb (active_quality_degraded watchdog_active_quality_max_latency_ms (dget "probe" recovery)) in
  if recovered then quality_recovered a idle_probe confirmation recovery
  else
    cooldown ← _watchdog_failover_cooldown_status;
    if allow_switch (a_options a) && truthy (dget "active" cooldown) then quality_in_cooldown a idle_probe check confirmation cooldown
    else
      failover ← controller_failover (a_controller a) (a_options a);
      if truthy (dget "deferred" failover) then mret (quality_deferred a idle_probe check confirmation failover)
      else
        ok ← st_py (dict_lookup "ok" failover);
        if truthy ok then quality_done a idle_probe check confirmation failover
        else quality_no_candidate a idle_probe check confirmation failover.

Definition degraded_flow (a : flow_args) (idle_probe : bool) (active_check : dict) : F dict :=
  let check := _watchdog_degraded_active_check active_check in
  confirmation ← quality_confirmation a idle_probe check;
  if negb (truthy (dget "confirmed" confirmation)) then quality_unconfirmed a idle_probe check confirmation
  else
    let check := confirmed_check idle_probe check in
    if String.eqb (a_selection_mode a) "manual" then quality_manual a idle_probe check confirmation
    else if negb (truthy (dget "failover_supported" (a_runtime_state a))) then quality_unavailable a idle_probe check confirmation
    else
      provider_result ← ask_watch (ProviderRecovery (a_active_server_id a) (a_path_key a)
        (VStr (py_str (por (por (dget "checked_at" check) (dget "decision_id" (a_traffic_signal a))) (VStr ""))))
        (a_controller a) (a_options a)) provider_recovery;
      match provider_result with
      | Some result => provider_recovered a "active_quality_confirmation" confirmation check result
      | None => quality_failover a idle_probe check confirmation
      end.

(** ** The flow *)

Definition healthy_result (a : flow_args) (idle_probe : bool) (active_check : option dict) : F dict :=
  _ ← (if idle_probe then _reset_watchdog_traffic_failure_candidate
       else if is_set active_check then
         _ ← _watchdog_active_quality_recovery_confirmation (a_active_server_id a) (a_traffic_signal a) (a_path_key a); mret tt
       else mret tt);
  module ← _update_watchdog_module WATCHDOG_RUNTIME_RUNNING
             (if idle_probe then "Watchdog idle active-server probe succeeded."
              else "Watchdog saw VPN traffic responses and current-server quality is healthy.") VNone VNone;
  mret (dict_of (quality_head a idle_probe true (if idle_probe then "idle_active_healthy" else "healthy_traffic")
      (vdict active_check) "none"
    ++ [("next_check_delay_seconds", VNone);
        ("message", VStr (if idle_probe then "VPN-auto is idle and its active-server watchdog probe is healthy."
                          else "VPN traffic has response bytes and current-server quality check is healthy."));
        ("traffic_signal", VDict (a_traffic_signal a))]
    ++ context_fields a module (VDict (a_runtime_state a)) ++ a_runtime_response_fields a ++ auto_state a)).

Definition handle_response_traffic_auto_flow (a : flow_args) (idle_probe : bool) : F dict :=
  _ ← (if idle_probe then mret tt else _reset_watchdog_stalled_traffic_failure_candidate);
  active_check ← active_check_of a idle_probe;
  _ ← (match active_check with
       | Some check => if idle_probe then record_probe a check else mret tt
       | None => mret tt
       end);
  let degraded := is_set active_check && _watchdog_active_quality_degraded active_check in
  if idle_probe && degraded then
    evidence_result a idle_probe "idle_active_probe_degraded" "idle_active_quality" WATCHDOG_RUNTIME_DEGRADED
      "Watchdog active-server probe is degraded while traffic is idle; latency/probe evidence does not trigger automated recovery."
      active_check
  else if negb idle_probe && truthy (dget "response_observed" (a_traffic_signal a)) then
    evidence_result a idle_probe "healthy_traffic" "traffic_healthy" WATCHDOG_RUNTIME_RUNNING
      "Watchdog observed response traffic; active latency is diagnostic only and automatic recovery is not triggered."
      active_check
  else
    match active_check with
    | Some check => if degraded then degraded_flow a idle_probe check else healthy_result a idle_probe active_check
    | None => healthy_result a idle_probe active_check
    end.
End QualityFlow.
