(* ===== verification/WatchdogManualFlow.v ===== *)
(** * One check of the active server

    [services/watchdog_manual_flow.py]: [run_vpn_watchdog_check], called by
    hand and, for traffic that is neither answered nor stalled, by the
    automatic flow. *)
From stdpp Require Import base list strings pretty.
From Stdlib Require Import ZArith Lia Ascii.
From S2P Require Import Prelude PyStr PyVal PyTime WatchdogState WatchdogFailure WatchdogSignal SubjectPolicy WatchdogDeps WatchdogStallFlow WatchdogQualityFlow.

Open Scope string_scope.
Open Scope Z_scope.
Open Scope list_scope.

Section ManualFlow.
Context `{ReprContainer} `{WatchdogSettings} `{Outside}.

(** The fence of the caller, or a new one; a malformed one binds to no revision. *)
Definition bind_fence (c : controller) (expected : option fence) : F unit :=
  match expected with
  | Some f => set_fence f
  | None =>
      captured ← ask (CaptureFence c) captured_fence;
      match captured with
      | Some f => set_fence f
      | None => set_fence (Fence (VInt (-1)) VNone VNone VNone)
      end
  end.

(** The arguments and the state most results show. *)
Record check_args := CheckArgs {
  k_observed : bool;
  k_options : options;
  k_adapter : dict;
  k_runtime_state : dict;
  k_active_server_id : option string;
}.

Definition check_head (k : check_args) (ok : bool) (status : string) (observed allow : bool) (active active_check selector action : pyval)
    : dict :=
  [("ok", VBool ok); ("status", VStr status); ("reason", VStr (reason (k_options k)));
   ("traffic_attempts_observed", VBool observed); ("allow_switch", VBool allow); ("active_server_id", active);
   ("active_check", active_check); ("selector", selector); ("action", action)].

Definition check_runtime (k : check_args) (runtime : dict) : dict :=
  [("vpn_adapter", VDict (k_adapter k)); ("vpn_runtime", VDict runtime); ("path_key", dget "path_key" runtime)].

Definition own_runtime (k : check_args) : dict := check_runtime k (k_runtime_state k).

Definition log_event (log_events : bool) (event_type level : string) (result : dict) : F unit :=
  if log_events then
    message ← st_py (dict_lookup "message" result);
    _write_watchdog_operational_event event_type level (py_str message) result
  else mret tt.

Definition subject_or_active (k : check_args) : pyval :=
  vopt (match k_active_server_id k with Some s => Some s | None => _watchdog_adapter_subject (k_adapter k) None end).

Definition runtime_unready (k : check_args) : dict :=
  check_head k false "runtime_unavailable" (k_observed k) (allow_switch (k_options k)) (vopt (k_active_server_id k)) VNone VNone
    (VStr "none") ++ own_runtime k
  ++ [("error_code", VStr "WATCHDOG_RUNTIME_UNAVAILABLE");
      ("error_message", VStr (py_str (por (dget "error_message" (k_adapter k)) (VStr "VPN dataplane adapter is not ready."))));
      ("message", VStr "VPN runtime is unavailable; watchdog suppressed server switching.")].

(** A runtime that can neither fail over nor be probed. *)
Definition external_runtime (k : check_args) (log_events : bool) : F dict :=
  if negb (k_observed k) then
    let result := check_head k true "no_failure_no_traffic" false false (subject_or_active k) VNone VNone (VStr "none")
      ++ own_runtime k
      ++ [("message", VStr "No VPN traffic attempts observed; watchdog does not treat idle external runtime as failure.")] in
    _ ← log_event log_events "vpn_watchdog_no_traffic" "info" result;
    mret result
  else
    mret (check_head k true "external_runtime_active" true false (subject_or_active k)
            (VDict [("ok", VBool true); ("status", VStr "external_runtime_ready"); ("source", VStr "vpn_dataplane_adapter")])
            VNone (VStr "none") ++ own_runtime k
          ++ [("message", VStr "External VPN runtime is active; watchdog did not run Mihomo selector checks.")]).

Definition idle_result (k : check_args) (log_events : bool) : F dict :=
  let result := check_head k true "no_failure_no_traffic" false (allow_switch (k_options k)) (vopt (k_active_server_id k))
      VNone VNone (VStr "none") ++ own_runtime k
    ++ [("message", VStr "No VPN-auto traffic attempts observed; watchdog does not treat idle state as failure.")] in
  _ ← log_event log_events "vpn_watchdog_no_traffic" "info" result;
  mret result.

Definition deferred_result (k : check_args) (active_check selector : pyval) : dict :=
  check_head k true "selection_deferred" (k_observed k) false (vopt (k_active_server_id k)) active_check selector
    (VStr "deferred") ++ [("vpn_runtime", VDict (k_runtime_state k))].

(** The runtime state of an answer, or the one before. *)
Definition runtime_after (k : check_args) (answer : dict) : F dict :=
  st_py (as_dict (por (dget "runtime_state" answer) (VDict (k_runtime_state k)))).

Definition selection_deferred (answer : dict) : py bool :=
  if truthy (dget "deferred" answer) then Some true
  else selector ← or_empty (dget "selector" answer); Some (String.eqb (field_text "selection_outcome" selector) "deferred").

Definition first_selection (c : controller) (k : check_args) : F dict :=
  let allow := allow_switch (k_options k) in
  selected ← controller_initial_select c allow (k_options k);
  deferred ← st_py (selection_deferred selected);
  let selector := dget "selector" selected in
  if (deferred : bool) then mret (deferred_result k VNone selector)
  else
    let done := allow && truthy (dget "ok" selected) in
    runtime ← runtime_after k selected;
    mret (check_head k (truthy (dget "ok" selected)) (if done then "initial_auto_selected" else "needs_initial_auto_selection")
            (k_observed k) allow (dget "selected_target_id" selected) VNone selector
            (por (dget "action" selected) (VStr "none")) ++ check_runtime k runtime
          ++ [("message", VStr (if done then "Watchdog bootstrap selected a valid vpn-auto server."
                                else "VPN-auto has no valid active server selected."))]).

Definition probe_unavailable (k : check_args) : dict :=
  [("ok", VBool false); ("status", VStr "probe_unavailable"); ("server_id", vopt (k_active_server_id k));
   ("error_code", VStr "WATCHDOG_PROBE_UNAVAILABLE");
   ("error_message", VStr "Active VPN runtime does not expose current-server quality checks.")].

Definition server_check (c : controller) (k : check_args) : F dict :=
  let o := k_options k in
  recent ← ask (RecentCheck (k_active_server_id k) (checked_by_of (reason o)) (timeout_ms o)) recent_check;
  match recent with
  | Some check => mret check
  | None => answered ← ask (Probe c o) probed; mret (default (probe_unavailable k) answered)
  end.

Definition healthy_check (k : check_args) (check : dict) (log_events : bool) : F dict :=
  let result := check_head k true "healthy" true (allow_switch (k_options k)) (vopt (k_active_server_id k)) (VDict check) VNone
      (VStr "none") ++ own_runtime k
    ++ [("message", VStr "VPN-auto traffic attempts observed and active server check succeeded.")] in
  _ ← log_event log_events "vpn_watchdog_healthy" "info" result;
  mret result.

Definition check_failed_over (k : check_args) (check failover : dict) (log_events : bool) : F dict :=
  let allow := allow_switch (k_options k) in
  let noop := failover_noop failover in
  let status := if noop then "failover_noop" else if allow then "failover_applied" else "failover_candidate_found" in
  let message :=
    if noop then "VPN-auto active check failed, but the selected VPN server is already active."
    else if allow then "VPN-auto active check failed; failover candidate was applied."
    else "VPN-auto active check failed; failover candidate found in dry-run." in
  runtime ← runtime_after k failover;
  let result := check_head k true status true allow (vopt (k_active_server_id k)) (VDict check) (dget "selector" failover)
      (por (dget "action" failover) (VStr (if allow then "switch_vpn_auto" else "dry_run_only")))
    ++ [("noop", VBool noop); ("noop_reason", if noop then dget "noop_reason" failover else VNone)]
    ++ check_runtime k runtime ++ [("runtime_failover", VDict failover); ("message", VStr message)] in
  _ ← log_event log_events "vpn_watchdog_failover" (if allow then "info" else "warning") result;
  mret result.

Definition check_no_candidate (k : check_args) (check failover : dict) (log_events : bool) : F dict :=
  let unavailable := eq_str (dget "error_code" failover) "WATCHDOG_FAILOVER_UNAVAILABLE" in
  runtime ← runtime_after k failover;
  let result := check_head k false "fail_open_direct_recommended" true (allow_switch (k_options k))
      (vopt (k_active_server_id k)) (VDict check) (dget "selector" failover)
      (VStr (if unavailable then "none" else "fail_open_direct_recommended"))
    ++ check_runtime k runtime
    ++ [("runtime_failover", VDict failover);
        ("message", VStr (if unavailable then "VPN runtime does not expose automatic failover."
                          else "VPN-auto active check failed and no working failover candidate was found."))] in
  _ ← log_event log_events "vpn_watchdog_fail_open_direct" "error" result;
  mret result.

Definition check_and_failover (c : controller) (k : check_args) (log_events : bool) : F dict :=
  check ← server_check c k;
  ok ← st_py (dict_lookup "ok" check);
  if truthy ok then healthy_check k check log_events
  else
    failover ← controller_failover c (k_options k);
    if truthy (dget "deferred" failover) then mret (deferred_result k (VDict check) (dget "selector" failover))
    else
      ok ← st_py (dict_lookup "ok" failover);
      if truthy ok then check_failed_over k check failover log_events
      else check_no_candidate k check failover log_events.

Definition run_vpn_watchdog_check (traffic_attempts_observed : bool) (o : options) (log_events : bool) (expected : option fence)
    : F dict :=
  adapter ← ask AskAdapter (fun asked => Some (dataplane_adapter asked));
  routing ← ask LoadRouting routing_state;
  c ← get_vpn_runtime_controller adapter routing;
  _ ← bind_fence c expected;
  runtime_state ← get_state c;
  let active := text_or_none (dget "active_target_id" runtime_state) in
  let k := CheckArgs traffic_attempts_observed o adapter runtime_state active in
  if negb (truthy (dget "ready" runtime_state)) then mret (runtime_unready k)
  else if negb (truthy (dget "failover_supported" runtime_state)) && negb (truthy (dget "probe_supported" runtime_state)) then
    external_runtime k log_events
  else if is_set active && negb traffic_attempts_observed then idle_result k log_events
  else if is_set active then check_and_failover c k log_events
  else first_selection c k.
End ManualFlow.
