(* ===== verification/WatchdogAutoFlow.v ===== *)
(** * The automatic check of the watchdog

    [services/watchdog_auto_flow.py]: what keeps the watchdog from acting,
    and which flow a run ends in. *)
From stdpp Require Import base list strings pretty.
From Stdlib Require Import ZArith Lia Ascii.
From S2P Require Import Prelude PyStr PyVal PyTime WatchdogState WatchdogFailure WatchdogSignal SubjectPolicy WatchdogDeps WatchdogStallFlow WatchdogQualityFlow WatchdogManualFlow.

Open Scope string_scope.
Open Scope Z_scope.
Open Scope list_scope.

Section AutoFlow.
Context `{ReprContainer} `{WatchdogSettings} `{Outside}.

(** A fence that cannot be read binds to no revision. *)
Definition _capture_controller_selection_fence (c : controller) : F unit :=
  captured ← ask (CaptureFence c) captured_fence;
  match captured with
  | Some f => set_fence f
  | None =>
      f ← get_fence;
      set_fence (Fence (VInt (-1)) VNone (selection_runtime_target_snapshot f) (selection_runtime_target_snapshot_valid f))
  end.

Definition paused (status why message : string) (routing : option dict) : F dict :=
  module ← _update_watchdog_module WATCHDOG_RUNTIME_PAUSED message VNone VNone;
  mret (paused_result status why message module routing).

(** A result with no traffic and no switch. *)
Definition auto_head (ok : bool) (status why : string) (observed allow : bool) (active active_check selector action : pyval)
    : dict :=
  [("ok", VBool ok); ("automated", VBool true); ("status", VStr status); ("reason", VStr why);
   ("traffic_attempts_observed", VBool observed); ("allow_switch", VBool allow); ("active_server_id", active);
   ("active_check", active_check); ("selector", selector); ("action", action)].

Definition emergency_override_now : F (option dict) :=
  if in_reentry then mret None
  else pending ← watch get_recovery_pending; mret (emergency_override false pending).

Definition emergency_check (routing : option dict) (o : options) : F dict :=
  adapter ← ask AskAdapter (fun asked => Some (dataplane_adapter asked));
  c ← get_vpn_runtime_controller adapter routing;
  _ ← _capture_controller_selection_fence c;
  recovery ← (if allow_switch o then ask_watch (VerifiedReentry c o) verified_reentry
              else mret [("ok", VBool true); ("status", VStr "emergency_direct"); ("action", VStr "none");
                         ("effective_override", VStr "emergency_direct")]);
  let verified := eq_str (dget "action" recovery) "verified_vpn_reentry" in
  module ← _update_watchdog_module (if verified then WATCHDOG_RUNTIME_RUNNING else WATCHDOG_RUNTIME_DEGRADED)
             (if verified then "VPN recovery verified." else "Emergency Direct; verify provider subscription.") VNone VNone;
  mret (dict_of (recovery ++
    [("automated", VBool true); ("reason", VStr (reason o)); ("routing", vdict routing);
     ("traffic_attempts_observed", VBool false); ("allow_switch", VBool (allow_switch o));
     ("message", VStr "Emergency Direct remains active until VPN re-entry is verified."); ("module", vdict module)])).

Definition convergence_failed (routing : option dict) (convergence : dict) (o : options) : F dict :=
  module ← _update_watchdog_module WATCHDOG_RUNTIME_DEGRADED "Watchdog could not repair selective/VPN runtime convergence."
             (por (dget "error_code" convergence) (VStr "WATCHDOG_RUNTIME_CONVERGENCE_FAILED"))
             (por (dget "error_message" convergence) (VStr "Selective/VPN runtime convergence failed."));
  let result := auto_head false "runtime_convergence_failed" (reason o) false false
      (dget "active_auto_server_id" (default [] routing)) VNone VNone (VStr "none")
    ++ [("message", VStr "Watchdog could not repair selective/VPN runtime convergence."); ("traffic_signal", VNone);
        ("safe_for_watchdog_auto", VBool false); ("module", vdict module); ("routing", vdict routing);
        ("runtime_convergence", VDict convergence)] in
  code ← st_py (py_get "error_code" (vdict module));
  _ ← _write_watchdog_decision_log "warning" "watchdog_switch_suppressed"
        "Watchdog did not switch VPN-auto because runtime convergence is unhealthy." result
        (VStr (py_str (por code (VStr "WATCHDOG_RUNTIME_CONVERGENCE_FAILED"))));
  mret result.

(** The fields after the message of the results that only wait. *)
Definition auto_context (a : flow_args) (signal : pyval) (safe : pyval) (module : option dict) : dict :=
  [("traffic_signal", signal); ("safe_for_watchdog_auto", safe); ("module", vdict module); ("routing", vdict (a_routing a));
   ("runtime_convergence", VDict (a_runtime_convergence a)); ("vpn_adapter", VDict (a_vpn_adapter a));
   ("vpn_runtime", VDict (a_runtime_state a))] ++ a_runtime_response_fields a.

Definition runtime_unavailable (a : flow_args) : F dict :=
  module ← _update_watchdog_module WATCHDOG_RUNTIME_DEGRADED
             "Watchdog suppressed switching because VPN dataplane adapter is not ready." (VStr "WATCHDOG_RUNTIME_UNAVAILABLE")
             (VStr (py_str (por (dget "error_message" (a_vpn_adapter a)) (VStr "VPN dataplane adapter is not ready."))));
  let result := dict_of (
    auto_head false "runtime_unavailable" (reason (a_options a)) false false (vopt (a_active_server_id a)) VNone VNone (VStr "none")
    ++ [("message", VStr "VPN runtime is unavailable; watchdog suppressed server switching.")]
    ++ auto_context a VNone (VBool false) module) in
  _ ← _write_watchdog_decision_log "warning" "watchdog_switch_suppressed"
        "Watchdog suppressed server switching because VPN runtime is unavailable." result (VStr "WATCHDOG_RUNTIME_UNAVAILABLE");
  mret result.

(** ** The first selection *)

Definition initial_deferred (a : flow_args) (selector : pyval) : dict :=
  auto_head true "selection_deferred" (reason (a_options a)) false false (vopt (a_active_server_id a)) VNone selector
    (VStr "deferred")
  ++ [("message", VStr "Watchdog initial selection was deferred because the Core selection snapshot is stale or busy.");
      ("routing", vdict (a_routing a)); ("vpn_runtime", VDict (a_runtime_state a)); ("vpn_auto_state", vdict (a_vpn_auto_state a))].

Definition initial_selected (a : flow_args) (initial_select : dict) (selector : pyval) : F dict :=
  module ← _update_watchdog_module WATCHDOG_RUNTIME_RUNNING "Watchdog bootstrap selected a valid vpn-auto server." VNone VNone;
  after ← st_py (py_get "active_after" selector);
  own ← st_py (or_empty (dget "runtime_state" initial_select));
  let runtime := por (dget "runtime_state" initial_select) (VDict (a_runtime_state a)) in
  key ← st_py (py_get "path_key" runtime);
  supported ← st_py (py_get "failover_supported" runtime);
  cooldown ← _watchdog_failover_cooldown_status;
  fields ← st_py (cooldown_fields (VDict cooldown));
  mret (dict_of (
    auto_head true "initial_auto_selected" (reason (a_options a)) false true
      (por (dget "selected_target_id" initial_select) after) VNone selector
      (por (dget "action" initial_select) (VStr "switch_vpn_auto"))
    ++ [("message", VStr "Watchdog bootstrap selected a valid vpn-auto server without waiting for traffic attempts.");
        ("traffic_signal", VNone); ("safe_for_watchdog_auto", VBool false); ("module", vdict module);
        ("routing", vdict (a_routing a));
        ("vpn_auto_state", por (dget "selector_state" own) (vdict (a_vpn_auto_state a)));
        ("runtime_convergence", VDict (a_runtime_convergence a)); ("vpn_adapter", VDict (a_vpn_adapter a));
        ("vpn_runtime", runtime); ("path_key", key); ("selection_mode", VStr (a_selection_mode a));
        ("active_target_id", dget "selected_target_id" initial_select); ("failover_supported", VBool (truthy supported))]
    ++ fields ++ [("runtime_failover", VDict initial_select)])).

Definition needs_selection (a : flow_args) : F dict :=
  module ← _update_watchdog_module WATCHDOG_RUNTIME_DEGRADED
             "VPN-auto is missing a valid active server and needs initial selection."
             (VStr "WATCHDOG_INITIAL_AUTO_SELECTION_REQUIRED") (VStr "VPN-auto has no valid active server selected.");
  let result := dict_of (
    auto_head true "needs_initial_auto_selection" (reason (a_options a)) false false
      (dget "active_auto_server_id" (default [] (a_routing a))) VNone VNone (VStr "none")
    ++ [("message", VStr "VPN-auto has no valid active server selected.")] ++ auto_context a VNone (VBool false) module
    ++ auto_state a) in
  _ ← _write_watchdog_decision_log "warning" "watchdog_switch_suppressed"
        "Watchdog did not switch VPN-auto because no valid active auto server is selected." result
        (VStr "WATCHDOG_INITIAL_AUTO_SELECTION_REQUIRED");
  mret result.

Definition initial_selection (a : flow_args) : F dict :=
  if allow_switch (a_options a) then
    initial_select ← controller_initial_select (a_controller a) true (a_options a);
    let selector := dget "selector" initial_select in
    deferred ← st_py (selection_deferred initial_select);
    if (deferred : bool) then mret (initial_deferred a selector)
    else
      ok ← st_py (py_item "ok" selector);
      if truthy ok then initial_selected a initial_select selector else needs_selection a
  else needs_selection a.

(** ** The traffic signal *)

Definition signal_unavailable (a : flow_args) : F dict :=
  module ← _update_watchdog_module WATCHDOG_RUNTIME_DEGRADED
             "Watchdog traffic signal is stale or unavailable; automatic switching is suppressed."
             (VStr "WATCHDOG_SIGNAL_UNAVAILABLE")
             (VStr "Fresh traffic counter snapshots are required for authoritative watchdog decisions.");
  mret (dict_of (
    auto_head true "paused_signal_unavailable" (reason (a_options a)) false false (vopt (a_active_server_id a)) VNone VNone
      (VStr "none")
    ++ [("message", VStr "Watchdog traffic signal is stale or unavailable; automatic switching is suppressed.")]
    ++ auto_context a (VDict (a_traffic_signal a)) (VBool false) module)).

(** The traffic of this run answers the pending attempt. *)
Definition attempt_answered (a : flow_args) (pending : option dict) : bool :=
  match pending with
  | Some p =>
      bool_decide (field_text "phase" p ∈ ["member_reselect_pending"; "traffic_verifying"; "provider_recovery"])
      && truthy (dget "response_observed" (a_traffic_signal a))
      && negb (String.eqb (decision_of (a_traffic_signal a)) (field_text "traffic_decision_id" p))
      && bool_decide (Some (field_text "path_key" p) = a_path_key a)
      && String.eqb (field_text "logical_server_id" p) (default "" (a_active_server_id a))
  | None => false
  end.

Definition attempt_recovered (a : flow_args) (pending : dict) : F dict :=
  _ ← watch (set_recovery_pending None);
  _ ← watch reset_traffic_failure_candidate;
  let message := "Watchdog confirmed response traffic after runtime recovery; logical server retained." in
  module ← _update_watchdog_module WATCHDOG_RUNTIME_RUNNING message VNone VNone;
  mret (dict_of (
    auto_head true "logical_group_recovered" (reason (a_options a)) true false (vopt (a_active_server_id a))
      (VDict [("source", VStr "traffic_counter_snapshots"); ("traffic_signal", VDict (a_traffic_signal a))]) VNone
      (VStr "member_reselect_traffic_recovered")
    ++ [("path_state", VStr "recovered_current_logical_server"); ("message", VStr message);
        ("traffic_signal", VDict (a_traffic_signal a));
        ("runtime_recovery", VDict [("pending", VDict pending); ("traffic_recovered", VBool true)]); ("module", vdict module);
        ("routing", vdict (a_routing a)); ("runtime_convergence", VDict (a_runtime_convergence a));
        ("vpn_adapter", VDict (a_vpn_adapter a)); ("vpn_runtime", VDict (a_runtime_state a))]
    ++ auto_state a ++ a_runtime_response_fields a)).

Definition probe_not_due (a : flow_args) (idle_cadence : dict) : F dict :=
  module ← _update_watchdog_module WATCHDOG_RUNTIME_RUNNING "Watchdog idle active-server probe is not due yet." VNone VNone;
  mret (dict_of (
    auto_head true "idle_probe_not_due" (reason (a_options a)) false false (vopt (a_active_server_id a)) VNone VNone (VStr "none")
    ++ [("message", VStr "VPN-auto is idle; the next active-server probe is not due yet."); ("idle_probe", VDict idle_cadence)]
    ++ auto_context a (VDict (a_traffic_signal a)) (safe_flag a) module ++ auto_state a)).

Definition idle_check (a : flow_args) : F dict :=
  idle_cadence ← _watchdog_idle_probe_due (a_active_server_id a) watchdog_idle_probe_interval_seconds;
  if negb (truthy (dget "due" idle_cadence)) then probe_not_due a idle_cadence
  else handle_response_traffic_auto_flow a true.

(** ** The remaining check *)

(** The module row for the status of the check. *)
Definition checked_module (status message : string) (result : dict) : F (option dict) :=
  if String.eqb status "no_failure_no_traffic" then
    _update_watchdog_module WATCHDOG_RUNTIME_RUNNING "Watchdog enabled and waiting for VPN-auto traffic activity." VNone VNone
  else if bool_decide (status ∈ ["healthy"; "failover_applied"; "external_runtime_active"]) then
    _update_watchdog_module WATCHDOG_RUNTIME_RUNNING message VNone VNone
  else if String.eqb status "failover_candidate_found" then
    _update_watchdog_module WATCHDOG_RUNTIME_DEGRADED message VNone VNone
  else if String.eqb status "runtime_unavailable" then
    _update_watchdog_module WATCHDOG_RUNTIME_DEGRADED message (VStr "WATCHDOG_RUNTIME_UNAVAILABLE")
      (VStr (py_str (por (dget "error_message" result) (VStr message))))
  else if String.eqb status "external_runtime_failover_unavailable" then
    _update_watchdog_module WATCHDOG_RUNTIME_DEGRADED message (VStr "WATCHDOG_EXTERNAL_FAILOVER_UNAVAILABLE") (VStr message)
  else
    _update_watchdog_module WATCHDOG_RUNTIME_DEGRADED message (VStr "WATCHDOG_FAIL_OPEN_DIRECT_RECOMMENDED") (VStr message).

(** The log entry of a check that switched nothing. *)
Definition log_suppressed (status : string) (result : dict) : F unit :=
  let entry level message code := _write_watchdog_decision_log level "watchdog_switch_suppressed" message result (VStr code) in
  if String.eqb status "fail_open_direct_recommended" then
    entry "error" "Watchdog active check failed and found no working failover candidate." "WATCHDOG_FAIL_OPEN_DIRECT_RECOMMENDED"
  else if String.eqb status "failover_candidate_found" then
    entry "warning" "Watchdog active check failed but did not apply a server switch." "WATCHDOG_DRY_RUN_ONLY"
  else if String.eqb status "runtime_unavailable" then
    entry "warning" "Watchdog suppressed server switching because VPN runtime is unavailable." "WATCHDOG_RUNTIME_UNAVAILABLE"
  else if String.eqb status "external_runtime_failover_unavailable" then
    entry "warning" "Watchdog confirmed a VPN traffic stall but the external VPN adapter has no failover adapter."
      "WATCHDOG_EXTERNAL_FAILOVER_UNAVAILABLE"
  else mret tt.

Definition remaining_check (a : flow_args) (observed : bool) : F dict :=
  bound ← get_fence;
  result ← run_vpn_watchdog_check observed (a_options a) false
             (match selection_revision_snapshot bound with VNone => None | _ => Some bound end);
  if eq_str (dget "status" result) "selection_deferred" then
    mret (dict_of (result ++ [("automated", VBool true); ("traffic_signal", VDict (a_traffic_signal a));
      ("routing", vdict (a_routing a)); ("vpn_adapter", VDict (a_vpn_adapter a));
      ("runtime_convergence", VDict (a_runtime_convergence a))] ++ auto_state a))
  else
    let status := py_str (dget "status" result) in
    let message := py_str (dget "message" result) in
    module ← checked_module status message result;
    let result := dict_of (result ++
      [("automated", VBool true); ("traffic_signal", VDict (a_traffic_signal a)); ("safe_for_watchdog_auto", safe_flag a);
       ("module", vdict module); ("routing", vdict (a_routing a)); ("runtime_convergence", VDict (a_runtime_convergence a));
       ("vpn_adapter", por (dget "vpn_adapter" result) (VDict (a_vpn_adapter a)))]) in
    _ ← log_suppressed status result;
    mret result.

(** What a run does with an authoritative signal. *)
Definition traffic_flow (a : flow_args) : F dict :=
  let s := a_traffic_signal a in
  pending ← watch get_recovery_pending;
  match (if attempt_answered a pending then pending else None) with
  | Some p => attempt_recovered a p
  | None =>
      if negb (truthy (dget "observed" s)) && wants_probe a then idle_check a
      else if truthy (dget "response_observed" s) then handle_response_traffic_auto_flow a false
      else if truthy (dget "traffic_stalled" s) then handle_stalled_traffic_auto_flow a
      else remaining_check a (truthy (dget "observed" s))
  end.

Definition with_signal (a : flow_args) (s : dict) : flow_args :=
  FlowArgs (a_controller a) s (a_active_server_id a) (a_selection_mode a) (a_runtime_state a) (a_path_key a) (a_routing a)
    (a_runtime_convergence a) (a_vpn_adapter a) (a_runtime_response_fields a) (a_vpn_auto_state a) (a_options a).

(** The runtime's state, before the traffic is looked at. *)
Definition runtime_args (adapter : dict) (routing : option dict) (convergence : dict) (o : options) : F flow_args :=
  c ← get_vpn_runtime_controller adapter routing;
  _ ← _capture_controller_selection_fence c;
  state ← get_state c;
  let active := or_none (py_strip (py_str (por (por (dget "active_target_id" state)
                  (vopt (_watchdog_adapter_subject adapter routing))) (VStr "")))) in
  let key := or_none (py_strip (py_str (por (por (dget "path_key" state) (vopt active)) (VStr "")))) in
  let mode := py_lower (py_strip (py_str (por (dget "selection_mode" state) (VStr "unknown")))) in
  cooldown ← _watchdog_failover_cooldown_status;
  fields ← st_py (runtime_response_fields state key (VDict cooldown));
  mret (FlowArgs c [] active mode state key routing convergence adapter fields (as_dict (dget "selector_state" state)) o).

Definition needs_initial_select (a : flow_args) : bool :=
  String.eqb (a_selection_mode a) "auto" && truthy (dget "initial_select_supported" (a_runtime_state a))
  && negb (truthy (dget "active_target_valid" (a_runtime_state a))).

Definition converged_check (routing : option dict) (convergence : dict) (window : option Z) (o : options) : F dict :=
  adapter ← ask AskAdapter (fun asked => Some (dataplane_adapter asked));
  a ← runtime_args adapter routing convergence o;
  if negb (truthy (dget "ready" (a_runtime_state a))) then runtime_unavailable a
  else if needs_initial_select a then initial_selection a
  else
    s ← _detect_recent_vpn_traffic_attempts window;
    let a := with_signal a s in
    if negb (truthy (dget "authoritative" s)) then signal_unavailable a else traffic_flow a.

Definition enabled_check (routing : option dict) (window : option Z) (o : options) : F dict :=
  let mode := routing_mode routing in
  scoped ← ask AskScopedSubjects scoped_subjects;
  if negb (bool_decide (mode ∈ ["vpn"; "selective"])) && negb scoped then
    paused "paused_not_vpn" (reason o) ("Watchdog paused because global mode is " +:+ mode +:+ ".") routing
  else
    emergency ← emergency_override_now;
    if is_set emergency then emergency_check routing o
    else
      convergence ← ask (AskConvergence mode scoped) convergence_status;
      if negb (truthy (dget "ok" convergence)) then convergence_failed routing convergence o
      else converged_check routing convergence window o.

Definition run_vpn_watchdog_auto_check (window : option Z) (o : options) : F dict :=
  module ← ask LoadModule watchdog_module;
  routing ← ask LoadRouting routing_state;
  match module with
  | None => mret (paused_result "watchdog_module_missing" (reason o) "Watchdog module row is missing." None routing)
  | Some m =>
      desired ← st_py (dict_lookup "desired_state" m);
      if negb (eq_str desired "enabled") then
        mret (paused_result "watchdog_disabled" (reason o) "Watchdog automation is disabled." module routing)
      else
        bypass ← ask AskBypass bypass_enabled;
        if (bypass : bool) then
          paused "paused_core_bypass" (reason o) "Watchdog paused because FWRouter core bypass is active." routing
        else enabled_check routing window o
  end.
End AutoFlow.
