(* ===== verification/WatchdogRequests.v ===== *)
(** * What the watchdog's flows ask for

    Which requests change something in the runtime, and the parts of the
    flows that make none. *)
From stdpp Require Import base list strings pretty.
From Stdlib Require Import ZArith Lia Ascii.
From S2P Require Import Prelude PyStr PyVal PyState PyTime WatchdogState WatchdogFailure WatchdogFacts WatchdogSignal SubjectPolicy WatchdogDeps WatchdogStallFlow WatchdogQualityFlow WatchdogManualFlow WatchdogAutoFlow.

Open Scope string_scope.
Open Scope Z_scope.
Open Scope list_scope.

(** ** Requests *)

(** A request to move the traffic to another server. *)
Definition is_switch (a : action) : bool :=
  match a with
  | Failover _ _ apply _ | InitialSelect _ _ apply _ => apply
  | _ => false
  end.

(** A request to change anything in the runtime. *)
Definition is_recovery (a : action) : bool :=
  match a with
  | Failover _ _ _ _ | InitialSelect _ _ _ _ | MemberReselection _ _ _ _ | FullHealthRefresh _ _ _ | RefreshCurrent _ _
  | ProviderRecovery _ _ _ _ _ | VerifiedReentry _ _ => true
  | _ => false
  end.

(** The requests of a kind made so far. *)
Definition seen (p : action -> bool) (s : flow) : list action := List.filter p (f_asked s).

#[export] Hint Extern 1 (is_recovery _ = false) => reflexivity : frame.
#[export] Hint Extern 1 (is_switch _ = false) => reflexivity : frame.

Section Flows.
Context `{ReprContainer} `{WatchdogSettings} `{Outside}.

(** ** Steps that request nothing *)

Section Requests.
Context (p : action -> bool).

Lemma seen_watch {A} (m : M A) : preserves (seen p) (watch m).
Proof. intros s. unfold same, watch. by destruct (m (f_watch s)) as [r w]. Qed.

Lemma seen_ask {A} a (answer : list action -> py A) : p a = false -> preserves (seen p) (ask a answer).
Proof. intros Ha s. unfold same, seen, ask. cbn. by rewrite Ha. Qed.

Lemma seen_ask_watch {A} a (answer : list action -> M A) : p a = false -> preserves (seen p) (ask_watch a answer).
Proof.
  intros Ha s. unfold same, seen, ask_watch. destruct (answer (a :: f_asked s) (f_watch s)) as [r w]. cbn. by rewrite Ha.
Qed.

Lemma seen_set_copy c : preserves (seen p) (set_copy c).
Proof. done. Qed.

Lemma seen_set_fence g : preserves (seen p) (set_fence g).
Proof. done. Qed.

Lemma seen_get_copy : preserves (seen p) get_copy.
Proof. done. Qed.

Lemma seen_get_fence : preserves (seen p) get_fence.
Proof. done. Qed.
End Requests.

Hint Resolve seen_watch seen_set_copy seen_set_fence seen_get_copy seen_get_fence : frame.

(** Whatever kind of recovery [p] picks, these flows request none. *)
Section Quiet.
Context (p : action -> bool) (Hp : forall a, is_recovery a = false -> p a = false).

Lemma quiet_ask {A} a (answer : list action -> py A) : is_recovery a = false -> preserves (seen p) (ask a answer).
Proof. intros Ha. by apply seen_ask, Hp. Qed.

Hint Resolve quiet_ask : frame.

Tactic Notation "quiet" reference(f) := unfold f; frame.

Lemma quiet_with_copy {A} (m : M A) : preserves (seen p) (with_copy m).
Proof. quiet with_copy. Qed.
Hint Resolve quiet_with_copy : frame.

Lemma quiet_module st tx c e : preserves (seen p) (_update_watchdog_module st tx c e).
Proof. quiet _update_watchdog_module. Qed.

Lemma quiet_log l t m r c : preserves (seen p) (_write_watchdog_decision_log l t m r c).
Proof. quiet _write_watchdog_decision_log. Qed.

Lemma quiet_event t l m d : preserves (seen p) (_write_watchdog_operational_event t l m d).
Proof. quiet _write_watchdog_operational_event. Qed.

Lemma quiet_now : preserves (seen p) _utc_now.
Proof. quiet _utc_now. Qed.

Lemma quiet_uuid : preserves (seen p) uuid4_hex.
Proof. quiet uuid4_hex. Qed.

Lemma quiet_state c : preserves (seen p) (get_state c).
Proof. quiet get_state. Qed.

Hint Resolve quiet_module quiet_log quiet_event quiet_now quiet_uuid quiet_state : frame.

Lemma quiet_cooldown_status : preserves (seen p) _watchdog_failover_cooldown_status.
Proof. quiet _watchdog_failover_cooldown_status. Qed.

Lemma quiet_record path prev sel : preserves (seen p) (_record_watchdog_successful_failover path prev sel).
Proof. quiet _record_watchdog_successful_failover. Qed.

Lemma quiet_reset : preserves (seen p) _reset_watchdog_traffic_failure_candidate.
Proof. quiet _reset_watchdog_traffic_failure_candidate. Qed.

Lemma quiet_reset_stalled : preserves (seen p) _reset_watchdog_stalled_traffic_failure_candidate.
Proof. quiet _reset_watchdog_stalled_traffic_failure_candidate. Qed.

Lemma quiet_confirmation s t c k : preserves (seen p) (_watchdog_traffic_failure_confirmation s t c k).
Proof. quiet _watchdog_traffic_failure_confirmation. Qed.

Lemma quiet_recovery s t k : preserves (seen p) (_watchdog_active_quality_recovery_confirmation s t k).
Proof. quiet _watchdog_active_quality_recovery_confirmation. Qed.

Lemma quiet_due s i : preserves (seen p) (_watchdog_idle_probe_due s i).
Proof. quiet _watchdog_idle_probe_due. Qed.

Lemma quiet_no_cooldown : preserves (seen p) no_cooldown.
Proof. quiet no_cooldown. Qed.

Hint Resolve quiet_cooldown_status quiet_record quiet_reset quiet_reset_stalled quiet_confirmation quiet_recovery quiet_due
  quiet_no_cooldown : frame.

Lemma quiet_signal w : preserves (seen p) (_detect_recent_vpn_traffic_attempts w).
Proof. quiet _detect_recent_vpn_traffic_attempts. Qed.

Lemma quiet_controller d r : preserves (seen p) (get_vpn_runtime_controller d r).
Proof. quiet get_vpn_runtime_controller. Qed.

Lemma quiet_capture c : preserves (seen p) (_capture_controller_selection_fence c).
Proof. quiet _capture_controller_selection_fence. Qed.

Hint Resolve quiet_signal quiet_controller quiet_capture : frame.

(** *** The stalled flow *)

Lemma quiet_pending a c : preserves (seen p) (failure_pending a c).
Proof. quiet failure_pending. Qed.

Lemma quiet_stall_confirmation a pending : preserves (seen p) (stall_confirmation a pending).
Proof. quiet stall_confirmation. Qed.

Lemma quiet_provider a k c chk r : preserves (seen p) (provider_recovered a k c chk r).
Proof. quiet provider_recovered. Qed.

Lemma quiet_manual a c : preserves (seen p) (manual_selection a c).
Proof. quiet manual_selection. Qed.

Lemma quiet_unavailable a c : preserves (seen p) (failover_unavailable a c).
Proof. quiet failover_unavailable. Qed.

Lemma quiet_emit a c i ph o d l e : preserves (seen p) (emit_recovery_transition a c i ph o d l e).
Proof. quiet emit_recovery_transition. Qed.

Lemma quiet_attempt a pending : preserves (seen p) (attempt_of a pending).
Proof. quiet attempt_of. Qed.

Lemma quiet_topology a : preserves (seen p) (current_topology a).
Proof. quiet current_topology. Qed.

Lemma quiet_waiting a c act m r : preserves (seen p) (reselection_waiting a c act m r).
Proof. quiet reselection_waiting. Qed.

Lemma quiet_fields a r f m : preserves (seen p) (recovery_fields_of a r f m).
Proof. quiet recovery_fields_of. Qed.

Lemma quiet_member a c r : preserves (seen p) (member_recovered a c r).
Proof. quiet member_recovered. Qed.

Lemma quiet_refresh_failed a c r f : preserves (seen p) (refresh_failed a c r f).
Proof. quiet refresh_failed. Qed.

Lemma quiet_in_cooldown a c d f : preserves (seen p) (in_cooldown a c d f).
Proof. quiet in_cooldown. Qed.

Lemma quiet_runtime a f : preserves (seen p) (failover_runtime a f).
Proof. quiet failover_runtime. Qed.

Lemma quiet_applied a f : preserves (seen p) (record_applied a f).
Proof. quiet record_applied. Qed.

Hint Resolve quiet_pending quiet_stall_confirmation quiet_provider quiet_manual quiet_unavailable quiet_emit quiet_attempt
  quiet_topology quiet_waiting quiet_fields quiet_member quiet_refresh_failed quiet_in_cooldown quiet_runtime
  quiet_applied : frame.

Lemma quiet_done a c r f h i : preserves (seen p) (failover_done a c r f h i).
Proof. quiet failover_done. Qed.

Lemma quiet_no_candidate a c r f h : preserves (seen p) (no_candidate a c r f h).
Proof. quiet no_candidate. Qed.

Lemma quiet_begin a pending : preserves (seen p) (begin_refresh a pending).
Proof. quiet begin_refresh. Qed.

Lemma quiet_transitions a c r i m f s : preserves (seen p) (recovery_transitions a c r i m f s).
Proof. quiet recovery_transitions. Qed.

Hint Resolve quiet_done quiet_no_candidate quiet_begin quiet_transitions : frame.

(** *** The quality flow *)

Lemma quiet_evidence a i st ps rt m c : preserves (seen p) (evidence_result a i st ps rt m c).
Proof. quiet evidence_result. Qed.

Lemma quiet_active_check a i : preserves (seen p) (active_check_of a i).
Proof. quiet active_check_of. Qed.

Lemma quiet_record_probe a c : preserves (seen p) (record_probe a c).
Proof. quiet record_probe. Qed.

Lemma quiet_healthy a i c : preserves (seen p) (healthy_result a i c).
Proof. quiet healthy_result. Qed.

Lemma quiet_quality_confirmation a i c : preserves (seen p) (quality_confirmation a i c).
Proof.
  unfold quality_confirmation, _watchdog_idle_active_failure_confirmation, _watchdog_active_quality_degraded_confirmation.
  destruct i; frame.
Qed.

Lemma quiet_unconfirmed a i c d : preserves (seen p) (quality_unconfirmed a i c d).
Proof. quiet quality_unconfirmed. Qed.

Lemma quiet_quality_manual a i c d : preserves (seen p) (quality_manual a i c d).
Proof. quiet quality_manual. Qed.

Lemma quiet_quality_unavailable a i c d : preserves (seen p) (quality_unavailable a i c d).
Proof. quiet quality_unavailable. Qed.

Lemma quiet_quality_recovered a i c d : preserves (seen p) (quality_recovered a i c d).
Proof. quiet quality_recovered. Qed.

Lemma quiet_quality_cooldown a i c d e : preserves (seen p) (quality_in_cooldown a i c d e).
Proof. quiet quality_in_cooldown. Qed.

Lemma quiet_quality_done a i c d f : preserves (seen p) (quality_done a i c d f).
Proof. quiet quality_done. Qed.

Lemma quiet_quality_no_candidate a i c d f : preserves (seen p) (quality_no_candidate a i c d f).
Proof. quiet quality_no_candidate. Qed.

Hint Resolve quiet_evidence quiet_active_check quiet_record_probe quiet_healthy : frame.

(** Answered traffic and an idle probe only report: no recovery is asked for. *)
Lemma quiet_response a idle_probe :
  idle_probe = true \/ truthy (dget "response_observed" (a_traffic_signal a)) = true ->
  preserves (seen p) (handle_response_traffic_auto_flow a idle_probe).
Proof.
  intros Ht. unfold handle_response_traffic_auto_flow. frame; exfalso.
  all: repeat match goal with E : _ && _ = true |- _ => apply andb_true_iff in E as [? ?] end.
  all: repeat match goal with E : _ && _ = false |- _ => apply andb_false_iff in E end.
  all: destruct idle_probe, Ht; cbn in *; try discriminate; intuition congruence.
Qed.

(** *** The automatic check *)

Lemma quiet_paused st w m r : preserves (seen p) (paused st w m r).
Proof. quiet paused. Qed.

Lemma quiet_override : preserves (seen p) emergency_override_now.
Proof. quiet emergency_override_now. Qed.

Lemma quiet_convergence r c o : preserves (seen p) (convergence_failed r c o).
Proof. quiet convergence_failed. Qed.

Lemma quiet_runtime_unavailable a : preserves (seen p) (runtime_unavailable a).
Proof. quiet runtime_unavailable. Qed.

Lemma quiet_initial_selected a i sel : preserves (seen p) (initial_selected a i sel).
Proof. quiet initial_selected. Qed.

Lemma quiet_needs_selection a : preserves (seen p) (needs_selection a).
Proof. quiet needs_selection. Qed.

Lemma quiet_signal_unavailable a : preserves (seen p) (signal_unavailable a).
Proof. quiet signal_unavailable. Qed.

Lemma quiet_attempt_recovered a d : preserves (seen p) (attempt_recovered a d).
Proof. quiet attempt_recovered. Qed.

Lemma quiet_not_due a d : preserves (seen p) (probe_not_due a d).
Proof. quiet probe_not_due. Qed.

Lemma quiet_checked_module st m r : preserves (seen p) (checked_module st m r).
Proof. quiet checked_module. Qed.

Lemma quiet_log_suppressed st r : preserves (seen p) (log_suppressed st r).
Proof. quiet log_suppressed. Qed.

Lemma quiet_runtime_args d r c o : preserves (seen p) (runtime_args d r c o).
Proof. quiet runtime_args. Qed.

(** *** The check of the active server *)

Lemma quiet_bind_fence c e : preserves (seen p) (bind_fence c e).
Proof. quiet bind_fence. Qed.

Lemma quiet_log_event l t v r : preserves (seen p) (log_event l t v r).
Proof. quiet log_event. Qed.

Hint Resolve quiet_bind_fence quiet_log_event : frame.

Lemma quiet_external k l : preserves (seen p) (external_runtime k l).
Proof. quiet external_runtime. Qed.

Lemma quiet_idle k l : preserves (seen p) (idle_result k l).
Proof. quiet idle_result. Qed.

Lemma quiet_runtime_after k d : preserves (seen p) (runtime_after k d).
Proof. quiet runtime_after. Qed.

Hint Resolve quiet_runtime_after : frame.

Lemma quiet_server_check c k : preserves (seen p) (server_check c k).
Proof. quiet server_check. Qed.

Lemma quiet_healthy_check k c l : preserves (seen p) (healthy_check k c l).
Proof. quiet healthy_check. Qed.

Lemma quiet_check_failed_over k c f l : preserves (seen p) (check_failed_over k c f l).
Proof. quiet check_failed_over. Qed.

Lemma quiet_check_no_candidate k c f l : preserves (seen p) (check_no_candidate k c f l).
Proof. quiet check_no_candidate. Qed.
End Quiet.

Lemma recovery_kind a : is_recovery a = false -> is_recovery a = false.
Proof. done. Qed.

Lemma switch_kind a : is_recovery a = false -> is_switch a = false.
Proof. by destruct a. Qed.
End Flows.

#[export] Hint Resolve seen_watch seen_set_copy seen_set_fence seen_get_copy seen_get_fence recovery_kind switch_kind
  seen_ask seen_ask_watch : frame.
#[export] Hint Resolve quiet_ask quiet_with_copy quiet_module quiet_log quiet_event quiet_now quiet_uuid quiet_state
  quiet_cooldown_status quiet_record quiet_reset quiet_reset_stalled quiet_confirmation quiet_recovery quiet_due
  quiet_no_cooldown quiet_signal quiet_controller quiet_capture quiet_pending quiet_stall_confirmation
  quiet_provider quiet_manual quiet_unavailable quiet_emit quiet_attempt quiet_topology quiet_waiting
  quiet_fields quiet_member quiet_refresh_failed quiet_in_cooldown quiet_runtime quiet_applied quiet_done
  quiet_no_candidate quiet_begin quiet_transitions quiet_evidence quiet_active_check quiet_record_probe
  quiet_healthy quiet_paused quiet_override quiet_convergence quiet_runtime_unavailable quiet_initial_selected
  quiet_needs_selection quiet_signal_unavailable quiet_attempt_recovered quiet_not_due quiet_checked_module
  quiet_log_suppressed quiet_runtime_args
  quiet_bind_fence quiet_log_event quiet_external quiet_idle quiet_runtime_after quiet_server_check quiet_healthy_check
  quiet_check_failed_over quiet_check_no_candidate quiet_quality_confirmation quiet_unconfirmed quiet_quality_manual
  quiet_quality_unavailable quiet_quality_recovered quiet_quality_cooldown quiet_quality_done quiet_quality_no_candidate
  : frame.
