(* ===== verification/WatchdogFlowFacts.v ===== *)
(** * When the watchdog switches

    What has to hold before a run of a flow asks the runtime for another
    server. *)
From stdpp Require Import base list strings pretty.
From Stdlib Require Import ZArith Lia Ascii.
From S2P Require Import Prelude PyStr PyVal PyState PyTime WatchdogState WatchdogFailure WatchdogFacts WatchdogSignal SubjectPolicy WatchdogDeps WatchdogStallFlow WatchdogQualityFlow WatchdogManualFlow WatchdogAutoFlow WatchdogRequests.

Open Scope string_scope.
Open Scope Z_scope.
Open Scope list_scope.

Section Switching.
Context `{ReprContainer} `{WatchdogSettings} `{Outside}.

(** ** Runs that switch *)

(** How often the runtime was asked for another server. *)
Definition switches (s : flow) : nat := length (seen is_switch s).

Definition switching {A} (m : F A) (s : flow) : Prop := switches (m s).2 <> switches s.

Lemma quiet_switches {A} (m : F A) : preserves (seen is_switch) m -> preserves switches m.
Proof. intros Hm s. unfold same, switches. by rewrite (Hm s). Qed.

Lemma not_switching {A} (m : F A) s : switching m s -> preserves (seen is_switch) m -> False.
Proof. intros Hs Hm. apply Hs, (quiet_switches _ Hm). Qed.

(** The switch is in what follows a step that is none. *)
Lemma switching_bind {A B} (m : F A) (k : A -> F B) s :
  switching (m ≫= k) s -> preserves (seen is_switch) m -> exists x s1, m s = (Some x, s1) /\ switching (k x) s1.
Proof.
  unfold switching. rewrite bind_unfold. intros Hs Hm%quiet_switches. specialize (Hm s). unfold same in Hm.
  destruct (m s) as [[x|] s1]; cbn [snd] in *; [|done]. exists x, s1. split; [done|]. by rewrite Hm.
Qed.

(** Nothing after the step is a switch: it is the step that switched. *)
Lemma switching_step {A B} (m : F A) (k : A -> F B) s :
  switching (m ≫= k) s -> (forall x, preserves (seen is_switch) (k x)) -> switching m s.
Proof.
  unfold switching. rewrite bind_unfold. intros Hs Hk Hm. apply Hs. destruct (m s) as [[x|] s1]; [|done].
  rewrite (quiet_switches _ (Hk x) s1). exact Hm.
Qed.

(** ** The cooldown holds *)

(** The durable cooldown runs until [until], no access to the database
    fails, and no other process changes the cooldown. *)
Definition cooling_row (until : datetime) (row : option wd_row) : Prop :=
  exists r, row = Some r /\ row_cooldown_until r = Some (isoformat until).

Definition cooling (until : datetime) (w : world) : Prop :=
  cooling_row until (w_row w) /\
  Forall (fun t => t_ok t = true /\ forall row, cooling_row until row -> cooling_row until (t_others t row)) (w_turns w).

Definition flow_cooling (until : datetime) (s : flow) : Prop := cooling until (f_watch s).

Section Cooling.
Context (until : datetime).

Lemma cooling_access {A} (f : string -> option wd_row -> A * option wd_row) :
  (forall now row, cooling_row until row -> cooling_row until (f now row).2) ->
  moves (stays (cooling until)) (db_access f).
Proof.
  intros Hf [row mem turns] [Hc Ht]. cbn [w_row w_turns] in *. unfold db_access. cbn [w_row w_turns w_memory].
  destruct turns as [|t ts].
  - specialize (Hf (t_now quiet) row Hc). cbn [t_ok t_others t_now quiet]. destruct (f (t_now quiet) row) as [a r'] eqn:E.
    cbn [t_now quiet] in E. rewrite E. by split.
  - apply Forall_cons in Ht as [[Hok Hk] Ht]. rewrite Hok. specialize (Hf (t_now t) _ (Hk row Hc)).
    by destruct (f (t_now t) (t_others t row)) as [a r'].
Qed.

Lemma cooling_select {A} (f : option wd_row -> A) : moves (stays (cooling until)) (db_access (fun _ row => (f row, row))).
Proof. by apply cooling_access. Qed.

Lemma cooling_ensure : moves (stays (cooling until)) ensure_watchdog_runtime_state_row.
Proof. apply cooling_access. intros now row (r & -> & Hr). by exists r. Qed.

Lemma cooling_statement u : u_cooldown_until u = None -> moves (stays (cooling until)) (db_access (update_statement u)).
Proof.
  intros Hu. apply cooling_access. intros now row (r & -> & Hr). cbn [update_statement].
  destruct (where_holds u r); [|by exists r]. exists (assign u now r). split; [done|]. unfold assign.
  cbn [row_cooldown_until]. by rewrite Hu.
Qed.

Lemma cooling_memory c : moves (stays (cooling until)) (set_memory c).
Proof. by intros [row mem turns] [Hc Ht]. Qed.

Lemma cooling_get_memory : moves (stays (cooling until)) get_memory.
Proof. unfold get_memory. frame. Qed.

Hint Resolve cooling_select cooling_ensure cooling_statement cooling_memory cooling_get_memory : frame.

Lemma cooling_load strict : moves (stays (cooling until)) (load_watchdog_runtime_state strict).
Proof. unfold load_watchdog_runtime_state. frame. Qed.

Hint Resolve cooling_load : frame.

Lemma cooling_update u : u_cooldown_until u = None -> moves (stays (cooling until)) (update_watchdog_runtime_state u).
Proof. intros Hu. unfold update_watchdog_runtime_state. frame. Qed.

Hint Extern 1 (u_cooldown_until _ = None) => reflexivity : frame.
Hint Resolve cooling_update : frame.

Lemma cooling_pending : moves (stays (cooling until)) get_recovery_pending.
Proof. unfold get_recovery_pending. frame. Qed.

Lemma cooling_set_pending d : moves (stays (cooling until)) (set_recovery_pending d).
Proof. unfold set_recovery_pending. frame. Qed.

Lemma cooling_reset : moves (stays (cooling until)) reset_traffic_failure_candidate.
Proof. unfold reset_traffic_failure_candidate, set_traffic_failure_candidate. frame. Qed.

Hint Resolve cooling_pending cooling_set_pending cooling_reset : frame.

Lemma cooling_effective st : moves (stays (cooling until)) (effective_candidate st).
Proof. unfold effective_candidate. frame. Qed.

Lemma cooling_store o c : moves (stays (cooling until)) (store_stalled o c).
Proof. unfold store_stalled. frame. Qed.

Hint Resolve cooling_effective cooling_store : frame.

Lemma cooling_confirmation f srv t c k now :
  moves (stays (cooling until)) (traffic_failure_confirmation f srv t c k now).
Proof. unfold traffic_failure_confirmation. frame. Qed.

Lemma cooling_status f now : moves (stays (cooling until)) (failover_cooldown_status f now).
Proof. unfold failover_cooldown_status. frame. Qed.

Hint Resolve cooling_confirmation cooling_status : frame.

(** *** The flow's steps *)

Lemma flow_watch {A} (m : M A) : moves (stays (cooling until)) m -> moves (stays (flow_cooling until)) (watch m).
Proof.
  intros Hm s Hc. specialize (Hm (f_watch s) Hc). unfold watch. by destruct (m (f_watch s)).
Qed.

Lemma flow_ask {A} a (answer : list action -> py A) : moves (stays (flow_cooling until)) (ask a answer).
Proof. by intros s Hc. Qed.

Lemma flow_ask_watch {A} a (answer : list action -> M A) :
  (forall asked, moves (stays (cooling until)) (answer asked)) -> moves (stays (flow_cooling until)) (ask_watch a answer).
Proof.
  intros Hm s Hc. specialize (Hm (a :: f_asked s) (f_watch s) Hc). unfold ask_watch.
  by destruct (answer (a :: f_asked s) (f_watch s)).
Qed.

Lemma flow_get_copy : moves (stays (flow_cooling until)) get_copy.
Proof. by intros s Hc. Qed.

Lemma flow_set_copy c : moves (stays (flow_cooling until)) (set_copy c).
Proof. by intros s Hc. Qed.

Hint Resolve flow_watch flow_ask flow_get_copy flow_set_copy : frame.

Lemma flow_set_traffic c : moves (stays (cooling until)) (set_traffic_failure_candidate c).
Proof. apply cooling_memory. Qed.

Lemma flow_get_traffic : moves (stays (cooling until)) get_traffic_failure_candidate.
Proof. apply cooling_get_memory. Qed.

Hint Resolve flow_set_traffic flow_get_traffic : frame.

Lemma flow_stall_confirmation a d : moves (stays (flow_cooling until)) (stall_confirmation a d).
Proof. unfold stall_confirmation, _watchdog_traffic_failure_confirmation, with_copy, _utc_now. frame. Qed.

Lemma flow_emit a c i ph o d l e : moves (stays (flow_cooling until)) (emit_recovery_transition a c i ph o d l e).
Proof. apply flow_ask. Qed.

Hint Resolve flow_stall_confirmation flow_emit : frame.

Lemma flow_attempt a d : moves (stays (flow_cooling until)) (attempt_of a d).
Proof. unfold attempt_of, uuid4_hex. frame. Qed.

Lemma flow_topology a : moves (stays (flow_cooling until)) (current_topology a).
Proof. unfold current_topology. frame. Qed.

Lemma flow_reselection a i m f : moves (stays (flow_cooling until)) (request_reselection a i m f).
Proof. unfold request_reselection, uuid4_hex. frame. Qed.

Lemma flow_fields a r f m : moves (stays (flow_cooling until)) (recovery_fields_of a r f m).
Proof. unfold recovery_fields_of. frame. Qed.

Lemma flow_transitions a c r i m f d : moves (stays (flow_cooling until)) (recovery_transitions a c r i m f d).
Proof. unfold recovery_transitions. frame. Qed.

Lemma flow_begin a d : moves (stays (flow_cooling until)) (begin_refresh a d).
Proof. unfold begin_refresh, uuid4_hex. frame. Qed.
End Cooling.

Hint Resolve flow_watch flow_ask flow_get_copy flow_set_copy flow_ask_watch flow_stall_confirmation flow_emit flow_attempt
  flow_topology flow_reselection flow_fields flow_transitions flow_begin cooling_pending cooling_set_pending
  cooling_reset cooling_status cooling_confirmation : frame.

(** ** A stalled run *)

(** One of the conditions that keep confirmed stalls from moving the traffic. *)
Inductive blocked (a : flow_args) (s : flow) : Prop :=
  | blocked_dry_run : allow_switch (a_options a) = false -> blocked a s
  | blocked_manual : a_selection_mode a = "manual" -> blocked a s
  | blocked_unsupported : truthy (dget "failover_supported" (a_runtime_state a)) = false -> blocked a s
  | blocked_health :
      (forall asked r, health_refreshed asked = Some (Some r) -> truthy (dget "ok" r) = false) -> blocked a s
  | blocked_cooldown until :
      _parse_timestamp (Some (isoformat until)) = Some until -> flow_cooling until s ->
      (forall asked, dt_ltb (clock asked) until = true) ->
      (forall asked, moves (stays (cooling until)) (provider_recovery asked)) -> blocked a s.

Lemma seen_reselection a i m f : preserves (seen is_switch) (request_reselection a i m f).
Proof. unfold request_reselection. frame. Qed.

Lemma seen_stall_failover a c r f i :
  allow_switch (a_options a) = false -> preserves (seen is_switch) (stall_failover a c r f i).
Proof.
  intros Ha. unfold stall_failover, controller_failover. rewrite Ha. frame.
Qed.

(** The cooldown a run in progress sees while it lasts. *)
Lemma cooling_active (f : option string -> option datetime) until now w status w' :
  f (Some (isoformat until)) = Some until -> cooling until w -> dt_ltb now until = true ->
  failover_cooldown_status f now w = (Some status, w') -> truthy (dget "active" status) = true.
Proof.
  intros Hp [Hrow Hturns] Hlt Hrun. destruct w as [row mem turns]. cbn [w_row w_turns] in *.
  unfold failover_cooldown_status in Hrun. rewrite bind_unfold in Hrun.
  unfold load_watchdog_runtime_state, st_try, db_access in Hrun. cbn [w_turns w_row w_memory] in Hrun.
  assert (Hstate : exists row' rest, cooling_row until row' /\
    (let '(t, rest) := match turns with [] => (quiet, []) | t :: ts => (t, ts) end in
     if t_ok t then (Some (row_state (t_others t row)), World (t_others t row) mem rest)
     else (None, World (t_others t row) mem rest)) = (Some (row_state row'), World row' mem rest)).
  { destruct turns as [|t ts]; [by exists row, []|]. apply Forall_cons in Hturns as [[Hok Hk] _]. rewrite Hok.
    exists (t_others t row), ts. auto. }
  destruct Hstate as (row' & rest & (r & -> & Hr) & E). rewrite E in Hrun. injection Hrun as <- _.
  unfold row_state, state_of_row. cbn [cooldown_until]. rewrite Hr. change (default "" (Some ?x)) with x. rewrite Hp.
  cbn [dget dict_lookup String.eqb]. cbv zeta. by rewrite Hlt.
Qed.

Lemma cooldown_seen until s status s' :
  _parse_timestamp (Some (isoformat until)) = Some until -> flow_cooling until s ->
  (forall asked, dt_ltb (clock asked) until = true) ->
  _watchdog_failover_cooldown_status s = (Some status, s') -> truthy (dget "active" status) = true.
Proof.
  intros Hp Hc Hclock Hrun. apply bind_inv in Hrun as (now & s1 & Hnow & Hrun). injection Hnow as <- <-.
  unfold watch in Hrun. cbn [f_watch] in Hrun.
  destruct (failover_cooldown_status _ _ (f_watch s)) as [o w] eqn:E. injection Hrun as -> _.
  exact (cooling_active _ until _ _ _ _ Hp Hc (Hclock _) E).
Qed.

(** What a switch from [s] on needs, read off the run. *)
Definition unblocked (a : flow_args) (s : flow) : Prop :=
  allow_switch (a_options a) = true /\
  (exists asked r, health_refreshed asked = Some (Some r) /\ truthy (dget "ok" r) = true) /\
  forall until, _parse_timestamp (Some (isoformat until)) = Some until -> flow_cooling until s ->
    (forall asked, dt_ltb (clock asked) until = true) -> False.

(** A step that keeps the cooldown passes the need back. *)
Lemma unblocked_back a s s1 : (forall until, stays (flow_cooling until) s s1) -> unblocked a s1 -> unblocked a s.
Proof. intros Hs (Ha & Hh & Hc). split; [done|]. split; [done|]. intros u Hp Hcool. exact (Hc u Hp (Hs u Hcool)). Qed.

(** Go past the next step of a switching run whose state is [s]. *)
Ltac step H s :=
  let x := fresh "x" in let s1 := fresh "s" in let E := fresh "E" in
  apply switching_bind in H as (x & s1 & E & H); [|solve [frame]];
  apply (unblocked_back _ s s1); [intros u; refine (moves_run _ _ _ _ _ _ E); solve [frame]|]; clear E.

Lemma refresh_switching a c r pend i s : switching (refresh_and_failover a c r pend i) s -> unblocked a s.
Proof.
  intros Hs. unfold refresh_and_failover in Hs. step Hs s.
  apply switching_bind in Hs as (refreshed & s1 & E & Hs); [|solve [frame]].
  apply (unblocked_back _ s0 s1); [intros u; exact (moves_run _ _ _ _ _ (flow_ask u _ _) E)|].
  injection E as E _. set (asked := _ :: f_asked s0) in E. clearbody asked. cbv zeta in Hs. step Hs s1.
  destruct (truthy (dget "ok" (default [] refreshed))) eqn:Hok; cbn [negb] in Hs;
    [|exfalso; apply (not_switching _ _ Hs); solve [frame]].
  step Hs s2. step Hs s3. apply switching_bind in Hs as (cooldown & s5 & E5 & Hs); [|solve [frame]].
  destruct (allow_switch (a_options a)) eqn:Ha.
  - destruct (truthy (dget "active" cooldown)) eqn:Hact; cbn [andb] in Hs;
      [exfalso; apply (not_switching _ _ Hs); solve [frame]|].
    split; [done|]. split.
    + destruct refreshed as [d|]; [|done]. by exists asked, d.
    + intros u Hp Hc Hclock. by rewrite (cooldown_seen _ _ _ _ Hp Hc Hclock E5) in Hact.
  - exfalso. apply (not_switching _ _ Hs). by apply seen_stall_failover.
Qed.

Lemma recovery_switching a c d s : switching (stall_recovery a c d) s -> unblocked a s.
Proof.
  intros Hs. unfold stall_recovery in Hs. step Hs s. step Hs s0. step Hs s1. cbv zeta in Hs.
  case_match; [exfalso; apply (not_switching _ _ Hs); solve [frame]|].
  step Hs s2. step Hs s3.
  apply switching_bind in Hs as (req & s5 & E & Hs); [|solve [frame; apply seen_reselection]].
  apply (unblocked_back _ s4 s5); [intros u; refine (moves_run _ _ _ _ _ _ E); solve [frame]|]. destruct req as [generation reselection].
  step Hs s5. step Hs s6. step Hs s7.
  case_match; [exfalso; apply (not_switching _ _ Hs); solve [frame]|].
  case_match; [exfalso; apply (not_switching _ _ Hs); solve [frame]|].
  exact (refresh_switching _ _ _ _ _ _ Hs).
Qed.

Lemma stall_quiet a s :
  blocked a s -> switches (handle_stalled_traffic_auto_flow a s).2 = switches s.
Proof.
  intros Hb. destruct (decide (switches (handle_stalled_traffic_auto_flow a s).2 = switches s)) as [|Hs]; [done|].
  exfalso. change (switching (handle_stalled_traffic_auto_flow a) s) in Hs. unfold handle_stalled_traffic_auto_flow in Hs.
  apply switching_bind in Hs as (d & s1 & E1 & Hs); [|solve [frame]].
  apply switching_bind in Hs as (c & s2 & E2 & Hs); [|solve [frame]].
  case_match; [apply (not_switching _ _ Hs); solve [frame]|].
  apply switching_bind in Hs as (r & s3 & E3 & Hs); [|solve [frame]].
  destruct r as [r|]; [apply (not_switching _ _ Hs); solve [frame]|].
  destruct (String.eqb_spec (a_selection_mode a) "manual") as [|Hm]; [apply (not_switching _ _ Hs); solve [frame]|].
  destruct (truthy (dget "failover_supported" (a_runtime_state a))) eqn:Hf; cbn [negb] in Hs;
    [|apply (not_switching _ _ Hs); solve [frame]].
  destruct (recovery_switching _ _ _ _ Hs) as (Ha & (asked & h & Eh & Hok) & Hcool).
  destruct Hb as [Hb|Hb|Hb|Hb|u Hp Hc Hclock Hprov]; [congruence..| |].
  - specialize (Hb _ _ Eh). congruence.
  - apply (Hcool u Hp); [|exact Hclock]. refine (moves_run _ _ _ _ _ (flow_ask_watch u _ _ Hprov) E3 _).
    refine (moves_run _ _ _ _ _ (flow_stall_confirmation u _ _) E2 _).
    exact (moves_run _ _ _ _ _ (flow_watch u _ (cooling_pending u)) E1 Hc).
Qed.

(** C16: a confirmed stall moves the traffic only when nothing forbids it.
    A run of the stalled flow asks for no switch when switching is not
    allowed, when the selection is manual, when the runtime supports no
    failover or when no health refresh succeeds, whatever the runtime, the
    database and the other processes answer; nor while the durable cooldown
    of an earlier failover lasts, provided that no access to the database
    fails and that neither another process nor the recovery of the provider
    changes the cooldown. (The code takes a read of the row that fails for a
    row without a cooldown, so that proviso cannot be left out.) *)
Theorem stall_blocked_never_switches a s :
  blocked a s -> switches (handle_stalled_traffic_auto_flow a s).2 = switches s.
Proof. exact (stall_quiet a s). Qed.

(** ** The check of the active server *)

Lemma seen_controller_failover c o : allow_switch o = false -> preserves (seen is_switch) (controller_failover c o).
Proof. intros Ha. unfold controller_failover. rewrite Ha. frame. Qed.

Lemma seen_controller_select c apply o : apply = false -> preserves (seen is_switch) (controller_initial_select c apply o).
Proof. intros ->. unfold controller_initial_select. frame. Qed.

(** A switch of the check is allowed, and needs traffic unless no server is active. *)
Lemma check_switching observed o l e s :
  switching (run_vpn_watchdog_check observed o l e) s ->
  allow_switch o = true /\
  exists asked state, controller_state asked = Some state /\ truthy (dget "ready" state) = true /\
    (observed = true \/ text_or_none (dget "active_target_id" state) = None).
Proof.
  intros Hs. unfold run_vpn_watchdog_check in Hs.
  do 4 (apply switching_bind in Hs as (? & ? & ? & Hs); [|solve [frame]]).
  apply switching_bind in Hs as (state & s5 & E & Hs); [|solve [frame]].
  unfold get_state, ask in E. injection E as E _. cbv zeta in Hs.
  destruct (truthy (dget "ready" state)) eqn:Hr; cbn [negb] in Hs; [|exfalso; apply (not_switching _ _ Hs); solve [frame]].
  case_match; [exfalso; apply (not_switching _ _ Hs); solve [frame]|].
  destruct (text_or_none (dget "active_target_id" state)) as [active|] eqn:Hactive; cbn [is_set andb] in Hs.
  - destruct observed; cbn [negb] in Hs; [|exfalso; apply (not_switching _ _ Hs); solve [frame]].
    split; [|eauto 6]. destruct (allow_switch o) eqn:Ha; [done|]. exfalso. apply (not_switching _ _ Hs).
    unfold check_and_failover. cbn [k_options]. pose proof seen_controller_failover as Hf. frame.
  - split; [|eauto 6]. destruct (allow_switch o) eqn:Ha; [done|]. exfalso. apply (not_switching _ _ Hs).
    unfold first_selection. cbn [k_options]. rewrite Ha. frame. by apply seen_controller_select.
Qed.

(** ** The automatic check *)

Lemma observed_switching a s :
  switching (traffic_flow a) s ->
  let signal := a_traffic_signal a in
  truthy (dget "response_observed" signal) = false /\ allow_switch (a_options a) = true /\
  (truthy (dget "traffic_stalled" signal) = true \/ truthy (dget "observed" signal) = true \/ wants_probe a = false).
Proof.
  intros Hs signal. unfold traffic_flow in Hs. apply switching_bind in Hs as (d & s1 & E & Hs); [|solve [frame]].
  destruct (if attempt_answered a d then d else None) as [q|]; [exfalso; apply (not_switching _ _ Hs); solve [frame]|].
  cbv zeta in Hs. fold signal in Hs. destruct (negb _ && _) eqn:Eidle in Hs.
  { exfalso. apply (not_switching _ _ Hs). unfold idle_check. frame. apply quiet_response; [apply switch_kind|by left]. }
  destruct (truthy (dget "response_observed" signal)) eqn:Er.
  { exfalso. apply (not_switching _ _ Hs). apply quiet_response; [apply switch_kind|by right]. }
  split; [done|]. destruct (truthy (dget "traffic_stalled" signal)) eqn:Est.
  - split; [|by left]. destruct (allow_switch (a_options a)) eqn:Ha; [done|]. exfalso. apply Hs.
    by apply stall_quiet, blocked_dry_run.
  - unfold remaining_check in Hs. apply switching_bind in Hs as (b & s2 & _ & Hs); [|solve [frame]].
    apply switching_step in Hs; [|intros r; solve [frame]].
    destruct (check_switching _ _ _ _ _ Hs) as [Ha _]. split; [done|]. right.
    destruct (truthy (dget "observed" signal)); [by left|]. by right.
Qed.

(** Traffic is the only trigger of a recovery.  When the counters show
    that the traffic is answered, or when there is none and the active
    server is only probed, the run asks the runtime for no recovery of any
    kind, however bad the probe of the active server is: no failover, no
    selection, no other member, no health refresh, no provider recovery. *)
Theorem answered_traffic_never_recovers a s :
  let signal := a_traffic_signal a in
  truthy (dget "response_observed" signal) = true \/ (truthy (dget "observed" signal) = false /\ wants_probe a = true) ->
  seen is_recovery (traffic_flow a s).2 = seen is_recovery s.
Proof.
  intros signal Ht. assert (Hq : preserves (seen is_recovery) (traffic_flow a)); [|apply Hq].
  unfold traffic_flow, idle_check. fold signal. apply moves_bind; [apply _|solve [frame]|]. intros d.
  destruct (if attempt_answered a d then d else None); [solve [frame]|]. cbv zeta.
  destruct (negb _ && _) eqn:Eidle.
  - frame. apply quiet_response; [done|by left].
  - destruct (truthy (dget "response_observed" signal)) eqn:Er; [apply quiet_response; [done|by right]|].
    exfalso. destruct Ht as [Ht|[Ho Hw]]; [done|]. by rewrite Ho, Hw in Eidle.
Qed.

(** What has to be true of the answers given to a run that switches: the
    module is enabled, the core is not bypassed, something is to go through
    the VPN, no emergency holds, and the runtime has converged. *)
Definition run_guards (s : flow) : Prop :=
  let asked1 := LoadModule :: f_asked s in
  let asked2 := LoadRouting :: asked1 in
  let asked3 := AskBypass :: asked2 in
  let asked4 := AskScopedSubjects :: asked3 in
  exists module routing scoped convergence,
    watchdog_module asked1 = Some (Some module) /\ dget "desired_state" module = VStr "enabled" /\
    routing_state asked2 = Some routing /\
    bypass_enabled asked3 = Some false /\
    scoped_subjects asked4 = Some scoped /\ (scoped = true \/ routing_mode routing ∈ ["vpn"; "selective"]) /\
    (forall pending, (get_recovery_pending (f_watch s)).1 = Some pending -> emergency_override in_reentry pending = None) /\
    convergence_status (AskConvergence (routing_mode routing) scoped :: asked4) = Some convergence /\
    truthy (dget "ok" convergence) = true.

(** The runtime is ready, and either it has no valid server yet or fresh
    counters show traffic that is not answered. *)
Definition runtime_guards (window : option Z) (a : flow_args) : Prop :=
  (exists asked, controller_state asked = Some (a_runtime_state a)) /\ truthy (dget "ready" (a_runtime_state a)) = true /\
  (needs_initial_select a = true \/
   exists asked now1 now2 signal,
     detect_recent_vpn_traffic_attempts decision_digest (counter_rows asked) window watchdog_traffic_window_seconds
       watchdog_signal_correlation_seconds now1 now2 = Some signal /\
     ts_fresh signal = true /\ ts_response_observed signal = false /\
     (ts_traffic_stalled signal = true \/ ts_observed signal = true \/ wants_probe a = false)).

Lemma runtime_args_inv adapter routing convergence o s a s' :
  runtime_args adapter routing convergence o s = (Some a, s') ->
  a_options a = o /\ exists asked, controller_state asked = Some (a_runtime_state a).
Proof.
  intros Hr. unfold runtime_args in Hr. apply bind_inv in Hr as (c & s1 & _ & Hr). apply bind_inv in Hr as (u & s2 & _ & Hr).
  apply bind_inv in Hr as (state & s3 & E & Hr). cbv zeta in Hr. apply bind_inv in Hr as (cool & s4 & _ & Hr).
  apply bind_inv in Hr as (fields & s5 & _ & Hr). apply ret_inv in Hr as [<- _]. split; [done|]. cbn [a_runtime_state].
  unfold get_state, ask in E. injection E as E _. by eexists.
Qed.

Lemma signal_inv window s d s' :
  _detect_recent_vpn_traffic_attempts window s = (Some d, s') ->
  exists asked now1 now2 signal,
    detect_recent_vpn_traffic_attempts decision_digest (counter_rows asked) window watchdog_traffic_window_seconds
      watchdog_signal_correlation_seconds now1 now2 = Some signal /\ d = signal_dict signal.
Proof.
  intros Hr. unfold _detect_recent_vpn_traffic_attempts in Hr. apply bind_inv in Hr as (now1 & s1 & _ & Hr).
  apply bind_inv in Hr as (rows & s2 & E & Hr). unfold ask in E. injection E as <- _.
  apply bind_inv in Hr as (now2 & s3 & _ & Hr). apply bind_inv in Hr as (signal & s4 & E & Hr). apply ret_inv in Hr as [<- _].
  rewrite st_py_eq in E. injection E as E _. by eexists _, now1, now2, signal.
Qed.

Lemma converged_switching routing convergence window o s :
  switching (converged_check routing convergence window o) s -> allow_switch o = true /\ exists a, runtime_guards window a.
Proof.
  intros Hs. unfold converged_check in Hs. apply switching_bind in Hs as (adapter & s1 & _ & Hs); [|solve [frame]].
  apply switching_bind in Hs as (a & s2 & Ea & Hs); [|solve [frame]].
  apply runtime_args_inv in Ea as [Ho Hstate].
  destruct (truthy (dget "ready" (a_runtime_state a))) eqn:Hr; cbn [negb] in Hs;
    [|exfalso; apply (not_switching _ _ Hs); solve [frame]].
  destruct (needs_initial_select a) eqn:Hi.
  { split; [|exists a; unfold runtime_guards; auto]. unfold initial_selection in Hs. rewrite Ho in Hs.
    destruct (allow_switch o); [done|]. exfalso. apply (not_switching _ _ Hs). solve [frame]. }
  apply switching_bind in Hs as (d & s3 & Ed & Hs); [|solve [frame]]. apply signal_inv in Ed as (asked & n1 & n2 & signal & Es & ->).
  cbv zeta in Hs. destruct (truthy (dget "authoritative" (signal_dict signal))) eqn:Hf; cbn [negb] in Hs;
    [|exfalso; apply (not_switching _ _ Hs); solve [frame]].
  apply observed_switching in Hs as (Hresp & Ha & Hw). rewrite <- Ho. split; [exact Ha|]. exists a.
  split; [done|]. split; [done|]. right. exists asked, n1, n2, signal. split; [done|].
  cbn in Hf, Hresp, Hw. done.
Qed.

(** Without an emergency the pending recovery is none that forces the traffic out directly. *)
Lemma emergency_inv s s' : emergency_override_now s = (Some None, s') ->
  f_asked s' = f_asked s /\
  forall pending, (get_recovery_pending (f_watch s)).1 = Some pending -> emergency_override in_reentry pending = None.
Proof.
  unfold emergency_override_now. destruct in_reentry; [by intros [= <-]|]. intros Hr.
  apply bind_inv in Hr as (pending & s1 & E & Hr). apply ret_inv in Hr as [He <-]. unfold watch in E.
  destruct (get_recovery_pending (f_watch s)) as [r w]. injection E as -> <-. split; [done|]. by intros p' [= <-].
Qed.

End Switching.
