(* ===== verification/WatchdogFlowLimits.v ===== *)
(** * Limits of the watchdog's flows

    One switch a run, one applied failover a cooldown, and the check of the
    active server, which knows neither. *)
From stdpp Require Import base list strings pretty.
From Stdlib Require Import ZArith Lia Ascii.
From S2P Require Import Prelude PyStr PyVal PyState PyTime WatchdogState WatchdogFailure WatchdogFacts WatchdogLiveness WatchdogSignal SubjectPolicy WatchdogDeps WatchdogStallFlow WatchdogQualityFlow WatchdogManualFlow WatchdogAutoFlow WatchdogRequests WatchdogFlowFacts.

Open Scope string_scope.
Open Scope Z_scope.
Open Scope list_scope.

Section Limits.
Context `{ReprContainer} `{WatchdogSettings} `{Outside}.

(** ** One switch a run *)

Lemma ask_at_most {A} a (answer : list action -> py A) : at_most switches 1 (ask a answer).
Proof. intros s. unfold ask, switches, seen. cbn. destruct (is_switch a); cbn; lia. Qed.

Lemma failover_at_most c o : at_most switches 1 (controller_failover c o).
Proof. apply at_most_bind; [apply quiet_switches; frame|]. intros g. apply ask_at_most. Qed.

Lemma select_at_most c apply o : at_most switches 1 (controller_initial_select c apply o).
Proof. apply at_most_bind; [apply quiet_switches; frame|]. intros g. apply ask_at_most. Qed.

Hint Resolve failover_at_most select_at_most : budget.

(** Walk through a flow with one switch to spend. *)
Ltac budget := spend ltac:(solve [apply quiet_switches; frame]).

Lemma stall_failover_at_most a c r f i : at_most switches 1 (stall_failover a c r f i).
Proof. unfold stall_failover. budget. Qed.
Hint Resolve stall_failover_at_most : budget.

Lemma refresh_at_most a c r d i : at_most switches 1 (refresh_and_failover a c r d i).
Proof. unfold refresh_and_failover. budget. Qed.
Hint Resolve refresh_at_most : budget.

Lemma recovery_at_most a c d : at_most switches 1 (stall_recovery a c d).
Proof. unfold stall_recovery. pose proof seen_reselection. budget. Qed.
Hint Resolve recovery_at_most : budget.

Lemma stalled_at_most a : at_most switches 1 (handle_stalled_traffic_auto_flow a).
Proof. unfold handle_stalled_traffic_auto_flow. budget. Qed.

Lemma quality_at_most a i : at_most switches 1 (handle_response_traffic_auto_flow a i).
Proof.
  unfold handle_response_traffic_auto_flow, degraded_flow, quality_failover. budget.
Qed.

Lemma check_at_most observed o l e : at_most switches 1 (run_vpn_watchdog_check observed o l e).
Proof. unfold run_vpn_watchdog_check, check_and_failover, first_selection. budget. Qed.
Hint Resolve stalled_at_most quality_at_most check_at_most : budget.

Lemma traffic_at_most a : at_most switches 1 (traffic_flow a).
Proof. unfold traffic_flow, idle_check, remaining_check. budget. Qed.
Hint Resolve traffic_at_most : budget.

(** One run of the automatic check asks the runtime to switch at most
    once, whichever flow it ends in and however it ends. *)
Theorem one_switch_per_run window o s : (switches (run_vpn_watchdog_auto_check window o s).2 <= 1 + switches s)%nat.
Proof.
  assert (Hm : at_most switches 1 (run_vpn_watchdog_auto_check window o)); [|apply Hm].
  unfold run_vpn_watchdog_auto_check, enabled_check, emergency_check, converged_check, initial_selection. budget.
Qed.

(** ** One applied failover a cooldown *)

Lemma recorded_cooling path previous selected now until w r w' :
  w_turns w = [] -> dt_add_seconds now (Z.max 30 (int_or watchdog_failover_cooldown_seconds 300)) = Some until ->
  record_successful_failover path previous selected watchdog_failover_cooldown_seconds now w = (Some r, w') ->
  cooling until w'.
Proof.
  intros Hq Hu Hrun. destruct w as [row mem turns]. cbn [w_turns] in Hq. subst turns.
  unfold record_successful_failover in Hrun. rewrite (bind_step _ _ _ until (World row mem [])) in Hrun
    by (unfold st_py; by rewrite Hu).
  rewrite quiet_update in Hrun by done. cbv zeta in Hrun.
  cbn [where_holds u_expected_failure_candidate u_expected_path_key u_expected_last_processed_decision_id andb] in Hrun.
  injection Hrun as _ <-. split; [by eexists|by apply Forall_nil].
Qed.

(** No other process takes a turn, and no access fails. *)
Definition alone (w : world) : Prop := w_turns w = [].

Lemma alone_access {A} (f : string -> option wd_row -> A * option wd_row) : moves (stays alone) (db_access f).
Proof. intros [row mem turns] Hq. unfold alone in Hq. cbn [w_turns] in Hq. subst turns. by rewrite quiet_access. Qed.
Hint Resolve alone_access : frame.

Lemma alone_set_pending d : moves (stays alone) (set_recovery_pending d).
Proof.
  unfold set_recovery_pending, update_watchdog_runtime_state, load_watchdog_runtime_state, ensure_watchdog_runtime_state_row.
  frame.
Qed.

Lemma watch_ask {A} a (answer : list action -> py A) : preserves f_watch (ask a answer).
Proof. done. Qed.
Hint Resolve watch_ask : frame.

Lemma watch_inv {A} (m : M A) s r s' :
  watch m s = (r, s') -> exists w, m (f_watch s) = (r, w) /\ f_watch s' = w.
Proof. unfold watch. destruct (m (f_watch s)) as [o w]. intros [= <- <-]. by exists w. Qed.

(** The cooldown is recorded when the runtime applied the failover. *)
Lemma done_cooling a c r failover h i s res s' :
  failover_done a c r failover h i s = (Some res, s') -> alone (f_watch s) ->
  allow_switch (a_options a) = true -> truthy (dget "applied" failover) = true -> failover_noop failover = false ->
  exists asked until, dt_add_seconds (clock asked) (Z.max 30 (int_or watchdog_failover_cooldown_seconds 300)) = Some until /\
    flow_cooling until s'.
Proof.
  intros Hrun Hq Ha Happ Hn. unfold failover_done in Hrun. apply bind_inv in Hrun as (u & s1 & E1 & Hrun).
  apply watch_inv in E1 as (w1 & E1 & Hw1). pose proof (moves_run _ _ _ _ _ (alone_set_pending None) E1 Hq) as Hq1.
  apply bind_inv in Hrun as (state & s2 & E2 & Hrun). unfold record_applied in E2. rewrite Ha, Happ, Hn in E2. cbn [andb negb] in E2.
  apply bind_inv in E2 as (now & s3 & E3 & E2). injection E3 as <- <-. apply bind_inv in E2 as (st & s4 & E4 & E2).
  apply ret_inv in E2 as [_ ->]. apply watch_inv in E4 as (w4 & E4 & Hw4). cbn [f_watch] in E4.
  assert (Hu : is_Some (dt_add_seconds (clock (ReadClock :: f_asked s1)) (Z.max 30 (int_or watchdog_failover_cooldown_seconds 300)))).
  { unfold record_successful_failover in E4. rewrite bind_unfold, st_py_eq in E4. by destruct (dt_add_seconds _ _). }
  destruct Hu as [until Hu]. exists (ReadClock :: f_asked s1), until. split; [exact Hu|].
  assert (Hw : f_watch s' = f_watch s2).
  { refine (moves_run (same f_watch) _ _ _ _ _ Hrun). cbv zeta. unfold _update_watchdog_module, failover_runtime, _write_watchdog_decision_log. frame. }
  unfold flow_cooling. rewrite Hw, Hw4. refine (recorded_cooling _ _ _ _ _ _ _ _ _ Hu E4). by rewrite Hw1.
Qed.

(** Applied failovers are apart by the cooldown.  When the runtime
    applied the failover a stalled run asked for, and the run ends while no
    other process interferes, no stalled run that starts from the durable
    state it leaves asks for another one before
    [max 30 watchdog_failover_cooldown_seconds] seconds have passed. *)
Theorem failovers_are_spaced a c r h i s res s' :
  let asked := Failover (a_controller a) (f_fence s) (allow_switch (a_options a)) (a_options a) :: f_asked s in
  stall_failover a c r h i s = (Some res, s') -> alone (f_watch s) ->
  (exists failover, failed_over asked = Some failover /\ allow_switch (a_options a) = true /\
     truthy (dget "deferred" failover) = false /\ truthy (dget "ok" failover) = true /\
     truthy (dget "applied" failover) = true /\ failover_noop failover = false) ->
  exists asked2 until,
    dt_add_seconds (clock asked2) (Z.max 30 (int_or watchdog_failover_cooldown_seconds 300)) = Some until /\
    forall later s2, _parse_timestamp (Some (isoformat until)) = Some until -> f_watch s2 = f_watch s' ->
      (forall asked, dt_ltb (clock asked) until = true) ->
      (forall asked, moves (stays (cooling until)) (provider_recovery asked)) ->
      switches (handle_stalled_traffic_auto_flow later s2).2 = switches s2.
Proof.
  intros asked Hrun Hq (failover & Ef & Ha & Hd & Hok & Happ & Hn). unfold stall_failover in Hrun.
  apply bind_inv in Hrun as (answer & s1 & E1 & Hrun). unfold controller_failover in E1.
  apply bind_inv in E1 as (bound & s0 & E0 & E1). injection E0 as <- <-. injection E1 as E1 <-.
  fold asked in E1. rewrite Ef in E1. injection E1 as <-. cbv zeta in Hrun. rewrite Hd in Hrun.
  apply bind_inv in Hrun as (u & s2 & E2 & Hrun). apply bind_inv in Hrun as (ok & s3 & E3 & Hrun).
  rewrite st_py_eq in E3. injection E3 as E3 <-. unfold dget in Hok. rewrite E3 in Hok. change (truthy ok = true) in Hok. rewrite Hok in Hrun.
  apply done_cooling in Hrun as (asked2 & until & Hu & Hc); [|by injection E2 as _ <-|done..].
  exists asked2, until. split; [exact Hu|]. intros later s4 Hp Hw Hclock Hprov. apply stall_quiet.
  apply (blocked_cooldown _ _ until); [done| |done..]. unfold flow_cooling in *. by rewrite Hw.
Qed.

(** ** The check of the active server knows no cooldown *)

(** The computation neither reads nor writes the durable state: on another
    one it answers the same, asks the same and leaves that one as it is. *)
Definition blind {A} (m : F A) : Prop := forall w w' c g h,
  let '(r, s) := m (Flow w c g h) in
  s = Flow w (f_copy s) (f_fence s) (f_asked s) /\ m (Flow w' c g h) = (r, Flow w' (f_copy s) (f_fence s) (f_asked s)).

Lemma blind_ret {A} (x : A) : blind (mret x).
Proof. by intros w w' c g h. Qed.

Lemma blind_py {A} (o : py A) : blind (st_py o).
Proof. by intros w w' c g h. Qed.

Lemma blind_ask {A} a (answer : list action -> py A) : blind (ask a answer).
Proof. by intros w w' c g h. Qed.

Lemma blind_fence : blind get_fence.
Proof. by intros w w' c g h. Qed.

Lemma blind_set_fence f : blind (set_fence f).
Proof. by intros w w' c g h. Qed.

Lemma blind_bind {A B} (m : F A) (k : A -> F B) : blind m -> (forall x, blind (k x)) -> blind (m ≫= k).
Proof.
  intros Hm Hk w w' c g h. rewrite !bind_unfold. specialize (Hm w w' c g h). destruct (m (Flow w c g h)) as [[x|] s1].
  - destruct Hm as [Es ->]. specialize (Hk x w w' (f_copy s1) (f_fence s1) (f_asked s1)). rewrite <- Es in Hk. exact Hk.
  - destruct Hm as [Es ->]. by split.
Qed.

Hint Resolve blind_ret blind_py blind_ask blind_fence blind_set_fence : frame.

Ltac unseen :=
  cbv zeta;
  repeat first
    [ solve [auto with frame nocore]
    | match goal with |- blind (mbind _ _) => apply blind_bind; [|intros ?] end
    | match goal with |- blind (if ?b then _ else _) => destruct b eqn:? end
    | match goal with |- blind (match ?b with _ => _ end) => destruct b eqn:? end
    | progress cbv zeta ].

Lemma blind_log l t v r : blind (log_event l t v r).
Proof. unfold log_event, _write_watchdog_operational_event. unseen. Qed.

Lemma blind_runtime k d : blind (runtime_after k d).
Proof. unfold runtime_after. unseen. Qed.

Lemma blind_failover c o : blind (controller_failover c o).
Proof. unfold controller_failover. unseen. Qed.

Lemma blind_select c apply o : blind (controller_initial_select c apply o).
Proof. unfold controller_initial_select. unseen. Qed.

Lemma blind_server c k : blind (server_check c k).
Proof. unfold server_check. unseen. Qed.

Hint Resolve blind_log blind_runtime blind_failover blind_select blind_server : frame.

(** The check of the active server takes no part in the watchdog's
    discipline.  It answers and asks the same whatever confirmations, pending
    recovery and cooldown the watchdog has recorded, and records none: an
    automatic run that ends in it neither waits for a confirmation, nor
    respects a cooldown, nor starts one. *)
Theorem check_ignores_watchdog_state observed o log_events expected w w' copy fence asked :
  let '(r, s) := run_vpn_watchdog_check observed o log_events expected (Flow w copy fence asked) in
  f_watch s = w /\
  run_vpn_watchdog_check observed o log_events expected (Flow w' copy fence asked)
    = (r, Flow w' (f_copy s) (f_fence s) (f_asked s)).
Proof.
  assert (Hb : blind (run_vpn_watchdog_check observed o log_events expected)).
  { unfold run_vpn_watchdog_check, get_vpn_runtime_controller, bind_fence, get_state, external_runtime, idle_result,
      check_and_failover, first_selection, healthy_check, check_failed_over, check_no_candidate. unseen. }
  specialize (Hb w w' copy fence asked). destruct (run_vpn_watchdog_check _ _ _ _ _) as [r s]. destruct Hb as [Es E].
  split; [by rewrite Es|exact E].
Qed.
End Limits.
