(* ===== verification/WatchdogFlowSample.v ===== *)
(** * Runs of the watchdog on a sample installation

    A managed runtime with one active server, quiet processes, and the runs
    that show the theorems on the flows apply. *)
From stdpp Require Import base list strings pretty.
From Stdlib Require Import ZArith Lia Ascii.
From S2P Require Import Prelude PyStr PyVal PyState PyTime WatchdogState WatchdogFailure WatchdogSignal SubjectPolicy WatchdogDeps WatchdogStallFlow WatchdogQualityFlow WatchdogManualFlow WatchdogAutoFlow WatchdogRequests WatchdogFlowFacts WatchdogFlowLimits.

Open Scope string_scope.
Open Scope Z_scope.
Open Scope list_scope.

#[local] Instance plain_repr : ReprContainer := fun _ => "...".

#[local] Instance sample_settings : WatchdogSettings := {|
  watchdog_traffic_window_seconds := 300;
  watchdog_signal_correlation_seconds := 30;
  watchdog_traffic_failure_confirm_seconds := 60;
  watchdog_active_quality_max_latency_ms := 1500;
  watchdog_active_quality_confirm_seconds := 120;
  watchdog_active_quality_bad_checks := 3;
  watchdog_active_quality_window_checks := 4;
  watchdog_active_quality_window_bad_checks := 3;
  watchdog_suspicious_interval_seconds := 15;
  watchdog_active_quality_recovery_checks := 2;
  watchdog_idle_probe_interval_seconds := 600;
  watchdog_failover_cooldown_seconds := 300;
|}.

(** 2026-01-02T12:00:00+00:00. *)
Definition noon : datetime := Datetime 1767355200000000 0.
Definition before (seconds : Z) : datetime := Datetime (dt_us noon - seconds * 1000000) 0.

(** A counter of the dataplane, read ten seconds before noon. *)
Definition counter (rx tx : Z) : snapshot :=
  Snapshot (Some "fwrouter:xray:vpn") None "vpn" (isoformat (before 10))
    (CJson (VDict [("source", VStr "nftables"); ("watchdog_signal", VStr "dataplane"); ("rx_delta", VInt rx);
                   ("tx_delta", VInt tx); ("activity_observed", VBool true)])).

(** The runtime of the sample: its selection mode, and what the counters and the probe say. *)
Record runtime_sample := RuntimeSample { rs_mode : string; rs_counters : list snapshot; rs_probe : bool }.

Definition managed_state (r : runtime_sample) : dict :=
  [("path_key", VStr "mihomo:auto"); ("ready", VBool true); ("selection_mode", VStr (rs_mode r));
   ("active_target_id", VStr "srv-a"); ("active_target_valid", VBool true); ("failover_supported", VBool true);
   ("initial_select_supported", VBool true); ("probe_supported", VBool true)].

Definition applied_failover : dict :=
  [("ok", VBool true); ("applied", VBool true); ("action", VStr "switch_vpn_auto"); ("noop", VBool false);
   ("previous_target_id", VStr "srv-a"); ("selected_target_id", VStr "srv-b")].

Definition sample_outside (r : runtime_sample) : Outside := {|
  watchdog_module _ := Some (Some [("desired_state", VStr "enabled"); ("runtime_state", VStr "running")]);
  routing_state _ := Some (Some [("desired_mode", VStr "vpn"); ("active_auto_server_id", VStr "srv-a")]);
  bypass_enabled _ := Some false;
  scoped_subjects _ := Some false;
  convergence_status _ := Some [("ok", VBool true)];
  dataplane_adapter _ := [("adapter_id", VStr "mihomo"); ("ready", VBool true)];
  updated_module _ := Some (Some [("desired_state", VStr "enabled")]);
  logged _ := Some tt;
  clock _ := noon;
  uuid_hex asked := "uuid-" +:+ pretty (length asked);
  counter_rows _ := rs_counters r;
  decision_digest _ := "decision-now";
  recent_check _ := Some None;
  topology _ := Some (Some [("active_member_id", VStr "m1");
                            ("members", VList [VDict [("member_id", VStr "m1"); ("runtime_name", VStr "proxy-1")]])]);
  captured_fence _ := Some (Some (Fence (VInt 7) (VStr "srv-a") VNone VNone));
  controller_state _ := Some (managed_state r);
  probed _ := Some (Some [("ok", VBool (rs_probe r)); ("status", VStr "timeout")]);
  refreshed _ := Some [("ok", VBool false)];
  reselected _ := Some (Some [("ok", VBool true); ("supported", VBool true)]);
  health_refreshed _ := Some (Some [("ok", VBool true)]);
  failed_over _ := Some applied_failover;
  initially_selected _ := Some [("ok", VBool false)];
  provider_recovery _ := mret None;
  verified_reentry _ := mret [];
  in_reentry := false;
|}.

(** The automatic check with its usual arguments. *)
Definition usual (allow : bool) : options := Options allow true 10000 4 "auto_watchdog_check".

Definition check_auto (r : runtime_sample) (allow : bool) (s : flow) : option dict * flow :=
  @run_vpn_watchdog_auto_check plain_repr sample_settings (sample_outside r) None (usual allow) s.

(** The row of the durable state with a candidate and a cooldown. *)
Definition row_with (candidate : option dict) (cooldown : option string) : wd_row :=
  WdRow (Some "mihomo:auto") (_json_dumps_dict candidate) None None None None None cooldown None None None None.

Definition flow_with (candidate : option dict) (cooldown : option string) : flow :=
  Flow (World (Some (row_with candidate cooldown)) None []) None no_fence [].

(** An attempt that asked for another member because of an earlier observation. *)
Definition verifying : dict :=
  [("kind", VStr "traffic_recovery"); ("path_key", VStr "mihomo:auto");
   ("recovery_pending", VDict [("phase", VStr "traffic_verifying"); ("generation", VStr "g1"); ("attempt_id", VStr "a1");
      ("path_key", VStr "mihomo:auto"); ("logical_server_id", VStr "srv-a");
      ("traffic_decision_id", VStr "decision-before"); ("reselection", VDict [("ok", VBool true)])])].

(** Outbound traffic only. *)
Definition stalled_runtime (mode : string) : runtime_sample := RuntimeSample mode [counter 0 500] true.

(** Responses only, and a probe that fails. *)
Definition unanswered_probe (mode : string) : runtime_sample := RuntimeSample mode [counter 500 0] false.

Definition status_of (r : option dict * flow) : pyval := dget "status" (default [] r.1).

(** ** The theorems on these runs *)

(** A flow's arguments on the sample runtime, with what the counters show. *)
Definition sample_args (mode : string) (signal : dict) : flow_args :=
  FlowArgs (Controller [("adapter_id", VStr "mihomo")] None) signal (Some "srv-a") mode
    (managed_state (stalled_runtime mode)) (Some "mihomo:auto") None [("ok", VBool true)] [] [] None (usual true).

(** Ten minutes past noon, the end of the cooldown. *)
Definition later : datetime := before (-600).

Definition stalled : dict :=
  [("observed", VBool true); ("authoritative", VBool true); ("response_observed", VBool false);
   ("traffic_stalled", VBool true); ("decision_id", VStr "decision-now")].

Definition answered : dict :=
  [("observed", VBool true); ("authoritative", VBool true); ("response_observed", VBool true);
   ("traffic_stalled", VBool false); ("decision_id", VStr "decision-now")].

#[local] Instance steady : Outside := sample_outside (stalled_runtime "auto").

Lemma cooling_flow candidate : flow_cooling later (flow_with candidate (Some (isoformat later))).
Proof. split; [by eexists|by apply Forall_nil]. Qed.

(** The same confirmed stall with the same pending attempt switches without
    a cooldown and does not during one. *)
Lemma stall_blocked_never_switches_witness :
  switches (handle_stalled_traffic_auto_flow (sample_args "auto" stalled) (flow_with (Some verifying) None)).2 = 1%nat /\
  switches (handle_stalled_traffic_auto_flow (sample_args "auto" stalled)
    (flow_with (Some verifying) (Some (isoformat later)))).2 = 0%nat.
Proof.
  split; [by vm_compute|].
  refine (stall_blocked_never_switches _ _ (blocked_cooldown _ _ later _ (cooling_flow (Some verifying)) _ _)).
  - by vm_compute.
  - intros asked. by vm_compute.
  - intros asked. apply moves_ret, _.
Defined.

(** Answered traffic with a failing probe. *)
Lemma answered_traffic_never_recovers_witness :
  dget "status" (default [] (traffic_flow (sample_args "auto" answered) (flow_with None None)).1) = VStr "healthy_traffic" /\
  seen is_recovery (traffic_flow (sample_args "auto" answered) (flow_with None None)).2 = [].
Proof.
  split; [by vm_compute|]. apply (answered_traffic_never_recovers (sample_args "auto" answered) (flow_with None None)).
  by left.
Defined.


(** The failover of the sample starts a cooldown until five past twelve. *)
Definition after_failover : flow :=
  (stall_failover (sample_args "auto" stalled) [] [] VNone "a1" (flow_with (Some verifying) None)).2.

Lemma failovers_are_spaced_witness :
  switches (handle_stalled_traffic_auto_flow (sample_args "auto" stalled) after_failover).2 = switches after_failover.
Proof.
  unfold after_failover.
  destruct (stall_failover (sample_args "auto" stalled) [] [] VNone "a1" (flow_with (Some verifying) None)) as [res s'] eqn:E.
  destruct res as [res|]; [|exfalso; vm_compute in E; discriminate].
  destruct (failovers_are_spaced (sample_args "auto" stalled) [] [] VNone "a1" (flow_with (Some verifying) None) res s' E)
    as (asked & until & Hu & Hnext);
    [exact eq_refl|exists applied_failover; split_and!; exact eq_refl|].
  change (clock asked) with noon in Hu. vm_compute in Hu. injection Hu as <-.
  apply (Hnext (sample_args "auto" stalled) s'); [by vm_compute|exact eq_refl|intros asked'; by vm_compute|intros asked'; apply moves_ret, _].
Defined.
