(* ===== verification/RoutingManifest.v ===== *)
(** * The dataplane manifest

    [services/routing_manifest.py] with [override_manifest_state] of
    [services/provider_recovery.py] and the manifest of the network contract:
    from the routing state and the subjects to the manifest that the renderer
    of [NftRender] reads.  Every part that goes into it is bounded: the
    runtime of a subject, its observed Docker source, its listeners and
    process ids, the extra data. *)
From stdpp Require Import base list strings pretty gmap sorting.
From Stdlib Require Import ZArith Lia Ascii.
From S2P Require Import Prelude PyStr IpAddr NetworkContract PyVal SubjectTaxonomy DockerPolicy ScopedEgress ScopedReadiness NftSets NftGuards DataplaneRules DataplanePreflight SubjectPolicy.

Open Scope string_scope.
Open Scope Z_scope.
Open Scope list_scope.

Definition SERVER_LAYOUT_CONTRACT_VERSION : string := "2026-05-07.control-plane".

(** ** The size of a JSON text *)

Definition _json_size (value : pyval) : Z := Z.of_nat (py_len (json_text (sort_keys value))).

Definition _summarize_mapping (value : dict) (label : string) : dict :=
  let keys := sort_by py_leb (map fst value) in
  [("kind", VStr label); ("keys", vstrings (take 50 keys)); ("keys_count", VInt (Z.of_nat (length keys)));
   ("approx_json_bytes", VInt (_json_size (VDict value)))].

Definition _summarize_sequence (value : list pyval) (label : string) : dict :=
  [("kind", VStr label); ("count", VInt (Z.of_nat (length value)));
   ("approx_json_bytes", VInt (_json_size (VList value)))].

(** ** The network contract's manifest *)

(** The setting [local_lan_hosts], and the environment variable: unset, not JSON, or a value. *)
Class LanHosts := { set_local_lan_hosts : pyval; env_local_lan_hosts : option (option pyval) }.

Definition DEFAULT_LOCAL_LAN_HOSTS : dict :=
  [("fwrouter.lan", VStr "FWRouter UI via local ingress"); ("homes.lan", VStr "Home Assistant via local ingress")].

Section Manifest.
Context `{ReprContainer} `{Settings} `{LanHosts}.

Definition configured_lan_hosts : pyval :=
  match env_local_lan_hosts with
  | Some (Some v) => v
  | Some None => VNone
  | None => set_local_lan_hosts
  end.

Definition lan_host_step (normalized : dict) (host : string * pyval) : dict :=
  let hostname := py_rstrip_char "."%char (py_lower (py_strip host.1)) in
  if String.eqb hostname "" then normalized else dset hostname (VStr (stripped host.2)) normalized.

Definition local_lan_hosts : dict :=
  match configured_lan_hosts with
  | VDict configured => default DEFAULT_LOCAL_LAN_HOSTS (nonempty_dict (Some (fold_left lan_host_step configured [])))
  | _ => DEFAULT_LOCAL_LAN_HOSTS
  end.

Definition network_contract_manifest : dict :=
  [("protected_ipv4_networks", vstrings protected_ipv4_networks);
   ("protected_ipv6_networks", vstrings protected_ipv6_networks);
   ("rules_extra_protected_networks", vstrings rules_extra_protected_networks);
   ("trusted_client_ipv4_networks", vstrings trusted_client_ipv4_networks);
   ("trusted_client_ipv6_networks", vstrings trusted_client_ipv6_networks);
   ("lan_interface_allowlist", vstrings lan_interface_allowlist);
   ("lan_interface_deny_prefixes", vstrings lan_interface_deny_prefixes);
   ("reserved_interface_roles",
    VDict (sort_by key_leb (map (fun kv : string * string => (kv.1, VStr kv.2)) RESERVED_INTERFACE_ROLES)));
   ("local_lan_hosts", VDict local_lan_hosts)].

(** ** Bounded parts *)

(** [value.get(key)] for each key. *)
Definition pick (keys : list string) (value : dict) : dict := map (fun k => (k, dget k value)) keys.

Definition _bounded_subject_runtime (value : pyval) : dict :=
  match value with
  | VDict value =>
      let status := dget "status" value in
      let legacy_state :=
        match dget "state" value with
        | VNone => if eq_str status "not_applicable" then VStr "disabled" else VNone
        | state => state
        end in
      [("state", legacy_state); ("status", status)] ++ pick ["eligible"; "applied"] value
      ++ [("reason", por (dget "resolution_reason" value) (dget "reason" value))]
      ++ pick ["required_capability"; "matcher"; "direct_source_coverage"; "infrastructure_role";
               "docker_ipv6_inventory_status"] value
  | _ => []
  end.

(** *** The observed Docker source *)

Definition is_str (v : pyval) : bool := is_set (as_str v).
Definition bounded_list (v : pyval) : option (list pyval) :=
  match v with VList l => if (length l <=? MAX_DOCKER_IPV4_SOURCE_ADDRESSES)%nat then Some l else None | _ => None end.

(** The addresses of a list until one is not canonical for the version
    ([Some false]) or does not parse ([None]); those read are kept. *)
Fixpoint scan_addresses (version : ipver) (values : list string) : option bool * list string :=
  match values with
  | [] => (Some true, [])
  | value :: values' =>
      match ip_address value with
      | None => (None, [])
      | Some parsed =>
          if negb (bool_decide (a_ver parsed = version)) || negb (String.eqb (str_addr parsed) value) then (Some false, [])
          else let '(r, l) := scan_addresses version values' in (r, str_addr parsed :: l)
      end
  end.

(** The address lists, when both are bounded lists of strings and called complete. *)
Definition inventory_lists (source : dict) : option (list string * list string) :=
  raw4 ← bounded_list (dget "IPv4Addresses" source);
  raw6 ← bounded_list (dget "IPv6Addresses" source);
  if is_true_val (dget "IPv4InventoryComplete" source) && negb (length raw4 =? 0)%nat
     && is_true_val (dget "IPv6InventoryComplete" source)
  then v4 ← py_map as_str raw4; v6 ← py_map as_str raw6; Some (v4, v6) else None.

Definition ipv6_status_of (valid : bool) (v6 : list string) : string :=
  if negb valid then "incomplete"
  else if (length v6 =? 0)%nat then "complete_no_global_ipv6" else "global_ipv6_present".

(** The scan of both lists: whether an exception ended it, validity, IPv4 addresses, IPv6 status. *)
Definition scan_inventory (source : dict) : bool * bool * list string * string :=
  match inventory_lists source with
  | None => (false, false, [], "incomplete")
  | Some (v4, v6) =>
      let '(r4, addresses) := scan_addresses V4 v4 in
      match r4, (scan_addresses V6 v6).1 with
      | Some ok4, Some ok6 => (false, ok4 && ok6, addresses, ipv6_status_of (ok4 && ok6) v6)
      | _, _ => (true, false, addresses, "incomplete")
      end
  end.

(** The primary address when it is canonical IPv4 and among the addresses. *)
Definition primary_of (primary : pyval) (addresses : list string) : option string :=
  match primary with
  | VStr s =>
      parsed ← ip_address s;
      if bool_decide (a_ver parsed = V4) && String.eqb (str_addr parsed) s && bool_decide (str_addr parsed ∈ addresses)
      then Some s else None
  | _ => None
  end.

Definition _bounded_docker_source_inventory (subject : dict) : option dict :=
  if negb (String.eqb (type_text subject) "docker") then None
  else
    match detail_source subject with
    | VDict source =>
        let '(raised, scanned, addresses, ipv6_status) := scan_inventory source in
        let primary := if raised then None else primary_of (get_in "ip_address" (dget "detail" subject)) addresses in
        let valid := scanned && is_set primary in
        Some [("available", VBool true);
              ("valid", VBool valid);
              ("ipv4_addresses",
               vstrings (if is_set (bounded_list (dget "IPv4Addresses" source)) then sorted_set addresses else []));
              ("ipv4_inventory_complete", VBool (is_true_val (dget "IPv4InventoryComplete" source)));
              ("ipv6_inventory_status", VStr ipv6_status);
              ("primary_ipv4", if valid then vopt primary else VNone);
              ("host_network", VBool (is_host_mode source))]
    | _ => Some [("available", VBool false); ("valid", VBool false)]
    end.

(** *** Listeners and processes *)

Record listener := Listener { l_proto : string; l_port : Z; l_address : string; l_source : string }.

Definition listener_dict (l : listener) : dict :=
  [("proto", VStr (l_proto l)); ("port", VInt (l_port l)); ("address", VStr (l_address l)); ("source", VStr (l_source l))].

Definition _as_positive_port (value : pyval) : option Z :=
  port ← py_int value;
  if (0 <? port) && (port <=? 65535) then Some port else None.

(** [item.get(a) if a in item else ...]. *)
Definition first_key (keys : list string) (d : dict) : pyval :=
  match List.find (fun k => is_set (dict_lookup k d)) keys with Some k => dget k d | None => VNone end.

Definition _normalize_listener (item : pyval) (source : string) : option listener :=
  match item with
  | VDict item =>
      let proto := norm_lower_val (por (dget "proto" item) (dget "listen_proto" item)) in
      if String.eqb proto "tcp" || String.eqb proto "udp" then
        port ← _as_positive_port (first_key ["port"; "host_port"; "listen_port"] item);
        let address := stripped (por (dget "address" item) (dget "host_ip" item)) in
        Some (Listener proto port (if String.eqb address "" then "*" else address) source)
      else None
  | _ => None
  end.

Definition listener_key (l : listener) : string * Z * string := (l_proto l, l_port l, l_address l).
Definition same_key (l l' : listener) : bool :=
  String.eqb (l_proto l) (l_proto l') && (l_port l =? l_port l') && String.eqb (l_address l) (l_address l').

(** [deduped[key] = listener]. *)
Fixpoint put_listener (l : listener) (deduped : list listener) : list listener :=
  match deduped with
  | [] => [l]
  | l' :: rest => if same_key l l' then l :: rest else l' :: put_listener l rest
  end.

Definition listener_leb (a b : listener) : bool :=
  if negb (String.eqb (l_proto a) (l_proto b)) then py_leb (l_proto a) (l_proto b)
  else if negb (l_port a =? l_port b) then l_port a <=? l_port b
  else py_leb (l_address a) (l_address b).

Definition listeners_in (values : pyval) (source : string) : py (list listener) :=
  items ← iter_val (por values (VList [])); Some (omap (M:=list) (fun item => _normalize_listener item source) items).

Definition source_listeners (source_json : pyval) : py (list listener) :=
  match source_json with
  | VDict source =>
      listeners ← listeners_in (por (dget "Listeners" source) (dget "listeners" source)) "listener";
      published ← listeners_in (por (dget "PublishedPorts" source) (dget "published_ports" source)) "published_port";
      Some (listeners ++ published)
  | _ => Some []
  end.

Definition _bounded_network_listeners (subject : dict) : py (list listener) :=
  match dget "detail" subject with
  | VDict detail =>
      listeners ← source_listeners (dget "source" detail);
      let own := _normalize_listener
                   (VDict [("listen_proto", dget "listen_proto" detail); ("listen_port", dget "listen_port" detail)])
                   "detail" in
      Some (sort_by listener_leb
              (fold_left (fun deduped l => put_listener l deduped)
                 (listeners ++ match own with Some l => [l] | None => [] end) []))
  | _ => Some []
  end.

Definition process_uid (value : pyval) : option Z :=
  uid ← py_int value; if (0 <=? uid) && (uid <=? 4294967295) then Some uid else None.

Definition _bounded_process_uids (subject : dict) : list Z :=
  match get_in "source" (dget "detail" subject) with
  | VDict source =>
      match por (dget "ProcessUids" source) (dget "process_uids" source) with
      | VList raw_values => sorted_ints (omap process_uid raw_values)
      | _ => []
      end
  | _ => []
  end.

(** *** Enforcement, extra data, routing *)

Definition _bounded_enforcement (value : pyval) : dict :=
  match value with
  | VDict value =>
      ("capability", por (dget "capability" value) (dget "dataplane_capability" value))
      :: pick ["enforcement_level"; "traffic_enforcement_guaranteed"; "bypass_active"; "supported_modes";
               "missing_runtime_requirements"] value
  | _ => []
  end.

(** One item of [infrastructure_ipv4]: blank ones are dropped, others must be IPv4. *)
Definition infrastructure_item (item : pyval) : py (option string) :=
  let address := py_strip (py_str item) in
  if String.eqb address "" then Some None
  else network ← ip_network address; if bool_decide (n_ver network = V4) then Some (Some address) else None.

Definition bounded_item (bounded : dict) (kv : string * pyval) : py dict :=
  let '(key, value) := kv in
  let put v := Some (dset key v bounded) in
  match value with
  | VDict d =>
      if String.eqb key "rules_effective" then
        Some (dset "rules_effective_summary"
                (VDict (pick ["selective_default"; "source_counts"; "effective_counts"] d
                        ++ [("runtime_enforcement", VDict (_bounded_enforcement (dget "runtime_enforcement" d)))]))
                (dset key value bounded))
      else if String.eqb key "core_bypass" then
        put (VDict (("enabled", VBool (truthy (dget "enabled" d))) :: pick ["reason"; "status"] d))
      else put (VDict (_summarize_mapping d (key +:+ "_summary")))
  | VList l =>
      if String.eqb key "infrastructure_ipv4" then
        if (1024 <? length l)%nat then None
        else addresses ← py_map infrastructure_item l; put (vstrings (sorted_set (omap (M:=list) id addresses)))
      else put (VDict (_summarize_sequence l (key +:+ "_summary")))
  | _ => put value
  end.

Fixpoint bounded_items (items bounded : dict) : py dict :=
  match items with [] => Some bounded | kv :: items' => b ← bounded_item bounded kv; bounded_items items' b end.

Definition _bounded_extra (extra : dict) : py dict := bounded_items extra [].

Definition _bounded_routing_summary (routing : dict) : dict :=
  pick ["desired_mode"; "applied_mode"; "selective_default"; "server_mode"; "active_auto_server_id";
        "desired_fixed_server_id"; "applied_fixed_server_id"; "fixed_server_until"; "updated_at"] routing.

Definition manifest_path (subject : dict) (effective_state : dict) : string :=
  norm_lower_val (por (dget "dataplane_path" effective_state) (dget "dataplane_path" subject)).

(** An active subject that asks for the VPN. *)
Definition asks_vpn (selective_reaches_vpn : bool) (subject : dict) : bool :=
  is_active subject && subject_needs_transparent_policy (Some (type_text subject))
  && match dget "effective_state" subject with
     | VDict effective_state =>
         let path := manifest_path subject effective_state in
         String.eqb path "vpn" || (String.eqb path "selective" && selective_reaches_vpn)
     | _ => false
     end.

Definition _requires_vpn_policy_routing (routing : dict) (subjects : list dict) (global_preflight : dict)
    (core_bypass_enabled : bool) : bool :=
  if core_bypass_enabled then false
  else
    let routing_mode :=
      py_lower (py_strip (py_str (por (dget "desired_mode" routing) (por (dget "applied_mode" routing) (VStr "direct"))))) in
    let selective_default := py_lower (py_strip (resolve_selective_default routing)) in
    let selective_reaches_vpn :=
      truthy (get_in "requires_vpn_runtime" (dget "selective_rules" global_preflight))
      || String.eqb selective_default "vpn" in
    String.eqb routing_mode "vpn" || (String.eqb routing_mode "selective" && selective_reaches_vpn)
    || existsb (asks_vpn selective_reaches_vpn) subjects.

Definition _planned_subject_override (subject : dict) (name : string) : option dict :=
  match dget name subject with
  | VDict candidate => Some candidate
  | _ => as_dict (get_in name (dget "effective_state" subject))
  end.

(** ** The emergency override of the execution input *)

(** [v in {...}] of strings; a list or dict does not hash. *)
Definition routed_value (v : pyval) : py bool :=
  match v with
  | VStr s => Some (bool_decide (s ∈ ["vpn"; "forced_vpn"; "selective"]))
  | VList _ | VDict _ => None
  | _ => Some false
  end.

Definition direct_if_routed (key : string) (subject : dict) : py dict :=
  routed ← routed_value (dget key subject); Some (if routed : bool then dset key (VStr "direct") subject else subject).

Definition override_subject (subject : dict) : py dict :=
  subject ←
    match dget "effective_state" subject with
    | VDict state =>
        routed ← routed_value (dget_or "effective_mode" (dget "mode" state) state);
        Some (if routed : bool
              then dset "effective_state"
                     (VDict (dmerge state [("mode", VStr "direct"); ("effective_mode", VStr "direct");
                                           ("dataplane_path", VStr "direct"); ("mode_source", VStr "emergency_direct")])) subject
              else subject)
    | _ => Some subject
    end;
  subject ← direct_if_routed "dataplane_path" subject;
  direct_if_routed "effective_mode" subject.

Definition override_manifest_state (emergency : option dict) (routing : dict) (subjects : list dict) (reentry : bool)
    : py (dict * list dict) :=
  if reentry || negb (is_set emergency) then Some (routing, subjects)
  else
    overridden ← py_map override_subject subjects;
    Some (dmerge routing [("desired_mode", VStr "direct"); ("applied_mode", VStr "direct")], overridden).

(** ** The manifest from the state

    [host] is what the preflight reads beside the routing and the rules given
    to it; [env] what the enrichment of a subject reads. *)
Record host_state := HostState {
  hs_health : mihomo_health;
  hs_rules_artifact : option dict;   (** [read_effective_rules_artifact()] *)
  hs_vpn_runtime_adapter : dict;
  hs_vpn_module : option dict;
  hs_dnsmasq_selective_status : dict;
}.

Definition host_inputs (host : host_state) (routing : dict) (rules : option dict) : preflight_inputs :=
  PreflightInputs (Some routing) None (hs_health host)
    (match rules with Some r => Some r | None => hs_rules_artifact host end)
    false (hs_vpn_runtime_adapter host) (hs_vpn_module host) (hs_dnsmasq_selective_status host).

Context `{RuleSources} (host : host_state) (env : policy_env).

Definition planned_arg (subject : dict) (name : string) : override_arg :=
  match _planned_subject_override subject name with Some d => Provided (Some d) | None => NotProvided end.

Definition enrich_planned (routing runtime_enforcement : dict) (core_bypass : option dict) (subject : dict) : py dict :=
  enrich_subject_with_effective_state env subject (Some routing) (planned_arg subject "user_override")
    (planned_arg subject "server_override") (Some runtime_enforcement)
    (Some (default [("enabled", VBool false)] core_bypass)).

Definition bypass_on (core_bypass : option dict) : bool :=
  match core_bypass with Some d => truthy (dget "enabled" d) | None => false end.

(** [routing.get("desired_mode") or routing.get("applied_mode") or "direct"]. *)
Definition manifest_mode (routing : dict) : string :=
  py_str (por (dget "desired_mode" routing) (por (dget "applied_mode" routing) (VStr "direct"))).

(** The conflicts of the Docker guard; a value that does not iterate raises where the guard reads it. *)
Definition manifest_conflicts (routing extra_data : dict) (subjects : list dict) : py (list conflict) :=
  let value := dget_or "infrastructure_ipv4" (VList []) extra_data in
  let guard infrastructure_ipv4 :=
    docker_vpn_immunity_conflicts (map VDict subjects) infrastructure_ipv4 (Some (manifest_mode routing)) in
  match iter_val value with
  | Some infrastructure_ipv4 => Some (guard infrastructure_ipv4)
  | None =>
      match guard [VStr ""] with
      | (_, reason) :: _ as conflicts => if String.eqb reason "invalid_infrastructure_ipv4" then None else Some conflicts
      | [] => Some []
      end
  end.

Definition MARKED_REASONS : list string :=
  ["protected_runtime_cannot_use_scoped_vpn"; "docker_vpn_matcher_overlaps_infrastructure"; "invalid_infrastructure_ipv4"].

Definition mark_subject (reason : string) (subject : dict) : dict :=
  match dget "effective_state" subject with
  | VDict effective_state =>
      match dget "scoped_runtime" effective_state with
      | VDict scoped_runtime =>
          let marked :=
            dset "resolution_reason" (VStr reason)
              (dset "status" (VStr "pending_infrastructure_immunity_conflict")
                 (dset "applied" (VBool false) scoped_runtime)) in
          dset "effective_state" (VDict (dset "scoped_runtime" (VDict marked) effective_state)) subject
      | _ => subject
      end
  | _ => subject
  end.

(** The first subject with the conflict's id is marked. *)
Fixpoint mark_first (subject_id reason : string) (subjects : list dict) : list dict :=
  match subjects with
  | [] => []
  | subject :: rest =>
      if String.eqb (text_of (dget "subject_id" subject)) subject_id then mark_subject reason subject :: rest
      else subject :: mark_first subject_id reason rest
  end.

Definition mark_conflict (subjects : list dict) (c : conflict) : list dict :=
  if bool_decide (c.2 ∈ MARKED_REASONS) then mark_first c.1 c.2 subjects else subjects.

(** [d[k]] of what must be a dictionary. *)
Definition item_in (k : string) (v : pyval) : py pyval := match v with VDict d => item k d | _ => None end.

Definition manifest_subject (subject : dict) : py dict :=
  subject_id ← item "subject_id" subject;
  subject_type ← item "subject_type" subject;
  display_name ← item "display_name" subject;
  desired_mode ← item "desired_mode" subject;
  runtime_state ← item "runtime_state" subject;
  is_active ← item "is_active" subject;
  state ← item "effective_state" subject;
  effective_mode ← item_in "effective_mode" state;
  mode_source ← item_in "mode_source" state;
  dataplane_path ← item_in "dataplane_path" state;
  selected_server_id ← item_in "selected_server_id" state;
  selected_server_source ← item_in "selected_server_source" state;
  listeners ← _bounded_network_listeners subject;
  Some [("subject_id", subject_id); ("subject_type", subject_type); ("display_name", display_name);
        ("desired_mode", desired_mode); ("applied_mode", dget "applied_mode" subject);
        ("runtime_state", runtime_state); ("is_active", is_active);
        ("effective_mode", effective_mode); ("mode_source", mode_source); ("dataplane_path", dataplane_path);
        ("selected_server_id", selected_server_id); ("selected_server_source", selected_server_source);
        ("enforcement", VDict (_bounded_enforcement (get_in "runtime_enforcement" state)));
        ("scoped_runtime", VDict (_bounded_subject_runtime (get_in "scoped_runtime" state)));
        ("observed_docker_source", vdict (_bounded_docker_source_inventory subject));
        ("network_listeners", VList (map (fun l => VDict (listener_dict l)) listeners));
        ("process_uids", VList (map VInt (_bounded_process_uids subject)))].

Definition count_path (counts : list (string * Z)) (path : string) : list (string * Z) :=
  match dict_get path counts with
  | Some _ => map (fun kv => if String.eqb kv.1 path then (kv.1, kv.2 + 1) else kv) counts
  | None => counts ++ [(path, 1)]
  end.

Definition path_counts (subjects : list dict) : dict :=
  map (fun kv => (kv.1, VInt kv.2))
    (fold_left (fun counts s => count_path counts (py_str (dget "dataplane_path" s))) subjects []).

(** What the manifest is assembled from. *)
Record manifest_parts := ManifestParts {
  mp_routing : dict;
  mp_preflight : dict;
  mp_extra : dict;
  mp_core_bypass : option dict;
  mp_enforcement : dict;
  mp_enriched : list dict;          (** the subjects with effective state, marked by the guard *)
  mp_subjects : list dict;
  mp_requires_vpn : bool;
}.

Definition manifest_parts_of (routing : dict) (subjects : list dict) (extra : option dict) : py manifest_parts :=
  let extra := default [] extra in
  state ← override_manifest_state (env_emergency env) routing subjects (truthy (dget "provider_vpn_reentry" extra));
  let '(routing, subjects) := state in
  global_preflight ← build_global_preflight (host_inputs host routing (as_dict (dget "rules_effective" extra)));
  extra_data ← _bounded_extra extra;
  let extra_data := dset "network_contract" (VDict network_contract_manifest) extra_data in
  let core_bypass := as_dict (dget "core_bypass" extra_data) in
  let bypass_enabled := bypass_on core_bypass in
  runtime_enforcement ←
    (if bypass_enabled then build_bypass_runtime_enforcement global_preflight
     else ready_runtime_enforcement global_preflight);
  normalized_subjects ← py_map (enrich_planned routing runtime_enforcement core_bypass) subjects;
  conflicts ← (if bypass_enabled then Some [] else manifest_conflicts routing extra_data normalized_subjects);
  let normalized_subjects := fold_left mark_conflict conflicts normalized_subjects in
  manifest_subjects ← py_map manifest_subject normalized_subjects;
  Some (ManifestParts routing global_preflight extra_data core_bypass runtime_enforcement normalized_subjects
          manifest_subjects
          (_requires_vpn_policy_routing routing normalized_subjects global_preflight bypass_enabled)).

Definition resolved_vpn_contour (p : manifest_parts) : pyval :=
  match dget "vpn_contour" (mp_preflight p) with
  | VDict contour =>
      if bool_decide (manifest_mode (mp_routing p) ∈ ["vpn"; "selective"]) || mp_requires_vpn p
      then VDict (dset "required" (VBool (mp_requires_vpn p)) contour) else VNone
  | _ => VNone
  end.

Definition manifest_summary (p : manifest_parts) (scoped_egress : dict) : dict :=
  [("subjects_count", VInt (Z.of_nat (length (mp_subjects p))));
   ("active_subjects_count",
    VInt (Z.of_nat (length (List.filter (fun s => truthy (dget "is_active" s)) (mp_subjects p)))));
   ("path_counts", VDict (path_counts (mp_subjects p)));
   ("global_mode", VStr (manifest_mode (mp_routing p)));
   ("selective_default", VStr (resolve_selective_default (mp_routing p)));
   ("routing", VDict (_bounded_routing_summary (mp_routing p)));
   ("core_bypass_enabled", VBool (bypass_on (mp_core_bypass p)));
   ("requires_vpn_policy_routing", VBool (mp_requires_vpn p));
   ("scoped_egress_state", dget "state" scoped_egress);
   ("scoped_egress_eligible_count", dget "eligible_count" scoped_egress);
   ("scoped_egress_applied_count", dget "applied_count" scoped_egress);
   ("extra_keys", vstrings (sort_by py_leb (map fst (mp_extra p))))].

Definition manifest_of (plan_id reason generated_at : string) (input_data : option dict) (p : manifest_parts)
    (scoped_egress : dict) : dict :=
  [("contract_version", VStr SERVER_LAYOUT_CONTRACT_VERSION); ("plan_id", VStr plan_id); ("reason", VStr reason);
   ("generated_at", VStr generated_at); ("owned_table", VStr OWNED_TABLE);
   ("required_chains", vstrings REQUIRED_CHAINS); ("dataplane_profile", dget "profile" (mp_preflight p));
   ("input", VDict (default [] input_data)); ("routing_global_state", VDict (mp_routing p));
   ("runtime_enforcement", VDict (mp_enforcement p));
   ("global_preflight", VDict (dset "vpn_policy_required" (VBool (mp_requires_vpn p)) (mp_preflight p)));
   ("vpn_contour", resolved_vpn_contour p); ("core_bypass", vdict (mp_core_bypass p));
   ("scoped_egress", VDict scoped_egress); ("subjects", VList (map VDict (mp_subjects p)));
   ("extra", VDict (mp_extra p)); ("summary", VDict (manifest_summary p scoped_egress))].

Definition build_dataplane_manifest_from_state (plan_id reason generated_at : string) (routing : dict)
    (subjects : list dict) (input_data extra : option dict) : py dict :=
  p ← manifest_parts_of routing subjects extra;
  scoped_egress ← summarize_scoped_subjects (mp_enriched p);
  Some (manifest_of plan_id reason generated_at input_data p scoped_egress).

(** [build_dataplane_manifest]: [routing] is the row of the state, [subjects] what [list_subjects] selects. *)
Definition build_dataplane_manifest (plan_id reason generated_at : string) (routing : dict) (subjects : list dict)
    (input_data : option dict) : py dict :=
  subjects ← list_subjects_with_effective_state env subjects None None;
  build_dataplane_manifest_from_state plan_id reason generated_at routing subjects input_data None.
End Manifest.
