(* ===== verification/SubjectPolicyFacts.v ===== *)
(** * What the subject policy guarantees

    A mode that may be asked for takes effect as the path it names; expiry
    removes what is expired and changes no active override; in an emergency
    no subject keeps a path to the VPN. *)
From stdpp Require Import base list strings pretty gmap sorting.
From Stdlib Require Import ZArith Lia Ascii.
From S2P Require Import Prelude PyStr PyVal NetworkContract SubjectTaxonomy DockerPolicy ScopedEgress ScopedReadiness NftSets DataplanePreflight SubjectPolicy.

Open Scope string_scope.
Open Scope Z_scope.
Open Scope list_scope.

(** ** Rows *)

Lemma find_filter {A} (p q : A -> bool) l :
  (forall x, x ∈ l -> p x = true -> q x = true) -> List.find p (List.filter q l) = List.find p l.
Proof.
  induction l as [|x l IH]; intros Hpq; [done|]. cbn [List.filter List.find].
  assert (Hl : List.find p (List.filter q l) = List.find p l) by (apply IH; intros y Hy; apply Hpq; by right).
  destruct (q x) eqn:Eq; cbn [List.find]; destruct (p x) eqn:Ep; try done.
  pose proof (Hpq x ltac:(by left) Ep). congruence.
Qed.

Lemma elem_of_filter_by {A} (q : A -> bool) x l : x ∈ List.filter q l <-> x ∈ l /\ q x = true.
Proof. rewrite !list_elem_of_In. apply filter_In. Qed.

(** A time later than [now] is not expired before it. *)
Lemma after_not_expired now t v : py_leb t now = true -> after now v = true -> not_after t v = false.
Proof.
  intros Ht. destruct v as [| | |s| |]; try discriminate. cbn [after not_after]. intros Ha%negb_true_iff.
  destruct (py_leb s t) eqn:E; [|done]. rewrite (py_leb_trans s t now E Ht) in Ha. discriminate.
Qed.

Lemma expired_later t t' v : py_leb t t' = true -> not_after t v = true -> not_after t' v = true.
Proof. intros Ht. destruct v as [| | |s| |]; try discriminate. cbn [not_after]. intros Hs. by eapply py_leb_trans. Qed.

Section Policy.
Context `{ReprContainer}.

(** ** Expiry *)

(** The statements of one call run in order, before [now]. *)
Definition in_order (t : expiry_times) (now : string) : Prop :=
  py_leb (t_user t) (t_user_delete t) = true /\ py_leb (t_server t) (t_server_delete t) = true /\
  py_leb (t_user_delete t) now = true /\ py_leb (t_server_delete t) now = true.

Lemma expired_rows_in column now rows row : row ∈ expired_rows column now rows <-> row ∈ rows /\ not_after now (dget column row) = true.
Proof. unfold expired_rows. by rewrite elem_of_sort_by, elem_of_filter_by. Qed.

(** What one table keeps: [remaining] holds the rows that are not expired, and the [gone] ones were. *)
Definition swept (column early late : string) (rows remaining : list dict) : Prop :=
  forall row, (row ∈ remaining -> row ∈ rows /\ not_after early (dget column row) = false) /\
    (row ∈ rows -> row ∈ remaining \/ not_after late (dget column row) = true).

Lemma sweep_rows column early late rows :
  py_leb early late = true ->
  swept column early late rows
    (if (length (expired_rows column early rows) =? 0)%nat then rows else delete_expired column late rows).
Proof.
  intros Ht row. destruct (Nat.eqb_spec (length (expired_rows column early rows)) 0) as [E|_].
  - apply length_zero_iff_nil in E. split; [|by left]. intros Hr. split; [done|].
    destruct (not_after early (dget column row)) eqn:En; [|done].
    assert (Hin : row ∈ expired_rows column early rows) by (by apply expired_rows_in). rewrite E in Hin. by apply elem_of_nil in Hin.
  - unfold delete_expired. rewrite elem_of_filter_by. split.
    + intros [Hr En%negb_true_iff]. split; [done|]. destruct (not_after early (dget column row)) eqn:Ee; [|done].
      rewrite (expired_later early late) in En by done. discriminate.
    + intros Hr. destruct (not_after late (dget column row)) eqn:En; [by right|left]. by split.
Qed.

Lemma find_swept column early late now p rows :
  py_leb early late = true -> py_leb late now = true ->
  (forall row, p row = true -> after now (dget column row) = true) ->
  List.find p (if (length (expired_rows column early rows) =? 0)%nat then rows else delete_expired column late rows)
  = List.find p rows.
Proof.
  intros Ht Hn Hp. destruct (_ =? 0)%nat; [done|]. apply find_filter. intros row _ Hr.
  by rewrite (after_not_expired now late) by auto.
Qed.

Lemma projected_length rows : length (omap (fun row => project_row (Some row)) rows) = length rows.
Proof.
  induction rows as [|row rows IH]; [done|]. cbn [omap list_omap].
  destruct (project_row (Some row)) eqn:E; [|discriminate]. cbn [length]. by rewrite IH.
Qed.

(** Expiry is exact and harmless. A dry run changes nothing. Otherwise
    every row that had expired when its table was read is gone, only rows that
    had expired by the time of the deletion are missing, and at any later
    time every subject has the active overrides it would have had. *)
Theorem expiry_exact t db now subject_id :
  in_order t now ->
  (expire_subject_overrides true t db).2 = db /\
  let db' := (expire_subject_overrides false t db).2 in
  swept "override_until" (t_user t) (t_user_delete t) (user_rows db) (user_rows db') /\
  swept "selected_until" (t_server t) (t_server_delete t) (server_rows db) (server_rows db') /\
  _load_active_user_override db' now subject_id = _load_active_user_override db now subject_id /\
  _load_active_server_override db' now subject_id = _load_active_server_override db now subject_id.
Proof.
  intros (Hu & Hs & Hun & Hsn). split; [done|]. unfold expire_subject_overrides. cbn [snd user_rows server_rows].
  rewrite projected_length, !length_map. split; [by apply sweep_rows|]. split; [by apply sweep_rows|]. split.
  - apply find_swept with now; [done..|]. intros row. unfold active_user_row. intros ?. by bool_simpl.
  - unfold _load_active_server_override. f_equal. apply find_swept with now; [done..|].
    intros row. unfold active_server_row. intros ?. by bool_simpl.
Qed.

(** ** The binding *)

Lemma binding_path mode type server routing b :
  _effective_binding mode type server routing = Some b -> dget "dataplane_path" b = VStr (path_of_mode mode type).
Proof. unfold _effective_binding. destruct (resolve_effective_vpn_target _ _ _ _); [|done]. by intros [= <-]. Qed.

(** A row of [routing_global_state] has these columns. *)
Definition ROUTING_COLUMNS : list string :=
  ["desired_mode"; "applied_fixed_server_id"; "desired_fixed_server_id"; "server_mode"; "active_auto_server_id"].

Definition has_columns (columns : list string) (d : dict) : Prop := forall k, k ∈ columns -> is_Some (dict_lookup k d).

Definition target_row (server : option dict) : Prop :=
  match server with Some row => has_columns ["selected_server_id"] row | None => True end.

Lemma column_of columns d k : has_columns columns d -> bool_decide (k ∈ columns) = true -> exists v, item k d = Some v.
Proof. intros Hd Hk%bool_decide_eq_true. by apply Hd. Qed.

Lemma binding_total mode type server routing :
  has_columns ROUTING_COLUMNS routing -> target_row server -> exists b, _effective_binding mode type server routing = Some b.
Proof.
  intros Hr Hs. unfold _effective_binding, resolve_effective_vpn_target.
  destruct (String.eqb (text_of _) "fwrouter"); [by eexists|]. destruct (String.eqb mode "disabled"); [by eexists|].
  destruct (String.eqb mode "direct"); [by eexists|].
  assert (Hid : forall row, server = Some row -> exists v, item "selected_server_id" row = Some v).
  { intros row ->. by apply (column_of ["selected_server_id"] row). }
  destruct (String.eqb mode "selective").
  { destruct server as [row|]; [destruct (Hid row eq_refl) as [v ->]|]; by eexists. }
  destruct (negb _); [by eexists|].
  destruct server as [row|]; [destruct (Hid row eq_refl) as [v ->]; by eexists|].
  unfold item_or.
  destruct (column_of _ _ "applied_fixed_server_id" Hr eq_refl) as [a ->].
  destruct (column_of _ _ "desired_fixed_server_id" Hr eq_refl) as [d ->].
  destruct (column_of _ _ "server_mode" Hr eq_refl) as [m ->].
  destruct (column_of _ _ "active_auto_server_id" Hr eq_refl) as [i ->].
  cbn [mbind option_bind]. destruct (truthy a); cbn [mbind option_bind]; destruct (_ && _); by eexists.
Qed.

(** ** Asking for a mode *)

Lemma text_of_str s : text_of (VStr s) = s.
Proof. unfold text_of, por. cbn [truthy]. by destruct (String.eqb_spec s "") as [->|]. Qed.

(** The path a mode names, under the global mode. *)
Definition mode_path (mode global_mode : string) : string :=
  if String.eqb mode "global" then global_mode
  else if String.eqb mode "enabled" then "vpn"
  else if String.eqb mode "disabled" then "blocked"
  else mode.

Lemma user_modes_path mode type : mode ∈ USER_MODES -> String.eqb type "fwrouter" = false -> path_of_mode mode (Some type) = mode.
Proof.
  intros Hm Ht. unfold path_of_mode. change (text_of (vopt (Some type))) with (text_of (VStr type)).
  assert (Ht' : String.eqb (text_of (VStr type)) "fwrouter" = false).
  { unfold text_of, por. cbn [truthy]. by destruct (String.eqb_spec type "") as [->|]. }
  rewrite Ht'. unfold USER_MODES in Hm. rewrite !elem_of_cons in Hm. destruct Hm as [->|[->|[->|[]%elem_of_nil]]]; reflexivity.
Qed.

(** The effective mode of texts. *)
Definition mode_of_texts (type mode global_mode : string) (user : option string) : string :=
  if String.eqb type "fwrouter" then "direct"
  else if subject_follows_global_mode (Some type) then
    if String.eqb mode "global" then default global_mode user else mode
  else if is_explicit_external_client_subject_type (Some type) then
    if String.eqb mode "disabled" then "disabled"
    else if String.eqb mode "enabled" then default "forced_vpn" user
    else if String.eqb mode "forced_vpn" then "forced_vpn"
    else if bool_decide (mode ∈ ["direct"; "selective"; "vpn"]) then mode else "disabled"
  else mode.

Definition user_mode (user_override : option dict) (user : option string) : Prop :=
  match user_override, user with
  | Some row, Some mode => item "override_mode" row = Some (VStr mode)
  | None, None => True
  | _, _ => False
  end.

Lemma effective_mode_texts subject routing type desired mode global_mode user_override user :
  item "subject_type" subject = Some (VStr type) -> item "desired_mode" subject = Some desired -> py_str desired = mode ->
  item "desired_mode" routing = Some (VStr global_mode) -> user_mode user_override user ->
  exists source, _effective_mode_with_override subject routing user_override
                 = Some (mode_of_texts type mode global_mode user, source).
Proof.
  intros Ht Hm Hd Hr Hu. unfold _effective_mode_with_override, mode_of_texts. rewrite Ht. cbn [mbind option_bind].
  change (py_str (VStr type)) with type. destruct (String.eqb type "fwrouter"); [by eexists|].
  unfold resolve_effective_capture_mode. rewrite Ht, Hm. cbn [mbind option_bind]. cbv zeta. rewrite Hd.
  change (py_str (VStr type)) with type.
  destruct (subject_follows_global_mode _).
  { destruct (String.eqb mode "global"); [|by eexists]. destruct user_override as [row|], user as [u|]; try done;
      [cbn [user_mode] in Hu; rewrite Hu|rewrite Hr]; by eexists. }
  destruct (is_explicit_external_client_subject_type _); [|by eexists]. unfold _xray_effective_mode.
  destruct (String.eqb mode "disabled"); [by eexists|].
  destruct (String.eqb mode "enabled").
  { destruct user_override as [row|], user as [u|]; try done; [cbn [user_mode] in Hu; rewrite Hu|]; by eexists. }
  destruct (String.eqb mode "forced_vpn"); [by eexists|]. destruct (bool_decide _); by eexists.
Qed.

(** What may be asked for, as pairs of type and mode. *)
Definition ADMIN_PAIRS : list (string * string) :=
  flat_map (fun x : string * list string => map (fun m => (x.1, m)) x.2) ADMIN_MODES_BY_SUBJECT_TYPE.

Lemma admin_pair subject type mode actor :
  item "subject_type" subject = Some (VStr type) -> String.eqb actor "user" = false ->
  _validate_subject_mode subject mode actor = Some None -> (type, mode) ∈ ADMIN_PAIRS.
Proof.
  intros Ht Ha. unfold _validate_subject_mode. rewrite Ht, Ha. cbn [mbind option_bind py_str].
  destruct (List.find _ ADMIN_MODES_BY_SUBJECT_TYPE) as [[t' modes]|] eqn:E; cbn [option_map default snd];
    [|by rewrite bool_decide_eq_false_2 by apply not_elem_of_nil].
  apply find_some in E as [Hin Heq%String.eqb_eq]. cbn [fst] in Heq. subst t'.
  case_bool_decide as Hm; [|done]. intros _. apply list_elem_of_In, in_flat_map. exists (type, modes).
  split; [done|]. cbn [fst snd]. apply list_elem_of_In, list_elem_of_fmap. by exists mode.
Qed.

Lemma admin_pair_path type mode global_mode :
  (type, mode) ∈ ADMIN_PAIRS -> global_mode ∈ USER_MODES ->
  path_of_mode (mode_of_texts type mode global_mode None) (Some type) = mode_path mode global_mode.
Proof.
  intros Hp%list_elem_of_In Hg%list_elem_of_In.
  assert (Hall : forallb (fun x : string * string => forallb (fun g =>
      String.eqb (path_of_mode (mode_of_texts x.1 x.2 g None) (Some x.1)) (mode_path x.2 g)) USER_MODES) ADMIN_PAIRS = true)
    by (vm_compute; reflexivity).
  rewrite List.forallb_forall in Hall. specialize (Hall _ Hp). rewrite List.forallb_forall in Hall.
  specialize (Hall _ Hg). by apply String.eqb_eq in Hall.
Qed.

Lemma user_allowed subject type mode :
  item "subject_type" subject = Some (VStr type) -> _validate_subject_mode subject mode "user" = Some None ->
  subject_follows_global_mode (Some type) = true /\ mode ∈ USER_MODES /\
  exists desired, item "desired_mode" subject = Some desired /\ py_str desired = "global".
Proof.
  intros Ht. unfold _validate_subject_mode. rewrite Ht. cbn [mbind option_bind py_str String.eqb Ascii.eqb Bool.eqb].
  destruct (subject_follows_global_mode (Some type)) eqn:Ef; [|done]. cbn [negb].
  unfold _user_override_gate. rewrite Ht. cbn [mbind option_bind].
  destruct (item "desired_mode" subject) as [desired|] eqn:Ed; [|done]. cbn [mbind option_bind]. cbv zeta.
  change (py_str (VStr type)) with type. rewrite Ef. cbn [mbind option_bind fst].
  destruct (String.eqb_spec (py_str desired) "global") as [Eg|]; [|done]. cbn [negb].
  case_bool_decide as Hm; [|done]. intros _. split; [done|]. split; [done|]. by exists desired.
Qed.

Context (env : policy_env).

Lemma policy_of_mode subject routing type user_override server mode source :
  env_emergency env = None -> has_columns ROUTING_COLUMNS routing -> target_row server ->
  item "subject_type" subject = Some (VStr type) ->
  _effective_mode_with_override subject routing user_override = Some (mode, source) ->
  exists binding, effective_policy env subject routing user_override server = Some (mode, source, binding) /\
    dget "dataplane_path" binding = VStr (path_of_mode mode (Some type)).
Proof.
  intros He Hr Hs Ht Hm. unfold effective_policy. rewrite Hm, He. cbn [mbind option_bind is_set andb fst].
  destruct (binding_total mode (subject_type_arg subject) server routing Hr Hs) as [b Hb]. rewrite Hb. exists b.
  split; [done|]. rewrite (binding_path _ _ _ _ _ Hb). unfold subject_type_arg.
  assert (E : dget "subject_type" subject = VStr type) by (unfold dget; unfold item in Ht; by rewrite Ht).
  by rewrite E, text_of_str.
Qed.

(** A mode that may be asked for takes effect as it is named. When an
    administrator's mode is accepted and stored, the subject's path is the
    one the mode names: the global mode for "global", the VPN for "enabled",
    blocked for "disabled", else the mode itself. When a user's mode is
    accepted, a subject with that override has it as its effective mode and
    path, whatever the global mode. *)
Theorem accepted_mode_takes_effect subject routing type global_mode mode actor server :
  env_emergency env = None -> has_columns ROUTING_COLUMNS routing -> target_row server ->
  item "subject_type" subject = Some (VStr type) ->
  item "desired_mode" routing = Some (VStr global_mode) -> global_mode ∈ USER_MODES ->
  (String.eqb actor "user" = false -> _validate_subject_mode subject mode actor = Some None ->
     exists effective binding,
       effective_policy env (dset "desired_mode" (VStr mode) subject) routing None server = Some (effective, binding) /\
       dget "dataplane_path" binding = VStr (mode_path mode global_mode)) /\
  (_validate_subject_mode subject mode "user" = Some None ->
     forall override, item "override_mode" override = Some (VStr mode) ->
     exists source binding,
       effective_policy env subject routing (Some override) server = Some (mode, source, binding) /\
       dget "dataplane_path" binding = VStr mode).
Proof.
  intros He Hr Hs Ht Hg Hgm. split.
  - intros Ha Hv. pose proof (admin_pair subject type mode actor Ht Ha Hv) as Hpair.
    assert (Ht' : item "subject_type" (dset "desired_mode" (VStr mode) subject) = Some (VStr type)).
    { unfold item. by rewrite dict_lookup_dset. }
    assert (Hd : item "desired_mode" (dset "desired_mode" (VStr mode) subject) = Some (VStr mode)).
    { unfold item. by rewrite dict_lookup_dset. }
    destruct (effective_mode_texts _ routing type _ mode global_mode None None Ht' Hd eq_refl Hg I) as [source Hm].
    destruct (policy_of_mode _ routing type None server _ source He Hr Hs Ht' Hm) as (b & Hb & Hpath).
    exists (mode_of_texts type mode global_mode None, source), b. split; [done|]. by rewrite Hpath, admin_pair_path.
  - intros Hv override Ho. destruct (user_allowed subject type mode Ht Hv) as (Hf & Hmode & desired & Hd & Hdg).
    destruct (effective_mode_texts subject routing type desired "global" global_mode (Some override) (Some mode)
                Ht Hd Hdg Hg Ho) as [source Hm].
    assert (Hfw : String.eqb type "fwrouter" = false) by (by destruct (String.eqb_spec type "fwrouter") as [->|]).
    assert (Em : mode_of_texts type "global" global_mode (Some mode) = mode).
    { unfold mode_of_texts. by rewrite Hfw, Hf. }
    rewrite Em in Hm. destruct (policy_of_mode subject routing type _ server mode source He Hr Hs Ht Hm) as (b & Hb & Hpath).
    exists source, b. split; [done|]. by rewrite Hpath, user_modes_path.
Qed.

(** ** The emergency *)

(** The modes the schema admits for a subject's [desired_mode]. *)
Definition SUBJECT_MODES : list string :=
  ["global"; "direct"; "selective"; "vpn"; "disabled"; "enabled"; "forced_vpn"].

(** No path of an emergency reaches the VPN, however the renderer normalises it. *)
Definition off_vpn (path : string) : Prop :=
  norm_lower_val (VStr path) <> "vpn" /\ norm_lower_val (VStr path) <> "selective".

Lemma path_in_emergency mode type : mode ∈ SUBJECT_MODES -> bool_decide (mode ∈ ["vpn"; "forced_vpn"; "selective"]) = false ->
  off_vpn (path_of_mode mode type).
Proof.
  intros Hm Hn%bool_decide_eq_false. unfold path_of_mode. destruct (String.eqb _ "fwrouter"); [by split|].
  unfold SUBJECT_MODES in Hm. rewrite !elem_of_cons in Hm.
  destruct Hm as [->|[->|[->|[->|[->|[->|[->|[]%elem_of_nil]]]]]]]; try (by split); exfalso; apply Hn; set_solver.
Qed.

Lemma emergency_policy subject routing user_override server mode source binding :
  is_set (env_emergency env) = true ->
  effective_policy env subject routing user_override server = Some (mode, source, binding) ->
  (forall m s, _effective_mode_with_override subject routing user_override = Some (m, s) -> m ∈ SUBJECT_MODES) ->
  exists path, dget "dataplane_path" binding = VStr path /\ off_vpn path.
Proof.
  intros He Hp Hm. unfold effective_policy in Hp. rewrite He in Hp. cbn [andb] in Hp.
  destruct (_effective_mode_with_override _ _ _) as [[m s]|]; [|done]. cbn [mbind option_bind fst] in Hp.
  destruct (_effective_binding m _ _ _) as [b|] eqn:Eb; [|done]. cbn [mbind option_bind] in Hp.
  destruct (bool_decide (m ∈ ["vpn"; "forced_vpn"; "selective"])) eqn:Ed.
  - destruct (_effective_binding "direct" _ _ _) as [b'|] eqn:Eb'; [|done]. injection Hp as <- <- <-.
    eexists. split; [by eapply binding_path|]. by apply path_in_emergency; [set_solver|].
  - injection Hp as <- <- <-. eexists. split; [by eapply binding_path|]. apply path_in_emergency; [by eapply Hm|done].
Qed.
End Policy.
