(* ===== verification/ManifestFacts.v ===== *)
(** * What the manifest guarantees to the renderer

    The builder of [RoutingManifest] and the renderer of [NftRender] taken
    together: bypass, the emergency, and the two tests for the VPN policy. *)
From stdpp Require Import base list strings pretty gmap sorting.
From Stdlib Require Import ZArith Lia Ascii.
From S2P Require Import Prelude PyStr IpAddr PyVal NetworkContract SubjectTaxonomy DockerPolicy ScopedEgress ScopedReadiness Nft NftSets NftGuards DataplaneRules NftRender NftText NftClosed NftSteer NftPolicy ScopedFacts DataplanePreflight SubjectPolicy RoutingManifest SubjectPolicyFacts.

Open Scope string_scope.
Open Scope Z_scope.
Open Scope list_scope.

(** ** Inversion *)

Lemma py_bind_some {A B} (o : py A) (f : A -> py B) y : (x ← o; f x) = Some y -> exists x, o = Some x /\ f x = Some y.
Proof. destruct o as [x|]; [|done]. intros Hy. by exists x. Qed.

Tactic Notation "py_inv" hyp(H) "as" simple_intropattern(x) ident(E) :=
  apply py_bind_some in H as (x & E & H).

Lemma py_map_forall {A B} (f : A -> py B) l ys : py_map f l = Some ys -> Forall2 (fun x y => f x = Some y) l ys.
Proof.
  revert ys. induction l as [|x l IH]; intros ys; cbn [py_map]; [intros [= <-]; constructor|].
  intros Hys. py_inv Hys as y E. py_inv Hys as ys' E'. injection Hys as <-. constructor; [done|by apply IH].
Qed.

Section Facts.
Context `{ReprContainer} `{Settings} `{LanHosts} `{NftSettings} `{RuleSources}.
Context (host : host_state) (env : policy_env).

(** The enriched subject: its own fields, the policy and the runtime. *)
Lemma enrich_inv subject routing user server runtime_enforcement bypass e :
  enrich_subject_with_effective_state env subject (Some routing) user server (Some runtime_enforcement) bypass = Some e ->
  exists u s mode source binding a r is_active subject_type desired_mode,
    let routing := default (_routing_snapshot (env_routing env)) (nonempty_dict (Some routing)) in
    resolve_override user (_load_active_user_override (env_tables env) (env_now env)) subject = Some u /\
    effective_policy env subject routing u s = Some (mode, source, binding) /\
    build_scoped_subject_runtime (env_bindings env) subject a = Some r /\
    dataplane_path a = py_str (dget "dataplane_path" binding) /\
    e = dset "effective_state"
          (VDict (effective_state_of desired_mode mode source binding routing u s runtime_enforcement r))
          (dset "lifecycle" (VDict (lifecycle_of is_active subject_type)) subject).
Proof.
  unfold enrich_subject_with_effective_state. cbv zeta. intros He.
  py_inv He as u Eu. py_inv He as s Es. py_inv He as re Ere. injection Ere as <-.
  py_inv He as [[mode source] binding] Ep. py_inv He as a Ea. py_inv He as r Er.
  py_inv He as act Eact. py_inv He as st Est. py_inv He as dm Edm. injection He as <-.
  exists u, s, mode, source, binding, a, r, act, st, dm. repeat split; try done.
  unfold scoped_args_of in Ea. py_inv Ea as vpn Evpn. by injection Ea as <-.
Qed.

Lemma enriched_field k v w (subject : dict) : String.eqb k "effective_state" = false -> String.eqb k "lifecycle" = false ->
  dget k (dset "effective_state" v (dset "lifecycle" w subject)) = dget k subject.
Proof. intros Hk1 Hk2. by rewrite !dget_dset, Hk1, Hk2. Qed.

(** ** The parts *)

Lemma parts_inv routing subjects extra p : manifest_parts_of host env routing subjects extra = Some p ->
  exists routing' subjects' preflight bounded normalized conflicts,
    let extra := default [] extra in
    let extra_data := dset "network_contract" (VDict network_contract_manifest) bounded in
    let bypass := bypass_on (as_dict (dget "core_bypass" extra_data)) in
    override_manifest_state (env_emergency env) routing subjects (truthy (dget "provider_vpn_reentry" extra))
      = Some (routing', subjects') /\
    build_global_preflight (host_inputs host routing' (as_dict (dget "rules_effective" extra))) = Some preflight /\
    _bounded_extra extra = Some bounded /\
    (if bypass then build_bypass_runtime_enforcement preflight else ready_runtime_enforcement preflight)
      = Some (mp_enforcement p) /\
    py_map (enrich_planned env routing' (mp_enforcement p) (as_dict (dget "core_bypass" extra_data))) subjects'
      = Some normalized /\
    (if bypass then Some [] else manifest_conflicts routing' extra_data normalized) = Some conflicts /\
    mp_routing p = routing' /\ mp_preflight p = preflight /\ mp_extra p = extra_data /\
    mp_core_bypass p = as_dict (dget "core_bypass" extra_data) /\
    mp_enriched p = fold_left mark_conflict conflicts normalized /\
    py_map manifest_subject (mp_enriched p) = Some (mp_subjects p) /\
    mp_requires_vpn p = _requires_vpn_policy_routing routing' (mp_enriched p) preflight bypass.
Proof.
  unfold manifest_parts_of. cbv zeta. intros Hp. py_inv Hp as [routing' subjects'] Eo. py_inv Hp as preflight Ef.
  py_inv Hp as bounded Eb. py_inv Hp as enf Ee. py_inv Hp as normalized En. py_inv Hp as conflicts Ec.
  py_inv Hp as ms Em. injection Hp as <-.
  exists routing', subjects', preflight, bounded, normalized, conflicts. by repeat split.
Qed.

(** ** Bypass *)

Lemma manifest_bypass plan_id reason generated_at input_data p egress :
  core_bypass_enabled (VDict (manifest_of plan_id reason generated_at input_data p egress)) =
  Some (bypass_on (as_dict (dget "core_bypass" (mp_extra p)))).
Proof.
  unfold core_bypass_enabled.
  change (dget "extra" (manifest_of plan_id reason generated_at input_data p egress)) with (VDict (mp_extra p)).
  unfold por. cbn [truthy].
  destruct (bool_decide (length (mp_extra p) = 0%nat)) eqn:E.
  - apply bool_decide_eq_true, length_zero_iff_nil in E. by rewrite E.
  - cbn [negb attr_get mbind option_bind]. f_equal. unfold bypass_on, get_in. by destruct (dget "core_bypass" (mp_extra p)).
Qed.

(** ** The subjects of the manifest *)

(** What the manifest takes over from an enriched subject. *)
Definition projected (s ms : dict) : Prop :=
  (forall k, k ∈ ["subject_id"; "subject_type"; "is_active"] -> dget k ms = dget k s) /\
  dget "dataplane_path" ms = get_in "dataplane_path" (dget "effective_state" s) /\
  dget "scoped_runtime" ms = VDict (_bounded_subject_runtime (get_in "scoped_runtime" (dget "effective_state" s))) /\
  dget "observed_docker_source" ms = vdict (_bounded_docker_source_inventory s) /\
  dget "effective_state" ms = VNone /\ dget "detail" ms = VNone.

Lemma item_dget k (d : dict) v : item k d = Some v -> dget k d = v.
Proof. unfold item, dget. by intros ->. Qed.

Lemma item_in_get k v w : item_in k v = Some w -> get_in k v = w.
Proof. destruct v; try discriminate. apply item_dget. Qed.

Lemma manifest_subject_projected s ms : manifest_subject s = Some ms -> projected s ms.
Proof.
  unfold manifest_subject. intros Hm.
  py_inv Hm as id Eid. py_inv Hm as type Etype. py_inv Hm as name Ename. py_inv Hm as mode Emode.
  py_inv Hm as state Estate. py_inv Hm as active Eactive. py_inv Hm as st Est. py_inv Hm as em Eem.
  py_inv Hm as src Esrc. py_inv Hm as path Epath. py_inv Hm as sid Esid. py_inv Hm as ssrc Essrc.
  py_inv Hm as l El. injection Hm as <-. apply item_dget in Est.
  unfold projected. rewrite Est.
  apply item_dget in Eid, Etype, Eactive. apply item_in_get in Epath.
  repeat split; try done. intros k Hk. rewrite !elem_of_cons in Hk.
  destruct Hk as [->|[->|[->|[]%elem_of_nil]]]; cbn [dget dict_lookup String.eqb Ascii.eqb Bool.eqb default]; done.
Qed.

Lemma omap_as_dict (l : list dict) : omap (M:=list) as_dict (map VDict l) = l.
Proof. induction l as [|d l IH]; [done|]. cbn [map]. change (d :: omap (M:=list) as_dict (map VDict l) = d :: l). by rewrite IH. Qed.

(** ** The marks of the guard *)

Definition runtime_in (s : dict) : pyval := get_in "scoped_runtime" (dget "effective_state" s).
Definition MARKED_KEYS : list string := ["applied"; "status"; "resolution_reason"].

(** What a mark leaves alone, and what it does to [applied]. *)
Record marked (s s' : dict) : Prop := Marked {
  marked_field : forall k, String.eqb k "effective_state" = false -> dget k s' = dget k s;
  marked_state : forall k, String.eqb k "scoped_runtime" = false ->
    get_in k (dget "effective_state" s') = get_in k (dget "effective_state" s);
  marked_dict : is_dict (dget "effective_state" s') = is_dict (dget "effective_state" s);
  marked_runtime_dict : is_dict (runtime_in s') = is_dict (runtime_in s);
  marked_runtime : forall k, k ∉ MARKED_KEYS -> get_in k (runtime_in s') = get_in k (runtime_in s);
  marked_applied : get_in "applied" (runtime_in s') = get_in "applied" (runtime_in s) \/
                   get_in "applied" (runtime_in s') = VBool false;
}.

#[local] Instance marked_preorder : PreOrder marked.
Proof.
  split; [intros s; constructor; auto|]. intros s1 s2 s3 [f1 t1 d1 r1 k1 a1] [f2 t2 d2 r2 k2 a2]. constructor.
  - intros k Hk. by rewrite f2, f1.
  - intros k Hk. by rewrite t2, t1.
  - by rewrite d2, d1.
  - by rewrite r2, r1.
  - intros k Hk. by rewrite k2, k1.
  - destruct a2 as [->|]; [exact a1|by right].
Qed.

Lemma mark_subject_marked text s : marked s (mark_subject text s).
Proof.
  unfold mark_subject. destruct (dget "effective_state" s) as [| | | | |es] eqn:Ees; try reflexivity.
  destruct (dget "scoped_runtime" es) as [| | | | |rt] eqn:Ert; try reflexivity.
  constructor; unfold runtime_in; rewrite ?dget_dset; cbn [String.eqb Ascii.eqb Bool.eqb get_in is_dict]; rewrite ?Ees;
    cbn [get_in is_dict]; rewrite ?dget_dset; cbn [String.eqb Ascii.eqb Bool.eqb get_in is_dict]; rewrite ?Ert; try done.
  - intros k Hk. by rewrite dget_dset, Hk.
  - intros k Hk. by rewrite dget_dset, Hk.
  - intros k Hk. unfold MARKED_KEYS in Hk. rewrite !not_elem_of_cons in Hk. cbn [get_in].
    destruct Hk as (H1' & H2' & H3' & _). apply String.eqb_neq in H1', H2', H3'. by rewrite !dget_dset, H1', H2', H3'.
  - right. cbn [get_in]. by rewrite !dget_dset.
Qed.

Lemma marked_refl_list l : Forall2 marked l l.
Proof. induction l; by constructor. Qed.

Lemma mark_first_marked id text l : Forall2 marked l (mark_first id text l).
Proof.
  induction l as [|s l IH]; cbn [mark_first]; [constructor|]. destruct (String.eqb _ id).
  - constructor; [apply mark_subject_marked|apply marked_refl_list].
  - by constructor.
Qed.

Lemma mark_conflicts_marked cs l : Forall2 marked l (fold_left mark_conflict cs l).
Proof.
  revert l. induction cs as [|c cs IH]; intros l; cbn [fold_left]; [apply marked_refl_list|].
  eapply transitivity; [|apply IH]. unfold mark_conflict. case_bool_decide; [apply mark_first_marked|apply marked_refl_list].
Qed.

Context (plan_id reason generated_at : string) (input_data : option dict).

Lemma manifest_subjects_of p egress :
  manifest_subjects (VDict (manifest_of plan_id reason generated_at input_data p egress)) = Some (mp_subjects p).
Proof.
  unfold manifest_subjects.
  change (dget "subjects" (manifest_of plan_id reason generated_at input_data p egress)) with (VList (map VDict (mp_subjects p))).
  unfold por. cbn [truthy]. destruct (bool_decide _) eqn:E.
  - apply bool_decide_eq_true, length_zero_iff_nil, map_eq_nil in E. by rewrite E.
  - cbn [negb iter_val mbind option_bind]. by rewrite omap_as_dict.
Qed.

(** ** The emergency *)

Lemma direct_if_routed_field key k s s' : direct_if_routed key s = Some s' -> String.eqb k key = false -> dget k s' = dget k s.
Proof.
  unfold direct_if_routed. intros Hs Hk. py_inv Hs as b Eb. injection Hs as <-. destruct b; [|done]. by rewrite dget_dset, Hk.
Qed.

Lemma direct_if_routed_planned key s s' : direct_if_routed key s = Some s' -> String.eqb "user_override" key = false ->
  String.eqb "effective_state" key = false ->
  _planned_subject_override s' "user_override" = _planned_subject_override s "user_override".
Proof.
  intros Hs Hk1 Hk2. unfold _planned_subject_override.
  by rewrite (direct_if_routed_field key "user_override" s s'), (direct_if_routed_field key "effective_state" s s').
Qed.

(** The override of the execution input leaves the requested mode and the planned user override alone. *)
Lemma override_subject_keeps s s' : override_subject s = Some s' ->
  dget "desired_mode" s' = dget "desired_mode" s /\
  _planned_subject_override s' "user_override" = _planned_subject_override s "user_override".
Proof.
  unfold override_subject. intros Hs. py_inv Hs as s1 E1. py_inv Hs as s2 E2.
  rewrite (direct_if_routed_field "effective_mode" "desired_mode" s2 s') by done.
  rewrite (direct_if_routed_field "dataplane_path" "desired_mode" s1 s2) by done.
  rewrite (direct_if_routed_planned "effective_mode" s2 s') by done.
  rewrite (direct_if_routed_planned "dataplane_path" s1 s2) by done. clear Hs E2.
  destruct (dget "effective_state" s) as [| | | | |state] eqn:Est; try (injection E1 as <-; done).
  py_inv E1 as routed Er. injection E1 as <-. destruct routed; [|done]. split; [by rewrite dget_dset|].
  unfold _planned_subject_override. rewrite !dget_dset. cbn [String.eqb Ascii.eqb Bool.eqb].
  destruct (dget "user_override" s); try done; rewrite Est; cbn [get_in];
    by rewrite !dget_dset.
Qed.

(** The rows the schema admits: the requested modes, and the modes of the user overrides that may apply. *)
Definition mode_in (modes : list string) (key : string) (d : dict) : Prop := exists m, dget key d = VStr m /\ m ∈ modes.

Definition admitted (s : dict) : Prop :=
  mode_in SUBJECT_MODES "desired_mode" s /\
  forall row, _planned_subject_override s "user_override" = Some row -> mode_in USER_MODES "override_mode" row.

Definition tables_admitted : Prop :=
  forall row, row ∈ user_rows (env_tables env) -> active_user_row (env_now env) row = true ->
  mode_in USER_MODES "override_mode" row.

Lemma user_mode_admitted s row : tables_admitted -> admitted s ->
  resolve_override (planned_arg s "user_override") (_load_active_user_override (env_tables env) (env_now env)) s = Some (Some row) ->
  mode_in USER_MODES "override_mode" row.
Proof.
  intros Ht [_ Hp] Hr. unfold planned_arg in Hr. destruct (_planned_subject_override s "user_override") as [d|] eqn:E.
  - injection Hr as ->. by apply Hp.
  - cbn [resolve_override] in Hr. py_inv Hr as id Eid. injection Hr as Hl. unfold _load_active_user_override in Hl.
    apply find_some in Hl as [Hin Ha]. apply andb_prop in Ha as [_ Ha]. apply Ht; [by apply list_elem_of_In|done].
Qed.

Lemma user_modes_subject m : m ∈ USER_MODES -> m ∈ SUBJECT_MODES.
Proof. unfold USER_MODES, SUBJECT_MODES. set_solver. Qed.

Lemma mode_of_item modes key (d : dict) v : mode_in modes key d -> item key d = Some v -> exists m, v = VStr m /\ m ∈ modes.
Proof. intros (m & Hd & Hm) Hi. apply item_dget in Hi. exists m. split; [congruence|done]. Qed.

(** With rows the schema admits the effective mode is one of the modes. *)
Lemma effective_mode_admitted s routing user m source :
  mode_in SUBJECT_MODES "desired_mode" s -> mode_in USER_MODES "desired_mode" routing ->
  (forall row, user = Some row -> mode_in USER_MODES "override_mode" row) ->
  _effective_mode_with_override s routing user = Some (m, source) -> m ∈ SUBJECT_MODES.
Proof.
  intros Hs Hr Hu Hm. unfold _effective_mode_with_override in Hm. py_inv Hm as type Et.
  destruct (String.eqb (py_str type) "fwrouter"); [injection Hm as <- _; unfold SUBJECT_MODES; set_solver|].
  unfold resolve_effective_capture_mode in Hm. py_inv Hm as type' Et'. py_inv Hm as mode Em.
  destruct (mode_of_item _ _ _ _ Hs Em) as (d & -> & Hd). cbn [py_str] in Hm.
  assert (Hov : forall row v, user = Some row -> item "override_mode" row = Some v -> py_str v ∈ SUBJECT_MODES).
  { intros row v E Ev. destruct (mode_of_item _ _ _ _ (Hu row E) Ev) as (u & -> & Hin). by apply user_modes_subject. }
  destruct (subject_follows_global_mode _).
  { destruct (String.eqb d "global"); [|injection Hm as <- _; done]. destruct user as [row|]; py_inv Hm as v Ev; injection Hm as <- _.
    - by eapply Hov.
    - destruct (mode_of_item _ _ _ _ Hr Ev) as (u & -> & Hin). by apply user_modes_subject. }
  destruct (is_explicit_external_client_subject_type _); [|injection Hm as <- _; done]. unfold _xray_effective_mode in Hm.
  repeat (case_match; [try (injection Hm as <- _; first [done|unfold SUBJECT_MODES; set_solver])|]);
    try (injection Hm as <- _; unfold SUBJECT_MODES; set_solver).
  all: try (py_inv Hm as v Ev; injection Hm as <- _; by eapply Hov).
Qed.

Lemma emergency_state e routing subjects routing' subjects' :
  override_manifest_state (Some e) routing subjects false = Some (routing', subjects') ->
  py_map override_subject subjects = Some subjects' /\
  routing' = dset "applied_mode" (VStr "direct") (dset "desired_mode" (VStr "direct") routing).
Proof. unfold override_manifest_state. cbn [orb is_set negb]. intros Ho. py_inv Ho as l El. by injection Ho as <- <-. Qed.

Lemma dset_nonempty k v (d : dict) : nonempty_dict (Some (dset k v d)) = Some (dset k v d).
Proof. destruct d as [|[k' v'] d]; [done|]. cbn [dset]. by destruct (String.eqb k k'). Qed.

Lemma emergency_subject routing enf core_bypass s e :
  is_set (env_emergency env) = true -> tables_admitted -> admitted s ->
  nonempty_dict (Some routing) = Some routing -> mode_in USER_MODES "desired_mode" routing ->
  enrich_planned env routing enf core_bypass s = Some e ->
  exists path, get_in "dataplane_path" (dget "effective_state" e) = VStr path /\ off_vpn path.
Proof.
  intros He Ht Hs Hne Hr (u & sv & mode & source & b & a & r & act & st & dm & Eu & Ep & _ & _ & ->)%enrich_inv.
  rewrite Hne in Ep. cbn [default] in Ep. rewrite dget_dset, String.eqb_refl.
  destruct (emergency_policy env s routing u sv mode source b He Ep) as (path & Hpath & Hoff).
  - intros m src. apply effective_mode_admitted; [apply Hs|done|]. intros row ->. by apply (user_mode_admitted s).
  - exists path. split; [exact Hpath|done].
Qed.

(** The renderer finds no VPN path in the manifest of an emergency. *)
Definition emergency_subjects (l : list dict) : Prop :=
  forall ms, ms ∈ l -> _resolved_subject_path ms <> "vpn" /\ _resolved_subject_path ms <> "selective".

Lemma forall2_in_r {A B} (R : A -> B -> Prop) l k y : Forall2 R l k -> y ∈ k -> exists x, x ∈ l /\ R x y.
Proof.
  induction 1 as [|x y' l k Hxy _ IH]; [by intros ?%elem_of_nil|]. intros [->|Hin]%elem_of_cons; [exists x; split; [by left|done]|].
  destruct (IH Hin) as (x' & ? & ?). exists x'. split; [by right|done].
Qed.

Lemma emergency_parts routing subjects extra p :
  is_set (env_emergency env) = true -> truthy (dget "provider_vpn_reentry" (default [] extra)) = false ->
  tables_admitted -> (forall s, s ∈ subjects -> admitted s) ->
  manifest_parts_of host env routing subjects extra = Some p ->
  emergency_subjects (mp_subjects p) /\ manifest_mode (mp_routing p) = "direct".
Proof.
  intros He Hre Ht Hs (r' & subjects' & pre & bounded & normalized & conflicts & Eo & _ & _ & _ & En & _ & Er & _ & _ & _ & Ee & Em & _)%parts_inv.
  rewrite Hre in Eo. destruct (env_emergency env) as [e|] eqn:Eenv; [|done].
  apply emergency_state in Eo as [Eo Er'].
  assert (Hd : dget "desired_mode" r' = VStr "direct") by (rewrite Er', !dget_dset; done).
  split; [|rewrite Er; unfold manifest_mode; by rewrite Hd].
  intros ms Hms. apply py_map_forall in Em, En, Eo.
  destruct (forall2_in_r _ _ _ ms Em Hms) as (s & Hin & Eproj). apply manifest_subject_projected in Eproj as (_ & Hpath & _ & _ & Hes & _).
  pose proof (mark_conflicts_marked conflicts normalized) as Hmarks. rewrite <- Ee in Hmarks.
  destruct (forall2_in_r _ _ _ s Hmarks Hin) as (n & Hn & Hmark).
  destruct (forall2_in_r _ _ _ n En Hn) as (s' & Hs' & Enr).
  destruct (forall2_in_r _ _ _ s' Eo Hs') as (s0 & Hs0 & Eov).
  destruct (override_subject_keeps s0 s' Eov) as [Hdm Hpl]. destruct (Hs s0 Hs0) as [Hadm Hadu].
  assert (Hadm' : admitted s').
  { split; [unfold mode_in; by rewrite Hdm|]. intros row. rewrite Hpl. apply Hadu. }
  destruct (emergency_subject r' (mp_enforcement p) _ s' n ltac:(by rewrite Eenv) Ht Hadm'
    ltac:(rewrite Er'; apply dset_nonempty) ltac:(exists "direct"; split; [done|unfold USER_MODES; set_solver]) Enr)
    as (path & Hp & Hoff1 & Hoff2).
  rewrite (marked_state _ _ Hmark), Hp in Hpath by done.
  unfold _resolved_subject_path. rewrite Hpath, Hes. destruct (negb _); split; done.
Qed.

Lemma view_parts m v : view_of m = Ok v -> exists subjects summary,
  manifest_subjects m = Some subjects /\ manifest_section "summary" m = Some summary /\
  v_mode v = mode_of summary /\ forall s r, (s, r) ∈ v_entries v -> s ∈ subjects.
Proof.
  intros (subjects & Hs%of_py_ok & (summary & Hm%of_py_ok & Hv)%result_bind_ok)%result_bind_ok.
  apply result_bind_ok in Hv as (preflight & _ & (counted & _ & (entries & He & [= <-])%result_bind_ok)%result_bind_ok).
  exists subjects, summary. repeat split; try done. intros s r Hin.
  destruct (collect_in _ _ _ He _ Hin) as (s' & Hs' & (m' & _ & [= -> ->])%result_bind_ok).
  apply list_elem_of_In, filter_In in Hs' as [Hs' _]. by apply list_elem_of_In.
Qed.

Lemma direct_decision k st l p :
  (forall s r, (s, r) ∈ l -> _resolved_subject_path s <> "vpn" /\ _resolved_subject_path s <> "selective") ->
  exists d, classify k "direct" st l p = d /\ (d = ToDirect \/ d = Blocked \/ d = Refused).
Proof.
  intros Hl. eexists. split; [reflexivity|]. unfold classify. destruct (always_direct k p); [by left|].
  assert (Hd : subjects_decision k st l p = Undecided \/ subjects_decision k st l p = ToDirect \/
               subjects_decision k st l p = Blocked \/ subjects_decision k st l p = Refused).
  { induction l as [|[s r] l IH]; [by left|]. cbn [subjects_decision].
    destruct (Hl s r ltac:(by left)) as [Hv Hs]. apply String.eqb_neq in Hv, Hs.
    assert (Hin : forall s r, (s, r) ∈ l -> _resolved_subject_path s <> "vpn" /\ _resolved_subject_path s <> "selective").
    { intros s' r' Hin. apply (Hl s' r'). by right. }
    unfold subject_decision. destruct r as [m|]; [|exact (IH Hin)]. destruct (addr_match _ _ _ _); [|exact (IH Hin)].
    unfold path_decision. rewrite Hv, Hs. destruct (String.eqb _ "blocked"); [destruct (_ || _); auto|].
    destruct (String.eqb _ "direct"); [auto|exact (IH Hin)]. }
  destruct Hd as [->|[->|[->| ->]]]; cbn [or_else]; auto.
Qed.

Lemma prerouting_direct k v p :
  has_mark (vpn_fwmark_hex (v_contour v)) p = false /\ has_mark (full_vpn_udp_fwmark_hex (v_contour v)) p = false ->
  v_mode v = "direct" ->
  (forall s r, (s, r) ∈ v_entries v -> _resolved_subject_path s <> "vpn" /\ _resolved_subject_path s <> "selective") ->
  exists verdict, prerouting_view k v p = (verdict, p).
Proof.
  intros [Hm1 Hm2] Hmode Hl. unfold prerouting_view, prerouting. destruct (excluded _ _ _ p) as [e|]; [by exists e|].
  destruct (direct_decision k (v_state v) (v_entries v) p Hl) as (d & Hd & Hcases). rewrite Hmode, Hd.
  destruct Hcases as [->|[->| ->]]; cbn [apply_decision]; eauto. exists VAccept. by rewrite tproxy_unmarked.
Qed.

(** C3: In a provider emergency no packet reaches the VPN. While the
    emergency is on and the apply is no re-entry, for any routing state, any
    subjects and overrides whose modes the schema admits and any extra data,
    the table rendered from the manifest passes every packet that arrives
    without a mark through prerouting unchanged: it is accepted, refused or
    dropped, and never marked or handed to a listener. *)
Theorem emergency_never_vpn routing subjects extra manifest loader t k p :
  is_set (env_emergency env) = true -> truthy (dget "provider_vpn_reentry" (default [] extra)) = false ->
  tables_admitted -> (forall s, s ∈ subjects -> admitted s) ->
  build_dataplane_manifest_from_state host env plan_id reason generated_at routing subjects input_data extra = Some manifest ->
  owned_table (VDict manifest) loader = Ok t -> unmarked (VDict manifest) p ->
  exists v, run_hook k 3 (cand_chains t) "prerouting" p = Some (v, p).
Proof.
  intros He Hre Ht Hs Hb Hr Hu. unfold build_dataplane_manifest_from_state in Hb. py_inv Hb as parts Ep. py_inv Hb as egress Eg.
  injection Hb as <-. destruct (emergency_parts routing subjects extra parts He Hre Ht Hs Ep) as [Hsub Hmode].
  set (m := VDict (manifest_of plan_id reason generated_at input_data parts egress)) in *.
  destruct (core_bypass_enabled m) as [[|]|] eqn:Eb.
  - apply owned_table_rendered in Hr as [_|]; [|congruence]. by exists VAccept.
  - destruct (prerouting_rendered m loader t Hr Eb) as (v & Hv & Hrun). rewrite Hrun.
    destruct (view_parts m v Hv) as (l & summary & Hl & Hsum & Hvm & Hin).
    unfold m in Hl. rewrite manifest_subjects_of in Hl. injection Hl as <-. injection Hsum as <-.
    destruct (prerouting_direct k v p) as [verdict ->]; [by apply (view_unmarked m)| | |by exists verdict].
    + rewrite Hvm. unfold mode_of.
      change (dget "global_mode" _) with (VStr (manifest_mode (mp_routing parts))). by rewrite Hmode.
    + intros s r Hsr. by apply Hsub, (Hin s r).
  - unfold owned_table in Hr. by rewrite Eb in Hr.
Qed.

(** ** The two tests for the VPN policy *)

Definition plain_char (c : ascii) : bool := negb (is_space c) && (code c <? 128)%N.

Lemma upper_no_space c : is_upper_alpha c = true -> is_space c = false.
Proof.
  unfold is_upper_alpha, is_space. intros [Hlo%N.leb_le _]%andb_prop. apply orb_false_iff.
  split; apply andb_false_iff; right; apply N.leb_gt; lia.
Qed.

(** A text whose lower case is plain has no spaces. *)
Lemma lower_plain text : all_chars plain_char (py_lower text) = true -> no_space text = true.
Proof.
  unfold no_space. induction text as [|c text IH]; [done|]. cbn [py_lower all_chars].
  destruct (is_upper_alpha c) eqn:Eu.
  { cbn [all_chars]. intros [_ Ht]%andb_prop. by rewrite (upper_no_space c), IH. }
  destruct (code c =? 208)%N eqn:Ec.
  { apply N.eqb_eq in Ec. assert (Hc : plain_char c = false) by (unfold plain_char; rewrite Ec; by rewrite andb_false_r).
    destruct text as [|d text']; [cbn [all_chars]; by rewrite Hc|].
    repeat case_match; cbn [all_chars]; try (by rewrite Hc); by intros [? _]%andb_prop. }
  cbn [all_chars]. intros [[Hc _]%andb_prop Ht]%andb_prop. by rewrite Hc, IH.
Qed.

Lemma lower_strip text : py_lower text = "vpn" -> py_lower (py_strip text) = "vpn".
Proof. intros E. rewrite py_strip_no_space; [done|]. apply lower_plain. by rewrite E. Qed.

(** The parts of a manifest whose guard has run. *)
Definition projection (p : manifest_parts) : Prop := Forall2 projected (mp_enriched p) (mp_subjects p).

Lemma parts_projection routing subjects extra p : manifest_parts_of host env routing subjects extra = Some p -> projection p.
Proof.
  intros (? & ? & ? & ? & ? & ? & _ & _ & _ & _ & _ & _ & _ & _ & _ & _ & _ & Em & _)%parts_inv.
  apply py_map_forall in Em. eapply Forall2_impl; [exact Em|]. apply manifest_subject_projected.
Qed.

Lemma asks_again reaches s ms : projected s ms ->
  is_active ms && subject_requires_vpn reaches ms = true -> asks_vpn reaches s = true.
Proof.
  intros (Hf & Hpath & _) [Ha [Hn Hp]%andb_prop]%andb_prop.
  assert (Ht : type_text ms = type_text s) by (unfold type_text; rewrite Hf by set_solver; done).
  assert (Ea : is_active s = true) by (unfold is_active in *; rewrite <- Hf by set_solver; done).
  unfold asks_vpn. rewrite Ea, <- Ht, Hn. cbn [andb]. rewrite Hpath in Hp.
  destruct (dget "effective_state" s) as [| | | | |es] eqn:Ees; try (by vm_compute in Hp). cbn [get_in] in Hp.
  assert (E : manifest_path s es = norm_lower_val (dget "dataplane_path" es)); [|by rewrite E].
  unfold manifest_path. unfold por at 1. destruct (truthy (dget "dataplane_path" es)) eqn:Et; [done|].
  exfalso. unfold norm_lower_val, por in Hp. rewrite Et in Hp. by vm_compute in Hp.
Qed.

Lemma forall2_existsb {A B} (R : A -> B -> Prop) (f : A -> bool) (g : B -> bool) l k :
  Forall2 R l k -> (forall x y, R x y -> g y = true -> f x = true) -> existsb g k = true -> existsb f l = true.
Proof.
  intros Hl Hfg. rewrite !existsb_exists. intros (y & Hy%list_elem_of_In & Hg).
  destruct (forall2_in_r R l k y Hl Hy) as (x & Hx & Hxy). exists x. split; [by apply list_elem_of_In|by eapply Hfg].
Qed.

(** [selective_reaches_vpn] of the builder. *)
Definition builder_reaches (p : manifest_parts) : bool :=
  truthy (get_in "requires_vpn_runtime" (dget "selective_rules" (mp_preflight p)))
  || String.eqb (py_lower (py_strip (resolve_selective_default (mp_routing p)))) "vpn".

Lemma por_text text (dflt : string) : py_str (por (VStr text) (VStr dflt)) = if String.eqb text "" then dflt else text.
Proof. unfold por. cbn [truthy]. by destruct (String.eqb text ""). Qed.

Lemma reaches_again p egress v :
  selective_reaches_vpn (dset "vpn_policy_required" v (mp_preflight p))
    (selective_default_of (manifest_summary p egress)) = true -> builder_reaches p = true.
Proof.
  unfold selective_reaches_vpn, builder_reaches, selective_default_of. rewrite dget_dset. cbn [String.eqb Ascii.eqb Bool.eqb].
  change (dget "selective_default" (manifest_summary p egress)) with (VStr (resolve_selective_default (mp_routing p))).
  intros [->|Hd]%orb_true_iff; [done|]. apply orb_true_iff. right. rewrite por_text in Hd. apply String.eqb_eq in Hd.
  apply String.eqb_eq. destruct (String.eqb_spec (resolve_selective_default (mp_routing p)) ""); [discriminate|].
  by apply lower_strip.
Qed.

Lemma mode_again p egress mode : mode_of (manifest_summary p egress) = mode -> mode ∈ ["vpn"; "selective"] ->
  py_lower (py_strip (manifest_mode (mp_routing p))) = mode.
Proof.
  unfold mode_of. change (dget "global_mode" (manifest_summary p egress)) with (VStr (manifest_mode (mp_routing p))).
  rewrite por_text. intros Hm Hin. rewrite !elem_of_cons in Hin. destruct (String.eqb _ "").
  - destruct Hin as [->|[->|[]%elem_of_nil]]; discriminate.
  - rewrite Hm. by destruct Hin as [->|[->|[]%elem_of_nil]].
Qed.

Lemma existsb_filter {A} (f g : A -> bool) l : existsb f (List.filter g l) = existsb (fun x => g x && f x) l.
Proof. induction l as [|x l IH]; [done|]. cbn [List.filter existsb]. destruct (g x); cbn [existsb andb]; by rewrite IH. Qed.

Lemma requires_reaches (reaches reaches' : bool) ms : (reaches = true -> reaches' = true) ->
  subject_requires_vpn reaches ms = true -> subject_requires_vpn reaches' ms = true.
Proof.
  unfold subject_requires_vpn. intros Hr [-> [->|[Hs Hre]%andb_prop]%orb_true_iff]%andb_prop; [done|].
  by rewrite Hs, (Hr Hre), orb_true_r.
Qed.

(** C23: Builder and renderer agree on whether the VPN policy is required.
    The renderer decides it again from the summary, the preflight and the
    bounded subjects of the manifest; for every manifest that is not in bypass
    it comes to the builder's answer, which the summary and the preflight
    carry. *)
Theorem vpn_policy_agreed routing subjects extra manifest summary preflight ms :
  build_dataplane_manifest_from_state host env plan_id reason generated_at routing subjects input_data extra = Some manifest ->
  core_bypass_enabled (VDict manifest) = Some false ->
  manifest_section "summary" (VDict manifest) = Some summary ->
  manifest_section "global_preflight" (VDict manifest) = Some preflight ->
  manifest_subjects (VDict manifest) = Some ms ->
  vpn_policy_required summary preflight (mode_of summary) (selective_default_of summary) (List.filter is_active ms)
  = truthy (dget "requires_vpn_policy_routing" summary).
Proof.
  intros Hb Hby Hsum Hpre Hms. unfold build_dataplane_manifest_from_state in Hb. py_inv Hb as p Ep. py_inv Hb as egress Eg.
  injection Hb as <-. rewrite manifest_subjects_of in Hms. injection Hms as <-. injection Hsum as <-. injection Hpre as <-.
  rewrite manifest_bypass in Hby. injection Hby as Hby.
  pose proof (parts_projection _ _ _ _ Ep) as Hproj.
  apply parts_inv in Ep as (r' & ? & pre & bounded & ? & ? & _ & _ & _ & _ & _ & _ & Er & Epre & Eex & _ & _ & _ & Ereq).
  rewrite <- Eex, Hby, <- Er, <- Epre in Ereq. clear Er Epre Eex. unfold _requires_vpn_policy_routing in Ereq.
  unfold vpn_policy_required. change (dget "requires_vpn_policy_routing" (manifest_summary p egress)) with (VBool (mp_requires_vpn p)).
  cbn [truthy]. destruct (mp_requires_vpn p) eqn:Ev; [done|]. cbn [orb]. rewrite dget_dset, String.eqb_refl. cbn [truthy orb].
  symmetry in Ereq. fold (manifest_mode (mp_routing p)) in Ereq. fold (builder_reaches p) in Ereq.
  apply orb_false_elim in Ereq as [[Hvpn Hsel]%orb_false_elim Hsub].
  apply orb_false_iff. split; [apply orb_false_iff; split|].
  - apply not_true_is_false. intros Hm%String.eqb_eq. by rewrite (mode_again p egress "vpn" Hm) in Hvpn by set_solver.
  - apply not_true_is_false. intros [Hm%String.eqb_eq Hr%reaches_again]%andb_prop.
    by rewrite (mode_again p egress "selective" Hm), Hr in Hsel by set_solver.
  - apply not_true_is_false. intros Hex. rewrite existsb_filter in Hex.
    eapply (forall2_existsb projected (asks_vpn (builder_reaches p))) in Hex; [by rewrite Hex in Hsub|exact Hproj|].
    intros s ms Hs [Ha Hn]%andb_prop. apply (asks_again _ s ms Hs). rewrite Ha. cbn [andb].
    eapply requires_reaches; [|exact Hn]. apply reaches_again.
Qed.

(** ** Bypass, from the extra data to the packets *)

Lemma bounded_item_other bounded kv b k : bounded_item bounded kv = Some b ->
  String.eqb k kv.1 = false -> String.eqb k "rules_effective_summary" = false -> dget k b = dget k bounded.
Proof.
  destruct kv as [key value]. cbn [fst]. intros Hb Hk Hs. unfold bounded_item in Hb.
  assert (Hput : forall v, Some (dset key v bounded) = Some b -> dget k b = dget k bounded).
  { intros v [= <-]. by rewrite dget_dset, Hk. }
  destruct value as [| | | |l|d]; try (by eapply Hput).
  - destruct (String.eqb key "infrastructure_ipv4"); [|by eapply Hput]. destruct (_ <? _)%nat; [done|].
    py_inv Hb as addresses Ea. by eapply Hput.
  - destruct (String.eqb key "rules_effective"); [|destruct (String.eqb key "core_bypass"); by eapply Hput].
    injection Hb as <-. by rewrite !dget_dset, Hs, Hk.
Qed.

Lemma bounded_core_bypass bounded value b : bounded_item bounded ("core_bypass", value) = Some b ->
  bypass_on (as_dict (dget "core_bypass" b)) = truthy (get_in "enabled" value).
Proof.
  unfold bounded_item. cbn [String.eqb Ascii.eqb Bool.eqb]. destruct value as [| | | |l|d]; intros [= <-]; by rewrite dget_dset.
Qed.

Lemma bounded_items_bypass items : NoDup (map fst items) -> forall bounded b, bounded_items items bounded = Some b ->
  bypass_on (as_dict (dget "core_bypass" b)) =
  match dict_lookup "core_bypass" items with
  | Some value => truthy (get_in "enabled" value)
  | None => bypass_on (as_dict (dget "core_bypass" bounded))
  end.
Proof.
  induction items as [|[k v] items IH]; intros Hnd bounded b; cbn [bounded_items dict_lookup]; [by intros [= <-]|].
  intros Hb. py_inv Hb as b' Eb. cbn [map fst] in Hnd. apply NoDup_cons in Hnd as [Hn Hnd].
  rewrite (IH Hnd b' b Hb). destruct (String.eqb_spec "core_bypass" k) as [<-|Hne].
  - destruct (dict_lookup "core_bypass" items) as [w|] eqn:E; [|by apply (bounded_core_bypass bounded)].
    exfalso. apply Hn. clear -E. induction items as [|[k v] items IH]; [done|]. cbn [dict_lookup map fst] in *.
    destruct (String.eqb_spec "core_bypass" k); [subst; by left|right; by apply IH].
  - destruct (dict_lookup "core_bypass" items); [done|]. apply String.eqb_neq in Hne.
    by rewrite (bounded_item_other bounded (k, v) b').
Qed.

(** C33: Bypass from end to end. For extra data with distinct keys, the
    renderer takes a built manifest for bypass exactly when the extra data
    enable the core bypass. It then renders the table whatever routing,
    subjects and rules say: each hook accepts every packet unchanged, and the
    manifest asks for no VPN policy. *)
Theorem bypass_end_to_end routing subjects extra manifest :
  NoDup (map fst extra) ->
  build_dataplane_manifest_from_state host env plan_id reason generated_at routing subjects input_data (Some extra)
    = Some manifest ->
  let enabled := truthy (get_in "enabled" (dget "core_bypass" extra)) in
  core_bypass_enabled (VDict manifest) = Some enabled /\
  (enabled = true ->
     get_in "requires_vpn_policy_routing" (dget "summary" manifest) = VBool false /\
     forall loader, exists t, owned_table (VDict manifest) loader = Ok t /\
       forall name, name ∈ BASE_CHAINS -> forall k p, run_hook k 3 (cand_chains t) name p = Some (VAccept, p)).
Proof.
  intros Hnd Hb enabled. unfold build_dataplane_manifest_from_state in Hb. py_inv Hb as p Ep. py_inv Hb as egress Eg.
  injection Hb as <-.
  apply parts_inv in Ep as (r' & ? & pre & bounded & ? & ? & _ & _ & Eb & _ & _ & _ & _ & _ & Eex & _ & _ & _ & Ereq).
  assert (Hen : bypass_on (as_dict (dget "core_bypass" (mp_extra p))) = enabled).
  { rewrite Eex, dget_dset. cbn [String.eqb Ascii.eqb Bool.eqb].
    rewrite (bounded_items_bypass extra Hnd [] bounded Eb). unfold enabled, dget. by destruct (dict_lookup "core_bypass" extra). }
  assert (Hcore : core_bypass_enabled (VDict (manifest_of plan_id reason generated_at input_data p egress)) = Some enabled)
    by (by rewrite manifest_bypass, Hen).
  split; [exact Hcore|]. intros Ht. rewrite Ht in Hcore, Hen. split; [|intros loader; by apply bypass_inert].
  change (VBool (mp_requires_vpn p) = VBool false). rewrite Ereq, <- Eex, Hen. done.
Qed.
End Facts.
