(* ===== verification/ManifestGuardFacts.v ===== *)
(** * Builder and renderer run the same guard

    The builder runs the Docker guard on the enriched subjects, the renderer
    on the bounded subjects of the manifest, which carry an observation in
    place of the raw detail.  The two come to the same answer. *)
From stdpp Require Import base list strings pretty gmap sorting.
From Stdlib Require Import ZArith Lia Ascii.
From S2P Require Import Prelude PyStr IpAddr IpAddrFacts PyVal NetworkContract SubjectTaxonomy DockerPolicy DockerPolicyFacts ScopedEgress ScopedReadiness ScopedFacts Nft NftSets NftGuards DataplaneRules NftRender DataplanePreflight SubjectPolicy RoutingManifest ManifestFacts.

Open Scope string_scope.
Open Scope Z_scope.
Open Scope list_scope.

(** ** Two lists of subjects the guard cannot tell apart *)

(** What the guard reads of a runtime: what describes the source, and what the builder decided. *)
Definition SOURCE_KEYS : list string := ["matcher"; "infrastructure_role"; "direct_source_coverage"].
Definition GUARD_KEYS : list string := SOURCE_KEYS ++ ["status"; "applied"].

Section Same.
Context `{ReprContainer}.

(** Alike but for the status and whether the runtime is applied. *)
Record guard_alike (s s' : dict) : Prop := GuardAlike {
  gs_field : forall k, k ∈ ["subject_id"; "subject_type"; "is_active"] -> dget k s' = dget k s;
  gs_path : path_of s' = path_of s;
  gs_runtime : forall k, k ∈ SOURCE_KEYS -> get_in k (runtime_of s') = get_in k (runtime_of s);
  gs_source : type_text s = "docker" ->
    host_network_of s' = host_network_of s /\ _docker_ipv4_addresses s' = _docker_ipv4_addresses s /\
    direct_inventory s' = direct_inventory s;
}.

Record guard_same (s s' : dict) : Prop := GuardSame {
  gs_alike : guard_alike s s';
  gs_status : get_in "status" (runtime_of s') = get_in "status" (runtime_of s);
  gs_applied : get_in "applied" (runtime_of s') = get_in "applied" (runtime_of s);
}.

Section Pair.
Context (s s' : dict) (Hs : guard_alike s s').

Lemma same_field k : bool_decide (k ∈ ["subject_id"; "subject_type"; "is_active"]) = true -> dget k s' = dget k s.
Proof. intros Hk%bool_decide_eq_true. by apply gs_field. Qed.

Lemma same_runtime k : bool_decide (k ∈ SOURCE_KEYS) = true -> get_in k (runtime_of s') = get_in k (runtime_of s).
Proof. intros Hk%bool_decide_eq_true. by apply gs_runtime. Qed.

Lemma same_id : subject_id_of s' = subject_id_of s.
Proof. unfold subject_id_of. by rewrite same_field. Qed.

Lemma same_type : type_text s' = type_text s.
Proof. unfold type_text. by rewrite same_field. Qed.

Lemma same_docker : is_docker s' = is_docker s.
Proof. unfold is_docker. by rewrite same_field. Qed.

Lemma same_active : is_active s' = is_active s.
Proof. unfold is_active. by rewrite same_field. Qed.

Lemma same_path_is path : same_path s' path = same_path s path.
Proof. unfold same_path. by rewrite (gs_path _ _ Hs). Qed.

Lemma same_role : infrastructure_role s' = infrastructure_role s.
Proof. unfold infrastructure_role. by rewrite same_runtime. Qed.

Lemma same_matcher : matcher_of s' = matcher_of s.
Proof. unfold matcher_of. by rewrite same_runtime. Qed.

Lemma same_subject_ipv4 : _subject_ipv4 s' = _subject_ipv4 s.
Proof. unfold _subject_ipv4. by rewrite same_runtime. Qed.

Lemma docker_type : is_docker s = true -> type_text s = "docker".
Proof.
  unfold is_docker, eq_str, type_text. destruct (dget "subject_type" s); try discriminate. cbn [py_eq].
  intros ->%String.eqb_eq. done.
Qed.

Lemma same_values g g' : routed_mode g' = routed_mode g -> values_supported g' s' = values_supported g s.
Proof.
  intros Hg. unfold values_supported. rewrite same_docker, (gs_path _ _ Hs), Hg, same_role.
  destruct (is_docker s) eqn:E; [|done]. apply docker_type in E. by destruct (gs_source _ _ Hs E) as (-> & _).
Qed.

Lemma same_candidate g g' : routed_mode g' = routed_mode g -> direct_candidate g' s' = direct_candidate g s.
Proof. intros Hg. unfold direct_candidate. by rewrite (same_values g g' Hg), same_active. Qed.

Lemma candidate_docker g : direct_candidate g s = true -> type_text s = "docker".
Proof. unfold direct_candidate, values_supported. intros Hc. bool_simpl. by apply docker_type. Qed.

Lemma same_direct_source g g' : routed_mode g' = routed_mode g -> direct_source_of g' s' = direct_source_of g s.
Proof.
  intros Hg. unfold direct_source_of. rewrite (same_candidate g g' Hg).
  destruct (direct_candidate g s) eqn:E; [|done]. apply candidate_docker in E. by destruct (gs_source _ _ Hs E) as (_ & _ & ->).
Qed.

Lemma same_inventory : type_text s = "docker" ->
  inventory_or_matcher s' = inventory_or_matcher s /\ source_addresses s' = source_addresses s.
Proof.
  intros Ht. unfold inventory_or_matcher, source_addresses. rewrite same_subject_ipv4.
  by destruct (gs_source _ _ Hs Ht) as (_ & -> & _).
Qed.

Lemma same_vpn : is_vpn_subject s' = is_vpn_subject s.
Proof. unfold is_vpn_subject. by rewrite same_type, same_active, same_path_is. Qed.
End Pair.

(** *** With the same status *)

Lemma same_direct_conflicts s s' g g' : guard_same s s' -> routed_mode g' = routed_mode g ->
  direct_conflicts_of g' s' = direct_conflicts_of g s.
Proof.
  intros [Hs Hst _] Hg. unfold direct_conflicts_of, coverage_incomplete, has_values.
  rewrite (same_matcher _ _ Hs), (same_id _ _ Hs), (same_values _ _ Hs g g' Hg), (same_candidate _ _ Hs g g' Hg), Hst.
  destruct (direct_candidate g s) eqn:E; [|done]. apply candidate_docker in E. by destruct (gs_source _ _ Hs E) as (_ & _ & ->).
Qed.

Lemma same_protected s s' : guard_same s s' -> protected_addresses_of s' = protected_addresses_of s.
Proof.
  intros [Hs _ Ha]. unfold protected_addresses_of, is_protected_subject.
  rewrite (same_type _ _ Hs), (same_active _ _ Hs), !(same_path_is _ _ Hs), (same_role _ _ Hs), (same_subject_ipv4 _ _ Hs), Ha.
  destruct (String.eqb_spec (type_text s) "docker") as [Ht|]; [|done]. by destruct (same_inventory _ _ Hs Ht) as [-> _].
Qed.

(** Positions kept. *)
Definition at_same (R : dict -> dict -> Prop) (x x' : nat * dict) : Prop := x'.1 = x.1 /\ R x.2 x'.2.

Lemma enum_same R l l' : Forall2 R l l' -> forall i,
  Forall2 (at_same R) (enum_from i (map VDict l)) (enum_from i (map VDict l')).
Proof. induction 1; intros i; cbn [map enum_from]; constructor; auto. by split. Qed.

Lemma forall2_flat_map {A B} (R : A -> A -> Prop) (f g : A -> list B) l l' : Forall2 R l l' ->
  (forall x y, R x y -> g y = f x) -> flat_map g l' = flat_map f l.
Proof. intros Hl Hfg. induction Hl as [|x y l l' Hxy _ IH]; [done|]. cbn [flat_map]. by rewrite (Hfg x y Hxy), IH. Qed.

Lemma forall2_map {A B} (R : A -> A -> Prop) (f g : A -> B) l l' : Forall2 R l l' ->
  (forall x y, R x y -> g y = f x) -> map g l' = map f l.
Proof. intros Hl Hfg. induction Hl as [|x y l l' Hxy _ IH]; [done|]. cbn [map]. by rewrite (Hfg x y Hxy), IH. Qed.

Lemma forall2_filter {A} (R : A -> A -> Prop) (f g : A -> bool) l l' : Forall2 R l l' ->
  (forall x y, R x y -> g y = f x) ->
  Forall2 (fun x y => R x y /\ f x = true) (List.filter f l) (List.filter g l').
Proof.
  intros Hl Hfg. induction Hl as [|x y l l' Hxy _ IH]; [done|]. cbn [List.filter]. rewrite (Hfg x y Hxy).
  destruct (f x) eqn:E; [by constructor|done].
Qed.

Lemma forall2_existsb_eq {A} (R : A -> A -> Prop) (f g : A -> bool) l l' : Forall2 R l l' ->
  (forall x y, R x y -> g y = f x) -> existsb g l' = existsb f l.
Proof. intros Hl Hfg. induction Hl as [|x y l l' Hxy _ IH]; [done|]. cbn [existsb]. by rewrite (Hfg x y Hxy), IH. Qed.

Lemma forall2_omap {A B} (R : A -> A -> Prop) (f g : A -> option B) l l' : Forall2 R l l' ->
  (forall x y, R x y -> g y = f x) -> omap (M:=list) g l' = omap (M:=list) f l.
Proof.
  intros Hl Hfg. induction Hl as [|x y l l' Hxy _ IH]; [done|]. cbn [omap list_omap]. rewrite (Hfg x y Hxy).
  change (list_omap A B g l') with (omap (M:=list) g l'). rewrite IH. done.
Qed.

Lemma same_alike l l' : Forall2 guard_same l l' -> Forall2 guard_alike l l'.
Proof. intros Hl. eapply Forall2_impl; [exact Hl|]. by intros s s' []. Qed.

Section Lists.
Context (ds ds' : list (nat * dict)) (Hds : Forall2 (at_same guard_alike) ds ds').

Lemma same_overlap_conflict s s' : guard_alike s s' -> overlap_conflict s' = overlap_conflict s.
Proof. intros Hs. unfold overlap_conflict. by rewrite (same_id _ _ Hs). Qed.

Lemma same_shares i A x x' : at_same guard_alike x x' -> shares_with_indirect i A x' = shares_with_indirect i A x.
Proof.
  intros [Hi Hs]. unfold shares_with_indirect. rewrite Hi, (same_docker _ _ Hs), (same_active _ _ Hs), (same_path_is _ _ Hs).
  destruct (is_docker x.2) eqn:E; [|by rewrite !andb_false_r].
  by destruct (same_inventory _ _ Hs (docker_type _ E)) as [-> _].
Qed.

Lemma same_overlaps g g' x x' : routed_mode g' = routed_mode g -> at_same guard_alike x x' ->
  direct_overlaps g' ds' x' = direct_overlaps g ds x.
Proof.
  intros Hg [Hi Hs]. unfold direct_overlaps. rewrite (same_direct_source _ _ Hs g g' Hg), Hi.
  destruct (direct_source_of g x.2) as [A|]; [|done].
  eapply forall2_map; [apply (forall2_filter _ _ _ _ _ Hds)|].
  - intros y y' Hy. by apply same_shares.
  - intros _ _ _. by apply same_overlap_conflict.
Qed.

Lemma same_ambiguous i A x x' : at_same guard_alike x x' -> is_ambiguous i A x' = is_ambiguous i A x.
Proof.
  intros [Hi Hs]. unfold is_ambiguous. rewrite Hi, (same_type _ _ Hs).
  destruct (String.eqb_spec (type_text x.2) "docker") as [Ht|]; [|by rewrite !andb_false_r].
  by destruct (same_inventory _ _ Hs Ht) as [_ ->].
Qed.

End Lists.

Section SameLists.
Context (ds ds' : list (nat * dict)) (Hds : Forall2 (at_same guard_same) ds ds').

Lemma same_protected_addresses : protected_addresses ds' = protected_addresses ds.
Proof.
  unfold protected_addresses. f_equal. eapply forall2_map; [exact Hds|]. intros x y [_ Hxy]. by apply same_protected.
Qed.

Lemma same_vpn_conflict networks x x' : at_same guard_same x x' -> type_text x.2 = "docker" ->
  vpn_conflict ds' networks x' = vpn_conflict ds networks x.
Proof.
  intros [Hi [Hs _ Ha]] Ht. destruct x as [i s], x' as [i' s']. cbn [fst snd] in *. subst i'. unfold vpn_conflict.
  destruct (same_inventory _ _ Hs Ht) as [_ ->].
  rewrite (same_role _ _ Hs), (same_id _ _ Hs), (same_subject_ipv4 _ _ Hs), Ha, same_protected_addresses.
  rewrite (same_overlap_conflict _ _ Hs).
  by rewrite (forall2_existsb_eq _ (is_ambiguous i (source_addresses s)) (is_ambiguous i (source_addresses s)) _ _ Hds)
    by (intros x y [Hi' [Hs' _ _]]; by apply same_ambiguous).
Qed.
End SameLists.

Lemma vpn_subject_docker s : is_vpn_subject s = true -> type_text s = "docker".
Proof. unfold is_vpn_subject. intros Hv. bool_simpl. by apply String.eqb_eq. Qed.

(** The guard reads nothing else. *)
Lemma guard_congruence l l' ips ips' g g' :
  Forall2 guard_same l l' -> routed_mode g' = routed_mode g ->
  py_map infrastructure_network ips' = py_map infrastructure_network ips ->
  docker_vpn_immunity_conflicts (map VDict l') ips' g' = docker_vpn_immunity_conflicts (map VDict l) ips g.
Proof.
  intros Hl Hg Hips. pose proof (enum_same _ l l' Hl 0) as Hds. pose proof (enum_same _ l l' (same_alike l l' Hl) 0) as Hda. unfold docker_vpn_immunity_conflicts, dict_subjects. cbv zeta.
  rewrite Hg, Hips.
  rewrite (forall2_flat_map (at_same guard_same) (fun x => direct_conflicts_of g x.2) (fun x => direct_conflicts_of g' x.2) _ _ Hds)
    by (intros x y [_ Hxy]; by apply same_direct_conflicts).
  rewrite (forall2_flat_map (at_same guard_same) (direct_overlaps g (enum_from 0 (map VDict l)))
             (direct_overlaps g' (enum_from 0 (map VDict l'))) _ _ Hds)
    by (intros x y [Hi [Hxy _ _]]; by apply same_overlaps).
  pose proof (forall2_filter (at_same guard_same) (fun x => is_vpn_subject x.2) (fun x => is_vpn_subject x.2) _ _ Hds
                ltac:(intros x y [_ [Hxy _ _]]; by apply same_vpn)) as Hv.
  destruct (_ ++ _); [|done]. destruct (py_map infrastructure_network ips) as [networks|].
  - rewrite (forall2_omap _ (vpn_conflict (enum_from 0 (map VDict l)) networks)
               (vpn_conflict (enum_from 0 (map VDict l')) networks) _ _ Hv)
      by (intros x y [Hxy Hvx]; by apply same_vpn_conflict, vpn_subject_docker).
    by destruct Hv.
  - rewrite (forall2_map _ (fun x => invalid_infrastructure x.2) (fun x => invalid_infrastructure x.2) _ _ Hv)
      by (intros x y [[_ [Hxy _ _]] _]; unfold invalid_infrastructure; by rewrite (same_id _ _ Hxy)).
    by destruct Hv.
Qed.
End Same.

(** ** The observation of the manifest *)

Section Observation.
Context `{ReprContainer}.

Lemma scan_canonical strs : forallb canonical_text strs = true -> scan_addresses V4 strs = (Some true, strs).
Proof.
  induction strs as [|t strs IH]; [done|]. cbn [forallb scan_addresses]. intros [Hc Hl]%andb_prop.
  unfold canonical_text in Hc. destruct (ip_address t) as [p|]; [|done]. unfold is_v4 in Hc.
  apply andb_prop in Hc as [Hv Ht]. rewrite Hv, Ht. cbn [negb orb]. rewrite (IH Hl). by apply String.eqb_eq in Ht as ->.
Qed.

Lemma scan_true strs : (scan_addresses V4 strs).1 = Some true -> forallb canonical_text strs = true.
Proof.
  induction strs as [|t strs IH]; [done|]. cbn [forallb scan_addresses]. unfold canonical_text.
  destruct (ip_address t) as [p|]; [|done]. unfold is_v4. destruct (bool_decide (a_ver p = V4)); [|done].
  destruct (String.eqb (str_addr p) t); [|done]. cbn [negb orb andb].
  destruct (scan_addresses V4 strs) as [r l]. exact IH.
Qed.

(** A complete source: canonical IPv4 texts, no global IPv6, the primary address among them. *)
Record complete_source (source : dict) (primary : pyval) (strs : list string) (A : gset addr) (p : addr) : Prop := CompleteSource {
  cs_list : dget "IPv4Addresses" source = vstrs strs;
  cs_canonical : forallb canonical_text strs = true;
  cs_length : (0 < length strs <= 64)%nat;
  cs_set : _canonical_ipv4_values (vstrs strs) = Some A;
  cs_v4 : dget "IPv4InventoryComplete" source = VBool true;
  cs_v6 : dget "IPv6InventoryComplete" source = VBool true;
  cs_none6 : dget "IPv6Addresses" source = VList [];
  cs_primary : primary = VStr (str_addr p);
  cs_parses : ip_address (str_addr p) = Some p;
  cs_version : a_ver p = V4;
  cs_in : p ∈ A;
}.

Lemma py_eq_nil v : py_eq v (VList []) = true -> v = VList [].
Proof. destruct v as [| | | |[|x l]|]; try discriminate. done. Qed.

(** The raw source yields an inventory exactly when it is complete. *)
Lemma raw_inventory s source x :
  is_dict (dget "observed_docker_source" s) = false -> detail_source s = VDict source ->
  observed_inventory s = Some x <->
  exists strs A p, x = Some (A, Some p, is_host_mode source) /\
    complete_source source (get_in "ip_address" (dget "detail" s)) strs A p.
Proof.
  intros Ho Hs.
  assert (E : observed_inventory s =
    (primary ← parse_if_str (get_in "ip_address" (dget "detail" s));
     addresses ← _canonical_ipv4_values (dget "IPv4Addresses" source);
     if is_true_val (dget "IPv4InventoryComplete" source)
        && (is_true_val (dget "IPv6InventoryComplete" source) && py_eq (dget "IPv6Addresses" source) (VList []))
        && primary_in primary addresses
     then Some (Some (addresses, primary, is_host_mode source)) else None)).
  { unfold observed_inventory. rewrite Hs. by destruct (dget "observed_docker_source" s). }
  rewrite E. clear E. split.
  - intros Hx. destruct (parse_if_str _) as [primary|] eqn:Ep; [|done]. cbn [mbind option_bind] in Hx.
    destruct (_canonical_ipv4_values _) as [A|] eqn:Ea; [|done]. cbn [mbind option_bind] in Hx.
    destruct (_ && _) eqn:Eb in Hx; [|done]. injection Hx as <-. apply andb_prop in Eb as [[H4 [H6 He]%andb_prop]%andb_prop Hin].
    destruct primary as [p|]; [|done]. cbn [primary_in] in Hin. unfold is_v4 in Hin. apply andb_prop in Hin as [Hv Hin].
    apply bool_decide_eq_true in Hv, Hin. apply parse_if_str_inv in Ep as (t & Et & Ept).
    pose proof (ip_address_v4_text t p Ept Hv) as ->.
    apply canonical_iff in Ea as Ea'. destruct Ea' as (l & El & Hlen & Hp & _).
    exists (map str_addr l), A, p. split; [done|].
    assert (Hlist : dget "IPv4Addresses" source = vstrs (map str_addr l)) by (unfold vstrs; by rewrite map_map).
    constructor; try done; try (by apply is_true_val_inv).
    + apply List.forallb_forall. intros t (a & <- & Ha)%in_map_iff. apply canonical_text_spec. exists a.
      assert (Hva : v4_value a) by (match goal with Hl : Forall v4_value l |- _ => rewrite Forall_forall in Hl; apply Hl end; by apply list_elem_of_In).
      rewrite ip_address_str by apply Hva. done.
    + by rewrite length_map.
    + by rewrite <- Hlist.
    + by apply py_eq_nil.
  - intros (strs & A & p & -> & [Hl Hc Hlen HA H4 H6 Hn Hp Hpp Hv Hin]). rewrite Hp, Hl, HA, H4, H6, Hn.
    cbn [parse_if_str mbind option_bind]. rewrite Hpp. cbn [mbind option_bind is_true_val py_eq andb primary_in].
    unfold is_v4. by rewrite !bool_decide_eq_true_2.
Qed.

Lemma complete_lists source primary strs A p : complete_source source primary strs A p ->
  inventory_lists source = Some (strs, []) /\ scan_inventory source = (false, true, strs, "complete_no_global_ipv6") /\
  primary_of primary strs = Some (str_addr p) /\ is_set (bounded_list (dget "IPv4Addresses" source)) = true /\
  _canonical_ipv4_values (vstrings (sorted_set strs)) = Some A.
Proof.
  intros [Hl Hc Hlen HA H4 H6 Hn Hp Hpp Hv Hin].
  assert (Hb : bounded_list (vstrs strs) = Some (map VStr strs)).
  { unfold bounded_list, vstrs. rewrite length_map, (proj2 (Nat.leb_le _ _)); [done|]. unfold MAX_DOCKER_IPV4_SOURCE_ADDRESSES. lia. }
  assert (Hi : inventory_lists source = Some (strs, [])).
  { unfold inventory_lists. rewrite Hl, Hn, H4, H6, Hb. cbn [mbind option_bind is_true_val andb].
    rewrite length_map, (proj2 (Nat.eqb_neq _ _)) by lia. cbn [negb andb].
    by rewrite (proj2 (py_map_as_str (map VStr strs) strs) eq_refl). }
  split; [done|]. split.
  { unfold scan_inventory. rewrite Hi, (scan_canonical strs Hc). done. }
  split.
  { rewrite Hp. unfold primary_of. rewrite Hpp. cbn [mbind option_bind]. rewrite String.eqb_refl, bool_decide_eq_true_2 by done.
    cbn [andb]. rewrite bool_decide_eq_true_2; [done|]. destruct (canonical_of_texts strs Hc Hlen) as (B & HB & HBin).
    assert (B = A) as -> by congruence. apply HBin in Hin as (t & Ht & Et). by rewrite <- (ip_address_v4_text t p Et Hv). }
  split; [by rewrite Hl, Hb|].
  apply (same_texts_same_set strs); [done|done|apply sorted_set_in|apply sorted_set_length|done].
Qed.

(** What a valid scan found. *)
Lemma scanned_source source addresses status primary t :
  scan_inventory source = (false, true, addresses, status) -> status = "complete_no_global_ipv6" ->
  primary_of primary addresses = Some t ->
  exists A p, complete_source source primary addresses A p.
Proof.
  unfold scan_inventory. destruct (inventory_lists source) as [[v4 v6]|] eqn:Ei; [|discriminate].
  destruct (scan_addresses V4 v4) as [r4 l4] eqn:E4. destruct r4 as [ok4|]; [|discriminate].
  destruct ((scan_addresses V6 v6).1) as [ok6|]; [|discriminate]. intros [= Hok <- <-] Hst Hp.
  rewrite Hok in Hst. apply andb_prop in Hok as [-> ->].
  assert (Hc : forallb canonical_text v4 = true) by (apply scan_true; by rewrite E4).
  rewrite (scan_canonical v4 Hc) in E4. injection E4 as <-.
  assert (v6 = []) as -> by (unfold ipv6_status_of in Hst; destruct v6; [done|discriminate]).
  unfold inventory_lists in Ei. py_inv Ei as raw4 E4. py_inv Ei as raw6 E6.
  destruct (_ && _) eqn:Eb in Ei; [|done]. apply andb_prop in Eb as [[H4 Hne]%andb_prop H6].
  py_inv Ei as s4 Es4. py_inv Ei as s6 Es6. injection Ei as -> ->.
  apply py_map_as_str in Es4 as ->. apply py_map_as_str in Es6 as ->.
  assert (Hlist : forall v raw, bounded_list v = Some raw -> v = VList raw /\ (length raw <= 64)%nat).
  { intros v raw. unfold bounded_list. destruct v as [| | | |l|]; try discriminate. destruct (length l <=? _)%nat eqn:El; [|discriminate].
    intros [= ->]. split; [done|by apply Nat.leb_le]. }
  apply Hlist in E4 as [Hl4 Hlen], E6 as [Hl6 _]. rewrite length_map in Hlen, Hne.
  apply negb_true_iff, Nat.eqb_neq in Hne.
  destruct (canonical_of_texts v4 Hc ltac:(lia)) as (A & HA & HAin).
  unfold primary_of in Hp. destruct primary as [| | |u| |]; try discriminate. py_inv Hp as p Ep.
  destruct (_ && _) eqn:Eb in Hp; [|done]. apply andb_prop in Eb as [[Hv Hu]%andb_prop Hin].
  apply bool_decide_eq_true in Hv, Hin. apply String.eqb_eq in Hu. subst u.
  exists A, p. constructor; try done; try lia; try (by apply is_true_val_inv).
  apply HAin. by exists (str_addr p).
Qed.

(** The observation in the manifest says what the raw source says. *)
Lemma observation_faithful s ms source :
  type_text s = "docker" -> detail_source s = VDict source -> is_dict (dget "observed_docker_source" s) = false ->
  dget "observed_docker_source" ms = vdict (_bounded_docker_source_inventory s) -> dget "detail" ms = VNone ->
  observed_inventory ms = observed_inventory s /\ host_network_of ms = host_network_of s /\
  (is_Some (observed_inventory s) -> observed_primary_value ms = observed_primary_value s).
Proof.
  intros Ht Hs Ho Hm Hd.
  unfold _bounded_docker_source_inventory in Hm. rewrite Ht, Hs in Hm. cbn [String.eqb Ascii.eqb Bool.eqb negb] in Hm.
  destruct (scan_inventory source) as [[[raised scanned] addresses] status] eqn:Esc.
  set (ip := get_in "ip_address" (dget "detail" s)) in *.
  set (primary := if raised then None else primary_of ip addresses) in *. cbn [vdict] in Hm.
  assert (Hdm : detail_source ms = VNone) by (unfold detail_source; by rewrite Hd).
  assert (Hcomplete : forall strs A p, complete_source source ip strs A p ->
    observed_inventory ms = Some (Some (A, Some p, is_host_mode source)) /\ observed_primary_value ms = ip).
  { intros strs A p Hc. destruct (complete_lists _ _ _ _ _ Hc) as (_ & Hsc & Hp & Hb & HA). rewrite Esc in Hsc.
    injection Hsc as -> -> -> ->. subst primary. rewrite Hp in Hm. destruct Hc as [_ _ _ _ H4 _ _ Hip Hpp Hv Hin].
    split; [|unfold observed_primary_value; rewrite Hm; by rewrite Hip].
    unfold observed_inventory. rewrite Hm. cbn [dget dict_lookup String.eqb Ascii.eqb Bool.eqb default from_option id is_true_val is_set negb orb andb vopt].
    rewrite H4, Hb. cbn [parse_if_str is_true_val orb negb]. rewrite Hpp. cbn [mbind option_bind]. rewrite HA. cbn [mbind option_bind].
    unfold complete_no_ipv6. cbn [eq_str py_eq String.eqb Ascii.eqb Bool.eqb andb primary_in]. unfold is_v4.
    by rewrite !bool_decide_eq_true_2. }
  assert (Hms : forall x, observed_inventory ms = Some x -> exists strs A p, complete_source source ip strs A p).
  { intros x Hx. unfold observed_inventory in Hx. rewrite Hm in Hx.
    cbn [dget dict_lookup String.eqb Ascii.eqb Bool.eqb default from_option id is_true_val negb orb] in Hx.
    destruct (scanned && is_set primary) eqn:Ev; [|done]. apply andb_prop in Ev as [-> Hp]. cbn [negb] in Hx.
    py_inv Hx as parsed Ep. py_inv Hx as B EB. destruct (_ && _) eqn:Eb in Hx; [|done].
    apply andb_prop in Eb as [[_ Hst]%andb_prop _]. unfold complete_no_ipv6, eq_str in Hst. cbn [py_eq] in Hst. apply String.eqb_eq in Hst.
    subst primary. destruct raised; [done|]. destruct (primary_of ip addresses) as [t|] eqn:Et; [|done].
    destruct (scanned_source source addresses status ip t Esc Hst Et) as (A & p & Hc). by exists addresses, A, p. }
  split; [|split].
  - destruct (observed_inventory s) as [x|] eqn:Ex.
    + apply (raw_inventory s source x Ho Hs) in Ex as (strs & A & p & -> & Hc). by apply (Hcomplete strs A p).
    + destruct (observed_inventory ms) as [x|] eqn:Em; [|done]. destruct (Hms x eq_refl) as (strs & A & p & Hc).
      assert (E : observed_inventory s = Some (Some (A, Some p, is_host_mode source)));
        [apply (raw_inventory s source _ Ho Hs); by exists strs, A, p|congruence].
  - unfold host_network_of. by rewrite Hdm, Hs, Hm.
  - intros [x Ex]. apply (raw_inventory s source x Ho Hs) in Ex as (strs & A & p & -> & Hc).
    destruct (Hcomplete strs A p Hc) as [_ ->]. unfold observed_primary_value. by destruct (dget "observed_docker_source" s).
Qed.
End Observation.

(** ** The coverage of a runtime comes from a source *)

Section Coverage.
Context `{ReprContainer} (file : bindings_file).

Definition coverage_of (r : dict) : pyval := dget "direct_source_coverage" r.

Ltac kept := cbv iota; unfold coverage_of, inactive_result, set_status; rewrite ?dget_dset; try reflexivity.

Lemma gate_coverage m a result f : (forall r, coverage_of (f r) = coverage_of r) ->
  coverage_of (gate m a result f) = coverage_of result.
Proof.
  intros Hf. unfold gate. destruct (negb _); [by kept|]. destruct (negb _); [by kept|].
  destruct (bypass_enabled a); [by kept|]. rewrite Hf. by kept.
Qed.

Lemma docker_check_coverage subject result :
  match docker_vpn_check subject result with inl r | inr r => coverage_of r = coverage_of result end.
Proof.
  unfold docker_vpn_check. cbv zeta. destruct (String.eqb _ "host"); [by kept|]. destruct (_ || _ || _); [by kept|].
  destruct (_ || _); [by kept|]. destruct (String.eqb _ "incomplete"); [by kept|].
  destruct (String.eqb _ "global_ipv6_present"); by kept.
Qed.

Lemma path_result_coverage subject m a result r :
  path_result file subject m a result = Some r -> coverage_of r = coverage_of result.
Proof.
  unfold path_result. cbv zeta. destruct (_ && _ && _); [intros [= <-]; by kept|].
  destruct (negb (_uses_scoped_runtime_path _ _)); [intros [= <-]; by kept|].
  destruct (_ && has_role _); [intros [= <-]; by kept|].
  assert (Hc : match (if String.eqb (text_of (dget "subject_type" subject)) "docker" && String.eqb (dataplane_path a) "vpn"
                      then docker_vpn_check subject result else inl result)
               with inl r | inr r => coverage_of r = coverage_of result end).
  { destruct (_ && _); [apply docker_check_coverage|done]. }
  set (checked := if String.eqb _ "docker" && _ then docker_vpn_check subject result else inl result) in *. clearbody checked.
  destruct checked as [result'|r']; [|by intros [= <-]]. rewrite <- Hc. clear Hc.
  destruct (selective_subject _ a).
  { intros [= <-]. unfold selective_result. destruct (negb _); [by kept|]. rewrite gate_coverage by (intros r0; by kept). by kept. }
  unfold vpn_target_result. cbv zeta. destruct (_ || _); [intros [= <-]; by kept|].
  destruct (negb _); [intros [= <-]; by kept|].
  destruct (is_explicit_external_client_subject_type _); [|intros [= <-]; rewrite gate_coverage by done; by kept].
  unfold explicit_client_result. intros Hr. py_inv Hr as bs Ebs. destruct (binding_applied _ _); injection Hr as <-; by kept.
Qed.

Lemma build_coverage subject a r : build_scoped_subject_runtime file subject a = Some r ->
  coverage_of r = VNone \/ is_dict (source_of subject) = true.
Proof.
  unfold build_scoped_subject_runtime. cbv zeta. intros Hr. py_inv Hr as m Em.
  assert (H0 : coverage_of (resolve_result (text_of (dget "subject_type" subject)) a (initial_result subject m a)) = VNone).
  { unfold resolve_result. destruct (hands_off _ _); by kept. }
  set (result := resolve_result _ a _) in *. clearbody result.
  destruct (negb (in_types _ _)); [injection Hr as <-; left; rewrite <- H0; by kept|].
  destruct (direct_scope subject a && _); [|left; by rewrite (path_result_coverage _ _ _ _ _ Hr)].
  destruct (negb _); [injection Hr as <-; left; rewrite <- H0; by kept|].
  destruct (direct_coverage subject) as [addresses|] eqn:Ec.
  - right. unfold direct_coverage in Ec. by destruct (source_of subject).
  - injection Hr as <-. left. unfold incomplete_result. rewrite <- H0. by kept.
Qed.

Lemma source_of_detail s : source_of s = detail_source s.
Proof. unfold source_of, detail_source, _normalized_detail. by destruct (dget "detail" s). Qed.
End Coverage.

(** ** A subject and its projection *)

Section Projection.
Context `{ReprContainer}.

(** What the builder makes of a row of the subject table: no observation,
    runtime or path of its own, an effective state, and a coverage only with a source. *)
Record guardable (s : dict) : Prop := Guardable {
  gb_observed : is_dict (dget "observed_docker_source" s) = false;
  gb_runtime : is_dict (dget "scoped_runtime" s) = false;
  gb_path : truthy (dget "dataplane_path" s) = false;
  gb_state : is_dict (dget "effective_state" s) = true;
  gb_coverage : is_dict (get_in "direct_source_coverage" (runtime_in s)) = true -> is_dict (detail_source s) = true;
}.

Lemma guardable_runtime s : guardable s -> runtime_of s = runtime_in s.
Proof.
  intros [_ Hr _ He _]. unfold runtime_of, runtime_in. destruct (dget "scoped_runtime" s); try done;
    by destruct (dget "effective_state" s).
Qed.

Lemma bounded_runtime_same k v : k ∈ GUARD_KEYS -> get_in k (VDict (_bounded_subject_runtime v)) = get_in k v.
Proof.
  unfold GUARD_KEYS, SOURCE_KEYS. cbn [app]. rewrite !elem_of_cons. intros Hk.
  destruct Hk as [->|[->|[->|[->|[->|[]%elem_of_nil]]]]]; by destruct v.
Qed.

Lemma path_falsy v w : truthy v = false -> norm_lower_val (por v w) = norm_lower_val w.
Proof. unfold por. by intros ->. Qed.

Lemma norm_por_none v : norm_lower_val (por v VNone) = norm_lower_val v.
Proof. unfold por. destruct (truthy v) eqn:E; [done|]. unfold norm_lower_val, por. by rewrite E. Qed.

Lemma no_source_inventory s : is_dict (dget "observed_docker_source" s) = false -> is_dict (detail_source s) = false ->
  observed_inventory s = Some None.
Proof. intros Ho Hd. unfold observed_inventory. by destruct (dget "observed_docker_source" s), (detail_source s). Qed.

Lemma sources_agree_raw s A h : is_dict (dget "observed_docker_source" s) = false -> sources_agree s A h = true.
Proof. intros Ho. unfold sources_agree. by destruct (dget "observed_docker_source" s). Qed.

Lemma inventory_none s : _docker_ipv4_addresses s = None -> direct_inventory s = None.
Proof. intros E. unfold direct_inventory. destruct (match parse_if_str _ with Some _ => _ | None => _ end). by rewrite E. Qed.

Lemma projected_source s ms : guardable s -> projected s ms -> type_text s = "docker" ->
  (forall k, k ∈ SOURCE_KEYS -> get_in k (runtime_of ms) = get_in k (runtime_of s)) ->
  host_network_of ms = host_network_of s /\ _docker_ipv4_addresses ms = _docker_ipv4_addresses s /\
  direct_inventory ms = direct_inventory s.
Proof.
  intros Hg (_ & _ & _ & Hobs & _ & Hdet) Ht Hrt. pose proof (guardable_runtime s Hg) as Hrs. destruct Hg as [Ho _ _ _ Hcov].
  rewrite <- Hrs in Hcov.
  assert (Hcv : get_in "direct_source_coverage" (runtime_of ms) = get_in "direct_source_coverage" (runtime_of s))
    by (apply Hrt; unfold SOURCE_KEYS; set_solver).
  assert (Hmt : matcher_of ms = matcher_of s) by (unfold matcher_of; apply Hrt; unfold SOURCE_KEYS; set_solver).
  assert (Hdm : detail_source ms = VNone) by (unfold detail_source; by rewrite Hdet).
  destruct (is_dict (detail_source s)) eqn:Eds.
  - destruct (detail_source s) as [| | | | |source] eqn:Es; try discriminate.
    destruct (observation_faithful s ms source Ht Es Ho Hobs Hdet) as (Hinv & Hhost & Hprim). split; [done|].
    assert (Hag : forall A h, sources_agree ms A h = true).
    { intros A h. unfold sources_agree. rewrite Hdm. by destruct (dget "observed_docker_source" ms). }
    assert (Ha : _docker_ipv4_addresses ms = _docker_ipv4_addresses s).
    { unfold _docker_ipv4_addresses. rewrite Hinv, Hcv. destruct (observed_inventory s) as [[[[A p] h]|]|]; [|done..].
      cbn [mbind option_bind]. by rewrite Hag, (sources_agree_raw s A h Ho). }
    split; [done|]. destruct (_docker_ipv4_addresses s) as [A|] eqn:EA; [|by rewrite !inventory_none].
    unfold direct_inventory. rewrite Hmt, Ha, EA, Hprim; [done|].
    unfold _docker_ipv4_addresses in EA. destruct (observed_inventory s); [by eexists|discriminate].
  - assert (Hb : dget "observed_docker_source" ms = VDict [("available", VBool false); ("valid", VBool false)]).
    { rewrite Hobs. unfold _bounded_docker_source_inventory. rewrite Ht. by destruct (detail_source s). }
    assert (HA : _docker_ipv4_addresses ms = None) by (unfold _docker_ipv4_addresses, observed_inventory; by rewrite Hb).
    assert (HA' : _docker_ipv4_addresses s = None).
    { unfold _docker_ipv4_addresses. rewrite (no_source_inventory s Ho Eds). cbn [mbind option_bind].
      destruct (get_in "direct_source_coverage" (runtime_of s)) eqn:Ec; try done. by specialize (Hcov eq_refl). }
    split; [|split; [congruence|by rewrite !inventory_none]].
    unfold host_network_of. rewrite Hdm, Hb. destruct (detail_source s); try done; by destruct (dget "observed_docker_source" s).
Qed.

Lemma projected_guard_same s ms : guardable s -> projected s ms -> guard_same s ms.
Proof.
  intros Hg Hp. pose proof (guardable_runtime s Hg) as Hrs. destruct Hp as (Hf & Hpath & Hrt & Hobs & Hes & Hdet) eqn:Ep. clear Ep.
  assert (Hr : runtime_of ms = VDict (_bounded_subject_runtime (runtime_in s))) by (unfold runtime_of; by rewrite Hrt).
  assert (Hk : forall k, k ∈ GUARD_KEYS -> get_in k (runtime_of ms) = get_in k (runtime_of s)).
  { intros k Hk. by rewrite Hr, bounded_runtime_same, Hrs. }
  assert (Hsk : forall k, k ∈ SOURCE_KEYS -> get_in k (runtime_of ms) = get_in k (runtime_of s)).
  { intros k Hin. apply Hk. apply elem_of_app. by left. }
  constructor; [|by apply Hk; unfold GUARD_KEYS, SOURCE_KEYS; set_solver..]. constructor.
  - exact Hf.
  - unfold path_of. rewrite Hpath, Hes, (path_falsy (dget "dataplane_path" s)) by apply Hg. by apply norm_por_none.
  - exact Hsk.
  - intros Ht. by apply projected_source.
Qed.
End Projection.

(** ** The infrastructure addresses *)

Lemma lstrip_head p text : match lstrip_by p text with "" => True | String c _ => p c = false end.
Proof. induction text as [|c text IH]; [done|]. cbn [lstrip_by]. by destruct (p c) eqn:E. Qed.

Lemma rstrip_head p text : match text with "" => True | String c _ => p c = false end ->
  match rstrip_by p text with "" => True | String c _ => p c = false end.
Proof. destruct text as [|c text]; [done|]. cbn [rstrip_by]. intros Hc. destruct (rstrip_by p text); [by rewrite Hc|done]. Qed.

Lemma py_strip_idem text : py_strip (py_strip text) = py_strip text.
Proof. unfold py_strip. rewrite lstrip_id by (apply rstrip_head, lstrip_head). apply rstrip_by_idem. Qed.

Lemma sort_by_id {A} (leb : A -> A -> bool) l : StronglySorted (fun a b => leb a b = true) l -> sort_by leb l = l.
Proof.
  induction 1 as [|x l _ IH Hall]; [done|]. cbn [sort_by]. rewrite IH. destruct l as [|y l]; [done|]. cbn [insert_by].
  by apply Forall_inv in Hall as ->.
Qed.

Lemma remove_dups_id {A} `{EqDecision A} (l : list A) : NoDup l -> remove_dups l = l.
Proof. induction 1 as [|x l Hx _ IH]; [done|]. simpl. case_decide; [done|]. by rewrite IH. Qed.

Lemma sorted_set_idem l : sorted_set (sorted_set l) = sorted_set l.
Proof.
  unfold sorted_set. rewrite (remove_dups_id (sort_by py_leb (remove_dups l))).
  - apply sort_by_id, sort_by_sorted; [apply py_leb_total|intros x y z; apply py_leb_trans].
  - rewrite sort_by_perm. apply NoDup_remove_dups.
Qed.

Section Infrastructure.
Context `{ReprContainer}.

(** Addresses as the builder leaves them: sorted, distinct, stripped, none blank. *)
Definition clean_list (v : pyval) : Prop :=
  exists l, v = vstrings l /\ sorted_set l = l /\ forall t, t ∈ l -> py_strip t = t /\ t <> "".

Definition clean_extra (d : dict) : Prop :=
  forall v, dict_lookup "infrastructure_ipv4" d = Some v -> clean_list v.

Lemma infrastructure_items_clean l addresses : py_map infrastructure_item l = Some addresses ->
  clean_list (vstrings (sorted_set (omap (M:=list) id addresses))).
Proof.
  intros Hl. exists (sorted_set (omap (M:=list) id addresses)). split; [done|]. split; [apply sorted_set_idem|].
  intros t Ht. rewrite sorted_set_in in Ht. apply list_elem_of_omap in Ht as (o & Ho & Eo). cbn in Eo. subst o.
  apply py_map_forall in Hl. destruct (forall2_in_r _ _ _ _ Hl Ho) as (v & _ & Hv). unfold infrastructure_item in Hv.
  cbv zeta in Hv. destruct (String.eqb_spec (py_strip (py_str v)) ""); [discriminate|]. py_inv Hv as network En.
  destruct (bool_decide _); [|done]. injection Hv as <-. split; [apply py_strip_idem|done].
Qed.

Lemma bounded_item_clean bounded kv b : clean_extra bounded ->
  (kv.1 = "infrastructure_ipv4" -> is_set (as_list kv.2) = true) -> bounded_item bounded kv = Some b -> clean_extra b.
Proof.
  destruct kv as [key value]. cbn [fst snd]. intros Hc Hk Hb. unfold bounded_item in Hb.
  assert (Hput : forall v, (key = "infrastructure_ipv4" -> clean_list v) -> clean_extra (dset key v bounded)).
  { intros v Hv w. rewrite dict_lookup_dset. destruct (String.eqb_spec "infrastructure_ipv4" key) as [E|]; [|apply Hc].
    intros [= <-]. by apply Hv. }
  assert (Hno : is_set (as_list value) = false -> forall v, clean_extra (dset key v bounded)).
  { intros Hf v. apply Hput. intros E. by rewrite (Hk E) in Hf. }
  destruct value as [| | | |l|d]; try (injection Hb as <-; by apply Hno).
  - destruct (String.eqb_spec key "infrastructure_ipv4") as [->|]; [|injection Hb as <-; by apply Hput].
    destruct (_ <? _)%nat; [done|]. py_inv Hb as addresses Ea. injection Hb as <-. apply Hput. intros _.
    by eapply infrastructure_items_clean.
  - destruct (String.eqb key "rules_effective"); [|destruct (String.eqb key "core_bypass"); injection Hb as <-; by apply Hno].
    injection Hb as <-. intros w. rewrite dict_lookup_dset. cbn [String.eqb Ascii.eqb Bool.eqb]. by apply Hno.
Qed.

Definition listed_infrastructure (extra : dict) : Prop :=
  forall v, ("infrastructure_ipv4", v) ∈ extra -> is_set (as_list v) = true.

Lemma bounded_extra_clean items bounded b : listed_infrastructure items -> clean_extra bounded ->
  bounded_items items bounded = Some b -> clean_extra b.
Proof.
  revert bounded. induction items as [|[k v] items IH]; intros bounded Hl Hc; cbn [bounded_items]; [by intros [= <-]|].
  intros Hb. py_inv Hb as b' Eb. apply (IH b'); [| |done].
  - intros w Hw. apply (Hl w). by right.
  - apply (bounded_item_clean bounded (k, v) b' Hc); [|done]. cbn [fst snd]. intros ->. apply (Hl v). by left.
Qed.

Lemma read_clean m extra_data : get_in "extra" m = VDict extra_data -> clean_extra extra_data ->
  iter_val (dget_or "infrastructure_ipv4" (VList []) extra_data)
  = Some (map VStr (_read_manifest_extra_ipv4_list m "infrastructure_ipv4" [])).
Proof.
  intros Hm Hc. unfold _read_manifest_extra_ipv4_list. rewrite Hm. cbn [get_in]. unfold dget, dget_or.
  destruct (dict_lookup "infrastructure_ipv4" extra_data) as [v|] eqn:E; [|done].
  destruct (Hc v E) as (l & -> & Hs & Hl). cbn [default from_option id vstrings iter_val]. do 2 f_equal. rewrite map_map.
  assert (Hf : List.filter nonempty_text (map (fun x => py_strip (py_str (VStr x))) l) = l).
  { clear -Hl. induction l as [|t l IH]; [done|]. cbn [map List.filter py_str]. destruct (Hl t ltac:(by left)) as [Ht Hne].
    rewrite Ht. unfold nonempty_text at 1. rewrite (proj2 (String.eqb_neq _ _) Hne). cbn [negb]. f_equal. apply IH.
    intros u Hu. apply Hl. by right. }
  by rewrite Hf, Hs.
Qed.
End Infrastructure.

(** ** What a mark changes *)

Section Marks.
Context `{ReprContainer}.

Lemma marked_guardable s s' : guardable s -> marked s s' -> guardable s'.
Proof.
  intros [Ho Hr Hp He Hc] [f t d rd k a].
  constructor; rewrite ?f by done; try done; [congruence|].
  rewrite k by (unfold MARKED_KEYS; set_solver). intros Hcov. specialize (Hc Hcov). unfold detail_source in *. by rewrite f.
Qed.

Lemma marked_alike s s' : guardable s -> marked s s' -> guard_alike s s'.
Proof.
  intros Hg Hm. pose proof (marked_guardable s s' Hg Hm) as Hg'.
  pose proof (guardable_runtime s Hg) as Hrs. pose proof (guardable_runtime s' Hg') as Hrs'. destruct Hm as [f t d rd k a].
  assert (Hk : forall key, key ∈ SOURCE_KEYS -> get_in key (runtime_of s') = get_in key (runtime_of s)).
  { intros key Hin. rewrite Hrs, Hrs'. apply k. unfold SOURCE_KEYS in Hin. unfold MARKED_KEYS.
    rewrite !elem_of_cons in Hin. destruct Hin as [->|[->|[->|[]%elem_of_nil]]]; set_solver. }
  assert (Hd : detail_source s' = detail_source s) by (unfold detail_source; by rewrite f).
  assert (Hi : observed_inventory s' = observed_inventory s) by (unfold observed_inventory; rewrite Hd, !f by done; done).
  assert (Ha : _docker_ipv4_addresses s' = _docker_ipv4_addresses s).
  { unfold _docker_ipv4_addresses. rewrite Hi, Hk by (unfold SOURCE_KEYS; set_solver).
    assert (Hag : forall A h, sources_agree s' A h = sources_agree s A h)
      by (intros A h; unfold sources_agree; rewrite Hd, !f by done; done).
    destruct (observed_inventory s) as [[[[A p] h]|]|]; [|done..]. cbn [mbind option_bind]. by rewrite Hag. }
  constructor.
  - intros key Hin. apply f. rewrite !elem_of_cons in Hin. destruct Hin as [->|[->|[->|[]%elem_of_nil]]]; done.
  - unfold path_of. by rewrite f, t.
  - exact Hk.
  - intros _. split; [unfold host_network_of; by rewrite Hd, f|]. split; [exact Ha|].
    unfold direct_inventory, matcher_of, observed_primary_value. rewrite Ha, !f by done.
    by rewrite Hk by (unfold SOURCE_KEYS; set_solver).
Qed.

Definition id_of (s : dict) : string := text_of (dget "subject_id" s).

Lemma marked_id s s' : marked s s' -> id_of s' = id_of s.
Proof. intros [f _ _ _ _ _]. unfold id_of. by rewrite f. Qed.

Lemma marked_ids l l' : Forall2 marked l l' -> map id_of l' = map id_of l.
Proof. induction 1 as [|s s' l l' Hs _ IH]; [done|]. cbn [map]. by rewrite (marked_id s s' Hs), IH. Qed.

Lemma forall2_in_l {A B} (R : A -> B -> Prop) l k x : Forall2 R l k -> x ∈ l -> exists y, y ∈ k /\ R x y.
Proof.
  induction 1 as [|x' y l k Hxy _ IH]; [by intros ?%elem_of_nil|]. intros [->|Hin]%elem_of_cons; [exists y; split; [by left|done]|].
  destruct (IH Hin) as (z & ? & ?). exists z. split; [by right|done].
Qed.

Lemma mark_first_in reason l s : NoDup (map id_of l) -> s ∈ l -> mark_subject reason s ∈ mark_first (id_of s) reason l.
Proof.
  induction l as [|s0 l IH]; cbn [map mark_first]; [by intros _ ?%elem_of_nil|]. intros [Hn Hnd]%NoDup_cons Hin.
  fold (id_of s0). destruct (String.eqb_spec (id_of s0) (id_of s)) as [E|Hne].
  - apply elem_of_cons in Hin as [->|Hin]; [by left|]. exfalso. apply Hn. rewrite E. by apply list_elem_of_fmap_2.
  - apply elem_of_cons in Hin as [->|Hin]; [done|]. right. by apply IH.
Qed.

Lemma mark_subject_applied reason s : is_dict (dget "effective_state" s) = true -> is_dict (runtime_in s) = true ->
  get_in "applied" (runtime_in (mark_subject reason s)) = VBool false.
Proof.
  unfold runtime_in, mark_subject. intros He Hr. destruct (dget "effective_state" s) as [| | | | |es]; try done. cbn [get_in] in Hr.
  destruct (dget "scoped_runtime" es) as [| | | | |rt]; try done.
  rewrite dget_dset, String.eqb_refl. cbn [get_in]. rewrite dget_dset, String.eqb_refl. cbn [get_in]. by rewrite !dget_dset.
Qed.

(** A marked subject is not applied in the end. *)
Lemma conflict_marks cs c l s : c ∈ cs -> c.2 ∈ MARKED_REASONS -> NoDup (map id_of l) -> s ∈ l -> id_of s = c.1 ->
  is_dict (dget "effective_state" s) = true -> is_dict (runtime_in s) = true ->
  exists s', s' ∈ fold_left mark_conflict cs l /\ marked s s' /\ get_in "applied" (runtime_in s') = VBool false.
Proof.
  revert l s. induction cs as [|c0 cs IH]; intros l s Hc Hr Hnd Hs Hid He Hrt; [by apply elem_of_nil in Hc|]. cbn [fold_left].
  assert (Hm1 : Forall2 marked l (mark_conflict l c0)) by apply (mark_conflicts_marked [c0] l).
  apply elem_of_cons in Hc as [->|Hc].
  - assert (Hin : mark_subject c0.2 s ∈ mark_conflict l c0).
    { unfold mark_conflict. rewrite bool_decide_eq_true_2 by done. rewrite <- Hid. by apply mark_first_in. }
    destruct (forall2_in_l _ _ _ _ (mark_conflicts_marked cs (mark_conflict l c0)) Hin) as (s' & Hin' & Hm').
    exists s'. split; [done|]. split; [eapply marked_preorder; [apply mark_subject_marked|exact Hm']|].
    destruct (marked_applied _ _ Hm') as [->|]; [by apply mark_subject_applied|done].
  - destruct (forall2_in_l _ _ _ _ Hm1 Hs) as (s1 & Hs1 & Hm).
    destruct (IH (mark_conflict l c0) s1) as (s' & Hin' & Hm' & Ha); try done.
    + by rewrite (marked_ids _ _ Hm1).
    + by rewrite (marked_id _ _ Hm).
    + by rewrite (marked_dict _ _ Hm).
    + by rewrite (marked_runtime_dict _ _ Hm).
    + exists s'. split; [done|]. split; [by eapply marked_preorder|done].
Qed.

(** The conflicts that are marked: an overlap of a direct subject, or a VPN subject. *)
Lemma marked_reason l ips g c : c ∈ docker_vpn_immunity_conflicts (map VDict l) ips g -> c.2 ∈ MARKED_REASONS ->
  (exists x, x ∈ dict_subjects (map VDict l) /\ routed_mode g = true /\ direct_overlaps g (dict_subjects (map VDict l)) x <> []) \/
  (exists s, s ∈ l /\ is_vpn_subject s = true /\ subject_id_of s = c.1).
Proof.
  intros Hc Hr. unfold docker_vpn_immunity_conflicts in Hc. cbv zeta in Hc.
  set (ds := dict_subjects (map VDict l)) in *.
  assert (Hdir : c ∈ flat_map (fun x => direct_conflicts_of g x.2) ds
      ++ (if routed_mode g then flat_map (direct_overlaps g ds) ds else []) ->
    exists x, x ∈ ds /\ routed_mode g = true /\ direct_overlaps g ds x <> []).
  { intros [Hin|Hin]%elem_of_app.
    - exfalso. apply list_elem_of_In, in_flat_map in Hin as (x & _ & Hin). unfold direct_conflicts_of, coverage_incomplete in Hin.
      assert (E : c.2 = "docker_direct_source_coverage_incomplete").
      { repeat case_match; cbn [app In] in Hin; naive_solver. }
      rewrite E in Hr. unfold MARKED_REASONS in Hr. rewrite !elem_of_cons in Hr. destruct Hr as [?|[?|[?|[]%elem_of_nil]]]; discriminate.
    - destruct (routed_mode g); [|by apply elem_of_nil in Hin]. apply list_elem_of_In, in_flat_map in Hin as (x & Hx & Hin).
      exists x. split; [by apply list_elem_of_In|]. split; [done|]. intros E. by rewrite E in Hin. }
  assert (Hv : forall x, x ∈ List.filter (fun x => is_vpn_subject x.2) ds -> x.2 ∈ l /\ is_vpn_subject x.2 = true).
  { intros [i s] Hin. apply list_elem_of_In, filter_In in Hin as [Hin Hv]. split; [|done]. cbn [snd].
    apply list_elem_of_In, dict_subjects_spec in Hin. unfold at_pos in Hin.
    apply list_elem_of_lookup_2 in Hin. apply list_elem_of_fmap in Hin as (s' & [= ->] & ?). done. }
  destruct (_ ++ _) as [|c' cs]; [|left; by apply Hdir].
  destruct (List.filter _ ds) as [|x0 vs] eqn:Ef; [by apply elem_of_nil in Hc|]. right.
  destruct (py_map infrastructure_network ips) as [networks|].
  - apply list_elem_of_omap in Hc as (x & Hx & Ec). destruct (Hv x Hx) as [Hin Hvx]. exists x.2. split; [done|]. split; [done|].
    unfold vpn_conflict, overlap_conflict in Ec. destruct x as [i s]. cbn [snd].
    repeat case_match; try discriminate; injection Ec as <-; done.
  - apply list_elem_of_fmap in Hc as (x & -> & Hx). destruct (Hv x Hx) as [Hin Hvx]. by exists x.2.
Qed.
End Marks.

(** ** The two runs of the guard *)

Section Agreement.
Context `{ReprContainer} `{Settings} `{LanHosts} `{NftSettings} `{RuleSources}.
Context (host : host_state) (env : policy_env).

(** A row of the subject table carries none of what the manifest adds, and has an id. *)
Record raw_row (s : dict) : Prop := RawRow {
  raw_observed : is_dict (dget "observed_docker_source" s) = false;
  raw_runtime : is_dict (dget "scoped_runtime" s) = false;
  raw_path : truthy (dget "dataplane_path" s) = false;
  raw_id : id_of s <> "";
}.

Lemma direct_falsy s s' : truthy (dget "dataplane_path" s) = false -> direct_if_routed "dataplane_path" s = Some s' -> s' = s.
Proof.
  unfold direct_if_routed. intros Hf Hs. py_inv Hs as b Eb. injection Hs as <-.
  assert (b = false) as ->; [|done]. unfold routed_value in Eb. destruct (dget "dataplane_path" s); try discriminate; try congruence.
  injection Eb as <-. cbn [truthy] in Hf. apply negb_false_iff, String.eqb_eq in Hf as ->. done.
Qed.

Lemma override_raw s s' : raw_row s -> override_subject s = Some s' -> raw_row s' /\ id_of s' = id_of s.
Proof.
  intros [Ho Hr Hp Hi] Hs. unfold override_subject in Hs. py_inv Hs as s1 E1. py_inv Hs as s2 E2.
  assert (Hk1 : forall k, String.eqb k "effective_state" = false -> dget k s1 = dget k s).
  { intros k Hk. destruct (dget "effective_state" s) as [| | | | |state]; try (by injection E1 as <-).
    py_inv E1 as routed Er. injection E1 as <-. destruct routed; [|done]. by rewrite dget_dset, Hk. }
  apply direct_falsy in E2 as ->; [|by rewrite Hk1].
  assert (Hk2 : forall k, String.eqb k "effective_state" = false -> String.eqb k "effective_mode" = false -> dget k s' = dget k s).
  { intros k Hn1 Hn2. rewrite (direct_if_routed_field "effective_mode" k s1 s') by done. by apply Hk1. }
  assert (Hid : id_of s' = id_of s) by (unfold id_of; by rewrite Hk2). split; [|done].
  constructor; [rewrite Hk2 by done; done..|by rewrite Hid].
Qed.

Lemma enrich_guardable routing enf core_bypass s e :
  raw_row s -> enrich_planned env routing enf core_bypass s = Some e ->
  guardable e /\ is_dict (runtime_in e) = true /\ id_of e = id_of s.
Proof.
  intros [Ho Hr Hp Hi] (u & sv & mode & source & b & a & r & act & st & dm & _ & _ & Eb & _ & ->)%enrich_inv.
  assert (Hrt : runtime_in (dset "effective_state" (VDict (effective_state_of dm mode source b
      (default (_routing_snapshot (env_routing env)) (nonempty_dict (Some routing))) u sv enf r))
      (dset "lifecycle" (VDict (lifecycle_of act st)) s)) = VDict r).
  { unfold runtime_in. by rewrite dget_dset, String.eqb_refl. }
  split; [|split; [by rewrite Hrt|unfold id_of; by rewrite enriched_field]].
  constructor; [by rewrite enriched_field..| |].
  - by rewrite dget_dset, String.eqb_refl.
  - rewrite Hrt. cbn [get_in]. destruct (build_coverage _ _ _ _ Eb) as [Hc|Hc]; [unfold coverage_of in Hc; by rewrite Hc|].
    intros _. unfold detail_source. rewrite enriched_field by done. rewrite source_of_detail in Hc. exact Hc.
Qed.

Lemma forall2_chain {A B} (R : A -> B -> Prop) (P : A -> Prop) (Q : B -> Prop) (f : A -> string) (g : B -> string) l k :
  Forall2 R l k -> (forall x y, R x y -> P x -> Q y /\ g y = f x) -> Forall P l -> Forall Q k /\ map g k = map f l.
Proof.
  intros Hl Hpq. induction Hl as [|x y l k Hxy _ IH]; [by split|]. intros [Hx HP]%Forall_cons.
  destruct (Hpq x y Hxy Hx) as [Hq Hg]. destruct (IH HP) as [HQ Hm]. split; [by constructor|]. cbn [map]. by rewrite Hg, Hm.
Qed.

(** What the builder works on when rows are raw: guardable subjects with distinct ids. *)
Definition prepared (l : list dict) : Prop :=
  Forall (fun e => guardable e /\ is_dict (runtime_in e) = true /\ id_of e <> "") l /\ NoDup (map id_of l).

Lemma normalized_prepared routing subjects reentry routing' subjects' enf core_bypass normalized :
  Forall raw_row subjects -> NoDup (map id_of subjects) ->
  override_manifest_state (env_emergency env) routing subjects reentry = Some (routing', subjects') ->
  py_map (enrich_planned env routing' enf core_bypass) subjects' = Some normalized -> prepared normalized.
Proof.
  intros Hraw Hnd Ho Hn.
  assert (Hall : Forall raw_row subjects' /\ map id_of subjects' = map id_of subjects).
  { unfold override_manifest_state in Ho. destruct (_ || _); [injection Ho as <- <-; done|]. py_inv Ho as l El. injection Ho as _ <-.
    apply py_map_forall in El. eapply forall2_chain; [exact El| |exact Hraw]. intros x y Hxy Hx. by apply override_raw. }
  destruct Hall as [Hraw' Hids]. apply py_map_forall in Hn.
  destruct (forall2_chain _ raw_row (fun e => guardable e /\ is_dict (runtime_in e) = true /\ id_of e <> "") id_of id_of _ _ Hn)
    as [HF Hm]; [|exact Hraw'|split; [exact HF|by rewrite Hm, Hids]].
  intros x y Hxy Hx. destruct (enrich_guardable _ _ _ x y Hx Hxy) as (Hg & Hr & Hid).
  split; [|done]. split; [done|]. split; [done|]. rewrite Hid. apply Hx.
Qed.

Lemma id_subject s : id_of s <> "" -> subject_id_of s = id_of s.
Proof. unfold id_of, subject_id_of, text_of, por. by destruct (truthy (dget "subject_id" s)). Qed.

(** After the marks the guard still finds something, when it did. *)
Lemma marked_still_refused l ips g cs : prepared l -> cs = docker_vpn_immunity_conflicts (map VDict l) ips g ->
  docker_vpn_immunity_conflicts (map VDict (fold_left mark_conflict cs l)) ips g = [] -> cs = [].
Proof.
  intros [Hp Hnd] Hcs Hnone.
  assert (Hno : forall c, c ∈ cs -> c.2 ∉ MARKED_REASONS).
  { intros c Hc Hr. pose proof Hc as Hc'. rewrite Hcs in Hc'.
    destruct (marked_reason l ips g c Hc' Hr) as [([i s] & Hx & Hg & Ho)|(s & Hs & Hv & Hid)].
    - pose proof (mark_conflicts_marked cs l) as Hm.
      assert (Ha : Forall2 guard_alike l (fold_left mark_conflict cs l)).
      { clear -Hm Hp. induction Hm as [|x y l k Hxy _ IH]; [constructor|]. apply Forall_cons in Hp as [(Hgx & _) Hp].
        constructor; [by apply marked_alike|by apply IH]. }
      pose proof (enum_same _ _ _ Ha 0) as Hds.
      destruct (forall2_in_l _ _ _ _ Hds Hx) as (x' & Hx' & Hxx).
      apply policy_iff in Hnone as [Hok _]. rewrite <- direct_conflicts_nil in Hok. apply app_nil in Hok as [_ Hok].
      rewrite Hg in Hok. rewrite flat_map_nil in Hok. apply Ho. rewrite <- (Hok x' Hx'). symmetry.
      by apply (same_overlaps _ _ Hds).
    - rewrite Forall_forall in Hp. destruct (Hp s Hs) as (Hg & Hrt & Hne). rewrite (id_subject s Hne) in Hid.
      destruct (conflict_marks cs c l s Hc Hr Hnd Hs Hid) as (s' & Hs' & Hm & Ha); [apply Hg|done|].
      pose proof (marked_alike s s' Hg Hm) as Hal. rewrite <- (same_vpn _ _ Hal) in Hv.
      apply policy_iff in Hnone as [_ Hvpn]. apply list_elem_of_lookup in Hs' as [i Hi].
      destruct (Hvpn i s') as (networks & _ & _ & Hap & _); [unfold at_pos; rewrite list_lookup_fmap; by setoid_rewrite Hi|done|].
      rewrite (guardable_runtime s' (marked_guardable s s' Hg Hm)), Ha in Hap. done. }
  assert (E : fold_left mark_conflict cs l = l).
  { clear -Hno. induction cs as [|c cs IH]; [done|]. cbn [fold_left]. unfold mark_conflict at 2.
    rewrite bool_decide_eq_false_2 by (apply Hno; by left). apply IH. intros c' Hc'. apply Hno. by right. }
  rewrite E in Hnone. congruence.
Qed.

Lemma routed_text mode : routed_mode (Some (py_str (por (VStr mode) (VStr "direct")))) = routed_mode (Some mode).
Proof. rewrite por_text. by destruct (String.eqb_spec mode "") as [->|]. Qed.

(** The renderer's guard on a manifest is the builder's on the subjects it kept. *)
Lemma renderer_guard plan_id reason generated_at input_data egress p ips :
  prepared (mp_enriched p) -> projection p -> clean_extra (mp_extra p) ->
  iter_val (dget_or "infrastructure_ipv4" (VList []) (mp_extra p)) = Some ips ->
  docker_conflict (VDict (manifest_of plan_id reason generated_at input_data p egress)) (mp_subjects p)
  = Some (head (docker_vpn_immunity_conflicts (map VDict (mp_enriched p)) ips (Some (manifest_mode (mp_routing p))))).
Proof.
  intros [Hp _] Hproj Hc Hips. set (m := manifest_of plan_id reason generated_at input_data p egress).
  unfold docker_conflict. change (attr_get "global_mode" (por (dget "summary" m) (VDict []))) with (Some (VStr (manifest_mode (mp_routing p)))).
  cbn [mbind option_bind]. f_equal. unfold docker_vpn_immunity_conflict. f_equal.
  rewrite (read_clean (VDict m) (mp_extra p)) in Hips by done. injection Hips as <-.
  apply guard_congruence; [|apply routed_text|done].
  clear -Hp Hproj. unfold projection in Hproj. induction Hproj as [|x y l k Hxy _ IH]; [constructor|].
  apply Forall_cons in Hp as [(Hg & _) Hp]. constructor; [by apply projected_guard_same|by apply IH].
Qed.

Lemma prepared_marked l cs : prepared l -> prepared (fold_left mark_conflict cs l).
Proof.
  intros [Hp Hnd]. pose proof (mark_conflicts_marked cs l) as Hm.
  destruct (forall2_chain marked (fun e => guardable e /\ is_dict (runtime_in e) = true /\ id_of e <> "")
              (fun e => guardable e /\ is_dict (runtime_in e) = true /\ id_of e <> "") id_of id_of _ _ Hm) as [HF Hids];
    [|exact Hp|split; [exact HF|by rewrite Hids]].
  intros x y Hxy (Hg & Hr & Hid). pose proof (marked_id x y Hxy) as E. rewrite E. split; [|done].
  split; [by apply (marked_guardable x)|]. split; [by rewrite (marked_runtime_dict _ _ Hxy)|done].
Qed.

(** C9: Builder and renderer agree on the Docker guard. Let the subjects
    be raw rows with distinct ids and the infrastructure addresses, if any, a
    list, and let the manifest not be in bypass. The builder enriches the
    subjects that the emergency override leaves, each with its effective
    state, and runs the guard on these before anything is marked: it gives
    [conflicts], which decide the marks. The renderer runs the guard again,
    on the bounded subjects with the marks and with their observation in
    place of the raw source, and it lets the manifest through exactly when
    the builder found no conflict: no mark hides a conflict from it. *)
Theorem guard_agrees routing subjects extra plan_id reason generated_at input_data egress p :
  Forall raw_row subjects -> NoDup (map id_of subjects) -> listed_infrastructure (default [] extra) ->
  manifest_parts_of host env routing subjects extra = Some p -> bypass_on (mp_core_bypass p) = false ->
  exists kept normalized conflicts,
    override_manifest_state (env_emergency env) routing subjects
      (truthy (dget "provider_vpn_reentry" (default [] extra))) = Some (mp_routing p, kept) /\
    py_map (enrich_planned env (mp_routing p) (mp_enforcement p) (mp_core_bypass p)) kept = Some normalized /\
    manifest_conflicts (mp_routing p) (mp_extra p) normalized = Some conflicts /\
    mp_enriched p = fold_left mark_conflict conflicts normalized /\
    (docker_conflict (VDict (manifest_of plan_id reason generated_at input_data p egress)) (mp_subjects p) = Some None
     <-> conflicts = []).
Proof.
  intros Hraw Hnd Hlist Ep Hby. pose proof (parts_projection host env _ _ _ _ Ep) as Hproj.
  apply parts_inv in Ep as (r' & subjects' & pre & bounded & normalized & conflicts & Eo & _ & Eb & _ & En & Ec & Er & _ & Eex & Ecb & Ee & _ & _).
  rewrite <- Ecb, Hby, <- Er, <- Eex in Ec. rewrite <- Eex, <- Er in En. rewrite <- Er in Eo.
  exists subjects', normalized, conflicts. split; [exact Eo|]. split; [by rewrite Ecb, <- Eex|]. split; [done|]. split; [done|].
  pose proof (normalized_prepared _ _ _ _ _ _ _ _ Hraw Hnd Eo En) as Hprep.
  assert (Hclean : clean_extra (mp_extra p)).
  { rewrite Eex. intros v. rewrite dict_lookup_dset. cbn [String.eqb Ascii.eqb Bool.eqb].
    revert v. apply (bounded_extra_clean (default [] extra) [] bounded Hlist); [by intros w|exact Eb]. }
  pose proof (read_clean (VDict [("extra", VDict (mp_extra p))]) (mp_extra p) eq_refl Hclean) as Hips.
  set (ips := map VStr _) in Hips. unfold manifest_conflicts in Ec. rewrite Hips in Ec. cbv zeta in Ec. injection Ec as Ec.
  rewrite (renderer_guard plan_id reason generated_at input_data egress p ips);
    [|rewrite Ee; by apply prepared_marked|done|done|exact Hips].
  split.
  - intros [= Hh]. apply (marked_still_refused normalized ips (Some (manifest_mode (mp_routing p)))); [done|done|].
    rewrite Ee in Hh. revert Hh.
    by destruct (docker_vpn_immunity_conflicts (map VDict (fold_left mark_conflict conflicts normalized)) ips _).
  - intros ->. rewrite Ee. cbn [fold_left]. by rewrite Ec.
Qed.
End Agreement.
