(* ===== verification/ManifestListenerFacts.v ===== *)
(** * A disabled service, from its row to the packet

    The listeners of a subject's detail pass through the bounded list of the
    manifest into the input chain: a service that is disabled is closed on
    every port it declares. *)
From stdpp Require Import base list strings pretty gmap sorting.
From Stdlib Require Import ZArith Lia Ascii.
From S2P Require Import Prelude PyStr IpAddr PyVal NetworkContract SubjectTaxonomy DockerPolicy ScopedEgress ScopedReadiness Nft NftSets NftGuards DataplaneRules NftRender NftText NftClosed NftSteer NftPolicy NftGuardFacts DataplanePreflight SubjectPolicy RoutingManifest ManifestFacts ManifestGuardFacts.

Open Scope string_scope.
Open Scope Z_scope.
Open Scope list_scope.

(** ** The bounded list *)

Lemma same_key_iff a b : same_key a b = true <-> listener_key a = listener_key b.
Proof.
  unfold same_key, listener_key. rewrite !andb_true_iff, !String.eqb_eq, Z.eqb_eq. split; [by intros [[-> ->] ->]|by intros [= -> -> ->]].
Qed.

(** Putting a listener keeps every key and adds its own. *)
Lemma put_keys l deduped key : key ∈ map listener_key (put_listener l deduped) <->
  key = listener_key l \/ key ∈ map listener_key deduped.
Proof.
  induction deduped as [|l' rest IH]; cbn [put_listener map]; [by rewrite elem_of_cons|].
  destruct (same_key l l') eqn:E; cbn [map]; rewrite !elem_of_cons.
  - apply same_key_iff in E. rewrite E. tauto.
  - rewrite IH. tauto.
Qed.

Lemma fold_keys ls deduped key :
  key ∈ map listener_key (fold_left (fun deduped l => put_listener l deduped) ls deduped) <->
  key ∈ map listener_key ls \/ key ∈ map listener_key deduped.
Proof.
  revert deduped. induction ls as [|l ls IH]; intros deduped; cbn [fold_left map].
  - split; [by right|by intros [?%elem_of_nil|]].
  - rewrite IH, put_keys, elem_of_cons. tauto.
Qed.

Section Listeners.
Context `{ReprContainer}.

(** The dictionaries that declare a listener: the two lists of the source, and the detail itself. *)
Definition listed (k k' : string) (source item : dict) : Prop :=
  exists items, por (dget k source) (dget k' source) = VList items /\ VDict item ∈ items.

Inductive declares (s item : dict) : string -> Prop :=
  | declares_listener source : get_in "source" (dget "detail" s) = VDict source ->
      listed "Listeners" "listeners" source item -> declares s item "listener"
  | declares_published source : get_in "source" (dget "detail" s) = VDict source ->
      listed "PublishedPorts" "published_ports" source item -> declares s item "published_port"
  | declares_own detail : dget "detail" s = VDict detail ->
      item = [("listen_proto", dget "listen_proto" detail); ("listen_port", dget "listen_port" detail)] ->
      declares s item "detail".

Lemma listeners_in_found items item src l ls : VDict item ∈ items -> _normalize_listener (VDict item) src = Some l ->
  listeners_in (VList items) src = Some ls -> l ∈ ls.
Proof.
  intros Hin Hl Hls. unfold listeners_in in Hls.
  assert (E : iter_val (por (VList items) (VList [])) = Some items).
  { unfold por. cbn [truthy]. destruct items; [by apply elem_of_nil in Hin|done]. }
  rewrite E in Hls. cbn [mbind option_bind] in Hls. injection Hls as <-. apply list_elem_of_omap. by exists (VDict item).
Qed.

(** Every declared listener that is valid is in the bounded list, under its key. *)
Lemma declared_bounded s item src l ls : declares s item src -> _normalize_listener (VDict item) src = Some l ->
  _bounded_network_listeners s = Some ls -> exists l', l' ∈ ls /\ listener_key l' = listener_key l.
Proof.
  intros Hd Hl Hb. unfold _bounded_network_listeners in Hb.
  assert (Hdet : exists detail, dget "detail" s = VDict detail).
  { destruct Hd as [source Hs _|source Hs _|detail Hs _]; [| |by exists detail]; destruct (dget "detail" s); try discriminate; eauto. }
  destruct Hdet as [detail Edet]. rewrite Edet in Hb. py_inv Hb as found Ef. injection Hb as <-.
  set (own := _normalize_listener
    (VDict [("listen_proto", dget "listen_proto" detail); ("listen_port", dget "listen_port" detail)]) "detail") in *.
  assert (Hin : l ∈ found ++ match own with Some l => [l] | None => [] end).
  { apply elem_of_app. destruct Hd as [source Hs (items & Ei & Hi)|source Hs (items & Ei & Hi)|detail' Hs Ei].
    - left. rewrite Edet in Hs. cbn [get_in] in Hs. rewrite Hs in Ef. cbn [source_listeners] in Ef.
      py_inv Ef as ls1 E1. py_inv Ef as ls2 E2. injection Ef as <-. apply elem_of_app. left.
      rewrite Ei in E1. by eapply listeners_in_found.
    - left. rewrite Edet in Hs. cbn [get_in] in Hs. rewrite Hs in Ef. cbn [source_listeners] in Ef.
      py_inv Ef as ls1 E1. py_inv Ef as ls2 E2. injection Ef as <-. apply elem_of_app. right.
      rewrite Ei in E2. by eapply listeners_in_found.
    - right. assert (detail' = detail) as -> by congruence. subst item. unfold own. rewrite Hl. by left. }
  assert (Hk : listener_key l ∈ map listener_key (sort_by listener_leb
     (fold_left (fun deduped l => put_listener l deduped) (found ++ match own with Some l => [l] | None => [] end) []))).
  { rewrite sort_by_perm. apply fold_keys. left. by apply list_elem_of_fmap_2. }
  apply list_elem_of_fmap in Hk as (l' & E & Hl'). by exists l'.
Qed.

Lemma normalized_valid item src l : _normalize_listener item src = Some l ->
  (l_proto l = "tcp" \/ l_proto l = "udp") /\ 0 < l_port l <= 65535.
Proof.
  unfold _normalize_listener. destruct item as [| | | | |d]; try discriminate. cbv zeta.
  destruct (String.eqb _ "tcp" || _) eqn:Ep; [|discriminate]. intros Hl. py_inv Hl as port Eport. injection Hl as <-. cbn [l_proto l_port].
  apply orb_prop in Ep as [Ep%String.eqb_eq|Ep%String.eqb_eq]; rewrite Ep.
  all: unfold _as_positive_port in Eport; py_inv Eport as n En; destruct (_ && _) eqn:Eb; [|done]; injection Eport as <-; bool_simpl.
  all: split; [auto|lia].
Qed.

(** What the input guard reads of a listener of the manifest. *)
Lemma listener_port_read ms l : (l_proto l = "tcp" \/ l_proto l = "udp") -> 0 < l_port l <= 65535 ->
  l_port l ∉ CONTROL_PLANE_INPUT_PORTS ->
  listener_port_of ms (VDict (listener_dict l)) = Some (l_proto l, l_port l, sid_or_unknown ms).
Proof.
  intros Hp Hn Hc. unfold listener_port_of, listener_dict.
  change (dget "proto" _) with (VStr (l_proto l)). change (dget "port" _) with (VInt (l_port l)).
  assert (E : norm_lower_val (VStr (l_proto l)) = l_proto l) by (by destruct Hp as [->| ->]).
  cbv zeta. rewrite E. assert (Eb : String.eqb (l_proto l) "tcp" || String.eqb (l_proto l) "udp" = true) by (by destruct Hp as [->| ->]).
  rewrite Eb. unfold _as_nft_port. cbn [py_int mbind option_bind].
  rewrite (proj2 (Z.ltb_lt 0 (l_port l))), (proj2 (Z.leb_le (l_port l) 65535)) by lia. cbn [andb mbind option_bind].
  by rewrite bool_decide_eq_false_2.
Qed.
End Listeners.

(** ** End to end *)

Section Closed.
Context `{ReprContainer} `{Settings} `{LanHosts} `{NftSettings} `{RuleSources}.
Context (host : host_state) (env : policy_env).
Context (plan_id reason generated_at : string) (input_data : option dict).

Definition ROW_FIELDS : list string := ["is_active"; "subject_type"; "desired_mode"; "detail"].

(** What the manifest keeps of a row. *)
Lemma row_followed routing subjects extra p s :
  manifest_parts_of host env routing subjects extra = Some p -> s ∈ subjects ->
  exists e ms, e ∈ mp_enriched p /\ ms ∈ mp_subjects p /\ manifest_subject e = Some ms /\
    forall key, key ∈ ROW_FIELDS -> dget key e = dget key s.
Proof.
  intros (r' & subjects' & pre & bounded & normalized & conflicts & Eo & _ & _ & _ & En & _ & _ & _ & _ & _ & Ee & Em & _)%parts_inv Hs.
  assert (Hov : exists s', s' ∈ subjects' /\ forall key, key ∈ ROW_FIELDS -> dget key s' = dget key s).
  { unfold override_manifest_state in Eo. destruct (_ || _); [injection Eo as <- <-; by exists s|].
    py_inv Eo as l El. injection Eo as _ <-. apply py_map_forall in El.
    destruct (forall2_in_l _ _ _ _ El Hs) as (s' & Hs' & Hov). exists s'. split; [done|]. intros key Hk.
    unfold override_subject in Hov. py_inv Hov as s1 E1. py_inv Hov as s2 E2.
    assert (Hne : String.eqb key "effective_mode" = false /\ String.eqb key "dataplane_path" = false /\ String.eqb key "effective_state" = false).
    { unfold ROW_FIELDS in Hk. rewrite !elem_of_cons in Hk. by destruct Hk as [->|[->|[->|[->|[]%elem_of_nil]]]]. }
    destruct Hne as (Hn1 & Hn2 & Hn3).
    rewrite (direct_if_routed_field "effective_mode" key s2 s'), (direct_if_routed_field "dataplane_path" key s1 s2) by done.
    destruct (dget "effective_state" s); try (by injection E1 as <-). py_inv E1 as routed Er. injection E1 as <-.
    destruct routed; [|done]. by rewrite dget_dset, Hn3. }
  destruct Hov as (s' & Hs' & Hf). apply py_map_forall in En. destruct (forall2_in_l _ _ _ _ En Hs') as (n & Hn & Enr).
  pose proof (mark_conflicts_marked conflicts normalized) as Hmarks. rewrite <- Ee in Hmarks.
  destruct (forall2_in_l _ _ _ _ Hmarks Hn) as (e & He & Hm). apply py_map_forall in Em.
  destruct (forall2_in_l _ _ _ _ Em He) as (ms & Hms & Eproj). exists e, ms. split; [done|]. split; [done|]. split; [done|].
  intros key Hk. rewrite <- Hf by done.
  assert (Hne : String.eqb key "effective_state" = false /\ String.eqb key "lifecycle" = false).
  { unfold ROW_FIELDS in Hk. rewrite !elem_of_cons in Hk. by destruct Hk as [->|[->|[->|[->|[]%elem_of_nil]]]]. }
  destruct Hne as [Hn1 Hn2]. rewrite (marked_field _ _ Hm) by done.
  apply enrich_inv in Enr as (? & ? & ? & ? & ? & ? & ? & ? & ? & ? & _ & _ & _ & _ & ->). by apply enriched_field.
Qed.

Lemma manifest_subject_listeners e ms : manifest_subject e = Some ms ->
  dget "desired_mode" ms = dget "desired_mode" e /\
  exists ls, _bounded_network_listeners e = Some ls /\
    dget "network_listeners" ms = VList (map (fun l => VDict (listener_dict l)) ls).
Proof.
  unfold manifest_subject. intros Hm.
  py_inv Hm as id Eid. py_inv Hm as type Etype. py_inv Hm as name Ename. py_inv Hm as mode Emode.
  py_inv Hm as state Estate. py_inv Hm as active Eactive. py_inv Hm as st Est. py_inv Hm as em Eem.
  py_inv Hm as src Esrc. py_inv Hm as path Epath. py_inv Hm as sid Esid. py_inv Hm as ssrc Essrc.
  py_inv Hm as l El. injection Hm as <-. apply item_dget in Emode. split; [by rewrite Emode|]. by exists l.
Qed.

Lemma port_collected q found ms l : (l_proto l, l_port l, sid_or_unknown ms) ∈ found -> l_proto l = proto_text q ->
  l_port l ∈ ports_of_proto (proto_text q) found.
Proof.
  intros Hin E. apply list_elem_of_omap. exists (l_proto l, l_port l, sid_or_unknown ms). split; [done|]. cbn [fst snd].
  by rewrite E, String.eqb_refl.
Qed.

(** C22: Outside the core bypass, a disabled service is closed on every port
    it declares. Take any row of an active subject, not FWRouter itself, that the administrator
    disabled, and any valid listener its detail declares, in either list of
    the source or in the detail, on a port that is not one of the control
    plane. The table rendered from the manifest refuses every packet for this
    protocol and port that does not come from the host itself, whatever the
    mode, the other subjects and the trusted clients. *)
Theorem disabled_listener_closed routing subjects extra manifest loader t k p s item src l q :
  build_dataplane_manifest_from_state host env plan_id reason generated_at routing subjects input_data extra = Some manifest ->
  owned_table (VDict manifest) loader = Ok t -> core_bypass_enabled (VDict manifest) = Some false ->
  s ∈ subjects -> is_active s = true -> type_text s <> "fwrouter" -> dget "desired_mode" s = VStr "disabled" ->
  declares s item src -> _normalize_listener (VDict item) src = Some l ->
  l_proto l = proto_text q -> l_port l ∉ CONTROL_PLANE_INPUT_PORTS ->
  is_proto p q = true -> pk_dport p = l_port l -> from_lo p = false ->
  run_hook k 3 (cand_chains t) "input" p = Some (VReject, p).
Proof.
  intros Hb Ht Hby Hs Hact Htype Hmode Hdecl Hl Hq Hctl Hproto Hport Hlo.
  unfold build_dataplane_manifest_from_state in Hb. py_inv Hb as parts Ep. py_inv Hb as egress Eg. injection Hb as <-.
  destruct (row_followed routing subjects extra parts s Ep Hs) as (e & ms & He & Hms & Eproj & Hf).
  destruct (manifest_subject_listeners e ms Eproj) as (Hdm & ls & Els & Hnl).
  apply manifest_subject_projected in Eproj as (Hpf & _).
  assert (Hdecl' : declares e item src).
  { assert (Hdet : dget "detail" e = dget "detail" s) by (apply Hf; unfold ROW_FIELDS; set_solver).
    destruct Hdecl as [source Hd Hi|source Hd Hi|detail Hd Hi].
    - apply (declares_listener e item source); [by rewrite Hdet|done].
    - apply (declares_published e item source); [by rewrite Hdet|done].
    - apply (declares_own e item detail); [by rewrite Hdet|done]. }
  destruct (declared_bounded e item src l ls Hdecl' Hl Els) as (l' & Hl' & Hkey).
  destruct (normalized_valid _ _ _ Hl) as [Hpv Hnv]. unfold listener_key in Hkey. injection Hkey as Hkp Hkn _.
  assert (Hread : (l_proto l', l_port l', sid_or_unknown ms) ∈ listener_ports ms).
  { unfold listener_ports. rewrite Hnl. apply list_elem_of_omap. exists (VDict (listener_dict l')).
    split; [by apply (list_elem_of_fmap_2 (fun l => VDict (listener_dict l)))|]. apply listener_port_read; congruence. }
  assert (Hact' : is_active ms = true).
  { unfold is_active in *. rewrite Hpf, Hf by (unfold ROW_FIELDS; set_solver). done. }
  assert (Hg : guarded (VDict ms) = Some ms).
  { unfold guarded. rewrite Hact'. unfold type_text, _is_disabled_subject in *.
    rewrite Hdm, Hpf, !Hf, Hmode by (unfold ROW_FIELDS; set_solver).
    rewrite (proj2 (String.eqb_neq _ _) Htype). cbn [negb andb].
    change (norm_lower_val (VStr "disabled")) with "disabled". by rewrite orb_true_r. }
  rewrite (input_rendered _ loader t (mp_subjects parts) _ k p Ht Hby (manifest_subjects_of _ _ _ _ parts egress) eq_refl).
  unfold input_verdict. set (found := flat_map listener_ports _).
  assert (Hin : (l_proto l', l_port l', sid_or_unknown ms) ∈ found).
  { apply list_elem_of_In, in_flat_map. exists ms. split; [|by apply list_elem_of_In]. apply list_elem_of_In, list_elem_of_omap.
    exists (VDict ms). split; [|done]. apply list_elem_of_fmap_2. apply list_elem_of_In, filter_In. split; [by apply list_elem_of_In|done]. }
  assert (Hon : on_port q (ports_of_proto (proto_text q) found) p = true).
  { unfold on_port. rewrite Hproto, bool_decide_eq_true_2; [done|]. rewrite Hport, <- Hkn.
    eapply port_collected; [exact Hin|congruence]. }
  destruct q; rewrite Hon, ?orb_true_r; by rewrite Hlo.
Qed.
End Closed.
