(* ===== verification/ManifestWitness.v ===== *)
(** * A concrete state for the witnesses

    A phone that follows the global mode, a Docker container on the direct
    path and a disabled host service, with a healthy host. *)
From stdpp Require Import base list strings pretty gmap sorting.
From Stdlib Require Import ZArith Lia Ascii.
From S2P Require Import Prelude PyStr IpAddr NetworkContract PyVal SubjectTaxonomy DockerPolicy ScopedEgress ScopedReadiness Nft NftSets NftGuards DataplaneRules NftRender NftClosed NftSteer NftPolicy NftGuardFacts DataplanePreflight DataplanePreflightFacts SubjectPolicy RoutingManifest SubjectPolicyFacts ManifestFacts ManifestGuardFacts ManifestListenerFacts.

Open Scope string_scope.
Open Scope Z_scope.
Open Scope list_scope.

#[local] Existing Instance sample_repr.
#[local] Existing Instance sample_nft_settings.
#[local] Existing Instance default_settings.
#[local] Existing Instance sample_sources.
#[local] Instance sample_lan_hosts : LanHosts := {| set_local_lan_hosts := VNone; env_local_lan_hosts := None |}.

Definition sample_host : host_state :=
  HostState (sample_health (Some "srv")) (Some [("rules", VList [])]) [] (Some [("desired_state", VStr "enabled")]) [].

Definition sample_routing (mode : string) : dict :=
  [("desired_mode", VStr mode); ("applied_mode", VStr mode); ("selective_default", VStr "direct"); ("server_mode", VStr "auto");
   ("desired_fixed_server_id", VNone); ("applied_fixed_server_id", VNone); ("active_auto_server_id", VStr "srv")].

Definition sample_row (id type mode : string) (detail : dict) : dict :=
  [("subject_id", VStr id); ("subject_type", VStr type); ("display_name", VStr id); ("desired_mode", VStr mode);
   ("runtime_state", VStr "running"); ("is_active", VBool true); ("detail", VDict detail)].

Definition sample_phone : dict := sample_row "lan:phone" "lan" "global" [("ip_address", VStr "192.168.1.5")].

Definition sample_container : dict :=
  sample_row "docker:web" "docker" "direct"
    [("ip_address", VStr "172.18.0.9"); ("container_name", VStr "web");
     ("source", VDict [("NetworkMode", VStr "bridge"); ("IPv4Addresses", vstrings ["172.20.0.9"; "172.18.0.9"]);
                       ("IPv4InventoryComplete", VBool true); ("IPv6InventoryComplete", VBool true);
                       ("IPv6Addresses", VList [])])].

Definition sample_item : dict := [("proto", VStr "TCP"); ("port", VStr "8443")].

Definition sample_service : dict :=
  sample_row "host:web" "host" "disabled"
    [("systemd_unit", VStr "web.service"); ("source", VDict [("Listeners", VList [VDict sample_item])])].

Definition sample_rows : list dict := [sample_phone; sample_container; sample_service].

Definition sample_tables : override_tables := OverrideTables [] [].

Definition sample_env (emergency : option dict) : policy_env :=
  PolicyEnv None [] emergency sample_tables "2026-01-01 00:00:00" BindingsMissing (fun _ => None).

Definition emergency_on : option dict := Some [("provider_managed", VBool true); ("emergency_direct", VBool true)].

Definition sample_parts (emergency : option dict) (extra : dict) : option manifest_parts :=
  manifest_parts_of sample_host (sample_env emergency) (sample_routing "vpn") sample_rows (Some extra).

Definition built_manifest (emergency : option dict) (extra : dict) : dict :=
  default [] (build_dataplane_manifest_from_state sample_host (sample_env emergency) "plan-1" "apply" "2026-01-01T00:00:00Z"
                (sample_routing "vpn") sample_rows None (Some extra)).

Definition built_table (emergency : option dict) (extra : dict) : candidate :=
  match owned_table (VDict (built_manifest emergency extra)) VNone with Ok t => t | Raise _ => bypass_table end.

Definition rules_extra : dict := [("rules_effective", VDict [("rules", VList [])])].

Lemma sample_built emergency : emergency ∈ [None; emergency_on] ->
  build_dataplane_manifest_from_state sample_host (sample_env emergency) "plan-1" "apply" "2026-01-01T00:00:00Z"
    (sample_routing "vpn") sample_rows None (Some rules_extra) = Some (built_manifest emergency rules_extra).
Proof. rewrite !elem_of_cons. intros [->|[->|[]%elem_of_nil]]; vm_compute; reflexivity. Qed.

Lemma sample_table_built emergency : emergency ∈ [None; emergency_on] ->
  owned_table (VDict (built_manifest emergency rules_extra)) VNone = Ok (built_table emergency rules_extra).
Proof. rewrite !elem_of_cons. intros [->|[->|[]%elem_of_nil]]; vm_compute; reflexivity. Qed.

(** * Witnesses: the theorems on policy and manifest at concrete inputs *)
#[local] Existing Instance sample_repr.
#[local] Existing Instance sample_nft_settings.
#[local] Existing Instance default_settings.
#[local] Existing Instance sample_sources.
#[local] Existing Instance sample_lan_hosts.

(** ** Expiry *)

Definition override_row (id mode until : string) : dict :=
  [("subject_id", VStr id); ("override_mode", VStr mode); ("override_until", VStr until)].

Definition expiring : override_tables :=
  OverrideTables [override_row "a" "vpn" "2026-01-01 10:00:00"; override_row "b" "direct" "2026-01-01 14:00:00"] [].

Definition at_noon : expiry_times :=
  ExpiryTimes "2026-01-01 12:00:00" "2026-01-01 12:00:00" "2026-01-01 12:00:01" "2026-01-01 12:00:01".

Lemma expiry_exact_witness :
  user_rows (expire_subject_overrides false at_noon expiring).2 = [override_row "b" "direct" "2026-01-01 14:00:00"] /\
  _load_active_user_override (expire_subject_overrides false at_noon expiring).2 "2026-01-01 13:00:00" "b"
  = Some (override_row "b" "direct" "2026-01-01 14:00:00").
Proof.
  destruct (expiry_exact at_noon expiring "2026-01-01 13:00:00" "b" ltac:(repeat split; reflexivity)) as (_ & _ & _ & Hb & _).
  split; [vm_compute; reflexivity|]. etransitivity; [exact Hb|vm_compute; reflexivity].
Defined.

(** ** Modes *)

Lemma sample_columns : has_columns ROUTING_COLUMNS (sample_routing "selective").
Proof. intros k Hk. unfold ROUTING_COLUMNS in Hk. rewrite !elem_of_cons in Hk. repeat destruct Hk as [->|Hk]; try (by eexists). by apply elem_of_nil in Hk. Qed.

(** The administrator sets the phone to "vpn", and a user of the phone asks for it, under a selective global mode. *)
Lemma accepted_mode_takes_effect_witness :
  (exists effective binding,
     effective_policy (sample_env None) (dset "desired_mode" (VStr "vpn") sample_phone) (sample_routing "selective") None None
     = Some (effective, binding) /\ dget "dataplane_path" binding = VStr "vpn") /\
  (exists source binding,
     effective_policy (sample_env None) sample_phone (sample_routing "selective") (Some (override_row "lan:phone" "vpn" "2030")) None
     = Some ("vpn", source, binding) /\ dget "dataplane_path" binding = VStr "vpn").
Proof.
  destruct (accepted_mode_takes_effect (sample_env None) sample_phone (sample_routing "selective") "lan" "selective" "vpn" "admin" None
              eq_refl sample_columns I eq_refl eq_refl ltac:(apply (bool_decide_unpack _); vm_compute; exact I)) as [Ha Hu].
  split.
  - exact (Ha eq_refl eq_refl).
  - exact (Hu eq_refl (override_row "lan:phone" "vpn" "2030") eq_refl).
Defined.

(** ** The manifest *)

Lemma sample_admitted s : s ∈ sample_rows -> admitted s.
Proof.
  unfold sample_rows. rewrite !elem_of_cons. intros Hs.
  repeat destruct Hs as [->|Hs]; try (by apply elem_of_nil in Hs); (split; [|by intros row]).
  all: eexists; split; [reflexivity|]; apply (bool_decide_unpack _); vm_compute; exact I.
Qed.

Lemma in_cases emergency : emergency = None \/ emergency = emergency_on -> emergency ∈ [None; emergency_on].
Proof. rewrite !elem_of_cons. tauto. Qed.

(** The global mode is the VPN, and the packet of the phone is accepted unmarked. *)
Lemma emergency_never_vpn_witness : exists v,
  run_hook (declared_kernel (built_table emergency_on rules_extra)) 3 (cand_chains (built_table emergency_on rules_extra))
    "prerouting" sample_packet = Some (v, sample_packet).
Proof.
  apply (emergency_never_vpn sample_host (sample_env emergency_on) "plan-1" "apply" "2026-01-01T00:00:00Z" None
           (sample_routing "vpn") sample_rows (Some rules_extra) (built_manifest emergency_on rules_extra) VNone).
  - reflexivity.
  - reflexivity.
  - intros row Hrow. by apply elem_of_nil in Hrow.
  - exact sample_admitted.
  - apply sample_built, in_cases. by right.
  - apply sample_table_built, in_cases. by right.
  - intros preflight Hp. vm_compute in Hp. injection Hp as <-. split; vm_compute; reflexivity.
Defined.

Definition built_section (key : string) : dict := dict_or_empty (dget key (built_manifest None rules_extra)).

Lemma vpn_policy_agreed_witness : exists ms,
  vpn_policy_required (built_section "summary") (built_section "global_preflight") (mode_of (built_section "summary"))
    (selective_default_of (built_section "summary")) (List.filter is_active ms) = true.
Proof.
  destruct (manifest_subjects (VDict (built_manifest None rules_extra))) as [ms|] eqn:Ems; [|vm_compute in Ems; discriminate].
  exists ms. rewrite (vpn_policy_agreed sample_host (sample_env None) "plan-1" "apply" "2026-01-01T00:00:00Z" None
    (sample_routing "vpn") sample_rows (Some rules_extra) (built_manifest None rules_extra)
    (built_section "summary") (built_section "global_preflight") ms
    (sample_built None (in_cases None (or_introl eq_refl))) ltac:(vm_compute; reflexivity) ltac:(vm_compute; reflexivity)
    ltac:(vm_compute; reflexivity) Ems).
  vm_compute. reflexivity.
Defined.

Definition bypass_extra : dict := [("core_bypass", VDict [("enabled", VBool true); ("reason", VStr "operator")])].

Lemma bypass_end_to_end_witness : exists t,
  owned_table (VDict (built_manifest None bypass_extra)) VNone = Ok t /\
  forall k p, run_hook k 3 (cand_chains t) "prerouting" p = Some (VAccept, p).
Proof.
  destruct (bypass_end_to_end sample_host (sample_env None) "plan-1" "apply" "2026-01-01T00:00:00Z" None
    (sample_routing "vpn") sample_rows bypass_extra (built_manifest None bypass_extra)) as (_ & Hb).
  - cbn [map fst bypass_extra]. apply (bool_decide_unpack _). vm_compute. exact I.
  - vm_compute. reflexivity.
  - destruct (Hb eq_refl) as [_ Ht]. destruct (Ht VNone) as (t & Et & Hk). exists t. split; [exact Et|].
    apply Hk. unfold BASE_CHAINS. by left.
Defined.

(** ** The guard *)

Lemma sample_raw : Forall raw_row sample_rows.
Proof. repeat constructor; vm_compute; discriminate. Qed.

Definition sample_kept : option manifest_parts := sample_parts None rules_extra.

(** The container shares the network of no VPN subject: both runs find nothing. *)
Lemma guard_agrees_witness : exists p kept normalized, sample_kept = Some p /\
  override_manifest_state None (sample_routing "vpn") sample_rows false = Some (mp_routing p, kept) /\
  py_map (enrich_planned (sample_env None) (mp_routing p) (mp_enforcement p) (mp_core_bypass p)) kept = Some normalized /\
  manifest_conflicts (mp_routing p) (mp_extra p) normalized = Some [] /\
  docker_conflict (VDict (manifest_of "plan-1" "apply" "2026-01-01T00:00:00Z" None p [])) (mp_subjects p) = Some None.
Proof.
  destruct sample_kept as [p|] eqn:Ep; [|vm_compute in Ep; discriminate].
  destruct (guard_agrees sample_host (sample_env None) (sample_routing "vpn") sample_rows (Some rules_extra)
    "plan-1" "apply" "2026-01-01T00:00:00Z" None [] p sample_raw) as (kept & normalized & conflicts & Ho & Hn & Hc & He & Hiff).
  - cbn [map sample_rows]. apply (bool_decide_unpack _). vm_compute. exact I.
  - intros v Hv. apply list_elem_of_In in Hv as [Hv|[]]. discriminate.
  - exact Ep.
  - vm_compute in Ep. injection Ep as <-. reflexivity.
  - assert (Hnone : docker_conflict (VDict (manifest_of "plan-1" "apply" "2026-01-01T00:00:00Z" None p [])) (mp_subjects p)
      = Some None) by (vm_compute in Ep; injection Ep as <-; vm_compute; reflexivity).
    pose proof (proj1 Hiff Hnone) as ->. exists p, kept, normalized. split; [reflexivity|]. split; [exact Ho|].
    split; [exact Hn|]. split; [exact Hc|exact Hnone].
Defined.

(** ** A disabled service *)

Lemma disabled_listener_closed_witness :
  run_hook quiet_kernel 3 (cand_chains (built_table None rules_extra)) "input" (packet_to 2886795273 8443 134744072)
  = Some (VReject, packet_to 2886795273 8443 134744072).
Proof.
  apply (disabled_listener_closed sample_host (sample_env None) "plan-1" "apply" "2026-01-01T00:00:00Z" None
    (sample_routing "vpn") sample_rows (Some rules_extra) (built_manifest None rules_extra) VNone _ _ _
    sample_service sample_item "listener" (Listener "tcp" 8443 "*" "listener") Tcp); try (vm_compute; reflexivity).
  - unfold sample_rows. right. right. by left.
  - vm_compute. discriminate.
  - eapply declares_listener; [reflexivity|]. eexists. split; [reflexivity|]. by left.
  - apply (bool_decide_unpack _). vm_compute. exact I.
Defined.
