(* ===== verification/PendingState.v ===== *)
(** * The pending reconcile of Xray's vpn-auto

    [services/xray_vpn_auto_pending.py]: one row of [settings] that says which
    revision of the intent still has to reach Xray, when it is due, and what
    became of the last attempt.  A mark starts a new revision; an attempt is
    bound to the revision it began with.  With it the expiry of the fixed
    server of [services/server_state.py], which marks a new revision. *)
From stdpp Require Import base list strings gmap.
From Stdlib Require Import ZArith Lia Ascii.
From S2P Require Import Prelude PyStr PyVal PyState PyTime AutoPool SelectorCandidates SelectorRank SelectionFence FenceSession.

Open Scope string_scope.
Open Scope Z_scope.
Open Scope list_scope.

Definition XRAY_VPN_AUTO_PENDING_KEY : string := "xray.vpn_auto_pending".
Definition XRAY_VPN_AUTO_RECONCILE_JOB : string := "xray_vpn_auto_reconcile".
Definition XRAY_VPN_AUTO_RECONCILE_LOCK : string := "xray-vpn-auto-reconcile".
Definition XRAY_VPN_AUTO_DEBOUNCE_SECONDS : Z := 180.
Definition XRAY_VPN_AUTO_RETRY_SECONDS : Z := 60.

(** ** Times *)

(** A datetime argument: local microseconds, and the offset unless it is naive. *)
Definition py_datetime : Type := Z * option Z.

(** [replace(tzinfo=utc)] of a naive time, [astimezone(utc)] of an aware one;
    [None] is OverflowError. *)
Definition in_utc (v : py_datetime) : py datetime :=
  match v.2 with
  | None => Some (Datetime v.1 0)
  | Some off =>
      let us := v.1 - off * 1000000 in
      if (1 <=? year_of us) && (year_of us <=? 9999) then Some (Datetime us 0) else None
  end.

(** [s.replace(old, new)]; [skip] characters of a match are still to be passed. *)
Fixpoint replace_from (skip : nat) (old new s : string) : string :=
  match s with
  | "" => ""
  | String c s' =>
      match skip with
      | S k => replace_from k old new s'
      | O => if py_startswith s old then new +:+ replace_from (String.length old - 1) old new s'
             else String c (replace_from 0 old new s')
      end
  end.

Definition py_replace (old new s : string) : string := replace_from 0 old new s.

(** Of a UTC time: [isoformat] prints the microseconds when there are any. *)
Definition _timestamp (value : datetime) : string := py_replace "+00:00" "Z" (isoformat value).

(** The outer [None] is OverflowError. *)
Definition _parse_timestamp (value : pyval) : py (option datetime) :=
  match value with
  | VStr s =>
      if String.eqb (py_strip s) "" then Some None
      else
        match fromisoformat (replace_zulu (py_strip s)) with
        | None => Some None
        | Some parsed => t ← in_utc parsed; Some (Some t)
        end
  | _ => Some None
  end.

(** ** The row *)

Definition _load_row (db : fence_db) : option dict :=
  match setting XRAY_VPN_AUTO_PENDING_KEY db with Some (CJson (VDict d)) => Some d | _ => None end.

Definition _save (value : dict) : T unit := put_setting XRAY_VPN_AUTO_PENDING_KEY (sort_keys (VDict value)).

(** [CAST(v AS INTEGER)]: of a text the longest prefix that is an integer, or 0;
    [None] is NULL. *)
Fixpoint digits_prefix (acc : Z) (s : string) : Z :=
  match s with
  | String c s' => if is_digit c then digits_prefix (10 * acc + digit_val c) s' else acc
  | "" => acc
  end.

Definition clamp64 (n : Z) : Z := Z.max (- 2 ^ 63) (Z.min n (2 ^ 63 - 1)).

Definition cast_integer (v : pyval) : option Z :=
  match v with
  | VInt n => Some (clamp64 n)
  | VStr s =>
      Some (clamp64 (match lstrip_by (fun c => between 9 13 c || Ascii.eqb c " "%char) s with
                     | String c s' =>
                         if Ascii.eqb c "-"%char then - digits_prefix 0 s'
                         else if Ascii.eqb c "+"%char then digits_prefix 0 s'
                         else digits_prefix 0 (String c s')
                     | "" => 0
                     end))
  | _ => None
  end.

(** The WHERE of the compare-and-set; [None] is an error of [json_extract]. *)
Definition row_matches (revision : Z) (db : fence_db) : py bool :=
  match setting XRAY_VPN_AUTO_PENDING_KEY db with
  | None | Some CNull => Some false
  | Some (CText _) => None
  | Some (CJson v) =>
      Some (bool_decide (cast_integer (json_extract "revision" v) = Some revision)
            && match json_extract "pending" v with VInt n => n =? 1 | _ => false end)
  end.

(** A bound int has 64 bits. *)
Definition sql_int (n : Z) : py Z := if (- 2 ^ 63 <=? n) && (n <? 2 ^ 63) then Some n else None.

Definition _save_if_revision (value : dict) (revision : Z) : T bool :=
  revision ← st_py (sql_int revision);
  db ← st_get;
  matches ← st_py (row_matches revision db);
  if (matches : bool) then _ ← _save value; mret true else mret false.

(** ** Marking *)

(** [v is True]. *)
Definition is_true (v : pyval) : bool := match v with VBool b => b | _ => false end.

(** [isinstance(workflow, dict) and workflow.get("kind") == "global_fixed_server"]. *)
Definition is_fixed_workflow (workflow : pyval) : bool :=
  match workflow with VDict w => eq_str (dget "kind" w) "global_fixed_server" | _ => false end.

(** [int(d.get(k) or 0)]. *)
Definition int_field (k : string) (d : dict) : py Z := py_int (por (dget k d) (VInt 0)).

Record mark := Mark {
  m_trigger : string;
  m_immediate : bool;
  m_workflow : option dict;
  m_supersede_fixed_workflow : bool;
}.

Definition owned_by_fixed_workflow (row : dict) : bool := is_true (dget "pending" row) && is_fixed_workflow (dget "workflow" row).

Definition marked_value (m : mark) (current : datetime) (previous : dict) : py dict :=
  revision ← int_field "revision" previous;
  due ← dt_add_seconds current (if m_immediate m then 0 else XRAY_VPN_AUTO_DEBOUNCE_SECONDS);
  applied ← int_field "applied_revision" previous;
  let trigger := if String.eqb (m_trigger m) "" then "manual_preferences" else m_trigger m in
  let value := [("revision", VInt (Z.max 0 revision + 1)); ("pending", VBool true); ("status", VStr "pending");
                ("due_at", VStr (_timestamp due)); ("trigger", VStr (py_prefix 64 trigger));
                ("updated_at", VStr (_timestamp current)); ("attempt_count", VInt 0); ("last_attempt_at", VNone);
                ("last_error_code", VNone); ("next_retry_at", VNone); ("applied_revision", VInt applied)] in
  Some (match m_workflow m with Some w => value ++ [("workflow", VDict w)] | None => value end).

(** In the transaction of the caller, or its own. *)
Definition mark_xray_vpn_auto_pending (m : mark) (current : datetime) : T dict :=
  db ← st_get;
  let previous := default [] (_load_row db) in
  if owned_by_fixed_workflow previous && negb (m_supersede_fixed_workflow m) then mret previous
  else
    value ← st_py (marked_value m current previous);
    _ ← _save value;
    mret value.

(** ** What is asked *)

(** [get_job_without_cleanup] of an id, the workflow's resume, the guard, the
    steps of the reconcile, and the job manager; [Call] is any other function,
    by its name. *)
Inductive request :=
  | ReadClock
  | AcquireWriter (timeout_seconds : option Z)
  | GetJob (job_id : string)
  | ResumeWorkflow (workflow : dict) (requested_by : string)
  | LoadBindings
  | LoadActiveConfig
  | VerifyBindings (bindings : list pyval)
  | VerifyClientModes (client_modes : list pyval)
  | LoadModule
  | LoadSubscription
  | ReconcileSubscription (requested_by : string)
  | ReconcileMihomo
  | PromoteNodes
  | CreateJob (requested_by : string) (bypass : bool) (expected_revision : option Z)
  | StartJob (job_id : pyval) (wait : bool)
  | SqlClock
  | ApplyGlobalAuto
  | LogExpired (details : dict)
  | Call (name : string) (arguments : dict).

(** The name of its type and its text. *)
Definition exn : Type := string * string.

Inductive creation := Created (job : dict) | LockConflict (active_job : pyval) | CreateRaised.

(** The answers; the head of the list is the request. *)
Class PendingOutside := {
  clock : list request -> datetime;
  (** [false] is TimeoutError. *)
  writer_acquired : list request -> bool;
  owner_job : list request -> py (option dict);
  workflow_resumed : list request -> dict + exn;
  bindings_state : list request -> py dict;
  (** The payload and the error are looked at for None only. *)
  active_config_readable : list request -> py bool;
  bindings_verified : list request -> py dict;
  client_modes_verified : list request -> py dict;
  xray_module : list request -> py (option dict);
  subscription_state : list request -> py (option dict);
  subscription_reconciled : list request -> dict + exn;
  mihomo_reconciled : list request -> option dict + exn;
  nodes_promoted : list request -> pyval + exn;
  job_created : list request -> creation;
  job_started : list request -> py (option dict);
  (** CURRENT_TIMESTAMP of the next statement. *)
  sql_now : list request -> string;
  auto_applied : list request -> py dict;
  expiry_logged : list request -> py unit;
  called : list request -> py pyval;
  (** The digest of a value's canonical JSON. *)
  json_sha256 : pyval -> string;
}.

Section Pending.
Context `{PendingOutside}.

Abbreviation P := (st (session request)).

(** [_now(value)]. *)
Definition _now (now : option py_datetime) : P datetime :=
  match now with Some v => st_py (in_utc v) | None => answer ReadClock clock end.

(** ** Reading *)

Definition idle_state : dict :=
  [("revision", VInt 0); ("pending", VBool false); ("status", VStr "idle"); ("due_at", VNone); ("trigger", VNone);
   ("last_attempt_at", VNone); ("last_error_code", VNone); ("next_retry_at", VNone); ("applied_revision", VInt 0)].

Definition public_keys : list string :=
  ["revision"; "pending"; "status"; "due_at"; "trigger"; "updated_at"; "last_attempt_at"; "last_error_code"; "next_retry_at";
   "applied_revision"].

Definition private_keys : list string := ["mihomo_generation_reservation"; "mihomo_generation_receipt"].

Definition public_workflow (value : dict) : pyval :=
  match dget "workflow" value with
  | VDict w => VDict (List.filter (fun kv => negb (bool_decide (kv.1 ∈ private_keys))) w)
  | _ => VNone
  end.

(** The projection of the row; [None] is ValueError. *)
Definition public_state (row : option dict) : py dict :=
  match row with
  | None => Some idle_state
  | Some value =>
      attempts ← int_field "attempt_count" value;
      Some (map (fun k => (k, dget k value)) public_keys ++ [("attempt_count", VInt attempts); ("workflow", public_workflow value)])
  end.

Definition get_xray_vpn_auto_pending_state : P dict :=
  row ← read_db _load_row;
  st_py (public_state row).

(** The workflow with the revision it belongs to. *)
Definition fixed_workflow_of (row : option dict) : option dict :=
  match row with
  | None => None
  | Some state =>
      match dget "workflow" state with
      | VDict w =>
          if negb (truthy (dget "pending" state)) || negb (is_fixed_workflow (VDict w)) then None
          else match dget "revision" state with VInt n => Some (dset "pending_revision" (VInt n) w) | _ => None end
      | _ => None
      end
  end.

Definition pending_fixed_workflow_state : P (option dict) := row ← read_db _load_row; mret (fixed_workflow_of row).

(** In a connection, or in a session of its own. *)
Definition admission_pending (db : fence_db) : bool :=
  match _load_row db with
  | None => false
  | Some state => truthy (dget "pending" state) && is_fixed_workflow (dget "workflow" state)
  end.

Definition _admission_fixed_workflow_pending : P bool := w ← pending_fixed_workflow_state; mret (is_set w).

(** [fixed_workflow_revision] is None or an int. *)
Definition _assert_xray_generation_authorized (fixed_workflow_revision : option Z) : P bool :=
  workflow ← pending_fixed_workflow_state;
  mret (match workflow with
        | None => negb (is_set fixed_workflow_revision)
        | Some w =>
            match fixed_workflow_revision with
            | None => false
            | Some n => py_eq (VInt n) (dget "pending_revision" w)
                        && (eq_str (dget "phase" w) "core_verified" || eq_str (dget "phase" w) "xray_verified")
            end
        end).

(** ** When it is due *)

Definition later (a b : datetime) : datetime := if dt_ltb a b then b else a.

(** [pending_is_due] of a pending state at a time. *)
Definition due_at (state : dict) (current : datetime) (bypass : bool) : py bool :=
  retry ← _parse_timestamp (dget "next_retry_at" state);
  let waiting := match retry with Some r => eq_str (dget "status" state) "failed" && dt_ltb current r | None => false end in
  if waiting then Some false
  else if bypass then Some true
  else if eq_str (dget "status" state) "deferred" then Some true
  else
    due ← _parse_timestamp (dget "due_at" state);
    Some (match due with None => false | Some d => negb (dt_ltb current (later d (default d retry))) end).

Definition pending_is_due (state : dict) (now : option py_datetime) (bypass : bool) : P bool :=
  if negb (truthy (dget "pending" state)) then mret false
  else current ← _now now; st_py (due_at state current bypass).

(** ** An attempt *)

(** [not state or not bool(state.get("pending")) or int(state.get("revision") or 0) != revision], negated. *)
Definition is_revision (row : option dict) (revision : Z) : py bool :=
  match row with
  | None => Some false
  | Some state =>
      if negb (truthy (VDict state)) || negb (truthy (dget "pending" state)) then Some false
      else n ← int_field "revision" state; Some (n =? revision)
  end.

(** [state.update(...)]. *)
Definition begun (current : datetime) (state : dict) : py dict :=
  attempts ← int_field "attempt_count" state;
  Some (dmerge state [("status", VStr "running"); ("attempt_count", VInt (attempts + 1));
                      ("last_attempt_at", VStr (_timestamp current)); ("next_retry_at", VNone);
                      ("updated_at", VStr (_timestamp current))]).

Definition succeeded (revision : Z) (current : datetime) (state : dict) : py dict :=
  Some (dmerge state [("updated_at", VStr (_timestamp current)); ("pending", VBool false); ("status", VStr "applied");
                      ("due_at", VNone); ("next_retry_at", VNone); ("last_error_code", VNone);
                      ("applied_revision", VInt revision)]).

Definition failed_attempt (error_code : option string) (current : datetime) (state : dict) : py dict :=
  retry ← dt_add_seconds current XRAY_VPN_AUTO_RETRY_SECONDS;
  let code := let s := default "" error_code in if String.eqb s "" then "XRAY_VPN_AUTO_RECONCILE_FAILED" else s in
  Some (dmerge state [("updated_at", VStr (_timestamp current)); ("pending", VBool true); ("status", VStr "failed");
                      ("due_at", VStr (_timestamp current)); ("last_error_code", VStr (py_prefix 96 code));
                      ("next_retry_at", VStr (_timestamp retry))]).

Definition deferred (current : datetime) (state : dict) : py dict :=
  Some (dmerge state [("status", VStr "deferred"); ("due_at", VNone); ("next_retry_at", VNone);
                      ("updated_at", VStr (_timestamp current))]).

(** The session all four share: the row is read, and what is made of it is
    written if the row is still one of this revision. *)
Definition update_revision (revision : Z) (f : dict -> py dict) : P (option dict) :=
  row ← read_db _load_row;
  mine ← st_py (is_revision row revision);
  match row with
  | Some state =>
      if (mine : bool) then
        value ← st_py (f state);
        saved ← transaction (_save_if_revision value revision);
        mret (if (saved : bool) then Some value else None)
      else mret None
  | None => mret None
  end.

Definition _begin_attempt (revision : Z) (now : option py_datetime) : P (option dict) :=
  current ← _now now;
  update_revision revision (begun current).

Definition _finish_revision (revision : Z) (ok : bool) (error_code : option string) (now : option py_datetime) : P bool :=
  current ← _now now;
  saved ← update_revision revision (if ok then succeeded revision current else failed_attempt error_code current);
  mret (is_set saved).

Definition _defer_revision (revision : Z) (now : option py_datetime) : P bool :=
  current ← _now now;
  saved ← update_revision revision (deferred current);
  mret (is_set saved).

Definition clear_pending_revision_after_success (revision : option Z) : P bool :=
  match revision with None => mret false | Some n => _finish_revision n true None None end.

(** In a transaction of the caller, which is where the time is read too. *)
Definition _complete_revision_in_connection (revision : Z) (current : datetime) : T bool :=
  db ← st_get;
  let row := _load_row db in
  mine ← st_py (is_revision row revision);
  match row with
  | Some state =>
      if (mine : bool) then
        _save_if_revision (dpop "workflow"
          (dmerge state [("pending", VBool false); ("status", VStr "applied"); ("due_at", VNone); ("next_retry_at", VNone);
                         ("last_error_code", VNone); ("applied_revision", VInt revision);
                         ("updated_at", VStr (_timestamp current))])) revision
      else mret false
  | None => mret false
  end.
End Pending.

(** ** Reconciling what is pending

    One run of the reconcile, the submission of its job, the scheduler's
    dispatch, and the expiry of the fixed server. *)
Abbreviation P := (st (session request)).

Section Flow.
Context `{ReprContainer} `{PendingOutside}.

(** [with xray_writer_guard(timeout_seconds=...)]. *)
Definition with_writer {A} (timeout_seconds : option Z) (body : P A) : P A :=
  acquired ← answer (AcquireWriter timeout_seconds) writer_acquired;
  if (acquired : bool) then body else st_raise.

(** ** Whether the applied configuration drifted *)

Definition any_truthy (keys : list string) (d : dict) : bool := existsb (fun k => truthy (dget k d)) keys.

Definition binding_mismatches : list string :=
  ["missing_clients"; "missing_outbounds"; "invalid_handoffs"; "missing_rules"; "wrong_api_rules"].

Definition mode_mismatches : list string := ["missing_clients"; "missing_outbounds"; "missing_rules"; "misordered_rules"].

(** The bindings and the modes of a complete applied snapshot. *)
Definition applied_snapshot (applied : dict) : py (option (list pyval * list pyval)) :=
  if truthy (dget "error_code" applied) || negb (truthy (dget "generated_at" applied)) then Some None
  else
    n ← int_field "applied_count" applied;
    m ← int_field "bindings_count" applied;
    Some (if negb (n =? m) then None
          else match dget "bindings" applied, dget "client_modes" applied with
               | VList bindings, VList modes => Some (bindings, modes)
               | _, _ => None
               end).

Definition _confirmed_applied_config_drift_under_guard : P bool :=
  applied ← answer_py LoadBindings bindings_state;
  snapshot ← st_py (applied_snapshot applied);
  match snapshot with
  | None => mret false
  | Some (applied_bindings, applied_modes) =>
      readable ← answer_py LoadActiveConfig active_config_readable;
      if negb readable then mret false
      else
        bindings ← answer_py (VerifyBindings applied_bindings) bindings_verified;
        modes ← answer_py (VerifyClientModes applied_modes) client_modes_verified;
        mret (any_truthy binding_mismatches bindings || any_truthy mode_mismatches modes)
  end.

Definition _confirmed_applied_config_drift : P bool := with_writer None _confirmed_applied_config_drift_under_guard.

Definition _inventory_and_runtime_authoritative : P bool :=
  module ← answer_py LoadModule xray_module;
  state ← answer_py LoadSubscription subscription_state;
  let module := default [] module in
  let state := default [] state in
  mret (eq_str (dget "desired_state" module) "enabled" && eq_str (dget "lifecycle_mode" module) "managed"
        && eq_str (dget "status" state) "success" && truthy (dget "last_success_at" state)).

(** ** One reconcile *)

(** [inr] is an exception that gets out. *)
Definition _finalize_xray_vpn_auto (requested_by : string) : P (dict + exn) :=
  reconciled ← answer (ReconcileSubscription requested_by) subscription_reconciled;
  match reconciled with
  | inr e => mret (inr e)
  | inl reconciled =>
      if negb (truthy (dget "ok" reconciled))
      then mret (inl [("ok", VBool false); ("stage", VStr "xray_reconcile"); ("result", VDict reconciled)])
      else if eq_str (dget "status" reconciled) "skipped"
      then mret (inl [("ok", VBool true); ("status", VStr "skipped"); ("result", VDict reconciled)])
      else
        final ← answer ReconcileMihomo mihomo_reconciled;
        match final with
        | inr e => mret (inr e)
        | inl final =>
            let final := default [] final in
            if negb (truthy (dget "ok" final))
            then mret (inl [("ok", VBool false); ("stage", VStr "final_mihomo"); ("result", VDict final)])
            else
              promoted ← answer PromoteNodes nodes_promoted;
              mret (match promoted with
                    | inr e => inr e
                    | inl promoted => inl [("ok", VBool true); ("status", VStr "success"); ("result", VDict reconciled);
                                           ("final_mihomo", VDict final); ("public_profile_promote", promoted)]
                    end)
        end
  end.

Definition not_run (status : string) (more : dict) : dict := [("ok", VBool true); ("status", VStr status)] ++ more.

Definition superseded_result : dict := not_run "superseded" [("pending", VBool true)].

(** [str(result.get("error_code") or result.get("stage") or fallback)]. *)
Definition error_code_of (result : dict) (fallback : string) : string :=
  py_str (por (por (dget "error_code" result) (dget "stage" result)) (VStr fallback)).

(** What is returned after an attempt of [revision], read back from the row. *)
Definition conclude_attempt (result : dict) (revision : Z) (more : dict) (current : dict) : P dict :=
  now_at ← st_py (int_field "revision" current);
  mret (dmerge result ([("revision", VInt revision)] ++ more ++
                       [("pending", VBool (truthy (dget "pending" current))); ("superseded", VBool (negb (now_at =? revision)))])).

(** ** The fixed workflow *)

Definition raised_resume (e : exn) : dict :=
  [("ok", VBool false); ("stage", VStr "fixed_workflow_resume"); ("error_code", VStr "GLOBAL_FIXED_SERVER_RETRY_EXCEPTION");
   ("error_message", VStr ("Fixed workflow retry raised " +:+ e.1 +:+ "."))].

(** [str(v or "")]. *)
Definition str_or_blank (v : pyval) : string := py_str (por v (VStr "")).

Definition owner_is_running (workflow : dict) : P bool :=
  let owner := str_or_blank (dget "owner_job_id" workflow) in
  if String.eqb owner "" then mret false
  else
    job ← answer_py (GetJob owner) owner_job;
    mret (match job with
          | Some j => truthy (VDict j) && (eq_str (dget "status" j) "queued" || eq_str (dget "status" j) "running")
          | None => false
          end).

Definition resume_fixed_workflow (workflow : dict) (revision : Z) (requested_by : string) : P dict :=
  attempt ← _begin_attempt revision None;
  match attempt with
  | None => mret superseded_result
  | Some _ =>
      resumed ← answer (ResumeWorkflow workflow (py_str (por (dget "requested_by" workflow) (VStr requested_by)))) workflow_resumed;
      let result := match resumed with inl r => r | inr e => raised_resume e end in
      current ← get_xray_vpn_auto_pending_state;
      failed ← st_py (if is_true (dget "ok" result) || negb (truthy (dget "pending" current)) then Some false
                      else n ← int_field "revision" current; Some (n =? revision));
      current ← (if (failed : bool) then
                   _ ← _finish_revision revision false (Some (error_code_of result "GLOBAL_FIXED_SERVER_RETRY_FAILED")) None;
                   get_xray_vpn_auto_pending_state
                 else mret current);
      conclude_attempt result revision [] current
  end.

Definition run_fixed_workflow (workflow : dict) (requested_by : string) (bypass : bool) (expected_revision : option Z) : P dict :=
  state ← get_xray_vpn_auto_pending_state;
  revision ← st_py (int_field "revision" state);
  if match expected_revision with Some e => negb (e =? revision) | None => false end
  then mret (not_run "superseded" [("pending", VBool true); ("revision", VInt revision)])
  else
    due ← pending_is_due state None (bypass || eq_str (dget "status" state) "deferred");
    if negb due then mret (not_run "pending" [("pending", VBool true); ("revision", VInt revision)])
    else
      running ← owner_is_running workflow;
      if (running : bool) then mret (not_run "fixed_owner_running" [("pending", VBool true); ("revision", VInt revision)])
      else resume_fixed_workflow workflow revision requested_by.

(** ** A run *)

Definition raised_reconcile (e : exn) : dict :=
  [("ok", VBool false); ("stage", VStr "exception"); ("error_code", VStr "XRAY_VPN_AUTO_RECONCILE_EXCEPTION");
   ("error_message", VStr (e.1 +:+ ": " +:+ e.2))].

Definition attempt_reconcile (revision : Z) (requested_by : string) : P dict :=
  attempt ← _begin_attempt revision None;
  match attempt with
  | None => mret superseded_result
  | Some _ =>
      finalized ← _finalize_xray_vpn_auto requested_by;
      let result := match finalized with inl r => r | inr e => raised_reconcile e end in
      if truthy (dget "ok" result) && eq_str (dget "status" result) "skipped" then
        _ ← _defer_revision revision None;
        current ← get_xray_vpn_auto_pending_state;
        conclude_attempt result revision [("cleared", VBool false)] current
      else if truthy (dget "ok" result) then
        cleared ← _finish_revision revision true None None;
        current ← get_xray_vpn_auto_pending_state;
        conclude_attempt result revision [("cleared", VBool cleared)] current
      else
        _ ← _finish_revision revision false (Some (error_code_of result "XRAY_VPN_AUTO_RECONCILE_FAILED")) None;
        current ← get_xray_vpn_auto_pending_state;
        conclude_attempt result revision [] current
  end.

(** A bypass belongs to the revision that asked for it. *)
Definition bypass_now (state : dict) (bypass same_revision : bool) : P bool :=
  if eq_str (dget "status" state) "deferred" then mret true
  else if bypass && negb same_revision then _confirmed_applied_config_drift
  else mret (bypass && same_revision).

Definition run_generic (requested_by : string) (bypass : bool) (expected_revision : option Z) : P dict :=
  state ← get_xray_vpn_auto_pending_state;
  if negb (truthy (dget "pending" state)) then mret (not_run "idle" [("pending", VBool false)])
  else
    revision ← st_py (int_field "revision" state);
    if is_fixed_workflow (dget "workflow" state)
    then mret (not_run "fixed_owner_pending" [("pending", VBool true); ("revision", VInt revision)])
    else
      effective ← bypass_now state bypass (match expected_revision with Some e => e =? revision | None => true end);
      due ← pending_is_due state None effective;
      if negb due then mret (not_run "pending" [("pending", VBool true); ("revision", dget "revision" state)])
      else
        authoritative ← _inventory_and_runtime_authoritative;
        if negb authoritative then
          kept ← _defer_revision revision None;
          mret (not_run "deferred" [("pending", VBool kept); ("reason", VStr "runtime_or_inventory_unavailable")])
        else attempt_reconcile revision requested_by.

Definition run_xray_vpn_auto_reconcile (requested_by : string) (bypass : bool) (expected_revision : option Z) : P dict :=
  fixed_workflow ← pending_fixed_workflow_state;
  match fixed_workflow with
  | Some workflow => run_fixed_workflow workflow requested_by bypass expected_revision
  | None => with_writer None (run_generic requested_by bypass expected_revision)
  end.

(** ** Submitting *)

(** [manager.start_job(...) or job]. *)
Definition or_job (started : option dict) (job : dict) : dict :=
  match started with Some j => if truthy (VDict j) then j else job | None => job end.

Definition submit_xray_vpn_auto_reconcile (requested_by : string) (bypass : bool) (expected_revision : option Z) (run_now : bool) : P dict :=
  created ← answer (CreateJob requested_by bypass expected_revision) job_created;
  match created with
  | CreateRaised => st_raise
  | LockConflict active => mret [("ok", VBool true); ("status", VStr "already_running"); ("job", active)]
  | Created job =>
      id ← st_py (dict_lookup "job_id" job);
      started ← answer_py (StartJob id run_now) job_started;
      mret [("ok", VBool true); ("status", VStr "dispatched"); ("job", VDict (or_job started job))]
  end.

Definition apply_now_mark : mark := Mark "explicit_apply_now" true None false.

Definition request_xray_vpn_auto_apply_now (requested_by : string) : P dict :=
  state ← with_writer (Some 5)
    (row ← read_db _load_row;
     let current := default [] row in
     if owned_by_fixed_workflow current then mret current
     else now ← _now None; transaction (mark_xray_vpn_auto_pending apply_now_mark now));
  revision ← st_py (v ← dict_lookup "revision" state; py_int v);
  submit_xray_vpn_auto_reconcile requested_by true (Some revision) false.

Definition dispatch_due_xray_vpn_auto_reconcile (now : option py_datetime) : P dict :=
  state ← get_xray_vpn_auto_pending_state;
  if negb (truthy (dget "pending" state)) then mret (not_run "not_pending" [("pending", VBool false)])
  else
    critical_drift ← _confirmed_applied_config_drift;
    let recovery_bypass := critical_drift || eq_str (dget "status" state) "deferred" in
    due ← pending_is_due state now recovery_bypass;
    if negb due then mret (not_run "not_due" [("pending", VBool true); ("revision", dget "revision" state)])
    else
      authoritative ← _inventory_and_runtime_authoritative;
      revision ← st_py (int_field "revision" state);
      if negb authoritative then
        _ ← _defer_revision revision None;
        mret (not_run "deferred" [("pending", VBool true); ("revision", VInt revision)])
      else submit_xray_vpn_auto_reconcile "runtime_convergence_scheduler" recovery_bypass (Some revision) false.

(** ** The fixed server expires *)

(** [server_mode = 'fixed' AND fixed_server_until IS NOT NULL AND
    fixed_server_until <= CURRENT_TIMESTAMP]: texts are compared. *)
Definition fixed_expired (now : string) (r : routing_row) : bool :=
  String.eqb (r_server_mode r) "fixed" && match r_fixed_until r with Some until_ => py_leb until_ now | None => false end.

Definition expired_row (r : routing_row) : routing_row :=
  RoutingRow (r_desired_mode r) (r_applied_mode r) (r_selective_default r) "auto" None None None (r_active r) "pending" None None.

Definition expiry_mark : mark := Mark "global_fixed_server_ttl_expired" true None true.

(** What the transaction comes to; [RevisionMoved] is RuntimeError, which
    rolls back. *)
Inductive expiry := Kept | Expired | RevisionMoved.

(** From the UPDATE on it is one transaction; [revision] was read before it. *)
Definition expire_tx (revision : Z) (sql_time : string) (current : datetime) : T expiry :=
  db ← st_get;
  match d_routing db with
  | Some r =>
      if fixed_expired sql_time r then
        _ ← update_routing expired_row;
        advanced ← advance_selection_revision (Some revision);
        match advanced with
        | None => _ ← st_modify (fun _ => db); mret RevisionMoved
        | Some _ =>
            _ ← mark_xray_vpn_auto_pending expiry_mark current;
            mret Expired
        end
      else mret Kept
  | None => mret Kept
  end.

Definition fixed_fields (r : routing_row) : dict :=
  [("desired_fixed_server_id", vopt (r_desired_fixed r)); ("applied_fixed_server_id", vopt (r_applied_fixed r));
   ("fixed_server_until", vopt (r_fixed_until r))].

(** [inr] is RuntimeError.  The two clocks are read as the UPDATE runs. *)
Definition _clear_expired_global_fixed_server_state (row : routing_row) : P (bool + unit) :=
  outcome ← with_writer (Some 5)
    (revision ← read_db selection_revision;
     revision ← st_py revision;
     sql_time ← answer SqlClock sql_now;
     current ← _now None;
     transaction (expire_tx revision sql_time current));
  match outcome with
  | RevisionMoved => mret (inr tt)
  | Kept => mret (inl false)
  | Expired =>
      _ ← answer_py (LogExpired (fixed_fields row)) expiry_logged;
      mret (inl true)
  end.

(** The row; [fuel] is what the recursion limit leaves, and RecursionError is
    a RuntimeError. *)
Fixpoint get_routing_global_state (fuel : nat) (expire_ttl : bool) : P (option routing_row + unit) :=
  match fuel with
  | O => mret (inr tt)
  | S fuel =>
      row ← read_db d_routing;
      match row with
      | None => mret (inl None)
      | Some r =>
          if expire_ttl && String.eqb (r_server_mode r) "fixed" && is_set (r_fixed_until r) then
            sql_time ← answer SqlClock sql_now;
            expired_now ← read_db (fun db => match d_routing db ≫= r_fixed_until with Some u => py_leb u sql_time | None => false end);
            if (expired_now : bool) then
              cleared ← _clear_expired_global_fixed_server_state r;
              match cleared with
              | inr e => mret (inr e)
              | inl _ => get_routing_global_state fuel true
              end
            else mret (inl (Some r))
          else mret (inl (Some r))
      end
  end.

(** [INSERT OR IGNORE]. *)
Definition insert_routing (db : fence_db) : fence_db :=
  match d_routing db with
  | Some _ => db
  | None => with_routing (Some (RoutingRow "direct" None "direct" "auto" None None None None "clean" None None)) db
  end.

Definition ensure_routing_global_state (fuel : nat) : P (routing_row + unit) :=
  _ ← transaction (st_modify insert_routing);
  state ← get_routing_global_state fuel true;
  mret (match state with inl (Some r) => inl r | _ => inr tt end).

(** Where nothing catches the RuntimeError. *)
Definition or_raise {A} (m : P (A + unit)) : P A := r ← m; st_py (match r with inl a => Some a | inr _ => None end).

Definition expired_of (sql_time : string) (db : fence_db) : option routing_row :=
  r ← d_routing db; if fixed_expired sql_time r then Some r else None.

Definition skipped_apply (reason : option string) : dict :=
  [("skipped", VBool true)] ++ match reason with Some r => [("reason", VStr r)] | None => [] end.

Definition expiry_result (dry_run : bool) (runtime_apply : dict) (expired : option routing_row) : dict :=
  [("dry_run", VBool dry_run); ("runtime_apply", VDict runtime_apply);
   ("expired_global_fixed_server_count", VInt (if is_set expired then 1 else 0));
   ("expired_global_fixed_server", vdict (option_map fixed_fields expired))].

Definition expire_global_fixed_server (dry_run apply_runtime : bool) : P dict :=
  sql_time ← answer SqlClock sql_now;
  expired ← read_db (expired_of sql_time);
  if is_set expired && negb dry_run then
    with_writer (Some 30)
      (sql_time ← answer SqlClock sql_now;
       current ← read_db (expired_of sql_time);
       match current with
       | None => mret (expiry_result dry_run (skipped_apply (Some "fixed_intent_renewed")) None)
       | Some r =>
           cleared ← or_raise (_clear_expired_global_fixed_server_state r);
           runtime_apply ← (if cleared && apply_runtime then answer_py ApplyGlobalAuto auto_applied
                            else mret (skipped_apply (if cleared then None else Some "fixed_intent_changed")));
           mret (expiry_result dry_run runtime_apply (Some r))
       end)
  else mret (expiry_result dry_run (skipped_apply None) expired).
End Flow.
