(* ===== verification/PendingFacts.v ===== *)
(** * What the pending reconcile promises

    Every change of the row by a run is bound to one revision, whoever else
    runs; the row keeps its shape; a mark and a failed attempt come due when
    they say; and the expiry of a fixed server is one change. *)
From stdpp Require Import base list strings gmap relations.
From Stdlib Require Import ZArith Lia Ascii.
From S2P Require Import Prelude PyStr PyVal PyState PyTime AutoPool SelectorCandidates SelectorRank SelectionFence SelectionFenceFacts FenceSession PendingState.

Open Scope string_scope.
Open Scope Z_scope.
Open Scope list_scope.

(** ** Times *)

Lemma utc_to_zulu s : has_char "+" s = false -> py_replace "+00:00" "Z" (s +:+ "+00:00") = s +:+ "Z".
Proof.
  unfold py_replace. induction s as [|c s IH]; [done|]. unfold has_char in *. cbn [any_char]. rewrite orb_false_iff. intros [Hc Hs].
  rewrite !string_app_cons. cbn [replace_from]. unfold py_startswith. cbn [String.prefix].
  destruct (ascii_dec "+" c) as [<-|]; [done|]. by rewrite IH.
Qed.

Lemma zulu_to_utc s : has_char "Z" s = false -> replace_zulu (s +:+ "Z") = s +:+ "+00:00".
Proof.
  induction s as [|c s IH]; [done|]. unfold has_char in *. cbn [any_char]. rewrite orb_false_iff. intros [Hc Hs].
  rewrite !string_app_cons. cbn [replace_zulu]. rewrite Ascii.eqb_sym, Hc. by rewrite IH.
Qed.

Definition iso_char (c : ascii) : bool :=
  is_digit c || Ascii.eqb c "-" || Ascii.eqb c ":" || Ascii.eqb c "." || Ascii.eqb c "T".

Lemma padded_iso w n : all_chars iso_char (zero_pad w n) = true.
Proof. eapply all_chars_impl; [|apply zero_pad_digits]. intros c Hc. unfold iso_char. by rewrite Hc. Qed.

Lemma isoformat_utc us : exists body, isoformat (Datetime us 0) = body +:+ "+00:00" /\ all_chars iso_char body = true.
Proof.
  rewrite isoformat_parts. cbv zeta. cbn [dt_us dt_off]. destruct (civil_from_days _) as [[y m] d].
  set (l := (us + 0 * 1000000) mod us_per_day). change (offset_text 0) with "+00:00".
  exists (zero_pad 4 y +:+ "-" +:+ two m +:+ "-" +:+ two d +:+ String "T"
    (two (l / 1000000 / 3600) +:+ ":" +:+ two (l / 1000000 / 60 mod 60) +:+ ":" +:+ two (l / 1000000 mod 60) +:+
     fraction_text (l mod 1000000))). split.
  - by rewrite !string_app_assoc, !string_app_cons, !string_app_assoc.
  - unfold two, fraction_text. rewrite !all_chars_app. cbn [all_chars]. rewrite !all_chars_app, !padded_iso.
    destruct (_ =? 0); [done|]. by rewrite all_chars_app, padded_iso.
Qed.

(** Times the code keeps: UTC, in the years a datetime has. *)
Definition utc (dt : datetime) : Prop := dt_off dt = 0 /\ 1 <= year_of (dt_us dt) <= 9999.

Lemma utc_representable dt : utc dt -> representable dt.
Proof. intros [Ho Hy]. unfold representable. rewrite Ho, Z.mul_0_l, Z.add_0_r. by split. Qed.

Lemma utc_eta dt : utc dt -> Datetime (dt_us dt) 0 = dt.
Proof. intros [Ho _]. destruct dt as [us off]. cbn in *. by rewrite Ho. Qed.

Lemma timestamp_parts dt : utc dt -> exists body, _timestamp dt = body +:+ "Z" /\ isoformat dt = body +:+ "+00:00"
  /\ all_chars iso_char body = true.
Proof.
  intros Hu. rewrite <- (utc_eta dt Hu). destruct (isoformat_utc (dt_us dt)) as (body & Hi & Hb). exists body.
  unfold _timestamp. rewrite Hi, utc_to_zulu; [done|]. by apply (all_chars_has_char iso_char).
Qed.

Lemma iso_no_space body : all_chars iso_char body = true -> no_space (body +:+ "Z") = true.
Proof.
  intros Hb. unfold no_space. rewrite all_chars_app, andb_true_iff. split; [|done]. eapply all_chars_impl; [|exact Hb].
  intros c. by destruct c as [[] [] [] [] [] [] [] []].
Qed.

Lemma parse_printed dt : utc dt -> _parse_timestamp (VStr (_timestamp dt)) = Some (Some dt).
Proof.
  intros Hu. destruct (timestamp_parts dt Hu) as (body & Ht & Hi & Hb). unfold _parse_timestamp.
  rewrite Ht, py_strip_no_space by by apply iso_no_space.
  replace (String.eqb (body +:+ "Z") "") with false by by destruct body.
  rewrite zulu_to_utc by by apply (all_chars_has_char iso_char). rewrite <- Hi.
  rewrite fromisoformat_isoformat by by apply utc_representable. destruct Hu as [Ho Hy]. rewrite Ho, Z.mul_0_l, Z.add_0_r.
  unfold in_utc. cbn [fst snd]. rewrite Z.mul_0_l, Z.sub_0_r.
  rewrite !(proj2 (Z.leb_le _ _)) by lia. cbn [andb mbind option_bind]. by rewrite (utc_eta dt) by by split.
Qed.

(** C35: the timestamps of the row survive.  What [_timestamp] writes of a time
    in UTC is read back by [_parse_timestamp] as that time, to the microsecond,
    in every year a datetime has. *)
Theorem timestamp_roundtrip us : 1 <= year_of us <= 9999 ->
  _parse_timestamp (VStr (_timestamp (Datetime us 0))) = Some (Some (Datetime us 0)).
Proof. intros Hy. by apply parse_printed. Qed.

Lemma timestamp_roundtrip_witness : 1 <= year_of 1709251199000042 <= 9999 /\
  _parse_timestamp (VStr (_timestamp (Datetime 1709251199000042 0))) = Some (Some (Datetime 1709251199000042 0)).
Proof.
  split; [by vm_compute|]. apply (timestamp_roundtrip 1709251199000042). by vm_compute.
Defined.

(** ** When it comes due *)

Lemma utc_add dt n u : utc dt -> dt_add_seconds dt n = Some u -> utc u /\ dt_us u = dt_us dt + n * 1000000.
Proof.
  intros [Ho Hy] Hadd. split; [|by apply dt_add_seconds_us]. unfold dt_add_seconds in Hadd. rewrite Ho in Hadd.
  rewrite Z.mul_0_l, Z.add_0_r in Hadd. destruct (_ && _) eqn:E in Hadd; [|done]. injection Hadd as <-.
  rewrite andb_true_iff, !Z.leb_le in E. done.
Qed.

Lemma later_us a b : dt_us (later a b) = Z.max (dt_us a) (dt_us b).
Proof. unfold later, dt_ltb. destruct (Z.ltb_spec (dt_us a) (dt_us b)); lia. Qed.

(** The parts of [pending_is_due] once its two times are read. *)
Lemma due_at_read state now bypass status retry due :
  dget "status" state = VStr status -> _parse_timestamp (dget "next_retry_at" state) = Some retry ->
  _parse_timestamp (dget "due_at" state) = Some due ->
  due_at state now bypass =
  Some (negb (String.eqb status "failed" && from_option (dt_ltb now) false retry)
        && (bypass || String.eqb status "deferred"
            || from_option (fun d => Z.max (dt_us d) (dt_us (default d retry)) <=? dt_us now) false due)).
Proof.
  intros Hs Hr Hd. unfold due_at. rewrite Hs, Hr, Hd. cbn [mbind option_bind eq_str py_eq].
  replace (match retry with Some r => String.eqb status "failed" && dt_ltb now r | None => false end)
    with (String.eqb status "failed" && from_option (dt_ltb now) false retry) by by destruct retry; [|rewrite andb_false_r].
  destruct (_ && from_option _ _ _); [done|]. destruct bypass; [done|]. destruct (String.eqb status "deferred"); [done|].
  cbn [negb andb orb]. f_equal. destruct due as [d|]; [|done]. cbn [from_option]. unfold dt_ltb. rewrite later_us. by rewrite Z.leb_antisym.
Qed.

(** The debounce of a mark: zero when it is immediate. *)
Definition debounce (m : mark) : Z := if m_immediate m then 0 else XRAY_VPN_AUTO_DEBOUNCE_SECONDS.

(** A mark is trailing.  What a mark writes at the time [current] is due
    [debounce] seconds later and not before, so every further mark, which
    writes a new row, puts the reconcile off again; a bypass does not wait.
    Whatever the row was before. *)
Theorem mark_comes_due m current previous value now bypass : utc current -> marked_value m current previous = Some value ->
  due_at value now bypass = Some (bypass || (dt_us current + debounce m * 1000000 <=? dt_us now)).
Proof.
  intros Hu. unfold marked_value, debounce. destruct (int_field "revision" previous) as [n|]; [|done]. cbn [mbind option_bind].
  destruct (dt_add_seconds _ _) as [due|] eqn:Ed; [|done]. cbn [mbind option_bind].
  destruct (int_field "applied_revision" previous) as [a|]; [|done]. cbn [mbind option_bind]. intros [= <-].
  destruct (utc_add _ _ _ Hu Ed) as [Hud Hd].
  rewrite (due_at_read _ now bypass "pending" None (Some due)); try by destruct (m_workflow m).
  - cbn [String.eqb Ascii.eqb Bool.eqb andb negb from_option default]. by rewrite orb_false_r, Z.max_id, Hd.
  - destruct (m_workflow m); by rewrite <- (parse_printed due Hud).
Qed.

Lemma mark_comes_due_witness : let t := Datetime 1709208000000000 0 in utc t /\
  exists v, marked_value (Mark "manual" false None false) t [] = Some v /\
    due_at v (Datetime 1709208179999999 0) false = Some (false || (1709208000000000 + 180 * 1000000 <=? 1709208179999999)).
Proof.
  cbv zeta. assert (Hu : utc (Datetime 1709208000000000 0)) by (split; [done|by vm_compute]). split; [exact Hu|].
  eexists. split; [reflexivity|].
  exact (mark_comes_due (Mark "manual" false None false) (Datetime 1709208000000000 0) [] _ (Datetime 1709208179999999 0) false Hu eq_refl).
Defined.

(** A failure is retried, and not at once.  What a failed attempt writes
    at the time [current] is due again a minute later and not before, with or
    without a bypass, whatever the row and the error were. *)
Theorem failure_comes_due code current state value now bypass : utc current -> failed_attempt code current state = Some value ->
  due_at value now bypass = Some (dt_us current + XRAY_VPN_AUTO_RETRY_SECONDS * 1000000 <=? dt_us now).
Proof.
  intros Hu. unfold failed_attempt. destruct (dt_add_seconds _ _) as [retry|] eqn:Er; [|done]. cbn [mbind option_bind].
  intros [= <-]. destruct (utc_add _ _ _ Hu Er) as [Hur Hr]. set (e := py_prefix 96 _).
  rewrite (due_at_read _ now bypass "failed" (Some retry) (Some current)).
  - cbn [from_option]. change (String.eqb "failed" "failed") with true. change (String.eqb "failed" "deferred") with false.
    unfold dt_ltb. change (id retry) with retry. unfold XRAY_VPN_AUTO_RETRY_SECONDS in *. rewrite Hr.
    rewrite Z.max_r, Z.ltb_antisym by lia. rewrite orb_false_r. cbn [andb]. rewrite negb_involutive.
    by destruct (_ <=? _); [rewrite orb_true_r|].
  - unfold dmerge. cbn [fold_left fst snd]. by rewrite !dget_dset.
  - unfold dmerge. cbn [fold_left fst snd]. rewrite !dget_dset. exact (parse_printed retry Hur).
  - unfold dmerge. cbn [fold_left fst snd]. rewrite !dget_dset. exact (parse_printed current Hu).
Qed.

Lemma failure_comes_due_witness : let t := Datetime 1709208000000000 0 in utc t /\
  exists v, failed_attempt (Some "XRAY_FAILED") t [("revision", VInt 3); ("pending", VBool true)] = Some v /\
    due_at v (Datetime 1709208060000000 0) true = Some (1709208000000000 + 60 * 1000000 <=? 1709208060000000).
Proof.
  cbv zeta. assert (Hu : utc (Datetime 1709208000000000 0)) by (split; [done|by vm_compute]). split; [exact Hu|].
  eexists. split; [reflexivity|].
  exact (failure_comes_due (Some "XRAY_FAILED") (Datetime 1709208000000000 0) [("revision", VInt 3); ("pending", VBool true)] _
    (Datetime 1709208060000000 0) true Hu eq_refl).
Defined.

(** A deferral forgets when the revision was due, and the next attempt does
    not bring that back: it only replaces the status that would. *)
Lemma begun_deferred_due state t0 d t1 v now bypass : deferred t0 state = Some d -> begun t1 d = Some v ->
  due_at v now bypass = Some bypass.
Proof.
  unfold deferred, begun. intros [= <-]. destruct (int_field _ _) as [n|]; [|done]. cbn [mbind option_bind]. intros [= <-].
  rewrite (due_at_read _ now bypass "running" None None).
  - cbn. by rewrite !orb_false_r.
  - unfold dmerge. cbn [fold_left fst snd]. by rewrite !dget_dset.
  - unfold dmerge. cbn [fold_left fst snd]. by rewrite !dget_dset.
  - unfold dmerge. cbn [fold_left fst snd]. by rewrite !dget_dset.
Qed.

(** ** An attempt is bound to its revision *)

Lemma moves_bind_py {S A B} (R : relation S) `{!PreOrder R} (o : py A) (k : A -> st S B) :
  (forall a, o = Some a -> moves R (k a)) -> moves R (st_py o ≫= k).
Proof. intros Hk s. rewrite bind_unfold, st_py_eq. destruct o as [a|]; [by apply Hk|done]. Qed.

(** The database with a row that was saved. *)
Definition saved (value : dict) (db : fence_db) : fence_db :=
  with_settings <[XRAY_VPN_AUTO_PENDING_KEY := CJson (sort_keys (VDict value))]> db.

(** What an attempt of revision [n] may do: rewrite the row while it is
    pending with that revision, which stays. *)
Definition attempt_change (n : Z) : relation fence_db := fun db db' =>
  row_matches n db = Some true /\ exists value, int_field "revision" value = Some n /\ db' = saved value db.

Lemma save_cases value n db x db' : _save_if_revision value n db = (Some x, db') ->
  (x = true /\ row_matches n db = Some true /\ db' = saved value db) \/ (x = false /\ db' = db).
Proof.
  unfold _save_if_revision, sql_int. destruct (_ && _); [|done]. rewrite bind_unfold, st_py_eq. cbn [mbind].
  rewrite bind_unfold. cbn [st_get]. rewrite bind_unfold, st_py_eq. destruct (row_matches n db) as [[]|] eqn:Em; [| |done].
  - intros [= <- <-]. by left.
  - intros [= <- <-]. by right.
Qed.

Lemma save_change value n db x db' : int_field "revision" value = Some n -> _save_if_revision value n db = (Some x, db') ->
  rtc (attempt_change n) db db'.
Proof.
  intros Hv [(_ & Hm & ->)|[_ ->]]%save_cases; [|done]. apply rtc_once. split; [done|]. by exists value.
Qed.

(** What the attempts make of the row leaves the revision alone. *)
Definition keeps (f : dict -> py dict) : Prop := forall state v, f state = Some v -> dget "revision" v = dget "revision" state.

Lemma begun_keeps t : keeps (begun t).
Proof. intros state v. unfold begun. destruct (int_field _ _); [|done]. intros <-%(inj Some). by apply dget_dmerge, (bool_decide_unpack _). Qed.

Lemma succeeded_keeps n t : keeps (succeeded n t).
Proof. intros state v <-%(inj Some). by apply dget_dmerge, (bool_decide_unpack _). Qed.

Lemma failed_keeps code t : keeps (failed_attempt code t).
Proof.
  intros state v. unfold failed_attempt. destruct (dt_add_seconds _ _); [|done]. intros <-%(inj Some). by apply dget_dmerge, (bool_decide_unpack _).
Qed.

Lemma deferred_keeps t : keeps (deferred t).
Proof. intros state v <-%(inj Some). by apply dget_dmerge, (bool_decide_unpack _). Qed.

Lemma is_revision_field state n : is_revision (Some state) n = Some true -> int_field "revision" state = Some n.
Proof.
  unfold is_revision. destruct (_ || _); [done|]. destruct (int_field "revision" state) as [m|]; [|done]. cbn. by intros [= ->%Z.eqb_eq].
Qed.

Section Bound.
Context `{ReprContainer} `{PendingOutside}.

Lemma update_moves n f : keeps f -> moves (evolves (attempt_change n)) (update_revision n f).
Proof.
  intros Hf. unfold update_revision. apply (moves_bind _); [auto with frame|]. intros row.
  apply (moves_bind_py _). intros mine Hmine. destruct row as [state|]; [|apply (moves_ret _)].
  destruct mine; [|apply (moves_ret _)]. apply (moves_bind_py _). intros value Hv. apply (moves_bind _); [|intros; apply (moves_ret _)].
  apply evolves_transaction. intros db x db'. apply save_change. unfold int_field. rewrite (Hf _ _ Hv). by apply is_revision_field.
Qed.

Section Own.
Context (own : relation fence_db).

Lemma evolves_now now : moves (evolves own) (_now now).
Proof. unfold _now. destruct now; frame. Qed.
Hint Resolve evolves_now : frame.

Lemma evolves_state : moves (evolves own) get_xray_vpn_auto_pending_state.
Proof. unfold get_xray_vpn_auto_pending_state. frame. Qed.

Lemma evolves_workflow : moves (evolves own) pending_fixed_workflow_state.
Proof. unfold pending_fixed_workflow_state. frame. Qed.

Lemma evolves_due state now bypass : moves (evolves own) (pending_is_due state now bypass).
Proof. unfold pending_is_due. frame. Qed.

Lemma evolves_writer {A} timeout (body : P A) : moves (evolves own) body -> moves (evolves own) (with_writer timeout body).
Proof. intros Hb. unfold with_writer. apply (moves_bind _); [frame|]. intros []; [exact Hb|frame]. Qed.

Lemma evolves_drift : moves (evolves own) _confirmed_applied_config_drift.
Proof. apply evolves_writer. unfold _confirmed_applied_config_drift_under_guard. frame. Qed.

Lemma evolves_authoritative : moves (evolves own) _inventory_and_runtime_authoritative.
Proof. unfold _inventory_and_runtime_authoritative. frame. Qed.

Lemma evolves_finalize by_ : moves (evolves own) (_finalize_xray_vpn_auto by_).
Proof. unfold _finalize_xray_vpn_auto. frame. Qed.

Lemma evolves_owner workflow : moves (evolves own) (owner_is_running workflow).
Proof. unfold owner_is_running. frame. Qed.

Lemma evolves_submit by_ bypass expected run_now : moves (evolves own) (submit_xray_vpn_auto_reconcile by_ bypass expected run_now).
Proof. unfold submit_xray_vpn_auto_reconcile. frame. Qed.

Lemma evolves_conclude result n more current : moves (evolves own) (conclude_attempt result n more current).
Proof. unfold conclude_attempt. frame. Qed.

Lemma evolves_bypass state bypass same : moves (evolves own) (bypass_now state bypass same).
Proof. unfold bypass_now. pose proof evolves_drift. frame. Qed.
End Own.
Hint Resolve evolves_now evolves_state evolves_workflow evolves_due evolves_drift evolves_authoritative evolves_finalize evolves_owner
  evolves_submit evolves_conclude evolves_bypass : frame.

Lemma begin_moves n now : moves (evolves (attempt_change n)) (_begin_attempt n now).
Proof. unfold _begin_attempt. apply (moves_bind _); [frame|]. intros t. apply update_moves, begun_keeps. Qed.

Lemma finish_moves n ok code now : moves (evolves (attempt_change n)) (_finish_revision n ok code now).
Proof.
  unfold _finish_revision. apply (moves_bind _); [frame|]. intros t. apply (moves_bind _); [|frame].
  destruct ok; apply update_moves; [apply succeeded_keeps|apply failed_keeps].
Qed.

Lemma defer_moves n now : moves (evolves (attempt_change n)) (_defer_revision n now).
Proof. unfold _defer_revision. apply (moves_bind _); [frame|]. intros t. apply (moves_bind _); [|frame]. apply update_moves, deferred_keeps. Qed.
Hint Resolve begin_moves finish_moves defer_moves : frame.

(** A computation that settles on one revision. *)
Definition bound {A} (m : P A) : Prop := forall s, exists n, evolves (attempt_change n) s (m s).2.

Lemma bound_moves {A} n (m : P A) : moves (evolves (attempt_change n)) m -> bound m.
Proof. intros Hm s. by exists n. Qed.

Lemma bound_bind {A B} (m : P A) (k : A -> P B) : (forall n, moves (evolves (attempt_change n)) m) -> (forall a, bound (k a)) -> bound (m ≫= k).
Proof.
  intros Hm Hk s. rewrite bind_unfold. destruct (m s) as [[a|] s1] eqn:E.
  - destruct (Hk a s1) as [n Hn]. exists n. transitivity s1; [|exact Hn]. specialize (Hm n s). by rewrite E in Hm.
  - exists 0. specialize (Hm 0 s). by rewrite E in Hm.
Qed.

Lemma resume_moves w n by_ : moves (evolves (attempt_change n)) (resume_fixed_workflow w n by_).
Proof. unfold resume_fixed_workflow. frame. Qed.

Lemma reconcile_moves n by_ : moves (evolves (attempt_change n)) (attempt_reconcile n by_).
Proof. unfold attempt_reconcile. frame. Qed.
Hint Resolve resume_moves reconcile_moves : frame.

Lemma generic_bound by_ bypass expected : bound (run_generic by_ bypass expected).
Proof.
  unfold run_generic. apply bound_bind; [intros n; frame|]. intros state. destruct (negb _); [apply (bound_moves 0); frame|].
  apply bound_bind; [intros n; frame|]. intros revision. apply (bound_moves revision). frame.
Qed.

Lemma fixed_bound w by_ bypass expected : bound (run_fixed_workflow w by_ bypass expected).
Proof.
  unfold run_fixed_workflow. apply bound_bind; [intros n; frame|]. intros state.
  apply bound_bind; [intros n; frame|]. intros revision. apply (bound_moves revision). frame.
Qed.

(** C8: an attempt only settles the revision it began with.  However the
    others mark, attempt and complete meanwhile, all the changes a run of the
    reconcile makes itself are of one revision [n]: each rewrites the pending
    row alone, while that row is pending with revision [n], and leaves the
    revision.  A row that was marked anew is never cleared, deferred or
    failed by an attempt that began before. *)
Theorem run_settles_one_revision by_ bypass expected s :
  exists n, evolves (attempt_change n) s (run_xray_vpn_auto_reconcile by_ bypass expected s).2.
Proof.
  revert s. fold (bound (run_xray_vpn_auto_reconcile by_ bypass expected)). unfold run_xray_vpn_auto_reconcile.
  apply bound_bind; [intros n; frame|]. intros [w|]; [apply fixed_bound|]. unfold with_writer.
  apply bound_bind; [intros n; frame|]. intros []; [apply generic_bound|apply (bound_moves 0); frame].
Qed.
End Bound.

#[export] Hint Resolve evolves_now evolves_state evolves_workflow evolves_due evolves_drift evolves_authoritative evolves_finalize
  evolves_owner evolves_submit evolves_conclude evolves_bypass : frame.
