(* ===== verification/PendingInvariant.v ===== *)
(** * The row of the pending reconcile keeps its shape

    The invariant of the row under every operation that writes it, the
    expiry of the fixed server included, whoever else runs; what the expiry
    changes; and what a run does when nobody else acts. *)
From stdpp Require Import base list strings gmap relations.
From Stdlib Require Import ZArith Lia Ascii.
From S2P Require Import Prelude PyStr PyVal PyState PyTime AutoPool SelectorCandidates SelectorRank SelectionFence SelectionFenceFacts FenceSession PendingState PendingFacts.

Open Scope string_scope.
Open Scope Z_scope.
Open Scope list_scope.

(** ** The shape *)

Definition waiting_statuses : list string := ["pending"; "running"; "failed"; "deferred"].

(** A row: its revision, whether it is pending, its status and the revision
    that was applied last. *)
Record shaped (row : dict) (n : Z) (p : bool) (status : string) (a : Z) : Prop := Shaped {
  sh_revision : dget "revision" row = VInt n;
  sh_pending : dget "pending" row = VBool p;
  sh_status : dget "status" row = VStr status;
  sh_applied : dget "applied_revision" row = VInt a;
  sh_positive : 0 < n;
  sh_bounds : 0 <= a <= n;
  sh_waits : p = true -> status ∈ waiting_statuses;
  sh_done : p = false -> status = "applied" /\ a = n;
}.

Definition row_wf (row : dict) : Prop := exists n p status a, shaped row n p status a.

(** No row, or one of that shape. *)
Definition pending_wf (db : fence_db) : Prop :=
  match setting XRAY_VPN_AUTO_PENDING_KEY db with
  | None => True
  | Some (CJson (VDict row)) => row_wf row
  | Some _ => False
  end.

Lemma row_loaded db row : pending_wf db -> _load_row db = Some row -> row_wf row.
Proof.
  unfold pending_wf, _load_row. destruct (setting _ db) as [[|v|]|]; [done| |done|done]. destruct v; try done. by intros ? [= <-].
Qed.

Lemma no_row db : pending_wf db -> _load_row db = None -> setting XRAY_VPN_AUTO_PENDING_KEY db = None.
Proof. unfold pending_wf, _load_row. destruct (setting _ db) as [[|v|]|]; try done. by destruct v. Qed.

Lemma load_saved value db : _load_row (saved value db) =
  Some (sort_by key_leb (map (fun kv => (kv.1, sort_keys kv.2)) value)).
Proof. unfold _load_row, saved. by rewrite setting_put, String.eqb_refl. Qed.

Lemma dget_saved k value : dget k (sort_by key_leb (map (fun kv => (kv.1, sort_keys kv.2)) value)) = sort_keys (dget k value).
Proof. unfold dget. rewrite dict_lookup_sorted. by destruct (dict_lookup k value). Qed.

Lemma shaped_saved row n p status a : shaped row n p status a ->
  shaped (sort_by key_leb (map (fun kv => (kv.1, sort_keys kv.2)) row)) n p status a.
Proof. intros []. split; rewrite ?dget_saved; try done; by repeat match goal with E : dget _ row = _ |- _ => rewrite E; clear E end. Qed.

Lemma wf_saved value db : row_wf value -> pending_wf (saved value db).
Proof.
  intros (n & p & status & a & Hs). unfold pending_wf, saved. rewrite setting_put, String.eqb_refl.
  exists n, p, status, a. by apply shaped_saved.
Qed.

(** ** Every write keeps it *)

(** A key of a row that was updated. *)
Ltac field := unfold dmerge; cbn [fold_left fst snd]; rewrite !dget_dset; cbn [String.eqb Ascii.eqb Bool.eqb].

Lemma int_of_wf k row n : dget k row = VInt n -> int_field k row = Some n.
Proof. intros E. unfold int_field. rewrite E. unfold por, truthy. destruct (Z.eqb_spec n 0) as [->|]; done. Qed.

Lemma marked_shaped m t previous value : (previous = [] \/ row_wf previous) -> marked_value m t previous = Some value ->
  row_wf value.
Proof.
  intros Hp. unfold marked_value.
  assert (exists n a, int_field "revision" previous = Some n /\ int_field "applied_revision" previous = Some a /\ 0 <= a <= n) as (n & a & -> & -> & Ha).
  { destruct Hp as [->|(n & p & st & a & [])]; [by exists 0, 0|]. exists n, a. by rewrite !(int_of_wf _ previous _) by eassumption. }
  cbn [mbind option_bind]. destruct (dt_add_seconds _ _); [|done]. cbn [mbind option_bind]. intros [= <-].
  exists (Z.max 0 n + 1), true, "pending", a. split; try (by destruct (m_workflow m)); try lia; try done.
  intros _. unfold waiting_statuses. set_solver.
Qed.

Lemma begun_exact t row v n p status a : shaped row n p status a -> dget "pending" row = VBool true -> begun t row = Some v ->
  shaped v n true "running" a.
Proof.
  intros [Hr Hp _ Ha Hpos Hb _ _] Hw. unfold begun. destruct (int_field _ _); [|done]. intros <-%(inj Some).
  split; try field; try done. intros _. unfold waiting_statuses. set_solver.
Qed.

Lemma begun_shaped t row v : row_wf row -> dget "pending" row = VBool true -> begun t row = Some v -> row_wf v.
Proof. intros (n & p & st & a & Hs) Hw Hv. exists n, true, "running", a. by eapply begun_exact. Qed.

Lemma succeeded_exact n t row v p status a : shaped row n p status a -> succeeded n t row = Some v -> shaped v n false "applied" n.
Proof. intros [Hr _ _ _ Hpos Hb _ _] <-%(inj Some). split; try field; try done; lia. Qed.

Lemma succeeded_shaped n t row v : row_wf row -> int_field "revision" row = Some n -> succeeded n t row = Some v -> row_wf v.
Proof.
  intros (n' & p & st & a & Hs) Hn Hv. rewrite (int_of_wf _ _ _ (sh_revision _ _ _ _ _ Hs)) in Hn. injection Hn as ->.
  exists n, false, "applied", n. by eapply succeeded_exact.
Qed.

Lemma failed_shaped code t row v : row_wf row -> failed_attempt code t row = Some v -> row_wf v.
Proof.
  intros (n & p & st & a & [Hr _ _ Ha Hpos Hb _ _]). unfold failed_attempt. destruct (dt_add_seconds _ _); [|done]. intros <-%(inj Some).
  exists n, true, "failed", a. split; try field; try done. intros _. unfold waiting_statuses. set_solver.
Qed.

Lemma deferred_shaped t row v : row_wf row -> dget "pending" row = VBool true -> deferred t row = Some v -> row_wf v.
Proof.
  intros (n & p & st & a & [Hr _ _ Ha Hpos Hb _ _]) Hw <-%(inj Some).
  exists n, true, "deferred", a. split; try field; try done. intros _. unfold waiting_statuses. set_solver.
Qed.

Lemma is_revision_wf row n : row_wf row -> is_revision (Some row) n = Some true ->
  int_field "revision" row = Some n /\ dget "pending" row = VBool true.
Proof.
  intros (m & p & st & a & Hs) Hi. split; [by apply is_revision_field|]. unfold is_revision in Hi.
  rewrite (sh_pending _ _ _ _ _ Hs) in Hi |- *. destruct p; [done|]. by rewrite orb_true_r in Hi.
Qed.

(** [f] makes a row of a pending row of revision [n]. *)
Definition reshapes (n : Z) (f : dict -> py dict) : Prop := forall row v, row_wf row ->
  int_field "revision" row = Some n -> dget "pending" row = VBool true -> f row = Some v -> row_wf v.

(** ** Transactions and sessions *)

Definition keeps_wf {A} (body : T A) : Prop := forall db x db', body db = (Some x, db') -> pending_wf db -> pending_wf db'.

Lemma save_wf value n : row_wf value -> keeps_wf (_save_if_revision value n).
Proof. intros Hv db x db' [(_ & _ & ->)|[_ ->]]%save_cases Hdb; [by apply wf_saved|done]. Qed.

Lemma mark_cases m t db v db' : mark_xray_vpn_auto_pending m t db = (Some v, db') ->
  let previous := default [] (_load_row db) in
  (owned_by_fixed_workflow previous && negb (m_supersede_fixed_workflow m) = true /\ v = previous /\ db' = db) \/
  (marked_value m t previous = Some v /\ db' = saved v db).
Proof.
  unfold mark_xray_vpn_auto_pending. rewrite bind_unfold. cbn [st_get]. cbv zeta. destruct (_ && _) eqn:E.
  - intros [= <- <-]. by left.
  - rewrite bind_unfold, st_py_eq. destruct (marked_value _ _ _) as [value|]; [|done]. intros [= <- <-]. by right.
Qed.

Lemma previous_wf db : pending_wf db -> default [] (_load_row db) = [] \/ row_wf (default [] (_load_row db)).
Proof. intros Hdb. destruct (_load_row db) as [row|] eqn:E; [right|by left]. by eapply row_loaded. Qed.

Lemma mark_wf m t : keeps_wf (mark_xray_vpn_auto_pending m t).
Proof.
  intros db v db' [(_ & _ & ->)|[Hv ->]]%mark_cases Hdb; [done|]. apply wf_saved. eapply marked_shaped; [|exact Hv]. by apply previous_wf.
Qed.

Lemma complete_wf n t : keeps_wf (_complete_revision_in_connection n t).
Proof.
  intros db x db' E Hdb. unfold _complete_revision_in_connection in E. rewrite bind_unfold in E. cbn [st_get] in E. cbv zeta in E.
  rewrite bind_unfold, st_py_eq in E. destruct (is_revision (_load_row db) n) as [mine|] eqn:Ei; [|done].
  destruct (_load_row db) as [row|] eqn:El; [|by injection E as _ ->]. destruct mine; [|by injection E as _ ->].
  destruct (is_revision_wf row n) as [Hn Hw]; [by eapply row_loaded|done|]. refine (save_wf _ _ _ _ _ _ E Hdb).
  destruct (row_loaded _ _ Hdb El) as (n' & p & st & a & [Hr _ _ _ Hpos Hb _ _]). rewrite (int_of_wf _ _ _ Hr) in Hn. injection Hn as ->.
  exists n, false, "applied", n. split; try (rewrite dget_dpop_ne by done; field); try done; lia.
Qed.

Lemma update_routing_same f db x db' : update_routing f db = (Some x, db') -> d_pool db' = d_pool db.
Proof.
  unfold update_routing. rewrite bind_unfold. cbn [st_get]. destruct (d_routing db) as [r|]; [|by intros [= <- <-]].
  destruct (routing_ok _ _); [|done]. by intros [= <- <-].
Qed.

(** The expiry, step by step. *)
Lemma expire_cases n now t db x db' : expire_tx n now t db = (Some x, db') ->
  (x = Kept /\ db' = db /\ forall r, d_routing db = Some r -> fixed_expired now r = false) \/
  (x = RevisionMoved /\ db' = db /\ selection_revision db <> Some n) \/
  (x = Expired /\ exists r v, d_routing db = Some r /\ fixed_expired now r = true /\ selection_revision db = Some n /\
     marked_value expiry_mark t (default [] (_load_row db)) = Some v /\
     db' = saved v (with_settings <[SELECTION_REVISION_KEY := CJson (VInt (n + 1))]> (with_routing (Some (expired_row r)) db))).
Proof.
  unfold expire_tx. rewrite bind_unfold. cbn [st_get]. destruct (d_routing db) as [r|] eqn:Er; [|intros [= <- <-]; by left].
  destruct (fixed_expired now r) eqn:Ef; [|intros [= <- <-]; left; split_and!; [done|done|by intros ? [= <-]]].
  rewrite bind_unfold. unfold update_routing. rewrite bind_unfold. cbn [st_get]. rewrite Er.
  destruct (routing_ok db (expired_row r)); [|done].
  rewrite (bind_unfold (st_modify _)). cbn [st_modify mret st_ret]. rewrite bind_unfold, advance_spec. change (selection_revision (with_routing (Some (expired_row r)) db)) with (selection_revision db).
  destruct (selection_revision db) as [k|] eqn:Ek; [|done]. destruct (Z.eqb_spec k n) as [->|]; cbn [negb]; [|intros [= <- <-]; right; left; split_and!; [done|done|congruence]].
  rewrite bind_unfold. set (db1 := with_settings _ _).
  destruct (mark_xray_vpn_auto_pending expiry_mark t db1) as [[v|] db2] eqn:Em; [|done]. intros [= <- <-].
  apply mark_cases in Em as [(Ho & _)|[Hv ->]]; [by rewrite andb_false_r in Ho|].
  assert (El : _load_row db1 = _load_row db) by (unfold _load_row, db1; by rewrite setting_put).
  rewrite El in Hv. right. right. split; [done|]. by exists r, v.
Qed.

Lemma expire_wf n now t : keeps_wf (expire_tx n now t).
Proof.
  intros db x db' [(_ & -> & _)|[(_ & -> & _)|(_ & r & v & _ & _ & _ & Hv & ->)]]%expire_cases Hdb; [done|done|]. apply wf_saved.
  eapply marked_shaped; [|exact Hv]. by apply previous_wf.
Qed.

(** ** Whoever else runs *)

(** The others keep the shape too: their marks, attempts and expiries are the
    same operations, and what else they change is not this row. *)
Definition shared (s : session request) : Prop :=
  pending_wf (x_db s) /\ forall t, t ∈ x_turns s -> forall db, pending_wf db -> pending_wf (t_others t db).

Lemma shared_transaction {A} (body : T A) : keeps_wf body -> moves (stays shared) (transaction body).
Proof.
  intros Hb [db ts l] [Hdb Hts]. unfold transaction. destruct (take_turn _) as [[t db1] rest] eqn:Et.
  assert (Hin : pending_wf db1 /\ forall t', t' ∈ rest -> t' ∈ ts).
  { unfold take_turn in Et. cbn in Et. destruct ts as [|t0 ts]; injection Et as <- <- <-; split; try done.
    - apply Hts; [by left|done].
    - intros t' ?. by right. }
  destruct Hin as [Hdb1 Hrest]. assert (Ho : forall t', t' ∈ rest -> forall db, pending_wf db -> pending_wf (t_others t' db)) by auto.
  destruct (t_ok t); [|by split]. destruct (body db1) as [[x|] db'] eqn:E; [|by split]. split; [by eapply Hb|done].
Qed.

Lemma shared_read {A} (f : fence_db -> A) : moves (stays shared) (read_db f).
Proof. apply shared_transaction. by intros db x db' [= <- <-]. Qed.

Lemma shared_answer {A} q (f : list request -> A) : moves (stays shared) (answer q f).
Proof. intros s Hs. exact Hs. Qed.

Lemma shared_answer_py {A} q (f : list request -> py A) : moves (stays shared) (answer_py q f).
Proof. intros s Hs. exact Hs. Qed.

(** The row that is read has the shape. *)
Lemma shared_row {A} (k : option dict -> P A) : (forall row, from_option row_wf True row -> moves (stays shared) (k row)) ->
  moves (stays shared) (read_db _load_row ≫= k).
Proof.
  intros Hk s Hs. rewrite bind_unfold. unfold read_db, transaction. pose proof (shared_read _load_row s Hs) as Hr.
  unfold read_db, transaction in Hr. destruct (take_turn s) as [[t db] rest] eqn:Et. destruct (t_ok t); [|done]. cbn [snd] in Hr.
  apply Hk; [|done]. destruct (_load_row db) as [row|] eqn:El; [|done]. exact (row_loaded _ _ (proj1 Hr) El).
Qed.
#[local] Hint Resolve shared_read shared_answer shared_answer_py : frame.

Section Shared.
Context `{ReprContainer} `{PendingOutside}.

Lemma shared_update n f : reshapes n f -> moves (stays shared) (update_revision n f).
Proof.
  intros Hf. unfold update_revision. apply shared_row. intros row Hrow. apply (moves_bind_py _). intros mine Hi.
  destruct row as [row|]; [|frame]. destruct mine; [|frame]. apply (moves_bind_py _). intros v Hv. apply (moves_bind _); [|frame].
  apply shared_transaction, save_wf. destruct (is_revision_wf _ _ Hrow Hi) as [Hn Hw]. by eapply Hf.
Qed.

Lemma shared_now now : moves (stays shared) (_now now).
Proof. unfold _now. frame. Qed.
Hint Resolve shared_now : frame.

Lemma shared_begin n now : moves (stays shared) (_begin_attempt n now).
Proof. unfold _begin_attempt. apply (moves_bind _); [frame|]. intros t. apply shared_update. intros row v Hr _ Hw. by apply begun_shaped. Qed.

Lemma shared_finish n ok code now : moves (stays shared) (_finish_revision n ok code now).
Proof.
  unfold _finish_revision. apply (moves_bind _); [frame|]. intros t. apply (moves_bind _); [|frame]. apply shared_update.
  intros row v Hr Hn Hw. destruct ok; [by apply succeeded_shaped|by apply failed_shaped].
Qed.

Lemma shared_defer n now : moves (stays shared) (_defer_revision n now).
Proof.
  unfold _defer_revision. apply (moves_bind _); [frame|]. intros t. apply (moves_bind _); [|frame]. apply shared_update.
  intros row v Hr _ Hw. by apply deferred_shaped.
Qed.

Lemma shared_mark m t : moves (stays shared) (transaction (mark_xray_vpn_auto_pending m t)).
Proof. apply shared_transaction, mark_wf. Qed.

Lemma shared_expire n now t : moves (stays shared) (transaction (expire_tx n now t)).
Proof. apply shared_transaction, expire_wf. Qed.
Hint Resolve shared_begin shared_finish shared_defer shared_mark shared_expire : frame.

Lemma shared_writer {A} timeout (body : P A) : moves (stays shared) body -> moves (stays shared) (with_writer timeout body).
Proof. intros Hb. unfold with_writer. apply (moves_bind _); [frame|]. intros []; [exact Hb|frame]. Qed.

Lemma shared_drift : moves (stays shared) _confirmed_applied_config_drift.
Proof. apply shared_writer. unfold _confirmed_applied_config_drift_under_guard. frame. Qed.
Hint Resolve shared_drift : frame.

Lemma shared_submit by_ bypass expected run_now : moves (stays shared) (submit_xray_vpn_auto_reconcile by_ bypass expected run_now).
Proof. unfold submit_xray_vpn_auto_reconcile. frame. Qed.

Lemma shared_due state now bypass : moves (stays shared) (pending_is_due state now bypass).
Proof. unfold pending_is_due. frame. Qed.

Lemma shared_state : moves (stays shared) get_xray_vpn_auto_pending_state.
Proof. unfold get_xray_vpn_auto_pending_state. frame. Qed.

Lemma shared_authoritative : moves (stays shared) _inventory_and_runtime_authoritative.
Proof. unfold _inventory_and_runtime_authoritative. frame. Qed.

Lemma shared_conclude result n more current : moves (stays shared) (conclude_attempt result n more current).
Proof. unfold conclude_attempt. frame. Qed.
Hint Resolve shared_submit shared_due shared_state shared_authoritative shared_conclude : frame.

Lemma shared_reconcile n by_ : moves (stays shared) (attempt_reconcile n by_).
Proof. unfold attempt_reconcile, _finalize_xray_vpn_auto. frame. Qed.

Lemma shared_resume w n by_ : moves (stays shared) (resume_fixed_workflow w n by_).
Proof. unfold resume_fixed_workflow. frame. Qed.
Hint Resolve shared_reconcile shared_resume : frame.

Lemma shared_run by_ bypass expected : moves (stays shared) (run_xray_vpn_auto_reconcile by_ bypass expected).
Proof.
  unfold run_xray_vpn_auto_reconcile, pending_fixed_workflow_state. apply (moves_bind _); [frame|]. intros [w|].
  - unfold run_fixed_workflow, owner_is_running. frame.
  - apply shared_writer. unfold run_generic, bypass_now. frame.
Qed.

Lemma shared_apply_now by_ : moves (stays shared) (request_xray_vpn_auto_apply_now by_).
Proof. unfold request_xray_vpn_auto_apply_now. apply (moves_bind _); [apply shared_writer; frame|intros ?; frame]. Qed.

Lemma shared_dispatch now : moves (stays shared) (dispatch_due_xray_vpn_auto_reconcile now).
Proof. unfold dispatch_due_xray_vpn_auto_reconcile. frame. Qed.

Lemma shared_clear row : moves (stays shared) (_clear_expired_global_fixed_server_state row).
Proof. unfold _clear_expired_global_fixed_server_state. apply (moves_bind _); [apply shared_writer; frame|intros ?; frame]. Qed.
Hint Resolve shared_clear : frame.

Lemma shared_routing fuel : forall expire, moves (stays shared) (get_routing_global_state fuel expire).
Proof. induction fuel as [|fuel IH]; intros expire; cbn [get_routing_global_state]; frame. Qed.

Lemma shared_expiry dry_run apply_runtime : moves (stays shared) (expire_global_fixed_server dry_run apply_runtime).
Proof.
  unfold expire_global_fixed_server, or_raise. apply (moves_bind _); [frame|]. intros now. apply (moves_bind _); [frame|]. intros expired.
  destruct (_ && _); [|frame]. apply shared_writer. frame.
Qed.
End Shared.

(** ** The invariant *)

(** Everything that writes the row. *)
Inductive operation :=
  | Mark_ (m : mark) (current : datetime)
  | Complete (revision : Z) (current : datetime)
  | Reconcile (requested_by : string) (bypass : bool) (expected_revision : option Z)
  | ApplyNow (requested_by : string)
  | Dispatch (now : option py_datetime)
  | ClearAfterSuccess (revision : option Z)
  | ReadRouting (fuel : nat) (expire_ttl : bool)
  | ExpireFixed (dry_run apply_runtime : bool).

Section Invariant.
Context `{ReprContainer} `{PendingOutside}.

Definition perform (o : operation) : P unit :=
  match o with
  | Mark_ m t => _ ← transaction (mark_xray_vpn_auto_pending m t); mret tt
  | Complete n t => _ ← transaction (_complete_revision_in_connection n t); mret tt
  | Reconcile by_ bypass expected => _ ← run_xray_vpn_auto_reconcile by_ bypass expected; mret tt
  | ApplyNow by_ => _ ← request_xray_vpn_auto_apply_now by_; mret tt
  | Dispatch now => _ ← dispatch_due_xray_vpn_auto_reconcile now; mret tt
  | ClearAfterSuccess revision => _ ← clear_pending_revision_after_success revision; mret tt
  | ReadRouting fuel expire => _ ← get_routing_global_state fuel expire; mret tt
  | ExpireFixed dry_run apply_runtime => _ ← expire_global_fixed_server dry_run apply_runtime; mret tt
  end.

Lemma shared_perform o : moves (stays shared) (perform o).
Proof.
  destruct o; cbn [perform]; (apply (moves_bind _); [|frame]);
    [apply shared_mark|apply shared_transaction, complete_wf|apply shared_run|apply shared_apply_now|apply shared_dispatch| |
     apply shared_routing|apply shared_expiry].
  unfold clear_pending_revision_after_success. destruct revision; [apply shared_finish|frame].
Qed.

(** C12: the row keeps its shape.  Let any process perform any operations that
    write the row, one after the other and failing or not, while the others
    change it in between, always from a well-formed row to a well-formed one,
    which is what their operations do too.  Then the row is well-formed at the
    end: a positive revision; pending with a status of waiting, or settled,
    and then applied with exactly its revision; and the revision that was
    applied last never runs ahead. *)
Theorem row_keeps_its_shape operations s : shared s ->
  pending_wf (x_db (fold_left (fun s o => (perform o s).2) operations s)).
Proof.
  intros Hs. cut (shared (fold_left (fun s o => (perform o s).2) operations s)); [by intros []|].
  revert s Hs. induction operations as [|o os IH]; intros s Hs; [done|]. cbn [fold_left]. apply IH. exact (shared_perform o s Hs).
Qed.
End Invariant.

(** ** The expiry is one change *)

(** At SQLite's time [now] the row is fixed and its time has passed: the server
    mode falls back to auto, the selection gets a new revision, and the
    reconcile is marked as of the clock's time [t], due at once; nothing else
    changes. *)
Definition expiry_change (now : string) (t : datetime) : relation fence_db := fun db db' => exists r n v,
  d_routing db = Some r /\ fixed_expired now r = true /\ d_routing db' = Some (expired_row r) /\
  selection_revision db = Some n /\ selection_revision db' = Some (n + 1) /\
  marked_value expiry_mark t (default [] (_load_row db)) = Some v /\
  db' = saved v (with_settings <[SELECTION_REVISION_KEY := CJson (VInt (n + 1))]> (with_routing (Some (expired_row r)) db)).

Lemma expire_change n now t db x db' : expire_tx n now t db = (Some x, db') ->
  (x <> Expired /\ db' = db) \/ (x = Expired /\ expiry_change now t db db').
Proof.
  intros [(-> & -> & _)|[(-> & -> & _)|(-> & r & v & Hr & Hf & Hn & Hv & ->)]]%expire_cases; [by left|by left|right].
  split; [done|]. exists r, n, v.
  split_and!; try done. unfold saved. pose proof (revision_nonneg db n Hn). unfold selection_revision at 1. rewrite setting_put. cbn [String.eqb Ascii.eqb Bool.eqb].
  apply revision_put. lia.
Qed.

Section Expiry.
Context `{ReprContainer} `{PendingOutside}.

(** The two times of an expiry, read once the writer's lock is acquired. *)
Definition expiry_sql_time (asked : list request) : string := sql_now (SqlClock :: AcquireWriter (Some 5) :: asked).
Definition expiry_mark_time (asked : list request) : datetime := clock (ReadClock :: SqlClock :: AcquireWriter (Some 5) :: asked).

Lemma expiry_evolves row s :
  evolves (expiry_change (expiry_sql_time (x_asked s)) (expiry_mark_time (x_asked s))) s (_clear_expired_global_fixed_server_state row s).2.
Proof.
  unfold _clear_expired_global_fixed_server_state, with_writer, _now. set (own := expiry_change _ _).
  rewrite !bind_unfold. unfold answer at 1. destruct (writer_acquired _); [|exact (evolves_answer own _ writer_acquired s)].
  set (s1 := Selector _ _ _). assert (H1 : evolves own s s1) by exact (evolves_answer own (AcquireWriter (Some 5)) writer_acquired s).
  assert (Ha1 : x_asked s1 = AcquireWriter (Some 5) :: x_asked s) by done. clearbody s1. rewrite bind_unfold.
  pose proof (evolves_read own selection_revision s1) as H2. pose proof (reading_asked selection_revision s1) as Ha2.
  destruct (read_db selection_revision s1) as [[read|] s2]; cbn [snd] in *; [|by etrans].
  rewrite bind_unfold, st_py_eq. destruct read as [n|]; [|by etrans].
  set (s4 := Selector (x_db s2) (x_turns s2) (ReadClock :: SqlClock :: x_asked s2)).
  assert (H4 : evolves own s s4) by (etrans; [exact H1|]; etrans; [exact H2|]; exists []; by split; [|constructor]).
  change (evolves own s (let r := transaction (expire_tx n (sql_now (SqlClock :: x_asked s2)) (clock (ReadClock :: SqlClock :: x_asked s2))) s4 in
    match r with
    | (Some outcome, s5) => (match outcome with RevisionMoved => mret (inr tt) | Kept => mret (inl false)
                             | Expired => _ ← answer_py (LogExpired (fixed_fields row)) expiry_logged; mret (inl true) end) s5
    | (None, s5) => (None, s5)
    end).2).
  rewrite Ha2, Ha1. fold (expiry_sql_time (x_asked s)) (expiry_mark_time (x_asked s)). cbv zeta.
  pose proof (evolves_transaction (Ask := request) own (expire_tx n (expiry_sql_time (x_asked s)) (expiry_mark_time (x_asked s)))) as Ht.
  specialize (Ht ltac:(intros db x db' [[_ ->]|[_ Hc]]%expire_change; [done|by apply rtc_once]) s4).
  destruct (transaction _ s4) as [[x|] s5]; cbn [snd] in *; [|by etrans].
  etrans; [exact H4|]. etrans; [exact Ht|]. assert (Hl : moves (evolves own) (match x with RevisionMoved => mret (inr tt) | Kept => mret (inl false)
    | Expired => _ ← answer_py (LogExpired (fixed_fields row)) expiry_logged; mret (inl true) end : P (bool + unit))) by frame. apply Hl.
Qed.

(** C19: a fixed server expires as one change.  Whatever the others do in
    between, the database only moves by their changes and by whole expiries: a
    row that is fixed and whose time has passed at the time SQLite reads after
    the lock is acquired becomes auto, in the same commit as the new selection
    revision and the mark, or nothing changes.  A server that was renewed,
    released or fixed anew in the meantime, so that its time has not passed,
    stays as it is.  When nobody else acts the answer tells which of the two
    it was: true for the expiry, false for a row that is not due. *)
Theorem expiry_is_one_change row s :
  let now := expiry_sql_time (x_asked s) in
  let t := expiry_mark_time (x_asked s) in
  evolves (expiry_change now t) s (_clear_expired_global_fixed_server_state row s).2 /\
  (x_turns s = [] -> forall b s', _clear_expired_global_fixed_server_state row s = (Some b, s') ->
     (b = inl true /\ expiry_change now t (x_db s) (x_db s')) \/
     (b = inl false /\ x_db s' = x_db s /\ forall r, d_routing (x_db s) = Some r -> fixed_expired now r = false)).
Proof.
  intros now t. split; [apply expiry_evolves|].
  destruct s as [db ts l]. cbn [x_turns x_db]. intros -> b s' E. unfold _clear_expired_global_fixed_server_state in E.
  apply bind_inv in E as (cleared & s1 & Ew & E). unfold with_writer in Ew. apply bind_inv in Ew as (acquired & s2 & Ea & Ew).
  injection Ea as <- <-. destruct (writer_acquired _); [|done].
  apply bind_inv in Ew as (read & s3 & E1 & Ew). rewrite read_alone in E1. injection E1 as <- <-.
  apply bind_inv in Ew as (n & s4 & E2 & Ew). rewrite st_py_eq in E2. injection E2 as Hn <-.
  apply bind_inv in Ew as (now' & s5 & E3 & Ew). injection E3 as <- <-.
  apply bind_inv in Ew as (t' & s6 & E4 & Ew). injection E4 as <- <-.
  cbn [x_db x_turns x_asked] in Ew. rewrite transaction_alone in Ew. change (sql_now _) with now in Ew. change (clock _) with t in Ew.
  destruct (expire_tx n now t db) as [[x|] db'] eqn:Et; [|done].
  injection Ew as <- <-. pose proof Et as [(-> & -> & Hk)|[(_ & _ & Hm)|(-> & _)]]%expire_cases.
  - right. injection E as <- <-. done.
  - by destruct Hm.
  - apply expire_change in Et as [[Hx _]|[_ Hc]]; [done|].
    apply bind_inv in E as (u & s7 & E5 & E). injection E as <- <-. injection E5 as _ <-. by left.
Qed.
End Expiry.

(** ** Nobody else acts *)

Section Alone.
Context `{ReprContainer} `{PendingOutside}.

Lemma state_alone db l : get_xray_vpn_auto_pending_state (Selector db [] l) = (public_state (_load_row db), Selector db [] l).
Proof. unfold get_xray_vpn_auto_pending_state. by rewrite bind_unfold, read_alone, st_py_eq. Qed.

(** The projection keeps what is looked at. *)
Lemma public_field k row state : public_state (Some row) = Some state -> k ∈ public_keys -> dget k state = dget k row.
Proof.
  cbn [public_state]. destruct (int_field _ _) as [n|]; [|done]. intros <-%(inj Some) Hk. unfold public_keys in *.
  rewrite !elem_of_cons, elem_of_nil in Hk. by destruct_or?; subst; try done.
Qed.

Lemma public_due row state now bypass : public_state (Some row) = Some state -> due_at state now bypass = due_at row now bypass.
Proof. intros Hs. unfold due_at. by rewrite !(public_field _ _ _ Hs) by (apply (bool_decide_unpack _); by vm_compute). Qed.

Lemma due_saved row now bypass : due_at (sort_by key_leb (map (fun kv => (kv.1, sort_keys kv.2)) row)) now bypass = due_at row now bypass.
Proof.
  unfold due_at. rewrite !dget_saved.
  assert (Hp : forall v, _parse_timestamp (sort_keys v) = _parse_timestamp v) by by intros [].
  assert (Hs : forall v s, eq_str (sort_keys v) s = eq_str v s) by by intros [].
  by rewrite !Hp, !Hs.
Qed.

(** C30: an interrupted retry of a deferred revision is never dispatched again.
    A deferral clears the time the revision was due, because its status makes
    it due by itself; the next attempt replaces that status and puts no time
    back.  If the process ends there, the row stays pending, and every later
    dispatch finds it not due, whatever the time, as long as the applied
    configuration shows no drift: no job is created and the row stays. *)
Theorem interrupted_deferral_never_dispatched state t0 d t1 v now db l r s :
  deferred t0 state = Some d -> begun t1 d = Some v ->
  (forall db l, exists l', _confirmed_applied_config_drift (Selector db [] l) = (Some false, Selector db [] l')) ->
  dispatch_due_xray_vpn_auto_reconcile now (Selector (saved v db) [] l) = (Some r, s) ->
  x_db s = saved v db /\ (dget "status" r = VStr "not_due" \/ dget "status" r = VStr "not_pending").
Proof.
  intros Hd Hb Hdrift E. unfold dispatch_due_xray_vpn_auto_reconcile in E.
  apply bind_inv in E as (st & s1 & E1 & E). rewrite state_alone, load_saved in E1. injection E1 as Hst <-.
  destruct (negb _); [injection E as <- <-; by split; [|right]|].
  apply bind_inv in E as (drift & s2 & E2 & E). destruct (Hdrift (saved v db) l) as [l' Hl]. rewrite Hl in E2. injection E2 as <- <-.
  cbv zeta in E. assert (Hrun : dget "status" v = VStr "running").
  { unfold begun in Hb. destruct (int_field _ _); [|done]. injection Hb as <-. by field. }
  rewrite (public_field "status" _ _ Hst), dget_saved, Hrun in E by (apply (bool_decide_unpack _); by vm_compute).
  change (false || eq_str (sort_keys (VStr "running")) "deferred") with false in E.
  apply bind_inv in E as (due & s3 & E3 & E). unfold pending_is_due in E3. destruct (negb _) in E3.
  - injection E3 as <- <-. injection E as <- <-. split; [done|by left].
  - apply bind_inv in E3 as (current & s4 & E4 & E3). rewrite st_py_eq, (public_due _ _ _ _ Hst), due_saved, (begun_deferred_due _ _ _ _ _ _ _ Hd Hb) in E3.
    injection E3 as <- <-. injection E as <- <-. split; [|by left]. unfold _now in E4. destruct now as [n|].
    + rewrite st_py_eq in E4. by injection E4 as _ <-.
    + by injection E4 as _ <-.
Qed.
End Alone.

(** ** A run that succeeds *)

(** The time, and what the services answer. *)
Record goes_well `{PendingOutside} (t : datetime) : Prop := GoesWell {
  gw_clock : forall l, clock l = t;
  gw_writer : forall l, writer_acquired l = true;
  gw_module : forall l, exists m, xray_module l = Some (Some m) /\ eq_str (dget "desired_state" m) "enabled" = true /\
    eq_str (dget "lifecycle_mode" m) "managed" = true;
  gw_subscription : forall l, exists state, subscription_state l = Some (Some state) /\ eq_str (dget "status" state) "success" = true /\
    truthy (dget "last_success_at" state) = true;
  gw_reconciled : forall l, exists r, subscription_reconciled l = inl r /\ truthy (dget "ok" r) = true /\ eq_str (dget "status" r) "skipped" = false;
  gw_mihomo : forall l, exists r, mihomo_reconciled l = inl (Some r) /\ truthy (dget "ok" r) = true;
  gw_promoted : forall l, exists v, nodes_promoted l = inl v;
}.

Lemma shaped_matches db row n status a : setting XRAY_VPN_AUTO_PENDING_KEY db = Some (CJson (VDict row)) ->
  shaped row n true status a -> n < 2 ^ 63 ->
  _load_row db = Some row /\ is_revision (Some row) n = Some true /\ row_matches n db = Some true /\ sql_int n = Some n.
Proof.
  intros Hs [Hr Hp _ _ Hpos _ _ _] Hn. unfold _load_row, row_matches, is_revision, json_extract. rewrite Hs, Hr, Hp.
  rewrite (int_of_wf _ _ _ Hr). cbn [truthy negb orb mbind option_bind sql_value Z.b2z cast_integer].
  split_and!; try done.
  - destruct row; [done|]. by rewrite Z.eqb_refl.
  - unfold clamp64. rewrite Z.min_l, Z.max_r by lia. by rewrite bool_decide_true.
  - unfold sql_int. by rewrite (proj2 (Z.leb_le _ _)), (proj2 (Z.ltb_lt _ _)) by lia.
Qed.

Lemma setting_saved v db : setting XRAY_VPN_AUTO_PENDING_KEY (saved v db) =
  Some (CJson (VDict (sort_by key_leb (map (fun kv => (kv.1, sort_keys kv.2)) v)))).
Proof. unfold saved. by rewrite setting_put, String.eqb_refl. Qed.

Section Succeeds.
Context `{ReprContainer} `{PendingOutside}.

Lemma update_alone n f db l row v status a : setting XRAY_VPN_AUTO_PENDING_KEY db = Some (CJson (VDict row)) ->
  shaped row n true status a -> n < 2 ^ 63 -> f row = Some v ->
  update_revision n f (Selector db [] l) = (Some (Some v), Selector (saved v db) [] l).
Proof.
  intros Hs Hw Hn Hf. destruct (shaped_matches db row n status a Hs Hw Hn) as (Hl & Hi & Hm & Hb).
  unfold update_revision. rewrite bind_unfold, read_alone, Hl, bind_unfold, Hi, st_py_eq, bind_unfold, st_py_eq, Hf.
  rewrite bind_unfold, transaction_alone. unfold _save_if_revision.
  rewrite bind_unfold, st_py_eq, Hb, bind_unfold. cbn [st_get]. by rewrite bind_unfold, st_py_eq, Hm.
Qed.

Lemma lookup_public k w : k ∉ private_keys ->
  dict_lookup k (List.filter (fun kv : string * pyval => negb (bool_decide (kv.1 ∈ private_keys))) w) = dict_lookup k w.
Proof.
  intros Hk. induction w as [|[k0 v0] w IH]; [done|]. cbn [List.filter fst]. case_bool_decide as Hp; cbn [negb dict_lookup].
  - destruct (String.eqb_spec k k0) as [->|]; done.
  - by rewrite IH.
Qed.

Lemma public_fixed row state : public_state (Some row) = Some state ->
  is_fixed_workflow (dget "workflow" state) = is_fixed_workflow (dget "workflow" row).
Proof.
  cbn [public_state]. destruct (int_field _ _) as [n|]; [|done]. intros <-%(inj Some).
  change (dget "workflow" (_ ++ _)) with (public_workflow row). unfold public_workflow. destruct (dget "workflow" row); try done.
  cbn [is_fixed_workflow]. unfold dget. by rewrite lookup_public by (apply (bool_decide_unpack _); by vm_compute).
Qed.

Lemma bind_run {S A B} (m : st S A) (k : A -> st S B) s a s1 o : m s = (Some a, s1) -> k a s1 = o -> (m ≫= k) s = o.
Proof. intros E1 E2. by rewrite bind_unfold, E1. Qed.

Lemma finalize_well t by_ db l : goes_well t -> exists r l', dget "ok" r = VBool true /\ dget "status" r = VStr "success" /\
  _finalize_xray_vpn_auto by_ (Selector db [] l) = (Some (inl r), Selector db [] l').
Proof.
  intros Hw. unfold _finalize_xray_vpn_auto.
  destruct (gw_reconciled t Hw (ReconcileSubscription by_ :: l)) as (r & Hr & Hok & Hsk).
  destruct (gw_mihomo t Hw (ReconcileMihomo :: ReconcileSubscription by_ :: l)) as (f & Hf & Hfok).
  destruct (gw_promoted t Hw (PromoteNodes :: ReconcileMihomo :: ReconcileSubscription by_ :: l)) as (v & Hv).
  eexists _, _. split; [|split]; [| |eapply bind_run; [reflexivity|]; cbn [x_asked]; rewrite Hr, Hok, Hsk; cbn [negb];
    eapply bind_run; [reflexivity|]; cbn [x_asked x_db x_turns]; rewrite Hf; cbn [default from_option id]; rewrite Hfok; cbn [negb];
    eapply bind_run; [reflexivity|]; cbn [x_asked x_db x_turns]; rewrite Hv; reflexivity]; done.
Qed.

Lemma authoritative_well t db l : goes_well t ->
  _inventory_and_runtime_authoritative (Selector db [] l) = (Some true, Selector db [] (LoadSubscription :: LoadModule :: l)).
Proof.
  intros Hw. destruct (gw_module t Hw (LoadModule :: l)) as (m & Hm & Hd & Hl).
  destruct (gw_subscription t Hw (LoadSubscription :: LoadModule :: l)) as (st & Hst & Hs & Ht). unfold _inventory_and_runtime_authoritative.
  eapply bind_run; [unfold answer_py; cbn [x_asked]; by rewrite Hm|]. eapply bind_run; [unfold answer_py; cbn [x_asked]; by rewrite Hst|].
  cbn [default from_option id]. by rewrite Hd, Hl, Hs, Ht.
Qed.

Lemma now_well t db l : goes_well t -> _now None (Selector db [] l) = (Some t, Selector db [] (ReadClock :: l)).
Proof. intros Hw. unfold _now, answer. cbn [x_asked]. by rewrite (gw_clock t Hw). Qed.

(** The row an attempt leaves that succeeds at the time it began. *)
Lemma reconcile_well t by_ db l row n status a k : goes_well t -> setting XRAY_VPN_AUTO_PENDING_KEY db = Some (CJson (VDict row)) ->
  shaped row n true status a -> n < 2 ^ 63 -> dget "attempt_count" row = VInt k ->
  exists r s' row', attempt_reconcile n by_ (Selector db [] l) = (Some r, s') /\ _load_row (x_db s') = Some row' /\
    shaped row' n false "applied" n /\ dget "status" r = VStr "success" /\ dget "cleared" r = VBool true /\
    dget "pending" r = VBool false /\ dget "superseded" r = VBool false.
Proof.
  intros Hw Hset Hs Hn Hk. set (sorted := fun d : dict => sort_by key_leb (map (fun kv => (kv.1, sort_keys kv.2)) d)).
  destruct (begun t row) as [v1|] eqn:Eb; [|unfold begun in Eb; by rewrite (int_of_wf _ _ _ Hk) in Eb].
  pose proof (begun_exact _ _ _ _ _ _ _ Hs (sh_pending _ _ _ _ _ Hs) Eb) as Hs1. pose proof (shaped_saved _ _ _ _ _ Hs1) as Hs1'.
  destruct (succeeded n t (sorted v1)) as [v2|] eqn:E2; [|done]. pose proof (succeeded_exact _ _ _ _ _ _ _ Hs1' E2) as Hs2.
  pose proof (shaped_saved _ _ _ _ _ Hs2) as Hs2'.
  assert (Hc : exists m, int_field "attempt_count" (sorted v2) = Some m).
  { exists (k + 1). apply int_of_wf. unfold sorted. rewrite dget_saved. injection E2 as <-. unfold sorted.
    unfold begun in Eb. rewrite (int_of_wf _ _ _ Hk) in Eb. injection Eb as <-. field. rewrite dget_saved. by field. }
  destruct Hc as [m Hc]. destruct (public_state (Some (sorted v2))) as [final|] eqn:Ef; [|cbn [public_state] in Ef; by rewrite Hc in Ef].
  destruct (finalize_well t by_ (saved v1 db) (ReadClock :: l) Hw) as (r & l' & Hok & Hst & Hfin).
  set (db2 := saved v2 (saved v1 db)).
  exists (dmerge r ([("revision", VInt n); ("cleared", VBool true)] ++ [("pending", VBool false); ("superseded", VBool false)])),
    (Selector db2 [] (ReadClock :: l')), (sorted v2). split_and!; [|by apply load_saved|done|cbn [app]; by field..].
  unfold attempt_reconcile, _begin_attempt, _finish_revision.
  eapply bind_run; [eapply bind_run; [by apply now_well|by eapply update_alone]|]. cbv beta iota.
  eapply bind_run; [exact Hfin|]. cbv beta iota zeta. rewrite Hok, Hst. cbn [truthy andb eq_str py_eq String.eqb Ascii.eqb Bool.eqb].
  eapply bind_run; [eapply bind_run; [by apply now_well|]; eapply bind_run; [|reflexivity]; eapply update_alone;
    [by apply setting_saved|exact Hs1'|done|exact E2]|]. cbn [is_set].
  eapply bind_run; [rewrite state_alone; fold db2; unfold db2; rewrite load_saved; fold (sorted v2); rewrite Ef; reflexivity|].
  unfold conclude_attempt. assert (Hr : dget "revision" final = VInt n /\ dget "pending" final = VBool false).
  { rewrite !(public_field _ _ _ Ef) by (apply (bool_decide_unpack _); by vm_compute). split; apply Hs2'. }
  destruct Hr as [Hr Hp]. rewrite bind_unfold, st_py_eq, (int_of_wf _ _ _ Hr), Hp, Z.eqb_refl. reflexivity.
Qed.

(** C13: what is pending and due gets applied.  When nobody else acts, the row
    is pending with a revision SQLite can hold, no fixed workflow owns it, it
    is due at the time of the clock, the runtime and the inventory are
    authoritative and the steps of the reconcile succeed, then a run for this
    revision returns: it reports success, cleared and not superseded, and the
    row is no longer pending and says that exactly this revision is applied. *)
Theorem due_revision_is_applied t by_ bypass db l row n status a k : goes_well t ->
  setting XRAY_VPN_AUTO_PENDING_KEY db = Some (CJson (VDict row)) -> shaped row n true status a -> n < 2 ^ 63 ->
  dget "attempt_count" row = VInt k -> is_fixed_workflow (dget "workflow" row) = false ->
  due_at row t (bypass || String.eqb status "deferred") = Some true ->
  exists r s' row', run_xray_vpn_auto_reconcile by_ bypass (Some n) (Selector db [] l) = (Some r, s') /\
    dget "status" r = VStr "success" /\ dget "cleared" r = VBool true /\ dget "pending" r = VBool false /\
    dget "superseded" r = VBool false /\ _load_row (x_db s') = Some row' /\ shaped row' n false "applied" n.
Proof.
  intros Hw Hset Hs Hn Hk Hnot Hdue.
  destruct (shaped_matches db row n status a Hset Hs Hn) as (Hl & _ & _ & _).
  destruct (public_state (Some row)) as [state|] eqn:Est; [|cbn [public_state] in Est; by rewrite (int_of_wf _ _ _ Hk) in Est].
  assert (Hf : dget "revision" state = VInt n /\ dget "pending" state = VBool true /\ dget "status" state = VStr status).
  { by rewrite !(public_field _ _ _ Est), (sh_revision _ _ _ _ _ Hs), (sh_pending _ _ _ _ _ Hs), (sh_status _ _ _ _ _ Hs)
      by (apply (bool_decide_unpack _); by vm_compute). }
  destruct Hf as (Hr & Hp & Hst).
  edestruct (reconcile_well t by_ db) as (r & s' & row' & Hrun & Hrow & Hs' & H1 & H2 & H3 & H4); try eassumption.
  exists r, s', row'. split_and!; try done. unfold run_xray_vpn_auto_reconcile, pending_fixed_workflow_state, with_writer.
  eapply bind_run; [eapply bind_run; [by apply read_alone|reflexivity]|]. rewrite Hl.
  assert (Hno : fixed_workflow_of (Some row) = None).
  { unfold fixed_workflow_of. destruct (dget "workflow" row) eqn:E; try done. rewrite Hnot. cbn [negb]. by rewrite orb_true_r. }
  rewrite Hno. eapply bind_run; [unfold answer; cbn [x_asked]; by rewrite (gw_writer t Hw)|]. unfold run_generic.
  cbn [x_db x_turns x_asked]. eapply bind_run; [by rewrite state_alone, Hl, Est|]. rewrite Hp. cbn [truthy negb].
  eapply bind_run; [by rewrite st_py_eq, (int_of_wf _ _ _ Hr)|]. rewrite (public_fixed _ _ Est), Hnot, Z.eqb_refl.
  eapply (bind_run _ _ _ (bypass || String.eqb status "deferred")).
  { unfold bypass_now. rewrite Hst. cbn [eq_str py_eq negb]. destruct (String.eqb status "deferred"); [by rewrite orb_true_r|].
    rewrite andb_false_r, andb_true_r, orb_false_r. reflexivity. }
  eapply bind_run.
  { unfold pending_is_due. rewrite Hp. cbn [truthy negb]. eapply bind_run; [by apply now_well|].
    by rewrite st_py_eq, (public_due _ _ _ _ Est), Hdue. }
  cbn [negb]. eapply bind_run; [by eapply authoritative_well|]. cbn [negb]. exact Hrun.
Qed.
End Succeeds.

(** ** A sample *)

#[local] Instance any_repr : ReprContainer := fun _ => "...".

Definition noon : datetime := Datetime 1709208000000000 0.

(** Everything goes well and nothing drifted. *)
#[local] Instance calm_services : PendingOutside := {|
  clock := fun _ => noon;
  writer_acquired := fun _ => true;
  owner_job := fun _ => Some None;
  workflow_resumed := fun _ => inl [];
  bindings_state := fun _ => Some [("error_code", VStr "XRAY_BINDINGS_MISSING")];
  active_config_readable := fun _ => Some false;
  bindings_verified := fun _ => Some [];
  client_modes_verified := fun _ => Some [];
  xray_module := fun _ => Some (Some [("desired_state", VStr "enabled"); ("lifecycle_mode", VStr "managed")]);
  subscription_state := fun _ => Some (Some [("status", VStr "success"); ("last_success_at", VStr "2024-02-29T11:00:00Z")]);
  subscription_reconciled := fun _ => inl [("ok", VBool true); ("status", VStr "success")];
  mihomo_reconciled := fun _ => inl (Some [("ok", VBool true)]);
  nodes_promoted := fun _ => inl VNone;
  job_created := fun _ => Created [("job_id", VStr "j1")];
  job_started := fun _ => Some None;
  sql_now := fun _ => "2024-02-29 12:00:00";
  auto_applied := fun _ => Some [];
  expiry_logged := fun _ => Some tt;
  called := fun _ => Some VNone;
  json_sha256 := fun _ => "digest";
|}.

(** The servers s1 and s2, of which s1 was fixed until eleven. *)
Definition a_server (id : string) : server_row := ServerRow id id None (VDict []) "active".

Definition fixed_routing : routing_row :=
  RoutingRow "vpn" (Some "vpn") "vpn" "fixed" (Some "s1") (Some "s1") (Some "2024-02-29 11:00:00") (Some "s2") "clean" None None.

Definition plain_db (settings : gmap string cell) : fence_db :=
  FenceDb (PoolDb [a_server "s1"; a_server "s2"] [] [] [] [] [] [] [] settings) (Some fixed_routing) None [] [].

(** A row at revision 3, marked three minutes before noon. *)
Definition marked_row : dict :=
  [("revision", VInt 3); ("pending", VBool true); ("status", VStr "pending"); ("due_at", VStr "2024-02-29T12:00:00Z");
   ("trigger", VStr "manual_preferences"); ("updated_at", VStr "2024-02-29T11:57:00Z"); ("attempt_count", VInt 0);
   ("last_attempt_at", VNone); ("last_error_code", VNone); ("next_retry_at", VNone); ("applied_revision", VInt 2)].

Definition marked_db : fence_db := plain_db {[ XRAY_VPN_AUTO_PENDING_KEY := CJson (VDict marked_row) ]}.

Definition fixed_db : fence_db := plain_db {[ SELECTION_REVISION_KEY := CJson (VInt 4) ]}.

Lemma marked_shaped_row : shaped marked_row 3 true "pending" 2.
Proof. split; try done. intros _. unfold waiting_statuses. set_solver. Qed.

Lemma noon_utc : utc noon.
Proof. split; [done|by vm_compute]. Qed.

Lemma row_keeps_its_shape_witness : let s := Selector marked_db [quiet; Turn (saved marked_row) true] [] in
  shared s /\ pending_wf (x_db (fold_left (fun s o => (perform o s).2) [Reconcile "api" true None; ApplyNow "api"; Dispatch None] s)).
Proof.
  assert (Hw : row_wf marked_row) by (exists 3, true, "pending", 2; exact marked_shaped_row).
  assert (Hs : shared (Selector marked_db [quiet; Turn (saved marked_row) true] [])).
  { split; [exact Hw|]. intros t Ht db Hdb. cbn [x_turns] in Ht. rewrite !elem_of_cons, elem_of_nil in Ht. destruct Ht as [->|[->|[]]]; [exact Hdb|by apply wf_saved]. }
  split; [exact Hs|]. by apply row_keeps_its_shape.
Defined.

Lemma expiry_is_one_change_witness : exists s', _clear_expired_global_fixed_server_state fixed_routing (Selector fixed_db [] []) = (Some (inl true), s') /\
  expiry_change "2024-02-29 12:00:00" noon fixed_db (x_db s').
Proof.
  eexists. split; [vm_compute; reflexivity|].
  match goal with |- expiry_change _ _ _ (x_db ?s') =>
    assert (E : _clear_expired_global_fixed_server_state fixed_routing (Selector fixed_db [] []) = (Some (inl true), s')) by (vm_compute; reflexivity);
    destruct (proj2 (expiry_is_one_change fixed_routing (Selector fixed_db [] [])) eq_refl (inl true) s' E) as [[_ Hc]|[Hf _]]; [exact Hc|discriminate]
  end.
Defined.

Lemma interrupted_deferral_never_dispatched_witness : exists d v r s,
  deferred noon marked_row = Some d /\ begun noon d = Some v /\
  dispatch_due_xray_vpn_auto_reconcile None (Selector (saved v marked_db) [] []) = (Some r, s) /\
  x_db s = saved v marked_db /\ (dget "status" r = VStr "not_due" \/ dget "status" r = VStr "not_pending").
Proof.
  eexists _, _, _, _. split; [reflexivity|]. split; [reflexivity|]. split; [vm_compute; reflexivity|].
  eapply (interrupted_deferral_never_dispatched marked_row noon _ noon _ None marked_db []).
  - reflexivity.
  - reflexivity.
  - intros db l. by eexists.
  - vm_compute. reflexivity.
Defined.

Lemma calm_goes_well : goes_well noon.
Proof. split; intros l; try done; eexists; by split_and?. Qed.

Lemma due_revision_is_applied_witness : exists r s' row',
  run_xray_vpn_auto_reconcile "api" false (Some 3) (Selector marked_db [] []) = (Some r, s') /\
  dget "status" r = VStr "success" /\ dget "cleared" r = VBool true /\ dget "pending" r = VBool false /\
  dget "superseded" r = VBool false /\ _load_row (x_db s') = Some row' /\ shaped row' 3 false "applied" 3.
Proof.
  apply (due_revision_is_applied noon "api" false marked_db [] marked_row 3 "pending" 2 0).
  - exact calm_goes_well.
  - reflexivity.
  - exact marked_shaped_row.
  - lia.
  - reflexivity.
  - reflexivity.
  - vm_compute. reflexivity.
Defined.
