(* ===== verification/GlobalMode.v ===== *)
(** * The global routing mutations

    [services/apply_orchestrator_global_handlers.py] with the commits of
    [apply_orchestrator_commits.py], the results of
    [apply_orchestrator_results.py], [_persist_global_error], the drift of
    [apply_orchestrator_drift.py], and the settling of the Core module of
    [core_intent.py].  A handler checks, applies the dataplane, and then
    commits the routing row it applied, under the Core intent it began with.

    The apply pipeline, the VPN runtime and the readers of subjects, rules
    and live state are [Call]s.  A job is its id and who requested it, and
    [updated_at] is left out. *)
From stdpp Require Import base list strings gmap relations.
From Stdlib Require Import ZArith Lia Ascii.
From S2P Require Import Prelude PyStr PyVal PyState PyTime AutoPool SelectorCandidates SelectorRank SelectionFence SelectionFenceFacts FenceSession SelectorDeps PendingState PendingFacts PendingInvariant SubjectTaxonomy SubjectPolicy.

Open Scope string_scope.
Open Scope Z_scope.
Open Scope list_scope.

Definition INTENT_SET_GLOBAL_MODE : string := "set_global_mode".
Definition INTENT_SET_GLOBAL_SERVER_MODE : string := "set_global_server_mode".
Definition INTENT_SET_SELECTIVE_DEFAULT : string := "set_selective_default".
Definition INTENT_REPAIR_GLOBAL_DIRECT_RUNTIME : string := "repair_global_direct_runtime".
Definition GLOBAL_ROUTING_DRIFT_CODE : string := "ACTIVE_DATAPLANE_MODE_MISMATCH".
Definition GLOBAL_ARTIFACT_DRIFT_CODE : string := "APPLIED_MANIFEST_ROUTING_MISMATCH".
Definition LIVE_DATAPLANE_ARTIFACT_DRIFT_CODE : string := "LIVE_DATAPLANE_ARTIFACT_DRIFT".

(** ** Routing rows *)

Definition routing_dict (r : routing_row) : dict :=
  [("desired_mode", VStr (r_desired_mode r)); ("applied_mode", vopt (r_applied_mode r));
   ("selective_default", VStr (r_selective_default r)); ("server_mode", VStr (r_server_mode r));
   ("desired_fixed_server_id", vopt (r_desired_fixed r)); ("applied_fixed_server_id", vopt (r_applied_fixed r));
   ("fixed_server_until", vopt (r_fixed_until r)); ("active_auto_server_id", vopt (r_active r));
   ("apply_state", VStr (r_apply_state r)); ("error_code", vopt (r_error_code r)); ("error_message", vopt (r_error_message r))].

Definition set_outcome (apply_state : string) (code message : option string) (r : routing_row) : routing_row :=
  RoutingRow (r_desired_mode r) (r_applied_mode r) (r_selective_default r) (r_server_mode r) (r_desired_fixed r)
    (r_applied_fixed r) (r_fixed_until r) (r_active r) apply_state code message.

Definition set_mode (mode : string) (r : routing_row) : routing_row :=
  RoutingRow mode (Some mode) (r_selective_default r) (r_server_mode r) (r_desired_fixed r)
    (r_applied_fixed r) (r_fixed_until r) (r_active r) "clean" None None.

Definition set_server_mode (mode : string) (r : routing_row) : routing_row :=
  RoutingRow (r_desired_mode r) (r_applied_mode r) (r_selective_default r) mode (r_desired_fixed r)
    (r_applied_fixed r) (r_fixed_until r) (r_active r) "clean" None None.

Definition set_default (mode : string) (r : routing_row) : routing_row :=
  RoutingRow (r_desired_mode r) (r_applied_mode r) mode (r_server_mode r) (r_desired_fixed r)
    (r_applied_fixed r) (r_fixed_until r) (r_active r) "clean" None None.

(** ** The commits *)

(** [str(previous[column] or "") if previous else ""]. *)
Definition previous_text (f : routing_row -> string) (db : fence_db) : string :=
  match d_routing db with Some r => f r | None => "" end.

Definition _write_routing_audit (action event_code requested_by : string) (previous_value new_value : dict) : T unit :=
  if py_eq (VDict previous_value) (VDict new_value) then mret tt
  else write_audit_event (Audit requested_by "routing_admin_api" action event_code "routing" "global" previous_value new_value).

(** The latest of [apply_versions], and the one of an id. *)
Definition latest_apply (db : fence_db) : option apply_row := last (d_applies db).
Definition find_apply (apply_id : string) (db : fence_db) : option apply_row :=
  find (fun a => String.eqb (a_apply_id a) apply_id) (d_applies db).

(** The apply is the latest one, was applied, and belongs to the revision. *)
Definition owns_apply (apply_id : string) (revision : Z) (db : fence_db) : bool :=
  match find_apply apply_id db, latest_apply db with
  | Some owned, Some latest =>
      String.eqb (a_status owned) "applied" && bool_decide (a_core_revision owned = Some revision)
      && String.eqb (a_apply_id latest) apply_id
  | _, _ => false
  end.

(** What a commit is bound to when there is a Core module. *)
Record binding := Binding {
  bd_revision : Z;
  bd_apply_id : string;
  bd_snapshot : option (string * string * string);
}.

Definition write_mode (mode requested_by previous : string) : T unit :=
  _ ← update_routing (set_mode mode);
  _write_routing_audit "global_mode_changed" "routing.global_mode_changed" requested_by
    [("mode", VStr previous)] [("mode", VStr mode)].

(** [false] is RuntimeError, before anything was written. *)
Definition commit_bound_mode (mode requested_by : string) (b : binding) : T bool :=
  current ← assert_core_intent_snapshot_current (bd_revision b) (bd_snapshot b);
  if negb current then mret false
  else
    db ← st_get;
    if negb (owns_apply (bd_apply_id b) (bd_revision b) db) then mret false
    else
      _ ← write_mode mode requested_by (previous_text r_desired_mode db);
      mret true.

Section Orchestrator.
Context `{ReprContainer} `{PendingOutside} (recursion_limit : nat).

(** [get_routing_global_state() or ensure_routing_global_state()]. *)
Definition routing_or_ensured : P (dict + unit) :=
  state ← get_routing_global_state recursion_limit true;
  match state with
  | inr e => mret (inr e)
  | inl (Some r) => mret (inl (routing_dict r))
  | inl None =>
      r ← ensure_routing_global_state recursion_limit;
      mret (match r with inl r => inl (routing_dict r) | inr e => inr e end)
  end.

(** [inr] is RuntimeError. *)
Definition _commit_global_mode (mode requested_by : string) (b : option binding) : P (dict + unit) :=
  ensured ← ensure_routing_global_state recursion_limit;
  match ensured with
  | inr e => mret (inr e)
  | inl _ =>
      committed ← match b with
                  | Some b => transaction (commit_bound_mode mode requested_by b)
                  | None =>
                      previous ← read_db (previous_text r_desired_mode);
                      _ ← transaction (write_mode mode requested_by previous);
                      mret true
                  end;
      if (committed : bool) then routing_or_ensured else mret (inr tt)
  end.

(** From the UPDATE on. *)
Definition write_server_mode (server_mode requested_by : string) (previous : option string) : T unit :=
  _ ← update_routing (set_server_mode server_mode);
  _ ← (if String.eqb (server_mode_text previous) server_mode then mret tt
       else
         revision ← read_selection_revision;
         advanced ← advance_selection_revision (Some revision);
         match advanced with None => st_raise | Some _ => mret tt end);
  _write_routing_audit "global_server_mode_changed" "routing.server_mode_changed" requested_by
    [("server_mode", VStr (default "" previous))] [("server_mode", VStr server_mode)].

Definition _commit_global_server_mode (server_mode requested_by : string) : P dict :=
  with_writer None
    (_ ← or_raise (ensure_routing_global_state recursion_limit);
     previous ← read_db (fun db => option_map r_server_mode (d_routing db));
     _ ← transaction (write_server_mode server_mode requested_by previous);
     or_raise routing_or_ensured).

Definition write_selective_default (selective_default requested_by previous : string) : T unit :=
  _ ← update_routing (set_default selective_default);
  _write_routing_audit "selective_default_changed" "routing.selective_default_changed" requested_by
    [("selective_default", VStr previous)] [("selective_default", VStr selective_default)].

Definition _commit_selective_default (selective_default requested_by : string) : P dict :=
  _ ← or_raise (ensure_routing_global_state recursion_limit);
  previous ← read_db (previous_text r_selective_default);
  _ ← transaction (write_selective_default selective_default requested_by previous);
  or_raise routing_or_ensured.

Definition _commit_repaired_global_runtime : P dict :=
  _ ← or_raise (ensure_routing_global_state recursion_limit);
  _ ← transaction (update_routing (set_outcome "clean" None None));
  or_raise routing_or_ensured.

Definition _persist_global_error (code message : pyval) : P unit :=
  _ ← or_raise (ensure_routing_global_state recursion_limit);
  code ← st_py (bind_text code);
  message ← st_py (bind_text message);
  _ ← transaction (update_routing (set_outcome "failed" code message));
  mret tt.

(** ** Calls *)

Definition call (name : string) (arguments : dict) : P pyval := answer_py (Call name arguments) called.

Definition call_dict (name : string) (arguments : dict) : P dict := v ← call name arguments; st_py (as_dict v).

(** [d[k]]. *)
Definition item (k : string) (d : dict) : P pyval := st_py (dict_lookup k d).

Definition dict_item (k : string) (d : dict) : P dict := v ← item k d; st_py (as_dict v).

(** [get_routing_snapshot()]. *)
Definition get_routing_snapshot : P dict :=
  state ← or_raise (get_routing_global_state recursion_limit true);
  mret (match state with Some r => routing_dict r | None => DEFAULT_ROUTING end).

(** ** Results *)

Definition unprobed_enforcement : dict :=
  [("dataplane_capability", VStr "unknown"); ("capability", VStr "unknown"); ("enforcement_level", VStr "runtime_probe_failed");
   ("traffic_enforcement_guaranteed", VBool false)].

(** Who asked for what. *)
Record mutation := Mutation { mu_intent : string; mu_job_id : string; mu_requested_by : string }.

Definition _base_result (m : mutation) (stage : string) (ok : bool) (apply_id code message : pyval) (unchanged : bool) : P dict :=
  '(runtime, capability) ← st_try
    (runtime ← call_dict "build_runtime_enforcement_state" [];
     capability ← call "get_dataplane_capability" [];
     mret (runtime, capability))
    (_ ← call "write_technical_log" [("event_type", VStr "runtime_enforcement_probe_failed"); ("intent", VStr (mu_intent m));
                                     ("job_id", VStr (mu_job_id m)); ("stage", VStr stage)];
     mret (unprobed_enforcement, VStr "unknown"));
  level ← item "enforcement_level" runtime;
  guaranteed ← item "traffic_enforcement_guaranteed" runtime;
  mret [("ok", VBool ok); ("intent", VStr (mu_intent m)); ("job_id", VStr (mu_job_id m)); ("apply_id", apply_id);
        ("requested_by", VStr (mu_requested_by m)); ("stage", VStr stage); ("code", code); ("message", message);
        ("runtime_state_unchanged", VBool unchanged); ("enforcement_level", level); ("dataplane_capability", capability);
        ("traffic_enforcement_guaranteed", guaranteed)].

Definition _build_failure_result (m : mutation) (stage : string) (code message apply_id : pyval) : P dict :=
  _base_result m stage false apply_id code message true.

Definition refuse (m : mutation) (stage code message : string) : P dict :=
  _build_failure_result m stage (VStr code) (VStr message) VNone.

Definition _build_success_result (m : mutation) (stage : string) (apply_id : pyval) (details : dict) (unchanged : bool) : P dict :=
  result ← _base_result m stage true apply_id VNone VNone unchanged;
  mret (dmerge result details).

(** A failure that is also written to the routing row. *)
Definition fail_persisted (m : mutation) (stage : string) (code message apply_id : pyval) : P dict :=
  result ← _build_failure_result m stage code message apply_id;
  _ ← _persist_global_error (dget "code" result) (dget "message" result);
  mret result.

(** [str(v or fallback)]. *)
Definition str_or (fallback : string) (v : pyval) : string := py_str (por v (VStr fallback)).

(** The code, the message and the stage of a pipeline that failed. *)
Definition pipeline_failure (fallback : string) (apply_result : dict) : P (string * pyval * pyval * pyval) :=
  dataplane ← dict_item "dataplane" apply_result;
  code ← item "error_code" dataplane;
  error_message ← item "error_message" dataplane;
  message ← (if truthy error_message then mret error_message else item "message" dataplane);
  apply_id ← item "apply_id" apply_result;
  mret (str_or "apply" (dget "stage" apply_result), por code (VStr fallback), message, apply_id).

Definition fail_apply (m : mutation) (fallback : string) (apply_result : dict) : P dict :=
  '(stage, code, message, apply_id) ← pipeline_failure fallback apply_result;
  fail_persisted m stage code message apply_id.

(** ** Drift *)

Definition mode_text (v : pyval) : string := py_lower (py_strip (py_str v)).

Definition _current_routing_drift (routing : dict) : P dict :=
  routing ← (if truthy (VDict routing) then mret routing else get_routing_snapshot);
  live ← call_dict "probe_live_global_mode" [];
  artifact ← call_dict "_probe_live_artifact_consistency" [];
  emergency ← call "emergency_override" [];
  let expected := mode_text (por (por (dget "applied_mode" routing) (dget "desired_mode" routing)) (VStr "direct")) in
  let expected := if truthy emergency then "direct" else expected in
  let expected_default := mode_text (por (dget "selective_default" routing) (VStr "direct")) in
  let live_mode := mode_text (por (dget "mode" live) (VStr "unknown")) in
  let live_default := mode_text (por (dget "selective_default" live) (VStr "direct")) in
  let matches := truthy (dget "ok" live) && String.eqb live_mode expected
                 && (negb (String.eqb expected "selective") || String.eqb live_default expected_default) in
  let artifact_matches := negb (truthy (dget "detected" artifact)) in
  mret [("detected", VBool (negb matches || negb artifact_matches));
        ("code", if negb matches then VStr GLOBAL_ROUTING_DRIFT_CODE
                 else if negb artifact_matches then VStr LIVE_DATAPLANE_ARTIFACT_DRIFT_CODE else VNone);
        ("routing", VDict routing); ("expected_mode", VStr expected); ("expected_selective_default", VStr expected_default);
        ("live_probe", VDict live); ("live_mode", VStr live_mode); ("live_selective_default", VStr live_default);
        ("live_artifact_consistency", VDict artifact)].

Definition drift_keys : list string :=
  ["desired_mode"; "applied_mode"; "selective_default"; "server_mode"; "desired_fixed_server_id"; "applied_fixed_server_id"].

Definition mismatches_of (routing manifest : dict) : dict :=
  map (fun k => (k, VDict [("routing", dget k routing); ("applied_manifest", dget k manifest)]))
    (List.filter (fun k => negb (py_eq (dget k routing) (dget k manifest))) drift_keys).

Definition _applied_manifest_routing_drift (routing : dict) : P dict :=
  routing ← (if truthy (VDict routing) then mret routing else get_routing_snapshot);
  manifest ← call "read_applied_manifest" [];
  match as_dict manifest ≫= fun d => as_dict (dget "routing_global_state" d) with
  | None =>
      mret [("detected", VBool false); ("code", VNone); ("routing", VDict routing); ("applied_manifest_routing", VNone);
            ("mismatches", VDict [])]
  | Some manifest_routing =>
      routing ← call_dict "override_manifest_state" routing;
      let mismatches := mismatches_of routing manifest_routing in
      let drifted := truthy (VDict mismatches) in
      mret [("detected", VBool drifted); ("code", if drifted then VStr GLOBAL_ARTIFACT_DRIFT_CODE else VNone);
            ("routing", VDict routing); ("applied_manifest_routing", VDict manifest_routing); ("mismatches", VDict mismatches)]
  end.

(** Both logs of a drift that was detected. *)
Definition log_drift (m : mutation) (event_type fallback : string) (keys : list string) (drift : dict) : P unit :=
  if negb (truthy (dget "detected" drift)) then mret tt
  else
    let details := [("intent", VStr (mu_intent m)); ("requested_by", VStr (mu_requested_by m));
                    ("code", por (dget "code" drift) (VStr fallback))] ++ map (fun k => (k, dget k drift)) keys in
    let arguments := [("event_type", VStr event_type); ("details", VDict details)] in
    _ ← call "write_operational_log" arguments;
    _ ← call "write_technical_log" arguments;
    mret tt.

Definition _log_routing_drift (m : mutation) (drift : dict) : P unit :=
  log_drift m "routing_live_drift_detected" GLOBAL_ROUTING_DRIFT_CODE
    ["routing"; "expected_mode"; "expected_selective_default"; "live_mode"; "live_selective_default"; "live_probe";
     "live_artifact_consistency"] drift.

Definition _log_artifact_drift (m : mutation) (drift : dict) : P unit :=
  log_drift m "routing_artifact_drift_detected" GLOBAL_ARTIFACT_DRIFT_CODE ["routing"; "applied_manifest_routing"; "mismatches"] drift.

(** Both drifts, logged. *)
Definition detected (drift : dict) : bool := truthy (dget "detected" drift).

Definition _selective_default_artifact_drift_is_ignorable_for_global_direct (routing artifact_drift : dict) : bool :=
  if negb (detected artifact_drift) then true
  else if negb (String.eqb (mode_text (por (por (dget "applied_mode" routing) (dget "desired_mode" routing)) (VStr ""))) "direct") then false
  else match dget "mismatches" artifact_drift with
       | VDict d => bool_decide (map fst d = ["selective_default"])
       | _ => false
       end.

(** ** The Core module *)

Definition with_core (core : option (string * string * string)) (db : fence_db) : fence_db :=
  FenceDb (d_pool db) (d_routing db) core (d_applies db) (d_audits db).

Definition enforcement_of (mode : string) : pyval :=
  if String.eqb mode "direct" then VStr "global_direct_enforced"
  else if String.eqb mode "selective" then VStr "global_selective_enforced"
  else if String.eqb mode "vpn" then VStr "global_vpn_enforced" else VNone.

Definition proof_is_complete (apply_id : string) (context proof : dict) : bool :=
  is_true (dget "ok" proof) && eq_str (dget "apply_id" proof) apply_id
  && is_true (dget "traffic_enforcement_guaranteed" proof) && is_true (dget "active_mode_matches_intent" proof)
  && match dget "manifest_hash" proof with VStr _ => true | _ => false end
  && py_eq (dget "runtime_context" proof) (VDict context).

Definition settled_keys : list string :=
  ["desired_mode"; "applied_mode"; "selective_default"; "server_mode"; "desired_fixed_server_id"; "applied_fixed_server_id";
   "fixed_server_until"; "active_auto_server_id"].

(** The proof, the row and the manifest are about the apply. *)
Definition proof_matches (apply_id : string) (revision : Z) (proof : dict) (manifest : pyval) (db : fence_db) : bool :=
  match latest_apply db, d_routing db with
  | Some latest, Some r =>
      String.eqb (a_apply_id latest) apply_id && String.eqb (a_status latest) "applied"
      && bool_decide (a_core_revision latest = Some revision) && String.eqb (r_apply_state r) "clean"
      && bool_decide (Some (r_desired_mode r) = r_applied_mode r)
      && py_eq (dget "live_global_mode" proof) (vopt (r_applied_mode r))
      && py_eq (dget "enforcement_level" proof) (enforcement_of (default "" (r_applied_mode r)))
      && match manifest with
         | VDict d =>
             eq_str (dget "plan_id" d) apply_id && eq_str (dget "manifest_hash" proof) (json_sha256 (sort_keys manifest))
             && match dget "routing_global_state" d with
                | VDict mr => forallb (fun k => String.eqb (str_or "" (dget k mr)) (str_or "" (dget k (routing_dict r)))) settled_keys
                | _ => false
                end
         | _ => false
         end
  | _, _ => false
  end.

Definition settle_tx (apply_id : string) (revision : Z) (context proof : dict) (live : pyval) (manifest : pyval) : T bool :=
  if negb (py_eq live (VDict context)) then mret false
  else
    current ← assert_core_intent_current revision true;
    db ← st_get;
    if negb current || negb (proof_matches apply_id revision proof manifest db) then mret false
    else
      match d_core db with
      | Some ("enabled", "managed", "pending") => _ ← st_modify (with_core (Some ("enabled", "managed", "clean"))); mret true
      | _ => mret false
      end.

(** The context and the manifest are read while the transaction is open. *)
Definition settle_core_enable_after_proof (revision : Z) (apply_id : string) (proof context : dict) : P bool :=
  if negb (proof_is_complete apply_id context proof) then mret false
  else
    live ← call "read_core_runtime_context" [];
    manifest ← call "_read_applied_manifest_uncached" [];
    transaction (settle_tx apply_id revision context proof live manifest).

(** ** Setting the global mode: the fences *)

(** A refusal, or what goes on. *)
Definition unless_refused {A} (x : P (dict + A)) (k : A -> P dict) : P dict :=
  r ← x; match r with inl refusal => mret refusal | inr a => k a end.

Definition is_int (v : pyval) : bool := match v with VInt _ => true | _ => false end.

(** The workflow's own Core stage, for exactly its mode and its fences. *)
Definition owns_fixed_core_stage (mode : string) (payload workflow : dict) (desired : option string) : bool :=
  match desired with
  | None => false
  | Some desired =>
      eq_str (dget "phase" workflow) "mihomo_verified" && String.eqb mode desired
      && is_int (dget "expected_selection_revision" payload)
      && py_eq (dget "expected_selection_revision" payload) (dget "selection_revision" workflow)
      && is_int (dget "expected_core_revision" payload)
      && py_eq (dget "expected_core_revision" payload) (dget "core_revision" workflow)
      && match dget "expected_core_snapshot" payload with VList l => py_eq (VList l) (dget "core_snapshot" workflow) | _ => false end
  end.

Definition refusal {A} (m : mutation) (stage code message : string) : P (dict + A) := r ← refuse m stage code message; mret (inl r).

Definition workflow_fence (m : mutation) (mode : string) (payload : dict) : P (dict + unit) :=
  row ← read_db _load_row;
  let pending := default [] row in
  if owned_by_fixed_workflow pending then
    desired ← read_db (fun db => option_map r_desired_mode (d_routing db));
    if owns_fixed_core_stage mode payload (default [] (as_dict (dget "workflow" pending))) desired then mret (inr tt)
    else refusal m "fixed_workflow_fence" "FIXED_WORKFLOW_PENDING"
           "The fixed-server workflow owns routing until its verified completion."
  else mret (inr tt).

(** [type(x) is int or x is None], and the same of a snapshot. *)
Definition optional_int (v : pyval) : bool := match v with VNone | VInt _ => true | _ => false end.

Definition optional_snapshot (v : pyval) : bool :=
  match v with VNone | VList [VStr _; VStr _; VStr _] => true | _ => false end.

(** What the handler knows of the Core module. *)
Record core := Core {
  co_revision : option Z;
  co_enable_pending : bool;
  co_snapshot : option (string * string * string);
}.

Definition snapshot_list (s : string * string * string) : pyval := VList [VStr s.1.1; VStr s.1.2; VStr s.2].

(** [None] is a state that cannot be read. *)
Definition bypass_enabled (c : option cell) : option bool :=
  match c with
  | None => Some false
  | Some (CJson (VDict d)) => match dict_lookup "enabled" d with None => Some false | Some (VBool b) => Some b | Some _ => None end
  | Some _ => None
  end.

Definition core_enable_pending (s : string * string * string) : bool :=
  String.eqb s.1.1 "enabled" && String.eqb s.1.2 "managed" && negb (String.eqb s.2 "clean").

(** With a Core module. *)
Definition core_stage (m : mutation) (payload : dict) (snapshot : string * string * string) : P (dict + core) :=
  revision ← read_db core_intent_revision;
  match revision with
  | None => refusal m "fence" "CORE_INTENT_REVISION_INVALID" "Core intent revision is unavailable; apply was not started."
  | Some revision =>
      let expected := dget "expected_core_revision" payload in
      let expected_snapshot := dget "expected_core_snapshot" payload in
      if match expected with VNone => false | VInt n => negb (revision =? n) | _ => true end
      then refusal m "fence" "CORE_INTENT_STALE" "Core intent changed before the fixed workflow apply began."
      else if match expected_snapshot with VNone => false | v => negb (py_eq (snapshot_list snapshot) v) end
      then refusal m "fence" "CORE_INTENT_STALE" "Core state changed before the fixed workflow apply began."
      else
        bypass ← read_db (setting "core.bypass");
        match bypass_enabled bypass with
        | None => refusal m "fence" "CORE_BYPASS_STATE_INVALID" "Core bypass state is unavailable; apply was not started."
        | Some enabled =>
            if enabled && core_enable_pending snapshot
            then refusal m "fence" "CORE_BYPASS_ACTIVE" "Core bypass is active; Core enable apply was not started."
            else mret (inr (Core (Some revision) (core_enable_pending snapshot) (Some snapshot)))
        end
  end.

(** The selection the payload is fenced to. *)
Definition selection_moved (payload : dict) : P bool :=
  match dget "expected_selection_revision" payload with
  | VInt n => revision ← read_db selection_revision; revision ← st_py revision; mret (negb (revision =? n))
  | _ => mret false
  end.

Definition core_fence (m : mutation) (payload : dict) : P (dict + core) :=
  if negb (optional_int (dget "expected_selection_revision" payload))
  then refusal m "fence" "SELECTION_REVISION_INVALID" "Expected selection revision is invalid; Core apply was not started."
  else if negb (optional_snapshot (dget "expected_core_snapshot" payload))
  then refusal m "fence" "CORE_SNAPSHOT_INVALID" "Expected Core snapshot is invalid; Core apply was not started."
  else
    module ← read_db d_core;
    staged ← match module with
             | None => mret (inr (Core None false None))
             | Some snapshot => core_stage m payload snapshot
             end;
    match staged with
    | inl refused => mret (inl refused)
    | inr c =>
        moved ← selection_moved payload;
        if (moved : bool)
        then refusal m "fence" "SELECTION_INTENT_STALE" "Selection intent changed before the fixed workflow Core apply began."
        else mret (inr c)
    end.

(** Enabling Core is fenced to the boot and the network namespace too. *)
Definition context_fence (m : mutation) (c : core) : P (dict + option dict) :=
  if negb (co_enable_pending c) then mret (inr None)
  else
    context ← call "read_core_runtime_context" [];
    match context with
    | VNone => refusal m "fence" "CORE_RUNTIME_CONTEXT_UNAVAILABLE" "Core runtime context cannot be fenced; Core remains pending."
    | v => d ← st_py (as_dict v); mret (inr (Some d))
    end.

(** ** Setting the global mode: the apply *)

Definition touch_job_running (m : mutation) : P pyval := call "touch_job_running" [("job_id", VStr (mu_job_id m))].

(** [future_routing]: a planning projection. *)
Definition planned (changes : dict) (routing : dict) : dict := dmerge routing (changes ++ [("apply_state", VStr "applying")]).

Definition cleared_errors : dict := [("error_code", VNone); ("error_message", VNone)].

Definition _reconcile_vpn_runtime_for_apply (m : mutation) (routing : dict) : P dict :=
  skip ← call "external_vpn_mihomo_reconcile_skip" [];
  match skip with
  | VNone => call_dict "reconcile_mihomo_runtime" [("routing", VDict routing); ("job_id", VStr (mu_job_id m))]
  | v => st_py (as_dict v)
  end.

Definition already_matches : dict :=
  [("skipped", VBool true); ("reconcile_action", VStr "none"); ("reconcile_reason", VStr "active_runtime_already_matches_routing")].

(** A same-mode enable proves the settled selection, not the plan. *)
Definition readiness_routing (mode : string) (routing future : dict) : dict :=
  if String.eqb (str_or "auto" (dget "server_mode" routing)) "fixed"
     && py_eq (dget "desired_mode" routing) (dget "applied_mode" routing) && eq_str (dget "applied_mode" routing) mode
     && eq_str (dget "apply_state" routing) "clean"
  then routing else future.

Definition prepare_vpn_runtime (m : mutation) (ready future : dict) : P dict :=
  satisfied ← call_dict "mihomo_runtime_satisfies_routing" ready;
  if truthy (dget "ok" satisfied) then mret (dmerge satisfied already_matches) else _reconcile_vpn_runtime_for_apply m future.

(** The runtime refused: the failure is persisted. *)
Definition unless_unready (m : mutation) (message : string) (reconciled : dict) (k : P dict) : P dict :=
  ok ← item "ok" reconciled;
  if truthy ok then k
  else fail_persisted m (str_or "mihomo_reconcile" (dget "stage" reconciled)) (VStr "MIHOMO_RECONCILE_FAILED") (VStr message) VNone.

(** The ids of the subjects the global mode moves. *)
Definition affected_subject (subject : pyval) : py (list pyval) :=
  s ← as_dict subject;
  id ← dict_lookup "subject_id" s;
  type_ ← dict_lookup "subject_type" s;
  if negb (subject_follows_global_mode (Some (py_str type_))) then Some []
  else
    desired ← dict_lookup "desired_mode" s;
    if negb (String.eqb (py_str desired) "global") then Some []
    else
      effective ← dict_lookup "effective_state" s;
      effective ← as_dict effective;
      source ← dict_lookup "mode_source" effective;
      Some (if eq_str source "global" then [VStr (py_str id)] else []).

Definition affected_of (subjects : list pyval) : py (list pyval) := l ← py_map affected_subject subjects; Some (concat l).

Definition load_subjects (routing : dict) : P (list pyval) :=
  user ← call_dict "_load_user_override_map" [];
  server ← call_dict "_load_server_override_map" [];
  subjects ← call "_load_subjects_with_overrides" [("routing", VDict routing); ("user_overrides", VDict user); ("server_overrides", VDict server)];
  st_py (as_list subjects).

(** [_run_pipeline_for_state]. *)
Definition _run_pipeline_for_state (m : mutation) (input routing : dict) (subjects : list pyval) (extra : dict) (revision : option Z) : P dict :=
  bypass ← call "get_core_bypass_state" [];
  call_dict "run_apply_pipeline"
    [("job_id", VStr (mu_job_id m)); ("reason", VStr (mu_intent m)); ("input_data", VDict input);
     ("manifest_state", VDict [("routing_global_state", VDict routing); ("subjects", VList subjects);
                               ("extra", VDict (dset "core_bypass" bypass extra))]);
     ("core_intent_revision", vint revision)].

Definition _run_pipeline_for_manifest (m : mutation) (input : dict) (manifest : pyval) (revision : option Z) : P dict :=
  call_dict "run_apply_pipeline"
    [("job_id", VStr (mu_job_id m)); ("reason", VStr (mu_intent m)); ("input_data", VDict input); ("prebuilt_manifest", manifest);
     ("core_intent_revision", vint revision)].

Definition mode_input (mode : string) (drift : dict) : dict :=
  let live := default [] (as_dict (dget "live_artifact_consistency" drift)) in
  [("intent", VStr INTENT_SET_GLOBAL_MODE); ("mode", VStr mode); ("repair_owned_table", VBool (truthy (dget "detected" live)))].

(** The affected ids, the subjects and the pipeline's result. *)
Definition apply_mode (m : mutation) (mode : string) (routing future drift : dict) (revision : option Z)
    : P (list pyval * list pyval * dict) :=
  let input := mode_input mode drift in
  profile ← call "load_precompiled_global_mode_profile" [("mode", VStr mode); ("routing", VDict routing)];
  match profile with
  | VNone =>
      subjects ← load_subjects future;
      affected ← st_py (affected_of subjects);
      result ← _run_pipeline_for_state m input future subjects [("affected_subject_ids", VList affected)] revision;
      mret (affected, subjects, result)
  | v =>
      profile ← st_py (as_dict v);
      ids ← st_py (py_iter (por (dget "affected_subject_ids" profile) (VList [])));
      let affected := map (fun v => VStr (py_str v)) (List.filter (fun v => negb (String.eqb (py_strip (py_str v)) "")) ids) in
      subjects ← st_py (py_iter (por (dget "subject_runtime_statuses" profile) (VList [])));
      manifest ← call "materialize_precompiled_manifest" [("profile", VDict profile); ("input_data", VDict input)];
      result ← _run_pipeline_for_manifest m input manifest revision;
      mret (affected, subjects, result)
  end.

(** ** Setting the global mode: the commit *)

(** What [_sync_subject_server_override_statuses] writes of a subject. *)
Definition scoped_status (subject : dict) : string :=
  match dget "effective_state" subject with
  | VDict e => match dget "scoped_runtime" e with
               | VDict r => str_or "unknown" (dget "status" r)
               | _ => match dget "scoped_runtime" subject with
                      | VDict r => str_or "unknown" (dget "status" r)
                      | _ => str_or "unknown" (dget "scoped_runtime_status" subject)
                      end
               end
  | _ => match dget "scoped_runtime" subject with
         | VDict r => str_or "unknown" (dget "status" r)
         | _ => str_or "unknown" (dget "scoped_runtime_status" subject)
         end
  end.

Definition _scoped_runtime_message (status : string) : string :=
  if String.eqb status "applied" then "Applied"
  else if String.eqb status "pending_inactive_subject" then "Pending (subject inactive)"
  else if String.eqb status "pending_not_vpn_path" then "Pending (not in VPN path)"
  else if String.eqb status "pending_unresolved_server" then "Pending (server unresolved)"
  else "Pending (" +:+ status +:+ ")".

Definition _scoped_runtime_error_code (status : string) : option string :=
  if String.eqb status "applied" then None else Some ("SCOPED_RUNTIME_" +:+ py_upper status).

Fixpoint _sync_subject_server_override_statuses (subjects : list pyval) : P unit :=
  match subjects with
  | [] => mret tt
  | v :: rest =>
      subject ← st_py (as_dict v);
      id ← item "subject_id" subject;
      let status := scoped_status subject in
      let clean := String.eqb status "applied" in
      _ ← call "update_subject_server_override_apply_status"
        ([("subject_id", VStr (py_str id)); ("apply_state", VStr (if clean then "clean" else "pending"))] ++
         (if clean then [] else [("error_code", vopt (_scoped_runtime_error_code status));
                                 ("error_message", VStr (_scoped_runtime_message status))]));
      _sync_subject_server_override_statuses rest
  end.

(** The Core intent or the selection moved during the apply. *)
Definition intent_moved (c : core) (payload : dict) : P bool :=
  match co_revision c with
  | None => mret false
  | Some revision =>
      current ← read_db core_intent_revision;
      current ← st_py current;
      if negb (current =? revision) then mret true
      else
        module ← read_db d_core;
        if negb (is_set module && is_set (co_snapshot c) && bool_decide (module = co_snapshot c)) then mret true
        else selection_moved payload
  end.

Definition binding_of (c : core) (apply_result : dict) : option binding :=
  option_map (fun n => Binding n (str_or "" (dget "apply_id" apply_result)) (co_snapshot c)) (co_revision c).

Definition finish_mode (m : mutation) (c : core) (context : option dict) (apply_result : dict) (affected subjects : list pyval)
    (committed : dict) : P dict :=
  let done_ :=
    _ ← _sync_subject_server_override_statuses subjects;
    _build_success_result m "commit" (dget "apply_id" apply_result)
      [("routing", VDict committed); ("affected_subject_ids", VList affected)] false in
  match co_revision c with
  | Some revision =>
      if co_enable_pending c then
        proof ← call_dict "_collect_legacy_admission_core_native_proof" [];
        settled ← settle_core_enable_after_proof revision (str_or "" (dget "apply_id" apply_result)) proof (default [] context);
        if (settled : bool) then done_
        else _build_failure_result m "native_proof" (VStr "CORE_NATIVE_PROOF_UNVERIFIED")
               (VStr "Fresh Core native proof did not match the current owned apply; Core remains pending.") (dget "apply_id" apply_result)
      else done_
  | None => done_
  end.

Definition commit_mode (m : mutation) (mode : string) (payload : dict) (c : core) (context : option dict) (apply_result : dict)
    (affected subjects : list pyval) : P dict :=
  _ ← touch_job_running m;
  moved ← intent_moved c payload;
  if (moved : bool)
  then _build_failure_result m "fence" (VStr "CORE_INTENT_STALE")
         (VStr "Core intent changed during apply; routing was not committed.") (dget "apply_id" apply_result)
  else
    committed ← _commit_global_mode mode (mu_requested_by m) (binding_of c apply_result);
    match committed with
    | inr _ => _build_failure_result m "fence" (VStr "CORE_INTENT_STALE") (VStr "Core intent changed before routing commit.")
                 (dget "apply_id" apply_result)
    | inl committed => finish_mode m c context apply_result affected subjects committed
    end.

Definition mode_is_correct (mode : string) (c : core) (routing drift artifact_drift : dict) : bool :=
  String.eqb (py_str (dget "applied_mode" routing)) mode && String.eqb (py_str (dget "apply_state" routing)) "clean"
  && negb (detected drift) && negb (detected artifact_drift) && negb (co_enable_pending c).

Definition unchanged_result (m : mutation) (routing : dict) : P dict :=
  _build_success_result m "validate" VNone [("routing", VDict routing); ("runtime_state_unchanged", VBool true)] true.

Definition log_drifts (m : mutation) (drift artifact_drift : dict) : P unit :=
  _ ← _log_routing_drift m drift;
  _log_artifact_drift m artifact_drift.

Definition validate_then (m : mutation) (mode : string) (future : dict) (k : P dict) : P dict :=
  validation ← call_dict "validate_global_mode_request" [("mode", VStr mode); ("routing", VDict future)];
  ok ← item "ok" validation;
  if truthy ok then k
  else
    stage ← item "stage" validation; code ← item "code" validation; message ← item "message" validation;
    fail_persisted m (py_str stage) (VStr (py_str code)) (VStr (py_str message)) VNone.

Definition drive_mode (m : mutation) (mode : string) (payload : dict) (c : core) (context : option dict) : P dict :=
  routing ← get_routing_snapshot;
  drift ← _current_routing_drift routing;
  artifact_drift ← _applied_manifest_routing_drift routing;
  if mode_is_correct mode c routing drift artifact_drift then unchanged_result m routing
  else
    _ ← log_drifts m drift artifact_drift;
    let future := planned ([("desired_mode", VStr mode)] ++ cleared_errors) routing in
    validate_then m mode future
      (_ ← touch_job_running m;
       reconciled ← (if String.eqb mode "direct"
                     then mret [("ok", VBool true); ("skipped", VBool true);
                                ("reason", VStr "global_direct_does_not_change_mihomo_config")]
                     else prepare_vpn_runtime m (readiness_routing mode routing future) future);
       unless_unready m "Failed to reconcile Mihomo runtime before global mode apply." reconciled
         ('(affected, subjects, apply_result) ← apply_mode m mode routing future drift (co_revision c);
          ok ← item "ok" apply_result;
          if truthy ok then commit_mode m mode payload c context apply_result affected subjects
          else fail_apply m "GLOBAL_MODE_APPLY_FAILED" apply_result)).

(** [m] carries INTENT_SET_GLOBAL_MODE. *)
Definition _execute_set_global_mode (m : mutation) (payload : dict) : P dict :=
  with_writer None
    (let mode := py_lower (py_strip (str_or "" (dget "mode" payload))) in
     if negb (bool_decide (mode ∈ ["direct"; "selective"; "vpn"]))
     then refuse m "validate" "GLOBAL_MODE_INVALID" "Global mode must be one of: direct, selective, vpn."
     else
       unless_refused (workflow_fence m mode payload) (fun _ =>
       unless_refused (core_fence m payload) (fun c =>
       unless_refused (context_fence m c) (fun context =>
       drive_mode m mode payload c context)))).

(** ** The other global mutations *)

(** The pipeline of a planned routing, up to its success. *)
Definition apply_plan (m : mutation) (input future : dict) (fallback : string) (extra : list pyval -> list pyval -> dict)
    (k : list pyval -> list pyval -> dict -> P dict) : P dict :=
  subjects ← load_subjects future;
  affected ← st_py (affected_of subjects);
  apply_result ← _run_pipeline_for_state m input future subjects (extra affected subjects) None;
  ok ← item "ok" apply_result;
  if truthy ok then k affected subjects apply_result else fail_apply m fallback apply_result.

Definition commit_server_mode (m : mutation) (server_mode : string) (affected subjects : list pyval) (apply_result : dict) : P dict :=
  _ ← touch_job_running m;
  committed ← _commit_global_server_mode server_mode (mu_requested_by m);
  _ ← _sync_subject_server_override_statuses subjects;
  _build_success_result m "commit" (dget "apply_id" apply_result)
    [("routing", VDict committed); ("affected_subject_ids", VList affected)] false.

(** [get_routing_snapshot().get("applied_mode") or get_routing_snapshot().get("desired_mode") or "direct"]. *)
Definition current_mode : P pyval :=
  first ← get_routing_snapshot;
  if truthy (dget "applied_mode" first) then mret (dget "applied_mode" first)
  else second ← get_routing_snapshot; mret (por (dget "desired_mode" second) (VStr "direct")).

Definition _execute_set_global_server_mode (m : mutation) (payload : dict) : P dict :=
  with_writer None
    (let server_mode := py_lower (py_strip (str_or "" (dget "server_mode" payload))) in
     if negb (bool_decide (server_mode ∈ ["auto"; "fixed"]))
     then refuse m "validate" "SERVER_MODE_INVALID" "Server mode must be one of: auto, fixed."
     else
       routing ← get_routing_snapshot;
       drift ← _current_routing_drift routing;
       artifact_drift ← _applied_manifest_routing_drift routing;
       if String.eqb (py_str (dget "server_mode" routing)) server_mode && negb (detected drift) && negb (detected artifact_drift)
       then unchanged_result m routing
       else
         _ ← log_drifts m drift artifact_drift;
         let future := planned ([("server_mode", VStr server_mode)] ++ cleared_errors) routing in
         mode ← current_mode;
         mode ← st_py (match mode with VStr s => Some s | _ => None end);
         validate_then m mode future
           (_ ← touch_job_running m;
            reconciled ← _reconcile_vpn_runtime_for_apply m future;
            unless_unready m "Failed to reconcile Mihomo runtime before server mode apply." reconciled
              (apply_plan m [("intent", VStr INTENT_SET_GLOBAL_SERVER_MODE); ("server_mode", VStr server_mode)] future
                 "SERVER_MODE_APPLY_FAILED" (fun affected _ => [("affected_subject_ids", VList affected)])
                 (fun affected subjects => commit_server_mode m server_mode affected subjects)))).

Definition sync_rules (m : mutation) (selective_default : string) (effective : pyval) : P pyval :=
  call "sync_active_selective_default"
    [("selective_default", VStr selective_default); ("job_id", VStr (mu_job_id m)); ("effective_artifact", effective)].

Definition prepare_selective_default (m : mutation) (future : dict) : P dict :=
  satisfied ← call_dict "mihomo_runtime_satisfies_routing" future;
  if truthy (dget "ok" satisfied) then mret (dmerge satisfied already_matches)
  else
    fast ← call_dict "reconcile_mihomo_selective_default_fast" [("routing", VDict future); ("job_id", VStr (mu_job_id m))];
    if is_true (dget "fallback_required" fast) then _reconcile_vpn_runtime_for_apply m future else mret fast.

(** Nothing depends on the default while the global mode is direct. *)
Definition save_default_only (m : mutation) (selective_default : string) : P dict :=
  committed ← _commit_selective_default selective_default (mu_requested_by m);
  rules_state ← sync_rules m selective_default VNone;
  _build_success_result m "commit" VNone
    [("routing", VDict committed); ("rules_state", rules_state); ("runtime_state_unchanged", VBool true)] true.

Definition apply_default (m : mutation) (selective_default : string) (future : dict) (effective : pyval) : P dict :=
  subjects ← load_subjects future;
  apply_result ← _run_pipeline_for_state m
    [("intent", VStr INTENT_SET_SELECTIVE_DEFAULT); ("selective_default", VStr selective_default)] future subjects
    [("rules_effective", effective)] None;
  ok ← item "ok" apply_result;
  if truthy ok then
    _ ← touch_job_running m;
    committed ← _commit_selective_default selective_default (mu_requested_by m);
    rules_state ← sync_rules m selective_default effective;
    _ ← _sync_subject_server_override_statuses subjects;
    _build_success_result m "commit" (dget "apply_id" apply_result) [("routing", VDict committed); ("rules_state", rules_state)] false
  else fail_apply m "SELECTIVE_DEFAULT_APPLY_FAILED" apply_result.

Definition _execute_set_selective_default (m : mutation) (payload : dict) : P dict :=
  let selective_default := py_lower (py_strip (str_or "" (dget "selective_default" payload))) in
  if negb (bool_decide (selective_default ∈ ["direct"; "vpn"]))
  then refuse m "validate" "SELECTIVE_DEFAULT_INVALID" "Selective default must be one of: direct, vpn."
  else
    routing ← get_routing_snapshot;
    drift ← _current_routing_drift routing;
    artifact_drift ← _applied_manifest_routing_drift routing;
    if String.eqb (py_str (dget "selective_default" routing)) selective_default && negb (detected drift) && negb (detected artifact_drift)
    then unchanged_result m routing
    else
      _ ← _log_routing_drift m drift;
      let ignorable := _selective_default_artifact_drift_is_ignorable_for_global_direct routing artifact_drift in
      _ ← (if ignorable then mret tt else _log_artifact_drift m artifact_drift);
      if String.eqb (mode_text (por (por (dget "applied_mode" routing) (dget "desired_mode" routing)) (VStr ""))) "direct"
         && negb (detected drift) && ignorable
      then save_default_only m selective_default
      else
        let future := planned [("selective_default", VStr selective_default)] routing in
        artifact ← call "read_effective_rules_artifact" [];
        effective ← call "effective_rules_with_selective_default" [("artifact", artifact); ("selective_default", VStr selective_default)];
        _ ← touch_job_running m;
        reconciled ← prepare_selective_default m future;
        unless_unready m "Failed to reconcile Mihomo runtime before selective default apply." reconciled
          (apply_default m selective_default future effective).

(** A failure of the repair is not persisted. *)
Definition _execute_repair_global_direct_runtime (m : mutation) : P dict :=
  routing ← get_routing_snapshot;
  subjects ← load_subjects routing;
  apply_result ← _run_pipeline_for_state m [("intent", VStr INTENT_REPAIR_GLOBAL_DIRECT_RUNTIME)] routing subjects [] None;
  ok ← item "ok" apply_result;
  if truthy ok then
    committed ← _commit_repaired_global_runtime;
    _ ← _sync_subject_server_override_statuses subjects;
    _build_success_result m "commit" (dget "apply_id" apply_result) [("routing", VDict committed)] false
  else
    '(stage, code, message, apply_id) ← pipeline_failure "REPAIR_APPLY_FAILED" apply_result;
    _build_failure_result m stage code message apply_id.

(** ** The dispatch *)

Definition global_mutation (m : mutation) (payload : dict) : option (P dict) :=
  if String.eqb (mu_intent m) INTENT_SET_GLOBAL_MODE then Some (_execute_set_global_mode m payload)
  else if String.eqb (mu_intent m) INTENT_SET_GLOBAL_SERVER_MODE then Some (_execute_set_global_server_mode m payload)
  else if String.eqb (mu_intent m) INTENT_SET_SELECTIVE_DEFAULT then Some (_execute_set_selective_default m payload)
  else if String.eqb (mu_intent m) INTENT_REPAIR_GLOBAL_DIRECT_RUNTIME then Some (_execute_repair_global_direct_runtime m)
  else None.

(** The intents of the subjects and of the rules. *)
Definition other_intents : list string :=
  ["set_subject_admin_mode"; "set_subject_user_mode"; "clear_subject_user_mode"; "set_subject_server_override";
   "clear_subject_server_override"; "apply_manual_rules"].

Definition mutate (m : mutation) (payload : dict) : P dict :=
  match global_mutation m payload with
  | Some handler => handler
  | None =>
      if bool_decide (mu_intent m ∈ other_intents)
      then call_dict ("_execute_" +:+ mu_intent m) [("job_id", VStr (mu_job_id m)); ("payload", VDict payload)]
      else
        refuse (Mutation (if String.eqb (mu_intent m) "" then "unknown" else mu_intent m) (mu_job_id m) (mu_requested_by m))
          "validate" "APPLY_INTENT_UNKNOWN" ("Unsupported apply mutation intent: " +:+ mu_intent m)
  end.

Definition execute_apply_mutation (job : dict) : P dict :=
  job_id ← item "job_id" job;
  let input := default [] (as_dict (dget "input" job)) in
  let intent := py_strip (str_or "" (dget "intent" input)) in
  let payload := default [] (as_dict (dget "payload" input)) in
  result ← mutate (Mutation intent (py_str job_id) (str_or "api" (dget "requested_by" job))) payload;
  _ ← call "_log_mutation_result" result;
  ok ← item "ok" result;
  error_code ← (if truthy ok then mret VNone else item "code" result);
  error_message ← (if truthy ok then mret VNone else item "message" result);
  mret [("job_status", VStr (if truthy ok then "success" else "failed")); ("error_code", error_code); ("error_message", error_message);
        ("mutation", VDict result)].
End Orchestrator.
