(* ===== verification/GlobalModeFacts.v ===== *)
(** * A global mode is committed under the intent it was applied for

    Whatever else happens during a mutation of the global mode, its own
    changes of the database are of a few kinds, and the one that commits the
    mode is bound to the Core intent the handler read when it began and to the
    apply its own run of the pipeline returned.  While a fixed workflow is
    pending nobody else changes the mode. *)
From stdpp Require Import base list strings gmap relations.
From Stdlib Require Import ZArith Lia Ascii.
From S2P Require Import Prelude PyStr PyVal PyState PyTime AutoPool SelectorCandidates SelectorRank SelectionFence SelectionFenceFacts FenceSession SelectorDeps PendingState PendingFacts PendingInvariant SubjectTaxonomy SubjectPolicy GlobalMode.

Open Scope string_scope.
Open Scope Z_scope.
Open Scope list_scope.

(** ** What a mutation may change *)

(** Core is settled after its proof: the latest apply is [apply_id]'s, applied
    for the revision, and the module is still to be enabled. *)
Definition settles (n : Z) (apply_id : string) : relation fence_db := fun db db' =>
  core_intent_revision db = Some n /\ d_core db = Some ("enabled", "managed", "pending") /\
  option_map a_apply_id (latest_apply db) = Some apply_id /\
  option_map a_status (latest_apply db) = Some "applied" /\ option_map a_core_revision (latest_apply db) = Some (Some n) /\
  db' = with_core (Some ("enabled", "managed", "clean")) db.

(** The mode is written under the revision, the module and the apply. *)
Definition commits (mode : string) (n : Z) (snapshot : string * string * string) (apply_id : string) : relation fence_db := fun db db' =>
  core_intent_revision db = Some n /\ d_core db = Some snapshot /\ owns_apply apply_id n db = true /\
  exists audits,
    db' = FenceDb (d_pool db) (option_map (set_mode mode) (d_routing db)) (d_core db) (d_applies db) (d_audits db ++ audits).

Section Changes.
Context `{ReprContainer} `{PendingOutside}.

(** The pipeline was run for the revision, and its result is [result]. *)
Definition pipeline_ran (n : Z) (since asked : list request) (result : dict) : Prop := exists arguments,
  dget "core_intent_revision" arguments = VInt n /\ told since asked (Call "run_apply_pipeline" arguments) called (Some (VDict result)).

(** The apply of a run of the pipeline that succeeded. *)
Definition issued (n : Z) (since asked : list request) (apply_id : string) : Prop := exists result,
  pipeline_ran n since asked result /\ truthy (dget "ok" result) = true /\ apply_id = str_or "" (dget "apply_id" result).

(** What a run that began after [since] and asked [asked] so far may change;
    [n] and [snapshot] are its Core intent. *)
Inductive mode_change (mode : string) (n : Z) (snapshot : string * string * string) (since asked : list request)
    (db db' : fence_db) : Prop :=
  | EnsuresRow : db' = insert_routing db -> mode_change mode n snapshot since asked db db'
  | ExpiresFixed now t : told since asked SqlClock sql_now now -> told since asked ReadClock clock t -> expiry_change now t db db' ->
      mode_change mode n snapshot since asked db db'
  | RecordsError code message : db' = with_routing (option_map (set_outcome "failed" code message) (d_routing db)) db ->
      mode_change mode n snapshot since asked db db'
  | CommitsMode apply_id : issued n since asked apply_id -> commits mode n snapshot apply_id db db' ->
      mode_change mode n snapshot since asked db db'
  | SettlesCore apply_id : issued n since asked apply_id -> settles n apply_id db db' ->
      mode_change mode n snapshot since asked db db'.

#[export] Instance ran_lasting n since result : Lasting (fun l => pipeline_ran n since l result).
Proof. intros l l' Hl (a & Ha & Ht). exists a. split; [done|]. by eapply (told_lasting since). Qed.

#[export] Instance issued_lasting n since apply_id : Lasting (fun l => issued n since l apply_id).
Proof. intros l l' Hl (r & Hr & Hok). exists r. split; [|exact Hok]. by eapply (ran_lasting n since). Qed.

#[export] Instance mode_change_grows mode n snapshot since : Grows (mode_change mode n snapshot since).
Proof.
  intros l l' db db' Hl [?|now t Hn Ht ?|? ? ?|id Hi ?|id Hi ?]; [by apply EnsuresRow| |by eapply RecordsError| |].
  - apply (ExpiresFixed _ _ _ _ _ _ _ now t); [by eapply (told_lasting since)..|done].
  - apply (CommitsMode _ _ _ _ _ _ _ id); [by eapply (issued_lasting n since)|done].
  - apply (SettlesCore _ _ _ _ _ _ _ id); [by eapply (issued_lasting n since)|done].
Qed.

(** The changes any handler of the global routing may make. *)
Class Allows (since : list request) (own : list request -> relation fence_db) : Prop := {
  al_grows :: Grows own;
  al_ensures : forall l db, own l db (insert_routing db);
  al_expires : forall l now t db db', told since l SqlClock sql_now now -> told since l ReadClock clock t ->
    expiry_change now t db db' -> own l db db';
  al_records : forall l code message db, own l db (with_routing (option_map (set_outcome "failed" code message) (d_routing db)) db);
}.

#[export] Instance mode_change_allows mode n snapshot since : Allows since (mode_change mode n snapshot since).
Proof.
  split; [exact _|by intros; apply EnsuresRow|intros l now t db db' ? ? ?; by apply (ExpiresFixed _ _ _ _ _ _ _ now t)|].
  intros. by eapply RecordsError.
Qed.
End Changes.

(** ** The transactions *)

Lemma update_cases f db k db' : update_routing f db = (Some k, db') -> db' = with_routing (option_map f (d_routing db)) db.
Proof.
  unfold update_routing. rewrite bind_unfold. cbn [st_get]. destruct (d_routing db) as [r|] eqn:Er.
  - destruct (routing_ok _ _); [|done]. by intros [= <- <-].
  - intros [= <- <-]. unfold with_routing. cbn [option_map]. rewrite <- Er. by destruct db.
Qed.

Lemma audit_cases action code by_ p v db u db' : _write_routing_audit action code by_ p v db = (Some u, db') ->
  exists audits, db' = FenceDb (d_pool db) (d_routing db) (d_core db) (d_applies db) (d_audits db ++ audits).
Proof.
  unfold _write_routing_audit. destruct (py_eq _ _).
  - intros [= <- <-]. exists []. rewrite app_nil_r. by destruct db.
  - intros [= <- <-]. by eexists.
Qed.

Lemma snapshot_current n snapshot db b db' : assert_core_intent_snapshot_current n snapshot db = (Some b, db') ->
  db' = db /\ (b = true -> core_intent_revision db = Some n /\ is_Some snapshot /\ d_core db = snapshot).
Proof.
  unfold assert_core_intent_snapshot_current, read_core_intent_revision. rewrite !bind_unfold. cbn [st_get].
  rewrite st_py_eq. destruct (core_intent_revision db) as [k|]; [|done]. destruct (Z.eqb_spec k n) as [->|]; cbn [negb].
  - rewrite bind_unfold. cbn [st_get]. intros [= <- <-]. split; [done|]. rewrite !andb_true_iff, bool_decide_eq_true.
    intros [[_ Hs] Hc]. split; [done|]. split; [|done]. destruct snapshot; [by eexists|done].
  - intros [= <- <-]. by split.
Qed.

Lemma bound_commit_change mode by_ b snapshot db x db' : bd_snapshot b = Some snapshot ->
  commit_bound_mode mode by_ b db = (Some x, db') -> db' = db \/ commits mode (bd_revision b) snapshot (bd_apply_id b) db db'.
Proof.
  intros Hs E. unfold commit_bound_mode in E. apply bind_inv in E as (current & db1 & E1 & E).
  apply snapshot_current in E1 as [-> Hc]. destruct current; cbn [negb] in E; [|left; by injection E as _ <-].
  destruct Hc as (Hn & _ & Hd); [done|]. rewrite bind_unfold in E. cbn [st_get] in E.
  destruct (owns_apply _ _ db) eqn:Ho; cbn [negb] in E; [|left; by injection E as _ <-].
  apply bind_inv in E as (u & db2 & E2 & E). injection E as _ <-. unfold write_mode in E2.
  apply bind_inv in E2 as (k & db3 & E3 & E2). apply audit_cases in E2 as [audits ->]. apply update_cases in E3 as ->.
  right. split_and!; [done|by rewrite Hd, Hs|done|by exists audits].
Qed.

Section Settle.
Context `{PendingOutside}.
Context `{ReprContainer}.

Lemma settle_change apply_id n context proof live manifest db x db' :
  settle_tx apply_id n context proof live manifest db = (Some x, db') -> db' = db \/ settles n apply_id db db'.
Proof.
  unfold settle_tx. destruct (negb (py_eq _ _)); [intros [= _ <-]; by left|]. intros E.
  apply bind_inv in E as (current & db1 & E1 & E).
  assert (Hc : db1 = db /\ (current = true -> core_intent_revision db = Some n)).
  { unfold assert_core_intent_current, read_core_intent_revision in E1. rewrite !bind_unfold in E1. cbn [st_get] in E1.
    rewrite st_py_eq in E1. destruct (core_intent_revision db) as [k|]; [|done]. destruct (Z.eqb_spec k n) as [Hk|]; cbn [negb] in E1.
    - split; [|by rewrite Hk]. rewrite bind_unfold in E1. cbn [st_get] in E1. repeat (case_match; try done); by injection E1 as _ ->.
    - by injection E1 as <- ->. }
  destruct Hc as [-> Hn]. rewrite bind_unfold in E. cbn [st_get] in E. destruct (negb current || _) eqn:Eb; [left; by injection E as _ <-|].
  rewrite orb_false_iff, !negb_false_iff in Eb. destruct Eb as [Hcur Hm]. specialize (Hn Hcur).
  destruct (d_core db) as [[[d l] a]|] eqn:Ec; [|left; by injection E as _ <-].
  destruct (decide ((d, l, a) = ("enabled", "managed", "pending"))) as [Heq|Hne].
  - injection Heq as -> -> ->. injection E as _ <-. unfold proof_matches in Hm. destruct (latest_apply db) as [latest|] eqn:El; [|done].
    destruct (d_routing db) as [r|]; [|done]. rewrite !andb_true_iff in Hm. destruct Hm as [[[[[[[H1 H2] H3] _] _] _] _] _].
    apply String.eqb_eq in H1, H2. apply bool_decide_eq_true in H3.
    right. unfold settles. rewrite El. cbn [option_map]. split_and!; congruence || done.
  - left. clear -E Hne. repeat (case_match; try (by injection E as _ <-)).
Qed.
End Settle.

(** ** The parts of a handler *)

Section Handler.
Context `{ReprContainer} `{PendingOutside} (recursion_limit : nat) (mode : string).

(** *** Parts that only read and ask *)

Lemma reads_call name arguments : moves reading (call name arguments).
Proof. unfold call. frame. Qed.
Hint Resolve reads_call : frame.

Lemma reads_call_dict name arguments : moves reading (call_dict name arguments).
Proof. unfold call_dict. frame. Qed.

Lemma reads_item k d : moves reading (item k d).
Proof. unfold item. frame. Qed.
Hint Resolve reads_call_dict reads_item : frame.

Lemma reads_base m stage ok apply_id code message unchanged : moves reading (_base_result m stage ok apply_id code message unchanged).
Proof. unfold _base_result. frame. Qed.
Hint Resolve reads_base : frame.

Lemma reads_failure m stage code message apply_id : moves reading (_build_failure_result m stage code message apply_id).
Proof. unfold _build_failure_result. frame. Qed.

Lemma reads_success m stage apply_id details unchanged : moves reading (_build_success_result m stage apply_id details unchanged).
Proof. unfold _build_success_result. frame. Qed.
Hint Resolve reads_failure reads_success : frame.

Lemma reads_refuse m stage code message : moves reading (refuse m stage code message).
Proof. unfold refuse. frame. Qed.
Hint Resolve reads_refuse : frame.

Lemma reads_refusal {A} m stage code message : moves reading (refusal (A := A) m stage code message).
Proof. unfold refusal. frame. Qed.
Hint Resolve reads_refusal : frame.

Lemma reads_workflow_fence m payload : moves reading (workflow_fence m mode payload).
Proof. unfold workflow_fence. frame. Qed.

Lemma reads_selection payload : moves reading (selection_moved payload).
Proof. unfold selection_moved. frame. Qed.
Hint Resolve reads_workflow_fence reads_selection : frame.

Lemma reads_core_fence m payload : moves reading (core_fence m payload).
Proof. unfold core_fence, core_stage. frame. Qed.

Lemma reads_context_fence m c : moves reading (context_fence m c).
Proof. unfold context_fence. frame. Qed.

Lemma reads_log m e f ks drift : moves reading (log_drift m e f ks drift).
Proof. unfold log_drift. frame. Qed.
Hint Resolve reads_core_fence reads_context_fence reads_log : frame.

Lemma reads_logs m drift artifact : moves reading (log_drifts m drift artifact).
Proof. unfold log_drifts, _log_routing_drift, _log_artifact_drift. frame. Qed.

Lemma reads_reconcile m routing : moves reading (_reconcile_vpn_runtime_for_apply m routing).
Proof. unfold _reconcile_vpn_runtime_for_apply. frame. Qed.
Hint Resolve reads_logs reads_reconcile : frame.

Lemma reads_prepare m ready future : moves reading (prepare_vpn_runtime m ready future).
Proof. unfold prepare_vpn_runtime. frame. Qed.

Lemma reads_sync subjects : moves reading (_sync_subject_server_override_statuses subjects).
Proof. induction subjects as [|v rest IH]; cbn [_sync_subject_server_override_statuses]; frame. Qed.

Lemma reads_load routing : moves reading (load_subjects routing).
Proof. unfold load_subjects. frame. Qed.

Lemma reads_apply m routing future drift revision : moves reading (apply_mode m mode routing future drift revision).
Proof. unfold apply_mode, load_subjects, _run_pipeline_for_state, _run_pipeline_for_manifest. frame. Qed.

Lemma reads_moved c payload : moves reading (intent_moved c payload).
Proof. unfold intent_moved. frame. Qed.

Lemma reads_touch m : moves reading (touch_job_running m).
Proof. unfold touch_job_running. frame. Qed.

Lemma reads_unchanged m routing : moves reading (unchanged_result m routing).
Proof. unfold unchanged_result. frame. Qed.
Hint Resolve reads_prepare reads_sync reads_load reads_apply reads_moved reads_touch reads_unchanged : frame.

(** *** Parts that may change the database *)

Section Frame.
Context (since : list request) (own : list request -> relation fence_db) `{!Allows since own}.
Abbreviation R := (proceeds own since).

Lemma goes_writer {A} timeout (body : P A) : moves R body -> moves R (with_writer timeout body).
Proof. intros Hb. unfold with_writer. frame. Qed.

Lemma goes_clear row : moves R (_clear_expired_global_fixed_server_state row).
Proof.
  unfold _clear_expired_global_fixed_server_state. apply (moves_bind _); [apply goes_writer|intros ?; frame].
  do 2 (apply (moves_bind _); [solve [frame]|intros ?]). apply moves_knowing. unfold _now.
  apply (knowing_answer _ _ _). intros now. apply (knowing_answer _ _ _). intros t. apply knowing_transaction.
  intros l db x db' [[_ Hn] Ht] [[_ ->]|[_ Hc]]%expire_change; [done|]. apply rtc_once. by eapply al_expires.
Qed.

Lemma goes_routing fuel : forall expire, moves R (get_routing_global_state fuel expire).
Proof.
  induction fuel as [|fuel IH]; intros expire; cbn [get_routing_global_state]; [frame|]. pose proof goes_clear. frame.
Qed.

(** A transaction of its own, allowed whatever was asked. *)
Lemma goes_transaction {A} (body : T A) :
  (forall l db x db', body db = (Some x, db') -> rtc (own l) db db') -> moves R (transaction body).
Proof. intros Hb. apply moves_knowing, knowing_transaction. intros l db x db' _. apply Hb. Qed.

Lemma goes_ensure fuel : moves R (ensure_routing_global_state fuel).
Proof.
  unfold ensure_routing_global_state. apply (moves_bind _).
  - apply goes_transaction. intros l db x db' [= _ <-]. apply rtc_once, al_ensures.
  - intros ?. pose proof (goes_routing fuel). frame.
Qed.

Lemma goes_or_raise {A} (m : P (A + unit)) : moves R m -> moves R (or_raise m).
Proof. intros Hm. unfold or_raise. frame. Qed.

Lemma goes_persist code message : moves R (_persist_global_error recursion_limit code message).
Proof.
  unfold _persist_global_error. apply (moves_bind _); [apply goes_or_raise, goes_ensure|intros ?].
  do 2 (apply (moves_bind _); [solve [frame]|intros ?]). apply (moves_bind _); [|intros ?; frame].
  apply goes_transaction. intros l db x db' ->%update_cases. apply rtc_once, al_records.
Qed.

Lemma goes_snapshot : moves R (get_routing_snapshot recursion_limit).
Proof. unfold get_routing_snapshot. apply (moves_bind _); [apply goes_or_raise, goes_routing|intros ?; frame]. Qed.
Hint Resolve goes_persist goes_snapshot : frame.

Lemma goes_fail m stage code message apply_id : moves R (fail_persisted recursion_limit m stage code message apply_id).
Proof. unfold fail_persisted. frame. Qed.
Hint Resolve goes_fail : frame.

Lemma goes_fail_apply m fallback result : moves R (fail_apply recursion_limit m fallback result).
Proof. unfold fail_apply, pipeline_failure, dict_item. frame. Qed.

Lemma goes_routing_drift routing : moves R (_current_routing_drift recursion_limit routing).
Proof. unfold _current_routing_drift. frame. Qed.

Lemma goes_manifest_drift routing : moves R (_applied_manifest_routing_drift recursion_limit routing).
Proof. unfold _applied_manifest_routing_drift. frame. Qed.

Lemma goes_routing_or_ensured : moves R (routing_or_ensured recursion_limit).
Proof. unfold routing_or_ensured. pose proof (goes_routing recursion_limit). pose proof (goes_ensure recursion_limit). frame. Qed.
Hint Resolve goes_fail_apply goes_routing_drift goes_manifest_drift goes_routing_or_ensured : frame.

(** Settling and committing need what is known of the apply. *)
Section Known.
Context (Q : list request -> Prop) `{!Lasting Q}.

Lemma knows_finish m c context result affected subjects committed :
  (forall n l db db', co_revision c = Some n -> Q l -> settles n (str_or "" (dget "apply_id" result)) db db' -> own l db db') ->
  knowing own since Q (finish_mode m c context result affected subjects committed).
Proof.
  intros Hs. unfold finish_mode. destruct (co_revision c) as [n|]; [|apply (knowing_moves _ _ _); frame].
  destruct (co_enable_pending c); [|apply (knowing_moves _ _ _); frame].
  apply (knowing_step _ _ _); [frame|]. intros proof. apply (knowing_bind _ _ _ (fun _ _ => True)); [|done|].
  - unfold settle_core_enable_after_proof. destruct (negb _); [apply (knowing_moves _ _ _); frame|].
    do 2 (apply (knowing_step _ _ _); [frame|intros ?]). apply knowing_transaction.
    intros l db x db' HQ [->|Hc]%settle_change; [done|]. apply rtc_once. by eapply Hs.
  - intros settled. apply (knowing_moves _ _ _). frame.
Qed.

Lemma knows_commit by_ b snapshot : bd_snapshot b = Some snapshot ->
  (forall l db db', Q l -> commits mode (bd_revision b) snapshot (bd_apply_id b) db db' -> own l db db') ->
  knowing own since Q (_commit_global_mode recursion_limit mode by_ (Some b)).
Proof.
  intros Hb Hc. unfold _commit_global_mode. apply (knowing_step _ _ _); [apply goes_ensure|].
  intros []; [|apply (knowing_moves _ _ _); frame]. apply (knowing_bind _ _ _ (fun _ _ => True)); [|done|].
  - apply knowing_transaction. intros l db x db' HQ [->|Hm]%(bound_commit_change _ _ _ snapshot); [done| |done].
    apply rtc_once. by eapply Hc.
  - intros []; apply (knowing_moves _ _ _); frame.
Qed.
End Known.
End Frame.
Hint Resolve mode_change_allows : frame.
Hint Resolve goes_persist goes_snapshot goes_fail goes_fail_apply goes_routing_drift goes_manifest_drift goes_routing_or_ensured : frame.

(** ** The commit, within the intent *)

(** What the fence found, when there is a module. *)
Definition fenced (n : Z) (snapshot : string * string * string) (c : core) : Prop := co_revision c = Some n /\ co_snapshot c = Some snapshot.

Lemma call_told since name arguments s d s' : since `suffix_of` x_asked s -> call_dict name arguments s = (Some d, s') ->
  told since (x_asked s') (Call name arguments) called (Some (VDict d)).
Proof.
  intros Hs E. unfold call_dict in E. apply bind_inv in E as (v & s1 & E1 & E). unfold call, answer_py in E1. injection E1 as Ev <-.
  rewrite st_py_eq in E. injection E as Ed <-. exists (x_asked s). split; [exact Hs|]. split; [done|].
  destruct v; try done. injection Ed as ->. exact Ev.
Qed.

Lemma apply_ran since m routing future drift n s affected subjects result s' : since `suffix_of` x_asked s ->
  apply_mode m mode routing future drift (Some n) s = (Some (affected, subjects, result), s') -> pipeline_ran n since (x_asked s') result.
Proof.
  intros Hs E. unfold apply_mode in E. cbv zeta in E. apply bind_inv in E as (profile & s1 & E1 & E).
  apply (moves_run _ _ _ _ _ (reads_call _ _)) in E1 as [A1 _]. assert (Hs1 : since `suffix_of` x_asked s1) by by etrans.
  destruct profile as [| | | | |d];
    try (apply bind_inv in E as (d & s2 & E2 & E); rewrite st_py_eq in E2; discriminate E2).
  - apply bind_inv in E as (subjects' & s2 & E2 & E). apply (moves_run _ _ _ _ _ (reads_load _)) in E2 as [A2 _].
    apply bind_inv in E as (affected' & s3 & E3 & E). rewrite st_py_eq in E3. injection E3 as _ <-.
    apply bind_inv in E as (result' & s4 & E4 & E). apply ret_inv in E as [[= _ _ ->] ->]. unfold _run_pipeline_for_state in E4.
    apply bind_inv in E4 as (bypass & s5 & E5 & E4). apply (moves_run _ _ _ _ _ (reads_call _ _)) in E5 as [A5 _].
    eexists. split; [|eapply call_told; [|exact E4]; by do 2 (etrans; [|eassumption])]. reflexivity.
  - apply bind_inv in E as (profile & s2 & E2 & E). rewrite st_py_eq in E2. injection E2 as _ <-.
    apply bind_inv in E as (ids & s3 & E3 & E). rewrite st_py_eq in E3. injection E3 as _ <-.
    apply bind_inv in E as (subjects' & s4 & E4 & E). rewrite st_py_eq in E4. injection E4 as _ <-.
    apply bind_inv in E as (manifest & s5 & E5 & E). apply (moves_run _ _ _ _ _ (reads_call _ _)) in E5 as [A5 _].
    apply bind_inv in E as (result' & s6 & E6 & E). apply ret_inv in E as [[= _ _ ->] ->]. unfold _run_pipeline_for_manifest in E6.
    eexists. split; [|eapply call_told; [|exact E6]; by etrans]. reflexivity.
Qed.

Section Fenced.
Context (since : list request) (n : Z) (snapshot : string * string * string) (c : core) (Hc : fenced n snapshot c).
Abbreviation own := (mode_change mode n snapshot since).

Lemma knows_commit_mode m payload context result affected subjects :
  knowing own since (fun l => pipeline_ran n since l result /\ truthy (dget "ok" result) = true)
    (commit_mode recursion_limit m mode payload c context result affected subjects).
Proof.
  assert (Hi : forall l, pipeline_ran n since l result /\ truthy (dget "ok" result) = true ->
    issued n since l (str_or "" (dget "apply_id" result))) by (intros l [Hr Hok]; by exists result).
  unfold commit_mode. apply (knowing_step _ _ _); [frame|]. intros _. apply (knowing_step _ _ _); [frame|]. intros [].
  { apply (knowing_moves _ _ _). frame. }
  destruct Hc as [Hn Hs]. apply (knowing_bind _ _ _ (fun _ _ => True)); [|done|].
  - unfold binding_of. rewrite Hn, Hs. cbn [option_map]. apply (knows_commit _ _ _ _ _ snapshot); [done|].
    intros l db db' HQ Hm. eapply CommitsMode; [by apply Hi|exact Hm].
  - intros [committed|e]; [|apply (knowing_moves _ _ _); frame]. apply knows_finish; [apply _..|].
    intros k l db db' Hk [HQ _] Hm. rewrite Hn in Hk. injection Hk as <-. eapply SettlesCore; [by apply Hi|exact Hm].
Qed.

Lemma goes_drive m payload context : moves (proceeds own since) (drive_mode recursion_limit m mode payload c context).
Proof.
  destruct Hc as [Hn Hs]. unfold drive_mode, validate_then, unless_unready. rewrite Hn.
  do 3 (apply (moves_bind _); [frame|intros ?]). case_match; [frame|].
  apply (moves_bind _); [frame|intros _]. cbv zeta. do 2 (apply (moves_bind _); [frame|intros ?]). case_match; [|frame].
  apply (moves_bind _); [frame|intros _]. apply (moves_bind _); [frame|intros reconciled].
  apply (moves_bind _); [frame|intros ?]. case_match; [|frame]. apply moves_knowing.
  apply (knowing_bind _ _ _ (fun x l => pipeline_ran n since l x.2)); [apply (knowing_moves _ _ _); frame| |].
  - intros s [[affected subjects] result] s' Hs' E. by eapply apply_ran.
  - intros [[affected subjects] result]. cbn [snd].
    apply (knowing_bind _ _ _ (fun ok _ => dget "ok" result = ok)); [apply (knowing_moves _ _ _); frame| |].
    + intros s ok s' _ E. unfold item in E. rewrite st_py_eq in E. injection E as E _. unfold dget. by rewrite E.
    + intros ok. destruct (truthy ok) eqn:Hok; [|apply (knowing_moves _ _ _); frame].
      intros s [[_ Hr] Hd]. apply knows_commit_mode. split; [exact Hr|by rewrite Hd].
Qed.
End Fenced.

(** ** The intent of a run *)

(** A Core module is there, and the others leave one there. *)
Definition with_module (s : session request) : Prop :=
  d_core (x_db s) <> None /\ forall t, t ∈ x_turns s -> forall db, d_core db <> None -> d_core (t_others t db) <> None.

Lemma module_stays (s s' : session request) : evolves none s s' -> with_module s -> with_module s'.
Proof.
  intros He [Hd Ht]. split.
  - eapply (evolves_invariant none (fun db => d_core db <> None)); [exact He|done|exact Ht|exact Hd].
  - destruct He as (used & Hu & _). intros t Hin. apply Ht. rewrite Hu. set_solver.
Qed.

Lemma refusal_refuses {A} m stage code message s r s1 : refusal (A := A) m stage code message s = (Some r, s1) -> exists d, r = inl d.
Proof. unfold refusal. intros E. run E. by eexists. Qed.

(** A read returns what was there as it was made. *)
Lemma read_value {A} (f : fence_db -> A) (s : session request) a s1 : read_db f s = (Some a, s1) ->
  a = f (x_db s1) /\ x_asked s1 = x_asked s /\ evolves none s s1.
Proof.
  intros E. pose proof (reading_asked f s) as Ha. pose proof (evolves_read none f s) as He. rewrite E in Ha, He. split; [|by split].
  unfold read_db, transaction in E. destruct (take_turn s) as [[t db] rest]. destruct (t_ok t); [|done]. by injection E as <- <-.
Qed.

Lemma workflow_asked m payload s u s1 : workflow_fence m mode payload s = (Some (inr u), s1) -> x_asked s1 = x_asked s.
Proof.
  unfold workflow_fence. intros E. apply bind_inv in E as (row & s2 & E1 & E). apply read_value in E1 as (_ & <- & _). cbv zeta in E.
  destruct (owned_by_fixed_workflow _); [|by injection E as _ <-].
  apply bind_inv in E as (desired & s3 & E2 & E). apply read_value in E2 as (_ & <- & _).
  destruct (owns_fixed_core_stage _ _ _ _); [by injection E as _ <-|]. by apply refusal_refuses in E as [d [=]].
Qed.

(** From [s] on, with nothing changed by the run and nothing asked but the
    writer's lock, the module was read in [s1] and the Core revision in [s2]. *)
Record intent_read (s s1 s2 : session request) (n : Z) (snapshot : string * string * string) : Prop := IntentRead {
  ir_module : d_core (x_db s1) = Some snapshot;
  ir_revision : core_intent_revision (x_db s2) = Some n;
  ir_before : evolves none s s1;
  ir_between : evolves none s1 s2;
  ir_asked1 : x_asked s1 = AcquireWriter None :: x_asked s;
  ir_asked2 : x_asked s2 = AcquireWriter None :: x_asked s;
}.

Lemma stage_read m payload snapshot s c s' : core_stage m payload snapshot s = (Some (inr c), s') ->
  exists n s2, core_intent_revision (x_db s2) = Some n /\ evolves none s s2 /\ x_asked s2 = x_asked s /\
    reading s2 s' /\ fenced n snapshot c.
Proof.
  unfold core_stage. intros E. apply bind_inv in E as (revision & s2 & E1 & E). apply read_value in E1 as (Hr & Ha & He).
  match type of E with ?x s2 = _ => assert (Hm : moves reading x) by (clear E; frame) end.
  pose proof (moves_run _ _ _ _ _ Hm E) as Hr2.
  destruct revision as [n|]; [|by apply refusal_refuses in E as [d [=]]]. cbv zeta in E.
  destruct (match dget "expected_core_revision" payload with VNone => _ | VInt _ => _ | _ => _ end);
    [by apply refusal_refuses in E as [d [=]]|].
  destruct (match dget "expected_core_snapshot" payload with VNone => _ | _ => _ end); [by apply refusal_refuses in E as [d [=]]|].
  apply bind_inv in E as (bypass & s3 & _ & E). destruct (bypass_enabled bypass) as [enabled|]; [|by apply refusal_refuses in E as [d [=]]].
  destruct (enabled && _); [by apply refusal_refuses in E as [d [=]]|]. injection E as <- _.
  exists n, s2. by split_and!.
Qed.

Lemma core_read m payload s c s' : with_module s -> core_fence m payload s = (Some (inr c), s') ->
  exists n snapshot s1 s2, d_core (x_db s1) = Some snapshot /\ core_intent_revision (x_db s2) = Some n /\ evolves none s s1 /\
    evolves none s1 s2 /\ x_asked s1 = x_asked s /\ x_asked s2 = x_asked s /\ reading s2 s' /\ fenced n snapshot c.
Proof.
  intros Hs E. unfold core_fence in E.
  destruct (negb (optional_int _)); [by apply refusal_refuses in E as [d [=]]|].
  destruct (negb (optional_snapshot _)); [by apply refusal_refuses in E as [d [=]]|].
  apply bind_inv in E as (module & s1 & E1 & E). apply read_value in E1 as (-> & Ha1 & He1).
  destruct (module_stays s s1 He1 Hs) as [Hd _]. destruct (d_core (x_db s1)) as [snapshot|] eqn:Ecore; [|done].
  apply bind_inv in E as (staged & s3 & E2 & E). destruct staged as [d|c']; [injection E as Hf _; discriminate Hf|].
  apply stage_read in E2 as (n & s2 & Hn & He2 & Ha2 & Hr & Hc).
  apply bind_inv in E as (moved & s4 & E4 & E). apply (moves_run _ _ _ _ _ (reads_selection _)) in E4.
  destruct moved; [by apply refusal_refuses in E as [d [=]]|]. injection E as <- <-.
  exists n, snapshot, s1, s2. split_and!; try done; [congruence|by etrans].
Qed.

(** C6: a global mode is committed only under the intent it was applied for.
    Let a Core module exist, and let the others do anything but remove it.
    Then a run that sets the global mode either changes nothing itself, or it
    has read one Core intent right after it got the writer's lock, the module
    snapshot that was there and the revision that was there then, and whatever
    happens in between its own changes are of five kinds: the routing row is
    created; a fixed server that is past its time, as SQLite told it during the
    run, is released; the error columns are written; the mode is committed; or
    Core is settled.  The commit happens only while the Core revision and the
    module are still those that were read, and the latest apply of all is
    applied, is of that revision, and is the one that the pipeline returned
    when this run ran it for that revision, with success; Core is settled from
    pending only under the same revision, for that apply. *)
Theorem mode_is_committed_for_its_intent m payload s : with_module s ->
  mode = py_lower (py_strip (str_or "" (dget "mode" payload))) ->
  let s' := (_execute_set_global_mode recursion_limit m payload s).2 in
  evolves none s s' \/
  exists n snapshot s1 s2, intent_read s s1 s2 n snapshot /\
    evolves (mode_change mode n snapshot (x_asked s) (x_asked s')) s2 s'.
Proof.
  intros Hs Hmode s'. pattern s'. match goal with |- ?P _ => set (goal := P) end. subst s'. unfold _execute_set_global_mode, with_writer. rewrite <- Hmode, bind_unfold. unfold answer at 1.
  set (s0 := Selector (x_db s) (x_turns s) (AcquireWriter None :: x_asked s)).
  assert (Hl : evolves none s s0) by exact (evolves_answer none (AcquireWriter None) writer_acquired s).
  assert (Hleft : forall s', reading s0 s' -> evolves none s s') by (intros s' [_ He]; by etrans).
  destruct (writer_acquired _); [|by left; apply Hleft].
  destruct (negb _); [left; apply Hleft, reads_refuse|].
  unfold unless_refused at 1. rewrite bind_unfold. pose proof (reads_workflow_fence m payload s0) as H1.
  destruct (workflow_fence m mode payload s0) as [[[d|u]|] s1] eqn:E1; cbn [snd] in *; [by left; apply Hleft| |by left; apply Hleft].
  apply workflow_asked in E1. unfold unless_refused at 1. rewrite bind_unfold. pose proof (reads_core_fence m payload s1) as H2.
  destruct (core_fence m payload s1) as [[[d|c]|] s2] eqn:E2; cbn [snd] in *; [by left; apply Hleft; etrans| |by left; apply Hleft; etrans].
  right. apply core_read in E2 as (n & snapshot & sa & sb & Hcore & Hn & Ha & Hab & Haska & Haskb & Hr & Hc);
    [|apply (module_stays s); [by apply Hleft|done]].
  exists n, snapshot, sa, sb. split.
  - split; try done; [by etrans; [apply Hleft|]|by rewrite Haska, E1|by rewrite Haskb, E1].
  - assert (Hm : moves (proceeds (mode_change mode n snapshot (x_asked s)) (x_asked s)) (unless_refused (context_fence m c)
      (fun context => drive_mode recursion_limit m mode payload c context))).
    { unfold unless_refused. apply (moves_bind _); [frame|]. intros []; [frame|by apply goes_drive]. }
    specialize (Hm s2). apply (reading_proceeds (mode_change mode n snapshot (x_asked s)) (x_asked s)) in Hr.
    pose proof (transitivity (R := proceeds (mode_change mode n snapshot (x_asked s)) (x_asked s)) Hr Hm) as Hp.
    apply Hp. rewrite Haskb, E1. by apply suffix_cons_r.
Qed.

(** ** What a result says *)

(** Only requests are added. *)
Definition only_asks : relation (session request) := fun s s' => x_db s' = x_db s /\ x_turns s' = x_turns s.

#[local] Instance only_asks_preorder : PreOrder only_asks.
Proof. split; [done|]. intros s1 s2 s3 [H1 H2] [H3 H4]. split; congruence. Qed.
Hint Resolve only_asks_preorder : frame.

Lemma asks_call name arguments : moves only_asks (call name arguments).
Proof. by intros s. Qed.
Hint Resolve asks_call : frame.

Lemma asks_base m stage ok apply_id code message unchanged : moves only_asks (_base_result m stage ok apply_id code message unchanged).
Proof. unfold _base_result, call_dict, item. frame. Qed.

Lemma base_ok m stage ok apply_id code message unchanged s r s1 : _base_result m stage ok apply_id code message unchanged s = (Some r, s1) ->
  dget "ok" r = VBool ok /\ dget "code" r = code /\ x_db s1 = x_db s.
Proof.
  intros E. pose proof (moves_run _ _ _ _ _ (asks_base m stage ok apply_id code message unchanged) E) as [Hd _].
  unfold _base_result in E. apply bind_inv in E as ([runtime capability] & s2 & _ & E).
  apply bind_inv in E as (level & s3 & _ & E). apply bind_inv in E as (guaranteed & s4 & _ & E). by injection E as <- <-.
Qed.

(** C20: a pending fixed workflow owns the routing.  While the row of the
    workflow is pending, a request to set the global mode that is not exactly
    the workflow's own Core stage, with its mode and all three of its fences,
    is refused with that code when nobody else acts, and changes nothing. *)
Theorem pending_workflow_owns_routing m payload db l row r s : mode = py_lower (py_strip (str_or "" (dget "mode" payload))) ->
  mode ∈ ["direct"; "selective"; "vpn"] -> _load_row db = Some row -> owned_by_fixed_workflow row = true ->
  owns_fixed_core_stage mode payload (default [] (as_dict (dget "workflow" row))) (option_map r_desired_mode (d_routing db)) = false ->
  _execute_set_global_mode recursion_limit m payload (Selector db [] l) = (Some r, s) ->
  dget "ok" r = VBool false /\ dget "code" r = VStr "FIXED_WORKFLOW_PENDING" /\ x_db s = db.
Proof.
  intros Hmode Hin Hrow Howned Hnot E. unfold _execute_set_global_mode, with_writer in E. rewrite <- Hmode in E.
  apply bind_inv in E as (acquired & s1 & E1 & E). injection E1 as <- <-. destruct (writer_acquired _); [|done].
  rewrite bool_decide_true in E by done. cbn [negb x_db x_turns x_asked] in E.
  unfold unless_refused at 1 in E. apply bind_inv in E as (fence & s2 & E2 & E).
  unfold workflow_fence in E2. rewrite bind_unfold, read_alone, Hrow in E2. cbn [default from_option id] in E2.
  rewrite Howned, bind_unfold, read_alone, Hnot in E2. unfold refusal in E2.
  apply bind_inv in E2 as (d & s3 & E3 & E2). injection E2 as <- <-. injection E as <- <-.
  apply base_ok in E3 as (Hok & Hcode & Hdb). by rewrite Hok, Hcode, Hdb.
Qed.

(** ** Nobody else acts *)

Definition applied_mode (db : fence_db) : Prop := exists r, d_routing db = Some r /\ r_applied_mode r = Some mode.

(** What every change leaves when nobody else acts: the schedule is empty, an
    applied mode stays, and so does the routing row. *)
Definition keeps (db db' : fence_db) : Prop :=
  (applied_mode db -> applied_mode db') /\ (d_routing db <> None -> d_routing db' <> None).

#[local] Instance keeps_allows : Allows [] (fun _ => keeps).
Proof.
  split; [by intros ????|..].
  - intros l db. unfold keeps, insert_routing, applied_mode. destruct (d_routing db) as [r|] eqn:E.
    + by rewrite E.
    + split; [by intros (? & [=] & _)|intros Hn; by destruct Hn].
  - intros l now t db db' _ _ (r' & n & v & Hr' & _ & Hnew & _). split; [intros (r & Hr & Ha)|by rewrite Hnew].
    exists (expired_row r'). split; [done|]. cbn. congruence.
  - intros l code message db. unfold keeps, applied_mode, with_routing. cbn. destruct (d_routing db) as [r|]; [|done].
    split; [|done]. intros (r0 & [= <-] & Ha). by exists (set_outcome "failed" code message r).
Qed.

Lemma settles_keeps n apply_id db db' : settles n apply_id db db' -> keeps db db'.
Proof. by intros (_ & _ & _ & _ & _ & ->). Qed.

(** A part of a handler that makes only allowed changes. *)
Definition quiet_part {A} (m : P A) : Prop := moves (proceeds (fun _ => keeps) []) m.

Lemma quiet_run {A} (m : P A) s o s' : quiet_part m -> m s = (o, s') -> evolves keeps s s'.
Proof. intros Hm E. apply (moves_run _ _ _ _ _ Hm E). apply suffix_nil. Qed.

Ltac quiet := unfold quiet_part; frame.

Lemma alone_turns (s s' : session request) : evolves keeps s s' -> x_turns s = [] -> x_turns s' = [].
Proof. intros (used & Hu & _) Ht. rewrite Ht in Hu. symmetry in Hu. by apply app_eq_nil in Hu as [_ ->]. Qed.

Lemma alone_applied (s s' : session request) : evolves keeps s s' -> x_turns s = [] -> applied_mode (x_db s) -> applied_mode (x_db s').
Proof.
  intros He Ht. eapply evolves_invariant; [exact He|by intros db db' [Hk _]|]. rewrite Ht. intros t Hin. by apply elem_of_nil in Hin.
Qed.

(** What reports success has the mode applied. *)
Definition reports_applied (x : P dict) : Prop := forall s r s', x_turns s = [] -> x s = (Some r, s') -> dget "ok" r = VBool true -> applied_mode (x_db s').

Lemma reports_bind {A} (x : P A) (k : A -> P dict) : quiet_part x -> (forall a, reports_applied (k a)) -> reports_applied (x ≫= k).
Proof.
  intros Hx Hk s r s' Ht E Hok. apply bind_inv in E as (a & s1 & E1 & E). eapply Hk; [|exact E|exact Hok].
  eapply alone_turns; [|exact Ht]. by eapply quiet_run.
Qed.

Lemma reports_failure m stage code message apply_id : reports_applied (_build_failure_result m stage code message apply_id).
Proof. intros s r s' _ E Hok. apply base_ok in E as (Hf & _ & _). congruence. Qed.

Lemma reports_persisted m stage code message apply_id : reports_applied (fail_persisted recursion_limit m stage code message apply_id).
Proof.
  intros s r s' _ E Hok. unfold fail_persisted in E. apply bind_inv in E as (d & s1 & E1 & E). apply bind_inv in E as (u & s2 & _ & E).
  injection E as <- _. apply base_ok in E1 as (Hf & _ & _). congruence.
Qed.

(** Once the mode is applied, what is left keeps it. *)
Lemma reports_kept (x : P dict) s r s' : quiet_part x -> x_turns s = [] ->
  applied_mode (x_db s) -> x s = (Some r, s') -> applied_mode (x_db s').
Proof. intros Hx Ht Ha E. eapply alone_applied; [by eapply quiet_run|done|done]. Qed.

Lemma write_applied by_ previous db u db' : write_mode mode by_ previous db = (Some u, db') -> d_routing db <> None -> applied_mode db'.
Proof.
  unfold write_mode. intros E Hr. apply bind_inv in E as (k & db1 & E1 & E). apply update_cases in E1 as ->.
  apply audit_cases in E as [audits ->]. destruct (d_routing db) as [r|] eqn:Er; [|done]. exists (set_mode mode r). by split.
Qed.

Lemma bound_applied by_ b db db' : commit_bound_mode mode by_ b db = (Some true, db') -> d_routing db <> None -> applied_mode db'.
Proof.
  unfold commit_bound_mode. intros E Hr. apply bind_inv in E as (current & db1 & E1 & E). apply snapshot_current in E1 as [-> _].
  destruct current; cbn [negb] in E; [|done]. rewrite bind_unfold in E. cbn [st_get] in E.
  destruct (owns_apply _ _ db); cbn [negb] in E; [|done]. apply bind_inv in E as (u & db2 & E2 & E). injection E as <-.
  by eapply write_applied.
Qed.

Lemma ensured_row fuel s r s' : x_turns s = [] -> ensure_routing_global_state fuel s = (Some r, s') ->
  d_routing (x_db s') <> None /\ x_turns s' = [].
Proof.
  intros Ht E. split; [|eapply alone_turns; [|exact Ht]; eapply quiet_run; [|exact E]; by apply goes_ensure, _].
  unfold ensure_routing_global_state in E. apply bind_inv in E as (u & s1 & E1 & E). apply bind_inv in E as (state & s2 & E2 & E).
  injection E as _ <-. destruct s as [db ts l]. cbn in Ht. subst ts. rewrite transaction_alone in E1. cbn [st_modify] in E1. injection E1 as _ <-.
  apply (quiet_run _ _ _ _ (goes_routing [] (fun _ => keeps) fuel true)) in E2.
  eapply (evolves_invariant _ (fun db => d_routing db <> None)); [exact E2|by intros d d' [_ Hk]| |].
  - intros t Hin. by apply elem_of_nil in Hin.
  - cbn. unfold insert_routing. by destruct (d_routing db) eqn:Er; cbn; rewrite ?Er.
Qed.

Lemma commit_applied by_ b s d s' : x_turns s = [] -> _commit_global_mode recursion_limit mode by_ b s = (Some (inl d), s') ->
  applied_mode (x_db s') /\ x_turns s' = [].
Proof.
  intros Ht E. unfold _commit_global_mode in E. apply bind_inv in E as (ensured & s1 & E1 & E).
  apply ensured_row in E1 as [Hrow Ht1]; [|done]. destruct ensured as [row|e]; [|injection E as Hd _; discriminate Hd].
  apply bind_inv in E as (committed & s2 & E2 & E). destruct committed; [|injection E as Hd _; discriminate Hd].
  assert (Hc : applied_mode (x_db s2) /\ x_turns s2 = []).
  { destruct s1 as [db ts l]. cbn in Ht1, Hrow. subst ts. destruct b as [b|].
    - rewrite transaction_alone in E2. destruct (commit_bound_mode mode by_ b db) as [[x|] db'] eqn:Eb; [|done].
      injection E2 as -> <-. split; [|done]. by eapply bound_applied.
    - rewrite bind_unfold, read_alone, bind_unfold, transaction_alone in E2.
      destruct (write_mode mode by_ _ db) as [[x|] db'] eqn:Eb; [|done]. injection E2 as <-. split; [|done]. by eapply write_applied. }
  destruct Hc as [Ha Ht2].
  apply (quiet_run _ _ _ _ (goes_routing_or_ensured [] (fun _ => keeps))) in E. split; [by eapply alone_applied|by eapply alone_turns].
Qed.

Lemma reports_commit m payload c context result affected subjects :
  reports_applied (commit_mode recursion_limit m mode payload c context result affected subjects).
Proof.
  unfold commit_mode. apply reports_bind; [quiet|intros _].
  apply reports_bind; [quiet|intros moved]. destruct moved; [apply reports_failure|].
  intros s r s' Ht E Hok. apply bind_inv in E as (committed & s1 & E1 & E). destruct committed as [d|e]; [|apply base_ok in E as (Hf & _ & _); congruence].
  apply commit_applied in E1 as [Ha Ht1]; [|done].
  eapply (reports_kept (finish_mode m c context result affected subjects d) s1); [|exact Ht1|exact Ha|exact E].
  apply moves_knowing, knows_finish; [apply _..|]. intros n l db db' _ _. apply settles_keeps.
Qed.

(** The snapshot of the routing row, when nobody else acts. *)
Lemma snapshot_alone fuel : forall s row s', x_turns s = [] -> get_routing_global_state fuel true s = (Some (inl row), s') ->
  d_routing (x_db s') = row /\ x_turns s' = [].
Proof.
  induction fuel as [|fuel IH]; intros s row s' Ht E; cbn [get_routing_global_state] in E; [injection E as Hd _; discriminate Hd|].
  apply bind_inv in E as (r & s1 & E1 & E). destruct s as [db ts l]. cbn in Ht. subst ts. rewrite read_alone in E1. injection E1 as <- <-.
  destruct (d_routing db) as [r|] eqn:Er; [|by injection E as <- <-].
  destruct (_ && _); [|by injection E as <- <-]. apply bind_inv in E as (now & s2 & E2 & E). injection E2 as <- <-.
  apply bind_inv in E as (expired & s3 & E3 & E). cbn [x_db x_turns x_asked] in E3. rewrite read_alone in E3. injection E3 as _ <-.
  destruct expired; [|by injection E as <- <-]. apply bind_inv in E as (cleared & s4 & E4 & E).
  destruct cleared as [b|e]; [|injection E as Hd _; discriminate Hd]. eapply IH; [|exact E].
  apply (quiet_run _ _ _ _ (goes_clear [] (fun _ => keeps) r)) in E4. by eapply alone_turns.
Qed.

Lemma correct_applied c row drift artifact_drift : mode ∈ ["direct"; "selective"; "vpn"] ->
  mode_is_correct mode c (match row with Some r => routing_dict r | None => DEFAULT_ROUTING end) drift artifact_drift = true ->
  exists r, row = Some r /\ r_applied_mode r = Some mode.
Proof.
  intros Hin. unfold mode_is_correct. rewrite !andb_true_iff. intros [[[[Ha _] _] _] _]. apply String.eqb_eq in Ha.
  assert (Hnone : mode <> "None") by (rewrite !elem_of_cons, elem_of_nil in Hin; by destruct Hin as [->|[->|[->|[]]]]).
  destruct row as [r|]; [|by cbn in Ha; subst]. exists r. split; [done|]. change (dget "applied_mode" (routing_dict r)) with (vopt (r_applied_mode r)) in Ha.
  destruct (r_applied_mode r) as [a|]; cbn in Ha; [by f_equal|congruence].
Qed.

Lemma reports_unready m message reconciled k : reports_applied k -> reports_applied (unless_unready recursion_limit m message reconciled k).
Proof.
  intros Hk. unfold unless_unready. apply reports_bind; [quiet|]. intros ok. destruct (truthy ok); [exact Hk|apply reports_persisted].
Qed.

Lemma reports_valid m future k : reports_applied k -> reports_applied (validate_then recursion_limit m mode future k).
Proof.
  intros Hk. unfold validate_then. apply reports_bind; [quiet|]. intros validation.
  apply reports_bind; [quiet|]. intros ok. destruct (truthy ok); [exact Hk|].
  do 3 (apply reports_bind; [quiet|intros ?]). apply reports_persisted.
Qed.

Lemma reports_fail_apply m fallback result : reports_applied (fail_apply recursion_limit m fallback result).
Proof.
  unfold fail_apply. apply reports_bind; [|intros [[[? ?] ?] ?]; apply reports_persisted].
  unfold pipeline_failure, dict_item. quiet.
Qed.

Lemma reports_plan m payload c context routing drift artifact_drift :
  reports_applied
    (_ ← log_drifts m drift artifact_drift;
     let future := planned ([("desired_mode", VStr mode)] ++ cleared_errors) routing in
     validate_then recursion_limit m mode future
       (_ ← touch_job_running m;
        reconciled ← (if String.eqb mode "direct"
                      then mret [("ok", VBool true); ("skipped", VBool true);
                                 ("reason", VStr "global_direct_does_not_change_mihomo_config")]
                      else prepare_vpn_runtime m (readiness_routing mode routing future) future);
        unless_unready recursion_limit m "Failed to reconcile Mihomo runtime before global mode apply." reconciled
          ('(affected, subjects, apply_result) ← apply_mode m mode routing future drift (co_revision c);
           ok ← item "ok" apply_result;
           if truthy ok then commit_mode recursion_limit m mode payload c context apply_result affected subjects
           else fail_apply recursion_limit m "GLOBAL_MODE_APPLY_FAILED" apply_result))).
Proof.
  apply reports_bind; [quiet|intros _]. cbv zeta. apply reports_valid.
  apply reports_bind; [quiet|intros _].
  apply reports_bind; [quiet|intros reconciled]. apply reports_unready.
  apply reports_bind; [quiet|intros [[affected subjects] result]].
  apply reports_bind; [quiet|intros ok]. destruct (truthy ok); [apply reports_commit|apply reports_fail_apply].
Qed.

Lemma reports_drive m payload c context : mode ∈ ["direct"; "selective"; "vpn"] -> reports_applied (drive_mode recursion_limit m mode payload c context).
Proof.
  intros Hin s r s' Ht E Hok. unfold drive_mode in E. apply bind_inv in E as (routing & s1 & E1 & E).
  unfold get_routing_snapshot, or_raise in E1. apply bind_inv in E1 as (state & s0 & E0 & E1). apply bind_inv in E0 as (got & s9 & Eg & E0).
  rewrite st_py_eq in E0. destruct got as [row|e]; [|done]. injection E0 as <- <-. injection E1 as <- <-.
  apply snapshot_alone in Eg as [Hrow Ht1]; [|done]. set (routing := match row with Some r => routing_dict r | None => DEFAULT_ROUTING end) in *.
  apply bind_inv in E as (drift & s2 & E2 & E). apply bind_inv in E as (artifact & s3 & E3 & E).
  apply (quiet_run _ _ _ _ (goes_routing_drift [] (fun _ => keeps) routing)) in E2 as G2.
  apply (quiet_run _ _ _ _ (goes_manifest_drift [] (fun _ => keeps) routing)) in E3 as G3.
  assert (Ht2 : x_turns s2 = []) by by eapply alone_turns. assert (Ht3 : x_turns s3 = []) by by eapply alone_turns.
  destruct (mode_is_correct mode c routing drift artifact) eqn:Ec.
  - apply correct_applied in Ec as (r0 & -> & Ha); [|done].
    assert (Happ : applied_mode (x_db s9)) by by exists r0.
    eapply (reports_kept (unchanged_result m routing) s3); [quiet|exact Ht3| |exact E].
    eapply alone_applied; [exact G3|exact Ht2|]. by eapply alone_applied.
  - eapply reports_plan; [exact Ht3|exact E|exact Hok].
Qed.

(** A refusal never reports success. *)
Definition refuses {A} (x : P (dict + A)) : Prop := forall s d s', x s = (Some (inl d), s') -> dget "ok" d = VBool false.

Lemma refusal_false {A} m stage code message : refuses (refusal (A := A) m stage code message).
Proof.
  intros s d s' E. unfold refusal in E. apply bind_inv in E as (r & s1 & E1 & E). injection E as <- _. by apply base_ok in E1 as (Hok & _ & _).
Qed.

Lemma refuses_bind {A B} (x : P A) (k : A -> P (dict + B)) : (forall a, refuses (k a)) -> refuses (x ≫= k).
Proof. intros Hk s d s' E. apply bind_inv in E as (a & s1 & _ & E). by eapply Hk. Qed.

Lemma refuses_ret {A} (a : A) : refuses (mret (inr a)).
Proof. intros s d s' E. injection E as Hd _. discriminate Hd. Qed.

(** Walk through a fence. *)
Ltac fence :=
  repeat first
    [ apply refusal_false
    | apply refuses_ret
    | match goal with |- refuses (mbind _ _) => apply refuses_bind; intros ? end
    | match goal with |- refuses (if ?b then _ else _) => destruct b eqn:? end
    | match goal with |- refuses (match ?b with _ => _ end) => destruct b eqn:? end
    | progress cbv zeta ].

Lemma reports_unless {A} (x : P (dict + A)) (k : A -> P dict) : quiet_part x -> refuses x -> (forall a, reports_applied (k a)) ->
  reports_applied (unless_refused x k).
Proof.
  intros Hx Hr Hk s r s' Ht E Hok. unfold unless_refused in E. apply bind_inv in E as (res & s1 & E1 & E).
  destruct res as [d|a].
  - injection E as <- <-. apply Hr in E1. congruence.
  - eapply Hk; [|exact E|exact Hok]. eapply alone_turns; [|exact Ht]. by eapply quiet_run.
Qed.

Lemma refuses_workflow m payload : refuses (workflow_fence m mode payload).
Proof. unfold workflow_fence. fence. Qed.

Lemma refuses_core m payload : refuses (core_fence m payload).
Proof.
  unfold core_fence. destruct (negb (optional_int _)); [apply refusal_false|]. destruct (negb (optional_snapshot _)); [apply refusal_false|].
  apply refuses_bind. intros module s d s' E. apply bind_inv in E as (staged & s1 & E1 & E). destruct staged as [refused|c].
  - injection E as <- _. destruct module as [snapshot|]; [|injection E1 as Hd _; discriminate Hd].
    enough (Hr : refuses (core_stage m payload snapshot)) by by eapply Hr. unfold core_stage. fence.
  - revert E. apply refuses_bind. intros moved. destruct moved; [apply refusal_false|apply refuses_ret].
Qed.

Lemma refuses_context m c : refuses (context_fence m c).
Proof. unfold context_fence. fence. Qed.

(** C7: what is reported is what is in force.  When nobody else acts, a run
    that sets the global mode and reports success leaves a routing row whose
    applied mode is the requested one, on every path: found correct, applied
    through a compiled profile or from the current subjects, with a Core
    module, with one that is being enabled, or without. *)
Theorem reported_mode_is_applied m payload s r s' : mode = py_lower (py_strip (str_or "" (dget "mode" payload))) -> x_turns s = [] ->
  _execute_set_global_mode recursion_limit m payload s = (Some r, s') -> dget "ok" r = VBool true -> applied_mode (x_db s').
Proof.
  intros Hmode. revert s r s'. fold (reports_applied (_execute_set_global_mode recursion_limit m payload)).
  unfold _execute_set_global_mode, with_writer. rewrite <- Hmode.
  apply reports_bind; [quiet|]. intros acquired. destruct acquired; [|by intros s r s' _ [=]].
  destruct (negb (bool_decide _)) eqn:Ein; [apply reports_failure|]. apply negb_false_iff, bool_decide_eq_true in Ein.
  apply reports_unless; [quiet|apply refuses_workflow|intros _].
  apply reports_unless; [quiet|apply refuses_core|intros c].
  apply reports_unless; [quiet|apply refuses_context|intros context]. by apply reports_drive.
Qed.
End Handler.

(** ** A sample *)

#[local] Instance any_repr : ReprContainer := fun _ => "...".

(** The runtime is ready, the pipeline applies, and there is no profile. *)
Definition answer_call (l : list request) : option pyval :=
  match l with
  | Call name arguments :: _ =>
      if String.eqb name "build_runtime_enforcement_state"
      then Some (VDict [("enforcement_level", VStr "global_direct_enforced"); ("traffic_enforcement_guaranteed", VBool true)])
      else if String.eqb name "run_apply_pipeline"
      then Some (VDict [("ok", VBool true); ("apply_id", VStr "apply-2"); ("dataplane", VDict [])])
      else if String.eqb name "load_precompiled_global_mode_profile" then Some VNone
      else if String.eqb name "read_applied_manifest" then Some VNone
      else if String.eqb name "emergency_override" then Some (VBool false)
      else if String.eqb name "_load_subjects_with_overrides" then Some (VList [])
      else if String.eqb name "validate_global_mode_request" then Some (VDict [("ok", VBool true)])
      else if String.eqb name "get_dataplane_capability" then Some (VStr "nft_owned_table")
      else Some (VDict [])
  | _ => None
  end.

#[local] Instance ready_services : PendingOutside := {|
  clock := fun _ => noon;
  writer_acquired := fun _ => true;
  owner_job := fun _ => Some None;
  workflow_resumed := fun _ => inl [];
  bindings_state := fun _ => Some [];
  active_config_readable := fun _ => Some false;
  bindings_verified := fun _ => Some [];
  client_modes_verified := fun _ => Some [];
  xray_module := fun _ => Some None;
  subscription_state := fun _ => Some None;
  subscription_reconciled := fun _ => inl [];
  mihomo_reconciled := fun _ => inl None;
  nodes_promoted := fun _ => inl VNone;
  job_created := fun _ => CreateRaised;
  job_started := fun _ => Some None;
  sql_now := fun _ => "2024-02-29 10:00:00";
  auto_applied := fun _ => Some [];
  expiry_logged := fun _ => Some tt;
  called := answer_call;
  json_sha256 := fun _ => "digest";
|}.

Definition core_db (settings : gmap string cell) : fence_db :=
  FenceDb (PoolDb [a_server "s1"; a_server "s2"] [] [] [] [] [] [] [] settings) (Some fixed_routing) (Some ("enabled", "managed", "clean"))
    [ApplyRow "apply-1" "applied" (Some 6); ApplyRow "apply-2" "applied" (Some 7)] [].

Definition settled_db : fence_db :=
  core_db {[ CORE_INTENT_REVISION_KEY := CJson (VInt 7); SELECTION_REVISION_KEY := CJson (VInt 4) ]}.

Definition to_direct : mutation := Mutation INTENT_SET_GLOBAL_MODE "job-1" "api".

Definition direct_payload : dict := [("mode", VStr " Direct ")].

(** The workflow that fixes s1, not yet at its Core stage. *)
Definition fixed_row : dict :=
  [("revision", VInt 3); ("pending", VBool true); ("status", VStr "running");
   ("workflow", VDict [("kind", VStr "global_fixed_server"); ("phase", VStr "reserved")])].

Definition owned_db : fence_db := saved fixed_row settled_db.

Lemma mode_is_committed_for_its_intent_witness :
  let s := Selector settled_db [quiet] [] in
  let s' := (_execute_set_global_mode 9 to_direct direct_payload s).2 in
  with_module s /\ option_map r_applied_mode (d_routing (x_db s')) = Some (Some "direct") /\
  exists n snapshot s1 s2, intent_read s s1 s2 n snapshot /\
     evolves (mode_change "direct" n snapshot (x_asked s) (x_asked s')) s2 s'.
Proof.
  intros s s'. assert (Hq : forall t, t ∈ x_turns s -> t = quiet) by (intros t Ht; by apply list_elem_of_singleton in Ht).
  assert (Hs : with_module s) by (split; [done|]; intros t Ht db Hdb; by rewrite (Hq t Ht)).
  assert (Ha : option_map r_applied_mode (d_routing (x_db s')) = Some (Some "direct")) by by vm_compute.
  split; [exact Hs|]. split; [exact Ha|].
  destruct (mode_is_committed_for_its_intent 9 "direct" to_direct direct_payload s Hs eq_refl) as [Hn|Hc]; [|exact Hc].
  exfalso. assert (Hk : x_db s' = settled_db).
  { apply (evolves_invariant none (fun db => db = settled_db) s s' Hn); [by intros ? ? []| |reflexivity].
    intros t Ht db ->. by rewrite (Hq t Ht). }
  rewrite Hk in Ha. discriminate Ha.
Defined.

Lemma reported_mode_is_applied_witness : exists r s',
  _execute_set_global_mode 9 to_direct direct_payload (Selector settled_db [] []) = (Some r, s') /\ dget "ok" r = VBool true /\
  applied_mode "direct" (x_db s').
Proof.
  assert (E : exists r s', _execute_set_global_mode 9 to_direct direct_payload (Selector settled_db [] []) = (Some r, s') /\
    dget "ok" r = VBool true) by (eexists _, _; split; vm_compute; reflexivity).
  destruct E as (r & s' & E & Hok). exists r, s'. split; [exact E|]. split; [exact Hok|].
  exact (reported_mode_is_applied 9 "direct" to_direct direct_payload (Selector settled_db [] []) r s' eq_refl eq_refl E Hok).
Defined.

Lemma pending_workflow_owns_routing_witness : exists r s,
  _execute_set_global_mode 9 to_direct direct_payload (Selector owned_db [] []) = (Some r, s) /\
  dget "ok" r = VBool false /\ dget "code" r = VStr "FIXED_WORKFLOW_PENDING" /\ x_db s = owned_db.
Proof.
  assert (E : exists r s, _execute_set_global_mode 9 to_direct direct_payload (Selector owned_db [] []) = (Some r, s))
    by (eexists _, _; vm_compute; reflexivity).
  destruct E as (r & s & E). exists r, s. split; [exact E|]. assert (Hrow : exists row, _load_row owned_db = Some row /\
    owned_by_fixed_workflow row = true /\ owns_fixed_core_stage "direct" direct_payload (default [] (as_dict (dget "workflow" row)))
      (option_map r_desired_mode (d_routing owned_db)) = false) by (eexists; split; [vm_compute; reflexivity|by vm_compute]).
  destruct Hrow as (row & Hrow & Howned & Hnot).
  apply (pending_workflow_owns_routing 9 "direct" to_direct direct_payload owned_db [] row r s eq_refl); [set_solver|exact Hrow|exact Howned|exact Hnot|exact E].
Defined.
